(* ===== verification/_CoqProject ===== *)
-Q . S2P
Prelude.v
Mem.v
KString.v
LibcString.v
LibcStdlib.v
Bits.v
BuddyTree.v
BuddyPool.v
KAlloc.v
LibcMemory.v
KStdio.v
LibcPrintf.v
Trie.v
Objects.v
BlockLayer.v
Cache.v
FsLayout.v
FsState.v
FsAlloc.v
FsInode.v
FsMkfs.v
FsProps.v
FsDir.v
FsDirProps.v
FsFile.v
ListNode.v
Kernel.v
Sched.v
SchedProps.v
Smp.v
SchedTheorems.v
Screen.v
ScreenTheorems.v
ConsoleProps.v
Locks.v
LocksProps.v
LocksTheorems.v
Process.v
ProcessTheorems.v
Page.v
PageProps.v
PageOps.v
PageFrames.v
PageSteps.v
PageSys.v
PageTheorems.v
E1000.v
E1000Props.v
Plic.v
Net.v
NetTheorems.v
Image.v
ImageTheorems.v
Exec.v
ExecTheorems.v
Syscall.v
SyscallTheorems.v
Riscv.v
TrapEntry.v
TrapEntryTheorems.v
SwitchTheorems.v
LibraryCall.v
Boot.v
BootTheorems.v
Params.v
Main.v
MainSteps.v
MainTheorems.v
