(* ===== verification/Prelude.v ===== *)
(** * A verification of the UCAS operating system kernel and its run-time library

    This library translates the kernel under src/src, the user-space library
    under src/tiny_libc and the image builder under src/tools into Rocq
    functions, and proves what makes them correct.  Paths below are relative to
    the repository (src/ for the kernel, tiny_libc/, tools/).  Every definition
    follows one function, method or statement group of the source and keeps its
    name; a comment names the file.

    ** The program

    The host tool createimage.c packs boot block, kernel and programs into one
    image.  The boot block loads the kernel ([bootblock]), boot_kernel turns on
    paging and jumps to it.  The kernel finds the task table in it ([init_task_info]), and
    [sys_exec] loads a program into the page tables of a new process.  A program
    reaches the kernel through a trap: trap_entry.S saves its registers and
    [trap_handler] runs [handle_syscall], the
    clock, the card's interrupt, or a page fault.  System calls work on threads
    and processes, which the scheduler switches; on locks, barriers, conditions
    and mailboxes, which are reference-counted objects found through tries; on
    page tables; on the screen; on the network card's rings; and on a file
    system over a block cache over the SD card.  Memory of all of it comes from a
    buddy allocator.

    ** How code is translated

    - A function that can fail an assertion, touch memory outside the objects of
      the model, or loop, returns an [outcome]: [Ok], [Panic] ([_panic] of
      assert.h), [Fault] or [OutOfFuel].  The file system adds its state in a
      monad ([M], FsState.v); code that may give up the CPU returns a [kres]
      (Kernel.v) whose [Switched] case holds the rest of the function.
    - Integers are [Z] with the wrap-around of their type written out ([u64],
      [u32], [s32] and the like below), except loop counters and indices that
      stay small, which are [nat].
    - C memory is a map from addresses to bytes (Mem.v) where the code computes
      with pointers; arrays of structures are lists or byte blocks with their
      layout (FsLayout.v, Image.v); kernel objects are records in maps by
      address (Kernel.v, Objects.v, Page.v).
    - Kernel code of one CPU runs without interrupts up to its next context
      switch (but for the idle loop and the loop of sys_getchar).  With two CPUs (Smp.v) the two sides of the places where the code
      lets go of a lock in the middle of what it does are separate steps: choosing
      the next thread and switching to it ([pick_next], [switch_to]), testing a
      mutex and storing its owner ([acquire_check], [take_ownership]).  The
      theorems on the scheduler and on mutexes hold for every run of one CPU and
      for runs of several in which these sequences do not overlap, and
      [overlapping_passes_share_a_thread] and [overlapping_acquires_both_enter]
      show what happens when they do.  Other functions are one step up to their
      next switch.  Spin locks are part of the state where the code can return
      with one held ([self_kill_abandons], [mutex_misuse]).
    - Assembly is a list of instructions of a small RISC-V machine (Riscv.v),
      instruction for instruction, with the constants of the source in their
      places; the C++ functions it calls are hypotheses about what a call does.

    ** Files

    - Prelude.v (this file), Mem.v: outcomes, machine integers, byte memory.
    - KString.v, LibcString.v, LibcStdlib.v: string.c; tiny_libc/string.c, atoi.c,
      itoa.c, rand.c, mailbox.c, ctype.h.
    - Bits.v, BuddyTree.v, BuddyPool.v, KAlloc.v, LibcMemory.v: kalloc.cpp and
      tiny_libc/memory.c.  BuddyTree.v is the specification: a binary tree of
      blocks; BuddyPool.v shows that the array implements it, LibcMemory.v that
      memory.c simulates BuddyPool.v.
    - KStdio.v, LibcPrintf.v: kstdio.c, tiny_libc/printf.c, against a reference
      semantics of formats ([render]).
    - Trie.v, Objects.v: container.hpp, container.cpp, and the registration of
      objects in process.hpp.  A trie refines a finite map.
    - BlockLayer.v, Cache.v: fs/io.cpp.  [BlockLayer] is the interface the file
      system is proved against; [cache_block_layer] is io.cpp's instance, over a
      card of class [SDCard].
    - FsLayout.v, FsState.v, FsAlloc.v, FsInode.v, FsMkfs.v, FsDir.v, FsFile.v:
      fs/fs.hpp, fs/fs.cpp, fs/file.cpp; FsProps.v and FsDirProps.v the theorems.
    - ListNode.v: the std::list nodes of common.cpp.
    - Kernel.v, Sched.v, Locks.v, Process.v: thread.hpp, process.hpp, CPU.hpp,
      schedule.cpp, time.cpp, locks.cpp, thread.cpp, process.cpp; Smp.v the steps
      of several CPUs; SchedProps.v, SchedTheorems.v, LocksProps.v, LocksTheorems.v, ProcessTheorems.v the
      invariants and theorems.
    - Screen.v, ScreenTheorems.v, ConsoleProps.v: drivers/screen.cpp, against a
      VT100 terminal.
    - Page.v: page.hpp, page.cpp; PageProps.v, PageOps.v, PageFrames.v,
      PageSteps.v, PageSys.v the invariant of all page tables and its
      preservation, PageTheorems.v the theorems.
    - E1000.v, E1000Props.v, Plic.v, Net.v, NetTheorems.v: drivers/e1000.cpp and
      e1000.h, drivers/plic.c, net.cpp.
    - Image.v, ImageTheorems.v: tools/createimage.c and the table of
      task_loader.cpp.  Exec.v, ExecTheorems.v: load_task_img and sys_exec.
    - Syscall.v, SyscallTheorems.v: trap.cpp, syscall.cpp and the numbers of
      tiny_libc/include/syscall.h.
    - Riscv.v: the instructions, registers and traps that the assembly uses.
      TrapEntry.v: arch/trap_entry.S, the stubs of tiny_libc/syscall.S and the
      first run of a thread (thread.cpp).  TrapEntryTheorems.v: a trap from entry
      to return; SwitchTheorems.v: the switch of contexts; LibraryCall.v: a
      library function's system call from the stub into the kernel and back.
    - Boot.v, BootTheorems.v: bootloader/bootblock.S, arch/start.S, arch/head.S,
      boot_kernel and enable_vm of page.cpp, init_timer of time.cpp.
    - Params.v: sysparams.cpp.
    - Main.v, MainSteps.v, MainTheorems.v: main.cpp, which puts the states of the
      other files together ([machine]) and runs their operations in its order.

    ** What the theorems show

    - Booting: on a card with createimage's image the boot block and boot_kernel
      bring hart 0 to the kernel's entry, under a page table that shows the kernel
      at both its addresses and nothing of it to programs ([image_boots]); main0
      then initialises everything and starts the shell ([main_starts_shell]).
    - Starting a program: createimage's image reads back ([image_reads_back]);
      after sys_exec the program's bytes and arguments are what the new process
      sees, the thread is ready at the entry point, and no other process's memory
      changed ([program_reaches_process]).
    - Memory protection: whatever steps are taken, short of a fault above 2^38,
      two user addresses lead to one frame only for a shared page, and no page
      table is accessible to a program ([page_isolation]); a page fault maps one
      fresh page ([fault_maps_one_page]); what shared pages and device mappings
      do; the step left out, which sys_brk makes possible, breaks isolation
      ([brk_breaks_isolation]).
    - Allocation: blocks are disjoint, inside the pool, found whenever there is
      room ([alloc_sound_and_complete], [free_returns_block], [kalloc_fresh]), and
      user-space malloc up to its missing test.
    - Scheduling: every state reached by passes of the scheduler that do not
      overlap keeps the invariant between threads, CPUs and the ready queue
      ([scheduler_invariant]); a ready thread is run after those ahead of it
      ([round_robin]).  A process that is killed or whose last thread exits gives
      up its objects and its children ([kill_ends_process],
      [last_exit_ends_process]); one that kills itself is left half-way
      ([self_kill_abandons]).
    - Synchronisation: mutual exclusion while acquires do not overlap
      ([mutex_exclusion]), barrier rounds, signals that wake a waiter, mailboxes as
      byte queues while nobody waits ([mailbox_fifo]), and what misuse does.
    - Files: the cache is transparent and keeps a slot in place long enough
      ([block_lookup_transparent]); inode and file writes are array updates
      within the first 32 KiB of a file ([inode_write_refines],
      [file_write_refines], [write_seek_read]; what happens beyond is
      [indirect_ignores_buffer]); touch, rm and mkfs by their effect on directories
      and bitmaps, for files without indirect blocks.
    - Devices: packets of at most 2048 bytes keep order and contents, up to the
      padding the card does, through the rings for every interleaving with the
      card ([network_fifo]), a sender at a full ring is
      resumed, a flush makes the terminal show the buffer ([flush_shows_screen]).
    - Traps: trap_entry.S saves and restores every register around the handler
      ([trap_round_trip]), so an interrupt is invisible to kernel code but for
      tp, the pointer to its CPU ([interrupt_invisible]); a library function's call passes its arguments and
      returns the kernel's result, every other register unchanged
      ([library_call_returns]); a switch resumes the other thread where it left
      and a new thread starts at its entry point in user mode
      ([switch_round_trip], [new_thread_starts]); the kernel's and the library's
      numbers agree and lead to the functions of their names
      ([syscall_numbers_agree]).
    - Theorems whose names speak of a failure ([..._faults], [..._leaks],
      [..._abandons], [..._misuse], [..._stuck]) state exactly when code of the
      repository does not do what it means to.

    ** Fuel and bounds

    Loops over data of known size recurse on it.  Where a loop follows memory or
    an index, fuel is an argument and the theorem says which amount is enough:
    the length of the string plus one (strings, formats), the height of the tree
    (heap, page tables: 3 levels), 64 bits of a key plus one (trie), the
    length of the ready queue ([scan_fuel]), 5 mutual calls of exit and kill
    ([exit_fuel]), the number of nodes (lists), the number of bytes left plus
    one (files, since every round moves at least one byte).  Waiting loops
    (sys_getchar, the card's reset) have a theorem with fuel given by when the
    awaited event happens.

    ** Assumptions

    The firmware's SD card ([SDCard]), console ([Uart]) and keys, the page
    allocator seen by page.cpp ([page_source], implemented by KAlloc.v), what
    operator new returns ([fresh]), the card's side of the rings ([dev_step]), the
    interrupt controller's claim register, Sv39 translation and the RISC-V
    instructions are parameters or written down from their documentation; each has
    an instance on which the theorems are evaluated.  Where assembly calls compiled
    code, the calling convention (callee-saved registers and the stack pointer are
    kept) and what the function does to the thread are hypotheses.

    ** Not modelled

    - tiny_libc/crt0; the linker script; the CSR and MMIO macros (arch/CSR.h,
      io.h).  In the C++ code a context switch appears as a [Switched] result and
      the registers saved by a trap as [user_context]; the assembly theorems give
      both their meaning.
    - arch/bios_func.c only calls the firmware; assert.h's _panic prints and stops, the
      [Panic] outcome.
    - The printing of tables and registers: print_processes, print_threads,
      fs_statfs, handle_other.
    - tiny_libc/pthread.c and time.c are one system call each; headers with
      types and macros only.
    - test/: the test programs and the shell.
*)

From Stdlib Require Import ZArith Lia List.
From stdpp Require Import base numbers list gmap.

(** * Outcomes of kernel code

    A C function of this repository returns a value, stops the machine in
    [_panic] (an [assert] fired), or performs an access outside the objects the
    model gives it.  Loops whose number of iterations is not fixed by their
    arguments carry fuel; running out of it is a separate outcome, so that no
    theorem can confuse it with a returned value. *)

Inductive outcome (A : Type) : Type :=
| Ok (a : A)
| Panic
| Fault
| OutOfFuel.
Arguments Ok {A} a.
Arguments Panic {A}.
Arguments Fault {A}.
Arguments OutOfFuel {A}.

Definition obind {A B} (c : outcome A) (k : A -> outcome B) : outcome B :=
  match c with
  | Ok a => k a
  | Panic => Panic
  | Fault => Fault
  | OutOfFuel => OutOfFuel
  end.

Declare Scope outcome_scope.
Delimit Scope outcome_scope with outcome.
Notation "x <- c ;; k" := (obind c (fun x => k))
  (at level 20, c at level 99, k at level 200) : outcome_scope.
Notation "' p <- c ;; k" := (obind c (fun x => match x with p => k end))
  (at level 20, p pattern, c at level 99, k at level 200) : outcome_scope.
Notation "c1 ;; k" := (obind c1 (fun _ => k))
  (at level 100, k at level 200, right associativity) : outcome_scope.
Open Scope outcome_scope.

(** [assert(cond)] of src/assert.h: the failing branch never returns. *)
Definition assert_ (cond : bool) : outcome unit := if cond then Ok tt else Panic.

(** An access that must stay inside its object. *)
Definition or_fault {A} (o : option A) : outcome A :=
  match o with Some a => Ok a | None => Fault end.

Definition is_ok {A} (c : outcome A) : bool :=
  match c with Ok _ => true | _ => false end.

#[export] Instance outcome_eq_dec {A} `{EqDecision A} : EqDecision (outcome A).
Proof. solve_decision. Defined.

Lemma Ok_inj {A} (a b : A) : Ok a = Ok b -> a = b.
Proof. congruence. Qed.

Lemma obind_Ok_inv {A B} (c : outcome A) (k : A -> outcome B) b :
  obind c k = Ok b -> exists a, c = Ok a /\ k a = Ok b.
Proof. destruct c; simpl; intros; try discriminate. eauto. Qed.

Lemma or_fault_Ok {A} (o : option A) a : or_fault o = Ok a <-> o = Some a.
Proof. destruct o; simpl; split; congruence. Qed.

Lemma assert_Ok b u : assert_ b = Ok u <-> b = true.
Proof. destruct b, u; simpl; split; congruence. Qed.

(** Take apart a computation known to return. *)
Ltac inv_ok :=
  repeat match goal with
  | H : obind _ _ = Ok _ |- _ =>
      let a := fresh "a" in let H1 := fresh "Hc" in let H2 := fresh "Hk" in
      apply obind_Ok_inv in H as (a & H1 & H2); simpl in H2
  | H : or_fault _ = Ok _ |- _ => apply or_fault_Ok in H
  | H : assert_ _ = Ok _ |- _ => apply assert_Ok in H
  | H : Ok _ = Ok _ |- _ => injection H as H; try subst
  | H : (_, _) = (_, _) |- _ => injection H as ?; subst
  end.

(** Reduce an equation between returned tuples to its components. *)
Ltac ok_eq :=
  repeat match goal with
  | |- Ok _ = Ok _ => apply f_equal
  | |- (_, _) = (_, _) => apply f_equal2
  | |- Some _ = Some _ => apply f_equal
  end; try reflexivity; try lia.

(** * Counted loops: for (i = first; i < first + n; i++) body *)

Fixpoint for_range {S} (n : nat) (i : Z) (body : Z -> S -> outcome S) (s : S) : outcome S :=
  match n with
  | O => Ok s
  | Datatypes.S n => s <- body i s ;; for_range n (i + 1)%Z body s
  end.

(** A loop keeps an invariant that each turn advances. *)
Lemma for_range_inv {S} (I : Z -> S -> Prop) (body : Z -> S -> outcome S) n : forall i s,
  I i s ->
  (forall j s, (i <= j < i + Z.of_nat n)%Z -> I j s -> exists s', body j s = Ok s' /\ I (j + 1)%Z s') ->
  exists s', for_range n i body s = Ok s' /\ I (i + Z.of_nat n)%Z s'.
Proof.
  induction n as [|n IH]; intros i s Hi Hb; cbn [for_range].
  - exists s. split; [done|]. by rewrite Z.add_0_r.
  - destruct (Hb i s) as (s1 & -> & H1); [lia|done|]. cbn [obind].
    destruct (IH (i + 1)%Z s1) as (s2 & -> & H2); [done|intros; apply Hb; [lia|done]|].
    exists s2. split; [done|]. by replace (i + Z.of_nat (Datatypes.S n))%Z with (i + 1 + Z.of_nat n)%Z by lia.
Qed.

(** The same for a body that may stop the machine. *)
Lemma for_range_or_panic {S} (I : Z -> S -> Prop) (body : Z -> S -> outcome S) n : forall i s,
  I i s ->
  (forall j s, (i <= j < i + Z.of_nat n)%Z -> I j s -> body j s = Panic \/ exists s', body j s = Ok s' /\ I (j + 1)%Z s') ->
  for_range n i body s = Panic \/ exists s', for_range n i body s = Ok s' /\ I (i + Z.of_nat n)%Z s'.
Proof.
  induction n as [|n IH]; intros i s Hi Hb; cbn [for_range].
  - right. exists s. split; [done|]. by rewrite Z.add_0_r.
  - destruct (Hb i s) as [->|(s1 & -> & H1)]; [lia|done|by left|]. cbn [obind].
    destruct (IH (i + 1)%Z s1) as [E|(s2 & -> & H2)]; [done|intros; apply Hb; [lia|done]|by left|].
    right. exists s2. split; [done|]. by replace (i + Z.of_nat (Datatypes.S n))%Z with (i + 1 + Z.of_nat n)%Z by lia.
Qed.

(** * Machine integers

    A w-bit unsigned integer is a [Z] in [0, 2^w); every operation that can
    leave the range is followed by the wrap-around written here. *)

Definition u64 (z : Z) : Z := z mod 2 ^ 64.
Definition u32 (z : Z) : Z := z mod 2 ^ 32.
Definition u16 (z : Z) : Z := z mod 2 ^ 16.
Definition u8 (z : Z) : Z := z mod 2 ^ 8.
(** Two's complement reading of the low bits, for [int], [long] and [char]. *)
Definition i64 (z : Z) : Z := (z + 2 ^ 63) mod 2 ^ 64 - 2 ^ 63.
Definition i32 (z : Z) : Z := (z + 2 ^ 31) mod 2 ^ 32 - 2 ^ 31.
Definition i8 (z : Z) : Z := (z + 2 ^ 7) mod 2 ^ 8 - 2 ^ 7.

Lemma u64_small z : (0 <= z < 2 ^ 64)%Z -> u64 z = z.
Proof. intros. unfold u64. now apply Z.mod_small. Qed.
Lemma u32_small z : (0 <= z < 2 ^ 32)%Z -> u32 z = z.
Proof. intros. unfold u32. now apply Z.mod_small. Qed.
Lemma u8_small z : (0 <= z < 2 ^ 8)%Z -> u8 z = z.
Proof. intros. unfold u8. now apply Z.mod_small. Qed.
Lemma u64_range z : (0 <= u64 z < 2 ^ 64)%Z.
Proof. unfold u64. apply Z.mod_pos_bound. lia. Qed.
Lemma u32_range z : (0 <= u32 z < 2 ^ 32)%Z.
Proof. unfold u32. apply Z.mod_pos_bound. lia. Qed.
Lemma i32_small z : (- 2 ^ 31 <= z < 2 ^ 31)%Z -> i32 z = z.
Proof. intros. unfold i32. rewrite Z.mod_small; lia. Qed.
Lemma i64_small z : (- 2 ^ 63 <= z < 2 ^ 63)%Z -> i64 z = z.
Proof. intros. unfold i64. rewrite Z.mod_small; lia. Qed.

Create HintDb machine_int.
#[export] Hint Resolve u64_range u32_range : machine_int.

(** Two's complement wrapping only depends on the residue, so an accumulator
    may be wrapped at every step or once at the end. *)
Lemma i64_mod z : (i64 z mod 2 ^ 64 = z mod 2 ^ 64)%Z.
Proof.
  unfold i64. rewrite Zminus_mod, Z.mod_mod by lia. rewrite <- Zminus_mod. f_equal. lia.
Qed.

Lemma i64_ext a b : (a mod 2 ^ 64 = b mod 2 ^ 64)%Z -> i64 a = i64 b.
Proof.
  intros H. unfold i64. do 1 f_equal. rewrite (Zplus_mod a), H, <- Zplus_mod. reflexivity.
Qed.

Lemma i64_mul_add a b c : i64 (i64 a * b + c) = i64 (a * b + c).
Proof.
  apply i64_ext. rewrite Zplus_mod, Zmult_mod, i64_mod, <- Zmult_mod, <- Zplus_mod. reflexivity.
Qed.

Lemma i64_opp a : i64 (- i64 a) = i64 (- a).
Proof.
  apply i64_ext. rewrite <- !Z.sub_0_l, Zminus_mod, i64_mod, <- Zminus_mod. reflexivity.
Qed.

Lemma i64_idem a : i64 (i64 a) = i64 a.
Proof. apply i64_ext, i64_mod. Qed.

(** Joining two bit fields is addition. *)
Lemma testbit_small a n i : (0 <= a < 2 ^ n)%Z -> (0 <= n <= i)%Z -> Z.testbit a i = false.
Proof.
  intros Ha Hi. rewrite <- (Z.mod_small a (2 ^ n)) by done. apply Z.mod_pow2_bits_high. lia.
Qed.

Lemma lor_shiftl_add a b n :
  (0 <= n)%Z -> (0 <= a < 2 ^ n)%Z -> Z.lor (Z.shiftl b n) a = (b * 2 ^ n + a)%Z.
Proof.
  intros Hn Ha. rewrite <- Z.shiftl_mul_pow2 by done. rewrite Z.add_nocarry_lxor, Z.lxor_lor; [done| |].
  all: apply Z.bits_inj'; intros i Hi; rewrite Z.land_spec, Z.shiftl_spec, Z.bits_0 by done;
    destruct (Z.lt_ge_cases i n);
    [now rewrite Z.testbit_neg_r by lia | rewrite (testbit_small a n) by lia; apply andb_false_r].
Qed.

(** Taking an entry out of a list. *)
Lemma delete_keeps {A} (q : list A) i x t : q !! i = Some x -> t ∈ q -> t <> x -> t ∈ delete i q.
Proof.
  intros Hi Ht Hne. rewrite <- (take_drop_middle q i x Hi) in Ht. rewrite delete_take_drop.
  apply elem_of_app. apply elem_of_app in Ht as [Ht|Ht]; [by left|].
  apply elem_of_cons in Ht as [Ht|Ht]; [done|by right].
Qed.

Lemma delete_from {A} (q : list A) i t : t ∈ delete i q -> t ∈ q.
Proof. intros Ht. apply (elem_of_submseteq _ _ _ Ht). apply sublist_submseteq, sublist_delete. Qed.
