(* ===== verification/Mem.v ===== *)
(** Byte-addressed memory shared by the C components.

    An address is a [Z], a byte a [Z] in [0, 256) ([char] is unsigned on
    riscv64).  Only the addresses in the domain of the map belong to an object;
    an access elsewhere is a [Fault].  [bytes_at] and [cstr_at] describe
    contents, [write_bytes] is the reference meaning of a block write. *)

From Stdlib Require Import ZArith Lia List.
From stdpp Require Import base numbers list gmap.
From S2P Require Import Prelude.

Local Open Scope Z_scope.

Abbreviation mem := (gmap Z Z).

(** ** Single-byte accesses *)

Definition load (m : mem) (a : Z) : outcome Z := or_fault (m !! a).

Definition store (m : mem) (a v : Z) : outcome mem :=
  match m !! a with
  | Some _ => Ok (<[a := v]> m)
  | None => Fault
  end.

(** ** Contents *)

Definition bytes_at (m : mem) (a : Z) (bs : list Z) : Prop :=
  forall i b, bs !! i = Some b -> m !! (a + Z.of_nat i) = Some b.

(** [n] bytes from [a] on are allocated. *)
Definition mapped (m : mem) (a : Z) (n : nat) : Prop :=
  forall i, (i < n)%nat -> is_Some (m !! (a + Z.of_nat i)).

(** A NUL-terminated string with contents [s]. *)
Definition cstr_at (m : mem) (a : Z) (s : list Z) : Prop :=
  bytes_at m a (s ++ [0]) /\ Forall (fun c => 0 < c < 256) s.

(** [bs] written from [a] on. *)
Fixpoint write_bytes (m : mem) (a : Z) (bs : list Z) : mem :=
  match bs with
  | [] => m
  | b :: bs' => write_bytes (<[a := b]> m) (a + 1) bs'
  end.

(** Two ranges that share no address. *)
Definition ranges_disjoint (a : Z) (n : nat) (b : Z) (k : nat) : Prop :=
  a + Z.of_nat n <= b \/ b + Z.of_nat k <= a.

(** ** Lemmas on accesses *)

Lemma load_Some m a v : m !! a = Some v -> load m a = Ok v.
Proof. intros H. unfold load. now rewrite H. Qed.

Lemma store_mapped m a v : is_Some (m !! a) -> store m a v = Ok (<[a := v]> m).
Proof. intros [w H]. unfold store. now rewrite H. Qed.

Lemma store_unmapped m a v : m !! a = None -> store m a v = Fault.
Proof. intros H. unfold store. now rewrite H. Qed.

Lemma bytes_at_cons m a b bs :
  bytes_at m a (b :: bs) <-> m !! a = Some b /\ bytes_at m (a + 1) bs.
Proof.
  unfold bytes_at; split.
  - intros H; split.
    + specialize (H 0%nat b eq_refl). now rewrite Z.add_0_r in H.
    + intros i c Hi. specialize (H (S i) c Hi).
      replace (a + 1 + Z.of_nat i) with (a + Z.of_nat (S i)) by lia. exact H.
  - intros [H0 H] [|i] c Hi; simpl in Hi.
    + injection Hi as <-. now rewrite Z.add_0_r.
    + replace (a + Z.of_nat (S i)) with (a + 1 + Z.of_nat i) by lia. auto.
Qed.

Lemma bytes_at_nil m a : bytes_at m a [].
Proof. intros i b H. rewrite lookup_nil in H. discriminate. Qed.

Lemma bytes_at_app m a bs cs :
  bytes_at m a (bs ++ cs) <->
  bytes_at m a bs /\ bytes_at m (a + Z.of_nat (length bs)) cs.
Proof.
  revert a. induction bs as [|b bs IH]; intros a; simpl.
  - rewrite Z.add_0_r. split; [intros H; split; [apply bytes_at_nil | exact H] | tauto].
  - rewrite !bytes_at_cons, IH.
    replace (a + 1 + Z.of_nat (length bs)) with (a + Z.pos (Pos.of_succ_nat (length bs))) by lia.
    tauto.
Qed.

Lemma bytes_at_mapped m a bs : bytes_at m a bs -> mapped m a (length bs).
Proof.
  intros H i Hi. apply lookup_lt_is_Some in Hi as [b Hb]. rewrite (H _ _ Hb). eauto.
Qed.

Lemma mapped_S m a n : mapped m a (S n) <-> is_Some (m !! a) /\ mapped m (a + 1) n.
Proof.
  unfold mapped; split.
  - intros H; split.
    + specialize (H 0%nat ltac:(lia)). now rewrite Z.add_0_r in H.
    + intros i Hi. specialize (H (S i) ltac:(lia)).
      replace (a + 1 + Z.of_nat i) with (a + Z.of_nat (S i)) by lia. exact H.
  - intros [H0 H] [|i] Hi; [now rewrite Z.add_0_r|].
    replace (a + Z.of_nat (S i)) with (a + 1 + Z.of_nat i) by lia. apply H. lia.
Qed.

Lemma mapped_insert m a n b v : mapped m a n -> mapped (<[b := v]> m) a n.
Proof.
  intros H i Hi. destruct (decide (b = a + Z.of_nat i)) as [->|Hne].
  - rewrite lookup_insert_eq. eauto.
  - rewrite lookup_insert_ne by done. auto.
Qed.

Lemma mapped_le m a n k : mapped m a n -> (k <= n)%nat -> mapped m a k.
Proof. intros H Hk i Hi. apply H. lia. Qed.

Lemma bytes_at_insert_ne m a bs b v :
  bytes_at m a bs -> (b < a \/ a + Z.of_nat (length bs) <= b) ->
  bytes_at (<[b := v]> m) a bs.
Proof.
  intros H Hb i c Hi. pose proof (lookup_lt_Some _ _ _ Hi).
  rewrite lookup_insert_ne by lia. auto.
Qed.

(** ** Lemmas on [write_bytes] *)

Lemma write_bytes_app m a bs cs :
  write_bytes m a (bs ++ cs) = write_bytes (write_bytes m a bs) (a + Z.of_nat (length bs)) cs.
Proof.
  revert m a. induction bs as [|b bs IH]; intros m a; simpl.
  - now rewrite Z.add_0_r.
  - rewrite IH. f_equal. lia.
Qed.

Lemma write_bytes_lookup_out m a bs b :
  (b < a \/ a + Z.of_nat (length bs) <= b) -> write_bytes m a bs !! b = m !! b.
Proof.
  revert m a. induction bs as [|c bs IH]; intros m a H; simpl in *; [done|].
  rewrite IH by lia. now rewrite lookup_insert_ne by lia.
Qed.

Lemma write_bytes_lookup_in m a bs i b :
  bs !! i = Some b -> write_bytes m a bs !! (a + Z.of_nat i) = Some b.
Proof.
  revert m a i. induction bs as [|c bs IH]; intros m a i H; [done|].
  destruct i as [|i]; simpl in H; cbn [write_bytes].
  - rewrite Z.add_0_r, write_bytes_lookup_out by lia. rewrite lookup_insert_eq. congruence.
  - replace (a + Z.of_nat (S i)) with (a + 1 + Z.of_nat i) by lia. now apply IH.
Qed.

Lemma write_bytes_at m a bs : bytes_at (write_bytes m a bs) a bs.
Proof. intros i b H. now apply write_bytes_lookup_in. Qed.

Lemma bytes_at_write_out m a bs b cs :
  bytes_at m a bs -> ranges_disjoint a (length bs) b (length cs) ->
  bytes_at (write_bytes m b cs) a bs.
Proof.
  intros H Hd i c Hi. pose proof (lookup_lt_Some _ _ _ Hi).
  rewrite write_bytes_lookup_out; [auto|]. destruct Hd; lia.
Qed.

Lemma mapped_write m a n b cs : mapped m a n -> mapped (write_bytes m b cs) a n.
Proof.
  revert m b. induction cs as [|c cs IH]; intros m b H; simpl; [done|].
  apply IH. now apply mapped_insert.
Qed.

Lemma write_bytes_insert_out m a bs b v :
  (b < a \/ a + Z.of_nat (length bs) <= b) ->
  write_bytes (<[b := v]> m) a bs = <[b := v]> (write_bytes m a bs).
Proof.
  revert m a. induction bs as [|c bs IH]; intros m a H; simpl in *; [done|].
  rewrite <- IH by lia. f_equal. apply insert_insert_ne. lia.
Qed.

Lemma write_bytes_snoc m a bs b :
  write_bytes m a (bs ++ [b]) = <[a + Z.of_nat (length bs) := b]> (write_bytes m a bs).
Proof. now rewrite write_bytes_app. Qed.

(** Writing back what is there changes nothing. *)
Lemma write_bytes_id m a bs : bytes_at m a bs -> write_bytes m a bs = m.
Proof.
  revert m a. induction bs as [|b bs IH]; intros m a H; simpl; [done|].
  apply bytes_at_cons in H as [Hb Hbs]. rewrite insert_id by done. auto.
Qed.

(** Strings. *)
Lemma cstr_at_nil m a : cstr_at m a [] <-> m !! a = Some 0.
Proof.
  unfold cstr_at. simpl. rewrite bytes_at_cons. split; [tauto|].
  intros; repeat split; auto using bytes_at_nil.
Qed.

Lemma cstr_at_cons m a c s :
  cstr_at m a (c :: s) <-> (m !! a = Some c /\ 0 < c < 256) /\ cstr_at m (a + 1) s.
Proof. unfold cstr_at. simpl. rewrite bytes_at_cons, Forall_cons. tauto. Qed.

Lemma cstr_at_insert_ne m a s b v :
  cstr_at m a s -> (b < a \/ a + Z.of_nat (S (length s)) <= b) ->
  cstr_at (<[b := v]> m) a s.
Proof.
  intros [H F] Hb. split; [|done]. apply bytes_at_insert_ne; [done|].
  rewrite length_app; simpl. lia.
Qed.

Lemma cstr_at_mapped m a s : cstr_at m a s -> mapped m a (S (length s)).
Proof.
  intros [H _]. apply bytes_at_mapped in H. rewrite length_app in H. simpl in H.
  now rewrite Nat.add_1_r in H.
Qed.

Create HintDb mem.
#[export] Hint Resolve bytes_at_nil mapped_insert mapped_write write_bytes_at : mem.
#[export] Hint Resolve bytes_at_insert_ne cstr_at_insert_ne bytes_at_mapped : mem.

Lemma mapped_0 m a : mapped m a 0.
Proof. intros i Hi. lia. Qed.

(** Evaluate [bytes_at], [mapped] and [cstr_at] on a concrete memory. *)
Ltac solve_mem :=
  repeat match goal with
  | |- bytes_at _ _ (_ :: _) => apply bytes_at_cons; split; [vm_compute; reflexivity|]
  | |- bytes_at _ _ [] => apply bytes_at_nil
  | |- mapped _ _ 0 => apply mapped_0
  | |- mapped _ _ _ => apply mapped_S; split; [vm_compute; eexists; reflexivity|]
  | |- cstr_at _ _ [] => apply cstr_at_nil; vm_compute; reflexivity
  | |- cstr_at _ _ (_ :: _) =>
      apply cstr_at_cons; split; [split; [vm_compute; reflexivity | lia]|]
  end.
