(* ===== verification/KString.v ===== *)
(** The kernel's memory and string routines, src/string.c.

    Every loop is translated with the pointer steps of the source.  A length of
    type [size_t] that is only counted down to zero is the [nat] the loop
    recurses on; [strncpy], which lets its counter pass below zero, keeps it as
    a 64-bit [Z].  Loops that stop at a NUL byte carry fuel. *)

From Stdlib Require Import ZArith Lia List.
From stdpp Require Import base numbers list gmap.
From S2P Require Import Prelude Mem.

Local Open Scope Z_scope.

(** * Definitions *)

(** void memcpy(void *dest, const void *src, size_t len) *)
Fixpoint memcpy (m : mem) (dest src : Z) (len : nat) : outcome mem :=
  match len with
  | O => Ok m
  | S len' =>
      c <- load m src ;;
      m' <- store m dest c ;;
      memcpy m' (dest + 1) (src + 1) len'
  end.

(** The second loop of memmove: both pointers are decremented before use. *)
Fixpoint memmove_back (m : mem) (tmp s : Z) (count : nat) : outcome mem :=
  match count with
  | O => Ok m
  | S count' =>
      c <- load m (s - 1) ;;
      m' <- store m (tmp - 1) c ;;
      memmove_back m' (tmp - 1) (s - 1) count'
  end.

(** void *memmove(void *dest, const void *src, size_t count) *)
Definition memmove (m : mem) (dest src : Z) (count : nat) : outcome (Z * mem) :=
  m' <- (if dest <=? src then memcpy m dest src count
         else memmove_back m (dest + Z.of_nat count) (src + Z.of_nat count) count) ;;
  Ok (dest, m').

(** void memset(void *dest, uint8_t val, size_t len) *)
Fixpoint memset (m : mem) (dest val : Z) (len : nat) : outcome mem :=
  match len with
  | O => Ok m
  | S len' => m' <- store m dest val ;; memset m' (dest + 1) val len'
  end.

Definition bzero (m : mem) (dest : Z) (len : nat) : outcome mem := memset m dest 0 len.

(** A store of the eight bytes of a zero [ptr_t]. *)
Definition store_zero64 (m : mem) (p : Z) : outcome mem := memset m p 0 8.

Fixpoint bzeropage_loop (m : mem) (p : Z) (words : nat) : outcome mem :=
  match words with
  | O => Ok m
  | S words' => m' <- store_zero64 m p ;; bzeropage_loop m' (p + 8) words'
  end.

(** void bzeropage(void *dest, size_t pages): [pages * 4096 / 8] words. *)
Definition bzeropage (m : mem) (dest : Z) (pages : nat) : outcome mem :=
  bzeropage_loop m dest (pages * 4096 / 8)%nat.

Fixpoint strlen_loop (fuel : nat) (m : mem) (src i : Z) : outcome Z :=
  match fuel with
  | O => OutOfFuel
  | S fuel' =>
      c <- load m (src + i) ;;
      if c =? 0 then Ok i else strlen_loop fuel' m src (i32 (i + 1))
  end.

(** size_t strlen(const char *src): the counter is an [int]. *)
Definition strlen (fuel : nat) (m : mem) (src : Z) : outcome Z :=
  i <- strlen_loop fuel m src 0 ;; Ok (u64 i).

(** int strcmp(const char *str1, const char *str2) *)
Fixpoint strcmp (fuel : nat) (m : mem) (str1 str2 : Z) : outcome Z :=
  match fuel with
  | O => OutOfFuel
  | S fuel' =>
      c1 <- load m str1 ;;
      c2 <- load m str2 ;;
      if negb (c1 =? 0) && negb (c2 =? 0) then
        if negb (c1 =? c2) then Ok (c1 - c2)
        else strcmp fuel' m (str1 + 1) (str2 + 1)
      else Ok (c1 - c2)
  end.

(** int strncmp(const char *str1, const char *str2, size_t n) *)
Fixpoint strncmp (m : mem) (str1 str2 : Z) (n : nat) : outcome Z :=
  match n with
  | O => Ok 0
  | S n' =>
      c1 <- load m str1 ;;
      if c1 =? 0 then c2 <- load m str2 ;; Ok (c1 - c2)
      else
        c2 <- load m str2 ;;
        if negb (c1 =? c2) then Ok (c1 - c2)
        else strncmp m (str1 + 1) (str2 + 1) n'
  end.

(** [while ( *src ) *dest++ = *src++;] followed by the terminating store. *)
Fixpoint strcpy_loop (fuel : nat) (m : mem) (dest src : Z) : outcome mem :=
  match fuel with
  | O => OutOfFuel
  | S fuel' =>
      c <- load m src ;;
      if c =? 0 then store m dest 0
      else m' <- store m dest c ;; strcpy_loop fuel' m' (dest + 1) (src + 1)
  end.

(** char *strcpy(char *dest, const char *src) *)
Definition strcpy (fuel : nat) (m : mem) (dest src : Z) : outcome (Z * mem) :=
  m' <- strcpy_loop fuel m dest src ;; Ok (dest, m').

(** [while ( *src && n-- > 0)]: leaves the loop with the pointer and the counter
    it has then; the counter is decremented also by the test that fails. *)
Fixpoint strncpy_copy (fuel : nat) (m : mem) (dest src n : Z) : outcome (mem * Z * Z) :=
  match fuel with
  | O => OutOfFuel
  | S fuel' =>
      c <- load m src ;;
      if c =? 0 then Ok (m, dest, n)
      else if 0 <? n then
        m' <- store m dest c ;; strncpy_copy fuel' m' (dest + 1) (src + 1) (u64 (n - 1))
      else Ok (m, dest, u64 (n - 1))
  end.

(** [while (n-- > 0) *dest++ = '\0';] *)
Fixpoint strncpy_fill (fuel : nat) (m : mem) (dest n : Z) : outcome mem :=
  match fuel with
  | O => OutOfFuel
  | S fuel' =>
      if 0 <? n then m' <- store m dest 0 ;; strncpy_fill fuel' m' (dest + 1) (u64 (n - 1))
      else Ok m
  end.

(** char *strncpy(char *dest, const char *src, size_t n) *)
Definition strncpy (fuel : nat) (m : mem) (dest src n : Z) : outcome (Z * mem) :=
  '(m1, dest1, n1) <- strncpy_copy fuel m dest src n ;;
  m2 <- strncpy_fill fuel m1 dest1 n1 ;;
  Ok (dest, m2).

(** [while ( *dest != '\0') dest++;] *)
Fixpoint find_nul (fuel : nat) (m : mem) (dest : Z) : outcome Z :=
  match fuel with
  | O => OutOfFuel
  | S fuel' => c <- load m dest ;; if c =? 0 then Ok dest else find_nul fuel' m (dest + 1)
  end.

(** char *strcat(char *dest, const char *src) *)
Definition strcat (fuel : nat) (m : mem) (dest src : Z) : outcome (Z * mem) :=
  e <- find_nul fuel m dest ;;
  m' <- strcpy_loop fuel m e src ;;
  Ok (dest, m').

(** * Block routines *)

(** memcpy copies correctly whenever the destination does not start inside the
    source: for disjoint ranges and for overlapping moves to lower addresses. *)
Lemma memcpy_run m dest src bs :
  bytes_at m src bs -> mapped m dest (length bs) ->
  (dest <= src \/ src + Z.of_nat (length bs) <= dest) ->
  memcpy m dest src (length bs) = Ok (write_bytes m dest bs).
Proof.
  revert m dest src. induction bs as [|b bs IH]; intros m dest src Hb Hm Ho; [done|].
  apply bytes_at_cons in Hb as [Hb Hbs]. simpl length in Hm, Ho. apply mapped_S in Hm as [Hd Hm].
  cbn [memcpy length write_bytes]. rewrite (load_Some _ _ _ Hb). cbn [obind].
  rewrite store_mapped by done. cbn [obind].
  apply IH; [apply bytes_at_insert_ne; [done|lia] | auto with mem | lia].
Qed.

Lemma memmove_back_run m dest src bs :
  bytes_at m src bs -> mapped m dest (length bs) -> src < dest ->
  memmove_back m (dest + Z.of_nat (length bs)) (src + Z.of_nat (length bs)) (length bs)
  = Ok (write_bytes m dest bs).
Proof.
  revert m. induction bs as [|b bs IH] using rev_ind; intros m Hb Hm Hlt; [done|].
  apply bytes_at_app in Hb as [Hbs Hb]. apply bytes_at_cons in Hb as [Hb _].
  rewrite length_app in *. simpl length in *. rewrite Nat.add_1_r in *.
  cbn [memmove_back].
  replace (src + Z.of_nat (S (length bs)) - 1) with (src + Z.of_nat (length bs)) by lia.
  replace (dest + Z.of_nat (S (length bs)) - 1) with (dest + Z.of_nat (length bs)) by lia.
  rewrite (load_Some _ _ _ Hb). cbn [obind].
  rewrite store_mapped by (apply Hm; lia). cbn [obind].
  rewrite IH; [| apply bytes_at_insert_ne; [done|lia]
               | apply mapped_insert; apply (mapped_le _ _ _ _ Hm); lia | done].
  rewrite write_bytes_snoc, write_bytes_insert_out by lia. done.
Qed.

Lemma memset_run m dest val n :
  mapped m dest n -> memset m dest val n = Ok (write_bytes m dest (replicate n val)).
Proof.
  revert m dest. induction n as [|n IH]; intros m dest Hm; [done|].
  apply mapped_S in Hm as [Hd Hm]. cbn [memset replicate write_bytes].
  rewrite store_mapped by done. cbn [obind]. apply IH. auto with mem.
Qed.

Lemma bzeropage_loop_run m p w :
  mapped m p (w * 8) -> bzeropage_loop m p w = Ok (write_bytes m p (replicate (w * 8) 0)).
Proof.
  revert m p. induction w as [|w IH]; intros m p Hm; [done|].
  cbn [bzeropage_loop]. unfold store_zero64.
  rewrite memset_run by (apply (mapped_le _ _ _ _ Hm); lia). cbn [obind].
  rewrite IH.
  - replace (S w * 8)%nat with (8 + w * 8)%nat by lia.
    rewrite replicate_add, write_bytes_app, length_replicate. done.
  - apply mapped_write. intros i Hi. specialize (Hm (8 + i)%nat ltac:(lia)).
    replace (p + 8 + Z.of_nat i) with (p + Z.of_nat (8 + i)) by lia. done.
Qed.

(** * Strings *)

(** Lexicographic order on byte strings, the meaning of strcmp's sign. *)
Fixpoint lex_lt (s t : list Z) : Prop :=
  match s, t with
  | [], [] => False
  | [], _ :: _ => True
  | _ :: _, [] => False
  | c :: s', d :: t' => c < d \/ (c = d /\ lex_lt s' t')
  end.

(** The value strcmp returns on two strings. *)
Fixpoint strdiff (s t : list Z) : Z :=
  match s, t with
  | [], [] => 0
  | [], d :: _ => - d
  | c :: _, [] => c
  | c :: s', d :: t' => if c =? d then strdiff s' t' else c - d
  end.

Definition bytes_ok (s : list Z) : Prop := Forall (fun c => 0 < c < 256) s.

Lemma strdiff_zero s t : bytes_ok s -> bytes_ok t -> strdiff s t = 0 <-> s = t.
Proof.
  revert t. induction s as [|c s IH]; intros [|d t] Hs Ht; simpl;
    try (inversion Hs; subst); try (inversion Ht; subst);
    try (split; [lia | discriminate]); [done|].
  destruct (Z.eqb_spec c d) as [->|Hne].
  - rewrite IH by assumption. split; congruence.
  - split; [lia | congruence].
Qed.

Lemma strdiff_neg s t : bytes_ok s -> bytes_ok t -> strdiff s t < 0 <-> lex_lt s t.
Proof.
  revert t. induction s as [|c s IH]; intros [|d t] Hs Ht; simpl;
    try (inversion Hs; subst); try (inversion Ht; subst); try lia.
  destruct (Z.eqb_spec c d) as [->|Hne].
  - rewrite IH by assumption. split; [tauto | lia || (intros [?|[_ ?]]; [lia | done])].
  - lia.
Qed.

Lemma strcmp_run fuel m a b s t :
  cstr_at m a s -> cstr_at m b t -> (length s < fuel)%nat ->
  strcmp fuel m a b = Ok (strdiff s t).
Proof.
  revert m a b t fuel. induction s as [|c s IH]; intros m a b t fuel Hs Ht Hf;
    destruct fuel as [|fuel]; simpl in Hf; try lia; destruct t as [|d t]; cbn [strcmp];
    rewrite ?cstr_at_cons, ?cstr_at_nil in *;
    repeat match goal with H : _ /\ _ |- _ => destruct H end;
    repeat (erewrite load_Some by eassumption; cbn [obind]).
  - done.
  - destruct (Z.eqb_spec d 0); [lia|]. done.
  - destruct (Z.eqb_spec c 0); [lia|]. simpl. f_equal. lia.
  - destruct (Z.eqb_spec c 0); [lia|]. destruct (Z.eqb_spec d 0); [lia|]. cbn [negb andb strdiff].
    destruct (Z.eqb_spec c d); cbn [negb]; [|done]. apply IH; [done|done|lia].
Qed.

Lemma strlen_loop_run fuel m a s i :
  cstr_at m (a + i) s -> (length s < fuel)%nat -> 0 <= i -> i + Z.of_nat (length s) < 2 ^ 31 ->
  strlen_loop fuel m a i = Ok (i + Z.of_nat (length s)).
Proof.
  revert s i. induction fuel as [|fuel IH]; intros s i Hs Hf Hi Hb; [lia|]. cbn [strlen_loop].
  destruct s as [|c s]; [apply cstr_at_nil in Hs | apply cstr_at_cons in Hs as [[Hc Hr] Hs]].
  - erewrite load_Some by eassumption. simpl. f_equal. lia.
  - erewrite load_Some by eassumption. cbn [obind]. destruct (Z.eqb_spec c 0); [lia|].
    simpl length in *. rewrite i32_small by lia.
    rewrite (IH s); [f_equal; lia | now rewrite Z.add_assoc | lia | lia | lia].
Qed.

Lemma strlen_run fuel m a s :
  cstr_at m a s -> (length s < fuel)%nat -> Z.of_nat (length s) < 2 ^ 31 ->
  strlen fuel m a = Ok (Z.of_nat (length s)).
Proof.
  intros Hs Hf Hb. unfold strlen. rewrite (strlen_loop_run _ _ _ s) by (rewrite ?Z.add_0_r; auto; lia).
  cbn [obind]. now rewrite u64_small by lia.
Qed.

(** strcpy copies the string and its terminator; the target lies outside the
    source, or starts below it. *)
Lemma strcpy_loop_run fuel m dest src s :
  cstr_at m src s -> (length s < fuel)%nat -> mapped m dest (S (length s)) ->
  (dest <= src \/ src + Z.of_nat (S (length s)) <= dest) ->
  strcpy_loop fuel m dest src = Ok (write_bytes m dest (s ++ [0])).
Proof.
  revert m dest src s. induction fuel as [|fuel IH]; intros m dest src s Hs Hf Hm Ho; [lia|].
  apply mapped_S in Hm as [Hd Hm]. cbn [strcpy_loop].
  destruct s as [|c s]; [apply cstr_at_nil in Hs | apply cstr_at_cons in Hs as [[Hc Hr] Hs]];
    erewrite load_Some by eassumption; cbn [obind].
  - now apply store_mapped.
  - destruct (Z.eqb_spec c 0); [lia|]. rewrite store_mapped by done. cbn [obind app write_bytes].
    simpl length in *. apply IH; [apply cstr_at_insert_ne; [done|] | | auto with mem |]; lia.
Qed.

Lemma find_nul_run fuel m a s :
  cstr_at m a s -> (length s < fuel)%nat -> find_nul fuel m a = Ok (a + Z.of_nat (length s)).
Proof.
  revert a s. induction fuel as [|fuel IH]; intros a s Hs Hf; [lia|]. cbn [find_nul].
  destruct s as [|c s]; [apply cstr_at_nil in Hs | apply cstr_at_cons in Hs as [[Hc Hr] Hs]];
    erewrite load_Some by eassumption; cbn [obind].
  - simpl. f_equal. lia.
  - destruct (Z.eqb_spec c 0); [lia|]. simpl length in *. rewrite (IH _ s) by (done || lia).
    f_equal. lia.
Qed.

Lemma strncpy_copy_short fuel m dest src s n :
  cstr_at m src s -> (length s < fuel)%nat -> mapped m dest (length s) ->
  ranges_disjoint dest (length s) src (S (length s)) ->
  Z.of_nat (length s) <= n < 2 ^ 64 ->
  strncpy_copy fuel m dest src n
  = Ok (write_bytes m dest s, dest + Z.of_nat (length s), n - Z.of_nat (length s)).
Proof.
  revert m dest src s n. induction fuel as [|fuel IH]; intros m dest src s n Hs Hf Hm Ho Hn; [lia|].
  cbn [strncpy_copy].
  destruct s as [|c s]; [apply cstr_at_nil in Hs | apply cstr_at_cons in Hs as [[Hc Hr] Hs]];
    erewrite load_Some by eassumption; cbn [obind].
  - cbn. now rewrite Z.add_0_r, Z.sub_0_r.
  - destruct (Z.eqb_spec c 0); [lia|]. simpl length in *. destruct (Z.ltb_spec 0 n); [|lia].
    apply mapped_S in Hm as [Hd Hm]. rewrite store_mapped by done. cbn [obind write_bytes].
    rewrite u64_small by lia. unfold ranges_disjoint in *.
    rewrite (IH _ _ _ s);
      [ ok_eq | apply cstr_at_insert_ne; [done|lia] | lia | auto with mem | lia | lia].
Qed.

(** When the source is longer than [n] the copy loop leaves [n - 1] below zero. *)
Lemma strncpy_copy_long fuel m dest src s k :
  cstr_at m src s -> (k < length s)%nat -> (k < fuel)%nat -> mapped m dest k ->
  ranges_disjoint dest k src (S (length s)) -> Z.of_nat k < 2 ^ 64 ->
  strncpy_copy fuel m dest src (Z.of_nat k)
  = Ok (write_bytes m dest (take k s), dest + Z.of_nat k, 2 ^ 64 - 1).
Proof.
  revert m dest src s k.
  induction fuel as [|fuel IH]; intros m dest src s k Hs Hk Hf Hm Ho Hb; [lia|].
  cbn [strncpy_copy]. destruct s as [|c s]; [simpl in Hk; lia|].
  apply cstr_at_cons in Hs as [[Hc Hr] Hs]. erewrite load_Some by eassumption. cbn [obind].
  destruct (Z.eqb_spec c 0); [lia|]. simpl length in *. destruct k as [|k].
  - cbn. now rewrite Z.add_0_r.
  - destruct (Z.ltb_spec 0 (Z.of_nat (S k))); [|lia].
    apply mapped_S in Hm as [Hd Hm]. rewrite store_mapped by done. cbn [obind firstn write_bytes].
    rewrite u64_small by lia. unfold ranges_disjoint in *.
    replace (Z.of_nat (S k) - 1) with (Z.of_nat k) by lia.
    rewrite (IH _ _ _ s);
      [ ok_eq | apply cstr_at_insert_ne; [done|lia] | lia | lia | auto with mem | lia | lia].
Qed.

Lemma strncpy_fill_run fuel m dest k :
  mapped m dest k -> (k < fuel)%nat -> Z.of_nat k < 2 ^ 64 ->
  strncpy_fill fuel m dest (Z.of_nat k) = Ok (write_bytes m dest (replicate k 0)).
Proof.
  revert m dest k. induction fuel as [|fuel IH]; intros m dest k Hm Hf Hb; [lia|].
  cbn [strncpy_fill]. destruct k as [|k]; [done|].
  destruct (Z.ltb_spec 0 (Z.of_nat (S k))); [|lia].
  apply mapped_S in Hm as [Hd Hm]. rewrite store_mapped by done. cbn [obind replicate write_bytes].
  rewrite u64_small by lia. replace (Z.of_nat (S k) - 1) with (Z.of_nat k) by lia.
  apply IH; auto with mem; lia.
Qed.

(** The fill loop cannot pass an address outside every object. *)
Lemma strncpy_fill_faults fuel m dest n j :
  m !! (dest + Z.of_nat j) = None -> (j < fuel)%nat -> Z.of_nat j < n < 2 ^ 64 ->
  strncpy_fill fuel m dest n = Fault.
Proof.
  revert m dest n j. induction fuel as [|fuel IH]; intros m dest n j Hj Hf Hn; [lia|].
  cbn [strncpy_fill]. destruct (Z.ltb_spec 0 n); [|lia].
  destruct (m !! dest) as [v|] eqn:E; [|now rewrite store_unmapped].
  rewrite store_mapped by eauto. cbn [obind]. rewrite u64_small by lia.
  destruct j as [|j]; [now rewrite Z.add_0_r, E in Hj|].
  apply (IH _ _ _ j); [|lia|lia]. rewrite lookup_insert_ne by lia.
  replace (dest + 1 + Z.of_nat j) with (dest + Z.of_nat (S j)) by lia. done.
Qed.

Lemma mapped_add m a n k : mapped m a (n + k) -> mapped m (a + Z.of_nat n) k.
Proof.
  intros H i Hi. specialize (H (n + i)%nat ltac:(lia)).
  replace (a + Z.of_nat n + Z.of_nat i) with (a + Z.of_nat (n + i)) by lia. done.
Qed.

(** * Properties *)

(** memmove is correct for every placement of its ranges, overlapping or
    not: the destination receives the bytes the source held before the call and
    nothing else changes. *)
Theorem memmove_any_overlap m dest src bs :
  bytes_at m src bs -> mapped m dest (length bs) ->
  memmove m dest src (length bs) = Ok (dest, write_bytes m dest bs).
Proof.
  intros Hs Hd. unfold memmove. destruct (Z.leb_spec dest src).
  - now rewrite memcpy_run by auto.
  - now rewrite memmove_back_run.
Qed.

(** strcmp returns on every pair of terminated strings, its result is zero
    exactly for equal strings and negative exactly when the first one comes
    first in lexicographic byte order. *)
Theorem strcmp_orders_strings fuel m a b s t :
  cstr_at m a s -> cstr_at m b t -> (length s < fuel)%nat ->
  exists d, strcmp fuel m a b = Ok d /\ (d = 0 <-> s = t) /\ (d < 0 <-> lex_lt s t).
Proof.
  intros Hs Ht Hf. exists (strdiff s t). split; [now apply strcmp_run|].
  destruct Hs as [_ Hs], Ht as [_ Ht].
  split; [now apply strdiff_zero | now apply strdiff_neg].
Qed.

(** strncpy on a source of at most [n] bytes writes the string and pads with
    NUL bytes up to exactly [n]; on a longer source it does not stop after [n]
    bytes: its counter wraps to 2^64-1 and the fill loop runs into the first
    unallocated address behind the buffer. *)
Theorem strncpy_pads_or_overruns fuel m dest src s k :
  cstr_at m src s -> mapped m dest k -> ranges_disjoint dest k src (S (length s)) ->
  Z.of_nat k < 2 ^ 64 -> (length s < fuel)%nat -> (k < fuel)%nat ->
  ((length s <= k)%nat ->
     strncpy fuel m dest src (Z.of_nat k)
     = Ok (dest, write_bytes m dest (s ++ replicate (k - length s) 0))) /\
  (forall j, (k < length s)%nat -> m !! (dest + Z.of_nat k + Z.of_nat j) = None ->
     (j < fuel)%nat -> Z.of_nat j < 2 ^ 64 - 1 ->
     strncpy fuel m dest src (Z.of_nat k) = Fault).
Proof.
  intros Hs Hm Ho Hk Hf1 Hf2. split.
  - intros Hle. unfold strncpy.
    rewrite (strncpy_copy_short _ _ _ _ s); auto; [|now apply (mapped_le _ _ _ _ Hm)| |lia].
    2: { unfold ranges_disjoint in *. lia. }
    cbn [obind]. rewrite <- Nat2Z.inj_sub by done.
    rewrite strncpy_fill_run; [| |lia|lia].
    + cbn [obind]. now rewrite write_bytes_app.
    + apply mapped_write, mapped_add. now replace (length s + (k - length s))%nat with k by lia.
  - intros j Hlt Hj Hjf Hjb. unfold strncpy.
    rewrite (strncpy_copy_long _ _ _ _ s) by auto. cbn [obind].
    rewrite (strncpy_fill_faults _ _ _ _ j); [done| |done|lia].
    rewrite write_bytes_lookup_out; [done|]. rewrite length_take. lia.
Qed.

(** Twelve bytes at 100: two strings and an overlapping range. *)
Definition ex_mem : mem := write_bytes ∅ 100 [97; 98; 99; 0; 97; 98; 0; 1; 2; 3; 4; 5].

Lemma memmove_any_overlap_witness :
  memmove ex_mem 101 100 4 = Ok (101, write_bytes ex_mem 101 [97; 98; 99; 0]).
Proof. apply (memmove_any_overlap ex_mem 101 100 [97; 98; 99; 0]); solve_mem. Defined.

Lemma strcmp_orders_strings_witness :
  exists d, strcmp 5 ex_mem 100 104 = Ok d /\
    (d = 0 <-> [97; 98; 99] = [97; 98]) /\ (d < 0 <-> lex_lt [97; 98; 99] [97; 98]).
Proof.
  apply (strcmp_orders_strings 5 ex_mem 100 104 [97; 98; 99] [97; 98]); solve_mem; simpl; lia.
Defined.

Lemma strncpy_pads_or_overruns_witness :
  strncpy 9 ex_mem 107 104 4 = Ok (107, write_bytes ex_mem 107 [97; 98; 0; 0]) /\
  strncpy 9 ex_mem 107 100 2 = Fault.
Proof.
  split.
  - apply (strncpy_pads_or_overruns 9 ex_mem 107 104 [97; 98] 4);
      solve_mem; unfold ranges_disjoint; simpl; lia.
  - apply (strncpy_pads_or_overruns 9 ex_mem 107 100 [97; 98; 99] 2) with (j := 3%nat);
      solve_mem; try (vm_compute; reflexivity); unfold ranges_disjoint; simpl; lia.
Defined.
