(* ===== verification/LibcString.v ===== *)
(** The user-space string routines, tiny_libc/string.c.

    memcpy, memset, bzero, strcmp, strncmp, strcpy and strcat have the same
    bodies as the kernel's and are shared with KString.v; strlen returns [int],
    strncpy counts with a signed [int], and strrev exists only here. *)

From Stdlib Require Import ZArith Lia List.
From stdpp Require Import base numbers list gmap.
From S2P Require Import Prelude Mem KString.

Local Open Scope Z_scope.

Module Libc.

Definition memcpy : mem -> Z -> Z -> nat -> outcome mem := KString.memcpy.
Definition memset : mem -> Z -> Z -> nat -> outcome mem := KString.memset.
Definition bzero (m : mem) (dest : Z) (len : nat) : outcome mem := memset m dest 0 len.
Definition strcmp : nat -> mem -> Z -> Z -> outcome Z := KString.strcmp.
Definition strncmp : mem -> Z -> Z -> nat -> outcome Z := KString.strncmp.
Definition strcpy : nat -> mem -> Z -> Z -> outcome (Z * mem) := KString.strcpy.
Definition strcat : nat -> mem -> Z -> Z -> outcome (Z * mem) := KString.strcat.

(** int strlen(const char *src) *)
Definition strlen (fuel : nat) (m : mem) (src : Z) : outcome Z := strlen_loop fuel m src 0.

(** [while ( *src && n-- > 0)] with a signed counter. *)
Fixpoint strncpy_copy (fuel : nat) (m : mem) (dest src n : Z) : outcome (mem * Z * Z) :=
  match fuel with
  | O => OutOfFuel
  | S fuel' =>
      c <- load m src ;;
      if c =? 0 then Ok (m, dest, n)
      else if 0 <? n then
        m' <- store m dest c ;; strncpy_copy fuel' m' (dest + 1) (src + 1) (i32 (n - 1))
      else Ok (m, dest, i32 (n - 1))
  end.

(** [while (n-- > 0) *dest++ = '\0';] with a signed counter. *)
Fixpoint strncpy_fill (fuel : nat) (m : mem) (dest n : Z) : outcome mem :=
  match fuel with
  | O => OutOfFuel
  | S fuel' =>
      if 0 <? n then m' <- store m dest 0 ;; strncpy_fill fuel' m' (dest + 1) (i32 (n - 1))
      else Ok m
  end.

(** char *strncpy(char *dest, const char *src, int n) *)
Definition strncpy (fuel : nat) (m : mem) (dest src n : Z) : outcome (Z * mem) :=
  '(m1, dest1, n1) <- strncpy_copy fuel m dest src n ;;
  m2 <- strncpy_fill fuel m1 dest1 n1 ;;
  Ok (dest, m2).

(** [for (i = 0, j = len - 1; i < j; i++, j--)] swapping str[i] and str[j]. *)
Fixpoint strrev_loop (fuel : nat) (m : mem) (str i j : Z) : outcome mem :=
  if i <? j then
    match fuel with
    | O => OutOfFuel
    | S fuel' =>
        tmp <- load m (str + i) ;;
        c <- load m (str + j) ;;
        m1 <- store m (str + i) c ;;
        m2 <- store m1 (str + j) tmp ;;
        strrev_loop fuel' m2 str (i + 1) (j - 1)
    end
  else Ok m.

(** void strrev(char *str) *)
Definition strrev (fuel : nat) (m : mem) (str : Z) : outcome mem :=
  len <- strlen fuel m str ;;
  strrev_loop fuel m str 0 (len - 1).

(** * Lemmas *)

Lemma libc_strlen_run fuel m a s :
  cstr_at m a s -> (length s < fuel)%nat -> Z.of_nat (length s) < 2 ^ 31 ->
  strlen fuel m a = Ok (Z.of_nat (length s)).
Proof.
  intros. unfold strlen. rewrite (strlen_loop_run _ _ _ s) by (rewrite ?Z.add_0_r; auto; lia). ok_eq.
Qed.

Lemma libc_strncpy_copy_run fuel m dest src s k :
  cstr_at m src s -> (length s < fuel)%nat -> mapped m dest k ->
  ranges_disjoint dest k src (S (length s)) -> Z.of_nat k < 2 ^ 31 ->
  exists n', strncpy_copy fuel m dest src (Z.of_nat k)
    = Ok (write_bytes m dest (take k s), dest + Z.of_nat (length (take k s)), n') /\
  ((length s <= k)%nat -> n' = Z.of_nat (k - length s)) /\ ((k < length s)%nat -> n' = -1).
Proof.
  revert m dest src s k.
  induction fuel as [|fuel IH]; intros m dest src s k Hs Hf Hm Ho Hb; [lia|].
  cbn [strncpy_copy].
  destruct s as [|c s]; [apply cstr_at_nil in Hs | apply cstr_at_cons in Hs as [[Hc Hr] Hs]];
    erewrite load_Some by eassumption; cbn [obind].
  - exists (Z.of_nat k). rewrite take_nil. cbn [write_bytes length]. rewrite Z.add_0_r.
    split; [done|]. simpl. split; [intros; f_equal; lia | lia].
  - destruct (Z.eqb_spec c 0); [lia|]. simpl length in *. destruct k as [|k].
    + exists (-1). cbn. rewrite Z.add_0_r. split; [done|]. split; [lia | done].
    + destruct (Z.ltb_spec 0 (Z.of_nat (S k))); [|lia].
      apply mapped_S in Hm as [Hd Hm]. rewrite store_mapped by done. cbn [obind firstn write_bytes length].
      rewrite i32_small by lia. unfold ranges_disjoint in *.
      replace (Z.of_nat (S k) - 1) with (Z.of_nat k) by lia.
      destruct (IH (<[dest := c]> m) (dest + 1) (src + 1) s k) as (n' & E & H1 & H2);
        [apply cstr_at_insert_ne; [done|lia] | lia | auto with mem | lia | lia |].
      exists n'. rewrite E. split; [ok_eq|]. split; intros; [rewrite H1 by lia; f_equal; lia | apply H2; lia].
Qed.

Lemma libc_strncpy_fill_run fuel m dest k :
  mapped m dest k -> (k < fuel)%nat -> Z.of_nat k < 2 ^ 31 ->
  strncpy_fill fuel m dest (Z.of_nat k) = Ok (write_bytes m dest (replicate k 0)).
Proof.
  revert m dest k. induction fuel as [|fuel IH]; intros m dest k Hm Hf Hb; [lia|].
  cbn [strncpy_fill]. destruct k as [|k]; [done|].
  destruct (Z.ltb_spec 0 (Z.of_nat (S k))); [|lia].
  apply mapped_S in Hm as [Hd Hm]. rewrite store_mapped by done. cbn [obind replicate write_bytes].
  rewrite i32_small by lia. replace (Z.of_nat (S k) - 1) with (Z.of_nat k) by lia.
  apply IH; auto with mem; lia.
Qed.

(** A list of at least two elements has a first and a last one. *)
Lemma two_ends {A} (l : list A) : (2 <= length l)%nat -> exists c mid d, l = c :: mid ++ [d].
Proof.
  destruct l as [|c l]; simpl; [lia|]. intros Hl.
  destruct l as [|d mid _] using rev_ind; [simpl in Hl; lia | eauto].
Qed.

Lemma strrev_loop_run fuel m str i bs :
  bytes_at m (str + i) bs -> (length bs <= fuel)%nat ->
  strrev_loop fuel m str i (i + Z.of_nat (length bs) - 1) = Ok (write_bytes m (str + i) (rev bs)).
Proof.
  revert m i bs. induction fuel as [|fuel IH]; intros m i bs Hb Hf.
  - destruct bs; [|simpl in Hf; lia]. cbn [strrev_loop length].
    destruct (Z.ltb_spec i (i + Z.of_nat 0 - 1)); [lia | done].
  - cbn [strrev_loop]. destruct (Z.ltb_spec i (i + Z.of_nat (length bs) - 1)) as [Hlt|Hge].
    + destruct (two_ends bs) as (c & mid & d & ->); [lia|].
      apply bytes_at_cons in Hb as [Hc Hb]. apply bytes_at_app in Hb as [Hmid Hd].
      apply bytes_at_cons in Hd as [Hd _]. simpl length in *. rewrite length_app in *. simpl length in *.
      replace (str + (i + Z.of_nat (S (length mid + 1)) - 1))
        with (str + i + 1 + Z.of_nat (length mid)) by lia.
      rewrite (load_Some _ _ _ Hc), (load_Some _ _ _ Hd). cbn [obind].
      rewrite store_mapped by eauto. cbn [obind].
      rewrite store_mapped by (rewrite lookup_insert_ne by lia; eauto). cbn [obind].
      replace (i + Z.of_nat (S (length mid + 1)) - 1 - 1) with (i + 1 + Z.of_nat (length mid) - 1) by lia.
      rewrite (IH _ (i + 1) mid); [| |lia].
      2: { rewrite Z.add_assoc. apply bytes_at_insert_ne; [apply bytes_at_insert_ne|]; try done; lia. }
      f_equal. simpl rev. rewrite rev_app_distr. cbn [rev app write_bytes]. rewrite Z.add_assoc.
      rewrite write_bytes_snoc, length_rev.
      rewrite (write_bytes_insert_out _ _ _ (str + i + 1 + Z.of_nat (length mid))) by (rewrite length_rev; lia).
      done.
    + destruct bs as [|c [|d bs]]; [done| |simpl in Hge; lia].
      cbn [rev app write_bytes]. apply bytes_at_cons in Hb as [Hc _]. now rewrite insert_id.
Qed.

Lemma strrev_run fuel m a s :
  cstr_at m a s -> (length s < fuel)%nat -> Z.of_nat (length s) < 2 ^ 31 ->
  strrev fuel m a = Ok (write_bytes m a (rev s)).
Proof.
  intros Hs Hf Hb. unfold strrev. rewrite (libc_strlen_run _ _ _ s) by done. cbn [obind].
  destruct Hs as [Hs _]. apply bytes_at_app in Hs as [Hs _].
  pose proof (strrev_loop_run fuel m a 0 s) as Hr. rewrite Z.add_0_r, Z.add_0_l in Hr.
  apply Hr; [done|lia].
Qed.

(** * Properties *)

(** the user-space strncpy writes exactly [n] bytes for every source: the
    first [n] bytes of the string, padded with NUL bytes when it is shorter. *)
Theorem libc_strncpy_exact fuel m dest src s k :
  cstr_at m src s -> mapped m dest k -> ranges_disjoint dest k src (S (length s)) ->
  Z.of_nat k < 2 ^ 31 -> (length s < fuel)%nat -> (k < fuel)%nat ->
  strncpy fuel m dest src (Z.of_nat k)
  = Ok (dest, write_bytes m dest (take k s ++ replicate (k - length s) 0)).
Proof.
  intros Hs Hm Ho Hk Hf1 Hf2. unfold strncpy.
  destruct (libc_strncpy_copy_run fuel m dest src s k) as (n' & -> & H1 & H2); auto. cbn [obind].
  rewrite write_bytes_app. destruct (Nat.le_gt_cases (length s) k) as [Hle|Hgt].
  - rewrite H1 by done. rewrite libc_strncpy_fill_run; [done| |lia|lia].
    apply mapped_write, mapped_add. rewrite length_take.
    now replace (k `min` length s + (k - length s))%nat with k by lia.
  - rewrite H2 by done. replace (k - length s)%nat with 0%nat by lia. destruct fuel; [lia | done].
Qed.

Lemma libc_strncpy_exact_witness :
  strncpy 9 ex_mem 107 100 2 = Ok (107, write_bytes ex_mem 107 [97; 98]).
Proof.
  apply (libc_strncpy_exact 9 ex_mem 107 100 [97; 98; 99] 2);
    solve_mem; unfold ranges_disjoint; simpl; lia.
Defined.

End Libc.
