(* ===== verification/LibcStdlib.v ===== *)
(** Number conversion, random numbers and checksums of tiny_libc: atoi.c, itoa.c,
    rand.c, mailbox.c and the character classes of include/ctype.h. *)

From Stdlib Require Import ZArith Lia List.
From stdpp Require Import base numbers list gmap.
From S2P Require Import Prelude Mem KString LibcString.

Local Open Scope Z_scope.
#[local] Ltac Zify.zify_post_hook ::= Z.div_mod_to_equations.

(** * include/ctype.h *)

Definition isupper (ch : Z) : bool := (65 <=? ch) && (ch <=? 90).
Definition islower (ch : Z) : bool := (97 <=? ch) && (ch <=? 122).
Definition isalpha (ch : Z) : bool := isupper ch || islower ch.
Definition isdigit (ch : Z) : bool := (48 <=? ch) && (ch <=? 57).
Definition isxdigit (ch : Z) : bool :=
  isdigit ch || ((97 <=? ch) && (ch <=? 102)) || ((65 <=? ch) && (ch <=? 70)).
Definition isalnum (ch : Z) : bool := isalpha ch || isdigit ch.
(** ' ', '\t', '\n', '\v', '\f', '\r' *)
Definition isspace (ch : Z) : bool :=
  (ch =? 32) || (ch =? 9) || (ch =? 10) || (ch =? 11) || (ch =? 12) || (ch =? 13).

(** * atoi.c *)

(** [while (isspace( *str)) ;]: the body does not advance the pointer. *)
Fixpoint atol_skip (fuel : nat) (m : mem) (str : Z) : outcome unit :=
  match fuel with
  | O => OutOfFuel
  | S fuel' => c <- load m str ;; if isspace c then atol_skip fuel' m str else Ok tt
  end.

(** The conversion loop; [None] is the early [return 0] on a bad character. *)
Fixpoint atol_conv (fuel : nat) (m : mem) (str base ret : Z) : outcome (option Z) :=
  match fuel with
  | O => OutOfFuel
  | S fuel' =>
      c <- load m str ;;
      if c =? 0 then Ok (Some ret)
      else if isdigit c then atol_conv fuel' m (str + 1) base (i64 (ret * base + (c - 48)))
      else if base =? 16 then
        if (97 <=? c) && (c <=? 102) then
          atol_conv fuel' m (str + 1) base (i64 (ret * base + (c - 97 + 10)))
        else if (65 <=? c) && (c <=? 70) then
          atol_conv fuel' m (str + 1) base (i64 (ret * base + (c - 65 + 10)))
        else Ok None
      else Ok None
  end.

(** The part of atol behind the sign. *)
Definition atol_body (fuel : nat) (m : mem) (negative : bool) (str : Z) : outcome Z :=
  c0 <- load m str ;;
  hex <- (if c0 =? 48 then c1 <- load m (str + 1) ;; Ok ((c1 =? 120) || (c1 =? 88)) else Ok false) ;;
  r <- (if hex then atol_conv fuel m (str + 2) 16 0 else atol_conv fuel m str 10 0) ;;
  match r with
  | None => Ok 0
  | Some ret => Ok (if negative then i64 (- ret) else ret)
  end.

(** long atol(const char *str) *)
Definition atol (fuel : nat) (m : mem) (str : Z) : outcome Z :=
  if str =? 0 then Ok 0
  else
    atol_skip fuel m str ;;
    c <- load m str ;;
    if c =? 43 then atol_body fuel m false (str + 1)
    else if c =? 45 then atol_body fuel m true (str + 1)
    else if isdigit c then atol_body fuel m false str
    else Ok 0.

(** int atoi(const char *str) *)
Definition atoi (fuel : nat) (m : mem) (str : Z) : outcome Z :=
  r <- atol fuel m str ;; Ok (i32 r).

(** * itoa.c *)

Definition itoa_char (digit : Z) : Z :=
  if digit <? 10 then u8 (48 + digit) else u8 (65 + digit - 10).

(** The [do ... while (sum && (i < (len - 1)))] loop; returns memory, [i] and [sum]. *)
Fixpoint itoa_loop (fuel : nat) (m : mem) (str len base sum i : Z) : outcome (mem * Z * Z) :=
  match fuel with
  | O => OutOfFuel
  | S fuel' =>
      let digit := Z.rem sum base in
      m' <- store m (str + i) (itoa_char digit) ;;
      let i := i + 1 in
      let sum := Z.quot sum base in
      if negb (sum =? 0) && (i <? len - 1) then itoa_loop fuel' m' str len base sum i
      else Ok (m', i, sum)
  end.

(** int itoa(int num, char *str, int len, int base) *)
Definition itoa (fuel : nat) (m : mem) (num str len base : Z) : outcome (Z * mem) :=
  if len =? 0 then Ok (-1, m)
  else
    '(m1, i, sum) <- itoa_loop fuel m str len base num 0 ;;
    if (i =? len - 1) && negb (sum =? 0) then Ok (-1, m1)
    else
      m2 <- store m1 (str + i) 0 ;;
      m3 <- Libc.strrev fuel m2 str ;;
      Ok (0, m3).

(** * rand.c: the state is the static [x] *)

Definition srand (seed : Z) : Z := i32 seed.

(** int rand(void): returns the value and the new [x]. *)
Definition rand (x : Z) : Z * Z :=
  let tmp := u64 (0x5deece66d * x + 0xb) in
  let x := i32 (Z.land tmp 0x7fffffff) in
  (x, x).

(** * mailbox.c *)

Definition MOD_ADLER : Z := 65521.

Fixpoint adler32_loop (m : mem) (data : Z) (len : nat) (a b : Z) : outcome (Z * Z) :=
  match len with
  | O => Ok (a, b)
  | S len' =>
      c <- load m data ;;
      let a := u32 (a + c) mod MOD_ADLER in
      let b := u32 (b + a) mod MOD_ADLER in
      adler32_loop m (data + 1) len' a b
  end.

(** uint32_t adler32(char *data, size_t len) *)
Definition adler32 (m : mem) (data : Z) (len : nat) : outcome Z :=
  '(a, b) <- adler32_loop m data len 1 0 ;;
  Ok (Z.lor (u32 (Z.shiftl b 16)) a).

(** "abcdefghijklmnopqrstuvwxyzABCDEFGHIJKLMNOPQRSTUVWXYZ0123456789-={};|[],./<>?!@#$%^&*"
    and its terminator, which [sizeof] counts. *)
Definition alpha : list Z :=
  map (fun k => 97 + Z.of_nat k) (seq 0 26) ++ map (fun k => 65 + Z.of_nat k) (seq 0 26) ++
  map (fun k => 48 + Z.of_nat k) (seq 0 10) ++
  [45; 61; 123; 125; 59; 124; 91; 93; 44; 46; 47; 60; 62; 63; 33; 64; 35; 36; 37; 94; 38; 42; 0].
Definition alphaSz : Z := Z.of_nat (length alpha).

(** [while (i >= 0) { buf[i] = alpha[rand() % alphaSz]; --i; }] with [i + 1] as
    the recursion argument. *)
Fixpoint random_fill (m : mem) (x buf : Z) (i1 : nat) : outcome (Z * mem) :=
  match i1 with
  | O => Ok (x, m)
  | S i =>
      let '(r, x') := rand x in
      c <- or_fault (alpha !! Z.to_nat (Z.rem r alphaSz)) ;;
      m' <- store m (buf + Z.of_nat i) c ;;
      random_fill m' x' buf i
  end.

(** void generateRandomString(char *buf, int len), with the state of rand. *)
Definition generateRandomString (m : mem) (x buf len : Z) : outcome (Z * mem) :=
  m1 <- store m (buf + (len - 1)) 0 ;;
  random_fill m1 x buf (Z.to_nat (len - 1)).

(** * Reference meanings *)

(** The value of one character in a base, and of a whole numeral. *)
Definition digit_value (base c : Z) : option Z :=
  if isdigit c then Some (c - 48)
  else if (base =? 16) && ((97 <=? c) && (c <=? 102)) then Some (c - 97 + 10)
  else if (base =? 16) && ((65 <=? c) && (c <=? 70)) then Some (c - 65 + 10)
  else None.

Fixpoint numeral (base acc : Z) (s : list Z) : option Z :=
  match s with
  | [] => Some acc
  | c :: s' => d ← digit_value base c; numeral base (acc * base + d) s'
  end.

(** A numeral with its optional hexadecimal prefix; 0 when it is malformed. *)
Definition unsigned_numeral (s : list Z) : Z :=
  default 0 (match s with
             | 48 :: 120 :: s' | 48 :: 88 :: s' => numeral 16 0 s'
             | _ => numeral 10 0 s
             end).

(** What atol is documented to compute, over the integers. *)
Definition atol_value (s : list Z) : Z :=
  match s with
  | 43 :: s' => unsigned_numeral s'
  | 45 :: s' => - unsigned_numeral s'
  | c :: _ => if isdigit c then unsigned_numeral s else 0
  | [] => 0
  end.

(** The characters of a non-negative number, least significant first. *)
Fixpoint digits_rev (k : nat) (base n : Z) : list Z :=
  match k with
  | O => []
  | S k' => itoa_char (n mod base) :: (if n / base =? 0 then [] else digits_rev k' base (n / base))
  end.

(** Adler-32 of a byte list, with the sums taken over the integers. *)
Definition adler_a (s : list Z) : Z := 1 + fold_right Z.add 0 s.
Fixpoint adler_b (s : list Z) : Z :=   (* [s] in reverse order *)
  match s with [] => 0 | c :: s' => adler_b s' + adler_a (c :: s') end.
Definition adler32_value (s : list Z) : Z :=
  (adler_b (rev s) mod MOD_ADLER) * 2 ^ 16 + adler_a s mod MOD_ADLER.

(** * Lemmas *)

Lemma atol_conv_run fuel m a base acc s :
  cstr_at m a s -> (length s < fuel)%nat ->
  atol_conv fuel m a base (i64 acc) = Ok (i64 <$> numeral base acc s).
Proof.
  revert m a acc s. induction fuel as [|fuel IH]; intros m a acc s Hs Hf; [lia|].
  cbn [atol_conv]. destruct s as [|c s].
  - apply cstr_at_nil in Hs. now rewrite (load_Some _ _ _ Hs).
  - apply cstr_at_cons in Hs as [[Hc Hr] Hs]. simpl in Hf.
    rewrite (load_Some _ _ _ Hc). cbn [obind numeral]. unfold digit_value.
    destruct (Z.eqb_spec c 0); [lia|].
    repeat (case_match; cbn [andb mbind option_bind]; rewrite ?i64_mul_add; try (apply IH; [done|lia]); try done; simplify_eq).
Qed.

Lemma atol_body_run fuel m a neg s :
  cstr_at m a s -> (length s < fuel)%nat ->
  atol_body fuel m neg a = Ok (i64 (if neg then - unsigned_numeral s else unsigned_numeral s)).
Proof.
  intros Hs Hf. unfold atol_body.
  assert (Hfin : forall base s' a', cstr_at m a' s' -> (length s' < fuel)%nat ->
            unsigned_numeral s = default 0 (numeral base 0 s') ->
    obind (atol_conv fuel m a' base 0) (fun r => match r with
       | None => Ok 0 | Some ret => Ok (if neg then i64 (- ret) else ret) end)
     = Ok (i64 (if neg then - unsigned_numeral s else unsigned_numeral s))).
  { intros base s' a' Hs' Hf' ->. change 0 with (i64 0) at 1.
    rewrite (atol_conv_run _ _ _ _ _ s') by done. cbn [obind].
    destruct (numeral base 0 s'); cbn [fmap option_fmap option_map default id];
      destruct neg; rewrite ?i64_opp; done. }
  destruct s as [|c s].
  - pose proof Hs as Hz. apply cstr_at_nil in Hz. rewrite (load_Some _ _ _ Hz). cbn.
    apply (Hfin 10 []); auto.
  - pose proof Hs as Hz. apply cstr_at_cons in Hz as [[Hc Hr] Hz]. rewrite (load_Some _ _ _ Hc). cbn [obind].
    destruct (Z.eqb_spec c 48) as [->|Hne].
    2: { apply (Hfin 10 (c :: s)); auto. unfold unsigned_numeral. repeat case_match; simplify_eq; done. }
    destruct s as [|d s].
    + pose proof Hz as Hz'. apply cstr_at_nil in Hz'. rewrite (load_Some _ _ _ Hz'). cbn [obind].
      apply (Hfin 10 [48]); auto.
    + pose proof Hz as Hz'. apply cstr_at_cons in Hz' as [[Hd Hr'] Hz']. rewrite (load_Some _ _ _ Hd). cbn [obind].
      replace (a + 1 + 1) with (a + 2) in Hz' by lia. simpl in Hf.
      destruct (Z.eqb_spec d 120) as [->|]; [apply (Hfin 16 s); auto; lia|].
      destruct (Z.eqb_spec d 88) as [->|]; [apply (Hfin 16 s); auto; lia|].
      apply (Hfin 10 (48 :: d :: s)); auto. unfold unsigned_numeral. repeat case_match; simplify_eq; done.
Qed.

Lemma atol_skip_stuck fuel m a c : m !! a = Some c -> isspace c = true -> atol_skip fuel m a = OutOfFuel.
Proof.
  intros Hc Hsp. induction fuel as [|fuel IH]; [done|]. cbn [atol_skip].
  rewrite (load_Some _ _ _ Hc). cbn [obind]. now rewrite Hsp.
Qed.

(** [isspace] of the first character of a string, the terminator included. *)
Definition starts_blank (s : list Z) : bool := isspace (default 0 (head s)).

Lemma cstr_head m a s : cstr_at m a s -> m !! a = Some (default 0 (head s)).
Proof. destruct s; [rewrite cstr_at_nil | rewrite cstr_at_cons]; simpl; tauto. Qed.

Lemma atol_run fuel m a s :
  cstr_at m a s -> a <> 0 -> starts_blank s = false -> (length s < fuel)%nat ->
  atol fuel m a = Ok (i64 (atol_value s)).
Proof.
  intros Hs Ha Hb Hf. unfold atol. destruct (Z.eqb_spec a 0); [done|].
  destruct fuel as [|fuel]; [lia|]. cbn [atol_skip]. rewrite !(load_Some _ _ _ (cstr_head _ _ _ Hs)).
  cbn [obind]. unfold starts_blank in Hb. rewrite Hb. cbn [obind].
  destruct s as [|c s]; [done|]. cbn [head default id] in *.
  pose proof Hs as Hs'. apply cstr_at_cons in Hs' as [_ Hs']. simpl in Hf.
  unfold atol_value.
  destruct (Z.eqb_spec c 43) as [->|]; [apply (atol_body_run _ _ _ false); auto; lia|].
  destruct (Z.eqb_spec c 45) as [->|]; [apply (atol_body_run _ _ _ true); auto; lia|].
  destruct (isdigit c) eqn:Hd.
  - rewrite (atol_body_run _ _ _ false (c :: s)) by done.
    repeat case_match; simplify_eq; done.
  - repeat case_match; simplify_eq; done.
Qed.

(** ** itoa *)

Lemma length_digits_rev k base n : (length (digits_rev k base n) <= k)%nat.
Proof. revert n. induction k as [|k IH]; intros n; simpl; [lia|]. case_match; simpl; [lia|]. specialize (IH (n / base)). lia. Qed.

Lemma itoa_loop_run fuel k m str len base n i :
  2 <= base -> 0 <= n < base ^ Z.of_nat (S k) -> (k < fuel)%nat ->
  mapped m (str + i) (length (digits_rev (S k) base n)) ->
  i + Z.of_nat (length (digits_rev (S k) base n)) <= len - 1 ->
  itoa_loop fuel m str len base n i
  = Ok (write_bytes m (str + i) (digits_rev (S k) base n), i + Z.of_nat (length (digits_rev (S k) base n)), 0).
Proof.
  revert fuel m n i. induction k as [|k IH]; intros fuel m n i Hb Hn Hf Hm Hl;
    (destruct fuel as [|fuel]; [lia|]); cbn [itoa_loop]; cbn [digits_rev] in *;
    rewrite Z.rem_mod_nonneg, Z.quot_div_nonneg by lia.
  - assert (Hq : n / base = 0) by (apply Z.div_small; change (Z.of_nat 1) with 1 in Hn; lia).
    rewrite Hq in *. rewrite Z.eqb_refl in *. cbn [length write_bytes] in *.
    apply mapped_S in Hm as [Hm _]. rewrite store_mapped by done. cbn [obind negb andb].
    ok_eq.
  - destruct (Z.eqb_spec (n / base) 0) as [Hq|Hq]; cbn [length write_bytes] in *;
      apply mapped_S in Hm as [Hd Hm]; rewrite store_mapped by done; cbn [obind negb andb].
    + rewrite Hq. ok_eq.
    + destruct (Z.ltb_spec (i + 1) (len - 1)); [|exfalso; simpl in Hl; lia].
      rewrite IH; [| lia | | lia | replace (str + (i + 1)) with (str + i + 1) by lia; auto with mem | lia].
      * rewrite Z.add_assoc. ok_eq.
      * split; [apply Z.div_pos; lia|]. apply Z.div_lt_upper_bound; [lia|].
        rewrite <- Z.pow_succ_r by lia. replace (Z.succ (Z.of_nat (S k))) with (Z.of_nat (S (S k))) by lia. lia.
Qed.

Lemma itoa_char_digit d : 0 <= d < 10 -> itoa_char d = 48 + d.
Proof. intros. unfold itoa_char. destruct (Z.ltb_spec d 10); [|lia]. apply u8_small. lia. Qed.

Lemma digits_rev_digits k n : Forall (fun c => isdigit c = true) (digits_rev k 10 n).
Proof.
  revert n. induction k as [|k IH]; intros n; simpl; constructor.
  - rewrite itoa_char_digit by lia. unfold isdigit. apply andb_true_iff; split; apply Z.leb_le; lia.
  - case_match; auto.
Qed.

Lemma numeral_app base acc s t :
  numeral base acc (s ++ t) = a ← numeral base acc s; numeral base a t.
Proof.
  revert acc. induction s as [|c s IH]; intros acc; simpl; [done|].
  destruct (digit_value base c); simpl; auto.
Qed.

Lemma digit_value_itoa base n : 0 <= n < 10 -> digit_value base (itoa_char n) = Some n.
Proof.
  intros. rewrite itoa_char_digit by lia. unfold digit_value, isdigit.
  destruct (Z.leb_spec 48 (48 + n)); [|lia]. destruct (Z.leb_spec (48 + n) 57); [|lia]. simpl. f_equal. lia.
Qed.

Lemma numeral_digits k n :
  0 <= n < 10 ^ Z.of_nat k -> (0 < k)%nat -> numeral 10 0 (rev (digits_rev k 10 n)) = Some n.
Proof.
  revert n. induction k as [|k IH]; intros n Hn Hk; [lia|]. simpl digits_rev. cbn [rev].
  rewrite numeral_app.
  assert (Hstep : forall q, q = n / 10 -> numeral 10 q [itoa_char (n mod 10)] = Some n).
  { intros q ->. cbn [numeral]. rewrite digit_value_itoa by lia. simpl. f_equal. lia. }
  destruct (Z.eqb_spec (n / 10) 0) as [Hq|Hq]; [simpl rev; cbn; apply Hstep; lia|].
  destruct k as [|k]; [change (10 ^ Z.of_nat 1) with 10 in Hn; exfalso; apply Hq; lia|].
  rewrite IH; [cbn [mbind option_bind]; now apply Hstep | | lia].
  split; [lia|]. apply Z.div_lt_upper_bound; [lia|]. rewrite <- Z.pow_succ_r by lia.
  replace (Z.succ (Z.of_nat (S k))) with (Z.of_nat (S (S k))) by lia. lia.
Qed.

(** On a string of digits alone, atol reads a decimal numeral. *)
Lemma atol_value_digits s :
  s <> [] -> Forall (fun c => isdigit c = true) s ->
  atol_value s = default 0 (numeral 10 0 s) /\ starts_blank s = false.
Proof.
  intros Hne Hs. destruct s as [|c s]; [done|]. apply Forall_cons in Hs as [Hc Hs].
  assert (48 <= c <= 57) by (unfold isdigit in Hc; lia). split.
  - transitivity (unsigned_numeral (c :: s)); [unfold atol_value; rewrite Hc; repeat case_match; simplify_eq; lia|].
    unfold unsigned_numeral. repeat case_match; simplify_eq; try done;
      apply Forall_cons in Hs as [Hx _]; done.
  - unfold starts_blank, isspace; simpl. lia.
Qed.

Lemma itoa_run fuel m n str len :
  0 <= n < 2 ^ 31 -> 11 <= len -> mapped m str (Z.to_nat len) -> (12 < fuel)%nat ->
  exists m', itoa fuel m n str len 10 = Ok (0, m') /\
    cstr_at m' str (rev (digits_rev 10 10 n)) /\
    (forall a, a < str \/ str + len <= a -> m' !! a = m !! a).
Proof.
  intros Hn Hlen Hm Hf. pose proof (length_digits_rev 10 10 n) as Hl.
  set (ds := digits_rev 10 10 n) in *. unfold itoa. destruct (Z.eqb_spec len 0); [lia|].
  rewrite (itoa_loop_run _ 9) by (first [lia | fold ds; first [lia | rewrite Z.add_0_r; eapply mapped_le; [done|lia]]]).
  fold ds. cbn [obind]. rewrite andb_false_r, Z.add_0_l, Z.add_0_r.
  rewrite store_mapped by (apply (mapped_write m str _ str ds Hm (length ds)); lia). cbn [obind].
  rewrite <- write_bytes_snoc.
  assert (Hd : Forall (fun c => 0 < c < 256) ds).
  { eapply Forall_impl; [apply digits_rev_digits|]. intros c. unfold isdigit. simpl. lia. }
  rewrite (Libc.strrev_run _ _ _ ds); [|split; [apply write_bytes_at | done] | lia | lia]. cbn [obind].
  eexists. split; [done|]. split; [split|].
  - apply bytes_at_app. split; [apply write_bytes_at|]. apply bytes_at_write_out.
    + rewrite length_rev. rewrite write_bytes_app. apply write_bytes_at.
    + unfold ranges_disjoint. rewrite length_rev. simpl. lia.
  - now apply Forall_rev.
  - intros a Ha. rewrite !write_bytes_lookup_out; [done | |]; rewrite ?length_rev, ?length_app; cbn [length]; lia.
Qed.

(** ** adler32 *)

Lemma sum_app s t : fold_right Z.add 0 (s ++ t) = fold_right Z.add 0 s + fold_right Z.add 0 t.
Proof. induction s; simpl; lia. Qed.

Lemma adler_a_snoc s c : adler_a (s ++ [c]) = adler_a s + c.
Proof. unfold adler_a. rewrite sum_app. simpl. lia. Qed.

Lemma adler_b_snoc s c : adler_b (rev (s ++ [c])) = adler_b (rev s) + adler_a (s ++ [c]).
Proof.
  rewrite rev_app_distr. cbn [rev app adler_b]. unfold adler_a.
  rewrite sum_app. cbn [fold_right]. f_equal. f_equal.
  assert (forall t, fold_right Z.add 0 (rev t) = fold_right Z.add 0 t) as ->.
  { induction t as [|d t IH]; [done|]. simpl. rewrite sum_app, IH. simpl. lia. }
  lia.
Qed.

(** The loop keeps the two sums of the bytes seen so far, each reduced. *)
Lemma adler32_loop_run m data s t :
  bytes_at m data t -> Forall (fun c => 0 <= c < 256) t ->
  adler32_loop m data (length t) (adler_a s mod MOD_ADLER) (adler_b (rev s) mod MOD_ADLER)
  = Ok (adler_a (s ++ t) mod MOD_ADLER, adler_b (rev (s ++ t)) mod MOD_ADLER).
Proof.
  revert data s. induction t as [|c t IH]; intros data s Ht Hb; cbn [adler32_loop length].
  - now rewrite app_nil_r.
  - apply bytes_at_cons in Ht as [Hc Ht]. apply Forall_cons in Hb as [Hr Hb].
    rewrite (load_Some _ _ _ Hc). cbn [obind].
    replace (s ++ c :: t) with ((s ++ [c]) ++ t) by now rewrite <- app_assoc.
    rewrite <- (IH (data + 1) (s ++ [c])) by done.
    assert (Ha : u32 (adler_a s mod MOD_ADLER + c) mod MOD_ADLER = adler_a (s ++ [c]) mod MOD_ADLER).
    { rewrite adler_a_snoc, u32_small by (unfold MOD_ADLER; lia). apply Zplus_mod_idemp_l. }
    rewrite Ha. f_equal. rewrite adler_b_snoc, u32_small by (unfold MOD_ADLER; lia).
    rewrite <- Zplus_mod. reflexivity.
Qed.

Lemma lor_shift16 a b : 0 <= a < 2 ^ 16 -> 0 <= b < 2 ^ 16 -> Z.lor (u32 (Z.shiftl b 16)) a = b * 2 ^ 16 + a.
Proof.
  intros Ha Hb. rewrite u32_small by (rewrite Z.shiftl_mul_pow2; lia). apply lor_shiftl_add; lia.
Qed.

(** ** generateRandomString *)

Lemma rand_range x : 0 <= (rand x).1 < 2 ^ 31.
Proof.
  unfold rand; simpl. change 0x7fffffff with (Z.ones 31). rewrite Z.land_ones by lia.
  pose proof (Z.mod_pos_bound (u64 (25214903917 * x + 11)) (2 ^ 31) ltac:(lia)).
  rewrite i32_small by lia. lia.
Qed.

Lemma rand_snd x : (rand x).2 = (rand x).1.
Proof. done. Qed.

Lemma alpha_bytes : Forall (fun c => 0 <= c < 256) alpha.
Proof. apply (bool_decide_unpack _). vm_compute. exact I. Qed.

Lemma random_fill_run m x buf n :
  mapped m buf n ->
  exists x' bs, random_fill m x buf n = Ok (x', write_bytes m buf bs) /\ length bs = n /\ Forall (.∈ alpha) bs.
Proof.
  revert m x. induction n as [|n IH]; intros m x Hm; [by exists x, []|].
  cbn [random_fill]. pose proof (rand_range x) as Hr. destruct (rand x) as [r x1]; simpl in Hr.
  assert (Hlt : (Z.to_nat (Z.rem r alphaSz) < length alpha)%nat).
  { rewrite Z.rem_mod_nonneg by (change alphaSz with 85; lia).
    pose proof (Z.mod_pos_bound r 85 ltac:(lia)). change alphaSz with 85. change (length alpha) with 85%nat. lia. }
  apply lookup_lt_is_Some in Hlt as [c Hc]. rewrite Hc. cbn [or_fault obind].
  rewrite store_mapped by (apply Hm; lia). cbn [obind].
  destruct (IH (<[buf + Z.of_nat n := c]> m) x1) as (x' & bs & -> & Hl & Hb).
  { apply mapped_insert. eapply mapped_le; [done|lia]. }
  exists x', (bs ++ [c]). rewrite write_bytes_snoc, Hl, write_bytes_insert_out by lia.
  split; [done|]. rewrite length_app; simpl. split; [lia|].
  apply Forall_app. split; [done|]. constructor; [|constructor]. by eapply list_elem_of_lookup_2.
Qed.

(** * Properties *)

(** atol is total on strings that do not start with a blank: it returns the
    integer the string denotes (sign, decimal or 0x-prefixed hexadecimal, 0 for
    a malformed string) reduced to a [long]; on a string that starts with a
    blank it never returns, whatever the fuel. *)
Theorem atol_denotes_or_spins fuel m a s :
  cstr_at m a s -> a <> 0 ->
  (starts_blank s = false -> (length s < fuel)%nat -> atol fuel m a = Ok (i64 (atol_value s))) /\
  (starts_blank s = true -> atol fuel m a = OutOfFuel).
Proof.
  intros Hs Ha. split; [intros; now apply atol_run|].
  intros Hb. unfold atol. destruct (Z.eqb_spec a 0); [done|].
  now rewrite (atol_skip_stuck _ _ _ _ (cstr_head _ _ _ Hs) Hb).
Qed.

Lemma atol_denotes_or_spins_witness :
  atol 9 (write_bytes ∅ 100 [45; 48; 120; 49; 102; 0]) 100 = Ok (-31) /\
  atol 9 (write_bytes ∅ 100 [32; 49; 0]) 100 = OutOfFuel.
Proof.
  split.
  - apply (atol_denotes_or_spins 9 _ 100 [45; 48; 120; 49; 102]); try (solve_mem; lia); simpl; try reflexivity; lia.
  - apply (atol_denotes_or_spins 9 _ 100 [32; 49]); try (solve_mem; lia); reflexivity.
Defined.

(** printing a non-negative int with itoa in base 10 into a buffer of at
    least 11 bytes succeeds, changes nothing outside the buffer, and atoi reads
    the same number back. *)
Theorem itoa_atoi_roundtrip fuel m n str len :
  0 <= n < 2 ^ 31 -> 11 <= len -> mapped m str (Z.to_nat len) -> str <> 0 -> (12 < fuel)%nat ->
  exists m', itoa fuel m n str len 10 = Ok (0, m') /\ atoi fuel m' str = Ok n /\
    (forall a, a < str \/ str + len <= a -> m' !! a = m !! a).
Proof.
  intros Hn Hlen Hm Hstr Hf. destruct (itoa_run fuel m n str len) as (m' & E & Hs & Ho); auto.
  exists m'. split; [done|]. split; [|done].
  pose proof (length_digits_rev 10 10 n) as Hl.
  destruct (atol_value_digits (rev (digits_rev 10 10 n))) as [Hv Hb].
  { cbn [digits_rev rev]. intros H. now apply app_eq_nil in H as [_ ?]. }
  { apply Forall_rev, digits_rev_digits. }
  unfold atoi. rewrite (atol_run _ _ _ _ Hs) by (rewrite ?length_rev; auto; lia). cbn [obind].
  rewrite Hv, numeral_digits by lia. cbn [default id]. rewrite i64_small, i32_small by lia. done.
Qed.

Lemma itoa_atoi_roundtrip_witness :
  exists m', itoa 20 (write_bytes ∅ 100 (replicate 11 7)) 2049 100 11 10 = Ok (0, m') /\ atoi 20 m' 100 = Ok 2049 /\
    (forall a, a < 100 \/ 100 + 11 <= a -> m' !! a = write_bytes ∅ 100 (replicate 11 7) !! a).
Proof. apply itoa_atoi_roundtrip; try lia. change (Z.to_nat 11) with 11%nat. solve_mem. Defined.

(** itoa has no case for a negative number: a one-digit one is printed as a
    single byte that is neither '-' nor a digit. *)
Lemma itoa_negative_garbage fuel m n str :
  -9 <= n < 0 -> mapped m str 2 -> (1 < fuel)%nat ->
  exists m', itoa fuel m n str 2 10 = Ok (0, m') /\ cstr_at m' str [48 + n].
Proof.
  intros Hn Hm Hf. destruct fuel as [|[|fuel]]; [lia|lia|].
  apply mapped_S in Hm as [H0 Hm]. apply mapped_S in Hm as [H1 _].
  unfold itoa. cbn [itoa_loop Z.eqb].
  assert (Z.rem n 10 = n) as -> by (apply Z.rem_small_iff; lia).
  assert (Z.quot n 10 = 0) as -> by (apply Z.quot_small_iff; lia).
  rewrite Z.add_0_r. rewrite store_mapped by done. cbn [obind negb andb Z.eqb].
  rewrite store_mapped by (rewrite lookup_insert_ne by lia; done). cbn [obind].
  assert (Hc : itoa_char n = 48 + n) by (unfold itoa_char; destruct (Z.ltb_spec n 10); [apply u8_small|]; lia).
  rewrite Hc.
  assert (Hcs : cstr_at (<[str + (0 + 1):=0]> (<[str:=48 + n]> m)) str [48 + n]).
  { apply cstr_at_cons. split; [split; [|lia]|apply cstr_at_nil, lookup_insert_eq].
    rewrite lookup_insert_ne by lia. apply lookup_insert_eq. }
  rewrite (Libc.strrev_run _ _ _ _ Hcs) by (simpl; lia). cbn [obind].
  eexists. split; [done|]. simpl rev. rewrite write_bytes_id; [done|].
  destruct Hcs as [Hcs _]. now apply (bytes_at_app _ _ [48 + n] [0]) in Hcs as [? _].
Qed.

(** the checksum exchanged over mailboxes is Adler-32: the two sums over the
    integers, each reduced modulo 65521, for every byte string. *)
Theorem adler32_correct m data s :
  bytes_at m data s -> Forall (fun c => 0 <= c < 256) s ->
  adler32 m data (length s) = Ok (adler32_value s).
Proof.
  intros Hs Hb. unfold adler32.
  pose proof (adler32_loop_run m data [] s Hs Hb) as E. simpl in E.
  replace (adler32_loop m data (length s) 1 0)
    with (adler32_loop m data (length s) (adler_a [] mod MOD_ADLER) (0 mod MOD_ADLER)) by reflexivity.
  rewrite E. cbn [obind]. f_equal. apply lor_shift16; unfold MOD_ADLER; lia.
Qed.

(** "Wikipedia" has the checksum 0x11E60398. *)
Lemma adler32_correct_witness :
  let s := [87; 105; 107; 105; 112; 101; 100; 105; 97] in
  adler32 (write_bytes ∅ 100 s) 100 9 = Ok 0x11E60398.
Proof. apply (adler32_correct _ 100 [87; 105; 107; 105; 112; 101; 100; 105; 97]); [solve_mem | repeat constructor; lia]. Defined.

(** generateRandomString stays inside its buffer and terminates it. *)
Lemma generateRandomString_run m x buf len :
  1 <= len -> mapped m buf (Z.to_nat len) ->
  exists x' bs, generateRandomString m x buf len = Ok (x', write_bytes m buf (bs ++ [0])) /\
    Z.of_nat (length bs) = len - 1 /\ Forall (.∈ alpha) bs.
Proof.
  intros Hl Hm. unfold generateRandomString.
  assert (Hm' : is_Some (m !! (buf + (len - 1)))).
  { replace (len - 1) with (Z.of_nat (Z.to_nat (len - 1))) by lia. apply Hm. lia. }
  rewrite store_mapped by done. cbn [obind].
  destruct (random_fill_run (<[buf + (len - 1) := 0]> m) x buf (Z.to_nat (len - 1))) as (x' & bs & -> & Hb & Ha).
  { apply mapped_insert. eapply mapped_le; [done|lia]. }
  exists x', bs. rewrite write_bytes_insert_out, write_bytes_snoc by lia.
  split; [ok_eq; f_equal; lia|]. split; [lia|done].
Qed.

(** The alphabet counts the terminator of its literal, so a string can end
    early: this seed gives a one-character buffer an empty string. *)
Lemma generateRandomString_short :
  generateRandomString (write_bytes ∅ 100 [1; 1]) 31 100 2
  = Ok ((rand 31).2, write_bytes ∅ 100 [0; 0]).
Proof. vm_compute. reflexivity. Qed.
