(* ===== verification/Bits.v ===== *)
(** Powers of two on [size_t]: [CeilPower2] and [log2] of src/kalloc.cpp
    ([CeilPower2] occurs a second time, unchanged, in tiny_libc/memory.c). *)

From Stdlib Require Import ZArith Lia List.
From stdpp Require Import base numbers list.
From S2P Require Import Prelude.

Local Open Scope Z_scope.

#[local] Ltac Zify.zify_post_hook ::= Z.div_mod_to_equations.

(** constexpr size_t CeilPower2(size_t x) *)
Definition CeilPower2 (x : Z) : Z :=
  let x := u64 (x - 1) in
  let x := Z.lor x (Z.shiftr x 1) in
  let x := Z.lor x (Z.shiftr x 2) in
  let x := Z.lor x (Z.shiftr x 4) in
  let x := Z.lor x (Z.shiftr x 8) in
  let x := Z.lor x (Z.shiftr x 16) in
  let x := Z.lor x (Z.shiftr x 32) in
  u64 (x + 1).

(** [while (x >>= 1) res++;]: a 64-bit value is zero after 64 shifts, so the
    fuel of [log2] is never the reason to stop ([log2_correct]). *)
Fixpoint log2_loop (fuel : nat) (x res : Z) : Z :=
  match fuel with
  | O => res
  | S fuel' =>
      let x' := Z.shiftr x 1 in
      if x' =? 0 then res else log2_loop fuel' x' (u8 (res + 1))
  end.

(** constexpr uint8_t log2(size_t x) *)
Definition log2 (x : Z) : Z := log2_loop 64 x 0.

(** * Smearing the highest bit *)

(** [r] has bit [i] set exactly when one of the bits [i .. i+n-1] of [x] is. *)
Definition smeared (n x r : Z) : Prop :=
  forall i, 0 <= i -> Z.testbit r i = true <-> exists j, 0 <= j < n /\ Z.testbit x (i + j) = true.

Lemma smeared_1 x : smeared 1 x x.
Proof.
  intros i Hi. split.
  - intros H. exists 0. rewrite Z.add_0_r. split; [lia | done].
  - intros (j & Hj & H). assert (j = 0) as -> by lia. now rewrite Z.add_0_r in H.
Qed.

Lemma smeared_step n m x r :
  0 <= n -> m = n + n -> smeared n x r -> smeared m x (Z.lor r (Z.shiftr r n)).
Proof.
  intros Hn -> Hr i Hi. rewrite Z.lor_spec, Z.shiftr_spec, Bool.orb_true_iff by done.
  rewrite (Hr i), (Hr (i + n)) by lia. split.
  - intros [(j & Hj & H)|(j & Hj & H)]; [exists j | exists (n + j)].
    + split; [lia | done].
    + split; [lia | now rewrite Z.add_assoc].
  - intros (j & Hj & H). destruct (Z.lt_ge_cases j n); [left; exists j | right; exists (j - n)].
    + split; [lia | done].
    + split; [lia|]. now replace (i + n + (j - n)) with (i + j) by lia.
Qed.

Lemma smeared_64_ones x r :
  0 < x < 2 ^ 64 -> smeared 64 x r -> 0 <= r -> r = Z.ones (Z.log2 x + 1).
Proof.
  intros Hx Hr Hr0. apply Z.bits_inj'. intros i Hi.
  assert (Z.log2 x < 64) as Hlog by (apply Z.log2_lt_pow2; lia).
  pose proof (Z.log2_nonneg x).
  rewrite Z.testbit_ones_nonneg by lia.
  destruct (Z.ltb_spec i (Z.log2 x + 1)) as [Hlt|Hge].
  - apply Hr; [done|]. exists (Z.log2 x - i). split; [lia|].
    replace (i + (Z.log2 x - i)) with (Z.log2 x) by lia. apply Z.bit_log2. lia.
  - apply Bool.not_true_iff_false. intros Hb. apply Hr in Hb as (j & Hj & Hb); [|done].
    rewrite Z.bits_above_log2 in Hb by lia. discriminate.
Qed.

Lemma lor_shiftr_nonneg x k : 0 <= x -> 0 <= Z.lor x (Z.shiftr x k).
Proof. intros. apply Z.lor_nonneg. split; [done|]. now apply Z.shiftr_nonneg. Qed.

(** CeilPower2 rounds up to a power of two on the whole range where one exists. *)
Lemma CeilPower2_correct x : 0 < x <= 2 ^ 63 -> CeilPower2 x = 2 ^ Z.log2_up x.
Proof.
  intros Hx. unfold CeilPower2. rewrite (u64_small (x - 1)) by lia.
  destruct (Z.eq_dec x 1) as [->|Hne]; [done|].
  pose proof (smeared_1 (x - 1)) as H1.
  apply (smeared_step 1 2) in H1; [|lia|done]. apply (smeared_step 2 4) in H1; [|lia|done].
  apply (smeared_step 4 8) in H1; [|lia|done]. apply (smeared_step 8 16) in H1; [|lia|done].
  apply (smeared_step 16 32) in H1; [|lia|done]. apply (smeared_step 32 64) in H1; [|lia|done].
  apply smeared_64_ones in H1; [|lia|].
  2: { repeat apply lor_shiftr_nonneg. lia. }
  rewrite H1, Z.ones_equiv, Z.log2_up_eqn by lia.
  assert (Z.log2 (x - 1) < 63) by (apply Z.log2_lt_pow2; lia). pose proof (Z.log2_nonneg (x - 1)).
  replace (Z.pred x) with (x - 1) by lia.
  replace (Z.pred (2 ^ (Z.log2 (x - 1) + 1)) + 1) with (2 ^ (Z.log2 (x - 1) + 1)) by lia.
  apply u64_small. split; [lia|]. apply Z.pow_lt_mono_r; lia.
Qed.

Lemma CeilPower2_0 : CeilPower2 0 = 0.
Proof. reflexivity. Qed.

Lemma CeilPower2_bounds x :
  0 < x <= 2 ^ 63 -> x <= CeilPower2 x < 2 * x /\ CeilPower2 x = 2 ^ Z.log2_up x.
Proof.
  intros Hx. rewrite CeilPower2_correct by done. split; [|done].
  destruct (Z.eq_dec x 1) as [->|Hne]; [done|].
  pose proof (Z.log2_up_spec x ltac:(lia)) as [H1 H2]. split; [done|].
  assert (0 < Z.log2_up x) by (apply Z.log2_up_pos; lia).
  replace (Z.log2_up x) with (Z.succ (Z.pred (Z.log2_up x))) by lia.
  rewrite Z.pow_succ_r by lia. lia.
Qed.

(** * The logarithm *)

Lemma log2_loop_correct fuel x res :
  0 <= x < 2 ^ Z.of_nat fuel -> 0 <= res -> res + Z.of_nat fuel < 256 ->
  log2_loop fuel x res = res + Z.log2 x.
Proof.
  revert x res. induction fuel as [|fuel IH]; intros x res Hx Hr Hb.
  - assert (x = 0) as -> by (simpl in Hx; lia). simpl. lia.
  - cbn [log2_loop]. rewrite Z.shiftr_div_pow2 by lia. change (2 ^ 1) with 2.
    destruct (Z.eqb_spec (x / 2) 0) as [H0|H0].
    + assert (x = 0 \/ x = 1) as [->| ->] by lia; simpl; lia.
    + rewrite u8_small by lia. rewrite Nat2Z.inj_succ, Z.pow_succ_r in Hx by lia.
      rewrite IH; [|lia|lia|lia].
      replace (Z.log2 x) with (Z.succ (Z.log2 (x / 2))); [lia|].
      rewrite <- Z.log2_double by lia.
      destruct (Z.eq_dec (x mod 2) 0) as [E|E].
      * f_equal. lia.
      * replace x with (2 * (x / 2) + 1) at 2 by lia. rewrite Z.log2_succ_double, Z.log2_double; lia.
Qed.

Lemma log2_correct x : 0 <= x < 2 ^ 64 -> log2 x = Z.log2 x.
Proof.
  intros Hx. unfold log2. rewrite log2_loop_correct; [lia| | |].
  - change (Z.of_nat 64) with 64. done.
  - lia.
  - change (Z.of_nat 64) with 64. lia.
Qed.

Lemma log2_pow2 k : 0 <= k < 64 -> log2 (2 ^ k) = k.
Proof.
  intros Hk. rewrite log2_correct; [now rewrite Z.log2_pow2 by lia|].
  split; [lia|]. apply Z.pow_lt_mono_r; lia.
Qed.
