(* ===== verification/BuddyTree.v ===== *)
(** The abstract buddy tree and its array representation.

    A pool of [2^H] cells is a binary tree whose nodes are free, handed out, or
    split.  [blocks] lists the handed-out blocks; [rep] says that an array in
    heap layout (children of [i] at [2i+1] and [2i+2]) stores such a tree with
    the encoding the kernel uses: 0 for a node with no free cell, [h+1] for the
    largest free block [2^h] below it.  A focus in the tree is a node together
    with the siblings met on the way to the root ([rep_ctx]); [plug] rebuilds
    the tree and merges two free buddies.  The file has no counterpart in the
    source: it is the specification the array code is proved against. *)

From Stdlib Require Import Arith Lia List Permutation.
From stdpp Require Import base numbers list.
From S2P Require Import Prelude.

Inductive btree : Type :=
| Free
| Used
| Split (l r : btree).

#[export] Instance btree_eq_dec : EqDecision btree.
Proof. solve_decision. Defined.

(** Logarithm plus one of the largest free block, 0 when there is none. *)
Fixpoint top (h : nat) (t : btree) : nat :=
  match t with
  | Free => S h
  | Used => 0
  | Split l r => Nat.max (top (pred h) l) (top (pred h) r)
  end.

(** Every node of a free subtree holds the value of a free node. *)
Fixpoint full (h : nat) (a : list nat) (i : nat) : Prop :=
  a !! i = Some (S h) /\
  match h with
  | O => True
  | S h' => full h' a (2 * i + 1) /\ full h' a (2 * i + 2)
  end.

(** The array [a] stores the tree [t] of height [h] at node [i]; the tree has no
    split node with two free halves. *)
Fixpoint rep (h : nat) (a : list nat) (i : nat) (t : btree) {struct t} : Prop :=
  match t with
  | Free => full h a i
  | Used =>
      a !! i = Some 0 /\
      match h with
      | O => True
      | S h' => full h' a (2 * i + 1) /\ full h' a (2 * i + 2)
      end
  | Split l r =>
      match h with
      | O => False
      | S h' =>
          a !! i = Some (Nat.max (top h' l) (top h' r)) /\
          rep h' a (2 * i + 1) l /\ rep h' a (2 * i + 2) r /\ ~ (l = Free /\ r = Free)
      end
  end.

(** Handed-out blocks as (offset, height) pairs. *)
Fixpoint blocks (h off : nat) (t : btree) : list (nat * nat) :=
  match t with
  | Free => []
  | Used => [(off, h)]
  | Split l r =>
      blocks (pred h) off l ++ blocks (pred h) (off + 2 ^ pred h) r
  end.

Definition covers (b : nat * nat) (x : nat) : Prop := b.1 <= x < b.1 + 2 ^ b.2.

Definition bdisj (b c : nat * nat) : Prop :=
  b.1 + 2 ^ b.2 <= c.1 \/ c.1 + 2 ^ c.2 <= b.1.

(** ** Focus *)

(** [FL r]: the focus is a left child whose sibling is [r]; [FR l] likewise. *)
Inductive frame := FL (r : btree) | FR (l : btree).

Definition join (l r : btree) : btree :=
  match l, r with Free, Free => Free | _, _ => Split l r end.

Fixpoint plug (c : list frame) (t : btree) : btree :=
  match c with
  | [] => t
  | FL r :: c' => plug c' (join t r)
  | FR l :: c' => plug c' (join l t)
  end.

(** [under j p]: node [p] lies in the subtree of node [j]. *)
Definition under (j p : nat) : Prop := exists d, (p + 1) / 2 ^ d = j + 1.

Section Focus.
Context (H : nat).

(** The siblings on the way from node [i] of height [h] to the root. *)
Fixpoint rep_ctx (h : nat) (a : list nat) (i : nat) (c : list frame) : Prop :=
  match c with
  | [] => i = 0 /\ h = H
  | FL r :: c' => exists p, i = 2 * p + 1 /\ rep h a (2 * p + 2) r /\ rep_ctx (S h) a p c'
  | FR l :: c' => exists p, i = 2 * p + 2 /\ rep h a (2 * p + 1) l /\ rep_ctx (S h) a p c'
  end.

(** First cell of node [i] of height [h]. *)
Definition noff (h i : nat) : nat := (i + 1) * 2 ^ h - 2 ^ H.

Fixpoint blocks_ctx (h i : nat) (c : list frame) : list (nat * nat) :=
  match c with
  | [] => []
  | FL r :: c' => blocks h (noff h i + 2 ^ h) r ++ blocks_ctx (S h) ((i - 1) / 2) c'
  | FR l :: c' => blocks h (noff h i - 2 ^ h) l ++ blocks_ctx (S h) ((i - 1) / 2) c'
  end.
End Focus.

(** * Lemmas on the encoding *)

Lemma full_val h a i : full h a i -> a !! i = Some (S h).
Proof. destruct h; simpl; tauto. Qed.

Lemma rep_val h a i t : rep h a i t -> a !! i = Some (top h t).
Proof. destruct t, h; simpl; intuition. Qed.

Lemma join_split l r : ~ (l = Free /\ r = Free) -> join l r = Split l r.
Proof. destruct l, r; simpl; intuition congruence. Qed.

Lemma blocks_join h off l r :
  blocks (S h) off (join l r) = blocks h off l ++ blocks h (off + 2 ^ h) r.
Proof. destruct l, r; reflexivity. Qed.

Lemma top_bound h a i t : rep h a i t -> top h t <= S h /\ (top h t = S h -> t = Free).
Proof.
  revert h i. induction t as [| |l IHl r IHr]; intros h i; simpl;
    [intros _; split; [lia|done] | intros _; split; [lia|discriminate] |].
  destruct h as [|h]; [done|]. intros (_ & Hl & Hr & _).
  apply IHl in Hl as [Hl _]. apply IHr in Hr as [Hr _]. simpl. split; [lia|].
  intros; exfalso; lia.
Qed.

Lemma no_blocks_free h a i off t : rep h a i t -> blocks h off t = [] -> t = Free.
Proof.
  revert h i off. induction t as [| |l IHl r IHr]; intros h i off; [done|done|].
  destruct h as [|h]; [done|]. simpl. intros (_ & Hl & Hr & Hn) Hb.
  apply app_eq_nil in Hb as [Hbl Hbr]. exfalso. eauto.
Qed.

(** * Subtrees and frames *)

Lemma under_refl j : under j j.
Proof. exists 0. simpl. apply Nat.div_1_r. Qed.

Lemma under_child j p x : x = 2 * j + 1 \/ x = 2 * j + 2 -> under x p -> under j p.
Proof.
  intros Hx [d Hd]. exists (S d). rewrite Nat.pow_succ_r', Nat.mul_comm, <- Nat.Div0.div_div, Hd.
  destruct Hx as [-> | ->].
  - replace (2 * j + 1 + 1) with ((j + 1) * 2) by lia. apply Nat.div_mul. lia.
  - replace (2 * j + 2 + 1) with (1 + (j + 1) * 2) by lia.
    rewrite Nat.div_add by lia. simpl. lia.
Qed.

Lemma under_left j p : under (2 * j + 1) p -> under j p.
Proof. apply under_child. auto. Qed.

Lemma under_right j p : under (2 * j + 2) p -> under j p.
Proof. apply under_child. auto. Qed.

Create HintDb buddy.
#[export] Hint Resolve under_refl under_left under_right : buddy.

Lemma div_pow_lt n k : 0 < n -> 0 < k -> n / 2 ^ k <= n / 2.
Proof.
  intros Hn Hk. destruct k as [|k]; [lia|]. rewrite Nat.pow_succ_r', <- Nat.Div0.div_div.
  apply Nat.Div0.div_le_upper_bound. pose proof (Nat.pow_nonzero 2 k). nia.
Qed.

(** Siblings have disjoint subtrees. *)
Lemma under_sibling p x :
  under (2 * p + 1) x -> under (2 * p + 2) x -> False.
Proof.
  assert (forall i s d e, (i = 2 * p + 1 /\ s = 2 * p + 2) \/ (i = 2 * p + 2 /\ s = 2 * p + 1) ->
    (x + 1) / 2 ^ d = i + 1 -> (x + 1) / 2 ^ e = s + 1 -> d <= e -> False) as Hw.
  { intros i s d e His Hd He Hle. destruct (decide (d = e)) as [->|Hne]; [lia|].
    replace e with (d + (e - d)) in He by lia.
    rewrite Nat.pow_add_r, <- Nat.Div0.div_div, Hd in He.
    pose proof (div_pow_lt (i + 1) (e - d) ltac:(lia) ltac:(lia)).
    assert ((i + 1) / 2 = p + 1); [|lia].
    destruct His as [[-> _]|[-> _]].
    - replace (2 * p + 1 + 1) with ((p + 1) * 2) by lia. apply Nat.div_mul. lia.
    - replace (2 * p + 2 + 1) with (1 + (p + 1) * 2) by lia. now rewrite Nat.div_add by lia. }
  intros [d Hd] [e He]. destruct (Nat.le_ge_cases d e).
  - apply (Hw (2 * p + 1) (2 * p + 2) d e); auto.
  - apply (Hw (2 * p + 2) (2 * p + 1) e d); auto.
Qed.

Lemma full_frame h a i p v : ~ under i p -> full h a i -> full h (<[p := v]> a) i.
Proof.
  revert i. induction h as [|h IH]; intros i Hu; cbn [full]; intros [Hv Hc].
  - split; [|done]. rewrite list_lookup_insert_ne; [done|].
    intros ->. apply Hu, under_refl.
  - split.
    + rewrite list_lookup_insert_ne; [done|]. intros ->. apply Hu, under_refl.
    + destruct Hc. split; apply IH; auto with buddy.
Qed.

Lemma rep_frame h a i p v t : ~ under i p -> rep h a i t -> rep h (<[p := v]> a) i t.
Proof.
  revert h i. induction t as [| |l IHl r IHr]; intros h i Hu.
  - apply full_frame; done.
  - simpl. intros [Hv Hc]. split.
    + rewrite list_lookup_insert_ne; [done|]. intros ->. apply Hu, under_refl.
    + destruct h as [|h]; [done|]. destruct Hc.
      split; apply full_frame; auto with buddy.
  - destruct h as [|h]; [done|]. simpl. intros (Hv & Hl & Hr & Hn). split; [|split; [|split]].
    + rewrite list_lookup_insert_ne; [done|]. intros ->. apply Hu, under_refl.
    + apply IHl; auto with buddy.
    + apply IHr; auto with buddy.
    + done.
Qed.

Lemma rep_ctx_frame H h a i p v c :
  under i p -> rep_ctx H h a i c -> rep_ctx H h (<[p := v]> a) i c.
Proof.
  revert h i. induction c as [|f c IH]; intros h i Hu; [done|].
  destruct f; cbn [rep_ctx]; intros (q & -> & Hs & Hc); exists q; (split; [done|]);
    (split; [apply rep_frame; [|done]; intros Hx | apply IH; [auto with buddy | done]]).
  - exact (under_sibling _ _ Hu Hx).
  - exact (under_sibling _ _ Hx Hu).
Qed.

(** * Shape *)

Fixpoint wf (h : nat) (t : btree) {struct t} : Prop :=
  match t with
  | Free | Used => True
  | Split l r =>
      match h with
      | O => False
      | S h' => wf h' l /\ wf h' r /\ ~ (l = Free /\ r = Free)
      end
  end.

Lemma rep_wf h a i t : rep h a i t -> wf h t.
Proof.
  revert h i. induction t as [| |l IHl r IHr]; intros h i; [intros _; exact I|intros _; exact I|].
  destruct h as [|h]; [intros []|]. intros (_ & Hl & Hr & Hn). simpl. eauto.
Qed.

Lemma pow2_pos n : 0 < 2 ^ n.
Proof. pose proof (Nat.pow_nonzero 2 n). lia. Qed.
#[export] Hint Resolve pow2_pos : buddy.

Lemma pow2_S n : 2 ^ S n = 2 ^ n + 2 ^ n.
Proof. simpl. lia. Qed.

(** Every block lies inside its subtree, at a multiple of its size. *)
Lemma blocks_range h off t b :
  wf h t -> b ∈ blocks h off t ->
  off <= b.1 /\ b.1 + 2 ^ b.2 <= off + 2 ^ h /\ b.2 <= h /\ (exists m, b.1 = off + m * 2 ^ b.2).
Proof.
  revert h off. induction t as [| |l IHl r IHr]; intros h off Hw Hb.
  - now apply elem_of_nil in Hb.
  - apply list_elem_of_singleton in Hb as ->. simpl. repeat split; try lia. exists 0. lia.
  - destruct h as [|h]; [destruct Hw|]. simpl in Hw, Hb. destruct Hw as (Hl & Hr & _).
    rewrite pow2_S. apply elem_of_app in Hb as [Hb|Hb].
    + apply IHl in Hb as (?&?&?&m&Hm); [|done]. repeat split; try lia. exists m. lia.
    + apply IHr in Hb as (?&?&?&m&Hm); [|done]. repeat split; try lia.
      exists (2 ^ (h - b.2) + m).
      rewrite Nat.mul_add_distr_r, <- Nat.pow_add_r. replace (h - b.2 + b.2) with h by lia. lia.
Qed.

Lemma bdisj_sym b c : bdisj b c -> bdisj c b.
Proof. unfold bdisj. tauto. Qed.

Lemma FOP_app (l1 l2 : list (nat * nat)) :
  ForallOrdPairs bdisj l1 -> ForallOrdPairs bdisj l2 ->
  (forall b c, b ∈ l1 -> c ∈ l2 -> bdisj b c) -> ForallOrdPairs bdisj (l1 ++ l2).
Proof.
  induction 1 as [|b l1 Hb H1 IH]; intros H2 Hx; simpl; [done|]. constructor.
  - apply Forall_app. split; [done|]. apply Forall_forall. intros c Hc. apply Hx; [left | done].
  - apply IH; [done|]. intros c d Hc Hd. apply Hx; [now right | done].
Qed.

Lemma FOP_perm (l1 l2 : list (nat * nat)) :
  l1 ≡ₚ l2 -> ForallOrdPairs bdisj l1 -> ForallOrdPairs bdisj l2.
Proof.
  induction 1 as [|b l1 l2 Hp IH|b c l|l1 l2 l3 _ IH1 _ IH2]; intros Hf; [done| | |auto].
  - inversion Hf as [|? ? Hb Hf']; subst. constructor; [now rewrite <- Hp | now apply IH].
  - inversion Hf as [|? ? Hc Hf']; subst. inversion Hf' as [|? ? Hb Hf'']; subst.
    inversion Hc as [|? ? Hcb Hcl]; subst. apply FOP_cons; [|apply FOP_cons; assumption].
    constructor; [now apply bdisj_sym | assumption].
Qed.

(** Distinct blocks share no cell. *)
Lemma blocks_disjoint h off t : wf h t -> ForallOrdPairs bdisj (blocks h off t).
Proof.
  revert h off. induction t as [| |l IHl r IHr]; intros h off Hw; simpl.
  - constructor.
  - repeat constructor.
  - destruct h as [|h]; [destruct Hw|]. destruct Hw as (Hl & Hr & _). apply FOP_app; auto.
    intros b c Hb Hc. apply blocks_range in Hb; [|done]. apply blocks_range in Hc; [|done].
    left. simpl in *. lia.
Qed.

(** A cell in no block lies under a free node. *)
Lemma free_cell_top h off t x :
  wf h t -> off <= x < off + 2 ^ h -> (forall b, b ∈ blocks h off t -> ~ covers b x) ->
  0 < top h t.
Proof.
  revert h off. induction t as [| |l IHl r IHr]; intros h off Hw Hx Hb; simpl; [lia| |].
  - exfalso. apply (Hb (off, h)); [left | exact Hx].
  - destruct h as [|h]; [destruct Hw|]. destruct Hw as (Hl & Hr & _). rewrite pow2_S in Hx. simpl in *.
    destruct (Nat.lt_ge_cases x (off + 2 ^ h)).
    + enough (0 < top h l) by lia. apply (IHl h off); [done|lia|].
      intros b Hin. apply Hb. apply elem_of_app. now left.
    + enough (0 < top h r) by lia. apply (IHr h (off + 2 ^ h)); [done|lia|].
      intros b Hin. apply Hb. apply elem_of_app. now right.
Qed.

Lemma wf_no_blocks h off t : wf h t -> (forall b, b ∉ blocks h off t) -> t = Free.
Proof.
  revert h off. induction t as [| |l IHl r IHr]; intros h off Hw Hx; [done| |].
  - exfalso. apply (Hx (off, h)). left.
  - destruct h as [|h]; [destruct Hw|]. destruct Hw as (Hl & Hr & Hn). exfalso. apply Hn. split.
    + apply (IHl h off); [done|]. intros b Hin. apply (Hx b), elem_of_app. now left.
    + apply (IHr h (off + 2 ^ h)); [done|]. intros b Hin. apply (Hx b), elem_of_app. now right.
Qed.

(** [top] does not miss a free aligned run of [2^k] cells. *)
Lemma top_complete h off t k m :
  wf h t -> k <= h -> (m + 1) * 2 ^ k <= 2 ^ h ->
  (forall b, b ∈ blocks h off t -> bdisj b (off + m * 2 ^ k, k)) -> S k <= top h t.
Proof.
  revert h off m. induction t as [| |l IHl r IHr]; intros h off m Hw Hk Hm Hb; simpl; [lia| |].
  - exfalso. specialize (Hb (off, h) ltac:(left)). unfold bdisj in Hb. simpl in Hb.
    pose proof (pow2_pos k). pose proof (pow2_pos h). nia.
  - destruct h as [|h]; [destruct Hw|]. destruct Hw as (Hl & Hr & Hn). simpl pred in *.
    destruct (decide (k = S h)) as [->|Hne].
    + exfalso. apply Hn. assert (m = 0) as -> by (pose proof (pow2_pos (S h)); nia).
      split; [apply (wf_no_blocks h off) | apply (wf_no_blocks h (off + 2 ^ h))]; try done;
        intros b Hin; pose proof Hin as Hin'; apply blocks_range in Hin' as (?&?&?&_); try done;
        pose proof (pow2_pos b.2);
        (assert (b ∈ blocks h off l ++ blocks h (off + 2 ^ h) r) as Hin2
           by (apply elem_of_app; tauto));
        specialize (Hb b Hin2); unfold bdisj in Hb; simpl in Hb; lia.
    + assert (exists q, 2 ^ h = q * 2 ^ k) as [q Hq].
      { exists (2 ^ (h - k)). rewrite <- Nat.pow_add_r. f_equal. lia. }
      rewrite pow2_S in Hm. pose proof (pow2_pos k).
      destruct (Nat.lt_ge_cases m q).
      * enough (S k <= top h l) by lia. apply (IHl h off m); [done|lia|nia|].
        intros b Hin. apply Hb. apply elem_of_app. now left.
      * enough (S k <= top h r) by lia. apply (IHr h (off + 2 ^ h) (m - q)); [done|lia|nia|].
        intros b Hin. replace (off + 2 ^ h + (m - q) * 2 ^ k) with (off + m * 2 ^ k) by nia.
        apply Hb. apply elem_of_app. now right.
Qed.

(** * The focus *)

Section FocusLemmas.
Context (H : nat).

(** Position of a focused node: it is the [j]-th node of its level. *)
Lemma ctx_index h a i c :
  rep_ctx H h a i c -> exists d j, H = h + d /\ i + 1 = 2 ^ d + j /\ j < 2 ^ d.
Proof.
  revert h i. induction c as [|f c IH]; intros h i; cbn [rep_ctx].
  - intros [-> ->]. exists 0, 0. simpl. lia.
  - destruct f; intros (p & -> & _ & Hc); apply IH in Hc as (d & j & HH & Hp & Hj).
    + exists (S d), (2 * j). rewrite pow2_S. lia.
    + exists (S d), (2 * j + 1). rewrite pow2_S. lia.
Qed.

Lemma noff_eq h i d j : H = h + d -> i + 1 = 2 ^ d + j -> noff H h i = j * 2 ^ h.
Proof.
  intros -> Hi. unfold noff. rewrite Hi, Nat.pow_add_r. lia.
Qed.

Lemma noff_left h a p c :
  rep_ctx H (S h) a p c -> noff H h (2 * p + 1) = noff H (S h) p.
Proof.
  intros Hc. unfold noff. f_equal. simpl. lia.
Qed.

Lemma noff_right h a p c :
  rep_ctx H (S h) a p c -> noff H h (2 * p + 2) = noff H (S h) p + 2 ^ h.
Proof.
  intros Hc. apply ctx_index in Hc as (d & j & HH & Hp & Hj).
  rewrite (noff_eq _ _ _ _ HH Hp), (noff_eq _ _ (S d) (2 * j + 1)); [| lia | rewrite pow2_S; lia].
  rewrite pow2_S. lia.
Qed.

Lemma parent_left p : (2 * p + 1 - 1) / 2 = p.
Proof. replace (2 * p + 1 - 1) with (p * 2) by lia. apply Nat.div_mul. lia. Qed.

Lemma parent_right p : (2 * p + 2 - 1) / 2 = p.
Proof.
  replace (2 * p + 2 - 1) with (1 + p * 2) by lia. now rewrite Nat.div_add by lia.
Qed.

Lemma blocks_plug h a i c t :
  rep_ctx H h a i c ->
  blocks H 0 (plug c t) ≡ₚ blocks h (noff H h i) t ++ blocks_ctx H h i c.
Proof.
  revert h i t. induction c as [|f c IH]; intros h i t; cbn [rep_ctx plug blocks_ctx].
  - intros [-> ->]. unfold noff. rewrite app_nil_r.
    replace ((0 + 1) * 2 ^ H - 2 ^ H) with 0 by lia. done.
  - destruct f; intros (p & -> & _ & Hc); rewrite (IH _ _ _ Hc), blocks_join.
    + rewrite parent_left, <- (noff_left _ _ _ _ Hc), app_assoc. done.
    + rewrite parent_right, (noff_right _ _ _ _ Hc), Nat.add_sub.
      rewrite (Permutation_app_comm (blocks h (noff H (S h) p) l)), app_assoc. done.
Qed.

(** Node [i] of height [h] is at most at the depth of the tree. *)
Lemma ctx_child_in_range h a i c :
  rep_ctx H (S h) a i c -> 2 * i + 2 < 2 ^ S H - 1.
Proof.
  intros Hc. apply ctx_index in Hc as (d & j & HH & Hp & Hj).
  replace (S H) with (h + (2 + d)) by lia. rewrite Nat.pow_add_r, (Nat.pow_add_r 2 2 d).
  pose proof (pow2_pos h). change (2 ^ 2) with 4. nia.
Qed.

Lemma ctx_in_range h a i c : rep_ctx H h a i c -> i < 2 ^ S H - 1.
Proof.
  intros Hc. apply ctx_index in Hc as (d & j & HH & Hp & Hj).
  replace (S H) with (h + S d) by lia. rewrite Nat.pow_add_r, pow2_S.
  pose proof (pow2_pos h). nia.
Qed.

(** A block of the tree can be brought into focus. *)
Lemma focus_block h a i c t o k :
  rep h a i t -> rep_ctx H h a i c -> (o, k) ∈ blocks h (noff H h i) t ->
  exists i' c', rep k a i' Used /\ rep_ctx H k a i' c' /\
    plug c' Used = plug c t /\ noff H k i' = o.
Proof.
  revert h i c. induction t as [| |l IHl r IHr]; intros h i c Hr Hc Hin.
  - now apply elem_of_nil in Hin.
  - apply list_elem_of_singleton in Hin. injection Hin as -> ->. eauto 6.
  - destruct h as [|h]; [destruct Hr|]. destruct Hr as (_ & Hl & Hr & Hn).
    cbn [blocks pred] in Hin. apply elem_of_app in Hin as [Hin|Hin].
    + rewrite <- (noff_left _ _ _ _ Hc) in Hin.
      destruct (IHl h (2 * i + 1) (FL r :: c) Hl) as (i' & c' & Hu & Hc' & Hp & Ho);
        [simpl; eauto | done |].
      exists i', c'. split; [done|split; [done|split; [|done]]].
      rewrite Hp. cbn [plug]. now rewrite join_split.
    + rewrite <- (noff_right _ _ _ _ Hc) in Hin.
      destruct (IHr h (2 * i + 2) (FR l :: c) Hr) as (i' & c' & Hu & Hc' & Hp & Ho);
        [simpl; eauto | done |].
      exists i', c'. split; [done|split; [done|split; [|done]]].
      rewrite Hp. cbn [plug]. now rewrite join_split.
Qed.
End FocusLemmas.

(** * Uniqueness *)

Definition left_half (mid : nat) (l : list (nat * nat)) : list (nat * nat) :=
  List.filter (fun b => b.1 <? mid) l.
Definition right_half (mid : nat) (l : list (nat * nat)) : list (nat * nat) :=
  List.filter (fun b => negb (b.1 <? mid)) l.

Lemma filter_all {A} (f : A -> bool) l : Forall (fun x => f x = true) l -> List.filter f l = l.
Proof. induction 1 as [|x l Hx _ IH]; simpl; [done|]. now rewrite Hx, IH. Qed.

Lemma filter_none {A} (f : A -> bool) l : Forall (fun x => f x = false) l -> List.filter f l = [].
Proof. induction 1 as [|x l Hx _ IH]; simpl; [done|]. now rewrite Hx, IH. Qed.

Lemma filter_perm {A} (f : A -> bool) (l1 l2 : list A) :
  l1 ≡ₚ l2 -> List.filter f l1 ≡ₚ List.filter f l2.
Proof.
  induction 1; simpl; repeat case_match; try done; try (now constructor). etrans; eauto.
Qed.

Lemma halves_split h off l r :
  wf h l -> wf h r ->
  left_half (off + 2 ^ h) (blocks (S h) off (Split l r)) = blocks h off l /\
  right_half (off + 2 ^ h) (blocks (S h) off (Split l r)) = blocks h (off + 2 ^ h) r.
Proof.
  intros Hl Hr. unfold left_half, right_half. cbn [blocks pred]. rewrite !List.filter_app.
  assert (Forall (fun b : nat * nat => (b.1 <? off + 2 ^ h) = true) (blocks h off l)) as H1.
  { apply Forall_forall. intros b Hb. apply blocks_range in Hb; [|done].
    apply Nat.ltb_lt. pose proof (pow2_pos b.2). lia. }
  assert (Forall (fun b : nat * nat => (b.1 <? off + 2 ^ h) = false)
            (blocks h (off + 2 ^ h) r)) as H2.
  { apply Forall_forall. intros b Hb. apply blocks_range in Hb; [|done]. apply Nat.ltb_ge. lia. }
  rewrite (filter_all _ _ H1), (filter_none _ _ H2), app_nil_r. split; [done|].
  rewrite filter_none, filter_all; [done | |]; eapply Forall_impl; eauto;
    intros b Hb; cbn in *; now rewrite Hb.
Qed.

(** The handed-out blocks determine the tree. *)
Lemma split_not_used h off l r :
  wf (S h) (Split l r) -> (off, S h) ∉ blocks (S h) off (Split l r).
Proof.
  intros (Hl & Hr & _) Hin. cbn [blocks pred] in Hin.
  apply elem_of_app in Hin as [Hin|Hin]; apply blocks_range in Hin; try done; simpl in Hin; lia.
Qed.

Lemma blocks_unique h off t u :
  wf h t -> wf h u -> blocks h off t ≡ₚ blocks h off u -> t = u.
Proof.
  revert h off u. induction t as [| |l IHl r IHr]; intros h off u Ht Hu Hp.
  - symmetry. apply (wf_no_blocks h off); [done|]. intros b. rewrite <- Hp. apply not_elem_of_nil.
  - assert ((off, h) ∈ blocks h off u) as Hin by (rewrite <- Hp; left).
    destruct u as [| |l r]; [now apply elem_of_nil in Hin | done |].
    destruct h as [|h]; [destruct Hu|]. exfalso. eapply split_not_used; eauto.
  - destruct h as [|h]; [destruct Ht|]. destruct u as [| |l' r'].
    + apply (wf_no_blocks (S h) off); [done|]. intros b. rewrite Hp. apply not_elem_of_nil.
    + exfalso. apply (split_not_used h off l r Ht). rewrite Hp. left.
    + destruct Ht as (Hl & Hr & _), Hu as (Hl' & Hr' & _).
      destruct (halves_split h off l r Hl Hr) as [E1 E2].
      destruct (halves_split h off l' r' Hl' Hr') as [E1' E2'].
      f_equal; [apply (IHl h off) | apply (IHr h (off + 2 ^ h))]; try done.
      * rewrite <- E1, <- E1'. now apply filter_perm.
      * rewrite <- E2, <- E2'. now apply filter_perm.
Qed.

(** One step down towards a node of a subtree. *)
Lemma under_step p d i :
  (p + 1) / 2 ^ S d = i + 1 ->
  (p + 1) / 2 ^ d = 2 * i + 1 + 1 \/ (p + 1) / 2 ^ d = 2 * i + 2 + 1.
Proof.
  rewrite Nat.pow_succ_r', Nat.mul_comm, <- Nat.Div0.div_div. intros Hp.
  pose proof (Nat.div_mod_eq ((p + 1) / 2 ^ d) 2) as E. rewrite Hp in E.
  pose proof (Nat.mod_upper_bound ((p + 1) / 2 ^ d) 2). lia.
Qed.

(** The tree determines the array below its root. *)
Lemma full_agree h a a' i d p :
  full h a i -> full h a' i -> d <= h -> (p + 1) / 2 ^ d = i + 1 -> a !! p = a' !! p.
Proof.
  revert i d. induction h as [|h IH]; intros i d [Hv Hc] [Hv' Hc'] Hd Hp.
  - assert (d = 0) as -> by lia. rewrite Nat.pow_0_r, Nat.div_1_r in Hp.
    assert (p = i) as -> by lia. congruence.
  - destruct d as [|d].
    { rewrite Nat.pow_0_r, Nat.div_1_r in Hp. assert (p = i) as -> by lia. congruence. }
    destruct Hc as [Hl Hr], Hc' as [Hl' Hr'].
    destruct (under_step _ _ _ Hp) as [Hx|Hx].
    + exact (IH _ d Hl Hl' ltac:(lia) Hx).
    + exact (IH _ d Hr Hr' ltac:(lia) Hx).
Qed.

Lemma rep_agree h a a' i t d p :
  rep h a i t -> rep h a' i t -> d <= h -> (p + 1) / 2 ^ d = i + 1 -> a !! p = a' !! p.
Proof.
  revert h i d. induction t as [| |l IHl r IHr]; intros h i d Hr Hr' Hd Hp.
  - exact (full_agree _ _ _ _ _ _ Hr Hr' Hd Hp).
  - destruct Hr as [Hv Hc], Hr' as [Hv' Hc']. destruct d as [|d].
    { rewrite Nat.pow_0_r, Nat.div_1_r in Hp. assert (p = i) as -> by lia. congruence. }
    destruct h as [|h]; [lia|]. destruct Hc as [Hl Hr], Hc' as [Hl' Hr'].
    destruct (under_step _ _ _ Hp) as [Hx|Hx].
    + exact (full_agree _ _ _ _ d _ Hl Hl' ltac:(lia) Hx).
    + exact (full_agree _ _ _ _ d _ Hr Hr' ltac:(lia) Hx).
  - destruct h as [|h]; [destruct Hr|]. destruct Hr as (Hv & Hl & Hr & _), Hr' as (Hv' & Hl' & Hr' & _).
    destruct d as [|d].
    { rewrite Nat.pow_0_r, Nat.div_1_r in Hp. assert (p = i) as -> by lia. congruence. }
    destruct (under_step _ _ _ Hp) as [Hx|Hx].
    + exact (IHl _ _ d Hl Hl' ltac:(lia) Hx).
    + exact (IHr _ _ d Hr Hr' ltac:(lia) Hx).
Qed.

Lemma rep_array_unique H a a' t :
  rep H a 0 t -> rep H a' 0 t -> length a = 2 ^ S H - 1 -> length a' = 2 ^ S H - 1 -> a = a'.
Proof.
  intros Hr Hr' Hl Hl'. apply list_eq. intros p.
  destruct (Nat.lt_ge_cases p (2 ^ S H - 1)) as [Hp|Hp].
  - apply (rep_agree H a a' 0 t (Nat.log2 (p + 1)) p Hr Hr').
    + apply Nat.lt_succ_r, Nat.log2_lt_pow2; lia.
    + destruct (Nat.log2_spec (p + 1)) as [H1 H2]; [lia|]. rewrite Nat.pow_succ_r' in H2.
      symmetry. apply (Nat.div_unique _ _ _ (p + 1 - 2 ^ Nat.log2 (p + 1))); lia.
  - rewrite !lookup_ge_None_2 by lia. done.
Qed.

(** * Counting *)

(** Number of cells in a list of blocks. *)
Definition cells (bs : list (nat * nat)) : nat := sum_list_with (fun b => 2 ^ b.2) bs.

Lemma cells_perm bs cs : bs ≡ₚ cs -> cells bs = cells cs.
Proof. unfold cells. induction 1; simpl; lia. Qed.

Lemma cells_bound h off t : wf h t -> cells (blocks h off t) <= 2 ^ h.
Proof.
  unfold cells. revert h off. induction t as [| |l IHl r IHr]; intros h off Hw; simpl; [lia|lia|].
  destruct h as [|h]; [destruct Hw|]. destruct Hw as (Hl & Hr & _). simpl pred.
  rewrite sum_list_with_app. specialize (IHl h off Hl). specialize (IHr h (off + 2 ^ h) Hr).
  rewrite pow2_S. lia.
Qed.
