(* ===== verification/BuddyPool.v ===== *)
(** [struct BuddyPool<capacity>] of src/kalloc.cpp: the array code and its
    refinement of the buddy tree of BuddyTree.v.

    [longest] is the member array, a [list nat] (every entry is at most
    [caplog <= 65], far below the 256 of its [uint8_t]); an index outside it is
    a [Fault].  [pool_inv H a bs] relates the array to the abstract state of an
    allocator: the list [bs] of blocks handed out, as (offset, height). *)

From Stdlib Require Import Arith ZArith Lia List Permutation.
From stdpp Require Import base numbers list.
From S2P Require Import Prelude Bits BuddyTree.

Module BuddyPool.

(** * The code *)

Definition rd (a : list nat) (i : nat) : outcome nat := or_fault (a !! i).
Definition wr (a : list nat) (i v : nat) : outcome (list nat) :=
  if i <? length a then Ok (<[i := v]> a) else Fault.

Section Code.
Context (capacity : nat).

(** constexpr static power_t caplog = log2(capacity) + 1; *)
Definition caplog : nat := Z.to_nat (log2 (Z.of_nat capacity) + 1).

(** [for (i = 2 * capacity - 2; i > capacity - 2; i--) longest[i] = 1;] *)
Fixpoint init_leaves (i : nat) (a : list nat) : outcome (list nat) :=
  if capacity - 2 <? i then
    match i with
    | O => Ok a
    | S i' => a' <- wr a i 1 ;; init_leaves i' a'
    end
  else Ok a.

(** [for (i = 2 * capacity - 2; i > 0; i--) longest[(i - 1) / 2] = longest[i] + 1;] *)
Fixpoint init_inner (i : nat) (a : list nat) : outcome (list nat) :=
  match i with
  | O => Ok a
  | S i' => v <- rd a i ;; a' <- wr a ((i - 1) / 2) (v + 1) ;; init_inner i' a'
  end.

(** void init(size_t size = capacity) *)
Definition init (a : list nat) : outcome (list nat) :=
  a1 <- init_leaves (2 * capacity - 2) a ;; init_inner (2 * capacity - 2) a1.

(** The loop [while (nodesize > size)] of alloc. *)
Fixpoint alloc_descend (a : list nat) (size nodesize index : nat) : outcome (nat * nat) :=
  if size <? nodesize then
    match nodesize with
    | O => Ok (index, nodesize)
    | S nodesize' =>
        let lc := index * 2 + 1 in
        let rc := index * 2 + 2 in
        r <- rd a rc ;;
        l <- rd a lc ;;
        let index' := if (r <? size) || ((size <=? l) && (l <=? r)) then lc else rc in
        alloc_descend a size nodesize' index'
    end
  else Ok (index, nodesize).

(** The loop [while (index)] of alloc; the index at least halves, so [index]
    iterations are enough fuel. *)
Fixpoint alloc_fixup (fuel : nat) (a : list nat) (index : nat) : outcome (list nat) :=
  match index with
  | O => Ok a
  | S _ =>
      match fuel with
      | O => OutOfFuel
      | S fuel' =>
          let index := (index - 1) / 2 in
          l <- rd a (index * 2 + 1) ;;
          r <- rd a (index * 2 + 2) ;;
          a' <- wr a index (Nat.max l r) ;;
          alloc_fixup fuel' a' index
      end
  end.

(** size_t alloc(size_t size) *)
Definition alloc (a : list nat) (size : Z) : outcome (nat * list nat) :=
  let size := if (size =? 0)%Z then 1%Z else size in
  let size := Z.to_nat (log2 size + 1) in
  l0 <- rd a 0 ;;
  assert_ (size <=? l0) ;;
  '(index, nodesize) <- alloc_descend a size caplog 0 ;;
  a1 <- wr a index 0 ;;
  let offset := (index + 1) * 2 ^ (nodesize - 1) - capacity in
  a2 <- alloc_fixup index a1 index ;;
  Ok (offset, a2).

(** [for (nodesize = 1; longest[index]; index = (index - 1) / 2)] of free, with
    the assertion of its body. *)
Fixpoint free_climb (fuel : nat) (a : list nat) (index nodesize : nat) : outcome (nat * nat) :=
  match fuel with
  | O => OutOfFuel
  | S fuel' =>
      v <- rd a index ;;
      match v with
      | O => Ok (index, nodesize)
      | S _ =>
          let nodesize := nodesize + 1 in
          assert_ (negb (index =? 0)) ;;
          free_climb fuel' a ((index - 1) / 2) nodesize
      end
  end.

(** The loop [while (index)] of free. *)
Fixpoint free_merge (fuel : nat) (a : list nat) (index nodesize : nat) : outcome (list nat) :=
  match index with
  | O => Ok a
  | S _ =>
      match fuel with
      | O => OutOfFuel
      | S fuel' =>
          let index := (index - 1) / 2 in
          let nodesize := nodesize + 1 in
          ll <- rd a (index * 2 + 1) ;;
          rl <- rd a (index * 2 + 2) ;;
          a' <- (if (ll + 1 =? nodesize) && (rl + 1 =? nodesize) then wr a index nodesize
                 else wr a index (Nat.max ll rl)) ;;
          free_merge fuel' a' index nodesize
      end
  end.

(** void free(size_t offset) *)
Definition free (a : list nat) (offset : nat) : outcome (list nat) :=
  assert_ (offset <? capacity) ;;
  let index := offset + capacity - 1 in
  '(index, nodesize) <- free_climb (S index) a index 1 ;;
  a1 <- wr a index nodesize ;;
  free_merge index a1 index nodesize.

End Code.

(** * The representation invariant *)

Definition pool_inv (H : nat) (a : list nat) (bs : list (nat * nat)) : Prop :=
  length a = 2 ^ S H - 1 /\
  exists t, rep H a 0 t /\ blocks H 0 t ≡ₚ bs.

(** * Lemmas *)

Lemma wr_ok a i v : i < length a -> wr a i v = Ok (<[i := v]> a).
Proof. intros Hi. unfold wr. now destruct (Nat.ltb_spec i (length a)); [|lia]. Qed.

Lemma rd_ok a i v : a !! i = Some v -> rd a i = Ok v.
Proof. intros E. unfold rd. now rewrite E. Qed.

Lemma caplog_pow2 H : H < 64 -> caplog (2 ^ H) = S H.
Proof.
  intros HH. unfold caplog. rewrite Nat2Z.inj_pow. change (Z.of_nat 2) with 2%Z.
  rewrite log2_pow2 by lia. lia.
Qed.

Lemma under_le j p : under j p -> j <= p.
Proof.
  intros [d Hd]. pose proof (Nat.Div0.div_le_upper_bound (p + 1) (2 ^ d) (p + 1)) as Hle.
  pose proof (pow2_pos d). specialize (Hle ltac:(nia)). lia.
Qed.

(** Recomputing a parent from its two children. *)
Lemma rep_parent h a p l r v :
  rep h a (2 * p + 1) l -> rep h a (2 * p + 2) r -> p < length a ->
  v = (match l, r with Free, Free => S (S h) | _, _ => Nat.max (top h l) (top h r) end) ->
  rep (S h) (<[p := v]> a) p (join l r).
Proof.
  intros Hl Hr Hp Hv.
  assert (forall j t, 2 * p + 1 <= j -> rep h a j t -> rep h (<[p := v]> a) j t) as Hfr.
  { intros j t Hj. apply rep_frame. intros Hu. apply under_le in Hu. lia. }
  pose proof (list_lookup_insert_eq a p v Hp) as Hval.
  destruct (decide (l = Free /\ r = Free)) as [[-> ->]|Hn].
  - simpl join. cbn [rep full]. subst v. split; [done|].
    split; [apply (Hfr _ Free) | apply (Hfr _ Free)]; (lia || done).
  - rewrite join_split by done. cbn [rep]. split.
    + rewrite Hval. f_equal. subst v. destruct l, r; try reflexivity. tauto.
    + split; [apply Hfr; [lia|done]|]. split; [apply Hfr; [lia|done] | done].
Qed.

Section Proofs.
Context (H : nat).

Lemma alloc_fixup_step fuel a i :
  0 < i -> alloc_fixup (S fuel) a i =
  (l <- rd a ((i - 1) / 2 * 2 + 1) ;; r <- rd a ((i - 1) / 2 * 2 + 2) ;;
   a' <- wr a ((i - 1) / 2) (Nat.max l r) ;; alloc_fixup fuel a' ((i - 1) / 2)).
Proof. destruct i; [lia | done]. Qed.

Lemma free_merge_step fuel a i n :
  0 < i -> free_merge (S fuel) a i n =
  (ll <- rd a ((i - 1) / 2 * 2 + 1) ;; rl <- rd a ((i - 1) / 2 * 2 + 2) ;;
   a' <- (if (ll + 1 =? n + 1) && (rl + 1 =? n + 1) then wr a ((i - 1) / 2) (n + 1)
          else wr a ((i - 1) / 2) (Nat.max ll rl)) ;;
   free_merge fuel a' ((i - 1) / 2) (n + 1)).
Proof. destruct i; [lia | done]. Qed.

Lemma ctx_cons h a i f c t :
  rep_ctx H h a i (f :: c) -> rep h a i t ->
  exists p l r, (i - 1) / 2 = p /\ p < i /\ p < 2 ^ S H - 1 /\ rep_ctx H (S h) a p c /\
    rep h a (p * 2 + 1) l /\ rep h a (p * 2 + 2) r /\
    plug (f :: c) t = plug c (join l r) /\ (t = l \/ t = r).
Proof.
  destruct f; cbn [rep_ctx]; intros (p & -> & Hs & Hc) Hr; exists p;
    pose proof (ctx_in_range _ _ _ _ _ Hc); rewrite (Nat.mul_comm p 2).
  - exists t, r. rewrite parent_left. repeat split; auto; lia.
  - exists l, t. rewrite parent_right. repeat split; auto; lia.
Qed.

Lemma parent_step h a p l r v :
  rep h a (p * 2 + 1) l -> rep h a (p * 2 + 2) r -> p < length a ->
  v = (match l, r with Free, Free => S (S h) | _, _ => Nat.max (top h l) (top h r) end) ->
  wr a p v = Ok (<[p := v]> a) /\ rep (S h) (<[p := v]> a) p (join l r).
Proof.
  rewrite (Nat.mul_comm p 2). intros. split; [now apply wr_ok | now apply rep_parent].
Qed.

Lemma alloc_fixup_rep c h a i t fuel :
  rep h a i t -> t <> Free -> rep_ctx H h a i c -> length a = 2 ^ S H - 1 -> i <= fuel ->
  exists a', alloc_fixup fuel a i = Ok a' /\ length a' = length a /\ rep H a' 0 (plug c t).
Proof.
  revert h a i t fuel. induction c as [|f c IH]; intros h a i t fuel Hr Ht Hc Hlen Hf.
  - destruct Hc as [-> ->]. exists a. destruct fuel; done.
  - destruct (ctx_cons _ _ _ _ _ _ Hc Hr) as (p & l & r & Hp & Hlt & Hpb & Hc' & Hl & Hrr & -> & Htl).
    destruct fuel as [|fuel]; [lia|]. rewrite alloc_fixup_step by lia. rewrite Hp.
    rewrite (rd_ok _ _ _ (rep_val _ _ _ _ Hl)), (rd_ok _ _ _ (rep_val _ _ _ _ Hrr)). cbn [obind].
    destruct (parent_step h a p l r (Nat.max (top h l) (top h r)) Hl Hrr) as [-> Hpar]; [lia| |].
    { destruct l, r; try reflexivity. destruct Htl; congruence. }
    cbn [obind]. destruct (IH (S h) _ p _ fuel Hpar) as (a' & E & L & R).
    + destruct l, r; try discriminate. destruct Htl; congruence.
    + apply rep_ctx_frame; [apply under_refl | exact Hc'].
    + now rewrite length_insert.
    + lia.
    + exists a'. rewrite E, L, length_insert. eauto.
Qed.

(** The value free writes into a parent. *)
Lemma merge_value h a p l r :
  rep h a (p * 2 + 1) l -> rep h a (p * 2 + 2) r ->
  (if (top h l + 1 =? S h + 1) && (top h r + 1 =? S h + 1) then S h + 1
   else Nat.max (top h l) (top h r))
  = match l, r with Free, Free => S (S h) | _, _ => Nat.max (top h l) (top h r) end.
Proof.
  intros Hl Hr. destruct (top_bound _ _ _ _ Hl) as [_ Hlf], (top_bound _ _ _ _ Hr) as [_ Hrf].
  destruct (Nat.eqb_spec (top h l + 1) (S h + 1)) as [El|El];
    [|destruct l; [simpl in El; lia | done | done]].
  rewrite (Hlf ltac:(lia)).
  destruct (Nat.eqb_spec (top h r + 1) (S h + 1)) as [Er|Er];
    [|destruct r; [simpl in Er; lia | done | done]].
  rewrite (Hrf ltac:(lia)). simpl. lia.
Qed.

Lemma free_merge_rep c h a i t fuel :
  rep h a i t -> rep_ctx H h a i c -> length a = 2 ^ S H - 1 -> i <= fuel ->
  exists a', free_merge fuel a i (S h) = Ok a' /\ length a' = length a /\ rep H a' 0 (plug c t).
Proof.
  revert h a i t fuel. induction c as [|f c IH]; intros h a i t fuel Hr Hc Hlen Hf.
  - destruct Hc as [-> ->]. exists a. destruct fuel; done.
  - destruct (ctx_cons _ _ _ _ _ _ Hc Hr) as (p & l & r & Hp & Hlt & Hpb & Hc' & Hl & Hrr & -> & _).
    destruct fuel as [|fuel]; [lia|]. rewrite free_merge_step by lia. rewrite Hp.
    rewrite (rd_ok _ _ _ (rep_val _ _ _ _ Hl)), (rd_ok _ _ _ (rep_val _ _ _ _ Hrr)). cbn [obind].
    pose proof (merge_value _ _ _ _ _ Hl Hrr) as Hv. symmetry in Hv.
    destruct (parent_step h a p l r _ Hl Hrr ltac:(lia) (eq_sym Hv)) as [Hw Hpar].
    match goal with
    | |- context [if ?b then wr ?x ?y ?u else wr ?x ?y ?w] =>
        replace (if b then wr x y u else wr x y w) with (wr x y (if b then u else w))
          by (destruct b; reflexivity)
    end.
    rewrite Hw. cbn [obind]. replace (S h + 1) with (S (S h)) by lia.
    destruct (IH (S h) _ p _ fuel Hpar) as (a' & E & L & R).
    + apply rep_ctx_frame; [apply under_refl | exact Hc'].
    + now rewrite length_insert.
    + lia.
    + exists a'. replace (S h + 1) with (S (S h)) in E by lia.
      rewrite E, L, length_insert. eauto.
Qed.

(** The descent of alloc reaches a free node of exactly the wanted height. *)
Lemma alloc_descend_rep h a i t c k :
  rep h a i t -> rep_ctx H h a i c -> S k <= top h t ->
  exists i' c', alloc_descend a (S k) (S h) i = Ok (i', S k) /\
    rep k a i' Free /\ rep_ctx H k a i' c' /\ plug c' Free = plug c t.
Proof.
  revert i t c. induction h as [|h IH]; intros i t c Hr Hc Hk;
    destruct (top_bound _ _ _ _ Hr) as [Hb Hfree].
  - assert (k = 0) as -> by lia. rewrite (Hfree ltac:(lia)) in *. exists i, c. eauto.
  - destruct (decide (k = S h)) as [->|Hne].
    { rewrite (Hfree ltac:(lia)) in *. exists i, c. cbn [alloc_descend].
      rewrite Nat.ltb_irrefl. eauto. }
    assert (exists l r, rep h a (2 * i + 1) l /\ rep h a (2 * i + 2) r /\ join l r = t /\
              S k <= Nat.max (top h l) (top h r)) as (l & r & Hl & Hrr & Hj & Hm).
    { destruct t as [| |l r]; [|simpl in Hk; lia|].
      - destruct Hr as [_ [Hl Hrr]]. exists Free, Free. repeat split; try done. simpl. lia.
      - destruct Hr as (_ & Hl & Hrr & Hn). exists l, r. rewrite join_split by done. eauto. }
    change (alloc_descend a (S k) (S (S h)) i) with
      (if S k <? S (S h) then
         r <- rd a (i * 2 + 2) ;; l <- rd a (i * 2 + 1) ;;
         alloc_descend a (S k) (S h)
           (if (r <? S k) || ((S k <=? l) && (l <=? r)) then i * 2 + 1 else i * 2 + 2)
       else Ok (i, S (S h))).
    destruct (Nat.ltb_spec (S k) (S (S h))); [|lia]. rewrite !(Nat.mul_comm i 2).
    rewrite (rd_ok _ _ _ (rep_val _ _ _ _ Hl)), (rd_ok _ _ _ (rep_val _ _ _ _ Hrr)). cbn [obind].
    destruct ((top h r <? S k) || ((S k <=? top h l) && (top h l <=? top h r))) eqn:Ec.
    + destruct (IH (2 * i + 1) l (FL r :: c) Hl) as (i' & c' & E & R & C & P);
        [simpl; eauto | | exists i', c'; cbn [plug] in P; rewrite P, Hj; eauto].
      apply orb_true_iff in Ec as [Ec|Ec]; [apply Nat.ltb_lt in Ec; lia|].
      apply andb_true_iff in Ec as [Ec _]. now apply Nat.leb_le in Ec.
    + destruct (IH (2 * i + 2) r (FR l :: c) Hrr) as (i' & c' & E & R & C & P);
        [simpl; eauto | | exists i', c'; cbn [plug] in P; rewrite P, Hj; eauto].
      apply orb_false_iff in Ec as [Ec _]. apply Nat.ltb_ge in Ec. lia.
Qed.

(** In a free subtree the descent goes left at every node. *)
Lemma alloc_descend_leftmost h a i k :
  full h a i -> k <= h ->
  exists i', alloc_descend a (S k) (S h) i = Ok (i', S k) /\ (i' + 1) * 2 ^ k = (i + 1) * 2 ^ h.
Proof.
  revert i. induction h as [|h IH]; intros i Hf Hk.
  - assert (k = 0) as -> by lia. exists i. done.
  - destruct (decide (k = S h)) as [->|Hne].
    { exists i. cbn [alloc_descend]. now rewrite Nat.ltb_irrefl. }
    destruct Hf as [_ [Hl Hr]].
    change (alloc_descend a (S k) (S (S h)) i) with
      (if S k <? S (S h) then
         r <- rd a (i * 2 + 2) ;; l <- rd a (i * 2 + 1) ;;
         alloc_descend a (S k) (S h)
           (if (r <? S k) || ((S k <=? l) && (l <=? r)) then i * 2 + 1 else i * 2 + 2)
       else Ok (i, S (S h))).
    destruct (Nat.ltb_spec (S k) (S (S h))); [|lia]. rewrite !(Nat.mul_comm i 2).
    rewrite (rd_ok _ _ _ (full_val _ _ _ Hl)), (rd_ok _ _ _ (full_val _ _ _ Hr)). cbn [obind].
    destruct (Nat.ltb_spec (S h) (S k)); [lia|]. destruct (Nat.leb_spec (S k) (S h)); [|lia].
    rewrite Nat.leb_refl. cbn [orb andb].
    destruct (IH (2 * i + 1) Hl ltac:(lia)) as (i' & -> & E). exists i'. split; [done|].
    rewrite E, pow2_S. lia.
Qed.

(** * Climbing from a leaf *)

(** Where the climb is after leaving the subtree of node [r]. *)
Definition escape (fuel : nat) (a : list nat) (r n : nat) : outcome (nat * nat) :=
  if r =? 0 then Panic else free_climb fuel a ((r - 1) / 2) n.

Lemma climb_step fuel a r n v :
  a !! r = Some (S v) -> free_climb (S fuel) a r n = escape fuel a r (n + 1).
Proof.
  intros E. cbn [free_climb]. rewrite (rd_ok _ _ _ E). cbn [obind]. unfold escape.
  destruct r; reflexivity.
Qed.

Lemma escape_child fuel a r n x :
  x = 2 * r + 1 \/ x = 2 * r + 2 -> escape fuel a x n = free_climb fuel a r n.
Proof.
  intros [-> | ->]; unfold escape.
  - rewrite parent_left. now destruct (Nat.eqb_spec (2 * r + 1) 0); [lia|].
  - rewrite parent_right. now destruct (Nat.eqb_spec (2 * r + 2) 0); [lia|].
Qed.

(** A climb that starts at a cell of no block leaves the subtree. *)
Lemma climb_uncovered t h r off B x a fuel :
  rep h a r t -> 0 < B -> (r + 1) * 2 ^ h = off + B -> off <= x < off + 2 ^ h ->
  (forall b, b ∈ blocks h off t -> ~ covers b x) ->
  free_climb (h + 1 + fuel) a (x + B - 1) 1 = escape fuel a r (h + 2).
Proof.
  revert t r off fuel. induction h as [|h IH]; intros t r off fuel Hr HB Ho Hx Hb.
  - simpl in Ho, Hx. assert (x = off) as -> by lia.
    replace (off + B - 1) with r by lia.
    pose proof (free_cell_top 0 off t off (rep_wf _ _ _ _ Hr) ltac:(simpl; lia) Hb).
    destruct (top 0 t) as [|v] eqn:Et; [lia|]. cbn [Nat.add].
    rewrite (climb_step _ _ _ _ v); [done|]. rewrite (rep_val _ _ _ _ Hr). congruence.
  - assert (exists l r', rep h a (2 * r + 1) l /\ rep h a (2 * r + 2) r' /\
              (forall b, b ∈ blocks h off l -> ~ covers b x) /\
              (forall b, b ∈ blocks h (off + 2 ^ h) r' -> ~ covers b x))
      as (l & r' & Hl & Hr' & Hbl & Hbr).
    { destruct t as [| |l r'].
      - destruct Hr as [_ [Hl Hr]]. exists Free, Free.
        repeat split; try done; intros b Hin; now apply elem_of_nil in Hin.
      - exfalso. apply (Hb (off, S h)); [left | exact Hx].
      - destruct Hr as (_ & Hl & Hr & _). exists l, r'. cbn [blocks pred] in Hb.
        repeat split; try done; intros b Hin; apply Hb, elem_of_app; tauto. }
    pose proof (free_cell_top (S h) off t x (rep_wf _ _ _ _ Hr) Hx Hb).
    destruct (top (S h) t) as [|v] eqn:Et; [lia|].
    pose proof (rep_val _ _ _ _ Hr) as Hv. rewrite Et in Hv. rewrite pow2_S in Ho, Hx.
    replace (S h + 1 + fuel) with (h + 1 + S fuel) by lia.
    destruct (Nat.lt_ge_cases x (off + 2 ^ h)).
    + rewrite (IH l (2 * r + 1) off (S fuel)); try done; try lia.
      rewrite (escape_child _ _ r) by auto. rewrite (climb_step _ _ _ _ v) by done.
      f_equal. lia.
    + rewrite (IH r' (2 * r + 2) (off + 2 ^ h) (S fuel)); try done; try lia.
      rewrite (escape_child _ _ r) by auto. rewrite (climb_step _ _ _ _ v) by done.
      f_equal. lia.
Qed.

(** A climb that starts inside a block stops at the node of the block. *)
Lemma climb_used k i o B x a fuel :
  rep k a i Used -> 0 < B -> (i + 1) * 2 ^ k = o + B -> o <= x < o + 2 ^ k ->
  free_climb (k + 1 + fuel) a (x + B - 1) 1 = Ok (i, S k).
Proof.
  intros [Hv Hc] HB Ho Hx. destruct k as [|k].
  - simpl in Ho, Hx. replace (x + B - 1) with i by lia. cbn [Nat.add free_climb].
    rewrite (rd_ok _ _ _ Hv). done.
  - destruct Hc as [Hl Hr]. rewrite pow2_S in Ho, Hx.
    assert (forall b off, b ∈ blocks k off Free -> ~ covers b x) as Hnone
      by (intros b off Hin; now apply elem_of_nil in Hin).
    replace (S k + 1 + fuel) with (k + 1 + S fuel) by lia.
    assert (free_climb (S fuel) a i (k + 2) = Ok (i, S (S k))) as Hstop.
    { cbn [free_climb]. rewrite (rd_ok _ _ _ Hv). cbn [obind]. ok_eq. }
    destruct (Nat.lt_ge_cases x (o + 2 ^ k)).
    + rewrite (climb_uncovered Free k (2 * i + 1) o B); try done; try lia; [|now intros; apply (Hnone _ o)].
      now rewrite (escape_child _ _ i) by auto.
    + rewrite (climb_uncovered Free k (2 * i + 2) (o + 2 ^ k) B); try done; try lia;
        [|now intros; apply (Hnone _ (o + 2 ^ k))].
      now rewrite (escape_child _ _ i) by auto.
Qed.

(** * Initialisation *)

Lemma init_leaves_run cap i a :
  2 <= cap -> i < length a ->
  exists a', init_leaves cap i a = Ok a' /\ length a' = length a /\
    forall j, cap - 1 <= j <= i -> a' !! j = Some 1.
Proof.
  intros Hcap. revert a. induction i as [|i IH]; intros a Hi; cbn [init_leaves].
  - destruct (Nat.ltb_spec (cap - 2) 0); [lia|]. exists a. split; [done|]. split; [done|]. lia.
  - destruct (Nat.ltb_spec (cap - 2) (S i)) as [Hlt|Hge];
      [|exists a; split; [done|]; split; [done|]; intros j Hj; lia].
    rewrite wr_ok by done. cbn [obind].
    destruct (IH (<[S i := 1]> a)) as (a' & E & L & V); [rewrite length_insert; lia|].
    exists a'. rewrite L, length_insert. split; [done|]. split; [done|]. intros j Hj.
    destruct (decide (j = S i)) as [->|]; [|apply V; lia].
    assert (forall n b b', n < S i -> init_leaves cap n b = Ok b' -> b' !! S i = b !! S i) as Hkeep.
    { clear. induction n as [|n IH]; intros b b' Hn; cbn [init_leaves].
      - case_match; intros; inv_ok; done.
      - case_match; [|intros; inv_ok; done]. unfold wr. case_match; [|discriminate]. cbn [obind].
        intros E. rewrite (IH _ _ ltac:(lia) E). apply list_lookup_insert_ne. lia. }
    rewrite (Hkeep i _ _ ltac:(lia) E). apply list_lookup_insert_eq. done.
Qed.

(** Value of node [j] in a pool with no block handed out. *)
Definition initial_value (j : nat) : nat := S H - Nat.log2 (j + 1).

Lemma log2_parent i : 0 < i -> Nat.log2 (i + 1) = S (Nat.log2 ((i - 1) / 2 + 1)).
Proof.
  intros Hi. destruct (Nat.Even_or_Odd i) as [[m ->]|[m ->]].
  - destruct m as [|m]; [lia|]. replace (2 * S m - 1) with (1 + m * 2) by lia.
    rewrite Nat.div_add by lia. simpl (1 / 2). rewrite Nat.add_0_l.
    replace (2 * S m + 1) with (2 * (m + 1) + 1) by lia. apply Nat.log2_succ_double. lia.
  - replace (2 * m + 1 - 1) with (m * 2) by lia. rewrite Nat.div_mul by lia.
    replace (2 * m + 1 + 1) with (2 * (m + 1)) by lia. apply Nat.log2_double. lia.
Qed.

Lemma init_inner_run i a :
  length a = 2 ^ S H - 1 -> i < length a ->
  (forall j, j < length a -> 2 ^ H - 1 <= j \/ i < 2 * j + 2 -> a !! j = Some (initial_value j)) ->
  exists a', init_inner i a = Ok a' /\ length a' = length a /\
    forall j, j < length a -> a' !! j = Some (initial_value j).
Proof.
  revert a. induction i as [|i IH]; intros a Hlen Hi Hinv.
  - exists a. split; [done|]. split; [done|]. intros j Hj. apply Hinv; [done|]. right. lia.
  - assert (a !! S i = Some (initial_value (S i))) as Hv by (apply Hinv; lia).
    pose proof (log2_parent (S i) ltac:(lia)) as Hlog.
    assert (Nat.log2 (S i + 1) <= H) as Hle.
    { apply Nat.lt_succ_r, Nat.log2_lt_pow2; lia. }
    set (p := (S i - 1) / 2) in *.
    assert (2 * p <= i /\ i <= 2 * p + 1) as Hp.
    { subst p. pose proof (Nat.div_mod_eq (S i - 1) 2). pose proof (Nat.mod_upper_bound (S i - 1) 2). lia. }
    cbn [init_inner]. fold p. rewrite (rd_ok _ _ _ Hv). cbn [obind]. rewrite wr_ok by lia. cbn [obind].
    replace (initial_value (S i) + 1) with (initial_value p) by (unfold initial_value; lia).
    destruct (IH (<[p := initial_value p]> a)) as (a' & E & L & V); rewrite ?length_insert in *;
      [done | lia | | eauto].
    intros j Hj Hc. destruct (decide (p = j)) as [<-|Hne].
    + rewrite list_lookup_insert_eq by lia. done.
    + rewrite list_lookup_insert_ne by done. apply Hinv; [done|]. lia.
Qed.

Lemma initial_full h a d i :
  H = h + d -> 2 ^ d <= i + 1 < 2 ^ S d ->
  (forall j, j < 2 ^ S H - 1 -> a !! j = Some (initial_value j)) -> full h a i.
Proof.
  revert d i. induction h as [|h IH]; intros d i HH Hi Hv.
  - assert (H = d) as <- by lia. split; [|done]. rewrite Hv by lia. unfold initial_value.
    rewrite (Nat.log2_unique _ H) by lia. f_equal. lia.
  - cbn [full]. assert (2 ^ S d <= 2 ^ S H) by (apply Nat.pow_le_mono_r; lia).
    pose proof (pow2_S (S d)). pose proof (pow2_S d). split; [|split].
    + rewrite Hv by lia. unfold initial_value. rewrite (Nat.log2_unique _ d) by lia. f_equal. lia.
    + apply (IH (S d)); [lia | lia | done].
    + apply (IH (S d)); [lia | lia | done].
Qed.

Lemma init_rep a :
  1 <= H -> length a = 2 ^ S H - 1 ->
  exists a', init (2 ^ H) a = Ok a' /\ length a' = length a /\ rep H a' 0 Free.
Proof.
  intros HH Hlen. pose proof (pow2_S H).
  assert (2 <= 2 ^ H) by (change 2 with (2 ^ 1) at 1; apply Nat.pow_le_mono_r; lia).
  unfold init. destruct (init_leaves_run (2 ^ H) (2 * 2 ^ H - 2) a) as (a1 & -> & L1 & V1); [lia|lia|].
  cbn [obind]. destruct (init_inner_run (2 * 2 ^ H - 2) a1) as (a2 & -> & L2 & V2); [lia|lia| |].
  - intros j Hj Hc. rewrite V1 by lia. unfold initial_value.
    rewrite (Nat.log2_unique _ H) by lia. f_equal. lia.
  - exists a2. split; [done|]. split; [lia|]. apply (initial_full H a2 0 0); [lia | simpl; lia |].
    intros j Hj. apply V2. lia.
Qed.

(** * The operations against the invariant *)

Lemma size_power size k :
  (if (size =? 0)%Z then 1%Z else size) = (2 ^ Z.of_nat k)%Z -> k < 64 ->
  Z.to_nat (log2 (if (size =? 0)%Z then 1%Z else size) + 1) = S k.
Proof. intros -> Hk. rewrite log2_pow2 by lia. lia. Qed.

Lemma alloc_rep a t size k :
  H < 64 -> rep H a 0 t -> length a = 2 ^ S H - 1 ->
  (if (size =? 0)%Z then 1%Z else size) = (2 ^ Z.of_nat k)%Z -> k <= H ->
  (top H t < S k /\ alloc (2 ^ H) a size = Panic) \/
  exists i c a', S k <= top H t /\ rep_ctx H k a i c /\ plug c Free = t /\
    alloc (2 ^ H) a size = Ok (noff H k i, a') /\ length a' = length a /\ rep H a' 0 (plug c Used).
Proof.
  intros HH Hr Hlen Hs Hk. unfold alloc. rewrite (size_power _ k Hs) by lia.
  rewrite (rd_ok _ _ _ (rep_val _ _ _ _ Hr)). cbn [obind].
  destruct (Nat.leb_spec (S k) (top H t)) as [Hle|Hgt]; [right | left; split; [lia | done]].
  cbn [assert_ obind]. rewrite caplog_pow2 by done.
  destruct (alloc_descend_rep H a 0 t [] k Hr) as (i & c & E & R & C & P); [done|done|].
  rewrite E. cbn [obind]. pose proof (ctx_in_range _ _ _ _ _ C). rewrite wr_ok by lia. cbn [obind].
  assert (rep k (<[i := 0]> a) i Used) as Hu.
  { split; [apply list_lookup_insert_eq; lia|]. destruct k as [|k]; [done|].
    destruct R as [_ [Rl Rr]]. split; (apply full_frame; [|done]); intros Hx; apply under_le in Hx; lia. }
  destruct (alloc_fixup_rep c k (<[i := 0]> a) i Used i Hu) as (a' & E' & L & R');
    [done | now apply rep_ctx_frame; [apply under_refl|] | now rewrite length_insert | done |].
  exists i, c, a'. rewrite E'. cbn [obind]. rewrite L, length_insert.
  unfold noff. replace (S k - 1) with k by lia. cbn [plug] in P. eauto 10.
Qed.

(** The first block of an empty pool starts at cell 0. *)
Lemma alloc_empty_offset a size k :
  H < 64 -> rep H a 0 Free -> length a = 2 ^ S H - 1 ->
  (if (size =? 0)%Z then 1%Z else size) = (2 ^ Z.of_nat k)%Z -> k <= H ->
  exists a', alloc (2 ^ H) a size = Ok (0, a') /\ pool_inv H a' [(0, k)].
Proof.
  intros HH Hr Hlen Hs Hk.
  destruct (alloc_rep a Free size k HH Hr Hlen Hs Hk)
    as [[Htop _]|(i & c & a' & _ & Hc & Hpl & E & L & R)]; [simpl in Htop; lia|].
  assert (noff H k i = 0) as Hoff.
  { unfold alloc in E. rewrite (size_power _ k Hs), (rd_ok _ _ _ (rep_val _ _ _ _ Hr)) in E by lia.
    cbn [obind top] in E. destruct (Nat.leb_spec (S k) (S H)); [|lia]. cbn [assert_ obind] in E.
    rewrite caplog_pow2 in E by done.
    destruct (alloc_descend_leftmost H a 0 k Hr Hk) as (i' & Ed & Ei). rewrite Ed in E. cbn [obind] in E.
    inv_ok. match goal with H1 : _ - _ = noff H k i |- _ => rewrite <- H1 end.
    replace (k - 0) with k by lia. lia. }
  rewrite Hoff in E. exists a'. split; [done|]. split; [congruence|].
  exists (plug c Used). split; [done|].
  pose proof (blocks_plug H _ _ _ _ Used Hc) as Hu. pose proof (blocks_plug H _ _ _ _ Free Hc) as Hf.
  rewrite Hpl in Hf. simpl in Hu, Hf. apply Permutation_nil in Hf. now rewrite Hu, Hf, Hoff.
Qed.

(** The climb of free from a cell of a block stops at the node of the block. *)
Lemma free_focus a t o k x :
  rep H a 0 t -> length a = 2 ^ S H - 1 -> (o, k) ∈ blocks H 0 t -> covers (o, k) x ->
  exists i c, rep_ctx H k a i c /\ plug c Used = t /\ noff H k i = o /\ i < length a /\ x < 2 ^ H /\
    free_climb (S (x + 2 ^ H - 1)) a (x + 2 ^ H - 1) 1 = Ok (i, S k) /\
    rep k (<[i := S k]> a) i Free /\ rep_ctx H k (<[i := S k]> a) i c.
Proof.
  intros Hr Hlen Hin Hx. pose proof (pow2_pos H) as Hpos.
  destruct (blocks_range _ _ _ _ (rep_wf _ _ _ _ Hr) Hin) as (_ & Hmax & Hk & _).
  assert (noff H H 0 = 0) as Hn0 by (unfold noff; lia).
  destruct (focus_block H H a 0 [] t o k Hr) as (i & c & Hu & Hc & Hp & Ho);
    [done | now rewrite Hn0 |]. unfold covers in Hx. simpl in Hx, Hmax.
  destruct (ctx_index _ _ _ _ _ Hc) as (d & j & HHd & Hi & Hj).
  assert ((i + 1) * 2 ^ k = o + 2 ^ H) as Hio.
  { rewrite <- Ho. rewrite (noff_eq _ _ _ _ _ HHd Hi), Hi.
    rewrite HHd, Nat.pow_add_r. lia. }
  assert (S k <= 2 ^ H) by (pose proof (Nat.pow_gt_lin_r 2 H ltac:(lia)); lia).
  pose proof (ctx_in_range _ _ _ _ _ Hc).
  exists i, c. repeat split; try done; try lia; [| |now apply rep_ctx_frame; [apply under_refl|]].
  - replace (S (x + 2 ^ H - 1)) with (k + 1 + (x + 2 ^ H - 1 - k)) by lia.
    apply (climb_used k i o (2 ^ H)); (done || lia).
  - destruct Hu as [_ Hch]. destruct k as [|k]; cbn [rep full]; (split; [apply list_lookup_insert_eq; lia|]);
      [done|]. destruct Hch. split; (apply full_frame; [|done]); intros Hux; apply under_le in Hux; lia.
Qed.

Lemma free_rep a t o k x :
  H < 64 -> rep H a 0 t -> length a = 2 ^ S H - 1 -> (o, k) ∈ blocks H 0 t -> covers (o, k) x ->
  exists i c a', rep_ctx H k a i c /\ plug c Used = t /\ noff H k i = o /\
    free (2 ^ H) a x = Ok a' /\ length a' = length a /\ rep H a' 0 (plug c Free).
Proof.
  intros HH Hr Hlen Hin Hx.
  destruct (free_focus a t o k x Hr Hlen Hin Hx) as (i & c & Hc & Hp & Ho & Hi & Hlt & Ec & Hf & Hc').
  unfold free. destruct (Nat.ltb_spec x (2 ^ H)); [|lia]. cbn [assert_ obind].
  rewrite Ec. cbn [obind]. rewrite wr_ok by done. cbn [obind].
  destruct (free_merge_rep c k (<[i := S k]> a) i Free i Hf Hc') as (a' & E & L & R);
    [now rewrite length_insert | done |].
  exists i, c, a'. rewrite L, length_insert. eauto 10.
Qed.

(** Freeing a cell of no block runs into the assertion of the climb. *)
Lemma free_panics a t x :
  H < 64 -> rep H a 0 t -> (forall b, b ∈ blocks H 0 t -> ~ covers b x) ->
  free (2 ^ H) a x = Panic.
Proof.
  intros HH Hr Hb. unfold free. destruct (Nat.ltb_spec x (2 ^ H)); [|done]. cbn [assert_ obind].
  assert (S H <= 2 ^ H) by (pose proof (Nat.pow_gt_lin_r 2 H ltac:(lia)); lia).
  replace (S (x + 2 ^ H - 1)) with (H + 1 + (x + 2 ^ H - 1 - H)) by lia.
  rewrite (climb_uncovered t H 0 0 (2 ^ H)); [done | done | lia | lia | lia | done].
Qed.
End Proofs.

(** Handed-out blocks are disjoint, aligned and inside the pool. *)
Lemma pool_inv_blocks H a bs :
  pool_inv H a bs ->
  ForallOrdPairs bdisj bs /\
  Forall (fun b => b.1 + 2 ^ b.2 <= 2 ^ H /\ exists m, b.1 = m * 2 ^ b.2) bs.
Proof.
  intros (_ & t & Hr & Hp). pose proof (rep_wf _ _ _ _ Hr) as Hw. split.
  - apply (FOP_perm (blocks H 0 t)); [done | now apply blocks_disjoint].
  - rewrite <- Hp. apply Forall_forall. intros b Hb.
    destruct (blocks_range _ _ _ _ Hw Hb) as (_ & ? & _ & m & ?). split; [lia | now exists m].
Qed.

Lemma rep_bound h a i t d p :
  rep h a i t -> d <= h -> (p + 1) / 2 ^ d = i + 1 -> exists v, a !! p = Some v /\ v <= S h.
Proof.
  revert i t d. induction h as [|h IH]; intros i t d Hr Hd Hp.
  - assert (d = 0) as -> by lia. rewrite Nat.pow_0_r, Nat.div_1_r in Hp.
    assert (p = i) as -> by lia. exists (top 0 t).
    split; [now apply rep_val | eapply top_bound; eauto].
  - destruct d as [|d].
    { rewrite Nat.pow_0_r, Nat.div_1_r in Hp. assert (p = i) as -> by lia. exists (top (S h) t).
      split; [now apply rep_val | eapply top_bound; eauto]. }
    assert (exists l r, rep h a (2 * i + 1) l /\ rep h a (2 * i + 2) r) as (l & r & Hl & Hrr).
    { destruct t as [| |l r]; [destruct Hr as [_ [? ?]]; exists Free, Free; done
        | destruct Hr as [_ [? ?]]; exists Free, Free; done | destruct Hr as (_ & ? & ? & _); eauto]. }
    destruct (under_step _ _ _ Hp) as [Hx|Hx];
      [destruct (IH _ l d Hl ltac:(lia) Hx) as (v & ? & ?)
      |destruct (IH _ r d Hrr ltac:(lia) Hx) as (v & ? & ?)]; exists v; split; (done || lia).
Qed.

(** A successful alloc. *)
Lemma alloc_sound H a bs size k :
  H < 64 -> pool_inv H a bs ->
  (if (size =? 0)%Z then 1%Z else size) = (2 ^ Z.of_nat k)%Z -> k <= H ->
  (exists off a', alloc (2 ^ H) a size = Ok (off, a') /\ pool_inv H a' ((off, k) :: bs) /\
     off + 2 ^ k <= 2 ^ H /\ (exists m, off = m * 2 ^ k) /\ Forall (bdisj (off, k)) bs) \/
  alloc (2 ^ H) a size = Panic.
Proof.
  intros HH (Hlen & t & Hr & Hp) Hs Hk.
  destruct (alloc_rep H a t size k HH Hr Hlen Hs Hk)
    as [[_ E]|(i & c & a' & _ & Hc & Hpl & E & L & R)]; [now right | left].
  exists (noff H k i), a'. split; [done|].
  assert (pool_inv H a' ((noff H k i, k) :: bs)) as Hinv.
  { split; [congruence|]. exists (plug c Used). split; [done|].
    rewrite (blocks_plug _ _ _ _ _ _ Hc), <- Hp, <- Hpl, (blocks_plug _ _ _ _ _ _ Hc). done. }
  split; [done|]. destruct (pool_inv_blocks _ _ _ Hinv) as [Hd Hf].
  apply Forall_cons in Hf as [[Hf1 Hf2] _]. inversion Hd; subst. auto.
Qed.

(** A refused alloc: every aligned run of the size meets a block. *)
Lemma alloc_complete H a bs size k m :
  H < 64 -> pool_inv H a bs ->
  (if (size =? 0)%Z then 1%Z else size) = (2 ^ Z.of_nat k)%Z -> k <= H ->
  alloc (2 ^ H) a size = Panic -> (m + 1) * 2 ^ k <= 2 ^ H ->
  Exists (fun b => ~ bdisj b (m * 2 ^ k, k)) bs.
Proof.
  intros HH (Hlen & t & Hr & Hp) Hs Hk Ha Hm.
  destruct (alloc_rep H a t size k HH Hr Hlen Hs Hk)
    as [[Htop _]|(i & c & a' & _ & _ & _ & E & _)]; [|congruence].
  destruct (decide (Forall (fun b => bdisj b (m * 2 ^ k, k)) bs)) as [Hall|Hn];
    [|apply not_Forall_Exists in Hn; [done | intros b; unfold bdisj; apply _]].
  exfalso. pose proof (top_complete H 0 t k m (rep_wf _ _ _ _ Hr) Hk Hm) as Hc.
  rewrite Forall_forall in Hall. specialize (Hc ltac:(intros b Hb; rewrite Hp in Hb; now apply Hall)). lia.
Qed.

(** * Properties *)

(** init leaves, whatever the memory held before, a pool with nothing handed
    out. *)
Theorem init_empty_pool H a :
  1 <= H -> length a = 2 ^ S H - 1 ->
  exists a', init (2 ^ H) a = Ok a' /\ pool_inv H a' [].
Proof.
  intros HH Hlen. destruct (init_rep H a HH Hlen) as (a' & E & L & R).
  exists a'. split; [done|]. split; [congruence|]. now exists Free.
Qed.

(** C17: alloc of [2^k] cells either hands out an aligned block inside the pool that
    is disjoint from every block handed out before and records exactly this one
    block, or stops at its assertion, and it stops only when no aligned run of
    [2^k] cells is free. *)
Theorem alloc_sound_and_complete H a bs size k :
  H < 64 -> pool_inv H a bs ->
  (if (size =? 0)%Z then 1%Z else size) = (2 ^ Z.of_nat k)%Z -> k <= H ->
  (exists off a', alloc (2 ^ H) a size = Ok (off, a') /\ pool_inv H a' ((off, k) :: bs) /\
     off + 2 ^ k <= 2 ^ H /\ (exists m, off = m * 2 ^ k) /\ Forall (bdisj (off, k)) bs) \/
  (alloc (2 ^ H) a size = Panic /\
   forall m, (m + 1) * 2 ^ k <= 2 ^ H -> Exists (fun b => ~ bdisj b (m * 2 ^ k, k)) bs).
Proof.
  intros HH Hinv Hs Hk. destruct (alloc_sound _ _ _ _ _ HH Hinv Hs Hk) as [Hok|Hp]; [auto|].
  right. split; [done|]. intros m. eauto using alloc_complete.
Qed.

(** C18: free of any cell of a handed-out block returns exactly that block to the
    pool and keeps the others; free of a cell of no block (a double free) stops
    at the assertion. *)
Theorem free_returns_block H a bs x :
  H < 64 -> pool_inv H a bs ->
  (forall o k bs', bs ≡ₚ (o, k) :: bs' -> covers (o, k) x ->
     exists a', free (2 ^ H) a x = Ok a' /\ pool_inv H a' bs') /\
  ((forall b, b ∈ bs -> ~ covers b x) -> free (2 ^ H) a x = Panic).
Proof.
  intros HH (Hlen & t & Hr & Hp). split.
  - intros o k bs' Hbs Hx.
    assert ((o, k) ∈ blocks H 0 t) as Hin by (rewrite Hp, Hbs; left).
    destruct (free_rep H a t o k x HH Hr Hlen Hin Hx) as (i & c & a' & Hc & Hpl & Ho & E & L & R).
    exists a'. split; [done|]. split; [congruence|]. exists (plug c Free). split; [done|].
    pose proof (blocks_plug H _ _ _ _ Free Hc) as H1. pose proof (blocks_plug H _ _ _ _ Used Hc) as H2.
    rewrite Hpl, Hp, Hbs, Ho in H2. simpl in H1, H2. apply Permutation_cons_inv in H2.
    now rewrite H1, H2.
  - intros Hb. apply (free_panics H a t); [done|done|]. intros b Hin. apply Hb. now rewrite <- Hp.
Qed.

(** alloc followed by free of any cell of the block restores the array
    [longest] bit for bit. *)
Theorem alloc_free_roundtrip H a bs size k off a' x :
  H < 64 -> pool_inv H a bs ->
  (if (size =? 0)%Z then 1%Z else size) = (2 ^ Z.of_nat k)%Z -> k <= H ->
  alloc (2 ^ H) a size = Ok (off, a') -> covers (off, k) x -> free (2 ^ H) a' x = Ok a.
Proof.
  intros HH (Hlen & t & Hr & Hp) Hs Hk Ha Hx.
  destruct (alloc_rep H a t size k HH Hr Hlen Hs Hk)
    as [[_ E]|(i & c & a1 & _ & Hc & Hpl & E & L & R)]; rewrite Ha in E; [discriminate|].
  injection E as -> ->.
  pose proof (blocks_plug H _ _ _ _ Used Hc) as Hu. pose proof (blocks_plug H _ _ _ _ Free Hc) as Hf.
  assert ((noff H k i, k) ∈ blocks H 0 (plug c Used)) as Hin by (rewrite Hu; left).
  destruct (free_rep H a1 _ _ k x HH R ltac:(congruence) Hin Hx)
    as (i' & c' & a2 & Hc' & Hpl' & Ho & E & L' & R').
  rewrite E. f_equal. apply (rep_array_unique H a2 a t); [|done|congruence|done].
  replace t with (plug c' Free); [done|]. rewrite <- Hpl.
  apply (blocks_unique H 0); [eapply rep_wf; eauto | rewrite Hpl; eapply rep_wf; eauto |].
  pose proof (blocks_plug H _ _ _ _ Free Hc') as Hf'. pose proof (blocks_plug H _ _ _ _ Used Hc') as Hu'.
  rewrite Hpl', Hu, Ho in Hu'. simpl in *. apply Permutation_cons_inv in Hu'. now rewrite Hf', Hf, Hu'.
Qed.

(** every entry of [longest] is at most [caplog], so no value stored in the
    [uint8_t] array ever wraps. *)
Theorem longest_fits_power_t H a bs :
  H < 64 -> pool_inv H a bs -> Forall (fun v => v <= caplog (2 ^ H) /\ v < 256) a.
Proof.
  intros HH (Hlen & t & Hr & _). rewrite caplog_pow2 by done.
  apply Forall_lookup. intros p v Hv. pose proof (lookup_lt_Some _ _ _ Hv) as Hlt.
  destruct (rep_bound H a 0 t (Nat.log2 (p + 1)) p Hr) as (w & Hw & Hle).
  - apply Nat.lt_succ_r, Nat.log2_lt_pow2; lia.
  - destruct (Nat.log2_spec (p + 1)) as [H1 H2]; [lia|]. rewrite Nat.pow_succ_r' in H2.
    symmetry. apply (Nat.div_unique _ _ _ (p + 1 - 2 ^ Nat.log2 (p + 1))); lia.
  - assert (v = w) as -> by congruence. lia.
Qed.

(** ** Concrete pools *)

(** A pool of eight cells: fresh, and after handing out two and one cells. *)
Definition ex_empty : list nat := [4; 3; 3; 2; 2; 2; 2; 1; 1; 1; 1; 1; 1; 1; 1].
Definition ex_used : list nat := [3; 1; 3; 0; 1; 2; 2; 1; 1; 0; 1; 1; 1; 1; 1].

Lemma ex_empty_inv : pool_inv 3 ex_empty [].
Proof. split; [reflexivity|]. exists Free. split; [|done]. cbn. repeat split. Qed.

Lemma ex_used_inv : pool_inv 3 ex_used [(0, 1); (2, 0)].
Proof.
  split; [reflexivity|]. exists (Split (Split Used (Split Used Free)) Free). split; [|reflexivity].
  cbn. repeat split; intros [? ?]; discriminate.
Qed.

Lemma init_empty_pool_witness :
  exists a', init (2 ^ 3) (repeat 77 15) = Ok a' /\ pool_inv 3 a' [].
Proof. apply (init_empty_pool 3 (repeat 77 15)); [lia | reflexivity]. Defined.

Lemma alloc_sound_and_complete_witness :
  (exists off a', alloc (2 ^ 3) ex_used 2 = Ok (off, a') /\ pool_inv 3 a' [(off, 1); (0, 1); (2, 0)] /\
     off + 2 ^ 1 <= 2 ^ 3 /\ (exists m, off = m * 2 ^ 1) /\
     Forall (bdisj (off, 1)) [(0, 1); (2, 0)]) \/
  (alloc (2 ^ 3) ex_used 2 = Panic /\
   forall m, (m + 1) * 2 ^ 1 <= 2 ^ 3 ->
     Exists (fun b => ~ bdisj b (m * 2 ^ 1, 1)) [(0, 1); (2, 0)]).
Proof.
  apply (alloc_sound_and_complete 3 ex_used [(0, 1); (2, 0)] 2 1);
    [lia | apply ex_used_inv | reflexivity | lia].
Defined.

Lemma free_returns_block_witness :
  (exists a', free (2 ^ 3) ex_used 1 = Ok a' /\ pool_inv 3 a' [(2, 0)]) /\
  free (2 ^ 3) ex_used 6 = Panic.
Proof.
  split.
  - apply (free_returns_block 3 ex_used [(0, 1); (2, 0)] 1) with (o := 0) (k := 1);
      [lia | apply ex_used_inv | done | unfold covers; simpl; lia].
  - apply (free_returns_block 3 ex_used [(0, 1); (2, 0)] 6); [lia | apply ex_used_inv |].
    intros b Hb. repeat (apply elem_of_cons in Hb as [-> | Hb]; [unfold covers; simpl; lia|]).
    now apply elem_of_nil in Hb.
Defined.

Lemma alloc_free_roundtrip_witness :
  exists a', alloc (2 ^ 3) ex_used 2 = Ok (4, a') /\ free (2 ^ 3) a' 5 = Ok ex_used.
Proof.
  eexists. split; [vm_compute; reflexivity|].
  apply (alloc_free_roundtrip 3 ex_used [(0, 1); (2, 0)] 2 1 4);
    [lia | apply ex_used_inv | reflexivity | lia | vm_compute; reflexivity | unfold covers; simpl; lia].
Defined.

Lemma longest_fits_power_t_witness : Forall (fun v => v <= caplog (2 ^ 3) /\ v < 256) ex_used.
Proof. apply (longest_fits_power_t 3 ex_used [(0, 1); (2, 0)]); [lia | apply ex_used_inv]. Defined.

End BuddyPool.
