(* ===== verification/KAlloc.v ===== *)
(** The kernel heap of src/kalloc.cpp: [Allocator], [init_kernel_heap],
    [kalloc] and [kfree], and the direct map of src/page.hpp.

    The spin lock around kalloc and kfree makes each call one atomic step, which
    is how the calls are modelled.  [heap_inv] lists the regions in use: those of
    the small pool in units of 128 bytes, those of the page pool in pages; the
    page pool's first 16 MiB are handed out by init and hold the kernel image and
    the small pool. *)

From Stdlib Require Import Arith ZArith Lia List Permutation.
From stdpp Require Import base numbers list.
From S2P Require Import Prelude Bits BuddyTree BuddyPool.

Local Open Scope Z_scope.

(** * The direct map *)

Definition KERNEL_MASK : Z := 0xffffffc000000000.

(** static constexpr uintptr_t kva2pa(uintptr_t kva) *)
Definition kva2pa (kva : Z) : Z := u64 (kva - KERNEL_MASK).
(** static constexpr uintptr_t pa2kva(uintptr_t pa) *)
Definition pa2kva (pa : Z) : Z := u64 (pa + KERNEL_MASK).

(** * template <batch_size, mem_start, mem_end> class Allocator *)

Module Allocator.
Section Code.
Context (batch_size mem_start mem_end : Z).

(** BuddyPool<(mem_end - mem_start) / batch_size> pool; *)
Definition capacity : nat := Z.to_nat ((mem_end - mem_start) / batch_size).

(** void init(size_t used = 0) *)
Definition init (pool : list nat) (used : Z) : outcome (list nat) :=
  pool1 <- BuddyPool.init capacity pool ;;
  if used =? 0 then Ok pool1
  else
    let used := CeilPower2 used in
    '(offset, pool2) <- BuddyPool.alloc capacity pool1 (used / batch_size) ;;
    assert_ (offset =? 0)%nat ;;
    Ok pool2.

(** void *alloc(size_t size) *)
Definition alloc (pool : list nat) (size : Z) : outcome (Z * list nat) :=
  '(o, pool') <- BuddyPool.alloc capacity pool (size / batch_size) ;;
  Ok (u64 (mem_start + Z.of_nat o * batch_size), pool').

(** void free(void *ptr): the offset is computed and then dropped. *)
Definition free (pool : list nat) (ptr : Z) : outcome (list nat) :=
  let offset := u64 (ptr - mem_start) in
  assert_ (offset mod batch_size =? 0) ;;
  let offset := offset / batch_size in
  Ok pool.
End Code.
End Allocator.

(** * The heap *)

Definition PAGE_SIZE : Z := 4096.
Definition SMALL_BEGIN : Z := 0x50800000.
Definition SMALL_END : Z := 0x51000000.
Definition PAGE_START : Z := 0x51000000.
Definition PAGE_BEGIN : Z := 0x50000000.
Definition PAGE_END : Z := 0x60000000.

Record heap := Heap { ksmall : list nat; kpage : list nat }.

(** void init_kernel_heap(): the two pools lie in uninitialised memory. *)
Definition init_kernel_heap (h : heap) : outcome heap :=
  s <- Allocator.init 128 SMALL_BEGIN SMALL_END (ksmall h) 0 ;;
  p <- Allocator.init 4096 PAGE_BEGIN PAGE_END (kpage h) (PAGE_START - PAGE_BEGIN) ;;
  Ok (Heap s p).

(** void *kalloc(size_t size) *)
Definition kalloc (h : heap) (size : Z) : outcome (Z * heap) :=
  let size := CeilPower2 size in
  if 1024 <? size then
    '(p, kp) <- Allocator.alloc 4096 PAGE_BEGIN PAGE_END (kpage h) size ;;
    Ok (pa2kva p, Heap (ksmall h) kp)
  else
    '(p, ks) <- Allocator.alloc 128 SMALL_BEGIN SMALL_END (ksmall h) size ;;
    Ok (pa2kva p, Heap ks (kpage h)).

(** void kfree(void *ptr) *)
Definition kfree (h : heap) (ptr : Z) : outcome heap :=
  let ptr := kva2pa ptr in
  if ptr <? PAGE_START then
    ks <- Allocator.free 128 SMALL_BEGIN (ksmall h) ptr ;; Ok (Heap ks (kpage h))
  else
    kp <- Allocator.free 4096 PAGE_BEGIN (kpage h) ptr ;; Ok (Heap (ksmall h) kp).

(** * Regions in use *)

(** A block of a pool as a (kernel virtual address, length) pair. *)
Definition region (batch start : Z) (b : nat * nat) : Z * Z :=
  (pa2kva (start + Z.of_nat b.1 * batch), 2 ^ Z.of_nat b.2 * batch).
Definition small_region : nat * nat -> Z * Z := region 128 SMALL_BEGIN.
Definition page_region : nat * nat -> Z * Z := region 4096 PAGE_BEGIN.

Definition rdisj (r s : Z * Z) : Prop := r.1 + r.2 <= s.1 \/ s.1 + s.2 <= r.1.

(** The block init reserves: 4096 pages, the addresses below [PAGE_START]. *)
Definition reserved : nat * nat := (0, 12)%nat.

Record heap_inv (h : heap) (bsS bsP : list (nat * nat)) : Prop := {
  inv_small : BuddyPool.pool_inv 16 (ksmall h) bsS;
  inv_page : BuddyPool.pool_inv 16 (kpage h) (reserved :: bsP);
}.

(** The memory handed to callers of kalloc. *)
Definition live (bsS bsP : list (nat * nat)) : list (Z * Z) :=
  map small_region bsS ++ map page_region bsP.

(** * Lemmas *)

Lemma capacity_pow16 b s e :
  (e - s) / b = 2 ^ 16 -> Allocator.capacity b s e = (2 ^ 16)%nat.
Proof.
  intros E. unfold Allocator.capacity. rewrite E. change 16 with (Z.of_nat 16).
  change 2 with (Z.of_nat 2). rewrite <- Nat2Z.inj_pow. apply Nat2Z.id.
Qed.

Lemma small_capacity : Allocator.capacity 128 SMALL_BEGIN SMALL_END = (2 ^ 16)%nat.
Proof. apply capacity_pow16. reflexivity. Qed.

Lemma page_capacity : Allocator.capacity 4096 PAGE_BEGIN PAGE_END = (2 ^ 16)%nat.
Proof. apply capacity_pow16. reflexivity. Qed.

Lemma pa2kva_small pa : 0 <= pa < 2 ^ 38 -> pa2kva pa = pa + KERNEL_MASK.
Proof. intros. unfold pa2kva, KERNEL_MASK. rewrite u64_small; lia. Qed.

Lemma kva2pa_pa2kva pa : 0 <= pa < 2 ^ 64 -> kva2pa (pa2kva pa) = pa.
Proof.
  intros. unfold kva2pa, pa2kva, u64. rewrite Zminus_mod_idemp_l.
  replace (pa + KERNEL_MASK - KERNEL_MASK) with pa by lia. now apply Z.mod_small.
Qed.

(** Blocks inside a pool of [2^16] units. *)
Definition in_pool (b : nat * nat) : Prop := (b.1 + 2 ^ b.2 <= 2 ^ 16)%nat.

Lemma in_pool_Z b :
  in_pool b -> Z.of_nat b.1 + 2 ^ Z.of_nat b.2 <= 65536 /\ 0 < 2 ^ Z.of_nat b.2.
Proof.
  unfold in_pool. intros Hb. split; [|lia]. apply Nat2Z.inj_le in Hb.
  rewrite Nat2Z.inj_add, !Nat2Z.inj_pow in Hb. exact Hb.
Qed.

Lemma bdisj_Z b c : bdisj b c ->
  Z.of_nat b.1 + 2 ^ Z.of_nat b.2 <= Z.of_nat c.1 \/ Z.of_nat c.1 + 2 ^ Z.of_nat c.2 <= Z.of_nat b.1.
Proof.
  intros [Hb|Hb]; apply Nat2Z.inj_le in Hb; rewrite Nat2Z.inj_add, Nat2Z.inj_pow in Hb; auto.
Qed.

Lemma small_region_eq b : in_pool b ->
  small_region b = (SMALL_BEGIN + Z.of_nat b.1 * 128 + KERNEL_MASK, 2 ^ Z.of_nat b.2 * 128).
Proof.
  intros Hb. apply in_pool_Z in Hb. unfold small_region, region.
  rewrite pa2kva_small; [done|]. unfold SMALL_BEGIN. lia.
Qed.

Lemma page_region_eq b : in_pool b ->
  page_region b = (PAGE_BEGIN + Z.of_nat b.1 * 4096 + KERNEL_MASK, 2 ^ Z.of_nat b.2 * 4096).
Proof.
  intros Hb. apply in_pool_Z in Hb. unfold page_region, region.
  rewrite pa2kva_small; [done|]. unfold PAGE_BEGIN. lia.
Qed.

Lemma small_small_disj b c : in_pool b -> in_pool c -> bdisj b c -> rdisj (small_region b) (small_region c).
Proof.
  intros Hb Hc Hd. rewrite !small_region_eq by done. apply bdisj_Z in Hd. unfold rdisj. simpl. lia.
Qed.

Lemma page_page_disj b c : in_pool b -> in_pool c -> bdisj b c -> rdisj (page_region b) (page_region c).
Proof.
  intros Hb Hc Hd. rewrite !page_region_eq by done. apply bdisj_Z in Hd. unfold rdisj. simpl. lia.
Qed.

(** The reserved pages contain the small pool, so the two kinds never meet. *)
Lemma small_page_disj b c :
  in_pool b -> in_pool c -> bdisj reserved c -> rdisj (small_region b) (page_region c).
Proof.
  intros Hb Hc Hd. rewrite small_region_eq, page_region_eq by done.
  apply bdisj_Z in Hd. apply in_pool_Z in Hb, Hc. unfold rdisj, reserved, SMALL_BEGIN, PAGE_BEGIN in *.
  cbn in *. lia.
Qed.

Lemma rdisj_sym r s : rdisj r s -> rdisj s r.
Proof. unfold rdisj. tauto. Qed.

(** Number of units the pool is asked for. *)
Lemma units_pow2 c b e :
  0 <= b -> (c = 0 /\ e = 0) \/ (0 <= e /\ c = 2 ^ e) ->
  (if c / 2 ^ b =? 0 then 1 else c / 2 ^ b) = 2 ^ Z.of_nat (Z.to_nat (e - b)).
Proof.
  intros Hb [[-> ->]|[He ->]].
  - rewrite Z.div_0_l by lia. simpl. now replace (Z.to_nat (0 - b)) with 0%nat by lia.
  - destruct (Z.le_gt_cases b e) as [Hle|Hgt].
    + rewrite <- Z.pow_sub_r by lia. rewrite Z2Nat.id by lia.
      destruct (Z.eqb_spec (2 ^ (e - b)) 0) as [E|]; [|done].
      pose proof (Z.pow_pos_nonneg 2 (e - b)). lia.
    + rewrite Z.div_small by (split; [lia | apply Z.pow_lt_mono_r; lia]). simpl.
      now replace (Z.to_nat (e - b)) with 0%nat by lia.
Qed.

(** The exponent of the rounded size. *)
Definition size_log (size : Z) : Z := if size =? 0 then 0 else Z.log2_up size.

Lemma size_log_spec size :
  0 <= size <= 2 ^ 28 -> 0 <= size_log size <= 28 /\ size <= 2 ^ size_log size /\
  ((CeilPower2 size = 0 /\ size_log size = 0) \/
   (0 <= size_log size /\ CeilPower2 size = 2 ^ size_log size)).
Proof.
  intros Hs. unfold size_log. destruct (Z.eqb_spec size 0) as [->|Hne].
  - repeat split; try lia. left. done.
  - destruct (CeilPower2_bounds size) as [[H1 _] H2]; [lia|]. pose proof (Z.log2_up_nonneg size).
    repeat split; [lia | | rewrite <- H2; lia | right; auto].
    apply Z.log2_up_le_pow2; lia.
Qed.

(** One allocation from a pool of [2^16] units of [2^b] bytes. *)
Lemma Allocator_alloc_spec b start fin pool bs size :
  0 <= b -> (fin - start) / 2 ^ b = 2 ^ 16 -> BuddyPool.pool_inv 16 pool bs ->
  0 <= size <= 2 ^ 28 -> size_log size <= b + 16 ->
  let k := Z.to_nat (size_log size - b) in
  Allocator.alloc (2 ^ b) start fin pool (CeilPower2 size) = Panic \/
  exists o pool',
    Allocator.alloc (2 ^ b) start fin pool (CeilPower2 size)
      = Ok (u64 (start + Z.of_nat o * 2 ^ b), pool') /\
    BuddyPool.pool_inv 16 pool' ((o, k) :: bs) /\ in_pool (o, k) /\
    (exists m, o = m * 2 ^ k)%nat /\ Forall (bdisj (o, k)) bs /\
    size <= 2 ^ Z.of_nat k * 2 ^ b.
Proof.
  intros Hb Hcap Hinv Hs Hk k. destruct (size_log_spec size Hs) as (He & Hle & Hc).
  unfold Allocator.alloc. rewrite (capacity_pow16 _ _ _ Hcap).
  destruct (BuddyPool.alloc_sound 16 pool bs (CeilPower2 size / 2 ^ b) k)
    as [(o & pool' & -> & Hi & Hin & Hm & Hd)| ->];
    [lia | exact Hinv | now apply units_pow2 | lia | right | now left].
  exists o, pool'. cbn [obind]. split; [reflexivity|]. split; [exact Hi|]. split; [exact Hin|].
  split; [exact Hm|]. split; [exact Hd|].
  rewrite <- Z.pow_add_r by lia. etransitivity; [exact Hle|]. apply Z.pow_le_mono_r; lia.
Qed.

Lemma heap_inv_in_pool h bsS bsP :
  heap_inv h bsS bsP -> Forall in_pool bsS /\ Forall in_pool bsP /\ Forall (bdisj reserved) bsP.
Proof.
  intros [Hs Hp]. apply BuddyPool.pool_inv_blocks in Hs as [_ Hs].
  apply BuddyPool.pool_inv_blocks in Hp as [Hd Hp]. apply Forall_cons in Hp as [_ Hp].
  inversion Hd; subst. split; [|split; [|assumption]].
  - eapply Forall_impl; [exact Hs|]. intros b [Hb _]. exact Hb.
  - eapply Forall_impl; [exact Hp|]. intros b [Hb _]. exact Hb.
Qed.

Lemma aligned_mod base m k c u :
  0 <= k <= c -> 0 < u -> (2 ^ c * u | base) -> (base + m * 2 ^ k * u) mod (2 ^ k * u) = 0.
Proof.
  intros Hk Hu Hd. pose proof (Z.pow_pos_nonneg 2 k). apply Z.mod_divide; [nia|]. apply Z.divide_add_r.
  - apply Z.divide_trans with (2 ^ c * u); [|done]. exists (2 ^ (c - k)).
    rewrite Z.mul_assoc, <- Z.pow_add_r by lia. now replace (c - k + k) with c by lia.
  - exists m. ring.
Qed.

(** What a successful kalloc promises its caller. *)
Definition fresh_region (size p len : Z) (used : list (Z * Z)) : Prop :=
  size <= len /\ p mod len = 0 /\ Forall (rdisj (p, len)) used /\
  pa2kva SMALL_BEGIN <= p /\ p + len <= pa2kva PAGE_END.

Lemma small_fresh o k m bsS bsP size :
  in_pool (o, k) -> o = (m * 2 ^ k)%nat -> (k <= 3)%nat ->
  Forall in_pool bsS -> Forall in_pool bsP -> Forall (bdisj reserved) bsP ->
  Forall (bdisj (o, k)) bsS -> size <= 2 ^ Z.of_nat k * 128 ->
  fresh_region size (small_region (o, k)).1 (small_region (o, k)).2 (live bsS bsP).
Proof.
  intros Hin Hm Hk HS HP HR HD Hsz. unfold fresh_region. rewrite <- surjective_pairing.
  split; [exact Hsz|]. split; [|split].
  - rewrite small_region_eq by exact Hin. cbn [fst snd].
    subst o. rewrite Nat2Z.inj_mul, Nat2Z.inj_pow. change (Z.of_nat 2) with 2.
    replace (SMALL_BEGIN + Z.of_nat m * 2 ^ Z.of_nat k * 128 + KERNEL_MASK)
      with (SMALL_BEGIN + KERNEL_MASK + Z.of_nat m * 2 ^ Z.of_nat k * 128) by lia.
    apply (aligned_mod _ _ _ 3); [lia|lia|]. exists ((SMALL_BEGIN + KERNEL_MASK) / 1024). reflexivity.
  - unfold live. apply Forall_app. split; apply Forall_map; rewrite Forall_forall in *; intros b Hb.
    + apply small_small_disj; auto.
    + apply small_page_disj; auto.
  - rewrite small_region_eq by exact Hin. apply in_pool_Z in Hin. cbn [fst snd] in *.
    rewrite !pa2kva_small by (unfold SMALL_BEGIN, PAGE_END; lia). unfold SMALL_BEGIN, PAGE_END. lia.
Qed.

Lemma page_fresh o k m bsS bsP size :
  in_pool (o, k) -> o = (m * 2 ^ k)%nat -> (k <= 16)%nat -> bdisj reserved (o, k) ->
  Forall in_pool bsS -> Forall in_pool bsP ->
  Forall (bdisj (o, k)) bsP -> size <= 2 ^ Z.of_nat k * 4096 ->
  fresh_region size (page_region (o, k)).1 (page_region (o, k)).2 (live bsS bsP).
Proof.
  intros Hin Hm Hk HR HS HP HD Hsz. unfold fresh_region. rewrite <- surjective_pairing.
  split; [exact Hsz|]. split; [|split].
  - rewrite page_region_eq by exact Hin. cbn [fst snd].
    subst o. rewrite Nat2Z.inj_mul, Nat2Z.inj_pow. change (Z.of_nat 2) with 2.
    replace (PAGE_BEGIN + Z.of_nat m * 2 ^ Z.of_nat k * 4096 + KERNEL_MASK)
      with (PAGE_BEGIN + KERNEL_MASK + Z.of_nat m * 2 ^ Z.of_nat k * 4096) by lia.
    apply (aligned_mod _ _ _ 16); [lia|lia|]. exists ((PAGE_BEGIN + KERNEL_MASK) / 2 ^ 28). reflexivity.
  - unfold live. apply Forall_app. split; apply Forall_map; rewrite Forall_forall in *; intros b Hb.
    + apply rdisj_sym, small_page_disj; auto.
    + apply page_page_disj; auto.
  - rewrite page_region_eq by exact Hin. apply in_pool_Z in Hin. apply bdisj_Z in HR.
    unfold reserved in HR. cbn [fst snd] in *. change (Z.of_nat 0) with 0 in HR.
    change (2 ^ Z.of_nat 12) with 4096 in HR.
    rewrite !pa2kva_small by (unfold SMALL_BEGIN, PAGE_END; lia).
    unfold SMALL_BEGIN, PAGE_END, PAGE_BEGIN in *. lia.
Qed.

(** The two branches of kalloc. *)
Lemma kalloc_cases h bsS bsP size :
  heap_inv h bsS bsP -> 0 <= size <= 2 ^ 28 ->
  kalloc h size = Panic \/
  (exists b h', kalloc h size = Ok ((small_region b).1, h') /\ heap_inv h' (b :: bsS) bsP /\
     CeilPower2 size <= 1024 /\
     fresh_region size (small_region b).1 (small_region b).2 (live bsS bsP)) \/
  (exists b h', kalloc h size = Ok ((page_region b).1, h') /\ heap_inv h' bsS (b :: bsP) /\
     1024 < CeilPower2 size /\
     fresh_region size (page_region b).1 (page_region b).2 (live bsS bsP)).
Proof.
  intros Hinv Hs. destruct (heap_inv_in_pool _ _ _ Hinv) as (HS & HP & HR).
  destruct Hinv as [Hsm Hpg]. destruct (size_log_spec size Hs) as (He & Hle & Hc).
  unfold kalloc. destruct (Z.ltb_spec 1024 (CeilPower2 size)) as [Hbig|Hsmall].
  - destruct (Allocator_alloc_spec 12 PAGE_BEGIN PAGE_END (kpage h) (reserved :: bsP) size)
      as [E|(o & pool' & E & Hi & Hin & [m Hm] & Hd & Hsz)];
      [lia | reflexivity | exact Hpg | exact Hs | lia | |];
      change (2 ^ 12) with 4096 in E; rewrite E; cbn [obind]; [now left|].
    right. right. apply Forall_cons in Hd as [Hres Hd]. apply bdisj_sym in Hres.
    pose proof (in_pool_Z _ Hin) as HinZ. cbn [fst snd] in HinZ.
    exists (o, Z.to_nat (size_log size - 12)). eexists. split; [|split; [|split; [exact Hbig|]]].
    + rewrite u64_small by (unfold PAGE_BEGIN; lia). reflexivity.
    + split; cbn [ksmall kpage]; [exact Hsm|]. destruct Hi as (Hl & t & Hr & Hp).
      split; [exact Hl|]. exists t. split; [exact Hr|]. rewrite Hp. apply Permutation_swap.
    + apply (page_fresh _ _ m); auto. lia.
  - assert (size_log size <= 10) as Hlog.
    { destruct Hc as [[_ Hz]|[_ Hc]]; [lia|]. rewrite Hc in Hsmall.
      apply (Z.pow_le_mono_r_iff 2); [lia|lia|]. exact Hsmall. }
    destruct (Allocator_alloc_spec 7 SMALL_BEGIN SMALL_END (ksmall h) bsS size)
      as [E|(o & pool' & E & Hi & Hin & [m Hm] & Hd & Hsz)];
      [lia | reflexivity | exact Hsm | exact Hs | lia | |];
      change (2 ^ 7) with 128 in E; rewrite E; cbn [obind]; [now left|].
    right. left. pose proof (in_pool_Z _ Hin) as HinZ. cbn [fst snd] in HinZ.
    exists (o, Z.to_nat (size_log size - 7)). eexists. split; [|split; [|split; [exact Hsmall|]]].
    + rewrite u64_small by (unfold SMALL_BEGIN; lia). reflexivity.
    + split; cbn [ksmall kpage]; [exact Hi | exact Hpg].
    + apply (small_fresh _ _ m); auto. lia.
Qed.

(** ** Initialisation *)

Lemma init_heap_inv h :
  length (ksmall h) = (2 ^ 17 - 1)%nat -> length (kpage h) = (2 ^ 17 - 1)%nat ->
  exists h', init_kernel_heap h = Ok h' /\ heap_inv h' [] [].
Proof.
  intros Hs Hp. unfold init_kernel_heap, Allocator.init. rewrite small_capacity, page_capacity.
  destruct (BuddyPool.init_rep 16 (ksmall h)) as (s & -> & Ls & Rs); [lia | exact Hs |].
  cbn [obind]. rewrite Z.eqb_refl.
  destruct (BuddyPool.init_rep 16 (kpage h)) as (p & -> & Lp & Rp); [lia | exact Hp |].
  cbn [obind].
  destruct (BuddyPool.alloc_empty_offset 16 p (CeilPower2 (PAGE_START - PAGE_BEGIN) / 4096) 12)
    as (p' & E & Hi); [lia | exact Rp | rewrite Lp; exact Hp | reflexivity | lia |].
  cbn [obind]. replace (PAGE_START - PAGE_BEGIN =? 0) with false by reflexivity.
  rewrite E. cbn [obind]. rewrite Nat.eqb_refl. cbn [assert_ obind].
  eexists. split; [reflexivity|]. split; cbn [ksmall kpage]; [|exact Hi].
  split; [rewrite Ls; exact Hs|]. exists Free. split; [exact Rs | reflexivity].
Qed.

(** ** Exhaustion *)

Lemma page_cells h bsS bsP : heap_inv h bsS bsP -> 4096 + Z.of_nat (cells bsP) <= 65536.
Proof.
  intros [_ (_ & t & Hr & Hp)]. pose proof (cells_bound 16 0 t (rep_wf _ _ _ _ Hr)) as Hb.
  rewrite (cells_perm _ _ Hp) in Hb. unfold cells in *. cbn [sum_list_with reserved snd] in Hb.
  apply Nat2Z.inj_le in Hb. rewrite Nat2Z.inj_add, !Nat2Z.inj_pow in Hb. exact Hb.
Qed.

(** Giving back a page region passes the assertion of Allocator::free. *)
Lemma kfree_page_ok h b :
  in_pool b -> bdisj reserved b -> kfree h (page_region b).1 = Ok h.
Proof.
  intros Hin Hd. apply in_pool_Z in Hin. apply bdisj_Z in Hd. unfold reserved in Hd.
  cbn [fst snd] in Hd. change (Z.of_nat 0) with 0 in Hd. change (2 ^ Z.of_nat 12) with 4096 in Hd.
  unfold kfree, page_region, region, PAGE_START, Allocator.free. cbn [fst].
  rewrite kva2pa_pa2kva by (unfold PAGE_BEGIN; lia).
  destruct (Z.ltb_spec (PAGE_BEGIN + Z.of_nat b.1 * 4096) 0x51000000); [unfold PAGE_BEGIN in *; lia|].
  replace (PAGE_BEGIN + Z.of_nat b.1 * 4096 - PAGE_BEGIN) with (Z.of_nat b.1 * 4096) by lia.
  rewrite u64_small, Z_mod_mult by lia. destruct h. reflexivity.
Qed.

(** The first page of an unused heap can be taken. *)
Lemma first_page h :
  heap_inv h [] [] -> exists b h', kalloc h PAGE_SIZE = Ok ((page_region b).1, h') /\
    heap_inv h' [] [b] /\ in_pool b /\ bdisj reserved b.
Proof.
  intros Hinv.
  destruct (kalloc_cases h [] [] PAGE_SIZE Hinv) as [Ek|[(b & h1 & _ & _ & Hsz & _)|(b & h1 & Ek & Hi & _)]];
    [unfold PAGE_SIZE; lia | exfalso | exfalso | ].
  - unfold kalloc in Ek. change (CeilPower2 PAGE_SIZE) with 4096 in Ek.
    change (1024 <? 4096) with true in Ek. unfold Allocator.alloc in Ek. rewrite page_capacity in Ek.
    destruct (BuddyPool.alloc (2 ^ 16) (kpage h) (4096 / 4096)) as [[o q]| | |] eqn:Ea; try discriminate.
    destruct Hinv as [_ Hp].
    pose proof (pow2_S 12). pose proof (pow2_S 13). pose proof (pow2_S 14). pose proof (pow2_S 15).
    pose proof (pow2_pos 12).
    pose proof (BuddyPool.alloc_complete 16 (kpage h) [reserved] (4096 / 4096) 0 (2 ^ 13)
      ltac:(lia) Hp eq_refl ltac:(lia) Ea ltac:(rewrite Nat.pow_0_r; lia)) as Hx.
    apply Exists_cons in Hx as [Hx|Hx]; [|now apply Exists_nil in Hx].
    apply Hx. left. unfold reserved. cbn [fst snd]. rewrite Nat.pow_0_r. lia.
  - change (CeilPower2 PAGE_SIZE) with 4096 in Hsz. lia.
  - exists b, h1. destruct (heap_inv_in_pool _ _ _ Hi) as (_ & Hin & Hd).
    apply Forall_cons in Hin as [Hin _]. apply Forall_cons in Hd as [Hd _]. auto.
Qed.

Lemma kfree_keeps_heap h p h' : kfree h p = Ok h' -> h' = h.
Proof.
  unfold kfree, Allocator.free. destruct h as [s q].
  destruct (kva2pa p <? PAGE_START); intros E; inv_ok; reflexivity.
Qed.

(** [n] times: take a page, give it back. *)
Fixpoint take_and_release (n : nat) (h : heap) : outcome heap :=
  match n with
  | O => Ok h
  | S n' =>
      '(p, h1) <- kalloc h PAGE_SIZE ;;
      h2 <- kfree h1 p ;;
      take_and_release n' h2
  end.

Lemma take_and_release_cells n h bsS bsP h' :
  heap_inv h bsS bsP -> take_and_release n h = Ok h' ->
  exists bsP', heap_inv h' bsS bsP' /\ (cells bsP + n <= cells bsP')%nat.
Proof.
  revert h bsP. induction n as [|n IH]; intros h bsP Hinv E.
  - cbn in E. inv_ok. exists bsP. split; [exact Hinv | lia].
  - cbn [take_and_release] in E.
    destruct (kalloc_cases h bsS bsP PAGE_SIZE Hinv) as [Ek|[(b & h1 & Ek & Hi & Hsz & _)|(b & h1 & Ek & Hi & _)]];
      [unfold PAGE_SIZE; lia | | |]; rewrite Ek in E; cbn [obind] in E; [discriminate| |].
    + exfalso. change (CeilPower2 PAGE_SIZE) with 4096 in Hsz. lia.
    + apply obind_Ok_inv in E as (h2 & Ef & E). apply kfree_keeps_heap in Ef as ->.
      destruct (IH _ _ Hi E) as (bsP' & Hi' & Hc). exists bsP'. split; [exact Hi'|].
      unfold cells in *. cbn [sum_list_with] in Hc. pose proof (pow2_pos b.2). lia.
Qed.

(** * Properties *)

(** init_kernel_heap, on uninitialised pool memory, leaves a heap with no
    region in use, the 16 MiB below PAGE_START reserved in the page pool; its own
    assertion (the reservation starts at offset 0) cannot fire. *)
Theorem init_kernel_heap_ready h :
  length (ksmall h) = (2 ^ 17 - 1)%nat -> length (kpage h) = (2 ^ 17 - 1)%nat ->
  exists h', init_kernel_heap h = Ok h' /\ heap_inv h' [] [].
Proof. intros. now apply init_heap_inv. Qed.

(** C28: a kalloc that returns gives a region of at least the requested size,
    aligned to its length, inside the kernel's direct map and disjoint from every
    region in use, small or large; the regions in use grow by exactly this one. *)
Theorem kalloc_fresh h bsS bsP size :
  heap_inv h bsS bsP -> 0 <= size <= 2 ^ 28 ->
  kalloc h size = Panic \/
  exists p len h' bsS' bsP', kalloc h size = Ok (p, h') /\ heap_inv h' bsS' bsP' /\
    live bsS' bsP' ≡ₚ (p, len) :: live bsS bsP /\
    fresh_region size p len (live bsS bsP).
Proof.
  intros Hinv Hs.
  destruct (kalloc_cases h bsS bsP size Hinv Hs) as [E|[(b & h' & E & Hi & _ & Hf)|(b & h' & E & Hi & _ & Hf)]];
    [now left | right | right].
  - exists (small_region b).1, (small_region b).2, h', (b :: bsS), bsP.
    split; [exact E|]. split; [exact Hi|]. split; [|exact Hf]. now rewrite <- surjective_pairing.
  - exists (page_region b).1, (page_region b).2, h', bsS, (b :: bsP).
    split; [exact E|]. split; [exact Hi|]. split; [|exact Hf]. rewrite <- surjective_pairing.
    unfold live. cbn [map]. now rewrite Permutation_middle.
Qed.

(** kfree never gives memory back: from any heap, a loop that takes one page
    and releases it again cannot run more often than there are unreserved pages. *)
Theorem kfree_leaks n h bsS bsP h' :
  heap_inv h bsS bsP -> take_and_release n h = Ok h' -> Z.of_nat n <= 61440.
Proof.
  intros Hinv E. destruct (take_and_release_cells _ _ _ _ _ Hinv E) as (bsP' & Hi & Hc).
  apply page_cells in Hi. lia.
Qed.

(** ** Concrete heaps *)

Definition raw_heap : heap := Heap (repeat 0%nat (2 ^ 17 - 1)) (repeat 0%nat (2 ^ 17 - 1)).

Lemma raw_heap_init : exists h, init_kernel_heap raw_heap = Ok h /\ heap_inv h [] [].
Proof. apply init_heap_inv; apply repeat_length. Qed.

Lemma init_kernel_heap_ready_witness :
  exists h', init_kernel_heap raw_heap = Ok h' /\ heap_inv h' [] [].
Proof. apply (init_kernel_heap_ready raw_heap); apply repeat_length. Defined.

Lemma kalloc_fresh_witness :
  exists h, init_kernel_heap raw_heap = Ok h /\
  (kalloc h 5000 = Panic \/
   exists p len h' bsS' bsP', kalloc h 5000 = Ok (p, h') /\ heap_inv h' bsS' bsP' /\
     live bsS' bsP' ≡ₚ [(p, len)] /\ fresh_region 5000 p len []).
Proof.
  destruct raw_heap_init as (h & E & Hi). exists h. split; [exact E|].
  apply (kalloc_fresh h [] [] 5000 Hi). lia.
Defined.

Lemma kfree_leaks_witness :
  exists h h', init_kernel_heap raw_heap = Ok h /\ take_and_release 1 h = Ok h' /\ Z.of_nat 1 <= 61440.
Proof.
  destruct raw_heap_init as (h & E & Hi). destruct (first_page h Hi) as (b & h1 & Ek & Hi1 & Hin & Hd).
  exists h, h1.
  assert (take_and_release 1 h = Ok h1) as Er.
  { cbn [take_and_release]. rewrite Ek. cbn [obind]. rewrite kfree_page_ok by assumption. reflexivity. }
  split; [exact E|]. split; [exact Er|]. exact (kfree_leaks 1 h [] [] h1 Hi Er).
Defined.
