(* ===== verification/LibcMemory.v ===== *)
(** The user-space heap of tiny_libc/memory.c, and how it relates to the kernel's
    BuddyPool.

    The two allocators share their algorithm, but [longest] holds sizes here and
    logarithms of sizes there.  [enc] is the translation; every loop of
    memory.c is simulated by the loop of kalloc.cpp, and the theorems of
    BuddyPool.v carry over.  What does not carry over is the test for room that
    only the kernel performs. *)

From Stdlib Require Import Arith ZArith Lia List Permutation.
From stdpp Require Import base numbers list.
From S2P Require Import Prelude Bits BuddyTree BuddyPool.

Module LibcHeap.

(** * The code *)

Definition zrd (a : list Z) (i : nat) : outcome Z := or_fault (a !! i).
Definition zwr (a : list Z) (i : nat) (v : Z) : outcome (list Z) :=
  if i <? length a then Ok (<[i := v]> a) else Fault.

(** size_t maxul(size_t a, size_t b) *)
Definition maxul (a b : Z) : Z := if (a >? b)%Z then a else b.

Section Code.
(** The pool's number of cells; [capacity] below is its value in memory.c. *)
Context (cap : nat).

Fixpoint pool_init_leaves (i : nat) (a : list Z) : outcome (list Z) :=
  if cap - 2 <? i then
    match i with
    | O => Ok a
    | S i' => a' <- zwr a i 1%Z ;; pool_init_leaves i' a'
    end
  else Ok a.

Fixpoint pool_init_inner (i : nat) (a : list Z) : outcome (list Z) :=
  match i with
  | O => Ok a
  | S i' => v <- zrd a i ;; a' <- zwr a ((i - 1) / 2) (u64 (v * 2)) ;; pool_init_inner i' a'
  end.

(** static void pool_init() *)
Definition pool_init (a : list Z) : outcome (list Z) :=
  a1 <- pool_init_leaves (2 * cap - 2) a ;; pool_init_inner (2 * cap - 2) a1.

(** [while (nodesize > size)] of pool_alloc; [nodesize] is halved each time. *)
Fixpoint pool_descend (fuel : nat) (a : list Z) (size nodesize : Z) (index : nat) : outcome (nat * Z) :=
  if (nodesize >? size)%Z then
    match fuel with
    | O => OutOfFuel
    | S fuel' =>
        let nodesize := (nodesize / 2)%Z in
        let lc := index * 2 + 1 in
        let rc := index * 2 + 2 in
        r <- zrd a rc ;;
        l <- zrd a lc ;;
        let index := if (r <? size)%Z || ((size <=? l)%Z && (l <=? r)%Z) then lc else rc in
        pool_descend fuel' a size nodesize index
    end
  else Ok (index, nodesize).

(** [while (index)] of pool_alloc. *)
Fixpoint pool_fixup (fuel : nat) (a : list Z) (index : nat) : outcome (list Z) :=
  match index with
  | O => Ok a
  | S _ =>
      match fuel with
      | O => OutOfFuel
      | S fuel' =>
          let index := (index - 1) / 2 in
          l <- zrd a (index * 2 + 1) ;;
          r <- zrd a (index * 2 + 2) ;;
          a' <- zwr a index (maxul l r) ;;
          pool_fixup fuel' a' index
      end
  end.

(** static size_t pool_alloc(size_t size) *)
Definition pool_alloc (a : list Z) (size : Z) : outcome (Z * list Z) :=
  let size := if (size =? 0)%Z then 1%Z else size in
  '(index, nodesize) <- pool_descend 64 a size (Z.of_nat cap) 0 ;;
  a1 <- zwr a index 0%Z ;;
  let offset := u64 (u64 ((Z.of_nat index + 1) * nodesize) - Z.of_nat cap) in
  a2 <- pool_fixup index a1 index ;;
  Ok (offset, a2).

(** [for (nodesize = 1; longest[index]; index = (index - 1) / 2)] of pool_free.
    At the root the index wraps to [2^63 - 1], which is no entry of the array. *)
Fixpoint pool_climb (fuel : nat) (a : list Z) (index : nat) (nodesize : Z) : outcome (nat * Z) :=
  match fuel with
  | O => OutOfFuel
  | S fuel' =>
      v <- zrd a index ;;
      if (v =? 0)%Z then Ok (index, nodesize)
      else if index =? 0 then Fault
      else pool_climb fuel' a ((index - 1) / 2) (u64 (nodesize * 2))
  end.

(** [while (index)] of pool_free. *)
Fixpoint pool_merge (fuel : nat) (a : list Z) (index : nat) (nodesize : Z) : outcome (list Z) :=
  match index with
  | O => Ok a
  | S _ =>
      match fuel with
      | O => OutOfFuel
      | S fuel' =>
          let index := (index - 1) / 2 in
          let nodesize := u64 (nodesize * 2) in
          ll <- zrd a (index * 2 + 1) ;;
          rl <- zrd a (index * 2 + 2) ;;
          a' <- (if (u64 (ll + rl) =? nodesize)%Z then zwr a index nodesize
                 else zwr a index (maxul ll rl)) ;;
          pool_merge fuel' a' index nodesize
      end
  end.

(** static size_t pool_free(size_t offset) *)
Definition pool_free (a : list Z) (offset : Z) : outcome (Z * list Z) :=
  let index := u64 (u64 (offset + Z.of_nat cap) - 1) in
  if (index <? Z.of_nat (length a))%Z then
    let index := Z.to_nat index in
    '(index, nodesize) <- pool_climb (S index) a index 1 ;;
    a1 <- zwr a index nodesize ;;
    let free_size := nodesize in
    a2 <- pool_merge index a1 index nodesize ;;
    Ok (free_size, a2)
  else Fault.

End Code.

Definition mem_begin : Z := 2 ^ 30.
Definition mem_end : Z := 2 * 2 ^ 30.
Definition batch_size : Z := 4096.
(** (mem_end - mem_begin) / batch_size = 2^18, kept as a power so that it is never unfolded. *)
Definition cap_log : nat := 18.
Definition capacity : nat := 2 ^ cap_log.

(** void *malloc(size_t size) *)
Definition malloc (a : list Z) (size : Z) : outcome (Z * list Z) :=
  let size := CeilPower2 size in
  '(off, a') <- pool_alloc capacity a (size / batch_size) ;;
  Ok (u64 (mem_begin + off * batch_size), a').

(** void free(void *ptr) *)
Definition free (a : list Z) (ptr : Z) : outcome (list Z) :=
  let offset := u64 (ptr - mem_begin) in
  let offset := (offset / batch_size)%Z in
  '(_, a') <- pool_free capacity a offset ;; Ok a'.

(** void __crt_init(): the system call only moves the break. *)
Definition __crt_init (a : list Z) : outcome (list Z) := pool_init capacity a.

(** * Simulation by the kernel pool *)

(** The size that an entry of the kernel's array stands for. *)
Definition enc (v : nat) : Z := match v with O => 0 | S k => 2 ^ Z.of_nat k end.

Definition heap_inv (H : nat) (z : list Z) (bs : list (nat * nat)) : Prop :=
  exists a, z = map enc a /\ BuddyPool.pool_inv H a bs.

Open Scope Z_scope.

Lemma enc_S k : enc (S k) = 2 ^ Z.of_nat k.
Proof. done. Qed.

Lemma enc_nonneg v : 0 <= enc v.
Proof. destruct v; simpl; lia. Qed.

Lemma enc_lt u v : (u < v)%nat -> enc u < enc v.
Proof.
  destruct v as [|v]; [lia|]. destruct u as [|u]; intros Huv; cbn [enc]; [lia|].
  apply Z.pow_lt_mono_r; lia.
Qed.

Lemma enc_ltb u v : (enc u <? enc v) = (u <? v)%nat.
Proof.
  destruct (Nat.ltb_spec u v) as [Hlt|Hge]; [apply Z.ltb_lt; now apply enc_lt|].
  apply Z.ltb_ge. destruct (decide (u = v)) as [->|]; [lia|]. pose proof (enc_lt v u). lia.
Qed.

Lemma enc_leb u v : (enc u <=? enc v) = (u <=? v)%nat.
Proof. rewrite Z.leb_antisym, enc_ltb, Nat.leb_antisym. done. Qed.

Lemma enc_max u v : maxul (enc u) (enc v) = enc (Nat.max u v).
Proof.
  unfold maxul. rewrite Z.gtb_ltb, enc_ltb.
  destruct (Nat.ltb_spec v u); [now rewrite Nat.max_l by lia | now rewrite Nat.max_r by lia].
Qed.

Lemma enc_double v : (1 <= v <= 63)%nat -> u64 (enc v * 2) = enc (S v).
Proof.
  intros Hv. destruct v as [|v]; [lia|]. rewrite !enc_S, Nat2Z.inj_succ, Z.pow_succ_r by lia.
  assert (2 ^ Z.of_nat v <= 2 ^ 62) by (apply Z.pow_le_mono_r; lia). rewrite u64_small; lia.
Qed.

Lemma enc_half h : enc (S (S h)) / 2 = enc (S h).
Proof.
  rewrite !enc_S, Nat2Z.inj_succ, Z.pow_succ_r by lia. rewrite Z.mul_comm. now apply Z.div_mul.
Qed.

Lemma zrd_enc a i v : a !! i = Some v -> zrd (map enc a) i = Ok (enc v).
Proof. intros Hv. unfold zrd. now rewrite list_lookup_fmap, Hv. Qed.

Lemma zwr_enc a i v : (i < length a)%nat -> zwr (map enc a) i (enc v) = Ok (map enc (<[i := v]> a)).
Proof.
  intros Hi. unfold zwr. rewrite length_map. destruct (Nat.ltb_spec i (length a)); [|lia].
  f_equal. symmetry. apply (list_fmap_insert enc).
Qed.

(** Perform the reads whose values are known from the kernel's array. *)
Ltac read_enc :=
  repeat match goal with
  | E : ?a !! ?i = Some _ |- context [zrd (map enc ?a) ?i] => rewrite (zrd_enc _ _ _ E); cbn [obind]
  end.

Lemma pool_descend_sim h : forall fuel a k i i' n',
  (h <= fuel)%nat -> BuddyPool.alloc_descend a (S k) (S h) i = Ok (i', n') ->
  pool_descend fuel (map enc a) (enc (S k)) (enc (S h)) i = Ok (i', enc n').
Proof.
  induction h as [|h IH]; intros fuel a k i i' n' Hf E.
  - destruct fuel; cbn [pool_descend]; rewrite Z.gtb_ltb, enc_ltb; cbn [BuddyPool.alloc_descend] in E;
      (destruct (Nat.ltb_spec (S k) 1); [lia|]); now inv_ok.
  - destruct fuel as [|fuel]; [lia|]. cbn [pool_descend]. rewrite Z.gtb_ltb, enc_ltb.
    change (BuddyPool.alloc_descend a (S k) (S (S h)) i) with
      (if (S k <? S (S h))%nat then
         r <- BuddyPool.rd a (i * 2 + 2) ;; l <- BuddyPool.rd a (i * 2 + 1) ;;
         BuddyPool.alloc_descend a (S k) (S h)
           (if (r <? S k)%nat || ((S k <=? l)%nat && (l <=? r)%nat) then i * 2 + 1 else i * 2 + 2)%nat
       else Ok (i, S (S h))) in E.
    destruct (Nat.ltb_spec (S k) (S (S h))); [|now inv_ok].
    unfold BuddyPool.rd in E. inv_ok. read_enc.
    rewrite enc_half, enc_ltb, !enc_leb. apply IH; [lia|done].
Qed.

Lemma pool_fixup_sim fuel : forall a i a',
  BuddyPool.alloc_fixup fuel a i = Ok a' -> pool_fixup fuel (map enc a) i = Ok (map enc a').
Proof.
  induction fuel as [|fuel IH]; intros a i a' E; destruct i as [|i]; cbn in E |- *; try (now inv_ok).
  unfold BuddyPool.rd, BuddyPool.wr in E. inv_ok. case_match; [|done]. inv_ok.
  read_enc.
  rewrite enc_max, zwr_enc by (now apply Nat.ltb_lt). cbn [obind]. auto.
Qed.

Lemma free_climb_mono fuel : forall a i n i' n',
  BuddyPool.free_climb fuel a i n = Ok (i', n') -> (n <= n')%nat.
Proof.
  induction fuel as [|fuel IH]; intros a i n i' n' E; cbn in E; [done|]. inv_ok.
  case_match; inv_ok; [lia|].
  match goal with E : BuddyPool.free_climb _ _ _ _ = _ |- _ => apply IH in E; lia end.
Qed.

Lemma pool_climb_sim fuel : forall a i n i' n',
  (1 <= n)%nat -> (n' <= 64)%nat -> BuddyPool.free_climb fuel a i n = Ok (i', n') ->
  pool_climb fuel (map enc a) i (enc n) = Ok (i', enc n').
Proof.
  induction fuel as [|fuel IH]; intros a i n i' n' Hn Hn' E; cbn in E |- *; [done|].
  unfold BuddyPool.rd in E. inv_ok. read_enc.
  case_match; [now inv_ok|]. inv_ok.
  match goal with E : BuddyPool.free_climb _ _ _ _ = _ |- _ => rename E into Hk'; pose proof (free_climb_mono _ _ _ _ _ _ Hk') end.
  rewrite enc_S. destruct (Z.eqb_spec (2 ^ Z.of_nat n0) 0); [lia|].
  destruct i as [|i]; [done|]. cbn [Nat.eqb]. rewrite enc_double by lia.
  rewrite <- (Nat.add_1_r n). apply IH; [lia|done|done].
Qed.

Lemma pool_climb_fault fuel : forall a i n z,
  BuddyPool.free_climb fuel a i n = Panic -> pool_climb fuel (map enc a) i z = Fault.
Proof.
  induction fuel as [|fuel IH]; intros a i n z E; cbn in E |- *; [done|].
  unfold BuddyPool.rd in E. destruct (a !! i) as [v|] eqn:Hv; [|done]. cbn [or_fault obind] in E.
  rewrite (zrd_enc _ _ _ Hv). cbn [obind]. destruct v as [|v]; [done|].
  rewrite enc_S. destruct (Z.eqb_spec (2 ^ Z.of_nat v) 0); [lia|].
  destruct i as [|i]; [done|]. cbn [Nat.eqb negb assert_ obind] in *. eauto.
Qed.

(** The two tests for "both halves free" agree below the height of the node. *)
Lemma merge_test ll rl n :
  (ll <= n)%nat -> (rl <= n)%nat -> (1 <= n <= 63)%nat ->
  (u64 (enc ll + enc rl) =? enc (n + 1)) = ((ll + 1 =? n + 1)%nat && (rl + 1 =? n + 1)%nat).
Proof.
  intros Hl Hr Hn. assert (Hd : enc (n + 1) = enc n + enc n).
  { rewrite Nat.add_1_r. destruct n as [|n]; [lia|]. rewrite !enc_S, Nat2Z.inj_succ, Z.pow_succ_r; lia. }
  assert (Hub : enc n <= 2 ^ 62).
  { destruct n as [|n]; [lia|]. rewrite enc_S. apply Z.pow_le_mono_r; lia. }
  assert (Hle : forall v, (v <= n)%nat -> enc v <= enc n /\ (v <> n -> enc v < enc n)).
  { intros v Hv. destruct (decide (v = n)) as [->|]; [lia|]. pose proof (enc_lt v n). lia. }
  pose proof (Hle _ Hl). pose proof (Hle _ Hr). pose proof (enc_nonneg ll). pose proof (enc_nonneg rl).
  rewrite u64_small, Hd by lia.
  destruct (Nat.eqb_spec (ll + 1) (n + 1)), (Nat.eqb_spec (rl + 1) (n + 1)); cbn [andb];
    first [apply Z.eqb_eq | apply Z.eqb_neq]; try lia.
  assert (ll = n) as -> by lia. assert (rl = n) as -> by lia. lia.
Qed.

Lemma pool_merge_sim H c : (H <= 62)%nat -> forall h a i t fuel a',
  rep h a i t -> rep_ctx H h a i c -> length a = (2 ^ S H - 1)%nat ->
  BuddyPool.free_merge fuel a i (S h) = Ok a' ->
  pool_merge fuel (map enc a) i (enc (S h)) = Ok (map enc a').
Proof.
  intros HH. induction c as [|f c IH]; intros h a i t fuel a' Hr Hc Hlen E.
  - destruct Hc as [-> ->]. destruct fuel; cbn in E |- *; now inv_ok.
  - destruct (ctx_index _ _ _ _ _ Hc) as (d & j & Hd & _ & _).
    destruct (BuddyPool.ctx_cons _ _ _ _ _ _ _ Hc Hr) as (p & l & r & Hp & Hlt & Hpb & Hc' & Hl & Hrr & _ & _).
    destruct (ctx_index _ _ _ _ _ Hc') as (d' & j' & Hd' & _ & _).
    destruct fuel as [|fuel]; [destruct i; [lia|done]|].
    rewrite BuddyPool.free_merge_step in E by lia. destruct i as [|i]; [lia|]. cbn [pool_merge].
    rewrite Hp in *. pose proof (rep_val _ _ _ _ Hl) as Vl. pose proof (rep_val _ _ _ _ Hrr) as Vr.
    rewrite (zrd_enc _ _ _ Vl), (zrd_enc _ _ _ Vr). cbn [obind].
    rewrite (BuddyPool.rd_ok _ _ _ Vl), (BuddyPool.rd_ok _ _ _ Vr) in E. cbn [obind] in E.
    rewrite enc_double, <- (Nat.add_1_r (S h)), merge_test
      by (first [apply (top_bound _ _ _ _ Hl) | apply (top_bound _ _ _ _ Hrr) | lia]).
    pose proof (BuddyPool.merge_value _ _ _ _ _ Hl Hrr) as Hv.
    destruct (BuddyPool.parent_step h a p l r _ Hl Hrr ltac:(lia) Hv) as [Hw Hpar].
    rewrite enc_max. set (b := (top h l + 1 =? S h + 1)%nat && _) in *.
    assert ((if b then zwr (map enc a) p (enc (S h + 1)) else zwr (map enc a) p (enc (Nat.max (top h l) (top h r))))
      = Ok (map enc (<[p := if b then (S h + 1)%nat else Nat.max (top h l) (top h r)]> a))) as ->
      by (destruct b; apply zwr_enc; lia).
    assert ((if b then BuddyPool.wr a p (S h + 1) else BuddyPool.wr a p (Nat.max (top h l) (top h r)))
      = Ok (<[p := if b then (S h + 1)%nat else Nat.max (top h l) (top h r)]> a)) as Ew
      by (destruct b; apply Hw).
    rewrite Ew in E. cbn [obind] in *. rewrite Nat.add_1_r in *.
    eapply (IH (S h)); [exact Hpar | apply rep_ctx_frame; [apply under_refl|exact Hc'] | now rewrite length_insert | exact E].
Qed.

(** ** Whole operations *)

Lemma pow2_nat_Z n : Z.of_nat (2 ^ n) = 2 ^ Z.of_nat n.
Proof. now rewrite Nat2Z.inj_pow. Qed.

(** The offset of a node, computed in 64 bits. *)
Lemma node_offset H k d j i :
  (H <= 62)%nat -> H = (k + d)%nat -> (i + 1 = 2 ^ d + j)%nat -> (j < 2 ^ d)%nat ->
  u64 (u64 ((Z.of_nat i + 1) * enc (S k)) - Z.of_nat (2 ^ H)) = Z.of_nat (j * 2 ^ k) /\
  ((j + 1) * 2 ^ k <= 2 ^ H)%nat.
Proof.
  intros HH -> Hi Hj. split; [|rewrite Nat.pow_add_r; pose proof (pow2_pos k); nia].
  rewrite enc_S, <- pow2_nat_Z.
  replace (Z.of_nat i + 1) with (Z.of_nat (2 ^ d + j)) by lia. rewrite <- Nat2Z.inj_mul.
  assert (((2 ^ d + j) * 2 ^ k = 2 ^ (k + d) + j * 2 ^ k)%nat) as -> by (rewrite Nat.pow_add_r; lia).
  assert ((j * 2 ^ k < 2 ^ (k + d))%nat) as Hb by (rewrite Nat.pow_add_r; pose proof (pow2_pos k); nia).
  assert (Z.of_nat (2 ^ (k + d)) <= 2 ^ 62) by (rewrite pow2_nat_Z; apply Z.pow_le_mono_r; lia).
  rewrite (u64_small (Z.of_nat (_ + _))) by lia. rewrite u64_small by lia. lia.
Qed.

(** When the kernel would find room, pool_alloc does the same. *)
Lemma pool_alloc_sim H a t size k off a' :
  (H <= 62)%nat -> rep H a 0 t -> (if size =? 0 then 1 else size) = 2 ^ Z.of_nat k -> (k <= H)%nat ->
  BuddyPool.alloc (2 ^ H) a size = Ok (off, a') ->
  pool_alloc (2 ^ H) (map enc a) size = Ok (Z.of_nat off, map enc a').
Proof.
  intros HH Hr Hs Hk E. unfold BuddyPool.alloc in E. rewrite (BuddyPool.size_power _ k Hs) in E by lia.
  rewrite (BuddyPool.rd_ok _ _ _ (rep_val _ _ _ _ Hr)) in E. cbn [obind] in E.
  destruct (Nat.leb_spec (S k) (top H t)) as [Hle|Hgt]; [|done]. cbn [assert_ obind] in E.
  rewrite BuddyPool.caplog_pow2 in E by lia.
  destruct (BuddyPool.alloc_descend_rep H H a 0 t [] k Hr) as (i & c & Ed & R & C & P); [done|done|].
  rewrite Ed in E. cbn [obind] in E. unfold pool_alloc. rewrite Hs, pow2_nat_Z, <- !enc_S.
  rewrite (pool_descend_sim H 64 _ _ _ _ _ ltac:(lia) Ed). cbn [obind].
  unfold BuddyPool.wr in E. case_match; [|done]. cbn [obind] in E.
  change 0 with (enc 0) at 1. rewrite zwr_enc by (now apply Nat.ltb_lt). cbn [obind].
  apply obind_Ok_inv in E as (a2 & Ef & E). inv_ok. rewrite (pool_fixup_sim _ _ _ _ Ef). cbn [obind].
  destruct (ctx_index _ _ _ _ _ C) as (d & j & Hd & Hi & Hj).
  rewrite (enc_S H), <- (pow2_nat_Z H).
  destruct (node_offset H k d j i HH Hd Hi Hj) as [-> _].
  ok_eq. rewrite Hi, Hd, Nat.pow_add_r. rewrite ?Nat.sub_0_r.
  rewrite Nat.mul_add_distr_r, (Nat.mul_comm (2 ^ d)). generalize (j * 2 ^ k)%nat. lia.
Qed.

(** Without room the descent still ends at some node of the wanted height. *)
Lemma pool_descend_any H z k h : forall fuel i d j,
  length z = (2 ^ S H - 1)%nat -> H = (h + d)%nat -> (i + 1 = 2 ^ d + j)%nat -> (j < 2 ^ d)%nat ->
  (k <= h <= fuel)%nat ->
  exists i' d' j', pool_descend fuel z (enc (S k)) (enc (S h)) i = Ok (i', enc (S k)) /\
    H = (k + d')%nat /\ (i' + 1 = 2 ^ d' + j')%nat /\ (j' < 2 ^ d')%nat.
Proof.
  induction h as [|h IH]; intros fuel i d j Hlen HH Hi Hj Hk.
  - assert (k = 0%nat) as -> by lia. exists i, d, j.
    destruct fuel; cbn [pool_descend]; rewrite Z.gtb_ltb, enc_ltb; done.
  - destruct fuel as [|fuel]; [lia|]. cbn [pool_descend]. rewrite Z.gtb_ltb, enc_ltb.
    destruct (Nat.ltb_spec (S k) (S (S h))).
    2: { assert (k = S h) as -> by lia. exists i, d, j. auto. }
    assert (Hb : (i * 2 + 2 < length z)%nat).
    { rewrite Hlen, HH. replace (S (S h + d)) with (h + S (S d))%nat by lia.
      rewrite Nat.pow_add_r, !pow2_S. pose proof (pow2_pos h). nia. }
    destruct (lookup_lt_is_Some_2 z (i * 2 + 2) Hb) as [r Er].
    destruct (lookup_lt_is_Some_2 z (i * 2 + 1) ltac:(lia)) as [l El].
    unfold zrd. rewrite Er, El. cbn [or_fault obind]. rewrite enc_half. pose proof (pow2_S d).
    case_match; [apply (IH _ _ (S d) (2 * j)%nat) | apply (IH _ _ (S d) (2 * j + 1)%nat)]; lia.
Qed.

Lemma pool_fixup_any H fuel : forall z i,
  length z = (2 ^ S H - 1)%nat -> (i < length z)%nat -> (i <= fuel)%nat ->
  exists z', pool_fixup fuel z i = Ok z' /\ length z' = length z.
Proof.
  induction fuel as [|fuel IH]; intros z i Hlen Hi Hf; destruct i as [|i]; try (exists z; done); [lia|].
  cbn [pool_fixup]. set (p := ((S i - 1) / 2)%nat).
  pose proof (Nat.div_mod_eq (S i - 1) 2) as Hdm. pose proof (Nat.mod_upper_bound (S i - 1) 2 ltac:(lia)).
  pose proof (pow2_S H).
  destruct (lookup_lt_is_Some_2 z (p * 2 + 2) ltac:(subst p; lia)) as [r Er].
  destruct (lookup_lt_is_Some_2 z (p * 2 + 1) ltac:(subst p; lia)) as [l El].
  unfold zrd, zwr. rewrite Er, El. cbn [or_fault obind].
  destruct (Nat.ltb_spec p (length z)); [|subst p; lia]. cbn [obind].
  destruct (IH (<[p := maxul l r]> z) p) as (z' & E & L); rewrite ?length_insert in *; [lia|lia|subst p; lia|].
  exists z'. split; [done|lia].
Qed.

(** pool_alloc always returns: a fresh block when there is room, and otherwise an
    aligned block that meets one handed out before. *)
Lemma pool_alloc_run H z bs size k :
  (H <= 62)%nat -> heap_inv H z bs -> (if size =? 0 then 1 else size) = 2 ^ Z.of_nat k -> (k <= H)%nat ->
  exists m z', pool_alloc (2 ^ H) z size = Ok (Z.of_nat (m * 2 ^ k), z') /\
    ((m + 1) * 2 ^ k <= 2 ^ H)%nat /\
    ((heap_inv H z' ((m * 2 ^ k, k)%nat :: bs) /\ Forall (bdisj (m * 2 ^ k, k)%nat) bs) \/
     (forall j, ((j + 1) * 2 ^ k <= 2 ^ H)%nat -> Exists (fun b => ~ bdisj b (j * 2 ^ k, k)%nat) bs)).
Proof.
  intros HH (a & -> & Hinv) Hs Hk.
  destruct (BuddyPool.alloc_sound H a bs size k ltac:(lia) Hinv Hs Hk)
    as [(off & a' & E & Hi' & Hb & (m & ->) & Hd)|Hp].
  - destruct Hinv as (Hlen & t & Hr & _). exists m, (map enc a').
    rewrite (pool_alloc_sim H a t size k _ a') by done. split; [done|]. split; [lia|].
    left. split; [now exists a' | done].
  - pose proof (fun j => BuddyPool.alloc_complete H a bs size k j ltac:(lia) Hinv Hs Hk Hp) as Hfull.
    destruct Hinv as [Hlen _].
    destruct (pool_descend_any H (map enc a) k H 64 0 0 0) as (i & d & j & Ed & Hd & Hi & Hj);
      [now rewrite length_map | lia | done | simpl; lia | lia |].
    unfold pool_alloc. rewrite Hs, pow2_nat_Z, <- !enc_S, Ed. cbn [obind].
    assert (Hil : (i < length a)%nat).
    { rewrite Hlen, Hd. replace (S (k + d)) with (k + S d)%nat by lia.
      rewrite Nat.pow_add_r, pow2_S. pose proof (pow2_pos k). nia. }
    unfold zwr. rewrite length_map. destruct (Nat.ltb_spec i (length a)); [|lia]. cbn [obind].
    destruct (pool_fixup_any H i (<[i := 0]> (map enc a)) i) as (z' & Ef & _);
      rewrite ?length_insert, ?length_map; auto.
    rewrite Ef. cbn [obind]. rewrite (enc_S H), <- (pow2_nat_Z H).
    destruct (node_offset H k d j i HH Hd Hi Hj) as [-> Hb].
    exists j, z'. split; [done|]. split; [done|]. right. exact Hfull.
Qed.

Lemma free_merge_no_panic f : forall i n b, BuddyPool.free_merge f b i n <> Panic.
Proof.
  induction f as [|f IH]; intros i n b; destruct i as [|i]; cbn [BuddyPool.free_merge]; try done.
  unfold BuddyPool.rd, BuddyPool.wr. set (p := ((S i - 1) / 2)%nat).
  destruct (b !! _) as [ll|]; [|done]. cbn [or_fault obind].
  destruct (b !! _) as [rl|]; [|done]. cbn [or_fault obind].
  destruct (_ && _), (p <? length b)%nat; cbn [obind]; try done; apply IH.
Qed.

Lemma pool_free_run H z bs x :
  (H <= 61)%nat -> heap_inv H z bs ->
  (forall o k bs', bs ≡ₚ (o, k) :: bs' -> covers (o, k) x ->
     exists z', pool_free (2 ^ H) z (Z.of_nat x) = Ok (2 ^ Z.of_nat k, z') /\ heap_inv H z' bs') /\
  ((x < 2 ^ H)%nat -> (forall b, b ∈ bs -> ~ covers b x) -> pool_free (2 ^ H) z (Z.of_nat x) = Fault).
Proof.
  intros HH (a & -> & Hlen & t & Hr & Hp).
  assert (Hpow : Z.of_nat (2 ^ H) <= 2 ^ 61) by (rewrite pow2_nat_Z; apply Z.pow_le_mono_r; lia).
  pose proof (pow2_pos H). pose proof (pow2_S H) as HS.
  assert (Hidx : (x < 2 ^ H)%nat ->
    u64 (u64 (Z.of_nat x + Z.of_nat (2 ^ H)) - 1) = Z.of_nat (x + 2 ^ H - 1)).
  { intros Hx. rewrite (u64_small (_ + _)), u64_small by lia. lia. }
  split.
  - intros o k bs' Hbs Hx.
    assert ((o, k) ∈ blocks H 0 t) as Hin by (rewrite Hp, Hbs; left).
    destruct (BuddyPool.free_focus H a t o k x Hr Hlen Hin Hx) as (i & c & Hc & Hpl & Ho & Hi & Hlt & Ec & Hf & Hc').
    destruct (ctx_index _ _ _ _ _ Hc) as (d & j & Hd & _ & _).
    destruct (BuddyPool.free_merge_rep H c k (<[i := S k]> a) i Free i Hf Hc') as (a' & E & L & R);
      [now rewrite length_insert | done |].
    exists (map enc a'). split.
    + unfold pool_free. rewrite Hidx, length_map by done.
      destruct (Z.ltb_spec (Z.of_nat (x + 2 ^ H - 1)) (Z.of_nat (length a))); [|lia].
      rewrite Nat2Z.id. change 1 with (enc 1).
      rewrite (pool_climb_sim _ _ _ _ i (S k)) by (auto; lia). cbn [obind].
      rewrite zwr_enc by done. cbn [obind].
      rewrite (pool_merge_sim H c ltac:(lia) k _ i Free i a'); [done|done|done|now rewrite length_insert|done].
    + exists a'. split; [done|]. split; [rewrite L, length_insert; done|]. exists (plug c Free). split; [done|].
      pose proof (blocks_plug H _ _ _ _ Used Hc) as Hu. pose proof (blocks_plug H _ _ _ _ Free Hc) as Hfr.
      rewrite Hpl, Ho in Hu. simpl in Hu, Hfr. rewrite Hfr.
      apply (Permutation_cons_inv (a := (o, k))). now rewrite <- Hbs, <- Hp, Hu.
  - intros Hx Hb. unfold pool_free. rewrite Hidx, length_map by done.
    destruct (Z.ltb_spec (Z.of_nat (x + 2 ^ H - 1)) (Z.of_nat (length a))); [|lia].
    rewrite Nat2Z.id.
    pose proof (BuddyPool.free_panics H a t x ltac:(lia) Hr ltac:(intros b Hin; apply Hb; now rewrite <- Hp)) as E.
    unfold BuddyPool.free in E. destruct (Nat.ltb_spec x (2 ^ H)); [|lia]. cbn [assert_ obind] in E.
    destruct (BuddyPool.free_climb (S (x + 2 ^ H - 1)) a (x + 2 ^ H - 1) 1) as [[i n]| | |] eqn:Ec;
      cbn [obind] in E; try done; [|now rewrite (pool_climb_fault _ _ _ _ _ Ec)].
    exfalso. unfold BuddyPool.wr in E. case_match; [cbn [obind] in E | done].
    now apply free_merge_no_panic in E.
Qed.

(** ** Initialisation *)

Lemma zwr_ok z i v : (i < length z)%nat -> zwr z i v = Ok (<[i := v]> z).
Proof. intros Hi. unfold zwr. now destruct (Nat.ltb_spec i (length z)); [|lia]. Qed.

Lemma pool_init_leaves_run cap i : forall z hi,
  (2 <= cap)%nat -> (i < length z)%nat -> (i <= hi)%nat ->
  (forall j, (i < j <= hi)%nat -> z !! j = Some 1) ->
  exists z', pool_init_leaves cap i z = Ok z' /\ length z' = length z /\
    forall j, (cap - 1 <= j <= hi)%nat -> z' !! j = Some 1.
Proof.
  induction i as [|i IH]; intros z hi Hc Hi Hh Hv; cbn [pool_init_leaves].
  - destruct (Nat.ltb_spec (cap - 2) 0); [lia|]. exists z. split; [done|]. split; [done|].
    intros j Hj. apply Hv. lia.
  - destruct (Nat.ltb_spec (cap - 2) (S i)).
    + rewrite zwr_ok by done. cbn [obind].
      destruct (IH (<[S i := 1]> z) hi) as (z' & E & L & V); rewrite ?length_insert in *; [done|lia|lia| |eauto].
      intros j Hj. destruct (decide (j = S i)) as [->|];
        [now apply list_lookup_insert_eq | rewrite list_lookup_insert_ne by done; apply Hv; lia].
    + exists z. split; [done|]. split; [done|]. intros j Hj. apply Hv. lia.
Qed.

(** Doubling the value of a child gives the initial value of its parent. *)
Lemma initial_double H i :
  (H <= 62)%nat -> (0 < i < 2 ^ S H - 1)%nat ->
  u64 (enc (BuddyPool.initial_value H i) * 2) = enc (BuddyPool.initial_value H ((i - 1) / 2)).
Proof.
  intros HH Hi. pose proof (BuddyPool.log2_parent i ltac:(lia)) as Hlog.
  assert (Nat.log2 (i + 1) <= H)%nat by (apply Nat.lt_succ_r, Nat.log2_lt_pow2; lia).
  unfold BuddyPool.initial_value. rewrite enc_double by lia. f_equal. lia.
Qed.

Lemma pool_init_inner_run H i : forall z,
  (H <= 62)%nat -> length z = (2 ^ S H - 1)%nat -> (i < length z)%nat ->
  (forall j, (j < length z)%nat -> (2 ^ H - 1 <= j)%nat \/ (i < 2 * j + 2)%nat ->
     z !! j = Some (enc (BuddyPool.initial_value H j))) ->
  exists z', pool_init_inner i z = Ok z' /\ length z' = length z /\
    forall j, (j < length z)%nat -> z' !! j = Some (enc (BuddyPool.initial_value H j)).
Proof.
  induction i as [|i IH]; intros z HH Hlen Hi Hinv.
  - exists z. split; [done|]. split; [done|]. intros j Hj. apply Hinv; [done|]. right. lia.
  - pose proof (pow2_S H).
    assert (z !! S i = Some (enc (BuddyPool.initial_value H (S i)))) as Hv by (apply Hinv; lia).
    cbn [pool_init_inner]. unfold zrd. rewrite Hv. cbn [or_fault obind].
    rewrite initial_double by lia. set (p := ((S i - 1) / 2)%nat) in *.
    assert (2 * p <= i /\ i <= 2 * p + 1)%nat as Hp.
    { subst p. pose proof (Nat.div_mod_eq (S i - 1) 2). pose proof (Nat.mod_upper_bound (S i - 1) 2). lia. }
    rewrite zwr_ok by lia. cbn [obind].
    destruct (IH (<[p := enc (BuddyPool.initial_value H p)]> z)) as (z' & E & L & V);
      rewrite ?length_insert in *; [done | done | lia | | eauto].
    intros j Hj Hc. destruct (decide (p = j)) as [<-|Hne].
    + rewrite list_lookup_insert_eq by lia. done.
    + rewrite list_lookup_insert_ne by done. apply Hinv; [done|]. lia.
Qed.

Lemma pool_init_run H z :
  (1 <= H <= 62)%nat -> length z = (2 ^ S H - 1)%nat ->
  exists z', pool_init (2 ^ H) z = Ok z' /\ heap_inv H z' [].
Proof.
  intros HH Hlen. pose proof (pow2_S H).
  assert (2 <= 2 ^ H)%nat by (change 2%nat with (2 ^ 1)%nat at 1; apply Nat.pow_le_mono_r; lia).
  unfold pool_init.
  destruct (pool_init_leaves_run (2 ^ H) (2 * 2 ^ H - 2) z (2 * 2 ^ H - 2)) as (z1 & -> & L1 & V1); [lia|lia|lia|lia|].
  cbn [obind]. destruct (pool_init_inner_run H (2 * 2 ^ H - 2) z1) as (z2 & -> & L2 & V2); [lia|lia|lia| |].
  - intros j Hj Hc. rewrite V1 by lia. unfold BuddyPool.initial_value.
    rewrite (Nat.log2_unique _ H) by lia. replace (S H - H)%nat with 1%nat by lia. done.
  - exists z2. split; [done|]. exists (map (BuddyPool.initial_value H) (seq 0 (length z2))).
    assert (Hlk : forall j, (j < length z2)%nat ->
      map (BuddyPool.initial_value H) (seq 0 (length z2)) !! j = Some (BuddyPool.initial_value H j)).
    { intros j Hj. rewrite list_lookup_fmap, lookup_seq_lt by done. done. }
    split; [|split; [rewrite length_map, length_seq; lia|]].
    + apply list_eq. intros j. destruct (Nat.lt_ge_cases j (length z2)) as [Hj|Hj].
      * rewrite V2, list_lookup_fmap, Hlk by lia. done.
      * rewrite !lookup_ge_None_2; [done | rewrite !length_map, length_seq; lia | lia].
    + exists Free. split; [|done]. apply (BuddyPool.initial_full H H _ 0 0); [lia | simpl; lia |].
      intros j Hj. apply Hlk. lia.
Qed.

(** * Properties *)

(** The height of the block malloc asks for. *)
Definition malloc_log (size : Z) : nat := Z.to_nat (Z.log2_up size - 12).

Lemma malloc_size size :
  0 < size <= 2 ^ 30 ->
  (if CeilPower2 size / batch_size =? 0 then 1 else CeilPower2 size / batch_size) = 2 ^ Z.of_nat (malloc_log size) /\
  (malloc_log size <= 18)%nat /\ size <= 2 ^ Z.of_nat (malloc_log size) * batch_size.
Proof.
  intros Hs. destruct (CeilPower2_bounds size) as [[Hge _] Hc]; [lia|]. rewrite Hc in *.
  assert (0 <= Z.log2_up size <= 30) as Hl.
  { split; [apply Z.log2_up_nonneg|]. rewrite <- (Z.log2_up_pow2 30) by lia. now apply Z.log2_up_le_mono. }
  unfold malloc_log, batch_size. change 4096 with (2 ^ 12).
  destruct (Z.lt_ge_cases (Z.log2_up size) 12) as [Hlt|Hge'].
  - replace (Z.to_nat (Z.log2_up size - 12)) with 0%nat by lia.
    rewrite Z.div_small by (split; [lia|apply Z.pow_lt_mono_r; lia]). cbn [Z.eqb].
    split; [done|]. split; [lia|]. change (2 ^ Z.of_nat 0) with 1.
    assert (2 ^ Z.log2_up size <= 2 ^ 12) by (apply Z.pow_le_mono_r; lia). lia.
  - rewrite Z2Nat.id by lia. rewrite <- Z.pow_sub_r by lia.
    assert (0 < 2 ^ (Z.log2_up size - 12)) by (apply Z.pow_pos_nonneg; lia).
    destruct (Z.eqb_spec (2 ^ (Z.log2_up size - 12)) 0); [lia|]. split; [done|]. split; [lia|].
    rewrite <- Z.pow_add_r by lia. now replace (Z.log2_up size - 12 + 12) with (Z.log2_up size) by lia.
Qed.

(** malloc always returns a page-aligned region of at least the requested
    size inside the heap; it is disjoint from every region in use while an
    aligned free run of that size is left, but once none is left malloc does not
    fail: the region it returns is in use already. *)
Theorem malloc_fresh_or_in_use z bs size :
  heap_inv cap_log z bs -> 0 < size <= 2 ^ 30 ->
  exists m z', let k := malloc_log size in let b := (m * 2 ^ k, k)%nat in
    malloc z size = Ok (mem_begin + Z.of_nat b.1 * batch_size, z') /\
    (b.1 + 2 ^ k <= 2 ^ cap_log)%nat /\ size <= 2 ^ Z.of_nat k * batch_size /\
    ((heap_inv cap_log z' (b :: bs) /\ Forall (bdisj b) bs) \/
     ((forall j, ((j + 1) * 2 ^ k <= 2 ^ cap_log)%nat -> Exists (fun c => ~ bdisj c (j * 2 ^ k, k)%nat) bs) /\
      Exists (fun c => ~ bdisj c b) bs)).
Proof.
  intros Hinv Hs. destruct (malloc_size size Hs) as (Hp & Hk & Hsz).
  destruct (pool_alloc_run cap_log z bs _ _ ltac:(unfold cap_log; lia) Hinv Hp Hk) as (m & z' & E & Hb & Hc).
  exists m, z'. cbn zeta. unfold malloc, capacity. rewrite E. cbn [obind fst].
  assert (Hz : Z.of_nat (m * 2 ^ malloc_log size) <= 2 ^ 18).
  { change (2 ^ 18) with (2 ^ Z.of_nat cap_log). rewrite <- pow2_nat_Z. lia. }
  rewrite u64_small by (unfold mem_begin, batch_size; lia).
  split; [done|]. split; [lia|]. split; [done|].
  destruct Hc as [Hc|Hc]; [left; exact Hc | right; split; [exact Hc | apply Hc; lia]].
Qed.

(** free with any address inside a region that malloc handed out gives back
    exactly that region, and the pool is the one without it. *)
Theorem libc_free_releases z bs o k bs' ptr :
  heap_inv cap_log z bs -> bs ≡ₚ (o, k) :: bs' ->
  mem_begin + Z.of_nat o * batch_size <= ptr < mem_begin + Z.of_nat (o + 2 ^ k) * batch_size ->
  exists z', free z ptr = Ok z' /\ heap_inv cap_log z' bs'.
Proof.
  intros Hinv Hbs Hp.
  assert (Hb : (o + 2 ^ k <= 2 ^ cap_log)%nat).
  { destruct Hinv as (a & -> & Ha). apply BuddyPool.pool_inv_blocks in Ha as [_ Ha].
    rewrite Hbs in Ha. apply Forall_cons in Ha as [[Ha _] _]. exact Ha. }
  assert (Hz : Z.of_nat (o + 2 ^ k) <= 2 ^ 18).
  { change (2 ^ 18) with (2 ^ Z.of_nat cap_log). rewrite <- pow2_nat_Z. lia. }
  unfold batch_size in Hp. set (x := Z.to_nat ((ptr - mem_begin) / 4096)).
  assert (Hx : (ptr - mem_begin) / 4096 = Z.of_nat x) by (subst x; rewrite Z2Nat.id; [done|apply Z.div_pos; lia]).
  pose proof (Z.div_mod (ptr - mem_begin) 4096 ltac:(lia)) as Hdm.
  pose proof (Z.mod_pos_bound (ptr - mem_begin) 4096 ltac:(lia)).
  destruct (pool_free_run cap_log z bs x ltac:(unfold cap_log; lia) Hinv) as [Hf _].
  destruct (Hf o k bs' Hbs) as (z' & E & Hi'); [unfold covers; simpl; lia|].
  exists z'. unfold free, capacity, batch_size. rewrite u64_small by lia. rewrite Hx, E. done.
Qed.

(** ** Concrete heaps *)

Definition raw_pool : list Z := repeat 0 (2 ^ S cap_log - 1).

Lemma raw_pool_init : exists z, __crt_init raw_pool = Ok z /\ heap_inv cap_log z [].
Proof. apply pool_init_run; [unfold cap_log; lia | apply repeat_length]. Qed.

Lemma malloc_fresh_or_in_use_witness :
  exists z, __crt_init raw_pool = Ok z /\
  exists m z', malloc z 5000 = Ok (mem_begin + Z.of_nat (m * 2 ^ 1) * batch_size, z').
Proof.
  destruct raw_pool_init as (z & E & Hi). exists z. split; [exact E|].
  destruct (malloc_fresh_or_in_use z [] 5000 Hi ltac:(lia)) as (m & z' & Em & _).
  exists m, z'. exact Em.
Defined.

Lemma libc_free_releases_witness :
  exists z m z1 z2, __crt_init raw_pool = Ok z /\
    malloc z 5000 = Ok (mem_begin + Z.of_nat (m * 2 ^ 1) * batch_size, z1) /\
    free z1 (mem_begin + Z.of_nat (m * 2 ^ 1) * batch_size + 4999) = Ok z2 /\ heap_inv cap_log z2 [].
Proof.
  destruct raw_pool_init as (z & E & Hi).
  destruct (pool_alloc_run cap_log z [] 2 1 ltac:(unfold cap_log; lia) Hi eq_refl ltac:(unfold cap_log; lia))
    as (m & z1 & Ea & Hb & [[Hi1 _]|Hno]).
  - destruct (libc_free_releases z1 _ (m * 2 ^ 1) 1 [] (mem_begin + Z.of_nat (m * 2 ^ 1) * batch_size + 4999) Hi1)
      as (z2 & Ef & Hi2); [reflexivity | unfold batch_size; rewrite Nat2Z.inj_add; change (Z.of_nat (2 ^ 1)) with 2; lia |].
    exists z, m, z1, z2. split; [exact E|]. split; [|split; [exact Ef | exact Hi2]].
    unfold malloc, capacity. change (CeilPower2 5000 / batch_size) with 2. rewrite Ea. cbn [obind].
    assert (Z.of_nat (m * 2 ^ 1) <= 2 ^ 18).
    { change (2 ^ 18) with (2 ^ Z.of_nat cap_log). rewrite <- pow2_nat_Z. lia. }
    rewrite u64_small by (unfold mem_begin, batch_size; lia). reflexivity.
  - exfalso. specialize (Hno m Hb). now apply Exists_nil in Hno.
Defined.

End LibcHeap.
