(* ===== verification/KStdio.v ===== *)
(** Formatted output and line input of src/kstdio.c.

    The buffers [bf\[24\]] and [buff\[256\]] are locals of the code and are modelled
    as arrays (lists) of that length, so that a write past their end is a
    [Fault]; the format and the strings it prints are in memory and only read.
    A [va_list] is the list of the 64-bit slots the caller passed.  The
    reference semantics splits the format into directives and renders each one
    to a byte string; the main theorem states that the code prints exactly the
    first 255 bytes of it. *)

From Stdlib Require Import ZArith Lia List.
From stdpp Require Import base numbers list gmap.
From S2P Require Import Prelude Mem KString LibcString LibcStdlib.

Local Open Scope Z_scope.
#[local] Ltac Zify.zify_post_hook ::= Z.div_mod_to_equations.

(** * Local arrays *)

Definition aget (a : list Z) (i : Z) : outcome Z :=
  if (0 <=? i) && (i <? Z.of_nat (length a)) then or_fault (a !! Z.to_nat i) else Fault.
Definition aset (a : list Z) (i v : Z) : outcome (list Z) :=
  if (0 <=? i) && (i <? Z.of_nat (length a)) then Ok (<[Z.to_nat i := v]> a) else Fault.

(** * The code *)

(** static unsigned int mini_strlen(const char *s) *)
Fixpoint mini_strlen_loop (fuel : nat) (m : mem) (s len : Z) : outcome Z :=
  match fuel with
  | O => OutOfFuel
  | S fuel' =>
      c <- load m (s + len) ;;
      if c =? 0 then Ok len else mini_strlen_loop fuel' m s (u32 (len + 1))
  end.
Definition mini_strlen (fuel : nat) (m : mem) (s : Z) : outcome Z := mini_strlen_loop fuel m s 0.

Definition digit_char (uppercase : bool) (digit : Z) : Z :=
  u8 (if digit <? 10 then 48 + digit else (if uppercase then 65 else 97) + digit - 10).

(** The do-while loop of mini_itoa; [p] is [pbuffer - buffer]. *)
Fixpoint mini_itoa_digits (fuel : nat) (value radix : Z) (uppercase unsig : bool) (buffer : list Z) (p : Z)
  : outcome (list Z * Z) :=
  match fuel with
  | O => OutOfFuel
  | S fuel' =>
      let digit := i32 (if unsig then u64 value mod radix else Z.rem value radix) in
      buffer <- aset buffer p (digit_char uppercase digit) ;;
      let p := p + 1 in
      let value := i64 (if unsig then u64 value / radix else Z.quot value radix) in
      if value =? 0 then Ok (buffer, p)
      else mini_itoa_digits fuel' value radix uppercase unsig buffer p
  end.

(** [for (i = (pbuffer - buffer); i < n_pad; i++) *(pbuffer++) = cpad;], [n] times. *)
Fixpoint mini_itoa_pad (n : nat) (cpad : Z) (buffer : list Z) (p : Z) : outcome (list Z * Z) :=
  match n with
  | O => Ok (buffer, p)
  | S n' => buffer <- aset buffer p cpad ;; mini_itoa_pad n' cpad buffer (p + 1)
  end.

(** [for (i = 0; i < len / 2; i++)] swapping buffer\[i\] and buffer\[len - i - 1\]. *)
Fixpoint mini_itoa_reverse (n : nat) (buffer : list Z) (len i : Z) : outcome (list Z) :=
  match n with
  | O => Ok buffer
  | S n' =>
      j <- aget buffer i ;;
      c <- aget buffer (len - i - 1) ;;
      buffer <- aset buffer i c ;;
      buffer <- aset buffer (len - i - 1) j ;;
      mini_itoa_reverse n' buffer len (i + 1)
  end.

(** static unsigned int mini_itoa(long value, unsigned int radix, unsigned int
    uppercase, unsigned int unsig, char *buffer, unsigned int n_pad, char cpad);
    a 64-bit value has at most 64 digits in any radix. *)
Definition mini_itoa (value radix : Z) (uppercase unsig : bool) (buffer : list Z) (n_pad cpad : Z)
  : outcome (Z * list Z) :=
  if radix >? 16 then Ok (0, buffer)
  else
    let negative := (value <? 0) && negb unsig in
    let value := if negative then i64 (- value) else value in
    '(buffer, p) <- mini_itoa_digits 64 value radix uppercase unsig buffer 0 ;;
    '(buffer, p) <- mini_itoa_pad (Z.to_nat (n_pad - p)) cpad buffer p ;;
    '(buffer, p) <- (if negative then b <- aset buffer p 45 ;; Ok (b, p + 1) else Ok (buffer, p)) ;;
    buffer <- aset buffer p 0 ;;
    let len := p in
    buffer <- mini_itoa_reverse (Z.to_nat (len / 2)) buffer len 0 ;;
    Ok (len, buffer).

(** struct mini_buff, with [pos] for [pbuffer - buffer] *)
Record mini_buff := MiniBuff { buffer : list Z; pos : Z; buffer_len : Z }.

(** static int _putc(int ch, struct mini_buff *b) *)
Definition _putc (ch : Z) (b : mini_buff) : outcome (Z * mini_buff) :=
  if u32 (pos b + 1) >=? buffer_len b then Ok (0, b)
  else
    buf <- aset (buffer b) (pos b) (u8 ch) ;;
    buf <- aset buf (pos b + 1) 0 ;;
    Ok (1, MiniBuff buf (pos b + 1) (buffer_len b)).

(** The copying loops of _puts: [src] is [s\[i\]], or the blank when [s] is NULL. *)
Fixpoint _puts_copy (n : nat) (src : Z -> outcome Z) (i : Z) (b : mini_buff) : outcome mini_buff :=
  match n with
  | O => Ok b
  | S n' =>
      c <- src i ;;
      buf <- aset (buffer b) (pos b) c ;;
      _puts_copy n' src (i + 1) (MiniBuff buf (pos b + 1) (buffer_len b))
  end.

(** static int _puts(char *s, unsigned int len, struct mini_buff *b); [s] is how
    its bytes are read, [None] for NULL. *)
Definition _puts (s : option (Z -> outcome Z)) (len : Z) (b : mini_buff) : outcome (Z * mini_buff) :=
  let room := buffer_len b - pos b - 1 in
  let len := if room <? len then u32 room else len in
  b <- _puts_copy (Z.to_nat len) (match s with None => fun _ => Ok 32 | Some rd => rd end) 0 b ;;
  buf <- aset (buffer b) (pos b) 0 ;;
  Ok (len, MiniBuff buf (pos b) (buffer_len b)).

(** va_arg on a list of 64-bit slots. *)
Definition va_arg (va : list Z) : outcome (Z * list Z) :=
  match va with [] => Fault | v :: va' => Ok (v, va') end.

(** The loop that reads the width; returns the character that ended it. *)
Fixpoint read_width (fuel : nat) (m : mem) (fmt n_pad : Z) : outcome (Z * Z * Z) :=
  match fuel with
  | O => OutOfFuel
  | S fuel' =>
      ch <- load m fmt ;;
      let fmt := fmt + 1 in
      if ch =? 0 then Ok (ch, fmt, n_pad)
      else if (48 <=? ch) && (ch <=? 57) then read_width fuel' m fmt (u32 (n_pad * 10 + ch - 48))
      else Ok (ch, fmt, n_pad)
  end.

(** The state of mini_vsnprintf between two characters of the format. *)
Record pstate := PState { pb : mini_buff; pva : list Z; pbf : list Z }.

(** One numeric directive: [v] is the value after the C conversions. *)
Definition print_number (v radix : Z) (uppercase unsig : bool) (n_pad c_pad : Z) (va : list Z) (st : pstate)
  : outcome pstate :=
  '(len, bf) <- mini_itoa v radix uppercase unsig (pbf st) n_pad c_pad ;;
  '(_, b) <- _puts (Some (aget bf)) len (pb st) ;;
  Ok (PState b va bf).

(** The switch statement of mini_vsnprintf; [None] is [goto end]. *)
Definition convert (fuel : nat) (m : mem) (ch n_pad c_pad : Z) (longflag : bool) (st : pstate)
  : outcome (option pstate) :=
  if ch =? 0 then Ok None
  else if ch =? 108 (* l *) then Ok (Some st)
  else if ch =? 117 (* u *) then
    '(v, va) <- va_arg (pva st) ;;
    st <- print_number (i64 (if longflag then u64 v else u32 v)) 10 false true n_pad c_pad va st ;; Ok (Some st)
  else if ch =? 100 (* d *) then
    '(v, va) <- va_arg (pva st) ;;
    st <- print_number (i64 (if longflag then u64 v else i32 v)) 10 false false n_pad c_pad va st ;; Ok (Some st)
  else if (ch =? 120) || (ch =? 88) (* x, X *) then
    '(v, va) <- va_arg (pva st) ;;
    st <- print_number (i64 (if longflag then u64 v else u32 v)) 16 (ch =? 88) true n_pad c_pad va st ;; Ok (Some st)
  else if ch =? 99 (* c *) then
    '(v, va) <- va_arg (pva st) ;;
    '(_, b) <- _putc (u8 (i32 v)) (pb st) ;;
    Ok (Some (PState b va (pbf st)))
  else if ch =? 115 (* s *) then
    '(ptr, va) <- va_arg (pva st) ;;
    len <- mini_strlen fuel m ptr ;;
    '(_, b) <- _puts (if ptr =? 0 then None else Some (fun i => load m (ptr + i))) len (pb st) ;;
    b <- (if len <? n_pad then '(_, b) <- _puts None (u32 (n_pad - len)) b ;; Ok b else Ok b) ;;
    Ok (Some (PState b va (pbf st)))
  else
    '(_, b) <- _putc ch (pb st) ;;
    Ok (Some (PState b (pva st) (pbf st))).

(** The while loop of mini_vsnprintf; [sfuel] bounds the loops over a width and
    over a printed string. *)
Fixpoint vsn_loop (fuel sfuel : nat) (m : mem) (fmt : Z) (st : pstate) : outcome pstate :=
  match fuel with
  | O => OutOfFuel
  | S fuel' =>
      ch <- load m fmt ;;
      let fmt := fmt + 1 in
      if ch =? 0 then Ok st
      else if u32 (pos (pb st) + 1) >=? buffer_len (pb st) then Ok st
      else if negb (ch =? 37) then
        '(_, b) <- _putc ch (pb st) ;; vsn_loop fuel' sfuel m fmt (PState b (pva st) (pbf st))
      else
        ch <- load m fmt ;;
        let fmt := fmt + 1 in
        '(ch, fmt, n_pad, c_pad) <-
          (if (48 <=? ch) && (ch <=? 57) then
             '(ch', fmt', n) <- read_width sfuel m (fmt - 1) 0 ;;
             Ok (ch', fmt', n, if ch =? 48 then 48 else 32)
           else Ok (ch, fmt, 0, 32)) ;;
        '(ch, fmt, longflag) <-
          (if ch =? 108 then ch' <- load m fmt ;; Ok (ch', fmt + 1, true) else Ok (ch, fmt, false)) ;;
        r <- convert sfuel m ch n_pad c_pad longflag st ;;
        match r with
        | None => Ok st
        | Some st' => vsn_loop fuel' sfuel m fmt st'
        end
  end.

(** static int mini_vsnprintf(char *buffer, unsigned int buffer_len, const char
    *fmt, va_list va); [bf] is the uninitialised local array. *)
Definition mini_vsnprintf (fuel : nat) (m : mem) (buf bf : list Z) (len fmt : Z) (va : list Z)
  : outcome (Z * list Z) :=
  st <- vsn_loop fuel fuel m fmt (PState (MiniBuff buf 0 len) va bf) ;;
  Ok (pos (pb st), buffer (pb st)).

(** static int _vprint(const char *fmt, va_list _va, void ( *output)(const char * ));
    [buff0] and [bf0] are the uninitialised contents of the local arrays and [S]
    the state of the output devices. *)
Definition _vprint {S : Type} (fuel : nat) (m : mem) (buff0 bf0 : list Z) (fmt : Z) (va : list Z)
  (output : list Z -> S -> outcome S) (s : S) : outcome (Z * S) :=
  '(ret, buff) <- mini_vsnprintf fuel m buff0 bf0 256 fmt va ;;
  buff <- aset buff ret 0 ;;
  s <- output buff s ;;
  Ok (ret, s).

Section Devices.
(** The screen and the firmware console, which kstdio.c only calls. *)
Context {S : Type} (screen_write : list Z -> S -> outcome S) (screen_reflush : S -> outcome S).
Context (bios_putstr bios_logging : list Z -> S -> outcome S).
Context (bios_putchar : Z -> S -> outcome S).

(** int putstr(const char *s) and static void _output_wrapper(const char *buff) *)
Definition _output_wrapper (buff : list Z) (s : S) : outcome S := s <- screen_write buff s ;; screen_reflush s.

Context (fuel : nat) (m : mem) (buff0 bf0 : list Z).
Definition vprintk (fmt : Z) (va : list Z) (s : S) : outcome (Z * S) :=
  _vprint fuel m buff0 bf0 fmt va _output_wrapper s.
Definition printk (fmt : Z) (va : list Z) (s : S) : outcome (Z * S) := vprintk fmt va s.
Definition printv (fmt : Z) (va : list Z) (s : S) : outcome (Z * S) := _vprint fuel m buff0 bf0 fmt va bios_putstr s.
Definition printl (fmt : Z) (va : list Z) (s : S) : outcome (Z * S) := _vprint fuel m buff0 bf0 fmt va bios_logging s.

(** int getchar(): [input] holds the answers of successive polls of
    bios_getchar, -1 for "nothing yet"; waiting past its end is [OutOfFuel]. *)
Fixpoint getchar (input : list Z) : outcome (Z * list Z) :=
  match input with
  | [] => OutOfFuel
  | ch :: input' =>
      if ch =? -1 then getchar input'
      else Ok (if ch =? 13 then 10 else ch, input')
  end.

(** The loop of getline; [n] is [size - 1 - i]. *)
Fixpoint getline_loop (n : nat) (buf : list Z) (i : Z) (input : list Z) (s : S) : outcome (list Z * Z * list Z * S) :=
  match n with
  | O => Ok (buf, i, input, s)
  | Datatypes.S n' =>
      '(ch, input) <- getchar input ;;
      buf <- aset buf i (u8 ch) ;;
      s <- bios_putchar (u8 ch) s ;;
      if (u8 ch =? 13) || (u8 ch =? 10) then Ok (buf, i, input, s)
      else getline_loop n' buf (i + 1) input s
  end.

(** size_t getline(char *buf, size_t size) *)
Definition getline (buf : list Z) (size : Z) (input : list Z) (s : S) : outcome (Z * list Z * list Z * S) :=
  '(buf, i, input, s) <- getline_loop (Z.to_nat (u64 (size - 1))) buf 0 input s ;;
  buf <- aset buf i 0 ;;
  Ok (i, buf, input, s).
End Devices.

(** * Reference semantics *)

(** The digits of a non-negative number, least significant first. *)
Fixpoint nat_digits (k : nat) (uppercase : bool) (radix n : Z) : list Z :=
  match k with
  | O => []
  | S k' =>
      digit_char uppercase (n mod radix) ::
      (if n / radix =? 0 then [] else nat_digits k' uppercase radix (n / radix))
  end.

(** The text of a number, last character first: digits, padding, sign. *)
Definition number_rev (v radix : Z) (uppercase unsig : bool) (n_pad c_pad : Z) : list Z :=
  let negative := (v <? 0) && negb unsig in
  let n := if unsig then u64 v else Z.abs v in
  let ds := nat_digits 64 uppercase radix n in
  ds ++ replicate (Z.to_nat n_pad - length ds) c_pad ++ (if negative then [45] else []).
Definition number_text (v radix : Z) (uppercase unsig : bool) (n_pad c_pad : Z) : list Z :=
  rev (number_rev v radix uppercase unsig n_pad c_pad).

(** A format is a sequence of literal characters and conversions. *)
Inductive directive := Lit (c : Z) | Conv (n_pad c_pad : Z) (long : bool) (conv : Z).
Inductive pmode := Text | Percent | Width (n_pad c_pad : Z) | Long (n_pad c_pad : Z).

Definition is_digit (c : Z) : bool := (48 <=? c) && (c <=? 57).

Fixpoint parse (md : pmode) (s : list Z) : list directive :=
  match s with
  | [] => []
  | c :: s' =>
      match md with
      | Text => if c =? 37 then parse Percent s' else Lit c :: parse Text s'
      | Percent =>
          if is_digit c then parse (Width (c - 48) (if c =? 48 then 48 else 32)) s'
          else if c =? 108 then parse (Long 0 32) s'
          else Conv 0 32 false c :: parse Text s'
      | Width n p =>
          if is_digit c then parse (Width (u32 (n * 10 + c - 48)) p) s'
          else if c =? 108 then parse (Long n p) s'
          else Conv n p false c :: parse Text s'
      | Long n p => Conv n p true c :: parse Text s'
      end
  end.

Fixpoint read_cstr (fuel : nat) (m : mem) (a : Z) : option (list Z) :=
  match fuel with
  | O => None
  | S fuel' =>
      c ← m !! a;
      if c =? 0 then Some [] else s ← read_cstr fuel' m (a + 1); Some (c :: s)
  end.

(** The text of a number if it fits the 24 bytes of [bf] with its terminator. *)
Definition fit_number (t va : list Z) : option (list Z * list Z) :=
  if (length t <? 24)%nat then Some (t, va) else None.

(** The text of one directive and the arguments left over. *)
Definition render1 (fuel : nat) (m : mem) (d : directive) (va : list Z) : option (list Z * list Z) :=
  match d with
  | Lit c => Some ([c], va)
  | Conv n_pad c_pad long conv =>
      if conv =? 108 then Some ([], va)
      else if conv =? 117 then
        match va with
        | v :: va' => fit_number (number_text (i64 (if long then u64 v else u32 v)) 10 false true n_pad c_pad) va'
        | [] => None
        end
      else if conv =? 100 then
        match va with
        | v :: va' =>
            let v := i64 (if long then u64 v else i32 v) in
            if v =? - 2 ^ 63 then None else fit_number (number_text v 10 false false n_pad c_pad) va'
        | [] => None
        end
      else if (conv =? 120) || (conv =? 88) then
        match va with
        | v :: va' => fit_number (number_text (i64 (if long then u64 v else u32 v)) 16 (conv =? 88) true n_pad c_pad) va'
        | [] => None
        end
      else if conv =? 99 then match va with v :: va' => Some ([u8 (i32 v)], va') | [] => None end
      else if conv =? 115 then
        match va with
        | p :: va' =>
            s ← (if p =? 0 then None else read_cstr fuel m p);
            Some (s ++ replicate (Z.to_nat n_pad - length s) 32, va')
        | [] => None
        end
      else Some ([conv], va)
  end.

Fixpoint render (fuel : nat) (m : mem) (ds : list directive) (va : list Z) : option (list Z) :=
  match ds with
  | [] => Some []
  | d :: ds' => '(t, va') ← render1 fuel m d va; t' ← render fuel m ds' va'; Some (t ++ t')
  end.

(** * Appending to an array *)

(** [t] written from position [p] on, or a fault when it does not fit. *)
Definition emit (a : list Z) (p : nat) (t : list Z) : outcome (list Z * Z) :=
  if (p + length t <=? length a)%nat
  then Ok (take p a ++ t ++ drop (p + length t) a, Z.of_nat (p + length t)) else Fault.

Lemma aset_in a p v : (p < length a)%nat -> aset a (Z.of_nat p) v = Ok (<[p := v]> a).
Proof.
  intros Hp. unfold aset. destruct (Z.leb_spec 0 (Z.of_nat p)); [|lia].
  destruct (Z.ltb_spec (Z.of_nat p) (Z.of_nat (length a))); [|lia]. cbn [andb]. now rewrite Nat2Z.id.
Qed.

Lemma aset_out a p v : (length a <= p)%nat -> aset a (Z.of_nat p) v = Fault.
Proof.
  intros Hp. unfold aset. destruct (Z.ltb_spec (Z.of_nat p) (Z.of_nat (length a))); [lia|].
  now rewrite andb_false_r.
Qed.

Lemma aget_in a p v : a !! p = Some v -> aget a (Z.of_nat p) = Ok v.
Proof.
  intros Hv. pose proof (lookup_lt_Some _ _ _ Hv). unfold aget.
  destruct (Z.leb_spec 0 (Z.of_nat p)); [|lia].
  destruct (Z.ltb_spec (Z.of_nat p) (Z.of_nat (length a))); [|lia]. cbn [andb]. now rewrite Nat2Z.id, Hv.
Qed.

Lemma emit_nil a p : (p <= length a)%nat -> emit a p [] = Ok (a, Z.of_nat p).
Proof.
  intros Hp. unfold emit. simpl length. rewrite Nat.add_0_r.
  destruct (Nat.leb_spec p (length a)); [|lia]. simpl. now rewrite take_drop.
Qed.

Lemma insert_split a p (c : Z) : (p < length a)%nat -> <[p := c]> a = take p a ++ c :: drop (S p) a.
Proof. intros Hp. now apply insert_take_drop. Qed.

Lemma emit_cons a p c t : emit a p (c :: t) = (b <- aset a (Z.of_nat p) c ;; emit b (S p) t).
Proof.
  unfold emit. simpl length. destruct (Nat.lt_ge_cases p (length a)) as [Hp|Hp].
  - rewrite aset_in by done. cbn [obind]. rewrite length_insert.
    replace (p + S (length t))%nat with (S p + length t)%nat by lia. case_match; [|done]. ok_eq.
    rewrite insert_split by done.
    rewrite (take_app_ge _ _ (S p)) by (rewrite length_take; lia). rewrite length_take.
    replace (S p - p `min` length a)%nat with 1%nat by lia. simpl.
    rewrite <- app_assoc. simpl. do 3 f_equal.
    rewrite drop_app_ge by (rewrite length_take; lia). rewrite length_take.
    replace (S (p + length t) - p `min` length a)%nat with (S (length t)) by lia. simpl.
    now rewrite drop_drop.
  - rewrite aset_out by done. cbn [obind]. destruct (Nat.leb_spec (p + S (length t)) (length a)); [lia|done].
Qed.

Lemma emit_app a p t1 t2 :
  (p <= length a)%nat -> emit a p (t1 ++ t2) = ('(b, q) <- emit a p t1 ;; emit b (Z.to_nat q) t2).
Proof.
  revert a p. induction t1 as [|c t1 IH]; intros a p Hp.
  - rewrite emit_nil by done. cbn [obind app]. now rewrite Nat2Z.id.
  - cbn [app]. rewrite !emit_cons. destruct (Nat.lt_ge_cases p (length a)) as [Hlt|Hge].
    + rewrite aset_in by done. cbn [obind]. rewrite IH by (rewrite length_insert; lia). done.
    + now rewrite aset_out by done.
Qed.

Lemma emit_length a p t b q :
  emit a p t = Ok (b, q) -> length b = length a /\ q = Z.of_nat (p + length t) /\ (p + length t <= length a)%nat.
Proof.
  unfold emit. case_match eqn:E; [|done]. intros H. inv_ok. apply Nat.leb_le in E.
  rewrite !length_app, length_take, length_drop. lia.
Qed.

(** * Numbers *)

Lemma digit_value_same unsig v n radix :
  2 <= radix <= 16 -> 0 <= n < 2 ^ 64 -> (if unsig : bool then u64 v = n else v = n /\ n < 2 ^ 63) ->
  i32 (if unsig then u64 v mod radix else Z.rem v radix) = n mod radix /\
  i64 (if unsig then u64 v / radix else Z.quot v radix) = n / radix /\ 0 <= n / radix < 2 ^ 63.
Proof.
  intros Hr Hn Hv. assert (0 <= n / radix < 2 ^ 63).
  { split; [apply Z.div_pos; lia|]. apply Z.div_lt_upper_bound; [lia|]. nia. }
  pose proof (Z.mod_pos_bound n radix ltac:(lia)).
  destruct unsig; [rewrite Hv | destruct Hv as [-> Hn']; rewrite Z.rem_mod_nonneg, Z.quot_div_nonneg by lia];
    rewrite i32_small, i64_small by lia; auto.
Qed.

Lemma mini_itoa_digits_run radix up unsig k : forall fuel v n buf p,
  2 <= radix <= 16 -> 0 <= n < 2 ^ 64 -> (if unsig : bool then u64 v = n else v = n /\ n < 2 ^ 63) ->
  n < radix ^ Z.of_nat (S k) -> (k < fuel)%nat -> (p <= length buf)%nat ->
  mini_itoa_digits fuel v radix up unsig buf (Z.of_nat p) = emit buf p (nat_digits (S k) up radix n).
Proof.
  induction k as [|k IH]; intros fuel v n buf p Hr Hn Hv Hk Hf Hp;
    (destruct fuel as [|fuel]; [lia|]); cbn [mini_itoa_digits];
    destruct (digit_value_same unsig v n radix Hr Hn Hv) as (-> & -> & Hq);
    cbn [nat_digits]; rewrite emit_cons;
    (destruct (Nat.lt_ge_cases p (length buf)) as [Hlt|Hge]; [|now rewrite !aset_out by done]);
    rewrite aset_in by done; cbn [obind].
  - change (Z.of_nat 1) with 1 in Hk. rewrite Z.pow_1_r in Hk.
    rewrite (Z.div_small n radix) by lia. cbn [Z.eqb].
    rewrite emit_nil by (rewrite length_insert; lia). ok_eq.
  - destruct (Z.eqb_spec (n / radix) 0) as [Hz|Hz].
    + rewrite emit_nil by (rewrite length_insert; lia). ok_eq.
    + replace (Z.of_nat p + 1) with (Z.of_nat (S p)) by lia.
      apply IH; [done | lia | | | lia | rewrite length_insert; lia].
      * destruct unsig; [apply u64_small; lia | lia].
      * apply Z.div_lt_upper_bound; [lia|]. rewrite <- Z.pow_succ_r by lia.
        now replace (Z.succ (Z.of_nat (S k))) with (Z.of_nat (S (S k))) by lia.
Qed.

Lemma mini_itoa_pad_run c n : forall buf p,
  (p <= length buf)%nat -> mini_itoa_pad n c buf (Z.of_nat p) = emit buf p (replicate n c).
Proof.
  induction n as [|n IH]; intros buf p Hp; cbn [mini_itoa_pad replicate].
  - now rewrite emit_nil by done.
  - rewrite emit_cons. destruct (Nat.lt_ge_cases p (length buf)) as [Hlt|Hge]; [|now rewrite !aset_out by done].
    rewrite aset_in by done. cbn [obind]. replace (Z.of_nat p + 1) with (Z.of_nat (S p)) by lia.
    apply IH. rewrite length_insert. lia.
Qed.

Lemma two_ends_list {A} (l : list A) : (2 <= length l)%nat -> exists c mid d, l = c :: mid ++ [d].
Proof.
  destruct l as [|c l]; simpl; [lia|]. intros Hl.
  destruct l as [|d mid _] using rev_ind; [simpl in Hl; lia | eauto].
Qed.

(** Access to the element behind a known prefix. *)
Lemma aget_middle pre (x : Z) post p : p = Z.of_nat (length pre) -> aget (pre ++ x :: post) p = Ok x.
Proof. intros ->. apply aget_in. now rewrite lookup_app_r, Nat.sub_diag by lia. Qed.

Lemma aset_middle pre (x y : Z) post p :
  p = Z.of_nat (length pre) -> aset (pre ++ x :: post) p y = Ok (pre ++ y :: post).
Proof.
  intros ->. rewrite aset_in by (rewrite length_app; simpl; lia). f_equal.
  induction pre as [|z pre IH]; [done|]. simpl. f_equal. exact IH.
Qed.

Lemma mini_itoa_reverse_run n : forall pre mid post len,
  n = (length mid / 2)%nat -> len = Z.of_nat (2 * length pre + length mid) ->
  mini_itoa_reverse n (pre ++ mid ++ post) len (Z.of_nat (length pre)) = Ok (pre ++ rev mid ++ post).
Proof.
  induction n as [|n IH]; intros pre mid post len Hn ->; cbn [mini_itoa_reverse];
    pose proof (Nat.div_mod_eq (length mid) 2) as Hdm;
    pose proof (Nat.mod_upper_bound (length mid) 2 ltac:(lia)) as Hmb.
  - do 2 f_equal. destruct mid as [|c [|d mid]]; [done|done|]. simpl length in *. lia.
  - destruct (two_ends_list mid) as (c & l & d & ->); [lia|].
    cbn [length] in Hn, Hdm, Hmb |- *. rewrite length_app in Hn, Hdm, Hmb |- *. cbn [length] in Hn, Hdm, Hmb |- *.
    assert (E : forall x y, pre ++ x :: l ++ y :: post = (pre ++ x :: l) ++ y :: post)
      by (intros; now rewrite <- app_assoc).
    replace (pre ++ (c :: l ++ [d]) ++ post) with (pre ++ c :: l ++ d :: post)
      by (cbn [app]; now rewrite <- app_assoc).
    assert (Hj : Z.of_nat (2 * length pre + S (length l + 1)) - Z.of_nat (length pre) - 1
                 = Z.of_nat (length (pre ++ c :: l))) by (rewrite length_app; cbn [length]; lia).
    rewrite Hj. rewrite aget_middle by done. cbn [obind].
    rewrite (E c d), aget_middle by done. cbn [obind]. rewrite <- (E c d).
    rewrite aset_middle by done. cbn [obind].
    rewrite (E d d), aset_middle by (rewrite !length_app; done). cbn [obind].
    replace ((pre ++ d :: l) ++ c :: post) with ((pre ++ [d]) ++ l ++ (c :: post)) by (now rewrite <- !app_assoc).
    replace (Z.of_nat (length pre) + 1) with (Z.of_nat (length (pre ++ [d]))) by (rewrite length_app; cbn [length]; lia).
    rewrite (IH (pre ++ [d]) l (c :: post)).
    + cbn [rev]. rewrite rev_app_distr. cbn [rev app]. now rewrite <- !app_assoc.
    + pose proof (Nat.div_mod_eq (length l) 2). pose proof (Nat.mod_upper_bound (length l) 2 ltac:(lia)). lia.
    + rewrite length_app. cbn [length]. lia.
Qed.

Lemma nat_digits_length k up radix n : (0 < k)%nat -> (1 <= length (nat_digits k up radix n) <= k)%nat.
Proof.
  revert n. induction k as [|k IH]; intros n Hk; [lia|]. simpl. case_match; simpl; [lia|].
  destruct k as [|k]; [simpl; lia|]. specialize (IH (n / radix) ltac:(lia)). lia.
Qed.

(** The number whose digits are printed. *)
Lemma printed_value v (unsig : bool) radix :
  2 <= radix -> - 2 ^ 63 <= v < 2 ^ 63 -> (unsig = false -> v <> - 2 ^ 63) ->
  let n := if unsig then u64 v else Z.abs v in
  let w := if (v <? 0) && negb unsig then i64 (- v) else v in
  0 <= n < 2 ^ 64 /\ (if unsig then u64 w = n else w = n /\ n < 2 ^ 63) /\ n < radix ^ Z.of_nat 64.
Proof.
  intros Hr Hv Hmin. assert (2 ^ Z.of_nat 64 <= radix ^ Z.of_nat 64) by (apply Z.pow_le_mono_l; lia).
  change (2 ^ Z.of_nat 64) with (2 ^ 64) in *. cbn zeta. destruct unsig.
  - rewrite andb_false_r. pose proof (u64_range v). repeat split; lia.
  - rewrite andb_true_r. specialize (Hmin eq_refl).
    destruct (Z.ltb_spec v 0); [rewrite i64_small by lia|]; repeat split; lia.
Qed.

(** mini_itoa on a buffer: the text when it fits with its terminator, a fault
    when it does not. *)
Lemma mini_itoa_run v radix up unsig buf n_pad c_pad :
  2 <= radix <= 16 -> - 2 ^ 63 <= v < 2 ^ 63 -> (unsig = false -> v <> - 2 ^ 63) ->
  let t := number_text v radix up unsig n_pad c_pad in
  mini_itoa v radix up unsig buf n_pad c_pad =
    if (length t <? length buf)%nat then Ok (Z.of_nat (length t), t ++ 0 :: drop (S (length t)) buf) else Fault.
Proof.
  intros Hr Hv Hmin t. unfold mini_itoa. rewrite Z.gtb_ltb. destruct (Z.ltb_spec 16 radix); [lia|].
  set (neg := (v <? 0) && negb unsig). set (n := if unsig then u64 v else Z.abs v).
  set (ds := nat_digits 64 up radix n).
  set (pads := replicate (Z.to_nat n_pad - length ds) c_pad).
  set (sign := if neg then [45] else [] : list Z).
  assert (Ht : rev t = ds ++ pads ++ sign) by (subst t; unfold number_text; now rewrite rev_involutive).
  assert (Htl : length t = length (ds ++ pads ++ sign)) by (now rewrite <- Ht, length_rev).
  assert (Hd : mini_itoa_digits 64 (if neg then i64 (- v) else v) radix up unsig buf 0 = emit buf 0 ds).
  { destruct (printed_value v unsig radix) as (H1 & H2 & H3); [lia | done | done |].
    apply (mini_itoa_digits_run radix up unsig 63 64 _ n buf 0); first [assumption | apply Nat.lt_succ_diag_r | apply Nat.le_0_l]. }
  rewrite Hd. clear Hd. clearbody ds n t.
  transitivity ('(b, q) <- emit buf 0 (ds ++ pads ++ sign) ;; b <- aset b q 0 ;;
     r <- mini_itoa_reverse (Z.to_nat (q / 2)) b q 0 ;; Ok (q, r)).
  - rewrite (emit_app _ _ ds) by lia. destruct (emit buf 0 ds) as [[b1 q1]| | |] eqn:E1; cbn [obind]; try done.
    apply emit_length in E1 as (L1 & -> & B1). rewrite Nat2Z.id, Nat.add_0_l in *.
    rewrite emit_app by lia. replace (Z.to_nat (n_pad - Z.of_nat (length ds))) with (Z.to_nat n_pad - length ds)%nat by lia.
    rewrite mini_itoa_pad_run by lia. fold pads.
    destruct (emit b1 (length ds) pads) as [[b2 q2]| | |] eqn:E2; cbn [obind]; try done.
    apply emit_length in E2 as (L2 & -> & B2). rewrite Nat2Z.id. subst sign. destruct neg; cbn [obind].
    + rewrite emit_cons. destruct (aset b2 _ 45) as [b3| | |] eqn:E3; cbn [obind]; try done.
      rewrite emit_nil; [cbn [obind]; now replace (Z.of_nat (length ds + length pads) + 1)
        with (Z.of_nat (S (length ds + length pads))) by lia|].
      destruct (Nat.lt_ge_cases (length ds + length pads) (length b2)) as [Hlt|Hge];
        [|now rewrite aset_out in E3 by done].
      rewrite aset_in in E3 by done. inv_ok. rewrite length_insert. lia.
    + rewrite emit_nil by lia. done.
  - rewrite <- Ht. unfold emit. rewrite Nat.add_0_l, length_rev.
    destruct (Nat.ltb_spec (length t) (length buf)) as [Hlt|Hge].
    + destruct (Nat.leb_spec (length t) (length buf)); [|lia]. cbn [obind]. rewrite take_0. cbn [app].
      destruct (drop (length t) buf) as [|x rest] eqn:Ed.
      { apply (f_equal length) in Ed. rewrite length_drop in Ed. simpl in Ed. lia. }
      rewrite aset_middle by (now rewrite length_rev). cbn [obind].
      pose proof (mini_itoa_reverse_run (Z.to_nat (Z.of_nat (length t) / 2)) [] (rev t) (0 :: rest) (Z.of_nat (length t))) as Hrev.
      cbn [app length] in Hrev. change (Z.of_nat 0) with 0 in Hrev. rewrite Hrev; [| rewrite length_rev | now rewrite length_rev].
      * cbn [obind]. rewrite rev_involutive. ok_eq. do 2 f_equal.
        rewrite <- (Nat.add_1_r (length t)), <- drop_drop, Ed. done.
      * rewrite <- (Nat2Z.inj_div _ 2). apply Nat2Z.id.
    + destruct (Nat.leb_spec (length t) (length buf)); [|done]. cbn [obind].
      rewrite aset_out; [done|]. rewrite !length_app, length_rev, length_drop, length_take. lia.
Qed.

(** * Output buffers *)

(** The buffer holds the text produced so far, cut to [N - 1] bytes. *)
Definition shows (N : nat) (b : mini_buff) (out : list Z) : Prop :=
  length (buffer b) = N /\ buffer_len b = Z.of_nat N /\
  pos b = Z.of_nat (length (take (N - 1) out)) /\
  take (length (take (N - 1) out)) (buffer b) = take (N - 1) out.

Section Output.
Context (N : nat) (HN : (1 <= N)%nat) (HN32 : Z.of_nat N < 2 ^ 32).

Lemma take_full (out t : list Z) : (N - 1 <= length out)%nat -> take (N - 1) (out ++ t) = take (N - 1) out.
Proof. intros. now rewrite take_app_le by lia. Qed.

Lemma shows_full b out t : (N - 1 <= length out)%nat -> shows N b out -> shows N b (out ++ t).
Proof. intros Hl. unfold shows. now rewrite take_full. Qed.

(** Writing [t] behind the text, with a terminator, when there is room. *)
Lemma shows_emit buf out t buf' q :
  length buf = N -> (length out + length t <= N - 1)%nat ->
  take (length out) buf = out ->
  emit buf (length out) t = Ok (buf', q) ->
  forall v, exists buf'', aset buf' q v = Ok buf'' /\ shows N (MiniBuff buf'' q (Z.of_nat N)) (out ++ t).
Proof.
  intros Hb Ht Hout E v. pose proof (emit_length _ _ _ _ _ E) as (L & -> & Hle).
  rewrite aset_in by lia. eexists. split; [done|]. unfold emit in E.
  destruct (Nat.leb_spec (length out + length t) (length buf)); [|done]. inv_ok.
  unfold shows; cbn [buffer pos buffer_len]. rewrite (take_ge (out ++ t)) by (rewrite length_app; lia).
  split; [rewrite length_insert; lia|]. split; [done|]. rewrite length_app. split; [done|].
  rewrite take_insert_ge by lia. rewrite app_assoc, take_app_le, take_ge; rewrite ?length_app, ?length_take; try lia.
  now rewrite Hout.
Qed.

Lemma shows_room b out :
  shows N b out -> (length out < N - 1)%nat ->
  pos b = Z.of_nat (length out) /\ take (length out) (buffer b) = out.
Proof. intros (_ & _ & Hp & Ht) Hl. rewrite (take_ge out) in Hp, Ht by lia. auto. Qed.

Lemma shows_no_room b out : shows N b out -> (N - 1 <= length out)%nat -> pos b = Z.of_nat (N - 1).
Proof. intros (_ & _ & Hp & _) Hl. rewrite Hp, length_take. f_equal. lia. Qed.

(** The test the code performs before it writes. *)
Lemma room_test b out :
  shows N b out -> (u32 (pos b + 1) >=? buffer_len b) = (N - 1 <=? length out)%nat.
Proof.
  intros Hs. pose proof Hs as (_ & Hbl & _). rewrite Hbl, Z.geb_leb.
  destruct (Nat.leb_spec (N - 1) (length out)) as [Hge|Hlt].
  - rewrite (shows_no_room b out Hs Hge). rewrite u32_small by lia. apply Z.leb_le. lia.
  - destruct (shows_room b out Hs Hlt) as [-> _]. rewrite u32_small by lia. apply Z.leb_gt. lia.
Qed.

Lemma _putc_shows b out c :
  shows N b out -> exists r b', _putc c b = Ok (r, b') /\ shows N b' (out ++ [u8 c]).
Proof.
  intros Hs. unfold _putc. rewrite (room_test b out Hs).
  destruct (Nat.leb_spec (N - 1) (length out)) as [Hge|Hlt].
  - exists 0, b. split; [done|]. now apply shows_full.
  - destruct (shows_room b out Hs Hlt) as [Hp Ht]. pose proof Hs as (Hl & Hbl & _).
    pose proof (emit_cons (buffer b) (length out) (u8 c) []) as He. rewrite Hp.
    rewrite aset_in in He |- * by lia. cbn [obind] in *.
    rewrite emit_nil in He by (rewrite length_insert; lia).
    destruct (shows_emit (buffer b) out [u8 c] _ _ Hl ltac:(simpl; lia) Ht He 0) as (buf'' & Ea & Hs').
    replace (Z.of_nat (length out) + 1) with (Z.of_nat (S (length out))) by lia.
    rewrite Ea. cbn [obind]. rewrite Hbl. eauto.
Qed.

Lemma _puts_copy_run src n : forall t i b p,
  (forall j c, t !! j = Some c -> src (Z.of_nat (i + j)) = Ok c) -> n = length t ->
  pos b = Z.of_nat p -> (p <= length (buffer b))%nat ->
  _puts_copy n src (Z.of_nat i) b =
  ('(buf, q) <- emit (buffer b) p t ;; Ok (MiniBuff buf q (buffer_len b))).
Proof.
  induction n as [|n IH]; intros t i b p Hsrc Hn Hp Hle.
  - destruct t; [|done]. rewrite emit_nil by done. cbn [_puts_copy obind]. rewrite <- Hp. now destruct b.
  - destruct t as [|c t]; [done|]. injection Hn as Hn. cbn [_puts_copy].
    rewrite <- (Nat.add_0_r i), (Hsrc 0%nat c eq_refl). cbn [obind]. rewrite emit_cons, Hp.
    destruct (Nat.lt_ge_cases p (length (buffer b))) as [Hlt|Hge]; [|now rewrite !aset_out by done].
    rewrite aset_in by done. cbn [obind].
    replace (Z.of_nat (i + 0) + 1) with (Z.of_nat (S i)) by lia.
    apply (IH t (S i) (MiniBuff _ _ _) (S p)); cbn [buffer pos]; [|done|lia|rewrite length_insert; lia].
    intros j d Hj. replace (S i + j)%nat with (i + S j)%nat by lia. now apply Hsrc.
Qed.

(** _puts shows the string it reads, cut to the room that is left. *)
Lemma _puts_shows b out s t :
  shows N b out -> Z.of_nat (length t) < 2 ^ 32 ->
  (forall j c, t !! j = Some c -> (match s with None => Ok 32 | Some rd => rd (Z.of_nat j) end) = Ok c) ->
  exists r b', _puts s (Z.of_nat (length t)) b = Ok (r, b') /\ shows N b' (out ++ t).
Proof.
  intros Hs Hlen Hsrc. unfold _puts. pose proof Hs as (Hl & Hbl & Hp & Ht). rewrite Hbl, Hp.
  set (o := take (N - 1) out) in *.
  assert (Ho : (length o <= N - 1)%nat) by (subst o; rewrite length_take; lia).
  set (t' := take (N - 1 - length o) t).
  assert (El : (if Z.of_nat N - Z.of_nat (length o) - 1 <? Z.of_nat (length t)
                then u32 (Z.of_nat N - Z.of_nat (length o) - 1) else Z.of_nat (length t)) = Z.of_nat (length t')).
  { subst t'. rewrite length_take. destruct (Z.ltb_spec (Z.of_nat N - Z.of_nat (length o) - 1) (Z.of_nat (length t)));
      [rewrite u32_small by lia|]; lia. }
  rewrite El, Nat2Z.id.
  assert (Hfit : (length o + length t' <= N - 1)%nat) by (subst t'; rewrite length_take; lia).
  rewrite (_puts_copy_run _ _ t' 0 b (length o)); [|intros j c Hj; cbn [Nat.add]|done|done|lia].
  2: { assert (t !! j = Some c) as Hj' by (subst t'; rewrite lookup_take_Some in Hj; tauto).
       specialize (Hsrc j c Hj'). destruct s; exact Hsrc. }
  destruct (emit (buffer b) (length o) t') as [[buf q]| | |] eqn:E;
    try (unfold emit in E; destruct (Nat.leb_spec (length o + length t') (length (buffer b))); [done|lia]).
  cbn [obind buffer pos buffer_len].
  destruct (shows_emit (buffer b) o t' buf q Hl Hfit Ht E 0) as (buf'' & -> & Hs').
  cbn [obind]. eexists _, _. split; [done|]. rewrite Hbl. unfold shows in *.
  assert (take (N - 1) (o ++ t') = take (N - 1) (out ++ t)) as <-; [|exact Hs'].
  rewrite (take_ge (o ++ t')) by (rewrite length_app; lia). subst o t'.
  rewrite firstn_app, length_take. destruct (Nat.le_gt_cases (length out) (N - 1)).
  - now replace ((N - 1) `min` length out)%nat with (length out) by lia.
  - rewrite Nat.min_l by lia. replace (N - 1 - (N - 1))%nat with 0%nat by lia.
    now replace (N - 1 - length out)%nat with 0%nat by lia.
Qed.

End Output.

(** * The format loop *)

Lemma read_cstr_spec fuel m : forall a s,
  read_cstr fuel m a = Some s ->
  (length s < fuel)%nat /\ (forall j c, s !! j = Some c -> m !! (a + Z.of_nat j) = Some c) /\
  forall len, 0 <= len -> len + Z.of_nat (length s) < 2 ^ 32 ->
    mini_strlen_loop fuel m (a - len) len = Ok (len + Z.of_nat (length s)).
Proof.
  induction fuel as [|fuel IH]; intros a s E; cbn [read_cstr] in E; [done|].
  destruct (m !! a) as [c|] eqn:Hc; [|done]. cbn [mbind option_bind] in E.
  destruct (Z.eqb_spec c 0) as [->|Hne].
  - injection E as <-. split; [simpl; lia|]. split; [intros j c Hj; by rewrite lookup_nil in Hj|].
    intros len Hl Hb. cbn [mini_strlen_loop]. replace (a - len + len) with a by lia.
    rewrite (load_Some _ _ _ Hc). cbn [obind Z.eqb]. ok_eq. simpl. lia.
  - destruct (read_cstr fuel m (a + 1)) as [s'|] eqn:E'; [|done]. injection E as <-.
    destruct (IH _ _ E') as (H1 & H2 & H3). cbn [length]. split; [lia|]. split.
    + intros [|j] d Hj; simpl in Hj; [injection Hj as <-; now rewrite Z.add_0_r|].
      replace (a + Z.of_nat (S j)) with (a + 1 + Z.of_nat j) by lia. auto.
    + intros len Hl Hb. cbn [mini_strlen_loop]. replace (a - len + len) with a by lia.
      rewrite (load_Some _ _ _ Hc). cbn [obind]. destruct (Z.eqb_spec c 0); [done|].
      rewrite u32_small by lia. replace (a - len) with (a + 1 - (len + 1)) by lia.
      rewrite H3 by lia. ok_eq.
Qed.

(** The directives behind a width or a '%', once the next character is known. *)
Definition after (ch n_pad c_pad : Z) (s : list Z) : list directive :=
  if ch =? 108 then parse (Long n_pad c_pad) s else Conv n_pad c_pad false ch :: parse Text s.

Lemma read_width_run m fuel p : forall a s n,
  cstr_at m a s -> (length s < fuel)%nat -> 0 <= n < 2 ^ 32 ->
  exists ch a' n', read_width fuel m a n = Ok (ch, a', n') /\ 0 <= n' < 2 ^ 32 /\
    ((ch = 0 /\ parse (Width n p) s = []) \/
     exists ds s2, s = ds ++ ch :: s2 /\ Forall (fun c => is_digit c = true) ds /\ is_digit ch = false /\
       0 < ch < 256 /\ cstr_at m a' s2 /\ parse (Width n p) s = after ch n' p s2).
Proof.
  induction fuel as [|fuel IH]; intros a s n Hs Hf Hn; [lia|]. cbn [read_width].
  destruct s as [|c s].
  - apply cstr_at_nil in Hs. rewrite (load_Some _ _ _ Hs). cbn [obind Z.eqb]. exists 0, (a + 1), n. auto.
  - apply cstr_at_cons in Hs as [[Hc Hr] Hs]. rewrite (load_Some _ _ _ Hc). cbn [obind parse]. fold (is_digit c).
    destruct (Z.eqb_spec c 0); [lia|]. simpl length in *. destruct (is_digit c) eqn:Ed.
    + destruct (IH (a + 1) s (u32 (n * 10 + c - 48)) Hs ltac:(lia) ltac:(apply u32_range))
        as (ch & a' & n' & -> & Hn' & Hcase). exists ch, a', n'. split; [done|]. split; [done|].
      destruct Hcase as [?|(ds & s2 & -> & Hds & H)]; [by left | right; exists (c :: ds), s2].
      split; [done|]. split; [by constructor|exact H].
    + exists c, (a + 1), n. split; [done|]. split; [done|]. right. exists [], s. auto 10.
Qed.

Section Loop.
Context (N : nat) (HN : (1 <= N)%nat) (HN32 : Z.of_nat N < 2 ^ 32).
Context (m : mem) (sf : nat) (Hsf : Z.of_nat sf < 2 ^ 32).

(** What holds between two characters of the format. *)
Definition pinv (st : pstate) (out : list Z) : Prop := shows N (pb st) out /\ length (pbf st) = 24%nat.

Lemma print_number_shows v radix up unsig n_pad c_pad va va0 t va' st out :
  2 <= radix <= 16 -> - 2 ^ 63 <= v < 2 ^ 63 -> (unsig = false -> v <> - 2 ^ 63) ->
  fit_number (number_text v radix up unsig n_pad c_pad) va0 = Some (t, va') ->
  pinv st out ->
  exists st', print_number v radix up unsig n_pad c_pad va st = Ok st' /\ pinv st' (out ++ t) /\ pva st' = va.
Proof.
  intros Hr Hv Hmin Hfit [Hs Hbf]. unfold fit_number in Hfit.
  destruct (Nat.ltb_spec (length (number_text v radix up unsig n_pad c_pad)) 24) as [Hlt|]; [|done].
  injection Hfit as <- <-. unfold print_number. rewrite mini_itoa_run by done. rewrite Hbf.
  set (t := number_text v radix up unsig n_pad c_pad) in *. clearbody t.
  destruct (Nat.ltb_spec (length t) 24); [|lia]. cbn [obind].
  destruct (_puts_shows N HN HN32 (pb st) out (Some (aget (t ++ 0 :: drop (S (length t)) (pbf st)))) t Hs)
    as (r & b' & E & Hs'); [lia| |].
  - intros j c Hj. apply aget_in. rewrite lookup_app_l; [done|]. by eapply lookup_lt_Some.
  - rewrite E. cbn [obind]. eexists. split; [done|]. cbn [pva]. split; [split; [done|]|done]. cbn [pbf].
    rewrite length_app. cbn [length]. rewrite length_drop. lia.
Qed.

Lemma i64_range z : - 2 ^ 63 <= i64 z < 2 ^ 63.
Proof. unfold i64. lia. Qed.

Lemma convert_shows ch n_pad c_pad long st out t va' :
  0 < ch < 256 -> 0 <= n_pad < 2 ^ 32 -> pinv st out ->
  render1 sf m (Conv n_pad c_pad long ch) (pva st) = Some (t, va') ->
  exists st', convert sf m ch n_pad c_pad long st = Ok (Some st') /\ pinv st' (out ++ t) /\ pva st' = va'.
Proof.
  intros Hch Hn Hinv E. unfold convert. cbn [render1] in E.
  destruct (Z.eqb_spec ch 0); [lia|].
  destruct (Z.eqb_spec ch 108); [injection E as <- <-; exists st; rewrite app_nil_r; auto|].
  destruct (Z.eqb_spec ch 117).
  { destruct (pva st) as [|v va]; [done|]. cbn [va_arg obind].
    edestruct (print_number_shows) as (st' & -> & H1 & H2);
      [| apply i64_range | | exact E | exact Hinv | cbn [obind]]; [lia | done |].
    unfold fit_number in E. case_match; simplify_eq. eauto. }
  destruct (Z.eqb_spec ch 100).
  { destruct (pva st) as [|v va]; [done|]. cbn [va_arg obind].
    set (w := i64 _) in *. destruct (Z.eqb_spec w (- 2 ^ 63)); [done|].
    edestruct (print_number_shows) as (st' & -> & H1 & H2);
      [| apply i64_range | | exact E | exact Hinv | cbn [obind]]; [lia | done |].
    unfold fit_number in E. case_match; simplify_eq. eauto. }
  destruct ((ch =? 120) || (ch =? 88)).
  { destruct (pva st) as [|v va]; [done|]. cbn [va_arg obind].
    edestruct (print_number_shows) as (st' & -> & H1 & H2);
      [| apply i64_range | | exact E | exact Hinv | cbn [obind]]; [lia | done |].
    unfold fit_number in E. case_match; simplify_eq. eauto. }
  destruct Hinv as [Hs Hbf]. destruct (Z.eqb_spec ch 99).
  { destruct (pva st) as [|v va]; [done|]. cbn [va_arg obind]. simplify_eq.
    destruct (_putc_shows N HN HN32 (pb st) out (u8 (i32 v)) Hs) as (r & b' & -> & Hs'). cbn [obind].
    eexists. split; [done|]. split; [split; [|done]|done]. cbn [pb].
    rewrite (u8_small (u8 _)) in Hs' by (unfold u8; lia). done. }
  destruct (Z.eqb_spec ch 115).
  - destruct (pva st) as [|p va]; [done|]. cbn [va_arg obind].
    destruct (Z.eqb_spec p 0); [done|].
    destruct (read_cstr sf m p) as [s|] eqn:Es; [|done]. cbn [mbind option_bind] in E. injection E as <- <-.
    destruct (read_cstr_spec _ _ _ _ Es) as (Hlen & Hbytes & Hstrlen).
    unfold mini_strlen. specialize (Hstrlen 0 ltac:(lia) ltac:(lia)). rewrite Z.sub_0_r in Hstrlen. rewrite Hstrlen.
    cbn [obind]. rewrite Z.add_0_l.
    destruct (_puts_shows N HN HN32 (pb st) out (Some (fun i => load m (p + i))) s Hs) as (r & b1 & -> & Hs1);
      [lia | intros j c Hj; apply load_Some; auto | cbn [obind]].
    destruct (Z.ltb_spec (Z.of_nat (length s)) n_pad).
    + rewrite u32_small by lia.
      pose proof (_puts_shows N HN HN32 b1 (out ++ s) None (replicate (Z.to_nat n_pad - length s) 32) Hs1) as Hp.
      rewrite length_replicate in Hp.
      replace (Z.of_nat (Z.to_nat n_pad - length s)) with (n_pad - Z.of_nat (length s)) in Hp by lia.
      destruct Hp as (r2 & b2 & -> & Hs2); [lia | |].
      * intros j c Hj. apply lookup_replicate in Hj as [-> _]. done.
      * cbn [obind]. eexists. split; [done|]. cbn [pva]. split; [split; [|done]|done]. now rewrite app_assoc.
    + cbn [obind]. replace (Z.to_nat n_pad - length s)%nat with 0%nat by lia. cbn [replicate]. rewrite app_nil_r.
      eexists. split; [done|]. split; [split; done|done].
  - injection E as <- <-.
    destruct (_putc_shows N HN HN32 (pb st) out ch Hs) as (r & b' & -> & Hs'). cbn [obind].
    rewrite u8_small in Hs' by lia. eexists. split; [done|]. split; [split; done|done].
Qed.

(** What comes behind '%' in the code: width, long flag, conversion. *)
Lemma after_run ch a s n p st out t (k : Z -> pstate -> outcome pstate) :
  0 < ch < 256 -> cstr_at m a s -> 0 <= n < 2 ^ 32 -> pinv st out ->
  render sf m (after ch n p s) (pva st) = Some t ->
  (forall a' s' st' out' t', cstr_at m a' s' -> (length s' <= length s)%nat -> pinv st' out' ->
     render sf m (parse Text s') (pva st') = Some t' ->
     exists st'', k a' st' = Ok st'' /\ pinv st'' (out' ++ t')) ->
  exists st',
    ('(ch, fmt, longflag) <- (if ch =? 108 then ch' <- load m a ;; Ok (ch', a + 1, true) else Ok (ch, a, false)) ;;
     r <- convert sf m ch n p longflag st ;;
     match r with None => Ok st | Some st' => k fmt st' end) = Ok st' /\ pinv st' (out ++ t).
Proof.
  intros Hch Hs Hn Hinv Hr Hk.
  assert (Hdir : forall ch' a' s' long t', 0 < ch' < 256 -> cstr_at m a' s' -> (length s' <= length s)%nat ->
    render sf m (Conv n p long ch' :: parse Text s') (pva st) = Some t' ->
    exists st', (r <- convert sf m ch' n p long st ;; match r with None => Ok st | Some st' => k a' st' end) = Ok st'
      /\ pinv st' (out ++ t')).
  { intros ch' a' s' long t' Hch' Hs' Hl Hr'. cbn [render] in Hr'.
    destruct (render1 sf m (Conv n p long ch') (pva st)) as [[t1 va1]|] eqn:E1; [|done]. cbn [mbind option_bind] in Hr'.
    destruct (render sf m (parse Text s') va1) as [t2|] eqn:E2; [|done]. injection Hr' as <-.
    destruct (convert_shows ch' n p long st out t1 va1 Hch' Hn Hinv E1) as (st1 & -> & Hinv1 & Hva). cbn [obind].
    destruct (Hk a' s' st1 (out ++ t1) t2 Hs' Hl Hinv1) as (st2 & E & H2); [now rewrite Hva|].
    exists st2. split; [done|]. now rewrite app_assoc. }
  unfold after in Hr. destruct (Z.eqb_spec ch 108) as [->|Hne].
  - destruct s as [|c s].
    + apply cstr_at_nil in Hs. rewrite (load_Some _ _ _ Hs). cbn [obind]. cbn. cbn in Hr. injection Hr as <-.
      exists st. rewrite app_nil_r. auto.
    + apply cstr_at_cons in Hs as [[Hc Hr'] Hs]. rewrite (load_Some _ _ _ Hc). cbn [obind].
      apply (Hdir c (a + 1) s true); auto. simpl. lia.
  - cbn [obind]. apply (Hdir ch a s false); auto.
Qed.

Lemma vsn_loop_run fuel : forall a s st out t,
  cstr_at m a s -> (length s < fuel)%nat -> (length s < sf)%nat -> pinv st out ->
  render sf m (parse Text s) (pva st) = Some t ->
  exists st', vsn_loop fuel sf m a st = Ok st' /\ pinv st' (out ++ t).
Proof.
  induction fuel as [|fuel IH]; intros a s st out t Hs Hf Hsf' Hinv Hr; [lia|]. cbn [vsn_loop].
  destruct s as [|c s].
  - apply cstr_at_nil in Hs. rewrite (load_Some _ _ _ Hs). cbn [obind Z.eqb]. injection Hr as <-.
    exists st. rewrite app_nil_r. auto.
  - pose proof Hs as Hs0. apply cstr_at_cons in Hs as [[Hc Hcr] Hs]. rewrite (load_Some _ _ _ Hc). cbn [obind].
    destruct (Z.eqb_spec c 0); [lia|]. pose proof Hinv as [Hsh Hbf]. simpl length in *.
    rewrite (room_test N HN HN32 (pb st) out Hsh). destruct (Nat.leb_spec (N - 1) (length out)) as [Hfull|Hroom].
    { exists st. split; [done|]. split; [now apply shows_full | done]. }
    cbn [parse] in Hr. destruct (Z.eqb_spec c 37) as [->|Hne]; cbn [negb].
    + (* a directive *)
      assert (Hk : forall a' s' st' out' t', cstr_at m a' s' -> (length s' <= length s)%nat -> pinv st' out' ->
        render sf m (parse Text s') (pva st') = Some t' ->
        exists st'', vsn_loop fuel sf m a' st' = Ok st'' /\ pinv st'' (out' ++ t'))
        by (intros; eapply IH; eauto; lia).
      destruct s as [|d s].
      { apply cstr_at_nil in Hs. rewrite (load_Some _ _ _ Hs). cbn. injection Hr as <-.
        exists st. rewrite app_nil_r. auto. }
      pose proof Hs as Hs1. apply cstr_at_cons in Hs1 as [[Hd Hdr] Hs1]. rewrite (load_Some _ _ _ Hd). cbn [obind].
      cbn [parse] in Hr. unfold is_digit in Hr. simpl length in *. destruct ((48 <=? d) && (d <=? 57)) eqn:Edig.
      * replace (a + 1 + 1 - 1) with (a + 1) by lia.
        assert (Hstep : read_width sf m (a + 1) 0 = read_width (sf - 1) m (a + 1 + 1) (d - 48)).
        { destruct sf as [|sf']; [lia|]. cbn [read_width]. rewrite (load_Some _ _ _ Hd). cbn [obind].
          rewrite Edig, Nat.sub_succ, Nat.sub_0_r. destruct (Z.eqb_spec d 0); [lia|].
          rewrite u32_small by lia. reflexivity. }
        rewrite Hstep.
        destruct (read_width_run m (sf - 1) (if d =? 48 then 48 else 32) (a + 1 + 1) s (d - 48) Hs1 ltac:(lia) ltac:(lia))
          as (ch & a' & n' & -> & Hn' & [[-> Hp]|(ds & s2 & -> & _ & _ & Hch & Hs2 & Hp)]); cbn [obind]; rewrite Hp in Hr.
        -- cbn. cbn in Hr. injection Hr as <-. exists st. rewrite app_nil_r. auto.
        -- eapply (after_run ch a' s2 n' _ st out t (fun f s => vsn_loop fuel sf m f s)); eauto.
           intros. eapply Hk; eauto. rewrite length_app. simpl. lia.
      * cbn [obind]. eapply (after_run d (a + 1 + 1) s 0 32 st out t (fun f s => vsn_loop fuel sf m f s)); try done.
        intros; eapply Hk; eauto; lia.
    + cbn [render render1 mbind option_bind] in Hr.
      destruct (render sf m (parse Text s) (pva st)) as [t2|] eqn:E2; [|done]. injection Hr as <-.
      destruct (_putc_shows N HN HN32 (pb st) out c Hsh) as (r & b' & -> & Hs'). cbn [obind].
      rewrite u8_small in Hs' by lia.
      destruct (IH (a + 1) s (PState b' (pva st) (pbf st)) (out ++ [c]) t2) as (st' & E & H'); auto; try lia.
      { split; done. }
      exists st'. split; [done|]. now rewrite <- app_assoc in H'.
Qed.

End Loop.

(** * Numbers read back *)

Lemma digit_char_value up base d :
  0 <= d < base -> base = 10 \/ base = 16 -> digit_value base (digit_char up d) = Some d.
Proof.
  intros Hd Hb. unfold digit_char. destruct (Z.ltb_spec d 10).
  - rewrite u8_small by lia. unfold digit_value, isdigit.
    destruct (Z.leb_spec 48 (48 + d)); [|lia]. destruct (Z.leb_spec (48 + d) 57); [|lia]. cbn [andb]. f_equal. lia.
  - assert (base = 16) as -> by lia. rewrite u8_small by (destruct up; lia). unfold digit_value, isdigit. cbn [Z.eqb].
    destruct up; repeat match goal with |- context [Z.leb ?a ?b] => destruct (Z.leb_spec a b); try lia end;
      cbn [andb]; f_equal; lia.
Qed.

Lemma numeral_nat_digits up base k : forall n,
  base = 10 \/ base = 16 -> 0 <= n < base ^ Z.of_nat k -> (0 < k)%nat ->
  numeral base 0 (rev (nat_digits k up base n)) = Some n.
Proof.
  induction k as [|k IH]; intros n Hb Hn Hk; [lia|]. cbn [nat_digits rev]. rewrite numeral_app.
  assert (Hbase : 2 <= base <= 16) by lia. pose proof (Z.mod_pos_bound n base ltac:(lia)) as Hm.
  assert (Hstep : forall q, q = n / base -> numeral base q [digit_char up (n mod base)] = Some n).
  { intros q ->. cbn [numeral]. rewrite digit_char_value by (done || lia). cbn. f_equal.
    pose proof (Z.div_mod n base ltac:(lia)). lia. }
  destruct (Z.eqb_spec (n / base) 0) as [Hq|Hq]; [apply Hstep; symmetry; exact Hq|].
  destruct k as [|k].
  { exfalso. apply Hq. apply Z.div_small. change (Z.of_nat 1) with 1 in Hn. rewrite Z.pow_1_r in Hn. lia. }
  rewrite IH; [cbn [mbind option_bind]; now apply Hstep | done | | lia].
  split; [apply Z.div_pos; lia|]. apply Z.div_lt_upper_bound; [lia|]. rewrite <- Z.pow_succ_r by lia.
  replace (Z.succ (Z.of_nat (S k))) with (Z.of_nat (S (S k))) by lia. lia.
Qed.

(** Any number of steps that covers the value gives the same digits. *)
Lemma nat_digits_enough radix u j : forall k n,
  2 <= radix <= 16 -> 0 <= n < radix ^ Z.of_nat k -> (0 < k <= j)%nat ->
  nat_digits j u radix n = nat_digits k u radix n.
Proof.
  induction j as [|j IH]; intros k n Hr Hn Hk; [lia|]. destruct k as [|k]; [lia|]. cbn [nat_digits]. f_equal.
  destruct (Z.eqb_spec (n / radix) 0) as [|Hq]; [done|]. apply IH; [done| |].
  - split; [apply Z.div_pos; lia|]. apply Z.div_lt_upper_bound; [lia|]. rewrite <- Z.pow_succ_r by lia.
    replace (Z.succ (Z.of_nat k)) with (Z.of_nat (S k)) by lia. lia.
  - destruct k as [|k]; [exfalso; apply Hq, Z.div_small; change (Z.of_nat 1) with 1 in Hn;
      rewrite Z.pow_1_r in Hn; lia | lia].
Qed.

Lemma decimal_digits k up : forall n, Forall (fun c => isdigit c = true) (nat_digits k up 10 n).
Proof.
  induction k as [|k IH]; intros n; cbn [nat_digits]; constructor.
  - unfold digit_char. destruct (Z.ltb_spec (n mod 10) 10); [|lia]. rewrite u8_small by lia.
    unfold isdigit. apply andb_true_iff; split; apply Z.leb_le; lia.
  - case_match; [constructor | apply IH].
Qed.

Lemma unsigned_numeral_digits s :
  Forall (fun c => isdigit c = true) s -> unsigned_numeral s = default 0 (numeral 10 0 s).
Proof.
  intros Hs. unfold unsigned_numeral. destruct s as [|c [|d s]]; [done|repeat case_match; simplify_eq; done|].
  apply Forall_cons in Hs as [_ Hs]. apply Forall_cons in Hs as [Hd _].
  repeat case_match; simplify_eq; done.
Qed.

Lemma unsigned_decimal k n :
  0 <= n < 10 ^ Z.of_nat k -> (0 < k)%nat -> unsigned_numeral (rev (nat_digits k false 10 n)) = n /\
  atol_value (rev (nat_digits k false 10 n)) = n.
Proof.
  intros Hn Hk. pose proof (numeral_nat_digits false 10 k n ltac:(lia) Hn Hk) as Hv.
  pose proof (nat_digits_length k false 10 n Hk) as Hl.
  destruct (atol_value_digits (rev (nat_digits k false 10 n))) as [Ha _].
  { intros E. apply (f_equal length) in E. rewrite length_rev in E. simpl in E. lia. }
  { apply Forall_rev, decimal_digits. }
  split; [|now rewrite Ha, Hv].
  rewrite unsigned_numeral_digits by (apply Forall_rev, decimal_digits). now rewrite Hv.
Qed.

(** * Reading a line *)

Section Getline.
(** The console as the list of characters echoed. *)
Definition echo (c : Z) (log : list Z) : outcome (list Z) := Ok (log ++ [c]).

(** The characters that arrive in a sequence of polls. *)
Definition arrived (polls : list Z) : list Z := List.filter (fun ch => negb (ch =? -1)) polls.

Lemma getchar_arrived polls c cs :
  arrived polls = c :: cs ->
  exists polls', getchar polls = Ok (if c =? 13 then 10 else c, polls') /\ arrived polls' = cs.
Proof.
  induction polls as [|ch polls IH]; [done|]. unfold arrived; cbn [List.filter getchar].
  destruct (Z.eqb_spec ch (-1)); cbn [negb]; [exact IH|]. intros E. injection E as -> <-. eauto.
Qed.

Definition ordinary (c : Z) : Prop := 0 <= c < 256 /\ c <> 10 /\ c <> 13.

Lemma getline_loop_run n : forall line pre rest polls log cs,
  arrived polls = line ++ cs -> Forall ordinary line -> (n <= length rest)%nat ->
  (length line = n \/ (length line < n)%nat /\ exists nl cs', cs = nl :: cs' /\ (nl = 10 \/ nl = 13)) ->
  exists polls' rest', length rest' = length (drop (length line) rest) /\
    getline_loop echo n (pre ++ rest) (Z.of_nat (length pre)) polls log =
    Ok (pre ++ line ++ rest', Z.of_nat (length pre + length line), polls',
        log ++ line ++ (if (length line <? n)%nat then [10] else [])) /\
    arrived polls' = (if (length line <? n)%nat then tl cs else cs).
Proof.
  induction n as [|n IH]; intros line pre rest polls log cs Ha Ho Hr Hc; cbn [getline_loop].
  - assert (line = []) as -> by (destruct Hc as [?|[? _]]; [now apply length_zero_iff_nil | lia]).
    cbn. exists polls, rest. rewrite ?app_nil_r, ?Nat.add_0_r. auto.
  - destruct rest as [|x rest]; [simpl in Hr; lia|]. simpl in Hr. destruct line as [|c line].
    + destruct Hc as [?|[_ (nl & cs' & -> & Hnl)]]; [done|].
      destruct (getchar_arrived polls nl cs' Ha) as (polls' & E & Ha').
      assert ((if nl =? 13 then 10 else nl) = 10) as Enl by (destruct Hnl as [->| ->]; done).
      rewrite E, Enl. cbn [obind]. change (u8 10) with 10. rewrite aset_middle by done. cbn.
      exists polls', (10 :: rest). rewrite ?Nat.add_0_r. split; [done|]. split; [ok_eq|done].
    + apply Forall_cons in Ho as [(Hcr & Hc10 & Hc13) Ho].
      destruct (getchar_arrived polls c (line ++ cs) Ha) as (polls1 & E & Ha1).
      rewrite E. destruct (Z.eqb_spec c 13); [lia|]. cbn [obind]. rewrite (u8_small c) by lia.
      rewrite aset_middle by done. cbn [obind]. unfold echo at 1. cbn [obind].
      destruct (Z.eqb_spec c 13); [lia|]. destruct (Z.eqb_spec c 10); [lia|]. cbn [orb].
      destruct (IH line (pre ++ [c]) rest polls1 (log ++ [c]) cs Ha1 Ho ltac:(lia)) as (polls' & rest' & Hl & E' & Ha').
      { simpl in Hc. destruct Hc as [?|[? ?]]; [left; lia | right; split; [lia|done]]. }
      exists polls', rest'. split; [exact Hl|].
      replace (pre ++ c :: rest) with ((pre ++ [c]) ++ rest) by (now rewrite <- app_assoc).
      replace (Z.of_nat (length pre) + 1) with (Z.of_nat (length (pre ++ [c]))) by (rewrite length_app; simpl; lia).
      rewrite E'. change (length (c :: line) <? S n)%nat with (length line <? n)%nat.
      split; [|done]. rewrite length_app. cbn [length]. rewrite <- !app_assoc. cbn [app]. ok_eq.
Qed.
End Getline.

(** * Properties *)

(** What a call of _vprint hands to its output function. *)
Lemma vprint_prints {S : Type} fuel m buff0 bf0 fmt s va t (output : list Z -> S -> outcome S) (st : S) :
  cstr_at m fmt s -> (length s < fuel)%nat -> Z.of_nat fuel < 2 ^ 32 ->
  length buff0 = 256%nat -> length bf0 = 24%nat ->
  render fuel m (parse Text s) va = Some t ->
  exists buff, length buff = 256%nat /\ take (length (take 255 t) + 1) buff = take 255 t ++ [0] /\
    _vprint fuel m buff0 bf0 fmt va output st
    = (st' <- output buff st ;; Ok (Z.of_nat (length (take 255 t)), st')).
Proof.
  intros Hs Hf Hf32 Hb Hbf Hr. unfold _vprint, mini_vsnprintf.
  destruct (vsn_loop_run 256 ltac:(lia) ltac:(lia) m fuel Hf32 fuel fmt s
    (PState (MiniBuff buff0 0 256) va bf0) [] t) as (st1 & E & Hsh & _); auto.
  { split; [|done]. split; [done|]. split; [done|]. rewrite take_nil. cbn. auto. }
  rewrite E. cbn [obind]. destruct Hsh as (Hl & _ & Hp & Ht). cbn [app] in Hp, Ht.
  replace (256 - 1)%nat with 255%nat in * by lia. set (o := take 255 t) in *. rewrite Hp.
  assert (length o <= 255)%nat by (subst o; rewrite length_take; lia).
  rewrite aset_in by lia. cbn [obind]. eexists. split; [rewrite length_insert; exact Hl|]. split; [|reflexivity].
  rewrite Nat.add_1_r, (take_S_r _ _ 0); [|apply list_lookup_insert_eq; lia].
  now rewrite take_insert_ge, Ht by lia.
Qed.

(** printing a format that is well formed for its arguments hands the output
    function a buffer that holds exactly the first 255 bytes of the rendered
    text, terminated, and returns their number; nothing is written outside the
    two local arrays. *)
Theorem vprint_truncated_text {S : Type} fuel m buff0 bf0 fmt s va t (output : list Z -> S -> outcome S) (st : S) :
  cstr_at m fmt s -> (length s < fuel)%nat -> Z.of_nat fuel < 2 ^ 32 ->
  length buff0 = 256%nat -> length bf0 = 24%nat ->
  render fuel m (parse Text s) va = Some t ->
  exists buff, length buff = 256%nat /\ take (length (take 255 t) + 1) buff = take 255 t ++ [0] /\
    _vprint fuel m buff0 bf0 fmt va output st
    = (st' <- output buff st ;; Ok (Z.of_nat (length (take 255 t)), st')).
Proof. apply vprint_prints. Qed.

(** a numeric directive whose field is 24 or wider writes past the end of the
    24-byte array [bf]. *)
Theorem wide_field_overruns_bf v radix up unsig bf n_pad c_pad va st :
  2 <= radix <= 16 -> - 2 ^ 63 < v < 2 ^ 63 -> 24 <= n_pad -> pbf st = bf -> length bf = 24%nat ->
  print_number v radix up unsig n_pad c_pad va st = Fault.
Proof.
  intros Hr Hv Hn Hbf Hl. unfold print_number. rewrite Hbf, mini_itoa_run by lia. rewrite Hl.
  unfold number_text. rewrite length_rev. unfold number_rev. rewrite !length_app, length_replicate.
  match goal with |- context [Nat.ltb ?x 24] => destruct (Nat.ltb_spec x 24) end; [lia|done].
Qed.

(** the digits mini_itoa produces denote the number: reading the decimal text
    of any long but the smallest gives it back, and so does reading the
    hexadecimal text of any unsigned long behind its prefix. *)
Theorem mini_itoa_roundtrip v up bf :
  - 2 ^ 63 < v < 2 ^ 63 -> length bf = 24%nat ->
  (exists t rest, mini_itoa v 10 false false bf 0 32 = Ok (Z.of_nat (length t), t ++ 0 :: rest) /\ atol_value t = v) /\
  (exists t rest, mini_itoa v 16 up true bf 0 32 = Ok (Z.of_nat (length t), t ++ 0 :: rest) /\
     atol_value (48 :: 120 :: t) = u64 v).
Proof.
  intros Hv Hl.
  split.
  - rewrite mini_itoa_run by lia. rewrite Hl. unfold number_text, number_rev. cbn [negb].
    rewrite andb_true_r. change (Z.to_nat 0) with 0%nat. rewrite Nat.sub_0_l. cbn [replicate app].
    rewrite (nat_digits_enough 10 false 64 20) by lia.
    pose proof (nat_digits_length 20 false 10 (Z.abs v) ltac:(lia)) as Hd.
    destruct (unsigned_decimal 20 (Z.abs v)) as [Hu Ha]; [lia|lia|].
    set (ds := nat_digits 20 false 10 (Z.abs v)) in *. clearbody ds.
    rewrite length_rev, length_app.
    destruct (Nat.ltb_spec (length ds + length (if v <? 0 then [45] else [])) 24) as [_|Hx];
      [|destruct (v <? 0); simpl in Hx; lia].
    eexists (rev (ds ++ (if v <? 0 then [45] else []))), _.
    split; [rewrite length_rev, length_app; reflexivity|].
    rewrite rev_app_distr. destruct (Z.ltb_spec v 0); cbn [rev app]; [|rewrite Ha; lia].
    cbn [atol_value]. rewrite Hu. lia.
  - rewrite mini_itoa_run by lia. rewrite Hl. unfold number_text, number_rev. cbn [negb].
    rewrite andb_false_r. change (Z.to_nat 0) with 0%nat. rewrite Nat.sub_0_l. cbn [replicate app]. rewrite app_nil_r.
    pose proof (u64_range v).
    rewrite (nat_digits_enough 16 up 64 16) by lia.
    pose proof (nat_digits_length 16 up 16 (u64 v) ltac:(lia)) as Hd.
    pose proof (numeral_nat_digits up 16 16 (u64 v) ltac:(lia) ltac:(lia) ltac:(lia)) as Hnum.
    set (ds := nat_digits 16 up 16 (u64 v)) in *. clearbody ds. rewrite length_rev.
    destruct (Nat.ltb_spec (length ds) 24); [|lia].
    eexists (rev ds), _. split; [rewrite length_rev; reflexivity|].
    change (atol_value (48 :: 120 :: rev ds)) with (default 0 (numeral 16 0 (rev ds))). now rewrite Hnum.
Qed.

(** getline waits for a line, echoes every character, stores the line without
    its newline and terminates it; a line longer than the buffer is cut at
    [size - 1] characters and the rest stays in the input. *)
Theorem getline_reads_line buf size polls log line nl cs :
  arrived polls = line ++ nl :: cs -> Forall ordinary line -> nl = 10 \/ nl = 13 ->
  2 <= size < 2 ^ 64 -> Z.of_nat (length buf) = size ->
  let kept := take (Z.to_nat (size - 1)) line in
  exists polls' rest, getline echo buf size polls log =
      Ok (Z.of_nat (length kept), kept ++ 0 :: rest, polls', log ++ kept ++ (if (length line <? Z.to_nat (size - 1))%nat then [10] else [])) /\
    arrived polls' = (if (length line <? Z.to_nat (size - 1))%nat then cs else drop (Z.to_nat (size - 1)) line ++ nl :: cs).
Proof.
  intros Ha Ho Hnl Hsz Hl kept. unfold getline. rewrite u64_small by lia. set (n := Z.to_nat (size - 1)) in *.
  assert (Hn : length buf = S n) by lia.
  assert (Hlk : length kept = Nat.min n (length line)) by (subst kept; apply length_take).
  destruct (getline_loop_run n kept [] buf polls log (drop n line ++ nl :: cs)) as (polls' & rest & Hr & E & Ha').
  - rewrite app_assoc. subst kept. now rewrite take_drop.
  - apply Forall_take. exact Ho.
  - lia.
  - destruct (Nat.le_gt_cases n (length line)); [left; lia|right; split; [lia|]].
    rewrite drop_ge by lia. eauto.
  - cbn [app length Nat.add] in E. change (Z.of_nat 0) with 0 in E. rewrite E. cbn [obind].
    rewrite length_drop in Hr. destruct rest as [|x rest]; [simpl in Hr; lia|].
    rewrite aset_middle by done. cbn [obind]. exists polls', rest.
    assert (Hb : (length kept <? n)%nat = (length line <? n)%nat).
    { destruct (Nat.ltb_spec (length line) n); [apply Nat.ltb_lt | apply Nat.ltb_ge]; lia. }
    rewrite Hb in *. split; [done|]. rewrite Ha'. destruct (Nat.ltb_spec (length line) n); [|done].
    now rewrite drop_ge by lia.
Qed.

(** ** Concrete runs *)

(** "a=%04x %s|" at 100 and "os" at 120 *)
Definition ex_fmt : list Z := [97; 61; 37; 48; 52; 120; 32; 37; 115; 124].
Definition ex_fmt_mem : mem := write_bytes (write_bytes ∅ 100 (ex_fmt ++ [0])) 120 [111; 115; 0].

Lemma vprint_truncated_text_witness :
  exists buff, length buff = 256%nat /\
    take 11 buff = [97; 61; 48; 48; 102; 102; 32; 111; 115; 124; 0] /\
    _vprint 20 ex_fmt_mem (replicate 256 1) (replicate 24 1) 100 [255; 120] (fun b s => Ok (s ++ [b])) []
    = Ok (10, [buff]).
Proof.
  destruct (vprint_truncated_text 20 ex_fmt_mem (replicate 256 1) (replicate 24 1) 100 ex_fmt [255; 120]
    [97; 61; 48; 48; 102; 102; 32; 111; 115; 124] (fun b s => Ok (s ++ [b])) []) as (buff & H1 & H2 & H3);
    [unfold ex_fmt; solve_mem | simpl; lia | lia | reflexivity | reflexivity | vm_compute; reflexivity |].
  exists buff. split; [exact H1|]. split; [exact H2|]. exact H3.
Defined.

Lemma wide_field_overruns_bf_witness :
  print_number 7 10 false false 24 32 [] (PState (MiniBuff (replicate 256 0) 0 256) [7] (replicate 24 0)) = Fault.
Proof. apply (wide_field_overruns_bf 7 10 false false (replicate 24 0) 24 32 [] _); first [lia | reflexivity]. Defined.

Lemma mini_itoa_roundtrip_witness :
  exists t rest, mini_itoa (-305) 10 false false (replicate 24 0) 0 32 = Ok (Z.of_nat (length t), t ++ 0 :: rest) /\ atol_value t = -305.
Proof. apply (mini_itoa_roundtrip (-305) true (replicate 24 0)); [lia | reflexivity]. Defined.

Lemma getline_reads_line_witness :
  exists polls' rest, getline echo [9; 9; 9; 9] 4 [-1; 108; -1; 115; 13; 120] [] = Ok (2, [108; 115; 0] ++ rest, polls', [108; 115; 10]) /\
    arrived polls' = [120].
Proof.
  destruct (getline_reads_line [9; 9; 9; 9] 4 [-1; 108; -1; 115; 13; 120] [] [108; 115] 13 [120]) as (p & r & H1 & H2);
    [reflexivity | repeat constructor; unfold ordinary; lia | lia | lia | reflexivity |].
  exists p, r. split; [exact H1 | exact H2].
Defined.
