(* ===== verification/LibcPrintf.v ===== *)
(** Formatted output of tiny_libc/printf.c, the ancestor of src/kstdio.c.

    The user-space copy keeps the original code: it only knows zero padding,
    reads the width into a [char], and its digit loop stops at the first value
    that is not positive.  The main theorem states on which formats and
    arguments it still prints what the kernel's version prints; the loop that
    stops too early is characterised separately. *)

From Stdlib Require Import ZArith Lia List.
From stdpp Require Import base numbers list gmap.
From S2P Require Import Prelude Mem KString LibcString KStdio.

Local Open Scope Z_scope.
#[local] Ltac Zify.zify_post_hook ::= Z.div_mod_to_equations.

Module LibcPrintf.

(** * The code *)

(** The do-while loop of mini_itoa: [while (value > 0)]. *)
Fixpoint mini_itoa_digits (fuel : nat) (value radix : Z) (uppercase : bool) (buffer : list Z) (p : Z)
  : outcome (list Z * Z) :=
  match fuel with
  | O => OutOfFuel
  | S fuel' =>
      let digit := i32 (Z.rem value radix) in
      buffer <- aset buffer p (digit_char uppercase digit) ;;
      let p := p + 1 in
      let value := Z.quot value radix in
      if value >? 0 then mini_itoa_digits fuel' value radix uppercase buffer p else Ok (buffer, p)
  end.

(** static unsigned int mini_itoa(long value, unsigned int radix, unsigned int
    uppercase, unsigned int unsig, char *buffer, unsigned int zero_pad) *)
Definition mini_itoa (value radix : Z) (uppercase unsig : bool) (buffer : list Z) (zero_pad : Z)
  : outcome (Z * list Z) :=
  if radix >? 16 then Ok (0, buffer)
  else
    let negative := (value <? 0) && negb unsig in
    let value := if negative then i64 (- value) else value in
    '(buffer, p) <- mini_itoa_digits 64 value radix uppercase buffer 0 ;;
    '(buffer, p) <- mini_itoa_pad (Z.to_nat (zero_pad - p)) 48 buffer p ;;
    '(buffer, p) <- (if negative then b <- aset buffer p 45 ;; Ok (b, p + 1) else Ok (buffer, p)) ;;
    buffer <- aset buffer p 0 ;;
    let len := p in
    buffer <- mini_itoa_reverse (Z.to_nat (len / 2)) buffer len 0 ;;
    Ok (len, buffer).

(** static int _putc(int ch, struct mini_buff *b) *)
Definition _putc (ch : Z) (b : mini_buff) : outcome (Z * mini_buff) :=
  if u32 (pos b + 1) >=? buffer_len b then Ok (0, b)
  else
    buf <- aset (buffer b) (pos b) (u8 ch) ;;
    buf <- aset buf (pos b + 1) 0 ;;
    Ok (1, MiniBuff buf (pos b + 1) (buffer_len b)).

(** static int _puts(char *s, unsigned int len, struct mini_buff *b) *)
Definition _puts (s : Z -> outcome Z) (len : Z) (b : mini_buff) : outcome (Z * mini_buff) :=
  let room := buffer_len b - pos b - 1 in
  let len := if room <? len then u32 room else len in
  b <- _puts_copy (Z.to_nat len) s 0 b ;;
  buf <- aset (buffer b) (pos b) 0 ;;
  Ok (len, MiniBuff buf (pos b) (buffer_len b)).

(** The loop behind a leading '0'; [zero_pad] is a [char]. *)
Fixpoint read_pad (fuel : nat) (m : mem) (fmt zero_pad : Z) : outcome (Z * Z * Z) :=
  match fuel with
  | O => OutOfFuel
  | S fuel' =>
      ch <- load m fmt ;;
      let fmt := fmt + 1 in
      if ch =? 0 then Ok (ch, fmt, zero_pad)
      else if (48 <=? ch) && (ch <=? 57) then read_pad fuel' m fmt (u8 (zero_pad * 10 + ch - 48))
      else Ok (ch, fmt, zero_pad)
  end.

Definition print_number (v radix : Z) (uppercase unsig : bool) (zero_pad : Z) (va : list Z) (st : pstate)
  : outcome pstate :=
  '(len, bf) <- mini_itoa v radix uppercase unsig (pbf st) zero_pad ;;
  '(_, b) <- _puts (aget bf) len (pb st) ;;
  Ok (PState b va bf).

(** The switch statement of mini_vsnprintf; [None] is [goto end]. *)
Definition convert (fuel : nat) (m : mem) (ch zero_pad : Z) (longflag : bool) (st : pstate)
  : outcome (option pstate) :=
  if ch =? 0 then Ok None
  else if ch =? 108 (* l *) then Ok (Some st)
  else if ch =? 117 (* u *) then
    '(v, va) <- va_arg (pva st) ;;
    st <- print_number (i64 (if longflag then u64 v else u32 v)) 10 false true zero_pad va st ;; Ok (Some st)
  else if ch =? 100 (* d *) then
    '(v, va) <- va_arg (pva st) ;;
    st <- print_number (i64 (if longflag then u64 v else i32 v)) 10 false false zero_pad va st ;; Ok (Some st)
  else if (ch =? 120) || (ch =? 88) (* x, X *) then
    '(v, va) <- va_arg (pva st) ;;
    st <- print_number (i64 (if longflag then u64 v else u32 v)) 16 (ch =? 88) true zero_pad va st ;; Ok (Some st)
  else if ch =? 99 (* c *) then
    '(v, va) <- va_arg (pva st) ;;
    '(_, b) <- _putc (u8 (i32 v)) (pb st) ;;
    Ok (Some (PState b va (pbf st)))
  else if ch =? 115 (* s *) then
    '(ptr, va) <- va_arg (pva st) ;;
    len <- Libc.strlen fuel m ptr ;;
    '(_, b) <- _puts (fun i => load m (ptr + i)) (u32 len) (pb st) ;;
    Ok (Some (PState b va (pbf st)))
  else
    '(_, b) <- _putc ch (pb st) ;;
    Ok (Some (PState b (pva st) (pbf st))).

(** The while loop of mini_vsnprintf. *)
Fixpoint vsn_loop (fuel sfuel : nat) (m : mem) (fmt : Z) (st : pstate) : outcome pstate :=
  match fuel with
  | O => OutOfFuel
  | S fuel' =>
      ch <- load m fmt ;;
      let fmt := fmt + 1 in
      if ch =? 0 then Ok st
      else if u32 (pos (pb st) + 1) >=? buffer_len (pb st) then Ok st
      else if negb (ch =? 37) then
        '(_, b) <- _putc ch (pb st) ;; vsn_loop fuel' sfuel m fmt (PState b (pva st) (pbf st))
      else
        ch <- load m fmt ;;
        let fmt := fmt + 1 in
        '(ch, fmt, zero_pad) <- (if ch =? 48 then read_pad sfuel m fmt 0 else Ok (ch, fmt, 0)) ;;
        '(ch, fmt, longflag) <-
          (if ch =? 108 then ch' <- load m fmt ;; Ok (ch', fmt + 1, true) else Ok (ch, fmt, false)) ;;
        r <- convert sfuel m ch zero_pad longflag st ;;
        match r with
        | None => Ok st
        | Some st' => vsn_loop fuel' sfuel m fmt st'
        end
  end.

(** static int mini_vsnprintf(...) *)
Definition mini_vsnprintf (fuel : nat) (m : mem) (buf bf : list Z) (len fmt : Z) (va : list Z)
  : outcome (Z * list Z) :=
  st <- vsn_loop fuel fuel m fmt (PState (MiniBuff buf 0 len) va bf) ;;
  Ok (pos (pb st), buffer (pb st)).

Section Syscalls.
(** The system calls the library enters the kernel with. *)
Context {S : Type} (sys_write : list Z -> S -> outcome S) (sys_reflush : S -> outcome S).

(** int vprintf(const char *fmt, va_list _va) *)
Definition vprintf (fuel : nat) (m : mem) (buff0 bf0 : list Z) (fmt : Z) (va : list Z) (s : S) : outcome (Z * S) :=
  '(ret, buff) <- mini_vsnprintf fuel m buff0 bf0 256 fmt va ;;
  buff <- aset buff ret 0 ;;
  s <- sys_write buff s ;;
  s <- sys_reflush s ;;
  Ok (ret, s).

(** int printf(const char *fmt, ...) *)
Definition printf (fuel : nat) (m : mem) (buff0 bf0 : list Z) (fmt : Z) (va : list Z) (s : S) : outcome (Z * S) :=
  vprintf fuel m buff0 bf0 fmt va s.
End Syscalls.

(** * Agreement with the kernel's formatter *)

Lemma digits_agree radix up unsig fuel : forall v buf p,
  2 <= radix <= 16 -> 0 <= v < 2 ^ 63 ->
  mini_itoa_digits fuel v radix up buf p = KStdio.mini_itoa_digits fuel v radix up unsig buf p.
Proof.
  induction fuel as [|fuel IH]; intros v buf p Hr Hv; [done|].
  cbn [mini_itoa_digits KStdio.mini_itoa_digits].
  destruct (digit_value_same unsig v v radix Hr) as (-> & -> & Hq);
    [lia | destruct unsig; [apply u64_small|]; lia |].
  rewrite Z.rem_mod_nonneg, Z.quot_div_nonneg by lia.
  pose proof (Z.mod_pos_bound v radix ltac:(lia)). rewrite i32_small by lia.
  destruct (aset buf p _); try done. cbn [obind]. rewrite Z.gtb_ltb.
  destruct (Z.ltb_spec 0 (v / radix)), (Z.eqb_spec (v / radix) 0); try lia; auto.
Qed.

(** The values on which the two digit loops agree. *)
Definition plain (unsig : bool) (v : Z) : Prop := if unsig then 0 <= v < 2 ^ 63 else - 2 ^ 63 < v < 2 ^ 63.

Lemma mini_itoa_agrees v radix up unsig buf pad :
  2 <= radix <= 16 -> plain unsig v ->
  mini_itoa v radix up unsig buf pad = KStdio.mini_itoa v radix up unsig buf pad 48.
Proof.
  intros Hr Hv. unfold mini_itoa, KStdio.mini_itoa. destruct (radix >? 16); [done|].
  assert (0 <= (if (v <? 0) && negb unsig then i64 (- v) else v) < 2 ^ 63) as Hn.
  { unfold plain in Hv. destruct unsig; [now rewrite andb_false_r|]. rewrite andb_true_r.
    destruct (Z.ltb_spec v 0); [rewrite i64_small by lia|]; lia. }
  rewrite (digits_agree radix up unsig) by done. reflexivity.
Qed.

(** Without padding the padding character is irrelevant. *)
Lemma no_padding v radix up unsig buf c :
  KStdio.mini_itoa v radix up unsig buf 0 c = KStdio.mini_itoa v radix up unsig buf 0 48.
Proof.
  unfold KStdio.mini_itoa. destruct (radix >? 16); [done|].
  destruct (KStdio.mini_itoa_digits _ _ _ _ _ _ _) as [[b p]| | |] eqn:E; try done. cbn [obind].
  assert (Hp : 0 <= p).
  { assert (forall fuel v b p b' p', KStdio.mini_itoa_digits fuel v radix up unsig b p = Ok (b', p') -> p <= p') as Hm.
    { induction fuel as [|fuel IH]; intros v' b0 p0 b' p' E'; cbn in E'; [done|]. inv_ok.
      case_match; [inv_ok; lia|]. apply IH in Hk. lia. }
    now apply Hm in E. }
  now replace (Z.to_nat (0 - p)) with 0%nat by lia.
Qed.

Lemma strlen_agrees fuel m a : forall i,
  0 <= i -> i + Z.of_nat fuel < 2 ^ 31 ->
  strlen_loop fuel m a i = mini_strlen_loop fuel m a i /\
  forall n, strlen_loop fuel m a i = Ok n -> i <= n < 2 ^ 31.
Proof.
  induction fuel as [|fuel IH]; intros i Hi Hf; [done|]. cbn [strlen_loop mini_strlen_loop].
  destruct (load m (a + i)) as [c| | |]; try done. cbn [obind].
  destruct (Z.eqb_spec c 0).
  - split; [done|]. intros n E. inv_ok. lia.
  - rewrite i32_small, u32_small by lia. destruct (IH (i + 1)) as [E1 E2]; [lia|lia|].
    split; [done|]. intros k E. apply E2 in E. lia.
Qed.

(** The directives, and the arguments, on which the two switch statements agree. *)
Definition same_dir (n_pad c_pad conv : Z) : Prop :=
  ((c_pad = 48 /\ n_pad < 256) \/ n_pad = 0) /\ (conv = 115 -> n_pad = 0).
Definition arg_ok (conv : Z) (long : bool) (va : list Z) : Prop :=
  match va with
  | [] => True
  | v :: _ =>
      (conv = 117 \/ conv = 120 \/ conv = 88 -> plain true (i64 (if long then u64 v else u32 v))) /\
      (conv = 100 -> plain false (i64 (if long then u64 v else i32 v))) /\ (conv = 115 -> v <> 0)
  end.
Definition consumes (conv : Z) : bool :=
  (conv =? 117) || (conv =? 100) || (conv =? 120) || (conv =? 88) || (conv =? 99) || (conv =? 115).
Definition next_va (conv : Z) (va : list Z) : list Z := if consumes conv then tl va else va.

Fixpoint same_args (ds : list directive) (va : list Z) : Prop :=
  match ds with
  | [] => True
  | Lit _ :: ds' => same_args ds' va
  | Conv n p long c :: ds' => same_dir n p c /\ arg_ok c long va /\ same_args ds' (next_va c va)
  end.

(** Every width of the format starts with 0. *)
Fixpoint zero_widths (md : pmode) (s : list Z) : bool :=
  match s with
  | [] => true
  | c :: s' =>
      match md with
      | Text => zero_widths (if c =? 37 then Percent else Text) s'
      | Percent =>
          if is_digit c then (c =? 48) && zero_widths (Width 0 48) s'
          else zero_widths (if c =? 108 then Long 0 32 else Text) s'
      | Width n p => zero_widths (if is_digit c then Width n p else if c =? 108 then Long n p else Text) s'
      | Long _ _ => zero_widths Text s'
      end
  end.

Lemma zero_widths_width n p ds ch s2 :
  Forall (fun c => is_digit c = true) ds -> is_digit ch = false ->
  zero_widths (Width n p) (ds ++ ch :: s2) = zero_widths (if ch =? 108 then Long n p else Text) s2.
Proof.
  intros Hds Hch. induction Hds as [|c ds Hc _ IH]; cbn [app zero_widths]; [now rewrite Hch | now rewrite Hc].
Qed.

Lemma zero_widths_long n p c s : zero_widths (Long n p) (c :: s) = zero_widths Text s.
Proof. done. Qed.

Lemma print_number_agrees v radix up unsig n p va st :
  2 <= radix <= 16 -> plain unsig v -> 0 <= n -> (p = 48 /\ n < 256) \/ n = 0 ->
  print_number v radix up unsig (u8 n) va st = KStdio.print_number v radix up unsig n p va st.
Proof.
  intros Hr Hv Hn Hp. unfold print_number, KStdio.print_number.
  rewrite mini_itoa_agrees by done. rewrite u8_small by lia.
  destruct Hp as [[-> _]| ->]; [done|]. now rewrite (no_padding _ _ _ _ _ p).
Qed.

Lemma convert_agrees sf m ch n p long st :
  Z.of_nat sf < 2 ^ 31 -> 0 <= n -> same_dir n p ch -> arg_ok ch long (pva st) ->
  convert sf m ch (u8 n) long st = KStdio.convert sf m ch n p long st.
Proof.
  intros Hsf Hn [Hp Hs] Ha. unfold convert, KStdio.convert.
  destruct (Z.eqb_spec ch 0); [done|]. destruct (Z.eqb_spec ch 108); [done|].
  destruct (Z.eqb_spec ch 117).
  { destruct (pva st) as [|v va]; [done|]. destruct Ha as (Hu & _ & _). cbn [va_arg obind].
    rewrite (print_number_agrees _ _ _ _ n p) by (auto; lia). done. }
  destruct (Z.eqb_spec ch 100).
  { destruct (pva st) as [|v va]; [done|]. destruct Ha as (_ & Hd & _). cbn [va_arg obind].
    rewrite (print_number_agrees _ _ _ _ n p) by (auto; lia). done. }
  destruct (Z.eqb_spec ch 120), (Z.eqb_spec ch 88); try lia; cbn [orb];
    try (destruct (pva st) as [|v va]; [done|]; destruct Ha as (Hu & _ & _); cbn [va_arg obind];
         rewrite (print_number_agrees _ _ _ _ n p) by (auto; lia); done).
  destruct (Z.eqb_spec ch 99); [done|]. destruct (Z.eqb_spec ch 115); [|done].
  rewrite (Hs e). destruct (pva st) as [|v va]; [done|]. destruct Ha as (_ & _ & Hp0). cbn [va_arg obind].
  destruct (Z.eqb_spec v 0) as [E0|_]; [exfalso; exact (Hp0 e E0)|].
  unfold Libc.strlen, mini_strlen. destruct (strlen_agrees sf m v 0 ltac:(lia) ltac:(lia)) as [E1 E2].
  rewrite <- E1. destruct (strlen_loop sf m v 0) as [len| | |]; try done. cbn [obind].
  specialize (E2 len eq_refl). rewrite (u32_small len) by lia. destruct (Z.ltb_spec len 0); [lia|].
  unfold _puts, KStdio._puts. destruct (_puts_copy _ _ _ _); done.
Qed.

(** Follow a computation that returned, pair by pair. *)
Ltac crack E :=
  repeat (cbn [obind] in E;
    match type of E with
    | obind (obind ?c _) _ = _ => destruct c; try discriminate E
    | obind (let (_, _) := ?x in _) _ = _ => destruct x
    | obind ?c _ = _ => destruct c; try discriminate E
    | (let (_, _) := ?x in _) = _ => destruct x
    | (match ?x with _ => _ end) = _ => destruct x; try discriminate E
    end); cbn [obind] in E; simplify_eq; reflexivity.

Lemma convert_next_va sf m ch n p long st st' :
  KStdio.convert sf m ch n p long st = Ok (Some st') -> pva st' = next_va ch (pva st).
Proof.
  unfold KStdio.convert, next_va, consumes, KStdio.print_number. intros E.
  destruct (Z.eqb_spec ch 0); [done|]. destruct (Z.eqb_spec ch 108) as [->|]; [cbn; congruence|].
  destruct (ch =? 117), (ch =? 100), (ch =? 120), (ch =? 88), (ch =? 99), (ch =? 115);
    cbn [orb] in *; (destruct (pva st) as [|v va]; [try discriminate E|]); cbn [va_arg obind tl] in *; crack E.
Qed.

Lemma read_pad_width fuel m : forall a n ch a' n',
  read_width fuel m a n = Ok (ch, a', n') -> forall fuel', (fuel <= fuel')%nat ->
  read_pad fuel' m a (u8 n) = Ok (ch, a', u8 n').
Proof.
  induction fuel as [|fuel IH]; intros a n ch a' n' E fuel' Hf; cbn [read_width] in E; [done|].
  destruct fuel' as [|fuel']; [lia|]. cbn [read_pad].
  destruct (load m a) as [c| | |]; try done. cbn [obind] in *.
  destruct (Z.eqb_spec c 0); [inv_ok; done|].
  destruct ((48 <=? c) && (c <=? 57)); [|inv_ok; done].
  rewrite <- (IH _ _ _ _ _ E fuel' ltac:(lia)). f_equal. unfold u8, u32. lia.
Qed.

Section Loop.
Context (m : mem) (sf : nat) (Hsf : Z.of_nat sf < 2 ^ 31).

(** Behind the width: long flag and conversion. *)
Lemma after_agrees ch a s n p st (k k' : Z -> pstate -> outcome pstate) :
  0 < ch < 256 -> cstr_at m a s -> 0 <= n ->
  same_args (after ch n p s) (pva st) -> zero_widths (if ch =? 108 then Long n p else Text) s = true ->
  (forall a' s' st', cstr_at m a' s' -> (length s' <= length s)%nat -> zero_widths Text s' = true ->
     same_args (parse Text s') (pva st') -> k a' st' = k' a' st') ->
  ('(ch, fmt, longflag) <- (if ch =? 108 then ch' <- load m a ;; Ok (ch', a + 1, true) else Ok (ch, a, false)) ;;
   r <- convert sf m ch (u8 n) longflag st ;;
   match r with None => Ok st | Some st' => k fmt st' end) =
  ('(ch, fmt, longflag) <- (if ch =? 108 then ch' <- load m a ;; Ok (ch', a + 1, true) else Ok (ch, a, false)) ;;
   r <- KStdio.convert sf m ch n p longflag st ;;
   match r with None => Ok st | Some st' => k' fmt st' end).
Proof.
  intros Hch Hs Hn Hsa Hz Hk.
  assert (Hdir : forall ch' a' s' long, cstr_at m a' s' -> (length s' <= length s)%nat -> zero_widths Text s' = true ->
    same_args (Conv n p long ch' :: parse Text s') (pva st) ->
    (r <- convert sf m ch' (u8 n) long st ;; match r with None => Ok st | Some st' => k a' st' end) =
    (r <- KStdio.convert sf m ch' n p long st ;; match r with None => Ok st | Some st' => k' a' st' end)).
  { intros ch' a' s' long Hs' Hl Hz' (Hd & Ha & Hnext). rewrite (convert_agrees _ _ _ n p) by done.
    destruct (KStdio.convert sf m ch' n p long st) as [[st'|]| | |] eqn:E; try done. cbn [obind].
    apply Hk with s'; [done|done|done|]. now rewrite (convert_next_va _ _ _ _ _ _ _ _ E). }
  unfold after in Hsa. destruct (Z.eqb_spec ch 108) as [->|Hne].
  - destruct s as [|c s].
    + apply cstr_at_nil in Hs. rewrite (load_Some _ _ _ Hs). done.
    + apply cstr_at_cons in Hs as [[Hc Hr'] Hs]. rewrite (load_Some _ _ _ Hc). cbn [obind].
      apply (Hdir c (a + 1) s true); auto. simpl. lia.
  - cbn [obind]. apply (Hdir ch a s false); auto.
Qed.

Lemma vsn_loop_agrees fuel : forall a s st,
  cstr_at m a s -> (length s < sf)%nat -> zero_widths Text s = true -> same_args (parse Text s) (pva st) ->
  vsn_loop fuel sf m a st = KStdio.vsn_loop fuel sf m a st.
Proof.
  induction fuel as [|fuel IH]; intros a s st Hs Hl Hz Hsa; [done|]. cbn [vsn_loop KStdio.vsn_loop].
  destruct s as [|c s]; [apply cstr_at_nil in Hs; now rewrite (load_Some _ _ _ Hs)|].
  apply cstr_at_cons in Hs as [[Hc Hcr] Hs]. rewrite (load_Some _ _ _ Hc). cbn [obind]. simpl length in Hl.
  destruct (Z.eqb_spec c 0); [done|]. destruct (u32 (pos (pb st) + 1) >=? buffer_len (pb st)); [done|].
  cbn [parse] in Hsa. cbn [zero_widths] in Hz. destruct (Z.eqb_spec c 37) as [->|Hne]; cbn [negb].
  2: { change (LibcPrintf._putc c (pb st)) with (KStdio._putc c (pb st)).
       destruct (KStdio._putc c (pb st)) as [[r b]| | |]; try done. cbn [obind]. apply (IH _ s); auto; lia. }
  assert (Hk : forall a' s' st', cstr_at m a' s' -> (length s' <= length s)%nat -> zero_widths Text s' = true ->
    same_args (parse Text s') (pva st') -> vsn_loop fuel sf m a' st' = KStdio.vsn_loop fuel sf m a' st')
    by (intros; eapply IH; eauto; lia).
  destruct s as [|d s].
  { apply cstr_at_nil in Hs. rewrite (load_Some _ _ _ Hs). done. }
  pose proof Hs as Hs1. apply cstr_at_cons in Hs1 as [[Hd Hdr] Hs1]. rewrite (load_Some _ _ _ Hd). cbn [obind].
  cbn [parse] in Hsa. cbn [zero_widths] in Hz. unfold is_digit in Hsa, Hz. simpl length in *.
  destruct (Z.eqb_spec d 48) as [->|Hd48].
  - change ((48 <=? 48) && (48 <=? 57)) with true in *. cbn [Z.eqb Pos.eqb andb] in *.
    replace (a + 1 + 1 - 1) with (a + 1) by lia.
    destruct (read_width_run m (sf - 1) 48 (a + 1 + 1) s 0 Hs1 ltac:(lia) ltac:(lia))
      as (ch & a' & n' & E & Hn' & Hcase).
    assert (Hw : read_width sf m (a + 1) 0 = Ok (ch, a', n')).
    { destruct sf as [|sf']; [lia|]. rewrite Nat.sub_succ, Nat.sub_0_r in E. cbn [read_width].
      rewrite (load_Some _ _ _ Hd). cbn [obind]. exact E. }
    pose proof (read_pad_width _ _ _ _ _ _ _ E sf ltac:(lia)) as Hp. change (u8 0) with 0 in Hp.
    rewrite Hw, Hp. cbn [obind]. destruct Hcase as [[-> Hpar]|(ds & s2 & -> & Hds & Hnd & Hch & Hs2 & Hpar)]; [done|].
    rewrite zero_widths_width in Hz by done.
    replace (48 - 48) with 0 in Hsa by lia. rewrite Hpar in Hsa.
    eapply (after_agrees ch a' s2 n' 48 st (fun f s => vsn_loop fuel sf m f s) (fun f s => KStdio.vsn_loop fuel sf m f s));
      auto; [lia| |].
    + destruct (ch =? 108); [destruct s2|]; exact Hz.
    + intros. eapply Hk; eauto. rewrite length_app. simpl. lia.
  - destruct ((48 <=? d) && (d <=? 57)) eqn:Edig.
    + (* a width that does not start with 0 *)
      done.
    + cbn [obind].
      eapply (after_agrees d (a + 1 + 1) s 0 32 st (fun f s => vsn_loop fuel sf m f s) (fun f s => KStdio.vsn_loop fuel sf m f s));
        auto; [lia|]. intros. eapply Hk; eauto.
Qed.
End Loop.

(** * Properties *)

(** C40: on a format whose widths all start with 0 and stay below 256, with
    unsigned arguments below 2^63, signed ones above the smallest long, strings
    without width and not NULL, the user-space printf performs exactly the
    computation of the kernel's formatter, faults included. *)
Theorem printf_agrees_with_kernel {S : Type} (sys_write : list Z -> S -> outcome S) (sys_reflush : S -> outcome S)
    fuel m buff0 bf0 fmt s va (st : S) :
  cstr_at m fmt s -> (length s < fuel)%nat -> Z.of_nat fuel < 2 ^ 31 ->
  zero_widths Text s = true -> same_args (parse Text s) va ->
  printf sys_write sys_reflush fuel m buff0 bf0 fmt va st
  = _vprint fuel m buff0 bf0 fmt va (fun buff s => s <- sys_write buff s ;; sys_reflush s) st.
Proof.
  intros Hs Hf Hf31 Hz Hsa. unfold printf, vprintf, _vprint, mini_vsnprintf, KStdio.mini_vsnprintf.
  rewrite (vsn_loop_agrees m fuel Hf31 fuel fmt s) by done.
  destruct (KStdio.vsn_loop _ _ _ _ _) as [st1| | |]; try done. cbn [obind].
  destruct (aset _ _ _) as [b| | |]; try done. cbn [obind].
  destruct (sys_write b st); done.
Qed.

(** an unsigned value with its top bit set is printed as a single character
    below '0' or '0' itself: the digit loop uses signed division and stops at
    the first value that is not positive. *)
Theorem unsigned_top_bit_lost v radix up c0 c1 rest :
  2 <= radix <= 16 -> - 2 ^ 63 <= v < 0 ->
  mini_itoa v radix up true (c0 :: c1 :: rest) 0 = Ok (1, (48 + Z.rem v radix) :: 0 :: rest) /\
  48 - radix < 48 + Z.rem v radix <= 48.
Proof.
  intros Hr Hv. pose proof (Z.rem_bound_pos_neg v radix ltac:(lia) ltac:(lia)) as Hm.
  split; [|lia]. unfold mini_itoa. rewrite Z.gtb_ltb. destruct (Z.ltb_spec 16 radix); [lia|].
  cbn [negb]. rewrite andb_false_r. cbn [mini_itoa_digits].
  assert (Hq : Z.quot v radix <= 0) by (rewrite <- (Z.opp_involutive v), Z.quot_opp_l by lia;
    pose proof (Z.quot_pos (- v) radix ltac:(lia) ltac:(lia)); lia).
  rewrite i32_small by lia. unfold digit_char. destruct (Z.ltb_spec (Z.rem v radix) 10); [|lia].
  rewrite u8_small by lia. rewrite (aset_middle [] c0 _ (c1 :: rest) 0 eq_refl : aset (c0 :: c1 :: rest) 0 _ = _). cbn [obind app].
  rewrite Z.gtb_ltb. destruct (Z.ltb_spec 0 (Z.quot v radix)); [lia|]. cbn [obind].
  change (Z.to_nat (0 - (0 + 1))) with 0%nat. cbn [mini_itoa_pad obind].
  rewrite (aset_middle [48 + Z.rem v radix] c1 0 rest (0 + 1) eq_refl : aset (_ :: c1 :: rest) (0 + 1) 0 = _).
  cbn [obind app]. reflexivity.
Qed.

(** "%08lx" with an address below 2^63 *)
Lemma printf_agrees_with_kernel_witness :
  let m := write_bytes ∅ 100 [37; 48; 56; 108; 120; 0] in
  printf (fun b s => Ok (s ++ [b])) (fun s => Ok s) 9 m (replicate 256 0) (replicate 24 0) 100 [0x50000000] []
  = _vprint 9 m (replicate 256 0) (replicate 24 0) 100 [0x50000000] (fun b s => s <- Ok (s ++ [b]) ;; Ok s) [].
Proof.
  apply (printf_agrees_with_kernel (fun b s => Ok (s ++ [b])) (fun s => Ok s) 9 _ _ _ 100 [37; 48; 56; 108; 120]);
    [solve_mem | simpl; lia | lia | reflexivity |].
  split; [split; [left; vm_compute; split; congruence | discriminate]|].
  split; [split; [intros _; vm_compute; split; congruence | split; discriminate] | exact I].
Defined.

Lemma unsigned_top_bit_lost_witness :
  mini_itoa (i64 0xffffffc050000001) 16 false true [7; 7; 7] 0 = Ok (1, [33; 0; 7]).
Proof. apply (unsigned_top_bit_lost (i64 0xffffffc050000001) 16 false 7 7 [7]); vm_compute; split; congruence. Defined.

End LibcPrintf.
