(* ===== verification/Trie.v ===== *)
(** [TrieLookup<T>] of src/container.hpp: a binary trie over the bits of a
    [size_t] key, lowest bit first, stored in a vector of nodes.

    The abstract state is a finite map from keys to values.  [trie_rep] ties a
    vector to a map; the invariant behind it gives every node the bit path that
    leads to it, which is what keeps the values of different keys apart. *)

From Stdlib Require Import ZArith Lia List.
From stdpp Require Import base numbers list gmap.
From S2P Require Import Prelude.

Local Open Scope Z_scope.
#[local] Ltac Zify.zify_post_hook ::= Z.div_mod_to_equations.

Section Trie.
Context {V : Type} `{EqDecision V}.

(** * The code *)

(** struct Item: a null [val] is [None]; child 0 stands for "no child". *)
Record Item := MkItem { val : option V; ch0 : nat; ch1 : nat }.
Definition empty_item : Item := MkItem None 0 0.
Definition ch (it : Item) (x : bool) : nat := if x then ch1 it else ch0 it.
Definition set_ch (it : Item) (x : bool) (n : nat) : Item :=
  if x then MkItem (val it) (ch0 it) n else MkItem (val it) n (ch1 it).
Definition set_val (it : Item) (v : option V) : Item := MkItem v (ch0 it) (ch1 it).

Abbreviation nodes_t := (list Item).

(** TrieLookup() : nodes({Item{}}) *)
Definition TrieLookup : nodes_t := [empty_item].

(** [while (key)] of insert; a 64-bit key has at most 64 bits. *)
Fixpoint insert_walk (fuel : nat) (nodes : nodes_t) (index : nat) (key : Z) : outcome (nodes_t * nat) :=
  if key =? 0 then Ok (nodes, index)
  else match fuel with
  | O => OutOfFuel
  | S fuel' =>
      let x := Z.odd key in
      it <- or_fault (nodes !! index) ;;
      let nodes := if (ch it x =? 0)%nat
                   then <[index := set_ch it x (length nodes)]> nodes ++ [empty_item] else nodes in
      it <- or_fault (nodes !! index) ;;
      insert_walk fuel' nodes (ch it x) (Z.shiftr key 1)
  end.

(** size_t insert(size_t key, T val) *)
Definition insert (nodes : nodes_t) (key : Z) (v : option V) : outcome (nat * nodes_t) :=
  '(nodes, index) <- insert_walk 64 nodes 0 key ;;
  it <- or_fault (nodes !! index) ;;
  assert_ (bool_decide (val it = None \/ val it = v)) ;;
  let empty := bool_decide (val it = None) in
  Ok (if empty then index else 0%nat, <[index := set_val it v]> nodes).

(** [while (key)] of lookup and remove; [None] when a child is missing. *)
Fixpoint find_walk (fuel : nat) (nodes : nodes_t) (index : nat) (key : Z) : outcome (option nat) :=
  if key =? 0 then Ok (Some index)
  else match fuel with
  | O => OutOfFuel
  | S fuel' =>
      let x := Z.odd key in
      it <- or_fault (nodes !! index) ;;
      if (ch it x =? 0)%nat then Ok None
      else find_walk fuel' nodes (ch it x) (Z.shiftr key 1)
  end.

(** T lookup(size_t key) *)
Definition lookup (nodes : nodes_t) (key : Z) : outcome (option V) :=
  r <- find_walk 64 nodes 0 key ;;
  match r with
  | None => Ok None
  | Some index => it <- or_fault (nodes !! index) ;; Ok (val it)
  end.

(** bool remove(size_t key) *)
Definition remove (nodes : nodes_t) (key : Z) : outcome (bool * nodes_t) :=
  r <- find_walk 64 nodes 0 key ;;
  match r with
  | None => Ok (false, nodes)
  | Some index => it <- or_fault (nodes !! index) ;; Ok (true, <[index := set_val it None]> nodes)
  end.

(** void remove_by_idx(size_t idx) *)
Definition remove_by_idx (nodes : nodes_t) (idx : nat) : nodes_t :=
  if (idx <? length nodes)%nat
  then match nodes !! idx with Some it => <[idx := set_val it None]> nodes | None => nodes end
  else nodes.

(** void foreach (auto f): the values [f] is applied to, in order. *)
Definition foreach (nodes : nodes_t) : list V := omap val nodes.

(** * The invariant *)

(** [path i] is the sequence of bits that leads from the root to node [i]. *)
Definition paths_ok (nodes : nodes_t) (path : nat -> list bool) : Prop :=
  path 0%nat = [] /\ (0 < length nodes)%nat /\
  forall i it x, nodes !! i = Some it -> ch it x <> 0%nat ->
    (ch it x < length nodes)%nat /\ path (ch it x) = path i ++ [x].

Fixpoint walk (nodes : nodes_t) (index : nat) (p : list bool) : option nat :=
  match p with
  | [] => Some index
  | x :: p' =>
      it ← nodes !! index;
      if (ch it x =? 0)%nat then None else walk nodes (ch it x) p'
  end.

(** Every node is where its path leads. *)
Definition reached (nodes : nodes_t) (path : nat -> list bool) : Prop :=
  forall i, (i < length nodes)%nat -> walk nodes 0 (path i) = Some i.

Fixpoint bits (fuel : nat) (key : Z) : list bool :=
  if key =? 0 then []
  else match fuel with O => [] | S fuel' => Z.odd key :: bits fuel' (Z.shiftr key 1) end.

Definition is_key (key : Z) : Prop := 0 <= key < 2 ^ 64.

(** The value stored for a key. *)
Definition stored (nodes : nodes_t) (key : Z) : option V :=
  i ← walk nodes 0 (bits 64 key); it ← nodes !! i; val it.

(** Nodes that carry a value sit at the end of a key's path. *)
Definition valued (nodes : nodes_t) (path : nat -> list bool) : Prop :=
  forall i it, nodes !! i = Some it -> val it <> None -> exists key, is_key key /\ path i = bits 64 key.

Definition trie_ok (nodes : nodes_t) (path : nat -> list bool) : Prop :=
  paths_ok nodes path /\ reached nodes path /\ valued nodes path.

Definition trie_rep (nodes : nodes_t) (M : gmap Z V) : Prop :=
  (exists path, trie_ok nodes path) /\ forall key, is_key key -> stored nodes key = M !! key.

(** * Lemmas on paths *)

Lemma shiftr1 key : Z.shiftr key 1 = key / 2.
Proof. rewrite Z.shiftr_div_pow2 by lia. reflexivity. Qed.

Lemma odd_half key : key = 2 * Z.shiftr key 1 + (if Z.odd key then 1 else 0).
Proof. rewrite <- Z.div2_spec. pose proof (Z.div2_odd key) as E. destruct (Z.odd key); simpl in E; lia. Qed.

Lemma bits_inj fuel : forall k1 k2,
  0 <= k1 < 2 ^ Z.of_nat fuel -> 0 <= k2 < 2 ^ Z.of_nat fuel -> bits fuel k1 = bits fuel k2 -> k1 = k2.
Proof.
  induction fuel as [|fuel IH]; intros k1 k2 H1 H2 E; [simpl in H1, H2; lia|].
  cbn [bits] in E. rewrite Nat2Z.inj_succ, Z.pow_succ_r in H1, H2 by lia.
  pose proof (odd_half k1) as O1. pose proof (odd_half k2) as O2.
  destruct (Z.eqb_spec k1 0), (Z.eqb_spec k2 0); try congruence; try lia.
  injection E as Eo Eb. rewrite Eo in O1. apply IH in Eb; [lia| |]; destruct (Z.odd k2); lia.
Qed.

Lemma find_walk_bits nodes path fuel : forall index key,
  paths_ok nodes path -> (index < length nodes)%nat -> 0 <= key < 2 ^ Z.of_nat fuel ->
  find_walk fuel nodes index key = Ok (walk nodes index (bits fuel key)).
Proof.
  intros index key (Hp0 & Hlen & Hp). revert index key.
  induction fuel as [|fuel IH]; intros index key Hi Hk; cbn [find_walk bits].
  - simpl in Hk. destruct (Z.eqb_spec key 0); [done|lia].
  - destruct (Z.eqb_spec key 0); [done|]. destruct (lookup_lt_is_Some_2 _ _ Hi) as [it Hit].
    rewrite Hit. cbn [or_fault obind walk]. rewrite Hit. cbn [mbind option_bind].
    destruct (Nat.eqb_spec (ch it (Z.odd key)) 0) as [|Hne]; [done|].
    apply IH; [now apply (Hp index it)|]. rewrite Nat2Z.inj_succ, Z.pow_succ_r in Hk by lia.
    rewrite shiftr1. lia.
Qed.

(** A walk ends at the node whose path it is. *)
Lemma walk_path nodes path : forall p index j,
  paths_ok nodes path -> walk nodes index p = Some j -> path j = path index ++ p.
Proof.
  intros p index j (Hp0 & Hlen & Hp). revert index. induction p as [|x p IH]; intros index E; cbn [walk] in E.
  - injection E as ->. now rewrite app_nil_r.
  - destruct (nodes !! index) as [it|] eqn:Hit; [|done]. cbn [mbind option_bind] in E.
    destruct (Nat.eqb_spec (ch it x) 0) as [|Hne]; [done|]. apply IH in E.
    destruct (Hp index it x Hit Hne) as [_ Hpx]. now rewrite E, Hpx, <- app_assoc.
Qed.

Lemma walk_in nodes path : forall p index j,
  paths_ok nodes path -> (index < length nodes)%nat -> walk nodes index p = Some j -> (j < length nodes)%nat.
Proof.
  intros p index j (Hp0 & Hlen & Hp). revert index. induction p as [|x p IH]; intros index Hi E; cbn [walk] in E.
  - now injection E as <-.
  - destruct (nodes !! index) as [it|] eqn:Hit; [|done]. cbn [mbind option_bind] in E.
    destruct (Nat.eqb_spec (ch it x) 0) as [|Hne]; [done|]. apply IH in E; [done|]. now apply (Hp index it x).
Qed.

(** Changing values leaves every path as it is. *)
Lemma walk_set_val nodes i it v : forall p index,
  nodes !! i = Some it -> walk (<[i := set_val it v]> nodes) index p = walk nodes index p.
Proof.
  intros p index Hi. revert index. induction p as [|x p IH]; intros index; cbn [walk]; [done|].
  destruct (decide (i = index)) as [->|Hne].
  - rewrite list_lookup_insert_eq, Hi by (by eapply lookup_lt_Some). cbn [mbind option_bind].
    change (ch (set_val it v) x) with (ch it x). case_match; auto.
  - rewrite list_lookup_insert_ne by done. destruct (nodes !! index); [|done]. cbn [mbind option_bind].
    case_match; auto.
Qed.

Lemma paths_set_val nodes path i it v :
  nodes !! i = Some it -> paths_ok nodes path -> paths_ok (<[i := set_val it v]> nodes) path.
Proof.
  intros Hi (Hp0 & Hlen & Hp). split; [done|]. rewrite length_insert. split; [done|].
  intros j jt x Hj Hne. destruct (decide (i = j)) as [->|Hnij].
  - rewrite list_lookup_insert_eq in Hj by (by eapply lookup_lt_Some). injection Hj as <-. now apply (Hp j it x).
  - rewrite list_lookup_insert_ne in Hj by done. now apply (Hp j jt x).
Qed.

(** Writing the value at the end of a key's path changes that key only. *)
Lemma stored_set_val nodes path i it v key key' :
  paths_ok nodes path -> nodes !! i = Some it -> is_key key -> is_key key' ->
  walk nodes 0 (bits 64 key) = Some i ->
  stored (<[i := set_val it v]> nodes) key' = if decide (key' = key) then v else stored nodes key'.
Proof.
  intros Hok Hi Hk Hk' Hw. unfold stored. rewrite (walk_set_val nodes i it v) by done.
  destruct (decide (key' = key)) as [->|Hne].
  - rewrite Hw. cbn [mbind option_bind]. now rewrite list_lookup_insert_eq by (by eapply lookup_lt_Some).
  - destruct (walk nodes 0 (bits 64 key')) as [j|] eqn:Hw'; [|done]. cbn [mbind option_bind].
    destruct (decide (i = j)) as [<-|Hij]; [|now rewrite list_lookup_insert_ne by done].
    exfalso. apply Hne. pose proof (walk_path _ _ _ _ _ Hok Hw) as P1. pose proof (walk_path _ _ _ _ _ Hok Hw') as P2.
    apply (bits_inj 64); [exact Hk' | exact Hk |]. rewrite P1 in P2. now apply app_inv_head in P2.
Qed.

(** * Growing the trie *)

Definition view (nodes : nodes_t) (i : nat) (p : list bool) : option V :=
  j ← walk nodes i p; it ← nodes !! j; val it.

Definition grow (nodes : nodes_t) (index : nat) (it : Item) (x : bool) : nodes_t :=
  <[index := set_ch it x (length nodes)]> nodes ++ [empty_item].

Lemma ch_set_ch it x y n : ch (set_ch it x n) y = if bool_decide (x = y) then n else ch it y.
Proof. destruct x, y; reflexivity. Qed.

Lemma grow_lookup nodes index it x i :
  nodes !! index = Some it -> (i < length nodes)%nat ->
  grow nodes index it x !! i = if decide (i = index) then Some (set_ch it x (length nodes)) else nodes !! i.
Proof.
  intros Hit Hi. unfold grow. rewrite lookup_app_l by (now rewrite length_insert).
  destruct (decide (i = index)) as [->|]; [now apply list_lookup_insert_eq | now rewrite list_lookup_insert_ne].
Qed.

Lemma grow_new nodes index it x : grow nodes index it x !! length nodes = Some empty_item.
Proof. unfold grow. rewrite lookup_app_r by (rewrite length_insert; lia). now rewrite length_insert, Nat.sub_diag. Qed.

Lemma grow_length nodes index it x : length (grow nodes index it x) = S (length nodes).
Proof. unfold grow. rewrite length_app, length_insert. simpl. lia. Qed.

Lemma grow_paths nodes path index it x :
  paths_ok nodes path -> nodes !! index = Some it ->
  paths_ok (grow nodes index it x) (fun n => if decide (n = length nodes) then path index ++ [x] else path n).
Proof.
  intros (Hp0 & Hlen & Hp) Hit. pose proof (lookup_lt_Some _ _ _ Hit) as Hi.
  split; [now rewrite decide_False by lia|]. rewrite grow_length. split; [lia|].
  intros i jt y Hj Hne. destruct (decide (i = length nodes)) as [->|Hil].
  { rewrite grow_new in Hj. injection Hj as <-. by destruct y. }
  assert (Hlt : (i < length nodes)%nat).
  { pose proof (lookup_lt_Some _ _ _ Hj) as Hb. rewrite grow_length in Hb. lia. }
  rewrite grow_lookup in Hj by done. destruct (decide (i = index)) as [->|Hii].
  - injection Hj as <-. rewrite ch_set_ch in Hne |- *. destruct (bool_decide_reflect (x = y)) as [->|Hxy].
    + rewrite decide_True by done. split; [lia|done].
    + destruct (Hp index it y Hit Hne) as [Hc Hpc]. rewrite decide_False by lia. split; [lia|done].
  - destruct (Hp i jt y Hj Hne) as [Hc Hpc]. rewrite decide_False by lia. split; [lia|done].
Qed.

Lemma view_nil nodes i : view nodes i [] = (it ← nodes !! i; val it).
Proof. done. Qed.

Lemma view_cons nodes i x p :
  view nodes i (x :: p) = (it ← nodes !! i; if (ch it x =? 0)%nat then None else view nodes (ch it x) p).
Proof. unfold view. cbn [walk]. destruct (nodes !! i); [|done]. cbn [mbind option_bind]. by case_match. Qed.

(** The new node holds no value and has no children, so nothing is seen of it. *)
Lemma grow_view nodes path index it x : forall p i,
  paths_ok nodes path -> nodes !! index = Some it -> ch it x = 0%nat -> (i < length nodes)%nat ->
  view (grow nodes index it x) i p = view nodes i p.
Proof.
  intros p i (Hp0 & Hlen & Hp) Hit Hx. revert i. induction p as [|y p IH]; intros i Hi.
  - rewrite !view_nil, grow_lookup by done. destruct (decide (i = index)) as [->|]; [|done].
    rewrite Hit. cbn. by destruct x.
  - rewrite !view_cons, grow_lookup by done. destruct (decide (i = index)) as [->|].
    + rewrite Hit. cbn [mbind option_bind]. rewrite ch_set_ch.
      destruct (bool_decide_reflect (x = y)) as [<-|Hxy].
      * rewrite Hx. cbn [Nat.eqb]. destruct (Nat.eqb_spec (length nodes) 0); [done|].
        destruct p as [|z p]; [rewrite view_nil, grow_new; done|]. rewrite view_cons, grow_new.
        cbn [mbind option_bind]. by destruct z.
      * destruct (Nat.eqb_spec (ch it y) 0) as [|Hne]; [done|]. apply IH. now apply (Hp index it y).
    + destruct (nodes !! i) as [jt|] eqn:Hj; [|done]. cbn [mbind option_bind].
      destruct (Nat.eqb_spec (ch jt y) 0) as [|Hne]; [done|]. apply IH. now apply (Hp i jt y).
Qed.

Lemma walk_app nodes : forall p q i, walk nodes i (p ++ q) = (j ← walk nodes i p; walk nodes j q).
Proof.
  induction p as [|x p IH]; intros q i; cbn [walk app]; [done|].
  destruct (nodes !! i); [|done]. cbn [mbind option_bind]. case_match; [done|]. apply IH.
Qed.

Lemma grow_walk nodes path index it x : forall p i j,
  paths_ok nodes path -> nodes !! index = Some it -> ch it x = 0%nat -> (i < length nodes)%nat ->
  walk nodes i p = Some j -> walk (grow nodes index it x) i p = Some j.
Proof.
  intros p i j (Hp0 & Hlen & Hp) Hit Hx. revert i. induction p as [|y p IH]; intros i Hi E; cbn [walk] in *; [done|].
  rewrite grow_lookup by done. destruct (nodes !! i) as [jt|] eqn:Hj; [|done]. cbn [mbind option_bind] in E.
  destruct (Nat.eqb_spec (ch jt y) 0) as [|Hne]; [done|]. destruct (Hp i jt y Hj Hne) as [Hc _].
  destruct (decide (i = index)) as [->|]; cbn [mbind option_bind].
  - assert (jt = it) as -> by congruence. rewrite ch_set_ch.
    destruct (bool_decide_reflect (x = y)) as [<-|]; [congruence|].
    destruct (Nat.eqb_spec (ch it y) 0); [done|]. auto.
  - destruct (Nat.eqb_spec (ch jt y) 0); [done|]. auto.
Qed.

Lemma grow_reached nodes path index it x :
  paths_ok nodes path -> nodes !! index = Some it -> ch it x = 0%nat -> reached nodes path ->
  reached (grow nodes index it x) (fun n => if decide (n = length nodes) then path index ++ [x] else path n).
Proof.
  intros Hok Hit Hx Hr i Hi. rewrite grow_length in Hi. pose proof Hok as (_ & Hlen & _).
  pose proof (lookup_lt_Some _ _ _ Hit) as Hil.
  destruct (decide (i = length nodes)) as [->|].
  - rewrite walk_app, (grow_walk nodes path index it x (path index) 0 index) by auto.
    cbn [mbind option_bind walk]. rewrite grow_lookup by done. rewrite decide_True by done. cbn [mbind option_bind].
    rewrite ch_set_ch, bool_decide_eq_true_2 by done. destruct (Nat.eqb_spec (length nodes) 0); [lia|done].
  - apply (grow_walk nodes path); auto; apply Hr; lia.
Qed.

(** ** The walk of insert *)


(** What a later trie keeps of an earlier one. *)
Record extends (nodes : nodes_t) (path : nat -> list bool) (nodes' : nodes_t) (path' : nat -> list bool) : Prop := {
  ext_paths : paths_ok nodes' path';
  ext_length : (length nodes <= length nodes')%nat;
  ext_same : forall i, (i < length nodes)%nat -> path' i = path i;
  ext_ch : forall i it x, nodes !! i = Some it -> ch it x <> 0%nat ->
    exists it', nodes' !! i = Some it' /\ ch it' x = ch it x;
  ext_view : forall i p, (i < length nodes)%nat -> view nodes' i p = view nodes i p;
  ext_reached : reached nodes path -> reached nodes' path';
  ext_valued : valued nodes path -> valued nodes' path'
}.

Lemma extends_refl nodes path : paths_ok nodes path -> extends nodes path nodes path.
Proof. intros Hok. split; auto. eauto. Qed.

Lemma extends_trans n1 p1 n2 p2 n3 p3 : extends n1 p1 n2 p2 -> extends n2 p2 n3 p3 -> extends n1 p1 n3 p3.
Proof.
  intros [A1 B1 C1 D1 E1 F1 G1] [A2 B2 C2 D2 E2 F2 G2]. split; [done | lia | | | | |].
  - intros i Hi. rewrite C2 by lia. auto.
  - intros i it x Hi Hne. destruct (D1 i it x Hi Hne) as (it' & Hi' & Hc).
    rewrite <- Hc in Hne |- *. eauto.
  - intros i p Hi. rewrite E2 by lia. auto.
  - auto.
  - auto.
Qed.

Lemma extends_grow nodes path index it x :
  paths_ok nodes path -> nodes !! index = Some it -> ch it x = 0%nat ->
  extends nodes path (grow nodes index it x)
    (fun n => if decide (n = length nodes) then path index ++ [x] else path n).
Proof.
  intros Hok Hit Hx. split.
  - now apply grow_paths.
  - rewrite grow_length. lia.
  - intros i Hi. now rewrite decide_False by lia.
  - intros i jt y Hi Hne. pose proof (lookup_lt_Some _ _ _ Hi). rewrite grow_lookup by done.
    destruct (decide (i = index)) as [->|]; [|eauto]. assert (jt = it) as -> by congruence.
    eexists. split; [done|]. rewrite ch_set_ch. destruct (bool_decide_reflect (x = y)) as [<-|]; [congruence|done].
  - intros i p Hi. now apply (grow_view nodes path).
  - intros Hr. now apply grow_reached.
  - intros Hval i jt Hi Hne. destruct (decide (i = length nodes)) as [->|].
    { rewrite grow_new in Hi. by injection Hi as <-. }
    assert (Hlt : (i < length nodes)%nat).
    { pose proof (lookup_lt_Some _ _ _ Hi) as Hb. rewrite grow_length in Hb. lia. }
    rewrite grow_lookup in Hi by done. destruct (decide (i = index)) as [->|].
    + apply (Hval index it Hit). injection Hi as <-. by destruct x.
    + by apply (Hval i jt).
Qed.

Lemma insert_walk_run fuel : forall nodes path index key,
  paths_ok nodes path -> (index < length nodes)%nat -> 0 <= key < 2 ^ Z.of_nat fuel ->
  exists nodes' path' i, insert_walk fuel nodes index key = Ok (nodes', i) /\ extends nodes path nodes' path' /\
    walk nodes' index (bits fuel key) = Some i /\ (i < length nodes')%nat.
Proof.
  induction fuel as [|fuel IH]; intros nodes path index key Hok Hi Hk; cbn [insert_walk bits].
  - simpl in Hk. destruct (Z.eqb_spec key 0); [|lia]. exists nodes, path, index. auto using extends_refl.
  - destruct (Z.eqb_spec key 0); [exists nodes, path, index; auto using extends_refl|].
    destruct (lookup_lt_is_Some_2 _ _ Hi) as [it Hit]. rewrite Hit. cbn [or_fault obind].
    assert (Hk' : 0 <= Z.shiftr key 1 < 2 ^ Z.of_nat fuel)
      by (rewrite Nat2Z.inj_succ, Z.pow_succ_r in Hk by lia; rewrite shiftr1; lia).
    set (x := Z.odd key) in *. pose proof Hok as (Hp0 & Hlen & Hp).
    assert (Hfin : forall n1 p1 it1, extends nodes path n1 p1 -> n1 !! index = Some it1 -> ch it1 x <> 0%nat ->
      exists nodes' path' i, insert_walk fuel n1 (ch it1 x) (Z.shiftr key 1) = Ok (nodes', i) /\
        extends nodes path nodes' path' /\ walk nodes' index (x :: bits fuel (Z.shiftr key 1)) = Some i /\
        (i < length nodes')%nat).
    { intros n1 p1 it1 Hext Hit1 Hne. pose proof (ext_paths _ _ _ _ Hext) as Hok1.
      destruct (proj2 (proj2 Hok1) index it1 x Hit1 Hne) as [Hc _].
      destruct (IH n1 p1 (ch it1 x) (Z.shiftr key 1) Hok1 Hc Hk') as (nodes' & path' & i & E & Hext' & Hw & Hil).
      exists nodes', path', i. split; [done|]. split; [by eapply extends_trans|]. split; [|done].
      cbn [walk]. destruct (ext_ch _ _ _ _ Hext' index it1 x Hit1 Hne) as (it' & -> & Hc').
      cbn [mbind option_bind]. rewrite Hc'. destruct (Nat.eqb_spec (ch it1 x) 0); [done|exact Hw]. }
    destruct (Nat.eqb_spec (ch it x) 0) as [Hz|Hne].
    + fold (grow nodes index it x). rewrite grow_lookup by done. rewrite decide_True by done. cbn [or_fault obind].
      eapply (Hfin _ _ (set_ch it x (length nodes))); [by apply extends_grow | |].
      * rewrite grow_lookup by done. by rewrite decide_True.
      * rewrite ch_set_ch, bool_decide_eq_true_2 by done. lia.
    + rewrite Hit. cbn [or_fault obind]. eapply Hfin; eauto using extends_refl.
Qed.

(** * The operations *)

Lemma valued_set_val nodes path i it v :
  nodes !! i = Some it -> (v <> None -> exists key, is_key key /\ path i = bits 64 key) ->
  valued nodes path -> valued (<[i := set_val it v]> nodes) path.
Proof.
  intros Hi Hv Hval j jt Hj Hne. destruct (decide (i = j)) as [->|].
  - rewrite list_lookup_insert_eq in Hj by (by eapply lookup_lt_Some). injection Hj as <-. auto.
  - rewrite list_lookup_insert_ne in Hj by done. by apply (Hval j jt).
Qed.

Lemma insert_run nodes path key v :
  paths_ok nodes path -> is_key key -> stored nodes key = None \/ stored nodes key = v ->
  exists r i nodes' path', insert nodes key v = Ok (r, nodes') /\ paths_ok nodes' path' /\
    (forall n, (n < length nodes)%nat -> path' n = path n) /\ (length nodes <= length nodes')%nat /\
    path' i = bits 64 key /\ (i < length nodes')%nat /\ (reached nodes path -> reached nodes' path') /\
    (valued nodes path -> valued nodes' path') /\ r = (if bool_decide (stored nodes key = None) then i else 0%nat) /\
    forall key', is_key key' -> stored nodes' key' = if decide (key' = key) then v else stored nodes key'.
Proof.
  intros Hok Hk Hv. pose proof Hok as (_ & Hlen & _).
  destruct (insert_walk_run 64 nodes path 0 key Hok Hlen Hk) as (n1 & p1 & i & E & Hext & Hw & Hi).
  unfold insert. rewrite E. cbn [obind]. destruct (lookup_lt_is_Some_2 _ _ Hi) as [it Hit]. rewrite Hit. cbn [or_fault obind].
  pose proof (ext_paths _ _ _ _ Hext) as Hok1.
  assert (Hst : forall k, stored n1 k = stored nodes k) by (intros k; apply (ext_view _ _ _ _ Hext); exact Hlen).
  assert (Hval : val it = stored nodes key).
  { rewrite <- Hst. unfold stored. rewrite Hw. cbn [mbind option_bind]. rewrite Hit. done. }
  rewrite bool_decide_eq_true_2 by (rewrite Hval; exact Hv). cbn [assert_ obind].
  exists (if bool_decide (val it = None) then i else 0%nat), i, (<[i := set_val it v]> n1), p1.
  split; [done|]. split; [by apply paths_set_val|]. rewrite length_insert.
  split; [intros n Hn; by apply (ext_same _ _ _ _ Hext)|]. split; [apply (ext_length _ _ _ _ Hext)|].
  split; [rewrite (walk_path _ _ _ _ _ Hok1 Hw); now rewrite (proj1 Hok1)|]. split; [done|].
  split; [intros Hr n Hn; rewrite length_insert in Hn; rewrite walk_set_val by done; by apply (ext_reached _ _ _ _ Hext)|].
  split; [intros Hvd; apply valued_set_val; [done| |by apply (ext_valued _ _ _ _ Hext)]|].
  { intros _. exists key. split; [done|]. rewrite (walk_path _ _ _ _ _ Hok1 Hw). now rewrite (proj1 Hok1). }
  split; [by rewrite Hval|]. intros key' Hk'. rewrite (stored_set_val n1 p1 i it v key key') by done. by rewrite Hst.
Qed.

Lemma insert_panics nodes path key v :
  paths_ok nodes path -> is_key key -> stored nodes key <> None -> stored nodes key <> v ->
  insert nodes key v = Panic.
Proof.
  intros Hok Hk Hn Hv. pose proof Hok as (_ & Hlen & _).
  destruct (insert_walk_run 64 nodes path 0 key Hok Hlen Hk) as (n1 & p1 & i & E & Hext & Hw & Hi).
  unfold insert. rewrite E. cbn [obind]. destruct (lookup_lt_is_Some_2 _ _ Hi) as [it Hit]. rewrite Hit. cbn [or_fault obind].
  assert (Hval : val it = stored nodes key).
  { change (stored nodes key) with (view nodes 0 (bits 64 key)). rewrite <- (ext_view _ _ _ _ Hext) by done.
    unfold view. rewrite Hw. cbn [mbind option_bind]. rewrite Hit. done. }
  rewrite bool_decide_eq_false_2; [done|]. rewrite Hval. tauto.
Qed.

Lemma lookup_run nodes path key :
  paths_ok nodes path -> is_key key -> lookup nodes key = Ok (stored nodes key).
Proof.
  intros Hok Hk. pose proof Hok as (_ & Hlen & _). unfold lookup, stored.
  rewrite (find_walk_bits _ path) by done. cbn [obind].
  destruct (walk nodes 0 (bits 64 key)) as [i|] eqn:Hw; [|done]. cbn [mbind option_bind].
  destruct (lookup_lt_is_Some_2 _ _ (walk_in _ _ _ _ _ Hok Hlen Hw)) as [it ->]. done.
Qed.

(** * The representation *)

(** What insert, remove and remove_by_idx keep of the paths. *)
Definition keeps (nodes : nodes_t) (path : nat -> list bool) (nodes' : nodes_t) (path' : nat -> list bool) : Prop :=
  trie_ok nodes' path' /\ (length nodes <= length nodes')%nat /\
  forall i, (i < length nodes)%nat -> path' i = path i.

Lemma keeps_refl nodes path : trie_ok nodes path -> keeps nodes path nodes path.
Proof. intros Hok. split; [done|]. split; [lia|auto]. Qed.

Lemma keeps_trans n1 p1 n2 p2 n3 p3 : keeps n1 p1 n2 p2 -> keeps n2 p2 n3 p3 -> keeps n1 p1 n3 p3.
Proof.
  intros (A1 & B1 & C1) (A2 & B2 & C2). split; [done|]. split; [lia|]. intros i Hi. rewrite C2 by lia. auto.
Qed.

Lemma insert_spec nodes path key v :
  trie_ok nodes path -> is_key key ->
  (stored nodes key = None \/ stored nodes key = v ->
   exists i nodes' path',
     insert nodes key v = Ok (if bool_decide (stored nodes key = None) then i else 0%nat, nodes') /\
     keeps nodes path nodes' path' /\ path' i = bits 64 key /\ (i < length nodes')%nat /\
     forall key', is_key key' -> stored nodes' key' = if decide (key' = key) then v else stored nodes key') /\
  (stored nodes key <> None -> stored nodes key <> v -> insert nodes key v = Panic).
Proof.
  intros (Hok & Hr & Hval) Hk. split; [|intros; by eapply insert_panics].
  intros Hv. destruct (insert_run nodes path key v Hok Hk Hv)
    as (r & i & n' & p' & E & Hok' & Hsame & Hlen & Hpi & Hi & Hr' & Hval' & -> & Hst).
  exists i, n', p'. split; [done|]. split; [|done]. split; [|done]. split; [done|]. auto.
Qed.

Lemma remove_spec nodes path key :
  trie_ok nodes path -> is_key key ->
  exists nodes', remove nodes key = Ok (bool_decide (is_Some (walk nodes 0 (bits 64 key))), nodes') /\
    keeps nodes path nodes' path /\ (forall p, walk nodes' 0 p = walk nodes 0 p) /\
    forall key', is_key key' -> stored nodes' key' = if decide (key' = key) then None else stored nodes key'.
Proof.
  intros (Hok & Hr & Hval) Hk. pose proof Hok as (_ & Hlen & _). unfold remove.
  rewrite (find_walk_bits _ path) by done. cbn [obind].
  destruct (walk nodes 0 (bits 64 key)) as [i|] eqn:Hw.
  - destruct (lookup_lt_is_Some_2 _ _ (walk_in _ _ _ _ _ Hok Hlen Hw)) as [it Hit]. rewrite Hit. cbn [or_fault obind].
    rewrite bool_decide_eq_true_2 by eauto. eexists. split; [done|].
    assert (Hws : forall p, walk (<[i := set_val it None]> nodes) 0 p = walk nodes 0 p) by (intros p; by apply walk_set_val).
    split; [|split; [done | intros key' Hk'; by apply (stored_set_val nodes path)]].
    split; [|by rewrite length_insert]. split; [by apply paths_set_val|]. split; [|by apply valued_set_val].
    intros j Hj. rewrite length_insert in Hj. rewrite Hws. auto.
  - rewrite bool_decide_eq_false_2 by (intros [? ?]; done). exists nodes. split; [done|].
    split; [by apply keeps_refl|]. split; [done|]. intros key' Hk'.
    destruct (decide (key' = key)) as [->|]; [|done]. unfold stored. by rewrite Hw.
Qed.

(** Removing by index removes the key whose path the index has. *)
Lemma remove_by_idx_spec nodes path i key :
  trie_ok nodes path -> (i < length nodes)%nat -> is_key key -> path i = bits 64 key ->
  keeps nodes path (remove_by_idx nodes i) path /\
  forall key', is_key key' ->
    stored (remove_by_idx nodes i) key' = if decide (key' = key) then None else stored nodes key'.
Proof.
  intros (Hok & Hr & Hval) Hi Hk Hp. unfold remove_by_idx. destruct (Nat.ltb_spec i (length nodes)); [|lia].
  destruct (lookup_lt_is_Some_2 _ _ Hi) as [it Hit]. rewrite Hit. split.
  - split; [|by rewrite length_insert]. split; [by apply paths_set_val|]. split; [|by apply valued_set_val].
    intros j Hj. rewrite length_insert in Hj. rewrite walk_set_val by done. auto.
  - intros key' Hk'. apply (stored_set_val nodes path); auto. rewrite <- Hp. auto.
Qed.

Lemma stored_Some_walk nodes key v : stored nodes key = Some v -> is_Some (walk nodes 0 (bits 64 key)).
Proof. unfold stored. destruct (walk nodes 0 (bits 64 key)); [eauto|done]. Qed.

Lemma trie_empty : trie_rep TrieLookup ∅.
Proof.
  split.
  - exists (fun _ => []). split; [|split].
    + split; [done|]. split; [simpl; lia|]. intros [|i] it x Hi; [|done]. injection Hi as <-. by destruct x.
    + intros [|i] Hi; [done|simpl in Hi; lia].
    + intros [|i] it Hi Hne; [|done]. injection Hi as <-. done.
  - intros key Hk. rewrite lookup_empty. unfold stored. destruct (bits 64 key) as [|x p]; [done|].
    cbn [walk]. destruct x; done.
Qed.

(** A map after one key was set or cleared. *)
Lemma rep_update nodes' M key (o : option V) :
  (exists path, trie_ok nodes' path) ->
  (forall k, is_key k -> stored nodes' k = if decide (k = key) then o else M !! k) ->
  trie_rep nodes' (partial_alter (fun _ => o) key M).
Proof.
  intros Hok Hst. split; [done|]. intros k Hk. rewrite Hst by done.
  destruct (decide (k = key)) as [->|]; [by rewrite lookup_partial_alter_eq | by rewrite lookup_partial_alter_ne].
Qed.

(** foreach visits exactly the values of the map. *)
Lemma foreach_spec nodes M v :
  trie_rep nodes M -> v ∈ foreach nodes <-> exists key, is_key key /\ M !! key = Some v.
Proof.
  intros [(path & Hok & Hr & Hval) Hst]. unfold foreach. rewrite list_elem_of_omap. split.
  - intros (it & Hin & Hv). apply list_elem_of_lookup in Hin as [i Hi].
    destruct (Hval i it Hi) as (key & Hk & Hp); [congruence|]. exists key. split; [done|].
    rewrite <- Hst by done. unfold stored. rewrite <- Hp, Hr by (by eapply lookup_lt_Some).
    cbn [mbind option_bind]. by rewrite Hi.
  - intros (key & Hk & Hv). rewrite <- Hst in Hv by done. unfold stored in Hv.
    destruct (walk nodes 0 (bits 64 key)) as [i|]; [|done]. cbn [mbind option_bind] in Hv.
    destruct (nodes !! i) as [it|] eqn:Hi; [|done]. exists it. split; [by eapply list_elem_of_lookup_2|done].
Qed.

(** * Sequences of operations *)

Inductive op := OpInsert (key : Z) (v : V) | OpRemove (key : Z) | OpRemoveIdx (idx : nat).

Definition run_op (nodes : nodes_t) (o : op) : outcome nodes_t :=
  match o with
  | OpInsert key v => '(_, n) <- insert nodes key (Some v) ;; Ok n
  | OpRemove key => '(_, n) <- remove nodes key ;; Ok n
  | OpRemoveIdx idx => Ok (remove_by_idx nodes idx)
  end.

Fixpoint run_ops (nodes : nodes_t) (os : list op) : outcome nodes_t :=
  match os with [] => Ok nodes | o :: os' => n <- run_op nodes o ;; run_ops n os' end.

Definition op_key_ok (o : op) : Prop :=
  match o with OpInsert key _ | OpRemove key => is_key key | OpRemoveIdx _ => True end.

(** remove_by_idx with any index keeps the trie well formed. *)
Lemma remove_by_idx_keeps nodes path i : trie_ok nodes path -> keeps nodes path (remove_by_idx nodes i) path.
Proof.
  intros Hok0. pose proof Hok0 as (Hok & Hr & Hval). unfold remove_by_idx.
  destruct (Nat.ltb_spec i (length nodes)) as [Hi|]; [|by apply keeps_refl].
  destruct (lookup_lt_is_Some_2 _ _ Hi) as [it Hit]. rewrite Hit.
  split; [|by rewrite length_insert]. split; [by apply paths_set_val|]. split; [|by apply valued_set_val].
  intros j Hj. rewrite length_insert in Hj. rewrite walk_set_val by done. auto.
Qed.

Lemma run_op_keeps nodes path o nodes' :
  trie_ok nodes path -> op_key_ok o -> run_op nodes o = Ok nodes' -> exists path', keeps nodes path nodes' path'.
Proof.
  intros Hok Hk. destruct o as [key v|key|idx]; unfold run_op, op_key_ok in *.
  - destruct (insert_spec nodes path key (Some v) Hok Hk) as [Hgood Hbad].
    destruct (decide (stored nodes key = None \/ stored nodes key = Some v)) as [Hc|Hc].
    + destruct (Hgood Hc) as (i & n' & p' & -> & Hkeep & _). intros E. injection E as <-. by exists p'.
    + rewrite Hbad by tauto. discriminate.
  - destruct (remove_spec nodes path key Hok Hk) as (n' & -> & Hkeep & _). intros E. injection E as <-. by exists path.
  - intros E. injection E as <-. exists path. by apply remove_by_idx_keeps.
Qed.

Lemma run_ops_keeps os : forall nodes path nodes',
  trie_ok nodes path -> Forall op_key_ok os -> run_ops nodes os = Ok nodes' -> exists path', keeps nodes path nodes' path'.
Proof.
  induction os as [|o os IH]; intros nodes path nodes' Hok Hos E; cbn [run_ops] in E.
  - inv_ok. exists path. by apply keeps_refl.
  - apply Forall_cons in Hos as [Ho Hos]. apply obind_Ok_inv in E as (n1 & E1 & E2).
    destruct (run_op_keeps _ _ _ _ Hok Ho E1) as (p1 & Hk1).
    destruct (IH _ p1 _ (proj1 Hk1) Hos E2) as (p2 & Hk2). eauto using keeps_trans.
Qed.

(** * Properties *)

(** C24: the trie is a finite map from 64-bit keys to values: lookup reads it,
    insert of an absent key or of the value already there sets it and is the
    assertion failure for a different value, remove clears it; no other key is
    affected. *)
Theorem trie_refines_map nodes M key v :
  trie_rep nodes M -> is_key key ->
  lookup nodes key = Ok (M !! key) /\
  (M !! key = None \/ M !! key = Some v ->
     exists r nodes', insert nodes key (Some v) = Ok (r, nodes') /\ trie_rep nodes' (<[key := v]> M)) /\
  (forall w, M !! key = Some w -> w <> v -> insert nodes key (Some v) = Panic) /\
  (exists b nodes', remove nodes key = Ok (b, nodes') /\ trie_rep nodes' (delete key M) /\
     (is_Some (M !! key) -> b = true)).
Proof.
  intros [(path & Hok) Hst] Hk. pose proof (Hst key Hk) as Hkey.
  destruct (insert_spec nodes path key (Some v) Hok Hk) as [Hgood Hbad].
  destruct (remove_spec nodes path key Hok Hk) as (nr & Er & Hkr & _ & Hsr).
  split; [rewrite <- Hkey; apply (lookup_run nodes path); [apply Hok | done]|].
  split; [|split].
  - rewrite <- Hkey. intros Hv. destruct (Hgood Hv) as (i & n' & p' & E & Hkeep & _ & _ & Hs).
    exists (if bool_decide (stored nodes key = None) then i else 0%nat), n'. split; [done|].
    apply (rep_update n' M key (Some v)); [by exists p'; apply Hkeep|]. intros k Hk'. rewrite Hs, Hst by done. done.
  - intros w Hw Hne. apply Hbad; rewrite Hkey, Hw; congruence.
  - eexists _, nr. split; [exact Er|]. split.
    + apply (rep_update nr M key None); [by exists path; apply Hkr|]. intros k Hk'. rewrite Hsr, Hst by done. done.
    + rewrite <- Hkey. intros [w Hw]. apply bool_decide_eq_true_2. by eapply stored_Some_walk.
Qed.

(** the index insert returns for a new key stays a handle of that key: after
    any further operations, remove_by_idx with it clears exactly that key. *)
Theorem insert_index_is_handle nodes M key v r nodes1 os nodes2 M2 :
  trie_rep nodes M -> is_key key -> M !! key = None -> insert nodes key (Some v) = Ok (r, nodes1) ->
  Forall op_key_ok os -> run_ops nodes1 os = Ok nodes2 -> trie_rep nodes2 M2 ->
  trie_rep (remove_by_idx nodes2 r) (delete key M2).
Proof.
  intros [(path & Hok) Hst] Hk Hnone E Hos Erun [_ Hst2]. pose proof (Hst key Hk) as Hkey. rewrite Hnone in Hkey.
  destruct (insert_spec nodes path key (Some v) Hok Hk) as [Hgood _].
  destruct (Hgood (or_introl Hkey)) as (i & n1 & p1 & E1 & Hkeep1 & Hpi & Hi & _).
  rewrite bool_decide_eq_true_2 in E1 by done. rewrite E1 in E. injection E as <- <-.
  destruct (run_ops_keeps os n1 p1 nodes2 (proj1 Hkeep1) Hos Erun) as (p2 & Hok2 & Hlen2 & Hsame).
  destruct (remove_by_idx_spec nodes2 p2 i key Hok2) as [Hkeep Hs]; [lia | done | by rewrite Hsame |].
  apply (rep_update _ M2 key None); [by exists p2; apply Hkeep|]. intros k Hk'. rewrite Hs, Hst2 by done. done.
Qed.

(** remove reports success for every key whose path exists: a key that was
    removed once is "removed" again. *)
Theorem remove_succeeds_twice nodes M key v :
  trie_rep nodes M -> is_key key -> M !! key = Some v ->
  exists n1 n2, remove nodes key = Ok (true, n1) /\ trie_rep n1 (delete key M) /\ remove n1 key = Ok (true, n2).
Proof.
  intros [(path & Hok) Hst] Hk Hv. pose proof (Hst key Hk) as Hkey. rewrite Hv in Hkey.
  pose proof (stored_Some_walk _ _ _ Hkey) as Hw.
  destruct (remove_spec nodes path key Hok Hk) as (n1 & E1 & Hk1 & Hw1 & Hs1).
  destruct (remove_spec n1 path key (proj1 Hk1) Hk) as (n2 & E2 & _).
  rewrite Hw1 in E2. rewrite bool_decide_eq_true_2 in E1, E2 by done. exists n1, n2. split; [done|]. split; [|done].
  apply (rep_update n1 M key None); [by exists path; apply Hk1|]. intros k Hk'. rewrite Hs1, Hst by done. done.
Qed.
End Trie.
Arguments Item V : clear implicits.

(** ** Concrete tries *)

Definition ex_trie : list (Item nat) :=
  match insert TrieLookup 5 (Some 70%nat) with Ok (_, n) => n | _ => [] end.

Lemma ex_trie_rep : trie_rep ex_trie {[ 5 := 70%nat ]}.
Proof.
  destruct (trie_empty (V := nat)) as [(path & Hok) Hst].
  destruct (insert_spec TrieLookup path 5 (Some 70%nat) Hok) as [Hgood _]; [unfold is_key; lia|].
  destruct Hgood as (i & n' & p' & E & Hkeep & _ & _ & Hs); [by left|].
  assert (ex_trie = n') as -> by (unfold ex_trie; now rewrite E).
  apply (rep_update n' ∅ 5 (Some 70%nat)); [by exists p'; apply Hkeep|]. intros k Hk'. rewrite Hs, Hst by done. done.
Qed.

Lemma trie_refines_map_witness :
  lookup ex_trie 6 = Ok None /\ exists r n, insert ex_trie 6 (Some 71%nat) = Ok (r, n).
Proof.
  destruct (trie_refines_map ex_trie {[ 5 := 70%nat ]} 6 71%nat ex_trie_rep) as (H1 & H2 & _); [unfold is_key; lia|].
  split; [exact H1|]. destruct H2 as (r & n & H2 & _); [left; reflexivity|]. eauto.
Defined.

(** The map that a trie holds after two more operations. *)
Lemma ex_trie_more : exists n2, run_ops ex_trie [OpInsert 4 3%nat; OpRemove 4] = Ok n2 /\ trie_rep n2 {[ 5 := 70%nat ]}.
Proof.
  destruct ex_trie_rep as [(path & Hok) Hst].
  destruct (insert_spec ex_trie path 4 (Some 3%nat) Hok) as [Hgood _]; [unfold is_key; lia|].
  destruct Hgood as (i & n1 & p1 & E & Hkeep & _ & _ & Hs); [rewrite Hst by (unfold is_key; lia); by left|].
  destruct (remove_spec n1 p1 4 (proj1 Hkeep)) as (n2 & E2 & Hkeep2 & _ & Hs2); [unfold is_key; lia|].
  exists n2. cbn [run_ops run_op]. rewrite E. cbn [obind]. rewrite E2. split; [done|].
  split; [by exists p1; apply Hkeep2|]. intros k Hk. rewrite Hs2, Hs, Hst by done.
  destruct (decide (k = 4)) as [->|]; done.
Qed.

Lemma insert_index_is_handle_witness :
  exists n2, run_ops ex_trie [OpInsert 4 3%nat; OpRemove 4] = Ok n2 /\
    trie_rep (remove_by_idx n2 3) (delete 5 {[ 5 := 70%nat ]}).
Proof.
  destruct ex_trie_more as (n2 & E & Hrep). exists n2. split; [exact E|].
  apply (insert_index_is_handle TrieLookup ∅ 5 70%nat 3 ex_trie [OpInsert 4 3%nat; OpRemove 4] n2 {[ 5 := 70%nat ]});
    [apply trie_empty | unfold is_key; lia | reflexivity | vm_compute; reflexivity
     | repeat constructor; unfold is_key; cbn; lia | exact E | exact Hrep].
Defined.

Lemma remove_succeeds_twice_witness :
  exists n1 n2, remove ex_trie 5 = Ok (true, n1) /\ trie_rep n1 (delete 5 {[ 5 := 70%nat ]}) /\ remove n1 5 = Ok (true, n2).
Proof. apply (remove_succeeds_twice ex_trie {[ 5 := 70%nat ]} 5 70%nat ex_trie_rep); [unfold is_key; lia | reflexivity]. Defined.
