(* ===== verification/Objects.v ===== *)
(** Reference-counted kernel objects: [KernelObject] and [IdPool] of
    src/container.hpp and container.cpp, and the registration of objects with a
    process in src/process.hpp.

    One pool of identified objects (the locks, barriers, condition variables or
    mailboxes of src/locks.cpp) is modelled together with the registration tries
    of all processes.  An object is named by its address; reading a freed one
    is a [Fault].  The address of a new object is an argument, the result of
    the kernel's allocator. *)

From Stdlib Require Import ZArith Lia List.
From stdpp Require Import base numbers list gmap.
From S2P Require Import Prelude Trie.

Local Open Scope Z_scope.
#[local] Ltac Zify.zify_post_hook ::= Z.div_mod_to_equations.

(** * The code *)

(** class IdObject : public KernelObject *)
Record IdObject := MkObj { ref_count : Z; handle : nat; trie_idx : nat }.

Record world := MkWorld {
  objs : gmap Z IdObject;              (* live objects *)
  keymap : list (Item Z);              (* IdPool::keymap *)
  table : list (option Z);             (* IdPool::table *)
  procs : list (list (Item Z))         (* Process::kernel_objects, by pid *)
}.
Definition set_objs (w : world) (o : gmap Z IdObject) : world := MkWorld o (keymap w) (table w) (procs w).
Definition set_procs (w : world) (p : list (list (Item Z))) : world := MkWorld (objs w) (keymap w) (table w) p.

(** static size_t obj2key(KernelObject *obj) *)
Definition obj2key (obj : Z) : Z := Z.land obj 0xffffffff.

(** virtual void on_process_register(Process * ) *)
Definition on_process_register (w : world) (obj : Z) : outcome world :=
  o <- or_fault (objs w !! obj) ;;
  Ok (set_objs w (<[obj := MkObj (u64 (ref_count o + 1)) (handle o) (trie_idx o)]> (objs w))).

(** void IdPool::remove(IdObject *obj) *)
Definition pool_remove (w : world) (obj : Z) : outcome world :=
  o <- or_fault (objs w !! obj) ;;
  if (length (table w) <=? handle o)%nat then Ok w
  else Ok (MkWorld (objs w) (remove_by_idx (keymap w) (trie_idx o)) (<[handle o := None]> (table w)) (procs w)).

(** virtual void on_process_unregister(Process * ): the last reference runs the
    destructor, which removes the object from its pool, and frees it. *)
Definition on_process_unregister (w : world) (obj : Z) : outcome world :=
  o <- or_fault (objs w !! obj) ;;
  let c := u64 (ref_count o - 1) in
  let w := set_objs w (<[obj := MkObj c (handle o) (trie_idx o)]> (objs w)) in
  if c =? 0 then
    w <- pool_remove w obj ;;
    Ok (set_objs w (delete obj (objs w)))
  else Ok w.

(** bool register_kernel_object(KernelObject *obj) *)
Definition register_kernel_object (w : world) (pid : nat) (obj : Z) : outcome (bool * world) :=
  t <- or_fault (procs w !! pid) ;;
  '(r, t) <- insert t (obj2key obj) (Some obj) ;;
  let w := set_procs w (<[pid := t]> (procs w)) in
  if (r =? 0)%nat then Ok (false, w)
  else w <- on_process_register w obj ;; Ok (true, w).

(** bool unregister_kernel_object(KernelObject *obj) *)
Definition unregister_kernel_object (w : world) (pid : nat) (obj : Z) : outcome (bool * world) :=
  t <- or_fault (procs w !! pid) ;;
  '(b, t) <- remove t (obj2key obj) ;;
  let w := set_procs w (<[pid := t]> (procs w)) in
  if b then w <- on_process_unregister w obj ;; Ok (true, w) else Ok (false, w).

(** int64_t IdPool::init(size_t key, std::function<IdObject *()> create_fn);
    [fresh] is the object that create_fn returns. *)
Definition pool_init (w : world) (pid : nat) (key fresh : Z) : outcome (nat * world) :=
  p <- lookup (keymap w) key ;;
  '(p, w) <-
    match p with
    | Some p => Ok (p, w)
    | None =>
        let h := length (table w) in
        '(idx, km) <- insert (keymap w) key (Some fresh) ;;
        Ok (fresh, MkWorld (<[fresh := MkObj 0 h idx]> (objs w)) km (table w ++ [Some fresh]) (procs w))
    end ;;
  '(_, w) <- register_kernel_object w pid p ;;
  o <- or_fault (objs w !! p) ;;
  Ok (handle o, w).

(** IdObject *IdPool::get(size_t handle) *)
Definition pool_get (w : world) (h : nat) : option Z :=
  if (length (table w) <=? h)%nat then None else default None (table w !! h).

(** void IdPool::close(size_t handle) *)
Definition pool_close (w : world) (pid : nat) (h : nat) : outcome world :=
  match pool_get w h with
  | None => Ok w
  | Some obj => '(_, w) <- unregister_kernel_object w pid obj ;; Ok w
  end.

(** * The invariant *)

(** Kernel objects live in the kernel heap, well inside one 4 GiB window. *)
Definition kaddr (a : Z) : Prop := 0xffffffc050000000 <= a < 0xffffffc060000000.

Definition registered (obj : Z) (t : list (Item Z)) : bool := bool_decide (stored t (obj2key obj) = Some obj).
Definition refs (w : world) (obj : Z) : nat := length (List.filter (registered obj) (procs w)).

Record pool_ok (w : world) : Prop := {
  ok_tries : Forall (fun t => exists path, trie_ok t path) (procs w);
  ok_kaddr : forall a o, objs w !! a = Some o -> kaddr a;
  (** the counter of an object is the number of processes that hold it *)
  ok_refs : forall a o, objs w !! a = Some o -> ref_count o = Z.of_nat (refs w a);
  (** a process only holds live objects, under their own key *)
  ok_live : forall t key a, t ∈ procs w -> is_key key -> stored t key = Some a ->
    key = obj2key a /\ is_Some (objs w !! a);
  (** handles and live objects are in bijection *)
  ok_handle : forall a o, objs w !! a = Some o -> table w !! handle o = Some (Some a);
  ok_table : forall h a, table w !! h = Some (Some a) -> exists o, objs w !! a = Some o /\ handle o = h;
  (** so are keys and live objects, and the stored index is that of the key *)
  ok_keymap : exists path, trie_ok (keymap w) path /\
    (forall a o, objs w !! a = Some o -> (trie_idx o < length (keymap w))%nat /\
       exists key, is_key key /\ path (trie_idx o) = bits 64 key /\ stored (keymap w) key = Some a) /\
    (forall key a, is_key key -> stored (keymap w) key = Some a ->
       exists o, objs w !! a = Some o /\ path (trie_idx o) = bits 64 key);
  ok_count : Z.of_nat (length (procs w)) < 2 ^ 64
}.

(** * Lemmas *)

Lemma obj2key_mod a : obj2key a = a mod 2 ^ 32.
Proof. unfold obj2key. change 0xffffffff with (Z.ones 32). now rewrite Z.land_ones by lia. Qed.

Lemma obj2key_key a : is_key (obj2key a).
Proof. rewrite obj2key_mod. unfold is_key. lia. Qed.

Lemma obj2key_inj a b : kaddr a -> kaddr b -> obj2key a = obj2key b -> a = b.
Proof. unfold kaddr. rewrite !obj2key_mod. lia. Qed.

Lemma obj2key_nonzero a : kaddr a -> obj2key a <> 0.
Proof. unfold kaddr. rewrite obj2key_mod. lia. Qed.

(** The number of processes that satisfy a test, after one changed. *)
Lemma filter_insert_length {A} (f : A -> bool) (l : list A) : forall i x y,
  l !! i = Some x ->
  (length (List.filter f (<[i := y]> l)) + (if f x then 1 else 0) = length (List.filter f l) + (if f y then 1 else 0))%nat.
Proof.
  induction l as [|z l IH]; intros [|i] x y Hi; simpl in Hi; try done.
  - injection Hi as ->. simpl. destruct (f x), (f y); simpl; lia.
  - specialize (IH i x y Hi). simpl. destruct (f z); simpl; lia.
Qed.

Lemma filter_length_le {A} (f : A -> bool) (l : list A) : (length (List.filter f l) <= length l)%nat.
Proof. induction l; simpl; [lia|]. destruct (f a); simpl; lia. Qed.

Definition upd_procs (w : world) (pid : nat) (t : list (Item Z)) : list (list (Item Z)) := <[pid := t]> (procs w).

Section OneProcess.
Context (w : world) (Hok : pool_ok w) (pid : nat) (t t' : list (Item Z)) (Ht : procs w !! pid = Some t).
Context (a : Z) (o : IdObject) (Ha : objs w !! a = Some o) (v : option Z) (Hv : v = None \/ v = Some a).
Context (Hst : forall key, is_key key -> stored t' key = if decide (key = obj2key a) then v else stored t key).

Lemma registered_other b : kaddr b -> b <> a -> registered b t' = registered b t.
Proof.
  intros Hb Hne. unfold registered. rewrite Hst by apply obj2key_key.
  rewrite decide_False; [done|]. intros E. apply Hne, obj2key_inj; [done| |done]. by eapply ok_kaddr.
Qed.

Lemma registered_self : registered a t' = bool_decide (v = Some a).
Proof. unfold registered. rewrite Hst by apply obj2key_key. by rewrite decide_True. Qed.

Lemma refs_other b :
  kaddr b -> b <> a -> length (List.filter (registered b) (upd_procs w pid t')) = refs w b.
Proof.
  intros Hb Hne. pose proof (filter_insert_length (registered b) (procs w) pid t t' Ht) as E.
  rewrite registered_other in E by done. unfold upd_procs, refs. lia.
Qed.

Lemma refs_self :
  (length (List.filter (registered a) (upd_procs w pid t')) + (if registered a t then 1 else 0)
   = refs w a + (if decide (v = Some a) then 1 else 0))%nat.
Proof.
  pose proof (filter_insert_length (registered a) (procs w) pid t t' Ht) as E.
  rewrite registered_self in E. unfold upd_procs, refs. destruct (decide (v = Some a)) as [Hd|Hd];
    [rewrite bool_decide_eq_true_2 in E by done | rewrite bool_decide_eq_false_2 in E by done]; exact E.
Qed.

Lemma upd_live u key b :
  u ∈ upd_procs w pid t' -> is_key key -> stored u key = Some b -> key = obj2key b /\ is_Some (objs w !! b).
Proof.
  intros Hu Hk Hs. unfold upd_procs in Hu. apply list_elem_of_lookup in Hu as [i Hi].
  destruct (decide (pid = i)) as [<-|Hne].
  - rewrite list_lookup_insert_eq in Hi by (by eapply lookup_lt_Some). injection Hi as <-.
    rewrite Hst in Hs by done. destruct (decide (key = obj2key a)) as [->|].
    + destruct Hv as [->| ->]; [done|]. injection Hs as <-. eauto.
    + eapply ok_live; eauto. by eapply list_elem_of_lookup_2.
  - rewrite list_lookup_insert_ne in Hi by done. eapply ok_live; eauto. by eapply list_elem_of_lookup_2.
Qed.

Lemma upd_tries : (exists path, trie_ok t' path) -> Forall (fun t => exists path, trie_ok t path) (upd_procs w pid t').
Proof. intros Ht'. apply Forall_insert; [by apply ok_tries | done]. Qed.

(** The world in which this process changed its entry for [a] and the counter of
    [a] was adjusted accordingly. *)
Lemma pool_ok_update c :
  (exists path, trie_ok t' path) ->
  c = Z.of_nat (length (List.filter (registered a) (upd_procs w pid t'))) ->
  pool_ok (set_objs (set_procs w (upd_procs w pid t')) (<[a := MkObj c (handle o) (trie_idx o)]> (objs w))).
Proof.
  intros Ht' Hc.
  assert (Hinv : forall b ob, <[a := MkObj c (handle o) (trie_idx o)]> (objs w) !! b = Some ob ->
    exists ob', objs w !! b = Some ob' /\ handle ob = handle ob' /\ trie_idx ob = trie_idx ob').
  { intros b ob Hb. apply lookup_insert_Some in Hb as [[<- <-]|[Hne Hb]]; eauto. }
  split; cbn [objs procs table keymap set_objs set_procs].
  - by apply upd_tries.
  - intros b ob Hb. apply Hinv in Hb as (ob' & Hb & _). by eapply ok_kaddr.
  - intros b ob Hb. unfold refs. cbn [procs set_objs set_procs].
    apply lookup_insert_Some in Hb as [[<- <-]|[Hne Hb]]; [done|].
    rewrite refs_other; [by apply ok_refs | by eapply ok_kaddr | done].
  - intros u key b Hu Hk Hs. destruct (upd_live u key b Hu Hk Hs) as [E [ob Hb]]. split; [done|].
    apply lookup_insert_is_Some'. eauto.
  - intros b ob Hb. apply Hinv in Hb as (ob' & Hb & -> & _). by apply ok_handle.
  - intros h b Hb. destruct (ok_table w Hok h b Hb) as (ob & Hob & Hh).
    destruct (decide (b = a)) as [->|]; [|exists ob; by rewrite lookup_insert_ne].
    rewrite Ha in Hob. injection Hob as <-. eexists. by rewrite lookup_insert_eq.
  - destruct (ok_keymap w Hok) as (path & Hp & H1 & H2). exists path. split; [done|]. split.
    + intros b ob Hb. apply Hinv in Hb as (ob' & Hb & _ & ->). by apply H1.
    + intros key b Hk Hs. destruct (H2 key b Hk Hs) as (ob & Hob & Hpb).
      destruct (decide (b = a)) as [->|]; [|exists ob; by rewrite lookup_insert_ne].
      rewrite Ha in Hob. injection Hob as <-. eexists. by rewrite lookup_insert_eq.
  - unfold upd_procs. rewrite length_insert. by apply ok_count.
Qed.
End OneProcess.

(** ** Registering *)

Lemma lookup_procs w pid t : pool_ok w -> procs w !! pid = Some t -> exists path, trie_ok t path.
Proof. intros Hok Ht. pose proof (ok_tries w Hok) as H. rewrite Forall_lookup in H. by eapply H. Qed.

Lemma stored_self w pid t a o :
  pool_ok w -> procs w !! pid = Some t -> objs w !! a = Some o ->
  stored t (obj2key a) = None \/ stored t (obj2key a) = Some a.
Proof.
  intros Hok Ht Ha. destruct (stored t (obj2key a)) as [b|] eqn:E; [|by left]. right.
  destruct (ok_live w Hok t (obj2key a) b) as [Hk [ob Hb]]; [by eapply list_elem_of_lookup_2 | apply obj2key_key | done |].
  f_equal. symmetry. apply obj2key_inj; [by eapply ok_kaddr | by eapply ok_kaddr | done].
Qed.

Lemma register_spec w pid t a o :
  pool_ok w -> procs w !! pid = Some t -> objs w !! a = Some o ->
  exists w' o', register_kernel_object w pid a = Ok (negb (registered a t), w') /\ pool_ok w' /\
    objs w' !! a = Some o' /\ handle o' = handle o /\ table w' = table w /\ keymap w' = keymap w /\
    (forall b, b <> a -> objs w' !! b = objs w !! b) /\
    exists t', procs w' = <[pid := t']> (procs w) /\ registered a t' = true.
Proof.
  intros Hok Ht Ha. destruct (lookup_procs w pid t Hok Ht) as (path & Hpath).
  pose proof (stored_self w pid t a o Hok Ht Ha) as Hself.
  destruct (insert_spec t path (obj2key a) (Some a) Hpath (obj2key_key a)) as [Hgood _].
  destruct (Hgood Hself) as (i & t' & p' & E & Hkeep & Hpi & Hi & Hst).
  assert (Hi0 : i <> 0%nat).
  { intros ->. rewrite (proj1 (proj1 (proj1 Hkeep))) in Hpi.
    apply (obj2key_nonzero a); [by eapply ok_kaddr|]. cbn [bits] in Hpi. destruct (Z.eqb_spec (obj2key a) 0); [done|discriminate]. }
  assert (Ht' : exists path, trie_ok t' path) by (exists p'; apply Hkeep).
  pose proof (refs_self w pid t t' Ht a (Some a) Hst) as Hrefs. rewrite decide_True in Hrefs by done.
  unfold register_kernel_object. rewrite Ht. cbn [or_fault obind]. rewrite E. cbn [obind].
  assert (Hreg : registered a t = negb (bool_decide (stored t (obj2key a) = None))).
  { unfold registered. destruct Hself as [->| ->]; [done|]. by rewrite bool_decide_eq_true_2. }
  assert (Hreg' : registered a t' = true) by (rewrite (registered_self t t' a (Some a) Hst); by apply bool_decide_eq_true_2).
  destruct (bool_decide (stored t (obj2key a) = None)) eqn:Hb.
  - rewrite (proj2 (Nat.eqb_neq i 0)) by done. unfold on_process_register. cbn [objs set_procs]. rewrite Ha.
    cbn [or_fault obind]. rewrite Hreg. cbn [negb]. rewrite Hreg in Hrefs. cbn [negb] in Hrefs.
    assert (Hc : u64 (ref_count o + 1) = Z.of_nat (length (List.filter (registered a) (upd_procs w pid t')))).
    { rewrite (ok_refs w Hok a o Ha). rewrite u64_small; [lia|].
      pose proof (filter_length_le (registered a) (upd_procs w pid t')) as Hle. unfold upd_procs at 2 in Hle.
      rewrite length_insert in Hle. pose proof (ok_count w Hok). lia. }
    eexists _, _. split; [reflexivity|]. split; [|split; [apply lookup_insert_eq|]].
    + apply (pool_ok_update w Hok pid t t' Ht a o Ha (Some a) ltac:(by right) Hst); [done|exact Hc].
    + cbn. repeat split; auto; [intros b Hb'; by rewrite lookup_insert_ne | eauto].
  - cbn [Nat.eqb]. rewrite Hreg. cbn [negb]. rewrite Hreg in Hrefs. cbn [negb] in Hrefs.
    eexists _, o. split; [reflexivity|]. split; [|repeat split; auto; eexists; split; [reflexivity|done]].
    assert (Hsame : set_procs w (<[pid := t']> (procs w)) =
      set_objs (set_procs w (upd_procs w pid t')) (<[a := MkObj (ref_count o) (handle o) (trie_idx o)]> (objs w))).
    { unfold set_objs, set_procs, upd_procs. cbn. f_equal. symmetry. apply insert_id. rewrite Ha. by destruct o. }
    rewrite Hsame. apply (pool_ok_update w Hok pid t t' Ht a o Ha (Some a) ltac:(by right) Hst); [done|].
    rewrite (ok_refs w Hok a o Ha). lia.
Qed.

(** ** Unregistering *)

Lemma not_registered w a t :
  refs w a = 0%nat -> t ∈ procs w -> registered a t = false.
Proof.
  unfold refs. intros H0 Ht. destruct (registered a t) eqn:E; [|done]. exfalso.
  assert (Hin : In t (List.filter (registered a) (procs w))).
  { apply filter_In. split; [|done]. by apply list_elem_of_In. }
  destruct (List.filter (registered a) (procs w)); [destruct Hin | discriminate].
Qed.

(** Freeing an object nobody holds. *)
Lemma pool_ok_release w a o :
  pool_ok w -> objs w !! a = Some o -> refs w a = 0%nat ->
  exists w1, pool_remove w a = Ok w1 /\ pool_ok (set_objs w1 (delete a (objs w1))) /\
    objs w1 = objs w /\ procs w1 = procs w /\ table w1 = <[handle o := None]> (table w).
Proof.
  intros Hok Ha H0. pose proof (ok_handle w Hok a o Ha) as Hh. pose proof (lookup_lt_Some _ _ _ Hh) as Hlt.
  unfold pool_remove. rewrite Ha. cbn [or_fault obind].
  destruct (Nat.leb_spec (length (table w)) (handle o)); [lia|].
  eexists. split; [reflexivity|]. split; [|done].
  destruct (ok_keymap w Hok) as (path & Hp & H1 & H2). destruct (H1 a o Ha) as (Hti & key & Hk & Hpk & Hsk).
  destruct (remove_by_idx_spec (keymap w) path (trie_idx o) key Hp Hti Hk Hpk) as [Hkeep Hst].
  split; cbn [objs procs table keymap set_objs].
  - by apply ok_tries.
  - intros b ob Hb. apply lookup_delete_Some in Hb as [_ Hb]. by eapply ok_kaddr.
  - intros b ob Hb. apply lookup_delete_Some in Hb as [_ Hb]. by apply (ok_refs w Hok).
  - intros u k b Hu Hku Hs. destruct (ok_live w Hok u k b Hu Hku Hs) as [E [ob Hb]]. split; [done|].
    destruct (decide (b = a)) as [->|]; [|exists ob; by rewrite lookup_delete_ne].
    exfalso. pose proof (not_registered w a u H0 Hu) as Hn. unfold registered in Hn.
    rewrite <- E in Hn. apply bool_decide_eq_false_1 in Hn. done.
  - intros b ob Hb. apply lookup_delete_Some in Hb as [Hne Hb]. pose proof (ok_handle w Hok b ob Hb) as Hhb.
    rewrite list_lookup_insert_ne; [done|]. intros E. rewrite E in Hh. congruence.
  - intros h b Hb. destruct (decide (handle o = h)) as [<-|Hne].
    + by rewrite list_lookup_insert_eq in Hb.
    + rewrite list_lookup_insert_ne in Hb by done. destruct (ok_table w Hok h b Hb) as (ob & Hob & Hhb).
      exists ob. rewrite lookup_delete_ne; [done|]. intros <-. congruence.
  - exists path. split; [apply Hkeep|]. destruct Hkeep as (_ & Hlen & _). split.
    + intros b ob Hb. apply lookup_delete_Some in Hb as [Hne Hb]. destruct (H1 b ob Hb) as (Hbi & kb & Hkb & Hpb & Hsb).
      split; [lia|]. exists kb. split; [done|]. split; [done|]. rewrite Hst by done. rewrite decide_False; [done|].
      intros ->. congruence.
    + intros k b Hkb Hs. rewrite Hst in Hs by done. destruct (decide (k = key)) as [|Hne]; [done|].
      destruct (H2 k b Hkb Hs) as (ob & Hob & Hpb). exists ob. rewrite lookup_delete_ne; [done|].
      intros <-. apply Hne. rewrite Ha in Hob. injection Hob as <-. apply (bits_inj 64); [done | done | congruence].
  - by apply ok_count.
Qed.

Lemma unregister_spec w pid t a o :
  pool_ok w -> procs w !! pid = Some t -> objs w !! a = Some o -> registered a t = true ->
  exists w', unregister_kernel_object w pid a = Ok (true, w') /\ pool_ok w' /\
    (forall b, b <> a -> objs w' !! b = objs w !! b) /\
    (refs w a = 1%nat -> objs w' !! a = None /\ table w' = <[handle o := None]> (table w)) /\
    (refs w a <> 1%nat -> is_Some (objs w' !! a) /\ table w' = table w) /\
    (exists t', procs w' = upd_procs w pid t' /\ (exists path, trie_ok t' path) /\
       is_Some (walk t' 0 (bits 64 (obj2key a))) /\ stored t' (obj2key a) = None) /\ S (refs w' a) = refs w a.
Proof.
  intros Hok Ht Ha Hreg. destruct (lookup_procs w pid t Hok Ht) as (path & Hpath).
  assert (Hs : stored t (obj2key a) = Some a) by (by apply bool_decide_eq_true_1 in Hreg).
  destruct (remove_spec t path (obj2key a) Hpath (obj2key_key a)) as (t' & E & Hkeep & Hw & Hst).
  pose proof (stored_Some_walk _ _ _ Hs) as Hsw. rewrite bool_decide_eq_true_2 in E by done.
  rewrite <- Hw in Hsw.
  assert (Hs' : stored t' (obj2key a) = None) by (rewrite Hst by apply obj2key_key; by rewrite decide_True).
  assert (Ht' : exists path, trie_ok t' path) by (exists path; apply Hkeep).
  pose proof (refs_self w pid t t' Ht a None Hst) as Hrefs. rewrite Hreg, decide_False in Hrefs by done.
  unfold unregister_kernel_object. rewrite Ht. cbn [or_fault obind]. rewrite E. cbn [obind].
  unfold on_process_unregister. cbn [objs set_procs]. rewrite Ha. cbn [or_fault obind].
  assert (Hc : u64 (ref_count o - 1) = Z.of_nat (length (List.filter (registered a) (upd_procs w pid t')))).
  { rewrite (ok_refs w Hok a o Ha). pose proof (filter_length_le (registered a) (procs w)) as Hle.
    fold (refs w a) in Hle. pose proof (ok_count w Hok). rewrite u64_small; lia. }
  pose proof (pool_ok_update w Hok pid t t' Ht a o Ha None ltac:(by left) Hst _ Ht' Hc) as Hok1.
  set (w1 := set_objs _ _) in Hok1. fold (upd_procs w pid t'). fold w1.
  assert (Ha1 : objs w1 !! a = Some (MkObj (u64 (ref_count o - 1)) (handle o) (trie_idx o))) by apply lookup_insert_eq.
  assert (Hr1 : refs w1 a = length (List.filter (registered a) (upd_procs w pid t'))) by done.
  destruct (Z.eqb_spec (u64 (ref_count o - 1)) 0) as [Hz|Hnz].
  - destruct (pool_ok_release w1 a _ Hok1 Ha1 ltac:(lia)) as (w2 & Er & Hok2 & Ho & Hp & Htab).
    rewrite Er. cbn [obind]. eexists. split; [reflexivity|]. split; [done|]. split; [|split; [|split]].
    + intros b Hb. cbn. rewrite lookup_delete_ne, Ho by done. cbn. by rewrite lookup_insert_ne.
    + intros _. cbn. split; [apply lookup_delete_eq | exact Htab].
    + intros Hne. exfalso. apply Hne. lia.
    + split; [exists t'; cbn; by rewrite Hp|]. unfold refs at 1. cbn. rewrite Hp. fold (refs w1 a). lia.
  - eexists. split; [reflexivity|]. split; [done|]. split; [|split; [|split]].
    + intros b Hb. cbn. by rewrite lookup_insert_ne.
    + intros H1'. exfalso. apply Hnz. rewrite Hc. lia.
    + intros _. split; [|done]. rewrite Ha1. eauto.
    + split; [by exists t'|]. lia.
Qed.

(** ** Creating *)

Lemma pool_ok_create w key fresh idx km :
  pool_ok w -> is_key key -> objs w !! fresh = None -> kaddr fresh -> stored (keymap w) key = None ->
  insert (keymap w) key (Some fresh) = Ok (idx, km) ->
  pool_ok (MkWorld (<[fresh := MkObj 0 (length (table w)) idx]> (objs w)) km (table w ++ [Some fresh]) (procs w)) /\
  stored km key = Some fresh.
Proof.
  intros Hok Hk Hf Hka Hnone E. destruct (ok_keymap w Hok) as (path & Hp & H1 & H2).
  destruct (insert_spec (keymap w) path key (Some fresh) Hp Hk) as [Hgood _].
  destruct (Hgood (or_introl Hnone)) as (i & km' & p' & E' & (Hp' & Hlen & Hsame) & Hpi & Hi & Hst).
  rewrite bool_decide_eq_true_2 in E' by done. rewrite E' in E. injection E as <- <-.
  split; [|rewrite Hst by done; by rewrite decide_True].
  assert (Hnolive : forall t, t ∈ procs w -> registered fresh t = false).
  { intros t Ht. apply bool_decide_eq_false_2. intros Hs.
    destruct (ok_live w Hok t _ _ Ht (obj2key_key fresh) Hs) as [_ [ob Hb]]. congruence. }
  split; cbn [objs procs table keymap].
  - by apply ok_tries.
  - intros b ob Hb. apply lookup_insert_Some in Hb as [[<- _]|[_ Hb]]; [done | by eapply ok_kaddr].
  - intros b ob Hb. apply lookup_insert_Some in Hb as [[<- <-]|[_ Hb]]; [|by apply (ok_refs w Hok)].
    cbn [ref_count]. unfold refs. cbn [procs].
    assert (List.filter (registered fresh) (procs w) = []) as ->; [|done].
    revert Hnolive. generalize (procs w). induction l as [|t l IH]; intros Hn; [done|]. cbn [List.filter].
    rewrite (Hn t) by left. apply IH. intros u Hu. apply Hn. by right.
  - intros u k b Hu Hku Hs. destruct (ok_live w Hok u k b Hu Hku Hs) as [Ek Hb]. split; [done|].
    apply lookup_insert_is_Some'. by right.
  - intros b ob Hb. apply lookup_insert_Some in Hb as [[<- <-]|[_ Hb]].
    + cbn [handle]. rewrite lookup_app_r, Nat.sub_diag by lia. done.
    + apply lookup_app_l_Some. by apply ok_handle.
  - intros h b Hb. apply lookup_app_Some in Hb as [Hb|[Hge Hb]].
    + destruct (ok_table w Hok h b Hb) as (ob & Hob & Hh). exists ob. rewrite lookup_insert_ne; [done|]. congruence.
    + apply list_lookup_singleton_Some in Hb as [Hz Hb]. injection Hb as <-. eexists.
      rewrite lookup_insert_eq. split; [done|]. cbn. lia.
  - exists p'. split; [done|]. split.
    + intros b ob Hb. apply lookup_insert_Some in Hb as [[<- <-]|[Hne Hb]].
      * cbn [trie_idx]. split; [done|]. exists key. split; [done|]. split; [done|].
        rewrite Hst by done. by rewrite decide_True.
      * destruct (H1 b ob Hb) as (Hbi & kb & Hkb & Hpb & Hsb). split; [lia|]. exists kb. split; [done|].
        split; [by rewrite Hsame|]. rewrite Hst by done. rewrite decide_False; [done|]. intros ->. congruence.
    + intros k b Hkb Hs. rewrite Hst in Hs by done. destruct (decide (k = key)) as [->|Hne].
      * injection Hs as <-. eexists. rewrite lookup_insert_eq. split; [done|]. done.
      * destruct (H2 k b Hkb Hs) as (ob & Hob & Hpb). exists ob. rewrite lookup_insert_ne by congruence.
        split; [done|]. rewrite Hsame; [done|]. by destruct (H1 b ob Hob).
  - by apply ok_count.
Qed.

(** * Properties *)

(** IdPool::init with a key gives every process the same object: the live
    object with that key if there is one and a new one otherwise; the object is
    registered with the process, its counter stays the number of processes that
    hold it, and the handle returned leads to it. *)
Theorem pool_init_shares w pid t key fresh :
  pool_ok w -> procs w !! pid = Some t -> is_key key -> objs w !! fresh = None -> kaddr fresh ->
  exists h w' a o, pool_init w pid key fresh = Ok (h, w') /\ pool_ok w' /\
    a = default fresh (stored (keymap w) key) /\ stored (keymap w') key = Some a /\
    pool_get w' h = Some a /\ objs w' !! a = Some o /\ handle o = h /\ ref_count o = Z.of_nat (refs w' a) /\
    (exists t', procs w' !! pid = Some t' /\ registered a t' = true).
Proof.
  intros Hok Ht Hk Hf Hka. destruct (ok_keymap w Hok) as (path & Hp & _ & H2).
  unfold pool_init. rewrite (lookup_run (keymap w) path) by (apply Hp || done). cbn [obind].
  assert (Hfin : forall w1 a o1, pool_ok w1 -> procs w1 = procs w -> objs w1 !! a = Some o1 ->
    stored (keymap w1) key = Some a ->
    exists h w' o, ('(_, w2) <- register_kernel_object w1 pid a ;; o <- or_fault (objs w2 !! a) ;; Ok (handle o, w2)) = Ok (h, w') /\
      pool_ok w' /\ stored (keymap w') key = Some a /\ pool_get w' h = Some a /\ objs w' !! a = Some o /\ handle o = h /\
      ref_count o = Z.of_nat (refs w' a) /\ (exists t', procs w' !! pid = Some t' /\ registered a t' = true)).
  { intros w1 a o1 Hok1 Hp1 Ha1 Hs1. rewrite <- Hp1 in Ht.
    destruct (register_spec w1 pid t a o1 Hok1 Ht Ha1) as (w2 & o2 & -> & Hok2 & Ha2 & Hh2 & Htab & Hkm & _ & t' & Hp2 & Hr2).
    cbn [obind]. rewrite Ha2. cbn [or_fault obind]. exists (handle o2), w2, o2. split; [done|]. split; [done|].
    split; [by rewrite Hkm|]. split.
    { pose proof (ok_handle w2 Hok2 a o2 Ha2) as Hh. unfold pool_get. rewrite Hh.
      destruct (Nat.leb_spec (length (table w2)) (handle o2)); [|done]. apply lookup_lt_Some in Hh. lia. }
    split; [done|]. split; [done|]. split; [by apply (ok_refs w2 Hok2)|].
    exists t'. rewrite Hp2, list_lookup_insert_eq by (by eapply lookup_lt_Some). done. }
  destruct (stored (keymap w) key) as [a|] eqn:Hs; cbn [default id].
  - destruct (H2 key a Hk Hs) as (o1 & Ha1 & _). cbn [obind].
    destruct (Hfin w a o1 Hok eq_refl Ha1 Hs) as (h & w' & o & E & H). exists h, w', a, o.
    split; [exact E|]. destruct H as (A & B & C). split; [exact A|]. split; [done|]. exact (conj B C).
  - destruct (insert_spec (keymap w) path key (Some fresh) Hp Hk) as [Hgood _].
    destruct (Hgood (or_introl Hs)) as (i & km & p' & E & _). rewrite bool_decide_eq_true_2 in E by done.
    rewrite E. cbn [obind]. destruct (pool_ok_create w key fresh _ km Hok Hk Hf Hka Hs E) as [Hok1 Hs1].
    destruct (Hfin _ fresh (MkObj 0 (length (table w)) i) Hok1 eq_refl
      (lookup_insert_eq (objs w) fresh _) Hs1) as (h & w' & o & E2 & H).
    exists h, w', fresh, o. split; [exact E2|]. destruct H as (A & B & C). split; [exact A|]. split; [done|]. exact (conj B C).
Qed.

(** closing a handle the process holds gives up its reference, and the last
    one frees the object and clears its handle. *)
Theorem pool_close_releases w pid t h a :
  pool_ok w -> procs w !! pid = Some t -> pool_get w h = Some a -> registered a t = true ->
  exists w', pool_close w pid h = Ok w' /\ pool_ok w' /\ S (refs w' a) = refs w a /\
    (refs w a = 1%nat -> objs w' !! a = None /\ pool_get w' h = None) /\
    (refs w a <> 1%nat -> is_Some (objs w' !! a) /\ pool_get w' h = Some a).
Proof.
  intros Hok Ht Hg Hr. unfold pool_close. rewrite Hg. unfold pool_get in *.
  destruct (Nat.leb_spec (length (table w)) h) as [|Hlt]; [done|].
  destruct (table w !! h) as [[b|]|] eqn:Hb; cbn [default id] in Hg; [|done|done]. injection Hg as ->.
  destruct (ok_table w Hok h a Hb) as (o & Ha & Hh).
  destruct (unregister_spec w pid t a o Hok Ht Ha Hr) as (w' & -> & Hok' & _ & Hlast & Hmore & _ & Hrefs).
  cbn [obind]. exists w'. split; [done|]. split; [done|]. split; [done|]. subst h. split.
  - intros H1. destruct (Hlast H1) as [Hn ->]. split; [done|]. rewrite length_insert, list_lookup_insert_eq by done.
    by destruct (length (table w) <=? handle o)%nat.
  - intros H1. destruct (Hmore H1) as [Hs ->]. split; [done|]. rewrite Hb.
    destruct (Nat.leb_spec (length (table w)) (handle o)); [lia|done].
Qed.

(** closing twice takes two references: when two processes hold an object,
    the second close by the same process frees it although the other process
    still has it registered. *)
Theorem pool_close_twice_frees w pid t h a :
  pool_ok w -> procs w !! pid = Some t -> pool_get w h = Some a -> registered a t = true -> refs w a = 2%nat ->
  exists w1 w2, pool_close w pid h = Ok w1 /\ pool_close w1 pid h = Ok w2 /\ objs w2 !! a = None /\ refs w2 a = 1%nat.
Proof.
  intros Hok Ht Hg Hr H2. unfold pool_get in Hg. destruct (Nat.leb_spec (length (table w)) h) as [|Hlt]; [done|].
  destruct (table w !! h) as [[b|]|] eqn:Hb; cbn [default id] in Hg; [|done|done]. injection Hg as ->.
  destruct (ok_table w Hok h a Hb) as (o & Ha & Hh).
  destruct (unregister_spec w pid t a o Hok Ht Ha Hr)
    as (w1 & E1 & Hok1 & _ & _ & Hmore & (t1 & Hp1 & (path & Hpath) & Hw1 & Hn) & Hrefs).
  destruct (Hmore ltac:(lia)) as [[o1 Ha1] Htab].
  assert (Hg1 : pool_get w1 h = Some a /\ pool_get w h = Some a).
  { unfold pool_get. rewrite Htab, Hb. destruct (Nat.leb_spec (length (table w)) h); [lia|done]. }
  destruct Hg1 as [Hg1 Hg0]. unfold pool_close. rewrite Hg0, E1. cbn [obind].
  unfold unregister_kernel_object.
  assert (Ht1 : procs w1 !! pid = Some t1) by (rewrite Hp1; apply list_lookup_insert_eq; by eapply lookup_lt_Some).
  destruct (remove_spec t1 path (obj2key a) Hpath (obj2key_key a)) as (t2 & E2 & _ & _ & Hst2).
  rewrite bool_decide_eq_true_2 in E2 by done. exists w1.
  rewrite Hg1, Ht1. cbn [or_fault obind]. rewrite E2. cbn [obind]. unfold on_process_unregister.
  cbn [objs set_procs]. rewrite Ha1. cbn [or_fault obind]. rewrite (ok_refs w1 Hok1 a o1 Ha1).
  replace (refs w1 a) with 1%nat by lia. change (u64 (Z.of_nat 1 - 1)) with 0. cbn [Z.eqb].
  unfold pool_remove. cbn [objs set_objs]. rewrite lookup_insert_eq. cbn [or_fault obind handle table set_objs set_procs].
  pose proof (lookup_lt_Some _ _ _ (ok_handle w1 Hok1 a o1 Ha1)).
  destruct (Nat.leb_spec (length (table w1)) (handle o1)); [lia|]. cbn [obind].
  eexists. split; [reflexivity|]. split; [reflexivity|]. cbn. split; [apply lookup_delete_eq|].
  unfold refs. cbn [procs]. pose proof (refs_self w1 pid t1 t2 Ht1 a None Hst2) as Hrs.
  unfold upd_procs in Hrs. unfold registered at 2 in Hrs.
  rewrite Hn, bool_decide_eq_false_2, decide_False in Hrs by done. lia.
Qed.

(** ** Concrete pools *)

Definition ex_empty_world : world := MkWorld ∅ TrieLookup [] [TrieLookup; TrieLookup].
Definition ex_obj : Z := 0xffffffc050800080.

Lemma ex_empty_ok : pool_ok ex_empty_world.
Proof.
  destruct (trie_empty (V := Z)) as [(path & Hp) Hs].
  assert (Hno : forall a (o : IdObject), (∅ : gmap Z IdObject) !! a = Some o -> False) by (intros a o E; by rewrite lookup_empty in E).
  split; cbn [objs procs table keymap ex_empty_world].
  - repeat constructor; by exists path.
  - intros a o E. by apply Hno in E.
  - intros a o E. by apply Hno in E.
  - intros t key a Ht Hk E. apply list_elem_of_In in Ht as [<-|[<-|[]]]; rewrite Hs in E by done; by rewrite lookup_empty in E.
  - intros a o E. by apply Hno in E.
  - intros h a Hh. by rewrite lookup_nil in Hh.
  - exists path. split; [done|]. split; [intros a o E; by apply Hno in E|].
    intros key a Hk E. rewrite Hs in E by done. by rewrite lookup_empty in E.
  - simpl. lia.
Qed.

Lemma pool_init_shares_witness :
  exists h w' a o, pool_init ex_empty_world 0 77 ex_obj = Ok (h, w') /\ pool_get w' h = Some a /\ objs w' !! a = Some o /\
    ref_count o = Z.of_nat (refs w' a).
Proof.
  destruct (pool_init_shares ex_empty_world 0 TrieLookup 77 ex_obj ex_empty_ok) as (h & w' & a & o & H1 & _ & _ & _ & H2 & H3 & _ & H4 & _);
    [reflexivity | unfold is_key; lia | reflexivity | unfold kaddr, ex_obj; lia |].
  exists h, w', a, o. auto.
Defined.

(** A world in which both processes hold the object with key 77. *)
Definition ex_created : world :=
  match insert TrieLookup 77 (Some ex_obj) with
  | Ok (idx, km) => MkWorld (<[ex_obj := MkObj 0 0 idx]> ∅) km [Some ex_obj] [TrieLookup; TrieLookup]
  | _ => ex_empty_world
  end.
Definition then_register (w : world) (pid : nat) : world :=
  match register_kernel_object w pid ex_obj with Ok (_, w') => w' | _ => w end.
Definition ex_shared : world := then_register (then_register ex_created 0) 1.

Lemma ex_created_ok : pool_ok ex_created.
Proof.
  destruct (insert TrieLookup 77 (Some ex_obj)) as [[idx km]| | |] eqn:E; try (vm_compute in E; discriminate).
  unfold ex_created. rewrite E.
  apply (pool_ok_create ex_empty_world 77 ex_obj idx km ex_empty_ok); done.
Qed.

Lemma then_register_ok w pid t o :
  pool_ok w -> procs w !! pid = Some t -> objs w !! ex_obj = Some o -> pool_ok (then_register w pid).
Proof.
  intros Hok Ht Ho. destruct (register_spec w pid t ex_obj o Hok Ht Ho) as (w' & o' & E & Hok' & _).
  unfold then_register. by rewrite E.
Qed.

Lemma ex_shared_ok : pool_ok ex_shared.
Proof.
  eapply then_register_ok; [eapply then_register_ok; [apply ex_created_ok|..]|..]; vm_compute; reflexivity.
Qed.

Definition ex_proc1 : list (Item Z) := default [] (procs ex_shared !! 1%nat).

Lemma pool_close_releases_witness :
  exists w', pool_close ex_shared 1 0 = Ok w' /\ S (refs w' ex_obj) = 2%nat /\ pool_get w' 0 = Some ex_obj.
Proof.
  destruct (pool_close_releases ex_shared 1 ex_proc1 0 ex_obj ex_shared_ok) as (w' & H1 & _ & H2 & _ & H3);
    [vm_compute; reflexivity | vm_compute; reflexivity | vm_compute; reflexivity |].
  assert (refs ex_shared ex_obj = 2%nat) as Hr by (vm_compute; reflexivity).
  exists w'. split; [exact H1|]. rewrite Hr in *. split; [exact H2|]. apply H3. discriminate.
Defined.

Lemma pool_close_twice_frees_witness :
  exists w1 w2, pool_close ex_shared 1 0 = Ok w1 /\ pool_close w1 1 0 = Ok w2 /\ objs w2 !! ex_obj = None /\ refs w2 ex_obj = 1%nat.
Proof.
  apply (pool_close_twice_frees ex_shared 1 ex_proc1 0 ex_obj ex_shared_ok); vm_compute; reflexivity.
Defined.
