(* ===== verification/BlockLayer.v ===== *)
(** The interface between the block cache (src/fs/io.cpp) and the file system
    built on it (src/fs/fs.cpp, src/fs/file.cpp): [struct Block] of
    src/fs/fs.hpp with what its users rely on.

    A [Block] is a pointer into a cache slot, so it stays valid only while the
    slot is not replaced: [bheld s h id n] states that handle [h] still points at
    block [id] and survives [n] more look-ups.  Data stored through a handle is
    visible at once, but it is kept only once [update] has been called; the
    handles with such stores are the index of [binv]. *)

From Stdlib Require Import ZArith Lia List.
From stdpp Require Import base numbers list gmap.
From S2P Require Import Prelude.

Local Open Scope Z_scope.

Definition BLOCK_SIZE : Z := 4096.
Definition BLOCK_START : Z := 128 * (1024 * 1024).
Definition BLOCK_END : Z := 512 * (1024 * 1024).
Definition MAX_BLOCK_NUM : Z := (BLOCK_END - BLOCK_START) / BLOCK_SIZE.

Definition is_block (id : Z) : Prop := 0 <= id < MAX_BLOCK_NUM.

Class BlockLayer (S : Type) := {
  bnew : S -> Z -> outcome (nat * S);
  bdata : S -> nat -> outcome (list Z);
  bstore : S -> nat -> list Z -> outcome S;
  bupdate : S -> nat -> outcome S;
  binv : S -> gset nat -> Prop;
  bview : S -> Z -> list Z;
  bheld : S -> nat -> Z -> nat -> Prop;
  bview_length : forall s P id, binv s P -> is_block id -> length (bview s id) = 4096%nat;
  bnew_spec : forall s P id, binv s P -> is_block id ->
    (forall h, h ∈ P -> exists b n, is_block b /\ bheld s h b (Datatypes.S n)) ->
    exists h s', bnew s id = Ok (h, s') /\ binv s' P /\ bheld s' h id 63 /\
      (forall b, is_block b -> bview s' b = bview s b) /\
      (forall k b n, is_block b -> bheld s k b (Datatypes.S n) -> bheld s' k b n);
  bdata_spec : forall s P h id n, binv s P -> bheld s h id n -> is_block id -> bdata s h = Ok (bview s id);
  bstore_spec : forall s P h id n b, binv s P -> bheld s h id n -> is_block id -> length b = 4096%nat ->
    exists s', bstore s h b = Ok s' /\ binv s' ({[h]} ∪ P) /\
      (forall k, is_block k -> bview s' k = if decide (k = id) then b else bview s k) /\
      (forall k i n, bheld s k i n -> bheld s' k i n);
  bupdate_spec : forall s P h id n, binv s P -> bheld s h id n -> is_block id ->
    exists s', bupdate s h = Ok s' /\ binv s' (P ∖ {[h]}) /\
      (forall k, is_block k -> bview s' k = bview s k) /\
      (forall k i n, bheld s k i n -> bheld s' k i n)
}.

(** The only pending store has been updated. *)
Lemma pending_done (h : nat) (P : gset nat) : h ∉ P -> ({[h]} ∪ P) ∖ {[h]} = P.
Proof. set_solver. Qed.
Lemma pending_twice (h : nat) (P : gset nat) : {[h]} ∪ ({[h]} ∪ P) = {[h]} ∪ P.
Proof. set_solver. Qed.
