(* ===== verification/Cache.v ===== *)
(** The block cache of src/fs/io.cpp: 64 blocks of 4 KiB in front of the SD card,
    replaced least recently used first, written through or written back.

    The SD card is reached through the firmware; [SDCard] states what io.cpp
    relies on.  The abstract state of cache and card is one block per number,
    [view]; the theorems state that looking a block up never changes it, that a
    slot stays in place for the next 62 look-ups, and what reaches the card. *)

From Stdlib Require Import ZArith Lia List.
From stdpp Require Import base numbers list gmap.
From S2P Require Import Prelude BlockLayer.

Local Open Scope Z_scope.

Definition SECTOR_SIZE : Z := 512.
Definition CACHE_SIZE : nat := 64.

(** * The SD card, as bios_sd_read and bios_sd_write of eight sectors *)

Class SDCard (D : Type) := {
  sd_read : D -> Z -> list Z;
  sd_write : D -> Z -> list Z -> D;
  sd_read_length : forall d s, length (sd_read d s) = 4096%nat;
  sd_read_write : forall d s b, length b = 4096%nat -> sd_read (sd_write d s b) s = b;
  sd_read_write_other : forall d s s' b, s + 8 <= s' \/ s' + 8 <= s -> sd_read (sd_write d s b) s' = sd_read d s'
}.

(** * State *)

(** cache_data[i], cache_blockid[i], cache_dirty[i], cache_age[i] *)
Record slot := MkSlot { data : list Z; blockid : Z; dirty : bool; cage : Z }.

Record cache (D : Type) := MkCache {
  age : Z;
  slots : list slot;
  policy_writethrough : bool;
  policy_writeback_interval : Z;
  last_time : Z;
  card : D
}.
Arguments MkCache {D}. Arguments age {D}. Arguments slots {D}. Arguments policy_writethrough {D}.
Arguments policy_writeback_interval {D}. Arguments last_time {D}. Arguments card {D}.

Section Code.
Context {D : Type} `{SDCard D}.

Definition set_slots (c : cache D) (a : Z) (s : list slot) (d : D) : cache D :=
  MkCache a s (policy_writethrough c) (policy_writeback_interval c) (last_time c) d.

(** The sector of a block; computed in 32 bits. *)
Definition sector_of (blockid : Z) : Z := u32 (BLOCK_START / SECTOR_SIZE + u32 (blockid * 8)).

(** void read_block_direct(void *dest, uint32_t blockid): the cache only passes
    page-aligned kernel addresses, which kalloc guarantees. *)
Definition read_block_direct (d : D) (blockid : Z) : outcome (list Z) :=
  let sector := sector_of blockid in
  assert_ (sector <? BLOCK_END / SECTOR_SIZE) ;;
  Ok (sd_read d sector).

(** void write_block_direct(const void *src, uint32_t blockid) *)
Definition write_block_direct (d : D) (src : list Z) (blockid : Z) : outcome D :=
  let sector := sector_of blockid in
  assert_ (sector <? BLOCK_END / SECTOR_SIZE) ;;
  Ok (sd_write d sector src).

(** void cache_init(): every slot has its buffer, with whatever it contains. *)
Definition cache_init (c : cache D) : cache D :=
  set_slots c (age c) (map (fun s => MkSlot (data s) (2 ^ 32 - 1) false (-1)) (slots c)) (card c).

(** The first loop of cache_find. *)
Fixpoint find_slot (l : list slot) (id : Z) : option nat :=
  match l with
  | [] => None
  | s :: l' => if blockid s =? id then Some 0%nat else S <$> find_slot l' id
  end.

(** The second loop: [selected] and its age are carried along. *)
Fixpoint lru_loop (l : list slot) (i selected : nat) (best : Z) : nat :=
  match l with
  | [] => selected
  | s :: l' => if cage s <? best then lru_loop l' (S i) i (cage s) else lru_loop l' (S i) selected best
  end.
Definition lru (l : list slot) : nat :=
  match l with [] => 0%nat | s :: _ => lru_loop l 0 0 (cage s) end.

(** int cache_find(uint32_t blockid) *)
Definition cache_find (c : cache D) (id : Z) : outcome (nat * cache D) :=
  match find_slot (slots c) id with
  | Some i =>
      s <- or_fault (slots c !! i) ;;
      Ok (i, set_slots c (age c + 1) (<[i := MkSlot (data s) (blockid s) (dirty s) (age c)]> (slots c)) (card c))
  | None =>
      let selected := lru (slots c) in
      s <- or_fault (slots c !! selected) ;;
      d <- (if dirty s then write_block_direct (card c) (data s) (blockid s) else Ok (card c)) ;;
      b <- read_block_direct d id ;;
      Ok (selected, set_slots c (age c + 1) (<[selected := MkSlot b id false (age c)]> (slots c)) d)
  end.

(** Block::Block(int blockid): the handle is the number of the slot. *)
Definition Block (c : cache D) (id : Z) : outcome (nat * cache D) := cache_find c (u32 id).

(** Reading and writing through [Block::data], a pointer into the slot. *)
Definition block_data (c : cache D) (cacheid : nat) : outcome (list Z) :=
  s <- or_fault (slots c !! cacheid) ;; Ok (data s).
Definition block_store (c : cache D) (cacheid : nat) (b : list Z) : outcome (cache D) :=
  s <- or_fault (slots c !! cacheid) ;;
  Ok (set_slots c (age c) (<[cacheid := MkSlot b (blockid s) (dirty s) (cage s)]> (slots c)) (card c)).

(** void Block::update() *)
Definition update (c : cache D) (cacheid : nat) : outcome (cache D) :=
  s <- or_fault (slots c !! cacheid) ;;
  if policy_writethrough c then
    d <- write_block_direct (card c) (data s) (blockid s) ;;
    Ok (set_slots c (age c) (slots c) d)
  else Ok (set_slots c (age c) (<[cacheid := MkSlot (data s) (blockid s) true (cage s)]> (slots c)) (card c)).

(** void cache_writeback() *)
Fixpoint writeback_loop (l : list slot) (d : D) : outcome (list slot * D) :=
  match l with
  | [] => Ok ([], d)
  | s :: l' =>
      '(s, d) <- (if dirty s then
                    d <- write_block_direct d (data s) (blockid s) ;;
                    Ok (MkSlot (data s) (blockid s) false (cage s), d)
                  else Ok (s, d)) ;;
      '(l', d) <- writeback_loop l' d ;;
      Ok (s :: l', d)
  end.
Definition cache_writeback (c : cache D) : outcome (cache D) :=
  '(l, d) <- writeback_loop (slots c) (card c) ;; Ok (set_slots c (age c) l d).

(** void cache_scan_timer(): [timer] is get_timer(); [free] tells whether
    try_lock succeeds. *)
Definition cache_scan_timer (c : cache D) (timer : Z) (free : bool) : outcome (cache D) :=
  if policy_writethrough c then Ok c
  else if negb free then Ok c
  else if u64 (last_time c + policy_writeback_interval c) <? timer then
    cache_writeback (MkCache (age c) (slots c) (policy_writethrough c) (policy_writeback_interval c) timer (card c))
  else Ok c.

(** void cache_set_policy(int policy_seconds) *)
Definition cache_set_policy (c : cache D) (policy_seconds : Z) : outcome (cache D) :=
  if policy_seconds =? -1 then
    cache_writeback (MkCache (age c) (slots c) true 0 (last_time c) (card c))
  else if 0 <=? policy_seconds then
    Ok (MkCache (age c) (slots c) false policy_seconds (last_time c) (card c))
  else Ok c.

(** * The abstract state *)

Definition on_card (d : D) (id : Z) : list Z := sd_read d (sector_of id).

(** The block a reader sees. *)
Definition view (c : cache D) (id : Z) : list Z :=
  match find_slot (slots c) id with
  | Some i => match slots c !! i with Some s => data s | None => [] end
  | None => on_card (card c) id
  end.

(** [P] holds the slots whose data was changed through a [Block] that has not
    been updated yet. *)
Record cache_inv (c : cache D) (P : gset nat) : Prop := {
  inv_length : length (slots c) = CACHE_SIZE;
  inv_ids : Forall (fun s => (is_block (blockid s) /\ 0 <= cage s) \/ (blockid s = 2 ^ 32 - 1 /\ cage s = -1 /\ dirty s = false)) (slots c);
  inv_data : Forall (fun s => length (data s) = 4096%nat) (slots c);
  inv_unique : forall i j s t, slots c !! i = Some s -> slots c !! j = Some t -> is_block (blockid s) ->
    blockid s = blockid t \/ cage s = cage t -> i = j;
  inv_age : Forall (fun s => cage s < age c) (slots c) /\ 0 <= age c;
  (** what is neither pending nor marked dirty is on the card *)
  inv_clean : forall i s, slots c !! i = Some s -> i ∉ P -> is_block (blockid s) -> dirty s = false ->
    data s = on_card (card c) (blockid s);
  inv_through : policy_writethrough c = true -> Forall (fun s => dirty s = false) (slots c)
}.

(** Slot [i] holds block [id] and survives the next [n] look-ups. *)
Definition held (c : cache D) (i : nat) (id : Z) (n : nat) : Prop :=
  exists s, slots c !! i = Some s /\ blockid s = id /\ age c - cage s + Z.of_nat n <= 64.

(** * Lemmas *)

Implicit Types (c : cache D) (d : D) (P : gset nat).

Lemma sector_of_block id : is_block id -> sector_of id = 262144 + 8 * id /\ sector_of id < BLOCK_END / SECTOR_SIZE.
Proof.
  intros Hid. unfold is_block in Hid. change MAX_BLOCK_NUM with 98304 in Hid. unfold sector_of.
  change (BLOCK_START / SECTOR_SIZE) with 262144. change (BLOCK_END / SECTOR_SIZE) with 1048576.
  rewrite (u32_small (id * 8)), u32_small by lia. lia.
Qed.

Lemma not_a_block : ~ is_block (2 ^ 32 - 1).
Proof. unfold is_block. change MAX_BLOCK_NUM with 98304. lia. Qed.

Lemma on_card_write d id id' b :
  is_block id -> is_block id' -> length b = 4096%nat ->
  on_card (sd_write d (sector_of id) b) id' = if decide (id' = id) then b else on_card d id'.
Proof.
  intros Hid Hid' Hb. unfold on_card. destruct (decide (id' = id)) as [->|Hne]; [by apply sd_read_write|].
  apply sd_read_write_other. destruct (sector_of_block id Hid) as [-> _], (sector_of_block id' Hid') as [-> _]. lia.
Qed.

Lemma write_direct_ok d b id : is_block id -> write_block_direct d b id = Ok (sd_write d (sector_of id) b).
Proof.
  intros Hid. destruct (sector_of_block id Hid) as [_ Hlt]. unfold write_block_direct.
  destruct (Z.ltb_spec (sector_of id) (BLOCK_END / SECTOR_SIZE)); [done|lia].
Qed.

Lemma read_direct_ok d id : is_block id -> read_block_direct d id = Ok (on_card d id).
Proof.
  intros Hid. destruct (sector_of_block id Hid) as [_ Hlt]. unfold read_block_direct.
  destruct (Z.ltb_spec (sector_of id) (BLOCK_END / SECTOR_SIZE)); [done|lia].
Qed.

Lemma find_slot_Some l id i : find_slot l id = Some i -> exists s, l !! i = Some s /\ blockid s = id.
Proof.
  revert i. induction l as [|s l IH]; intros i E; cbn [find_slot] in E; [done|].
  destruct (Z.eqb_spec (blockid s) id); [injection E as <-; eauto|].
  destruct (find_slot l id) as [j|]; [|done]. injection E as <-. apply IH. done.
Qed.

Lemma find_slot_None l id i s : find_slot l id = None -> l !! i = Some s -> blockid s <> id.
Proof.
  revert i. induction l as [|t l IH]; intros i E Hi; cbn [find_slot] in E; [by rewrite lookup_nil in Hi|].
  destruct (Z.eqb_spec (blockid t) id); [done|]. destruct (find_slot l id); [done|].
  destruct i as [|i]; [injection Hi as <-; done | by apply (IH i)].
Qed.

Lemma lru_loop_spec l : forall pre i selected best s,
  i = length pre -> (pre ++ l) !! selected = Some s -> cage s = best ->
  (forall t, t ∈ pre -> best <= cage t) ->
  exists s', (pre ++ l) !! lru_loop l i selected best = Some s' /\ forall t, t ∈ pre ++ l -> cage s' <= cage t.
Proof.
  induction l as [|t l IH]; intros pre i selected best s Hi Hs Hb Hmin; cbn [lru_loop].
  - exists s. split; [done|]. rewrite app_nil_r. intros u Hu. rewrite Hb. auto.
  - assert (Hmid : (pre ++ t :: l) !! i = Some t) by (subst i; by rewrite lookup_app_r, Nat.sub_diag by lia).
    replace (pre ++ t :: l) with ((pre ++ [t]) ++ l) in * by (by rewrite <- app_assoc).
    assert (Hlen : S i = length (pre ++ [t])) by (rewrite length_app; simpl; lia).
    destruct (Z.ltb_spec (cage t) best).
    + apply (IH (pre ++ [t]) (S i) i (cage t) t); auto. intros u Hu. apply elem_of_app in Hu as [Hu|Hu].
      * specialize (Hmin u Hu). lia.
      * apply list_elem_of_singleton in Hu as ->. lia.
    + apply (IH (pre ++ [t]) (S i) selected best s); auto. intros u Hu. apply elem_of_app in Hu as [Hu|Hu]; [auto|].
      apply list_elem_of_singleton in Hu as ->. lia.
Qed.

Lemma lru_spec l : l <> [] -> exists s, l !! lru l = Some s /\ forall t, t ∈ l -> cage s <= cage t.
Proof.
  destruct l as [|s l]; [done|]. intros _. unfold lru.
  apply (lru_loop_spec (s :: l) [] 0 0 (cage s) s); [done | done | done |]. intros t Ht. by apply elem_of_nil in Ht.
Qed.

(** ** The view *)

Lemma view_slot c P i s : cache_inv c P -> slots c !! i = Some s -> is_block (blockid s) -> view c (blockid s) = data s.
Proof.
  intros Hc Hi Hs. unfold view. destruct (find_slot (slots c) (blockid s)) as [j|] eqn:E.
  - apply find_slot_Some in E as (t & Hj & Ht). rewrite Hj.
    assert (i = j) as <- by (eapply (inv_unique c P Hc i j s t); auto). congruence.
  - exfalso. by apply (find_slot_None _ _ _ _ E Hi).
Qed.

Lemma view_card c id : (forall i s, slots c !! i = Some s -> blockid s <> id) -> view c id = on_card (card c) id.
Proof.
  intros Hno. unfold view. destruct (find_slot (slots c) id) as [j|] eqn:E; [|done].
  apply find_slot_Some in E as (t & Hj & Ht). by destruct (Hno j t Hj).
Qed.

Lemma view_cases c id :
  (exists i s, slots c !! i = Some s /\ blockid s = id) \/ (forall i s, slots c !! i = Some s -> blockid s <> id).
Proof.
  destruct (find_slot (slots c) id) as [j|] eqn:E; [left; apply find_slot_Some in E; eauto|].
  right. intros i s Hi. by eapply find_slot_None.
Qed.

Lemma view_length c P id : cache_inv c P -> length (view c id) = 4096%nat.
Proof.
  intros Hc. unfold view. destruct (find_slot (slots c) id) as [j|] eqn:E; [|apply sd_read_length].
  apply find_slot_Some in E as (s & Hj & _). rewrite Hj.
  pose proof (inv_data c P Hc) as Hd. rewrite Forall_lookup in Hd. by eapply Hd.
Qed.

(** Two states with the same blocks in the same slots and the same card show the same. *)
Lemma view_ext c c' P P' :
  card c' = card c -> (forall i, (blockid <$> slots c' !! i) = (blockid <$> slots c !! i)) ->
  (forall i s s', slots c !! i = Some s -> slots c' !! i = Some s' -> data s' = data s) ->
  cache_inv c P -> cache_inv c' P' -> forall id, is_block id -> view c' id = view c id.
Proof.
  intros Hcard Hids Hdata Hc Hc' id Hid. destruct (view_cases c id) as [(i & s & Hi & <-)|Hno].
  - pose proof (Hids i) as E. rewrite Hi in E. cbn in E. destruct (slots c' !! i) as [s'|] eqn:Hi'; [|done].
    cbn in E. injection E as E. rewrite (view_slot c P i s) by done. rewrite <- E in Hid |- *.
    rewrite (view_slot c' P' i s') by done. by eapply Hdata.
  - rewrite (view_card c) by done. rewrite <- Hcard. apply view_card. intros i s' Hi'.
    pose proof (Hids i) as E. rewrite Hi' in E. cbn in E. destruct (slots c !! i) as [s|] eqn:Hi; [|done].
    cbn in E. injection E as E. rewrite E. eauto.
Qed.

Lemma inv_slot c P i s : cache_inv c P -> slots c !! i = Some s -> length (data s) = 4096%nat /\ cage s < age c.
Proof.
  intros Hc Hi. pose proof (inv_data c P Hc) as Hd. pose proof (inv_age c P Hc) as [Ha _].
  rewrite Forall_lookup in Hd, Ha. eauto.
Qed.

Lemma insert_cases (l : list slot) i s' j t : <[i := s']> l !! j = Some t ->
  (j = i /\ t = s') \/ (j <> i /\ l !! j = Some t).
Proof.
  intros Hj. destruct (decide (i = j)) as [<-|Hne].
  - left. split; [done|]. destruct (decide (i < length l)%nat) as [Hlt|Hge].
    + rewrite list_lookup_insert_eq in Hj by done. congruence.
    + apply lookup_lt_Some in Hj. rewrite length_insert in Hj. lia.
  - right. rewrite list_lookup_insert_ne in Hj by done. auto.
Qed.

(** Replacing one slot by one that is newer than all others. *)
Lemma inv_touch c P i s s' d :
  cache_inv c P -> slots c !! i = Some s -> is_block (blockid s') -> length (data s') = 4096%nat -> cage s' = age c ->
  (forall j t, j <> i -> slots c !! j = Some t -> blockid t <> blockid s') ->
  (i ∉ P -> dirty s' = false -> data s' = on_card d (blockid s')) ->
  (forall j t, j <> i -> slots c !! j = Some t -> is_block (blockid t) -> on_card d (blockid t) = on_card (card c) (blockid t)) ->
  (dirty s = false -> dirty s' = false) ->
  cache_inv (set_slots c (age c + 1) (<[i := s']> (slots c)) d) P.
Proof.
  intros Hc Hi Hb Hlen Hage Hids Hclean Hcard Hdirty. pose proof (lookup_lt_Some _ _ _ Hi) as Hlt.
  pose proof (inv_age c P Hc) as [Hages Hage0].
  split; cbn [slots set_slots age card policy_writethrough].
  - rewrite length_insert. apply Hc.
  - apply Forall_insert; [apply Hc|]. left. split; [done|lia].
  - apply Forall_insert; [apply Hc|done].
  - intros j k t u Hj Hk Ht Heq. apply insert_cases in Hj as [[-> ->]|[Hji Hj]], Hk as [[-> ->]|[Hki Hk]]; [done| | |].
    + exfalso. destruct Heq as [E|E]; [by apply (Hids k u Hki Hk)|].
      destruct (inv_slot c P k u Hc Hk). lia.
    + exfalso. destruct Heq as [E|E]; [by apply (Hids j t Hji Hj)|].
      destruct (inv_slot c P j t Hc Hj). lia.
    + by eapply (inv_unique c P Hc).
  - split; [|lia]. apply Forall_insert; [|lia]. eapply Forall_impl; [exact Hages|]. intros t Ht. simpl in Ht. lia.
  - intros j t Hj HP Ht Hd. apply insert_cases in Hj as [[-> ->]|[Hji Hj]]; [auto|].
    rewrite (Hcard j t) by done. by eapply (inv_clean c P Hc).
  - intros Hp. pose proof (inv_through c P Hc Hp) as Hf. apply Forall_insert; [done|]. rewrite Forall_lookup in Hf. eauto.
Qed.

(** Fewer than 63 slots can be newer than one found at most 63 look-ups ago. *)
Lemma held_not_oldest c P i id n s : cache_inv c P -> held c i id (S n) -> is_block id -> slots c !! i = Some s ->
  exists j t, slots c !! j = Some t /\ cage t < cage s.
Proof.
  intros Hc (s' & Hi & Hid & Hgap) Hb Hs. assert (s' = s) as -> by congruence. subst id.
  assert (Hdec : (exists j t, slots c !! j = Some t /\ cage t < cage s) \/ (forall t, t ∈ slots c -> cage s <= cage t)).
  { destruct (decide (Exists (fun t => cage t < cage s) (slots c))) as [E|E].
    - left. apply Exists_exists in E as (t & Ht & Hlt). apply list_elem_of_lookup_1 in Ht as [j Hj]. eauto.
    - right. intros t Ht. apply Z.nlt_ge. intros Hlt. apply E, Exists_exists. eauto. }
  destruct Hdec as [?|Hall]; [done|exfalso].
  pose proof (inv_ids c P Hc) as Hids. rewrite Forall_lookup in Hids. pose proof (inv_age c P Hc) as [Hages _].
  assert (Hage0 : 0 <= cage s) by (destruct (Hids i s Hs) as [[_ ?]|(E & _)]; [done|]; rewrite E in Hb; by destruct not_a_block).
  assert (Hnd : NoDup (cage <$> slots c)).
  { apply NoDup_alt. intros j k a Hj Hk. apply list_lookup_fmap_Some in Hj as (t & -> & Hj). apply list_lookup_fmap_Some in Hk as (u & E & Hk).
    destruct (Hids j t Hj) as [[Ht _]|(_ & Ht & _)]; [by apply (inv_unique c P Hc j k t u Hj Hk Ht); auto|].
    pose proof (Hall t (list_elem_of_lookup_2 _ _ _ Hj)). lia. }
  assert (Hsub : (cage <$> slots c) ⊆+ seqZ (cage s) (age c - cage s)).
  { apply NoDup_submseteq; [done|]. intros a Ha. apply list_elem_of_fmap in Ha as (t & -> & Ht). apply elem_of_seqZ.
    specialize (Hall t Ht). rewrite Forall_forall in Hages. specialize (Hages t Ht). simpl in Hages. lia. }
  apply submseteq_length in Hsub. rewrite length_fmap, length_seqZ, (inv_length c P Hc) in Hsub. unfold CACHE_SIZE in Hsub. lia.
Qed.

(** ** Looking a block up *)

(** What a look-up promises: every block reads as before, the slot returned
    holds the block and is the newest one, and every other slot is untouched or,
    for the one slot that was replaced, was the oldest. *)
Record found c P (id : Z) (i : nat) (c' : cache D) : Prop := {
  found_inv : cache_inv c' P;
  found_view : forall b, is_block b -> view c' b = view c b;
  found_slot : exists s, slots c' !! i = Some s /\ blockid s = id /\ data s = view c id /\ cage s = age c;
  found_age : age c' = age c + 1;
  found_others : forall j, j <> i -> slots c' !! j = slots c !! j;
  found_oldest : forall s, slots c !! i = Some s -> blockid s <> id -> forall j t, slots c !! j = Some t -> cage s <= cage t;
  found_policy : policy_writethrough c' = policy_writethrough c
}.

Lemma find_hit c P i s id : cache_inv c P -> is_block id -> find_slot (slots c) id = Some i -> slots c !! i = Some s ->
  blockid s = id /\ found c P id i (set_slots c (age c + 1) (<[i := MkSlot (data s) (blockid s) (dirty s) (age c)]> (slots c)) (card c)).
Proof.
  intros Hc Hid E Hi. apply find_slot_Some in E as (s' & Hi' & Hs). assert (s' = s) as -> by congruence.
  split; [done|]. pose proof (lookup_lt_Some _ _ _ Hi) as Hlt. destruct (inv_slot c P i s Hc Hi) as [Hlen _].
  assert (Hc' : cache_inv (set_slots c (age c + 1) (<[i := MkSlot (data s) (blockid s) (dirty s) (age c)]> (slots c)) (card c)) P).
  { apply (inv_touch c P i s); auto; cbn [blockid data cage dirty].
    - by rewrite Hs.
    - intros j t Hne Hj Heq. apply Hne. symmetry. eapply (inv_unique c P Hc i j s t); auto. by rewrite Hs.
    - intros HP Hd. eapply (inv_clean c P Hc); eauto. by rewrite Hs. }
  split; [done| | |done| |congruence|done].
  - intros b Hb. eapply view_ext; eauto; cbn [slots set_slots].
    + intros j. destruct (decide (i = j)) as [<-|Hne]; [rewrite list_lookup_insert_eq by done; by rewrite Hi|].
      by rewrite list_lookup_insert_ne.
    + intros j t t' Hj Hj'. destruct (decide (i = j)) as [<-|Hne].
      * rewrite list_lookup_insert_eq in Hj' by done. injection Hj' as <-. cbn. congruence.
      * rewrite list_lookup_insert_ne in Hj' by done. congruence.
  - eexists. cbn [slots set_slots]. split; [by apply list_lookup_insert_eq|]. cbn. rewrite <- Hs.
    rewrite (view_slot c P i s); auto. by rewrite Hs.
  - intros j Hne. cbn. by apply list_lookup_insert_ne.
Qed.

(** Writing the replaced slot out, when it is dirty, changes no other block. *)
Lemma evict_card c P i s : cache_inv c P -> i ∉ P -> slots c !! i = Some s ->
  exists d, (if dirty s then write_block_direct (card c) (data s) (blockid s) else Ok (card c)) = Ok d /\
    (forall b, is_block b -> b <> blockid s -> on_card d b = on_card (card c) b) /\
    (is_block (blockid s) -> on_card d (blockid s) = data s).
Proof.
  intros Hc HP Hi. destruct (inv_slot c P i s Hc Hi) as [Hlen _].
  pose proof (inv_ids c P Hc) as Hids. rewrite Forall_lookup in Hids.
  destruct (dirty s) eqn:Hd.
  - destruct (Hids i s Hi) as [[Hb _]|(_ & _ & ?)]; [|congruence]. exists (sd_write (card c) (sector_of (blockid s)) (data s)).
    split; [by apply write_direct_ok|]. split; [intros b Hb' Hne | intros _]; rewrite on_card_write by done; by case_decide.
  - exists (card c). split; [done|]. split; [done|]. intros Hb. symmetry. by eapply (inv_clean c P Hc).
Qed.

Lemma find_miss c P id s d : cache_inv c P -> lru (slots c) ∉ P -> is_block id -> find_slot (slots c) id = None -> slots c !! lru (slots c) = Some s ->
  (forall t, t ∈ slots c -> cage s <= cage t) ->
  (forall b, is_block b -> b <> blockid s -> on_card d b = on_card (card c) b) ->
  (is_block (blockid s) -> on_card d (blockid s) = data s) ->
  found c P id (lru (slots c)) (set_slots c (age c + 1) (<[lru (slots c) := MkSlot (on_card d id) id false (age c)]> (slots c)) d).
Proof.
  intros Hc HP Hid E Hi Hmin Hother Hown. set (i := lru (slots c)) in *. clearbody i.
  pose proof (lookup_lt_Some _ _ _ Hi) as Hlt.
  assert (Hne : forall j t, slots c !! j = Some t -> blockid t <> id) by (intros j t; by apply find_slot_None).
  assert (Hkeep : forall j t, j <> i -> slots c !! j = Some t -> is_block (blockid t) -> on_card d (blockid t) = on_card (card c) (blockid t)).
  { intros j t Hji Hj Ht. apply Hother; [done|]. intros Heq. apply Hji. eapply (inv_unique c P Hc j i t s); auto. }
  assert (Hc' : cache_inv (set_slots c (age c + 1) (<[i := MkSlot (on_card d id) id false (age c)]> (slots c)) d) P).
  { apply (inv_touch c P i s); auto; cbn [blockid data cage dirty]; [apply sd_read_length|]. intros j t _. apply Hne. }
  assert (Hnew : on_card d id = view c id).
  { rewrite view_card by done. apply Hother; [done|]. intros Heq. by apply (Hne i s). }
  split; [done| | |done| | |done].
  - intros b Hb. destruct (decide (b = id)) as [->|Hbid].
    { rewrite <- Hnew. pose proof (view_slot _ P i (MkSlot (on_card d id) id false (age c)) Hc') as V. cbn [blockid data] in V.
      apply V; [by apply list_lookup_insert_eq|done]. }
    destruct (view_cases c b) as [(j & t & Hj & <-)|Hno].
    + rewrite (view_slot c P j t) by done. destruct (decide (j = i)) as [->|Hji].
      * assert (t = s) as -> by congruence. rewrite <- (Hown Hb). apply view_card. cbn [slots set_slots].
        intros k u Hk. destruct (decide (i = k)) as [<-|Hik].
        { rewrite list_lookup_insert_eq in Hk by done. injection Hk as <-. cbn. congruence. }
        rewrite list_lookup_insert_ne in Hk by done. intros Heq. apply Hik. eapply (inv_unique c P Hc i k s u); auto.
      * apply (view_slot _ P j t Hc'); [|done]. cbn. by rewrite list_lookup_insert_ne.
    + rewrite (view_card c) by done. rewrite <- Hother; [|done|intros Heq; by apply (Hno i s)]. apply view_card. cbn [slots set_slots].
      intros k u Hk. destruct (decide (i = k)) as [<-|Hik].
      { rewrite list_lookup_insert_eq in Hk by done. injection Hk as <-. cbn. congruence. }
      rewrite list_lookup_insert_ne in Hk by done. eauto.
  - eexists. cbn [slots set_slots]. split; [by apply list_lookup_insert_eq|]. done.
  - intros j Hji. cbn. by apply list_lookup_insert_ne.
  - intros s' Hs' _ j t Hj. assert (s' = s) as -> by congruence. apply Hmin. by eapply list_elem_of_lookup_2.
Qed.

Lemma cache_find_spec c P id : cache_inv c P -> is_block id ->
  (forall i, i ∈ P -> exists b n, is_block b /\ held c i b (S n)) ->
  exists i c', cache_find c id = Ok (i, c') /\ found c P id i c'.
Proof.
  intros Hc Hid HP. unfold cache_find. destruct (find_slot (slots c) id) as [i|] eqn:E.
  - destruct (find_slot_Some _ _ _ E) as (s & Hi & _). rewrite Hi. cbn [or_fault obind].
    exists i. eexists. split; [reflexivity|]. by apply find_hit.
  - assert (slots c <> []) as Hnil by (intros Hz; pose proof (inv_length c P Hc) as L; by rewrite Hz in L).
    destruct (lru_spec _ Hnil) as (s & Hi & Hmin). rewrite Hi. cbn [or_fault obind].
    assert (HnP : lru (slots c) ∉ P).
    { intros HinP. destruct (HP _ HinP) as (b & n & Hb & Hh). destruct (held_not_oldest c P _ b n s Hc Hh Hb Hi) as (j & t & Hj & Hlt).
      specialize (Hmin t (list_elem_of_lookup_2 _ _ _ Hj)). lia. }
    destruct (evict_card c P _ s Hc HnP Hi) as (d & Hd & Hother & Hown). rewrite Hd. cbn [obind].
    rewrite read_direct_ok by done. cbn [obind]. exists (lru (slots c)). eexists. split; [reflexivity|]. by apply (find_miss c P id s d).
Qed.

Lemma held_find c P id i c' j b n :
  cache_inv c P -> found c P id i c' -> is_block b -> held c j b (S n) -> held c' j b n.
Proof.
  intros Hc F Hb Hh. pose proof Hh as (s & Hj & Hs & Hgap). destruct (decide (j = i)) as [->|Hne].
  - destruct (found_slot _ _ _ _ _ F) as (s' & Hs' & Hid & _ & Hage). exists s'. split; [done|].
    rewrite (found_age _ _ _ _ _ F). destruct (decide (blockid s = id)) as [E|E].
    + split; [congruence|]. pose proof (inv_slot c P i s Hc Hj). lia.
    + exfalso. destruct (held_not_oldest c P i b n s Hc Hh Hb Hj) as (k & t & Hk & Hlt).
      pose proof (found_oldest _ _ _ _ _ F s Hj E k t Hk). lia.
  - exists s. rewrite (found_others _ _ _ _ _ F j) by done. rewrite (found_age _ _ _ _ _ F). split; [done|]. split; [done|lia].
Qed.

Lemma held_found c P id i c' : found c P id i c' -> held c' i id 63.
Proof.
  intros F. destruct (found_slot _ _ _ _ _ F) as (s & Hs & Hid & _ & Hage). exists s. split; [done|]. split; [done|].
  rewrite (found_age _ _ _ _ _ F). lia.
Qed.

(** ** Changing the data of a slot in place *)

Lemma inv_patch c P P' i s s' d :
  cache_inv c P -> slots c !! i = Some s -> is_block (blockid s) ->
  blockid s' = blockid s -> cage s' = cage s -> length (data s') = 4096%nat ->
  (policy_writethrough c = true -> dirty s' = false) ->
  (i ∉ P' -> dirty s' = false -> data s' = on_card d (blockid s)) ->
  (forall b, is_block b -> b <> blockid s -> on_card d b = on_card (card c) b) ->
  (forall j, j <> i -> j ∉ P' -> j ∉ P) ->
  cache_inv (set_slots c (age c) (<[i := s']> (slots c)) d) P'.
Proof.
  intros Hc Hi Hb Hid Hage Hlen Hpol Hclean Hcard HP.
  pose proof (inv_age c P Hc) as [Hages Hage0]. pose proof (inv_ids c P Hc) as Hids.
  split; cbn [slots set_slots age card policy_writethrough].
  - rewrite length_insert. apply Hc.
  - apply Forall_insert; [done|]. rewrite Hid, Hage. left. split; [done|]. rewrite Forall_lookup in Hids.
    destruct (Hids i s Hi) as [[_ ?]|(E & _)]; [done|]. rewrite E in Hb. by destruct not_a_block.
  - apply Forall_insert; [apply Hc|done].
  - intros j k t u Hj Hk Ht Heq. apply insert_cases in Hj as [[-> ->]|[Hji Hj]], Hk as [[-> ->]|[Hki Hk]]; [done| | |].
    + apply (inv_unique c P Hc i k s u); auto. by rewrite <- Hid, <- Hage.
    + apply (inv_unique c P Hc j i t s); auto. by rewrite <- Hid, <- Hage.
    + by apply (inv_unique c P Hc j k t u).
  - split; [|lia]. apply Forall_insert; [done|]. rewrite Hage. by apply (inv_slot c P i s).
  - intros j t Hj HjP Ht Hd. apply insert_cases in Hj as [[-> ->]|[Hji Hj]]; [rewrite Hid; auto|].
    rewrite Hcard; [by apply (inv_clean c P Hc j t); auto | done|].
    intros Heq. apply Hji. by apply (inv_unique c P Hc j i t s); auto.
  - intros Hp. apply Forall_insert; [by apply (inv_through c P Hc)|auto].
Qed.

Lemma view_patch c P P' i s s' d :
  cache_inv c P -> slots c !! i = Some s -> is_block (blockid s) -> blockid s' = blockid s ->
  (forall b, is_block b -> b <> blockid s -> on_card d b = on_card (card c) b) ->
  cache_inv (set_slots c (age c) (<[i := s']> (slots c)) d) P' ->
  forall b, is_block b ->
  view (set_slots c (age c) (<[i := s']> (slots c)) d) b = if decide (b = blockid s) then data s' else view c b.
Proof.
  intros Hc Hi Hs Hid Hcard Hc' b Hb. pose proof (lookup_lt_Some _ _ _ Hi) as Hlt.
  assert (Hnew : <[i := s']> (slots c) !! i = Some s') by (by apply list_lookup_insert_eq).
  case_decide as E.
  - rewrite E, <- Hid. apply (view_slot _ P' i s' Hc'); [done|]. by rewrite Hid.
  - destruct (view_cases c b) as [(j & t & Hj & <-)|Hno].
    + rewrite (view_slot c P j t) by done. apply (view_slot _ P' j t Hc'); [|done]. cbn [slots set_slots].
      rewrite list_lookup_insert_ne; [done|]. intros ->. congruence.
    + rewrite (view_card c) by done. rewrite <- Hcard by done. apply view_card. intros j t Hj. cbn [slots set_slots] in Hj.
      apply insert_cases in Hj as [[-> ->]|[Hji Hj]]; [congruence|eauto].
Qed.

Lemma held_patch c i s s' d j b n : slots c !! i = Some s -> blockid s' = blockid s -> cage s' = cage s ->
  held c j b n -> held (set_slots c (age c) (<[i := s']> (slots c)) d) j b n.
Proof.
  intros Hi Hid Hage (t & Hj & Ht & Hgap). destruct (decide (i = j)) as [<-|Hne].
  - exists s'. cbn. rewrite list_lookup_insert_eq by (by eapply lookup_lt_Some). assert (t = s) as -> by congruence.
    split; [done|]. rewrite Hid, Hage. auto.
  - exists t. cbn. rewrite list_lookup_insert_ne by done. auto.
Qed.

Lemma held_view c P i id n s : cache_inv c P -> held c i id n -> is_block id -> slots c !! i = Some s ->
  blockid s = id /\ data s = view c id.
Proof.
  intros Hc (t & Hi & Ht & _) Hb Hs. assert (t = s) as -> by congruence. split; [done|]. subst id.
  symmetry. by eapply view_slot.
Qed.

Lemma block_data_spec c P i id n : cache_inv c P -> held c i id n -> is_block id -> block_data c i = Ok (view c id).
Proof.
  intros Hc Hh Hb. pose proof Hh as (s & Hi & _). unfold block_data. rewrite Hi. cbn.
  by destruct (held_view c P i id n s Hc Hh Hb Hi) as [_ ->].
Qed.

Lemma block_store_spec c P i id n b : cache_inv c P -> held c i id n -> is_block id -> length b = 4096%nat ->
  exists c', block_store c i b = Ok c' /\ cache_inv c' ({[i]} ∪ P) /\
    (forall k, is_block k -> view c' k = if decide (k = id) then b else view c k) /\
    (forall j k m, held c j k m -> held c' j k m).
Proof.
  intros Hc Hh Hb Hlen. pose proof Hh as (s & Hi & <- & _). unfold block_store. rewrite Hi. cbn [or_fault obind].
  assert (Hdirty : policy_writethrough c = true -> dirty s = false).
  { intros Hp. pose proof (inv_through c P Hc Hp) as Hf. rewrite Forall_lookup in Hf. eauto. }
  assert (Hc' : cache_inv (set_slots c (age c) (<[i := MkSlot b (blockid s) (dirty s) (cage s)]> (slots c)) (card c)) ({[i]} ∪ P))
    by (apply (inv_patch c P _ i s); auto; set_solver).
  eexists. split; [reflexivity|]. split; [done|]. split.
  - intros k Hk. by rewrite (view_patch c P ({[i]} ∪ P) i s).
  - intros j k m. by apply (held_patch c i s).
Qed.

Lemma update_spec c P i id n : cache_inv c P -> held c i id n -> is_block id ->
  exists c', update c i = Ok c' /\ cache_inv c' (P ∖ {[i]}) /\
    (forall k, is_block k -> view c' k = view c k) /\
    (forall j k m, held c j k m -> held c' j k m) /\ policy_writethrough c' = policy_writethrough c.
Proof.
  intros Hc Hh Hb. pose proof Hh as (s & Hi & <- & _). unfold update. rewrite Hi. cbn [or_fault obind].
  destruct (inv_slot c P i s Hc Hi) as [Hlen _]. destruct (policy_writethrough c) eqn:Hp.
  - rewrite write_direct_ok by done. cbn [obind]. set (d := sd_write _ _ _).
    replace (set_slots c (age c) (slots c) d) with (set_slots c (age c) (<[i := s]> (slots c)) d) by (by rewrite list_insert_id).
    assert (Hd : forall b, is_block b -> on_card d b = if decide (b = blockid s) then data s else on_card (card c) b)
      by (intros b Hb'; by apply on_card_write).
    assert (Hother : forall b, is_block b -> b <> blockid s -> on_card d b = on_card (card c) b)
      by (intros b Hb' Hne; rewrite Hd by done; by case_decide).
    assert (Hc' : cache_inv (set_slots c (age c) (<[i := s]> (slots c)) d) (P ∖ {[i]})).
    { apply (inv_patch c P _ i s); auto; [|intros; rewrite Hd by done; by case_decide|set_solver].
      intros _. pose proof (inv_through c P Hc Hp) as Hf. rewrite Forall_lookup in Hf. eauto. }
    eexists. split; [reflexivity|]. split; [done|]. split; [|split; [intros j k m; by apply (held_patch c i s)|done]].
    intros k Hk. rewrite (view_patch c P (P ∖ {[i]}) i s) by done. case_decide as E; [|done]. rewrite E. symmetry. by eapply view_slot.
  - set (s' := MkSlot _ _ true _).
    assert (Hc' : cache_inv (set_slots c (age c) (<[i := s']> (slots c)) (card c)) (P ∖ {[i]})).
    { apply (inv_patch c P _ i s); auto; [congruence|done|set_solver]. }
    eexists. split; [reflexivity|]. split; [done|]. split; [|split; [intros j k m; by apply (held_patch c i s)|done]].
    intros k Hk. rewrite (view_patch c P (P ∖ {[i]}) i s) by done. case_decide as E; [|done]. rewrite E.
    change (data s') with (data s). symmetry. by eapply view_slot.
Qed.

(** ** Writing back *)

Definition clean (s : slot) : slot := MkSlot (data s) (blockid s) false (cage s).

Lemma writeback_loop_spec l : forall d,
  (forall s, s ∈ l -> dirty s = true -> is_block (blockid s) /\ length (data s) = 4096%nat) ->
  (forall i j s t, l !! i = Some s -> l !! j = Some t -> is_block (blockid s) -> blockid s = blockid t -> i = j) ->
  exists d', writeback_loop l d = Ok (clean <$> l, d') /\ forall b, is_block b ->
    (forall s, s ∈ l -> dirty s = true -> blockid s = b -> on_card d' b = data s) /\
    ((forall s, s ∈ l -> dirty s = true -> blockid s <> b) -> on_card d' b = on_card d b).
Proof.
  induction l as [|s l IH]; intros d Hok Huniq; cbn [writeback_loop].
  { exists d. split; [done|]. intros b Hb. split; [intros s Hs; by apply elem_of_nil in Hs|done]. }
  set (d1 := if dirty s then sd_write d (sector_of (blockid s)) (data s) else d).
  assert (Hstep : (if dirty s then d <- write_block_direct d (data s) (blockid s) ;; Ok (MkSlot (data s) (blockid s) false (cage s), d)
                   else Ok (s, d)) = Ok (clean s, d1)).
  { unfold d1, clean. destruct (dirty s) eqn:Hd.
    - destruct (Hok s) as [Hb _]; [left|done|]. by rewrite write_direct_ok.
    - destruct s; cbn in *; by subst. }
  rewrite Hstep. cbn [obind]. destruct (IH d1) as (d' & -> & Hd').
  { intros t Ht. apply Hok. by right. }
  { intros i j t u Hi Hj Ht E. assert (S i = S j) by (by eapply (Huniq (S i) (S j))). lia. }
  cbn [obind]. exists d'. split; [done|]. intros b Hb. destruct (Hd' b Hb) as [Hin Hout].
  assert (Hd1 : (dirty s = true -> blockid s <> b) -> on_card d1 b = on_card d b).
  { intros Hne. unfold d1. destruct (dirty s) eqn:Hd; [|done]. destruct (Hok s) as [Hbs Hlen]; [left|done|].
    rewrite on_card_write by done. case_decide; [|done]. by destruct Hne. }
  split.
  - intros t Ht Hdt Hbt. apply elem_of_cons in Ht as [->|Ht]; [|by apply Hin].
    rewrite Hout. { unfold d1. rewrite Hdt. destruct (Hok s) as [Hbs Hlen]; [left|done|]. rewrite on_card_write by done. by case_decide. }
    intros u Hu _ Hbu. apply list_elem_of_lookup_1 in Hu as [k Hk].
    assert (0%nat = S k) by (eapply (Huniq 0%nat (S k)); [done|done|by rewrite Hbt|congruence]). done.
  - intros Hno. rewrite Hout, Hd1; [done| |]; intros; apply Hno; try done; [left|by right].
Qed.

Lemma view_set_slots c c' d b : (blockid <$> slots c') = (blockid <$> slots c) -> (data <$> slots c') = (data <$> slots c) ->
  card c' = d -> (find_slot (slots c) b = None -> on_card d b = on_card (card c) b) -> view c' b = view c b.
Proof.
  intros Hids Hdata Hd Hcard. unfold view.
  assert (Hf : find_slot (slots c') b = find_slot (slots c) b).
  { revert Hids. clear. generalize (slots c) as l, (slots c') as l'. induction l as [|s l IH]; intros [|s' l'] E; try done.
    cbn in *. injection E as E1 E2. by rewrite E1, IH. }
  rewrite Hf. destruct (find_slot (slots c) b) as [i|]; [|rewrite Hd; by apply Hcard].
  pose proof (f_equal (fun l => l !! i) Hdata) as E. cbn in E. rewrite !list_lookup_fmap in E.
  destruct (slots c !! i), (slots c' !! i); cbn in E; congruence.
Qed.

Lemma cache_writeback_spec c : cache_inv c ∅ -> exists c', cache_writeback c = Ok c' /\ cache_inv c' ∅ /\
  (forall b, is_block b -> view c' b = view c b /\ on_card (card c') b = view c b) /\
  policy_writethrough c' = policy_writethrough c.
Proof.
  intros Hc. unfold cache_writeback. pose proof (inv_ids c ∅ Hc) as Hids. rewrite Forall_forall in Hids.
  pose proof (inv_data c ∅ Hc) as Hdata. rewrite Forall_forall in Hdata.
  destruct (writeback_loop_spec (slots c) (card c)) as (d & -> & Hd).
  { intros s Hs Hdirty. split; [|auto]. destruct (Hids s Hs) as [[? _]|(_ & _ & ?)]; [done|congruence]. }
  { intros i j s t Hi Hj Hb E. eapply (inv_unique c ∅ Hc); eauto. }
  cbn [obind]. eexists. split; [reflexivity|].
  assert (Hslot : forall s i, slots c !! i = Some s -> is_block (blockid s) -> on_card d (blockid s) = data s).
  { intros s i Hi Hb. destruct (Hd _ Hb) as [Hin Hout]. destruct (dirty s) eqn:E; [apply Hin; [by eapply list_elem_of_lookup_2|done|done]|].
    rewrite Hout; [symmetry; by apply (inv_clean c ∅ Hc i s)|]. intros t Ht Hdt Heq. apply list_elem_of_lookup_1 in Ht as [j Hj].
    assert (i = j) as <- by (eapply (inv_unique c ∅ Hc); eauto). congruence. }
  assert (Hfm : forall {A} (f : slot -> A), (forall s, f (clean s) = f s) -> f <$> (clean <$> slots c) = f <$> slots c).
  { intros A f Hf. rewrite <- list_fmap_compose. apply list_fmap_ext. intros i s _. apply Hf. }
  assert (Hcard : forall b, is_block b -> on_card d b = view c b).
  { intros b Hb. destruct (view_cases c b) as [(i & s & Hi & <-)|Hno].
    - rewrite (view_slot c ∅ i s) by done. by eapply Hslot.
    - rewrite view_card by done. apply Hd; [done|]. intros s Hs _. apply list_elem_of_lookup_1 in Hs as [j Hj]. eauto. }
  split.
  - split; cbn [slots set_slots age card policy_writethrough].
    + rewrite length_fmap. apply Hc.
    + apply Forall_fmap. eapply Forall_impl; [exact (inv_ids c ∅ Hc)|]. intros s Hs. destruct Hs as [?|(? & ? & _)]; [by left|by right].
    + apply Forall_fmap. eapply Forall_impl; [exact (inv_data c ∅ Hc)|]. intros s Hs. exact Hs.
    + intros i j s t Hi Hj. apply list_lookup_fmap_Some in Hi as (s' & -> & Hi), Hj as (t' & -> & Hj). by apply (inv_unique c ∅ Hc i j s' t').
    + destruct (inv_age c ∅ Hc) as [Ha ?]. split; [|done]. apply Forall_fmap. eapply Forall_impl; [exact Ha|]. intros s Hs. exact Hs.
    + intros i s Hi _ Hb _. apply list_lookup_fmap_Some in Hi as (s' & -> & Hi). symmetry. exact (Hslot s' i Hi Hb).
    + intros _. apply Forall_fmap. apply Forall_true. done.
  - split; [|done]. intros b Hb. split; [|by apply Hcard]. eapply view_set_slots; [by apply Hfm|by apply Hfm|reflexivity|].
    cbn. intros Hno. rewrite Hcard by done. unfold view. by rewrite Hno.
Qed.

(** ** The remaining entry points *)

Lemma Block_block c id : is_block id -> Block c id = cache_find c id.
Proof.
  intros Hid. unfold Block. rewrite u32_small; [done|]. unfold is_block in Hid. change MAX_BLOCK_NUM with 98304 in Hid. lia.
Qed.

Lemma cache_init_inv c : length (slots c) = CACHE_SIZE -> Forall (fun s => length (data s) = 4096%nat) (slots c) -> 0 <= age c ->
  cache_inv (cache_init c) ∅ /\ forall b, is_block b -> view (cache_init c) b = on_card (card c) b.
Proof.
  intros Hlen Hdata Hage. set (e := fun s : slot => MkSlot (data s) (2 ^ 32 - 1) false (-1)).
  assert (Hall : forall i s, (e <$> slots c) !! i = Some s -> exists s', s = e s').
  { intros i s Hi. apply list_lookup_fmap_Some in Hi as (s' & -> & _). eauto. }
  split.
  - split; cbn [cache_init slots set_slots age card policy_writethrough].
    + by rewrite length_fmap.
    + apply Forall_fmap, Forall_true. intros s. by right.
    + apply Forall_fmap. eapply Forall_impl; [exact Hdata|]. intros s Hs. exact Hs.
    + intros i j s t Hi _ Hb. destruct (Hall i s Hi) as [s' ->]. by destruct not_a_block.
    + split; [|done]. apply Forall_fmap, Forall_true. intros s. cbn. lia.
    + intros i s Hi _ Hb. destruct (Hall i s Hi) as [s' ->]. by destruct not_a_block.
    + intros _. by apply Forall_fmap, Forall_true.
  - intros b Hb. change (card c) with (card (cache_init c)). apply view_card. intros i s Hi. destruct (Hall i s Hi) as [s' ->].
    intros E. rewrite <- E in Hb. by destruct not_a_block.
Qed.

(** Fields the invariant does not mention, and the policy of a clean cache. *)
Lemma inv_settings c w iv lt : cache_inv c ∅ -> (w = true -> Forall (fun s => dirty s = false) (slots c)) ->
  cache_inv (MkCache (age c) (slots c) w iv lt (card c)) ∅.
Proof. intros [] Hw. by split. Qed.

Lemma writeback_policy c w iv lt : cache_inv c ∅ -> exists c',
  cache_writeback (MkCache (age c) (slots c) w iv lt (card c)) = Ok c' /\ cache_inv c' ∅ /\
  (forall b, is_block b -> view c' b = view c b /\ on_card (card c') b = view c b) /\ policy_writethrough c' = w.
Proof.
  intros Hc. destruct (cache_writeback_spec (MkCache (age c) (slots c) false iv lt (card c))) as (c' & E & Hc' & Hv & _).
  { by apply inv_settings. }
  unfold cache_writeback in *. cbn [slots card] in *. destruct (writeback_loop (slots c) (card c)) as [[l d]| | |] eqn:El; try done.
  cbn [obind] in *. injection E as <-. eexists. split; [reflexivity|].
  assert (Hclean : Forall (fun s => dirty s = false) l).
  { destruct (writeback_loop_spec (slots c) (card c)) as (d' & E' & _).
    - pose proof (inv_ids c ∅ Hc) as Hids. pose proof (inv_data c ∅ Hc) as Hdata. rewrite Forall_forall in Hids, Hdata.
      intros s Hs Hd. split; [|by apply Hdata]. destruct (Hids s Hs) as [[? _]|(_ & _ & ?)]; [done|congruence].
    - intros i j s t Hi Hj Hb Heq. eapply (inv_unique c ∅ Hc i j s t); auto.
    - rewrite El in E'. injection E' as -> _. by apply Forall_fmap, Forall_true. }
  split; [|split; [exact Hv|done]]. exact (inv_settings _ w iv lt Hc' (fun _ => Hclean)).
Qed.

#[export] Instance cache_block_layer : BlockLayer (cache D).
Proof.
  refine {| bnew := Block; bdata := block_data; bstore := block_store; bupdate := update;
            binv := cache_inv; bview := view; bheld := held |}.
  - intros s P id Hs _. by eapply view_length.
  - intros s P id Hs Hid HP. rewrite Block_block by done. destruct (cache_find_spec s P id Hs Hid HP) as (h & s' & E & F).
    exists h, s'. split; [done|]. split; [apply F|]. split; [by eapply held_found|]. split; [apply F|].
    intros k b n Hb. by eapply held_find.
  - apply block_data_spec.
  - apply block_store_spec.
  - intros s P h id n Hs Hh Hid. destruct (update_spec s P h id n Hs Hh Hid) as (s' & E & Hi & Hv & Hk & _). eauto.
Defined.

(** ** What the cache promises *)

Lemma through_on_card c b : cache_inv c ∅ -> policy_writethrough c = true -> is_block b -> on_card (card c) b = view c b.
Proof.
  intros Hc Hp Hb. destruct (view_cases c b) as [(i & s & Hi & <-)|Hno]; [|by rewrite view_card].
  rewrite (view_slot c ∅ i s) by done. symmetry. apply (inv_clean c ∅ Hc i s); [done..|].
  pose proof (inv_through c ∅ Hc Hp) as Hf. rewrite Forall_lookup in Hf. eauto.
Qed.

(** A run of look-ups whose handles are dropped. *)
Fixpoint lookups (c : cache D) (ids : list Z) : outcome (cache D) :=
  match ids with
  | [] => Ok c
  | id :: ids' => '(_, c) <- Block c id ;; lookups c ids'
  end.

Lemma lookups_spec ids : forall c, cache_inv c ∅ -> Forall is_block ids ->
  exists c', lookups c ids = Ok c' /\ cache_inv c' ∅ /\ (forall b, is_block b -> view c' b = view c b) /\
    (forall i b n, is_block b -> held c i b (length ids + n) -> held c' i b n).
Proof.
  induction ids as [|id ids IH]; intros c Hc Hids; cbn [lookups length Nat.add]; [exists c; auto|].
  apply Forall_cons in Hids as [Hid Hids]. rewrite Block_block by done.
  destruct (cache_find_spec c ∅ id Hc Hid) as (j & c1 & -> & F); [set_solver|]. cbn [obind].
  destruct (IH c1) as (c' & E & Hc' & Hv & Hh); [apply F|done|]. exists c'. split; [done|]. split; [done|]. split.
  - intros b Hb. rewrite Hv by done. by apply F.
  - intros i b n Hb Hi. apply Hh; [done|]. exact (held_find c ∅ id j c1 i b _ Hc F Hb Hi).
Qed.

(** C19: Looking a block up never loses data: [Block(id)] returns, every block
    reads exactly as before, whatever was replaced, and the handle shows the block. *)
Theorem block_lookup_transparent c id :
  cache_inv c ∅ -> is_block id ->
  exists i c', Block c id = Ok (i, c') /\ cache_inv c' ∅ /\
    (forall b, is_block b -> view c' b = view c b) /\ block_data c' i = Ok (view c id).
Proof.
  intros Hc Hid. rewrite Block_block by done. destruct (cache_find_spec c ∅ id Hc Hid) as (i & c' & E & F); [set_solver|].
  exists i, c'. split; [done|]. split; [apply F|]. split; [apply F|].
  rewrite (block_data_spec c' ∅ i id 63); [|apply F|by eapply held_found|done]. by rewrite (found_view _ _ _ _ _ F).
Qed.

(** A [Block] stays valid for the next 63 look-ups, whatever blocks they are
    for: the least recently used policy never replaces its slot. *)
Theorem block_survives_lookups c id ids :
  cache_inv c ∅ -> is_block id -> Forall is_block ids -> (length ids <= 63)%nat ->
  exists i c1 c2, Block c id = Ok (i, c1) /\ lookups c1 ids = Ok c2 /\ cache_inv c2 ∅ /\ block_data c2 i = Ok (view c id).
Proof.
  intros Hc Hid Hids Hlen. rewrite Block_block by done. destruct (cache_find_spec c ∅ id Hc Hid) as (i & c1 & E & F); [set_solver|].
  destruct (lookups_spec ids c1) as (c2 & E2 & Hc2 & Hv & Hh); [apply F|done|].
  exists i, c1, c2. split; [done|]. split; [done|]. split; [done|].
  rewrite (block_data_spec c2 ∅ i id (63 - length ids)); [|done|apply Hh; [done|]|done].
  - rewrite Hv by done. by rewrite (found_view _ _ _ _ _ F).
  - replace (length ids + (63 - length ids))%nat with 63%nat by lia. by eapply held_found.
Qed.

(** Storing through a [Block] and calling [update] changes exactly that block,
    and with the write-through policy the card then holds every block as read. *)
Theorem store_update_persists c id b :
  cache_inv c ∅ -> is_block id -> length b = 4096%nat ->
  exists i c1 c2 c3, Block c id = Ok (i, c1) /\ block_store c1 i b = Ok c2 /\ update c2 i = Ok c3 /\ cache_inv c3 ∅ /\
    (forall k, is_block k -> view c3 k = if decide (k = id) then b else view c k) /\
    (policy_writethrough c = true -> forall k, is_block k -> on_card (card c3) k = view c3 k).
Proof.
  intros Hc Hid Hlen. rewrite Block_block by done. destruct (cache_find_spec c ∅ id Hc Hid) as (i & c1 & E & F); [set_solver|].
  destruct (block_store_spec c1 ∅ i id 63 b) as (c2 & E2 & Hc2 & Hv2 & Hh2); [apply F|by eapply held_found|done|done|].
  destruct (update_spec c2 _ i id 63 Hc2) as (c3 & E3 & Hc3 & Hv3 & _ & Hp3); [apply Hh2; by eapply held_found|done|].
  rewrite pending_done in Hc3 by done.
  exists i, c1, c2, c3. split; [done|]. split; [done|]. split; [done|]. split; [done|]. split.
  - intros k Hk. rewrite Hv3, Hv2 by done. case_decide; [done|]. by apply F.
  - intros Hp k Hk. apply through_on_card; [done| |done]. rewrite Hp3.
    unfold block_store in E2. destruct (slots c1 !! i); [|done]. injection E2 as <-. cbn. by rewrite (found_policy _ _ _ _ _ F).
Qed.

(** Switching to write-through ([cache_set_policy(-1)]), and a timer scan that
    is due, put every block on the card exactly as a reader sees it; neither
    changes what readers see. *)
Theorem writeback_reaches_card c timer :
  cache_inv c ∅ ->
  (exists c', cache_set_policy c (-1) = Ok c' /\ cache_inv c' ∅ /\ policy_writethrough c' = true /\
     forall b, is_block b -> view c' b = view c b /\ on_card (card c') b = view c b) /\
  (policy_writethrough c = false -> u64 (last_time c + policy_writeback_interval c) < timer ->
   exists c', cache_scan_timer c timer true = Ok c' /\ cache_inv c' ∅ /\ last_time c' = timer /\
     forall b, is_block b -> view c' b = view c b /\ on_card (card c') b = view c b).
Proof.
  intros Hc. split.
  - destruct (writeback_policy c true 0 (last_time c) Hc) as (c' & E & Hc' & Hv & Hp). exists c'. unfold cache_set_policy. cbn. auto.
  - intros Hp Ht. unfold cache_scan_timer. rewrite Hp. cbn [negb]. rewrite (proj2 (Z.ltb_lt _ _) Ht).
    destruct (writeback_policy c false (policy_writeback_interval c) timer Hc) as (c' & E & Hc' & Hv & _). exists c'. split; [done|]. split; [done|].
    split; [|done]. unfold cache_writeback in E. destruct (writeback_loop _ _) as [[l d]| | |]; try done. cbn in E. by injection E as <-.
Qed.

(** [cache_init] establishes the invariant from any 64 buffers of one block,
    whatever they contain, and then every block reads as it is on the card. *)
Theorem cache_init_establishes c :
  length (slots c) = CACHE_SIZE -> Forall (fun s => length (data s) = 4096%nat) (slots c) -> 0 <= age c ->
  cache_inv (cache_init c) ∅ /\ forall b, is_block b -> view (cache_init c) b = on_card (card c) b.
Proof. apply cache_init_inv. Qed.
End Code.

(** * A card in memory *)

Module RamCard.
(** Sectors of 512 bytes; what was never written reads as zeros. *)
Abbreviation ram := (gmap Z (list Z)).

Definition sector (d : ram) (s : Z) : list Z := take 512 (default [] (d !! s) ++ replicate 512 0).
Definition ram_read (d : ram) (s : Z) : list Z :=
  sector d s ++ sector d (s + 1) ++ sector d (s + 2) ++ sector d (s + 3) ++
  sector d (s + 4) ++ sector d (s + 5) ++ sector d (s + 6) ++ sector d (s + 7).
Fixpoint ram_write_n (n : nat) (d : ram) (s : Z) (b : list Z) : ram :=
  match n with
  | O => d
  | S n' => ram_write_n n' (<[s := take 512 b]> d) (s + 1) (drop 512 b)
  end.
Definition ram_write (d : ram) (s : Z) (b : list Z) : ram := ram_write_n 8 d s b.

Lemma length_sector d s : length (sector d s) = 512%nat.
Proof. unfold sector. rewrite length_take, length_app, length_replicate. lia. Qed.

Lemma ram_write_n_other n : forall d s b s', s' < s \/ s + Z.of_nat n <= s' -> ram_write_n n d s b !! s' = d !! s'.
Proof.
  induction n as [|n IH]; intros d s b s' Hs; cbn [ram_write_n]; [done|].
  rewrite IH by lia. by rewrite lookup_insert_ne by lia.
Qed.

Lemma ram_write_n_same n : forall d s b k, (k < n)%nat ->
  ram_write_n n d s b !! (s + Z.of_nat k) = Some (take 512 (drop (512 * k) b)).
Proof.
  induction n as [|n IH]; intros d s b k Hk; cbn [ram_write_n]; [lia|]. destruct k as [|k].
  - rewrite ram_write_n_other by lia. rewrite Z.add_0_r, lookup_insert_eq, Nat.mul_0_r. done.
  - replace (s + Z.of_nat (S k)) with (s + 1 + Z.of_nat k) by lia. rewrite IH by lia. rewrite drop_drop. do 3 f_equal. lia.
Qed.

Lemma sector_written d s b k : (k < 8)%nat -> length b = 4096%nat ->
  sector (ram_write d s b) (s + Z.of_nat k) = take 512 (drop (512 * k) b).
Proof.
  intros Hk Hb. unfold sector, ram_write. rewrite ram_write_n_same by done. cbn [from_option].
  apply take_app_length'. rewrite length_take, length_drop. lia.
Qed.

Lemma split_block (b : list Z) : length b = 4096%nat ->
  b = take 512 (drop (512 * 0) b) ++ take 512 (drop (512 * 1) b) ++ take 512 (drop (512 * 2) b) ++ take 512 (drop (512 * 3) b) ++
      take 512 (drop (512 * 4) b) ++ take 512 (drop (512 * 5) b) ++ take 512 (drop (512 * 6) b) ++ take 512 (drop (512 * 7) b).
Proof.
  intros Hb.
  assert (E : forall k, drop (512 * k) b = take 512 (drop (512 * k) b) ++ drop (512 * S k) b).
  { intros k. rewrite <- (take_drop 512 (drop (512 * k) b)) at 1. rewrite drop_drop. do 2 f_equal. lia. }
  rewrite <- (drop_0 b) at 1. change (drop 0 b) with (drop (512 * 0) b).
  do 7 (rewrite E at 1; f_equal). rewrite take_ge; [done|]. rewrite length_drop. lia.
Qed.

#[export] Instance ram_card : SDCard ram.
Proof.
  refine {| sd_read := ram_read; sd_write := ram_write |}.
  - intros d s. unfold ram_read. by rewrite !length_app, !length_sector.
  - intros d s b Hb. unfold ram_read. rewrite (split_block b Hb) at 9.
    pose proof (fun k Hk => sector_written d s b k Hk Hb) as E.
    rewrite <- !E by lia. rewrite Z.add_0_r. done.
  - intros d s s' b Hs. unfold ram_read, sector, ram_write. by rewrite !ram_write_n_other by lia.
Defined.

(** A machine right after boot, with an empty card. *)
Definition boot : cache ram :=
  cache_init (MkCache 0 (replicate 64 (MkSlot (replicate 4096 0) 0 false 0)) true 0 0 (∅ : ram)).

Lemma boot_inv : cache_inv boot ∅.
Proof. apply cache_init_inv; [done| |done]. by apply Forall_replicate. Qed.
End RamCard.

(** * Witnesses *)

Section Witnesses.
Import RamCard.

(** The boot-time cache satisfies the hypotheses; block 5 of the empty card is a block of zeros. *)
Lemma block_lookup_transparent_witness : exists i c', Block boot 5 = Ok (i, c') /\ cache_inv c' ∅ /\
  (forall b, is_block b -> view c' b = view boot b) /\ block_data c' i = Ok (view boot 5).
Proof. apply (block_lookup_transparent boot 5); [exact boot_inv | done]. Defined.

(** 63 different blocks. *)
Lemma block_survives_lookups_witness : exists i c1 c2, Block boot 5 = Ok (i, c1) /\
  lookups c1 (Z.of_nat <$> seq 100 63) = Ok c2 /\ cache_inv c2 ∅ /\ block_data c2 i = Ok (view boot 5).
Proof.
  apply (block_survives_lookups boot 5 (Z.of_nat <$> seq 100 63)); [exact boot_inv | done | | cbn; lia].
  apply Forall_forall. intros b Hb. apply list_elem_of_fmap in Hb as (n & -> & Hn). apply elem_of_seq in Hn.
  unfold is_block. change MAX_BLOCK_NUM with 98304. lia.
Defined.

Lemma store_update_persists_witness : exists i c1 c2 c3, Block boot 5 = Ok (i, c1) /\ block_store c1 i (replicate 4096 7) = Ok c2 /\
  update c2 i = Ok c3 /\ cache_inv c3 ∅ /\
  (forall k, is_block k -> view c3 k = if decide (k = 5) then replicate 4096 7 else view boot k) /\
  (policy_writethrough boot = true -> forall k, is_block k -> on_card (card c3) k = view c3 k).
Proof. apply (store_update_persists boot 5); [exact boot_inv | done | done]. Defined.

Definition boot_back : cache ram := MkCache (age boot) (slots boot) false 30 0 (card boot).
Lemma boot_back_inv : cache_inv boot_back ∅.
Proof. apply inv_settings; [exact boot_inv|done]. Qed.

Lemma writeback_reaches_card_witness :
  (exists c', cache_set_policy boot_back (-1) = Ok c' /\ cache_inv c' ∅ /\ policy_writethrough c' = true /\
     forall b, is_block b -> view c' b = view boot_back b /\ on_card (card c') b = view boot_back b) /\
  (policy_writethrough boot_back = false -> u64 (last_time boot_back + policy_writeback_interval boot_back) < 31 ->
   exists c', cache_scan_timer boot_back 31 true = Ok c' /\ cache_inv c' ∅ /\ last_time c' = 31 /\
     forall b, is_block b -> view c' b = view boot_back b /\ on_card (card c') b = view boot_back b).
Proof. exact (writeback_reaches_card boot_back 31 boot_back_inv). Defined.

Definition unformatted : cache ram := MkCache 0 (replicate 64 (MkSlot (replicate 4096 255) 0 true 0)) true 0 0 (∅ : ram).
Lemma cache_init_establishes_witness :
  cache_inv (cache_init unformatted) ∅ /\ forall b, is_block b -> view (cache_init unformatted) b = on_card (card unformatted) b.
Proof. apply cache_init_establishes; [done | by apply Forall_replicate | done]. Defined.

(** The bound is sharp: 64 look-ups of other blocks do replace the slot, and
    the handle then shows one of them. *)
Lemma handle_replaced_after_64 :
  let c0 := MkCache 0 (replicate 64 (MkSlot (replicate 4096 0) (2 ^ 32 - 1) false (-1))) true 0 0
              (<[sector_of 163 := replicate 512 9]> ∅ : ram) in
  exists i c1 c2 b, Block c0 5 = Ok (i, c1) /\ lookups c1 (Z.of_nat <$> seq 100 64) = Ok c2 /\
    block_data c2 i = Ok b /\ hd 0 (view c0 5) = 0 /\ hd 0 b = 9.
Proof.
  intros c0.
  assert (E : match Block c0 5 with
              | Ok (i, c1) => match lookups c1 (Z.of_nat <$> seq 100 64) with
                              | Ok c2 => match block_data c2 i with Ok b => hd 0 b | _ => -1 end
                              | _ => -1 end
              | _ => -1 end = 9) by (vm_compute; reflexivity).
  destruct (Block c0 5) as [[i c1]| | |]; try done. destruct (lookups c1 _) as [c2| | |] eqn:E1; try done.
  destruct (block_data c2 i) as [b| | |] eqn:E2; try done. exists i, c1, c2, b. by rewrite E1.
Qed.
End Witnesses.
