(* ===== verification/FsLayout.v ===== *)
(** The on-disk structures of src/fs/fs.hpp: superblock, inodes and directory
    entries, with their little-endian layout inside a block.

    A block is a list of 4096 bytes; an array of structures in it is a table of
    records of fixed size ([rec_at], [rec_set]).  Every structure has an encoder
    and a decoder and the round trip between them. *)

From Stdlib Require Import ZArith Lia List.
From stdpp Require Import base numbers list gmap.
From S2P Require Import Prelude BlockLayer.

Local Open Scope Z_scope.

(** * Little-endian numbers *)

Fixpoint le (n : nat) (v : Z) : list Z :=
  match n with O => [] | S n' => v mod 256 :: le n' (v / 256) end.
Fixpoint le_val (l : list Z) : Z :=
  match l with [] => 0 | b :: l' => b + 256 * le_val l' end.

Fixpoint words (ws : list Z) : list Z :=
  match ws with [] => [] | w :: ws' => le 4 w ++ words ws' end.

Definition u32_at (b : list Z) (o : nat) : Z := le_val (take 4 (drop o b)).

(** * Tables of records *)

Definition rec_at (sz : nat) (b : list Z) (k : nat) : list Z := take sz (drop (sz * k) b).
Definition splice (b : list Z) (o : nat) (r : list Z) : list Z := take o b ++ r ++ drop (o + length r) b.
Definition rec_set (sz : nat) (b : list Z) (k : nat) (r : list Z) : list Z := splice b (sz * k) r.

(** A block of zeros. *)
Definition zero_block : list Z := replicate 4096 0.

Lemma length_zero_block : length zero_block = 4096%nat.
Proof. reflexivity. Qed.
Lemma nth_zero_block p : nth p zero_block 0 = 0.
Proof.
  unfold zero_block. rewrite nth_lookup. destruct (replicate 4096 0 !! p) as [x|] eqn:E; [|done].
  apply lookup_replicate in E as [-> _]. done.
Qed.
Lemma zero_block_bytes : Forall (fun x => 0 <= x < 256) zero_block.
Proof. apply Forall_forall. intros x Hx. apply elem_of_replicate in Hx as [-> _]. lia. Qed.
#[global] Opaque zero_block.

(** * struct SuperBlock *)

Definition SUPERBLOCK_MAGIC : Z := 0x20221205.
Definition MAX_INODE_NUM : Z := 32 * 1024.

Record SuperBlock := MkSB {
  magic0 : Z; fs_start : Z;
  inode_map_start_block : Z; inode_map_size : Z; inode_allocated : Z; inode_free_min : Z;
  block_map_start_block : Z; block_map_size : Z; block_allocated : Z; block_free_min : Z;
  inode_start_block : Z; block_start_block : Z; root_inode : Z; magic1 : Z
}.

Definition sb_words (sb : SuperBlock) : list Z :=
  [magic0 sb; fs_start sb; inode_map_start_block sb; inode_map_size sb; inode_allocated sb; inode_free_min sb;
   block_map_start_block sb; block_map_size sb; block_allocated sb; block_free_min sb;
   inode_start_block sb; block_start_block sb; root_inode sb; magic1 sb].
Definition encode_sb (sb : SuperBlock) : list Z := words (sb_words sb).
Definition decode_sb (b : list Z) : SuperBlock :=
  let w k := u32_at b (4 * k) in
  MkSB (w 0%nat) (w 1%nat) (w 2%nat) (w 3%nat) (w 4%nat) (w 5%nat) (w 6%nat) (w 7%nat) (w 8%nat) (w 9%nat)
       (w 10%nat) (w 11%nat) (w 12%nat) (w 13%nat).

(** * struct Inode *)

Definition INODE_DATA_DIRECT : nat := 8.
Definition INODE_DATA_L1 : nat := 3.
Definition INODE_DATA_L2 : nat := 2.

Record Inode := MkInode {
  type : Z; mode : Z; link_cnt : Z; size : Z;
  data_direct : list Z; data_l1 : list Z; data_l2 : list Z; data_l3 : Z
}.
(** Inode{} *)
Definition zero_inode : Inode := MkInode 0 0 0 0 (replicate 8 0) (replicate 3 0) (replicate 2 0) 0.

Definition sizeof_Inode : nat := 64.
Definition INODE_PER_BLOCK : Z := BLOCK_SIZE / 64.

Definition encode_inode (i : Inode) : list Z :=
  [type i; mode i] ++ le 2 (link_cnt i) ++ le 4 (size i) ++
  words (data_direct i ++ data_l1 i ++ data_l2 i ++ [data_l3 i]).
Definition decode_inode (b : list Z) : Inode :=
  let w k := u32_at b (8 + 4 * k) in
  MkInode (le_val (take 1 b)) (le_val (take 1 (drop 1 b))) (le_val (take 2 (drop 2 b))) (u32_at b 4)
    (w <$> seq 0 8) (w <$> seq 8 3) (w <$> seq 11 2) (w 13%nat).

Record inode_ok (i : Inode) : Prop := {
  ok_type : 0 <= type i < 2 ^ 8; ok_mode : 0 <= mode i < 2 ^ 8; ok_links : 0 <= link_cnt i < 2 ^ 16; ok_size : 0 <= size i < 2 ^ 32;
  ok_direct : length (data_direct i) = INODE_DATA_DIRECT; ok_l1 : length (data_l1 i) = INODE_DATA_L1; ok_l2 : length (data_l2 i) = INODE_DATA_L2;
  ok_ids : Forall (fun v => 0 <= v < 2 ^ 32) (data_direct i ++ data_l1 i ++ data_l2 i ++ [data_l3 i])
}.

(** * struct DirEntry *)

Record DirEntry := MkDir { inode : Z; valid : Z; name : list Z }.
Definition sizeof_DirEntry : nat := 32.
Definition DIRENTRY_PER_BLOCK : nat := 128.

(** [name] is the content of the 24-byte array. *)
Definition encode_dir (d : DirEntry) : list Z := le 4 (inode d) ++ le 4 (valid d) ++ name d.
Definition decode_dir (b : list Z) : DirEntry := MkDir (u32_at b 0) (u32_at b 4) (take 24 (drop 8 b)).

Definition dir_ok (d : DirEntry) : Prop := 0 <= inode d < 2 ^ 32 /\ 0 <= valid d < 2 ^ 32 /\ length (name d) = 24%nat.

(** strcpy(dir.name, path) into a zero-initialised array: beyond 23 characters
    it writes past the structure. *)
Definition dir_name (path : list Z) : outcome (list Z) :=
  if (length path <? 24)%nat then Ok (path ++ replicate (24 - length path) 0) else Fault.

(** strcmp(dir.name, path) == 0, reading on from the start of the name. *)
Fixpoint streq (l path : list Z) : outcome bool :=
  match l with
  | [] => Fault
  | c :: l' => match path with
               | [] => Ok (c =? 0)
               | x :: path' => if c =? x then streq l' path' else Ok false
               end
  end.

(** * Lemmas *)

Lemma length_le n v : length (le n v) = n.
Proof. revert v. induction n; intros v; cbn; auto. Qed.

Lemma le_val_le n : forall v, 0 <= v < 256 ^ Z.of_nat n -> le_val (le n v) = v.
Proof.
  induction n as [|n IH]; intros v Hv; cbn [le le_val]; [cbn in Hv; lia|].
  rewrite Nat2Z.inj_succ, Z.pow_succ_r in Hv by lia.
  rewrite IH; [pose proof (Z.div_mod v 256); lia|]. split; [apply Z.div_pos; lia|]. apply Z.div_lt_upper_bound; lia.
Qed.

Lemma le_bytes n : forall v, Forall (fun b => 0 <= b < 256) (le n v).
Proof. induction n as [|n IH]; intros v; cbn; constructor; [apply Z.mod_pos_bound; lia|auto]. Qed.

Lemma le_val_range l : Forall (fun b => 0 <= b < 256) l -> 0 <= le_val l < 256 ^ Z.of_nat (length l).
Proof.
  induction 1 as [|b l Hb Hl IH]; cbn [le_val length]; [cbn; lia|]. rewrite Nat2Z.inj_succ, Z.pow_succ_r by lia. lia.
Qed.

Lemma le_le_val l : Forall (fun b => 0 <= b < 256) l -> le (length l) (le_val l) = l.
Proof.
  induction 1 as [|b l Hb Hl IH]; cbn [le_val length le]; [done|].
  rewrite Z.mul_comm, Z.mod_add, Z.mod_small, Z.div_add, Z.div_small, Z.add_0_l by lia. by rewrite IH.
Qed.

Lemma length_words ws : length (words ws) = (4 * length ws)%nat.
Proof. induction ws as [|w ws IH]; [done|]. cbn [words]. rewrite length_app, length_le, IH. cbn [length]. lia. Qed.

(** Word [k] of a sequence of words, with something before and after it. *)
Lemma words_at pre ws post o k w : o = (length pre + 4 * k)%nat -> ws !! k = Some w -> 0 <= w < 2 ^ 32 ->
  u32_at (pre ++ words ws ++ post) o = w.
Proof.
  intros -> Hk Hw. unfold u32_at. rewrite <- drop_drop, drop_app_length.
  revert k Hk. induction ws as [|x ws IH]; intros k Hk; [done|]. cbn [words]. destruct k as [|k].
  - injection Hk as ->. rewrite Nat.mul_0_r, drop_0, <- app_assoc, take_app_length' by (by rewrite length_le). by apply le_val_le.
  - rewrite <- app_assoc. replace (4 * S k)%nat with (length (le 4 x) + 4 * k)%nat by (rewrite length_le; lia).
    rewrite <- drop_drop, drop_app_length. by apply IH.
Qed.

Lemma length_splice b o r : (o + length r <= length b)%nat -> length (splice b o r) = length b.
Proof. intros Ho. unfold splice. rewrite !length_app, length_take, length_drop. lia. Qed.

Lemma take_drop_splice_eq b o r : (o + length r <= length b)%nat -> take (length r) (drop o (splice b o r)) = r.
Proof.
  intros Ho. unfold splice. rewrite drop_app_length' by (rewrite length_take; lia). by rewrite take_app_length.
Qed.

Lemma take_drop_splice_ne b o r o' n : (o + length r <= length b)%nat -> (o' + n <= o \/ o + length r <= o')%nat ->
  take n (drop o' (splice b o r)) = take n (drop o' b).
Proof.
  intros Ho [H|H]; unfold splice.
  - rewrite drop_app_le by (rewrite length_take; lia). rewrite take_app_le by (rewrite length_drop, length_take; lia).
    rewrite !take_drop_commute, take_take, Nat.min_l by lia. done.
  - rewrite !drop_app, !length_take, drop_drop, (drop_ge (take o b)), (drop_ge r) by (rewrite ?length_take; lia). cbn [app].
    do 2 f_equal. lia.
Qed.

Lemma length_rec_set sz b k r : length r = sz -> (sz * S k <= length b)%nat -> length (rec_set sz b k r) = length b.
Proof. intros Hr Hk. apply length_splice. lia. Qed.

Lemma length_rec_at sz b k : (sz * S k <= length b)%nat -> length (rec_at sz b k) = sz.
Proof. intros Hk. unfold rec_at. rewrite length_take, length_drop. lia. Qed.

Lemma rec_at_set_eq sz b k r : length r = sz -> (sz * S k <= length b)%nat -> rec_at sz (rec_set sz b k r) k = r.
Proof. intros <- Hk. unfold rec_at, rec_set. apply take_drop_splice_eq. lia. Qed.

Lemma rec_at_set_ne sz b k r j : length r = sz -> (sz * S k <= length b)%nat -> j <> k ->
  rec_at sz (rec_set sz b k r) j = rec_at sz b j.
Proof. intros Hr Hk Hj. unfold rec_at, rec_set. apply take_drop_splice_ne; nia. Qed.

Lemma lookup_nth_lt {A} (l : list A) i d : (i < length l)%nat -> l !! i = Some (nth i l d).
Proof. intros Hi. destruct (nth_lookup_or_length l i d); [done|lia]. Qed.

(** ** Round trips *)

Lemma decode_encode_sb sb : Forall (fun w => 0 <= w < 2 ^ 32) (sb_words sb) -> forall rest, decode_sb (encode_sb sb ++ rest) = sb.
Proof.
  intros Hw rest. unfold decode_sb, encode_sb.
  assert (E : forall k w, sb_words sb !! k = Some w -> u32_at (words (sb_words sb) ++ rest) (4 * k) = w).
  { intros k w Hk. apply (words_at [] _ _ _ k); [done..|]. rewrite Forall_lookup in Hw. eauto. }
  destruct sb. cbv zeta. f_equal; apply E; reflexivity.
Qed.

Lemma length_encode_sb sb : length (encode_sb sb) = 56%nat.
Proof. unfold encode_sb. by rewrite length_words. Qed.

Lemma length_encode_inode i : inode_ok i -> length (encode_inode i) = 64%nat.
Proof.
  intros [_ _ _ _ Hd H1 H2 _]. unfold encode_inode. by rewrite !length_app, !length_le, length_words, !length_app, Hd, H1, H2.
Qed.

Lemma map_lookup_seq {A} (f : nat -> A) (l : list A) o n : length l = n ->
  (forall k x, l !! k = Some x -> f (o + k)%nat = x) -> f <$> seq o n = l.
Proof.
  intros <- Hf. revert o Hf. induction l as [|x l IH]; intros o Hf; [done|]. cbn [length seq]. rewrite fmap_cons. f_equal.
  - specialize (Hf 0%nat x eq_refl). by rewrite Nat.add_0_r in Hf.
  - apply IH. intros k y Hk. specialize (Hf (S k) y Hk). rewrite <- Hf. f_equal. lia.
Qed.

Lemma decode_encode_inode i : inode_ok i -> decode_inode (encode_inode i) = i.
Proof.
  intros [Ht Hm Hl Hs Hd H1 H2 Hids]. unfold decode_inode, encode_inode.
  set (ws := data_direct i ++ data_l1 i ++ data_l2 i ++ [data_l3 i]) in *.
  set (pre := [type i; mode i] ++ le 2 (link_cnt i) ++ le 4 (size i)).
  assert (Hpre : length pre = 8%nat) by (unfold pre; rewrite !length_app, !length_le; done).
  assert (E : forall k w, ws !! k = Some w -> u32_at (pre ++ words ws) (8 + 4 * k) = w).
  { intros k w Hk. rewrite <- (app_nil_r (words _)). apply (words_at pre ws [] _ k); [by rewrite Hpre|done|].
    rewrite Forall_lookup in Hids. eauto. }
  replace ([type i; mode i] ++ le 2 (link_cnt i) ++ le 4 (size i) ++ words ws) with (pre ++ words ws)
    by (unfold pre; by rewrite <- !app_assoc).
  assert (Hdd : (fun k => u32_at (pre ++ words ws) (8 + 4 * k)) <$> seq 0 8 = data_direct i).
  { apply map_lookup_seq; [done|]. intros k x Hk. apply E. by apply lookup_app_l_Some. }
  assert (Hd1 : (fun k => u32_at (pre ++ words ws) (8 + 4 * k)) <$> seq 8 3 = data_l1 i).
  { apply map_lookup_seq; [done|]. intros k x Hk. apply E. unfold ws. rewrite lookup_app_r by (rewrite Hd; unfold INODE_DATA_DIRECT; lia).
    rewrite Hd. unfold INODE_DATA_DIRECT. replace (8 + k - 8)%nat with k by lia. by apply lookup_app_l_Some. }
  assert (Hd2 : (fun k => u32_at (pre ++ words ws) (8 + 4 * k)) <$> seq 11 2 = data_l2 i).
  { apply map_lookup_seq; [done|]. intros k x Hk. apply E. unfold ws. rewrite app_assoc.
    assert (Hln : length (data_direct i ++ data_l1 i) = 11%nat) by (rewrite length_app, Hd, H1; done).
    rewrite lookup_app_r by lia. rewrite Hln. replace (11 + k - 11)%nat with k by lia. by apply lookup_app_l_Some. }
  assert (Hd3 : u32_at (pre ++ words ws) (8 + 4 * 13) = data_l3 i).
  { apply E. unfold ws. rewrite !app_assoc. apply list_lookup_middle. rewrite !length_app, Hd, H1, H2. done. }
  assert (Hlk : le_val (take 2 (drop 2 (pre ++ words ws))) = link_cnt i) by (exact (le_val_le 2 (link_cnt i) Hl)).
  assert (Hsz : u32_at (pre ++ words ws) 4 = size i) by (exact (le_val_le 4 (size i) Hs)).
  cbv zeta. rewrite Hdd, Hd1, Hd2, Hd3, Hlk, Hsz. cbn [app pre take drop le_val]. rewrite !Z.mul_0_r, !Z.add_0_r. by destruct i.
Qed.

Lemma length_encode_dir d : dir_ok d -> length (encode_dir d) = 32%nat.
Proof. intros (_ & _ & Hn). unfold encode_dir. rewrite !length_app, !length_le, Hn. done. Qed.

Lemma decode_encode_dir d : dir_ok d -> decode_dir (encode_dir d) = d.
Proof.
  intros (Hi & Hv & Hn). unfold decode_dir, encode_dir, u32_at. rewrite drop_0, take_app_length' by (by rewrite length_le).
  rewrite (drop_app_length' _ _ 4), take_app_length' by (by rewrite length_le).
  rewrite app_assoc, (drop_app_length' (_ ++ _)) by (by rewrite length_app, !length_le).
  rewrite !le_val_le by (cbn; lia). rewrite take_ge by lia. by destruct d.
Qed.

(** Comparing against a stored name is comparing names. *)
Lemma streq_stored n path rest : Forall (fun c => 0 < c) n -> Forall (fun c => 0 < c) path ->
  streq (n ++ 0 :: rest) path = Ok (bool_decide (n = path)).
Proof.
  intros Hn. revert path. induction Hn as [|c n Hc Hn IH]; intros path Hp; cbn [app streq].
  - destruct path as [|x path]; [done|]. apply Forall_cons in Hp as [Hx _]. destruct (Z.eqb_spec 0 x); [lia|].
    by rewrite bool_decide_false.
  - destruct path as [|x path]; [destruct (Z.eqb_spec c 0); [lia|]; by rewrite bool_decide_false|].
    apply Forall_cons in Hp as [Hx Hp]. destruct (Z.eqb_spec c x) as [->|Hne].
    + rewrite IH by done. f_equal. apply bool_decide_ext. split; congruence.
    + by rewrite bool_decide_false by congruence.
Qed.
