(* ===== verification/FsState.v ===== *)
(** The state of the file system and the monad its code is written in.

    The state is what src/fs/fs.cpp keeps: the blocks behind the cache, the
    superblock in memory, the working directory of the current process, and the
    lines printed.  [wp m s Q] states that [m] returns from [s] in a state
    satisfying [Q]; the rules for [Block], its data and [update] come from the
    interface in BlockLayer. *)

From Stdlib Require Import ZArith Lia List String.
From stdpp Require Import base numbers list gmap.
From S2P Require Import Prelude BlockLayer FsLayout.

Local Open Scope Z_scope.

(** * State *)

(** A call of printk (with its format and arguments) or putstr. *)
Inductive parg := Num (z : Z) | Str (s : list Z).
Inductive event := Printk (fmt : string) (args : list parg) | Putstr (s : list Z).

Record fs (S : Type) := MkFs { blk : S; superblock : SuperBlock; cwd_node : Z; console : list event }.
Arguments MkFs {S}. Arguments blk {S}. Arguments superblock {S}. Arguments cwd_node {S}. Arguments console {S}.

Section Monad.
Context {S : Type} `{BlockLayer S}.
Implicit Types (s : fs S) (P : gset nat).

Definition M (A : Type) : Type := fs S -> outcome (A * fs S).
Definition ret {A} (a : A) : M A := fun s => Ok (a, s).
Definition bind {A B} (m : M A) (k : A -> M B) : M B := fun s => ('(a, s) <- m s ;; k a s)%outcome.
Definition lift {A} (o : outcome A) : M A := fun s => (a <- o ;; Ok (a, s))%outcome.

Definition set_blk s (b : S) : fs S := MkFs b (superblock s) (cwd_node s) (console s).

(** Block block(id), block.data, stores through it, block.update() *)
Definition Block (id : Z) : M nat := fun s => ('(h, b) <- bnew (blk s) id ;; Ok (h, set_blk s b))%outcome.
Definition data (h : nat) : M (list Z) := fun s => (b <- bdata (blk s) h ;; Ok (b, s))%outcome.
Definition store (h : nat) (b : list Z) : M unit := fun s => (x <- bstore (blk s) h b ;; Ok (tt, set_blk s x))%outcome.
Definition update (h : nat) : M unit := fun s => (x <- bupdate (blk s) h ;; Ok (tt, set_blk s x))%outcome.

Definition get_superblock : M SuperBlock := fun s => Ok (superblock s, s).
Definition set_superblock (sb : SuperBlock) : M unit := fun s => Ok (tt, MkFs (blk s) sb (cwd_node s) (console s)).
Definition get_cwd : M Z := fun s => Ok (cwd_node s, s).
Definition set_cwd (c : Z) : M unit := fun s => Ok (tt, MkFs (blk s) (superblock s) c (console s)).
Definition emit (e : event) : M unit := fun s => Ok (tt, MkFs (blk s) (superblock s) (cwd_node s) (console s ++ [e])).
Definition printk (fmt : string) (args : list parg) : M unit := emit (Printk fmt args).

(** * Weakest preconditions *)

Definition wp {A} (m : M A) s (Q : A -> fs S -> Prop) : Prop := exists a s', m s = Ok (a, s') /\ Q a s'.

Lemma wp_ret {A} (a : A) s (Q : A -> fs S -> Prop) : Q a s -> wp (ret a) s Q.
Proof. intros HQ. exists a, s. auto. Qed.

Lemma wp_bind {A B} (m : M A) (k : A -> M B) s Q : wp m s (fun a s' => wp (k a) s' Q) -> wp (bind m k) s Q.
Proof.
  intros (a & s' & E & b & s'' & E' & HQ). exists b, s''. split; [|done]. unfold bind. by rewrite E.
Qed.

Lemma wp_mono {A} (m : M A) s (Q Q' : A -> fs S -> Prop) : wp m s Q -> (forall a s', Q a s' -> Q' a s') -> wp m s Q'.
Proof. intros (a & s' & E & HQ) Himp. exists a, s'. auto. Qed.

Lemma wp_lift {A} (a : A) s (Q : A -> fs S -> Prop) : Q a s -> wp (lift (Ok a)) s Q.
Proof. intros HQ. exists a, s. auto. Qed.

Lemma wp_get_superblock s Q : Q (superblock s) s -> wp get_superblock s Q.
Proof. intros HQ. exists (superblock s), s. auto. Qed.
Lemma wp_get_cwd s Q : Q (cwd_node s) s -> wp get_cwd s Q.
Proof. intros HQ. exists (cwd_node s), s. auto. Qed.
Lemma wp_set_superblock sb s Q : Q tt (MkFs (blk s) sb (cwd_node s) (console s)) -> wp (set_superblock sb) s Q.
Proof. intros HQ. eexists tt, _. split; [reflexivity|done]. Qed.
Lemma wp_set_cwd c s Q : Q tt (MkFs (blk s) (superblock s) c (console s)) -> wp (set_cwd c) s Q.
Proof. intros HQ. eexists tt, _. split; [reflexivity|done]. Qed.
Lemma wp_printk fmt args s Q :
  Q tt (MkFs (blk s) (superblock s) (cwd_node s) (console s ++ [Printk fmt args])) -> wp (printk fmt args) s Q.
Proof. intros HQ. eexists tt, _. split; [reflexivity|done]. Qed.

(** ** Blocks *)

Definition disk s (id : Z) : list Z := bview (blk s) id.

(** Everything but the blocks is the same. *)
Definition same_rest s s' : Prop := superblock s' = superblock s /\ cwd_node s' = cwd_node s /\ console s' = console s.

(** No store is pending and the blocks are [f]. *)
Definition blocks s (f : Z -> list Z) : Prop := binv (blk s) ∅ /\ forall b, is_block b -> disk s b = f b.

Definition quiet s s' : Prop := blocks s' (disk s) /\ same_rest s s'.
Definition wrote s s' (id : Z) (b : list Z) : Prop :=
  blocks s' (fun k => if decide (k = id) then b else disk s k) /\ same_rest s s'.

Lemma quiet_refl s : binv (blk s) ∅ -> quiet s s.
Proof. intros Hs. split; [by split|done]. Qed.
Lemma quiet_trans s1 s2 s3 : quiet s1 s2 -> quiet s2 s3 -> quiet s1 s3.
Proof.
  intros [[B1 E1] (? & ? & ?)] [[B2 E2] (? & ? & ?)]. split; [split; [done|]|unfold same_rest; split_and!; congruence].
  intros b Hb. rewrite E2, E1 by done. done.
Qed.
Lemma quiet_wrote s1 s2 s3 id b : quiet s1 s2 -> wrote s2 s3 id b -> wrote s1 s3 id b.
Proof.
  intros [[B1 E1] (? & ? & ?)] [[B2 E2] (? & ? & ?)]. split; [split; [done|]|unfold same_rest; split_and!; congruence].
  intros k Hk. rewrite E2 by done. case_decide; [done|]. by apply E1.
Qed.
Lemma wrote_inv s s' id b : wrote s s' id b -> binv (blk s') ∅.
Proof. intros [[? _] _]. done. Qed.
Lemma wrote_disk s s' id b k : wrote s s' id b -> is_block k -> disk s' k = if decide (k = id) then b else disk s k.
Proof. intros [[_ E] _]. apply E. Qed.
Lemma wrote_eq s s' id b : wrote s s' id b -> is_block id -> disk s' id = b.
Proof. intros W Hid. rewrite (wrote_disk _ _ _ _ _ W Hid). by case_decide. Qed.
Lemma wrote_ne s s' id b k : wrote s s' id b -> is_block k -> k <> id -> disk s' k = disk s k.
Proof. intros W Hk Hne. rewrite (wrote_disk _ _ _ _ _ W Hk). by case_decide. Qed.

Lemma disk_length s id : binv (blk s) ∅ -> is_block id -> List.length (disk s id) = 4096%nat.
Proof. apply bview_length. Qed.

Lemma wp_Block s id Q :
  binv (blk s) ∅ -> is_block id -> (forall h s', quiet s s' -> bheld (blk s') h id 63 -> Q h s') -> wp (Block id) s Q.
Proof.
  intros Hs Hid HQ. destruct (bnew_spec (blk s) ∅ id Hs Hid) as (h & b & E & Hb & Hh & Hv & _); [set_solver|].
  exists h, (set_blk s b). split; [unfold Block; by rewrite E|]. apply HQ; [|done]. by split.
Qed.

Lemma wp_data s P h id n Q :
  binv (blk s) P -> bheld (blk s) h id n -> is_block id -> Q (disk s id) s -> wp (data h) s Q.
Proof.
  intros Hs Hh Hid HQ. exists (disk s id), s. split; [|done]. unfold data. by rewrite (bdata_spec _ P _ id n).
Qed.

(** [Block] followed by reading its data. *)
Lemma wp_Block_data {A} (k : nat -> list Z -> M A) s id Q :
  binv (blk s) ∅ -> is_block id ->
  (forall h s', quiet s s' -> bheld (blk s') h id 63 -> wp (k h (disk s id)) s' Q) ->
  wp (bind (Block id) (fun h => bind (data h) (k h))) s Q.
Proof.
  intros Hs Hid HQ. apply wp_bind, wp_Block; [done..|]. intros h s' Hq Hh. apply wp_bind.
  pose proof Hq as [[Hi E] _]. eapply (wp_data _ ∅); [done..|]. rewrite E by done. by apply HQ.
Qed.

(** The general rules, with stores pending. *)
Lemma wp_store s P h id n b Q :
  binv (blk s) P -> bheld (blk s) h id n -> is_block id -> List.length b = 4096%nat ->
  (forall s', binv (blk s') ({[h]} ∪ P) -> (forall k, is_block k -> disk s' k = if decide (k = id) then b else disk s k) ->
     same_rest s s' -> (forall j i m, bheld (blk s) j i m -> bheld (blk s') j i m) -> Q tt s') ->
  wp (store h b) s Q.
Proof.
  intros Hs Hh Hid Hb HQ. destruct (bstore_spec _ P _ id n b Hs Hh Hid Hb) as (x & E & Hx & Vx & Kx).
  exists tt, (set_blk s x). split; [unfold store; by rewrite E|]. by apply HQ.
Qed.

Lemma wp_update s P h id n Q :
  binv (blk s) P -> bheld (blk s) h id n -> is_block id ->
  (forall s', binv (blk s') (P ∖ {[h]}) -> (forall k, is_block k -> disk s' k = disk s k) ->
     same_rest s s' -> (forall j i m, bheld (blk s) j i m -> bheld (blk s') j i m) -> Q tt s') ->
  wp (update h) s Q.
Proof.
  intros Hs Hh Hid HQ. destruct (bupdate_spec _ P _ id n Hs Hh Hid) as (x & E & Hx & Vx & Kx).
  exists tt, (set_blk s x). split; [unfold update; by rewrite E|]. by apply HQ.
Qed.

(** A store followed at once by [update]. *)
Lemma wp_store_update {A} (k : M A) s h id n b Q :
  binv (blk s) ∅ -> bheld (blk s) h id n -> is_block id -> List.length b = 4096%nat ->
  (forall s', wrote s s' id b -> (forall j i m, bheld (blk s) j i m -> bheld (blk s') j i m) -> wp k s' Q) ->
  wp (bind (store h b) (fun _ => bind (update h) (fun _ => k))) s Q.
Proof.
  intros Hs Hh Hid Hb HQ. destruct (bstore_spec _ ∅ _ id n b Hs Hh Hid Hb) as (x & E & Hx & Vx & Kx).
  destruct (bupdate_spec x _ h id n Hx (Kx _ _ _ Hh) Hid) as (y & E' & Hy & Vy & Ky).
  rewrite pending_done in Hy by done.
  assert (Hw : wrote s (set_blk (set_blk s x) y) id b).
  { split; [|done]. split; [done|]. intros k' Hk. unfold disk. cbn. rewrite Vy, Vx by done. done. }
  destruct (HQ _ Hw) as (a & s' & Ea & Ha); [cbn; auto|]. exists a, s'. split; [|done].
  unfold bind, store, update. rewrite E. cbn. rewrite E'. exact Ea.
Qed.

Lemma wp_store_update_end s h id n b Q :
  binv (blk s) ∅ -> bheld (blk s) h id n -> is_block id -> List.length b = 4096%nat ->
  (forall s', wrote s s' id b -> Q tt s') -> wp (bind (store h b) (fun _ => update h)) s Q.
Proof.
  intros Hs Hh Hid Hb HQ.
  destruct (wp_store_update (ret tt) s h id n b Q Hs Hh Hid Hb) as (a & s' & E & Ha).
  { intros s' W _. by apply wp_ret, HQ. }
  exists a, s'. split; [|done]. unfold bind in *. destruct (store h b s) as [[[] s1]| | |]; try done. cbn in *.
  by destruct (update h s1) as [[[] s2]| | |].
Qed.
End Monad.

Arguments M : clear implicits.

Declare Scope fs_scope.
Delimit Scope fs_scope with fs.
Notation "x <- c ;; k" := (bind c (fun x => k)) (at level 20, c at level 99, k at level 200) : fs_scope.
Notation "' p <- c ;; k" := (bind c (fun x => match x with p => k end)) (at level 20, p pattern, c at level 99, k at level 200) : fs_scope.
Notation "c1 ;; k" := (bind c1 (fun _ => k)) (at level 100, k at level 200, right associativity) : fs_scope.
