(* ===== verification/FsAlloc.v ===== *)
(** Allocation of inodes and blocks in src/fs/fs.cpp: two bitmaps on disk, each
    with a counter and a low-water mark in the superblock, which is written to
    block 0 after every change. *)

From Stdlib Require Import ZArith Lia List String.
From stdpp Require Import base numbers list gmap.
From S2P Require Import Prelude BlockLayer FsLayout FsState.

Local Open Scope Z_scope.
Local Open Scope fs_scope.

Definition BITS_PER_BLOCK : Z := BLOCK_SIZE * 8.

(** superblock.inode_allocated and superblock.inode_free_min; likewise for blocks *)
Definition set_inode_counts (sb : SuperBlock) (allocated free_min : Z) : SuperBlock :=
  MkSB (magic0 sb) (fs_start sb) (inode_map_start_block sb) (inode_map_size sb) allocated free_min
       (block_map_start_block sb) (block_map_size sb) (block_allocated sb) (block_free_min sb)
       (inode_start_block sb) (block_start_block sb) (root_inode sb) (magic1 sb).
Definition set_block_counts (sb : SuperBlock) (allocated free_min : Z) : SuperBlock :=
  MkSB (magic0 sb) (fs_start sb) (inode_map_start_block sb) (inode_map_size sb) (inode_allocated sb) (inode_free_min sb)
       (block_map_start_block sb) (block_map_size sb) allocated free_min
       (inode_start_block sb) (block_start_block sb) (root_inode sb) (magic1 sb).

Section Code.
Context {S : Type} `{BlockLayer S}.

(** void flush_superblock() *)
Definition flush_superblock : M S unit :=
  h <- Block 0 ;;
  b <- data h ;;
  sb <- get_superblock ;;
  store h (splice b 0 (encode_sb sb)) ;;
  update h.

(** The loop over [k]: the first clear bit of a byte. *)
Fixpoint scan_bits (x : Z) (k n : nat) : option nat :=
  match n with
  | O => None
  | Datatypes.S n' => if Z.land x (Z.shiftl 1 (Z.of_nat k)) =? 0 then Some k else scan_bits x (k + 1) n'
  end.

(** The loop over [j]. *)
Fixpoint scan_bytes (b : list Z) (j : nat) : option (nat * nat) :=
  match b with
  | [] => None
  | x :: b' =>
      if negb (x =? 0xff) then
        match scan_bits x 0 8 with
        | Some k => Some (j, k)
        | None => scan_bytes b' (j + 1)
        end
      else scan_bytes b' (j + 1)
  end.

(** The loop over the blocks of a bitmap, from block [i] on: the first clear bit
    is set, and its number returned. *)
Fixpoint alloc_scan (start i : Z) (n : nat) : M S (option Z) :=
  match n with
  | O => ret None
  | Datatypes.S n' =>
      h <- Block (u32 (start + i)) ;;
      b <- data h ;;
      match scan_bytes b 0 with
      | Some (j, k) =>
          store h (<[j := Z.lor (nth j b 0) (Z.shiftl 1 (Z.of_nat k))]> b) ;;
          update h ;;
          ret (Some (i32 (i * BLOCK_SIZE * 8 + Z.of_nat j * 8 + Z.of_nat k)))
      | None => alloc_scan start (i + 1) n'
      end
  end.

(** int inode_alloc() *)
Definition inode_alloc : M S Z :=
  sb <- get_superblock ;;
  let i := inode_free_min sb / (BLOCK_SIZE * 8) in
  r <- alloc_scan (inode_map_start_block sb) i (Z.to_nat (inode_map_size sb / (BLOCK_SIZE * 8) - i)) ;;
  match r with
  | Some inode =>
      sb <- get_superblock ;;
      set_superblock (set_inode_counts sb (u32 (inode_allocated sb + 1)) (u32 (inode + 1))) ;;
      flush_superblock ;;
      ret inode
  | None => lift Panic
  end.

(** int block_alloc() *)
Definition block_alloc : M S Z :=
  sb <- get_superblock ;;
  let i := block_free_min sb / (BLOCK_SIZE * 8) in
  r <- alloc_scan (block_map_start_block sb) i (Z.to_nat (block_map_size sb / (BLOCK_SIZE * 8) - i)) ;;
  match r with
  | Some blockid =>
      sb <- get_superblock ;;
      set_superblock (set_block_counts sb (u32 (block_allocated sb + 1)) (u32 (blockid + 1))) ;;
      flush_superblock ;;
      ret blockid
  | None => lift Panic
  end.

(** Clearing the bit of [no] in the bitmap at [start]. *)
Definition clear_bit (start no : Z) : M S unit :=
  let i := no / (BLOCK_SIZE * 8) in
  let j := Z.to_nat (no mod (BLOCK_SIZE * 8) / 8) in
  let k := no mod 8 in
  h <- Block (u32 (start + i)) ;;
  b <- data h ;;
  lift (assert_ (negb (Z.land (nth j b 0) (Z.shiftl 1 k) =? 0))) ;;
  store h (<[j := u8 (Z.land (nth j b 0) (Z.lnot (Z.shiftl 1 k)))]> b) ;;
  update h.

(** void inode_free(uint ino) *)
Definition inode_free (ino : Z) : M S unit :=
  lift (assert_ (ino <? MAX_INODE_NUM)) ;;
  sb <- get_superblock ;;
  clear_bit (inode_map_start_block sb) ino ;;
  sb <- get_superblock ;;
  set_superblock (set_inode_counts sb (u32 (inode_allocated sb - 1)) (if ino <? inode_free_min sb then ino else inode_free_min sb)) ;;
  flush_superblock.

(** void block_free(uint blockid) *)
Definition block_free (blockid : Z) : M S unit :=
  lift (assert_ (blockid <? MAX_BLOCK_NUM)) ;;
  sb <- get_superblock ;;
  clear_bit (block_map_start_block sb) blockid ;;
  sb <- get_superblock ;;
  set_superblock (set_block_counts sb (u32 (block_allocated sb - 1)) (if blockid <? block_free_min sb then blockid else block_free_min sb)) ;;
  flush_superblock.

(** * Bitmaps *)

(** Bit [p] of a block, and bit [n] of a bitmap that starts at block [start]. *)
Definition bbit (b : list Z) (p : Z) : bool := Z.testbit (nth (Z.to_nat (p / 8)) b 0) (p mod 8).
Definition mbit (f : Z -> list Z) (start n : Z) : bool := bbit (f (start + n / 32768)) (n mod 32768).

Definition set_bbit (b : list Z) (p : Z) (v : bool) : list Z :=
  let j := Z.to_nat (p / 8) in
  <[j := if v then Z.lor (nth j b 0) (2 ^ (p mod 8)) else Z.ldiff (nth j b 0) (2 ^ (p mod 8))]> b.

Definition count_bits (f : Z -> list Z) (start size : Z) : Z :=
  Z.of_nat (List.length (filter (fun n => mbit f start n = true) (seqZ 0 size))).

(** A bitmap of [size] bits whose counter and low-water mark are right: every bit
    in a block below that of the mark is set. *)
Record map_ok (f : Z -> list Z) (start size allocated free_min : Z) : Prop := {
  mo_bytes : forall i, 0 <= i < size / 32768 -> Forall (fun x => 0 <= x < 256) (f (start + i)) /\ List.length (f (start + i)) = 4096%nat;
  mo_low : forall n, 0 <= n < 32768 * (free_min / 32768) -> n < size -> mbit f start n = true;
  mo_size : 0 <= size /\ size = 32768 * (size / 32768);
  mo_mark : 0 <= free_min <= size;
  mo_count : allocated = count_bits f start size
}.

(** ** Lemmas on bits *)

Lemma land_bit x k : 0 <= k -> (Z.land x (Z.shiftl 1 k) =? 0) = negb (Z.testbit x k).
Proof.
  intros Hk. rewrite Z.shiftl_1_l. destruct (Z.testbit x k) eqn:E; cbn [negb].
  - apply Z.eqb_neq. intros Hz. apply (f_equal (fun z => Z.testbit z k)) in Hz.
    by rewrite Z.land_spec, Z.bits_0, Z.pow2_bits_true, E in Hz.
  - apply Z.eqb_eq. apply Z.bits_inj'. intros i Hi. rewrite Z.land_spec, Z.bits_0, Z.pow2_bits_eqb by done.
    destruct (Z.eqb_spec k i) as [->|]; [by rewrite E|by rewrite andb_false_r].
Qed.

Lemma scan_bits_spec x n : forall k,
  match scan_bits x k n with
  | Some r => (k <= r < k + n)%nat /\ Z.testbit x (Z.of_nat r) = false /\ forall q, (k <= q < r)%nat -> Z.testbit x (Z.of_nat q) = true
  | None => forall q, (k <= q < k + n)%nat -> Z.testbit x (Z.of_nat q) = true
  end.
Proof.
  induction n as [|n IH]; intros k; cbn [scan_bits]; [intros; lia|]. rewrite land_bit by lia.
  destruct (Z.testbit x (Z.of_nat k)) eqn:E; cbn [negb]; [|split_and!; [lia..|done|intros; lia]].
  specialize (IH (k + 1)%nat). destruct (scan_bits x (k + 1) n) as [r|].
  - destruct IH as (Hr & Hx & Hlow). split; [lia|]. split; [done|]. intros q Hq. destruct (decide (q = k)) as [->|]; [done|]. apply Hlow. lia.
  - intros q Hq. destruct (decide (q = k)) as [->|]; [done|]. apply IH. lia.
Qed.

Lemma scan_bytes_spec b : forall j,
  match scan_bytes b j with
  | Some (j', k) => exists d, j' = (j + d)%nat /\ (d < List.length b)%nat /\ (k < 8)%nat /\ Z.testbit (nth d b 0) (Z.of_nat k) = false /\
      (forall e q, (e < d)%nat -> (q < 8)%nat -> Z.testbit (nth e b 0) (Z.of_nat q) = true) /\
      (forall q, (q < k)%nat -> Z.testbit (nth d b 0) (Z.of_nat q) = true)
  | None => forall e q, (e < List.length b)%nat -> (q < 8)%nat -> Z.testbit (nth e b 0) (Z.of_nat q) = true
  end.
Proof.
  induction b as [|x b IH]; intros j; cbn [scan_bytes List.length]; [intros; lia|].
  assert (Hrest : (forall q, (q < 8)%nat -> Z.testbit x (Z.of_nat q) = true) ->
    match scan_bytes b (j + 1) with
    | Some (j', k) => exists d, j' = (j + d)%nat /\ (d < Datatypes.S (List.length b))%nat /\ (k < 8)%nat /\ Z.testbit (nth d (x :: b) 0) (Z.of_nat k) = false /\
        (forall e q, (e < d)%nat -> (q < 8)%nat -> Z.testbit (nth e (x :: b) 0) (Z.of_nat q) = true) /\
        (forall q, (q < k)%nat -> Z.testbit (nth d (x :: b) 0) (Z.of_nat q) = true)
    | None => forall e q, (e < Datatypes.S (List.length b))%nat -> (q < 8)%nat -> Z.testbit (nth e (x :: b) 0) (Z.of_nat q) = true
    end).
  { intros Hx. specialize (IH (j + 1)%nat). destruct (scan_bytes b (j + 1)) as [[j' k]|].
    - destruct IH as (d & -> & Hd & Hk & H0 & Hb & Hq). exists (Datatypes.S d). cbn [nth]. split; [lia|]. split; [lia|].
      split; [done|]. split; [done|]. split; [|done]. intros [|e] q He Hq'; [by apply Hx|]. apply Hb; lia.
    - intros [|e] q He Hq; cbn [nth]; [by apply Hx|]. apply IH; lia. }
  destruct (Z.eqb_spec x 255) as [->|Hne]; cbn [negb].
  - apply Hrest. intros q Hq. do 8 (destruct q as [|q]; [done|]). lia.
  - pose proof (scan_bits_spec x 8 0) as Hs. destruct (scan_bits x 0 8) as [k|].
    + destruct Hs as (Hk & H0 & Hq). exists 0%nat. cbn [nth]. split; [lia|]. split; [lia|]. split; [lia|]. split; [done|].
      split; [intros; lia|]. intros q Hq'. apply Hq. lia.
    + apply Hrest. intros q Hq. apply Hs. lia.
Qed.

(** The scan of a block finds its lowest clear bit. *)
Lemma scan_block_spec b : List.length b = 4096%nat ->
  match scan_bytes b 0 with
  | Some (j, k) => let p := 8 * Z.of_nat j + Z.of_nat k in
      0 <= p < 32768 /\ bbit b p = false /\ (forall q, 0 <= q < p -> bbit b q = true) /\
      <[j := Z.lor (nth j b 0) (Z.shiftl 1 (Z.of_nat k))]> b = set_bbit b p true
  | None => forall q, 0 <= q < 32768 -> bbit b q = true
  end.
Proof.
  intros Hlen. pose proof (scan_bytes_spec b 0) as Hs.
  assert (Hbit : forall q, 0 <= q < 32768 -> bbit b q = Z.testbit (nth (Z.to_nat (q / 8)) b 0) (Z.of_nat (Z.to_nat (q mod 8)))).
  { intros q Hq. unfold bbit. rewrite Z2Nat.id; [done|]. apply Z.mod_pos_bound. lia. }
  assert (Hdm : forall q, 0 <= q < 32768 -> q = 8 * (q / 8) + q mod 8 /\ 0 <= q mod 8 < 8 /\ 0 <= q / 8 < 4096).
  { intros q Hq. pose proof (Z.div_mod q 8). pose proof (Z.mod_pos_bound q 8). lia. }
  destruct (scan_bytes b 0) as [[j k]|].
  - destruct Hs as (d & -> & Hd & Hk & H0 & Hb & Hq). cbn zeta. rewrite Nat.add_0_l in *.
    assert (Hp : (8 * Z.of_nat d + Z.of_nat k) / 8 = Z.of_nat d /\ (8 * Z.of_nat d + Z.of_nat k) mod 8 = Z.of_nat k).
    { split; [symmetry; apply (Z.div_unique_pos _ _ _ (Z.of_nat k)); lia|symmetry; apply (Z.mod_unique_pos _ _ (Z.of_nat d)); lia]. }
    destruct Hp as [Hp1 Hp2]. split; [lia|]. split; [unfold bbit; by rewrite Hp1, Hp2, Nat2Z.id|]. split.
    + intros q Hqp. destruct (Hdm q) as (E & Hm & Hd'); [lia|]. rewrite Hbit by lia.
      destruct (decide (Z.to_nat (q / 8) = d)) as [Hqd|Hqd]; [rewrite Hqd; apply Hq; lia|apply Hb; lia].
    + unfold set_bbit. by rewrite Hp1, Hp2, Nat2Z.id, Z.shiftl_1_l.
  - intros q Hqp. destruct (Hdm q) as (E & Hm & Hd'); [lia|]. rewrite Hbit by lia. apply Hs; lia.
Qed.

Lemma length_set_bbit b p v : List.length (set_bbit b p v) = List.length b.
Proof. unfold set_bbit. apply length_insert. Qed.

Lemma byte_bound x : 0 <= x -> (forall i, 8 <= i -> Z.testbit x i = false) -> x < 256.
Proof.
  intros Hx Hi. assert (E : x = x mod 2 ^ 8); [|rewrite E; apply Z.mod_pos_bound; lia].
  apply Z.bits_inj'. intros i Hi'. destruct (decide (i < 8)); [by rewrite Z.mod_pow2_bits_low|].
  rewrite Z.mod_pow2_bits_high by lia. apply Hi. lia.
Qed.

Lemma set_bbit_bytes b p v : Forall (fun x => 0 <= x < 256) b -> Forall (fun x => 0 <= x < 256) (set_bbit b p v).
Proof.
  intros Hb. unfold set_bbit. apply Forall_insert; [done|]. set (x := nth (Z.to_nat (p / 8)) b 0).
  assert (Hx : 0 <= x < 256).
  { unfold x. destruct (decide (Z.to_nat (p / 8) < List.length b)%nat) as [Hlt|Hge]; [|by rewrite nth_overflow by lia].
    rewrite List.Forall_forall in Hb. apply Hb. by apply nth_In. }
  pose proof (Z.mod_pos_bound p 8 ltac:(lia)) as Hm.
  assert (Hbits : forall i, 8 <= i -> Z.testbit x i = false) by (intros i Hi; apply (testbit_small x 8); lia).
  assert (Hpow : 0 <= 2 ^ (p mod 8)) by (apply Z.pow_nonneg; lia).
  destruct v.
  - split; [apply Z.lor_nonneg; lia|]. apply byte_bound; [apply Z.lor_nonneg; lia|]. intros i Hi.
    rewrite Z.lor_spec, Hbits, Z.pow2_bits_eqb by lia. destruct (Z.eqb_spec (p mod 8) i); [lia|done].
  - split; [apply Z.ldiff_nonneg; lia|]. apply byte_bound; [apply Z.ldiff_nonneg; lia|]. intros i Hi.
    by rewrite Z.ldiff_spec, Hbits.
Qed.

Lemma nth_insert (b : list Z) j x e : (j < List.length b)%nat -> nth e (<[j := x]> b) 0 = if decide (e = j) then x else nth e b 0.
Proof.
  intros Hj. rewrite !nth_lookup. case_decide as E.
  - subst e. by rewrite list_lookup_insert_eq.
  - by rewrite list_lookup_insert_ne by congruence.
Qed.

Lemma bbit_set b p v q : List.length b = 4096%nat -> 0 <= p < 32768 -> 0 <= q < 32768 ->
  bbit (set_bbit b p v) q = if decide (q = p) then v else bbit b q.
Proof.
  intros Hlen Hp Hq. unfold bbit, set_bbit.
  pose proof (Z.div_mod p 8). pose proof (Z.mod_pos_bound p 8). pose proof (Z.div_mod q 8). pose proof (Z.mod_pos_bound q 8).
  rewrite nth_insert by lia. destruct (decide (Z.to_nat (q / 8) = Z.to_nat (p / 8))) as [E|E].
  - assert (q / 8 = p / 8) as -> by lia. destruct v.
    + rewrite Z.lor_spec, Z.pow2_bits_eqb by lia. destruct (Z.eqb_spec (p mod 8) (q mod 8)) as [Em|Em].
      * rewrite orb_true_r. case_decide; [done|lia].
      * rewrite orb_false_r. case_decide; [subst q; lia|done].
    + rewrite Z.ldiff_spec, Z.pow2_bits_eqb by lia. destruct (Z.eqb_spec (p mod 8) (q mod 8)) as [Em|Em].
      * rewrite andb_false_r. case_decide; [done|lia].
      * rewrite andb_true_r. case_decide; [subst q; lia|done].
  - case_decide; [subst q; lia|done].
Qed.

(** ** Lemmas on bitmaps *)

(** [f'] is [f] with bit [p] set to [v]. *)
Definition map_set (f f' : Z -> list Z) (start size p : Z) (v : bool) : Prop :=
  forall i, 0 <= i < size / 32768 ->
    f' (start + i) = if decide (i = p / 32768) then set_bbit (f (start + i)) (p mod 32768) v else f (start + i).

Lemma block_index size n : size = 32768 * (size / 32768) -> 0 <= n < size ->
  0 <= n / 32768 < size / 32768 /\ 0 <= n mod 32768 < 32768 /\ n = 32768 * (n / 32768) + n mod 32768.
Proof.
  intros Hs Hn. pose proof (Z.div_mod n 32768). pose proof (Z.mod_pos_bound n 32768). lia.
Qed.

Lemma mbit_set f f' start size p v a m n : map_ok f start size a m -> map_set f f' start size p v ->
  0 <= p < size -> 0 <= n < size -> mbit f' start n = if decide (n = p) then v else mbit f start n.
Proof.
  intros Hf Hset Hp Hn. destruct (mo_size _ _ _ _ _ Hf) as [_ Hsize].
  destruct (block_index size p Hsize Hp) as (Hpi & Hpm & Ep), (block_index size n Hsize Hn) as (Hni & Hnm & En).
  unfold mbit. rewrite Hset by done. destruct (decide (n / 32768 = p / 32768)) as [E|E].
  - rewrite E. destruct (mo_bytes _ _ _ _ _ Hf _ Hpi) as [_ Hlen]. rewrite bbit_set by done.
    destruct (decide (n mod 32768 = p mod 32768)), (decide (n = p)); try done; lia.
  - case_decide; [subst n; done|done].
Qed.

Lemma count_split (f : Z -> list Z) start size p : 0 <= p < size ->
  count_bits f start size =
  Z.of_nat (List.length (filter (fun n => mbit f start n = true) (seqZ 0 p))) +
  (if mbit f start p then 1 else 0) +
  Z.of_nat (List.length (filter (fun n => mbit f start n = true) (seqZ (p + 1) (size - p - 1)))).
Proof.
  intros Hp. unfold count_bits. replace size with (p + (1 + (size - p - 1))) at 1 by lia.
  rewrite !seqZ_app by lia. rewrite Z.add_0_l. rewrite !filter_app, !length_app.
  rewrite (seqZ_cons p 1) by lia. cbn [Z.pred]. change (seqZ (Z.succ p) (Z.pred 1)) with (@nil Z).
  rewrite filter_cons, filter_nil. destruct (mbit f start p); case_decide; try done; cbn [List.length]; lia.
Qed.

Lemma filter_length_ext (P Q : Z -> Prop) `{!forall x, Decision (P x)} `{!forall x, Decision (Q x)} (l : list Z) :
  (forall x, x ∈ l -> P x <-> Q x) -> List.length (filter P l) = List.length (filter Q l).
Proof.
  induction l as [|x l IH]; intros Hx; [done|]. rewrite !filter_cons.
  assert (IH' : List.length (filter P l) = List.length (filter Q l)) by (apply IH; intros y Hy; apply Hx; by right).
  pose proof (Hx x ltac:(left)) as E. destruct (decide (P x)), (decide (Q x)); cbn [List.length]; try lia; tauto.
Qed.

Lemma count_set f f' start size p v a m : map_ok f start size a m -> map_set f f' start size p v -> 0 <= p < size ->
  mbit f start p = negb v -> count_bits f' start size = count_bits f start size + (if v then 1 else -1).
Proof.
  intros Hf Hset Hp Hbit. rewrite !(count_split _ _ _ p) by done.
  rewrite (mbit_set f f' start size p v a m p), Hbit by done. rewrite decide_True by done.
  rewrite (filter_length_ext (fun n => mbit f' start n = true) (fun n => mbit f start n = true) (seqZ 0 p)).
  2:{ intros n Hn. apply elem_of_seqZ in Hn. rewrite (mbit_set f f' start size p v a m n) by (done || lia). case_decide; [lia|done]. }
  rewrite (filter_length_ext (fun n => mbit f' start n = true) (fun n => mbit f start n = true) (seqZ (p + 1) _)).
  2:{ intros n Hn. apply elem_of_seqZ in Hn. rewrite (mbit_set f f' start size p v a m n) by (done || lia). case_decide; [lia|done]. }
  destruct v; cbn [negb]; lia.
Qed.

Lemma count_range f start size : 0 <= size -> 0 <= count_bits f start size <= size.
Proof.
  intros Hs. unfold count_bits. pose proof (length_filter (fun n => mbit f start n = true) (seqZ 0 size)) as Hl.
  rewrite length_seqZ in Hl. lia.
Qed.

Lemma map_ok_ext f f' start size a m : map_ok f start size a m ->
  (forall i, 0 <= i < size / 32768 -> f' (start + i) = f (start + i)) -> map_ok f' start size a m.
Proof.
  intros Hf E. destruct (mo_size _ _ _ _ _ Hf) as [Hs0 Hsize].
  assert (Hbit : forall n, 0 <= n < size -> mbit f' start n = mbit f start n).
  { intros n Hn. unfold mbit. destruct (block_index size n Hsize Hn) as (? & _). by rewrite E. }
  split; [| | by split | apply Hf |].
  - intros i Hi. rewrite E by done. by apply (mo_bytes _ _ _ _ _ Hf).
  - intros n Hn Hlt. rewrite Hbit by lia. by apply (mo_low _ _ _ _ _ Hf).
  - rewrite (mo_count _ _ _ _ _ Hf). unfold count_bits. f_equal. apply filter_length_ext.
    intros n Hn. apply elem_of_seqZ in Hn. by rewrite Hbit by lia.
Qed.

Lemma map_bytes_set f f' start size a m p v : map_ok f start size a m -> map_set f f' start size p v ->
  forall i, 0 <= i < size / 32768 -> Forall (fun x => 0 <= x < 256) (f' (start + i)) /\ List.length (f' (start + i)) = 4096%nat.
Proof.
  intros Hf Hset i Hi. rewrite Hset by done. destruct (mo_bytes _ _ _ _ _ Hf i Hi) as [Hb Hl].
  case_decide; [|done]. rewrite length_set_bbit. split; [by apply set_bbit_bytes|done].
Qed.

Lemma map_ok_alloc f f' start size a m p : map_ok f start size a m -> map_set f f' start size p true -> 0 <= p < size ->
  mbit f start p = false -> (forall n, 32768 * (m / 32768) <= n < p -> mbit f start n = true) ->
  map_ok f' start size (a + 1) (p + 1).
Proof.
  intros Hf Hset Hp Hbit Hlow. split; [by eapply map_bytes_set| |apply Hf|lia|].
  - intros n Hn Hlt. rewrite (mbit_set f f' start size p true a m n) by (done || lia). case_decide; [done|].
    destruct (decide (n < 32768 * (m / 32768))); [apply (mo_low _ _ _ _ _ Hf); lia|].
    apply Hlow. split; [lia|]. pose proof (Z.div_mod (p + 1) 32768). pose proof (Z.mod_pos_bound (p + 1) 32768). lia.
  - rewrite (count_set f f' start size p true a m), (mo_count _ _ _ _ _ Hf) by done. lia.
Qed.

Lemma map_ok_free f f' start size a m p : map_ok f start size a m -> map_set f f' start size p false -> 0 <= p < size ->
  mbit f start p = true -> map_ok f' start size (a - 1) (if p <? m then p else m).
Proof.
  intros Hf Hset Hp Hbit. pose proof (mo_mark _ _ _ _ _ Hf) as Hm. split; [by eapply map_bytes_set| |apply Hf| |].
  - intros n Hn Hlt. assert (Hle : (if p <? m then p else m) <= m /\ (if p <? m then p else m) <= p) by (destruct (Z.ltb_spec p m); lia).
    set (q := if p <? m then p else m) in *. clearbody q.
    assert (q / 32768 <= m / 32768) by (apply Z.div_le_mono; lia). assert (32768 * (q / 32768) <= q) by (apply Z.mul_div_le; lia).
    rewrite (mbit_set f f' start size p false a m n) by (done || lia). case_decide; [lia|]. apply (mo_low _ _ _ _ _ Hf); lia.
  - destruct (Z.ltb_spec p m); lia.
  - rewrite (count_set f f' start size p false a m), (mo_count _ _ _ _ _ Hf) by done. lia.
Qed.

(** * The invariant of the file system *)

(** The layout [fs_mkfs] writes: superblock, 1 block of inode bits, 3 blocks of
    block bits, 512 blocks of inodes, data blocks from 517 on. *)
Record layout_ok (sb : SuperBlock) : Prop := {
  lo_magic0 : magic0 sb = SUPERBLOCK_MAGIC; lo_start : fs_start sb = BLOCK_START;
  lo_imap : inode_map_start_block sb = 1; lo_isize : inode_map_size sb = 32768;
  lo_bmap : block_map_start_block sb = 2; lo_bsize : block_map_size sb = 98304;
  lo_inodes : inode_start_block sb = 5; lo_blocks : block_start_block sb = 517;
  lo_root : 0 <= root_inode sb < 2 ^ 32; lo_magic1 : magic1 sb = SUPERBLOCK_MAGIC
}.

Definition imap (s : fs S) (n : Z) : bool := mbit (disk s) 1 n.
Definition bmap (s : fs S) (n : Z) : bool := mbit (disk s) 2 n.

(** The maps and the superblock in memory. *)
Record fs_core (s : fs S) : Prop := {
  fi_blk : binv (blk s) ∅;
  fi_layout : layout_ok (superblock s);
  fi_inodes : map_ok (disk s) 1 32768 (inode_allocated (superblock s)) (inode_free_min (superblock s));
  fi_blocks : map_ok (disk s) 2 98304 (block_allocated (superblock s)) (block_free_min (superblock s));
  fi_reserved : forall n, 0 <= n < 517 -> bmap s n = true
}.

(** Block 0 holds the superblock as well. *)
Record fs_inv (s : fs S) : Prop := { fi_core : fs_core s; fi_flushed : decode_sb (disk s 0) = superblock s }.

Lemma is_block_range b : is_block b <-> 0 <= b < 98304.
Proof. unfold is_block. by change MAX_BLOCK_NUM with 98304. Qed.

Lemma alloc_scan_spec start size a m n : forall i s,
  binv (blk s) ∅ -> map_ok (disk s) start size a m -> size <= 98304 -> 0 <= start <= 10 -> 0 <= i -> i + Z.of_nat n = size / 32768 ->
  wp (alloc_scan start i n) s (fun r s' =>
    match r with
    | Some p => 32768 * i <= p < size /\ mbit (disk s) start p = false /\
        (forall q, 32768 * i <= q < p -> mbit (disk s) start q = true) /\
        wrote s s' (start + p / 32768) (set_bbit (disk s (start + p / 32768)) (p mod 32768) true)
    | None => quiet s s' /\ forall q, 32768 * i <= q < size -> mbit (disk s) start q = true
    end).
Proof.
  induction n as [|n IH]; intros i s Hs Hf Hsize Hstart Hi Hn; destruct (mo_size _ _ _ _ _ Hf) as [_ Hmul]; cbn [alloc_scan].
  { apply wp_ret. split; [by apply quiet_refl|]. intros q Hq. lia. }
  assert (Hin : 0 <= i < size / 32768) by lia. assert (Hle : size / 32768 <= 3) by lia.
  assert (Hb : is_block (start + i)) by (apply is_block_range; lia).
  rewrite u32_small by lia. apply wp_Block_data; [done..|]. intros h s1 Hq Hh.
  destruct (mo_bytes _ _ _ _ _ Hf i Hin) as [_ Hlen]. pose proof (scan_block_spec _ Hlen) as Hscan.
  assert (Hbit : forall q, 32768 * i <= q < 32768 * (i + 1) -> mbit (disk s) start q = bbit (disk s (start + i)) (q - 32768 * i)).
  { intros q Hq'. unfold mbit. replace (q / 32768) with i by (apply (Z.div_unique_pos _ _ _ (q - 32768 * i)); lia).
    f_equal. symmetry. apply (Z.mod_unique_pos _ _ i); lia. }
  pose proof Hq as [[Hs1 Hd1] _]. destruct (scan_bytes (disk s (start + i)) 0) as [[j k]|].
  - cbn zeta in Hscan. destruct Hscan as (Hp & Hclear & Hlow & ->).
    rewrite i32_small by (unfold BLOCK_SIZE; lia).
    replace (i * BLOCK_SIZE * 8 + Z.of_nat j * 8 + Z.of_nat k) with (32768 * i + (8 * Z.of_nat j + Z.of_nat k)) by (unfold BLOCK_SIZE; lia).
    set (p := 8 * Z.of_nat j + Z.of_nat k) in *. clearbody p.
    assert (E1 : (32768 * i + p) / 32768 = i) by (symmetry; apply (Z.div_unique_pos _ _ _ p); lia).
    assert (E2 : (32768 * i + p) mod 32768 = p) by (symmetry; apply (Z.mod_unique_pos _ _ i); lia).
    eapply wp_store_update; [done..|by rewrite length_set_bbit|]. intros s2 Hw _. apply wp_ret. rewrite E1, E2. split; [nia|]. split.
    { rewrite Hbit by lia. rewrite <- Hclear. f_equal. lia. }
    split; [|by eapply quiet_wrote]. intros q Hq'. rewrite Hbit by lia. apply Hlow. lia.
  - assert (Hf1 : map_ok (disk s1) start size a m).
    { eapply map_ok_ext; [exact Hf|]. intros i' Hi'. apply Hd1. apply is_block_range. lia. }
    assert (Hm1 : forall q, 0 <= q < size -> mbit (disk s1) start q = mbit (disk s) start q).
    { intros q Hq'. unfold mbit. rewrite Hd1; [done|]. apply is_block_range. destruct (block_index size q Hmul Hq'). lia. }
    eapply wp_mono; [apply (IH (i + 1) s1); try done; lia|]. intros [p|] s2.
    + intros (Hp & Hclear & Hlow & Hw). split; [lia|]. split; [by rewrite <- Hm1 by lia|]. split.
      * intros q Hq'. destruct (decide (q < 32768 * (i + 1))); [rewrite Hbit by lia; apply Hscan; lia|].
        rewrite <- Hm1 by lia. apply Hlow. lia.
      * rewrite Hd1 in Hw; [by eapply quiet_wrote|]. apply is_block_range. destruct (block_index size p Hmul); lia.
    + intros [Hq2 Hall]. split; [by eapply quiet_trans|]. intros q Hq'.
      destruct (decide (q < 32768 * (i + 1))); [rewrite Hbit by lia; apply Hscan; lia|]. rewrite <- Hm1 by lia. apply Hall. lia.
Qed.

Lemma flush_superblock_spec s : binv (blk s) ∅ ->
  wp flush_superblock s (fun _ s' => wrote s s' 0 (splice (disk s 0) 0 (encode_sb (superblock s)))).
Proof.
  intros Hs. assert (H0 : is_block 0) by (apply is_block_range; lia). apply wp_Block_data; [done..|]. intros h s1 Hq Hh.
  pose proof Hq as [[Hs1 _] (Esb & _)]. apply wp_bind, wp_get_superblock. rewrite Esb.
  eapply wp_store_update_end; [done..| |].
  - rewrite length_splice; rewrite disk_length by done; [done|]. rewrite length_encode_sb. lia.
  - intros s2 Hw. by eapply quiet_wrote.
Qed.

Lemma sb_words_ok sb f g : layout_ok sb ->
  map_ok f 1 32768 (inode_allocated sb) (inode_free_min sb) -> map_ok g 2 98304 (block_allocated sb) (block_free_min sb) ->
  Forall (fun w => 0 <= w < 2 ^ 32) (sb_words sb).
Proof.
  intros [] Hi Hb. pose proof (mo_mark _ _ _ _ _ Hi). pose proof (mo_mark _ _ _ _ _ Hb).
  pose proof (mo_count _ _ _ _ _ Hi) as Ci. pose proof (mo_count _ _ _ _ _ Hb) as Cb.
  pose proof (count_range f 1 32768 ltac:(lia)). pose proof (count_range g 2 98304 ltac:(lia)).
  unfold sb_words, SUPERBLOCK_MAGIC, BLOCK_START in *. repeat (constructor; [lia|]). constructor.
Qed.

(** Writing the superblock last restores the whole invariant. *)
Lemma flush_restores s : binv (blk s) ∅ -> layout_ok (superblock s) ->
  map_ok (disk s) 1 32768 (inode_allocated (superblock s)) (inode_free_min (superblock s)) ->
  map_ok (disk s) 2 98304 (block_allocated (superblock s)) (block_free_min (superblock s)) ->
  (forall n, 0 <= n < 517 -> bmap s n = true) ->
  wp flush_superblock s (fun _ s' => fs_inv s' /\ same_rest s s' /\ forall b, is_block b -> b <> 0 -> disk s' b = disk s b).
Proof.
  intros Hs Hl Hi Hb Hr. eapply wp_mono; [by apply flush_superblock_spec|]. intros [] s' Hw.
  assert (Hd : forall b, is_block b -> b <> 0 -> disk s' b = disk s b) by (intros; by eapply wrote_ne).
  pose proof Hw as [[Hs' _] Hrest]. pose proof Hrest as (Esb & _). split; [|done]. split; [split|]; rewrite ?Esb; [done..| | | |].
  - eapply map_ok_ext; [exact Hi|]. intros i Hi'. change (32768 / 32768) with 1 in Hi'. apply Hd; [apply is_block_range|]; lia.
  - eapply map_ok_ext; [exact Hb|]. intros i Hi'. change (98304 / 32768) with 3 in Hi'. apply Hd; [apply is_block_range|]; lia.
  - intros n Hn. rewrite <- (Hr n Hn). unfold bmap, mbit. rewrite Hd; [done|apply is_block_range|];
      pose proof (Z.div_pos n 32768); assert (n / 32768 < 1) by (apply Z.div_lt_upper_bound; lia); lia.
  - rewrite (wrote_eq _ _ _ _ Hw) by (apply is_block_range; lia). unfold splice. rewrite take_0, app_nil_l.
    apply decode_encode_sb. by eapply sb_words_ok.
Qed.

(** ** Allocation and release *)

(** From the block of the low-water mark on, the scan finds the lowest clear bit
    of the whole map, and nothing only when the map is full. *)
Lemma scan_from_mark start size a m s : binv (blk s) ∅ -> map_ok (disk s) start size a m -> size <= 98304 -> 0 <= start <= 10 ->
  wp (alloc_scan start (m / (BLOCK_SIZE * 8)) (Z.to_nat (size / (BLOCK_SIZE * 8) - m / (BLOCK_SIZE * 8)))) s (fun r s' =>
    match r with
    | Some p => 0 <= p < size /\ mbit (disk s) start p = false /\ (forall q, 0 <= q < p -> mbit (disk s) start q = true) /\
        same_rest s s' /\ binv (blk s') ∅ /\ map_ok (disk s') start size (a + 1) (p + 1) /\
        (forall q, 0 <= q < size -> mbit (disk s') start q = if decide (q = p) then true else mbit (disk s) start q) /\
        (forall b, is_block b -> (b < start \/ start + size / 32768 <= b) -> disk s' b = disk s b)
    | None => quiet s s' /\ forall q, 0 <= q < size -> mbit (disk s) start q = true
    end).
Proof.
  intros Hs Hf Hsize Hstart. destruct (mo_size _ _ _ _ _ Hf) as [Hs0 Hmul]. pose proof (mo_mark _ _ _ _ _ Hf) as Hm.
  change (BLOCK_SIZE * 8) with 32768.
  assert (Hdiv : 0 <= m / 32768 <= size / 32768) by (split; [apply Z.div_pos; lia|apply Z.div_le_mono; lia]).
  eapply wp_mono; [apply (alloc_scan_spec start size a m); try done; lia|].
  assert (Hall : forall q, 0 <= q < size -> q < 32768 * (m / 32768) -> mbit (disk s) start q = true)
    by (intros q Hq Hlt; apply (mo_low _ _ _ _ _ Hf); lia).
  intros [p|] s'.
  - intros (Hp & Hclear & Hlow & Hw). destruct (block_index size p Hmul ltac:(lia)) as (Hpi & Hpm & Ep).
    assert (Hset : map_set (disk s) (disk s') start size p true).
    { intros i Hi. rewrite (wrote_disk _ _ _ _ _ Hw) by (apply is_block_range; lia).
      destruct (decide (i = p / 32768)) as [->|]; [by rewrite decide_True|]. rewrite decide_False by lia. done. }
    assert (Hlow' : forall q, 0 <= q < p -> mbit (disk s) start q = true).
    { intros q Hq. destruct (decide (q < 32768 * (m / 32768))); [apply Hall; lia|apply Hlow; lia]. }
    split; [lia|]. split; [done|]. split; [done|]. split; [apply Hw|]. split; [by eapply wrote_inv|]. split.
    { eapply map_ok_alloc; [done|done|lia|done|]. intros q Hq. apply Hlow'. lia. }
    split; [intros q Hq; eapply mbit_set; done || lia|]. intros b Hb Hout. eapply wrote_ne; [done|done|lia].
  - intros [Hq Hfull]. split; [done|]. intros q Hq'. destruct (decide (q < 32768 * (m / 32768))); [by apply Hall|apply Hfull; lia].
Qed.

Lemma reserved_ext s s' : fs_core s -> (forall q, 0 <= q < 98304 -> bmap s q = true -> bmap s' q = true) ->
  forall n, 0 <= n < 517 -> bmap s' n = true.
Proof. intros Hs Hext n Hn. apply Hext; [lia|]. by apply (fi_reserved s Hs). Qed.

Lemma mbit_other f f' start size n : size = 32768 * (size / 32768) -> 0 <= n < size ->
  (forall i, 0 <= i < size / 32768 -> f' (start + i) = f (start + i)) -> mbit f' start n = mbit f start n.
Proof. intros Hs Hn E. unfold mbit. destruct (block_index size n Hs Hn) as (Hi & _). by rewrite E. Qed.

(** What an allocation in the inode map or the block map does to the state. *)
Record inode_taken (s s' : fs S) (n : Z) : Prop := {
  it_inv : fs_inv s';
  it_range : 0 <= n < 32768;
  it_free : imap s n = false;
  it_lowest : forall m, 0 <= m < n -> imap s m = true;
  it_map : forall m, 0 <= m < 32768 -> imap s' m = if decide (m = n) then true else imap s m;
  it_disk : forall b, is_block b -> 2 <= b -> disk s' b = disk s b;
  it_sb : superblock s' = set_inode_counts (superblock s) (inode_allocated (superblock s) + 1) (n + 1);
  it_rest : cwd_node s' = cwd_node s /\ console s' = console s
}.
Record block_taken (s s' : fs S) (n : Z) : Prop := {
  bt_inv : fs_inv s';
  bt_range : 517 <= n < 98304;
  bt_free : bmap s n = false;
  bt_lowest : forall m, 0 <= m < n -> bmap s m = true;
  bt_map : forall m, 0 <= m < 98304 -> bmap s' m = if decide (m = n) then true else bmap s m;
  bt_disk : forall b, is_block b -> b = 1 \/ 5 <= b -> disk s' b = disk s b;
  bt_sb : superblock s' = set_block_counts (superblock s) (block_allocated (superblock s) + 1) (n + 1);
  bt_rest : cwd_node s' = cwd_node s /\ console s' = console s
}.

Lemma inode_alloc_spec s n0 : fs_core s -> 0 <= n0 < 32768 -> imap s n0 = false ->
  wp inode_alloc s (fun n s' => inode_taken s s' n).
Proof.
  intros Hs Hn0 Hfree. pose proof (fi_layout s Hs) as Hl. apply wp_bind, wp_get_superblock. apply wp_bind.
  rewrite (lo_imap _ Hl), (lo_isize _ Hl).
  eapply wp_mono; [eapply (scan_from_mark 1 32768); [apply Hs|apply Hs|lia|lia]|]. intros [p|] s1.
  2:{ intros [_ Hfull]. unfold imap in Hfree. rewrite Hfull in Hfree by done. done. }
  intros (Hp & Hclear & Hlow & (Esb & Ec & Eo) & Hs1 & Hf1 & Hmap & Hd1). apply wp_bind, wp_get_superblock. rewrite Esb.
  rewrite !u32_small by lia || (pose proof (mo_count _ _ _ _ _ (fi_inodes s Hs)); pose proof (count_range (disk s) 1 32768); lia).
  apply wp_bind, wp_set_superblock. apply wp_bind. set (s2 := MkFs _ _ _ _).
  assert (Hb1 : forall q, 0 <= q < 98304 -> bmap s2 q = bmap s q).
  { intros q Hq. apply (mbit_other _ _ 2 98304); [done|done|]. change (98304 / 32768) with 3. intros i Hi. apply Hd1; [apply is_block_range|]; change (32768 / 32768) with 1; lia. }
  eapply wp_mono; [apply (flush_restores s2)|]; cbn [s2 blk superblock set_inode_counts inode_allocated inode_free_min block_allocated block_free_min].
  - done.
  - destruct Hl. by split.
  - exact Hf1.
  - eapply map_ok_ext; [apply (fi_blocks s Hs)|]. change (98304 / 32768) with 3. intros i Hi. apply Hd1; [apply is_block_range|]; change (32768 / 32768) with 1; lia.
  - eapply reserved_ext; [done|]. intros q Hq E. by rewrite Hb1.
  - intros [] s3 (Hs3 & (Esb3 & Ec3 & Eo3) & Hd3). apply wp_ret. split; [done|done|done|done| | |done|cbn in *; split; congruence].
    + intros q Hq. unfold imap. rewrite <- Hmap by done. apply (mbit_other _ _ 1 32768); [done|done|]. intros i Hi. change (32768 / 32768) with 1 in Hi.
      apply Hd3; [apply is_block_range|]; lia.
    + intros b Hb H2. rewrite Hd3 by (done || lia). apply Hd1; [done|]. change (32768 / 32768) with 1. lia.
Qed.

Lemma block_alloc_spec s n0 : fs_core s -> 0 <= n0 < 98304 -> bmap s n0 = false ->
  wp block_alloc s (fun n s' => block_taken s s' n).
Proof.
  intros Hs Hn0 Hfree. pose proof (fi_layout s Hs) as Hl. apply wp_bind, wp_get_superblock. apply wp_bind.
  rewrite (lo_bmap _ Hl), (lo_bsize _ Hl).
  eapply wp_mono; [eapply (scan_from_mark 2 98304); [apply Hs|apply Hs|lia|lia]|]. intros [p|] s1.
  2:{ intros [_ Hfull]. unfold bmap in Hfree. rewrite Hfull in Hfree by done. done. }
  intros (Hp & Hclear & Hlow & (Esb & Ec & Eo) & Hs1 & Hf1 & Hmap & Hd1). apply wp_bind, wp_get_superblock. rewrite Esb.
  rewrite !u32_small by lia || (pose proof (mo_count _ _ _ _ _ (fi_blocks s Hs)); pose proof (count_range (disk s) 2 98304); lia).
  apply wp_bind, wp_set_superblock. apply wp_bind. set (s2 := MkFs _ _ _ _). change (98304 / 32768) with 3 in Hd1.
  assert (H517 : 517 <= p).
  { apply Z.le_ngt. intros Hlt. pose proof (fi_reserved s Hs p ltac:(lia)) as E. unfold bmap in E. congruence. }
  eapply wp_mono; [apply (flush_restores s2)|]; cbn [s2 blk superblock set_block_counts inode_allocated inode_free_min block_allocated block_free_min].
  - done.
  - destruct Hl. by split.
  - eapply map_ok_ext; [apply (fi_inodes s Hs)|]. change (32768 / 32768) with 1. intros i Hi. apply Hd1; [apply is_block_range|]; lia.
  - exact Hf1.
  - eapply reserved_ext; [done|]. intros q Hq E. change (mbit (disk s1) 2 q = true). rewrite (Hmap q) by done. by case_decide.
  - intros [] s3 (Hs3 & (Esb3 & Ec3 & Eo3) & Hd3). apply wp_ret. split; [done|lia|done|done| | |done|cbn in *; split; congruence].
    + intros q Hq. unfold bmap. rewrite <- Hmap by done. apply (mbit_other _ _ 2 98304); [done|done|]. intros i Hi. change (98304 / 32768) with 3 in Hi.
      apply Hd3; [apply is_block_range|]; lia.
    + intros b Hb H2. rewrite Hd3 by (done || lia). apply Hd1; [done|]. lia.
Qed.

Lemma full_map_panics start size a m s (k : option Z -> M S Z) : binv (blk s) ∅ -> map_ok (disk s) start size a m ->
  size <= 98304 -> 0 <= start <= 10 -> (forall q, 0 <= q < size -> mbit (disk s) start q = true) -> k None = lift Panic ->
  bind (alloc_scan start (m / (BLOCK_SIZE * 8)) (Z.to_nat (size / (BLOCK_SIZE * 8) - m / (BLOCK_SIZE * 8)))) k s = Panic.
Proof.
  intros Hs Hf Hsize Hstart Hfull Hk. destruct (scan_from_mark start size a m s Hs Hf Hsize Hstart) as (r & s' & E & HQ).
  unfold bind. rewrite E. cbn [obind]. destruct r as [p|]; [|by rewrite Hk].
  destruct HQ as (Hp & Hclear & _). by rewrite Hfull in Hclear.
Qed.

Lemma clear_byte x k : 0 <= x < 256 -> 0 <= k < 8 -> u8 (Z.land x (Z.lnot (Z.shiftl 1 k))) = Z.ldiff x (2 ^ k).
Proof.
  intros Hx Hk. rewrite Z.shiftl_1_l, <- Z.ldiff_land. apply u8_small.
  assert (0 <= 2 ^ k) by (apply Z.pow_nonneg; lia). split; [apply Z.ldiff_nonneg; lia|].
  apply byte_bound; [apply Z.ldiff_nonneg; lia|]. intros i Hi. rewrite Z.ldiff_spec, (testbit_small x 8) by lia. done.
Qed.

Lemma clear_bit_run start size a m s n : binv (blk s) ∅ -> map_ok (disk s) start size a m -> size <= 98304 -> 0 <= start <= 10 -> 0 <= n < size ->
  (mbit (disk s) start n = false -> clear_bit start n s = Panic) /\
  (mbit (disk s) start n = true -> wp (clear_bit start n) s (fun _ s' => same_rest s s' /\ binv (blk s') ∅ /\
     map_ok (disk s') start size (a - 1) (if n <? m then n else m) /\
     (forall q, 0 <= q < size -> mbit (disk s') start q = if decide (q = n) then false else mbit (disk s) start q) /\
     (forall b, is_block b -> (b < start \/ start + size / 32768 <= b) -> disk s' b = disk s b))).
Proof.
  intros Hs Hf Hsize Hstart Hn. destruct (mo_size _ _ _ _ _ Hf) as [_ Hmul]. destruct (block_index size n Hmul Hn) as (Hi & Hm & En).
  assert (Hb : is_block (start + n / 32768)) by (apply is_block_range; lia).
  assert (Hk : n mod 8 = n mod 32768 mod 8) by (symmetry; apply Z.mod_mod_divide; by exists 4096).
  assert (Htest : forall b, (Z.land (nth (Z.to_nat (n mod 32768 / 8)) b 0) (Z.shiftl 1 (n mod 8)) =? 0) = negb (bbit b (n mod 32768))).
  { intros b. rewrite land_bit by (apply Z.mod_pos_bound; lia). unfold bbit. by rewrite Hk. }
  unfold clear_bit. change (BLOCK_SIZE * 8) with 32768. rewrite u32_small by (apply is_block_range in Hb; lia). split.
  - intros Hclear. unfold mbit in Hclear.
    assert (W : wp (Block (start + n / 32768)) s (fun h s' => quiet s s' /\ bheld (blk s') h (start + n / 32768) 63)) by (apply wp_Block; auto).
    destruct W as (h & s1 & E & [[Hs1 Hd1] _] & Hh). unfold bind at 1. rewrite E. cbn [obind].
    assert (W : wp (data h) s1 (fun b s' => b = disk s (start + n / 32768) /\ s' = s1))
      by (eapply (wp_data _ ∅); [done..|]; by rewrite Hd1).
    destruct W as (b & s2 & E2 & -> & ->). unfold bind at 1. rewrite E2. cbn [obind]. rewrite Htest, Hclear. done.
  - intros Hset. unfold mbit in Hset. apply wp_Block_data; [done..|]. intros h s1 Hq Hh. pose proof Hq as [[Hs1 _] _].
    rewrite Htest, Hset. apply wp_bind, wp_lift. destruct (mo_bytes _ _ _ _ _ Hf _ Hi) as [Hbytes Hlen].
    assert (Hj : 0 <= n mod 32768 / 8 < 4096) by (split; [apply Z.div_pos; lia|apply Z.div_lt_upper_bound; lia]).
    rewrite clear_byte; [|rewrite List.Forall_forall in Hbytes; apply Hbytes, nth_In; lia|apply Z.mod_pos_bound; lia].
    eapply wp_store_update_end; [done..|by rewrite length_insert|]. intros s2 Hw2.
    assert (Hw : wrote s s2 (start + n / 32768) (set_bbit (disk s (start + n / 32768)) (n mod 32768) false)).
    { unfold set_bbit. rewrite <- Hk. by eapply quiet_wrote. }
    assert (Hms : map_set (disk s) (disk s2) start size n false).
    { intros i Hi'. rewrite (wrote_disk _ _ _ _ _ Hw) by (apply is_block_range; lia).
      destruct (decide (i = n / 32768)) as [->|]; [by rewrite decide_True|]. rewrite decide_False by lia. done. }
    split; [apply Hw|]. split; [by eapply wrote_inv|]. split; [by eapply map_ok_free|].
    split; [intros q Hq'; by eapply mbit_set|]. intros b Hb' Hout. eapply wrote_ne; [done|done|lia].
Qed.

(** What a release does. *)
Record inode_released (s s' : fs S) (n : Z) : Prop := {
  ir_inv : fs_inv s';
  ir_map : forall m, 0 <= m < 32768 -> imap s' m = if decide (m = n) then false else imap s m;
  ir_disk : forall b, is_block b -> 2 <= b -> disk s' b = disk s b;
  ir_sb : inode_allocated (superblock s') = inode_allocated (superblock s) - 1 /\ root_inode (superblock s') = root_inode (superblock s) /\
    block_allocated (superblock s') = block_allocated (superblock s);
  ir_rest : cwd_node s' = cwd_node s /\ console s' = console s
}.
Record block_released (s s' : fs S) (n : Z) : Prop := {
  br_inv : fs_inv s';
  br_map : forall m, 0 <= m < 98304 -> bmap s' m = if decide (m = n) then false else bmap s m;
  br_disk : forall b, is_block b -> b = 1 \/ 5 <= b -> disk s' b = disk s b;
  br_sb : block_allocated (superblock s') = block_allocated (superblock s) - 1 /\ root_inode (superblock s') = root_inode (superblock s) /\
    inode_allocated (superblock s') = inode_allocated (superblock s);
  br_rest : cwd_node s' = cwd_node s /\ console s' = console s
}.

Lemma allocated_pos f start size a m n : map_ok f start size a m -> 0 <= n < size -> mbit f start n = true -> 0 < a <= size.
Proof.
  intros Hf Hn Hbit. rewrite (mo_count _ _ _ _ _ Hf). pose proof (count_range f start size ltac:(lia)).
  rewrite (count_split f start size n Hn), Hbit in *. lia.
Qed.

Lemma inode_free_spec s n : fs_core s -> 0 <= n < 32768 -> imap s n = true -> wp (inode_free n) s (fun _ s' => inode_released s s' n).
Proof.
  intros Hs Hn Hset. pose proof (fi_layout s Hs) as Hl. unfold inode_free. change MAX_INODE_NUM with 32768.
  rewrite (proj2 (Z.ltb_lt n 32768)) by lia. apply wp_bind, wp_lift, wp_bind, wp_get_superblock, wp_bind. rewrite (lo_imap _ Hl).
  destruct (clear_bit_run 1 32768 _ _ s n (fi_blk s Hs) (fi_inodes s Hs)) as [_ W]; [lia..|]. eapply wp_mono; [by apply W|]. clear W.
  intros [] s1 ((Esb & Ec & Eo) & Hs1 & Hf1 & Hmap & Hd1). apply wp_bind, wp_get_superblock. rewrite Esb.
  pose proof (allocated_pos _ _ _ _ _ n (fi_inodes s Hs) Hn Hset) as Ha. rewrite u32_small by lia. change (32768 / 32768) with 1 in Hd1.
  apply wp_bind, wp_set_superblock. set (s2 := MkFs _ _ _ _).
  assert (Hb1 : forall q, 0 <= q < 98304 -> bmap s2 q = bmap s q).
  { intros q Hq. apply (mbit_other _ _ 2 98304); [done|done|]. change (98304 / 32768) with 3. intros i Hi. apply Hd1; [apply is_block_range|]; lia. }
  eapply wp_mono; [apply (flush_restores s2)|]; cbn [s2 blk superblock set_inode_counts inode_allocated inode_free_min block_allocated block_free_min].
  - done.
  - destruct Hl. by split.
  - exact Hf1.
  - eapply map_ok_ext; [apply (fi_blocks s Hs)|]. change (98304 / 32768) with 3. intros i Hi. apply Hd1; [apply is_block_range|]; lia.
  - eapply reserved_ext; [done|]. intros q Hq E. by rewrite Hb1.
  - intros [] s3 (Hs3 & (Esb3 & Ec3 & Eo3) & Hd3). split; [done| | |by rewrite Esb3|cbn in *; split; congruence].
    + intros q Hq. unfold imap. rewrite <- Hmap by done. apply (mbit_other _ _ 1 32768); [done|done|]. intros i Hi. change (32768 / 32768) with 1 in Hi.
      apply Hd3; [apply is_block_range|]; lia.
    + intros b Hb H2. rewrite Hd3 by (done || lia). apply Hd1; [done|]. lia.
Qed.

Lemma block_free_spec s n : fs_core s -> 517 <= n < 98304 -> bmap s n = true -> wp (block_free n) s (fun _ s' => block_released s s' n).
Proof.
  intros Hs Hn Hset. pose proof (fi_layout s Hs) as Hl. unfold block_free. change MAX_BLOCK_NUM with 98304.
  rewrite (proj2 (Z.ltb_lt n 98304)) by lia. apply wp_bind, wp_lift, wp_bind, wp_get_superblock, wp_bind. rewrite (lo_bmap _ Hl).
  destruct (clear_bit_run 2 98304 _ _ s n (fi_blk s Hs) (fi_blocks s Hs)) as [_ W]; [lia..|]. eapply wp_mono; [by apply W|]. clear W.
  intros [] s1 ((Esb & Ec & Eo) & Hs1 & Hf1 & Hmap & Hd1). apply wp_bind, wp_get_superblock. rewrite Esb.
  pose proof (allocated_pos _ _ _ _ _ n (fi_blocks s Hs) ltac:(lia) Hset) as Ha. rewrite u32_small by lia. change (98304 / 32768) with 3 in Hd1.
  apply wp_bind, wp_set_superblock. set (s2 := MkFs _ _ _ _).
  eapply wp_mono; [apply (flush_restores s2)|]; cbn [s2 blk superblock set_block_counts inode_allocated inode_free_min block_allocated block_free_min].
  - done.
  - destruct Hl. by split.
  - eapply map_ok_ext; [apply (fi_inodes s Hs)|]. change (32768 / 32768) with 1. intros i Hi. apply Hd1; [apply is_block_range|]; lia.
  - exact Hf1.
  - intros q Hq. change (mbit (disk s1) 2 q = true). rewrite Hmap by lia. case_decide; [lia|]. by apply (fi_reserved s Hs).
  - intros [] s3 (Hs3 & (Esb3 & Ec3 & Eo3) & Hd3). split; [done| | |by rewrite Esb3|cbn in *; split; congruence].
    + intros q Hq. unfold bmap. rewrite <- Hmap by done. apply (mbit_other _ _ 2 98304); [done|done|]. intros i Hi. change (98304 / 32768) with 3 in Hi.
      apply Hd3; [apply is_block_range|]; lia.
    + intros b Hb H2. rewrite Hd3 by (done || lia). apply Hd1; [done|]. lia.
Qed.
End Code.
