(* ===== verification/FsInode.v ===== *)
(** Inodes and file data (src/fs/fs.cpp): reading and writing inodes, and
    [inode_modify_data], which reads or writes a piece of a file inside one block
    and allocates the blocks that are missing on the way. *)

From Stdlib Require Import ZArith Lia List String.
From stdpp Require Import base numbers list gmap.
From S2P Require Import Prelude BlockLayer FsLayout FsState FsAlloc.

Local Open Scope Z_scope.
Local Open Scope fs_scope.

Definition RATIO_PER_LEVEL : Z := BLOCK_SIZE / 4.
Definition L0_SIZE : Z := BLOCK_SIZE.
Definition L1_SIZE : Z := L0_SIZE * RATIO_PER_LEVEL.
Definition L2_SIZE : Z := L1_SIZE * RATIO_PER_LEVEL.
Definition L0_BOUND : Z := 8 * BLOCK_SIZE.
Definition L1_BOUND : Z := L0_BOUND + 3 * L1_SIZE.
Definition L2_BOUND : Z := L1_BOUND + 2 * L2_SIZE.

(** The pointer [data]: the buffer of the caller, or the table in slot [h]. *)
Inductive dptr := Buf | Tab (h : nat).
(** The reference [uint &blockid]: a variable of the caller, or entry [k] of the
    table in slot [h]. *)
Inductive bref := Var (v : Z) | Elem (h k : nat).

Definition set_size (i : Inode) (v : Z) : Inode :=
  MkInode (type i) (mode i) (link_cnt i) v (data_direct i) (data_l1 i) (data_l2 i) (data_l3 i).
Definition set_direct (i : Inode) (l : list Z) : Inode :=
  MkInode (type i) (mode i) (link_cnt i) (size i) l (data_l1 i) (data_l2 i) (data_l3 i).
Definition set_l1 (i : Inode) (l : list Z) : Inode :=
  MkInode (type i) (mode i) (link_cnt i) (size i) (data_direct i) l (data_l2 i) (data_l3 i).
Definition set_l2 (i : Inode) (l : list Z) : Inode :=
  MkInode (type i) (mode i) (link_cnt i) (size i) (data_direct i) (data_l1 i) l (data_l3 i).

Section Code.
Context {S : Type} `{BlockLayer S}.

(** Inode read_inode(uint ino) *)
Definition read_inode (ino : Z) : M S Inode :=
  sb <- get_superblock ;;
  h <- Block (u32 (inode_start_block sb + ino / INODE_PER_BLOCK)) ;;
  b <- data h ;;
  ret (decode_inode (rec_at sizeof_Inode b (Z.to_nat (ino mod INODE_PER_BLOCK)))).

(** void write_inode(uint ino, const Inode &inode) *)
Definition write_inode (ino : Z) (inode : Inode) : M S unit :=
  sb <- get_superblock ;;
  h <- Block (u32 (inode_start_block sb + ino / INODE_PER_BLOCK)) ;;
  b <- data h ;;
  store h (rec_set sizeof_Inode b (Z.to_nat (ino mod INODE_PER_BLOCK)) (encode_inode inode)) ;;
  update h.

Definition load_ref (r : bref) : M S Z :=
  match r with Var v => ret v | Elem h k => b <- data h ;; ret (u32_at b (4 * k)) end.
Definition store_ref (r : bref) (v : Z) : M S unit :=
  match r with Var _ => ret tt | Elem h k => b <- data h ;; store h (splice b (4 * k) (le 4 v)) end.

(** The first [n] bytes behind [p]. *)
Definition load_data (p : dptr) (buf : list Z) (n : nat) : M S (list Z) :=
  match p with
  | Buf => if (n <=? List.length buf)%nat then ret (take n buf) else lift Fault
  | Tab h => b <- data h ;; ret (take n b)
  end.
(** Overwrites the first bytes behind [p]; returns the buffer of the caller. *)
Definition store_data (p : dptr) (buf r : list Z) : M S (list Z) :=
  match p with
  | Buf => if (List.length r <=? List.length buf)%nat then ret (splice buf 0 r) else lift Fault
  | Tab h => b <- data h ;; store h (splice b 0 r) ;; ret buf
  end.

(** bool inode_modify_data_recur(bool is_write, uint &blockid, void *data, uint
    offset, uint length, uint depth): returns [modified], the block number and the
    buffer of the caller.  In the recursive call [data] is the table of this block,
    which shadows the parameter. *)
Fixpoint inode_modify_data_recur (is_write : bool) (blockid : bref) (p : dptr) (buf : list Z) (offset length : Z) (depth : nat)
  : M S (bool * Z * list Z) :=
  id <- load_ref blockid ;;
  '(id, fresh) <- (if id =? 0 then
                     n <- block_alloc ;;
                     store_ref blockid (u32 n) ;;
                     ret (u32 n, true)
                   else ret (id, false)) ;;
  h <- Block id ;;
  (if fresh : bool then store h zero_block else ret tt) ;;
  match depth with
  | O =>
      if is_write then
        src <- load_data p buf (Z.to_nat length) ;;
        b <- data h ;;
        store h (splice b (Z.to_nat offset) src) ;;
        update h ;;
        ret (fresh, id, buf)
      else
        b <- data h ;;
        buf <- store_data p buf (take (Z.to_nat length) (drop (Z.to_nat offset) b)) ;;
        ret (fresh, id, buf)
  | Datatypes.S depth' =>
      sz <- match depth with
            | 1%nat => ret L0_SIZE
            | 2%nat => ret L1_SIZE
            | 3%nat => ret L2_SIZE
            | _ => lift Panic
            end ;;
      '(block_modified, _, buf) <- inode_modify_data_recur is_write (Elem h (Z.to_nat (offset / sz))) (Tab h) buf (offset mod sz) length depth' ;;
      (if block_modified : bool then update h else ret tt) ;;
      ret (fresh, id, buf)
  end.

(** bool inode_modify_data(bool is_write, Inode &inode, void *data, uint offset,
    uint length): returns the result, the inode and the buffer. *)
Definition inode_modify_data (is_write : bool) (inode : Inode) (buf : list Z) (offset length : Z) : M S (bool * Inode * list Z) :=
  lift (assert_ (offset mod BLOCK_SIZE + length <=? BLOCK_SIZE)) ;;
  let grow := (size inode <? u32 (offset + length)) && (type inode =? 2) in
  let inode := if grow then set_size inode (u32 (offset + length)) else inode in
  if offset <? L0_BOUND then
    let k := Z.to_nat (offset / L0_SIZE) in
    '(m, id, buf) <- inode_modify_data_recur is_write (Var (nth k (data_direct inode) 0)) Buf buf (offset mod L0_SIZE) length 0 ;;
    ret (grow || m, set_direct inode (<[k := id]> (data_direct inode)), buf)
  else if offset <? L1_BOUND then
    let offset := offset - L0_BOUND in
    let k := Z.to_nat (offset / L1_SIZE) in
    '(m, id, buf) <- inode_modify_data_recur is_write (Var (nth k (data_l1 inode) 0)) Buf buf (offset mod L1_SIZE) length 1 ;;
    ret (grow || m, set_l1 inode (<[k := id]> (data_l1 inode)), buf)
  else if offset <? L2_BOUND then
    let offset := offset - L1_BOUND in
    let k := Z.to_nat (offset / L2_SIZE) in
    '(m, id, buf) <- inode_modify_data_recur is_write (Var (nth k (data_l2 inode) 0)) Buf buf (offset mod L2_SIZE) length 2 ;;
    ret (grow || m, set_l2 inode (<[k := id]> (data_l2 inode)), buf)
  else lift Panic.

(** * Inodes as a table *)

Definition inode_block (ino : Z) : Z := 5 + ino / 64.
Definition inode_of (s : fs S) (ino : Z) : Inode := decode_inode (rec_at 64 (disk s (inode_block ino)) (Z.to_nat (ino mod 64))).

Definition is_inode (ino : Z) : Prop := 0 <= ino < 32768.

Lemma inode_index ino : is_inode ino -> 5 <= inode_block ino < 517 /\ 0 <= ino mod 64 < 64 /\ is_block (inode_block ino).
Proof.
  unfold is_inode, inode_block. intros Hi. pose proof (Z.div_mod ino 64). pose proof (Z.mod_pos_bound ino 64).
  split; [lia|]. split; [lia|]. apply is_block_range. lia.
Qed.

Lemma read_inode_spec s ino : fs_inv s -> is_inode ino -> wp (read_inode ino) s (fun i s' => i = inode_of s ino /\ quiet s s').
Proof.
  intros Hs Hi. destruct (inode_index ino Hi) as (Hb & Hk & Hblk). apply wp_bind, wp_get_superblock.
  rewrite (lo_inodes _ (fi_layout _ (fi_core _ Hs))). change INODE_PER_BLOCK with 64. rewrite u32_small by (unfold inode_block in Hb; lia).
  apply wp_Block_data; [apply Hs|done|]. intros h s' Hq _. by apply wp_ret.
Qed.

(** What a quiet step keeps. *)
Lemma quiet_core s s' : fs_core s -> quiet s s' -> fs_core s'.
Proof.
  intros [Hb Hl Hi Hm Hr] [[Hb' Hd] (Esb & _)]. split; rewrite ?Esb; [done|done| | |].
  - eapply map_ok_ext; [exact Hi|]. change (32768 / 32768) with 1. intros i Hi'. apply Hd, is_block_range. lia.
  - eapply map_ok_ext; [exact Hm|]. change (98304 / 32768) with 3. intros i Hi'. apply Hd, is_block_range. lia.
  - intros n Hn. rewrite <- (Hr n Hn). apply (mbit_other _ _ 2 98304); [done|lia|]. change (98304 / 32768) with 3.
    intros i Hi'. apply Hd, is_block_range. lia.
Qed.
Lemma quiet_inv s s' : fs_inv s -> quiet s s' -> fs_inv s'.
Proof.
  intros [Hc Hf] Hq. split; [by eapply quiet_core|]. destruct Hq as [[_ Hd] (-> & _)].
  rewrite Hd; [done|]. apply is_block_range. lia.
Qed.

(** Writing a block behind the maps. *)
Lemma wrote_inv_kept s s' id b : fs_inv s -> wrote s s' id b -> 5 <= id -> fs_inv s'.
Proof.
  intros [[Hb Hl Hi Hm Hr] Hf] Hw Hid. pose proof Hw as [[Hb' _] (Esb & _)].
  assert (Hd : forall k, is_block k -> k < 5 -> disk s' k = disk s k) by (intros k Hk Hlt; eapply wrote_ne; [done|done|lia]).
  split; [split|]; rewrite ?Esb; [done|done| | | |].
  - eapply map_ok_ext; [exact Hi|]. change (32768 / 32768) with 1. intros i Hi'. apply Hd; [apply is_block_range|]; lia.
  - eapply map_ok_ext; [exact Hm|]. change (98304 / 32768) with 3. intros i Hi'. apply Hd; [apply is_block_range|]; lia.
  - intros n Hn. rewrite <- (Hr n Hn). apply (mbit_other _ _ 2 98304); [done|lia|]. change (98304 / 32768) with 3.
    intros i Hi'. apply Hd; [apply is_block_range|]; lia.
  - rewrite Hd; [done|apply is_block_range; lia|lia].
Qed.

Lemma write_inode_spec s ino i : fs_inv s -> is_inode ino -> inode_ok i ->
  wp (write_inode ino i) s (fun _ s' =>
    wrote s s' (inode_block ino) (rec_set 64 (disk s (inode_block ino)) (Z.to_nat (ino mod 64)) (encode_inode i)) /\ fs_inv s').
Proof.
  intros Hs Hi Hok. destruct (inode_index ino Hi) as (Hb & Hk & Hblk). apply wp_bind, wp_get_superblock.
  rewrite (lo_inodes _ (fi_layout _ (fi_core _ Hs))). change INODE_PER_BLOCK with 64. rewrite u32_small by (unfold inode_block in Hb; lia).
  apply wp_Block_data; [apply Hs|done|]. intros h s1 Hq Hh. change (5 + ino / 64) with (inode_block ino) in *.
  assert (Hlen : List.length (disk s (inode_block ino)) = 4096%nat) by (apply disk_length; [apply Hs|done]).
  eapply wp_store_update_end; [apply Hq|done|done| |].
  - rewrite length_rec_set; [done|by apply length_encode_inode|unfold sizeof_Inode; lia].
  - intros s2 Hw2. assert (Hw := quiet_wrote _ _ _ _ _ Hq Hw2). split; [done|]. eapply wrote_inv_kept; [done|done|lia].
Qed.

Lemma inode_of_ext s s' ino : is_inode ino -> (forall b, is_block b -> 5 <= b < 517 -> disk s' b = disk s b) -> inode_of s' ino = inode_of s ino.
Proof. intros Hi E. destruct (inode_index ino Hi) as (Hb & _ & Hblk). unfold inode_of. by rewrite E. Qed.

(** The inode written is read back; all others are unchanged. *)
Lemma inode_of_write s s' ino i ino' : binv (blk s) ∅ -> is_inode ino -> is_inode ino' -> inode_ok i ->
  wrote s s' (inode_block ino) (rec_set 64 (disk s (inode_block ino)) (Z.to_nat (ino mod 64)) (encode_inode i)) ->
  inode_of s' ino' = if decide (ino' = ino) then i else inode_of s ino'.
Proof.
  intros Hs Hi Hi' Hok Hw. destruct (inode_index ino Hi) as (Hb & Hk & Hblk), (inode_index ino' Hi') as (Hb' & Hk' & Hblk').
  pose proof (disk_length s _ Hs Hblk) as Hlen. pose proof (length_encode_inode i Hok) as Hel.
  unfold inode_of. rewrite (wrote_disk _ _ _ _ _ Hw Hblk'). destruct (decide (inode_block ino' = inode_block ino)) as [E|E].
  - rewrite E. destruct (decide (ino' = ino)) as [->|Hne].
    + rewrite rec_at_set_eq by lia. by apply decode_encode_inode.
    + rewrite rec_at_set_ne; [done|done|lia|]. unfold inode_block in E. pose proof (Z.div_mod ino 64). pose proof (Z.div_mod ino' 64). lia.
  - rewrite decide_False; [done|]. congruence.
Qed.

(** * Data *)

(** A computation that hands the buffer through and does not depend on it. *)
Definition blind (m : list Z -> M S (bool * Z * list Z)) : Prop :=
  forall s, exists o, forall buf, m buf s = (x <- o ;; Ok ((fst (fst x), snd (fst x), buf), snd x))%outcome.

Lemma blind_ret a b : blind (fun buf => ret (a, b, buf)).
Proof. intros s. by exists (Ok (a, b, s)). Qed.

Lemma blind_bind {A} (m : M S A) k : (forall a, blind (k a)) -> blind (fun buf => bind m (fun a => k a buf)).
Proof.
  intros Hk s. unfold bind. destruct (m s) as [[a s']| | |]; cbn [obind]; [apply Hk|exists Panic; reflexivity|exists Fault; reflexivity|exists OutOfFuel; reflexivity].
Qed.

Lemma blind_rec m (k : bool * Z * list Z -> M S (bool * Z * list Z)) :
  blind m -> (forall a b, blind (fun buf => k (a, b, buf))) -> blind (fun buf => bind (m buf) k).
Proof.
  intros Hm Hk s. destruct (Hm s) as [[[[a b] s']| | |] Ho].
  - destruct (Hk a b s') as [o Ho']. exists o. intros buf. unfold bind. rewrite Ho. apply Ho'.
  - exists Panic. intros buf. unfold bind. by rewrite Ho.
  - exists Fault. intros buf. unfold bind. by rewrite Ho.
  - exists OutOfFuel. intros buf. unfold bind. by rewrite Ho.
Qed.

(** The calls below the first table never look at the buffer of the caller. *)
Lemma recur_tab_ignores_buffer w depth : forall r h offset length,
  blind (fun buf => inode_modify_data_recur w r (Tab h) buf offset length depth).
Proof.
  induction depth as [|depth IH]; intros r h offset length; cbn [inode_modify_data_recur].
  all: apply blind_bind; intros id; apply blind_bind; intros [id1 fresh]; apply blind_bind; intros h1; apply blind_bind; intros _.
  - destruct w; cbn [load_data store_data].
    + do 4 (apply blind_bind; intros ?). apply blind_ret.
    + apply blind_bind. intros b. intros s. unfold bind at 1 2. destruct (data h s) as [[b1 s1]| | |]; cbn [obind]; [|by exists Panic|by exists Fault|by exists OutOfFuel].
      unfold bind. destruct (store h _ s1) as [[[] s2]| | |]; cbn [obind]; [|by exists Panic|by exists Fault|by exists OutOfFuel].
      by exists (Ok (fresh, id1, s2)).
  - apply blind_bind. intros sz. apply blind_rec; [apply IH|]. intros m id2. apply blind_bind. intros _. apply blind_ret.
Qed.

Lemma recur_ignores_buffer w depth r offset length :
  blind (fun buf => inode_modify_data_recur w r Buf buf offset length (Datatypes.S depth)).
Proof.
  cbn [inode_modify_data_recur]. do 4 (apply blind_bind; intros ?; try match goal with x : Z * bool |- _ => destruct x end).
  apply blind_bind. intros sz. apply blind_rec; [apply recur_tab_ignores_buffer|]. intros m id2. apply blind_bind. intros _. apply blind_ret.
Qed.

(** A store into a block that was cleared just before, then [update]. *)
Lemma wp_clear_store_update {A} (k : M S A) s h id n b (Q : A -> fs S -> Prop) (g : list Z -> list Z) :
  binv (blk s) ∅ -> bheld (blk s) h id n -> is_block id -> b = zero_block -> List.length (g b) = 4096%nat ->
  (forall s', wrote s s' id (g b) -> wp k s' Q) ->
  wp (bind (store h b) (fun _ => bind (data h) (fun x => bind (store h (g x)) (fun _ => bind (update h) (fun _ => k))))) s Q.
Proof.
  intros Hs Hh Hid Hb Hg HQ. apply wp_bind. eapply wp_store; [done..|by rewrite Hb, length_zero_block|]. intros s1 Hs1 Hd1 (Esb1 & Ec1 & Eo1) Hh1.
  apply wp_bind. eapply wp_data; [done|by apply Hh1|done|]. rewrite Hd1 by done. rewrite decide_True by done.
  apply wp_bind. eapply wp_store; [done|by apply Hh1|done|done|]. intros s2 Hs2 Hd2 (Esb2 & Ec2 & Eo2) Hh2.
  apply wp_bind. eapply wp_update; [done|by apply Hh2, Hh1|done|]. intros s3 Hs3 Hd3 (Esb3 & Ec3 & Eo3) Hh3.
  apply HQ. split; [|unfold same_rest; split_and!; congruence]. split.
  - by rewrite pending_twice, pending_done in Hs3 by done.
  - intros j Hj. rewrite Hd3, Hd2 by done. case_decide; [done|]. rewrite Hd1 by done. by rewrite decide_False.
Qed.

(** What a write into a data block does, whether the block was there or not. *)
Record data_written (s s' : fs S) (v id : Z) (offset : nat) (src : list Z) : Prop := {
  dw_inv : fs_inv s';
  dw_range : 517 <= id < 98304;
  dw_id : if decide (v = 0) then bmap s id = false /\ (forall m, 0 <= m < id -> bmap s m = true) else id = v;
  dw_data : disk s' id = splice (if decide (v = 0) then zero_block else disk s v) offset src;
  dw_other : forall b, is_block b -> b = 1 \/ 5 <= b -> b <> id -> disk s' b = disk s b;
  dw_map : forall m, 0 <= m < 98304 -> bmap s' m = if decide (v = 0 /\ m = id) then true else bmap s m;
  dw_rest : cwd_node s' = cwd_node s /\ console s' = console s /\ root_inode (superblock s') = root_inode (superblock s) /\
    inode_allocated (superblock s') = inode_allocated (superblock s)
}.

Definition has_free_block (s : fs S) : Prop := exists n, 0 <= n < 98304 /\ bmap s n = false.
Definition is_data_block (id : Z) : Prop := 517 <= id < 98304.

Lemma data_block_block id : is_data_block id -> is_block id.
Proof. intros Hid. apply is_block_range. unfold is_data_block in Hid. lia. Qed.

Lemma bmap_ext s s' m : 0 <= m < 98304 -> (forall b, is_block b -> 2 <= b < 5 -> disk s' b = disk s b) -> bmap s' m = bmap s m.
Proof.
  intros Hm E. apply (mbit_other _ _ 2 98304); [done|done|]. change (98304 / 32768) with 3. intros i Hi.
  apply E; [apply is_block_range|]; lia.
Qed.

Lemma recur_write_direct s v buf offset length : fs_inv s -> (v = 0 -> has_free_block s) -> (v <> 0 -> is_data_block v) ->
  0 <= offset -> 0 <= length -> offset + length <= 4096 -> length <= Z.of_nat (List.length buf) ->
  wp (inode_modify_data_recur true (Var v) Buf buf offset length 0) s (fun r s' => exists id,
    r = (v =? 0, id, buf) /\ data_written s s' v id (Z.to_nat offset) (take (Z.to_nat length) buf)).
Proof.
  intros Hs Hfree Hv Ho Hl Hol Hbuf. cbn [inode_modify_data_recur load_ref store_ref load_data]. apply wp_bind, wp_ret, wp_bind.
  assert (Hsrc : List.length (take (Z.to_nat length) buf) = Z.to_nat length) by (rewrite length_take; lia).
  assert (Hfit : forall b : list Z, List.length b = 4096%nat -> List.length (splice b (Z.to_nat offset) (take (Z.to_nat length) buf)) = 4096%nat)
    by (intros b Hb; rewrite length_splice; lia).
  destruct (Z.eqb_spec v 0) as [->|Hne].
  - destruct (Hfree eq_refl) as (n0 & Hn0 & Hclear). apply wp_bind. eapply wp_mono; [by eapply block_alloc_spec; [apply Hs|..]|].
    intros n s1 T. pose proof (bt_range _ _ _ T) as Hn. rewrite u32_small by lia. apply wp_bind, wp_ret, wp_ret.
    assert (Hb : is_block n) by (apply is_block_range; lia).
    apply wp_bind, wp_Block; [apply T|done|]. intros h s2 Hq Hh.
    rewrite (proj2 (Nat.leb_le (Z.to_nat length) (List.length buf))) by lia.
    change (bind (store h zero_block) (fun _ : unit => bind (ret (take (Z.to_nat length) buf)) ?k)) with (bind (store h zero_block) (fun _ : unit => k (take (Z.to_nat length) buf))).
    apply (wp_clear_store_update _ s2 h n 63 zero_block _ (fun x => splice x (Z.to_nat offset) (take (Z.to_nat length) buf)));
      [apply Hq|done|done|done|by apply Hfit, length_zero_block|]. intros s3 Hw2. apply wp_ret. exists n. split; [done|].
    assert (Hw := quiet_wrote _ _ _ _ _ Hq Hw2). destruct (bt_rest _ _ _ T) as [Ec Eo]. pose proof Hw as [_ (Esb & Ec3 & Eo3)].
    split.
    + eapply wrote_inv_kept; [apply T|done|lia].
    + done.
    + rewrite decide_True by done. split; [apply T|apply T].
    + rewrite (wrote_eq _ _ _ _ Hw Hb). by rewrite decide_True.
    + intros b Hb' Hge Hbn. rewrite (wrote_ne _ _ _ _ _ Hw) by done. by apply T.
    + intros m Hm. rewrite (bmap_ext s1 s3) by (done || (intros b Hb' Hlt; eapply wrote_ne; [done|done|lia])).
      rewrite (bt_map _ _ _ T) by done. destruct (decide (m = n)), (decide (0 = 0 /\ m = n)); tauto.
    + rewrite Esb, (bt_sb _ _ _ T). cbn. split_and!; congruence.
  - apply wp_ret. specialize (Hv Hne). pose proof (data_block_block v Hv) as Hb. unfold is_data_block in Hv.
    apply wp_bind, wp_Block; [apply Hs|done|]. intros h s1 Hq Hh.
    rewrite (proj2 (Nat.leb_le (Z.to_nat length) (List.length buf))) by lia. apply wp_bind, wp_ret, wp_bind, wp_ret, wp_bind.
    pose proof Hq as [[Hs1 Hd1] _]. eapply (wp_data _ ∅); [done..|]. rewrite Hd1 by done.
    eapply wp_store_update; [done..|apply Hfit, disk_length; [apply Hs|done]|]. intros s2 Hw2 _. apply wp_ret. exists v. split; [done|].
    assert (Hw := quiet_wrote _ _ _ _ _ Hq Hw2). pose proof Hw as [_ (Esb & Ec & Eo)]. split.
    + eapply wrote_inv_kept; [done|done|lia].
    + done.
    + by rewrite decide_False.
    + rewrite (wrote_eq _ _ _ _ Hw Hb). by rewrite decide_False.
    + intros b Hb' _ Hbn. by eapply wrote_ne.
    + intros m Hm. rewrite decide_False by tauto. apply bmap_ext; [done|]. intros b Hb' Hlt. eapply wrote_ne; [done|done|lia].
    + rewrite Esb. done.
Qed.

Lemma recur_read_direct s v buf offset length : fs_inv s -> is_data_block v ->
  0 <= offset -> 0 <= length -> offset + length <= 4096 -> length <= Z.of_nat (List.length buf) ->
  wp (inode_modify_data_recur false (Var v) Buf buf offset length 0) s (fun r s' =>
    r = (false, v, splice buf 0 (take (Z.to_nat length) (drop (Z.to_nat offset) (disk s v)))) /\ quiet s s').
Proof.
  intros Hs Hv Ho Hl Hol Hbuf. pose proof (data_block_block v Hv) as Hb. unfold is_data_block in Hv.
  cbn [inode_modify_data_recur load_ref store_ref store_data]. apply wp_bind, wp_ret, wp_bind.
  destruct (Z.eqb_spec v 0); [lia|]. apply wp_ret, wp_bind, wp_Block; [apply Hs|done|]. intros h s1 Hq Hh. apply wp_bind, wp_ret, wp_bind.
  pose proof Hq as [[Hs1 Hd1] _]. eapply (wp_data _ ∅); [done..|]. rewrite Hd1 by done.
  pose proof (disk_length s v (fi_blk _ (fi_core _ Hs)) Hb) as Hlen.
  rewrite (proj2 (Nat.leb_le _ _)) by (rewrite length_take, length_drop; lia). apply wp_bind, wp_ret, wp_ret. done.
Qed.

(** The inode after the size has been adjusted. *)
Definition grown (i : Inode) (offset length : Z) : bool := (size i <? u32 (offset + length)) && (type i =? 2).
Definition grow_size (i : Inode) (offset length : Z) : Inode :=
  if grown i offset length then set_size i (u32 (offset + length)) else i.

Lemma grow_size_direct i offset length : data_direct (grow_size i offset length) = data_direct i.
Proof. unfold grow_size. by destruct (grown i offset length). Qed.

Definition block_at (i : Inode) (p : Z) : Z := nth (Z.to_nat (p / 4096)) (data_direct i) 0.

Lemma direct_index p : 0 <= p < 32768 -> 0 <= p / 4096 < 8 /\ 0 <= p mod 4096 < 4096 /\ p = 4096 * (p / 4096) + p mod 4096.
Proof. intros Hp. pose proof (Z.div_mod p 4096). pose proof (Z.mod_pos_bound p 4096). lia. Qed.

Lemma modify_write_direct s i buf offset length : fs_inv s ->
  (block_at i offset = 0 -> has_free_block s) -> (block_at i offset <> 0 -> is_data_block (block_at i offset)) ->
  0 <= offset < 32768 -> 0 <= length -> offset mod 4096 + length <= 4096 -> length <= Z.of_nat (List.length buf) ->
  wp (inode_modify_data true i buf offset length) s (fun r s' => exists id,
    r = (grown i offset length || (block_at i offset =? 0),
         set_direct (grow_size i offset length) (<[Z.to_nat (offset / 4096) := id]> (data_direct i)), buf) /\
    data_written s s' (block_at i offset) id (Z.to_nat (offset mod 4096)) (take (Z.to_nat length) buf)).
Proof.
  intros Hs Hfree Hv Ho Hl Hol Hbuf. unfold inode_modify_data. change BLOCK_SIZE with 4096. change L0_SIZE with 4096. change L0_BOUND with 32768.
  rewrite (proj2 (Z.leb_le _ 4096)) by done. apply wp_bind, wp_lift. rewrite (proj2 (Z.ltb_lt offset 32768)) by lia.
  fold (grown i offset length). fold (grow_size i offset length). rewrite grow_size_direct. apply wp_bind. fold (block_at i offset).
  eapply wp_mono; [apply recur_write_direct; try done; apply Z.mod_pos_bound; lia|]. intros r s' (id & -> & Hw). apply wp_ret. exists id. done.
Qed.

Lemma modify_read_direct s i buf offset length : fs_inv s -> is_data_block (block_at i offset) -> List.length (data_direct i) = 8%nat ->
  0 <= offset < 32768 -> 0 <= length -> offset mod 4096 + length <= 4096 -> length <= Z.of_nat (List.length buf) ->
  wp (inode_modify_data false i buf offset length) s (fun r s' =>
    r = (grown i offset length, grow_size i offset length,
         splice buf 0 (take (Z.to_nat length) (drop (Z.to_nat (offset mod 4096)) (disk s (block_at i offset))))) /\ quiet s s').
Proof.
  intros Hs Hv Hd Ho Hl Hol Hbuf. unfold inode_modify_data. change BLOCK_SIZE with 4096. change L0_SIZE with 4096. change L0_BOUND with 32768.
  rewrite (proj2 (Z.leb_le _ 4096)) by done. apply wp_bind, wp_lift. rewrite (proj2 (Z.ltb_lt offset 32768)) by lia.
  fold (grown i offset length). fold (grow_size i offset length). rewrite grow_size_direct. apply wp_bind. fold (block_at i offset).
  eapply wp_mono; [apply recur_read_direct; try done; apply Z.mod_pos_bound; lia|]. intros r s' (-> & Hq). apply wp_ret.
  rewrite orb_false_r. rewrite list_insert_id; [split; [|done]; unfold grow_size; destruct i; by destruct (grown _ _ _)|].
  destruct (direct_index offset Ho) as (Hk & _). unfold block_at. apply lookup_nth_lt. rewrite Hd. lia.
Qed.

(** ** The first 32 KiB of a file as an array of bytes *)

Definition content (s : fs S) (i : Inode) (p : Z) : Z :=
  if block_at i p =? 0 then 0 else nth (Z.to_nat (p mod 4096)) (disk s (block_at i p)) 0.

(** The direct blocks of an inode are allocated data blocks, each used once. *)
Record file_ok (s : fs S) (i : Inode) : Prop := {
  fo_inode : inode_ok i;
  fo_blocks : forall k v, data_direct i !! k = Some v -> v <> 0 -> is_data_block v /\ bmap s v = true;
  fo_distinct : forall j k v, data_direct i !! j = Some v -> data_direct i !! k = Some v -> v <> 0 -> j = k
}.

Lemma block_at_lookup s i p : file_ok s i -> 0 <= p < 32768 -> data_direct i !! Z.to_nat (p / 4096) = Some (block_at i p).
Proof.
  intros Hi Hp. destruct (direct_index p Hp) as (Hk & _). unfold block_at. apply lookup_nth_lt.
  rewrite (ok_direct _ (fo_inode _ _ Hi)). unfold INODE_DATA_DIRECT. lia.
Qed.

Lemma block_at_data s i p : file_ok s i -> 0 <= p < 32768 -> block_at i p <> 0 -> is_data_block (block_at i p) /\ bmap s (block_at i p) = true.
Proof. intros Hi Hp Hne. eapply (fo_blocks _ _ Hi); [by apply (block_at_lookup s)|done]. Qed.

Lemma nth_splice (b r : list Z) o p : (o + List.length r <= List.length b)%nat ->
  nth p (splice b o r) 0 = if decide (o <= p < o + List.length r)%nat then nth (p - o) r 0 else nth p b 0.
Proof.
  intros Ho. unfold splice. case_decide as E.
  - rewrite app_nth2 by (rewrite length_take; lia). rewrite length_take, Nat.min_l by lia. rewrite app_nth1 by lia. done.
  - destruct (decide (p < o)%nat).
    + rewrite app_nth1 by (rewrite length_take; lia). by rewrite !nth_lookup, lookup_take_lt.
    + rewrite app_nth2 by (rewrite length_take; lia). rewrite length_take, Nat.min_l by lia. rewrite app_nth2 by lia.
      rewrite !nth_lookup, lookup_drop. do 2 f_equal. lia.
Qed.

Definition written_inode (i : Inode) (offset length id : Z) : Inode :=
  set_direct (grow_size i offset length) (<[Z.to_nat (offset / 4096) := id]> (data_direct i)).

Lemma block_at_written s i offset length id p : file_ok s i -> 0 <= offset < 32768 -> 0 <= p < 32768 ->
  block_at (written_inode i offset length id) p = if decide (p / 4096 = offset / 4096) then id else block_at i p.
Proof.
  intros Hi Ho Hp. destruct (direct_index offset Ho) as (Hk & _), (direct_index p Hp) as (Hk' & _).
  pose proof (ok_direct _ (fo_inode _ _ Hi)) as Hd. unfold INODE_DATA_DIRECT in Hd. unfold block_at, written_inode. cbn [data_direct set_direct].
  rewrite nth_insert by lia. destruct (decide (p / 4096 = offset / 4096)) as [->|E]; [by rewrite decide_True|].
  rewrite decide_False by lia. done.
Qed.

(** A block of the file other than the one written is not touched. *)
Lemma other_block_kept s s' v id o src w : data_written s s' v id o src -> is_data_block w -> bmap s w = true -> (v <> 0 -> w <> v) ->
  w <> id /\ disk s' w = disk s w /\ bmap s' w = true.
Proof.
  intros Hw Hd Hb Hne. unfold is_data_block in Hd. assert (Hwid : w <> id).
  { intros ->. pose proof (dw_id _ _ _ _ _ _ Hw) as E. case_decide as Ev; [destruct E; congruence|]. by apply Hne. }
  split; [done|]. split; [apply (dw_other _ _ _ _ _ _ Hw); [apply data_block_block; done|lia|done]|].
  rewrite (dw_map _ _ _ _ _ _ Hw) by lia. by case_decide.
Qed.

Lemma inode_ok_written s s' i offset length id o src : file_ok s i -> data_written s s' (block_at i offset) id o src ->
  inode_ok (written_inode i offset length id).
Proof.
  intros Hi Hw. destruct (fo_inode _ _ Hi) as [? ? ? Hs Hd ? ? Hids]. pose proof (dw_range _ _ _ _ _ _ Hw).
  assert (Hsz : 0 <= size (grow_size i offset length) < 2 ^ 32) by (unfold grow_size; destruct (grown i offset length); [apply u32_range|done]).
  assert (Hsame : type (grow_size i offset length) = type i /\ mode (grow_size i offset length) = mode i /\ link_cnt (grow_size i offset length) = link_cnt i /\
    data_l1 (grow_size i offset length) = data_l1 i /\ data_l2 (grow_size i offset length) = data_l2 i /\ data_l3 (grow_size i offset length) = data_l3 i)
    by (unfold grow_size; by destruct (grown i offset length)).
  destruct Hsame as (E1 & E2 & E3 & E4 & E5 & E6). unfold written_inode. split; cbn [set_direct type mode link_cnt size data_direct data_l1 data_l2 data_l3];
    rewrite ?E1, ?E2, ?E3, ?E4, ?E5, ?E6; try done; [by rewrite length_insert|].
  apply Forall_app in Hids as [H1 H2]. apply Forall_app. split; [|done]. apply Forall_insert; [done|lia].
Qed.

Lemma file_ok_written s s' i offset length id o src : file_ok s i -> 0 <= offset < 32768 -> data_written s s' (block_at i offset) id o src ->
  file_ok s' (written_inode i offset length id).
Proof.
  intros Hi Ho Hw. pose proof (block_at_lookup s i offset Hi Ho) as Hv. pose proof (dw_range _ _ _ _ _ _ Hw) as Hr.
  assert (Hid : bmap s' id = true).
  { rewrite (dw_map _ _ _ _ _ _ Hw) by lia. case_decide; [done|]. pose proof (dw_id _ _ _ _ _ _ Hw) as E. case_decide; [tauto|].
    rewrite E. by apply (block_at_data s i offset). }
  assert (Hold : forall j v, j <> Z.to_nat (offset / 4096) -> data_direct i !! j = Some v -> v <> 0 -> is_data_block v /\ bmap s' v = true /\ v <> id).
  { intros j v Hj Hlk Hne. destruct (fo_blocks _ _ Hi j v Hlk Hne) as [Hdv Hbv].
    destruct (other_block_kept s s' _ id o src v Hw Hdv Hbv) as (? & _ & ?); [|done].
    intros _ E. apply Hj. apply (fo_distinct _ _ Hi j _ v); [done| |done]. by rewrite E. }
  split; [by eapply inode_ok_written| |]; cbn [written_inode set_direct data_direct].
  - intros j v Hlk Hne. destruct (decide (j = Z.to_nat (offset / 4096))) as [->|Hj].
    + rewrite list_lookup_insert_eq in Hlk by (by eapply lookup_lt_Some). injection Hlk as <-. done.
    + rewrite list_lookup_insert_ne in Hlk by done. destruct (Hold j v) as (? & ? & _); done.
  - intros j k v Hlj Hlk Hne. destruct (decide (j = Z.to_nat (offset / 4096))) as [->|Hj], (decide (k = Z.to_nat (offset / 4096))) as [->|Hk]; [done| | |].
    + rewrite list_lookup_insert_eq in Hlj by (by eapply lookup_lt_Some). rewrite list_lookup_insert_ne in Hlk by done.
      injection Hlj as <-. by destruct (Hold k id Hk Hlk Hne) as (_ & _ & ?).
    + rewrite list_lookup_insert_eq in Hlk by (by eapply lookup_lt_Some). rewrite list_lookup_insert_ne in Hlj by done.
      injection Hlk as <-. by destruct (Hold j id Hj Hlj Hne) as (_ & _ & ?).
    + rewrite list_lookup_insert_ne in Hlj, Hlk by done. by eapply (fo_distinct _ _ Hi).
Qed.

Lemma content_written s s' i offset length buf id : file_ok s i -> 0 <= offset < 32768 -> 0 <= length -> offset mod 4096 + length <= 4096 ->
  List.length buf = Z.to_nat length -> binv (blk s) ∅ ->
  data_written s s' (block_at i offset) id (Z.to_nat (offset mod 4096)) buf ->
  forall p, 0 <= p < 32768 ->
  content s' (written_inode i offset length id) p =
  if decide (offset <= p < offset + length) then nth (Z.to_nat (p - offset)) buf 0 else content s i p.
Proof.
  intros Hi Ho Hl Hfit Hbuf Hbi Hw p Hp. unfold content. rewrite (block_at_written s) by done.
  destruct (direct_index offset Ho) as (Hk & Hm & Eo), (direct_index p Hp) as (Hk' & Hm' & Ep). pose proof (dw_range _ _ _ _ _ _ Hw) as Hr.
  destruct (decide (p / 4096 = offset / 4096)) as [E|E].
  - destruct (Z.eqb_spec id 0); [lia|]. rewrite (dw_data _ _ _ _ _ _ Hw).
    assert (Hsame : block_at i p = block_at i offset) by (unfold block_at; by rewrite E). rewrite Hsame.
    assert (Hlen : List.length (if decide (block_at i offset = 0) then zero_block else disk s (block_at i offset)) = 4096%nat).
    { case_decide; [apply length_zero_block|]. apply disk_length; [done|]. apply data_block_block. by apply (block_at_data s i offset). }
    rewrite nth_splice by lia. destruct (decide (offset <= p < offset + length)) as [Hin|Hout].
    + rewrite decide_True by lia. f_equal. lia.
    + rewrite decide_False by lia. destruct (Z.eqb_spec (block_at i offset) 0) as [E0|E0]; [rewrite decide_True by done; apply nth_zero_block|].
      by rewrite decide_False.
  - rewrite (decide_False (P := offset <= p < _)) by lia. destruct (Z.eqb_spec (block_at i p) 0) as [E0|E0]; [done|].
    destruct (block_at_data s i p Hi Hp E0) as [Hd Hb].
    destruct (other_block_kept s s' _ id _ _ (block_at i p) Hw Hd Hb) as (_ & -> & _); [|done].
    intros Hne Heq. apply E. pose proof (block_at_lookup s i p Hi Hp) as L1. pose proof (block_at_lookup s i offset Hi Ho) as L2.
    rewrite Heq in L1. pose proof (fo_distinct _ _ Hi _ _ _ L1 L2 Hne). lia.
Qed.

(** A file that shares no block with the one written keeps its content. *)
Lemma content_other s s' v id o src j : data_written s s' v id o src -> file_ok s j -> (forall k, v <> 0 -> data_direct j !! k <> Some v) ->
  file_ok s' j /\ forall p, 0 <= p < 32768 -> content s' j p = content s j p.
Proof.
  intros Hw Hj Hdis.
  assert (Hold : forall k w, data_direct j !! k = Some w -> w <> 0 -> is_data_block w /\ bmap s' w = true /\ disk s' w = disk s w).
  { intros k w Hlk Hne. destruct (fo_blocks _ _ Hj k w Hlk Hne) as [Hd Hb].
    destruct (other_block_kept s s' v id o src w Hw Hd Hb) as (_ & ? & ?); [|done]. intros Hv ->. by eapply Hdis. }
  split.
  - split; [apply Hj| |apply Hj]. intros k w Hlk Hne. by destruct (Hold k w Hlk Hne) as (? & ? & _).
  - intros p Hp. unfold content. destruct (Z.eqb_spec (block_at j p) 0); [done|].
    by destruct (Hold _ _ (block_at_lookup s j p Hj Hp)) as (_ & _ & ->).
Qed.

Lemma unmodified_inode s i offset length id : file_ok s i -> 0 <= offset < 32768 -> grown i offset length = false -> id = block_at i offset ->
  written_inode i offset length id = i.
Proof.
  intros Hi Ho Hg ->. unfold written_inode, grow_size. rewrite Hg. rewrite list_insert_id by (by apply (block_at_lookup s)). by destruct i.
Qed.
End Code.
