(* ===== verification/FsMkfs.v ===== *)
(** Formatting and mounting (src/fs/fs.cpp: [fs_mkfs], [init_filesystem]). *)

From Stdlib Require Import ZArith Lia List String.
From stdpp Require Import base numbers list gmap.
From S2P Require Import Prelude BlockLayer Cache FsLayout FsState FsAlloc FsInode.

Local Open Scope Z_scope.
Local Open Scope fs_scope.

(** The names "." and ".." as 24-byte arrays. *)
Definition dot : list Z := 46 :: replicate 23 0.
Definition dotdot : list Z := 46 :: 46 :: replicate 22 0.

Section Code.
Context {S : Type} `{BlockLayer S}.

(** for (; n > 0; i++) clear block start + i *)
Fixpoint clear_blocks (start i : Z) (n : nat) : M S unit :=
  match n with
  | O => ret tt
  | Datatypes.S n' =>
      h <- Block (u32 (start + i)) ;;
      store h zero_block ;;
      update h ;;
      clear_blocks start (i + 1) n'
  end.

(** block.data[i / 8] |= 1 << (i % 8) for i below [n] *)
Definition mark_blocks (b : list Z) (n : nat) : list Z :=
  fold_left (fun b i => <[(i / 8)%nat := Z.lor (nth (i / 8) b 0) (Z.shiftl 1 (Z.of_nat (i mod 8)))]> b) (seq 0 n) b.

Definition fresh_superblock (sb : SuperBlock) : SuperBlock :=
  let inode_map_start := 1 in
  let block_map_start := inode_map_start + MAX_INODE_NUM / (8 * BLOCK_SIZE) in
  let inode_start := block_map_start + MAX_BLOCK_NUM / (8 * BLOCK_SIZE) in
  let block_start := inode_start + MAX_INODE_NUM / INODE_PER_BLOCK in
  MkSB SUPERBLOCK_MAGIC BLOCK_START inode_map_start MAX_INODE_NUM 0 0 block_map_start MAX_BLOCK_NUM block_start (block_start + 1)
       inode_start block_start (root_inode sb) SUPERBLOCK_MAGIC.

Definition set_root (sb : SuperBlock) (r : Z) : SuperBlock :=
  MkSB (magic0 sb) (fs_start sb) (inode_map_start_block sb) (inode_map_size sb) (inode_allocated sb) (inode_free_min sb)
       (block_map_start_block sb) (block_map_size sb) (block_allocated sb) (block_free_min sb)
       (inode_start_block sb) (block_start_block sb) r (magic1 sb).

(** int fs_mkfs() *)
Definition fs_mkfs : M S Z :=
  old <- get_superblock ;;
  let sb := fresh_superblock old in
  lift (assert_ (block_start_block sb <? BLOCK_SIZE * 8)) ;;
  set_superblock sb ;;
  clear_blocks (inode_map_start_block sb) 0 (Z.to_nat (inode_map_size sb / (8 * BLOCK_SIZE))) ;;
  h <- Block (block_map_start_block sb) ;;
  store h (mark_blocks zero_block (Z.to_nat (block_start_block sb))) ;;
  update h ;;
  clear_blocks (block_map_start_block sb) 1 (Z.to_nat (block_map_size sb / (8 * BLOCK_SIZE) - 1)) ;;
  r <- inode_alloc ;;
  sb <- get_superblock ;;
  set_superblock (set_root sb (u32 r)) ;;
  set_cwd (u32 r) ;;
  flush_superblock ;;
  cwd <- get_cwd ;;
  let root := MkInode 1 0 65535 0 (replicate 8 0) (replicate 3 0) (replicate 2 0) 0 in
  let dir := encode_dir (MkDir cwd 1 dot) ++ encode_dir (MkDir cwd 1 dotdot) in
  '(_, root, _) <- inode_modify_data true root dir 0 64 ;;
  sb <- get_superblock ;;
  write_inode (root_inode sb) root ;;
  ret 0.

(** bool init_filesystem(): [cache_init] belongs to the cache. *)
Definition init_filesystem (cache_init : S -> S) : M S bool :=
  (fun s => Ok (tt, set_blk s (cache_init (blk s)))) ;;
  h <- Block 0 ;;
  b <- data h ;;
  let sb := decode_sb b in
  if (magic0 sb =? SUPERBLOCK_MAGIC) && (magic1 sb =? SUPERBLOCK_MAGIC) then
    set_superblock sb ;;
    set_cwd (root_inode sb) ;;
    ret true
  else
    fs_mkfs ;;
    ret false.

(** * Lemmas *)

Lemma clear_blocks_spec start n : forall i s, binv (blk s) ∅ -> 0 <= start -> 0 <= i -> start + i + Z.of_nat n <= 98304 ->
  wp (clear_blocks start i n) s (fun _ s' => same_rest s s' /\
    blocks s' (fun b => if decide (start + i <= b < start + i + Z.of_nat n) then zero_block else disk s b)).
Proof.
  induction n as [|n IH]; intros i s Hs Hst Hi Hn; cbn [clear_blocks].
  { apply wp_ret. split; [done|]. split; [done|]. intros b Hb. by rewrite decide_False by lia. }
  assert (Hb : is_block (start + i)) by (apply is_block_range; lia). rewrite u32_small by lia.
  apply wp_bind, wp_Block; [done..|]. intros h s1 Hq Hh. eapply wp_store_update; [apply Hq|done|done|apply length_zero_block|]. intros s2 Hw2 _.
  assert (Hw := quiet_wrote _ _ _ _ _ Hq Hw2). pose proof Hw as [_ (E1 & E2 & E3)].
  eapply wp_mono; [apply (IH (i + 1) s2); [by eapply wrote_inv|lia..]|]. intros [] s3 ((E1' & E2' & E3') & Hs3 & Hd3).
  split; [unfold same_rest; split_and!; congruence|]. split; [done|]. intros b Hb'. rewrite Hd3 by done.
  rewrite (wrote_disk _ _ _ _ _ Hw Hb'). destruct (decide (start + (i + 1) <= b < _)); [by rewrite decide_True by lia|].
  destruct (decide (b = start + i)) as [->|]; [by rewrite decide_True by lia|]. by rewrite decide_False by lia.
Qed.

Lemma bbit_zeros q : bbit zero_block q = false.
Proof. unfold bbit. by rewrite nth_zero_block, Z.bits_0. Qed.

Lemma mark_blocks_spec n : Z.of_nat n <= 32768 ->
  List.length (mark_blocks zero_block n) = 4096%nat /\ Forall (fun x => 0 <= x < 256) (mark_blocks zero_block n) /\
  forall q, 0 <= q < 32768 -> bbit (mark_blocks zero_block n) q = (q <? Z.of_nat n).
Proof.
  induction n as [|n IH]; intros Hn.
  { split; [apply length_zero_block|]. split; [apply zero_block_bytes|]. intros q Hq. change (mark_blocks zero_block 0) with zero_block.
    rewrite bbit_zeros. symmetry. apply Z.ltb_ge. lia. }
  destruct IH as (Hlen & Hbytes & Hbits); [lia|]. unfold mark_blocks in *. rewrite seq_S, fold_left_app. cbn [fold_left Nat.add].
  set (b := fold_left _ (seq 0 n) _) in *. clearbody b.
  assert (E : <[(n / 8)%nat := Z.lor (nth (n / 8) b 0) (Z.shiftl 1 (Z.of_nat (n mod 8)))]> b = set_bbit b (Z.of_nat n) true).
  { unfold set_bbit. rewrite Z.shiftl_1_l, Nat2Z.inj_mod. change (Z.of_nat 8) with 8. rewrite <- (Nat2Z.id (n / 8)), Nat2Z.inj_div. done. }
  rewrite E, length_set_bbit. split; [done|]. split; [by apply set_bbit_bytes|]. intros q Hq. rewrite bbit_set by lia.
  destruct (decide (q = Z.of_nat n)) as [->|Hne]; [symmetry; apply Z.ltb_lt; lia|]. rewrite Hbits by done.
  destruct (Z.ltb_spec q (Z.of_nat n)), (Z.ltb_spec q (Z.of_nat (Datatypes.S n))); lia || done.
Qed.

Lemma map_ok_prefix f start size k m : 0 <= k <= size -> 0 <= m < 32768 -> m <= size -> size = 32768 * (size / 32768) ->
  (forall i, 0 <= i < size / 32768 -> Forall (fun x => 0 <= x < 256) (f (start + i)) /\ List.length (f (start + i)) = 4096%nat) ->
  (forall n, 0 <= n < size -> mbit f start n = (n <? k)) -> map_ok f start size k m.
Proof.
  intros Hk Hm Hms Hsize Hbytes Hbits. split; [done| |split; [lia|done]|lia|].
  - intros n Hn. rewrite Z.div_small in Hn by done. lia.
  - unfold count_bits. replace size with (k + (size - k)) by lia. rewrite seqZ_app, filter_app, length_app by lia. rewrite Z.add_0_l.
    rewrite (filter_length_ext _ (fun _ => True) (seqZ 0 k)).
    2:{ intros n Hn. apply elem_of_seqZ in Hn. rewrite Hbits by lia. rewrite Z.ltb_lt. split; [done|lia]. }
    rewrite (filter_length_ext _ (fun _ => False) (seqZ k _)).
    2:{ intros n Hn. apply elem_of_seqZ in Hn. rewrite Hbits by lia. rewrite Z.ltb_lt. split; [lia|done]. }
    assert (Ht : forall l : list Z, List.length (filter (fun _ => True) l) = List.length l).
    { induction l as [|x l IH]; [done|]. rewrite filter_cons_True by done. cbn. by rewrite IH. }
    assert (Hff : forall l : list Z, List.length (filter (fun _ => False) l) = 0%nat).
    { induction l as [|x l IH]; [done|]. rewrite filter_cons_False by tauto. done. }
    rewrite Ht, Hff, length_seqZ. lia.
Qed.

Definition root_dir : list Z := encode_dir (MkDir 0 1 dot) ++ encode_dir (MkDir 0 1 dotdot).
Definition root_node : Inode := MkInode 1 0 65535 0 (517 :: replicate 7 0) (replicate 3 0) (replicate 2 0) 0.

(** A file system right after formatting. *)
Record formatted (s : fs S) : Prop := {
  fm_inv : fs_inv s;
  fm_root : root_inode (superblock s) = 0 /\ cwd_node s = 0;
  fm_imap : forall n, 0 <= n < 32768 -> imap s n = (n <? 1);
  fm_bmap : forall n, 0 <= n < 98304 -> bmap s n = (n <? 518);
  fm_counts : inode_allocated (superblock s) = 1 /\ block_allocated (superblock s) = 518;
  fm_node : inode_of s 0 = root_node;
  fm_dir : disk s 517 = splice zero_block 0 root_dir
}.

Lemma fresh_layout old : 0 <= root_inode old < 2 ^ 32 -> layout_ok (fresh_superblock old).
Proof. intros Hr. split; [reflexivity..|exact Hr|reflexivity]. Qed.

(** The maps after the first half of [fs_mkfs]. *)
Lemma fresh_core s : binv (blk s) ∅ -> (exists old, superblock s = fresh_superblock old /\ 0 <= root_inode old < 2 ^ 32) ->
  disk s 1 = zero_block -> disk s 2 = mark_blocks zero_block 517 -> disk s 3 = zero_block -> disk s 4 = zero_block ->
  fs_core s /\ (forall n, 0 <= n < 32768 -> imap s n = false) /\ (forall n, 0 <= n < 98304 -> bmap s n = (n <? 517)).
Proof.
  intros Hs (old & Esb & Hroot) E1 E2 E3 E4. destruct (mark_blocks_spec 517) as (Hlen & Hbytes & Hbits); [lia|].
  set (mb := mark_blocks zero_block 517) in *. clearbody mb.
  assert (Hz : Forall (fun x => 0 <= x < 256) zero_block /\ List.length zero_block = 4096%nat).
  { split; [apply zero_block_bytes|apply length_zero_block]. }
  assert (Hi : forall n, 0 <= n < 32768 -> imap s n = (n <? 0)).
  { intros n Hn. unfold imap, mbit. rewrite Z.div_small by done. change (1 + 0) with 1. rewrite E1, bbit_zeros. symmetry. apply Z.ltb_ge. lia. }
  assert (Hb : forall n, 0 <= n < 98304 -> bmap s n = (n <? 517)).
  { intros n Hn. unfold bmap, mbit. pose proof (Z.div_mod n 32768). pose proof (Z.mod_pos_bound n 32768).
    assert (n / 32768 = 0 \/ n / 32768 = 1 \/ n / 32768 = 2) as [E|[E|E]] by lia; rewrite E.
    - change (2 + 0) with 2. rewrite E2, Hbits by lia. replace (n mod 32768) with n by lia. done.
    - change (2 + 1) with 3. rewrite E3, bbit_zeros. symmetry. apply Z.ltb_ge. lia.
    - change (2 + 2) with 4. rewrite E4, bbit_zeros. symmetry. apply Z.ltb_ge. lia. }
  split; [|split; [|done]].
  - split; rewrite ?Esb; [done|by apply fresh_layout| | |].
    + change (map_ok (disk s) 1 32768 0 0). apply map_ok_prefix; [lia|lia|lia|done| |exact Hi]. intros i Hi'. change (32768 / 32768) with 1 in Hi'. replace (1 + i) with 1 by lia. by rewrite E1.
    + change (map_ok (disk s) 2 98304 517 518). apply map_ok_prefix; [lia|lia|lia|done| |exact Hb]. intros i Hi'. change (98304 / 32768) with 3 in Hi'.
      assert (2 + i = 2 \/ 2 + i = 3 \/ 2 + i = 4) as [-> |[-> | ->]] by lia; [rewrite E2; by split|by rewrite E3|by rewrite E4].
    + intros n Hn. rewrite Hb by lia. apply Z.ltb_lt. lia.
  - intros n Hn. rewrite Hi by done. apply Z.ltb_ge. lia.
Qed.

(** The first half of [fs_mkfs], up to the allocation of the root inode. *)
Lemma mkfs_maps {A} (k : M S A) s Q : binv (blk s) ∅ -> 0 <= root_inode (superblock s) < 2 ^ 32 ->
  (forall s', fs_core s' -> (forall n, 0 <= n < 32768 -> imap s' n = false) -> (forall n, 0 <= n < 98304 -> bmap s' n = (n <? 517)) ->
     superblock s' = fresh_superblock (superblock s) -> wp k s' Q) ->
  wp (set_superblock (fresh_superblock (superblock s)) ;;
      clear_blocks 1 0 1 ;;
      h <- Block 2 ;;
      store h (mark_blocks zero_block 517) ;;
      update h ;;
      clear_blocks 2 1 2 ;;
      k) s Q.
Proof.
  intros Hs Hroot HQ. destruct (mark_blocks_spec 517) as (Hlen & _); [lia|]. pose proof fresh_core as Hfresh.
  set (mb := mark_blocks zero_block 517) in *. clearbody mb. apply wp_bind, wp_set_superblock, wp_bind.
  set (s1 := MkFs _ _ _ _). eapply wp_mono; [apply (clear_blocks_spec 1 1 0 s1); try done; lia|]. intros [] s2 ((Esb2 & _) & Hs2 & Hd2).
  apply wp_bind, wp_Block; [done|by apply is_block_range|]. intros h s3 Hq3 Hh. pose proof Hq3 as [[Hs3 Hd3] (Esb3 & _)].
  eapply wp_store_update; [done|done|by apply is_block_range|done|]. intros s4 Hw _. pose proof Hw as [[Hs4 _] (Esb4 & _)].
  apply wp_bind. eapply wp_mono; [apply (clear_blocks_spec 2 2 1 s4); try done; lia|]. intros [] s5 ((Esb5 & _) & Hs5 & Hd5).
  assert (Hb : forall b, 0 <= b < 98304 -> is_block b) by (intros b; by rewrite is_block_range).
  assert (D : forall b, 1 <= b <= 4 -> disk s5 b = if decide (b = 2) then mb else zero_block).
  { intros b Hb'. rewrite Hd5 by (apply Hb; lia). destruct (decide (2 + 1 <= b < _)); [by rewrite decide_False by lia|].
    rewrite (wrote_disk _ _ _ _ _ Hw) by (apply Hb; lia). case_decide; [done|]. rewrite Hd3, Hd2 by (apply Hb; lia). by rewrite decide_True by lia. }
  assert (Esb : superblock s5 = fresh_superblock (superblock s)) by (rewrite Esb5, Esb4, Esb3, Esb2; done).
  destruct (Hfresh s5) as (Hc & Hi & Hm); [done|eauto|by rewrite D by lia..|]. by apply HQ.
Qed.

Lemma dir_pair_length a b x y : List.length x = 24%nat -> List.length y = 24%nat ->
  List.length (encode_dir (MkDir a 1 x) ++ encode_dir (MkDir b 1 y)) = 64%nat.
Proof. intros Hx Hy. unfold encode_dir. cbn [inode valid name]. rewrite !length_app, !length_le, Hx, Hy. done. Qed.

Lemma fs_mkfs_spec s : binv (blk s) ∅ -> 0 <= root_inode (superblock s) < 2 ^ 32 -> wp fs_mkfs s (fun r s' => r = 0 /\ formatted s').
Proof.
  intros Hs Hroot. unfold fs_mkfs. apply wp_bind, wp_get_superblock, wp_bind, wp_lift.
  apply mkfs_maps; [done..|]. intros s1 Hc1 Hi1 Hb1 Esb1.
  apply wp_bind. eapply wp_mono; [apply (inode_alloc_spec s1 0); [done|lia|apply Hi1; lia]|]. intros n s2 T.
  assert (n = 0) as ->.
  { pose proof (it_range _ _ _ T). destruct (decide (n = 0)); [done|]. pose proof (it_lowest _ _ _ T 0 ltac:(lia)) as E. rewrite Hi1 in E by lia. done. }
  change (u32 0) with 0. apply wp_bind, wp_get_superblock, wp_bind, wp_set_superblock, wp_bind, wp_set_cwd, wp_bind.
  pose proof (fi_core _ (it_inv _ _ _ T)) as Hc2. set (s3 := MkFs _ _ _ _).
  eapply wp_mono; [apply (flush_restores s3); [apply Hc2| | apply Hc2 | apply Hc2 | apply Hc2]|].
  { destruct (fi_layout _ Hc2). by split. }
  intros [] s4 (Hs4 & (Esb4 & Ec4 & Eo4) & Hd4). apply wp_bind, wp_get_cwd. rewrite Ec4. cbn [s3 cwd_node]. fold root_dir.
  assert (Hb4 : forall m, 0 <= m < 98304 -> bmap s4 m = (m <? 517)).
  { intros m Hm. rewrite <- Hb1 by done. apply bmap_ext; [done|]. intros b Hb Hlt. rewrite Hd4 by (done || lia). by apply T; [|lia]. }
  set (node := MkInode 1 0 65535 0 (replicate 8 0) (replicate 3 0) (replicate 2 0) 0).
  assert (Hlen : List.length root_dir = 64%nat) by (by apply dir_pair_length).
  apply wp_bind. eapply wp_mono; [apply (modify_write_direct s4 node root_dir 0 64); try done|].
  { intros _. exists 517. split; [lia|]. by rewrite Hb4. }
  intros r s5 (id & -> & Hw). change (block_at node 0) with 0 in Hw. change (Z.to_nat (0 mod 4096)) with 0%nat in Hw.
  rewrite take_ge in Hw by (rewrite Hlen; done).
  assert (id = 517) as ->.
  { pose proof (dw_id _ _ _ _ _ _ Hw) as E. rewrite decide_True in E by done. destruct E as [Hf Hl]. pose proof (dw_range _ _ _ _ _ _ Hw).
    rewrite Hb4 in Hf by lia. apply Z.ltb_ge in Hf. destruct (decide (id = 517)); [done|]. specialize (Hl 517 ltac:(lia)). by rewrite Hb4 in Hl. }
  change (set_direct (grow_size node 0 64) (<[Z.to_nat (0 / 4096) := 517]> (data_direct node))) with root_node.
  destruct (dw_rest _ _ _ _ _ _ Hw) as (Ec5 & _ & Er5 & Ei5).
  apply wp_bind, wp_get_superblock. rewrite Er5, Esb4. cbn [s3 superblock set_root root_inode].
  assert (Hok : inode_ok root_node) by (split; try done; repeat (constructor; [done|]); constructor).
  apply wp_bind. eapply wp_mono; [apply (write_inode_spec s5 0 root_node); [apply Hw|done|done]|]. intros [] s6 [Hw6 Hs6]. apply wp_ret.
  pose proof Hw6 as [_ (Esb6 & Ec6 & _)]. pose proof (dw_inv _ _ _ _ _ _ Hw) as Hs5.
  assert (Hlow : forall b, is_block b -> b < 5 -> disk s6 b = disk s5 b) by (intros b Hb Hlt; eapply wrote_ne; [done|done|change (b <> 5); lia]).
  assert (Hbm : forall n, 0 <= n < 98304 -> bmap s6 n = (n <? 518)).
  { intros n Hn. rewrite (bmap_ext s5 s6) by (done || (intros b Hb Hlt; apply Hlow; [done|lia])).
    rewrite (dw_map _ _ _ _ _ _ Hw) by done. rewrite Hb4 by done.
    destruct (decide (0 = 0 /\ n = 517)) as [[_ ->]|Hne]; [done|]. destruct (Z.ltb_spec n 517), (Z.ltb_spec n 518); lia || done. }
  assert (Him : forall n, 0 <= n < 32768 -> imap s6 n = (n <? 1)).
  { intros n Hn. transitivity (imap s2 n).
    - apply (mbit_other _ _ 1 32768); [done|done|]. change (32768 / 32768) with 1. intros i Hi. replace (1 + i) with 1 by lia.
      assert (is_block 1) by (by apply is_block_range). rewrite Hlow by (done || lia). rewrite (dw_other _ _ _ _ _ _ Hw) by (done || lia). rewrite Hd4 by (done || lia). done.
    - rewrite (it_map _ _ _ T) by done. rewrite Hi1 by done. destruct (decide (n = 0)) as [->|]; [done|]. symmetry. apply Z.ltb_ge. lia. }
  split; [done|]. split; [done| | | | | |].
  - rewrite Esb6, Er5, Esb4, Ec6, Ec5, Ec4. done.
  - done.
  - done.
  - split.
    + rewrite Esb6, Ei5, Esb4. cbn. rewrite (it_sb _ _ _ T), Esb1. done.
    + rewrite (mo_count _ _ _ _ _ (fi_blocks _ (fi_core _ Hs6))).
      symmetry. apply (mo_count (disk s6) 2 98304 518 0). apply map_ok_prefix; try done. apply (fi_blocks _ (fi_core _ Hs6)).
  - rewrite (inode_of_write s5 s6 0 root_node 0); [by rewrite decide_True|apply Hs5|done..].
  - rewrite (wrote_ne _ _ _ _ _ Hw6) by (done || by apply is_block_range). rewrite (dw_data _ _ _ _ _ _ Hw). by rewrite decide_True.
Qed.
End Code.
