(* ===== verification/FsProps.v ===== *)
(** What the storage layers of the file system promise: formatting and mounting,
    allocation, the inode table, and file data. *)

From Stdlib Require Import ZArith Lia List String.
From stdpp Require Import base numbers list gmap.
From S2P Require Import Prelude BlockLayer Cache FsLayout FsState FsAlloc FsInode FsMkfs.

Local Open Scope Z_scope.
Local Open Scope fs_scope.

Section Theorems.
Context {S : Type} `{BlockLayer S}.
Implicit Types s : fs S.

(** C29: Formatting works on any disk: [fs_mkfs] returns 0 and leaves a file system
    whose maps, counters and superblock agree in memory and on disk, with inode 0
    and blocks 0 to 517 in use and a root directory holding "." and "..". *)
Theorem mkfs_formats s :
  binv (blk s) ∅ -> 0 <= root_inode (superblock s) < 2 ^ 32 ->
  exists s', fs_mkfs s = Ok (0, s') /\ formatted s'.
Proof. intros Hs Hr. destruct (fs_mkfs_spec s Hs Hr) as (r & s' & E & -> & Hf). eauto. Qed.

(** Allocation takes the lowest free number, marks exactly it, counts it, and
    writes the superblock; it stops the machine exactly when nothing is free. *)
Theorem alloc_takes_lowest s :
  fs_inv s ->
  ((forall n, 0 <= n < 32768 -> imap s n = true) /\ inode_alloc s = Panic \/
   exists n s', inode_alloc s = Ok (n, s') /\ inode_taken s s' n) /\
  ((forall n, 0 <= n < 98304 -> bmap s n = true) /\ block_alloc s = Panic \/
   exists n s', block_alloc s = Ok (n, s') /\ block_taken s s' n).
Proof.
  intros Hs. pose proof (fi_core _ Hs) as Hc. pose proof (fi_layout _ Hc) as Hl.
  assert (Hdec : forall f size, 0 <= size -> (exists n, 0 <= n < size /\ f n = false) \/ (forall n, 0 <= n < size -> f n = true)).
  { intros f sz Hsz. destruct (decide (Exists (fun n => f n = false) (seqZ 0 sz))) as [E|E].
    - left. apply Exists_exists in E as (n & Hn & Hf). apply elem_of_seqZ in Hn. exists n. split; [lia|done].
    - right. intros n Hn. destruct (f n) eqn:Hf; [done|]. destruct E. apply Exists_exists. exists n. split; [|done]. apply elem_of_seqZ. lia. }
  split.
  - destruct (Hdec (imap s) 32768) as [(n0 & Hn0 & Hf)|Hfull]; [lia| |].
    + right. destruct (inode_alloc_spec s n0 Hc Hn0 Hf) as (n & s' & E & T). eauto.
    + left. split; [done|]. unfold inode_alloc, get_superblock, bind at 1. cbn [obind]. rewrite (lo_imap _ Hl), (lo_isize _ Hl).
      eapply full_map_panics; [apply Hc|apply Hc|lia|lia|exact Hfull|done].
  - destruct (Hdec (bmap s) 98304) as [(n0 & Hn0 & Hf)|Hfull]; [lia| |].
    + right. destruct (block_alloc_spec s n0 Hc Hn0 Hf) as (n & s' & E & T). eauto.
    + left. split; [done|]. unfold block_alloc, get_superblock, bind at 1. cbn [obind]. rewrite (lo_bmap _ Hl), (lo_bsize _ Hl).
      eapply full_map_panics; [apply Hc|apply Hc|lia|lia|exact Hfull|done].
Qed.

(** Releasing a number in use clears exactly its bit and keeps the file system
    consistent; releasing one that is free, or out of range, stops the machine. *)
Theorem free_releases_or_panics s n b :
  fs_inv s -> 0 <= n -> 517 <= b ->
  (if decide (n < 32768 /\ imap s n = true) then exists s', inode_free n s = Ok (tt, s') /\ inode_released s s' n
   else inode_free n s = Panic) /\
  (if decide (b < 98304 /\ bmap s b = true) then exists s', block_free b s = Ok (tt, s') /\ block_released s s' b
   else block_free b s = Panic).
Proof.
  intros Hs Hn Hb. pose proof (fi_core _ Hs) as Hc. pose proof (fi_layout _ Hc) as Hl. split.
  - destruct (decide (n < 32768 /\ imap s n = true)) as [[Hlt Hbit]|Hnot].
    + destruct (inode_free_spec s n Hc ltac:(lia) Hbit) as ([] & s' & E & T). eauto.
    + unfold inode_free. change MAX_INODE_NUM with 32768. destruct (Z.ltb_spec n 32768); [|done].
      destruct (clear_bit_run 1 32768 _ _ s n (fi_blk s Hc) (fi_inodes s Hc)) as [Hp _]; [lia..|].
      unfold bind, lift. cbn [assert_ obind get_superblock]. rewrite (lo_imap _ Hl), Hp; [done|].
      destruct (mbit (disk s) 1 n) eqn:E; [|done]. by destruct Hnot.
  - destruct (decide (b < 98304 /\ bmap s b = true)) as [[Hlt Hbit]|Hnot].
    + destruct (block_free_spec s b Hc ltac:(lia) Hbit) as ([] & s' & E & T). eauto.
    + unfold block_free. change MAX_BLOCK_NUM with 98304. destruct (Z.ltb_spec b 98304); [|done].
      destruct (clear_bit_run 2 98304 _ _ s b (fi_blk s Hc) (fi_blocks s Hc)) as [Hp _]; [lia..|].
      unfold bind, lift. cbn [assert_ obind get_superblock]. rewrite (lo_bmap _ Hl), Hp; [done|].
      destruct (mbit (disk s) 2 b) eqn:E; [|done]. by destruct Hnot.
Qed.

(** The inode table: an inode written is the inode read back, all other inodes
    are unchanged, and the file system stays consistent. *)
Theorem inode_table_roundtrip s ino i :
  fs_inv s -> is_inode ino -> inode_ok i ->
  exists s', write_inode ino i s = Ok (tt, s') /\ fs_inv s' /\
    forall ino', is_inode ino' -> exists s'',
      read_inode ino' s' = Ok (if decide (ino' = ino) then i else inode_of s ino', s'') /\ fs_inv s''.
Proof.
  intros Hs Hi Hok. destruct (write_inode_spec s ino i Hs Hi Hok) as ([] & s' & E & Hw & Hs'). exists s'. split; [done|]. split; [done|].
  intros ino' Hi'. destruct (read_inode_spec s' ino' Hs' Hi') as (j & s'' & E' & -> & Hq). exists s''. split; [|by eapply quiet_inv].
  rewrite E', (inode_of_write s s' ino i ino'); [done|apply Hs|done..].
Qed.

(** C16: [inode_modify_data] with [is_write], of a piece that lies in one of the eight
    direct blocks (the first 32 KiB of a file) while a block is free, writes into an
    array of bytes: the bytes given, at their place, nothing else; holes read as
    zeros, missing blocks are allocated, other files keep their content in their
    first 32 KiB, and the inode only changes when the result says so.  Beyond 32 KiB
    the code does not do this: see [indirect_ignores_buffer]. *)
Theorem inode_write_refines s i buf offset length :
  fs_inv s -> file_ok s i -> has_free_block s -> 0 <= offset < 32768 -> 0 <= length -> offset mod 4096 + length <= 4096 ->
  List.length buf = Z.to_nat length ->
  exists m i' s', inode_modify_data true i buf offset length s = Ok ((m, i', buf), s') /\ fs_inv s' /\ file_ok s' i' /\
    (forall p, 0 <= p < 32768 -> content s' i' p =
       if decide (offset <= p < offset + length) then nth (Z.to_nat (p - offset)) buf 0 else content s i p) /\
    (m = false -> i' = i) /\
    size i' = (if (type i =? 2) then Z.max (size i) (offset + length) else size i) /\
    (forall j, file_ok s j -> (forall k v, v <> 0 -> data_direct i !! k = Some v -> forall k', data_direct j !! k' <> Some v) ->
       file_ok s' j /\ forall p, 0 <= p < 32768 -> content s' j p = content s j p).
Proof.
  intros Hs Hi Hfree Ho Hl Hfit Hbuf.
  destruct (modify_write_direct s i buf offset length) as (r & s' & E & id & -> & Hw); try done; [by apply (block_at_data s)|lia|].
  rewrite take_ge in Hw by lia. fold (written_inode i offset length id) in E.
  exists (grown i offset length || (block_at i offset =? 0)), (written_inode i offset length id), s'. split; [done|].
  split; [apply Hw|]. split; [by eapply file_ok_written|]. split; [eapply content_written; try done; apply Hs|].
  split; [|split].
  - intros Em. apply orb_false_iff in Em as [Eg Ev]. apply (unmodified_inode s); [done..|].
    pose proof (dw_id _ _ _ _ _ _ Hw) as Eid. apply Z.eqb_neq in Ev. by rewrite decide_False in Eid.
  - pose proof (Z.mod_pos_bound offset 4096 ltac:(lia)). unfold written_inode, grow_size, grown. cbn [size set_direct]. rewrite u32_small by lia. pose proof (ok_size _ (fo_inode _ _ Hi)).
    destruct (Z.eqb_spec (type i) 2), (Z.ltb_spec (size i) (offset + length)); cbn [andb size set_size]; lia.
  - intros j Hj Hdis. eapply content_other; [done|done|]. intros k Hv Hlk. eapply Hdis; [done|by apply (block_at_lookup s)|done].
Qed.

(** Reading from a block the file has returns the bytes of the file and changes
    no block; but a read that reaches past the end makes the file longer. *)
Theorem inode_read_returns s i buf offset length :
  fs_inv s -> file_ok s i -> 0 <= offset < 32768 -> block_at i offset <> 0 -> 0 <= length -> offset mod 4096 + length <= 4096 ->
  List.length buf = Z.to_nat length ->
  exists out s', inode_modify_data false i buf offset length s = Ok ((grown i offset length, grow_size i offset length, out), s') /\
    quiet s s' /\ List.length out = Z.to_nat length /\
    (forall p, offset <= p < offset + length -> nth (Z.to_nat (p - offset)) out 0 = content s i p) /\
    (type i = 2 -> size (grow_size i offset length) = Z.max (size i) (offset + length)).
Proof.
  intros Hs Hi Ho Hne Hl Hfit Hbuf. destruct (block_at_data s i offset Hi Ho Hne) as [Hd Hb].
  destruct (modify_read_direct s i buf offset length) as (r & s' & E & -> & Hq); try done; [apply (ok_direct _ (fo_inode _ _ Hi))|lia|].
  assert (Hlen : List.length (disk s (block_at i offset)) = 4096%nat) by (apply disk_length; [apply Hs|by apply data_block_block]).
  pose proof (Z.mod_pos_bound offset 4096 ltac:(lia)) as Hm.
  set (r := take (Z.to_nat length) (drop (Z.to_nat (offset mod 4096)) (disk s (block_at i offset)))) in *.
  assert (Hr : List.length r = Z.to_nat length) by (unfold r; rewrite length_take, length_drop; lia).
  exists (splice buf 0 r), s'. split; [done|]. split; [done|]. split; [rewrite length_splice; lia|]. split.
  - intros p Hp. destruct (direct_index offset Ho) as (Hk & _ & Eo).
    assert (Hdp : p / 4096 = offset / 4096) by (symmetry; apply (Z.div_unique_pos _ _ _ (offset mod 4096 + (p - offset))); lia).
    assert (Hmp : p mod 4096 = offset mod 4096 + (p - offset)) by (pose proof (Z.div_mod p 4096); lia).
    rewrite nth_splice by lia. rewrite decide_True by lia. rewrite Nat.sub_0_r.
    assert (Esame : block_at i p = block_at i offset) by (unfold block_at; by rewrite Hdp).
    unfold content. rewrite Esame. destruct (Z.eqb_spec (block_at i offset) 0); [done|].
    unfold r. rewrite !nth_lookup, lookup_take_lt, lookup_drop by lia. do 2 f_equal. lia.
  - intros Ht. unfold grow_size, grown. rewrite u32_small by lia. pose proof (ok_size _ (fo_inode _ _ Hi)).
    destruct (Z.eqb_spec (type i) 2), (Z.ltb_spec (size i) (offset + length)); cbn [andb size set_size]; lia.
Qed.

(** From byte 32768 of a file on, through the indirect blocks, the buffer of the
    caller plays no part: a write stores the same blocks whatever the buffer holds, and
    a read leaves the buffer as it was. *)
Theorem indirect_ignores_buffer s w i offset length :
  L0_BOUND <= offset ->
  exists o, forall buf, inode_modify_data w i buf offset length s = (x <- o ;; Ok ((fst (fst x), snd (fst x), buf), snd x))%outcome.
Proof.
  intros Ho. unfold inode_modify_data, bind at 1, lift. destruct (assert_ _) as [[]| | |]; cbn [obind];
    [|by exists Panic|by exists Fault|by exists OutOfFuel].
  destruct (Z.ltb_spec offset L0_BOUND); [lia|]. destruct (offset <? L1_BOUND); [|destruct (offset <? L2_BOUND); [|by exists Panic]].
  all: match goal with |- context [inode_modify_data_recur ?v ?r Buf _ ?o ?l (Datatypes.S ?d)] =>
         destruct (recur_ignores_buffer v d r o l s) as [[[[m id] s']| | |] Hb] end.
  all: unfold bind; cbn [obind fst snd] in Hb.
  all: try (exists Panic; intros buf; rewrite Hb; reflexivity).
  all: try (exists Fault; intros buf; rewrite Hb; reflexivity).
  all: try (exists OutOfFuel; intros buf; rewrite Hb; reflexivity).
  all: eexists (Ok (_, _, s')); intros buf; rewrite Hb; reflexivity.
Qed.
End Theorems.

(** With the write-through policy a reboot loses nothing: mounting the card
    again finds the superblock, starts in the root directory and shows every block
    as it was. *)
Theorem remount_restores {D} `{SDCard D} (s : fs (cache D)) :
  fs_inv s -> policy_writethrough (blk s) = true ->
  exists s', init_filesystem Cache.cache_init s = Ok (true, s') /\ fs_inv s' /\ superblock s' = superblock s /\
    cwd_node s' = root_inode (superblock s) /\ forall b, is_block b -> disk s' b = disk s b.
Proof.
  intros Hs Hp. pose proof (fi_blk _ (fi_core _ Hs)) as Hb. cbn in Hb.
  destruct (cache_init_inv (blk s)) as [Hi Hv]; [apply Hb|apply Hb|apply Hb|].
  set (s1 := set_blk s (Cache.cache_init (blk s))).
  assert (Hq1 : quiet s s1).
  { split; [|done]. split; [exact Hi|]. intros b Hblk. change (view (Cache.cache_init (blk s)) b = view (blk s) b).
    rewrite Hv by done. by apply through_on_card. }
  assert (W : wp (init_filesystem Cache.cache_init) s (fun r s' => r = true /\ fs_inv s' /\ superblock s' = superblock s /\
    cwd_node s' = root_inode (superblock s) /\ forall b, is_block b -> disk s' b = disk s b)).
  { apply wp_bind. exists tt, s1. split; [done|]. apply wp_Block_data; [exact Hi|by apply is_block_range|]. intros h s2 Hq2 _.
    assert (Hq := quiet_trans _ _ _ Hq1 Hq2). pose proof Hq1 as [[_ Hd1] _]. pose proof Hq as [[_ Hd] (Esb & Ec & _)].
    rewrite (Hd1 0) by (by apply is_block_range). rewrite (fi_flushed _ Hs). pose proof (fi_layout _ (fi_core _ Hs)) as Hl.
    rewrite (lo_magic0 _ Hl), (lo_magic1 _ Hl), Z.eqb_refl. cbn [andb]. apply wp_bind, wp_set_superblock, wp_bind, wp_set_cwd, wp_ret.
    split; [done|]. split; [|done]. pose proof (quiet_inv _ _ Hs Hq) as Hs2. rewrite <- Esb.
    destruct Hs2 as [[] Hf]. split; [split|]; done. }
  destruct W as (r & s' & E & -> & Hrest). eauto.
Qed.

(** * A formatted card in memory, and witnesses *)

Module Formatted.
Import RamCard.
Definition disk0 : fs (cache ram) := MkFs boot (MkSB 0 0 0 0 0 0 0 0 0 0 0 0 0 0) 0 [].
Definition root : fs (cache ram) := match fs_mkfs disk0 with Ok (_, s) => s | _ => disk0 end.

Lemma root_formatted : formatted root.
Proof.
  destruct (fs_mkfs_spec disk0) as (r & s & E & _ & F); [exact boot_inv|cbn; lia|]. unfold root. by rewrite E.
Qed.
Lemma root_inv : fs_inv root.
Proof. apply root_formatted. Qed.
Lemma root_free : has_free_block root.
Proof. exists 518. split; [lia|]. by rewrite (fm_bmap _ root_formatted). Qed.

(** An empty regular file, and the root directory. *)
Definition empty_file : Inode := MkInode 2 0 1 0 (replicate 8 0) (replicate 3 0) (replicate 2 0) 0.
Lemma empty_file_ok : file_ok root empty_file.
Proof.
  assert (Hz : forall k v, replicate 8 0 !! k = Some v -> v = 0) by (intros k v E; by apply lookup_replicate in E as [-> _]).
  split.
  - split; try done. repeat (constructor; [done|]). constructor.
  - intros k v Hk Hne. by destruct Hne; eapply Hz.
  - intros j k v Hj _ Hne. by destruct Hne; eapply Hz.
Qed.
Lemma root_node_ok : file_ok root root_node.
Proof.
  assert (Hz : forall k v, data_direct root_node !! k = Some v -> v <> 0 -> k = 0%nat /\ v = 517).
  { intros [|k] v E Hne; cbn in E; [split; congruence|]. by apply (lookup_replicate 7 0 v k) in E as [-> _]. }
  split.
  - split; try done. repeat (constructor; [done|]). constructor.
  - intros k v Hk Hne. destruct (Hz k v Hk Hne) as [_ ->]. split; [done|]. by rewrite (fm_bmap _ root_formatted).
  - intros j k v Hj Hk Hne. destruct (Hz j v Hj Hne), (Hz k v Hk Hne). congruence.
Qed.
End Formatted.

Section Witnesses.
Import RamCard Formatted.

Lemma mkfs_formats_witness : exists s', fs_mkfs disk0 = Ok (0, s') /\ formatted s'.
Proof. apply (mkfs_formats disk0); [exact boot_inv|cbn; lia]. Defined.

Lemma alloc_takes_lowest_witness :
  ((forall n, 0 <= n < 32768 -> imap root n = true) /\ inode_alloc root = Panic \/
   exists n s', inode_alloc root = Ok (n, s') /\ inode_taken root s' n) /\
  ((forall n, 0 <= n < 98304 -> bmap root n = true) /\ block_alloc root = Panic \/
   exists n s', block_alloc root = Ok (n, s') /\ block_taken root s' n).
Proof. exact (alloc_takes_lowest root root_inv). Defined.

Lemma free_releases_or_panics_witness :
  (if decide (0 < 32768 /\ imap root 0 = true) then exists s', inode_free 0 root = Ok (tt, s') /\ inode_released root s' 0
   else inode_free 0 root = Panic) /\
  (if decide (518 < 98304 /\ bmap root 518 = true) then exists s', block_free 518 root = Ok (tt, s') /\ block_released root s' 518
   else block_free 518 root = Panic).
Proof. apply (free_releases_or_panics root 0 518); [exact root_inv|lia|lia]. Defined.

Lemma inode_table_roundtrip_witness :
  exists s', write_inode 7 empty_file root = Ok (tt, s') /\ fs_inv s' /\
    forall ino', is_inode ino' -> exists s'',
      read_inode ino' s' = Ok (if decide (ino' = 7) then empty_file else inode_of root ino', s'') /\ fs_inv s''.
Proof. apply (inode_table_roundtrip root 7 empty_file); [exact root_inv|done|apply empty_file_ok]. Defined.

(** Three bytes at offset 5000 of an empty file. *)
Lemma inode_write_refines_witness :
  exists m i' s', inode_modify_data true empty_file [1; 2; 3] 5000 3 root = Ok ((m, i', [1; 2; 3]), s') /\ fs_inv s' /\ file_ok s' i' /\
    (forall p, 0 <= p < 32768 -> content s' i' p =
       if decide (5000 <= p < 5000 + 3) then nth (Z.to_nat (p - 5000)) [1; 2; 3] 0 else content root empty_file p) /\
    (m = false -> i' = empty_file) /\
    size i' = (if (type empty_file =? 2) then Z.max (size empty_file) (5000 + 3) else size empty_file) /\
    (forall j, file_ok root j -> (forall k v, v <> 0 -> data_direct empty_file !! k = Some v -> forall k', data_direct j !! k' <> Some v) ->
       file_ok s' j /\ forall p, 0 <= p < 32768 -> content s' j p = content root j p).
Proof. apply (inode_write_refines root empty_file [1; 2; 3] 5000 3); [exact root_inv|exact empty_file_ok|exact root_free|lia|lia|done|done]. Defined.

(** The first entry of the root directory. *)
Lemma inode_read_returns_witness :
  exists out s', inode_modify_data false root_node (replicate 32 0) 0 32 root = Ok ((grown root_node 0 32, grow_size root_node 0 32, out), s') /\
    quiet root s' /\ List.length out = Z.to_nat 32 /\
    (forall p, 0 <= p < 0 + 32 -> nth (Z.to_nat (p - 0)) out 0 = content root root_node p) /\
    (type root_node = 2 -> size (grow_size root_node 0 32) = Z.max (size root_node) (0 + 32)).
Proof. apply (inode_read_returns root root_node (replicate 32 0) 0 32); [exact root_inv|exact root_node_ok|lia|done|lia|done|done]. Defined.

Lemma indirect_ignores_buffer_witness :
  exists o, forall buf, inode_modify_data true empty_file buf 32768 5 root = (x <- o ;; Ok ((fst (fst x), snd (fst x), buf), snd x))%outcome.
Proof. apply (indirect_ignores_buffer root true empty_file 32768 5). done. Defined.

Lemma remount_restores_witness :
  exists s', init_filesystem Cache.cache_init root = Ok (true, s') /\ fs_inv s' /\ superblock s' = superblock root /\
    cwd_node s' = root_inode (superblock root) /\ forall b, is_block b -> disk s' b = disk root b.
Proof. apply (remount_restores root); [exact root_inv|vm_compute; reflexivity]. Defined.
End Witnesses.
