(* ===== verification/FsDir.v ===== *)
(** Directories and the file commands of src/fs/fs.cpp: looking names up, creating
    and removing entries, cd, ls, mkdir, touch, rm, rmdir, ln and cat.

    A path is the content of a C string.  The entry a directory block is scanned
    through is read from the slot of its [Block] at every access, as in the code. *)

From Stdlib Require Import ZArith Lia List String.
From stdpp Require Import base numbers list gmap.
From S2P Require Import Prelude BlockLayer Cache FsLayout FsState FsAlloc FsInode FsMkfs FsProps.

Local Open Scope Z_scope.
Local Open Scope fs_scope.

Definition set_type_links (i : Inode) (t l : Z) : Inode :=
  MkInode t (mode i) l (size i) (data_direct i) (data_l1 i) (data_l2 i) (data_l3 i).
Definition set_links (i : Inode) (l : Z) : Inode := set_type_links i (type i) l.

(** The characters printed for a string that starts at [l]. *)
Fixpoint cstr (l : list Z) : outcome (list Z) :=
  match l with
  | [] => Fault
  | c :: l' => if c =? 0 then Ok [] else (r <- cstr l' ;; Ok (c :: r))%outcome
  end.

(** The loop over the entries of a directory block in get_inode_by_filename. *)
Fixpoint entry_scan (b path : list Z) (i j n : nat) (free_offset : Z) : outcome (option Z * Z) :=
  match n with
  | O => Ok (None, free_offset)
  | Datatypes.S n' =>
      let dir := decode_dir (rec_at sizeof_DirEntry b j) in
      (hit <- (if valid dir =? 0 then Ok false else streq (drop (sizeof_DirEntry * j + 8) b) path) ;;
       if hit : bool then Ok (Some (inode dir), free_offset)
       else entry_scan b path i (j + 1) n'
              (if (valid dir =? 0) && (free_offset =? 0) then Z.of_nat (i * DIRENTRY_PER_BLOCK + j) else free_offset))%outcome
  end.

(** The first unused direct block, as the offset of its first entry. *)
Fixpoint free_block_offset (l : list Z) (i : nat) (free_offset : Z) : Z :=
  match l with
  | [] => free_offset
  | v :: l' => if v =? 0 then Z.of_nat (i * DIRENTRY_PER_BLOCK) else free_block_offset l' (i + 1) free_offset
  end.

(** The length of the component at the start of [path], and what follows it. *)
Fixpoint component (path : list Z) : list Z * list Z :=
  match path with
  | [] => ([], [])
  | c :: path' => if c =? 47 then ([], path) else let '(x, r) := component path' in (c :: x, r)
  end.

(** The newline character. *)
Definition nl : string := String (Ascii.ascii_of_nat 10) EmptyString.

Section Code.
Context {S : Type} `{BlockLayer S}.

Fixpoint dir_scan (l path : list Z) (i : nat) (free_offset : Z) : M S (option Z * Z) :=
  match l with
  | [] => ret (None, free_offset)
  | v :: l' =>
      if v =? 0 then dir_scan l' path (i + 1) free_offset
      else
        h <- Block v ;;
        b <- data h ;;
        r <- lift (entry_scan b path i 0 DIRENTRY_PER_BLOCK free_offset) ;;
        match r with
        | (Some ino, free_offset) => ret (Some ino, free_offset)
        | (None, free_offset) => dir_scan l' path (i + 1) free_offset
        end
  end.

(** int get_inode_by_filename(const char *path, bool create_if_not_existed, uint new_inode_idx) *)
Definition get_inode_by_filename (path : list Z) (create_if_not_existed : bool) (new_inode_idx : Z) : M S Z :=
  cwd_node <- get_cwd ;;
  cwd <- read_inode cwd_node ;;
  '(found, free_offset) <- dir_scan (data_direct cwd) path 0 0 ;;
  match found with
  | Some ino => ret (i32 ino)
  | None =>
      let free_offset := if free_offset =? 0 then free_block_offset (data_direct cwd) 0 0 else free_offset in
      if negb create_if_not_existed then ret (-1)
      else
        new_inode_idx <- (if new_inode_idx =? 0 then
                            n <- inode_alloc ;;
                            write_inode (u32 n) zero_inode ;;
                            ret (u32 n)
                          else ret new_inode_idx) ;;
        nm <- lift (dir_name path) ;;
        '(_, cwd, _) <- inode_modify_data true cwd (encode_dir (MkDir new_inode_idx 1 nm)) (u32 (free_offset * 32)) 32 ;;
        cwd_node <- get_cwd ;;
        write_inode cwd_node (set_size cwd (u32 (size cwd + 1))) ;;
        ret (i32 new_inode_idx)
  end.

(** The entries of one block in remove_inode_by_filename. *)
Fixpoint find_entry (b path : list Z) (j n : nat) : outcome (option nat) :=
  match n with
  | O => Ok None
  | Datatypes.S n' =>
      let dir := decode_dir (rec_at sizeof_DirEntry b j) in
      (hit <- (if valid dir =? 0 then Ok false else streq (drop (sizeof_DirEntry * j + 8) b) path) ;;
       if hit : bool then Ok (Some j) else find_entry b path (j + 1) n')%outcome
  end.

Fixpoint remove_scan (l path : list Z) : M S bool :=
  match l with
  | [] => ret false
  | v :: l' =>
      if v =? 0 then remove_scan l' path
      else
        h <- Block v ;;
        b <- data h ;;
        r <- lift (find_entry b path 0 DIRENTRY_PER_BLOCK) ;;
        match r with
        | Some j =>
            store h (splice b (sizeof_DirEntry * j + 4) (le 4 0)) ;;
            update h ;;
            ret true
        | None => remove_scan l' path
        end
  end.

(** void remove_inode_by_filename(const char *path) *)
Definition remove_inode_by_filename (path : list Z) : M S unit :=
  cwd_node <- get_cwd ;;
  cwd <- read_inode cwd_node ;;
  removed <- remove_scan (data_direct cwd) path ;;
  if removed : bool then
    cwd_node <- get_cwd ;;
    write_inode cwd_node (set_size cwd (u32 (size cwd - 1)))
  else lift Panic.

(** int fs_cd(const char *path): [tmp] has 64 bytes. *)
Fixpoint cd_loop (fuel : nat) (old_cwd : Z) (path : list Z) : M S Z :=
  match fuel with
  | O => lift OutOfFuel
  | Datatypes.S fuel' =>
      match path with
      | [] => ret 0
      | _ =>
          let '(tmp, p) := component path in
          lift (if (List.length tmp <? 64)%nat then Ok tt else Fault) ;;
          r <- get_inode_by_filename tmp false 0 ;;
          set_cwd (u32 r) ;;
          cwd <- get_cwd ;;
          if i32 cwd <? 0 then
            set_cwd old_cwd ;;
            printk ("No such directory" ++ nl) [] ;;
            ret (-1)
          else
            inode <- read_inode cwd ;;
            if negb (type inode =? 1) then
              set_cwd old_cwd ;;
              printk ("Not a directory" ++ nl) [] ;;
              ret (-1)
            else cd_loop fuel' old_cwd (match p with c :: p' => if c =? 47 then p' else p | [] => [] end)
      end
  end.
Definition fs_cd (path : list Z) : M S Z :=
  old_cwd <- get_cwd ;;
  cd_loop (Datatypes.S (List.length path)) old_cwd path.

(** The entries of one block in fs_ls. *)
Fixpoint ls_entries (opt_l : bool) (h j n : nat) : M S unit :=
  match n with
  | O => ret tt
  | Datatypes.S n' =>
      b <- data h ;;
      let dir := decode_dir (rec_at sizeof_DirEntry b j) in
      (if valid dir =? 0 then ret tt
       else if opt_l then
         n <- read_inode (inode dir) ;;
         b <- data h ;;
         nm <- lift (cstr (drop (sizeof_DirEntry * j + 8) b)) ;;
         printk ("| %4d | %5d | %8d | %12s |" ++ nl) [Num (type n); Num (link_cnt n); Num (size n); Str nm]
       else
         nm <- lift (cstr (drop (sizeof_DirEntry * j + 8) b)) ;;
         printk "%s " [Str nm]) ;;
      ls_entries opt_l h (j + 1) n'
  end.
Fixpoint ls_blocks (opt_l : bool) (l : list Z) : M S unit :=
  match l with
  | [] => ret tt
  | v :: l' =>
      (if v =? 0 then ret tt else h <- Block v ;; ls_entries opt_l h 0 DIRENTRY_PER_BLOCK) ;;
      ls_blocks opt_l l'
  end.

(** int fs_ls(const char *path, int option) *)
Definition fs_ls (path : list Z) (option : Z) : M S Z :=
  old_cwd <- get_cwd ;;
  r <- fs_cd path ;;
  if r =? -1 then
    set_cwd old_cwd ;;
    ret (-1)
  else
    cwd <- get_cwd ;;
    inode <- read_inode cwd ;;
    if negb (type inode =? 1) then
      printk ("Not a directory" ++ nl) [] ;;
      set_cwd old_cwd ;;
      ret (-1)
    else
      let opt_l := negb (Z.land option 1 =? 0) in
      (if opt_l then printk ("| mode | links |   size   |      name    |" ++ nl) [] else ret tt) ;;
      ls_blocks opt_l (data_direct inode) ;;
      printk nl [] ;;
      set_cwd old_cwd ;;
      ret 0.

(** int fs_mkdir(const char *path) *)
Definition fs_mkdir (path : list Z) : M S Z :=
  inode_idx <- get_inode_by_filename path true 0 ;;
  if inode_idx <? 0 then
    printk ("Failed to create directory" ++ nl) [] ;;
    ret (-1)
  else
    inode <- read_inode inode_idx ;;
    if negb (type inode =? 0) then
      printk ("Already existed" ++ nl) [] ;;
      ret (-1)
    else
      let inode := set_type_links inode 1 1 in
      cwd <- get_cwd ;;
      '(_, inode, _) <- inode_modify_data true inode (encode_dir (MkDir inode_idx 1 dot) ++ encode_dir (MkDir cwd 1 dotdot)) 0 64 ;;
      write_inode inode_idx inode ;;
      ret 0.

(** int fs_touch(const char *path) *)
Definition fs_touch (path : list Z) : M S Z :=
  inode_idx <- get_inode_by_filename path true 0 ;;
  if inode_idx <? 0 then
    printk ("Failed to create file" ++ nl) [] ;;
    ret (-1)
  else
    inode <- read_inode inode_idx ;;
    if negb (type inode =? 0) then
      printk ("Already existed" ++ nl) [] ;;
      ret (-1)
    else
      write_inode inode_idx (set_type_links inode 2 1) ;;
      ret 0.

(** void free_inode_blocks_recur(uint blockid, size_t depth) *)
Fixpoint free_inode_blocks_recur (blockid : Z) (depth : nat) : M S unit :=
  match depth with
  | O => if blockid =? 0 then ret tt else block_free blockid
  | Datatypes.S depth' =>
      h <- Block blockid ;;
      (fix loop (n i : nat) : M S unit :=
         match n with
         | O => ret tt
         | Datatypes.S n' =>
             b <- data h ;;
             let v := u32_at b (4 * i) in
             (if v =? 0 then ret tt else free_inode_blocks_recur v depth') ;;
             loop n' (i + 1)%nat
         end) 1024%nat 0%nat
  end.
Fixpoint free_all (l : list Z) (depth : nat) : M S unit :=
  match l with
  | [] => ret tt
  | v :: l' => (if v =? 0 then ret tt else free_inode_blocks_recur v depth) ;; free_all l' depth
  end.

(** void free_inode_blocks(uint ino, Inode &inode) *)
Definition free_inode_blocks (inode : Inode) : M S unit :=
  free_all (data_direct inode) 0 ;;
  free_all (data_l1 inode) 1 ;;
  free_all (data_l2 inode) 2 ;;
  free_all [data_l3 inode] 3.

(** int fs_rm(const char *path) *)
Definition fs_rm (path : list Z) : M S Z :=
  inode <- get_inode_by_filename path false 0 ;;
  if inode <? 0 then
    printk ("No such file" ++ nl) [] ;;
    ret (-1)
  else
    inode_info <- read_inode inode ;;
    if negb (type inode_info =? 2) then
      printk ("Not a file" ++ nl) [] ;;
      ret (-1)
    else
      remove_inode_by_filename path ;;
      let inode_info := set_links inode_info (u16 (link_cnt inode_info - 1)) in
      if negb (link_cnt inode_info =? 0) then
        write_inode inode inode_info ;;
        ret 0
      else
        free_inode_blocks inode_info ;;
        inode_free inode ;;
        ret 0.

(** int fs_rmdir(const char *path) *)
Definition fs_rmdir (path : list Z) : M S Z :=
  inode_idx <- get_inode_by_filename path false 0 ;;
  if inode_idx <? 0 then
    printk ("No such directory" ++ nl) [] ;;
    ret (-1)
  else
    inode <- read_inode inode_idx ;;
    if negb (type inode =? 1) then
      printk ("Not a directory" ++ nl) [] ;;
      ret (-1)
    else if negb (size inode =? 0) then
      printk ("Directory not empty" ++ nl) [] ;;
      ret (-1)
    else
      remove_inode_by_filename path ;;
      let inode := set_links inode (u16 (link_cnt inode - 1)) in
      if negb (link_cnt inode =? 0) then
        write_inode inode_idx inode ;;
        ret 0
      else
        free_inode_blocks inode ;;
        inode_free inode_idx ;;
        ret 0.

(** int fs_ln(const char *src_path, const char *dst_path) *)
Definition fs_ln (src_path dst_path : list Z) : M S Z :=
  src_inode <- get_inode_by_filename src_path false 0 ;;
  if src_inode <? 0 then
    printk ("No such source file" ++ nl) [] ;;
    ret (-1)
  else
    dst_inode <- get_inode_by_filename dst_path true src_inode ;;
    if dst_inode <? 0 then
      printk ("Failed to create link" ++ nl) [] ;;
      ret (-1)
    else
      inode <- read_inode src_inode ;;
      write_inode src_inode (set_links inode (u16 (link_cnt inode + 1))) ;;
      ret 0.

(** int fs_cat(const char *path): [cat_buffer] is a static array of one block. *)
Fixpoint cat_loop (fuel : nat) (inode_info : Inode) (offset : Z) (cat_buffer : list Z) : M S (list Z) :=
  match fuel with
  | O => lift OutOfFuel
  | Datatypes.S fuel' =>
      if offset <? size inode_info then
        let read_size := Z.min BLOCK_SIZE (size inode_info - offset) in
        '(_, inode_info, cat_buffer) <- inode_modify_data false inode_info cat_buffer offset read_size ;;
        s <- lift (cstr cat_buffer) ;;
        emit (Putstr s) ;;
        cat_loop fuel' inode_info (offset + read_size) cat_buffer
      else ret cat_buffer
  end.
Definition fs_cat (path cat_buffer : list Z) : M S (Z * list Z) :=
  inode <- get_inode_by_filename path false 0 ;;
  if inode <? 0 then
    printk ("No such file" ++ nl) [] ;;
    ret (-1, cat_buffer)
  else
    inode_info <- read_inode inode ;;
    if negb (type inode_info =? 2) then
      printk ("Not a file" ++ nl) [] ;;
      ret (-1, cat_buffer)
    else
      cat_buffer <- cat_loop (Z.to_nat (size inode_info / 4096 + 2)) inode_info 0 cat_buffer ;;
      printk nl [] ;;
      ret (0, cat_buffer).

(** * Directories as lists of names *)

Fixpoint cname (l : list Z) : list Z :=
  match l with [] => [] | c :: l' => if c =? 0 then [] else c :: cname l' end.

Definition named (d : DirEntry) (path : list Z) : Prop := valid d <> 0 /\ cname (name d) = path.

(** Entry [n] of the directory with inode [i]. *)
Definition dentry (s : fs S) (i : Inode) (n : nat) : DirEntry :=
  decode_dir (map (fun p => content s i (Z.of_nat p)) (seq (32 * n) 32)).

(** A stored name ends inside its array. *)
Definition entry_ok (d : DirEntry) : Prop := valid d <> 0 -> 0 ∈ name d /\ Forall (fun c => 0 <= c) (name d).

(** What a name stands for among 1024 entries: the first one with it. *)
Inductive looks_up (D : nat -> DirEntry) (path : list Z) : option Z -> Prop :=
| LookNone : (forall n, (n < 1024)%nat -> ~ named (D n) path) -> looks_up D path None
| LookSome n : (n < 1024)%nat -> named (D n) path -> (forall m, (m < n)%nat -> ~ named (D m) path) ->
    looks_up D path (Some (inode (D n))).

Definition bent (b : list Z) (j : nat) : DirEntry := decode_dir (rec_at 32 b j).

(** ** Lemmas *)

Lemma take_drop_nth (b : list Z) o n : (o + n <= List.length b)%nat -> take n (drop o b) = map (fun p => nth p b 0) (seq o n).
Proof.
  revert o. induction n as [|n IH]; intros o Hn; [by rewrite take_0|]. cbn [seq map].
  rewrite (drop_S b (nth o b 0) o) by (apply lookup_nth_lt; lia). cbn [take]. f_equal. apply IH. lia.
Qed.

Lemma named_dec d path : Decision (named d path).
Proof. unfold named. apply _. Qed.

Lemma cname_split l : 0 ∈ l -> exists rest, l = cname l ++ 0 :: rest.
Proof.
  intros Hin. induction l as [|c l IH]; [by apply elem_of_nil in Hin|]. cbn [cname]. destruct (Z.eqb_spec c 0) as [->|E]; [by exists l|].
  apply elem_of_cons in Hin as [<-|Hin]; [done|]. destruct (IH Hin) as [rest Hr]. exists rest. cbn. f_equal. exact Hr.
Qed.

Lemma cname_nonzero l : Forall (fun c => 0 <= c) l -> Forall (fun c => 0 < c) (cname l).
Proof.
  induction 1 as [|c l Hc Hl IH]; cbn [cname]; [constructor|]. destruct (Z.eqb_spec c 0); constructor; [lia|done].
Qed.

(** Comparing the name of entry [j] of a block. *)
Lemma streq_entry b j path : List.length b = 4096%nat -> (j < 128)%nat -> entry_ok (bent b j) -> valid (bent b j) <> 0 ->
  Forall (fun c => 0 < c) path ->
  streq (drop (32 * j + 8) b) path = Ok (bool_decide (cname (name (bent b j)) = path)).
Proof.
  intros Hlen Hj Hok Hv Hp. destruct (Hok Hv) as [Hz Hpos]. set (nm := name (bent b j)) in *.
  assert (Enm : nm = take 24 (drop (32 * j + 8) b)).
  { unfold nm, bent, decode_dir, rec_at. cbn [name]. rewrite skipn_firstn_comm, take_take, drop_drop, Nat.min_l by lia. done. }
  destruct (cname_split nm Hz) as [rest Er]. pose proof (cname_nonzero nm Hpos) as Hcn. set (cn := cname nm) in *. clearbody cn.
  rewrite <- (take_drop 24 (drop (32 * j + 8) b)), <- Enm, Er, <- app_assoc. cbn [app]. by rewrite streq_stored.
Qed.

Lemma bool_named d path : valid d <> 0 -> bool_decide (cname (name d) = path) = bool_decide (named d path).
Proof. intros Hv. apply bool_decide_ext. unfold named. tauto. Qed.

Lemma entry_scan_spec b path i n : List.length b = 4096%nat -> Forall (fun c => 0 < c) path -> forall j free,
  (j + n <= 128)%nat -> (forall k, (j <= k < j + n)%nat -> entry_ok (bent b k)) ->
  exists r f, entry_scan b path i j n free = Ok (r, f) /\
    match r with
    | Some ino => exists k, (j <= k < j + n)%nat /\ named (bent b k) path /\ inode (bent b k) = ino /\
                    forall k', (j <= k' < k)%nat -> ~ named (bent b k') path
    | None => (forall k, (j <= k < j + n)%nat -> ~ named (bent b k) path) /\
        (f = free \/ free = 0 /\ exists k, (j <= k < j + n)%nat /\ valid (bent b k) = 0 /\ f = Z.of_nat (i * 128 + k)) /\
        (f = 0 -> forall k, (j <= k < j + n)%nat -> (i * 128 + k)%nat <> 0%nat -> valid (bent b k) <> 0)
    end.
Proof.
  intros Hlen Hp. induction n as [|n IH]; intros j free Hj Hok; cbn [entry_scan].
  { exists None, free. split; [done|]. split; [intros; lia|]. split; [by left|intros; lia]. }
  change sizeof_DirEntry with 32%nat. change DIRENTRY_PER_BLOCK with 128%nat. fold (bent b j).
  assert (Hnext : (j + 1 + n <= 128)%nat /\ forall k, (j + 1 <= k < j + 1 + n)%nat -> entry_ok (bent b k)) by (split; [lia|intros k Hk; apply Hok; lia]).
  destruct Hnext as [Hn1 Hn2].
  destruct (Z.eqb_spec (valid (bent b j)) 0) as [Ev|Ev].
  - cbn [obind]. cbn [andb]. destruct (IH (j + 1)%nat (if free =? 0 then Z.of_nat (i * 128 + j) else free)) as (r & f & E & Hr); [done..|].
    exists r, f. split; [done|]. assert (Hnn : ~ named (bent b j) path) by (unfold named; tauto). destruct r as [ino|].
    + destruct Hr as (k & Hk & Hm & Hi & Hlow). exists k. split; [lia|]. split; [done|]. split; [done|]. intros k' Hk'.
      destruct (decide (k' = j)) as [->|]; [done|]. apply Hlow. lia.
    + destruct Hr as (Hno & Hf & Hz). split; [|split].
      * intros k Hk. destruct (decide (k = j)) as [->|]; [done|]. apply Hno. lia.
      * destruct (Z.eqb_spec free 0) as [->|Hne].
        -- right. split; [done|]. destruct Hf as [->|(_ & k & Hk & Hvk & ->)]; [exists j; split; [lia|done]|exists k; split; [lia|done]].
        -- destruct Hf as [->|(E0 & _)]; [by left|done].
      * intros Ef k Hk Hne. destruct (decide (k = j)) as [->|]; [|apply Hz; [done|lia|done]].
        exfalso. destruct (Z.eqb_spec free 0) as [->|Hfree]; [|destruct Hf as [->|(E0 & _)]; lia].
        destruct Hf as [->|(E0 & _)]; lia.
  - rewrite streq_entry; [|done|lia|apply Hok; lia|done|done]. cbn [obind]. rewrite bool_named by done. case_bool_decide as Hm.
    + exists (Some (inode (bent b j))), free. split; [done|]. exists j. split; [lia|]. split; [done|]. split; [done|]. intros; lia.
    + cbn [andb]. destruct (IH (j + 1)%nat free) as (r & f & E & Hr); [done..|]. exists r, f. split; [done|]. destruct r as [ino|].
      * destruct Hr as (k & Hk & Hmk & Hi & Hlow). exists k. split; [lia|]. split; [done|]. split; [done|]. intros k' Hk'.
        destruct (decide (k' = j)) as [->|]; [done|]. apply Hlow. lia.
      * destruct Hr as (Hno & Hf & Hz). split; [|split].
        -- intros k Hk. destruct (decide (k = j)) as [->|]; [done|]. apply Hno. lia.
        -- destruct Hf as [->|(E0 & k & Hk & ?)]; [by left|right]. split; [done|]. exists k. split; [lia|done].
        -- intros Ef k Hk Hne. destruct (decide (k = j)) as [->|]; [done|]. apply Hz; [done|lia|done].
Qed.

Definition dir_wf (s : fs S) (i : Inode) : Prop := file_ok s i /\ forall n, (n < 1024)%nat -> entry_ok (dentry s i n).

Lemma block_at_entry i k j q : (k < 8)%nat -> (j < 128)%nat -> (q < 32)%nat ->
  block_at i (Z.of_nat (32 * (128 * k + j) + q)) = nth k (data_direct i) 0 /\ (Z.of_nat (32 * (128 * k + j) + q)) mod 4096 = Z.of_nat (32 * j + q).
Proof.
  intros Hk Hj Hq.
  assert (E1 : Z.of_nat (32 * (128 * k + j) + q) / 4096 = Z.of_nat k) by (symmetry; apply (Z.div_unique_pos _ _ _ (Z.of_nat (32 * j + q))); lia).
  split; [unfold block_at; by rewrite E1, Nat2Z.id|]. symmetry. apply (Z.mod_unique_pos _ _ (Z.of_nat k)); lia.
Qed.

Lemma map_seq_ext (f g : nat -> Z) o n : (forall q, (q < n)%nat -> f (o + q)%nat = g (o + q)%nat) -> map f (seq o n) = map g (seq o n).
Proof.
  intros E. apply map_ext_in. intros p Hp. apply in_seq in Hp. specialize (E (p - o)%nat ltac:(lia)).
  by replace (o + (p - o))%nat with p in E by lia.
Qed.

Lemma map_seq_shift {A} (f : nat -> A) o n : map f (seq o n) = map (fun q => f (o + q)%nat) (seq 0 n).
Proof. revert f. induction o as [|o IH]; intros f; [done|]. rewrite <- seq_shift, map_map. apply IH. Qed.

Lemma dentry_block s i k j : binv (blk s) ∅ -> file_ok s i -> (k < 8)%nat -> (j < 128)%nat ->
  nth k (data_direct i) 0 <> 0 -> dentry s i (128 * k + j) = bent (disk s (nth k (data_direct i) 0)) j.
Proof.
  intros Hs Hi Hk Hj Hne. unfold dentry, bent, rec_at. f_equal.
  assert (Hd : is_data_block (nth k (data_direct i) 0)).
  { apply (fo_blocks _ _ Hi k); [|done]. apply lookup_nth_lt. rewrite (ok_direct _ (fo_inode _ _ Hi)). done. }
  assert (Hlen : List.length (disk s (nth k (data_direct i) 0)) = 4096%nat) by (apply disk_length; [done|by apply data_block_block]).
  rewrite take_drop_nth by lia. rewrite (map_seq_shift _ (32 * (128 * k + j))), (map_seq_shift _ (32 * j)).
  apply map_seq_ext. intros q Hq. rewrite Nat.add_0_l. unfold content. destruct (block_at_entry i k j q Hk Hj Hq) as [-> ->].
  destruct (Z.eqb_spec (nth k (data_direct i) 0) 0); [done|]. by rewrite Nat2Z.id.
Qed.

Lemma dentry_hole s i k j : (k < 8)%nat -> (j < 128)%nat -> nth k (data_direct i) 0 = 0 -> valid (dentry s i (128 * k + j)) = 0.
Proof.
  intros Hk Hj E0. unfold dentry. rewrite map_seq_shift.
  rewrite (map_seq_ext _ (fun _ => 0)); [done|]. intros q Hq. rewrite Nat.add_0_l. unfold content.
  destruct (block_at_entry i k j q Hk Hj Hq) as [-> _]. by rewrite E0.
Qed.

Lemma dentry_ext s s' i n : (forall p, 0 <= p < 32768 -> content s' i p = content s i p) -> (n < 1024)%nat -> dentry s' i n = dentry s i n.
Proof.
  intros E Hn. unfold dentry. f_equal. apply map_seq_ext. intros q Hq. apply E. lia.
Qed.

(** A step that leaves the block map and the data blocks alone. *)
Lemma content_same s s' i : (forall b, is_block b -> 2 <= b < 5 \/ 517 <= b -> disk s' b = disk s b) -> file_ok s i ->
  file_ok s' i /\ forall p, 0 <= p < 32768 -> content s' i p = content s i p.
Proof.
  intros Hd Hi. assert (Hb : forall v, is_data_block v -> bmap s v = true -> bmap s' v = true).
  { intros v Hv E. rewrite <- E. apply bmap_ext; [unfold is_data_block in Hv; lia|]. intros b Hb Hr. apply Hd; auto. }
  split.
  - split; [apply Hi| |apply Hi]. intros k v Hk Hne. destruct (fo_blocks _ _ Hi k v Hk Hne). auto.
  - intros p Hp. unfold content. destruct (Z.eqb_spec (block_at i p) 0); [done|].
    destruct (block_at_data s i p Hi Hp) as [Hdb _]; [done|]. rewrite Hd; [done|by apply data_block_block|right; apply Hdb].
Qed.

Lemma content_quiet s s' i : quiet s s' -> file_ok s i -> file_ok s' i /\ forall p, 0 <= p < 32768 -> content s' i p = content s i p.
Proof. intros [[_ Hd] _]. apply content_same. intros b Hb _. by apply Hd. Qed.

Lemma dir_scan_spec node path : Forall (fun c => 0 < c) path -> forall l i free s,
  fs_inv s -> dir_wf s node -> drop i (data_direct node) = l -> (i <= 8)%nat ->
  wp (dir_scan l path i free) s (fun r s' => quiet s s' /\
    match r with
    | (Some ino, _) => exists n, (128 * i <= n < 1024)%nat /\ named (dentry s node n) path /\ inode (dentry s node n) = ino /\
                    forall m, (128 * i <= m < n)%nat -> ~ named (dentry s node m) path
    | (None, f) => (forall n, (128 * i <= n < 1024)%nat -> ~ named (dentry s node n) path) /\
        (f = free \/ free = 0 /\ exists k j, (i <= k < 8)%nat /\ (j < 128)%nat /\ nth k (data_direct node) 0 <> 0 /\
           valid (dentry s node (128 * k + j)) = 0 /\ f = Z.of_nat (128 * k + j)) /\
        (f = 0 -> forall k j, (i <= k < 8)%nat -> (j < 128)%nat -> (128 * k + j)%nat <> 0%nat -> nth k (data_direct node) 0 <> 0 ->
           valid (dentry s node (128 * k + j)) <> 0)
    end).
Proof.
  intros Hpath l. induction l as [|v l IH]; intros i free s Hs Hwf Hl Hi8; cbn [dir_scan]; destruct Hwf as [Hf He].
  - pose proof (f_equal (@List.length Z) Hl) as Hlen. rewrite length_drop, (ok_direct _ (fo_inode _ _ Hf)) in Hlen.
    unfold INODE_DATA_DIRECT in Hlen. cbn in Hlen. assert (i = 8%nat) as -> by lia.
    apply wp_ret. split; [apply quiet_refl, Hs|]. split; [intros; lia|]. split; [by left|intros; lia].
  - assert (Hv : data_direct node !! i = Some v) by (rewrite <- (Nat.add_0_r i), <- lookup_drop, Hl; done).
    assert (Hi : (i < 8)%nat) by (apply lookup_lt_Some in Hv; rewrite (ok_direct _ (fo_inode _ _ Hf)) in Hv; done).
    assert (Hnv : nth i (data_direct node) 0 = v) by (by apply nth_lookup_Some).
    assert (Hl' : drop (i + 1) (data_direct node) = l) by (rewrite Nat.add_comm, <- drop_drop, drop_drop, Nat.add_comm, <- drop_drop, Hl; done).
    destruct (Z.eqb_spec v 0) as [Ev|Ev].
    + assert (Hhole : forall j, (j < 128)%nat -> ~ named (dentry s node (128 * i + j)) path).
      { intros j Hj [Hv' _]. apply Hv'. apply dentry_hole; [done|done|congruence]. }
      assert (Hsplit : forall n, (128 * i <= n)%nat -> (n < 128 * (i + 1))%nat -> ~ named (dentry s node n) path).
      { intros n Hn1 Hn2. replace n with (128 * i + (n - 128 * i))%nat by lia. apply Hhole. lia. }
      eapply wp_mono; [apply (IH (i + 1)%nat free s); [done|by split|done|lia]|]. intros [[ino|] f] s' [Hq Hr]; split; try done.
      * destruct Hr as (n & Hn & Hm & Hino & Hlow). exists n. split; [lia|]. split; [done|]. split; [done|]. intros m Hm'.
        destruct (decide (m < 128 * (i + 1))%nat); [apply Hsplit; lia|apply Hlow; lia].
      * destruct Hr as (Hno & Hfr & Hz). split; [|split].
        -- intros n Hn. destruct (decide (n < 128 * (i + 1))%nat); [apply Hsplit; lia|apply Hno; lia].
        -- destruct Hfr as [->|(E0 & k & j & Hk & Hj & ?)]; [by left|right]. split; [done|]. exists k, j. split; [lia|]. done.
        -- intros Ef k j Hk Hj Hne Hnz. destruct (decide (k = i)) as [->|]; [congruence|]. apply Hz; try done. lia.
    + destruct (fo_blocks _ _ Hf i v Hv Ev) as [Hd _]. pose proof (data_block_block v Hd) as Hb.
      apply wp_Block_data; [apply Hs|done|]. intros h s1 Hq1 _. pose proof (fi_blk _ (fi_core _ Hs)) as Hbi.
      assert (Hent : forall j, (j < 128)%nat -> dentry s node (128 * i + j) = bent (disk s v) j).
      { intros j Hj. rewrite dentry_block by (done || congruence). by rewrite Hnv. }
      destruct (entry_scan_spec (disk s v) path i 128 (disk_length s v Hbi Hb) Hpath 0 free) as (r & f & E & Hr); [done| |].
      { intros k Hk. rewrite <- Hent by lia. apply He. lia. }
      change DIRENTRY_PER_BLOCK with 128%nat. rewrite E. apply wp_bind, wp_lift. destruct r as [ino|].
      * apply wp_ret. split; [done|]. destruct Hr as (k & Hk & Hm & Hino & Hlow). exists (128 * i + k)%nat. rewrite Hent by lia.
        split; [lia|]. split; [done|]. split; [done|]. intros m Hm'. replace m with (128 * i + (m - 128 * i))%nat by lia.
        rewrite Hent by lia. apply Hlow. lia.
      * destruct Hr as (Hno & Hfr & Hz).
        assert (Hno' : forall n, (128 * i <= n)%nat -> (n < 128 * (i + 1))%nat -> ~ named (dentry s node n) path).
        { intros n Hn1 Hn2. replace n with (128 * i + (n - 128 * i))%nat by lia. rewrite Hent by lia. apply Hno. lia. }
        destruct (content_quiet s s1 node Hq1 Hf) as [Hf1 Hc1].
        assert (Hde : forall n, (n < 1024)%nat -> dentry s1 node n = dentry s node n) by (intros n Hn; by apply dentry_ext).
        eapply wp_mono; [apply (IH (i + 1)%nat f s1); [by eapply quiet_inv| |done|lia]|].
        { split; [done|]. intros n Hn. rewrite Hde by done. by apply He. }
        intros [[ino|] f'] s2 [Hq2 Hr2]; (split; [by eapply quiet_trans|]).
        -- destruct Hr2 as (n & Hn & Hm & Hino & Hlow). exists n. rewrite Hde in Hm, Hino by lia. split; [lia|]. split; [done|]. split; [done|].
           intros m Hm'. destruct (decide (m < 128 * (i + 1))%nat); [apply Hno'; lia|]. rewrite <- Hde by lia. apply Hlow. lia.
        -- destruct Hr2 as (Hno2 & Hfr2 & Hz2). split; [|split].
           ++ intros n Hn. destruct (decide (n < 128 * (i + 1))%nat); [apply Hno'; lia|]. rewrite <- Hde by lia. apply Hno2. lia.
           ++ assert (Hfirst : f = free \/ free = 0 /\ exists k j, (i <= k < 8)%nat /\ (j < 128)%nat /\ nth k (data_direct node) 0 <> 0 /\
                valid (dentry s node (128 * k + j)) = 0 /\ f = Z.of_nat (128 * k + j)).
              { destruct Hfr as [->|(E0 & k & Hk & Hvk & ->)]; [by left|right]. split; [done|]. exists i, k. rewrite Hent by lia.
                split; [lia|]. split; [lia|]. split; [congruence|]. split; [done|]. lia. }
              destruct Hfr2 as [->|(E0 & k & j & Hk & Hj & Hnz & Hvk & ->)]; [done|]. rewrite Hde in Hvk by lia.
              destruct Hfirst as [<-|(_ & k' & j' & ? & ? & ? & ? & E1)].
              ** right. split; [done|]. exists k, j. split; [lia|]. done.
              ** right. rewrite E0 in E1. destruct Hfr as [<-|(Ef & _)]; (split; [lia|]); exists k, j; split; [lia|done|lia|done].
           ++ intros Ef k j Hk Hj Hne Hnz. assert (Ef0 : f = 0) by (destruct Hfr2 as [->|(? & _)]; done).
              destruct (decide (k = i)) as [->|]; [rewrite Hent by lia; apply (Hz Ef0); lia|]. rewrite <- Hde by lia. apply Hz2; try done. lia.
Qed.

(** ** Looking names up *)

Definition path_ok (path : list Z) : Prop := Forall (fun c => 0 < c) path.

(** The working directory is a directory in good shape. *)
Record cwd_ok (s : fs S) : Prop := {
  cw_inode : is_inode (cwd_node s);
  cw_used : imap s (cwd_node s) = true;
  cw_type : type (inode_of s (cwd_node s)) = 1;
  cw_dir : dir_wf s (inode_of s (cwd_node s))
}.
Definition cwd_dir (s : fs S) : Inode := inode_of s (cwd_node s).

(** Reading the directory and scanning it for a name. *)
Lemma wp_scan {A} (k : Inode -> option Z * Z -> M S A) s path (Q : A -> fs S -> Prop) :
  fs_inv s -> cwd_ok s -> path_ok path ->
  (forall s1 r, quiet s s1 ->
    match r with
    | (Some ino, _) => looks_up (dentry s (cwd_dir s)) path (Some ino)
    | (None, f) => looks_up (dentry s (cwd_dir s)) path None /\
        (f = 0 \/ exists k j, (k < 8)%nat /\ (j < 128)%nat /\ valid (dentry s (cwd_dir s) (128 * k + j)) = 0 /\ f = Z.of_nat (128 * k + j)) /\
        (f = 0 -> forall k j, (k < 8)%nat -> (j < 128)%nat -> (128 * k + j)%nat <> 0%nat -> nth k (data_direct (cwd_dir s)) 0 <> 0 ->
           valid (dentry s (cwd_dir s) (128 * k + j)) <> 0)
    end -> wp (k (cwd_dir s) r) s1 Q) ->
  wp (cwd_node <- get_cwd ;; cwd <- read_inode cwd_node ;; r <- dir_scan (data_direct cwd) path 0 0 ;; k cwd r) s Q.
Proof.
  intros Hs Hc Hp HQ. apply wp_bind, wp_get_cwd, wp_bind. eapply wp_mono; [apply read_inode_spec; [done|apply Hc]|].
  intros node s1 [-> Hq1]. fold (cwd_dir s). destruct (cw_dir _ Hc) as [Hf He]. fold (cwd_dir s) in Hf, He.
  destruct (content_quiet s s1 _ Hq1 Hf) as [Hf1 Hc1].
  assert (Hde : forall n, (n < 1024)%nat -> dentry s1 (cwd_dir s) n = dentry s (cwd_dir s) n) by (intros n Hn; by apply dentry_ext).
  apply wp_bind. eapply wp_mono; [apply (dir_scan_spec (cwd_dir s) path Hp _ 0 0 s1); [by eapply quiet_inv| |done|lia]|].
  { split; [done|]. intros n Hn. rewrite Hde by done. by apply He. }
  intros [[ino|] f] s2 [Hq2 Hr]; (apply HQ; [by eapply quiet_trans|]).
  - destruct Hr as (n & Hn & Hm & <- & Hlow). rewrite Hde in * by lia. apply LookSome; [lia|done|]. intros m Hm'. rewrite <- Hde by lia. apply Hlow. lia.
  - destruct Hr as (Hno & Hf' & Hz). split; [|split].
    + apply LookNone. intros n Hn. rewrite <- Hde by lia. apply Hno. lia.
    + destruct Hf' as [->|(_ & k' & j & Hk & Hj & _ & Hv & ->)]; [by left|right]. exists k', j. rewrite <- Hde by lia. split; [lia|done].
    + intros Ef k' j Hk Hj Hne Hnz. rewrite <- Hde by lia. apply Hz; [done|lia|done..].
Qed.

Lemma lookup_found s path create new ino : fs_inv s -> cwd_ok s -> path_ok path -> looks_up (dentry s (cwd_dir s)) path (Some ino) ->
  wp (get_inode_by_filename path create new) s (fun r s' => r = i32 ino /\ quiet s s').
Proof.
  intros Hs Hc Hp Hl. unfold get_inode_by_filename. apply wp_scan; [done..|]. intros s1 [[ino'|] f] Hq Hr.
  - apply wp_ret. split; [|done]. f_equal. inversion Hl as [|n Hn Hm Hlow E]; subst. inversion Hr as [|n' Hn' Hm' Hlow' E']; subst.
    assert (n = n') as ->; [|done]. destruct (Nat.lt_trichotomy n n') as [?|[?|?]]; [by destruct (Hlow' n)|done|by destruct (Hlow n')].
  - destruct Hr as [Hno _]. inversion Hl as [|n Hn Hm Hlow E]; subst. inversion Hno as [Hall|]. by destruct (Hall n).
Qed.

Lemma lookup_absent s path : fs_inv s -> cwd_ok s -> path_ok path -> looks_up (dentry s (cwd_dir s)) path None ->
  wp (get_inode_by_filename path false 0) s (fun r s' => r = -1 /\ quiet s s').
Proof.
  intros Hs Hc Hp Hl. unfold get_inode_by_filename. apply wp_scan; [done..|]. intros s1 [[ino'|] f] Hq Hr.
  - inversion Hl as [Hall|]. inversion Hr as [|n' Hn' Hm' Hlow' E']; subst. by destruct (Hall n').
  - by apply wp_ret.
Qed.

(** ** Adding an entry *)

(** There is room for an entry: an unused one, or a block that is not there yet. *)
Definition dir_room (s : fs S) (i : Inode) : Prop :=
  exists k j, (k < 8)%nat /\ (j < 128)%nat /\
    (nth k (data_direct i) 0 = 0 \/ valid (dentry s i (128 * k + j)) = 0 /\ (128 * k + j)%nat <> 0%nat).

Lemma free_block_offset_spec l : forall i, (exists k, (k < List.length l)%nat /\ nth k l 0 = 0) ->
  exists k, (k < List.length l)%nat /\ nth k l 0 = 0 /\ free_block_offset l i 0 = Z.of_nat (128 * (i + k)).
Proof.
  induction l as [|v l IH]; intros i (k & Hk & E); cbn [List.length] in Hk; [lia|]. cbn [free_block_offset].
  destruct (Z.eqb_spec v 0) as [->|Hne].
  - exists 0%nat. split; [cbn; lia|]. split; [done|]. unfold DIRENTRY_PER_BLOCK. lia.
  - destruct k as [|k]; [done|]. cbn [nth] in E. destruct (IH (i + 1)%nat) as (k' & Hk' & E' & ->); [exists k; split; [lia|done]|].
    exists (Datatypes.S k'). cbn [List.length nth]. split; [lia|]. split; [done|]. lia.
Qed.

(** The entry chosen for a new name is unused. *)
Lemma chosen_entry s i f : file_ok s i -> dir_room s i ->
  (f = 0 \/ exists k j, (k < 8)%nat /\ (j < 128)%nat /\ valid (dentry s i (128 * k + j)) = 0 /\ f = Z.of_nat (128 * k + j)) ->
  (f = 0 -> forall k j, (k < 8)%nat -> (j < 128)%nat -> (128 * k + j)%nat <> 0%nat -> nth k (data_direct i) 0 <> 0 -> valid (dentry s i (128 * k + j)) <> 0) ->
  exists n, (n < 1024)%nat /\ valid (dentry s i n) = 0 /\ (if f =? 0 then free_block_offset (data_direct i) 0 0 else f) = Z.of_nat n.
Proof.
  intros Hi (k0 & j0 & Hk0 & Hj0 & Hroom) Hf Hz. destruct (Z.eqb_spec f 0) as [->|Hne].
  - assert (Hhole : nth k0 (data_direct i) 0 = 0).
    { destruct (Z.eq_dec (nth k0 (data_direct i) 0) 0); [done|]. destruct Hroom as [?|[Hv Hn]]; [done|]. by destruct (Hz eq_refl k0 j0). }
    destruct (free_block_offset_spec (data_direct i) 0) as (k & Hk & E & ->).
    { exists k0. split; [|done]. by rewrite (ok_direct _ (fo_inode _ _ Hi)). }
    rewrite (ok_direct _ (fo_inode _ _ Hi)) in Hk. unfold INODE_DATA_DIRECT in Hk. exists (128 * k)%nat. split; [lia|]. split; [|lia].
    rewrite <- (Nat.add_0_r (128 * k)). apply dentry_hole; [done|lia|done].
  - destruct Hf as [->|(k & j & Hk & Hj & Hv & ->)]; [done|]. exists (128 * k + j)%nat. split; [lia|done].
Qed.

Lemma cname_padded path k : path_ok path -> cname (path ++ replicate (Datatypes.S k) 0) = path.
Proof.
  induction 1 as [|c path Hc Hp IH]; [done|]. cbn [app cname]. destruct (Z.eqb_spec c 0); [lia|]. by rewrite IH.
Qed.

Lemma dir_name_spec path : path_ok path -> (List.length path < 24)%nat ->
  exists nm, dir_name path = Ok nm /\ List.length nm = 24%nat /\ cname nm = path /\ 0 ∈ nm /\ Forall (fun c => 0 <= c) nm.
Proof.
  intros Hp Hlen. unfold dir_name. destruct (Nat.ltb_spec (List.length path) 24); [|lia].
  assert (Hk : exists k, (24 - List.length path)%nat = Datatypes.S k) by (exists (23 - List.length path)%nat; lia). destruct Hk as [k Hk].
  eexists. split; [reflexivity|]. rewrite Hk. split; [rewrite length_app, length_replicate; lia|]. split; [by apply cname_padded|].
  split; [apply elem_of_app; right; apply elem_of_replicate; split; [done|lia]|].
  apply Forall_app. split; [eapply Forall_impl; [exact Hp|]; intros c Hc; simpl in Hc; lia|]. by apply Forall_replicate.
Qed.

(** The state after entry [n] of the working directory became [e]. *)
Record entry_set (s s' : fs S) (n : nat) (e : DirEntry) : Prop := {
  es_inv : fs_inv s';
  es_cwd : cwd_node s' = cwd_node s /\ console s' = console s;
  es_ok : cwd_ok s';
  es_new : dentry s' (cwd_dir s') n = e;
  es_old : forall m, (m < 1024)%nat -> m <> n -> dentry s' (cwd_dir s') m = dentry s (cwd_dir s) m;
  es_inodes : forall ino, is_inode ino -> ino <> cwd_node s -> inode_of s' ino = inode_of s ino;
  es_links : link_cnt (cwd_dir s') = link_cnt (cwd_dir s);
  es_imap : forall m, 0 <= m < 32768 -> imap s' m = imap s m;
  es_files : forall j, file_ok s j -> (forall k v, v <> 0 -> data_direct (cwd_dir s) !! k = Some v -> forall k', data_direct j !! k' <> Some v) ->
    file_ok s' j /\ forall p, 0 <= p < 32768 -> content s' j p = content s j p
}.

Lemma content_direct s i i' p : data_direct i' = data_direct i -> content s i' p = content s i p.
Proof. intros E. unfold content, block_at. by rewrite E. Qed.
Lemma dentry_direct s i i' n : data_direct i' = data_direct i -> dentry s i' n = dentry s i n.
Proof. intros E. unfold dentry. f_equal. apply map_ext. intros p. by apply content_direct. Qed.
Lemma file_ok_direct s i i' : data_direct i' = data_direct i -> inode_ok i' -> file_ok s i -> file_ok s i'.
Proof. intros E Hok [_ Hb Hd]. split; [done|..]; rewrite E; done. Qed.

(** A new inode for the working directory, with the same blocks. *)
Lemma write_cwd s node : fs_inv s -> is_inode (cwd_node s) -> imap s (cwd_node s) = true -> file_ok s node -> type node = 1 ->
  (forall n, (n < 1024)%nat -> entry_ok (dentry s node n)) ->
  wp (write_inode (cwd_node s) node) s (fun _ s' => fs_inv s' /\ cwd_ok s' /\ cwd_node s' = cwd_node s /\ console s' = console s /\
    superblock s' = superblock s /\ cwd_dir s' = node /\ (forall n, (n < 1024)%nat -> dentry s' node n = dentry s node n) /\
    (forall ino, is_inode ino -> ino <> cwd_node s -> inode_of s' ino = inode_of s ino) /\
    (forall m, 0 <= m < 32768 -> imap s' m = imap s m) /\ (forall m, 0 <= m < 98304 -> bmap s' m = bmap s m) /\
    (forall b, is_block b -> 517 <= b -> disk s' b = disk s b) /\
    (forall j, file_ok s j -> file_ok s' j /\ forall p, 0 <= p < 32768 -> content s' j p = content s j p)).
Proof.
  intros Hs Hc Hu Hf Ht He. pose proof (fo_inode _ _ Hf) as Hok.
  eapply wp_mono; [by apply write_inode_spec|]. intros [] s' [Hw Hs']. pose proof Hw as [_ (Esb & Ec & Eo)].
  destruct (inode_index _ Hc) as (Hib & _ & _).
  assert (Hd : forall b, is_block b -> b < 5 \/ 517 <= b -> disk s' b = disk s b) by (intros b Hb Hr; eapply wrote_ne; [done|done|lia]).
  assert (Hj : forall j, file_ok s j -> file_ok s' j /\ forall p, 0 <= p < 32768 -> content s' j p = content s j p)
    by (intros j Hj; apply content_same; [|done]; intros b Hb Hr; apply Hd; [done|lia]).
  assert (Him : forall m, 0 <= m < 32768 -> imap s' m = imap s m).
  { intros m Hm. apply (mbit_other _ _ 1 32768); [done|done|]. change (32768 / 32768) with 1. intros i Hi. apply Hd; [apply is_block_range|]; lia. }
  assert (Hin : forall ino, is_inode ino -> inode_of s' ino = if decide (ino = cwd_node s) then node else inode_of s ino)
    by (intros ino Hi; by apply (inode_of_write s s'); [apply Hs|..]).
  assert (Hnode : cwd_dir s' = node) by (unfold cwd_dir; rewrite Ec, Hin by done; by rewrite decide_True).
  assert (Hde : forall n, (n < 1024)%nat -> dentry s' node n = dentry s node n) by (intros n Hn; apply dentry_ext; [apply Hj|]; done).
  split; [done|]. split.
  { split; fold (cwd_dir s'); rewrite ?Ec, ?Hnode; [done|by rewrite Him by apply Hc|done|]. split; [by apply Hj|]. intros n Hn. rewrite Hde by done. by apply He. }
  do 5 (split; [done|]). split; [intros ino Hi Hne; rewrite Hin by done; by rewrite decide_False|]. split; [done|]. split; [|split; [|done]].
  - intros m Hm. apply bmap_ext; [done|]. intros b Hb Hr. apply Hd; [done|lia].
  - intros b Hb Hr. apply Hd; [done|lia].
Qed.

Lemma link_entry s path nm idx n : fs_inv s -> cwd_ok s -> has_free_block s -> (n < 1024)%nat -> 0 <= idx < 2 ^ 32 ->
  List.length nm = 24%nat -> 0 ∈ nm -> Forall (fun c => 0 <= c) nm -> dir_name path = Ok nm ->
  wp (nm <- lift (dir_name path) ;;
      '(_, cwd, _) <- inode_modify_data true (cwd_dir s) (encode_dir (MkDir idx 1 nm)) (u32 (Z.of_nat n * 32)) 32 ;;
      cwd_node <- get_cwd ;;
      write_inode cwd_node (set_size cwd (u32 (size cwd + 1))) ;;
      ret (i32 idx)) s
    (fun r s' => r = i32 idx /\ entry_set s s' n (MkDir idx 1 nm) /\ size (cwd_dir s') = u32 (size (cwd_dir s) + 1)).
Proof.
  intros Hs Hc Hfree Hn Hidx Hnm Hz Hpos Enm. rewrite Enm. apply wp_bind, wp_lift, wp_bind. destruct (cw_dir _ Hc) as [Hf He]. fold (cwd_dir s) in Hf, He.
  set (e := MkDir idx 1 nm). assert (Hdk : dir_ok e) by (split; [done|split; [done|done]]). pose proof (length_encode_dir e Hdk) as Hel.
  set (off := Z.of_nat n * 32). rewrite u32_small by lia. assert (Ho : 0 <= off < 32768) by lia.
  assert (Hfit : off mod 4096 + 32 <= 4096).
  { unfold off. pose proof (Z.mod_pos_bound (Z.of_nat n) 128). pose proof (Z.div_mod (Z.of_nat n) 128).
    rewrite <- (Z.mod_unique_pos (Z.of_nat n * 32) 4096 (Z.of_nat n / 128) (Z.of_nat n mod 128 * 32)); lia. }
  eapply wp_mono; [apply (modify_write_direct s (cwd_dir s) (encode_dir e) off 32); try done; [by apply (block_at_data s)|lia]|].
  intros r s1 (id & -> & Hw). fold (written_inode (cwd_dir s) off 32 id). set (node := written_inode (cwd_dir s) off 32 id).
  rewrite take_ge in Hw by (rewrite Hel; cbn; lia). destruct (dw_rest _ _ _ _ _ _ Hw) as (Ec & Eo & _).
  pose proof (file_ok_written s s1 (cwd_dir s) off 32 id _ _ Hf Ho Hw) as Hf1. fold node in Hf1.
  assert (Hct : forall p, 0 <= p < 32768 -> content s1 node p = if decide (off <= p < off + 32) then nth (Z.to_nat (p - off)) (encode_dir e) 0 else content s (cwd_dir s) p)
    by (apply content_written; [done|done|lia|done|by rewrite Hel|apply Hs|done]).
  assert (Hnew : dentry s1 node n = e).
  { unfold dentry. rewrite <- (decode_encode_dir e Hdk). f_equal. rewrite map_seq_shift.
    transitivity (map (fun p => nth p (encode_dir e) 0) (seq 0 32)); [|rewrite <- take_drop_nth by (rewrite Hel; lia); rewrite drop_0; apply take_ge; rewrite Hel; lia].
    apply map_seq_ext. intros q Hq. rewrite Hct by lia. rewrite decide_True by lia. f_equal. lia. }
  assert (Hold : forall m, (m < 1024)%nat -> m <> n -> dentry s1 node m = dentry s (cwd_dir s) m).
  { intros m Hm Hne. unfold dentry. f_equal. apply map_seq_ext. intros q Hq. rewrite Hct by lia. by rewrite decide_False by lia. }
  assert (Hd1 : forall b, is_block b -> b = 1 \/ 5 <= b < 517 -> disk s1 b = disk s b)
    by (intros b Hb Hr; apply (dw_other _ _ _ _ _ _ Hw); [done|lia|pose proof (dw_range _ _ _ _ _ _ Hw); lia]).
  assert (Him1 : forall m, 0 <= m < 32768 -> imap s1 m = imap s m).
  { intros m Hm. apply (mbit_other _ _ 1 32768); [done|done|]. change (32768 / 32768) with 1. intros i Hi. apply Hd1; [apply is_block_range|]; lia. }
  apply wp_bind, wp_get_cwd, wp_bind. set (node' := set_size node (u32 (size node + 1))).
  assert (Ety : type node = 1 /\ size node = size (cwd_dir s) /\ link_cnt node = link_cnt (cwd_dir s)).
  { pose proof (cw_type _ Hc) as Et. fold (cwd_dir s) in Et. unfold node, written_inode, grow_size, grown. rewrite Et. cbn. by rewrite andb_false_r. }
  destruct Ety as (Ety & Esz & Eln).
  assert (Hok' : inode_ok node') by (destruct (fo_inode _ _ Hf1); split; try done; apply u32_range).
  eapply wp_mono; [apply (write_cwd s1 node'); [apply Hw|by rewrite Ec; apply Hc|by rewrite Ec, Him1 by apply Hc; apply Hc|by apply (file_ok_direct s1 node)|done|]|].
  { intros m Hm. rewrite (dentry_direct s1 node) by done. destruct (decide (m = n)) as [->|Hne]; [by rewrite Hnew|]. rewrite Hold by done. by apply He. }
  intros [] s2 (Hs2 & Hc2 & Ec2 & Eo2 & _ & Ed2 & Hde2 & Hin2 & Him2 & _ & _ & Hfl2). apply wp_ret. split; [done|]. split; [|rewrite Ed2; change (u32 (size node + 1) = u32 (size (cwd_dir s) + 1)); by rewrite Esz].
  split.
  - done.
  - split; congruence.
  - done.
  - rewrite Ed2, Hde2 by done. by rewrite (dentry_direct s1 node).
  - intros m Hm Hne. rewrite Ed2, Hde2 by done. rewrite (dentry_direct s1 node) by done. by apply Hold.
  - intros ino Hi Hne. rewrite Hin2 by (done || congruence). apply inode_of_ext; [done|]. intros b Hb Hr. apply Hd1; [done|lia].
  - rewrite Ed2. exact Eln.
  - intros m Hm. rewrite Him2 by done. by apply Him1.
  - intros j Hj Hdis. destruct (content_other s s1 _ id _ _ j Hw Hj) as [Hj1 Hcj].
    { intros k Hv Hlk. eapply Hdis; [done|by apply (block_at_lookup s)|done]. }
    destruct (Hfl2 j Hj1) as [Hj2 Hcj2]. split; [done|]. intros p Hp. rewrite Hcj2 by done. by apply Hcj.
Qed.

(** ** Names after a change of one entry *)

Section OneEntry.
Variables (D D' : nat -> DirEntry) (n : nat) (path : list Z).
Hypothesis (Hn : (n < 1024)%nat) (Hsame : forall m, (m < 1024)%nat -> m <> n -> D' m = D m).

Lemma looks_up_kept path' r : ~ named (D n) path' -> ~ named (D' n) path' -> looks_up D path' r -> looks_up D' path' r.
Proof using Hn Hsame.
  intros Hno Hno' Hl. assert (Hall : forall m, (m < 1024)%nat -> ~ named (D m) path' -> ~ named (D' m) path').
  { intros m Hm Hnm. destruct (decide (m = n)) as [->|Hne]; [done|]. by rewrite Hsame. }
  destruct Hl as [Hnone|m Hm Hnm Hlow].
  - apply LookNone. intros m Hm. by apply Hall, Hnone.
  - assert (Hne : m <> n) by (by intros ->). rewrite <- (Hsame m Hm Hne). apply LookSome; [done|by rewrite Hsame|].
    intros k Hk. apply Hall; [lia|by apply Hlow].
Qed.

Lemma looks_up_added : looks_up D path None -> named (D' n) path -> looks_up D' path (Some (inode (D' n))).
Proof using Hn Hsame.
  intros Hl Hnm. inversion Hl as [Hnone|]. apply LookSome; [done|done|]. intros m Hm. rewrite Hsame by lia. apply Hnone. lia.
Qed.
End OneEntry.

(** ** Writing an inode other than the working directory *)

Lemma write_other s ino i : fs_inv s -> cwd_ok s -> is_inode ino -> ino <> cwd_node s -> inode_ok i ->
  wp (write_inode ino i) s (fun _ s' => fs_inv s' /\ cwd_ok s' /\ cwd_node s' = cwd_node s /\ console s' = console s /\
    superblock s' = superblock s /\ cwd_dir s' = cwd_dir s /\ (forall n, (n < 1024)%nat -> dentry s' (cwd_dir s) n = dentry s (cwd_dir s) n) /\
    (forall ino', is_inode ino' -> inode_of s' ino' = if decide (ino' = ino) then i else inode_of s ino') /\
    (forall m, 0 <= m < 32768 -> imap s' m = imap s m) /\ (forall m, 0 <= m < 98304 -> bmap s' m = bmap s m) /\
    (forall j, file_ok s j -> file_ok s' j /\ forall p, 0 <= p < 32768 -> content s' j p = content s j p)).
Proof.
  intros Hs Hc Hi Hne Hok. eapply wp_mono; [by apply write_inode_spec|]. intros [] s' [Hw Hs']. pose proof Hw as [_ (Esb & Ec & Eo)].
  destruct (inode_index _ Hi) as (Hib & _ & _). destruct (cw_dir _ Hc) as [Hf He]. fold (cwd_dir s) in Hf, He.
  assert (Hd : forall b, is_block b -> b < 5 \/ 517 <= b -> disk s' b = disk s b) by (intros b Hb Hr; eapply wrote_ne; [done|done|lia]).
  assert (Hj : forall j, file_ok s j -> file_ok s' j /\ forall p, 0 <= p < 32768 -> content s' j p = content s j p)
    by (intros j Hj; apply content_same; [|done]; intros b Hb Hr; apply Hd; [done|lia]).
  assert (Him : forall m, 0 <= m < 32768 -> imap s' m = imap s m).
  { intros m Hm. apply (mbit_other _ _ 1 32768); [done|done|]. change (32768 / 32768) with 1. intros k Hk. apply Hd; [apply is_block_range|]; lia. }
  assert (Hin : forall ino', is_inode ino' -> inode_of s' ino' = if decide (ino' = ino) then i else inode_of s ino')
    by (intros ino' Hi'; by apply (inode_of_write s s'); [apply Hs|..]).
  assert (Hnode : cwd_dir s' = cwd_dir s) by (unfold cwd_dir; rewrite Ec, Hin by apply Hc; by rewrite decide_False by congruence).
  assert (Hde : forall n, (n < 1024)%nat -> dentry s' (cwd_dir s) n = dentry s (cwd_dir s) n) by (intros n Hn; apply dentry_ext; [apply Hj|]; done).
  split; [done|]. split.
  { split; fold (cwd_dir s'); rewrite ?Ec, ?Hnode; [apply Hc|rewrite Him; [apply Hc|apply Hc]|apply Hc|]. split; [by apply Hj|]. intros n Hn. rewrite Hde by done. by apply He. }
  do 6 (split; [done|]). split; [done|]. split; [|done]. intros m Hm. apply bmap_ext; [done|]. intros b Hb Hr. apply Hd; [done|lia].
Qed.

(** A quiet step keeps the working directory. *)
Lemma cwd_quiet s s' : fs_inv s -> cwd_ok s -> quiet s s' -> cwd_ok s' /\ cwd_node s' = cwd_node s /\ cwd_dir s' = cwd_dir s /\
  (forall n, (n < 1024)%nat -> dentry s' (cwd_dir s) n = dentry s (cwd_dir s) n) /\
  (forall ino, is_inode ino -> inode_of s' ino = inode_of s ino) /\
  (forall m, 0 <= m < 32768 -> imap s' m = imap s m) /\ (forall m, 0 <= m < 98304 -> bmap s' m = bmap s m).
Proof.
  intros Hs Hc Hq. pose proof Hq as [[_ Hd] (Esb & Ec & Eo)]. destruct (cw_dir _ Hc) as [Hf He]. fold (cwd_dir s) in Hf, He.
  destruct (content_quiet s s' _ Hq Hf) as [Hf' Hct].
  assert (Hin : forall ino, is_inode ino -> inode_of s' ino = inode_of s ino) by (intros ino Hi; apply inode_of_ext; [done|]; intros b Hb _; by apply Hd).
  assert (Him : forall m, 0 <= m < 32768 -> imap s' m = imap s m).
  { intros m Hm. apply (mbit_other _ _ 1 32768); [done|done|]. change (32768 / 32768) with 1. intros k Hk. apply Hd, is_block_range. lia. }
  assert (Hnode : cwd_dir s' = cwd_dir s) by (unfold cwd_dir; rewrite Ec; apply Hin, Hc).
  assert (Hde : forall n, (n < 1024)%nat -> dentry s' (cwd_dir s) n = dentry s (cwd_dir s) n) by (intros n Hn; by apply dentry_ext).
  split; [|do 5 (split; [done|]); intros m Hm; apply bmap_ext; [done|]; intros b Hb _; by apply Hd].
  split; fold (cwd_dir s'); rewrite ?Ec, ?Hnode; [apply Hc|rewrite Him; [apply Hc|apply Hc]|apply Hc|]. split; [done|]. intros n Hn. rewrite Hde by done. by apply He.
Qed.

(** Allocating an inode keeps it too. *)
Lemma cwd_taken s s' n : cwd_ok s -> inode_taken s s' n -> cwd_ok s' /\ n <> cwd_node s /\ cwd_dir s' = cwd_dir s /\
  (forall m, (m < 1024)%nat -> dentry s' (cwd_dir s) m = dentry s (cwd_dir s) m) /\
  (forall ino, is_inode ino -> inode_of s' ino = inode_of s ino) /\ (forall m, 0 <= m < 98304 -> bmap s' m = bmap s m).
Proof.
  intros Hc T. destruct (it_rest _ _ _ T) as [Ec Eo]. destruct (cw_dir _ Hc) as [Hf He]. fold (cwd_dir s) in Hf, He.
  assert (Hd : forall b, is_block b -> 2 <= b -> disk s' b = disk s b) by apply T.
  destruct (content_same s s' (cwd_dir s)) as [Hf' Hct]; [intros b Hb Hr; apply Hd; [done|lia]|done|].
  assert (Hin : forall ino, is_inode ino -> inode_of s' ino = inode_of s ino) by (intros ino Hi; apply inode_of_ext; [done|]; intros b Hb Hr; apply Hd; [done|lia]).
  assert (Hne : n <> cwd_node s) by (intros ->; pose proof (it_free _ _ _ T); pose proof (cw_used _ Hc); congruence).
  assert (Hnode : cwd_dir s' = cwd_dir s) by (unfold cwd_dir; rewrite Ec; apply Hin, Hc).
  assert (Hde : forall m, (m < 1024)%nat -> dentry s' (cwd_dir s) m = dentry s (cwd_dir s) m) by (intros m Hm; by apply dentry_ext).
  split; [|do 4 (split; [done|]); intros m Hm; apply bmap_ext; [done|]; intros b Hb Hr; apply Hd; [done|lia]].
  split; fold (cwd_dir s'); rewrite ?Ec, ?Hnode; [apply Hc| |apply Hc|].
  - rewrite (it_map _ _ _ T) by apply Hc. rewrite decide_False by congruence. apply Hc.
  - split; [done|]. intros m Hm. rewrite Hde by done. by apply He.
Qed.
End Code.
