(* ===== verification/FsDirProps.v ===== *)
(** What the file commands promise: names, creation and removal. *)

From Stdlib Require Import ZArith Lia List String.
From stdpp Require Import base numbers list gmap.
From S2P Require Import Prelude BlockLayer Cache FsLayout FsState FsAlloc FsInode FsMkfs FsProps FsDir.

Local Open Scope Z_scope.
Local Open Scope fs_scope.

Section Theorems.
Context {S : Type} `{BlockLayer S}.
Implicit Types s : fs S.

Definition names s : nat -> DirEntry := dentry s (cwd_dir s).

Lemma looks_up_ext (D D' : nat -> DirEntry) path r : (forall n, (n < 1024)%nat -> D' n = D n) -> looks_up D path r -> looks_up D' path r.
Proof.
  intros E [Hno|n Hn Hm Hlow].
  - apply LookNone. intros n Hn. rewrite E by done. by apply Hno.
  - rewrite <- (E n Hn). apply LookSome; [done|by rewrite E|]. intros m Hlt. rewrite E by lia. by apply Hlow.
Qed.

Lemma zero_inode_ok : inode_ok zero_inode.
Proof. split; try done. repeat (constructor; [done|]). constructor. Qed.

(** A new name in the working directory, for the fresh inode [n]. *)
Record name_created s s' (path : list Z) (n : Z) (i : Inode) : Prop := {
  nc_inv : fs_inv s';
  nc_cwd : cwd_ok s' /\ cwd_node s' = cwd_node s;
  nc_inode : is_inode n /\ imap s n = false /\ (forall m, 0 <= m < 32768 -> imap s' m = if decide (m = n) then true else imap s m);
  nc_lookup : looks_up (names s') path (Some n);
  nc_others : forall path' r, path' <> path -> looks_up (names s) path' r -> looks_up (names s') path' r;
  nc_new : inode_of s' n = i;
  nc_old : forall m, is_inode m -> m <> n -> m <> cwd_node s -> inode_of s' m = inode_of s m;
  nc_size : size (cwd_dir s') = u32 (size (cwd_dir s) + 1);
  nc_console : console s' = console s
}.

Lemma create_spec s path n0 : fs_inv s -> cwd_ok s -> path_ok path -> (List.length path < 24)%nat -> looks_up (names s) path None ->
  dir_room s (cwd_dir s) -> has_free_block s -> 0 <= n0 < 32768 -> imap s n0 = false ->
  wp (get_inode_by_filename path true 0) s (fun r s' => is_inode r /\ name_created s s' path r zero_inode).
Proof.
  intros Hs Hc Hp Hlen Habs Hroom Hfree Hn0 Hclear. unfold get_inode_by_filename. apply wp_scan; [done..|]. intros s1 [[ino'|] f] Hq1 Hr.
  { inversion Habs as [Hall|]. inversion Hr as [|n' Hn' Hm' Hlow' E']; subst. by destruct (Hall n'). }
  destruct Hr as (_ & Hf & Hz). destruct (cwd_quiet s s1 Hs Hc Hq1) as (Hc1 & Ec1 & Ed1 & He1 & Hin1 & Him1 & Hbm1).
  destruct (chosen_entry s (cwd_dir s) f) as (n & Hn & Hinv & ->); [apply (cw_dir _ Hc)|done..|]. cbn [negb].
  pose proof (quiet_inv _ _ Hs Hq1) as Hs1. apply wp_bind. change (0 =? 0) with true. cbn match. apply wp_bind.
  eapply wp_mono; [apply (inode_alloc_spec s1 n0 (fi_core _ Hs1) Hn0); by rewrite Him1|]. intros ino s2 T.
  destruct (cwd_taken s1 s2 ino Hc1 T) as (Hc2 & Hne & Ed2 & He2 & Hin2 & Hbm2). destruct (it_rest _ _ _ T) as [Ec2 Eo2].
  pose proof (it_range _ _ _ T) as Hino. rewrite u32_small by lia. apply wp_bind.
  eapply wp_mono; [apply (write_other s2 ino zero_inode); [apply T|done|done|congruence|apply zero_inode_ok]|].
  intros [] s3 (Hs3 & Hc3 & Ec3 & Eo3 & _ & Ed3 & He3 & Hin3 & Him3 & Hbm3 & _). apply wp_ret.
  rewrite <- Ed1, <- Ed2, <- Ed3. destruct (dir_name_spec path Hp Hlen) as (nm & Enm & Hnm & Hcn & Hz0 & Hpos).
  eapply wp_mono; [apply (link_entry s3 path nm ino n); try done; [|unfold is_inode in *; lia]|].
  { destruct Hfree as (b & Hb & E). exists b. split; [done|]. rewrite Hbm3, Hbm2, Hbm1 by done. done. }
  intros r s4 (-> & ES & Esz). rewrite i32_small by lia. split; [exact Hino|]. destruct (es_cwd _ _ _ _ ES) as [Ec4 Eo4].
  assert (Hcwd : cwd_node s3 = cwd_node s) by congruence.
  assert (HD3 : forall m, (m < 1024)%nat -> names s3 m = names s m).
  { intros m Hm. unfold names. rewrite Ed3, Ed2, Ed1. rewrite <- Ed1, <- Ed2, He3, Ed2, He2, Ed1, He1 by done. done. }
  assert (HD4 : forall m, (m < 1024)%nat -> m <> n -> names s4 m = names s m).
  { intros m Hm Hmn. unfold names. rewrite (es_old _ _ _ _ ES) by done. by apply HD3. }
  assert (Hnew : names s4 n = MkDir ino 1 nm) by apply ES.
  split.
  - apply ES.
  - split; [apply ES|congruence].
  - split; [done|]. split; [rewrite <- Him1 by done; apply T|]. intros m Hm. rewrite (es_imap _ _ _ _ ES), Him3, (it_map _ _ _ T) by done.
    case_decide; [done|]. by apply Him1.
  - replace (Some ino) with (Some (inode (names s4 n))) by (by rewrite Hnew). apply (looks_up_added (names s) _ n path Hn HD4 Habs).
    rewrite Hnew. split; done.
  - intros path' r' Hne' Hl. apply (looks_up_kept (names s) _ n Hn HD4); [intros [Hv _]; by apply Hv|rewrite Hnew; intros [_ E]; cbn in E; congruence|done].
  - rewrite (es_inodes _ _ _ _ ES) by (done || congruence). rewrite Hin3 by done. by rewrite decide_True.
  - intros m Hm Hmn Hmc. rewrite (es_inodes _ _ _ _ ES) by (done || congruence). rewrite Hin3 by done. rewrite decide_False by done. rewrite Hin2, Hin1 by done. done.
  - rewrite Esz, Ed3, Ed2, Ed1. done.
  - destruct Hq1 as [_ (_ & _ & Eo1)]. congruence.
Qed.

Definition touched : Inode := set_type_links zero_inode 2 1.

Lemma touched_ok : inode_ok touched.
Proof. split; try done. repeat (constructor; [done|]). constructor. Qed.

(** Writing the inode of the fresh name. *)
Lemma finish_create s s1 path n i : fs_inv s -> cwd_ok s -> name_created s s1 path n zero_inode -> inode_ok i ->
  wp (write_inode n i) s1 (fun _ s' => name_created s s' path n i).
Proof.
  intros Hs Hc N Hok. destruct (nc_cwd _ _ _ _ _ N) as [Hc1 Ec1]. destruct (nc_inode _ _ _ _ _ N) as (Hn & Hf & Him).
  assert (Hne : n <> cwd_node s1) by (rewrite Ec1; intros ->; pose proof (cw_used _ Hc); congruence).
  eapply wp_mono; [apply (write_other s1 n i); [apply N|done..]|].
  intros [] s2 (Hs2 & Hc2 & Ec2 & Eo2 & _ & Ed2 & He2 & Hin2 & Him2 & _ & _).
  assert (HD : forall m, (m < 1024)%nat -> names s2 m = names s1 m) by (intros m Hm; unfold names; rewrite Ed2; by apply He2).
  split.
  - done.
  - split; [done|congruence].
  - split; [done|]. split; [done|]. intros m Hm. rewrite Him2 by done. by apply Him.
  - apply (looks_up_ext (names s1)); [done|apply N].
  - intros path' r Hne' Hl. apply (looks_up_ext (names s1)); [done|by apply N].
  - rewrite Hin2 by done. by rewrite decide_True.
  - intros m Hm Hmn Hmc. rewrite Hin2 by done. rewrite decide_False by done. by apply N.
  - rewrite Ed2. apply N.
  - rewrite Eo2. apply N.
Qed.

(** ** Removal *)

Lemma find_entry_spec b path n : List.length b = 4096%nat -> path_ok path -> forall j,
  (j + n <= 128)%nat -> (forall k, (j <= k < j + n)%nat -> entry_ok (bent b k)) ->
  exists r, find_entry b path j n = Ok r /\
    match r with
    | Some k => (j <= k < j + n)%nat /\ named (bent b k) path /\ forall k', (j <= k' < k)%nat -> ~ named (bent b k') path
    | None => forall k, (j <= k < j + n)%nat -> ~ named (bent b k) path
    end.
Proof.
  intros Hlen Hp. induction n as [|n IH]; intros j Hj Hok; cbn [find_entry]; [exists None; split; [done|intros; lia]|].
  change sizeof_DirEntry with 32%nat. fold (bent b j).
  assert (Hrest : ~ named (bent b j) path -> exists r, find_entry b path (j + 1) n = Ok r /\
    match r with
    | Some k => (j <= k < j + Datatypes.S n)%nat /\ named (bent b k) path /\ forall k', (j <= k' < k)%nat -> ~ named (bent b k') path
    | None => forall k, (j <= k < j + Datatypes.S n)%nat -> ~ named (bent b k) path
    end).
  { intros Hno. destruct (IH (j + 1)%nat) as (r & E & Hr); [lia|intros k Hk; apply Hok; lia|]. exists r. split; [done|]. destruct r as [k|].
    - destruct Hr as (Hk & Hm & Hlow). split; [lia|]. split; [done|]. intros k' Hk'. destruct (decide (k' = j)) as [->|]; [done|apply Hlow; lia].
    - intros k Hk. destruct (decide (k = j)) as [->|]; [done|apply Hr; lia]. }
  destruct (Z.eqb_spec (valid (bent b j)) 0) as [Ev|Ev]; cbn [obind].
  - apply Hrest. intros [Hv _]. done.
  - rewrite streq_entry; [|done|lia|apply Hok; lia|done|done]. cbn [obind]. rewrite bool_named by done. case_bool_decide as Hm.
    + exists (Some j). split; [done|]. split; [lia|]. split; [done|]. intros; lia.
    + by apply Hrest.
Qed.

(** A store into an allocated data block, in the terms of [data_written]. *)
Lemma wrote_data s s' v o src : fs_inv s -> is_data_block v -> wrote s s' v (splice (disk s v) o src) -> data_written s s' v v o src.
Proof.
  intros Hs Hv Hw. pose proof Hw as [_ (Esb & Ec & Eo)]. pose proof (data_block_block v Hv) as Hb. unfold is_data_block in Hv. split.
  - eapply wrote_inv_kept; [done|done|lia].
  - done.
  - rewrite decide_False by lia. done.
  - rewrite (wrote_eq _ _ _ _ Hw Hb). by rewrite decide_False by lia.
  - intros b Hb' _ Hne. by eapply wrote_ne.
  - intros m Hm. rewrite decide_False by lia. apply bmap_ext; [done|]. intros b Hb' Hr. eapply wrote_ne; [done|done|lia].
  - by rewrite Esb.
Qed.

Lemma remove_scan_spec node path : path_ok path -> forall l i s n,
  fs_inv s -> dir_wf s node -> drop i (data_direct node) = l -> (i <= 8)%nat ->
  (128 * i <= n < 1024)%nat -> named (dentry s node n) path -> (forall m, (128 * i <= m < n)%nat -> ~ named (dentry s node m) path) ->
  wp (remove_scan l path) s (fun r s' => r = true /\ exists v k j, n = (128 * k + j)%nat /\ (k < 8)%nat /\ (j < 128)%nat /\
    nth k (data_direct node) 0 = v /\ is_data_block v /\ data_written s s' v v (32 * j + 4) (le 4 0)).
Proof.
  intros Hpath l. induction l as [|v l IH]; intros i s n Hs [Hf He] Hl Hi8 Hn Hnm Hlow; cbn [remove_scan].
  { pose proof (f_equal (@List.length Z) Hl) as Hlen. rewrite length_drop, (ok_direct _ (fo_inode _ _ Hf)) in Hlen.
    unfold INODE_DATA_DIRECT in Hlen. cbn in Hlen. lia. }
  assert (Hv : data_direct node !! i = Some v) by (rewrite <- (Nat.add_0_r i), <- lookup_drop, Hl; done).
  assert (Hi : (i < 8)%nat) by (apply lookup_lt_Some in Hv; rewrite (ok_direct _ (fo_inode _ _ Hf)) in Hv; done).
  assert (Hnv : nth i (data_direct node) 0 = v) by (by apply nth_lookup_Some).
  assert (Hl' : drop (i + 1) (data_direct node) = l) by (rewrite <- drop_drop, Hl; done).
  destruct (Z.eqb_spec v 0) as [Ev|Ev].
  - assert (Hge : (128 * (i + 1) <= n)%nat).
    { destruct (decide (128 * (i + 1) <= n)%nat); [done|]. exfalso. destruct Hnm as [Hval _]. apply Hval.
      replace n with (128 * i + (n - 128 * i))%nat by lia. apply dentry_hole; [done|lia|congruence]. }
    apply (IH (i + 1)%nat); try done; [lia|lia|]. intros m Hm. apply Hlow. lia.
  - destruct (fo_blocks _ _ Hf i v Hv Ev) as [Hd _]. pose proof (data_block_block v Hd) as Hb. pose proof (fi_blk _ (fi_core _ Hs)) as Hbi.
    apply wp_Block_data; [done|done|]. intros h s1 Hq1 Hh.
    assert (Hent : forall j, (j < 128)%nat -> dentry s node (128 * i + j) = bent (disk s v) j).
    { intros j Hj. rewrite dentry_block by (done || congruence). by rewrite Hnv. }
    destruct (find_entry_spec (disk s v) path 128 (disk_length s v Hbi Hb) Hpath 0) as (r & E & Hr); [done| |].
    { intros k Hk. rewrite <- Hent by lia. apply He. lia. }
    change DIRENTRY_PER_BLOCK with 128%nat. rewrite E. apply wp_bind, wp_lift. destruct r as [j|].
    + destruct Hr as (Hj & Hmj & Hlowj).
      assert (n = (128 * i + j)%nat) as ->.
      { destruct (Nat.lt_trichotomy n (128 * i + j)) as [Hlt|[?|Hlt]]; [|done|].
        - exfalso. apply (Hlowj (n - 128 * i)%nat); [lia|]. rewrite <- Hent by lia. by replace (128 * i + (n - 128 * i))%nat with n by lia.
        - exfalso. apply (Hlow (128 * i + j)%nat); [lia|]. by rewrite Hent by lia. }
      change sizeof_DirEntry with 32%nat. eapply wp_store_update; [apply Hq1|done|done| |].
      { rewrite length_splice; rewrite (disk_length s v Hbi Hb); [done|]. rewrite length_le. lia. }
      intros s2 Hw2 _. apply wp_ret. split; [done|]. exists v, i, j. split; [done|]. split; [done|]. split; [lia|]. split; [done|]. split; [done|].
      apply wrote_data; [done|done|]. by eapply quiet_wrote.
    + assert (Hge : (128 * (i + 1) <= n)%nat).
      { destruct (decide (128 * (i + 1) <= n)%nat); [done|]. exfalso. apply (Hr (n - 128 * i)%nat); [lia|]. rewrite <- Hent by lia.
        by replace (128 * i + (n - 128 * i))%nat with n by lia. }
      destruct (content_quiet s s1 node Hq1 Hf) as [Hf1 Hc1].
      assert (Hde : forall m, (m < 1024)%nat -> dentry s1 node m = dentry s node m) by (intros m Hm; by apply dentry_ext).
      eapply wp_mono; [apply (IH (i + 1)%nat s1 n); [by eapply quiet_inv|split; [done|intros m Hm; rewrite Hde by done; by apply He]|done|lia|lia|by rewrite Hde by lia|]|].
      { intros m Hm. rewrite Hde by lia. apply Hlow. lia. }
      intros r s2 (-> & v' & k & j & En & Hk & Hj & Hv' & Hd' & Hw). split; [done|]. exists v', k, j. do 5 (split; [done|]).
      destruct Hq1 as [[_ Hd1] (Esb1 & Ec1 & Eo1)]. destruct Hw as [W1 W2 W3 W4 W5 W6 W7]. pose proof (data_block_block v' Hd') as Hb'.
      assert (Hv0 : v' <> 0) by (unfold is_data_block in Hd'; lia).
      split; [done|done|by rewrite decide_False by done| | | |].
      * rewrite W4, !decide_False by done. by rewrite Hd1.
      * intros b Hb'' Hr' Hne. rewrite W5 by done. by apply Hd1.
      * intros m Hm. rewrite W6 by done. rewrite !decide_False by tauto. apply bmap_ext; [done|]. intros b Hb'' _. by apply Hd1.
      * destruct W7 as (? & ? & E3 & E4). rewrite E3, E4, Esb1. split_and!; congruence.
Qed.

(** The state after the entry of a name was cleared. *)
Record entry_cleared s s' (n : nat) : Prop := {
  ec_inv : fs_inv s';
  ec_cwd : cwd_ok s' /\ cwd_node s' = cwd_node s /\ console s' = console s;
  ec_gone : valid (names s' n) = 0;
  ec_old : forall m, (m < 1024)%nat -> m <> n -> names s' m = names s m;
  ec_inodes : forall ino, is_inode ino -> ino <> cwd_node s -> inode_of s' ino = inode_of s ino;
  ec_dir : cwd_dir s' = set_size (cwd_dir s) (u32 (size (cwd_dir s) - 1));
  ec_maps : (forall m, 0 <= m < 32768 -> imap s' m = imap s m) /\ (forall m, 0 <= m < 98304 -> bmap s' m = bmap s m);
  ec_blocks : forall b, is_block b -> 517 <= b -> (forall k, data_direct (cwd_dir s) !! k <> Some b) -> disk s' b = disk s b
}.

(** Four zero bytes at the valid field of entry [n] of a directory. *)
Lemma clear_valid s s' node n v k j : fs_inv s -> dir_wf s node -> type node = 1 -> n = (128 * k + j)%nat -> (k < 8)%nat -> (j < 128)%nat ->
  nth k (data_direct node) 0 = v -> is_data_block v -> data_written s s' v v (32 * j + 4) (le 4 0) ->
  file_ok s' node /\ valid (dentry s' node n) = 0 /\ forall m, (m < 1024)%nat -> m <> n -> dentry s' node m = dentry s node m.
Proof.
  intros Hs [Hf He] Ht -> Hk Hj Hv Hd Hw. set (off := Z.of_nat (32 * (128 * k + j) + 4)).
  destruct (block_at_entry node k j 4 Hk Hj ltac:(lia)) as [Eb Em]. fold off in Eb, Em. rewrite Hv in Eb.
  assert (Ho : 0 <= off < 32768) by (unfold off; lia). rewrite <- Eb in Hw at 1.
  replace (32 * j + 4)%nat with (Z.to_nat (off mod 4096)) in Hw by lia.
  assert (Ew : written_inode node off 4 v = node).
  { apply (unmodified_inode s); [done|done| |by rewrite Eb]. unfold grown. rewrite Ht. apply andb_false_r. }
  assert (Hct : forall p, 0 <= p < 32768 -> content s' node p = if decide (off <= p < off + 4) then nth (Z.to_nat (p - off)) (le 4 0) 0 else content s node p).
  { pose proof (content_written s s' node off 4 (le 4 0) v Hf Ho) as C. rewrite Ew in C. apply C; [lia|lia|done|apply Hs|done]. }
  split; [pose proof (file_ok_written s s' node off 4 v _ _ Hf Ho Hw) as F; by rewrite Ew in F|]. split.
  - unfold dentry, decode_dir, u32_at. cbn [valid]. rewrite map_seq_shift.
    assert (Ez : forall q, (4 <= q < 8)%nat -> content s' node (Z.of_nat (32 * (128 * k + j) + q)) = 0).
    { intros q Hq. rewrite Hct by lia. rewrite decide_True by lia. replace (Z.to_nat _) with (q - 4)%nat by lia.
      assert (q = 4 \/ q = 5 \/ q = 6 \/ q = 7)%nat as [->|[->|[->| ->]]] by lia; done. }
    change (seq 0 32) with ([0; 1; 2; 3; 4; 5; 6; 7]%nat ++ seq 8 24). rewrite map_app. cbn [map app drop take le_val].
    rewrite !Ez by lia. done.
  - intros m Hm Hne. unfold dentry. f_equal. apply map_seq_ext. intros q Hq. rewrite Hct by lia. by rewrite decide_False by lia.
Qed.

Lemma remove_name_spec s path n : fs_inv s -> cwd_ok s -> path_ok path -> (n < 1024)%nat -> named (names s n) path ->
  (forall m, (m < n)%nat -> ~ named (names s m) path) -> wp (remove_inode_by_filename path) s (fun _ s' => entry_cleared s s' n).
Proof.
  intros Hs Hc Hp Hn Hnm Hlow. unfold remove_inode_by_filename. apply wp_bind, wp_get_cwd, wp_bind.
  eapply wp_mono; [apply read_inode_spec; [done|apply Hc]|]. intros node s1 [-> Hq1]. fold (cwd_dir s).
  destruct (cwd_quiet s s1 Hs Hc Hq1) as (Hc1 & Ec1 & Ed1 & He1 & Hin1 & Him1 & Hbm1). pose proof (quiet_inv _ _ Hs Hq1) as Hs1.
  pose proof (cw_dir _ Hc1) as Hwf1. fold (cwd_dir s1) in Hwf1. rewrite Ed1 in Hwf1. pose proof (cw_type _ Hc) as Ht. fold (cwd_dir s) in Ht.
  apply wp_bind. eapply wp_mono; [apply (remove_scan_spec (cwd_dir s) path Hp _ 0 s1 n); [done|done|done|lia|lia|by rewrite He1|]|].
  { intros m Hm. rewrite He1 by lia. apply Hlow. lia. }
  intros r s2 (-> & v & k & j & En & Hk & Hj & Hv & Hdv & Hw).
  destruct (clear_valid s1 s2 (cwd_dir s) n v k j) as (Hf2 & Hgone & Hold); try done.
  destruct (dw_rest _ _ _ _ _ _ Hw) as (Ec2 & Eo2 & _). set (node := set_size (cwd_dir s) (u32 (size (cwd_dir s) - 1))).
  assert (Hok : inode_ok node) by (destruct (fo_inode _ _ Hf2); split; try done; apply u32_range).
  assert (Hd2 : forall b, is_block b -> b = 1 \/ 5 <= b -> b <> v -> disk s2 b = disk s b).
  { intros b Hb Hr Hne. rewrite (dw_other _ _ _ _ _ _ Hw) by done. destruct Hq1 as [[_ Hd1] _]. by apply Hd1. }
  assert (Hin2 : forall ino, is_inode ino -> inode_of s2 ino = inode_of s ino).
  { intros ino Hi. apply inode_of_ext; [done|]. intros b Hb Hr. apply Hd2; [done|lia|]. unfold is_data_block in Hdv. lia. }
  assert (Him2 : forall m, 0 <= m < 32768 -> imap s2 m = imap s m).
  { intros m Hm. apply (mbit_other _ _ 1 32768); [done|done|]. change (32768 / 32768) with 1. intros i Hi. unfold is_data_block in Hdv.
    apply Hd2; [apply is_block_range|..]; lia. }
  assert (Hbm2 : forall m, 0 <= m < 98304 -> bmap s2 m = bmap s m).
  { intros m Hm. rewrite (dw_map _ _ _ _ _ _ Hw) by done. rewrite decide_False by (unfold is_data_block in Hdv; lia). by apply Hbm1. }
  apply wp_bind, wp_get_cwd.
  eapply wp_mono; [apply (write_cwd s2 node); [apply Hw|by rewrite Ec2, Ec1; apply Hc|rewrite Ec2, Ec1, Him2; apply Hc|by apply (file_ok_direct s2 (cwd_dir s))|done|]|].
  { intros m Hm. rewrite (dentry_direct s2 (cwd_dir s)) by done. destruct (decide (m = n)) as [->|Hne]; [by intros Hval|].
    rewrite Hold by done. by apply Hwf1. }
  intros [] s3 (Hs3 & Hc3 & Ec3 & Eo3 & _ & Ed3 & He3 & Hin3 & Him3 & Hbm3 & Hd3 & _).
  assert (Hnames : forall m, (m < 1024)%nat -> names s3 m = dentry s2 (cwd_dir s) m).
  { intros m Hm. unfold names. rewrite Ed3, He3 by done. by apply dentry_direct. }
  destruct Hq1 as [_ (_ & _ & Eo1)]. split.
  - done.
  - split; [done|]. split; congruence.
  - by rewrite Hnames.
  - intros m Hm Hne. rewrite Hnames, Hold by done. by apply He1.
  - intros ino Hi Hne. rewrite Hin3 by (done || congruence). by apply Hin2.
  - done.
  - split; intros m Hm; [rewrite Him3 by done; by apply Him2|rewrite Hbm3 by done; by apply Hbm2].
  - intros b Hb Hr Hno. rewrite Hd3 by done. apply Hd2; [done|lia|]. intros ->. apply (Hno k). rewrite <- Hv. apply lookup_nth_lt.
    rewrite (ok_direct _ (fo_inode _ _ Hf2)). done.
Qed.

(** ** Releasing the blocks of a file *)

Record blocks_released s s' (l : list Z) : Prop := {
  brl_inv : fs_inv s';
  brl_map : forall m, 0 <= m < 98304 -> bmap s' m = if decide (m ∈ l) then false else bmap s m;
  brl_disk : forall b, is_block b -> b = 1 \/ 5 <= b -> disk s' b = disk s b;
  brl_rest : cwd_node s' = cwd_node s /\ console s' = console s
}.

Lemma blocks_released_nil s : fs_inv s -> blocks_released s s [].
Proof. intros Hs. split; [done| |done|done]. intros m Hm. rewrite decide_False; [done|]. apply not_elem_of_nil. Qed.

Lemma free_all_spec l : forall s, fs_inv s ->
  (forall k v, l !! k = Some v -> v <> 0 -> is_data_block v /\ bmap s v = true) ->
  (forall j k v, l !! j = Some v -> l !! k = Some v -> v <> 0 -> j = k) ->
  wp (free_all l 0) s (fun _ s' => blocks_released s s' (filter (fun v => v <> 0) l)).
Proof.
  induction l as [|v l IH]; intros s Hs Hb Hd; cbn [free_all]; [apply wp_ret; by apply blocks_released_nil|].
  assert (Hb' : forall k w, l !! k = Some w -> w <> 0 -> is_data_block w /\ bmap s w = true) by (intros k w Hk; apply (Hb (Datatypes.S k) w Hk)).
  assert (Hd' : forall j k w, l !! j = Some w -> l !! k = Some w -> w <> 0 -> j = k).
  { intros j k w Hj Hk Hne. assert (Datatypes.S j = Datatypes.S k) by (by apply (Hd _ _ w)). lia. }
  rewrite filter_cons. destruct (Z.eqb_spec v 0) as [->|Hne].
  - apply wp_bind, wp_ret. rewrite decide_False by tauto. by apply IH.
  - rewrite decide_True by done. destruct (Hb 0%nat v eq_refl Hne) as [Hv Hbit]. apply wp_bind. cbn [free_inode_blocks_recur].
    destruct (Z.eqb_spec v 0); [done|]. eapply wp_mono; [apply block_free_spec; [apply Hs|done|done]|]. intros [] s1 R.
    assert (Hnotin : v ∉ l) by (intros Hin; apply list_elem_of_lookup_1 in Hin as [k Hk]; by pose proof (Hd 0%nat (Datatypes.S k) v eq_refl Hk Hne)).
    eapply wp_mono; [apply IH; [apply R| |done]|].
    + intros k w Hk Hw. destruct (Hb' k w Hk Hw) as [Hdw Hbw]. split; [done|]. rewrite (br_map _ _ _ R) by (unfold is_data_block in Hdw; lia).
      rewrite decide_False; [done|]. intros ->. apply Hnotin. by eapply list_elem_of_lookup_2.
    + intros [] s2 [R1 R2 R3 R4]. destruct (br_rest _ _ _ R). split; [done| | |split; destruct R4; congruence].
      * intros m Hm. rewrite R2, (br_map _ _ _ R) by done. destruct (decide (m ∈ filter _ l)) as [Hin|Hnin].
        -- rewrite decide_True; [done|]. by apply elem_of_cons; right.
        -- destruct (decide (m = v)) as [->|Hmv]; [rewrite decide_True; [done|left]|]. rewrite decide_False; [done|].
           intros [->|?]%elem_of_cons; done.
      * intros b Hb'' Hr. rewrite R3 by done. by apply R.
Qed.

Lemma free_all_zeros n d s : wp (free_all (replicate n 0) d) s (fun _ s' => s' = s).
Proof. induction n as [|n IH]; cbn [replicate free_all]; [by apply wp_ret|]. by apply wp_bind, wp_ret. Qed.

(** A step that touches neither inodes nor the blocks of the working directory. *)
Lemma cwd_kept s s' : cwd_ok s -> cwd_node s' = cwd_node s -> imap s' (cwd_node s) = true ->
  (forall b, is_block b -> 5 <= b -> disk s' b = disk s b) ->
  (forall k v, data_direct (cwd_dir s) !! k = Some v -> v <> 0 -> bmap s' v = true) ->
  cwd_ok s' /\ (forall n, (n < 1024)%nat -> names s' n = names s n) /\ (forall ino, is_inode ino -> inode_of s' ino = inode_of s ino).
Proof.
  intros Hc Ec Hi Hd Hb. destruct (cw_dir _ Hc) as [Hf He]. fold (cwd_dir s) in Hf, He.
  assert (Hin : forall ino, is_inode ino -> inode_of s' ino = inode_of s ino) by (intros ino Hino; apply inode_of_ext; [done|]; intros b Hb' Hr; apply Hd; [done|lia]).
  assert (Hnode : cwd_dir s' = cwd_dir s) by (unfold cwd_dir; rewrite Ec; apply Hin, Hc).
  assert (Hf' : file_ok s' (cwd_dir s)).
  { split; [apply Hf| |apply Hf]. intros k v Hk Hne. split; [by apply (fo_blocks _ _ Hf k)|by apply (Hb k)]. }
  assert (Hct : forall p, 0 <= p < 32768 -> content s' (cwd_dir s) p = content s (cwd_dir s) p).
  { intros p Hp. unfold content. destruct (Z.eqb_spec (block_at (cwd_dir s) p) 0); [done|]. destruct (block_at_data s _ p Hf Hp) as [Hdb _]; [done|].
    rewrite Hd; [done|by apply data_block_block|unfold is_data_block in Hdb; lia]. }
  assert (Hde : forall n, (n < 1024)%nat -> names s' n = names s n) by (intros n Hn; unfold names; rewrite Hnode; by apply dentry_ext).
  split; [|done]. split; fold (cwd_dir s'); rewrite ?Ec, ?Hnode; [apply Hc|done|apply Hc|]. split; [done|].
  intros n Hn. pose proof (Hde n Hn) as E. unfold names in E. rewrite Hnode in E. rewrite E. by apply He.
Qed.

(** A regular file without indirect blocks, with the given number of links, that
    shares no block with the working directory. *)
Record plain_file s (ino links : Z) : Prop := {
  pf_inode : is_inode ino /\ ino <> cwd_node s /\ imap s ino = true;
  pf_type : type (inode_of s ino) = 2 /\ link_cnt (inode_of s ino) = links;
  pf_ok : file_ok s (inode_of s ino);
  pf_direct : data_l1 (inode_of s ino) = replicate 3 0 /\ data_l2 (inode_of s ino) = replicate 2 0 /\ data_l3 (inode_of s ino) = 0;
  pf_apart : forall k v, v <> 0 -> data_direct (inode_of s ino) !! k = Some v -> forall k', data_direct (cwd_dir s) !! k' <> Some v
}.

Lemma free_inode_blocks_spec s i : fs_inv s -> file_ok s i -> data_l1 i = replicate 3 0 -> data_l2 i = replicate 2 0 -> data_l3 i = 0 ->
  wp (free_inode_blocks i) s (fun _ s' => blocks_released s s' (filter (fun v => v <> 0) (data_direct i))).
Proof.
  intros Hs Hi E1 E2 E3. unfold free_inode_blocks. rewrite E1, E2, E3. apply wp_bind.
  eapply wp_mono; [apply free_all_spec; [done|apply Hi|apply Hi]|]. intros [] s1 R. apply wp_bind.
  eapply wp_mono; [apply free_all_zeros|]. intros [] s2 ->. apply wp_bind.
  eapply wp_mono; [apply free_all_zeros|]. intros [] s3 ->. eapply wp_mono; [apply (free_all_zeros 1)|]. by intros [] s4 ->.
Qed.

(** The end of fs_rm for the last link. *)
Lemma release_file s ino i : fs_inv s -> cwd_ok s -> is_inode ino -> ino <> cwd_node s -> imap s ino = true -> file_ok s i ->
  data_l1 i = replicate 3 0 -> data_l2 i = replicate 2 0 -> data_l3 i = 0 ->
  (forall k v, v <> 0 -> data_direct i !! k = Some v -> forall k', data_direct (cwd_dir s) !! k' <> Some v) ->
  wp (free_inode_blocks i ;; inode_free ino ;; ret 0) s (fun r s' => r = 0 /\ fs_inv s' /\ cwd_ok s' /\ cwd_node s' = cwd_node s /\
    (forall n, (n < 1024)%nat -> names s' n = names s n) /\
    (forall m, 0 <= m < 32768 -> imap s' m = if decide (m = ino) then false else imap s m) /\
    (forall m, 0 <= m < 98304 -> bmap s' m = if decide (m ∈ filter (fun v => v <> 0) (data_direct i)) then false else bmap s m) /\
    (forall m, is_inode m -> inode_of s' m = inode_of s m)).
Proof.
  intros Hs Hc Hino Hne Hused Hi E1 E2 E3 Hapart. apply wp_bind. eapply wp_mono; [by apply free_inode_blocks_spec|]. intros [] s1 R.
  destruct (brl_rest _ _ _ R) as [Ec1 _].
  assert (Him1 : forall m, 0 <= m < 32768 -> imap s1 m = imap s m).
  { intros m Hm. apply (mbit_other _ _ 1 32768); [done|done|]. change (32768 / 32768) with 1. intros k Hk. apply (brl_disk _ _ _ R); [apply is_block_range|]; lia. }
  apply wp_bind. eapply wp_mono; [apply inode_free_spec; [apply R|done|by rewrite Him1]|]. intros [] s2 F. apply wp_ret.
  destruct (ir_rest _ _ _ F) as [Ec2 _].
  assert (Him : forall m, 0 <= m < 32768 -> imap s2 m = if decide (m = ino) then false else imap s m).
  { intros m Hm. rewrite (ir_map _ _ _ F) by done. case_decide; [done|]. by apply Him1. }
  assert (Hbm : forall m, 0 <= m < 98304 -> bmap s2 m = if decide (m ∈ filter (fun v => v <> 0) (data_direct i)) then false else bmap s m).
  { intros m Hm. rewrite <- (brl_map _ _ _ R) by done. apply bmap_ext; [done|]. intros b Hb Hr. apply F; [done|lia]. }
  destruct (cw_dir _ Hc) as [Hf _]. fold (cwd_dir s) in Hf.
  destruct (cwd_kept s s2 Hc) as (Hc2 & HD & Hin).
  - congruence.
  - rewrite Him by apply Hc. rewrite decide_False by done. apply Hc.
  - intros b Hb Hr. rewrite (ir_disk _ _ _ F) by (done || lia). apply (brl_disk _ _ _ R); [done|lia].
  - intros k v Hk Hv. destruct (fo_blocks _ _ Hf k v Hk Hv) as [Hd Hb]. rewrite Hbm by (unfold is_data_block in Hd; lia).
    rewrite decide_False; [done|]. intros [_ Hin]%list_elem_of_filter. apply list_elem_of_lookup_1 in Hin as [j Hj]. by apply (Hapart j v Hv Hj k).
  - split; [done|]. split; [apply F|]. split; [done|]. split; [congruence|]. done.
Qed.

(** ** The commands *)

(** Names resolve to inodes: [get_inode_by_filename] without creation returns the
    inode of the first entry with the name, or -1 when there is none, and changes
    nothing. *)
Theorem lookup_resolves s path r :
  fs_inv s -> cwd_ok s -> path_ok path -> looks_up (names s) path r ->
  exists s', get_inode_by_filename path false 0 s = Ok (match r with Some ino => i32 ino | None => -1 end, s') /\ quiet s s'.
Proof.
  intros Hs Hc Hp Hl. destruct r as [ino|].
  - destruct (lookup_found s path false 0 ino Hs Hc Hp Hl) as (x & s' & E & -> & Hq). eauto.
  - destruct (lookup_absent s path Hs Hc Hp Hl) as (x & s' & E & -> & Hq). eauto.
Qed.

Lemma touch_spec s path n0 :
  fs_inv s -> cwd_ok s -> path_ok path -> (List.length path < 24)%nat -> looks_up (names s) path None ->
  dir_room s (cwd_dir s) -> has_free_block s -> 0 <= n0 < 32768 -> imap s n0 = false ->
  wp (fs_touch path) s (fun r s' => r = 0 /\ exists n, name_created s s' path n touched).
Proof.
  intros Hs Hc Hp Hlen Habs Hroom Hfree Hn0 Hclear.
  unfold fs_touch. apply wp_bind. eapply wp_mono; [by eapply create_spec|]. intros n s1 [Hn N].
  destruct (Z.ltb_spec n 0); [unfold is_inode in Hn; lia|]. apply wp_bind.
  eapply wp_mono; [apply read_inode_spec; [apply N|done]|]. intros i s2 [-> Hq2]. rewrite (nc_new _ _ _ _ _ N). cbn [negb type zero_inode Z.eqb].
  assert (N2 : name_created s s2 path n zero_inode).
  { destruct N as [N1 [N2a N2b] (N3a & N3b & N3c) N4 N5 N6 N7 N8 N9]. destruct (cwd_quiet s1 s2 N1 N2a Hq2) as (Q1 & Q2 & Q3 & Q4 & Q5 & Q6 & Q7).
    pose proof Hq2 as [_ (_ & _ & Eo)].
    assert (HD : forall m, (m < 1024)%nat -> names s2 m = names s1 m) by (intros m Hm; unfold names; rewrite Q3; by apply Q4).
    split; [by eapply quiet_inv|split; [done|congruence]| | | |by rewrite Q5| |by rewrite Q3|congruence].
    - split; [done|]. split; [done|]. intros m Hm. rewrite Q6 by done. by apply N3c.
    - by apply (looks_up_ext (names s1)).
    - intros path' r Hne Hl. apply (looks_up_ext (names s1)); [done|by apply N5].
    - intros m Hm Hmn Hmc. rewrite Q5 by done. by apply N7. }
  apply wp_bind. eapply wp_mono; [apply (finish_create s s2 path n touched Hs Hc N2 touched_ok)|]. intros [] s3 N3. apply wp_ret. eauto.
Qed.

(** C23: [fs_touch] of a new name of at most 23 characters, in a working directory that
    has an unused entry or a missing block for one, with a free block and a free inode,
    creates an empty regular file with one link: the name resolves to a fresh inode,
    all other names and inodes are as before.  In a full directory the new name would
    overwrite the first entry. *)
Theorem touch_creates s path n0 :
  fs_inv s -> cwd_ok s -> path_ok path -> (List.length path < 24)%nat -> looks_up (names s) path None ->
  dir_room s (cwd_dir s) -> has_free_block s -> 0 <= n0 < 32768 -> imap s n0 = false ->
  exists n s', fs_touch path s = Ok (0, s') /\ name_created s s' path n touched.
Proof.
  intros Hs Hc Hp Hlen Habs Hroom Hfree Hn0 Hclear.
  destruct (touch_spec s path n0) as (r & s' & E & -> & n & N); try done. eauto.
Qed.

(** The beginning of fs_rm: the name is found and its entry cleared. *)
Lemma quiet_cleared s s1 s2 n : fs_inv s -> cwd_ok s -> quiet s s1 -> (n < 1024)%nat -> entry_cleared s1 s2 n -> entry_cleared s s2 n.
Proof.
  intros Hs Hc Hq Hn [C1 (C2a & C2b & C2c) C3 C4 C5 C6 [C7a C7b] C8].
  destruct (cwd_quiet s s1 Hs Hc Hq) as (Hc1 & Ec1 & Ed1 & He1 & Hin1 & Him1 & Hbm1). pose proof Hq as [[_ Hd] (_ & _ & Eo)].
  split; [done|split; [done|split; congruence]|done| | |by rewrite C6, Ed1| |].
  - intros m Hm Hne. rewrite C4 by done. unfold names. rewrite Ed1. by apply He1.
  - intros ino Hi Hne. rewrite C5 by (done || congruence). by apply Hin1.
  - split; intros m Hm; [rewrite C7a by done; by apply Him1|rewrite C7b by done; by apply Hbm1].
  - intros b Hb Hr Hno. rewrite C8; [by apply Hd|done|done|by rewrite Ed1].
Qed.

Lemma wp_rm s path n ino i Q : fs_inv s -> cwd_ok s -> path_ok path -> (n < 1024)%nat -> named (names s n) path ->
  (forall m, (m < n)%nat -> ~ named (names s m) path) -> inode (names s n) = ino -> is_inode ino -> inode_of s ino = i -> type i = 2 ->
  (forall s', entry_cleared s s' n ->
     wp (let inode_info := set_links i (u16 (link_cnt i - 1)) in
         if negb (link_cnt inode_info =? 0) then write_inode ino inode_info ;; ret 0
         else free_inode_blocks inode_info ;; inode_free ino ;; ret 0) s' Q) ->
  wp (fs_rm path) s Q.
Proof.
  intros Hs Hc Hp Hn Hnm Hlow Eino Hino Ei Ht HQ. unfold fs_rm. apply wp_bind.
  assert (Hlk : looks_up (names s) path (Some ino)) by (rewrite <- Eino; by apply LookSome).
  eapply wp_mono; [by apply (lookup_found s path false 0 ino)|]. intros r s1 [-> Hq1].
  rewrite i32_small by (unfold is_inode in Hino; lia). destruct (Z.ltb_spec ino 0); [unfold is_inode in Hino; lia|].
  destruct (cwd_quiet s s1 Hs Hc Hq1) as (_ & _ & _ & _ & Hin1 & _). pose proof (quiet_inv _ _ Hs Hq1) as Hs1.
  apply wp_bind. eapply wp_mono; [apply read_inode_spec; done|]. intros i' s2 [-> Hq2]. rewrite Hin1, Ei, Ht by done. cbn [negb Z.eqb Pos.eqb].
  assert (Hq : quiet s s2) by (by eapply quiet_trans). destruct (cwd_quiet s s2 Hs Hc Hq) as (Hc2 & Ec2 & Ed2 & He2 & _).
  assert (HD2 : forall m, (m < 1024)%nat -> names s2 m = names s m) by (intros m Hm; unfold names; rewrite Ed2; by apply He2).
  apply wp_bind. eapply wp_mono; [apply (remove_name_spec s2 path n); [by eapply quiet_inv|done|done|done|by rewrite HD2|intros m Hm; rewrite HD2 by lia; by apply Hlow]|].
  intros [] s3 C. apply HQ. by eapply quiet_cleared.
Qed.

(** C22: [fs_rm] of a regular file that has direct blocks only (at most 32 KiB, no
    indirect block) and shares none with the directory removes its first entry and
    nothing else from the directory.  With links left it only counts one less; the
    last link gives back the inode and exactly the blocks of the file.  Of a larger
    file the blocks that hold the block numbers would stay allocated:
    [free_inode_blocks_recur] never frees them. *)
Theorem rm_unlinks s path n links :
  fs_inv s -> cwd_ok s -> path_ok path -> (n < 1024)%nat -> named (names s n) path -> (forall m, (m < n)%nat -> ~ named (names s m) path) ->
  0 < links -> plain_file s (inode (names s n)) links ->
  exists s', fs_rm path s = Ok (0, s') /\ fs_inv s' /\ cwd_ok s' /\
    valid (names s' n) = 0 /\ (forall m, (m < 1024)%nat -> m <> n -> names s' m = names s m) /\
    (forall m, 0 <= m < 32768 -> imap s' m = if decide (links = 1 /\ m = inode (names s n)) then false else imap s m) /\
    (forall b, 0 <= b < 98304 -> bmap s' b =
       if decide (links = 1 /\ b ∈ filter (fun v => v <> 0) (data_direct (inode_of s (inode (names s n))))) then false else bmap s b) /\
    (links <> 1 -> inode_of s' (inode (names s n)) = set_links (inode_of s (inode (names s n))) (links - 1)).
Proof.
  intros Hs Hc Hp Hn Hnm Hlow Hlinks PF. destruct PF as [(Hino & Hne & Hused) [Ht Hl] Hok (E1 & E2 & E3) Hapart].
  remember (inode (names s n)) as ino eqn:Eino. remember (inode_of s ino) as i eqn:Ei. symmetry in Eino, Ei.
  enough (W : wp (fs_rm path) s (fun r s' => r = 0 /\ fs_inv s' /\ cwd_ok s' /\
    valid (names s' n) = 0 /\ (forall m, (m < 1024)%nat -> m <> n -> names s' m = names s m) /\
    (forall m, 0 <= m < 32768 -> imap s' m = if decide (links = 1 /\ m = ino) then false else imap s m) /\
    (forall b, 0 <= b < 98304 -> bmap s' b = if decide (links = 1 /\ b ∈ filter (fun v => v <> 0) (data_direct i)) then false else bmap s b) /\
    (links <> 1 -> inode_of s' ino = set_links i (links - 1)))) by (destruct W as (r & s' & E & -> & W); exists s'; split; [exact E|exact W]).
  eapply wp_rm; [done..|]. intros s3 [Hs3 (Hc3 & Ec3 & _) Hgone Hold Hino3 Ed3 [Him3 Hbm3] Hblk3]. cbv zeta.
  pose proof (ok_links _ (fo_inode _ _ Hok)) as Hlr. rewrite Hl in *.
  assert (E16 : u16 (links - 1) = links - 1) by (apply Z.mod_small; lia). rewrite E16. cbn [set_links set_type_links link_cnt].
  assert (Hcne : ino <> cwd_node s3) by congruence.
  assert (Hok' : inode_ok (set_links i (links - 1))).
  { destruct (fo_inode _ _ Hok) as [? ? ? ? ? ? ? ?]. split; cbn [set_links set_type_links type mode link_cnt size data_direct data_l1 data_l2 data_l3]; try assumption. lia. }
  destruct (Z.eqb_spec (links - 1) 0) as [El|El]; cbn [negb].
  - assert (links = 1) as -> by lia. eapply wp_mono; [apply (release_file s3 ino (set_links i (1 - 1)) Hs3 Hc3 Hino Hcne)|].
    + by rewrite Him3.
    + apply (file_ok_direct s3 i (set_links i (1 - 1)) eq_refl Hok'). split; [apply Hok| |apply Hok]. intros k v Hk Hv.
      destruct (fo_blocks _ _ Hok k v Hk Hv) as [Hd Hb]. split; [exact Hd|]. rewrite Hbm3; [exact Hb|unfold is_data_block in Hd; lia].
    + exact E1.
    + exact E2.
    + exact E3.
    + intros k v Hv Hk k'. rewrite Ed3. exact (Hapart k v Hv Hk k').
    + intros r s4 (-> & Hs4 & Hc4 & _ & HD4 & Him4 & Hbm4 & _). split; [done|]. split; [done|]. split; [done|]. split; [by rewrite HD4|].
      split; [intros m Hm Hmn; rewrite HD4 by done; by apply Hold|]. split; [|split; [|done]].
      * intros m Hm. rewrite Him4, Him3 by done. destruct (decide (m = ino)), (decide (1 = 1 /\ m = ino)); tauto.
      * intros b Hb. rewrite Hbm4, Hbm3 by done. cbn [data_direct set_links set_type_links].
        destruct (decide (b ∈ filter _ (data_direct i))), (decide (1 = 1 /\ b ∈ filter _ (data_direct i))); tauto.
  - apply wp_bind. eapply wp_mono; [apply (write_other s3 ino (set_links i (links - 1)) Hs3 Hc3 Hino Hcne Hok')|].
    intros [] s4 (Hs4 & Hc4 & _ & _ & _ & Ed4 & He4 & Hin4 & Him4 & Hbm4 & _). apply wp_ret. split; [done|]. split; [done|]. split; [done|].
    assert (HD4 : forall m, (m < 1024)%nat -> names s4 m = names s3 m) by (intros m Hm; unfold names; rewrite Ed4; by apply He4).
    split; [by rewrite HD4|]. split; [intros m Hm Hmn; rewrite HD4 by done; by apply Hold|]. split; [|split].
    + intros m Hm. rewrite decide_False by lia. by rewrite Him4, Him3.
    + intros b Hb. rewrite decide_False by lia. by rewrite Hbm4, Hbm3.
    + intros _. rewrite Hin4 by done. by rewrite decide_True.
Qed.

(** ** A freshly formatted disk *)

Lemma zero_entry j : (j < 128)%nat -> valid (decode_dir (rec_at 32 zero_block j)) = 0.
Proof.
  intros Hj. unfold rec_at. rewrite take_drop_nth by (rewrite length_zero_block; lia). rewrite map_seq_shift.
  rewrite (map_seq_ext _ (fun _ => 0)); [done|]. intros q Hq. apply nth_zero_block.
Qed.

Lemma formatted_names s : formatted s -> cwd_ok s /\ cwd_dir s = root_node /\
  names s 0 = MkDir 0 1 dot /\ names s 1 = MkDir 0 1 dotdot /\ (forall n, (2 <= n < 1024)%nat -> valid (names s n) = 0).
Proof.
  intros F. destruct (fm_root _ F) as [_ Ec]. pose proof (fm_inv _ F) as Hs. pose proof (fi_blk _ (fi_core _ Hs)) as Hb.
  assert (Ed : cwd_dir s = root_node) by (unfold cwd_dir; rewrite Ec; apply F).
  assert (Hz : forall k v, data_direct root_node !! k = Some v -> v <> 0 -> k = 0%nat /\ v = 517).
  { intros [|k] v E Hne; cbn in E; [split; congruence|]. by apply (lookup_replicate 7 0 v k) in E as [-> _]. }
  assert (Hf : file_ok s root_node).
  { split.
    - split; try done. repeat (constructor; [done|]). constructor.
    - intros k v Hk Hne. destruct (Hz k v Hk Hne) as [_ ->]. split; [done|]. by rewrite (fm_bmap _ F).
    - intros j k v Hj Hk Hne. destruct (Hz j v Hj Hne), (Hz k v Hk Hne). congruence. }
  assert (Hd1 : dir_ok (MkDir 0 1 dot)) by done. assert (Hd2 : dir_ok (MkDir 0 1 dotdot)) by done.
  assert (Hlen : List.length root_dir = 64%nat) by (by apply dir_pair_length).
  assert (Hent : forall j, (j < 128)%nat -> dentry s root_node j = decode_dir (rec_at 32 (splice zero_block 0 root_dir) j)).
  { intros j Hj. change j with (128 * 0 + j)%nat at 1. rewrite dentry_block by (done || lia). cbn [nth data_direct root_node]. by rewrite (fm_dir _ F). }
  assert (E0 : names s 0 = MkDir 0 1 dot).
  { unfold names. rewrite Ed, Hent by lia. unfold splice, rec_at. cbn [Nat.mul]. rewrite drop_0, take_0, app_nil_l. unfold root_dir. rewrite <- !app_assoc.
    rewrite take_app_length' by (by rewrite length_encode_dir). by apply decode_encode_dir. }
  assert (E1 : names s 1 = MkDir 0 1 dotdot).
  { unfold names. rewrite Ed, Hent by lia. unfold splice, rec_at. rewrite take_0, app_nil_l. unfold root_dir. rewrite <- !app_assoc.
    rewrite drop_app_length' by (by rewrite length_encode_dir). rewrite take_app_length' by (by rewrite length_encode_dir). by apply decode_encode_dir. }
  assert (En : forall n, (2 <= n < 1024)%nat -> valid (names s n) = 0).
  { intros n Hn. unfold names. rewrite Ed. destruct (decide (n < 128)%nat) as [Hlt|Hge].
    - rewrite Hent by done. unfold rec_at. rewrite take_drop_splice_ne by (rewrite ?Hlen, ?length_zero_block; lia). by apply zero_entry.
    - rewrite (Nat.div_mod_eq n 128). pose proof (Nat.mod_upper_bound n 128 ltac:(lia)). pose proof (Nat.div_mod_eq n 128).
      assert (1 <= n / 128 < 8)%nat as [Hk1 Hk8] by lia. apply dentry_hole; [done|done|].
      cbn [data_direct root_node]. destruct (n / 128)%nat as [|k]; [lia|]. cbn [nth]. do 7 (destruct k as [|k]; [done|]). lia. }
  split; [|done]. split; rewrite ?Ec.
  - done.
  - by rewrite (fm_imap _ F).
  - by rewrite (fm_node _ F).
  - rewrite (fm_node _ F). split; [done|]. intros n Hn Hv. change (dentry s root_node n) with (dentry s root_node n) in *. rewrite <- Ed in *. change (dentry s (cwd_dir s) n) with (names s n) in *.
    destruct n as [|[|n]]; [rewrite E0; split; [|repeat (constructor; [lia|]); constructor]| |].
    + do 1 right. left.
    + rewrite E1. split; [|repeat (constructor; [lia|]); constructor]. do 2 right. left.
    + by rewrite En in Hv by lia.
Qed.

(** A name other than "." and ".." is not in the root directory. *)
Lemma formatted_absent s path : formatted s -> path <> [46] -> path <> [46; 46] -> looks_up (names s) path None.
Proof.
  intros F H1 H2. destruct (formatted_names s F) as (_ & _ & E0 & E1 & En). apply LookNone. intros [|[|n]] Hn [Hv Hnm].
  - rewrite E0 in Hnm. by apply H1.
  - rewrite E1 in Hnm. by apply H2.
  - apply Hv, En. lia.
Qed.

Lemma formatted_dotdot s : formatted s -> looks_up (names s) [46; 46] (Some 0).
Proof.
  intros F. destruct (formatted_names s F) as (_ & _ & E0 & E1 & _).
  replace (Some 0) with (Some (inode (names s 1))) by (by rewrite E1). apply LookSome; [lia|by rewrite E1|].
  intros m Hm. assert (m = 0%nat) as -> by lia. rewrite E0. by intros [_ E].
Qed.

Lemma formatted_room s : formatted s -> dir_room s (cwd_dir s).
Proof.
  intros F. destruct (formatted_names s F) as (_ & _ & _ & _ & En). exists 0%nat, 2%nat. split; [lia|]. split; [lia|]. right. split; [|lia].
  apply En. lia.
Qed.
End Theorems.

(** * Witnesses *)

Module OneFile.
Import RamCard Formatted.
(** The formatted card after touch "a". *)
Definition file : fs (cache ram) := match fs_touch [97] root with Ok (_, s) => s | _ => root end.

Lemma root_cwd : cwd_ok root.
Proof. apply (formatted_names root root_formatted). Qed.

Lemma file_created : exists n, name_created root file [97] n touched.
Proof.
  destruct (touch_spec root [97] 1) as (r & s & E & _ & n & N).
  - exact root_inv.
  - exact root_cwd.
  - by repeat constructor.
  - cbn. lia.
  - by apply formatted_absent; [exact root_formatted|..].
  - apply formatted_room, root_formatted.
  - exact root_free.
  - lia.
  - by rewrite (fm_imap _ root_formatted).
  - exists n. unfold file. by rewrite E.
Qed.
End OneFile.

Section Witnesses.
Import RamCard Formatted OneFile.

Lemma file_facts : names file 2 = MkDir 1 1 (97 :: replicate 23 0) /\ valid (names file 0) = 1 /\ name (names file 0) = dot /\ name (names file 1) = dotdot /\
  inode_of file 1 = touched /\ imap file 1 = true /\ cwd_node file = 0.
Proof. vm_compute. done. Qed.

#[local] Opaque root file.

Lemma touched_file_ok (s : fs (cache ram)) : file_ok s touched.
Proof.
  assert (Hz : forall k v, data_direct touched !! k = Some v -> v = 0) by (intros k v E; by apply (lookup_replicate 8 0 v k) in E as [-> _]).
  split; [apply touched_ok| |].
  - intros k v Hk Hne. by destruct Hne; eapply Hz.
  - intros j k v Hj _ Hne. by destruct Hne; eapply Hz.
Qed.

Lemma file_plain : plain_file file 1 1.
Proof.
  destruct file_facts as (_ & _ & _ & _ & Ei & Hi & Ec). split; rewrite ?Ei.
  - split; [unfold is_inode; lia|]. split; [rewrite Ec; lia|exact Hi].
  - split; reflexivity.
  - apply touched_file_ok.
  - split; [reflexivity|split; reflexivity].
  - intros k v Hne Hk k' _. apply Hne. exact (proj1 (proj1 (lookup_replicate 8 0 v k) Hk)).
Qed.

(** ".." in the root directory is inode 0. *)
Lemma lookup_resolves_witness :
  exists s', get_inode_by_filename [46; 46] false 0 root = Ok (i32 0, s') /\ quiet root s'.
Proof.
  apply (lookup_resolves root [46; 46] (Some 0)); [exact root_inv|exact root_cwd|by repeat constructor|].
  exact (formatted_dotdot root root_formatted).
Defined.

Lemma touch_creates_witness : exists n s', fs_touch [97] root = Ok (0, s') /\ name_created root s' [97] n touched.
Proof.
  apply (touch_creates root [97] 1); [exact root_inv|exact root_cwd|by repeat constructor|cbn; lia| | |exact root_free|lia|].
  - apply formatted_absent; [exact root_formatted|discriminate|discriminate].
  - exact (formatted_room root root_formatted).
  - rewrite (fm_imap _ root_formatted 1 ltac:(lia)). reflexivity.
Defined.

Lemma rm_unlinks_witness :
  exists s', fs_rm [97] file = Ok (0, s') /\ fs_inv s' /\ cwd_ok s' /\
    valid (names s' 2) = 0 /\ (forall m, (m < 1024)%nat -> m <> 2%nat -> names s' m = names file m) /\
    (forall m, 0 <= m < 32768 -> imap s' m = if decide (1 = 1 /\ m = inode (names file 2)) then false else imap file m) /\
    (forall b, 0 <= b < 98304 -> bmap s' b =
       if decide (1 = 1 /\ b ∈ filter (fun v => v <> 0) (data_direct (inode_of file (inode (names file 2))))) then false else bmap file b) /\
    (1 <> 1 -> inode_of s' (inode (names file 2)) = set_links (inode_of file (inode (names file 2))) (1 - 1)).
Proof.
  destruct file_created as [n N].
  assert (E2 : names file 2 = MkDir 1 1 (97 :: replicate 23 0)) by (apply file_facts).
  assert (E0 : name (names file 0) = dot) by (apply file_facts). assert (E1 : name (names file 1) = dotdot) by (apply file_facts).
  apply (rm_unlinks file [97] 2 1).
  - apply N.
  - apply N.
  - repeat constructor.
  - lia.
  - rewrite E2. split; [cbn; lia|reflexivity].
  - intros m Hm [_ E]. assert (m = 0%nat \/ m = 1%nat) as [-> | ->] by lia; [rewrite E0 in E|rewrite E1 in E]; cbn in E; discriminate E.
  - lia.
  - rewrite E2. exact file_plain.
Defined.
End Witnesses.
