(* ===== verification/FsFile.v ===== *)
(** Open files (src/fs/file.cpp): class File with its position and its copy of
    the inode, and the fs_f* calls that find it through the pool of open files. *)

From Stdlib Require Import ZArith Lia List String.
From stdpp Require Import base numbers list gmap.
From S2P Require Import Prelude Trie Objects BlockLayer Cache FsLayout FsState FsAlloc FsInode FsMkfs FsProps FsDir FsDirProps.

Local Open Scope Z_scope.
Local Open Scope fs_scope.

(** class File: [finode] is the copy taken when the file was opened. *)
Record File := MkFile { inode_idx : Z; mode : Z; file_ptr : Z; finode : Inode }.

Section Code.
Context {S : Type} `{BlockLayer S}.

(** The size of the next piece: up to the end of the block or of the request. *)
Definition piece (ptr length : Z) : Z := u32 (Z.min (BLOCK_SIZE - ptr mod BLOCK_SIZE) (u64 length)).

(** The loop of File::read over the rest of the buffer; [length] and [read_length]
    are int. *)
Fixpoint read_loop (fuel : nat) (f : File) (buff : list Z) (length read_length : Z) (modified : bool) : M S (File * list Z * Z * bool) :=
  match fuel with
  | O => lift OutOfFuel
  | Datatypes.S fuel' =>
      if length =? 0 then ret (f, buff, read_length, modified)
      else
        let n := piece (file_ptr f) length in
        '(m, i, b) <- inode_modify_data false (finode f) buff (file_ptr f) n ;;
        '(f, rest, read_length, modified) <-
          read_loop fuel' (MkFile (inode_idx f) (mode f) (u32 (file_ptr f + n)) i) (drop (Z.to_nat n) b)
            (i32 (length - n)) (i32 (read_length + n)) (modified || m) ;;
        ret (f, take (Z.to_nat n) b ++ rest, read_length, modified)
  end.

(** int read(char *buff, int length): the file, the buffer and the result. *)
Definition read (f : File) (buff : list Z) (length : Z) : M S (File * list Z * Z) :=
  if Z.land (mode f) 1 =? 0 then ret (f, buff, -1)
  else
    '(f, buff, read_length, modified) <- read_loop (Z.to_nat (length / BLOCK_SIZE + 3)) f buff length 0 false ;;
    (if modified : bool then write_inode (inode_idx f) (finode f) else ret tt) ;;
    ret (f, buff, read_length).

Fixpoint write_loop (fuel : nat) (f : File) (buff : list Z) (length write_length : Z) (modified : bool) : M S (File * Z * bool) :=
  match fuel with
  | O => lift OutOfFuel
  | Datatypes.S fuel' =>
      if length =? 0 then ret (f, write_length, modified)
      else
        let n := piece (file_ptr f) length in
        '(m, i, _) <- inode_modify_data true (finode f) buff (file_ptr f) n ;;
        write_loop fuel' (MkFile (inode_idx f) (mode f) (u32 (file_ptr f + n)) i) (drop (Z.to_nat n) buff)
          (i32 (length - n)) (i32 (write_length + n)) (modified || m)
  end.

(** int write(const char *buff, int length) *)
Definition write (f : File) (buff : list Z) (length : Z) : M S (File * Z) :=
  if Z.land (mode f) 2 =? 0 then ret (f, -1)
  else
    '(f, write_length, modified) <- write_loop (Z.to_nat (length / BLOCK_SIZE + 3)) f buff length 0 false ;;
    (if modified : bool then write_inode (inode_idx f) (finode f) else ret tt) ;;
    ret (f, write_length).

(** int lseek(int offset, int whence) *)
Definition lseek (f : File) (offset whence : Z) : File * Z :=
  let seek p := let p := u32 p in (MkFile (inode_idx f) (mode f) p (finode f), i32 p) in
  if whence =? 0 then seek offset
  else if whence =? 1 then seek (file_ptr f + offset)
  else if whence =? 2 then seek (size (finode f) + offset)
  else (f, -1).

(** * Open files *)

(** The file system with File::pool and the open files by address. *)
Record vfs := MkVfs { fsys : fs S; pool : world; files : gmap Z File }.

(** int fs_fopen(const char *path, int mode): [fresh] is the address of the file
    object, should one be made; [pid] the calling process. *)
Definition fs_fopen (v : vfs) (pid : nat) (path : list Z) (md fresh : Z) : outcome (Z * vfs) :=
  ('(idx, s) <- get_inode_by_filename path true 0 (fsys v) ;;
   let inode_idx := u32 idx in
   (* an unsigned number is never negative *)
   if inode_idx <? 0 then Ok (-1, MkVfs s (pool v) (files v))
   else
     '(inode, s) <- read_inode inode_idx s ;;
     if type inode =? 1 then Ok (-1, MkVfs s (pool v) (files v))
     else
       let opened := if type inode =? 0 then set_type_links inode 2 1 else inode in
       '(_, s) <- (if type inode =? 0 then write_inode inode_idx opened s else Ok (tt, s)) ;;
       p <- Trie.lookup (keymap (pool v)) inode_idx ;;
       '(h, w) <- pool_init (pool v) pid inode_idx fresh ;;
       let fl := match p with
                 | Some _ => files v
                 | None => <[fresh := MkFile inode_idx md 0 opened]> (files v)
                 end in
       Ok (i32 (Z.of_nat h), MkVfs s w fl))%outcome.

(** File::pool.get(fd) with the file it names *)
Definition get_file (v : vfs) (fd : Z) : outcome (option (Z * File)) :=
  match pool_get (pool v) (Z.to_nat fd) with
  | None => Ok None
  | Some a => (f <- or_fault (files v !! a) ;; Ok (Some (a, f)))%outcome
  end.

Definition fs_fread (v : vfs) (fd : Z) (buff : list Z) (length : Z) : outcome (Z * list Z * vfs) :=
  (r <- get_file v fd ;;
   match r with
   | None => Ok (-1, buff, v)
   | Some (a, f) =>
       '((f, buff, n), s) <- read f buff length (fsys v) ;;
       Ok (n, buff, MkVfs s (pool v) (<[a := f]> (files v)))
   end)%outcome.

Definition fs_fwrite (v : vfs) (fd : Z) (buff : list Z) (length : Z) : outcome (Z * vfs) :=
  (r <- get_file v fd ;;
   match r with
   | None => Ok (-1, v)
   | Some (a, f) =>
       '((f, n), s) <- write f buff length (fsys v) ;;
       Ok (n, MkVfs s (pool v) (<[a := f]> (files v)))
   end)%outcome.

Definition fs_lseek (v : vfs) (fd offset whence : Z) : outcome (Z * vfs) :=
  (r <- get_file v fd ;;
   match r with
   | None => Ok (-1, v)
   | Some (a, f) => let '(f, n) := lseek f offset whence in Ok (n, MkVfs (fsys v) (pool v) (<[a := f]> (files v)))
   end)%outcome.

(** int fs_fclose(int fd): the last process that closes a file destroys it. *)
Definition fs_fclose (v : vfs) (pid : nat) (fd : Z) : outcome (Z * vfs) :=
  (w <- pool_close (pool v) pid (Z.to_nat fd) ;;
   Ok (0, MkVfs (fsys v) w (filter (fun af => is_Some (objs w !! fst af)) (files v))))%outcome.

(** * Lemmas *)

(** Free blocks, counted. *)
Definition free_blocks (s : fs S) : Z := 98304 - block_allocated (superblock s).

Lemma count_full f start size : 0 <= size -> (forall n, 0 <= n < size -> mbit f start n = true) -> count_bits f start size = size.
Proof.
  intros Hs Hall. unfold count_bits. rewrite (filter_length_ext _ (fun _ => True)).
  - assert (Ht : forall l : list Z, List.length (filter (fun _ => True) l) = List.length l).
    { induction l as [|x l IH]; [done|]. rewrite filter_cons_True by done. cbn. by rewrite IH. }
    rewrite Ht, length_seqZ. lia.
  - intros n Hn. apply elem_of_seqZ in Hn. rewrite Hall by lia. done.
Qed.

Lemma free_blocks_has s : fs_inv s -> 0 < free_blocks s -> has_free_block s.
Proof.
  intros Hs Hf. unfold free_blocks in Hf. rewrite (mo_count _ _ _ _ _ (fi_blocks _ (fi_core _ Hs))) in Hf.
  destruct (decide (Exists (fun n => bmap s n = false) (seqZ 0 98304))) as [E|E].
  - apply Exists_exists in E as (n & Hn & E). apply elem_of_seqZ in Hn. exists n. split; [lia|done].
  - rewrite count_full in Hf; [lia|lia|]. intros n Hn. destruct (mbit (disk s) 2 n) eqn:Eb; [done|].
    destruct E. apply Exists_exists. exists n. split; [apply elem_of_seqZ; lia|done].
Qed.

(** A write takes at most one block. *)
Lemma free_blocks_written s s' v id o src : fs_inv s -> data_written s s' v id o src -> free_blocks s - 1 <= free_blocks s'.
Proof.
  intros Hs Hw. pose proof (dw_range _ _ _ _ _ _ Hw) as Hr. unfold free_blocks.
  rewrite (mo_count _ _ _ _ _ (fi_blocks _ (fi_core _ Hs))), (mo_count _ _ _ _ _ (fi_blocks _ (fi_core _ (dw_inv _ _ _ _ _ _ Hw)))).
  rewrite !(count_split _ 2 98304 id) by lia.
  assert (E : forall m, 0 <= m < 98304 -> m <> id -> mbit (disk s') 2 m = mbit (disk s) 2 m).
  { intros m Hm Hne. pose proof (dw_map _ _ _ _ _ _ Hw m Hm) as Hb. rewrite decide_False in Hb by tauto. exact Hb. }
  rewrite (filter_length_ext (fun n => mbit (disk s') 2 n = true) (fun n => mbit (disk s) 2 n = true) (seqZ 0 id)).
  2:{ intros n Hn. apply elem_of_seqZ in Hn. rewrite E by lia. done. }
  rewrite (filter_length_ext (fun n => mbit (disk s') 2 n = true) (fun n => mbit (disk s) 2 n = true) (seqZ (id + 1) _)).
  2:{ intros n Hn. apply elem_of_seqZ in Hn. rewrite E by lia. done. }
  destruct (mbit (disk s) 2 id), (mbit (disk s') 2 id); lia.
Qed.

Lemma piece_spec ptr length : 0 <= ptr -> 0 < length < 2 ^ 31 ->
  piece ptr length = Z.min (4096 - ptr mod 4096) length /\ 0 < piece ptr length <= 4096 /\ ptr mod 4096 + piece ptr length <= 4096.
Proof.
  intros Hp Hl. unfold piece. change BLOCK_SIZE with 4096. rewrite u64_small by lia. pose proof (Z.mod_pos_bound ptr 4096).
  rewrite u32_small by lia. lia.
Qed.

(** No block in common. *)
Definition apart (i j : Inode) : Prop := forall k v, v <> 0 -> data_direct i !! k = Some v -> forall k', data_direct j !! k' <> Some v.

Lemma apart_written s s' i j offset length id o src : file_ok s i -> file_ok s j -> apart i j -> 0 <= offset < 32768 ->
  data_written s s' (block_at i offset) id o src -> apart (written_inode i offset length id) j.
Proof.
  intros Hi Hj Ha Ho Hw k v Hv Hk k' Hk'. cbn [written_inode set_direct data_direct] in Hk.
  destruct (decide (Z.to_nat (offset / 4096) = k)) as [<-|Hne].
  - rewrite list_lookup_insert_eq in Hk by (by eapply lookup_lt_Some; apply (block_at_lookup s)). injection Hk as <-.
    pose proof (dw_id _ _ _ _ _ _ Hw) as E. case_decide as E0.
    + destruct E as [Ef _]. destruct (fo_blocks _ _ Hj k' id Hk' Hv). congruence.
    + subst id. by apply (Ha _ _ E0 (block_at_lookup s i offset Hi Ho) k').
  - rewrite list_lookup_insert_ne in Hk by done. by apply (Ha k v Hv Hk k').
Qed.

(** What a completed write of [src] at [ptr] did to file [i], now [i']. *)
Record file_written (s s' : fs S) (i i' : Inode) (ptr : Z) (src : list Z) (m : bool) : Prop := {
  fw_inv : fs_inv s';
  fw_ok : file_ok s' i';
  fw_content : forall p, 0 <= p < 32768 -> content s' i' p =
    if decide (ptr <= p < ptr + Z.of_nat (List.length src)) then nth (Z.to_nat (p - ptr)) src 0 else content s i p;
  fw_present : forall p, ptr <= p < ptr + Z.of_nat (List.length src) -> block_at i' p <> 0;
  fw_kept : forall p, 0 <= p < 32768 -> block_at i p <> 0 -> block_at i' p <> 0;
  fw_type : type i' = type i /\ link_cnt i' = link_cnt i;
  fw_size : size i' = if decide (type i = 2 /\ src <> []) then Z.max (size i) (ptr + Z.of_nat (List.length src)) else size i;
  fw_same : m = false -> i' = i;
  fw_inodes : forall ino, is_inode ino -> inode_of s' ino = inode_of s ino;
  fw_others : forall j, file_ok s j -> apart i j -> apart i' j /\ file_ok s' j /\ forall p, 0 <= p < 32768 -> content s' j p = content s j p;
  fw_rest : cwd_node s' = cwd_node s /\ console s' = console s
}.

Lemma file_written_nil s i ptr : fs_inv s -> file_ok s i -> file_written s s i i ptr [] false.
Proof.
  intros Hs Hi. split; try done.
  - intros p Hp. rewrite decide_False; [done|]. cbn. lia.
  - cbn. intros p Hp. lia.
  - by rewrite decide_False by tauto.
Qed.

Lemma file_written_trans s s1 s2 i i1 i2 ptr src1 src2 m1 m2 : 0 <= ptr -> ptr + Z.of_nat (List.length src1) + Z.of_nat (List.length src2) <= 32768 ->
  file_written s s1 i i1 ptr src1 m1 -> file_written s1 s2 i1 i2 (ptr + Z.of_nat (List.length src1)) src2 m2 ->
  file_written s s2 i i2 ptr (src1 ++ src2) (m1 || m2).
Proof.
  intros Hp Hmax [A1 A2 A3 A4 A5 [A6 A7] A13 A8 A9 A10 [A11 A12]] [B1 B2 B3 B4 B5 [B6 B7] B13 B8 B9 B10 [B11 B12]].
  split; try done.
  - intros p Hpr. rewrite B3 by done. rewrite length_app. destruct (decide (ptr + _ <= p < _ + Z.of_nat (List.length src2))) as [Hin|Hout].
    + rewrite decide_True by lia. rewrite app_nth2 by lia. f_equal. lia.
    + rewrite A3 by done. destruct (decide (ptr <= p < ptr + Z.of_nat (List.length src1))) as [Hin1|Hout1].
      * rewrite decide_True by lia. by rewrite app_nth1 by lia.
      * by rewrite decide_False by lia.
  - intros p. rewrite length_app. intros Hpr. destruct (decide (p < ptr + Z.of_nat (List.length src1))); [|apply B4; lia].
    apply B5; [lia|]. apply A4. lia.
  - intros p Hpr Hb. apply B5; [done|]. by apply A5.
  - split; congruence.
  - rewrite B13, A13, A6, length_app. assert (Hnil : forall (x : Z) l, x :: l <> []) by done.
    destruct src1 as [|x1 src1], src2 as [|x2 src2]; cbn [app List.length] in *; repeat case_decide; try lia; exfalso;
      repeat match goal with Hd : ~ (_ /\ _) |- _ => apply Hd; split; [tauto|done] end; tauto.
  - intros [-> ->]%orb_false_iff. rewrite B8 by done. by apply A8.
  - intros ino Hi. rewrite B9, A9 by done. done.
  - intros j Hj Ha. destruct (A10 j Hj Ha) as (Ha1 & Hj1 & Hc1). destruct (B10 j Hj1 Ha1) as (Ha2 & Hj2 & Hc2).
    split; [done|]. split; [done|]. intros p Hpr. rewrite Hc2, Hc1 by done. done.
  - split; congruence.
Qed.

(** One piece. *)
Lemma piece_written s i buf ptr n : fs_inv s -> file_ok s i -> 0 < free_blocks s -> 0 <= ptr -> ptr + n <= 32768 -> 0 < n ->
  ptr mod 4096 + n <= 4096 -> n <= Z.of_nat (List.length buf) ->
  wp (inode_modify_data true i buf ptr n) s (fun r s' => exists m i', r = (m, i', buf) /\
    file_written s s' i i' ptr (take (Z.to_nat n) buf) m /\ free_blocks s - 1 <= free_blocks s').
Proof.
  intros Hs Hi Hfree Hp Hmax Hn Hfit Hbuf. assert (Ho : 0 <= ptr < 32768) by lia.
  eapply wp_mono; [apply (modify_write_direct s i buf ptr n); [done|intros _; by apply free_blocks_has|by apply (block_at_data s)|done|lia|done|done]|].
  intros r s' (id & -> & Hw). fold (written_inode i ptr n id). exists (grown i ptr n || (block_at i ptr =? 0)), (written_inode i ptr n id).
  split; [done|]. split; [|by eapply free_blocks_written]. set (src := take (Z.to_nat n) buf) in *.
  assert (Hlen : Z.of_nat (List.length src) = n) by (unfold src; rewrite length_take; lia).
  pose proof (dw_range _ _ _ _ _ _ Hw) as Hr. destruct (dw_rest _ _ _ _ _ _ Hw) as (Ec & Eo & _). split.
  - apply Hw.
  - by eapply file_ok_written.
  - rewrite Hlen. eapply content_written; try done; [lia|lia|apply Hs].
  - rewrite Hlen. intros p Hpr. rewrite (block_at_written s) by (done || lia).
    assert (p / 4096 = ptr / 4096) as ->; [|rewrite decide_True by done; lia].
    symmetry. apply (Z.div_unique_pos _ _ _ (ptr mod 4096 + (p - ptr))); pose proof (Z.div_mod ptr 4096); pose proof (Z.mod_pos_bound ptr 4096); lia.
  - intros p Hpr Hb. rewrite (block_at_written s) by done. case_decide; [lia|done].
  - unfold written_inode, grow_size. by destruct (grown i ptr n).
  - rewrite Hlen. unfold written_inode, grow_size, grown. rewrite u32_small by lia. pose proof (ok_size _ (fo_inode _ _ Hi)).
    assert (Hne : src <> []) by (intros ->; cbn in Hlen; lia).
    destruct (Z.eqb_spec (type i) 2), (Z.ltb_spec (size i) (ptr + n)); cbn [andb size set_size set_direct];
      [rewrite decide_True by done|rewrite decide_True by done|rewrite decide_False by tauto|rewrite decide_False by tauto]; lia.
  - intros [Eg Ev]%orb_false_iff. apply (unmodified_inode s); [done..|]. pose proof (dw_id _ _ _ _ _ _ Hw) as E. apply Z.eqb_neq in Ev. by rewrite decide_False in E.
  - intros ino Hino. apply inode_of_ext; [done|]. intros b Hb Hrb. apply (dw_other _ _ _ _ _ _ Hw); [done|lia|lia].
  - intros j Hj Ha. split; [by eapply apart_written|]. eapply content_other; [done|done|]. intros k Hv Hk.
    eapply Ha; [done|by apply (block_at_lookup s)|done].
  - done.
Qed.

Lemma write_loop_spec fuel : forall f buff length wl md s, fs_inv s -> file_ok s (finode f) -> Z.of_nat fuel <= free_blocks s ->
  0 <= file_ptr f -> 0 <= length -> file_ptr f + length <= 32768 -> List.length buff = Z.to_nat length ->
  (length = 0 /\ (0 < fuel)%nat \/ 0 < length /\ length + file_ptr f mod 4096 <= 4096 * (Z.of_nat fuel - 1)) ->
  0 <= wl -> wl + length < 2 ^ 31 ->
  wp (write_loop fuel f buff length wl md) s (fun r s' => exists i' m,
    r = (MkFile (inode_idx f) (mode f) (file_ptr f + length) i', wl + length, md || m) /\ file_written s s' (finode f) i' (file_ptr f) buff m).
Proof.
  induction fuel as [|fuel IH]; intros f buff length wl md s Hs Hi Hfree Hp Hl Hmax Hbuf Hfuel Hwl Hov; [pose proof (Z.mod_pos_bound (file_ptr f) 4096 ltac:(lia)); lia|]. cbn [write_loop].
  destruct (Z.eqb_spec length 0) as [->|Hne].
  - apply wp_ret. exists (finode f), false. rewrite !Z.add_0_r, orb_false_r. split; [by destruct f|]. destruct buff; [|done]. by apply file_written_nil.
  - destruct Hfuel as [[? _]|[Hpos Hfuel]]; [done|]. destruct (piece_spec (file_ptr f) length Hp) as (En & Hn & Hfit); [lia|].
    set (n := piece (file_ptr f) length) in *. pose proof (Z.mod_pos_bound (file_ptr f) 4096 ltac:(lia)) as Hm.
    apply wp_bind. eapply wp_mono; [apply (piece_written s (finode f) buff (file_ptr f) n); [done|done|lia|done|lia|lia|done|lia]|].
    intros r s1 (m & i1 & -> & Hw & Hfree1). rewrite u32_small by lia. rewrite !i32_small by lia.
    assert (Hmod : length - n = 0 \/ (file_ptr f + n) mod 4096 = 0).
    { destruct (decide (n = length)); [left; lia|right]. assert (n = 4096 - file_ptr f mod 4096) as -> by lia.
      replace (file_ptr f + (4096 - file_ptr f mod 4096)) with ((file_ptr f / 4096 + 1) * 4096) by (pose proof (Z.div_mod (file_ptr f) 4096); lia).
      apply Z.mod_mul. lia. }
    assert (Hlt : List.length (take (Z.to_nat n) buff) = Z.to_nat n) by (rewrite length_take; lia).
    eapply wp_mono; [apply (IH (MkFile (inode_idx f) (mode f) (file_ptr f + n) i1) (drop (Z.to_nat n) buff) (length - n) (wl + n) (md || m) s1);
      cbn [file_ptr finode]; [apply Hw|apply Hw|lia|lia|lia|lia|rewrite length_drop; lia| |lia|lia]|].
    + destruct Hmod as [E|E]; [left; lia|]. destruct (decide (length - n = 0)); [left; lia|right; lia].
    + intros r s2 (i2 & m2 & -> & Hw2). cbn [inode_idx mode file_ptr finode] in *. exists i2, (m || m2).
      split; [f_equal; [f_equal; [f_equal|]; lia|by rewrite orb_assoc]|]. rewrite <- (take_drop (Z.to_nat n) buff).
      eapply file_written_trans; [done|rewrite Hlt, length_drop; lia|exact Hw|]. rewrite Hlt, Z2Nat.id by lia. exact Hw2.
Qed.

(** Reading one piece that is there. *)
Lemma piece_read s i buf ptr n : fs_inv s -> file_ok s i -> 0 <= ptr -> ptr + n <= 32768 -> 0 < n -> ptr mod 4096 + n <= 4096 ->
  n <= Z.of_nat (List.length buf) -> block_at i ptr <> 0 ->
  wp (inode_modify_data false i buf ptr n) s (fun r s' => exists out, r = (grown i ptr n, grow_size i ptr n, out) /\ quiet s s' /\
    List.length out = List.length buf /\ drop (Z.to_nat n) out = drop (Z.to_nat n) buf /\
    forall q, 0 <= q < n -> nth (Z.to_nat q) out 0 = content s i (ptr + q)).
Proof.
  intros Hs Hi Hp Hmax Hn Hfit Hbuf Hne. assert (Ho : 0 <= ptr < 32768) by lia. destruct (block_at_data s i ptr Hi Ho Hne) as [Hd Hb].
  eapply wp_mono; [apply (modify_read_direct s i buf ptr n); [done|done|apply (ok_direct _ (fo_inode _ _ Hi))|done|lia|done|done]|].
  intros r s' (-> & Hq). assert (Hlen : List.length (disk s (block_at i ptr)) = 4096%nat) by (apply disk_length; [apply Hs|by apply data_block_block]).
  set (r := take (Z.to_nat n) (drop (Z.to_nat (ptr mod 4096)) (disk s (block_at i ptr)))). pose proof (Z.mod_pos_bound ptr 4096 ltac:(lia)) as Hm.
  assert (Hr : List.length r = Z.to_nat n) by (unfold r; rewrite length_take, length_drop; lia).
  exists (splice buf 0 r). split; [done|]. split; [done|]. split; [rewrite length_splice; lia|]. split.
  - unfold splice. rewrite take_0, app_nil_l, Hr. by rewrite drop_app_length' by done.
  - intros q Hq'. rewrite nth_splice by lia. rewrite decide_True by lia. rewrite Nat.sub_0_r.
    assert (Hdp : (ptr + q) / 4096 = ptr / 4096) by (symmetry; apply (Z.div_unique_pos _ _ _ (ptr mod 4096 + q)); pose proof (Z.div_mod ptr 4096); lia).
    assert (Hmp : (ptr + q) mod 4096 = ptr mod 4096 + q) by (pose proof (Z.div_mod (ptr + q) 4096); pose proof (Z.div_mod ptr 4096); lia).
    assert (Esame : block_at i (ptr + q) = block_at i ptr) by (unfold block_at; by rewrite Hdp).
    unfold content. rewrite Esame, Hmp. destruct (Z.eqb_spec (block_at i ptr) 0); [done|].
    unfold r. rewrite !nth_lookup, lookup_take_lt, lookup_drop by lia. do 2 f_equal. lia.
Qed.

Lemma grow_size_none i ptr n : ptr + n <= size i -> 0 <= ptr + n < 2 ^ 32 -> grown i ptr n = false /\ grow_size i ptr n = i.
Proof.
  intros Hle Hr. assert (E : grown i ptr n = false) by (unfold grown; rewrite u32_small by lia; destruct (Z.ltb_spec (size i) (ptr + n)); [lia|done]).
  split; [done|]. unfold grow_size. by rewrite E.
Qed.

(** Reading inside the file, where every block is there. *)
Lemma read_loop_spec fuel : forall f buff length rl md s, fs_inv s -> file_ok s (finode f) ->
  0 <= file_ptr f -> 0 <= length -> file_ptr f + length <= 32768 -> (0 < length -> file_ptr f + length <= size (finode f)) ->
  List.length buff = Z.to_nat length -> (forall p, file_ptr f <= p < file_ptr f + length -> block_at (finode f) p <> 0) ->
  (length = 0 /\ (0 < fuel)%nat \/ 0 < length /\ length + file_ptr f mod 4096 <= 4096 * (Z.of_nat fuel - 1)) ->
  0 <= rl -> rl + length < 2 ^ 31 ->
  wp (read_loop fuel f buff length rl md) s (fun r s' => exists out,
    r = (MkFile (inode_idx f) (mode f) (file_ptr f + length) (finode f), out, rl + length, md) /\ quiet s s' /\
    List.length out = Z.to_nat length /\ forall q, 0 <= q < length -> nth (Z.to_nat q) out 0 = content s (finode f) (file_ptr f + q)).
Proof.
  induction fuel as [|fuel IH]; intros f buff length rl md s Hs Hi Hp Hl Hmax Hsz Hbuf Hpres Hfuel Hrl Hov;
    pose proof (Z.mod_pos_bound (file_ptr f) 4096 ltac:(lia)) as Hm; [lia|]. cbn [read_loop].
  destruct (Z.eqb_spec length 0) as [->|Hne].
  - apply wp_ret. exists buff. rewrite !Z.add_0_r. split; [by destruct f|]. split; [apply quiet_refl, Hs|]. split; [done|]. intros; lia.
  - destruct Hfuel as [[? _]|[Hpos Hfuel]]; [done|]. destruct (piece_spec (file_ptr f) length Hp) as (En & Hn & Hfit); [lia|].
    set (n := piece (file_ptr f) length) in *.
    apply wp_bind. eapply wp_mono; [apply (piece_read s (finode f) buff (file_ptr f) n); [done|done|done|lia|lia|done|lia|apply Hpres; lia]|].
    intros r s1 (out1 & -> & Hq1 & Hlo1 & Hdrop & Hc1). destruct (grow_size_none (finode f) (file_ptr f) n) as [-> ->]; [lia|lia|]. rewrite orb_false_r.
    rewrite u32_small by lia. rewrite !i32_small by lia. destruct (content_quiet s s1 _ Hq1 Hi) as [Hi1 Hcq].
    assert (Hmod : length - n = 0 \/ (file_ptr f + n) mod 4096 = 0).
    { destruct (decide (n = length)); [left; lia|right]. assert (n = 4096 - file_ptr f mod 4096) as -> by lia.
      replace (file_ptr f + (4096 - file_ptr f mod 4096)) with ((file_ptr f / 4096 + 1) * 4096) by (pose proof (Z.div_mod (file_ptr f) 4096); lia).
      apply Z.mod_mul. lia. }
    apply wp_bind. eapply wp_mono; [apply (IH (MkFile (inode_idx f) (mode f) (file_ptr f + n) (finode f)) (drop (Z.to_nat n) out1) (length - n) (rl + n) md s1);
      cbn [file_ptr finode]; [by eapply quiet_inv|done|lia|lia|lia|lia|rewrite length_drop; lia|intros p Hpp; apply Hpres; lia| |lia|lia]|].
    + destruct Hmod as [E|E]; [left; lia|]. destruct (decide (length - n = 0)); [left; lia|right; lia].
    + intros r s2 (out2 & -> & Hq2 & Hlo2 & Hc2). cbn [inode_idx mode file_ptr finode] in *. apply wp_ret. exists (take (Z.to_nat n) out1 ++ out2).
      split; [f_equal; f_equal; [f_equal; f_equal; lia|lia]|]. split; [by eapply quiet_trans|].
      assert (Hlt : List.length (take (Z.to_nat n) out1) = Z.to_nat n) by (rewrite length_take; lia).
      split; [rewrite length_app; lia|]. intros q Hq. destruct (decide (q < n)).
      * rewrite app_nth1 by lia. rewrite nth_lookup, lookup_take_lt, <- nth_lookup by lia. apply Hc1. lia.
      * rewrite app_nth2 by lia. replace (Z.to_nat q - _)%nat with (Z.to_nat (q - n)) by lia. rewrite Hc2 by lia.
        rewrite Hcq by lia. f_equal. lia.
Qed.

(** ** Whole calls *)

Lemma content_inode_write s s' ino b j : wrote s s' (inode_block ino) b -> is_inode ino -> file_ok s j ->
  file_ok s' j /\ forall p, 0 <= p < 32768 -> content s' j p = content s j p.
Proof.
  intros Hw Hi Hj. destruct (inode_index ino Hi) as (Hb & _ & _). apply content_same; [|done].
  intros k Hk Hr. eapply wrote_ne; [done|done|lia].
Qed.

Lemma fuel_enough ptr len : 0 <= ptr -> 0 <= len ->
  len = 0 /\ (0 < Z.to_nat (len / BLOCK_SIZE + 3))%nat \/ 0 < len /\ len + ptr mod 4096 <= 4096 * (Z.of_nat (Z.to_nat (len / BLOCK_SIZE + 3)) - 1).
Proof.
  intros Hp Hl. change BLOCK_SIZE with 4096. pose proof (Z.div_mod len 4096). pose proof (Z.mod_pos_bound len 4096). pose proof (Z.mod_pos_bound ptr 4096).
  destruct (decide (len = 0)); [left; lia|right; lia].
Qed.

Lemma write_spec s f buf len : fs_inv s -> file_ok s (finode f) -> is_inode (inode_idx f) -> inode_of s (inode_idx f) = finode f ->
  Z.land (mode f) 2 <> 0 -> len / 4096 + 3 <= free_blocks s -> 0 <= file_ptr f -> 0 <= len -> file_ptr f + len <= 32768 -> List.length buf = Z.to_nat len ->
  wp (write f buf len) s (fun r s' => exists i', r = (MkFile (inode_idx f) (mode f) (file_ptr f + len) i', len) /\
    inode_of s' (inode_idx f) = i' /\ (forall ino, is_inode ino -> ino <> inode_idx f -> inode_of s' ino = inode_of s ino) /\
    exists m s1, file_written s s1 (finode f) i' (file_ptr f) buf m /\ fs_inv s' /\
      (forall j, file_ok s1 j -> file_ok s' j /\ forall p, 0 <= p < 32768 -> content s' j p = content s1 j p)).
Proof.
  intros Hs Hi Hino Hcur Hmode Hfree Hp Hl Hmax Hbuf. unfold write. destruct (Z.eqb_spec (Z.land (mode f) 2) 0); [done|]. apply wp_bind.
  assert (Hdiv : 0 <= len / 4096) by (apply Z.div_pos; lia).
  eapply wp_mono; [apply write_loop_spec; try done; [change BLOCK_SIZE with 4096; lia|by apply fuel_enough|lia]|].
  intros r s1 (i' & m & -> & Hw). cbn [orb inode_idx finode]. rewrite Z.add_0_l. destruct m.
  - apply wp_bind. eapply wp_mono; [apply write_inode_spec; [apply Hw|done|apply (fw_ok _ _ _ _ _ _ _ Hw)]|]. intros [] s2 [Hwr Hs2]. apply wp_ret.
    exists i'. split; [done|]. pose proof (fi_blk _ (fi_core _ (fw_inv _ _ _ _ _ _ _ Hw))) as Hb1. pose proof (fo_inode _ _ (fw_ok _ _ _ _ _ _ _ Hw)) as Hok.
    split; [rewrite (inode_of_write s1 s2 (inode_idx f) i') by done; by rewrite decide_True|]. split.
    + intros ino Hin Hne. rewrite (inode_of_write s1 s2 (inode_idx f) i') by done. rewrite decide_False by done. by apply Hw.
    + exists true, s1. split; [done|]. split; [done|]. intros j Hj. by eapply content_inode_write.
  - apply wp_bind, wp_ret, wp_ret. exists i'. split; [done|]. pose proof (fw_same _ _ _ _ _ _ _ Hw eq_refl) as E. split.
    + rewrite (fw_inodes _ _ _ _ _ _ _ Hw) by done. by rewrite E.
    + split; [intros ino Hin _; by apply Hw|]. exists false, s1. split; [done|]. split; [apply Hw|]. done.
Qed.

Lemma read_spec s f buf len : fs_inv s -> file_ok s (finode f) -> Z.land (mode f) 1 <> 0 ->
  0 <= file_ptr f -> 0 <= len -> file_ptr f + len <= 32768 -> (0 < len -> file_ptr f + len <= size (finode f)) -> List.length buf = Z.to_nat len ->
  (forall p, file_ptr f <= p < file_ptr f + len -> block_at (finode f) p <> 0) ->
  wp (read f buf len) s (fun r s' => exists out, r = (MkFile (inode_idx f) (mode f) (file_ptr f + len) (finode f), out, len) /\ quiet s s' /\
    List.length out = Z.to_nat len /\ forall q, 0 <= q < len -> nth (Z.to_nat q) out 0 = content s (finode f) (file_ptr f + q)).
Proof.
  intros Hs Hi Hmode Hp Hl Hmax Hsz Hbuf Hpres. unfold read. destruct (Z.eqb_spec (Z.land (mode f) 1) 0); [done|]. apply wp_bind.
  eapply wp_mono; [apply read_loop_spec; try done; [by apply fuel_enough|lia]|]. intros r s' (out & -> & Hq & Hlen & Hc). rewrite Z.add_0_l.
  apply wp_bind, wp_ret, wp_ret. exists out. done.
Qed.

(** C25: [File::write] of a piece that ends within the first 32 KiB of the file, while
    enough blocks are free, is a write into the array of bytes of the file: it returns
    the length, moves the position, grows the file, stores the inode, and leaves every
    other inode and, in its first 32 KiB, every file that shares no block alone.
    Beyond 32 KiB the code stores other bytes than the caller's
    ([indirect_ignores_buffer] of FsProps.v). *)
Theorem file_write_refines s f buf len :
  fs_inv s -> file_ok s (finode f) -> is_inode (inode_idx f) -> inode_of s (inode_idx f) = finode f -> Z.land (mode f) 2 <> 0 ->
  len / 4096 + 3 <= free_blocks s -> 0 <= file_ptr f -> 0 <= len -> file_ptr f + len <= 32768 -> List.length buf = Z.to_nat len ->
  exists i' s', write f buf len s = Ok ((MkFile (inode_idx f) (mode f) (file_ptr f + len) i', len), s') /\
    fs_inv s' /\ file_ok s' i' /\ inode_of s' (inode_idx f) = i' /\
    (forall p, 0 <= p < 32768 -> content s' i' p =
       if decide (file_ptr f <= p < file_ptr f + len) then nth (Z.to_nat (p - file_ptr f)) buf 0 else content s (finode f) p) /\
    size i' = (if decide (type (finode f) = 2 /\ buf <> []) then Z.max (size (finode f)) (file_ptr f + len) else size (finode f)) /\
    (forall ino, is_inode ino -> ino <> inode_idx f -> inode_of s' ino = inode_of s ino) /\
    (forall j, file_ok s j -> apart (finode f) j -> file_ok s' j /\ forall p, 0 <= p < 32768 -> content s' j p = content s j p).
Proof.
  intros Hs Hi Hino Hcur Hmode Hfree Hp Hl Hmax Hbuf.
  destruct (write_spec s f buf len) as (r & s' & E & i' & -> & Hc & Hoth & m & s1 & Hw & Hs' & Hj); try done.
  exists i', s'. split; [done|]. split; [done|]. destruct (Hj i' (fw_ok _ _ _ _ _ _ _ Hw)) as [Hi' Hci]. split; [done|]. split; [done|].
  assert (Hlen : Z.of_nat (List.length buf) = len) by lia. split; [|split; [|split; [done|]]].
  - intros p Hpr. rewrite Hci, (fw_content _ _ _ _ _ _ _ Hw), Hlen by done. done.
  - rewrite (fw_size _ _ _ _ _ _ _ Hw), Hlen. done.
  - intros j Hfj Ha. destruct (fw_others _ _ _ _ _ _ _ Hw j Hfj Ha) as (_ & Hj1 & Hc1). destruct (Hj j Hj1) as [Hj2 Hc2].
    split; [done|]. intros p Hpr. by rewrite Hc2, Hc1.
Qed.

(** What was written is read back: writing a buffer that ends within the first 32 KiB
    of a regular file opened for reading and writing, seeking back and reading as many
    bytes returns the buffer. *)
Theorem write_seek_read s f buf buf' len :
  fs_inv s -> file_ok s (finode f) -> is_inode (inode_idx f) -> inode_of s (inode_idx f) = finode f ->
  mode f = 3 -> type (finode f) = 2 -> len / 4096 + 3 <= free_blocks s -> 0 <= file_ptr f -> 0 <= len -> file_ptr f + len <= 32768 ->
  List.length buf = Z.to_nat len -> List.length buf' = Z.to_nat len ->
  exists f1 s1 s2, write f buf len s = Ok ((f1, len), s1) /\
    read (fst (lseek f1 (file_ptr f) 0)) buf' len s1 = Ok ((f1, buf, len), s2) /\ quiet s1 s2.
Proof.
  intros Hs Hi Hino Hcur Hmode Htype Hfree Hp Hl Hmax Hbuf Hbuf'.
  destruct (write_spec s f buf len) as (r & s1 & E & i' & -> & Hc & Hoth & m & s0 & Hw & Hs1 & Hj); try done; [by rewrite Hmode|].
  destruct (Hj i' (fw_ok _ _ _ _ _ _ _ Hw)) as [Hi' Hci]. assert (Hlen : Z.of_nat (List.length buf) = len) by lia.
  set (f1 := MkFile (inode_idx f) (mode f) (file_ptr f + len) i').
  assert (Hseek : fst (lseek f1 (file_ptr f) 0) = MkFile (inode_idx f) (mode f) (file_ptr f) i') by (unfold lseek; cbn; by rewrite u32_small by lia).
  assert (W : wp (read (MkFile (inode_idx f) (mode f) (file_ptr f) i') buf' len) s1 (fun r s' => r = (f1, buf, len) /\ quiet s1 s')).
  { eapply wp_mono; [apply read_spec; cbn [finode file_ptr mode]; try done; [by rewrite Hmode| |]|].
    - intros Hpos. rewrite (fw_size _ _ _ _ _ _ _ Hw), Hlen. rewrite decide_True; [lia|]. split; [done|]. intros ->. cbn in Hlen. lia.
    - intros p Hpr. apply (fw_present _ _ _ _ _ _ _ Hw). lia.
    - intros r s2 (out & -> & Hq & Hlo & Hout). cbn [file_ptr finode] in Hout. split; [|done]. f_equal. f_equal.
      apply (nth_ext _ _ 0 0); [lia|]. intros k Hk. specialize (Hout (Z.of_nat k) ltac:(lia)). rewrite Nat2Z.id in Hout. rewrite Hout.
      rewrite Hci, (fw_content _ _ _ _ _ _ _ Hw) by lia. rewrite decide_True by lia. f_equal. lia. }
  destruct W as (r & s2 & E2 & -> & Hq). exists f1, s1, s2. rewrite Hseek. done.
Qed.
End Code.

(** * Witnesses *)

Section Witnesses.
Import RamCard OneFile.

(** The file "a" of the formatted card, opened for reading and writing at byte 100. *)
Definition opened : File := MkFile 1 3 100 touched.
Definition message : list Z := replicate 4100 7.

Lemma file_free : free_blocks file = 98304 - 518.
Proof. vm_compute. reflexivity. Qed.
Lemma file_inv : fs_inv file.
Proof. destruct file_created as [n N]. apply N. Qed.
Lemma file_one : inode_of file 1 = touched.
Proof. apply file_facts. Qed.

#[local] Opaque file.

Lemma file_write_refines_witness :
  exists i' s', write opened message 4100 file = Ok ((MkFile 1 3 (100 + 4100) i', 4100), s') /\
    fs_inv s' /\ file_ok s' i' /\ inode_of s' 1 = i' /\
    (forall p, 0 <= p < 32768 -> content s' i' p =
       if decide (100 <= p < 100 + 4100) then nth (Z.to_nat (p - 100)) message 0 else content file touched p) /\
    size i' = (if decide (type touched = 2 /\ message <> []) then Z.max (size touched) (100 + 4100) else size touched) /\
    (forall ino, is_inode ino -> ino <> 1 -> inode_of s' ino = inode_of file ino) /\
    (forall j, file_ok file j -> apart touched j -> file_ok s' j /\ forall p, 0 <= p < 32768 -> content s' j p = content file j p).
Proof.
  apply (file_write_refines file opened message 4100); cbn [opened finode inode_idx mode file_ptr].
  - exact file_inv.
  - apply touched_file_ok.
  - unfold is_inode. lia.
  - exact file_one.
  - discriminate.
  - rewrite file_free. vm_compute. discriminate.
  - lia.
  - lia.
  - lia.
  - reflexivity.
Defined.

Lemma write_seek_read_witness :
  exists f1 s1 s2, write opened message 4100 file = Ok ((f1, 4100), s1) /\
    read (fst (lseek f1 100 0)) (replicate 4100 0) 4100 s1 = Ok ((f1, message, 4100), s2) /\ quiet s1 s2.
Proof.
  apply (write_seek_read file opened message (replicate 4100 0) 4100); cbn [opened finode inode_idx mode file_ptr].
  - exact file_inv.
  - apply touched_file_ok.
  - unfold is_inode. lia.
  - exact file_one.
  - reflexivity.
  - reflexivity.
  - rewrite file_free. vm_compute. discriminate.
  - lia.
  - lia.
  - lia.
  - reflexivity.
  - reflexivity.
Defined.
End Witnesses.
