(* ===== verification/ListNode.v ===== *)
(** The nodes of std::list, from the namespace std::__detail of src/common.cpp:
    the kernel is linked without libstdc++ and brings its own hook, unhook,
    transfer, reverse and swap of circular doubly linked lists.  ready_queue and
    every other std::list of the kernel run on them.  Nodes live in a store
    shared by all lists; [ring h p l] says that the nodes [l] hang on the list
    object [p].  The theorems give each primitive its effect on rings, and say
    that no other node of the store changes. *)

From Stdlib Require Import ZArith Lia List.
From stdpp Require Import base numbers list gmap.
From S2P Require Import Prelude.
Local Open Scope Z_scope.

(** _List_node_base, and the store of all nodes by address *)
Record node := MkNode { _M_next : Z; _M_prev : Z }.
Abbreviation store := (gmap Z node).
Implicit Types h : gmap Z node.

Definition get_next h (p : Z) : outcome Z := n <- or_fault (h !! p) ;; Ok (_M_next n).
Definition get_prev h (p : Z) : outcome Z := n <- or_fault (h !! p) ;; Ok (_M_prev n).
Definition set_next h (p q : Z) : outcome store := n <- or_fault (h !! p) ;; Ok (<[p := MkNode q (_M_prev n)]> h).
Definition set_prev h (p q : Z) : outcome store := n <- or_fault (h !! p) ;; Ok (<[p := MkNode (_M_next n) q]> h).

(** void _M_hook(_List_node_base *const __position) *)
Definition _M_hook h (this position : Z) : outcome store :=
  h <- set_next h this position ;;
  v <- get_prev h position ;;
  h <- set_prev h this v ;;
  v <- get_prev h position ;;
  h <- set_next h v this ;;
  set_prev h position this.

(** void _M_unhook() *)
Definition _M_unhook h (this : Z) : outcome store :=
  next_node <- get_next h this ;;
  prev_node <- get_prev h this ;;
  h <- set_next h prev_node next_node ;;
  set_prev h next_node prev_node.

(** void _M_transfer(_List_node_base *const __first, _List_node_base *const __last) *)
Definition _M_transfer h (this first last : Z) : outcome store :=
  if this =? last then Ok h
  else
    v <- get_prev h last ;;
    h <- set_next h v this ;;
    v <- get_prev h first ;;
    h <- set_next h v last ;;
    v <- get_prev h this ;;
    h <- set_next h v first ;;
    tmp <- get_prev h this ;;
    v <- get_prev h last ;;
    h <- set_prev h this v ;;
    v <- get_prev h first ;;
    h <- set_prev h last v ;;
    set_prev h first tmp.

(** void _M_reverse(): one turn swaps the links of [tmp] and goes to what was its successor. *)
Fixpoint reverse_loop (fuel : nat) h (this tmp : Z) : outcome store :=
  match fuel with
  | O => OutOfFuel
  | S fuel =>
      n <- get_next h tmp ;;
      p <- get_prev h tmp ;;
      h <- set_next h tmp p ;;
      h <- set_prev h tmp n ;;
      tmp <- get_prev h tmp ;;
      if tmp =? this then Ok h else reverse_loop fuel h this tmp
  end.
Definition _M_reverse (fuel : nat) h (this : Z) : outcome store := reverse_loop fuel h this this.

(** static void swap(_List_node_base &__x, _List_node_base &__y) *)
Definition swap_nonempty h (x y : Z) : outcome store :=
  xn <- get_next h x ;; yn <- get_next h y ;;
  h <- set_next h x yn ;; h <- set_next h y xn ;;
  xp <- get_prev h x ;; yp <- get_prev h y ;;
  h <- set_prev h x yp ;; h <- set_prev h y xp ;;
  v <- get_prev h x ;; h <- set_next h v x ;;
  v <- get_next h x ;; h <- set_prev h v x ;;
  v <- get_prev h y ;; h <- set_next h v y ;;
  v <- get_next h y ;; set_prev h v y.
(** [swap_one h x y]: x is not empty, y is empty *)
Definition swap_one h (x y : Z) : outcome store :=
  xn <- get_next h x ;; h <- set_next h y xn ;;
  xp <- get_prev h x ;; h <- set_prev h y xp ;;
  v <- get_prev h y ;; h <- set_next h v y ;;
  v <- get_next h y ;; h <- set_prev h v y ;;
  h <- set_prev h x x ;; set_next h x x.
Definition swap h (x y : Z) : outcome store :=
  xn <- get_next h x ;;
  yn <- get_next h y ;;
  if negb (xn =? x) then
    if negb (yn =? y) then swap_nonempty h x y else swap_one h x y
  else if negb (yn =? y) then swap_one h y x
  else Ok h.

(** * Rings *)

(** The two fields of a node, and the links between neighbours. *)
Definition nx h a : option Z := _M_next <$> h !! a.
Definition pv h a : option Z := _M_prev <$> h !! a.
Definition link h (a b : Z) : Prop := nx h a = Some b /\ pv h b = Some a.
Fixpoint linked h (l : list Z) : Prop :=
  match l with
  | a :: ((b :: _) as l') => link h a b /\ linked h l'
  | _ => True
  end.

(** The list object [p] with the nodes [l]. *)
Definition ring h p (l : list Z) : Prop := NoDup (p :: l) /\ linked h (p :: l ++ [p]).

(** The store after some nodes were rewritten is the old one everywhere else. *)
Definition same_outside h h' (l : list Z) : Prop := forall a, a ∉ l -> h' !! a = h !! a.

(** * One write *)

Definition upd (f : Z -> option Z) (p v : Z) : Z -> option Z := fun a => if decide (a = p) then Some v else f a.

Lemma upd_same f p v : upd f p v p = Some v.
Proof. unfold upd. by rewrite decide_True. Qed.
Lemma upd_other f p v a : a <> p -> upd f p v a = f a.
Proof. intros. unfold upd. by rewrite decide_False. Qed.

(** A store is known by its two fields. *)
Lemma node_ext h h' a : nx h' a = nx h a -> pv h' a = pv h a -> h' !! a = h !! a.
Proof. unfold nx, pv. destruct (h' !! a) as [[]|], (h !! a) as [[]|]; simpl; congruence. Qed.

Lemma nx_present h a : is_Some (nx h a) <-> is_Some (h !! a).
Proof. apply fmap_is_Some. Qed.
Lemma pv_present h a : is_Some (pv h a) <-> is_Some (h !! a).
Proof. apply fmap_is_Some. Qed.

Lemma get_next_ok h p v : nx h p = Some v -> get_next h p = Ok v.
Proof. unfold nx, get_next. destruct (h !! p); simpl; congruence. Qed.
Lemma get_prev_ok h p v : pv h p = Some v -> get_prev h p = Ok v.
Proof. unfold pv, get_prev. destruct (h !! p); simpl; congruence. Qed.

Lemma set_next_ok h p q :
  is_Some (nx h p) ->
  exists h', set_next h p q = Ok h' /\ (forall a, nx h' a = upd (nx h) p q a) /\ (forall a, pv h' a = pv h a).
Proof.
  intros [n Hn]%nx_present. unfold set_next. rewrite Hn. simpl. eexists. split; [done|].
  split; intros a; unfold nx, pv, upd; rewrite lookup_insert; case_decide; subst; simplify_eq; rewrite ?Hn;
    repeat case_decide; try done.
Qed.

Lemma set_prev_ok h p q :
  is_Some (pv h p) ->
  exists h', set_prev h p q = Ok h' /\ (forall a, nx h' a = nx h a) /\ (forall a, pv h' a = upd (pv h) p q a).
Proof.
  intros [n Hn]%pv_present. unfold set_prev. rewrite Hn. simpl. eexists. split; [done|].
  split; intros a; unfold nx, pv, upd; rewrite lookup_insert; case_decide; subst; simplify_eq; rewrite ?Hn;
    repeat case_decide; try done.
Qed.

(** * Chains of links *)

Lemma linked_app h l x m : linked h (l ++ x :: m) <-> linked h (l ++ [x]) /\ linked h (x :: m).
Proof.
  induction l as [|a l IH]; [simpl; tauto|].
  destruct l as [|b l]; [simpl; destruct m; tauto|]. simpl in *. tauto.
Qed.

(** The links of a chain are read in the next fields of all nodes but the last
    and in the prev fields of all but the first. *)
Lemma linked_frame h h' l :
  (forall l' a, l = l' ++ [a] -> forall b, b ∈ l' -> nx h' b = nx h b) ->
  (forall b, b ∈ tail l -> pv h' b = pv h b) ->
  linked h l -> linked h' l.
Proof.
  induction l as [|a l IH]; [done|]. intros HN HP HL. destruct l as [|b l]; [done|].
  destruct HL as [[H1 H2] HL]. split.
  - split.
    + rewrite <- H1. destruct (exists_last (l := b :: l) ltac:(done)) as (m & z & E). rewrite E in HN.
      apply (HN (a :: m) z eq_refl). left.
    + rewrite <- H2. apply HP. simpl. left.
  - apply IH; [|intros; apply HP; simpl in *; by right|exact HL].
    intros l' z E c Hc. apply (HN (a :: l') z); [by rewrite E|by right].
Qed.

(** The same with the last node (or the only one) named. *)
Lemma linked_frame_last h h' l z :
  (forall b, b ∈ l -> nx h' b = nx h b) -> (forall b, b ∈ tail (l ++ [z]) -> pv h' b = pv h b) ->
  linked h (l ++ [z]) -> linked h' (l ++ [z]).
Proof. intros HN HP. apply linked_frame; [|done]. intros l' a E. apply app_inj_tail in E as [<- _]. exact HN. Qed.

Lemma linked_at h l a b m : linked h (l ++ a :: b :: m) -> link h a b.
Proof. intros (_ & H & _)%linked_app. exact H. Qed.

Lemma linked_join h l a b m :
  linked h (l ++ [a]) -> link h a b -> linked h (b :: m) -> linked h (l ++ a :: b :: m).
Proof. intros. apply linked_app. split; [done|]. by split. Qed.

(** The node before and the node behind a place of the ring. *)
Definition before (p : Z) (l : list Z) : Z := List.last l p.
Definition behind (p : Z) (l : list Z) : Z := hd p l.

Lemma before_split p l : exists m, p :: l = m ++ [before p l].
Proof.
  unfold before. destruct (exists_last (l := p :: l) ltac:(done)) as (m & z & E). exists m. rewrite E. do 2 f_equal.
  assert (List.last (p :: l) p = z) as <- by (rewrite E; apply List.last_last). by destruct l.
Qed.

Lemma behind_split p l : exists m, l ++ [p] = behind p l :: m /\ (l = [] -> m = []) /\ (l <> [] -> m = tail l ++ [p]).
Proof. destruct l as [|a l]; simpl; [by exists []|]. by exists (l ++ [p]). Qed.

(** What surrounds the nodes [k] of a ring. *)
Lemma ring_links h p l1 k l2 : ring h p (l1 ++ k ++ l2) -> linked h (before p l1 :: k ++ [behind p l2]).
Proof.
  intros [_ HL]. destruct (before_split p l1) as (m1 & E1). destruct (behind_split p l2) as (m2 & E2 & _).
  rewrite <- !app_assoc, E2, app_comm_cons, E1, <- app_assoc in HL. apply linked_app in HL as [_ HL].
  cbn [app] in HL. rewrite app_comm_cons in HL. by apply linked_app in HL as [HL _].
Qed.

(** Replacing them: the nodes that stay keep their links, but for the next field
    of the node before and the prev field of the node behind. *)
Lemma ring_replace h h' p l1 k l2 k' :
  ring h p (l1 ++ k ++ l2) -> NoDup (p :: l1 ++ k' ++ l2) -> linked h' (before p l1 :: k' ++ [behind p l2]) ->
  (forall b, b ∈ p :: l1 ++ l2 -> b <> before p l1 -> nx h' b = nx h b) ->
  (forall b, b ∈ p :: l1 ++ l2 -> b <> behind p l2 -> pv h' b = pv h b) ->
  ring h' p (l1 ++ k' ++ l2).
Proof.
  intros [_ HL] Hnd HK HN HP. split; [done|].
  destruct (before_split p l1) as (m1 & E1). destruct (behind_split p l2) as (m2 & E2 & Ee & Et).
  assert (Hin : forall b, b ∈ p :: l1 \/ b ∈ l2 ++ [p] -> b ∈ p :: l1 ++ l2) by (clear; set_solver).
  assert (Hnd2 : NoDup (p :: l1 ++ l2)).
  { rewrite (Permutation_app_comm k' l2), app_assoc, app_comm_cons in Hnd. by apply NoDup_app in Hnd as [? _]. }
  rewrite <- !app_assoc, E2, app_comm_cons, E1, <- app_assoc in HL |- *.
  apply linked_app in HL as [HL1 HL]. cbn [app] in HL. rewrite app_comm_cons in HL. apply linked_app in HL as [_ HL2].
  cbn [app]. apply linked_app. split; [|rewrite app_comm_cons; apply linked_app; split; [exact HK|]].
  - pose proof Hnd2 as H. rewrite app_comm_cons, E1 in H. apply NoDup_app in H as (H & H3 & _).
    apply NoDup_app in H as (_ & H & _). apply (linked_frame_last h); [| |done]; intros b Hb.
    + apply HN; [apply Hin; left; rewrite E1; apply elem_of_app; by left|]. intros ->. apply (H _ Hb). left.
    + rewrite <- E1 in Hb. simpl in Hb. apply HP; [apply Hin; left; by right|]. intros ->.
      assert (Hb2 : behind p l2 ∈ l2 ++ [p]) by (rewrite E2; left). apply elem_of_app in Hb2 as [Hb2|Hb2%list_elem_of_singleton].
      * apply NoDup_cons in Hnd2 as [_ Hnd2]. apply NoDup_app in Hnd2 as (_ & Hnd2 & _). by apply (Hnd2 _ Hb).
      * apply NoDup_cons in Hnd2 as [Hnd2 _]. apply Hnd2. apply elem_of_app. left. congruence.
  - rewrite <- E2 in HL2 |- *. apply (linked_frame_last h); [| |done]; intros b Hb.
    + apply HN; [apply Hin; right; apply elem_of_app; by left|]. intros ->.
      pose proof Hnd2 as H. rewrite app_comm_cons, E1 in H. apply NoDup_app in H as (_ & H & _).
      apply (H (before p l1)); [apply elem_of_app; right; left|done].
    + destruct l2 as [|y l2]; simpl in Hb; [by apply not_elem_of_nil in Hb|].
      apply HP; [apply Hin; right; simpl; by right|]. simpl. intros ->.
      apply NoDup_cons in Hnd2 as [Hp Hnd2]. apply NoDup_app in Hnd2 as (_ & _ & Hnd2%NoDup_cons).
      apply elem_of_app in Hb as [Hb|Hb%list_elem_of_singleton]; [by apply Hnd2|].
      apply Hp. apply elem_of_app. right. subst. left.
Qed.

Lemma before_in p l1 l2 : before p l1 ∈ p :: l1 ++ l2.
Proof. destruct (before_split p l1) as (m & E). rewrite app_comm_cons, E. apply elem_of_app. left. apply elem_of_app. right. left. Qed.
Lemma behind_in p l1 l2 : behind p l2 ∈ p :: l1 ++ l2.
Proof. destruct l2; simpl; [left|]. right. apply elem_of_app. right. left. Qed.
Lemma ring_middle (p : Z) l1 k l2 : NoDup (p :: l1 ++ k ++ l2) <-> NoDup k /\ (forall x, x ∈ k -> x ∉ p :: l1 ++ l2) /\ NoDup (p :: l1 ++ l2).
Proof. rewrite <- NoDup_app. by rewrite Permutation_app_swap_app, Permutation_middle. Qed.
Lemma ring_mem_middle (p b : Z) l1 k l2 : b ∈ p :: l1 ++ k ++ l2 <-> b ∈ k \/ b ∈ p :: l1 ++ l2.
Proof. set_solver. Qed.

(** A write to a field seen through the equations of the writes before it. *)
Ltac upd_tac := unfold upd in *; repeat match goal with
  | H : forall a, nx ?h a = _ |- context [nx ?h _] => rewrite H
  | H : forall a, pv ?h a = _ |- context [pv ?h _] => rewrite H
  end; repeat case_decide; subst; first [assumption | congruence | by eexists | by simplify_option_eq | done].
(** The next write or read of an operation. *)
Ltac write_next := match goal with |- context [set_next ?h ?p ?q] =>
  let h' := fresh "h" in let E := fresh "E" in let N := fresh "N" in let P := fresh "P" in
  destruct (set_next_ok h p q) as (h' & E & N & P); [upd_tac|rewrite E; cbn [obind]; clear E] end.
Ltac write_prev := match goal with |- context [set_prev ?h ?p ?q] =>
  let h' := fresh "h" in let E := fresh "E" in let N := fresh "N" in let P := fresh "P" in
  destruct (set_prev_ok h p q) as (h' & E & N & P); [upd_tac|rewrite E; cbn [obind]; clear E] end.
Ltac read_prev v := match goal with |- context [get_prev ?h ?p] => rewrite (get_prev_ok h p v) by upd_tac; cbn [obind] end.
Ltac read_next v := match goal with |- context [get_next ?h ?p] => rewrite (get_next_ok h p v) by upd_tac; cbn [obind] end.

(** ** Hooking and unhooking *)

(** _M_hook puts a new node into a list just before the given position, the
    end of the list included, and touches no node outside the list. *)
Theorem hook_inserts h p l1 l2 n :
  ring h p (l1 ++ l2) -> n ∉ p :: l1 ++ l2 -> is_Some (h !! n) ->
  exists h', _M_hook h n (behind p l2) = Ok h' /\ ring h' p (l1 ++ n :: l2) /\ same_outside h h' (n :: p :: l1 ++ l2).
Proof.
  intros R Hn Hh. destruct (ring_links h p l1 [] l2 R) as [[Hl1 Hl2] _].
  assert (Hnn : is_Some (nx h n)) by by apply nx_present. assert (Hnp : is_Some (pv h n)) by by apply pv_present.
  assert (n <> before p l1) by (intros ->; apply Hn, before_in). assert (n <> behind p l2) by (intros ->; apply Hn, behind_in).
  assert (Hq : forall b, b ∈ p :: l1 ++ l2 -> b <> n) by (intros b Hb ->; done). pose proof R as [Hnd _].
  unfold _M_hook. write_next. read_prev (before p l1). write_prev. read_prev (before p l1). write_next. write_prev.
  eexists. split; [done|]. split.
  - apply (ring_replace h _ p l1 [] l2 [n] R).
    + apply ring_middle. split; [apply NoDup_singleton|split; [set_solver|done]].
    + split; [|split]; [split; upd_tac..|done].
    + intros b Hb Hne. specialize (Hq b Hb). upd_tac.
    + intros b Hb Hne. specialize (Hq b Hb). upd_tac.
  - intros a Ha. assert (a <> n) by (intros ->; apply Ha; left).
    assert (a <> before p l1) by (intros ->; apply Ha; right; apply before_in).
    assert (a <> behind p l2) by (intros ->; apply Ha; right; apply behind_in). apply node_ext; upd_tac.
Qed.

(** _M_unhook takes a node out of its list; the order of the others stays. *)
Theorem unhook_removes h p l1 n l2 :
  ring h p (l1 ++ n :: l2) ->
  exists h', _M_unhook h n = Ok h' /\ ring h' p (l1 ++ l2) /\ same_outside h h' (p :: l1 ++ l2).
Proof.
  intros R. destruct (ring_links h p l1 [n] l2 R) as ([Hl1 Hl2] & [Hl3 Hl4] & _).
  pose proof R as [(_ & Hn & Hnd)%(ring_middle p l1 [n] l2) _].
  assert (n <> before p l1) by (intros E; apply (Hn n); [left|rewrite E; apply before_in]).
  assert (n <> behind p l2) by (intros E; apply (Hn n); [left|rewrite E; apply behind_in]).
  unfold _M_unhook. read_next (behind p l2). read_prev (before p l1). write_next. write_prev.
  eexists. split; [done|]. split.
  - apply (ring_replace h _ p l1 [n] l2 [] R).
    + exact Hnd.
    + split; [split; upd_tac|done].
    + intros b Hb Hne. upd_tac.
    + intros b Hb Hne. upd_tac.
  - intros a Ha. assert (a <> before p l1) by (intros ->; apply Ha, before_in).
    assert (a <> behind p l2) by (intros ->; apply Ha, behind_in). apply node_ext; upd_tac.
Qed.

(** ** Splicing *)

(** A nonempty chain between two nodes: its two outer links and the inner ones. *)
Lemma linked_ends h x k y :
  k <> [] -> linked h (x :: k ++ [y]) <-> link h x (hd x k) /\ linked h k /\ link h (List.last k x) y.
Proof.
  intros Hk. destruct (exists_last Hk) as (m & z & ->). rewrite List.last_last, <- app_assoc, app_comm_cons.
  cbn [app]. rewrite (linked_app h (x :: m) z [y]). assert (linked h [z; y] <-> link h z y) as -> by (simpl; tauto).
  assert (linked h ((x :: m) ++ [z]) <-> link h x (hd x (m ++ [z])) /\ linked h (m ++ [z])) as -> by (destruct m; reflexivity).
  tauto.
Qed.

(** The inner links of a chain without repetitions. *)
Lemma linked_inner h h' k x :
  NoDup k -> (forall b, b ∈ k -> b <> List.last k x -> nx h' b = nx h b) ->
  (forall b, b ∈ k -> b <> hd x k -> pv h' b = pv h b) -> linked h k -> linked h' k.
Proof.
  intros Hnd HN HP. apply linked_frame.
  - intros l' a -> b Hb. apply HN; [apply elem_of_app; by left|]. rewrite List.last_last. intros ->.
    apply NoDup_app in Hnd as (_ & Hnd & _). apply (Hnd _ Hb). left.
  - destruct k as [|a k]; [by intros b Hb%not_elem_of_nil|]. intros b Hb. apply HP; [by right|]. simpl. intros ->. by apply NoDup_cons in Hnd as [? _].
Qed.

Lemma last_in (k : list Z) x : k <> [] -> List.last k x ∈ k.
Proof. intros Hk. destruct (exists_last Hk) as (m & z & ->). rewrite List.last_last. apply elem_of_app. right. left. Qed.
Lemma hd_in (k : list Z) x : k <> [] -> hd x k ∈ k.
Proof. destruct k; [done|]. intros _. left. Qed.

(** C37: _M_transfer moves a nonempty stretch of nodes from one list into
    another, in order and before the given position; both lists stay well formed
    and no other node changes. *)
Theorem transfer_splices h p l1 l2 q m1 k m2 :
  ring h p (l1 ++ l2) -> ring h q (m1 ++ k ++ m2) -> k <> [] ->
  (forall b, b ∈ p :: l1 ++ l2 -> b ∉ q :: m1 ++ k ++ m2) ->
  exists h', _M_transfer h (behind p l2) (hd 0 k) (behind q m2) = Ok h' /\
    ring h' p (l1 ++ k ++ l2) /\ ring h' q (m1 ++ m2) /\
    same_outside h h' ((p :: l1 ++ l2) ++ (q :: m1 ++ k ++ m2)).
Proof.
  intros Rp Rq Hk Hd. destruct (ring_links h p l1 [] l2 Rp) as [[Hl1 Hl2] _].
  destruct (proj1 (linked_ends _ _ _ _ Hk) (ring_links h q m1 k m2 Rq)) as ([Hf1 Hf2] & Hin & [Hz1 Hz2]).
  pose proof Rq as [(Hkd & Hkq & Hq)%ring_middle _]. pose proof Rp as [Hp _].
  pose proof (before_in p l1 l2) as Ix. pose proof (behind_in p l1 l2) as Iy.
  pose proof (before_in q m1 m2) as Ju. pose proof (behind_in q m1 m2) as Jv.
  assert (Kf : hd 0 k ∈ k) by by apply hd_in. assert (Kz : List.last k 0 ∈ k) by by apply last_in.
  replace (hd (before q m1) k) with (hd 0 k) in * by by destruct k.
  replace (List.last k (before q m1)) with (List.last k 0) in * by (destruct (exists_last Hk) as (? & ? & ->); by rewrite !List.last_last).
  assert (Dpk : forall a b, a ∈ p :: l1 ++ l2 -> b ∈ k -> a <> b) by (intros a b Ha Hb ->; apply (Hd _ Ha); apply ring_mem_middle; by left).
  assert (Dpq : forall a b, a ∈ p :: l1 ++ l2 -> b ∈ q :: m1 ++ m2 -> a <> b) by (intros a b Ha Hb ->; apply (Hd _ Ha); apply ring_mem_middle; by right).
  assert (Dkq : forall a b, a ∈ k -> b ∈ q :: m1 ++ m2 -> a <> b) by (intros a b Ha Hb ->; by apply (Hkq _ Ha)).
  set (x := before p l1) in *. set (y := behind p l2) in *. set (u := before q m1) in *. set (v := behind q m2) in *.
  set (f := hd 0 k) in *. set (z := List.last k 0) in *.
  pose proof (Dpk x f Ix Kf). pose proof (Dpk x z Ix Kz). pose proof (Dpk y f Iy Kf). pose proof (Dpk y z Iy Kz).
  pose proof (Dpq x u Ix Ju). pose proof (Dpq x v Ix Jv). pose proof (Dpq y u Iy Ju). pose proof (Dpq y v Iy Jv).
  pose proof (Dkq f u Kf Ju). pose proof (Dkq f v Kf Jv). pose proof (Dkq z u Kz Ju). pose proof (Dkq z v Kz Jv).
  unfold _M_transfer. replace (y =? v) with false by (symmetry; by apply Z.eqb_neq).
  read_prev z. write_next. read_prev u. write_next. read_prev x. write_next. read_prev x. read_prev z.
  write_prev. read_prev u. write_prev. write_prev.
  eexists. split; [done|]. split; [|split].
  - apply (ring_replace h _ p l1 [] l2 k Rp).
    + apply ring_middle. split; [done|]. split; [|done]. intros b Hb Hb'. by apply (Dpk b b).
    + apply linked_ends; [done|]. replace (hd (before p l1) k) with f by by destruct k.
      replace (List.last k (before p l1)) with z by (subst z; destruct (exists_last Hk) as (? & ? & ->); by rewrite !List.last_last).
      fold x y. split; [split; upd_tac|]. split; [|split; upd_tac].
      apply (linked_inner h _ k 0 Hkd); [| |done]; intros b Hb Hne; fold z f in Hne;
        pose proof (Dpk x b Ix Hb); pose proof (Dpk y b Iy Hb); pose proof (Dkq b u Hb Ju); pose proof (Dkq b v Hb Jv); upd_tac.
    + intros b Hb Hne. fold x in Hne. pose proof (Dpk b z Hb Kz). pose proof (Dpq b u Hb Ju). upd_tac.
    + intros b Hb Hne. fold y in Hne. pose proof (Dpk b f Hb Kf). pose proof (Dpq b v Hb Jv). upd_tac.
  - apply (ring_replace h _ q m1 k m2 [] Rq).
    + exact Hq.
    + split; [|done]. fold u v. split; upd_tac.
    + intros b Hb Hne. fold u in Hne. pose proof (Dkq z b Kz Hb). pose proof (Dpq x b Ix Hb). upd_tac.
    + intros b Hb Hne. fold v in Hne. pose proof (Dkq f b Kf Hb). pose proof (Dpq y b Iy Hb). upd_tac.
  - intros a [Ha1 Ha2]%not_elem_of_app. rewrite ring_mem_middle in Ha2.
    assert (a <> x) by (by intros ->). assert (a <> y) by (by intros ->).
    assert (a <> u) by (intros ->; apply Ha2; by right). assert (a <> v) by (intros ->; apply Ha2; by right).
    assert (a <> f) by (intros ->; apply Ha2; by left). assert (a <> z) by (intros ->; apply Ha2; by left).
    apply node_ext; upd_tac.
Qed.

(** ** Reversing *)

Lemma linked_lookup h l : linked h l -> forall i a b, l !! i = Some a -> l !! S i = Some b -> link h a b.
Proof.
  induction l as [|x l IH]; [done|]. intros HL i a b Ha Hb. destruct l as [|y l]; [by destruct i|].
  destruct HL as [Hl HL], i as [|i]; simpl in *; [by simplify_eq|]. by apply (IH HL i).
Qed.

(** With the two fields of every node exchanged a chain runs backwards. *)
Lemma linked_rev h h' l :
  (forall a, a ∈ l -> nx h' a = pv h a /\ pv h' a = nx h a) -> linked h l -> linked h' (rev l).
Proof.
  induction l as [|a l IH]; [done|]. intros Hs HL. destruct l as [|b l]; [done|]. destruct HL as [[H1 H2] HL].
  cbn [rev]. rewrite <- app_assoc. cbn [app]. apply linked_app. split; [apply IH; [|done]; intros; apply Hs; by right|].
  destruct (Hs a) as [_ Ha]; [left|]. destruct (Hs b) as [Hb _]; [right; left|].
  split; [split|done]; congruence.
Qed.

(** The loop exchanges the fields of the nodes from [tmp] on, up to the list object. *)
Lemma reverse_loop_ok p r : forall fuel h t,
  (length (t :: r) <= fuel)%nat -> NoDup (t :: r) -> p ∉ r ->
  (forall i a b, (t :: r ++ [p]) !! i = Some a -> (t :: r ++ [p]) !! S i = Some b -> nx h a = Some b) ->
  exists h', reverse_loop fuel h p t = Ok h' /\
    (forall a, a ∈ t :: r -> nx h' a = pv h a /\ pv h' a = nx h a) /\ same_outside h h' (t :: r).
Proof.
  induction r as [|n r IH]; intros fuel h t Hf Hnd Hp Hc; (destruct fuel as [|fuel]; [simpl in Hf; lia|]); cbn [reverse_loop].
  all: pose proof (Hc 0%nat t _ eq_refl eq_refl) as Hn.
  all: assert (is_Some (pv h t)) as [v Hv] by (apply pv_present, nx_present; by eexists).
  all: rewrite (get_next_ok h t _ Hn), (get_prev_ok h t v Hv); cbn [obind]; write_next; write_prev.
  all: match type of Hn with _ = Some ?n => read_prev n end.
  - rewrite Z.eqb_refl. eexists. split; [done|]. split.
    + intros a ->%list_elem_of_singleton. split; upd_tac.
    + intros a Ha. assert (a <> t) by (intros ->; apply Ha; left). apply node_ext; upd_tac.
  - assert (n <> p) by (intros ->; apply Hp; left). replace (n =? p) with false by (symmetry; by apply Z.eqb_neq).
    apply NoDup_cons in Hnd as [Ht Hnd]. match goal with |- context [reverse_loop fuel ?h2 p n] => 
      destruct (IH fuel h2 n) as (h' & E & Hs & Hout) end.
    + simpl in *; lia.
    + done.
    + intros Hp'. apply Hp. by right.
    + intros i a b Ha Hb. pose proof (Hc (S i) a b Ha Hb). destruct (decide (a = t)) as [->|]; [|upd_tac].
      exfalso. change (((n :: r) ++ [p]) !! i = Some t) in Ha. apply lookup_app_Some in Ha as [Ha|[Hi Ha]].
      * apply Ht. by apply list_elem_of_lookup_2 in Ha.
      * apply lookup_lt_Some in Hb. simpl in Hb, Hi. rewrite length_app in Hb. simpl in Hb. lia.
    + eexists. split; [exact E|]. split.
      * intros a [->|Ha]%elem_of_cons; [|destruct (Hs a Ha) as [-> ->]; assert (a <> t) by congruence; split; upd_tac].
        pose proof (Hout t Ht) as Ho. split; [unfold nx at 1|unfold pv at 1]; rewrite Ho; fold (nx h1 t) (pv h1 t); upd_tac.
      * intros a [Ha1 Ha2]%not_elem_of_cons. rewrite (Hout a Ha2). apply node_ext; upd_tac.
Qed.

(** C38: _M_reverse stops after one turn for each node and the list object, and
    leaves the list reversed; the fuel is the number of turns. *)
Theorem reverse_reverses h p l :
  ring h p l ->
  exists h', _M_reverse (S (length l)) h p = Ok h' /\ ring h' p (rev l) /\ same_outside h h' (p :: l).
Proof.
  intros [Hnd HL]. destruct (reverse_loop_ok p l (S (length l)) h p) as (h' & E & Hs & Hout).
  - simpl. lia.
  - done.
  - by apply NoDup_cons in Hnd as [? _].
  - intros i a b Ha Hb. by apply (linked_lookup h _ HL i).
  - exists h'. split; [exact E|]. split; [|done]. split.
    + by rewrite <- Permutation_rev.
    + replace (p :: rev l ++ [p]) with (rev (p :: l ++ [p])) by (cbn [rev]; by rewrite rev_app_distr).
      apply (linked_rev h); [|done]. intros a Ha. apply Hs. set_solver.
Qed.

(** ** Exchanging two lists *)

(** The nodes of a list hung on another list object. *)
Lemma ring_rehead h h' p l q :
  ring h p l -> l <> [] -> q ∉ l -> link h' q (hd 0 l) -> link h' (List.last l 0) q ->
  (forall b, b ∈ l -> b <> List.last l 0 -> nx h' b = nx h b) -> (forall b, b ∈ l -> b <> hd 0 l -> pv h' b = pv h b) ->
  ring h' q l.
Proof.
  intros [[_ Hnd]%NoDup_cons HL] Hl Hq H1 H2 HN HP. apply linked_ends in HL as (_ & HL & _); [|done].
  split; [by apply NoDup_cons|]. apply linked_ends; [done|].
  replace (hd q l) with (hd 0 l) by by destruct l.
  replace (List.last l q) with (List.last l 0) by (destruct (exists_last Hl) as (? & ? & ->); by rewrite !List.last_last).
  split; [done|]. split; [|done]. by apply (linked_inner h _ l 0).
Qed.

Lemma ring_outer h p l :
  ring h p l -> l <> [] ->
  link h p (hd 0 l) /\ link h (List.last l 0) p /\ hd 0 l ∈ l /\ List.last l 0 ∈ l /\ p ∉ l.
Proof.
  intros [[Hp Hnd]%NoDup_cons HL] Hl. apply linked_ends in HL as (H1 & _ & H2); [|done].
  replace (hd p l) with (hd 0 l) in H1 by by destruct l.
  replace (List.last l p) with (List.last l 0) in H2 by (destruct (exists_last Hl) as (? & ? & ->); by rewrite !List.last_last).
  repeat split; [apply H1|apply H1|apply H2|apply H2|by apply hd_in|by apply last_in|done].
Qed.

Lemma ring_empty h p : ring h p [] <-> link h p p.
Proof. split; [by intros [_ [H _]]|]. intros H. split; [apply NoDup_singleton|]. by split. Qed.

Lemma swap_one_ok h x l y :
  ring h x l -> l <> [] -> ring h y [] -> y ∉ x :: l ->
  exists h', swap_one h x y = Ok h' /\ ring h' x [] /\ ring h' y l /\ same_outside h h' (y :: x :: l).
Proof.
  intros R Hl [Hy1 Hy2]%ring_empty [Hyx Hyl]%not_elem_of_cons.
  destruct (ring_outer h x l R Hl) as ([Ha1 Ha2] & [Hb1 Hb2] & Ia & Ib & Hx).
  set (a := hd 0 l) in *. set (b := List.last l 0) in *.
  assert (x <> a) by congruence. assert (x <> b) by congruence. assert (y <> a) by congruence. assert (y <> b) by congruence.
  unfold swap_one. read_next a. write_next. read_prev b. write_prev. read_prev b. write_next. read_next a. write_prev.
  write_prev. write_next. eexists. split; [done|]. split; [|split].
  - apply ring_empty. split; upd_tac.
  - apply (ring_rehead h _ x l y R Hl Hyl); [split; upd_tac..| |]; intros c Hc Hne; fold a b in Hne;
      assert (c <> x) by congruence; assert (c <> y) by congruence; upd_tac.
  - intros c [Hc [Hcx Hcl]%not_elem_of_cons]%not_elem_of_cons. assert (c <> a) by congruence. assert (c <> b) by congruence.
    apply node_ext; upd_tac.
Qed.

Lemma swap_nonempty_ok h x l y m :
  ring h x l -> l <> [] -> ring h y m -> m <> [] -> (forall b, b ∈ x :: l -> b ∉ y :: m) ->
  exists h', swap_nonempty h x y = Ok h' /\ ring h' x m /\ ring h' y l /\ same_outside h h' ((x :: l) ++ y :: m).
Proof.
  intros R Hl R' Hm Hd.
  destruct (ring_outer h x l R Hl) as ([Ha1 Ha2] & [Hb1 Hb2] & Ia & Ib & Hx).
  destruct (ring_outer h y m R' Hm) as ([Hc1 Hc2] & [Hd1 Hd2] & Ic & Id & Hy).
  assert (D : forall u v, u ∈ x :: l -> v ∈ y :: m -> u <> v) by (intros u v Hu Hv ->; by apply (Hd v)).
  set (a := hd 0 l) in *. set (b := List.last l 0) in *. set (c := hd 0 m) in *. set (d := List.last m 0) in *.
  assert (x <> y) by (apply D; left).
  assert (forall v, v ∈ m -> x <> v) by (intros; apply D; [left|by right]).
  assert (forall u, u ∈ l -> u <> y) by (intros; apply D; [by right|left]).
  assert (forall u v, u ∈ l -> v ∈ m -> u <> v) by (intros; apply D; by right).
  assert (x <> a) by congruence. assert (x <> b) by congruence. assert (y <> c) by congruence. assert (y <> d) by congruence.
  assert (x <> c) by auto. assert (x <> d) by auto. assert (a <> y) by auto. assert (b <> y) by auto.
  assert (a <> c) by auto. assert (a <> d) by auto. assert (b <> c) by auto. assert (b <> d) by auto.
  unfold swap_nonempty. read_next a. read_next c. write_next. write_next. read_prev b. read_prev d. write_prev. write_prev.
  read_prev d. write_next. read_next c. write_prev. read_prev b. write_next. read_next a. write_prev.
  eexists. split; [done|]. split; [|split].
  - apply (ring_rehead h _ y m x R' Hm); [intros Hin; by apply (H0 x)|split; upd_tac..| |]; intros v Hv Hne; fold c d in Hne;
      assert (v <> y) by congruence; assert (x <> v) by auto; assert (a <> v) by auto; assert (b <> v) by auto; upd_tac.
  - apply (ring_rehead h _ x l y R Hl); [intros Hin; by apply (H1 y)|split; upd_tac..| |]; intros v Hv Hne; fold a b in Hne;
      assert (v <> x) by congruence; assert (v <> y) by auto; assert (v <> c) by auto; assert (v <> d) by auto; upd_tac.
  - intros v [[Hvx Hvl]%not_elem_of_cons [Hvy Hvm]%not_elem_of_cons]%not_elem_of_app.
    assert (v <> a) by congruence. assert (v <> b) by congruence. assert (v <> c) by congruence. assert (v <> d) by congruence.
    apply node_ext; upd_tac.
Qed.

(** A list object whose next field names itself has no nodes. *)
Lemma ring_self h p l n : ring h p l -> nx h p = Some n -> n = p <-> l = [].
Proof.
  intros R Hn. destruct l as [|a l].
  - apply ring_empty in R as [H _]. split; congruence.
  - destruct (ring_outer h p (a :: l) R ltac:(done)) as ([H _] & _ & _ & _ & Hp). simpl in H.
    split; [|done]. intros ->. exfalso. apply Hp. simplify_eq. left.
Qed.

(** swap exchanges the contents of two lists, whichever of them is empty. *)
Theorem swap_exchanges h x l y m :
  ring h x l -> ring h y m -> (forall b, b ∈ x :: l -> b ∉ y :: m) ->
  exists h', swap h x y = Ok h' /\ ring h' x m /\ ring h' y l /\ same_outside h h' ((x :: l) ++ y :: m).
Proof.
  intros R R' Hd. destruct (ring_links h x [] [] l R) as [[Hx _] _]. destruct (ring_links h y [] [] m R') as [[Hy _] _].
  change (before x []) with x in *. change (before y []) with y in *.
  unfold swap. rewrite (get_next_ok _ _ _ Hx), (get_next_ok _ _ _ Hy). cbn [obind].
  pose proof (ring_self _ _ _ _ R Hx) as Ex. pose proof (ring_self _ _ _ _ R' Hy) as Ey.
  destruct (behind x l =? x) eqn:E1; [apply Z.eqb_eq, Ex in E1|apply Z.eqb_neq in E1; rewrite Ex in E1]; cbn [negb];
    (destruct (behind y m =? y) eqn:E2; [apply Z.eqb_eq, Ey in E2|apply Z.eqb_neq in E2; rewrite Ey in E2]); cbn [negb]; subst.
  - by eexists.
  - destruct (swap_one_ok h y m x R' E2 R) as (h' & -> & ? & ? & Ho); [apply Hd; left|].
    exists h'. by do 3 (split; [done|]).
  - destruct (swap_one_ok h x l y R E1 R') as (h' & -> & ? & ? & Ho); [intros Hb; apply (Hd y Hb); left|].
    exists h'. do 3 (split; [done|]). intros a Ha. apply Ho. clear -Ha. set_solver.
  - by apply swap_nonempty_ok.
Qed.

(** * A concrete store: the list objects 1 and 2 with the nodes 10, 20, 30 and
    40, 50, 60, and a loose node 70 *)
Definition demo : store := list_to_map
  [(1, MkNode 10 30); (10, MkNode 20 1); (20, MkNode 30 10); (30, MkNode 1 20);
   (2, MkNode 40 60); (40, MkNode 50 2); (50, MkNode 60 40); (60, MkNode 2 50); (70, MkNode 0 0)].

(** A ring of a concrete store, by computation. *)
Ltac demo_ring := split; [apply (bool_decide_unpack _); vm_compute; exact I|by repeat split].

Example demo_reversed : (h <- _M_reverse 4 demo 1 ;; n <- get_next h 1 ;; n' <- get_next h n ;; n'' <- get_next h n' ;; Ok [n; n'; n'']) = Ok [30; 20; 10].
Proof. reflexivity. Qed.

Lemma hook_inserts_witness :
  ring demo 1 ([10] ++ [20; 30]) /\
  exists h', _M_hook demo 70 20 = Ok h' /\ ring h' 1 [10; 70; 20; 30] /\ same_outside demo h' (70 :: 1 :: [10; 20; 30]).
Proof.
  assert (R : ring demo 1 ([10] ++ [20; 30])) by demo_ring.
  split; [exact R|]. apply (hook_inserts demo 1 [10] [20; 30] 70 R).
  - apply (bool_decide_unpack _). vm_compute. exact I.
  - by eexists.
Defined.

Lemma unhook_removes_witness :
  ring demo 1 ([10] ++ 20 :: [30]) /\ exists h', _M_unhook demo 20 = Ok h' /\ ring h' 1 [10; 30] /\ same_outside demo h' [1; 10; 30].
Proof.
  assert (R : ring demo 1 ([10] ++ 20 :: [30])) by demo_ring.
  split; [exact R|]. apply (unhook_removes demo 1 [10] 20 [30] R).
Defined.

Lemma transfer_splices_witness :
  ring demo 1 ([10; 20] ++ [30]) /\ ring demo 2 ([] ++ [40; 50] ++ [60]) /\
  exists h', _M_transfer demo 30 40 60 = Ok h' /\ ring h' 1 [10; 20; 40; 50; 30] /\ ring h' 2 [60] /\
    same_outside demo h' [1; 10; 20; 30; 2; 40; 50; 60].
Proof.
  assert (R : ring demo 1 ([10; 20] ++ [30])) by demo_ring.
  assert (R' : ring demo 2 ([] ++ [40; 50] ++ [60])) by demo_ring.
  split; [exact R|]. split; [exact R'|]. apply (transfer_splices demo 1 [10; 20] [30] 2 [] [40; 50] [60] R R').
  - done.
  - apply (Forall_forall (fun b => b ∉ [2; 40; 50; 60]) [1; 10; 20; 30]). apply (bool_decide_unpack _). vm_compute. exact I.
Defined.

Lemma reverse_reverses_witness :
  ring demo 1 [10; 20; 30] /\ exists h', _M_reverse 4 demo 1 = Ok h' /\ ring h' 1 [30; 20; 10] /\ same_outside demo h' [1; 10; 20; 30].
Proof.
  assert (R : ring demo 1 [10; 20; 30]) by demo_ring.
  split; [exact R|]. apply (reverse_reverses demo 1 [10; 20; 30] R).
Defined.

Lemma swap_exchanges_witness :
  ring demo 1 [10; 20; 30] /\ ring demo 2 [40; 50; 60] /\
  exists h', swap demo 1 2 = Ok h' /\ ring h' 1 [40; 50; 60] /\ ring h' 2 [10; 20; 30] /\ same_outside demo h' [1; 10; 20; 30; 2; 40; 50; 60].
Proof.
  assert (R : ring demo 1 [10; 20; 30]) by demo_ring.
  assert (R' : ring demo 2 [40; 50; 60]) by demo_ring.
  split; [exact R|]. split; [exact R'|]. apply (swap_exchanges demo 1 [10; 20; 30] 2 [40; 50; 60] R R').
  apply (Forall_forall (fun b => b ∉ [2; 40; 50; 60]) [1; 10; 20; 30]). apply (bool_decide_unpack _). vm_compute. exact I.
Defined.
