(* ===== verification/Kernel.v ===== *)
(** The shared state of the kernel: threads (src/thread.hpp), processes
    (src/process.hpp), CPUs (src/CPU.hpp), the queues of src/schedule.cpp, the
    synchronisation objects of src/locks.cpp, and what the hardware reports.

    A pointer is the address of its object; the objects that exist are those in
    the domain of the map of their class.  A function is translated as the CPU that
    calls it runs it; interrupts are off in the kernel, so on one CPU it runs to its
    next context switch.  The kernel has no lock around all of it: what other CPUs can
    do in the middle of do_scheduler and of mutex_lock::acquire is in the step
    relations of Smp.v and LocksTheorems.v.  [kres] is what a piece of kernel code ends
    in, a value or a switch to another thread together with the rest of the code, which
    runs when this thread is chosen again, possibly on another CPU. *)

From Stdlib Require Import ZArith Lia List.
From stdpp Require Import base numbers list gmap.
From S2P Require Import Prelude Trie Objects.

Local Open Scope Z_scope.

(** * Spin locks (src/spinlock.hpp) *)

(** flag.test_and_set() *)
Definition test_and_set (flag : bool) : bool * bool := (flag, true).

(** while (flag.test_and_set()) ; *)
Fixpoint spin (fuel : nat) (flag : bool) : outcome bool :=
  match fuel with
  | O => OutOfFuel
  | S fuel' =>
      let '(old, flag) := test_and_set flag in
      if old then spin fuel' flag else Ok flag
  end.

(** void lock(), when nobody clears the flag meanwhile: one round decides whether the
    loop ends ([spin_decides]).  On one CPU nobody does.  A CPU that finds the flag set
    by another waits: in the step relations it takes its step later, when the flag is
    clear and this is [Ok]. *)
Definition lock (flag : bool) : outcome bool := spin 1 flag.
(** bool try_lock() *)
Definition try_lock (flag : bool) : bool * bool := let '(old, flag) := test_and_set flag in (negb old, flag).
(** void unlock() *)
Definition unlock (flag : bool) : bool := false.

Lemma spin_decides fuel flag : spin (S fuel) flag = if flag then OutOfFuel else Ok true.
Proof. destruct flag; [|done]. induction fuel as [|fuel IH]; [done|]. exact IH. Qed.

Lemma lock_free : lock false = Ok true.
Proof. done. Qed.

(** * Threads, processes and CPUs *)

(** std::queue<Thread * > que of class WaitQueue *)
Abbreviation WaitQueue := (list Z).

(** class Thread *)
Record Thread := MkThread {
  regs : list Z;                   (* user_context.regs[31] *)
  sepc : Z;                        (* user_context.sepc *)
  kernel_stack_top : Z;
  thread_own_lock : bool;
  process : Z;
  tid : Z;
  trank : Z;
  wait_exited_queue : WaitQueue;
  running_cpu : option nat;
  status_block_cnt : Z;
  status_exited : bool;
  status_running : bool
}.

(** enum class Status *)
Inductive Status := BLOCKED | RUNNING | READY | EXITED.

(** Status status() const *)
Definition status (t : Thread) : Status :=
  if status_exited t then EXITED
  else if negb (status_block_cnt t =? 0) then BLOCKED
  else if status_running t then RUNNING
  else READY.

(** bool has_exited() const *)
Definition has_exited (t : Thread) : bool := status_exited t.

#[export] Instance Status_eq_dec : EqDecision Status.
Proof. solve_decision. Defined.

(** class Process; its registration trie is in [kernel_objects] below. *)
Record Process := MkProcess {
  process_own_lock : bool;
  pid : Z;
  pname : list Z;                  (* name *)
  pagedir : Z;                     (* address of the root page table *)
  parent : option Z;
  children : list Z;
  threads_of : list Z;             (* threads *)
  cpu_mask : Z;
  cursor_x : Z;
  cursor_y : Z;
  wait_kill_queue : WaitQueue;
  active_thread_cnt : Z;
  cwd_node_idx : Z;
  is_killed : bool
}.

(** class CPU *)
Record CPU := MkCPU { current_thread : Z; idle_thread : Z; cpu_id : nat; hartid : nat }.

(** * Synchronisation objects (src/locks.cpp) *)

Record mutex_lock := MkMutex { mx_lock : bool; owner : option Z; mx_queue : WaitQueue }.
Record barrier := MkBarrier { goal : Z; bcount : Z; bar_queue : WaitQueue; bar_lock : bool }.
Record condition := MkCondition { cond_queue : WaitQueue; cond_lock : bool }.
Record mailbox := MkMailbox { msg_queue : list Z; send_wait_queue : WaitQueue; recv_wait_queue : WaitQueue; mb_lock : bool }.

(** One IdPool: its objects with their counters, its trie and its table. *)
Record idpool := MkPool { pobjs : gmap Z IdObject; pkeymap : list (Item Z); ptable : list (option Z) }.

(** * The kernel *)

(** Effects outside the modelled state. *)
Inductive hw_event :=
| EnablePagedir (cpu : nat) (pid : Z) (root : Z)     (* pagedir.enable *)
| FlushCpu (cpu : nat) (pid : Z)                     (* pagedir.flushcpu *)
| SetTimer (stime : Z)                               (* bios_set_timer *)
| SendIpi (hartmask : Z)                             (* bios_send_ipi *)
| StoreWord (addr val : Z)                           (* a word of a kernel stack *)
| FreePagedir (root : Z).                            (* pagedir.free_user_private_mem *)

Record kernel := MkKernel {
  threads : gmap Z Thread;
  thread_table : list (option Z);
  thread_global_lock : bool;
  processes : gmap Z Process;
  process_table : list (option Z);
  process_global_lock : bool;
  process_to_release : list Z;
  cleanup_lock : bool;                     (* the static flag of idle_cleanup *)
  kernel_objects : list (list (Item Z));   (* Process::kernel_objects, by pid *)
  cpus : list CPU;
  ready_queue : list Z;
  ready_lock : bool;
  sleeping_queue : list (Z * Z);           (* the heap in the order of its pops *)
  sleep_lock : bool;
  mutexes : gmap Z mutex_lock;  mutex_pool : idpool;
  barriers : gmap Z barrier;    barrier_pool : idpool;
  conditions : gmap Z condition; condition_pool : idpool;
  mailboxes : gmap Z mailbox;   mailbox_pool : idpool;
  file_pool : idpool;                      (* the open files of src/fs/file.cpp, by identity *)
  rdtime : nat -> Z;                       (* what the n-th read of the time register returns *)
  reads : nat;
  time_base : Z;
  trace : list hw_event
}.

Implicit Types (s : kernel) (t : Z).

Definition set_threads s v : kernel := MkKernel v (thread_table s) (thread_global_lock s) (processes s) (process_table s) (process_global_lock s) (process_to_release s) (cleanup_lock s) (kernel_objects s) (cpus s) (ready_queue s) (ready_lock s) (sleeping_queue s) (sleep_lock s) (mutexes s) (mutex_pool s) (barriers s) (barrier_pool s) (conditions s) (condition_pool s) (mailboxes s) (mailbox_pool s) (file_pool s) (rdtime s) (reads s) (time_base s) (trace s).
Definition set_thread_table s v : kernel := MkKernel (threads s) v (thread_global_lock s) (processes s) (process_table s) (process_global_lock s) (process_to_release s) (cleanup_lock s) (kernel_objects s) (cpus s) (ready_queue s) (ready_lock s) (sleeping_queue s) (sleep_lock s) (mutexes s) (mutex_pool s) (barriers s) (barrier_pool s) (conditions s) (condition_pool s) (mailboxes s) (mailbox_pool s) (file_pool s) (rdtime s) (reads s) (time_base s) (trace s).
Definition set_thread_global_lock s v : kernel := MkKernel (threads s) (thread_table s) v (processes s) (process_table s) (process_global_lock s) (process_to_release s) (cleanup_lock s) (kernel_objects s) (cpus s) (ready_queue s) (ready_lock s) (sleeping_queue s) (sleep_lock s) (mutexes s) (mutex_pool s) (barriers s) (barrier_pool s) (conditions s) (condition_pool s) (mailboxes s) (mailbox_pool s) (file_pool s) (rdtime s) (reads s) (time_base s) (trace s).
Definition set_processes s v : kernel := MkKernel (threads s) (thread_table s) (thread_global_lock s) v (process_table s) (process_global_lock s) (process_to_release s) (cleanup_lock s) (kernel_objects s) (cpus s) (ready_queue s) (ready_lock s) (sleeping_queue s) (sleep_lock s) (mutexes s) (mutex_pool s) (barriers s) (barrier_pool s) (conditions s) (condition_pool s) (mailboxes s) (mailbox_pool s) (file_pool s) (rdtime s) (reads s) (time_base s) (trace s).
Definition set_process_table s v : kernel := MkKernel (threads s) (thread_table s) (thread_global_lock s) (processes s) v (process_global_lock s) (process_to_release s) (cleanup_lock s) (kernel_objects s) (cpus s) (ready_queue s) (ready_lock s) (sleeping_queue s) (sleep_lock s) (mutexes s) (mutex_pool s) (barriers s) (barrier_pool s) (conditions s) (condition_pool s) (mailboxes s) (mailbox_pool s) (file_pool s) (rdtime s) (reads s) (time_base s) (trace s).
Definition set_process_global_lock s v : kernel := MkKernel (threads s) (thread_table s) (thread_global_lock s) (processes s) (process_table s) v (process_to_release s) (cleanup_lock s) (kernel_objects s) (cpus s) (ready_queue s) (ready_lock s) (sleeping_queue s) (sleep_lock s) (mutexes s) (mutex_pool s) (barriers s) (barrier_pool s) (conditions s) (condition_pool s) (mailboxes s) (mailbox_pool s) (file_pool s) (rdtime s) (reads s) (time_base s) (trace s).
Definition set_process_to_release s v : kernel := MkKernel (threads s) (thread_table s) (thread_global_lock s) (processes s) (process_table s) (process_global_lock s) v (cleanup_lock s) (kernel_objects s) (cpus s) (ready_queue s) (ready_lock s) (sleeping_queue s) (sleep_lock s) (mutexes s) (mutex_pool s) (barriers s) (barrier_pool s) (conditions s) (condition_pool s) (mailboxes s) (mailbox_pool s) (file_pool s) (rdtime s) (reads s) (time_base s) (trace s).
Definition set_cleanup_lock s v : kernel := MkKernel (threads s) (thread_table s) (thread_global_lock s) (processes s) (process_table s) (process_global_lock s) (process_to_release s) v (kernel_objects s) (cpus s) (ready_queue s) (ready_lock s) (sleeping_queue s) (sleep_lock s) (mutexes s) (mutex_pool s) (barriers s) (barrier_pool s) (conditions s) (condition_pool s) (mailboxes s) (mailbox_pool s) (file_pool s) (rdtime s) (reads s) (time_base s) (trace s).
Definition set_kernel_objects s v : kernel := MkKernel (threads s) (thread_table s) (thread_global_lock s) (processes s) (process_table s) (process_global_lock s) (process_to_release s) (cleanup_lock s) v (cpus s) (ready_queue s) (ready_lock s) (sleeping_queue s) (sleep_lock s) (mutexes s) (mutex_pool s) (barriers s) (barrier_pool s) (conditions s) (condition_pool s) (mailboxes s) (mailbox_pool s) (file_pool s) (rdtime s) (reads s) (time_base s) (trace s).
Definition set_cpus s v : kernel := MkKernel (threads s) (thread_table s) (thread_global_lock s) (processes s) (process_table s) (process_global_lock s) (process_to_release s) (cleanup_lock s) (kernel_objects s) v (ready_queue s) (ready_lock s) (sleeping_queue s) (sleep_lock s) (mutexes s) (mutex_pool s) (barriers s) (barrier_pool s) (conditions s) (condition_pool s) (mailboxes s) (mailbox_pool s) (file_pool s) (rdtime s) (reads s) (time_base s) (trace s).
Definition set_ready_queue s v : kernel := MkKernel (threads s) (thread_table s) (thread_global_lock s) (processes s) (process_table s) (process_global_lock s) (process_to_release s) (cleanup_lock s) (kernel_objects s) (cpus s) v (ready_lock s) (sleeping_queue s) (sleep_lock s) (mutexes s) (mutex_pool s) (barriers s) (barrier_pool s) (conditions s) (condition_pool s) (mailboxes s) (mailbox_pool s) (file_pool s) (rdtime s) (reads s) (time_base s) (trace s).
Definition set_ready_lock s v : kernel := MkKernel (threads s) (thread_table s) (thread_global_lock s) (processes s) (process_table s) (process_global_lock s) (process_to_release s) (cleanup_lock s) (kernel_objects s) (cpus s) (ready_queue s) v (sleeping_queue s) (sleep_lock s) (mutexes s) (mutex_pool s) (barriers s) (barrier_pool s) (conditions s) (condition_pool s) (mailboxes s) (mailbox_pool s) (file_pool s) (rdtime s) (reads s) (time_base s) (trace s).
Definition set_sleeping_queue s v : kernel := MkKernel (threads s) (thread_table s) (thread_global_lock s) (processes s) (process_table s) (process_global_lock s) (process_to_release s) (cleanup_lock s) (kernel_objects s) (cpus s) (ready_queue s) (ready_lock s) v (sleep_lock s) (mutexes s) (mutex_pool s) (barriers s) (barrier_pool s) (conditions s) (condition_pool s) (mailboxes s) (mailbox_pool s) (file_pool s) (rdtime s) (reads s) (time_base s) (trace s).
Definition set_sleep_lock s v : kernel := MkKernel (threads s) (thread_table s) (thread_global_lock s) (processes s) (process_table s) (process_global_lock s) (process_to_release s) (cleanup_lock s) (kernel_objects s) (cpus s) (ready_queue s) (ready_lock s) (sleeping_queue s) v (mutexes s) (mutex_pool s) (barriers s) (barrier_pool s) (conditions s) (condition_pool s) (mailboxes s) (mailbox_pool s) (file_pool s) (rdtime s) (reads s) (time_base s) (trace s).
Definition set_mutexes s v : kernel := MkKernel (threads s) (thread_table s) (thread_global_lock s) (processes s) (process_table s) (process_global_lock s) (process_to_release s) (cleanup_lock s) (kernel_objects s) (cpus s) (ready_queue s) (ready_lock s) (sleeping_queue s) (sleep_lock s) v (mutex_pool s) (barriers s) (barrier_pool s) (conditions s) (condition_pool s) (mailboxes s) (mailbox_pool s) (file_pool s) (rdtime s) (reads s) (time_base s) (trace s).
Definition set_mutex_pool s v : kernel := MkKernel (threads s) (thread_table s) (thread_global_lock s) (processes s) (process_table s) (process_global_lock s) (process_to_release s) (cleanup_lock s) (kernel_objects s) (cpus s) (ready_queue s) (ready_lock s) (sleeping_queue s) (sleep_lock s) (mutexes s) v (barriers s) (barrier_pool s) (conditions s) (condition_pool s) (mailboxes s) (mailbox_pool s) (file_pool s) (rdtime s) (reads s) (time_base s) (trace s).
Definition set_barriers s v : kernel := MkKernel (threads s) (thread_table s) (thread_global_lock s) (processes s) (process_table s) (process_global_lock s) (process_to_release s) (cleanup_lock s) (kernel_objects s) (cpus s) (ready_queue s) (ready_lock s) (sleeping_queue s) (sleep_lock s) (mutexes s) (mutex_pool s) v (barrier_pool s) (conditions s) (condition_pool s) (mailboxes s) (mailbox_pool s) (file_pool s) (rdtime s) (reads s) (time_base s) (trace s).
Definition set_barrier_pool s v : kernel := MkKernel (threads s) (thread_table s) (thread_global_lock s) (processes s) (process_table s) (process_global_lock s) (process_to_release s) (cleanup_lock s) (kernel_objects s) (cpus s) (ready_queue s) (ready_lock s) (sleeping_queue s) (sleep_lock s) (mutexes s) (mutex_pool s) (barriers s) v (conditions s) (condition_pool s) (mailboxes s) (mailbox_pool s) (file_pool s) (rdtime s) (reads s) (time_base s) (trace s).
Definition set_conditions s v : kernel := MkKernel (threads s) (thread_table s) (thread_global_lock s) (processes s) (process_table s) (process_global_lock s) (process_to_release s) (cleanup_lock s) (kernel_objects s) (cpus s) (ready_queue s) (ready_lock s) (sleeping_queue s) (sleep_lock s) (mutexes s) (mutex_pool s) (barriers s) (barrier_pool s) v (condition_pool s) (mailboxes s) (mailbox_pool s) (file_pool s) (rdtime s) (reads s) (time_base s) (trace s).
Definition set_condition_pool s v : kernel := MkKernel (threads s) (thread_table s) (thread_global_lock s) (processes s) (process_table s) (process_global_lock s) (process_to_release s) (cleanup_lock s) (kernel_objects s) (cpus s) (ready_queue s) (ready_lock s) (sleeping_queue s) (sleep_lock s) (mutexes s) (mutex_pool s) (barriers s) (barrier_pool s) (conditions s) v (mailboxes s) (mailbox_pool s) (file_pool s) (rdtime s) (reads s) (time_base s) (trace s).
Definition set_mailboxes s v : kernel := MkKernel (threads s) (thread_table s) (thread_global_lock s) (processes s) (process_table s) (process_global_lock s) (process_to_release s) (cleanup_lock s) (kernel_objects s) (cpus s) (ready_queue s) (ready_lock s) (sleeping_queue s) (sleep_lock s) (mutexes s) (mutex_pool s) (barriers s) (barrier_pool s) (conditions s) (condition_pool s) v (mailbox_pool s) (file_pool s) (rdtime s) (reads s) (time_base s) (trace s).
Definition set_mailbox_pool s v : kernel := MkKernel (threads s) (thread_table s) (thread_global_lock s) (processes s) (process_table s) (process_global_lock s) (process_to_release s) (cleanup_lock s) (kernel_objects s) (cpus s) (ready_queue s) (ready_lock s) (sleeping_queue s) (sleep_lock s) (mutexes s) (mutex_pool s) (barriers s) (barrier_pool s) (conditions s) (condition_pool s) (mailboxes s) v (file_pool s) (rdtime s) (reads s) (time_base s) (trace s).
Definition set_file_pool s v : kernel := MkKernel (threads s) (thread_table s) (thread_global_lock s) (processes s) (process_table s) (process_global_lock s) (process_to_release s) (cleanup_lock s) (kernel_objects s) (cpus s) (ready_queue s) (ready_lock s) (sleeping_queue s) (sleep_lock s) (mutexes s) (mutex_pool s) (barriers s) (barrier_pool s) (conditions s) (condition_pool s) (mailboxes s) (mailbox_pool s) v (rdtime s) (reads s) (time_base s) (trace s).
Definition set_reads s v : kernel := MkKernel (threads s) (thread_table s) (thread_global_lock s) (processes s) (process_table s) (process_global_lock s) (process_to_release s) (cleanup_lock s) (kernel_objects s) (cpus s) (ready_queue s) (ready_lock s) (sleeping_queue s) (sleep_lock s) (mutexes s) (mutex_pool s) (barriers s) (barrier_pool s) (conditions s) (condition_pool s) (mailboxes s) (mailbox_pool s) (file_pool s) (rdtime s) v (time_base s) (trace s).
Definition set_trace s v : kernel := MkKernel (threads s) (thread_table s) (thread_global_lock s) (processes s) (process_table s) (process_global_lock s) (process_to_release s) (cleanup_lock s) (kernel_objects s) (cpus s) (ready_queue s) (ready_lock s) (sleeping_queue s) (sleep_lock s) (mutexes s) (mutex_pool s) (barriers s) (barrier_pool s) (conditions s) (condition_pool s) (mailboxes s) (mailbox_pool s) (file_pool s) (rdtime s) (reads s) (time_base s) v.

(** Stores through a Thread * and a Process *. *)
Definition upd_thread s t (f : Thread -> Thread) : outcome kernel :=
  T <- or_fault (threads s !! t) ;; Ok (set_threads s (<[t := f T]> (threads s))).
Definition upd_process s p (f : Process -> Process) : outcome kernel :=
  P <- or_fault (processes s !! p) ;; Ok (set_processes s (<[p := f P]> (processes s))).

Lemma upd_thread_run s t f T : threads s !! t = Some T -> upd_thread s t f = Ok (set_threads s (<[t := f T]> (threads s))).
Proof. intros E. unfold upd_thread. by rewrite E. Qed.
Lemma upd_process_run s p f P : processes s !! p = Some P -> upd_process s p f = Ok (set_processes s (<[p := f P]> (processes s))).
Proof. intros E. unfold upd_process. by rewrite E. Qed.

Definition emit s (e : hw_event) : kernel := set_trace s (trace s ++ [e]).
Definition with_block_cnt v (T : Thread) : Thread := MkThread (regs T) (sepc T) (kernel_stack_top T) (thread_own_lock T) (process T) (tid T) (trank T) (wait_exited_queue T) (running_cpu T) v (status_exited T) (status_running T).
Definition with_exited v (T : Thread) : Thread := MkThread (regs T) (sepc T) (kernel_stack_top T) (thread_own_lock T) (process T) (tid T) (trank T) (wait_exited_queue T) (running_cpu T) (status_block_cnt T) v (status_running T).
Definition with_running v (T : Thread) : Thread := MkThread (regs T) (sepc T) (kernel_stack_top T) (thread_own_lock T) (process T) (tid T) (trank T) (wait_exited_queue T) (running_cpu T) (status_block_cnt T) (status_exited T) v.
Definition with_running_cpu v (T : Thread) : Thread := MkThread (regs T) (sepc T) (kernel_stack_top T) (thread_own_lock T) (process T) (tid T) (trank T) (wait_exited_queue T) v (status_block_cnt T) (status_exited T) (status_running T).
Definition with_wait_exited_queue v (T : Thread) : Thread := MkThread (regs T) (sepc T) (kernel_stack_top T) (thread_own_lock T) (process T) (tid T) (trank T) v (running_cpu T) (status_block_cnt T) (status_exited T) (status_running T).
Definition with_thread_own_lock v (T : Thread) : Thread := MkThread (regs T) (sepc T) (kernel_stack_top T) v (process T) (tid T) (trank T) (wait_exited_queue T) (running_cpu T) (status_block_cnt T) (status_exited T) (status_running T).
Definition with_regs v (T : Thread) : Thread := MkThread v (sepc T) (kernel_stack_top T) (thread_own_lock T) (process T) (tid T) (trank T) (wait_exited_queue T) (running_cpu T) (status_block_cnt T) (status_exited T) (status_running T).
Definition with_sepc v (T : Thread) : Thread := MkThread (regs T) v (kernel_stack_top T) (thread_own_lock T) (process T) (tid T) (trank T) (wait_exited_queue T) (running_cpu T) (status_block_cnt T) (status_exited T) (status_running T).
Definition with_kernel_stack_top v (T : Thread) : Thread := MkThread (regs T) (sepc T) v (thread_own_lock T) (process T) (tid T) (trank T) (wait_exited_queue T) (running_cpu T) (status_block_cnt T) (status_exited T) (status_running T).
Definition with_process_own_lock v (P : Process) : Process := MkProcess v (pid P) (pname P) (pagedir P) (parent P) (children P) (threads_of P) (cpu_mask P) (cursor_x P) (cursor_y P) (wait_kill_queue P) (active_thread_cnt P) (cwd_node_idx P) (is_killed P).
Definition with_parent v (P : Process) : Process := MkProcess (process_own_lock P) (pid P) (pname P) (pagedir P) v (children P) (threads_of P) (cpu_mask P) (cursor_x P) (cursor_y P) (wait_kill_queue P) (active_thread_cnt P) (cwd_node_idx P) (is_killed P).
Definition with_children v (P : Process) : Process := MkProcess (process_own_lock P) (pid P) (pname P) (pagedir P) (parent P) v (threads_of P) (cpu_mask P) (cursor_x P) (cursor_y P) (wait_kill_queue P) (active_thread_cnt P) (cwd_node_idx P) (is_killed P).
Definition with_threads_of v (P : Process) : Process := MkProcess (process_own_lock P) (pid P) (pname P) (pagedir P) (parent P) (children P) v (cpu_mask P) (cursor_x P) (cursor_y P) (wait_kill_queue P) (active_thread_cnt P) (cwd_node_idx P) (is_killed P).
Definition with_cpu_mask v (P : Process) : Process := MkProcess (process_own_lock P) (pid P) (pname P) (pagedir P) (parent P) (children P) (threads_of P) v (cursor_x P) (cursor_y P) (wait_kill_queue P) (active_thread_cnt P) (cwd_node_idx P) (is_killed P).
Definition with_cursor_x v (P : Process) : Process := MkProcess (process_own_lock P) (pid P) (pname P) (pagedir P) (parent P) (children P) (threads_of P) (cpu_mask P) v (cursor_y P) (wait_kill_queue P) (active_thread_cnt P) (cwd_node_idx P) (is_killed P).
Definition with_cursor_y v (P : Process) : Process := MkProcess (process_own_lock P) (pid P) (pname P) (pagedir P) (parent P) (children P) (threads_of P) (cpu_mask P) (cursor_x P) v (wait_kill_queue P) (active_thread_cnt P) (cwd_node_idx P) (is_killed P).
Definition with_wait_kill_queue v (P : Process) : Process := MkProcess (process_own_lock P) (pid P) (pname P) (pagedir P) (parent P) (children P) (threads_of P) (cpu_mask P) (cursor_x P) (cursor_y P) v (active_thread_cnt P) (cwd_node_idx P) (is_killed P).
Definition with_active_thread_cnt v (P : Process) : Process := MkProcess (process_own_lock P) (pid P) (pname P) (pagedir P) (parent P) (children P) (threads_of P) (cpu_mask P) (cursor_x P) (cursor_y P) (wait_kill_queue P) v (cwd_node_idx P) (is_killed P).
Definition with_cwd_node_idx v (P : Process) : Process := MkProcess (process_own_lock P) (pid P) (pname P) (pagedir P) (parent P) (children P) (threads_of P) (cpu_mask P) (cursor_x P) (cursor_y P) (wait_kill_queue P) (active_thread_cnt P) v (is_killed P).
Definition with_is_killed v (P : Process) : Process := MkProcess (process_own_lock P) (pid P) (pname P) (pagedir P) (parent P) (children P) (threads_of P) (cpu_mask P) (cursor_x P) (cursor_y P) (wait_kill_queue P) (active_thread_cnt P) (cwd_node_idx P) v.

(** current_cpu->current_thread and the process it belongs to *)
Definition current s (c : nat) : outcome Z := C <- or_fault (cpus s !! c) ;; Ok (current_thread C).
Definition current_process s (c : nat) : outcome Z :=
  t <- current s c ;; T <- or_fault (threads s !! t) ;; Ok (process T).

(** * Control flow across a context switch *)

Inductive kres (A : Type) : Type :=
| Done (a : A) (s : kernel)
| Switched (s : kernel) (k : nat -> kernel -> outcome (kres A)).
Arguments Done {A}. Arguments Switched {A}.

(** Code [f] after code that may switch away. *)
Fixpoint kbind {A B} (r : kres A) (c : nat) (f : A -> nat -> kernel -> outcome (kres B)) : outcome (kres B) :=
  match r with
  | Done a s => f a c s
  | Switched s k =>
      Ok (Switched s (fun c' s' =>
        match k c' s' with
        | Ok r' => kbind r' c' f
        | Panic => Panic
        | Fault => Fault
        | OutOfFuel => OutOfFuel
        end))
  end.

(** Code that switched and whose rest is [f]. *)
Definition suspended {A} (r : outcome (kres A)) (s : kernel) (f : nat -> kernel -> outcome (kres A)) : Prop :=
  exists k, r = Ok (Switched s k) /\ forall c' s', k c' s' = f c' s'.
