(* ===== verification/Sched.v ===== *)
(** The scheduler: src/schedule.cpp, Thread::wakeup and Thread::block of
    src/thread.cpp and thread.hpp, WaitQueue of src/container.cpp, the clock of
    src/time.cpp.

    do_scheduler takes the CPU it runs on; its result is always [Switched]: the
    rest of its caller runs when the thread that called it is chosen again. *)

From Stdlib Require Import ZArith Lia List.
From stdpp Require Import base numbers list gmap.
From S2P Require Import Prelude Trie Objects Kernel.

Local Open Scope Z_scope.

Implicit Types (s : kernel) (t : Z).

(** * The clock *)

(** uint64_t get_ticks(): reads the time register. *)
Definition get_ticks s : Z * kernel := (rdtime s (reads s), set_reads s (S (reads s))).

(** uint64_t get_timer(): the divisor is what the device tree gave. *)
Definition get_timer s : outcome (Z * kernel) :=
  let '(ticks, s) := get_ticks s in
  if time_base s =? 0 then Fault else Ok (ticks / time_base s, s).

(** * Ready queue *)

(** void add_ready_thread_without_lock(Thread *thread) *)
Definition add_ready_thread_without_lock s t : kernel := set_ready_queue s (ready_queue s ++ [t]).

(** void add_ready_thread(Thread *thread) *)
Definition add_ready_thread s t : outcome kernel :=
  b <- lock (ready_lock s) ;;
  let s := set_ready_lock s b in
  let s := add_ready_thread_without_lock s t in
  Ok (set_ready_lock s (unlock (ready_lock s))).

(** * Blocking and waking *)

(** void block() *)
Definition block s t : outcome kernel :=
  upd_thread s t (fun T => with_block_cnt (i32 (status_block_cnt T + 1)) T).

(** void Thread::wakeup() *)
Definition wakeup s t : outcome kernel :=
  s <- upd_thread s t (fun T => with_block_cnt (i32 (status_block_cnt T - 1)) T) ;;
  T <- or_fault (threads s !! t) ;;
  if status_block_cnt T =? 0 then
    if negb (status_exited T) then add_ready_thread s t else Ok s
  else Ok s.

(** void push(Thread *t) *)
Definition push (q : WaitQueue) t : WaitQueue := q ++ [t].

(** Thread *WaitQueue::wakeup_one() *)
Definition wakeup_one (q : WaitQueue) s : outcome (option Z * WaitQueue * kernel) :=
  match q with
  | [] => Ok (None, q, s)
  | t :: q => s <- wakeup s t ;; Ok (Some t, q, s)
  end.

(** void WaitQueue::wakeup_all(): the queue is empty afterwards. *)
Fixpoint wakeup_all (q : WaitQueue) s : outcome kernel :=
  match q with
  | [] => Ok s
  | t :: q => s <- wakeup s t ;; wakeup_all q s
  end.

(** * Sleeping *)

(** std::greater on std::pair: the wake-up time, then the address *)
Definition item_ltb (x y : Z * Z) : bool := (x.1 <? y.1) || ((x.1 =? y.1) && (x.2 <? y.2)).

(** sleeping_queue.push, on the heap in the order of its pops *)
Fixpoint heap_push (x : Z * Z) (q : list (Z * Z)) : list (Z * Z) :=
  match q with
  | [] => [x]
  | y :: q' => if item_ltb x y then x :: q else y :: heap_push x q'
  end.

Fixpoint wake_sleepers (fuel : nat) (current_time : Z) s : outcome kernel :=
  match sleeping_queue s with
  | [] => Ok s
  | (w, t) :: q =>
      if w <? current_time then
        match fuel with
        | O => OutOfFuel
        | S fuel =>
            s <- wakeup (set_sleeping_queue s q) t ;;
            wake_sleepers fuel current_time s
        end
      else Ok s
  end.

(** void check_sleeping() *)
Definition check_sleeping s : outcome kernel :=
  b <- lock (sleep_lock s) ;;
  let s := set_sleep_lock s b in
  '(current_time, s) <- get_timer s ;;
  s <- wake_sleepers (length (sleeping_queue s)) current_time s ;;
  Ok (set_sleep_lock s (unlock (sleep_lock s))).

(** * The scheduler *)

(** The test of a process's cpu_mask against bit current_cpu->cpu_id *)
Definition allowed s (cpu : nat) t : outcome bool :=
  T <- or_fault (threads s !! t) ;;
  P <- or_fault (processes s !! process T) ;;
  Ok (negb (Z.land (cpu_mask P) (Z.shiftl 1 (Z.of_nat cpu)) =? 0)).

(** The loop over ready_queue.  An iterator is a position, [length q] is end().
    After an erase the code continues with the increment of the for statement,
    which passes over the next entry; libstdc++'s list is circular (src/common.cpp
    holds its hooks), so the increment of end() is begin(). *)
Definition next_it (q : list Z) (i : nat) : nat := if (i =? length q)%nat then 0%nat else S i.

Fixpoint scan (fuel : nat) s (cpu : nat) (q : list Z) (i : nat) : outcome (option Z * list Z) :=
  match fuel with
  | O => OutOfFuel
  | S fuel =>
      if (i =? length q)%nat then Ok (None, q)
      else
        t <- or_fault (q !! i) ;;
        T <- or_fault (threads s !! t) ;;
        if decide (status T = READY) then
          ok <- allowed s cpu t ;;
          if ok then Ok (Some t, delete i q) else scan fuel s cpu q (next_it q i)
        else
          let q := delete i q in scan fuel s cpu q (next_it q i)
  end.

(** Iterations the loop can need on a queue of [n] entries ([scan_total]). *)
Definition scan_fuel (n : nat) : nat := S (n * (n + 2) + n).

(** if (next_thread == nullptr) { ... }: choosing the next thread *)
Definition choose_next s (c : nat) : outcome (Z * kernel) :=
  s <- check_sleeping s ;;
  b <- lock (ready_lock s) ;;
  let s := set_ready_lock s b in
  C <- or_fault (cpus s !! c) ;;
  T <- or_fault (threads s !! current_thread C) ;;
  let s :=
    if decide (status T = READY) then
      if negb (current_thread C =? idle_thread C) then add_ready_thread_without_lock s (current_thread C) else s
    else s in
  '(r, q) <- scan (scan_fuel (length (ready_queue s))) s (cpu_id C) (ready_queue s) 0 ;;
  let s := set_ready_queue s q in
  let next_thread := match r with Some t => t | None => idle_thread C end in
  Ok (next_thread, set_ready_lock s (unlock (ready_lock s))).

(** From "current_cpu->current_thread = next_thread" to switch_context_entry *)
Definition switch_to s (c : nat) (from_thread next_thread : Z) : outcome kernel :=
  C <- or_fault (cpus s !! c) ;;
  let s := set_cpus s (<[c := MkCPU next_thread (idle_thread C) (cpu_id C) (hartid C)]> (cpus s)) in
  s <- upd_thread s from_thread (with_running_cpu None) ;;
  s <- upd_thread s next_thread (with_running_cpu (Some c)) ;;
  s <- upd_thread s from_thread (with_running false) ;;
  s <- upd_thread s next_thread (with_running true) ;;
  F <- or_fault (threads s !! from_thread) ;;
  N <- or_fault (threads s !! next_thread) ;;
  P <- or_fault (processes s !! process N) ;;
  Ok (if negb (process F =? process N) then emit s (EnablePagedir (cpu_id C) (pid P) (pagedir P))
      else emit s (FlushCpu (cpu_id C) (pid P))).

(** void do_scheduler(Thread *next_thread) up to ready_lock.unlock(): the thread that
    leaves and the one that comes.  From here to the switch the code holds no lock;
    what another CPU may do meanwhile is in Smp.v. *)
Definition pick_next (next_thread : option Z) (c : nat) s : outcome (Z * Z * kernel) :=
  from_thread <- current s c ;;
  s <- upd_thread s from_thread (with_running false) ;;
  '(next_thread, s) <- match next_thread with Some n => Ok (n, s) | None => choose_next s c end ;;
  Ok (from_thread, next_thread, s).

(** void do_scheduler(Thread *next_thread), up to the context switch, as one CPU
    runs it *)
Definition schedule (next_thread : option Z) (c : nat) s : outcome kernel :=
  '(from_thread, next_thread, s) <- pick_next next_thread c s ;;
  switch_to s c from_thread next_thread.

(** What follows the switch when it is this thread's turn again: nothing. *)
Definition resume {A} (a : A) : nat -> kernel -> outcome (kres A) := fun _ s => Ok (Done a s).

(** void do_scheduler(Thread *next_thread = nullptr) *)
Definition do_scheduler (c : nat) s : outcome (kres unit) :=
  s <- schedule None c s ;; Ok (Switched s (resume tt)).

(** The two do_block: [enqueue] stores into the wait queue it is given, [release]
    is lock.unlock() (nothing in the variant without a lock). *)
Definition block_current (enqueue : Z -> kernel -> outcome kernel) (release : kernel -> outcome kernel) (c : nat) s : outcome kernel :=
  t <- current s c ;;
  s <- enqueue t s ;;
  s <- block s t ;;
  release s.
Definition do_block (enqueue : Z -> kernel -> outcome kernel) (release : kernel -> outcome kernel) (c : nat) s : outcome (kres unit) :=
  s <- block_current enqueue release c s ;;
  do_scheduler c s.

(** void Syscall::yield(void) *)
Definition yield (c : nat) s : outcome (kres unit) := do_scheduler c s.

(** void Syscall::sleep(uint32_t time) *)
Definition sleep_current (time : Z) (c : nat) s : outcome kernel :=
  '(now, s) <- get_timer s ;;
  let wakeup_time := u64 (now + time) in
  b <- lock (sleep_lock s) ;;
  let s := set_sleep_lock s b in
  t <- current s c ;;
  let s := set_sleeping_queue s (heap_push (wakeup_time, t) (sleeping_queue s)) in
  let s := set_sleep_lock s (unlock (sleep_lock s)) in
  block s t.
Definition sleep (time : Z) (c : nat) s : outcome (kres unit) :=
  s <- sleep_current time c s ;;
  do_scheduler c s.

Definition TIMER_INTERVAL : Z := 150000.

(** void handle_irq_timer() *)
Definition next_tick s : kernel :=
  let '(ticks, s) := get_ticks s in
  emit s (SetTimer (u64 (ticks + TIMER_INTERVAL))).
Definition handle_irq_timer (c : nat) s : outcome (kres unit) := do_scheduler c (next_tick s).

(** * Lemmas: the clock *)

Lemma get_timer_run s : time_base s <> 0 -> get_timer s = Ok (rdtime s (reads s) / time_base s, set_reads s (S (reads s))).
Proof.
  intros E. unfold get_timer, get_ticks. change (time_base (set_reads s _)) with (time_base s).
  by rewrite (proj2 (Z.eqb_neq _ _) E).
Qed.

(** * Lemmas: the scan *)

Section Scan.
Context (s : kernel) (cpu : nat).

Definition statusof t (st : Status) : Prop := exists T, threads s !! t = Some T /\ status T = st.
Definition known t : Prop := exists T P, threads s !! t = Some T /\ processes s !! process T = Some P.

Lemma known_allowed t : known t -> exists b, allowed s cpu t = Ok b.
Proof. intros (T & P & HT & HP). unfold allowed. rewrite HT. simpl. rewrite HP. simpl. eauto. Qed.

(** Each round takes an entry out or moves on, so the loop ends. *)
Lemma scan_total fuel : forall q i,
  Forall known q -> (i <= length q)%nat -> (length q * (length q + 2) + (length q - i) < fuel)%nat ->
  exists r q', scan fuel s cpu q i = Ok (r, q') /\ q' `sublist_of` q /\
    (forall t, t ∈ q -> statusof t READY -> r <> Some t -> t ∈ q') /\
    (forall t, r = Some t -> t ∈ q /\ statusof t READY /\ allowed s cpu t = Ok true).
Proof.
  induction fuel as [|fuel IH]; intros q i Hq Hi Hf; [lia|]. cbn [scan].
  destruct (Nat.eqb_spec i (length q)) as [->|Hne].
  { exists None, q. split_and!; [done|done|auto|done]. }
  destruct (lookup_lt_is_Some_2 q i ltac:(lia)) as [t Ht]. rewrite Ht. cbn [or_fault obind].
  assert (Hk : known t) by (rewrite Forall_lookup in Hq; eauto).
  destruct (known_allowed t Hk) as [b Hb]. destruct Hk as (T & P & HT & HP). rewrite HT. cbn [or_fault obind].
  pose proof (length_delete q i ltac:(eauto)) as Hdel.
  destruct (decide (status T = READY)) as [Hst|Hst].
  - rewrite Hb. cbn [obind]. destruct b.
    + exists (Some t), (delete i q). split_and!; [done|apply sublist_delete| |].
      * intros u Hu _ Hne'. eapply delete_keeps; [done|done|congruence].
      * intros u [= <-]. split; [by eapply list_elem_of_lookup_2|]. split; [by exists T|done].
    + unfold next_it. destruct (Nat.eqb_spec i (length q)); [lia|]. apply IH; [done|lia|lia].
  - assert (Hq' : Forall known (delete i q)) by (by apply Forall_delete).
    destruct (IH (delete i q) (next_it (delete i q) i)) as (r & q' & E & Hsub & Hkeep & Hr).
    + done.
    + unfold next_it. destruct (Nat.eqb_spec i (length (delete i q))); lia.
    + unfold next_it. rewrite Hdel. destruct (Nat.eqb_spec i (length q - 1)); nia.
    + exists r, q'. split; [done|]. split; [by etrans; [|apply sublist_delete]|]. split.
      * intros u Hu Hru Hne'. apply Hkeep; [|done|done]. eapply delete_keeps; [done|done|].
        intros ->. destruct Hru as (T' & HT' & Hs'). congruence.
      * intros u Hu. destruct (Hr u Hu) as (Hin & ? & ?). split; [|done]. by eapply delete_from.
Qed.

(** The first entry is taken when it is ready and allowed. *)
Lemma scan_head fuel t q : statusof t READY -> allowed s cpu t = Ok true -> scan (S fuel) s cpu (t :: q) 0 = Ok (Some t, q).
Proof.
  intros (T & HT & Hst) Ha. cbn [scan length]. change ((t :: q) !! 0%nat) with (Some t).
  cbn [Nat.eqb or_fault obind]. rewrite HT. cbn [or_fault obind]. rewrite decide_True by done. rewrite Ha. done.
Qed.

(** An entry that is not ready makes the loop pass over the one behind it. *)
Lemma scan_stale fuel x t X : threads s !! x = Some X -> status X <> READY ->
  scan (S (S fuel)) s cpu [x; t] 0 = Ok (None, [t]).
Proof.
  intros HX Hst. cbn [scan length Nat.eqb]. change ([x; t] !! 0%nat) with (Some x). cbn [or_fault obind].
  rewrite HX. cbn [or_fault obind]. by rewrite decide_False.
Qed.

End Scan.
