(* ===== verification/SchedProps.v ===== *)
(** What the scheduler keeps true of threads, CPUs and queues.

    [sched_inv off s]: every CPU runs one thread, which is marked as running
    there and nowhere else; every thread that could run is on the ready queue.
    While do_scheduler works on a CPU, [off] is that CPU, whose current thread
    is not marked as running, and the one thread that may be off the queue. *)

From Stdlib Require Import ZArith Lia List.
From stdpp Require Import base numbers list gmap.
From S2P Require Import Prelude Trie Objects Kernel Sched.

Local Open Scope Z_scope.

Implicit Types (s : kernel) (t : Z).

Definition idle s t : Prop := exists c C, cpus s !! c = Some C /\ idle_thread C = t.

Record sched_inv (off : option (nat * Z)) s : Prop := {
  ok_ready_lock : ready_lock s = false;
  ok_clock : time_base s <> 0;
  ok_process : forall t T, threads s !! t = Some T -> is_Some (processes s !! process T);
  ok_cpu : forall c C, cpus s !! c = Some C -> cpu_id C = c /\
    exists T, threads s !! current_thread C = Some T /\ running_cpu T = Some c /\
      status_running T = negb (bool_decide (fst <$> off = Some c));
  ok_idle : forall c C, cpus s !! c = Some C ->
    (exists I, threads s !! idle_thread C = Some I /\ status_exited I = false /\ status_block_cnt I = 0) /\
    (forall c' C', cpus s !! c' = Some C' -> idle_thread C = current_thread C' \/ idle_thread C = idle_thread C' -> c = c');
  ok_running : forall t T, threads s !! t = Some T -> status_running T = true ->
    exists c C, running_cpu T = Some c /\ cpus s !! c = Some C /\ current_thread C = t;
  ok_queue : forall t, t ∈ ready_queue s -> is_Some (threads s !! t) /\ ~ idle s t;
  ok_sleepers : forall w t, (w, t) ∈ sleeping_queue s -> is_Some (threads s !! t) /\ ~ idle s t;
  ok_ready : forall t T, threads s !! t = Some T -> status T = READY -> ~ idle s t ->
    snd <$> off <> Some t -> t ∈ ready_queue s
}.
(** Between two operations no CPU looks for a successor and the locks are free. *)
Definition sched_ok s : Prop := sched_inv None s /\ sleep_lock s = false.

(** Everything the scheduler leaves alone. *)
Definition rest s : kernel :=
  set_threads (set_ready_queue (set_sleeping_queue (set_cpus (set_reads (set_trace s []) 0) []) []) []) ∅.

(** Writing back the flag of a free lock. *)
Lemma relock_ready s : ready_lock s = false -> set_ready_lock (rest s) false = rest s.
Proof. destruct s. cbn. by intros ->. Qed.
Lemma relock_sleep s : sleep_lock s = false -> set_sleep_lock (rest s) false = rest s.
Proof. destruct s. cbn. by intros ->. Qed.

(** What waking the threads [us] may change: block counters of these threads, and
    the end of the ready queue. *)
Record woke (us : list Z) s s' : Prop := {
  woke_rest : rest s' = rest s;
  woke_cpus : cpus s' = cpus s;
  woke_queue : exists w, ready_queue s' = ready_queue s ++ w /\ w ⊆ us;
  woke_threads : forall u U, threads s !! u = Some U -> exists n, threads s' !! u = Some (with_block_cnt n U);
  woke_other : forall u, u ∉ us -> threads s' !! u = threads s !! u
}.

Lemma woke_refl us s : woke us s s.
Proof.
  split; [done|done|exists []; rewrite app_nil_r; split; [done|by intros ? ?%elem_of_nil]| |done].
  intros u U HU. exists (status_block_cnt U). rewrite HU. by destruct U.
Qed.

Lemma woke_trans us vs s1 s2 s3 : woke us s1 s2 -> woke vs s2 s3 -> woke (us ++ vs) s1 s3.
Proof.
  intros [A1 A2 (w1 & A3 & A6) A4 A5] [B1 B2 (w2 & B3 & B6) B4 B5]. split; try congruence.
  - exists (w1 ++ w2). split; [by rewrite B3, A3, app_assoc|].
    intros u. rewrite !elem_of_app. intros [Hu|Hu]; auto.
  - intros u U HU. destruct (A4 u U HU) as [n Hn]. destruct (B4 _ _ Hn) as [k Hk]. by exists k.
  - intros u Hu. rewrite B5, A5; [done|..]; intros ?; apply Hu, elem_of_app; auto.
Qed.

(** * Waking *)

Lemma wakeup_run s t T :
  ready_lock s = false -> threads s !! t = Some T ->
  let T' := with_block_cnt (i32 (status_block_cnt T - 1)) T in
  exists s', wakeup s t = Ok s' /\ threads s' = <[t := T']> (threads s) /\
    ready_queue s' = ready_queue s ++ (if (status_block_cnt T' =? 0) && negb (status_exited T) then [t] else []) /\
    ready_lock s' = false /\ sleeping_queue s' = sleeping_queue s /\
    cpus s' = cpus s /\ reads s' = reads s /\ trace s' = trace s /\ rest s' = rest s.
Proof.
  intros Hl HT T'. unfold wakeup, upd_thread. rewrite HT. cbn [or_fault obind set_threads threads].
  rewrite lookup_insert_eq. cbn [or_fault obind]. fold T'. change (status_exited T') with (status_exited T).
  destruct (status_block_cnt T' =? 0), (status_exited T); cbn [negb andb];
    [eexists; split; [reflexivity|]; rewrite app_nil_r; by split_and!
    | unfold add_ready_thread; cbn [ready_lock set_threads]; rewrite Hl; eexists; split; [reflexivity|]; split_and!; [done..|exact (relock_ready s Hl)]
    |eexists; split; [reflexivity|]; rewrite app_nil_r; by split_and!..].
Qed.

Lemma rest_processes s s' : rest s' = rest s -> processes s' = processes s.
Proof. intros E. exact (f_equal processes E). Qed.
Lemma rest_time_base s s' : rest s' = rest s -> time_base s' = time_base s.
Proof. intros E. exact (f_equal time_base E). Qed.

Lemma wakeup_woke s t T :
  ready_lock s = false -> threads s !! t = Some T ->
  exists s', wakeup s t = Ok s' /\ woke [t] s s' /\ sleeping_queue s' = sleeping_queue s.
Proof.
  intros Hl HT. destruct (wakeup_run s t T Hl HT) as (s' & E & Hth & Hrq & _ & Hsq & Hcpu & _ & _ & Hrest).
  exists s'. split_and!; [done| |done]. split; [done|done| | |].
  - eexists. split; [done|]. intros u Hu. by destruct (_ && _); [|apply elem_of_nil in Hu].
  - intros u U HU. rewrite Hth. destruct (decide (u = t)) as [->|].
    + rewrite lookup_insert_eq. replace U with T by congruence. by eexists.
    + rewrite lookup_insert_ne by done. exists (status_block_cnt U). rewrite HU. by destruct U.
  - intros u Hu. rewrite Hth. apply lookup_insert_ne. intros <-. by apply Hu, list_elem_of_singleton.
Qed.

Lemma wakeup_ok off s t :
  sched_inv off s -> is_Some (threads s !! t) -> ~ idle s t ->
  exists s', wakeup s t = Ok s' /\ sched_inv off s' /\ woke [t] s s' /\ sleeping_queue s' = sleeping_queue s.
Proof.
  intros Hok [T HT] Hid. pose proof (ok_ready_lock _ _ Hok) as Hrl0.
  destruct (wakeup_run s t T Hrl0 HT) as (s' & E & Hth & Hrq & Hrl & Hsq & Hcpu & _ & _ & Hrest).
  destruct (wakeup_woke s t T Hrl0 HT) as (s1 & E1 & Hwoke & _). replace s1 with s' in * by congruence. clear s1 E1.
  set (T' := with_block_cnt (i32 (status_block_cnt T - 1)) T) in *.
  assert (Hlk : forall u U', threads s' !! u = Some U' -> (u = t /\ U' = T') \/ (u <> t /\ threads s !! u = Some U')).
  { intros u U' Hu. rewrite Hth in Hu. apply lookup_insert_Some in Hu as [[<- <-]|[? ?]]; auto. }
  assert (Hlive : forall u, is_Some (threads s !! u) -> is_Some (threads s' !! u)).
  { intros u [U HU]. destruct (woke_threads _ _ _ Hwoke _ _ HU) as [n Hn]. eauto. }
  assert (Hidl : forall u, idle s' u <-> idle s u) by (unfold idle; by rewrite Hcpu).
  exists s'. split_and!; [done| |done|done]. pose proof Hok as [H1 H3 H4 H5 H6 H7 H8 H9 H10].
  split; rewrite ?Hcpu, ?Hsq, ?(rest_time_base _ _ Hrest), ?(rest_processes _ _ Hrest); try done.
  - intros u U' Hu. apply Hlk in Hu as [[-> ->]|[? ?]]; [exact (H4 t T HT)|eauto].
  - intros c C HC. destruct (H5 c C HC) as (? & U & HU & Hr & Hrun). split; [done|].
    destruct (woke_threads _ _ _ Hwoke _ _ HU) as [n Hn]. exists (with_block_cnt n U). auto.
  - intros c C HC. destruct (H6 c C HC) as ((I & HI & He & Hc) & ?). split; [|done].
    exists I. split; [|done]. rewrite Hth, lookup_insert_ne; [done|]. intros Et. apply Hid. by exists c, C.
  - intros u U' Hu Hr. apply Hlk in Hu as [[-> ->]|[? ?]]; [exact (H7 t T HT Hr)|eauto].
  - intros u Hu. rewrite Hidl. rewrite Hrq in Hu. apply elem_of_app in Hu as [Hu|Hu].
    + destruct (H8 u Hu) as [? ?]. auto.
    + destruct ((status_block_cnt T' =? 0) && negb (status_exited T)); [|by apply elem_of_nil in Hu].
      apply list_elem_of_singleton in Hu as ->. eauto.
  - intros w u Hu. rewrite Hidl. destruct (H9 w u Hu) as [? ?]. auto.
  - intros u U' Hu Hst Hni Hoff. rewrite Hidl in Hni. rewrite Hrq. apply elem_of_app.
    apply Hlk in Hu as [[-> ->]|[? ?]]; [right|left; eauto].
    unfold status in Hst. change (status_exited T') with (status_exited T) in Hst.
    destruct (status_exited T); [done|]. destruct (status_block_cnt T' =? 0); [|done]. by apply list_elem_of_singleton.
Qed.

Lemma wakeup_all_ok off q : forall s,
  sched_inv off s -> (forall t, t ∈ q -> is_Some (threads s !! t) /\ ~ idle s t) ->
  exists s', wakeup_all q s = Ok s' /\ sched_inv off s' /\ woke q s s' /\ sleeping_queue s' = sleeping_queue s.
Proof.
  induction q as [|t q IH]; intros s Hok Hq; cbn [wakeup_all].
  { exists s. split_and!; [done|done|apply woke_refl|done]. }
  destruct (Hq t) as [Hl Hni]; [by left|].
  destruct (wakeup_ok off s t Hok Hl Hni) as (s1 & -> & Hok1 & W1 & Hsq1). cbn [obind].
  destruct (IH s1 Hok1) as (s2 & -> & Hok2 & W2 & Hsq2).
  { intros u Hu. destruct (Hq u) as [[U HU] Hn]; [by right|]. unfold idle. rewrite (woke_cpus _ _ _ W1). split; [|done].
    destruct (woke_threads _ _ _ W1 _ _ HU) as [n ?]. eauto. }
  exists s2. split_and!; [done|done|exact (woke_trans _ _ _ _ _ W1 W2)|congruence].
Qed.

(** * Waking sleepers *)

Lemma drop_sleeper off s x q : sched_inv off s -> sleeping_queue s = x :: q -> sched_inv off (set_sleeping_queue s q).
Proof.
  intros [H1 H3 H4 H5 H6 H7 H8 H9 H10] Hx. split; try done.
  intros w t Ht. apply (H9 w t). rewrite Hx. by right.
Qed.

(** The sleepers whose time has come, from the front of the heap. *)
Fixpoint due (now : Z) (q : list (Z * Z)) : nat :=
  match q with
  | (w, _) :: q' => if w <? now then S (due now q') else 0
  | [] => 0
  end.

Lemma wake_sleepers_ok off now : forall fuel s,
  sched_inv off s -> (length (sleeping_queue s) <= fuel)%nat ->
  exists s', wake_sleepers fuel now s = Ok s' /\ sched_inv off s' /\
    woke (take (due now (sleeping_queue s)) (sleeping_queue s)).*2 s s' /\
    sleeping_queue s' = drop (due now (sleeping_queue s)) (sleeping_queue s).
Proof.
  intros fuel. induction fuel as [|fuel IH]; intros s Hok Hf; cbn [wake_sleepers];
    destruct (sleeping_queue s) as [|[w t] q] eqn:Hsq; cbn [length due] in *; try lia;
    try (exists s; split_and!; [done|done|apply woke_refl|done]).
  destruct (w <? now); [|exists s; split_and!; [done|done|apply woke_refl|done]].
  pose proof (ok_sleepers _ _ Hok w t ltac:(rewrite Hsq; by left)) as [Hl Hni].
  destruct (wakeup_ok off (set_sleeping_queue s q) t (drop_sleeper _ _ _ _ Hok Hsq) Hl Hni) as (s1 & -> & Hok1 & W1 & Hsq1).
  cbn [obind]. cbn [set_sleeping_queue sleeping_queue] in Hsq1.
  destruct (IH s1 Hok1) as (s2 & -> & Hok2 & W2 & Hsq2); [rewrite Hsq1; lia|]. rewrite Hsq1 in W2, Hsq2.
  exists s2. split_and!; [done|done| |done]. cbn [take fmap list_fmap snd].
  assert (W0 : woke [t] s s1) by (destruct W1; split; done).
  exact (woke_trans _ _ _ _ _ W0 W2).
Qed.

Lemma check_sleeping_ok off s :
  sched_inv off s -> sleep_lock s = false ->
  let now := rdtime s (reads s) / time_base s in
  exists s', check_sleeping s = Ok s' /\ sched_inv off s' /\ sleep_lock s' = false /\
    woke (take (due now (sleeping_queue s)) (sleeping_queue s)).*2 s s' /\
    sleeping_queue s' = drop (due now (sleeping_queue s)) (sleeping_queue s).
Proof.
  intros Hok Hsl now. unfold check_sleeping. rewrite Hsl, lock_free. cbn [obind].
  unfold get_timer, get_ticks. cbn [time_base rdtime reads set_sleep_lock set_reads].
  rewrite (proj2 (Z.eqb_neq _ _) (ok_clock _ _ Hok)). cbn [obind].
  set (s0 := set_reads _ _). change (sleeping_queue s0) with (sleeping_queue s).
  assert (Hok0 : sched_inv off s0) by (destruct Hok; by split).
  destruct (wake_sleepers_ok off now _ s0 Hok0 (le_n _)) as (s1 & E & Hok1 & W1 & Hsq1).
  change (sleeping_queue s0) with (sleeping_queue s) in *. fold now. rewrite E. cbn [obind].
  exists (set_sleep_lock s1 (unlock (sleep_lock s1))). split; [done|]. split; [by destruct Hok1; split|].
  split; [done|]. split; [|done]. destruct W1 as [W1 W2 W3 W4 W5]. split; try done.
  change (rest (set_sleep_lock s1 _)) with (set_sleep_lock (rest s1) false). rewrite W1.
  exact (relock_sleep s Hsl).
Qed.

(** * Choosing and switching *)

Section Switching.
Context (c : nat) (C : CPU).

(** status_running of the old thread is cleared. *)
Lemma stop_ok s T :
  sched_inv None s -> cpus s !! c = Some C -> threads s !! current_thread C = Some T ->
  sched_inv (Some (c, current_thread C)) (set_threads s (<[current_thread C := with_running false T]> (threads s))).
Proof.
  intros [H1 H3 H4 H5 H6 H7 H8 H9 H10] HC HT.
  assert (Hlive : forall u, is_Some (threads s !! u) -> is_Some (<[current_thread C := with_running false T]> (threads s) !! u)).
  { intros u Hu. apply lookup_insert_is_Some'. auto. }
  split; cbn [set_threads threads cpus ready_queue ready_lock sleeping_queue time_base processes]; try done.
  - intros u U Hu. apply lookup_insert_Some in Hu as [[<- <-]|[? ?]]; [exact (H4 _ _ HT)|eauto].
  - intros c' C' HC'. destruct (H5 c' C' HC') as (Hid & U & HU & Hrc & Hr). split; [done|].
    destruct (decide (current_thread C' = current_thread C)) as [E|Hne].
    + rewrite E in *. replace U with T in * by congruence. exists (with_running false T).
      rewrite lookup_insert_eq. split_and!; [done|done|].
      destruct (H5 c C HC) as (_ & U' & HU' & Hrc' & _). replace U' with T in * by congruence.
      replace c' with c by congruence. by rewrite bool_decide_eq_true_2.
    + exists U. rewrite lookup_insert_ne by done. split_and!; [done|done|]. rewrite Hr.
      rewrite !bool_decide_eq_false_2; [done| |done]. cbn. intros [= ->]. congruence.
  - intros c' C' HC'. destruct (H6 c' C' HC') as ((I & HI & He & Hc) & ?). split; [|done].
    destruct (decide (idle_thread C' = current_thread C)) as [E|Hne].
    + rewrite E in *. exists (with_running false T). rewrite lookup_insert_eq. replace I with T in * by congruence. auto.
    + exists I. rewrite lookup_insert_ne by done. auto.
  - intros u U Hu Hr. apply lookup_insert_Some in Hu as [[<- <-]|[? ?]]; [done|eauto].
  - intros u Hu. destruct (H8 u Hu) as [Hl Hn]. split; [by apply Hlive|done].
  - intros w u Hu. destruct (H9 w u Hu) as [Hl Hn]. split; [by apply Hlive|done].
  - intros u U Hu Hst Hn Hoff. apply lookup_insert_Some in Hu as [[<- <-]|[? ?]]; [by cbn in Hoff|]. eapply H10; eauto.
Qed.

(** A thread on the queue may be taken off, and the current thread put on. *)
Lemma requeue_ok off off' s q :
  sched_inv off s -> fst <$> off' = fst <$> off ->
  (forall u, u ∈ q -> is_Some (threads s !! u) /\ ~ idle s u) ->
  (forall u U, threads s !! u = Some U -> status U = READY -> ~ idle s u -> snd <$> off' <> Some u -> u ∈ q) ->
  sched_inv off' (set_ready_queue s q).
Proof. intros [H1 H3 H4 H5 H6 H7 H8 H9 H10] Hf Hq Hr. split; try done. by rewrite Hf. Qed.

Lemma known_ok off s t : sched_inv off s -> is_Some (threads s !! t) -> known s t.
Proof. intros Hok [T HT]. destruct (ok_process _ _ Hok _ _ HT) as [P HP]. by exists T, P. Qed.

Lemma sched_inv_ext off s s' :
  threads s' = threads s -> processes s' = processes s -> cpus s' = cpus s -> ready_queue s' = ready_queue s ->
  ready_lock s' = ready_lock s -> sleeping_queue s' = sleeping_queue s -> time_base s' = time_base s ->
  sched_inv off s -> sched_inv off s'.
Proof.
  intros E1 E2 E3 E4 E5 E6 E7 [H1 H3 H4 H5 H6 H7 H8 H9 H10].
  assert (Hidl : forall u, idle s' u <-> idle s u) by (unfold idle; by rewrite E3).
  split; rewrite ?E1, ?E2, ?E3, ?E4, ?E5, ?E6, ?E7; try done.
  - intros u Hu. rewrite Hidl. auto.
  - intros w u Hu. rewrite Hidl. eauto.
  - intros u U. rewrite Hidl. eauto.
Qed.

Lemma scan_ext s s' cpu : threads s' = threads s -> processes s' = processes s ->
  forall fuel q i, scan fuel s' cpu q i = scan fuel s cpu q i.
Proof.
  intros E1 E2 fuel. induction fuel as [|fuel IH]; intros q i; [done|]. cbn [scan].
  unfold allowed. rewrite E1, E2. destruct (i =? length q)%nat; [done|].
  destruct (q !! i) as [t|]; [|done]. cbn [or_fault obind]. destruct (threads s !! t) as [T|]; [|done].
  cbn [or_fault obind]. destruct (decide (status T = READY)); [|apply IH].
  destruct (processes s !! process T) as [P|]; [|done]. cbn [or_fault obind]. destruct (negb _); [done|apply IH].
Qed.

(** The entry do_scheduler makes for the thread that gives up the CPU. *)
Definition requeued s : list Z :=
  match threads s !! current_thread C with
  | Some T => if decide (status T = READY) then if negb (current_thread C =? idle_thread C) then [current_thread C] else [] else []
  | None => []
  end.

(** The queue the scan starts with: known threads, and all that could run. *)
Lemma requeued_known s u :
  sched_inv (Some (c, current_thread C)) s -> cpus s !! c = Some C ->
  u ∈ ready_queue s ++ requeued s -> is_Some (threads s !! u) /\ ~ idle s u.
Proof.
  intros Hok HC Hu. destruct (ok_cpu _ _ Hok c C HC) as (Hid & T & HT & _ & Hrun).
  apply elem_of_app in Hu as [Hu|Hu]; [by apply (ok_queue _ _ Hok)|].
  unfold requeued in Hu. rewrite HT in Hu. destruct (decide (status T = READY)); [|by apply elem_of_nil in Hu].
  destruct (Z.eqb_spec (current_thread C) (idle_thread C)) as [|Hne]; [by apply elem_of_nil in Hu|].
  apply list_elem_of_singleton in Hu as ->. split; [by eexists|]. intros (c' & C' & HC' & HI').
  destruct (ok_idle _ _ Hok c' C' HC') as [_ Hu']. rewrite (Hu' c C HC (or_introl HI')) in HC'. congruence.
Qed.

Lemma requeued_all s u U :
  sched_inv (Some (c, current_thread C)) s -> cpus s !! c = Some C ->
  threads s !! u = Some U -> status U = READY -> ~ idle s u -> u ∈ ready_queue s ++ requeued s.
Proof.
  intros Hok HC HU Hst Hn. apply elem_of_app. destruct (decide (u = current_thread C)) as [->|Hne].
  - right. unfold requeued. rewrite HU, decide_True by done.
    destruct (Z.eqb_spec (current_thread C) (idle_thread C)) as [E'|]; [|by left]. exfalso. apply Hn. by exists c, C.
  - left. eapply (ok_ready _ _ Hok); eauto. cbn. congruence.
Qed.

(** The idle thread of this CPU can always be chosen. *)
Lemma idle_ready s :
  sched_inv (Some (c, current_thread C)) s -> cpus s !! c = Some C -> statusof s (idle_thread C) READY.
Proof.
  intros Hok HC. destruct (ok_cpu _ _ Hok c C HC) as (_ & T & HT & _ & Hrun).
  destruct (ok_idle _ _ Hok c C HC) as ((I & HI & HIe & HIc) & HIu).
  exists I. split; [done|]. unfold status. rewrite HIe, HIc. cbn [Z.eqb negb].
  destruct (status_running I) eqn:HIr; [|done]. exfalso.
  destruct (ok_running _ _ Hok _ _ HI HIr) as (c' & C' & _ & HC' & Hcur).
  pose proof (HIu c' C' HC' (or_introl (eq_sym Hcur))) as ->. replace C' with C in * by congruence.
  rewrite <- Hcur, HT in HI. injection HI as <-. rewrite Hrun, bool_decide_eq_true_2 in HIr; done.
Qed.

Lemma choose_next_ok s :
  sched_inv (Some (c, current_thread C)) s -> sleep_lock s = false -> cpus s !! c = Some C ->
  exists s1 s' n r q', choose_next s c = Ok (n, s') /\ n = default (idle_thread C) r /\
    woke (take (due (rdtime s (reads s) / time_base s) (sleeping_queue s)) (sleeping_queue s)).*2 s s1 /\
    scan (scan_fuel (length (ready_queue s1 ++ requeued s1))) s1 c (ready_queue s1 ++ requeued s1) 0 = Ok (r, q') /\
    sched_inv (Some (c, n)) s' /\ threads s' = threads s1 /\ cpus s' = cpus s /\ rest s' = rest s /\
    ready_queue s' = q' /\ statusof s' n READY /\ (idle s' n -> n = idle_thread C) /\
    sleeping_queue s' = drop (due (rdtime s (reads s) / time_base s) (sleeping_queue s)) (sleeping_queue s).
Proof.
  intros Hok Hsl HC.
  destruct (check_sleeping_ok _ s Hok Hsl) as (s1 & E & Hok1 & Hsl1 & W & Hsq).
  assert (HC1 : cpus s1 !! c = Some C) by (by rewrite (woke_cpus _ _ _ W)).
  destruct (ok_cpu _ _ Hok1 c C HC1) as (Hid & T & HT & _).
  set (q := ready_queue s1 ++ requeued s1).
  pose proof (fun u => requeued_known s1 u Hok1 HC1) as Hq. fold q in Hq.
  destruct (scan_total s1 c (scan_fuel (length q)) q 0) as (r & q' & Escan & Hsub & Hkeep & Hr); [|lia|unfold scan_fuel; lia|].
  { apply Forall_forall. intros u Hu. eapply known_ok; [done|]. by apply Hq. }
  set (n := default (idle_thread C) r).
  exists s1, (set_ready_lock (set_ready_queue (set_ready_lock s1 true) q') false), n, r, q'.
  split.
  { unfold choose_next. rewrite E. cbn [obind]. rewrite (ok_ready_lock _ _ Hok1), lock_free. cbn [obind].
    change (cpus (set_ready_lock s1 true)) with (cpus s1). rewrite HC1. cbn [or_fault obind].
    change (threads (set_ready_lock s1 true)) with (threads s1). rewrite HT. cbn [or_fault obind]. rewrite Hid.
    set (s2 := if decide (status T = READY) then _ else _).
    assert (Hs2 : s2 = set_ready_queue (set_ready_lock s1 true) q).
    { unfold s2, q, requeued. rewrite HT. destruct (decide (status T = READY)), (current_thread C =? idle_thread C);
        rewrite ?app_nil_r; done. }
    rewrite Hs2. change (ready_queue (set_ready_queue _ q)) with q. erewrite scan_ext, Escan; done. }
  split_and!; try done.
  - eapply sched_inv_ext with (s := set_ready_queue s1 q'); try done; [cbn; by rewrite (ok_ready_lock _ _ Hok1)|].
    eapply requeue_ok; [done|done| |].
    + intros u Hu. apply Hq. apply (elem_of_submseteq _ _ _ Hu). by apply sublist_submseteq.
    + intros u U HU Hst Hn Hne. apply Hkeep; [by eapply requeued_all|by exists U|]. cbn in Hne. subst n. destruct r; cbn in *; congruence.
  - exact (woke_cpus _ _ _ W).
  - transitivity (set_ready_lock (rest s1) false); [done|]. rewrite (woke_rest _ _ _ W).
    apply relock_ready. exact (ok_ready_lock _ _ Hok).
  - subst n. destruct r as [u|]; cbn [default]; [by apply (Hr u eq_refl)|exact (idle_ready s1 Hok1 HC1)].
  - subst n. destruct r as [u|]; cbn [default]; [|done]. intros Hidl. exfalso.
    destruct (Hr u eq_refl) as (Hin & _). apply (Hq u Hin). exact Hidl.
Qed.

(** The switch itself: [n] becomes the running thread of the CPU. *)
Definition switched_threads s (n : Z) (F N : Thread) : gmap Z Thread :=
  <[n := with_running true (with_running_cpu (Some c) N)]>
    (<[current_thread C := with_running false (with_running_cpu None F)]> (threads s)).

(** The four stores, on any of the two cases. *)
Lemma switch_stores s n F N :
  threads s !! current_thread C = Some F -> threads s !! n = Some N ->
  (s <- upd_thread s (current_thread C) (with_running_cpu None) ;;
   s <- upd_thread s n (with_running_cpu (Some c)) ;;
   s <- upd_thread s (current_thread C) (with_running false) ;;
   upd_thread s n (with_running true)) = Ok (set_threads s (switched_threads s n F N)).
Proof.
  intros HF HN. rewrite (upd_thread_run _ _ _ _ HF). cbn [obind]. unfold switched_threads.
  destruct (decide (current_thread C = n)) as [<-|Hne].
  - replace N with F by congruence.
    do 3 (erewrite upd_thread_run by (apply lookup_insert_eq); cbn [obind]).
    cbn [threads set_threads]. by rewrite !insert_insert_eq.
  - erewrite upd_thread_run by (etrans; [apply lookup_insert_ne, Hne|exact HN]). cbn [obind].
    erewrite upd_thread_run by (etrans; [apply lookup_insert_ne, not_eq_sym, Hne|apply lookup_insert_eq]). cbn [obind].
    erewrite upd_thread_run by (etrans; [apply lookup_insert_ne, Hne|apply lookup_insert_eq]).
    match goal with |- Ok (set_threads _ ?m) = Ok (set_threads _ ?m') => assert (E : m = m'); [|rewrite E; reflexivity] end.
    cbn [threads set_threads]. rewrite (insert_insert_ne _ (current_thread C) n) by done.
    by rewrite (insert_insert_eq _ n), insert_insert_eq.
Qed.

Lemma switch_to_run s n F N P :
  cpus s !! c = Some C -> threads s !! current_thread C = Some F -> threads s !! n = Some N ->
  processes s !! process N = Some P ->
  exists s', switch_to s c (current_thread C) n = Ok s' /\ threads s' = switched_threads s n F N /\
    cpus s' = <[c := MkCPU n (idle_thread C) (cpu_id C) (hartid C)]> (cpus s) /\ rest s' = rest s /\
    ready_queue s' = ready_queue s /\ sleeping_queue s' = sleeping_queue s /\ reads s' = reads s.
Proof.
  intros HC HF HN HP. unfold switch_to. rewrite HC. cbn [or_fault obind]. set (s0 := set_cpus s _).
  pose proof (switch_stores s0 n F N HF HN) as E. apply obind_Ok_inv in E as (s1 & -> & E). cbn [obind].
  apply obind_Ok_inv in E as (s2 & -> & E). cbn [obind]. apply obind_Ok_inv in E as (s3 & -> & E). cbn [obind]. rewrite E. cbn [obind].
  set (th := switched_threads s0 n F N). change (threads (set_threads s0 th)) with th.
  assert (HNn : th !! n = Some (with_running true (with_running_cpu (Some c) N))) by apply lookup_insert_eq.
  assert (HFc : exists F', th !! current_thread C = Some F').
  { apply lookup_insert_is_Some'. right. rewrite lookup_insert_eq. eauto. }
  destruct HFc as [F' ->]. rewrite HNn. cbn [or_fault obind].
  change (processes (set_threads s0 th)) with (processes s). cbn [process with_running with_running_cpu]. rewrite HP.
  cbn [or_fault obind]. eexists. split; [reflexivity|]. by destruct (negb _).
Qed.

Lemma switched_lookup s n F N u U :
  threads s !! current_thread C = Some F -> threads s !! n = Some N ->
  switched_threads s n F N !! u = Some U ->
  (u = n /\ U = with_running true (with_running_cpu (Some c) N)) \/
  (u <> n /\ u = current_thread C /\ U = with_running false (with_running_cpu None F)) \/
  (u <> n /\ u <> current_thread C /\ threads s !! u = Some U).
Proof.
  intros HF HN Hu. unfold switched_threads in Hu. apply lookup_insert_Some in Hu as [[<- <-]|[? Hu]]; [by left|].
  apply lookup_insert_Some in Hu as [[<- <-]|[? Hu]]; auto 6.
Qed.

Lemma switched_live s n F N u : is_Some (threads s !! u) -> is_Some (switched_threads s n F N !! u).
Proof. intros Hu. unfold switched_threads. apply lookup_insert_is_Some'. right. apply lookup_insert_is_Some'. by right. Qed.

(** The invariant after the switch, clause by clause. *)
Section After.
Context (s s' : kernel) (n : Z) (F N : Thread) (Hok : sched_inv (Some (c, n)) s) (HC : cpus s !! c = Some C).
Context (HF : threads s !! current_thread C = Some F) (HN : threads s !! n = Some N) (HNst : status N = READY).
Context (Hidle : idle s n -> n = idle_thread C).
Context (Eth : threads s' = switched_threads s n F N)
  (Ecpu : cpus s' = <[c := MkCPU n (idle_thread C) (cpu_id C) (hartid C)]> (cpus s)).

Lemma new_cpu c' C' : cpus s' !! c' = Some C' -> exists C0, cpus s !! c' = Some C0 /\
  idle_thread C' = idle_thread C0 /\ cpu_id C' = cpu_id C0 /\
  (current_thread C' = current_thread C0 /\ c' <> c \/ current_thread C' = n /\ c' = c /\ C0 = C).
Proof using HC Ecpu.
  intros HC'. rewrite Ecpu in HC'. destruct (decide (c' = c)) as [->|Hne].
  - rewrite list_lookup_insert_eq in HC' by (by eapply lookup_lt_Some). injection HC' as <-. exists C. split_and!; [done..|by right].
  - rewrite list_lookup_insert_ne in HC' by done. exists C'. split_and!; [done..|by left].
Qed.

Lemma old_cpu c' C0 : cpus s !! c' = Some C0 -> c' <> c -> cpus s' !! c' = Some C0.
Proof using Ecpu. intros HC0 Hne. rewrite Ecpu. by rewrite list_lookup_insert_ne. Qed.

Lemma new_idle u : idle s' u -> idle s u.
Proof using HC Ecpu. intros (c' & C' & HC' & <-). destruct (new_cpu c' C' HC') as (C0 & HC0 & -> & _). by exists c', C0. Qed.

Lemma old_idle u : idle s u -> idle s' u.
Proof using HC Ecpu.
  intros (c' & C0 & HC0 & <-). destruct (decide (c' = c)) as [->|Hne].
  - exists c. replace C0 with C by congruence. eexists. rewrite Ecpu.
    rewrite list_lookup_insert_eq by (by eapply lookup_lt_Some). done.
  - exists c', C0. split; [by apply old_cpu|done].
Qed.

Lemma new_thread u U : threads s' !! u = Some U ->
  (u = n /\ U = with_running true (with_running_cpu (Some c) N)) \/
  (u <> n /\ u = current_thread C /\ U = with_running false (with_running_cpu None F)) \/
  (u <> n /\ u <> current_thread C /\ threads s !! u = Some U).
Proof using HF HN Eth. rewrite Eth. by apply switched_lookup. Qed.

Lemma new_cpu_ok c' C' : cpus s' !! c' = Some C' -> cpu_id C' = c' /\
  exists T, threads s' !! current_thread C' = Some T /\ running_cpu T = Some c' /\ status_running T = true.
Proof using All.
  intros HC'. destruct (new_cpu c' C' HC') as (C0 & HC0 & _ & -> & Hcur).
  destruct (ok_cpu _ _ Hok c' C0 HC0) as (Hid & T & HT & HTc & HTr). split; [done|].
  destruct Hcur as [[-> Hne]|(-> & -> & ->)].
  - rewrite bool_decide_eq_false_2 in HTr by (cbn; congruence). exists T. rewrite Eth. unfold switched_threads.
    assert (current_thread C0 <> n).
    { intros E. replace T with N in * by congruence. unfold status in HNst.
      rewrite HTr in HNst. by destruct (status_exited N), (negb (status_block_cnt N =? 0)). }
    assert (current_thread C0 <> current_thread C).
    { intros E. replace T with F in * by congruence.
      destruct (ok_cpu _ _ Hok c C HC) as (_ & F' & HF' & HFc & _). congruence. }
    by rewrite !lookup_insert_ne.
  - exists (with_running true (with_running_cpu (Some c) N)). rewrite Eth. unfold switched_threads. by rewrite lookup_insert_eq.
Qed.

Lemma new_idle_ok c' C' : cpus s' !! c' = Some C' ->
  (exists I, threads s' !! idle_thread C' = Some I /\ status_exited I = false /\ status_block_cnt I = 0) /\
  (forall d D, cpus s' !! d = Some D -> idle_thread C' = current_thread D \/ idle_thread C' = idle_thread D -> c' = d).
Proof using All.
  intros HC'. destruct (new_cpu c' C' HC') as (C0 & HC0 & -> & _ & _).
  destruct (ok_idle _ _ Hok c' C0 HC0) as ((I & HI & HIe & HIc) & Huniq). split.
  - destruct (switched_live s n F N (idle_thread C0)) as [I' HI']; [by eexists|]. rewrite <- Eth in HI'. exists I'. split; [done|].
    destruct (new_thread _ _ HI') as [[E ->]|[(_ & E & ->)|(_ & _ & E)]].
    + replace N with I by congruence. done.
    + replace F with I by congruence. done.
    + by replace I' with I by congruence.
  - intros d D HD Hor. destruct (new_cpu d D HD) as (D0 & HD0 & HDi & _ & Hcur). rewrite HDi in Hor.
    apply (Huniq d D0 HD0). destruct Hor as [Hor|Hor]; [|by right]. destruct Hcur as [[E _]|(E & -> & ->)]; [left; congruence|].
    right. rewrite Hor, E. apply Hidle. exists c', C0. split; [done|congruence].
Qed.

Lemma new_running_ok u U : threads s' !! u = Some U -> status_running U = true ->
  exists d D, running_cpu U = Some d /\ cpus s' !! d = Some D /\ current_thread D = u.
Proof using All.
  intros HU Hr. destruct (new_thread _ _ HU) as [[-> ->]|[(_ & _ & ->)|(Hn & Hne & HU0)]]; [|done|].
  - exists c. eexists. split; [done|]. rewrite Ecpu, list_lookup_insert_eq by (by eapply lookup_lt_Some). done.
  - destruct (ok_running _ _ Hok u U HU0 Hr) as (d & D & Hd & HD & <-). exists d, D. split_and!; [done| |done].
    apply old_cpu; [done|]. intros ->. replace D with C in * by congruence. done.
Qed.

Lemma new_ready_ok u U : threads s' !! u = Some U -> status U = READY -> ~ idle s' u -> u ∈ ready_queue s.
Proof using All.
  intros HU Hst Hn. assert (Hn0 : ~ idle s u) by (intros Hi; by apply Hn, old_idle).
  destruct (new_thread _ _ HU) as [[-> ->]|[(Hne & -> & ->)|(Hne & _ & HU0)]].
  - unfold status in Hst. cbn in Hst. by destruct (status_exited N), (negb (status_block_cnt N =? 0)).
  - eapply (ok_ready _ _ Hok _ F); [done| |done|cbn; congruence].
    destruct (ok_cpu _ _ Hok c C HC) as (_ & F' & HF' & _ & HFr). replace F' with F in * by congruence.
    rewrite bool_decide_eq_true_2 in HFr by done. unfold status in *. rewrite HFr. exact Hst.
  - eapply (ok_ready _ _ Hok); [done|done|done|cbn; congruence].
Qed.

Lemma after_switch_ok : rest s' = rest s -> ready_queue s' = ready_queue s -> sleeping_queue s' = sleeping_queue s -> sched_inv None s'.
Proof using All.
  intros Erest Erq Esq.
  assert (Hlive : forall u, is_Some (threads s !! u) /\ ~ idle s u -> is_Some (threads s' !! u) /\ ~ idle s' u).
  { intros u [Hu Hn]. split; [rewrite Eth; by apply switched_live|]. intros Hi. by apply Hn, new_idle. }
  split; rewrite ?Erq, ?Esq, ?(rest_time_base _ _ Erest), ?(rest_processes _ _ Erest).
  - rewrite <- (ok_ready_lock _ _ Hok). exact (f_equal ready_lock Erest).
  - apply (ok_clock _ _ Hok).
  - intros u U HU. destruct (new_thread _ _ HU) as [[_ ->]|[(_ & _ & ->)|(_ & _ & HU0)]];
      [exact (ok_process _ _ Hok _ _ HN)|exact (ok_process _ _ Hok _ _ HF)|exact (ok_process _ _ Hok _ _ HU0)].
  - intros d D HD. destruct (new_cpu_ok d D HD) as (? & T & ? & ? & ?). eauto.
  - exact new_idle_ok.
  - exact new_running_ok.
  - intros u Hu. by apply Hlive, (ok_queue _ _ Hok).
  - intros w u Hu. by eapply Hlive, (ok_sleepers _ _ Hok).
  - intros u U HU Hst Hn _. by eapply new_ready_ok.
Qed.
End After.

Lemma switch_ok s n :
  sched_inv (Some (c, n)) s -> cpus s !! c = Some C -> statusof s n READY -> (idle s n -> n = idle_thread C) ->
  exists s' F N, switch_to s c (current_thread C) n = Ok s' /\ sched_inv None s' /\
    threads s !! current_thread C = Some F /\ threads s !! n = Some N /\ threads s' = switched_threads s n F N /\
    cpus s' = <[c := MkCPU n (idle_thread C) (cpu_id C) (hartid C)]> (cpus s) /\ rest s' = rest s /\
    ready_queue s' = ready_queue s /\ sleeping_queue s' = sleeping_queue s.
Proof.
  intros Hok HC (N & HN & HNst) Hidle. destruct (ok_cpu _ _ Hok c C HC) as (_ & F & HF & _).
  destruct (ok_process _ _ Hok _ _ HN) as [P HP].
  destruct (switch_to_run s n F N P HC HF HN HP) as (s' & E & Eth & Ecpu & Erest & Erq & Esq & _).
  exists s', F, N. split_and!; try done. by eapply after_switch_ok.
Qed.

End Switching.

(** * Whole operations *)

(** What one call of do_scheduler does on CPU [c] with current thread
    [current_thread C]: [s1] is the state after the sleepers woke. *)
Record scheduled (c : nat) (C : CPU) (s s1 s' : kernel) (n : Z) : Prop := {
  sc_woke : woke (take (due (rdtime s (reads s) / time_base s) (sleeping_queue s)) (sleeping_queue s)).*2 s s1;
  sc_next : exists r, n = default (idle_thread C) r /\
    scan (scan_fuel (length (ready_queue s1 ++ requeued C s1))) s1 c (ready_queue s1 ++ requeued C s1) 0 = Ok (r, ready_queue s');
  sc_cpus : cpus s' = <[c := MkCPU n (idle_thread C) (cpu_id C) (hartid C)]> (cpus s);
  sc_rest : rest s' = rest s;
  sc_sleep : sleeping_queue s' = drop (due (rdtime s (reads s) / time_base s) (sleeping_queue s)) (sleeping_queue s);
  sc_threads : exists F N, threads s1 !! current_thread C = Some F /\ threads s1 !! n = Some N /\
    status N = READY /\ threads s' = switched_threads c C s1 n F N
}.

Lemma schedule_ok c C s T :
  sched_ok s -> cpus s !! c = Some C -> threads s !! current_thread C = Some T ->
  let s0 := set_threads s (<[current_thread C := with_running false T]> (threads s)) in
  exists s1 s' n, schedule None c s = Ok s' /\ sched_ok s' /\ scheduled c C s0 s1 s' n.
Proof.
  intros [Hok Hsl] HC HT s0. pose proof (stop_ok c C s T Hok HC HT) as Hok0. fold s0 in Hok0.
  destruct (choose_next_ok c C s0 Hok0 Hsl HC) as
    (s1 & s2 & n & r & q' & E & Hn & W & Hscan & Hok2 & Eth & Ecpu & Erest & Erq & HNst & Hidle & Esq).
  assert (HC2 : cpus s2 !! c = Some C) by (by rewrite Ecpu).
  destruct (switch_ok c C s2 n Hok2 HC2 HNst Hidle) as (s' & F & N & E' & Hok' & HF & HN & Eth' & Ecpu' & Erest' & Erq' & Esq').
  exists s1, s', n. split_and!.
  - unfold schedule, pick_next, current. rewrite HC. cbn [or_fault obind]. rewrite (upd_thread_run _ _ _ _ HT). cbn [obind]. fold s0.
    rewrite E. cbn [obind]. exact E'.
  - split; [done|]. rewrite <- Hsl. transitivity (sleep_lock s2); [exact (f_equal sleep_lock Erest')|exact (f_equal sleep_lock Erest)].
  - split; [done| | |congruence|congruence|].
    + exists r. split; [done|]. by rewrite Erq', Erq.
    + by rewrite Ecpu', Ecpu.
    + rewrite Eth in HF, HN. exists F, N. split_and!; [done|done| |].
      * destruct HNst as (N' & HN' & <-). rewrite Eth in HN'. congruence.
      * rewrite Eth'. unfold switched_threads. by rewrite Eth.
Qed.

(** A thread other than the idle ones changes without becoming runnable. *)
Lemma upd_ok off s t T T' :
  sched_inv off s -> threads s !! t = Some T -> ~ idle s t ->
  process T' = process T -> running_cpu T' = running_cpu T -> status_running T' = status_running T ->
  (status T' = READY -> snd <$> off <> Some t -> t ∈ ready_queue s) ->
  sched_inv off (set_threads s (<[t := T']> (threads s))).
Proof.
  intros [H1 H3 H4 H5 H6 H7 H8 H9 H10] HT Hni Ep Ec Er Hr.
  assert (Hlive : forall u, is_Some (threads s !! u) -> is_Some (<[t := T']> (threads s) !! u)).
  { intros u Hu. apply lookup_insert_is_Some'. auto. }
  split; cbn [set_threads threads cpus ready_queue ready_lock sleeping_queue time_base processes]; try done.
  - intros u U Hu. apply lookup_insert_Some in Hu as [[<- <-]|[? ?]]; [rewrite Ep; eauto|eauto].
  - intros c C HC. destruct (H5 c C HC) as (? & U & HU & ?). split; [done|].
    destruct (decide (t = current_thread C)) as [->|Hne].
    + exists T'. rewrite lookup_insert_eq. replace U with T in * by congruence. by rewrite Ec, Er.
    + exists U. by rewrite lookup_insert_ne.
  - intros c C HC. destruct (H6 c C HC) as ((I & HI & ?) & ?). split; [|done]. exists I.
    rewrite lookup_insert_ne; [done|]. intros ->. apply Hni. by exists c, C.
  - intros u U Hu Hru. apply lookup_insert_Some in Hu as [[<- <-]|[? ?]]; [|eauto]. rewrite Ec. apply (H7 t T HT). congruence.
  - intros u Hu. destruct (H8 u Hu). split; [auto|done].
  - intros w u Hu. destruct (H9 w u Hu). split; [auto|done].
  - intros u U Hu Hst Hn Hoff. apply lookup_insert_Some in Hu as [[<- <-]|[? ?]]; [auto|eauto].
Qed.

(** The current thread blocks itself; it counts as running until it switches away. *)
Lemma block_ok s c C :
  sched_inv None s -> cpus s !! c = Some C -> ~ idle s (current_thread C) ->
  exists T, threads s !! current_thread C = Some T /\
    let T' := with_block_cnt (i32 (status_block_cnt T + 1)) T in
    block s (current_thread C) = Ok (set_threads s (<[current_thread C := T']> (threads s))) /\
    sched_inv None (set_threads s (<[current_thread C := T']> (threads s))).
Proof.
  intros Hok HC Hni. destruct (ok_cpu _ _ Hok c C HC) as (_ & T & HT & _ & Hr).
  rewrite bool_decide_eq_false_2 in Hr by done.
  exists T. split; [done|]. intros T'. split; [exact (upd_thread_run _ _ _ _ HT)|].
  apply upd_ok with T; try done. intros Hst _. exfalso. unfold status in Hst. subst T'.
  cbn [status_exited status_block_cnt status_running with_block_cnt] in Hst. rewrite Hr in Hst.
  destruct (status_exited T); [done|]. by destruct (i32 _ =? 0).
Qed.

(** Parts of the kernel the scheduler does not look at. *)
Definition sched_view s :=
  (threads s, processes s, cpus s, (ready_queue s, ready_lock s, sleeping_queue s, sleep_lock s), time_base s).

Lemma view_ok s s' : sched_view s' = sched_view s -> sched_ok s -> sched_ok s'.
Proof.
  unfold sched_view. intros E [Hok Hsl]. injection E as E1 E2 E3 E4 E5 E6 E7 E8. split; [|congruence].
  eapply sched_inv_ext; [..|exact Hok]; assumption.
Qed.

(** * One call of the scheduler *)

Lemma schedule_keeps c C s :
  sched_ok s -> cpus s !! c = Some C -> exists s' k, do_scheduler c s = Ok (Switched s' k) /\ sched_ok s' /\
    k = resume tt /\ length (cpus s') = length (cpus s).
Proof.
  intros Hok HC. destruct (ok_cpu _ _ (proj1 Hok) c C HC) as (_ & T & HT & _).
  destruct (schedule_ok c C s T Hok HC HT) as (s1 & s' & n & E & Hok' & Hsc).
  exists s', (resume tt). unfold do_scheduler. rewrite E. split_and!; try done.
  rewrite (sc_cpus _ _ _ _ _ _ Hsc), length_insert. done.
Qed.

Lemma schedule_keeps' c s s' k : sched_ok s -> do_scheduler c s = Ok (Switched s' k) -> sched_ok s'.
Proof.
  intros Hok E. assert (exists C, cpus s !! c = Some C) as [C HC].
  { unfold do_scheduler, schedule, pick_next, current in E. destruct (cpus s !! c) as [C|]; [eauto|done]. }
  destruct (schedule_keeps c C s Hok HC) as (s1 & k1 & E1 & Hok1 & _). congruence.
Qed.

Lemma block_keeps c t s : sched_ok s -> current s c = Ok t -> ~ idle s t ->
  exists s', block s t = Ok s' /\ sched_ok s' /\ (forall s1, block s t = Ok s1 -> s1 = s').
Proof.
  intros [Hok Hsl] Ec Hni. unfold current in Ec. destruct (cpus s !! c) as [C|] eqn:HC; [|done].
  cbn in Ec. injection Ec as <-. destruct (block_ok s c C Hok HC Hni) as (T & HT & E & Hok').
  eexists. split_and!; [done|by split|]. intros s1. rewrite E. congruence.
Qed.

Lemma sleeper_ok s x : sched_ok s -> is_Some (threads s !! x.2) -> ~ idle s x.2 ->
  sched_ok (set_sleeping_queue s (heap_push x (sleeping_queue s))).
Proof.
  intros [[H1 H3 H4 H5 H6 H7 H8 H9 H10] Hsl] Hl Hni. split; [|done]. split; try done.
  intros w t Ht. assert (Hx : (w, t) = x \/ (w, t) ∈ sleeping_queue s).
  { clear -Ht. cbn [sleeping_queue set_sleeping_queue] in Ht. induction (sleeping_queue s) as [|y q IH]; cbn in Ht.
    - apply list_elem_of_singleton in Ht. by left.
    - destruct (item_ltb x y); [by apply elem_of_cons in Ht|].
      apply elem_of_cons in Ht as [->|Ht]; [right; by left|]. destruct (IH Ht); [by left|]. right. by right. }
  destruct Hx as [<-|Hx]; [done|eauto].
Qed.
