(* ===== verification/Smp.v ===== *)
(** What several CPUs do to the scheduler of src/schedule.cpp at the same time.

    No lock covers do_scheduler: it releases ready_lock (schedule.cpp:62) and only
    then stores the current thread, the flags of the two threads, and switches
    (lines 66 to 75).  A pass of do_scheduler is cut there into two steps, and between
    the two steps of one CPU the others may step. *)

From Stdlib Require Import ZArith Lia List.
From stdpp Require Import base numbers list gmap relations.
From S2P Require Import Prelude Trie Objects Kernel Sched SchedProps.

Local Open Scope Z_scope.

Implicit Types (s : kernel) (t : Z).

(** * Steps *)

(** The ways into do_scheduler for the thread on CPU [c]: Syscall::yield,
    handle_irq_timer, Syscall::sleep and the two do_block, whose wait queue and lock
    are not the scheduler's.  The idle thread neither sleeps nor blocks. *)
Inductive arrives (c : nat) : kernel -> kernel -> Prop :=
| arrive_yield s : arrives c s s
| arrive_timer s : arrives c s (next_tick s)
| arrive_sleep time s s' t : current s c = Ok t -> ~ idle s t -> sleep_current time c s = Ok s' -> arrives c s s'
| arrive_block enqueue release s s' t :
    current s c = Ok t -> ~ idle s t ->
    (forall u s0 s1, enqueue u s0 = Ok s1 -> sched_view s1 = sched_view s0) ->
    (forall s0 s1, release s0 = Ok s1 -> sched_view s1 = sched_view s0) ->
    block_current enqueue release c s = Ok s' -> arrives c s s'.

(** The kernel, and for a CPU between lines 62 and 66 the thread that leaves it and
    the one that comes *)
Record smp := MkSmp { smp_kernel : kernel; passing : gmap nat (Z * Z) }.

Inductive smp_step (c : nat) : smp -> smp -> Prop :=
| smp_pick s P s1 from next s2 :
    P !! c = None -> arrives c s s1 -> pick_next None c s1 = Ok (from, next, s2) ->
    smp_step c (MkSmp s P) (MkSmp s2 (<[c := (from, next)]> P))
| smp_switch s P from next s' :
    P !! c = Some (from, next) -> switch_to s c from next = Ok s' ->
    smp_step c (MkSmp s P) (MkSmp s' (delete c P))
| smp_wake s P t s' :
    P !! c = None -> ~ idle s t -> wakeup s t = Ok s' ->
    smp_step c (MkSmp s P) (MkSmp s' P).

(** Any CPU steps at any time. *)
Definition any_step (x y : smp) : Prop := exists c, smp_step c x y.
(** A CPU steps when no other is in the middle of a pass. *)
Definition serial_step (x y : smp) : Prop := exists c, smp_step c x y /\ forall d, d <> c -> passing x !! d = None.

(** * Serial runs *)

(** Between passes the invariant holds; in the middle of one, the other half of the
    pass is still to come. *)
Definition serial_ok (x : smp) : Prop :=
  passing x = ∅ /\ sched_ok (smp_kernel x) \/
  exists c from next s, passing x = {[c := (from, next)]} /\ sched_ok s /\ pick_next None c s = Ok (from, next, smp_kernel x).

Lemma arrives_ok c s s' : arrives c s s' -> sched_ok s -> sched_ok s'.
Proof.
  intros Ha Hok. destruct Ha as [s|s|time s s' t Ec Hni E|enq rel s s' t Ec Hni He Hr E].
  - done.
  - revert Hok. by apply view_ok.
  - unfold sleep_current in E. rewrite (get_timer_run s (ok_clock _ _ (proj1 Hok))) in E. cbn [obind] in E.
    change (sleep_lock (set_reads s _)) with (sleep_lock s) in E. rewrite (proj2 Hok), lock_free in E. cbn [obind] in E.
    match type of E with obind ?x _ = _ => change x with (current s c) in E end. rewrite Ec in E. cbn [obind] in E.
    set (s1 := set_sleeping_queue _ _) in E. set (s2 := set_sleep_lock s1 _) in E.
    assert (Hok2 : sched_ok s2).
    { apply (view_ok (set_sleeping_queue s (heap_push (u64 (rdtime s (reads s) / time_base s + time), t) (sleeping_queue s))));
        [unfold sched_view; cbn; by rewrite (proj2 Hok)|].
      apply sleeper_ok; [done| |done]. unfold current in Ec. destruct (cpus s !! c) as [C|] eqn:HC; [|done]. injection Ec as <-.
      destruct (ok_cpu _ _ (proj1 Hok) c C HC) as (_ & T & HT & _). by exists T. }
    destruct (block_keeps c t s2 Hok2 Ec Hni) as (s3 & E3 & Hok3 & _). by replace s' with s3 by congruence.
  - unfold block_current in E. rewrite Ec in E. cbn [obind] in E.
    destruct (enq t s) as [s1| | |] eqn:E1; try done. cbn [obind] in E. pose proof (He _ _ _ E1) as V1.
    assert (Ec1 : current s1 c = Ok t) by (unfold current, sched_view in *; by injection V1 as _ _ -> _ _ _ _ _).
    assert (Hni1 : ~ idle s1 t) by (unfold idle, sched_view in *; by injection V1 as _ _ -> _ _ _ _ _).
    destruct (block_keeps c t s1 (view_ok _ _ V1 Hok) Ec1 Hni1) as (s2 & E2 & Hok2 & _). rewrite E2 in E. cbn [obind] in E.
    eapply view_ok; [by apply Hr|done].
Qed.

Lemma wake_keeps s t s' : sched_ok s -> ~ idle s t -> wakeup s t = Ok s' -> sched_ok s'.
Proof.
  intros Hok Hni E. assert (Hl : is_Some (threads s !! t)) by (unfold wakeup, upd_thread in E; destruct (threads s !! t); [by eexists|done]).
  destruct (wakeup_ok None s t (proj1 Hok) Hl Hni) as (s1 & E1 & Hok1 & W & _). replace s' with s1 by congruence.
  split; [done|]. rewrite <- (proj2 Hok). exact (f_equal sleep_lock (woke_rest _ _ _ W)).
Qed.

(** The two halves of a pass make do_scheduler. *)
Lemma halves_keep c from next s1 s2 s3 : sched_ok s1 -> pick_next None c s1 = Ok (from, next, s2) -> switch_to s2 c from next = Ok s3 -> sched_ok s3.
Proof.
  intros Hok E2 E3. apply (schedule_keeps' c s1 s3 (resume tt) Hok). unfold do_scheduler, schedule. rewrite E2. cbn [obind]. by rewrite E3.
Qed.

Lemma serial_keeps x y : serial_step x y -> serial_ok x -> serial_ok y.
Proof.
  intros (c & Hstep & Hser) [[HP Hok]|(d & f0 & n0 & s0 & HP & Hok & E0)].
  - destruct Hstep as [s P s1 from next s2 Hc Ha E|s P from next s' Hc E|s P t s' Hc Hni E]; cbn [passing smp_kernel] in *; subst P.
    + right. exists c, from, next, s1. split; [done|]. split; [by eapply arrives_ok|done].
    + by rewrite lookup_empty in Hc.
    + left. split; [done|]. by eapply wake_keeps.
  - assert (d = c) as ->.
    { destruct (decide (d = c)) as [|Hne]; [done|]. specialize (Hser d Hne). by rewrite HP, lookup_singleton_eq in Hser. }
    destruct Hstep as [s P s1 from next s2 Hc Ha E|s P from next s' Hc E|s P t s' Hc Hni E]; cbn [passing smp_kernel] in *; subst P;
      rewrite lookup_singleton_eq in Hc; try done.
    injection Hc as -> ->. left. split; [apply delete_singleton_eq|]. by eapply halves_keep.
Qed.

Lemma serial_run x y : rtc serial_step x y -> serial_ok x -> serial_ok y.
Proof. intros Hrun. induction Hrun as [|x y z Hs _ IH]; [done|]. intros Hx. apply IH. by eapply serial_keeps. Qed.

(** What one CPU does alone is serial. *)
Lemma alone_serial c x y : (forall d, d <> c -> passing x !! d = None) -> rtc (smp_step c) x y -> rtc serial_step x y.
Proof.
  intros Hx Hrun. induction Hrun as [|x y z Hs _ IH]; [done|]. eapply rtc_l; [by exists c|]. apply IH. intros d Hd. specialize (Hx d Hd).
  destruct Hs; cbn [passing] in *; [by rewrite lookup_insert_ne|by rewrite lookup_delete_ne|done].
Qed.
