(* ===== verification/SchedTheorems.v ===== *)
(** Theorems on the scheduler of src/schedule.cpp: the invariant of its states,
    round-robin progress, the entry an erase passes over, and sleeping. *)

From Stdlib Require Import ZArith Lia List Permutation Sorting.Sorted.
From stdpp Require Import base numbers list gmap relations.
From S2P Require Import Prelude Trie Objects Kernel Sched SchedProps Smp.

Local Open Scope Z_scope.

Implicit Types (s : kernel) (t : Z).

(** * The invariant *)

(** C6: the scheduler never loses a thread and never runs one twice, as long as the
    passes of do_scheduler on different CPUs do not overlap, which is every run on
    one CPU (interrupts are off in the kernel).  From a state that satisfies the
    invariant, whatever sequence of yields, timer interrupts, sleeps, blockings on
    wait queues and wake-ups follows: a thread that counts as running is the current
    thread of the CPU it names, and two CPUs never run the same thread; a thread that
    is neither blocked, exited nor running is on the ready queue (unless it is the
    idle thread of a CPU); and do_scheduler returns on every CPU, whatever stale
    entries the ready queue holds.  Overlapping passes break it
    ([overlapping_passes_share_a_thread]). *)
Theorem scheduler_invariant s y :
  sched_ok s -> rtc serial_step (MkSmp s ∅) y \/ (exists c, rtc (smp_step c) (MkSmp s ∅) y) -> passing y = ∅ ->
  let s' := smp_kernel y in
  (forall t T, threads s' !! t = Some T -> status_running T = true ->
    exists c C, running_cpu T = Some c /\ cpus s' !! c = Some C /\ current_thread C = t) /\
  (forall c1 c2 C1 C2, cpus s' !! c1 = Some C1 -> cpus s' !! c2 = Some C2 -> current_thread C1 = current_thread C2 -> c1 = c2) /\
  (forall t T, threads s' !! t = Some T -> status T = READY -> ~ idle s' t -> t ∈ ready_queue s') /\
  (forall c, (c < length (cpus s'))%nat -> exists s'' k, do_scheduler c s' = Ok (Switched s'' k) /\ sched_ok s'').
Proof.
  intros Hok Hrun Hp s'. assert (Hser : rtc serial_step (MkSmp s ∅) y).
  { destruct Hrun as [|[c Hc]]; [done|]. by eapply alone_serial. }
  destruct (serial_run _ _ Hser) as [[_ Hok']|(c & f & n & s0 & E & _)]; [by left| |by rewrite Hp in E; symmetry in E; apply (map_non_empty_singleton c (f, n)) in E].
  fold s' in Hok'. split_and!.
  - exact (ok_running _ _ (proj1 Hok')).
  - intros c1 c2 C1 C2 H1 H2 E. destruct (ok_cpu _ _ (proj1 Hok') _ _ H1) as (_ & T1 & HT1 & HR1 & _).
    destruct (ok_cpu _ _ (proj1 Hok') _ _ H2) as (_ & T2 & HT2 & HR2 & _). congruence.
  - intros t T HT Hst Hn. by eapply (ok_ready _ _ (proj1 Hok')).
  - intros c Hc. apply lookup_lt_is_Some_2 in Hc as [C HC].
    destruct (schedule_keeps c C s' Hok' HC) as (s2 & k & E & Hok2 & _). eauto.
Qed.

(** * Round robin *)

(** [n] calls of do_scheduler on CPU [c], each by the thread then running. *)
Fixpoint yields (n : nat) (c : nat) s : outcome kernel :=
  match n with
  | O => Ok s
  | S n => r <- yield c s ;; match r with Done _ s => yields n c s | Switched s _ => yields n c s end
  end.

(** A thread that CPU [c] could run: on the queue or running on [c] itself, and not asleep. *)
Record runnable (c : nat) s t : Prop := {
  rn_thread : exists T, threads s !! t = Some T /\ status_exited T = false /\ status_block_cnt T = 0 /\
    (status_running T = true -> running_cpu T = Some c);
  rn_allowed : allowed s c t = Ok true;
  rn_awake : forall w, (w, t) ∉ sleeping_queue s
}.

Lemma due_sleepers now q t : t ∈ (take (due now q) q).*2 -> exists w, (w, t) ∈ q.
Proof.
  intros Ht. apply list_elem_of_fmap in Ht as ((w & u) & -> & Hin). exists w.
  apply (elem_of_submseteq _ _ _ Hin). apply sublist_submseteq, sublist_take.
Qed.

Lemma allowed_ext s s' c t :
  processes s' = processes s -> (process <$> threads s' !! t = process <$> threads s !! t) -> allowed s' c t = allowed s c t.
Proof.
  intros E1 E2. unfold allowed. rewrite E1. destruct (threads s' !! t), (threads s !! t); cbn in *; congruence.
Qed.

Section OneCall.
Context (c : nat) (C : CPU) (s s1 s' : kernel) (n : Z) (T : Thread).
Context (Hok : sched_ok s) (HC : cpus s !! c = Some C) (HT : threads s !! current_thread C = Some T).
Let s0 := set_threads s (<[current_thread C := with_running false T]> (threads s)).
Context (Hsc : scheduled c C s0 s1 s' n).

(** When the sleepers have been woken, what this CPU could run is ready. *)
Lemma runnable_ready v : runnable c s v ->
  exists V, threads s1 !! v = Some V /\ status_exited V = false /\ status_block_cnt V = 0 /\ status_running V = false /\
    status V = READY /\ allowed s1 c v = Ok true /\ process <$> threads s1 !! v = process <$> threads s !! v.
Proof using All.
  intros [ (V & HV & Hex & Hcnt & Hrc) Hall Hawake ].
  assert (Hth : threads s1 !! v = threads s0 !! v).
  { apply (woke_other _ _ _ (sc_woke _ _ _ _ _ _ Hsc)). intros Hin.
    apply due_sleepers in Hin as [w' Hin]. by apply (Hawake w'). }
  assert (Hs0 : exists V', threads s0 !! v = Some V' /\ status_exited V' = false /\ status_block_cnt V' = 0 /\
    status_running V' = false /\ process V' = process V).
  { cbn [threads set_threads s0]. destruct (decide (v = current_thread C)) as [->|Hne].
    - exists (with_running false T). rewrite lookup_insert_eq. replace T with V by congruence. done.
    - exists V. rewrite lookup_insert_ne by done. split_and!; try done. destruct (status_running V) eqn:Hr; [|done].
      destruct (ok_running _ _ (proj1 Hok) v V HV Hr) as (d & D & Hd & HD & Hcur).
      rewrite (Hrc eq_refl) in Hd. injection Hd as <-. congruence. }
  destruct Hs0 as (V' & HV' & He' & Hc' & Hr' & Hp'). exists V'. rewrite Hth, HV', HV. cbn [fmap option_fmap option_map].
  split_and!; try done; [unfold status; by rewrite He', Hc', Hr'| |by rewrite Hp'].
  rewrite <- Hall. apply allowed_ext; [exact (rest_processes _ _ (woke_rest _ _ _ (sc_woke _ _ _ _ _ _ Hsc)))|].
  rewrite Hth, HV', HV. cbn. by rewrite Hp'.
Qed.

(** The head of the queue is chosen, and the others stay runnable. *)
Lemma head_chosen u q : ready_queue s = u :: q -> runnable c s u ->
  n = u /\ exists w, ready_queue s' = q ++ w.
Proof using All.
  intros Hq Hu. destruct (runnable_ready u Hu) as (U & HU & _ & _ & _ & Hst & Hall & _).
  destruct (woke_queue _ _ _ (sc_woke _ _ _ _ _ _ Hsc)) as (w & Hw & Hsub). change (ready_queue s0) with (ready_queue s) in Hw.
  destruct (sc_next _ _ _ _ _ _ Hsc) as (r & -> & Hscan). rewrite Hw, Hq in Hscan. cbn [app length] in Hscan.
  unfold scan_fuel in Hscan. rewrite (scan_head s1 c _ u) in Hscan; [|by exists U|done].
  injection Hscan as <- <-. split; [done|]. exists (w ++ requeued C s1). by rewrite app_assoc.
Qed.

Lemma stays_runnable v : runnable c s n -> runnable c s v -> runnable c s' v.
Proof using All.
  intros Hn Hv. pose proof Hv as [_ _ Hawake].
  destruct (runnable_ready v Hv) as (V & HV & Hex & Hcnt & Hr & _ & Hall & _).
  destruct (sc_threads _ _ _ _ _ _ Hsc) as (F & N & HF & HN & _ & Eth).
  assert (Hs' : exists V', threads s' !! v = Some V' /\ status_exited V' = false /\ status_block_cnt V' = 0 /\
    (status_running V' = true -> running_cpu V' = Some c) /\ process V' = process V).
  { destruct (switched_live c C s1 n F N v) as [V' HV']; [by exists V|]. rewrite Eth. exists V'. split; [done|].
    destruct (switched_lookup c C s1 n F N v V' HF HN HV') as [[-> ->]|[(_ & -> & ->)|(_ & _ & E)]].
    - replace N with V by congruence. done.
    - replace F with V by congruence. done.
    - replace V' with V by congruence. split_and!; try done. congruence. }
  destruct Hs' as (V' & HV' & ? & ? & ? & Hp). split; [eauto| |].
  - rewrite <- Hall. apply allowed_ext; [|rewrite HV', HV; cbn; by rewrite Hp].
    rewrite (rest_processes _ _ (sc_rest _ _ _ _ _ _ Hsc)).
    by rewrite (rest_processes _ _ (woke_rest _ _ _ (sc_woke _ _ _ _ _ _ Hsc))).
  - intros w Hw. rewrite (sc_sleep _ _ _ _ _ _ Hsc) in Hw. apply (Hawake w).
    apply (elem_of_submseteq _ _ _ Hw). apply sublist_submseteq, sublist_drop.
Qed.
End OneCall.

Lemma one_call c C s u q :
  sched_ok s -> cpus s !! c = Some C -> ready_queue s = u :: q -> runnable c s u ->
  exists s' C' w, yield c s = Ok (Switched s' (resume tt)) /\ sched_ok s' /\ cpus s' !! c = Some C' /\
    current_thread C' = u /\ ready_queue s' = q ++ w /\ (forall v, runnable c s v -> runnable c s' v).
Proof.
  intros Hok HC Hq Hu. destruct (ok_cpu _ _ (proj1 Hok) c C HC) as (_ & T & HT & _).
  destruct (schedule_ok c C s T Hok HC HT) as (s1 & s' & n & E & Hok' & Hsc).
  destruct (head_chosen c C s s1 s' n T Hok HC HT Hsc _ _ Hq Hu) as (-> & w & Hq').
  exists s', (MkCPU u (idle_thread C) (cpu_id C) (hartid C)), w. split_and!; [unfold yield, do_scheduler; by rewrite E|done| |reflexivity|done|].
  - rewrite (sc_cpus _ _ _ _ _ _ Hsc). apply list_lookup_insert_eq. by eapply lookup_lt_Some.
  - intros v. by eapply (stays_runnable c C s s1 s' u T).
Qed.

(** C12: every waiting thread gets the CPU.  A thread at position k of the ready
    queue, all entries up to it being runnable on this CPU, is running after at
    most k + 1 calls of do_scheduler on it (yields or timer interrupts), however
    many threads wake up or queue behind it in the meantime. *)
Theorem round_robin c C t l2 : forall l1 s,
  sched_ok s -> cpus s !! c = Some C -> ready_queue s = l1 ++ t :: l2 ->
  Forall (runnable c s) (l1 ++ [t]) ->
  exists s', yields (S (length l1)) c s = Ok s' /\ sched_ok s' /\ current s' c = Ok t.
Proof.
  intros l1. revert l2 C. induction l1 as [|u l1 IH]; intros l2 C s Hok HC Hq Hrun; cbn [app length yields] in *;
    apply Forall_cons in Hrun as [Hu Hrun]; destruct (one_call c C s _ _ Hok HC Hq Hu)
      as (s' & C' & w & -> & Hok' & HC' & Hcur & Hq' & Hstay); cbn [obind].
  - exists s'. split_and!; [done|done|]. unfold current. rewrite HC'. cbn. by rewrite Hcur.
  - apply (IH (l2 ++ w) C' s' Hok' HC'); [by rewrite Hq', <- app_assoc|].
    eapply Forall_impl; [exact Hrun|]. exact Hstay.
Qed.

(** * Stale entries *)

(** an entry that went stale costs the entry behind it its turn.  When the
    thread that gives up the CPU is not ready and the ready queue is a thread
    that has been blocked or killed since it was queued, followed by one that is
    ready and allowed on this CPU, do_scheduler drops the first, passes over the
    second and runs the idle thread; the ready thread waits for the next call. *)
Theorem stale_entry_hides_next c C s T x X t :
  sched_ok s -> cpus s !! c = Some C -> threads s !! current_thread C = Some T ->
  status (with_running false T) <> READY -> sleeping_queue s = [] ->
  ready_queue s = [x; t] -> threads s !! x = Some X -> status X <> READY ->
  exists s', yield c s = Ok (Switched s' (resume tt)) /\ current s' c = Ok (idle_thread C) /\ ready_queue s' = [t].
Proof.
  intros Hok HC HT HTst Hsq Hq HX HXst. destruct (schedule_ok c C s T Hok HC HT) as (s1 & s' & n & E & _ & Hsc).
  set (s0 := set_threads s _) in Hsc. pose proof (sc_woke _ _ _ _ _ _ Hsc) as W.
  change (sleeping_queue s0) with (sleeping_queue s) in W. rewrite Hsq in W. cbn [due take fmap list_fmap] in W.
  assert (Eth : forall v, threads s1 !! v = threads s0 !! v) by (intros v; apply (woke_other _ _ _ W); by intros ?%elem_of_nil).
  destruct (woke_queue _ _ _ W) as (w & Hw & Hsub). destruct (sc_next _ _ _ _ _ _ Hsc) as (r & Hn & Hscan).
  assert (w = []) as -> by (destruct w as [|v w]; [done|]; exfalso; by apply (elem_of_nil v), Hsub; left).
  change (ready_queue s0) with (ready_queue s) in Hw. rewrite app_nil_r, Hq in Hw.
  assert (Hreq : requeued C s1 = []).
  { unfold requeued. rewrite Eth. cbn [threads set_threads s0]. rewrite lookup_insert_eq. by rewrite decide_False. }
  rewrite Hw, Hreq in Hscan. cbn [app length] in Hscan. change (scan_fuel 2) with (S (S 9)) in Hscan.
  assert (HX1 : exists X1, threads s1 !! x = Some X1 /\ status X1 <> READY).
  { rewrite Eth. cbn [threads set_threads s0]. destruct (decide (x = current_thread C)) as [->|Hne].
    - exists (with_running false T). by rewrite lookup_insert_eq.
    - exists X. rewrite lookup_insert_ne by done. split; [done|]. exact HXst. }
  destruct HX1 as (X1 & HX1 & HX1st).
  rewrite (scan_stale s1 c _ x t X1 HX1 HX1st) in Hscan by done. injection Hscan as <- Hq'. cbn in Hn.
  exists s'. split_and!; [unfold yield, do_scheduler; by rewrite E| |done]. unfold current.
  rewrite (sc_cpus _ _ _ _ _ _ Hsc). change (cpus s0) with (cpus s).
  rewrite list_lookup_insert_eq by (by eapply lookup_lt_Some). cbn. by rewrite Hn.
Qed.

(** * Sleeping *)

(** The order of the heap. *)
Definition item_le (x y : Z * Z) : Prop := item_ltb y x = false.

Lemma item_le_trans x y z : item_le x y -> item_le y z -> item_le x z.
Proof. unfold item_le, item_ltb. intros. destruct x, y, z. cbn in *. lia. Qed.

Lemma item_lt_le x y : item_ltb x y = true -> item_le x y.
Proof. unfold item_le, item_ltb. destruct x, y. cbn. lia. Qed.

Lemma item_le_time x y : item_le x y -> x.1 <= y.1.
Proof. unfold item_le, item_ltb. destruct x, y. cbn. lia. Qed.

Lemma heap_push_perm x q : heap_push x q ≡ₚ x :: q.
Proof.
  induction q as [|y q IH]; cbn [heap_push]; [done|]. destruct (item_ltb x y); [done|]. rewrite IH. apply Permutation_swap.
Qed.

Lemma heap_push_sorted x q : StronglySorted item_le q -> StronglySorted item_le (heap_push x q).
Proof.
  induction q as [|y q IH]; cbn [heap_push]; intros Hs; [by repeat constructor|].
  apply StronglySorted_inv in Hs as [Hs Hy]. destruct (item_ltb x y) eqn:E.
  - constructor; [by constructor|]. constructor; [by apply item_lt_le|].
    eapply Forall_impl; [exact Hy|]. intros z. apply item_le_trans. by apply item_lt_le.
  - constructor; [by apply IH|]. rewrite heap_push_perm. by constructor.
Qed.

(** In a sorted heap the due entries are all at the front. *)
Lemma due_sorted now q : StronglySorted item_le q ->
  Forall (fun x => x.1 < now) (take (due now q) q) /\ Forall (fun x => now <= x.1) (drop (due now q) q).
Proof.
  induction q as [|[w t] q IH]; cbn [due]; intros Hs; [done|]. apply StronglySorted_inv in Hs as [Hs Hy].
  destruct (Z.ltb_spec w now); cbn [take drop].
  - destruct (IH Hs). split; [by constructor|done].
  - split; [done|]. constructor; [done|]. eapply Forall_impl; [exact Hy|].
    intros z Hz. apply item_le_time in Hz. cbn in Hz. lia.
Qed.

Lemma wake_once off now : forall fuel s t T,
  sched_inv off s -> (length (sleeping_queue s) <= fuel)%nat -> NoDup (sleeping_queue s).*2 ->
  t ∈ (take (due now (sleeping_queue s)) (sleeping_queue s)).*2 -> threads s !! t = Some T ->
  forall s', wake_sleepers fuel now s = Ok s' ->
  threads s' !! t = Some (with_block_cnt (i32 (status_block_cnt T - 1)) T).
Proof.
  intros fuel. induction fuel as [|fuel IH]; intros s t T Hok Hf Hnd Hin HT s' E; cbn [wake_sleepers] in E;
    destruct (sleeping_queue s) as [|[w u] q] eqn:Hsq; cbn [length due take fmap list_fmap] in *; try lia;
    try by apply elem_of_nil in Hin.
  destruct (w <? now) eqn:Hdue; [|by apply elem_of_nil in Hin]. cbn [take fmap list_fmap snd] in Hin.
  apply NoDup_cons in Hnd as [Hu Hnd]. pose proof (drop_sleeper _ _ _ _ Hok Hsq) as Hok0.
  pose proof (ok_sleepers _ _ Hok w u ltac:(rewrite Hsq; by left)) as [[U HU] Hni].
  destruct (wakeup_ok off _ u Hok0 ltac:(by exists U) Hni) as (s1 & E1 & Hok1 & W1 & Hsq1). rewrite E1 in E. cbn [obind] in E.
  cbn [sleeping_queue set_sleeping_queue] in Hsq1.
  destruct (wake_sleepers_ok off now fuel s1 Hok1 ltac:(rewrite Hsq1; lia)) as (s2 & E2 & _ & W2 & _).
  replace s' with s2 by congruence. rewrite Hsq1 in W2. apply elem_of_cons in Hin as [->|Hin].
  - rewrite (woke_other _ _ _ W2).
    + destruct (wakeup_run _ u T (ok_ready_lock _ _ Hok0) HT) as (s3 & E3 & Hth & _). replace s1 with s3 by congruence.
      rewrite Hth. by rewrite lookup_insert_eq.
    + intros Hd. apply Hu. apply due_sleepers in Hd as [w' Hd]. apply list_elem_of_fmap. by exists (w', u).
  - assert (Hne : t <> u) by (intros ->; apply Hu; apply due_sleepers in Hin as [w' Hd]; apply list_elem_of_fmap; by exists (w', u)).
    apply (IH s1 t T Hok1); [rewrite Hsq1; lia|by rewrite Hsq1|by rewrite Hsq1| |congruence].
    rewrite (woke_other _ _ _ W1); [exact HT|]. by rewrite list_elem_of_singleton.
Qed.

Lemma check_sleeping_wakes off s s' :
  sched_inv off s -> sleep_lock s = false -> check_sleeping s = Ok s' ->
  exists s0 s1, sched_inv off s0 /\ threads s0 = threads s /\ sleeping_queue s0 = sleeping_queue s /\ threads s' = threads s1 /\
    wake_sleepers (length (sleeping_queue s)) (rdtime s (reads s) / time_base s) s0 = Ok s1.
Proof.
  intros Hok Hsl. unfold check_sleeping. rewrite Hsl, lock_free. cbn [obind].
  rewrite (get_timer_run (set_sleep_lock s true) (ok_clock _ _ Hok)). cbn [obind]. intros E.
  set (s0 := set_reads _ _) in E. apply obind_Ok_inv in E as (s1 & E1 & E2). injection E2 as <-.
  exists s0, s1. split_and!; try done. by destruct Hok; split.
Qed.

(** sleepers wake exactly on time.  On a heap kept by sleep (sorted, no thread
    in it twice) check_sleeping returns and leaves exactly the sleepers whose
    wake-up time has not passed.  A sleeper whose time has passed loses one from
    its block counter, and is on the ready queue if nothing else blocks it; the
    others are untouched. *)
Theorem sleepers_wake_on_time s :
  sched_ok s -> StronglySorted item_le (sleeping_queue s) -> NoDup (sleeping_queue s).*2 ->
  let now := rdtime s (reads s) / time_base s in
  exists s', check_sleeping s = Ok s' /\ sched_ok s' /\
    (forall x, x ∈ sleeping_queue s' <-> x ∈ sleeping_queue s /\ now <= x.1) /\
    (forall w t T, (w, t) ∈ sleeping_queue s -> threads s !! t = Some T ->
      if w <? now
      then threads s' !! t = Some (with_block_cnt (i32 (status_block_cnt T - 1)) T) /\
           (status_block_cnt T = 1 -> status_exited T = false -> status_running T = false -> t ∈ ready_queue s')
      else threads s' !! t = Some T).
Proof.
  intros [Hok Hsl] Hsort Hnd now.
  destruct (check_sleeping_ok None s Hok Hsl) as (s' & E & Hok' & Hsl' & W & Hsq'). fold now in W, Hsq'.
  destruct (due_sorted now (sleeping_queue s) Hsort) as [Hpast Hfuture]. rewrite Forall_forall in Hpast, Hfuture.
  pose proof (take_drop (due now (sleeping_queue s)) (sleeping_queue s)) as Hsplit.
  set (a := take _ _) in *. set (b := drop _ _) in *.
  assert (Hab : forall x, x ∈ sleeping_queue s -> x.1 < now /\ x ∈ a \/ now <= x.1 /\ x ∈ b).
  { intros x Hx. rewrite <- Hsplit in Hx. apply elem_of_app in Hx as [Hx|Hx]; auto. }
  exists s'. split_and!; [done|by split| |].
  - intros x. rewrite Hsq'. split.
    + intros Hx. split; [|by apply Hfuture]. rewrite <- Hsplit. apply elem_of_app. by right.
    + intros [Hx Hle]. destruct (Hab x Hx) as [[? _]|[_ ?]]; [lia|done].
  - intros w t T Hx HT. destruct (Hab _ Hx) as [[Hlt Hin]|[Hle Hin]]; cbn [fst] in *.
    + rewrite (proj2 (Z.ltb_lt _ _) Hlt).
      assert (Ht : threads s' !! t = Some (with_block_cnt (i32 (status_block_cnt T - 1)) T)).
      { destruct (check_sleeping_wakes None s s' Hok Hsl E) as (s0 & s1 & Hok0 & Et0 & Eq0 & -> & E1). fold now in E1.
        apply (wake_once None now _ s0 t T Hok0) with (s' := s1) in E1; rewrite ?Eq0, ?Et0; try done.
        apply list_elem_of_fmap. by exists (w, t). }
      split; [done|]. intros Hc He Hr. eapply (ok_ready _ _ Hok'); [exact Ht| | |done].
      * unfold status. cbn. by rewrite Hc, He, Hr.
      * unfold idle. rewrite (woke_cpus _ _ _ W). by apply (ok_sleepers _ _ Hok w t).
    + rewrite (proj2 (Z.ltb_ge _ _) Hle), (woke_other _ _ _ W); [done|].
      intros Hd. apply list_elem_of_fmap in Hd as ([w' t'] & -> & Hd).
      rewrite <- Hsplit, fmap_app in Hnd. apply NoDup_app in Hnd as (_ & Hnd & _).
      apply (Hnd t'); apply list_elem_of_fmap; [by exists (w', t')|by exists (w, t')].
Qed.

(** * A machine with one CPU *)

(** Thread 101 runs, 102 and 105 are queued, [sleep] sleeps; [b1] and [b2] are the
    block counters of 101 and 102. *)
Module OneCpu.

Definition thread (tid b : Z) (on : option nat) : Thread :=
  MkThread (repeat 0 31) 0x200000 0xffffffc051004000 false (if tid =? 0 then 500 else if tid <=? 3 then 501 else 502) tid 0 [] on b false (bool_decide (is_Some on)).
Definition proc (id : Z) (ths : list Z) : Process :=
  MkProcess false id [] (0xffffffc051000000 + id * 4096) None [] ths (2 ^ 64 - 1) 0 0 [] (Z.of_nat (length ths)) 0 false.
Definition no_pool : idpool := MkPool ∅ [] [].

Definition machine (b1 b2 b3 b4 : Z) (sleep : list (Z * Z)) : kernel :=
  MkKernel
    (<[100 := thread 0 0 None]> (<[101 := thread 1 b1 (Some 0%nat)]> (<[102 := thread 2 b2 None]>
      (<[103 := thread 3 b3 None]> (<[104 := thread 4 b4 None]> (<[105 := thread 5 0 None]> ∅))))))
    (map Some [100; 101; 102; 103; 104; 105]) false
    (<[500 := proc 0 [100]]> (<[501 := proc 1 [101; 102; 103]]> (<[502 := proc 2 [104; 105]]> ∅)))
    [Some 500; Some 501; Some 502] false [] false [[]; []; []]
    [MkCPU 101 100 0 0] [102; 105] false sleep false
    ∅ no_pool ∅ no_pool ∅ no_pool ∅ no_pool no_pool (fun n => 1000 + Z.of_nat n) 0 10 [].

Ltac threads_cases H :=
  repeat (apply lookup_insert_Some in H as [[<- <-]|[? H]]); try (by rewrite lookup_empty in H).
Ltac cpu_case c HC := destruct c as [|[|c]]; cbn in HC; [injection HC as <-|discriminate|discriminate].

Lemma idle_only b1 b2 b3 b4 sl t : idle (machine b1 b2 b3 b4 sl) t <-> t = 100.
Proof.
  split.
  - intros (c & C & HC & <-). by cpu_case c HC.
  - intros ->. by exists 0%nat, (MkCPU 101 100 0 0).
Qed.

Lemma machine_ok b1 b2 b3 b4 sl :
  b3 <> 0 -> b4 <> 0 -> Forall (fun x => x.2 = 103 \/ x.2 = 104) sl -> sched_ok (machine b1 b2 b3 b4 sl).
Proof.
  intros Hb3 Hb4 Hsl. split; [|done]. split; try done.
  - intros t T HT. cbn [threads machine] in HT. threads_cases HT; by eexists.
  - intros c C HC. cpu_case c HC. split; [done|]. by exists (thread 1 b1 (Some 0%nat)).
  - intros c C HC. cpu_case c HC. split; [by exists (thread 0 0 None)|]. intros c' C' HC'. by cpu_case c' HC'.
  - intros t T HT Hr. cbn [threads machine] in HT. threads_cases HT; try discriminate Hr.
    by exists 0%nat, (MkCPU 101 100 0 0).
  - intros t Ht. rewrite idle_only. cbn in Ht. repeat (apply elem_of_cons in Ht as [->|Ht]; [split; [by eexists|lia]|]).
    by apply elem_of_nil in Ht.
  - intros w t Ht. rewrite idle_only. rewrite Forall_forall in Hsl.
    destruct (Hsl _ Ht) as [E|E]; cbn in E; subst t; (split; [by eexists|lia]).
  - intros t T HT Hst Hni _. rewrite idle_only in Hni. cbn [threads machine] in HT. threads_cases HT; try done.
    + exfalso. unfold status in Hst. cbn in Hst. by destruct (b1 =? 0).
    + by left.
    + exfalso. unfold status in Hst. cbn in Hst. by destruct (Z.eqb_spec b3 0).
    + exfalso. unfold status in Hst. cbn in Hst. by destruct (Z.eqb_spec b4 0).
    + right. by left.
Qed.

Definition quiet := machine 0 0 1 1 [].
Definition sleepers := machine 0 0 1 1 [(42, 103); (900, 104)].
Definition stale := machine 1 1 1 1 [].
Definition picked (c : nat) (s : kernel) : kernel := match pick_next None c s with Ok (_, _, s') => s' | _ => s end.
Definition after_yield : kernel := match yield 0 quiet with Ok (Switched s _) => s | _ => quiet end.

Lemma quiet_runnable t : t = 102 \/ t = 105 -> runnable 0 quiet t.
Proof. intros [-> | ->]; (split; [by eexists|done|]); intros w Hw; by apply elem_of_nil in Hw. Qed.

End OneCpu.
(** * Two CPUs *)

Module TwoCpus.
Import OneCpu.
(** Thread 101 runs on CPU 0 and 104 on CPU 1, 102 is queued. *)
Definition start : kernel :=
  MkKernel
    (<[99 := thread 0 0 None]> (<[100 := thread 0 0 None]> (<[101 := thread 1 0 (Some 0%nat)]> (<[102 := thread 2 0 None]>
      (<[103 := thread 3 1 None]> (<[104 := thread 4 0 (Some 1%nat)]> ∅))))))
    (map Some [100; 101; 102; 103; 104; 99]) false
    (<[500 := proc 0 [100; 99]]> (<[501 := proc 1 [101; 102; 103]]> (<[502 := proc 2 [104]]> ∅)))
    [Some 500; Some 501; Some 502] false [] false [[]; []; []]
    [MkCPU 101 100 0 0; MkCPU 104 99 1 1] [102] false [] false
    ∅ no_pool ∅ no_pool ∅ no_pool ∅ no_pool no_pool (fun n => 1000 + Z.of_nat n) 0 10 [].
Ltac two_case c HC := destruct c as [|[|[|c]]]; cbn in HC; [injection HC as <-|injection HC as <-|discriminate|discriminate].

Lemma idle_two t : idle start t <-> t = 100 \/ t = 99.
Proof.
  split.
  - intros (c & C & HC & <-). two_case c HC; auto.
  - intros [-> | ->]; [by exists 0%nat, (MkCPU 101 100 0 0)|by exists 1%nat, (MkCPU 104 99 1 1)].
Qed.

Lemma start_ok : sched_ok start.
Proof.
  split; [|done]. split; try done.
  - intros t T HT. cbn [threads start] in HT. threads_cases HT; by eexists.
  - intros c C HC. two_case c HC; (split; [done|]); [by exists (thread 1 0 (Some 0%nat))|by exists (thread 4 0 (Some 1%nat))].
  - intros c C HC. two_case c HC; (split; [by exists (thread 0 0 None)|]); intros c' C' HC'; two_case c' HC'; cbn; lia.
  - intros t T HT Hr. cbn [threads start] in HT. threads_cases HT; try discriminate Hr;
      [by exists 0%nat, (MkCPU 101 100 0 0)|by exists 1%nat, (MkCPU 104 99 1 1)].
  - intros t Ht. rewrite idle_two. cbn in Ht. apply elem_of_cons in Ht as [->|Ht]; [split; [by eexists|lia]|by apply elem_of_nil in Ht].
  - intros w t Ht. by apply elem_of_nil in Ht.
  - intros t T HT Hst Hni _. rewrite idle_two in Hni. cbn [threads start] in HT. threads_cases HT; try done; try (exfalso; tauto). by left.
Qed.

(** Both CPUs yield: CPU 0 queues 101, CPU 1 takes it and switches to it, CPU 0 goes
    on to 102. *)
Definition p0 : kernel := picked 0 start.
Definition p1 : kernel := picked 1 p0.
Definition w1 : kernel := match switch_to p1 1 104 101 with Ok s => s | _ => start end.
Definition w0 : kernel := match switch_to w1 0 101 102 with Ok s => s | _ => start end.
End TwoCpus.

(** The current thread of a CPU counts as running. *)
Lemma current_not_ready s c C : sched_ok s -> cpus s !! c = Some C -> ~ statusof s (current_thread C) READY.
Proof.
  intros Hok HC (T' & HT' & Hst). destruct (ok_cpu _ _ (proj1 Hok) _ _ HC) as (_ & T & HT & _ & Hr).
  rewrite HT in HT'. injection HT' as <-. unfold status in Hst. rewrite Hr in Hst. cbn in Hst. by destruct (status_exited T), (negb _).
Qed.

(** passes of two CPUs that overlap run one thread twice.  From a state of two CPUs
    that satisfies the invariant, one yield on each CPU leads to a state where both
    CPUs have thread 101 as their current thread, CPU 1 having switched to the
    context that 101 had when it last left a CPU; when CPU 0 has gone on, the thread
    that CPU 1 runs counts as ready on no CPU. *)
Theorem overlapping_passes_share_a_thread :
  sched_ok TwoCpus.start /\
  exists x y, rtc any_step (MkSmp TwoCpus.start ∅) x /\ rtc any_step x y /\ passing y = ∅ /\
    current (smp_kernel x) 0 = Ok 101 /\ current (smp_kernel x) 1 = Ok 101 /\
    current (smp_kernel y) 1 = Ok 101 /\ statusof (smp_kernel y) 101 READY /\ ~ sched_ok (smp_kernel y).
Proof.
  split; [apply TwoCpus.start_ok|]. exists (MkSmp TwoCpus.w1 {[0%nat := (101, 102)]}), (MkSmp TwoCpus.w0 ∅).
  assert (E0 : pick_next None 0 TwoCpus.start = Ok (101, 102, TwoCpus.p0)) by (vm_compute; reflexivity).
  assert (E1 : pick_next None 1 TwoCpus.p0 = Ok (104, 101, TwoCpus.p1)) by (vm_compute; reflexivity).
  assert (E2 : switch_to TwoCpus.p1 1 104 101 = Ok TwoCpus.w1) by (vm_compute; reflexivity).
  assert (E3 : switch_to TwoCpus.w1 0 101 102 = Ok TwoCpus.w0) by (vm_compute; reflexivity).
  assert (Hst : statusof TwoCpus.w0 101 READY) by (eexists; split; vm_compute; reflexivity).
  assert (Hc : exists C, cpus TwoCpus.w0 !! 1%nat = Some C /\ current_thread C = 101) by (eexists; split; vm_compute; reflexivity).
  set (a0 := (101, 102)). set (a1 := (104, 101)).
  assert (S0 : smp_step 0 (MkSmp TwoCpus.start ∅) (MkSmp TwoCpus.p0 {[0%nat := a0]})) by (apply (smp_pick 0 _ ∅ TwoCpus.start 101 102); [done|constructor|exact E0]).
  assert (S1 : smp_step 1 (MkSmp TwoCpus.p0 {[0%nat := a0]}) (MkSmp TwoCpus.p1 (<[1%nat := a1]> {[0%nat := a0]}))) by (apply (smp_pick 1 _ _ TwoCpus.p0 104 101); [done|constructor|exact E1]).
  assert (S2 : smp_step 1 (MkSmp TwoCpus.p1 (<[1%nat := a1]> {[0%nat := a0]})) (MkSmp TwoCpus.w1 {[0%nat := a0]})).
  { replace ({[0%nat := a0]} : gmap nat (Z * Z)) with (delete 1%nat (<[1%nat := a1]> {[0%nat := a0]} : gmap nat (Z * Z))) at 2 by done. apply (smp_switch 1 _ _ 104 101); [done|exact E2]. }
  assert (S3 : smp_step 0 (MkSmp TwoCpus.w1 {[0%nat := a0]}) (MkSmp TwoCpus.w0 (delete 0%nat {[0%nat := a0]}))) by (apply (smp_switch 0 _ _ 101 102); [done|exact E3]).
  split; [eapply rtc_l; [by exists 0%nat|]; eapply rtc_l; [by exists 1%nat|]; apply rtc_once; by exists 1%nat|].
  split; [apply rtc_once; by exists 0%nat|].
  split; [done|]. split; [vm_compute; reflexivity|]. split; [vm_compute; reflexivity|]. split; [vm_compute; reflexivity|]. split; [exact Hst|].
  intros Hok. destruct Hc as (C & HC & Ec). apply (current_not_ready _ _ _ Hok HC). rewrite Ec. exact Hst.
Qed.

Import OneCpu.

Lemma scheduler_invariant_witness :
  sched_ok quiet /\ rtc (smp_step 0) (MkSmp quiet ∅) (MkSmp after_yield ∅) /\
  current after_yield 0 = Ok 102 /\
  (forall t T, threads after_yield !! t = Some T -> status T = READY -> ~ idle after_yield t -> t ∈ ready_queue after_yield).
Proof.
  assert (Hok : sched_ok quiet) by (apply machine_ok; [lia|lia|constructor]).
  assert (Hrun : rtc (smp_step 0) (MkSmp quiet ∅) (MkSmp after_yield ∅)).
  { eapply rtc_l; [apply (smp_pick 0 quiet ∅ quiet 101 102 (picked 0 quiet)); [reflexivity|constructor|vm_compute; reflexivity]|].
    rewrite insert_empty, <- (delete_singleton_eq 0%nat (101, 102)). apply rtc_once, (smp_switch 0 _ {[0%nat := (101, 102)]} 101 102); [reflexivity|vm_compute; reflexivity]. }
  split; [exact Hok|]. split; [exact Hrun|]. split; [vm_compute; reflexivity|].
  exact (proj1 (proj2 (proj2 (scheduler_invariant quiet _ Hok (or_intror (ex_intro _ 0%nat Hrun)) eq_refl)))).
Defined.

Lemma round_robin_witness :
  ready_queue quiet = [102] ++ 105 :: [] /\ exists s', yields 2 0 quiet = Ok s' /\ sched_ok s' /\ current s' 0 = Ok 105.
Proof.
  split; [reflexivity|].
  apply (round_robin 0 (MkCPU 101 100 0 0) 105 [] [102] quiet);
    [apply machine_ok; [lia|lia|constructor]|reflexivity|reflexivity|].
  repeat constructor; apply quiet_runnable; auto.
Defined.

Lemma stale_entry_hides_next_witness :
  status (thread 5 0 None) = READY /\
  exists s', yield 0 stale = Ok (Switched s' (resume tt)) /\ current s' 0 = Ok 100 /\ ready_queue s' = [105].
Proof.
  split; [reflexivity|].
  apply (stale_entry_hides_next 0 (MkCPU 101 100 0 0) stale (thread 1 1 (Some 0%nat)) 102 (thread 2 1 None) 105);
    [apply machine_ok; [lia|lia|constructor]|reflexivity|reflexivity|discriminate|reflexivity|reflexivity|reflexivity|discriminate].
Defined.

Lemma sleepers_wake_on_time_witness :
  exists s', check_sleeping sleepers = Ok s' /\ 103 ∈ ready_queue s' /\ sched_ok s'.
Proof.
  destruct (sleepers_wake_on_time sleepers) as (s' & E & Hok & _ & Hw).
  - apply machine_ok; [lia|lia|repeat constructor; cbn; lia].
  - repeat constructor.
  - apply (bool_decide_unpack _). vm_compute. exact I.
  - exists s'. split; [exact E|]. split; [|exact Hok].
    apply (Hw 42 103 (thread 3 1 None)); [by left|reflexivity|reflexivity|reflexivity|reflexivity].
Defined.
