(* ===== verification/Screen.v ===== *)
(** The console: src/drivers/screen.cpp.

    Every process writes at its own cursor into new_screen; screen_reflush sends
    the cells that differ from old_screen to the serial line, each behind a VT100
    cursor movement printed with the kernel's own printv.  The serial line is the
    firmware's ([Uart]).  A terminal that understands the sequences is the
    specification: after a flush it shows new_screen. *)

From Stdlib Require Import ZArith Lia List.
From stdpp Require Import base numbers list gmap.
From S2P Require Import Prelude Mem KString LibcString LibcStdlib KStdio Trie Objects Kernel.

Local Open Scope Z_scope.
#[local] Ltac Zify.zify_post_hook ::= Z.div_mod_to_equations.

Definition SCREEN_WIDTH : Z := 80.
Definition SCREEN_HEIGHT : Z := 50.
Definition SCREEN_LOC (x y : Z) : Z := y * SCREEN_WIDTH + x.

(** The firmware's serial line: [sent] is what went out so far. *)
Class Uart (U : Type) := {
  sent : U -> list Z;
  bios_putchar : Z -> U -> U;
  bios_putstr : list Z -> U -> U;   (* a buffer that holds a terminated string *)
  sent_putchar : forall ch u, sent (bios_putchar ch u) = sent u ++ [ch];
  sent_putstr : forall t rest u, Forall (fun c => c <> 0) t -> sent (bios_putstr (t ++ 0 :: rest) u) = sent u ++ t
}.

(** The two buffers and their lock; the cursors are fields of the processes. *)
Record tty (U : Type) := MkTty { kern : kernel; new_screen : list Z; old_screen : list Z; screen_lock : bool; uart : U }.
Arguments MkTty {U}. Arguments kern {U}. Arguments new_screen {U}. Arguments old_screen {U}.
Arguments screen_lock {U}. Arguments uart {U}.

(** The format strings of the vt100 functions and where they are. *)
Definition fmt_move : list Z := [37; 99; 91; 37; 100; 59; 37; 100; 72].     (* "%c[%d;%dH" *)
Definition fmt_clear : list Z := [37; 99; 91; 50; 74].                      (* "%c[2J" *)
Definition fmt_hidden : list Z := [37; 99; 91; 63; 50; 53; 108].            (* "%c[?25l" *)
Definition rodata : mem :=
  write_bytes (write_bytes (write_bytes ∅ 100 (fmt_move ++ [0])) 200 (fmt_clear ++ [0])) 300 (fmt_hidden ++ [0]).

Section Screen.
Context {U : Type} `{Uart U}.
(** The CPU the code runs on, and what is in _vprint's local arrays. *)
Context (c : nat) (buff0 bf0 : list Z).
Implicit Types s : tty U.

Definition set_kern s v : tty U := MkTty v (new_screen s) (old_screen s) (screen_lock s) (uart s).
Definition set_new s v : tty U := MkTty (kern s) v (old_screen s) (screen_lock s) (uart s).
Definition set_old s v : tty U := MkTty (kern s) (new_screen s) v (screen_lock s) (uart s).
Definition set_slock s v : tty U := MkTty (kern s) (new_screen s) (old_screen s) v (uart s).
Definition set_uart s (v : U) : tty U := MkTty (kern s) (new_screen s) (old_screen s) (screen_lock s) v.

(** current_process->cursor_x and cursor_y *)
Definition current_proc s : outcome Process := p <- current_process (kern s) c ;; or_fault (processes (kern s) !! p).
Definition get_x s : outcome Z := P <- current_proc s ;; Ok (cursor_x P).
Definition get_y s : outcome Z := P <- current_proc s ;; Ok (cursor_y P).
Definition put_x v s : outcome (tty U) := p <- current_process (kern s) c ;; k <- upd_process (kern s) p (with_cursor_x v) ;; Ok (set_kern s k).
Definition put_y v s : outcome (tty U) := p <- current_process (kern s) c ;; k <- upd_process (kern s) p (with_cursor_y v) ;; Ok (set_kern s k).
(** new_screen\[SCREEN_LOC(x, y)\] = ch *)
Definition put_cell x y ch s : outcome (tty U) := n <- aset (new_screen s) (SCREEN_LOC x y) ch ;; Ok (set_new s n).

Definition lock_screen s : outcome (tty U) := b <- lock (screen_lock s) ;; Ok (set_slock s b).
Definition unlock_screen s : tty U := set_slock s (unlock (screen_lock s)).

(** printv on the serial line *)
Definition printv_uart (fmt : Z) (va : list Z) s : outcome (tty U) :=
  '(_, s) <- printv (fun buff s => Ok (set_uart s (bios_putstr buff (uart s)))) 100 rodata buff0 bf0 fmt va s ;; Ok s.

(** static void vt100_move_cursor(int x, int y), vt100_clear(), vt100_hidden_cursor() *)
Definition vt100_move_cursor (x y : Z) s := printv_uart 100 [27; y; x] s.
Definition vt100_clear s := printv_uart 200 [27] s.
Definition vt100_hidden_cursor s := printv_uart 300 [27] s.

(** if (cursor_y < SCREEN_HEIGHT) cursor_y++ *)
Definition next_line s : outcome (tty U) :=
  s <- put_x 0 s ;; y <- get_y s ;; if y <? SCREEN_HEIGHT then put_y (y + 1) s else Ok s.

(** void screen_write_ch(char ch) *)
Definition screen_write_ch (ch : Z) s : outcome (tty U) :=
  if ch =? 10 then next_line s
  else if (ch =? 8) || (ch =? 127) then
    x <- get_x s ;;
    if 0 <? x then s <- put_x (x - 1) s ;; x <- get_x s ;; y <- get_y s ;; put_cell x y 32 s
    else Ok s
  else
    x <- get_x s ;; y <- get_y s ;;
    s <- put_cell x y ch s ;;
    s <- put_x (x + 1) s ;;
    if SCREEN_WIDTH <=? x + 1 then next_line s else Ok s.

(** void screen_reflush(void) *)
Definition reflush_cell (i j : Z) s : outcome (tty U) :=
  a <- aget (new_screen s) (SCREEN_LOC j i) ;;
  b <- aget (old_screen s) (SCREEN_LOC j i) ;;
  if negb (a =? b) then
    s <- vt100_move_cursor (j + 1) (i + 1) s ;;
    let s := set_uart s (bios_putchar a (uart s)) in
    o <- aset (old_screen s) (SCREEN_LOC j i) a ;;
    Ok (set_old s o)
  else Ok s.
Definition screen_reflush s : outcome (tty U) :=
  s <- lock_screen s ;;
  s <- for_range (Z.to_nat SCREEN_HEIGHT) 0 (fun i => for_range (Z.to_nat SCREEN_WIDTH) 0 (reflush_cell i)) s ;;
  x <- get_x s ;; y <- get_y s ;;
  s <- vt100_move_cursor x y s ;;
  Ok (unlock_screen s).

(** void screen_clear(void) *)
Definition screen_clear s : outcome (tty U) :=
  s <- lock_screen s ;;
  s <- for_range (Z.to_nat SCREEN_HEIGHT) 0 (fun i => for_range (Z.to_nat SCREEN_WIDTH) 0 (fun j => put_cell j i 32)) s ;;
  s <- put_x 0 s ;;
  s <- put_y 0 s ;;
  screen_reflush (unlock_screen s).

(** void init_screen(void) *)
Definition init_screen s : outcome (tty U) :=
  s <- vt100_hidden_cursor s ;; s <- vt100_clear s ;; screen_clear s.

(** void screen_move_cursor(int x, int y) *)
Definition clamp (v size : Z) : Z := if size <=? v then size - 1 else if v <? 0 then 0 else v.
Definition screen_move_cursor (x y : Z) s : outcome (tty U) :=
  s <- lock_screen s ;;
  let x := clamp x SCREEN_WIDTH in
  let y := clamp y SCREEN_HEIGHT in
  s <- put_x x s ;;
  s <- put_y y s ;;
  s <- vt100_move_cursor (x + 1) (y + 1) s ;;
  Ok (unlock_screen s).

(** void screen_write(const char *buff): [buff] is the memory behind the pointer. *)
Fixpoint strlen_at (fuel : nat) (buff : list Z) (i : Z) : outcome Z :=
  match fuel with
  | O => OutOfFuel
  | S fuel => ch <- aget buff i ;; if ch =? 0 then Ok i else strlen_at fuel buff (i + 1)
  end.
Definition screen_write (buff : list Z) s : outcome (tty U) :=
  l <- strlen_at (S (length buff)) buff 0 ;;
  s <- lock_screen s ;;
  s <- for_range (Z.to_nat l) 0 (fun i s => ch <- aget buff i ;; screen_write_ch ch s) s ;;
  Ok (unlock_screen s).
End Screen.
