(* ===== verification/ScreenTheorems.v ===== *)
(** Properties of Screen.v: what a write puts where and when it leaves the
    screen, that a flush makes a VT100 terminal show the buffer, and both
    together behind printk. *)

From Stdlib Require Import ZArith Lia List.
From stdpp Require Import base numbers list gmap.
From S2P Require Import Prelude Mem KString LibcString LibcStdlib KStdio Trie Objects Kernel SchedTheorems Screen.

Local Open Scope Z_scope.
#[local] Ltac Zify.zify_post_hook ::= Z.div_mod_to_equations.

(** * The reference: one position instead of two coordinates *)

Definition CELLS : Z := SCREEN_HEIGHT * SCREEN_WIDTH.

(** One character at position [p] of the cells; [None] when it would be stored
    behind the last cell. *)
Definition lay1 (ch : Z) (st : Z * list Z) : option (Z * list Z) :=
  let '(p, cells) := st in
  if ch =? 10 then Some (if p <? CELLS then (p / SCREEN_WIDTH + 1) * SCREEN_WIDTH else p, cells)
  else if (ch =? 8) || (ch =? 127) then
    Some (if p mod SCREEN_WIDTH =? 0 then (p, cells) else (p - 1, <[Z.to_nat (p - 1) := 32]> cells))
  else if p <? CELLS then Some (p + 1, <[Z.to_nat p := ch]> cells)
  else None.
Fixpoint lay (t : list Z) (st : Z * list Z) : option (Z * list Z) :=
  match t with
  | [] => Some st
  | ch :: t => st ← lay1 ch st; lay t st
  end.

Lemma lay1_bounds ch p cells p' cells' :
  0 <= p <= CELLS -> lay1 ch (p, cells) = Some (p', cells') -> 0 <= p' <= CELLS /\ length cells' = length cells.
Proof.
  unfold lay1, CELLS, SCREEN_HEIGHT, SCREEN_WIDTH. intros Hp E. repeat case_match; simplify_eq; rewrite ?length_insert; lia.
Qed.

Lemma lay_bounds t : forall p cells p' cells',
  0 <= p <= CELLS -> lay t (p, cells) = Some (p', cells') -> 0 <= p' <= CELLS /\ length cells' = length cells.
Proof.
  induction t as [|ch t IH]; intros p cells p' cells' Hp E; [cbn in E; simplify_eq; auto|].
  cbn [lay] in E. destruct (lay1 ch (p, cells)) as [[p1 c1]|] eqn:E1; cbn [option_bind mbind] in E; [|discriminate E].
  destruct (lay1_bounds _ _ _ _ _ Hp E1) as [Hp1 <-]. by apply (IH p1 c1).
Qed.

Lemma lay_app t t' st : lay (t ++ t') st = st' ← lay t st; lay t' st'.
Proof. revert st. induction t as [|ch t IH]; intros st; [done|]. simpl. destruct (lay1 ch st); [apply IH|done]. Qed.

(** Writing fails only at the row below the screen. *)
Lemma lay_None t : forall p cells,
  0 <= p <= CELLS -> lay t (p, cells) = None ->
  exists pre ch suf cells', t = pre ++ ch :: suf /\ lay pre (p, cells) = Some (CELLS, cells') /\ ch <> 10.
Proof.
  induction t as [|ch t IH]; intros p cells Hp E; [done|]. cbn [lay] in E.
  destruct (lay1 ch (p, cells)) as [[p1 c1]|] eqn:E1; cbn [option_bind mbind] in E.
  - destruct (lay1_bounds _ _ _ _ _ Hp E1) as [Hp1 _].
    destruct (IH _ _ Hp1 E) as (pre & ch' & suf & cells' & -> & Hl & Hne). exists (ch :: pre), ch', suf, cells'.
    split; [done|]. split; [|done]. cbn [lay]. by rewrite E1.
  - exists [], ch, t, cells. split; [done|]. unfold lay1 in E1. repeat case_match; simplify_eq. split; [|lia]. simpl. do 2 f_equal. lia.
Qed.

(** Text without control characters goes to consecutive cells. *)
Definition plain (t : list Z) : Prop := Forall (fun ch => 32 <= ch < 127) t.

Lemma lay_plain t : forall p cells,
  plain t -> 0 <= p -> p + Z.of_nat (length t) <= CELLS -> length cells = Z.to_nat CELLS ->
  lay t (p, cells) = Some (p + Z.of_nat (length t), take (Z.to_nat p) cells ++ t ++ drop (Z.to_nat p + length t) cells).
Proof.
  induction t as [|ch t IH]; intros p cells Ht Hp Hb Hl.
  - simpl. by rewrite Z.add_0_r, Nat.add_0_r, take_drop.
  - apply Forall_cons in Ht as [Hch Ht]. simpl length in *. simpl lay. unfold lay1.
    destruct (Z.eqb_spec ch 10); [lia|]. destruct (Z.eqb_spec ch 8); [lia|]. destruct (Z.eqb_spec ch 127); [lia|].
    cbn [orb]. destruct (Z.ltb_spec p CELLS); [|lia]. cbn [option_bind mbind].
    rewrite IH by (rewrite ?length_insert; try done; lia). f_equal. f_equal; [lia|].
    replace (Z.to_nat (p + 1)) with (S (Z.to_nat p)) by lia.
    rewrite (take_S_r _ _ ch) by (apply list_lookup_insert_eq; lia).
    rewrite take_insert_ge, drop_insert_lt by lia. rewrite <- app_assoc. cbn [app]. do 2 f_equal. f_equal. f_equal. lia.
Qed.

(** A list that was made equal to [N] up to the [m]-th cell. *)
Lemma splice_same (N X : list Z) m v : N !! m = Some v -> X !! m = Some v -> take m N ++ drop m X = take (S m) N ++ drop (S m) X.
Proof. intros HN HX. rewrite (take_S_r N m v HN), (drop_S X v m HX). by rewrite <- app_assoc. Qed.
Lemma splice_set (N X : list Z) m v :
  N !! m = Some v -> length X = length N -> <[m := v]> (take m N ++ drop m X) = take (S m) N ++ drop (S m) X.
Proof.
  intros HN HX. pose proof (lookup_lt_Some _ _ _ HN). destruct (lookup_lt_is_Some_2 X m) as [w Hw]; [lia|].
  rewrite (drop_S X w m Hw), (take_S_r N m v HN), <- app_assoc. rewrite insert_app_r_alt by (rewrite length_take; lia).
  by rewrite length_take, Nat.min_l, Nat.sub_diag by lia.
Qed.
Lemma splice_lookup (N X : list Z) m : length X = length N -> (m < length N)%nat -> (take m N ++ drop m X) !! m = X !! m.
Proof. intros. rewrite lookup_app_r by (rewrite length_take; lia). rewrite lookup_drop, length_take. f_equal. lia. Qed.
Lemma splice_length (N X : list Z) m : length X = length N -> length (take m N ++ drop m X) = length N.
Proof. intros. rewrite length_app, length_take, length_drop. lia. Qed.

(** * The terminal *)

(** A terminal of the size of the screen: printable bytes go to the cursor's
    cell and advance it, ESC \[ row ; column H moves it (rows and columns count
    from 1, and 0 stands for 1), ESC \[ 2 J blanks the cells; other control
    sequences change nothing that is seen here. *)
Inductive tstate := Ground | Esc | Csi (args : list Z) (n : Z).
Record term := MkTerm { grid : list Z; trow : Z; tcol : Z; tst : tstate }.
Definition to_origin (size v : Z) : Z := Z.min (Z.max v 1) size - 1.
Definition feed1 (t : term) (b : Z) : term :=
  let '(MkTerm g r cl st) := t in
  match st with
  | Ground =>
      if b =? 27 then MkTerm g r cl Esc
      else if (32 <=? b) && (b <? 127) then
        MkTerm (<[Z.to_nat (r * SCREEN_WIDTH + cl) := b]> g) r (Z.min (cl + 1) (SCREEN_WIDTH - 1)) Ground
      else t
  | Esc => if b =? 91 then MkTerm g r cl (Csi [] 0) else MkTerm g r cl Ground
  | Csi args n =>
      if (48 <=? b) && (b <? 58) then MkTerm g r cl (Csi args (n * 10 + (b - 48)))
      else if b =? 59 then MkTerm g r cl (Csi (args ++ [n]) 0)
      else if b =? 72 then
        match args ++ [n] with
        | [] => MkTerm g r cl Ground
        | [a] => MkTerm g (to_origin SCREEN_HEIGHT a) 0 Ground
        | a :: a' :: _ => MkTerm g (to_origin SCREEN_HEIGHT a) (to_origin SCREEN_WIDTH a') Ground
        end
      else if (b =? 74) && (n =? 2) then MkTerm (replicate (length g) 32) r cl Ground
      else if 64 <=? b then MkTerm g r cl Ground
      else t
  end.
Definition feed (t : term) (bs : list Z) : term := fold_left feed1 bs t.

Lemma feed_app t a b : feed t (a ++ b) = feed (feed t a) b.
Proof. apply fold_left_app. Qed.

(** A number below 100 as printf writes it, and the sequence of vt100_move_cursor. *)
Definition dec2 (z : Z) : list Z := if z <? 10 then [48 + z] else [48 + z / 10; 48 + z mod 10].
Definition move_bytes (x y : Z) : list Z := [27; 91] ++ dec2 y ++ [59] ++ dec2 x ++ [72].

Lemma feed_dec2 g r cl args z : 0 <= z < 100 -> feed (MkTerm g r cl (Csi args 0)) (dec2 z) = MkTerm g r cl (Csi args z).
Proof.
  intros Hz. unfold dec2. destruct (Z.ltb_spec z 10); cbn [feed fold_left feed1].
  - replace ((48 <=? 48 + z) && (48 + z <? 58)) with true by lia. do 2 f_equal. lia.
  - replace ((48 <=? 48 + z / 10) && (48 + z / 10 <? 58)) with true by lia.
    cbn [feed1]. replace ((48 <=? 48 + z mod 10) && (48 + z mod 10 <? 58)) with true by lia. do 2 f_equal. lia.
Qed.

Lemma feed_move g r cl x y :
  0 <= x < 100 -> 0 <= y < 100 ->
  feed (MkTerm g r cl Ground) (move_bytes x y) = MkTerm g (to_origin SCREEN_HEIGHT y) (to_origin SCREEN_WIDTH x) Ground.
Proof.
  intros Hx Hy. unfold move_bytes. rewrite feed_app. change (feed (MkTerm g r cl Ground) [27; 91]) with (MkTerm g r cl (Csi [] 0)).
  rewrite feed_app, feed_dec2, feed_app by done. change (feed (MkTerm g r cl (Csi [] y)) [59]) with (MkTerm g r cl (Csi [y] 0)).
  by rewrite feed_app, feed_dec2.
Qed.

(** ** What the kernel prints *)

(** Every cursor movement the screen can ask for, checked one by one. *)
Definition move_check (x y : nat) : bool :=
  bool_decide (render 100 rodata (parse Text fmt_move) [27; Z.of_nat y; Z.of_nat x] = Some (move_bytes (Z.of_nat x) (Z.of_nat y))).
Lemma moves_check : forallb (fun x => forallb (move_check x) (seq 0 52)) (seq 0 82) = true.
Proof. vm_compute. reflexivity. Qed.

Lemma move_check_all x y : (x < 82)%nat -> (y < 52)%nat -> move_check x y = true.
Proof.
  intros Hx Hy. pose proof (proj1 (forallb_forall _ _) moves_check x ltac:(apply in_seq; lia)) as H.
  exact (proj1 (forallb_forall _ _) H y ltac:(apply in_seq; lia)).
Qed.

Lemma move_renders x y :
  0 <= x <= 81 -> 0 <= y <= 51 -> render 100 rodata (parse Text fmt_move) [27; y; x] = Some (move_bytes x y).
Proof.
  intros Hx Hy. pose proof (move_check_all (Z.to_nat x) (Z.to_nat y) ltac:(lia) ltac:(lia)) as H.
  apply bool_decide_eq_true in H. by rewrite !Z2Nat.id in H by lia.
Qed.

Lemma move_bytes_text x y : 0 <= x -> 0 <= y -> Forall (fun b => b <> 0) (move_bytes x y).
Proof.
  intros Hx Hy. unfold move_bytes, dec2.
  destruct (y <? 10), (x <? 10); simpl; repeat constructor; lia.
Qed.

(** * The screen at a position *)

Section Screen.
Context {U : Type} `{!Uart U}.
Context (c : nat) (buff0 bf0 : list Z) (k : kernel) (q : Z) (P : Process).
Context (Hcur : current_process k c = Ok q).

(** The console with the cursor of the current process at (x, y). *)
Definition at_xy (x y : Z) (cells o : list Z) (l : bool) (u : U) : tty U :=
  MkTty (set_processes k (<[q := with_cursor_y y (with_cursor_x x P)]> (processes k))) cells o l u.
Definition at_pos (p : Z) := at_xy (p mod SCREEN_WIDTH) (p / SCREEN_WIDTH).

Lemma at_xy_proc x y cells o l u : current_proc c (at_xy x y cells o l u) = Ok (with_cursor_y y (with_cursor_x x P)).
Proof.
  unfold current_proc. replace (current_process (kern (at_xy x y cells o l u)) c) with (Ok q) by (rewrite <- Hcur; done).
  cbn [obind]. simpl. by rewrite lookup_insert_eq.
Qed.
Lemma get_x_at x y cells o l u : get_x c (at_xy x y cells o l u) = Ok x.
Proof. unfold get_x. by rewrite at_xy_proc. Qed.
Lemma get_y_at x y cells o l u : get_y c (at_xy x y cells o l u) = Ok y.
Proof. unfold get_y. by rewrite at_xy_proc. Qed.
Lemma put_x_at v x y cells o l u : put_x c v (at_xy x y cells o l u) = Ok (at_xy v y cells o l u).
Proof.
  unfold put_x. replace (current_process (kern (at_xy x y cells o l u)) c) with (Ok q) by (rewrite <- Hcur; done).
  cbn [obind]. erewrite upd_process_run by (simpl; apply lookup_insert_eq). cbn [obind]. unfold set_kern, at_xy. simpl.
  unfold set_processes at 1. simpl. by rewrite insert_insert_eq.
Qed.
Lemma put_y_at v x y cells o l u : put_y c v (at_xy x y cells o l u) = Ok (at_xy x v cells o l u).
Proof.
  unfold put_y. replace (current_process (kern (at_xy x y cells o l u)) c) with (Ok q) by (rewrite <- Hcur; done).
  cbn [obind]. erewrite upd_process_run by (simpl; apply lookup_insert_eq). cbn [obind]. unfold set_kern, at_xy. simpl.
  unfold set_processes at 1. simpl. by rewrite insert_insert_eq.
Qed.
Lemma put_cell_at i j ch x y cells o l u :
  length cells = Z.to_nat CELLS -> 0 <= SCREEN_LOC i j ->
  put_cell i j ch (at_xy x y cells o l u) =
  if SCREEN_LOC i j <? CELLS then Ok (at_xy x y (<[Z.to_nat (SCREEN_LOC i j) := ch]> cells) o l u) else Fault.
Proof.
  intros Hl Hp. unfold put_cell. simpl new_screen. destruct (Z.ltb_spec (SCREEN_LOC i j) CELLS).
  - rewrite <- (Z2Nat.id (SCREEN_LOC i j)) at 1 by done. rewrite aset_in by lia. done.
  - rewrite <- (Z2Nat.id (SCREEN_LOC i j)) at 1 by done. rewrite aset_out by lia. done.
Qed.

(** A console is at the position of its cursor. *)
Lemma at_pos_intro s p :
  kern s = k -> processes k !! q = Some P -> cursor_x P = p mod SCREEN_WIDTH -> cursor_y P = p / SCREEN_WIDTH ->
  s = at_pos p (new_screen s) (old_screen s) (screen_lock s) (uart s).
Proof.
  destruct s as [k' n o l u]; simpl. intros -> HP Hx Hy. unfold at_pos, at_xy. f_equal.
  rewrite insert_id; [by destruct k|]. rewrite HP, <- Hx, <- Hy. by destruct P.
Qed.

Lemma next_line_at x y cells o l u :
  0 <= x -> 0 <= y <= SCREEN_HEIGHT ->
  next_line c (at_xy x y cells o l u) = Ok (at_xy 0 (if y <? SCREEN_HEIGHT then y + 1 else y) cells o l u).
Proof. intros. unfold next_line. rewrite put_x_at. cbn [obind]. rewrite get_y_at. cbn [obind]. destruct (y <? _); [apply put_y_at|done]. Qed.

(** screen_write_ch is [lay1]. *)
Lemma screen_write_ch_lay ch p cells o l u :
  0 <= p <= CELLS -> length cells = Z.to_nat CELLS ->
  screen_write_ch c ch (at_pos p cells o l u) =
  match lay1 ch (p, cells) with Some (p', cells') => Ok (at_pos p' cells' o l u) | None => Fault end.
Proof.
  intros Hp Hl. unfold screen_write_ch, lay1, at_pos.
  assert (E80 : forall v r, 0 <= r < 80 -> (v * 80 + r) mod 80 = r /\ (v * 80 + r) / 80 = v) by (intros; lia).
  unfold SCREEN_WIDTH, CELLS, SCREEN_HEIGHT, SCREEN_WIDTH in *.
  destruct (ch =? 10).
  - rewrite next_line_at by (unfold SCREEN_HEIGHT; lia). unfold SCREEN_HEIGHT.
    destruct (Z.ltb_spec p (50 * 80)); destruct (Z.ltb_spec (p / 80) 50); try lia.
    + do 2 f_equal; lia.
    + do 2 f_equal; lia.
  - destruct ((ch =? 8) || (ch =? 127)).
    + rewrite get_x_at. cbn [obind]. destruct (Z.ltb_spec 0 (p mod 80)); destruct (Z.eqb_spec (p mod 80) 0); try lia; [|done].
      rewrite put_x_at. cbn [obind]. rewrite get_x_at, get_y_at. cbn [obind]. rewrite put_cell_at;
        unfold SCREEN_LOC, SCREEN_WIDTH, CELLS, SCREEN_HEIGHT, SCREEN_WIDTH; [|done|lia].
      replace (p / 80 * 80 + (p mod 80 - 1)) with (p - 1) by lia. destruct (Z.ltb_spec (p - 1) (50 * 80)); [|lia].
      do 2 f_equal; lia.
    + rewrite get_x_at, get_y_at. cbn [obind]. rewrite put_cell_at;
        unfold SCREEN_LOC, SCREEN_WIDTH, CELLS, SCREEN_HEIGHT, SCREEN_WIDTH; [|done|lia].
      replace (p / 80 * 80 + p mod 80) with p by lia. destruct (Z.ltb_spec p (50 * 80)); [|done].
      cbn [obind]. rewrite put_x_at. cbn [obind]. destruct (Z.leb_spec 80 (p mod 80 + 1)).
      * rewrite next_line_at by (unfold SCREEN_HEIGHT; lia). unfold SCREEN_HEIGHT. destruct (Z.ltb_spec (p / 80) 50); [|lia].
        do 2 f_equal; lia.
      * do 2 f_equal; lia.
Qed.
(** ** Writing *)

Lemma strlen_at_text t : forall fuel pre rest,
  Forall (fun b => b <> 0) t -> (length t < fuel)%nat ->
  strlen_at fuel (pre ++ t ++ 0 :: rest) (Z.of_nat (length pre)) = Ok (Z.of_nat (length pre + length t)).
Proof.
  induction t as [|b t IH]; intros fuel pre rest Ht Hf; (destruct fuel as [|fuel]; [simpl in Hf; lia|]); cbn [strlen_at].
  - cbn [app]. rewrite aget_middle by done. cbn [obind]. rewrite Z.eqb_refl. f_equal. simpl. lia.
  - apply Forall_cons in Ht as [Hb Ht]. cbn [app]. rewrite aget_middle by done. cbn [obind].
    destruct (Z.eqb_spec b 0); [done|]. replace (pre ++ b :: t ++ 0 :: rest) with ((pre ++ [b]) ++ t ++ 0 :: rest) by (by rewrite <- app_assoc).
    replace (Z.of_nat (length pre) + 1) with (Z.of_nat (length (pre ++ [b]))) by (rewrite length_app; simpl; lia).
    rewrite IH by (simpl in Hf; try done; lia). f_equal. rewrite length_app. simpl. lia.
Qed.

Lemma write_loop_lay t : forall pre rest p cells o l u,
  0 <= p <= CELLS -> length cells = Z.to_nat CELLS ->
  for_range (length t) (Z.of_nat (length pre)) (fun i s => ch <- aget (pre ++ t ++ rest) i ;; screen_write_ch c ch s) (at_pos p cells o l u) =
  match lay t (p, cells) with Some (p', cells') => Ok (at_pos p' cells' o l u) | None => Fault end.
Proof.
  induction t as [|ch t IH]; intros pre rest p cells o l u Hp Hl; [done|]. cbn [length for_range app].
  rewrite aget_middle by done. cbn [obind]. rewrite screen_write_ch_lay by done. cbn [lay].
  destruct (lay1 ch (p, cells)) as [[p1 c1]|] eqn:E1; [|done]. cbn [obind option_bind mbind].
  destruct (lay1_bounds _ _ _ _ _ Hp E1) as [Hp1 Hl1].
  replace (pre ++ ch :: t ++ rest) with ((pre ++ [ch]) ++ t ++ rest) by (by rewrite <- app_assoc).
  replace (Z.of_nat (length pre) + 1) with (Z.of_nat (length (pre ++ [ch]))) by (rewrite length_app; simpl; lia).
  apply IH; [done|]. by rewrite Hl1.
Qed.

Lemma screen_write_lay t rest p cells o u :
  Forall (fun b => b <> 0) t -> 0 <= p <= CELLS -> length cells = Z.to_nat CELLS ->
  screen_write c (t ++ 0 :: rest) (at_pos p cells o false u) =
  match lay t (p, cells) with Some (p', cells') => Ok (at_pos p' cells' o false u) | None => Fault end.
Proof.
  intros Ht Hp Hl. unfold screen_write.
  rewrite (strlen_at_text t _ [] rest Ht) by (rewrite length_app; simpl; lia). cbn [obind]. unfold lock_screen. simpl screen_lock.
  change (lock false) with (Ok true). cbn [obind].
  change (set_slock (at_pos p cells o false u) true) with (at_pos p cells o true u).
  replace (Z.to_nat (Z.of_nat (length (@nil Z) + length t))) with (length t) by (simpl; lia).
  pose proof (write_loop_lay t [] (0 :: rest) p cells o true u Hp Hl) as E. cbn [app length] in E. change (Z.of_nat 0) with 0 in E.
  rewrite E. destruct (lay t (p, cells)) as [[p' cells']|]; done.
Qed.

(** ** Moving the terminal's cursor *)

Lemma vt100_move_sends x y s :
  0 <= x <= 81 -> 0 <= y <= 51 -> length buff0 = 256%nat -> length bf0 = 24%nat ->
  exists u', vt100_move_cursor buff0 bf0 x y s = Ok (set_uart s u') /\ sent u' = sent (uart s) ++ move_bytes x y.
Proof.
  intros Hx Hy Hb Hbf. unfold vt100_move_cursor, printv_uart, printv.
  destruct (vprint_prints 100 rodata buff0 bf0 100 fmt_move [27; y; x] (move_bytes x y)
    (fun buff s => Ok (set_uart s (bios_putstr buff (uart s)))) s) as (buff & Hlb & Ht & ->); try done.
  - unfold rodata, fmt_move, fmt_clear, fmt_hidden. split; [|repeat constructor; lia].
    intros i b Hi. do 12 (destruct i as [|i]; [simpl in Hi; simplify_eq; vm_compute; reflexivity|]). done.
  - simpl. lia.
  - by apply move_renders.
  - cbn [obind]. eexists. split; [done|].
    assert (Hs : take 255 (move_bytes x y) = move_bytes x y).
    { apply take_ge. unfold move_bytes, dec2. destruct (y <? 10), (x <? 10); simpl; lia. }
    rewrite Hs in Ht. rewrite <- (take_drop (length (move_bytes x y) + 1) buff), Ht, <- app_assoc. cbn [app].
    apply sent_putstr, move_bytes_text; lia.
Qed.

(** ** Flushing *)

Section Flush.
Context (N O G M : list Z) (x y : Z) (u0 : U) (t : term).
Context (HN : length N = Z.to_nat CELLS) (HO : length O = length N) (HG : length G = length N).
(** What is sent is printable. *)
Context (Hplain : forall m v w, N !! m = Some v -> O !! m = Some w -> v <> w -> 32 <= v < 127).
Context (Hb : length buff0 = 256%nat) (Hbf : length bf0 = 24%nat).
(** The terminal's cells [G] with those sent that differ in the two buffers *)
Context (HM : length M = length N).
Context (Hm : forall m v w g, N !! m = Some v -> O !! m = Some w -> G !! m = Some g -> M !! m = Some (if decide (v = w) then g else v)).
Context (Ht : tst t = Ground) (Htg : grid t = G).

(** What holds when the cells before the [m]-th were looked at. *)
Definition flushed (m : Z) (s : tty U) : Prop :=
  exists u bs r cl, s = at_xy x y N (take (Z.to_nat m) N ++ drop (Z.to_nat m) O) true u /\ sent u = sent u0 ++ bs /\
    feed t bs = MkTerm (take (Z.to_nat m) M ++ drop (Z.to_nat m) G) r cl Ground.

Lemma reflush_cell_ok i j s :
  0 <= i < SCREEN_HEIGHT -> 0 <= j < SCREEN_WIDTH -> flushed (i * SCREEN_WIDTH + j) s ->
  exists s', reflush_cell buff0 bf0 i j s = Ok s' /\ flushed (i * SCREEN_WIDTH + (j + 1)) s'.
Proof using All.
  unfold SCREEN_HEIGHT, SCREEN_WIDTH. intros Hi Hj (u & bs & r & cl & -> & Hs & Hf).
  unfold reflush_cell, SCREEN_LOC, SCREEN_WIDTH, flushed. simpl new_screen. simpl old_screen.
  replace (Z.to_nat (i * 80 + (j + 1))) with (S (Z.to_nat (i * 80 + j))) by lia.
  set (m := Z.to_nat (i * 80 + j)) in *. replace (i * 80 + j) with (Z.of_nat m) by lia.
  assert (Hlt : (m < length N)%nat) by (rewrite HN; unfold CELLS, SCREEN_HEIGHT, SCREEN_WIDTH; lia).
  destruct (lookup_lt_is_Some_2 N m Hlt) as [v Hv]. destruct (lookup_lt_is_Some_2 O m) as [w Hw]; [lia|].
  destruct (lookup_lt_is_Some_2 G m) as [g Hg]; [lia|]. pose proof (Hm m v w g Hv Hw Hg) as Hmm.
  rewrite (aget_in _ _ _ Hv). cbn [obind]. rewrite (aget_in _ m w) by (by rewrite splice_lookup). cbn [obind].
  destruct (Z.eqb_spec v w) as [<-|Hne]; cbn [negb]; [rewrite decide_True in Hmm by done|rewrite decide_False in Hmm by done].
  - exists (at_xy x y N (take m N ++ drop m O) true u). split; [done|]. exists u, bs, r, cl.
    rewrite <- (splice_same N O m v), <- (splice_same M G m g) by auto. done.
  - destruct (vt100_move_sends (j + 1) (i + 1) (at_xy x y N (take m N ++ drop m O) true u)) as (u' & -> & Hs'); [lia|lia|done|done|].
    cbn [obind]. simpl old_screen. rewrite aset_in by (rewrite splice_length; lia). cbn [obind].
    rewrite splice_set by done. eexists. split; [done|].
    exists (bios_putchar v u'), (bs ++ move_bytes (j + 1) (i + 1) ++ [v]), i, (Z.min (j + 1) 79). split; [done|]. split.
    + rewrite sent_putchar, Hs'. simpl uart. by rewrite Hs, <- !app_assoc.
    + rewrite feed_app, Hf, feed_app, feed_move by lia. unfold to_origin, SCREEN_HEIGHT, SCREEN_WIDTH.
      replace (Z.min (Z.max (i + 1) 1) 50 - 1) with i by lia. replace (Z.min (Z.max (j + 1) 1) 80 - 1) with j by lia.
      pose proof (Hplain m v w Hv Hw Hne) as Hr. cbn [feed fold_left feed1].
      destruct (Z.eqb_spec v 27); [lia|]. replace ((32 <=? v) && (v <? 127)) with true by lia.
      unfold SCREEN_WIDTH. fold m. by rewrite splice_set by (done || lia).
Qed.

Lemma reflush_loops_ok s :
  flushed 0 s ->
  exists s', for_range (Z.to_nat SCREEN_HEIGHT) 0 (fun i => for_range (Z.to_nat SCREEN_WIDTH) 0 (reflush_cell buff0 bf0 i)) s = Ok s' /\ flushed CELLS s'.
Proof using All.
  intros H0. destruct (for_range_inv (fun i => flushed (i * SCREEN_WIDTH))
    (fun i => for_range (Z.to_nat SCREEN_WIDTH) 0 (reflush_cell buff0 bf0 i)) (Z.to_nat SCREEN_HEIGHT) 0 s) as (s' & E & Hs'); [done| |].
  - intros i s1 Hi H1. destruct (for_range_inv (fun j => flushed (i * SCREEN_WIDTH + j)) (reflush_cell buff0 bf0 i) (Z.to_nat SCREEN_WIDTH) 0 s1)
      as (s2 & E2 & H2); [by rewrite Z.add_0_r| |].
    + intros j s2 Hj H2. apply reflush_cell_ok; [lia|unfold SCREEN_WIDTH in *; lia|done].
    + exists s2. split; [done|]. replace ((i + 1) * SCREEN_WIDTH) with (i * SCREEN_WIDTH + (0 + Z.of_nat (Z.to_nat SCREEN_WIDTH))) by (unfold SCREEN_WIDTH; lia). done.
  - exists s'. by split.
Qed.

(** After the flush the terminal shows [M]. *)
Lemma screen_reflush_merges :
  0 <= x <= 81 -> 0 <= y <= 51 ->
  exists u bs, screen_reflush c buff0 bf0 (at_xy x y N O false u0) = Ok (at_xy x y N N false u) /\ sent u = sent u0 ++ bs /\
    feed t bs = MkTerm M (to_origin SCREEN_HEIGHT y) (to_origin SCREEN_WIDTH x) Ground.
Proof using All.
  intros Hx Hy. unfold screen_reflush, lock_screen. simpl screen_lock. change (lock false) with (Ok true). cbn [obind].
  destruct (reflush_loops_ok (at_xy x y N O true u0)) as (s' & E & u & bs & r & cl & -> & Hs & Hf).
  { exists u0, [], (trow t), (tcol t). rewrite app_nil_r. split; [done|]. split; [done|]. simpl. rewrite drop_0, <- Htg, <- Ht. by destruct t. }
  change (set_slock (at_xy x y N O false u0) true) with (at_xy x y N O true u0). rewrite E. cbn [obind].
  rewrite get_x_at, get_y_at. cbn [obind].
  rewrite (take_ge N), (drop_ge O), app_nil_r in * by lia. rewrite (take_ge M), (drop_ge G), app_nil_r in Hf by lia.
  destruct (vt100_move_sends x y (at_xy x y N N true u)) as (u' & -> & Hs'); [lia|lia|done|done|]. cbn [obind].
  exists u', (bs ++ move_bytes x y). split; [done|]. split; [rewrite Hs'; simpl uart; by rewrite Hs, app_assoc|].
  rewrite feed_app, Hf. apply feed_move; lia.
Qed.
End Flush.

(** When the terminal shows the cells that are not sent, it shows the buffer. *)
Lemma screen_reflush_ok N O G x y u0 t :
  length N = Z.to_nat CELLS -> length O = length N -> length G = length N -> plain N -> length buff0 = 256%nat -> length bf0 = 24%nat ->
  (forall m v, N !! m = Some v -> O !! m = Some v -> G !! m = Some v) -> tst t = Ground -> grid t = G -> 0 <= x <= 81 -> 0 <= y <= 51 ->
  exists u bs, screen_reflush c buff0 bf0 (at_xy x y N O false u0) = Ok (at_xy x y N N false u) /\ sent u = sent u0 ++ bs /\
    feed t bs = MkTerm N (to_origin SCREEN_HEIGHT y) (to_origin SCREEN_WIDTH x) Ground.
Proof using Hcur.
  intros HN HO HG Hp Hb Hbf Hag Ht Htg Hx Hy. apply (screen_reflush_merges N O G N); try done.
  - intros m v w Hv _ _. apply (Forall_lookup_1 _ _ _ _ Hp Hv).
  - intros m v w g Hv Hw Hg. case_decide as E; [|done]. subst w. by rewrite Hv, <- (Hag m v Hv Hw).
Qed.
End Screen.

(** * Theorems *)

Section Theorems.
Context {U : Type} `{!Uart U}.
Context (c : nat) (buff0 bf0 : list Z).
Implicit Types (s : tty U) (P : Process) (t : term).

(** The console of the process [q] that runs on CPU [c], with a free lock, whole
    buffers and the cursor on the screen or at the start of the row below it. *)
Record console_ok s (q : Z) P : Prop := {
  co_current : current_process (kern s) c = Ok q;
  co_process : processes (kern s) !! q = Some P;
  co_x : 0 <= cursor_x P < SCREEN_WIDTH;
  co_y : 0 <= cursor_y P <= SCREEN_HEIGHT;
  co_below : cursor_y P = SCREEN_HEIGHT -> cursor_x P = 0;
  co_new : length (new_screen s) = Z.to_nat CELLS;
  co_old : length (old_screen s) = Z.to_nat CELLS;
  co_lock : screen_lock s = false
}.
(** Its position, and the console with the cursor moved and other cells. *)
Definition pos_of P : Z := SCREEN_LOC (cursor_x P) (cursor_y P).
Definition moved_to s q P (p : Z) (cells o : list Z) (u : U) : tty U := at_pos (kern s) q P p cells o false u.

Lemma console_pos s q P : console_ok s q P -> 0 <= pos_of P <= CELLS /\ cursor_x P = pos_of P mod SCREEN_WIDTH /\ cursor_y P = pos_of P / SCREEN_WIDTH.
Proof. intros [_ _ Hx Hy Hb _ _ _]. unfold pos_of, CELLS, SCREEN_LOC, SCREEN_HEIGHT, SCREEN_WIDTH in *. lia. Qed.

Lemma console_at s q P : console_ok s q P -> s = moved_to s q P (pos_of P) (new_screen s) (old_screen s) (uart s).
Proof.
  intros H. destruct (console_pos _ _ _ H) as (_ & Hx & Hy). unfold moved_to. rewrite <- (co_lock _ _ _ H).
  apply (at_pos_intro c (kern s) q P (co_current _ _ _ H)); [done|apply H|done|done].
Qed.

Lemma console_write s q P text rest :
  console_ok s q P -> Forall (fun b => b <> 0) text ->
  screen_write c (text ++ 0 :: rest) s =
  match lay text (pos_of P, new_screen s) with Some (p', cells') => Ok (moved_to s q P p' cells' (old_screen s) (uart s)) | None => Fault end.
Proof.
  intros H Ht. destruct (console_pos _ _ _ H) as (Hp & _ & _).
  pose proof (screen_write_lay c (kern s) q P (co_current _ _ _ H) text rest (pos_of P) (new_screen s) (old_screen s) (uart s) Ht Hp (co_new _ _ _ H)) as E.
  fold (moved_to s q P (pos_of P) (new_screen s) (old_screen s) (uart s)) in E. by rewrite <- (console_at _ _ _ H) in E.
Qed.

(** C39: writing a string either puts every character where the reference puts it,
    inside the buffer, moves only the cursor of the running process and releases
    the lock, or the cursor had reached the row below the screen and the next
    character is stored behind the end of new_screen. *)
Theorem screen_write_bounds s q P text rest :
  console_ok s q P -> Forall (fun b => b <> 0) text ->
  match lay text (pos_of P, new_screen s) with
  | Some (p', cells') =>
      0 <= p' <= CELLS /\ length cells' = Z.to_nat CELLS /\
      screen_write c (text ++ 0 :: rest) s = Ok (moved_to s q P p' cells' (old_screen s) (uart s))
  | None =>
      screen_write c (text ++ 0 :: rest) s = Fault /\
      exists pre ch suf cells', text = pre ++ ch :: suf /\ lay pre (pos_of P, new_screen s) = Some (CELLS, cells') /\ ch <> 10
  end.
Proof.
  intros H Ht. destruct (console_pos _ _ _ H) as (Hp & _ & _).
  pose proof (console_write s q P text rest H Ht) as E. destruct (lay text (pos_of P, new_screen s)) as [[p' cells']|] eqn:El.
  - destruct (lay_bounds _ _ _ _ _ Hp El) as [Hp' ->]. by split; [|split; [apply H|]].
  - split; [done|]. by apply lay_None.
Qed.

(** C21: screen_reflush sends just what makes a terminal that showed the unchanged
    cells show the whole buffer, and remembers it; the cursor of the terminal is
    left one row above and one column left of the process's own. *)
Theorem flush_shows_screen s q P t :
  console_ok s q P -> length buff0 = 256%nat -> length bf0 = 24%nat -> plain (new_screen s) ->
  tst t = Ground -> length (grid t) = Z.to_nat CELLS ->
  (forall m v, new_screen s !! m = Some v -> old_screen s !! m = Some v -> grid t !! m = Some v) ->
  exists u bs, screen_reflush c buff0 bf0 s = Ok (set_uart (set_old s (new_screen s)) u) /\ sent u = sent (uart s) ++ bs /\
    feed t bs = MkTerm (new_screen s) (to_origin SCREEN_HEIGHT (cursor_y P)) (to_origin SCREEN_WIDTH (cursor_x P)) Ground.
Proof.
  intros H Hb Hbf Hpl Ht Hg Hag. pose proof (console_at _ _ _ H) as E. destruct (console_pos _ _ _ H) as (Hp & Hx & Hy).
  destruct (screen_reflush_ok c buff0 bf0 (kern s) q P (co_current _ _ _ H) (new_screen s) (old_screen s) (grid t)
    (cursor_x P) (cursor_y P) (uart s) t) as (u & bs & Er & Hs & Hf); try done; try (rewrite ?(co_new _ _ _ H), ?(co_old _ _ _ H); done).
  1,2: pose proof (co_x _ _ _ H); pose proof (co_y _ _ _ H); unfold SCREEN_WIDTH, SCREEN_HEIGHT in *; lia.
  exists u, bs. split; [|done]. unfold moved_to, at_pos in E. rewrite <- Hx, <- Hy in E. rewrite E at 1. rewrite Er.
  pose proof (f_equal kern E) as Ek. unfold at_xy in Ek |- *. simpl in Ek. unfold set_uart, set_old. simpl.
  by rewrite <- Ek, (co_lock _ _ _ H).
Qed.

(** printk of a text without control characters that fits on the screen: when
    it returns a terminal that showed the old buffer shows the buffer with the
    text at the cursor of the running process, and the cursor is behind it. *)
Theorem printk_reaches_terminal s q P t fuel m fmt f va text :
  console_ok s q P -> length buff0 = 256%nat -> length bf0 = 24%nat ->
  cstr_at m fmt f -> (length f < fuel)%nat -> Z.of_nat fuel < 2 ^ 32 -> render fuel m (parse Text f) va = Some text ->
  plain text -> (length text <= 255)%nat -> pos_of P + Z.of_nat (length text) <= CELLS ->
  plain (new_screen s) -> old_screen s = new_screen s -> grid t = new_screen s -> tst t = Ground ->
  let cells := take (Z.to_nat (pos_of P)) (new_screen s) ++ text ++ drop (Z.to_nat (pos_of P) + length text) (new_screen s) in
  exists u bs row col, printk (screen_write c) (screen_reflush c buff0 bf0) fuel m buff0 bf0 fmt va s
    = Ok (Z.of_nat (length text), moved_to s q P (pos_of P + Z.of_nat (length text)) cells cells u) /\
    sent u = sent (uart s) ++ bs /\ feed t bs = MkTerm cells row col Ground.
Proof.
  intros H Hb Hbf Hm Hf Hf32 Hr Htp Htl Hfit Hpl Ho Hg Ht cells. destruct (console_pos _ _ _ H) as (Hp & _ & _).
  unfold printk, vprintk. destruct (vprint_prints fuel m buff0 bf0 fmt f va text (_output_wrapper (screen_write c) (screen_reflush c buff0 bf0)) s)
    as (buff & _ & Hbuf & ->); [done..|]. rewrite (take_ge text) in * by lia.
  assert (Hn0 : Forall (fun b => b <> 0) text) by (eapply Forall_impl; [exact Htp|intros b Hbb; cbn beta in Hbb; lia]).
  rewrite <- (take_drop (length text + 1) buff), Hbuf, <- app_assoc. cbn [app]. unfold _output_wrapper.
  rewrite (console_write s q P text _ H Hn0), lay_plain by (try done; try lia; apply H). cbn [obind]. fold cells.
  destruct (lay_bounds text (pos_of P) (new_screen s) (pos_of P + Z.of_nat (length text)) cells Hp) as [Hp' Hcl].
  { apply lay_plain; try done; try lia; apply H. }
  set (p' := pos_of P + Z.of_nat (length text)) in *.
  destruct (screen_reflush_ok c buff0 bf0 (kern s) q P (co_current _ _ _ H) cells (old_screen s) (new_screen s)
    (p' mod SCREEN_WIDTH) (p' / SCREEN_WIDTH) (uart s) t) as (u & bs & Er & Hs & Hfd); try done.
  - rewrite Hcl. apply H.
  - by rewrite Ho.
  - subst cells. apply Forall_app. split; [by apply Forall_take|]. apply Forall_app. split; [done|by apply Forall_drop].
  - intros m0 v _ Hv. by rewrite <- Ho.
  - unfold SCREEN_WIDTH. lia.
  - unfold CELLS, SCREEN_HEIGHT, SCREEN_WIDTH in *. lia.
  - fold (at_pos (kern s) q P p' cells (old_screen s) false (uart s)) in Er. unfold moved_to at 1. rewrite Er. cbn [obind].
    exists u, bs, (to_origin SCREEN_HEIGHT (p' / SCREEN_WIDTH)), (to_origin SCREEN_WIDTH (p' mod SCREEN_WIDTH)). done.
Qed.
End Theorems.

(** * A concrete console: a serial line that keeps what it sends, the process 501
    on the only CPU, a blank screen *)
Fixpoint until_nul (b : list Z) : list Z := match b with [] => [] | ch :: b => if ch =? 0 then [] else ch :: until_nul b end.
Lemma until_nul_text t rest : Forall (fun ch => ch <> 0) t -> until_nul (t ++ 0 :: rest) = t.
Proof. induction 1 as [|ch t Hch _ IH]; [done|]. simpl. destruct (Z.eqb_spec ch 0); [done|]. by rewrite IH. Qed.
#[export] Instance line_uart : Uart (list Z) := {
  sent u := u; bios_putchar ch u := u ++ [ch]; bios_putstr b u := u ++ until_nul b;
  sent_putchar _ _ := eq_refl;
  sent_putstr t rest u Ht := f_equal (app u) (until_nul_text t rest Ht)
}.

Definition demo_kernel : kernel := OneCpu.machine 0 0 1 1 [].
Definition demo_proc : Process := OneCpu.proc 1 [101; 102; 103].
Definition blank : list Z := replicate (Z.to_nat CELLS) 32.
Definition demo_tty : tty (list Z) := MkTty demo_kernel blank blank false [].

Lemma demo_console : console_ok 0 demo_tty 501 demo_proc.
Proof. split; try done; cbn; unfold SCREEN_WIDTH, SCREEN_HEIGHT; lia. Qed.
Lemma blank_plain : plain blank.
Proof. apply Forall_replicate. lia. Qed.

(** "hi" goes to the first two cells; fifty newlines and a letter leave the buffer. *)
Example demo_hi : (s <- screen_write 0 [104; 105; 0; 7] demo_tty ;; Ok (take 3 (new_screen s))) = Ok [104; 105; 32].
Proof. vm_compute. reflexivity. Qed.
Example demo_overrun : screen_write 0 (replicate 50 10 ++ [65; 0]) demo_tty = Fault.
Proof. vm_compute. reflexivity. Qed.

Lemma screen_write_bounds_witness :
  console_ok 0 demo_tty 501 demo_proc /\ Forall (fun b => b <> 0) [104; 105] /\
  match lay [104; 105] (pos_of demo_proc, new_screen demo_tty) with
  | Some (p', cells') =>
      0 <= p' <= CELLS /\ length cells' = Z.to_nat CELLS /\
      screen_write 0 ([104; 105] ++ 0 :: [7]) demo_tty = Ok (moved_to demo_tty 501 demo_proc p' cells' (old_screen demo_tty) (uart demo_tty))
  | None =>
      screen_write 0 ([104; 105] ++ 0 :: [7]) demo_tty = Fault /\
      exists pre ch suf cells', [104; 105] = pre ++ ch :: suf /\ lay pre (pos_of demo_proc, new_screen demo_tty) = Some (CELLS, cells') /\ ch <> 10
  end.
Proof.
  assert (H2 : Forall (fun b => b <> 0) [104; 105]) by (repeat constructor; lia).
  split; [exact demo_console|]. split; [exact H2|]. apply (screen_write_bounds 0 demo_tty 501 demo_proc [104; 105] [7] demo_console H2).
Defined.

(** A terminal that shows garbage where the buffers differ. *)
Definition demo_dirty : tty (list Z) := MkTty demo_kernel (<[5%nat := 65]> blank) blank false [].
Lemma demo_dirty_console : console_ok 0 demo_dirty 501 demo_proc.
Proof. split; try done; cbn; unfold SCREEN_WIDTH, SCREEN_HEIGHT; lia. Qed.

Lemma flush_shows_screen_witness :
  console_ok 0 demo_dirty 501 demo_proc /\
  exists u bs, screen_reflush 0 (replicate 256 0) (replicate 24 0) demo_dirty = Ok (set_uart (set_old demo_dirty (new_screen demo_dirty)) u) /\
    sent u = sent (uart demo_dirty) ++ bs /\
    feed (MkTerm (<[5%nat := 64]> blank) 0 0 Ground) bs =
    MkTerm (new_screen demo_dirty) (to_origin SCREEN_HEIGHT (cursor_y demo_proc)) (to_origin SCREEN_WIDTH (cursor_x demo_proc)) Ground.
Proof.
  split; [exact demo_dirty_console|].
  apply (flush_shows_screen 0 (replicate 256 0) (replicate 24 0) demo_dirty 501 demo_proc (MkTerm (<[5%nat := 64]> blank) 0 0 Ground) demo_dirty_console);
    try reflexivity.
  - apply Forall_insert; [exact blank_plain|lia].
  - intros m v Hn Ho. change (<[5%nat := 65]> blank !! m = Some v) in Hn. change (blank !! m = Some v) in Ho.
    change (<[5%nat := 64]> blank !! m = Some v). rewrite list_lookup_insert in Hn |- *. case_decide; [|done].
    exfalso. simplify_eq. unfold blank in Ho. apply lookup_replicate_1 in Ho as [? _]. lia.
Defined.

Lemma printk_reaches_terminal_witness :
  console_ok 0 demo_tty 501 demo_proc /\
  let text := [97; 61; 48; 48; 102; 102; 32; 111; 115; 124] in
  let cells := take (Z.to_nat (pos_of demo_proc)) (new_screen demo_tty) ++ text ++ drop (Z.to_nat (pos_of demo_proc) + length text) (new_screen demo_tty) in
  exists u bs row col, printk (screen_write 0) (screen_reflush 0 (replicate 256 0) (replicate 24 0)) 20 ex_fmt_mem (replicate 256 0) (replicate 24 0) 100 [255; 120] demo_tty
    = Ok (Z.of_nat (length text), moved_to demo_tty 501 demo_proc (pos_of demo_proc + Z.of_nat (length text)) cells cells u) /\
    sent u = sent (uart demo_tty) ++ bs /\ feed (MkTerm blank 0 0 Ground) bs = MkTerm cells row col Ground.
Proof.
  split; [exact demo_console|].
  apply (printk_reaches_terminal 0 (replicate 256 0) (replicate 24 0) demo_tty 501 demo_proc (MkTerm blank 0 0 Ground) 20 ex_fmt_mem 100 ex_fmt [255; 120]
    [97; 61; 48; 48; 102; 102; 32; 111; 115; 124] demo_console); try reflexivity; try exact blank_plain.
  - unfold ex_fmt; solve_mem.
  - simpl; lia.
  - repeat constructor; lia.
  - simpl; lia.
  - vm_compute. discriminate.
Defined.
