(* ===== verification/ConsoleProps.v ===== *)
(** Messages of the kernel on its console: printk of a text without conversions, and
    init_screen, with what the terminal shows afterwards. *)

From Stdlib Require Import ZArith Lia List.
From stdpp Require Import base numbers list gmap.
From S2P Require Import Prelude Mem KString LibcString LibcStdlib KStdio Trie Objects Kernel Screen ScreenTheorems.
Local Open Scope Z_scope.
#[local] Ltac Zify.zify_post_hook ::= Z.div_mod_to_equations.

(** A line of the kernel's messages: printable, without conversions, and newlines. *)
Definition message (t : list Z) : Prop := Forall (fun ch => ch = 10 \/ 32 <= ch < 127 /\ ch <> 37) t.

Lemma render_message fuel m va t : message t -> render fuel m (parse Text t) va = Some t.
Proof.
  induction 1 as [|ch t Hch _ IH]; [done|]. cbn [parse]. destruct (Z.eqb_spec ch 37); [lia|]. cbn [render render1].
  cbn. by rewrite IH.
Qed.
Lemma message_text t : message t -> Forall (fun b => b <> 0) t.
Proof. intros Ht. eapply Forall_impl; [exact Ht|]. intros b Hb. cbn beta in Hb. lia. Qed.
Lemma message_at t : message t -> cstr_at (write_bytes ∅ 100 (t ++ [0])) 100 t.
Proof. intros Ht. split; [apply write_bytes_at|]. eapply Forall_impl; [exact Ht|]. intros b Hb. cbn beta in Hb. lia. Qed.

Lemma lay_plain_cells t : message t -> forall p cells p' cells', plain cells -> lay t (p, cells) = Some (p', cells') -> plain cells'.
Proof.
  induction 1 as [|ch t Hch _ IH]; intros p cells p' cells' Hc E; [cbn in E; by simplify_eq|]. cbn [lay] in E.
  destruct (lay1 ch (p, cells)) as [[p1 c1]|] eqn:E1; cbn [option_bind mbind] in E; [|discriminate E]. apply (IH p1 c1 p' cells'); [|done].
  unfold lay1 in E1. destruct (Z.eqb_spec ch 10); [by simplify_eq|]. destruct (Z.eqb_spec ch 8); [lia|]. destruct (Z.eqb_spec ch 127); [lia|].
  cbn [orb] in E1. destruct (p <? CELLS); simplify_eq. apply Forall_insert; [done|lia].
Qed.

(** The terminal's cells after those that differ in the buffers were sent *)
Definition merge (N O G : list Z) : list Z := zip_with (fun vw g => if decide (vw.1 = vw.2) then g else vw.1) (zip N O) G.
Lemma merge_length N O G : length O = length N -> length G = length N -> length (merge N O G) = length N.
Proof. intros. unfold merge. rewrite !length_zip_with. lia. Qed.
Lemma merge_lookup N O G m v w g : N !! m = Some v -> O !! m = Some w -> G !! m = Some g -> merge N O G !! m = Some (if decide (v = w) then g else v).
Proof. intros Hv Hw Hg. unfold merge. rewrite lookup_zip_with, lookup_zip_with, Hv, Hw, Hg. done. Qed.
Lemma merge_same N G : length G = length N -> merge N N G = G.
Proof.
  intros HG. apply list_eq. intros i. destruct (N !! i) as [v|] eqn:Hv.
  - destruct (lookup_lt_is_Some_2 G i) as [g Hg]; [rewrite HG; by eapply lookup_lt_Some|]. rewrite Hg, (merge_lookup _ _ _ i v v g) by done. by rewrite decide_True.
  - apply lookup_ge_None in Hv. rewrite !(proj2 (lookup_ge_None _ _)); [done|lia|rewrite merge_length; lia].
Qed.
Lemma merge_shown N O : length O = length N -> merge N O O = N.
Proof.
  intros HO. apply list_eq. intros i. destruct (N !! i) as [v|] eqn:Hv.
  - destruct (lookup_lt_is_Some_2 O i) as [g Hg]; [rewrite HO; by eapply lookup_lt_Some|]. rewrite (merge_lookup _ _ _ i v g g) by done. case_decide; congruence.
  - apply lookup_ge_None in Hv. rewrite (proj2 (lookup_ge_None _ _)); [done|rewrite merge_length; lia].
Qed.

Section Console.
Context {U : Type} `{!Uart U}.
Context (c : nat).
Implicit Types (s : tty U) (P : Process) (t : term).

Definition cells_ok (l : list Z) : Prop := length l = Z.to_nat CELLS.
Definition printable_change (N O : list Z) : Prop := forall m v w, N !! m = Some v -> O !! m = Some w -> v <> w -> 32 <= v < 127.
(** The process with its cursor at [p] *)
Definition cursor_at (p : Z) P : Process := with_cursor_y (p / SCREEN_WIDTH) (with_cursor_x (p mod SCREEN_WIDTH) P).

Lemma moved_ok s q P p cells o u : console_ok c s q P -> 0 <= p <= CELLS -> cells_ok cells -> cells_ok o ->
  console_ok c (moved_to s q P p cells o u) q (cursor_at p P) /\ pos_of (cursor_at p P) = p.
Proof.
  intros H Hp Hc Ho. unfold pos_of, cursor_at, SCREEN_LOC, CELLS, SCREEN_WIDTH, SCREEN_HEIGHT in *. split; [|cbn; lia]. split; cbn; try done; try lia.
  - rewrite <- (co_current _ _ _ _ H). done.
  - by rewrite lookup_insert_eq.
  - unfold SCREEN_WIDTH. lia.
  - unfold SCREEN_HEIGHT. lia.
  - unfold SCREEN_HEIGHT. lia.
Qed.

Definition blanked (m : Z) (cells : list Z) : Prop := cells_ok cells /\ take (Z.to_nat m) cells = replicate (Z.to_nat m) 32.
Lemma blanked_step m cells : 0 <= m < CELLS -> blanked m cells -> blanked (m + 1) (<[Z.to_nat m := 32]> cells).
Proof.
  intros Hm [Hl Ht]. unfold cells_ok in *. split; [unfold cells_ok; by rewrite length_insert|]. replace (Z.to_nat (m + 1)) with (S (Z.to_nat m)) by lia.
  rewrite (take_S_r _ _ 32) by (apply list_lookup_insert_eq; lia). rewrite take_insert_ge by lia. by rewrite Ht, <- replicate_S_end.
Qed.

Lemma blank_loops k q P x y cells o u : current_process k c = Ok q -> cells_ok cells ->
  for_range (Z.to_nat SCREEN_HEIGHT) 0 (fun i => for_range (Z.to_nat SCREEN_WIDTH) 0 (fun j => put_cell (U := U) j i 32)) (at_xy k q P x y cells o true u)
  = Ok (at_xy k q P x y (replicate (Z.to_nat CELLS) 32) o true u).
Proof.
  intros Hk Hc. set (I := fun (m : Z) (s : tty U) => exists cells, s = at_xy k q P x y cells o true u /\ blanked m cells).
  destruct (for_range_inv (fun i => I (i * SCREEN_WIDTH)) (fun i => for_range (Z.to_nat SCREEN_WIDTH) 0 (fun j => put_cell (U := U) j i 32)) (Z.to_nat SCREEN_HEIGHT) 0
    (at_xy k q P x y cells o true u)) as (s' & -> & cells' & -> & Hl & Ht); [by exists cells| |].
  - intros i s1 Hi H1. destruct (for_range_inv (fun j => I (i * SCREEN_WIDTH + j)) (fun j => put_cell j i 32) (Z.to_nat SCREEN_WIDTH) 0 s1)
      as (s2 & E2 & H2); [by rewrite Z.add_0_r| |].
    + intros j s2 Hj (cs & -> & Hcs). unfold SCREEN_WIDTH, SCREEN_HEIGHT in *. rewrite (put_cell_at k q P) by (try apply Hcs; unfold SCREEN_LOC, SCREEN_WIDTH; lia).
      unfold SCREEN_LOC, SCREEN_WIDTH. rewrite (proj2 (Z.ltb_lt _ _)) by (unfold CELLS, SCREEN_WIDTH, SCREEN_HEIGHT; lia). eexists. split; [done|].
      eexists. split; [done|]. rewrite Z.add_assoc. apply blanked_step; [unfold CELLS, SCREEN_WIDTH, SCREEN_HEIGHT; lia|done].
    + exists s2. split; [done|]. replace ((i + 1) * SCREEN_WIDTH) with (i * SCREEN_WIDTH + (0 + Z.of_nat (Z.to_nat SCREEN_WIDTH))) by (unfold SCREEN_WIDTH; lia). done.
  - assert (E : cells' = replicate (Z.to_nat CELLS) 32); [|by rewrite E]. unfold cells_ok in Hl. rewrite <- (take_ge cells' (Z.to_nat CELLS)) by lia. exact Ht.
Qed.

Context (buff0 bf0 : list Z) (Hb : length buff0 = 256%nat) (Hbf : length bf0 = 24%nat).

Lemma message_prints s q P t fuel text va p' cells' :
  console_ok c s q P -> message text -> (length text < fuel)%nat -> (length text <= 255)%nat -> Z.of_nat fuel < 2 ^ 32 ->
  lay text (pos_of P, new_screen s) = Some (p', cells') -> printable_change cells' (old_screen s) ->
  cells_ok (grid t) -> tst t = Ground ->
  exists u bs r cl, printk (screen_write c) (screen_reflush c buff0 bf0) fuel (write_bytes ∅ 100 (text ++ [0])) buff0 bf0 100 va s
    = Ok (Z.of_nat (length text), moved_to s q P p' cells' cells' u) /\ sent u = sent (uart s) ++ bs /\
    feed t bs = MkTerm (merge cells' (old_screen s) (grid t)) r cl Ground.
Proof.
  intros H Hm Hf Hl Hf32 El Hch Hg Ht. destruct (console_pos _ _ _ _ H) as (Hp & _ & _). unfold printk, vprintk.
  destruct (vprint_prints fuel (write_bytes ∅ 100 (text ++ [0])) buff0 bf0 100 text va text (_output_wrapper (screen_write c) (screen_reflush c buff0 bf0)) s)
    as (buff & _ & Hbuf & ->); [by apply message_at|done..|by apply render_message|]. rewrite (take_ge text) in * by lia.
  rewrite <- (take_drop (length text + 1) buff), Hbuf, <- app_assoc. cbn [app]. unfold _output_wrapper.
  rewrite (console_write c s q P text _ H (message_text _ Hm)), El. cbn [obind].
  destruct (lay_bounds text _ _ _ _ Hp El) as [Hp' Hcl]. pose proof (co_new _ _ _ _ H) as Hn. pose proof (co_old _ _ _ _ H) as Ho.
  destruct (screen_reflush_merges c buff0 bf0 (kern s) q P (co_current _ _ _ _ H) cells' (old_screen s) (grid t) (merge cells' (old_screen s) (grid t))
    (p' mod SCREEN_WIDTH) (p' / SCREEN_WIDTH) (uart s) t) as (u & bs & Er & Hs & Hfd); try done; unfold cells_ok in *.
  1-3: lia.
  - apply merge_length; lia.
  - apply merge_lookup.
  - unfold SCREEN_WIDTH. lia.
  - unfold CELLS, SCREEN_HEIGHT, SCREEN_WIDTH in *. lia.
  - fold (at_pos (kern s) q P p' cells' (old_screen s) false (uart s)) in Er. unfold moved_to at 1. rewrite Er. cbn [obind].
    exists u, bs, (to_origin SCREEN_HEIGHT (p' / SCREEN_WIDTH)), (to_origin SCREEN_WIDTH (p' mod SCREEN_WIDTH)). done.
Qed.

(** ** init_screen *)

Lemma vt100_sends fmt f va bytes s : cstr_at rodata fmt f -> (length f < 100)%nat -> render 100 rodata (parse Text f) va = Some bytes ->
  Forall (fun b => b <> 0) bytes -> (length bytes <= 255)%nat ->
  exists u', printv_uart buff0 bf0 fmt va s = Ok (set_uart s u') /\ sent u' = sent (uart s) ++ bytes.
Proof.
  intros Hf Hl Hr Hn Hlen. unfold printv_uart, printv.
  destruct (vprint_prints 100 rodata buff0 bf0 fmt f va bytes (fun buff s => Ok (set_uart s (bios_putstr buff (uart s)))) s) as (buff & Hlb & Ht & ->); try done.
  cbn [obind]. eexists. split; [done|]. rewrite (take_ge bytes) in Ht by lia.
  rewrite <- (take_drop (length bytes + 1) buff), Ht, <- app_assoc. cbn [app]. by apply sent_putstr.
Qed.

(** The terminal shows the buffer. *)
Record shows s q P t : Prop := {
  sh_console : console_ok c s q P;
  sh_plain : plain (new_screen s);
  sh_flushed : old_screen s = new_screen s;
  sh_grid : grid t = new_screen s;
  sh_ground : tst t = Ground
}.

Lemma message_shown s q P t fuel text va p' cells' :
  shows s q P t -> message text -> (length text < fuel)%nat -> (length text <= 255)%nat -> Z.of_nat fuel < 2 ^ 32 ->
  lay text (pos_of P, new_screen s) = Some (p', cells') ->
  exists u bs t', printk (screen_write c) (screen_reflush c buff0 bf0) fuel (write_bytes ∅ 100 (text ++ [0])) buff0 bf0 100 va s
    = Ok (Z.of_nat (length text), moved_to s q P p' cells' cells' u) /\ sent u = sent (uart s) ++ bs /\ t' = feed t bs /\
    shows (moved_to s q P p' cells' cells' u) q (cursor_at p' P) t' /\ pos_of (cursor_at p' P) = p'.
Proof.
  intros [H Hpl Ho Hg Hgr] Hm Hf Hl Hf32 El. destruct (console_pos _ _ _ _ H) as (Hp & _ & _). destruct (lay_bounds text _ _ _ _ Hp El) as [Hp' Hcl].
  pose proof (lay_plain_cells _ Hm _ _ _ _ Hpl El) as Hpl'. pose proof (co_new _ _ _ _ H) as Hn.
  destruct (message_prints s q P t fuel text va p' cells') as (u & bs & r & cl & E & Hs & Hfd); try done.
  - intros m v w Hv _ _. apply (Forall_lookup_1 _ _ _ _ Hpl' Hv).
  - unfold cells_ok. by rewrite Hg.
  - destruct (moved_ok s q P p' cells' cells' u H Hp') as [Hok Hpos]; [unfold cells_ok; lia..|].
    exists u, bs, (feed t bs). split_and!; try done. rewrite Hfd, Ho, Hg, merge_shown by lia. by split.
Qed.

Lemma init_screen_shows s q P t : console_ok c s q P -> cells_ok (grid t) -> tst t = Ground ->
  exists u bs, init_screen c buff0 bf0 s = Ok (moved_to s q P 0 (replicate (Z.to_nat CELLS) 32) (replicate (Z.to_nat CELLS) 32) u) /\
    sent u = sent (uart s) ++ bs /\ shows (moved_to s q P 0 (replicate (Z.to_nat CELLS) 32) (replicate (Z.to_nat CELLS) 32) u) q (cursor_at 0 P) (feed t bs).
Proof.
  intros H Hg Ht. unfold init_screen, vt100_hidden_cursor, vt100_clear. pose proof (co_current _ _ _ _ H) as Hk.
  destruct (vt100_sends 300 fmt_hidden [27] [27; 91; 63; 50; 53; 108] s) as (u1 & -> & S1); try done.
  { split; [|repeat constructor; lia]. intros i b Hi. do 8 (destruct i as [|i]; [simpl in Hi; simplify_eq; vm_compute; reflexivity|]). done. }
  { cbn. lia. } { repeat constructor; lia. } { cbn. lia. }
  cbn [obind]. destruct (vt100_sends 200 fmt_clear [27] [27; 91; 50; 74] (set_uart s u1)) as (u2 & -> & S2); try done.
  { split; [|repeat constructor; lia]. intros i b Hi. do 6 (destruct i as [|i]; [simpl in Hi; simplify_eq; vm_compute; reflexivity|]). done. }
  { cbn. lia. } { repeat constructor; lia. } { cbn. lia. }
  cbn [obind uart set_uart] in *. unfold screen_clear, lock_screen. cbn [screen_lock set_uart]. rewrite (co_lock _ _ _ _ H). change (lock false) with (Ok true). cbn [obind].
  destruct (console_pos _ _ _ _ H) as (Hp & _ & _). pose proof (console_at _ _ _ _ H) as Es. unfold moved_to, at_pos in Es.
  set (s0 := at_xy (kern s) q P _ _ _ _ _ _) in Es.
  replace (set_slock (set_uart (set_uart s u1) u2) true) with (set_slock (set_uart (set_uart s0 u1) u2) true) by (by rewrite <- Es).
  change (set_slock (set_uart (set_uart s0 u1) u2) true)
    with (at_xy (kern s) q P (pos_of P mod SCREEN_WIDTH) (pos_of P / SCREEN_WIDTH) (new_screen s) (old_screen s) true u2).
  rewrite (blank_loops (kern s) q P) by (done || apply H). cbn [obind]. rewrite (put_x_at c _ q P Hk). cbn [obind]. rewrite (put_y_at c _ q P Hk). cbn [obind].
  set (blank := replicate (Z.to_nat CELLS) 32). assert (Hbl : length blank = Z.to_nat CELLS) by apply length_replicate. pose proof (co_old _ _ _ _ H) as Ho.
  change (unlock_screen (at_xy (kern s) q P 0 0 blank (old_screen s) true u2)) with (at_xy (kern s) q P 0 0 blank (old_screen s) false u2).
  destruct (screen_reflush_ok c buff0 bf0 (kern s) q P Hk blank (old_screen s) blank 0 0 u2 (MkTerm blank (trow t) (tcol t) Ground)) as (u3 & bs & Er & S3 & Hf); try done; try lia.
  { apply Forall_replicate. lia. }
  exists u3, ([27; 91; 63; 50; 53; 108] ++ [27; 91; 50; 74] ++ bs). split; [exact Er|]. split; [by rewrite S3, S2, S1, <- !app_assoc|].
  assert (Hfeed : feed t ([27; 91; 63; 50; 53; 108] ++ [27; 91; 50; 74] ++ bs) = feed (MkTerm blank (trow t) (tcol t) Ground) bs).
  { rewrite !feed_app. destruct t as [g r cl st]. cbn in Ht, Hg. subst st. unfold blank, cells_ok in *. by rewrite <- Hg. }
  rewrite Hfeed, Hf. destruct (moved_ok s q P 0 blank blank u3 H) as [Hok Hpos]; [unfold CELLS, SCREEN_HEIGHT, SCREEN_WIDTH; lia|done|done|].
  split; try done. apply Forall_replicate. lia.
Qed.
End Console.
