(* ===== verification/Locks.v ===== *)
(** The synchronisation objects of src/locks.cpp: mutexes, barriers, condition
    variables and mailboxes, with the system calls that create, use and close
    them.

    An operation that can block ends in a [kres]: what follows do_block in the
    source is the continuation of [Switched].  Objects are created and released
    through the pools of Objects.v; [fresh] is the address of the object that
    operator new returns. *)

From Stdlib Require Import ZArith Lia List.
From stdpp Require Import base numbers list gmap.
From S2P Require Import Prelude Trie Objects Kernel Sched.

Local Open Scope Z_scope.

Implicit Types (s : kernel) (t : Z).

(** * Stores through pointers to the objects *)

Definition upd_mutex s m (f : mutex_lock -> mutex_lock) : outcome kernel :=
  M <- or_fault (mutexes s !! m) ;; Ok (set_mutexes s (<[m := f M]> (mutexes s))).
Definition upd_barrier s b (f : barrier -> barrier) : outcome kernel :=
  B <- or_fault (barriers s !! b) ;; Ok (set_barriers s (<[b := f B]> (barriers s))).
Definition upd_condition s x (f : condition -> condition) : outcome kernel :=
  X <- or_fault (conditions s !! x) ;; Ok (set_conditions s (<[x := f X]> (conditions s))).
Definition upd_mailbox s x (f : mailbox -> mailbox) : outcome kernel :=
  X <- or_fault (mailboxes s !! x) ;; Ok (set_mailboxes s (<[x := f X]> (mailboxes s))).

(** * class mutex_lock *)

Definition mx_set_lock b (M : mutex_lock) : mutex_lock := MkMutex b (owner M) (mx_queue M).
Definition mx_set_owner o (M : mutex_lock) : mutex_lock := MkMutex (mx_lock M) o (mx_queue M).
Definition mx_set_queue q (M : mutex_lock) : mutex_lock := MkMutex (mx_lock M) (owner M) q.

(** lock.lock() of mutex [m] *)
Definition mx_acquire_spin s m : outcome kernel :=
  M <- or_fault (mutexes s !! m) ;; b <- lock (mx_lock M) ;; upd_mutex s m (mx_set_lock b).
Definition mx_unlock s m : outcome kernel := upd_mutex s m (fun M => mx_set_lock (unlock (mx_lock M)) M).

(** owner = current_cpu->current_thread *)
Definition take_ownership (m : Z) (c : nat) s : outcome (kres unit) :=
  t <- current s c ;; s <- upd_mutex s m (mx_set_owner (Some t)) ;; Ok (Done tt s).

(** void acquire() up to the release of the spin lock; true when "owner =
    current_thread" follows.  The early return leaves the spin lock held. *)
Definition acquire_check (m : Z) (c : nat) s : outcome (kres bool) :=
  s <- mx_acquire_spin s m ;;
  M <- or_fault (mutexes s !! m) ;;
  t <- current s c ;;
  if decide (owner M = Some t) then Ok (Done false s)
  else
    match owner M with
    | Some _ =>
        r <- do_block (fun t s => upd_mutex s m (fun M => mx_set_queue (push (mx_queue M) t) M)) (fun s => mx_unlock s m) c s ;;
        kbind r c (fun _ _ s => Ok (Done true s))
    | None => s <- mx_unlock s m ;; Ok (Done true s)
    end.

(** void acquire(), as one CPU runs it: the owner is stored after the spin lock has
    been released; what another CPU may do in between is in Smp.v. *)
Definition acquire (m : Z) (c : nat) s : outcome (kres unit) :=
  r <- acquire_check m c s ;;
  kbind r c (fun take : bool => if take then take_ownership m else fun _ s => Ok (Done tt s)).

(** void release(Process *p): owner is dereferenced without a test. *)
Definition release (m p : Z) s : outcome kernel :=
  s <- mx_acquire_spin s m ;;
  M <- or_fault (mutexes s !! m) ;;
  o <- or_fault (owner M) ;;
  O <- or_fault (threads s !! o) ;;
  if negb (process O =? p) then mx_unlock s m
  else
    '(r, q, s) <- wakeup_one (mx_queue M) s ;;
    s <- upd_mutex s m (fun M => mx_set_owner r (mx_set_queue q M)) ;;
    mx_unlock s m.

(** * class barrier *)

Definition bar_set_lock b (B : barrier) : barrier := MkBarrier (goal B) (bcount B) (bar_queue B) b.
Definition bar_set_count n (B : barrier) : barrier := MkBarrier (goal B) n (bar_queue B) (bar_lock B).
Definition bar_set_queue q (B : barrier) : barrier := MkBarrier (goal B) (bcount B) q (bar_lock B).
Definition bar_unlock s b : outcome kernel := upd_barrier s b (fun B => bar_set_lock (unlock (bar_lock B)) B).

(** void wait() *)
Definition barrier_wait (b : Z) (c : nat) s : outcome (kres unit) :=
  B <- or_fault (barriers s !! b) ;;
  l <- lock (bar_lock B) ;;
  s <- upd_barrier s b (bar_set_lock l) ;;
  s <- upd_barrier s b (fun B => bar_set_count (u64 (bcount B + 1)) B) ;;
  B <- or_fault (barriers s !! b) ;;
  if bcount B <? goal B then
    do_block (fun t s => upd_barrier s b (fun B => bar_set_queue (push (bar_queue B) t) B)) (fun s => bar_unlock s b) c s
  else
    s <- upd_barrier s b (bar_set_count 0) ;;
    s <- upd_barrier s b (bar_set_queue []) ;;
    s <- wakeup_all (bar_queue B) s ;;
    s <- bar_unlock s b ;;
    Ok (Done tt s).

(** * class condition *)

Definition cond_set_lock b (X : condition) : condition := MkCondition (cond_queue X) b.
Definition cond_set_queue q (X : condition) : condition := MkCondition q (cond_lock X).
Definition cond_acquire_spin s x : outcome kernel :=
  X <- or_fault (conditions s !! x) ;; b <- lock (cond_lock X) ;; upd_condition s x (cond_set_lock b).
Definition cond_unlock s x : outcome kernel := upd_condition s x (fun X => cond_set_lock (unlock (cond_lock X)) X).

(** void wait(mutex_lock *mutex), in the pieces between which another CPU's
    signal can fall: entering the queue and releasing the mutex, blocking and
    switching away, taking the mutex again. *)
Definition cond_enter (x m : Z) (c : nat) s : outcome kernel :=
  s <- cond_acquire_spin s x ;;
  t <- current s c ;;
  s <- upd_condition s x (fun X => cond_set_queue (push (cond_queue X) t) X) ;;
  s <- cond_unlock s x ;;
  p <- current_process s c ;;
  release m p s.
Definition cond_sleep (m : Z) (c : nat) s : outcome (kres unit) :=
  t <- current s c ;;
  s <- block s t ;;
  r <- do_scheduler c s ;;
  kbind r c (fun _ => acquire m).
Definition cond_wait (x m : Z) (c : nat) s : outcome (kres unit) :=
  s <- cond_enter x m c s ;; cond_sleep m c s.

(** void signal() *)
Definition cond_signal (x : Z) s : outcome kernel :=
  s <- cond_acquire_spin s x ;;
  X <- or_fault (conditions s !! x) ;;
  '(_, q, s) <- wakeup_one (cond_queue X) s ;;
  s <- upd_condition s x (cond_set_queue q) ;;
  cond_unlock s x.

(** void broadcast() *)
Definition cond_broadcast (x : Z) s : outcome kernel :=
  s <- cond_acquire_spin s x ;;
  X <- or_fault (conditions s !! x) ;;
  s <- upd_condition s x (cond_set_queue []) ;;
  s <- wakeup_all (cond_queue X) s ;;
  cond_unlock s x.

(** * class mailbox *)

Definition MAX_MSG_SIZE : Z := 4096.

Definition mb_set_lock b (X : mailbox) : mailbox := MkMailbox (msg_queue X) (send_wait_queue X) (recv_wait_queue X) b.
Definition mb_set_msgs q (X : mailbox) : mailbox := MkMailbox q (send_wait_queue X) (recv_wait_queue X) (mb_lock X).
Definition mb_set_send q (X : mailbox) : mailbox := MkMailbox (msg_queue X) q (recv_wait_queue X) (mb_lock X).
Definition mb_set_recv q (X : mailbox) : mailbox := MkMailbox (msg_queue X) (send_wait_queue X) q (mb_lock X).
Definition mb_acquire_spin s x : outcome kernel :=
  X <- or_fault (mailboxes s !! x) ;; b <- lock (mb_lock X) ;; upd_mailbox s x (mb_set_lock b).
Definition mb_unlock s x : outcome kernel := upd_mailbox s x (fun X => mb_set_lock (unlock (mb_lock X)) X).

(** do_block(recv_wait_queue, lock); lock.lock(); the wait queue is the same in
    send and in recv. *)
Definition mb_block_recv (x : Z) (c : nat) s : outcome (kres unit) :=
  r <- do_block (fun t s => upd_mailbox s x (fun X => mb_set_recv (push (recv_wait_queue X) t) X)) (fun s => mb_unlock s x) c s ;;
  kbind r c (fun _ c s => s <- mb_acquire_spin s x ;; Ok (Done tt s)).

(** while (length--) of send; [rest] is what p still points to. *)
Fixpoint send_loop (x : Z) (rest : list Z) (c : nat) s : outcome (kres unit) :=
  match rest with
  | [] => Ok (Done tt s)
  | b :: rest =>
      X <- or_fault (mailboxes s !! x) ;;
      r <- (if MAX_MSG_SIZE <=? Z.of_nat (length (msg_queue X)) then mb_block_recv x c s else Ok (Done tt s)) ;;
      kbind r c (fun _ c s =>
        s <- upd_mailbox s x (fun X => mb_set_msgs (msg_queue X ++ [b]) X) ;;
        X <- or_fault (mailboxes s !! x) ;;
        '(_, q, s) <- wakeup_one (recv_wait_queue X) s ;;
        s <- upd_mailbox s x (mb_set_recv q) ;;
        send_loop x rest c s)
  end.

(** int64_t send(const void *msg, size_t msg_length) *)
Definition mb_send (x : Z) (msg : list Z) (c : nat) s : outcome (kres Z) :=
  s <- mb_acquire_spin s x ;;
  r <- send_loop x msg c s ;;
  kbind r c (fun _ c s => s <- mb_unlock s x ;; Ok (Done (Z.of_nat (length msg)) s)).

(** while (length--) of recv; [acc] is what has been stored to msg. *)
Fixpoint recv_loop (x : Z) (n : nat) (acc : list Z) (c : nat) s : outcome (kres (list Z)) :=
  match n with
  | O => Ok (Done acc s)
  | S n =>
      X <- or_fault (mailboxes s !! x) ;;
      r <- (if decide (msg_queue X = []) then mb_block_recv x c s else Ok (Done tt s)) ;;
      kbind r c (fun _ c s =>
        X <- or_fault (mailboxes s !! x) ;;
        b <- or_fault (head (msg_queue X)) ;;
        s <- upd_mailbox s x (mb_set_msgs (tail (msg_queue X))) ;;
        '(_, q, s) <- wakeup_one (send_wait_queue X) s ;;
        s <- upd_mailbox s x (mb_set_send q) ;;
        recv_loop x n (acc ++ [b]) c s)
  end.

(** int64_t recv(void *msg, size_t msg_length): the stored bytes and the result *)
Definition mb_recv (x : Z) (n : nat) (c : nat) s : outcome (kres (list Z * Z)) :=
  s <- mb_acquire_spin s x ;;
  r <- recv_loop x n [] c s ;;
  kbind r c (fun bytes c s => s <- mb_unlock s x ;; Ok (Done (bytes, Z.of_nat n) s)).

(** * Pools of objects *)

(** The classes derived from IdObject; KFile is File of src/fs/file.cpp. *)
Inductive kind := KMutex | KBarrier | KCondition | KMailbox | KFile.
#[global] Instance kind_eq_dec : EqDecision kind.
Proof. solve_decision. Defined.

Definition get_pool s (k : kind) : idpool :=
  match k with
  | KMutex => mutex_pool s | KBarrier => barrier_pool s
  | KCondition => condition_pool s | KMailbox => mailbox_pool s
  | KFile => file_pool s
  end.
Definition set_pool s (k : kind) (p : idpool) : kernel :=
  match k with
  | KMutex => set_mutex_pool s p | KBarrier => set_barrier_pool s p
  | KCondition => set_condition_pool s p | KMailbox => set_mailbox_pool s p
  | KFile => set_file_pool s p
  end.

(** One pool and the registrations of all processes, as Objects.v has them. *)
Definition world_of s (k : kind) : world :=
  MkWorld (pobjs (get_pool s k)) (pkeymap (get_pool s k)) (ptable (get_pool s k)) (kernel_objects s).
Definition put_world s (k : kind) (w : world) : kernel :=
  set_kernel_objects (set_pool s k (MkPool (objs w) (keymap w) (table w))) (procs w).

Definition pid_of s p : outcome nat := P <- or_fault (processes s !! p) ;; Ok (Z.to_nat (pid P)).

(** The members of an object whose destructor has removed it from its pool: their
    wait queues wake everybody, in the reverse order of declaration. *)
Definition destroy (k : kind) (obj : Z) s : outcome kernel :=
  match k with
  | KMutex => M <- or_fault (mutexes s !! obj) ;; s <- wakeup_all (mx_queue M) s ;; Ok (set_mutexes s (delete obj (mutexes s)))
  | KBarrier => B <- or_fault (barriers s !! obj) ;; s <- wakeup_all (bar_queue B) s ;; Ok (set_barriers s (delete obj (barriers s)))
  | KCondition => X <- or_fault (conditions s !! obj) ;; s <- wakeup_all (cond_queue X) s ;; Ok (set_conditions s (delete obj (conditions s)))
  | KMailbox =>
      X <- or_fault (mailboxes s !! obj) ;;
      s <- wakeup_all (recv_wait_queue X) s ;; s <- wakeup_all (send_wait_queue X) s ;;
      Ok (set_mailboxes s (delete obj (mailboxes s)))
  | KFile => Ok s
  end.

(** Finishing "delete this" when the counter reached zero. *)
Definition destroy_if_deleted (k : kind) (obj : Z) s : outcome kernel :=
  match pobjs (get_pool s k) !! obj with
  | Some _ => Ok s
  | None => destroy k obj s
  end.

(** virtual void on_process_unregister(Process *p): a mutex is released first. *)
Definition on_process_unregister (k : kind) (p obj : Z) s : outcome kernel :=
  s <- match k with KMutex => release obj p s | _ => Ok s end ;;
  w <- Objects.on_process_unregister (world_of s k) obj ;;
  destroy_if_deleted k obj (put_world s k w).

(** int64_t IdPool::init(key, create_fn), called by the current process *)
Definition idpool_init (k : kind) (create_fn : Z -> kernel -> kernel) (key fresh : Z) (c : nat) s : outcome (Z * kernel) :=
  p <- current_process s c ;;
  id <- pid_of s p ;;
  known <- lookup (pkeymap (get_pool s k)) key ;;
  let s := match known with None => create_fn fresh s | Some _ => s end in
  '(h, w) <- pool_init (world_of s k) id key fresh ;;
  Ok (Z.of_nat h, put_world s k w).

(** IdObject *IdPool::get(handle) *)
Definition idpool_get (k : kind) (handle : Z) s : option Z := pool_get (world_of s k) (Z.to_nat handle).

(** void IdPool::close(handle), for the kinds whose on_process_unregister is the inherited one *)
Definition idpool_close (k : kind) (handle : Z) (c : nat) s : outcome kernel :=
  p <- current_process s c ;;
  id <- pid_of s p ;;
  match idpool_get k handle s with
  | None => Ok s
  | Some obj => w <- pool_close (world_of s k) id (Z.to_nat handle) ;; destroy_if_deleted k obj (put_world s k w)
  end.

(** * System calls *)

(** new mutex_lock(), new barrier(goal), new condition(), new mailbox() *)
Definition new_mutex (a : Z) s : kernel := set_mutexes s (<[a := MkMutex false None []]> (mutexes s)).
Definition new_barrier (g a : Z) s : kernel := set_barriers s (<[a := MkBarrier g 0 [] false]> (barriers s)).
Definition new_condition (a : Z) s : kernel := set_conditions s (<[a := MkCondition [] false]> (conditions s)).
Definition new_mailbox (a : Z) s : kernel := set_mailboxes s (<[a := MkMailbox [] [] [] false]> (mailboxes s)).

Definition mutex_init (key fresh : Z) (c : nat) s : outcome (Z * kernel) := idpool_init KMutex new_mutex key fresh c s.
Definition mutex_acquire (mutex_idx : Z) (c : nat) s : outcome (kres unit) :=
  match idpool_get KMutex mutex_idx s with Some m => acquire m c s | None => Ok (Done tt s) end.
Definition mutex_release (mutex_idx : Z) (c : nat) s : outcome kernel :=
  match idpool_get KMutex mutex_idx s with
  | Some m => p <- current_process s c ;; release m p s
  | None => Ok s
  end.

Definition sys_barrier_init (key g fresh : Z) (c : nat) s : outcome (Z * kernel) := idpool_init KBarrier (new_barrier g) key fresh c s.
Definition sys_barrier_wait (bar_idx : Z) (c : nat) s : outcome (kres unit) :=
  match idpool_get KBarrier bar_idx s with Some b => barrier_wait b c s | None => Ok (Done tt s) end.
Definition sys_barrier_destroy (bar_idx : Z) (c : nat) s : outcome kernel := idpool_close KBarrier bar_idx c s.

Definition sys_condition_init (key fresh : Z) (c : nat) s : outcome (Z * kernel) := idpool_init KCondition new_condition key fresh c s.
Definition sys_condition_wait (cond_idx mutex_idx : Z) (c : nat) s : outcome (kres unit) :=
  match idpool_get KCondition cond_idx s, idpool_get KMutex mutex_idx s with
  | Some x, Some m => cond_wait x m c s
  | _, _ => Ok (Done tt s)
  end.
Definition sys_condition_signal (cond_idx : Z) (c : nat) s : outcome kernel :=
  match idpool_get KCondition cond_idx s with Some x => cond_signal x s | None => Ok s end.
Definition sys_condition_broadcast (cond_idx : Z) (c : nat) s : outcome kernel :=
  match idpool_get KCondition cond_idx s with Some x => cond_broadcast x s | None => Ok s end.
Definition sys_condition_destroy (cond_idx : Z) (c : nat) s : outcome kernel := idpool_close KCondition cond_idx c s.

(** The key of a mailbox name *)
Definition mbox_key (name : list Z) : Z := fold_left (fun key ch => u64 (key * 131 + ch)) name 0.
Definition sys_mbox_open (name : list Z) (fresh : Z) (c : nat) s : outcome (Z * kernel) :=
  idpool_init KMailbox new_mailbox (mbox_key name) fresh c s.
Definition sys_mbox_close (mbox_id : Z) (c : nat) s : outcome kernel := idpool_close KMailbox mbox_id c s.
Definition sys_mbox_recv (mbox_idx : Z) (n : nat) (c : nat) s : outcome (kres (list Z * Z)) :=
  match idpool_get KMailbox mbox_idx s with Some x => mb_recv x n c s | None => Ok (Done ([], -1) s) end.
Definition sys_mbox_send (mbox_idx : Z) (msg : list Z) (c : nat) s : outcome (kres Z) :=
  match idpool_get KMailbox mbox_idx s with Some x => mb_send x msg c s | None => Ok (Done (-1) s) end.
