(* ===== verification/LocksProps.v ===== *)
(** What blocking on a wait queue does to the state, and mutual exclusion of the
    mutexes of src/locks.cpp. *)

From Stdlib Require Import ZArith Lia List.
From stdpp Require Import base numbers list gmap relations.
From S2P Require Import Prelude Trie Objects Kernel Sched SchedProps Locks.

Local Open Scope Z_scope.

Implicit Types (s : kernel) (t m : Z).

(** * Blocked threads stay put *)

(** A thread that only a wake-up by its wait queue can make run. *)
Record parked s t : Prop := {
  pk_thread : exists T, threads s !! t = Some T /\ status_block_cnt T = 1 /\ status_running T = false /\ status_exited T = false;
  pk_user : ~ idle s t;
  pk_awake : forall w, (w, t) ∉ sleeping_queue s
}.

(** The thread that executes a system call on CPU [c]. *)
Record executing (c : nat) s t : Prop := {
  ex_current : current s c = Ok t;
  ex_user : ~ idle s t;
  ex_running : statusof s t RUNNING;
  ex_awake : forall w, (w, t) ∉ sleeping_queue s
}.

Lemma executing_cpu c s t : executing c s t -> exists C, cpus s !! c = Some C /\ current_thread C = t.
Proof.
  intros [E _ _ _]. unfold current in E. destruct (cpus s !! c) as [C|]; [|done]. cbn in E. injection E as <-. eauto.
Qed.

Lemma awake_not_due now q t : (forall w, (w, t) ∉ q) -> t ∉ (take (due now q) q).*2.
Proof.
  intros Hq Ht. apply list_elem_of_fmap in Ht as ((w & u) & -> & Hin). apply (Hq w).
  apply (elem_of_submseteq _ _ _ Hin). apply sublist_submseteq, sublist_take.
Qed.

Lemma awake_later now (q : list (Z * Z)) t : (forall w, (w, t) ∉ q) -> forall w, (w, t) ∉ drop (due now q) q.
Proof. intros Hq w Hin. apply (Hq w). apply (elem_of_submseteq _ _ _ Hin). apply sublist_submseteq, sublist_drop. Qed.

Lemma new_idle_same c C s s0 s1 s' n u : scheduled c C s0 s1 s' n -> cpus s0 = cpus s -> cpus s !! c = Some C -> idle s' u -> idle s u.
Proof.
  intros Hsc E HC (d & D & HD & <-). rewrite (sc_cpus _ _ _ _ _ _ Hsc), E in HD.
  destruct (decide (d = c)) as [->|Hne].
  - rewrite list_lookup_insert_eq in HD by (by eapply lookup_lt_Some). injection HD as <-. by exists c, C.
  - rewrite list_lookup_insert_ne in HD by done. by exists d, D.
Qed.

(** do_scheduler by a thread that has just blocked itself: that thread ends up
    parked, the other parked threads are not touched. *)
Lemma park c C s T :
  sched_ok s -> cpus s !! c = Some C -> threads s !! current_thread C = Some T -> ~ idle s (current_thread C) ->
  status_block_cnt T = 1 -> status_exited T = false -> (forall w, (w, current_thread C) ∉ sleeping_queue s) ->
  exists s', do_scheduler c s = Ok (Switched s' (resume tt)) /\ sched_ok s' /\ rest s' = rest s /\
    parked s' (current_thread C) /\
    (forall u, parked s u -> threads s' !! u = threads s !! u /\ parked s' u).
Proof.
  intros Hok HC HT Hni Hb Hex Haw. destruct (schedule_ok c C s T Hok HC HT) as (s1 & s' & n & E & Hok' & Hsc).
  set (s0 := set_threads s _) in Hsc.
  destruct (sc_threads _ _ _ _ _ _ Hsc) as (F & N & HF & HN & HNst & Eth).
  assert (Hsame : forall u, (forall w, (w, u) ∉ sleeping_queue s) -> threads s1 !! u = threads s0 !! u).
  { intros u Hu. apply (woke_other _ _ _ (sc_woke _ _ _ _ _ _ Hsc)). by apply awake_not_due. }
  assert (Hlater : forall u, (forall w, (w, u) ∉ sleeping_queue s) -> forall w, (w, u) ∉ sleeping_queue s').
  { intros u Hu. rewrite (sc_sleep _ _ _ _ _ _ Hsc). by apply awake_later. }
  assert (HF' : F = with_running false T).
  { rewrite (Hsame _ Haw) in HF. cbn [threads set_threads s0] in HF. rewrite lookup_insert_eq in HF. by injection HF. }
  exists s'. split_and!; [unfold do_scheduler; by rewrite E|done|exact (sc_rest _ _ _ _ _ _ Hsc)| |].
  - assert (Hne : n <> current_thread C).
    { intros ->. replace N with F in HNst by congruence. subst F. unfold status in HNst. cbn in HNst. by rewrite Hex, Hb in HNst. }
    split; [|intros Hi; apply Hni; by eapply (new_idle_same c C s s0)|by apply Hlater].
    exists (with_running false (with_running_cpu None F)). rewrite Eth. unfold switched_threads.
    rewrite lookup_insert_ne, lookup_insert_eq by done. by subst F.
  - intros u [(U & HU & Hub & Hur & Hue) Huni Huaw].
    assert (Hcu : u <> current_thread C).
    { intros ->. destruct (ok_cpu _ _ (proj1 Hok) c C HC) as (_ & T' & HT' & _ & Hr). rewrite HU in HT'. injection HT' as <-.
      rewrite bool_decide_eq_false_2 in Hr by done. cbn in Hr. congruence. }
    assert (HU1 : threads s1 !! u = Some U).
    { rewrite (Hsame u Huaw). cbn [threads set_threads s0]. by rewrite lookup_insert_ne. }
    assert (Hnu : n <> u).
    { intros ->. replace N with U in HNst by congruence. unfold status in HNst. by rewrite Hue, Hub in HNst. }
    assert (HU' : threads s' !! u = Some U).
    { rewrite Eth. unfold switched_threads. by rewrite !lookup_insert_ne. }
    split; [congruence|]. split; [eauto|intros Hi; apply Huni; by eapply (new_idle_same c C s s0)|by apply Hlater].
Qed.

Lemma view_current s s' c : sched_view s' = sched_view s -> current s' c = current s c.
Proof. unfold current, sched_view. intros E. by injection E as _ _ -> _ _ _ _ _. Qed.
Lemma view_threads s s' : sched_view s' = sched_view s -> threads s' = threads s.
Proof. unfold sched_view. intros E. by injection E as -> _ _ _ _ _ _ _. Qed.
Lemma view_sleeping s s' : sched_view s' = sched_view s -> sleeping_queue s' = sleeping_queue s.
Proof. unfold sched_view. intros E. by injection E as _ _ _ _ _ -> _ _. Qed.
Lemma view_idle s s' t : sched_view s' = sched_view s -> idle s' t <-> idle s t.
Proof. unfold idle, sched_view. intros E. by injection E as _ _ -> _ _ _ _ _. Qed.

Lemma view_parked s s' t : sched_view s' = sched_view s -> parked s t -> parked s' t.
Proof.
  intros E [H1 H2 H3]. split; [by rewrite (view_threads _ _ E)|by rewrite (view_idle _ _ _ E)|by rewrite (view_sleeping _ _ E)].
Qed.

Lemma running_thread s t : statusof s t RUNNING ->
  exists T, threads s !! t = Some T /\ status_exited T = false /\ status_block_cnt T = 0 /\ status_running T = true.
Proof.
  intros (T & HT & Hst). exists T. split; [done|]. unfold status in Hst.
  destruct (status_exited T), (Z.eqb_spec (status_block_cnt T) 0), (status_running T); try done.
Qed.

Definition blocked_state s t (T : Thread) : kernel := set_threads s (<[t := with_block_cnt 1 T]> (threads s)).

Lemma do_block_parks c s t enq rel s1 s3 T :
  sched_ok s -> executing c s t -> threads s !! t = Some T ->
  enq t s = Ok s1 -> sched_view s1 = sched_view s ->
  rel (blocked_state s1 t T) = Ok s3 -> sched_view s3 = sched_view (blocked_state s1 t T) ->
  exists s', do_block enq rel c s = Ok (Switched s' (resume tt)) /\ sched_ok s' /\ rest s' = rest s3 /\ parked s' t /\
    (forall u, parked s u -> threads s' !! u = threads s !! u /\ parked s' u).
Proof.
  intros Hok Hex HT E1 V1 E3 V3. destruct (executing_cpu _ _ _ Hex) as (C & HC & Hcur).
  pose proof Hex as [Ec Hni Hrun Haw]. destruct (running_thread _ _ Hrun) as (T' & HT' & He & Hb & Hr).
  replace T' with T in * by congruence. pose proof (view_threads _ _ V1) as Et1.
  set (s2 := blocked_state s1 t T) in *.
  assert (Hb1 : block s1 t = Ok s2).
  { unfold block. rewrite (upd_thread_run s1 t _ T) by congruence. by rewrite Hb. }
  assert (HC1 : cpus s1 !! c = Some C) by (unfold sched_view in V1; by injection V1 as _ _ -> _ _ _ _ _).
  assert (Hok1 : sched_ok s1) by (by eapply view_ok).
  assert (Hok2 : sched_ok s2).
  { destruct (block_keeps c t s1 Hok1) as (s2' & E2 & ? & _); [by rewrite (view_current _ _ _ V1)| |congruence].
    by rewrite (view_idle _ _ _ V1). }
  assert (HC3 : cpus s3 !! c = Some C) by (unfold sched_view in V3; by injection V3 as _ _ -> _ _ _ _ _).
  assert (Hni2 : ~ idle s2 t) by (intros Hi; apply Hni; by apply (view_idle _ _ _ V1)).
  assert (HT3 : threads s3 !! t = Some (with_block_cnt 1 T)).
  { rewrite (view_threads _ _ V3). cbn. apply lookup_insert_eq. }
  destruct (park c C s3 (with_block_cnt 1 T)) as (s' & E & Hok' & Hrest & Hpark & Hkeep).
  - by eapply view_ok.
  - done.
  - by rewrite Hcur.
  - rewrite Hcur, (view_idle _ _ _ V3). exact Hni2.
  - done.
  - done.
  - intros w. rewrite Hcur, (view_sleeping _ _ V3). change (sleeping_queue s2) with (sleeping_queue s1).
    rewrite (view_sleeping _ _ V1). apply Haw.
  - exists s'. rewrite Hcur in Hpark. split_and!; try done.
    + unfold do_block, block_current. rewrite Ec. cbn [obind]. rewrite E1. cbn [obind]. rewrite Hb1. cbn [obind]. rewrite E3. exact E.
    + intros u Hu. assert (Hut : u <> t).
      { intros ->. destruct Hu as [(U & HU & _ & Hur & _) _ _]. congruence. }
      assert (Hu3 : parked s3 u).
      { eapply view_parked; [exact V3|]. apply (view_parked _ _ _ V1) in Hu as [(U & HU & ?) ? ?].
        split; [|done..]. exists U. cbn [threads set_threads s2 blocked_state]. by rewrite lookup_insert_ne. }
      destruct (Hkeep u Hu3) as [E' ?]. split; [|done]. rewrite E', (view_threads _ _ V3).
      cbn [threads set_threads s2 blocked_state]. by rewrite lookup_insert_ne, Et1.
Qed.

(** * Mutexes *)

Lemma upd_mutex_run s m f M : mutexes s !! m = Some M -> upd_mutex s m f = Ok (set_mutexes s (<[m := f M]> (mutexes s))).
Proof. intros E. unfold upd_mutex. by rewrite E. Qed.

Lemma mx_spin_run s m M : mutexes s !! m = Some M -> mx_lock M = false ->
  mx_acquire_spin s m = Ok (set_mutexes s (<[m := mx_set_lock true M]> (mutexes s))).
Proof. intros HM Hl. unfold mx_acquire_spin. rewrite HM. cbn [or_fault obind]. rewrite Hl, lock_free. cbn [obind]. by apply upd_mutex_run. Qed.

(** A free mutex is taken at once. *)
Lemma acquire_check_free c s t m M :
  current s c = Ok t -> mutexes s !! m = Some M -> mx_lock M = false -> owner M = None ->
  acquire_check m c s = Ok (Done true (set_mutexes s (<[m := M]> (mutexes s)))).
Proof.
  intros Ec HM Hl Ho. unfold acquire_check. rewrite (mx_spin_run s m M HM Hl). cbn [obind].
  set (s1 := set_mutexes s _). assert (HM1 : mutexes s1 !! m = Some (mx_set_lock true M)) by apply lookup_insert_eq.
  rewrite HM1. cbn [or_fault obind]. change (current s1 c) with (current s c). rewrite Ec. cbn [obind].
  change (owner (mx_set_lock true M)) with (owner M). rewrite Ho. rewrite decide_False by done.
  unfold mx_unlock. rewrite (upd_mutex_run s1 m _ _ HM1). cbn [obind mutexes set_mutexes s1]. rewrite insert_insert_eq.
  destruct M as [l o q]. cbn in Hl. by subst l.
Qed.
Lemma acquire_free c s t m M :
  current s c = Ok t -> mutexes s !! m = Some M -> mx_lock M = false -> owner M = None ->
  acquire m c s = Ok (Done tt (set_mutexes s (<[m := MkMutex false (Some t) (mx_queue M)]> (mutexes s)))).
Proof.
  intros Ec HM Hl Ho. unfold acquire. rewrite (acquire_check_free c s t m M Ec HM Hl Ho). cbn [obind kbind]. unfold take_ownership.
  change (current (set_mutexes s _) c) with (current s c). rewrite Ec. cbn [obind].
  erewrite upd_mutex_run by apply lookup_insert_eq. cbn [obind mutexes set_mutexes]. rewrite insert_insert_eq.
  destruct M as [l o q]. cbn in Hl. by subst l.
Qed.

(** On a mutex somebody else owns the thread is parked in its queue, and takes
    the mutex when it runs again. *)
Lemma acquire_taken c s t m M o :
  sched_ok s -> executing c s t -> mutexes s !! m = Some M -> mx_lock M = false -> owner M = Some o -> o <> t ->
  exists s' k, acquire m c s = Ok (Switched s' k) /\ (forall c s, k c s = take_ownership m c s) /\ sched_ok s' /\
    mutexes s' = <[m := MkMutex false (Some o) (mx_queue M ++ [t])]> (mutexes s) /\ parked s' t /\
    (forall u, parked s u -> threads s' !! u = threads s !! u /\ parked s' u).
Proof.
  intros Hok Hex HM Hl Ho Hot. pose proof Hex as [Ec _ Hrun _]. destruct (running_thread _ _ Hrun) as (T & HT & _).
  unfold acquire, acquire_check. rewrite (mx_spin_run s m M HM Hl). cbn [obind].
  set (s1 := set_mutexes s _). assert (HM1 : mutexes s1 !! m = Some (mx_set_lock true M)) by apply lookup_insert_eq.
  rewrite HM1. cbn [or_fault obind]. change (current s1 c) with (current s c). rewrite Ec. cbn [obind].
  change (owner (mx_set_lock true M)) with (owner M). rewrite Ho, decide_False by congruence.
  set (M2 := MkMutex true (Some o) (mx_queue M ++ [t])). set (M3 := MkMutex false (Some o) (mx_queue M ++ [t])).
  set (s2 := set_mutexes s1 (<[m := M2]> (mutexes s1))).
  set (s3 := set_mutexes (blocked_state s2 t T) (<[m := M3]> (mutexes s2))).
  match goal with |- context [do_block ?e ?r c s1] =>
    destruct (do_block_parks c s1 t e r s2 s3 T) as (s' & E & Hok' & Hrest & Hpark & Hkeep) end.
  - revert Hok. by apply view_ok.
  - destruct Hex. by split.
  - done.
  - cbv beta. rewrite (upd_mutex_run s1 m _ _ HM1). unfold s2, M2, mx_set_queue, mx_set_lock, push. cbn [owner mx_queue mx_lock]. by rewrite Ho.
  - done.
  - cbv beta. unfold mx_unlock. erewrite upd_mutex_run by apply lookup_insert_eq. done.
  - done.
  - rewrite E. cbn [obind kbind]. eexists s', _. split; [reflexivity|]. split_and!; [done|done| |done|].
    2: { intros u Hu. apply Hkeep. revert Hu. by apply view_parked. }
    etransitivity; [exact (f_equal mutexes Hrest)|]. cbn. rewrite !insert_insert_eq. done.
Qed.

(** release by a thread of the owner's process: the first waiter, if any, becomes
    the owner and is woken. *)
Lemma release_run s m p M o O :
  mutexes s !! m = Some M -> mx_lock M = false -> owner M = Some o -> threads s !! o = Some O -> process O = p ->
  release m p s =
    ('(r, q, s1) <- wakeup_one (mx_queue M) (set_mutexes s (<[m := mx_set_lock true M]> (mutexes s))) ;;
     s2 <- upd_mutex s1 m (fun M => mx_set_owner r (mx_set_queue q M)) ;; mx_unlock s2 m).
Proof.
  intros HM Hl Ho HO <-. unfold release. rewrite (mx_spin_run s m M HM Hl). cbn [obind].
  set (s1 := set_mutexes s _). assert (HM1 : mutexes s1 !! m = Some (mx_set_lock true M)) by apply lookup_insert_eq.
  rewrite HM1. cbn [or_fault obind]. change (owner (mx_set_lock true M)) with (owner M). rewrite Ho. cbn [or_fault obind].
  change (threads s1) with (threads s). rewrite HO. cbn [or_fault obind]. by rewrite Z.eqb_refl.
Qed.

Lemma release_last s m M o O :
  mutexes s !! m = Some M -> mx_lock M = false -> owner M = Some o -> threads s !! o = Some O -> mx_queue M = [] ->
  release m (process O) s = Ok (set_mutexes s (<[m := MkMutex false None []]> (mutexes s))).
Proof.
  intros HM Hl Ho HO Hq. rewrite (release_run s m _ M o O HM Hl Ho HO eq_refl), Hq. cbn [wakeup_one obind].
  erewrite upd_mutex_run by apply lookup_insert_eq. cbn [obind]. unfold mx_unlock.
  erewrite upd_mutex_run by apply lookup_insert_eq. cbn [mutexes set_mutexes]. rewrite !insert_insert_eq.
  unfold mx_set_owner, mx_set_queue, mx_set_lock, unlock. cbn. done.
Qed.

Lemma release_handoff s m M o O t q :
  sched_ok s -> mutexes s !! m = Some M -> mx_lock M = false -> owner M = Some o -> threads s !! o = Some O ->
  mx_queue M = t :: q -> parked s t ->
  exists s', release m (process O) s = Ok s' /\ sched_ok s' /\ mutexes s' = <[m := MkMutex false (Some t) q]> (mutexes s) /\
    statusof s' t READY /\ t ∈ ready_queue s' /\ (forall u, u <> t -> threads s' !! u = threads s !! u) /\
    (forall u, u <> t -> parked s u -> parked s' u).
Proof.
  intros Hok HM Hl Ho HO Hq [(T & HT & Hb & Hr & He) Hni Haw].
  rewrite (release_run s m _ M o O HM Hl Ho HO eq_refl), Hq. cbn [wakeup_one].
  set (s1 := set_mutexes s _). assert (Hok1 : sched_ok s1) by (revert Hok; by apply view_ok).
  destruct (wakeup_ok None s1 t (proj1 Hok1)) as (s2 & E2 & Hok2 & W & Hsq); [by exists T|done|].
  rewrite E2. cbn [obind].
  assert (Emx : mutexes s2 = mutexes s1) by exact (f_equal mutexes (woke_rest _ _ _ W)).
  assert (HM2 : mutexes s2 !! m = Some (mx_set_lock true M)) by (rewrite Emx; apply lookup_insert_eq).
  rewrite (upd_mutex_run s2 m _ _ HM2). cbn [obind]. unfold mx_unlock. erewrite upd_mutex_run by apply lookup_insert_eq.
  eexists. split; [reflexivity|]. set (s3 := set_mutexes s2 _). cbn [set_mutexes mutexes s3].
  assert (Hsl2 : sleep_lock s2 = false) by (rewrite <- (proj2 Hok1); exact (f_equal sleep_lock (woke_rest _ _ _ W))).
  assert (HT2 : threads s2 !! t = Some (with_block_cnt 0 T)).
  { destruct (wakeup_run s1 t T (ok_ready_lock _ _ (proj1 Hok1)) HT) as (s2' & E2' & Hth & _).
    replace s2' with s2 in Hth by congruence. rewrite Hth, lookup_insert_eq. by rewrite Hb. }
  assert (Hst : status (with_block_cnt 0 T) = READY) by (unfold status; cbn; by rewrite He, Hr).
  assert (Hni2 : ~ idle s2 t) by (unfold idle; by rewrite (woke_cpus _ _ _ W)).
  assert (Hoth : forall u, u <> t -> threads s2 !! u = threads s !! u).
  { intros u Hu. rewrite (woke_other _ _ _ W) by (by rewrite list_elem_of_singleton). done. }
  split_and!.
  - eapply view_ok with (s := s2); [done|by split].
  - rewrite !insert_insert_eq, Emx. cbn. by rewrite insert_insert_eq.
  - by exists (with_block_cnt 0 T).
  - by apply (ok_ready _ _ Hok2 t (with_block_cnt 0 T)).
  - exact Hoth.
  - intros u Hu [(U & HU & ?) Hniu Hawu]. split.
    + exists U. change (threads _) with (threads s2). rewrite Hoth by done. done.
    + intros (d & D & HD & <-). apply Hniu. exists d, D. split; [|done].
      change (cpus s) with (cpus s1). by rewrite <- (woke_cpus _ _ _ W).
    + change (sleeping_queue _) with (sleeping_queue s2). by rewrite Hsq.
Qed.

(** * Waking parked threads *)

Lemma wakeup_parked s t T :
  sched_ok s -> parked s t -> threads s !! t = Some T ->
  exists s', wakeup s t = Ok s' /\ sched_ok s' /\ woke [t] s s' /\ sleeping_queue s' = sleeping_queue s /\
    threads s' !! t = Some (with_block_cnt 0 T) /\ status (with_block_cnt 0 T) = READY /\ t ∈ ready_queue s'.
Proof.
  intros [Hok Hsl] [(T' & HT' & Hb & Hr & He) Hni _] HT. replace T' with T in * by congruence.
  destruct (wakeup_ok None s t Hok) as (s' & E & Hok' & W & Hsq); [by exists T|done|].
  assert (HT2 : threads s' !! t = Some (with_block_cnt 0 T)).
  { destruct (wakeup_run s t T (ok_ready_lock _ _ Hok) HT) as (s2 & E2 & Hth & _).
    replace s2 with s' in Hth by congruence. rewrite Hth, lookup_insert_eq. by rewrite Hb. }
  assert (Hst : status (with_block_cnt 0 T) = READY) by (unfold status; cbn; by rewrite He, Hr).
  exists s'. split_and!; try done.
  - split; [done|]. rewrite <- Hsl. exact (f_equal sleep_lock (woke_rest _ _ _ W)).
  - apply (ok_ready _ _ Hok' t (with_block_cnt 0 T)); [done|done| |done]. unfold idle. by rewrite (woke_cpus _ _ _ W).
Qed.

(** Parked threads outside [us] stay parked when [us] wakes. *)
Lemma woke_parked us s s' u : woke us s s' -> sleeping_queue s' = sleeping_queue s -> u ∉ us -> parked s u -> parked s' u.
Proof.
  intros W Hsq Hu [(U & HU & ?) Hni Haw]. split.
  - exists U. rewrite (woke_other _ _ _ W) by done. done.
  - unfold idle. by rewrite (woke_cpus _ _ _ W).
  - by rewrite Hsq.
Qed.

Lemma wakeup_all_parked q : forall s,
  sched_ok s -> NoDup q -> (forall u, u ∈ q -> parked s u) ->
  exists s', wakeup_all q s = Ok s' /\ sched_ok s' /\ woke q s s' /\ sleeping_queue s' = sleeping_queue s /\
    (forall u, u ∈ q -> statusof s' u READY /\ u ∈ ready_queue s').
Proof.
  induction q as [|t q IH]; intros s Hok Hnd Hq; cbn [wakeup_all].
  { exists s. split_and!; [done|done|apply woke_refl|done|by intros u ?%elem_of_nil]. }
  apply NoDup_cons in Hnd as [Htq Hnd]. pose proof (Hq t ltac:(by left)) as Hpt. pose proof Hpt as [(T & HT & _) _ _].
  destruct (wakeup_parked s t T Hok Hpt HT) as (s1 & -> & Hok1 & W1 & Hsq1 & HT1 & Hst & Hin). cbn [obind].
  destruct (IH s1 Hok1 Hnd) as (s2 & -> & Hok2 & W2 & Hsq2 & Hr2).
  { intros u Hu. apply (woke_parked [t] s); [done|done| |by apply Hq; right].
    rewrite list_elem_of_singleton. by intros ->. }
  exists s2. split_and!; [done|done|exact (woke_trans _ _ _ _ _ W1 W2)|congruence|].
  intros u Hu. apply elem_of_cons in Hu as [->|Hu]; [|by apply Hr2]. split.
  - exists (with_block_cnt 0 T). by rewrite (woke_other _ _ _ W2).
  - destruct (woke_queue _ _ _ W2) as (w & -> & _). apply elem_of_app. by left.
Qed.
