(* ===== verification/LocksTheorems.v ===== *)
(** Theorems on the mutexes, barriers, condition variables and mailboxes of
    src/locks.cpp. *)

From Stdlib Require Import ZArith Lia List.
From stdpp Require Import base numbers list gmap relations.
From S2P Require Import Prelude Trie Objects Kernel Sched SchedProps SchedTheorems Locks LocksProps.

Local Open Scope Z_scope.

Implicit Types (s : kernel) (t m : Z).

(** * Mutual exclusion *)

(** The kernel, the threads whose acquire of the mutex has returned and that have
    not released it since, and the rest of the acquire of each suspended one. *)
Record mstate := MS { kern : kernel; inside : list Z; pending : gmap Z (nat -> kernel -> outcome (kres unit)) }.

(** With the CPUs whose thread has seen the mutex free and released the spin lock,
    but has not yet stored itself as the owner (between lines 33 and 34 of
    locks.cpp) *)
Record claims := MC { mst : mstate; checked : gmap nat Z }.

(** A use of the mutex by the thread on CPU [c] *)
Inductive mx_use (m : Z) (c : nat) : claims -> claims -> Prop :=
| x_check t s s' ins pend ch :
    ch !! c = None -> executing c s t -> t ∉ ins -> pend !! t = None ->
    acquire_check m c s = Ok (Done true s') -> mx_use m c (MC (MS s ins pend) ch) (MC (MS s' ins pend) (<[c := t]> ch))
| x_store t s s' ins pend ch :
    ch !! c = Some t ->
    take_ownership m c s = Ok (Done tt s') -> mx_use m c (MC (MS s ins pend) ch) (MC (MS s' (t :: ins) pend) (delete c ch))
| x_wait t s s' k ins pend ch :
    ch !! c = None -> executing c s t -> t ∉ ins -> pend !! t = None ->
    acquire m c s = Ok (Switched s' k) -> mx_use m c (MC (MS s ins pend) ch) (MC (MS s' ins (<[t := k]> pend)) ch)
| x_resume t s s' k ins pend ch :
    ch !! c = None -> executing c s t -> pend !! t = Some k ->
    k c s = Ok (Done tt s') -> mx_use m c (MC (MS s ins pend) ch) (MC (MS s' (t :: ins) (delete t pend)) ch)
| x_release t p s s' ins pend ch :
    ch !! c = None -> executing c s t -> t ∈ ins -> current_process s c = Ok p ->
    release m p s = Ok s' -> mx_use m c (MC (MS s ins pend) ch) (MC (MS s' (List.remove Z.eq_dec t ins) pend) ch).

(** Anything else, on any CPU: it leaves this mutex alone, wakes none of its waiters,
    and a CPU in the middle of an acquire stays there. *)
Inductive mx_other (m : Z) : claims -> claims -> Prop :=
| x_other s s' ins pend ch :
    sched_ok s' -> mutexes s' !! m = mutexes s !! m ->
    (forall u, is_Some (pend !! u) -> parked s u -> parked s' u) ->
    (forall d u, ch !! d = Some u -> executing d s u -> executing d s' u) -> mx_other m (MC (MS s ins pend) ch) (MC (MS s' ins pend) ch).

(** Any CPU uses the mutex at any time. *)
Definition mx_any (m : Z) (x y : claims) : Prop := (exists c, mx_use m c x y) \/ mx_other m x y.
(** No CPU uses the mutex while another is in the middle of an acquire of it. *)
Definition mx_serial (m : Z) (x y : claims) : Prop := (exists c, mx_use m c x y /\ forall d, d <> c -> checked x !! d = None) \/ mx_other m x y.
(** Only CPU [c] uses the mutex. *)
Definition mx_alone (m : Z) (c : nat) (x y : claims) : Prop := mx_use m c x y \/ mx_other m x y.

Record mutex_inv (m : Z) (x : mstate) (M : mutex_lock) : Prop := {
  mi_sched : sched_ok (kern x);
  mi_mutex : mutexes (kern x) !! m = Some M;
  mi_lock : mx_lock M = false;
  mi_free : owner M = None -> inside x = [] /\ mx_queue M = [];
  mi_owned : forall o, owner M = Some o ->
    o ∉ mx_queue M /\ ((inside x = [o] /\ pending x !! o = None) \/ (inside x = [] /\ is_Some (pending x !! o)));
  mi_nodup : NoDup (mx_queue M);
  mi_queue : forall u, u ∈ mx_queue M <-> is_Some (pending x !! u) /\ owner M <> Some u;
  mi_parked : forall u, u ∈ mx_queue M -> parked (kern x) u;
  mi_rest : forall u k, pending x !! u = Some k -> forall c s, k c s = take_ownership m c s
}.

Lemma executing_not_parked c s t : executing c s t -> ~ parked s t.
Proof.
  intros [_ _ Hrun _] [(T & HT & _ & Hr & _) _ _]. destruct (running_thread _ _ Hrun) as (T' & HT' & _ & _ & Hr'). congruence.
Qed.

(** Only the mutex changes, and the flags of its lock stay clear. *)
Lemma parked_mutexes s f u : parked s u -> parked (set_mutexes s f) u.
Proof. by apply view_parked. Qed.

Section Steps.
Context (m : Z).

(** Seeing a free mutex changes nothing. *)
Lemma check_keeps c t s s' ins pend M :
  mutex_inv m (MS s ins pend) M -> executing c s t -> t ∉ ins -> pend !! t = None ->
  acquire_check m c s = Ok (Done true s') -> owner M = None /\ mutex_inv m (MS s' ins pend) M /\ executing c s' t.
Proof.
  intros [H1 H2 H3 H4 H5 H6 H7 H8 H9] Hex Hni Hp E; cbn [kern inside pending] in *. pose proof (ex_current _ _ _ Hex) as Ec.
  destruct (owner M) as [o|] eqn:Ho.
  - exfalso. assert (o <> t).
    { intros ->. destruct (H5 t eq_refl) as [_ [[E' _]|[_ [k Hk]]]]; [|congruence]. apply Hni. rewrite E'. by left. }
    destruct (acquire_taken c s t m M o H1 Hex H2 H3 Ho) as (s1 & k & E1 & _); [done|]. unfold acquire in E1. rewrite E in E1. cbn [obind kbind] in E1.
    unfold take_ownership in E1. apply obind_Ok_inv in E1 as (v & _ & E1). apply obind_Ok_inv in E1 as (w & _ & E1). done.
  - rewrite (acquire_check_free c s t m M Ec H2 H3 Ho) in E. injection E as <-. split; [done|]. split.
    + split; cbn [kern inside pending mutexes set_mutexes]; rewrite ?lookup_insert_eq, ?Ho; try done; [by apply (view_ok s)|].
      intros u Hu. by apply parked_mutexes, H8.
    + destruct Hex as [X1 X2 X3 X4]. by split.
Qed.

(** Storing the owner, with no other use since *)
Lemma store_keeps c t s s' ins pend M :
  mutex_inv m (MS s ins pend) M -> executing c s t -> t ∉ ins -> pend !! t = None -> owner M = None ->
  take_ownership m c s = Ok (Done tt s') -> exists M', mutex_inv m (MS s' (t :: ins) pend) M'.
Proof.
  intros [H1 H2 H3 H4 H5 H6 H7 H8 H9] Hex Hni Hp Ho E; cbn [kern inside pending] in *.
  unfold take_ownership in E. rewrite (ex_current _ _ _ Hex) in E. cbn [obind] in E. rewrite (upd_mutex_run s m _ M H2) in E. cbn [obind] in E. injection E as <-.
  destruct (H4 Ho) as [-> Hq]. exists (mx_set_owner (Some t) M). split; cbn [kern inside pending mx_set_owner mx_lock owner mx_queue]; try done.
  - revert H1. by apply view_ok.
  - apply lookup_insert_eq.
  - intros o [= <-]. rewrite Hq. split; [by apply not_elem_of_nil|]. by left.
  - intros u. rewrite Hq. split; [by intros ?%elem_of_nil|]. intros [Hu _]. rewrite <- Hq. apply H7. split; [done|by rewrite Ho].
  - rewrite Hq. by intros u ?%elem_of_nil.
Qed.

Lemma wait_keeps c t s s' k ins pend M :
  mutex_inv m (MS s ins pend) M -> executing c s t -> t ∉ ins -> pend !! t = None ->
  acquire m c s = Ok (Switched s' k) -> exists M', mutex_inv m (MS s' ins (<[t := k]> pend)) M'.
Proof.
  intros [H1 H2 H3 H4 H5 H6 H7 H8 H9] Hex Hni Hp E; cbn [kern inside pending] in *. pose proof (ex_current _ _ _ Hex) as Ec.
  destruct (owner M) as [o|] eqn:Ho; [|by rewrite (acquire_free c s t m M Ec H2 H3 Ho) in E].
  assert (Hot : o <> t).
  { intros ->. destruct (H5 t eq_refl) as [_ [[E' _]|[_ [k' Hk]]]]; [|congruence]. apply Hni. rewrite E'. by left. }
  assert (Htq : t ∉ mx_queue M) by (intros Ht; by apply H7 in Ht as [[? ?] _]; congruence).
  destruct (acquire_taken c s t m M o H1 Hex H2 H3 Ho Hot) as (s1 & k1 & E1 & Hk1 & Hok1 & Hmx & Hpt & Hpu).
  rewrite E1 in E. injection E as <- <-.
  exists (MkMutex false (Some o) (mx_queue M ++ [t])). split; cbn [kern inside pending mx_lock owner mx_queue]; try done.
  - by rewrite Hmx, lookup_insert_eq.
  - intros o' [= <-]. destruct (H5 o eq_refl) as [Hoq Hor]. split.
    + rewrite elem_of_app, list_elem_of_singleton. naive_solver.
    + by rewrite lookup_insert_ne by done.
  - apply NoDup_app. split_and!; [done| |apply NoDup_singleton]. intros u Hu. rewrite list_elem_of_singleton. by intros ->.
  - intros u. rewrite elem_of_app, list_elem_of_singleton, H7, lookup_insert_is_Some.
    destruct (decide (t = u)) as [->|Hne]; [|naive_solver]. split; [|by right]. intros _. split; [by left|congruence].
  - intros u. rewrite elem_of_app, list_elem_of_singleton. intros [Hu| ->]; [|done]. by apply Hpu, H8.
  - intros u k Hu. apply lookup_insert_Some in Hu as [[_ <-]|[_ Hu]]; [done|by eapply H9].
Qed.

Lemma resume_keeps c t s s' k ins pend M :
  mutex_inv m (MS s ins pend) M -> executing c s t -> pend !! t = Some k ->
  k c s = Ok (Done tt s') -> exists M', mutex_inv m (MS s' (t :: ins) (delete t pend)) M'.
Proof.
  intros [H1 H2 H3 H4 H5 H6 H7 H8 H9] Hex Hp E; cbn [kern inside pending] in *.
  rewrite (H9 t k Hp) in E. unfold take_ownership in E. rewrite (ex_current _ _ _ Hex) in E. cbn [obind] in E.
  rewrite (upd_mutex_run s m _ M H2) in E. cbn [obind] in E. injection E as <-.
  assert (Ho : owner M = Some t).
  { destruct (decide (owner M = Some t)) as [|Hne]; [done|]. exfalso. apply (executing_not_parked _ _ _ Hex), H8, H7.
    split; [by exists k|done]. }
  destruct (H5 t Ho) as [Htq [[_ ?]|[-> _]]]; [congruence|].
  exists (mx_set_owner (Some t) M). split; cbn [kern inside pending mx_set_owner mx_lock owner mx_queue]; try done.
  - revert H1. by apply view_ok.
  - apply lookup_insert_eq.
  - intros o [= <-]. split; [done|]. left. by rewrite lookup_delete_eq.
  - intros u. rewrite H7, Ho. split; intros [Hu Hne]; (split; [|done]).
    + destruct Hu as [k' Hk']. exists k'. rewrite lookup_delete_ne; congruence.
    + destruct Hu as [k' Hk']. exists k'. by apply lookup_delete_Some in Hk' as [_ ?].
  - intros u Hu. by apply parked_mutexes, H8.
  - intros u k' Hu. apply lookup_delete_Some in Hu as [_ Hu]. by eapply H9.
Qed.

Lemma release_keeps c t p s s' ins pend M :
  mutex_inv m (MS s ins pend) M -> executing c s t -> t ∈ ins -> current_process s c = Ok p ->
  release m p s = Ok s' -> exists M', mutex_inv m (MS s' (List.remove Z.eq_dec t ins) pend) M'.
Proof.
  intros [H1 H2 H3 H4 H5 H6 H7 H8 H9] Hex Hin Hcp E; cbn [kern inside pending] in *.
  destruct (running_thread _ _ (ex_running _ _ _ Hex)) as (T & HT & _).
  assert (p = process T) as ->.
  { unfold current_process in Hcp. rewrite (ex_current _ _ _ Hex) in Hcp. cbn in Hcp. rewrite HT in Hcp. by injection Hcp. }
  assert (Ho : owner M = Some t /\ ins = [t] /\ pend !! t = None).
  { destruct (owner M) as [o|]; [|destruct (H4 eq_refl) as [-> _]; by apply elem_of_nil in Hin].
    destruct (H5 o eq_refl) as [_ [[-> ?]|[-> _]]]; [|by apply elem_of_nil in Hin].
    apply list_elem_of_singleton in Hin as ->. done. }
  destruct Ho as (Ho & -> & Hpt). cbn [List.remove]. destruct (Z.eq_dec t t) as [_|]; [|done].
  destruct (mx_queue M) as [|u q] eqn:Hq.
  - rewrite (release_last s m M t T H2 H3 Ho HT Hq) in E. injection E as <-.
    exists (MkMutex false None []). split; cbn [kern inside pending mx_lock owner mx_queue]; try done.
    + revert H1. by apply view_ok.
    + apply lookup_insert_eq.
    + intros v. split; [by intros ?%elem_of_nil|]. intros [Hv _]. apply H7. split; [done|].
      intros Hvt. rewrite Ho in Hvt. injection Hvt as <-. destruct Hv. congruence.
    + by intros v ?%elem_of_nil.
  - assert (Hpu : parked s u) by (apply H8; by left). apply NoDup_cons in H6 as [Huq Hnd].
    destruct (release_handoff s m M t T u q H1 H2 H3 Ho HT Hq Hpu) as (s1 & E1 & Hok1 & Hmx & _ & _ & _ & Hkeep).
    replace s' with s1 by congruence.
    exists (MkMutex false (Some u) q). split; cbn [kern inside pending mx_lock owner mx_queue]; try done.
    + by rewrite Hmx, lookup_insert_eq.
    + intros o [= <-]. split; [done|]. right. split; [done|]. by apply H7; left.
    + intros v. split.
      * intros Hv. split; [by apply H7; right|]. intros [= <-]. done.
      * intros [Hv Hne]. assert (Hv' : v ∈ u :: q).
        { apply H7. split; [done|]. intros Hvt. rewrite Ho in Hvt. injection Hvt as <-. destruct Hv. congruence. }
        apply elem_of_cons in Hv' as [->|]; [done|done].
    + intros v Hv. apply Hkeep; [by intros ->|]. apply H8. by right.
Qed.

Lemma other_keeps s s' ins pend M :
  mutex_inv m (MS s ins pend) M -> sched_ok s' -> mutexes s' !! m = mutexes s !! m ->
  (forall u, is_Some (pend !! u) -> parked s u -> parked s' u) -> mutex_inv m (MS s' ins pend) M.
Proof.
  intros [H1 H2 H3 H4 H5 H6 H7 H8 H9] Hok Hm Hpk; cbn [kern inside pending] in *.
  split; cbn [kern inside pending]; try done; [congruence|].
  intros u Hu. apply Hpk; [by apply H7|by apply H8].
Qed.

(** The invariant with the CPUs in the middle of an acquire *)
Definition claims_ok (x : claims) : Prop := exists M, mutex_inv m (mst x) M /\
  forall c t, checked x !! c = Some t -> executing c (kern (mst x)) t /\ t ∉ inside (mst x) /\ pending (mst x) !! t = None /\ owner M = None.

Lemma claims_none s ins pend ch M c : (forall d, d <> c -> ch !! d = None) -> ch !! c = None ->
  mutex_inv m (MS s ins pend) M -> claims_ok (MC (MS s ins pend) ch).
Proof.
  intros Hd Hc HM. exists M. split; [done|]. intros d u Hu. cbn [checked] in Hu. destruct (decide (d = c)) as [->|Hne]; [congruence|]. by rewrite Hd in Hu.
Qed.

Lemma serial_claims x y : mx_serial m x y -> claims_ok x -> claims_ok y.
Proof.
  intros [(c & Hstep & Hser)|Hstep] (M & HM & Hch).
  - destruct Hstep as [t s s' ins pend ch Hc Hex Hni Hp E|t s s' ins pend ch Hc E|t s s' k ins pend ch Hc Hex Hni Hp E|t s s' k ins pend ch Hc Hex Hp E
      |t p s s' ins pend ch Hc Hex Hin Hcp E]; cbn [mst checked] in *.
    + destruct (check_keeps _ _ _ _ _ _ _ HM Hex Hni Hp E) as (Ho & HM' & Hex'). exists M. split; [done|]. intros d u. cbn [checked mst kern inside pending].
      destruct (decide (d = c)) as [->|Hne]; [rewrite lookup_insert_eq; by intros [= <-]|]. rewrite lookup_insert_ne by done. by rewrite Hser.
    + destruct (Hch c t Hc) as (Hex & Hni & Hp & Ho). destruct (store_keeps _ _ _ _ _ _ _ HM Hex Hni Hp Ho E) as [M' HM'].
      apply (claims_none _ _ _ _ M' c); [intros d Hd; by rewrite lookup_delete_ne, Hser|apply lookup_delete_eq|done].
    + destruct (wait_keeps _ _ _ _ _ _ _ _ HM Hex Hni Hp E) as [M' HM']. by apply (claims_none _ _ _ _ M' c).
    + destruct (resume_keeps _ _ _ _ _ _ _ _ HM Hex Hp E) as [M' HM']. by apply (claims_none _ _ _ _ M' c).
    + destruct (release_keeps _ _ _ _ _ _ _ _ HM Hex Hin Hcp E) as [M' HM']. by apply (claims_none _ _ _ _ M' c).
  - destruct Hstep as [s s' ins pend ch Hok Hm Hpk Hx]; cbn [mst checked] in *. exists M. split; [by eapply other_keeps|].
    intros d u Hu. destruct (Hch d u Hu) as (Hex & ?). split; [by apply Hx|done].
Qed.

Lemma serial_claims_run x y : rtc (mx_serial m) x y -> claims_ok x -> claims_ok y.
Proof. intros Hrun. induction Hrun as [|x y z Hs _ IH]; [done|]. intros Hx. apply IH. by eapply serial_claims. Qed.

(** What one CPU does alone is serial. *)
Lemma alone_claims c x y : (forall d, d <> c -> checked x !! d = None) -> rtc (mx_alone m c) x y -> rtc (mx_serial m) x y.
Proof.
  intros Hx Hrun. induction Hrun as [|x y z Hs _ IH]; [done|]. eapply rtc_l; [destruct Hs as [Hs|Hs]; [left; by exists c|by right]|]. apply IH.
  intros d Hd. specialize (Hx d Hd). destruct Hs as [Hs|Hs]; destruct Hs; cbn [checked] in *; rewrite ?lookup_insert_ne, ?lookup_delete_ne by done; done.
Qed.

(** A mutex that has just been created. *)
Lemma fresh_inv s : sched_ok s -> mutexes s !! m = Some (MkMutex false None []) -> mutex_inv m (MS s [] ∅) (MkMutex false None []).
Proof.
  intros Hok Hm. split; cbn [kern inside pending mx_lock owner mx_queue]; try done.
  - apply NoDup_nil_2.
  - intros u. split; [by intros ?%elem_of_nil|]. intros [[k Hk] _]. by rewrite lookup_empty in Hk.
  - by intros u ?%elem_of_nil.
Qed.

End Steps.

(** C7: a mutex gives mutual exclusion and loses no waiter, as long as no CPU uses it
    while another is in the middle of an acquire of it, between the release of the
    spin lock and the store of the owner; on one CPU this is every run (interrupts are
    off in the kernel).  Start from a mutex nobody has acquired, and let any threads
    acquire it (when they do not hold it), go on when they are woken, and release it
    (when they hold it), with arbitrary other activity of the kernel in between: at
    most one thread is inside at any time and it is the recorded owner; a thread whose
    acquire is suspended is the owner or is parked in the wait queue, so that when the
    mutex is free nobody waits for it.  Acquires of two CPUs that overlap break it
    ([overlapping_acquires_both_enter]). *)
Theorem mutex_exclusion m s x :
  sched_ok s -> mutexes s !! m = Some (MkMutex false None []) ->
  rtc (mx_serial m) (MC (MS s [] ∅) ∅) x \/ (exists c, rtc (mx_alone m c) (MC (MS s [] ∅) ∅) x) ->
  exists M, mutexes (kern (mst x)) !! m = Some M /\
    (inside (mst x) = [] \/ exists o, inside (mst x) = [o] /\ owner M = Some o) /\
    (forall u, is_Some (pending (mst x) !! u) -> owner M = Some u \/ u ∈ mx_queue M /\ parked (kern (mst x)) u) /\
    (owner M = None -> pending (mst x) = ∅).
Proof.
  intros Hok Hm Hrun. assert (Hser : rtc (mx_serial m) (MC (MS s [] ∅) ∅) x).
  { destruct Hrun as [|[c Hc]]; [done|]. by eapply alone_claims. }
  destruct (serial_claims_run m _ _ Hser) as (M & Hx & _); [exists (MkMutex false None []); split; [by apply fresh_inv|done]|].
  exists M. split_and!.
  - apply (mi_mutex _ _ _ Hx).
  - destruct (owner M) as [o|] eqn:Ho; [|left; by apply (mi_free _ _ _ Hx)].
    destruct (mi_owned _ _ _ Hx o Ho) as [_ [[? _]|[? _]]]; [right; by exists o|by left].
  - intros u Hu. destruct (decide (owner M = Some u)) as [|Hne]; [by left|]. right.
    assert (u ∈ mx_queue M) by (by apply (mi_queue _ _ _ Hx)). split; [done|]. by apply (mi_parked _ _ _ Hx).
  - intros Ho. apply map_empty. intros u. destruct (pending (mst x) !! u) as [k|] eqn:Hk; [|done]. exfalso.
    destruct (mi_free _ _ _ Hx Ho) as [_ Hq]. apply (not_elem_of_nil u). rewrite <- Hq. apply (mi_queue _ _ _ Hx).
    split; [by exists k|congruence].
Qed.

(** two uses the mutex does not survive.  A thread that acquires a mutex it
    already owns returns with the object's spin lock held: from then on every
    acquire and every release of that mutex spins for ever, whoever calls it.
    Releasing a mutex nobody owns reads through a null pointer; this is also what
    the end of every process that uses a free mutex runs into. *)
Theorem mutex_misuse m c t s M :
  current s c = Ok t -> mutexes s !! m = Some M -> mx_lock M = false ->
  (owner M = Some t -> exists s', acquire m c s = Ok (Done tt s') /\
    (forall c', acquire m c' s' = OutOfFuel) /\ (forall p, release m p s' = OutOfFuel) /\
    (exists M', mutexes s' !! m = Some M' /\ forall fuel, spin fuel (mx_lock M') = OutOfFuel)) /\
  (owner M = None -> forall p, release m p s = Fault /\ on_process_unregister KMutex p m s = Fault).
Proof.
  intros Ec HM Hl. split.
  - intros Ho. set (s1 := set_mutexes s (<[m := mx_set_lock true M]> (mutexes s))).
    assert (HM1 : mutexes s1 !! m = Some (mx_set_lock true M)) by apply lookup_insert_eq.
    exists s1. split_and!.
    + unfold acquire, acquire_check. rewrite (mx_spin_run s m M HM Hl). cbn [obind]. fold s1. rewrite HM1. cbn [or_fault obind].
      change (current s1 c) with (current s c). rewrite Ec. cbn [obind]. by rewrite decide_True.
    + intros c'. unfold acquire, acquire_check, mx_acquire_spin. by rewrite HM1.
    + intros p. unfold release, mx_acquire_spin. by rewrite HM1.
    + exists (mx_set_lock true M). split; [done|]. intros [|fuel]; [done|]. apply spin_decides.
  - intros Ho p. assert (E : release m p s = Fault).
    { unfold release. rewrite (mx_spin_run s m M HM Hl). cbn [obind mutexes set_mutexes].
      rewrite lookup_insert_eq. cbn [or_fault obind owner mx_set_lock]. by rewrite Ho. }
    split; [done|]. unfold on_process_unregister. by rewrite E.
Qed.

(** * Barriers *)

(** The barrier has as many sleepers as it has counted, all parked. *)
Record barrier_ok s b (B : barrier) : Prop := {
  bo_barrier : barriers s !! b = Some B;
  bo_lock : bar_lock B = false;
  bo_count : bcount B = Z.of_nat (length (bar_queue B));
  bo_goal : bcount B < goal B < 2 ^ 64;
  bo_parked : forall u, u ∈ bar_queue B -> parked s u;
  bo_nodup : NoDup (bar_queue B)
}.

Lemma upd_barrier_run s b f B : barriers s !! b = Some B -> upd_barrier s b f = Ok (set_barriers s (<[b := f B]> (barriers s))).
Proof. intros E. unfold upd_barrier. by rewrite E. Qed.

(** The arrival that is not the last. *)
Lemma barrier_blocks b c t s B :
  sched_ok s -> executing c s t -> barrier_ok s b B -> bcount B + 1 < goal B ->
  exists s' k, barrier_wait b c s = Ok (Switched s' k) /\ k = resume tt /\ sched_ok s' /\ parked s' t /\
    barrier_ok s' b (MkBarrier (goal B) (bcount B + 1) (bar_queue B ++ [t]) false).
Proof.
  intros Hok Hex [HB Hl Hc Hg Hp Hnd] Hlt. destruct (running_thread _ _ (ex_running _ _ _ Hex)) as (T & HT & _ & _ & HTr).
  unfold barrier_wait. rewrite HB. cbn [or_fault obind]. rewrite Hl, lock_free. cbn [obind].
  rewrite (upd_barrier_run s b _ B HB). cbn [obind]. erewrite upd_barrier_run by apply lookup_insert_eq. cbn [obind].
  set (s1 := set_barriers _ _). set (B1 := MkBarrier (goal B) (bcount B + 1) (bar_queue B) true).
  assert (HB1 : barriers s1 !! b = Some B1).
  { unfold s1. cbn [barriers set_barriers]. rewrite lookup_insert_eq. unfold bar_set_count. cbn.
    rewrite u64_small by lia. done. }
  rewrite HB1. cbn [or_fault obind bcount goal B1]. rewrite (proj2 (Z.ltb_lt _ _) Hlt).
  set (B2 := MkBarrier (goal B) (bcount B + 1) (bar_queue B ++ [t]) true).
  set (B3 := MkBarrier (goal B) (bcount B + 1) (bar_queue B ++ [t]) false).
  set (s2 := set_barriers s1 (<[b := B2]> (barriers s1))).
  set (s3 := set_barriers (blocked_state s2 t T) (<[b := B3]> (barriers s2))).
  match goal with |- context [do_block ?e ?r c s1] =>
    destruct (do_block_parks c s1 t e r s2 s3 T) as (s' & E & Hok' & Hrest & Hpark & Hkeep) end.
  - revert Hok. by apply view_ok.
  - destruct Hex. by split.
  - done.
  - cbv beta. by rewrite (upd_barrier_run s1 b _ _ HB1).
  - done.
  - cbv beta. unfold bar_unlock. by erewrite upd_barrier_run by apply lookup_insert_eq.
  - done.
  - exists s', (resume tt). rewrite E. split_and!; try done. split; try unfold B3; cbn [bcount goal bar_queue bar_lock]; try done.
    + change (barriers s') with (barriers (rest s')). rewrite Hrest. change (barriers (rest s3)) with (barriers s3).
      apply lookup_insert_eq.
    + rewrite length_app. cbn. lia.
    + lia.
    + intros u. rewrite elem_of_app, list_elem_of_singleton. intros [Hu| ->]; [|done]. apply Hkeep.
      eapply view_parked; [|by apply Hp]. done.
    + apply NoDup_app. split_and!; [done| |apply NoDup_singleton]. intros u Hu. rewrite list_elem_of_singleton. intros ->.
      destruct (Hp t Hu) as [(T' & HT' & _ & Hr' & _) _ _]. congruence.
Qed.

(** The last arrival. *)
Lemma barrier_opens b c t s B :
  sched_ok s -> executing c s t -> barrier_ok s b B -> goal B <= bcount B + 1 ->
  exists s', barrier_wait b c s = Ok (Done tt s') /\ sched_ok s' /\
    barrier_ok s' b (MkBarrier (goal B) 0 [] false) /\
    (forall u, u ∈ bar_queue B -> statusof s' u READY /\ u ∈ ready_queue s').
Proof.
  intros Hok Hex [HB Hl Hc Hg Hp Hnd] Hge.
  unfold barrier_wait. rewrite HB. cbn [or_fault obind]. rewrite Hl, lock_free. cbn [obind].
  rewrite (upd_barrier_run s b _ B HB). cbn [obind]. erewrite upd_barrier_run by apply lookup_insert_eq. cbn [obind].
  set (s1 := set_barriers _ _). set (B1 := MkBarrier (goal B) (bcount B + 1) (bar_queue B) true).
  assert (HB1 : barriers s1 !! b = Some B1).
  { unfold s1. cbn [barriers set_barriers]. rewrite lookup_insert_eq. unfold bar_set_count. cbn.
    rewrite u64_small by lia. done. }
  rewrite HB1. cbn [or_fault obind bcount goal B1]. rewrite (proj2 (Z.ltb_ge _ _) Hge).
  rewrite (upd_barrier_run s1 b _ _ HB1). cbn [obind]. erewrite upd_barrier_run by apply lookup_insert_eq. cbn [obind].
  set (s2 := set_barriers _ _). cbn [bar_queue B1].
  assert (Hok2 : sched_ok s2) by (revert Hok; by apply view_ok).
  destruct (wakeup_all_parked (bar_queue B) s2 Hok2 Hnd) as (s3 & -> & Hok3 & W & Hsq & Hw).
  { intros u Hu. eapply view_parked; [|by apply Hp]. done. }
  cbn [obind]. unfold bar_unlock.
  assert (HB3 : barriers s3 !! b = Some (bar_set_queue [] (bar_set_count 0 B1))).
  { assert (E : barriers s3 = barriers s2) by exact (f_equal barriers (woke_rest _ _ _ W)). rewrite E. apply lookup_insert_eq. }
  rewrite (upd_barrier_run s3 b _ _ HB3). cbn [obind]. eexists. split; [reflexivity|]. split_and!.
  - revert Hok3. by apply view_ok.
  - split; cbn [barriers set_barriers bcount goal bar_queue bar_lock length]; [apply lookup_insert_eq|done|done|lia| |apply NoDup_nil_2].
    by intros u ?%elem_of_nil.
  - exact Hw.
Qed.

(** C32: a barrier holds everybody until the last arrives.  While fewer than [goal]
    threads have arrived an arrival is counted and parked with the others; the
    arrival that completes the number does not block, wakes exactly the goal - 1
    threads that were parked (all are ready and queued afterwards) and leaves the
    barrier empty for the next round. *)
Theorem barrier_round b c t s B :
  sched_ok s -> executing c s t -> barrier_ok s b B ->
  if bcount B + 1 <? goal B
  then exists s' k, barrier_wait b c s = Ok (Switched s' k) /\ k = resume tt /\ sched_ok s' /\ parked s' t /\
         barrier_ok s' b (MkBarrier (goal B) (bcount B + 1) (bar_queue B ++ [t]) false)
  else exists s', barrier_wait b c s = Ok (Done tt s') /\ sched_ok s' /\
         barrier_ok s' b (MkBarrier (goal B) 0 [] false) /\ Z.of_nat (length (bar_queue B)) = goal B - 1 /\
         (forall u, u ∈ bar_queue B -> statusof s' u READY /\ u ∈ ready_queue s').
Proof.
  intros Hok Hex Hbar. destruct (Z.ltb_spec (bcount B + 1) (goal B)) as [Hlt|Hge].
  - by apply barrier_blocks.
  - destruct (barrier_opens b c t s B Hok Hex Hbar Hge) as (s' & E & Hok' & Hbar' & Hw).
    exists s'. split_and!; try done. pose proof (bo_count _ _ _ Hbar). pose proof (bo_goal _ _ _ Hbar). lia.
Qed.

(** * Condition variables *)

Lemma upd_condition_run s x f X : conditions s !! x = Some X -> upd_condition s x f = Ok (set_conditions s (<[x := f X]> (conditions s))).
Proof. intros E. unfold upd_condition. by rewrite E. Qed.

Lemma cond_spin_run s x X : conditions s !! x = Some X -> cond_lock X = false ->
  cond_acquire_spin s x = Ok (set_conditions s (<[x := cond_set_lock true X]> (conditions s))).
Proof. intros HX Hl. unfold cond_acquire_spin. rewrite HX. cbn [or_fault obind]. rewrite Hl, lock_free. cbn [obind]. by apply upd_condition_run. Qed.

(** The owner of a mutex, about to wait on a condition variable. *)
Record waiting_setup (x m : Z) (c : nat) s t (X : condition) (M : mutex_lock) : Prop := {
  ws_exec : executing c s t;
  ws_cond : conditions s !! x = Some X;
  ws_free : cond_lock X = false;
  ws_mutex : mutexes s !! m = Some M;
  ws_mxfree : mx_lock M = false;
  ws_owner : owner M = Some t;
  ws_queue : forall u, u ∈ mx_queue M -> parked s u
}.

(** What the first half of wait leaves: the thread still runs, it is in the queue
    of the condition variable, and the mutex is released. *)
Record entered (x : Z) (c : nat) s s1 t (X : condition) : Prop := {
  en_ok : sched_ok s1;
  en_exec : executing c s1 t;
  en_thread : threads s1 !! t = threads s !! t;
  en_cond : conditions s1 !! x = Some (MkCondition (cond_queue X ++ [t]) false)
}.

Lemma executing_ext c s s' t : current s' c = current s c -> (idle s' t -> idle s t) ->
  threads s' !! t = threads s !! t -> sleeping_queue s' = sleeping_queue s -> executing c s t -> executing c s' t.
Proof.
  intros E1 E2 E3 E4 [H1 H2 (T & HT & Hst) H4]. split; [congruence|auto| |by rewrite E4]. exists T. split; [congruence|done].
Qed.

Lemma release_keeps_owner s m M t T :
  sched_ok s -> mutexes s !! m = Some M -> mx_lock M = false -> owner M = Some t -> threads s !! t = Some T ->
  (forall u, u ∈ mx_queue M -> parked s u) -> t ∉ mx_queue M ->
  exists s', release m (process T) s = Ok s' /\ sched_ok s' /\ threads s' !! t = Some T /\
    cpus s' = cpus s /\ sleeping_queue s' = sleeping_queue s /\ conditions s' = conditions s.
Proof.
  intros Hok HM Hl Ho HT Hp Ht. destruct (mx_queue M) as [|u q] eqn:Hq.
  - rewrite (release_last s m M t T HM Hl Ho HT Hq). eexists. split; [reflexivity|]. split_and!; try done. revert Hok. by apply view_ok.
  - rewrite (release_run s m _ M t T HM Hl Ho HT eq_refl), Hq. cbn [wakeup_one]. set (s1 := set_mutexes s _).
    assert (Hpu : parked s1 u) by (eapply view_parked; [|apply Hp; by left]; done).
    pose proof Hpu as [(U & HU & _) _ _].
    destruct (wakeup_parked s1 u U) as (s2 & E2 & Hok2 & W & Hsq & _); [revert Hok; by apply view_ok|done|done|].
    rewrite E2. cbn [obind]. assert (Emx : mutexes s2 = mutexes s1) by exact (f_equal mutexes (woke_rest _ _ _ W)).
    assert (HM2 : mutexes s2 !! m = Some (mx_set_lock true M)) by (rewrite Emx; apply lookup_insert_eq).
    rewrite (upd_mutex_run s2 m _ _ HM2). cbn [obind]. unfold mx_unlock. erewrite upd_mutex_run by apply lookup_insert_eq.
    eexists. split; [reflexivity|]. split_and!.
    + revert Hok2. by apply view_ok.
    + change (threads s2 !! t = Some T). rewrite (woke_other _ _ _ W); [done|].
      rewrite list_elem_of_singleton. intros ->. apply Ht. by left.
    + exact (woke_cpus _ _ _ W).
    + exact Hsq.
    + exact (f_equal conditions (woke_rest _ _ _ W)).
Qed.

Lemma cond_enter_run x m c s t X M :
  sched_ok s -> waiting_setup x m c s t X M -> exists s1, cond_enter x m c s = Ok s1 /\ entered x c s s1 t X.
Proof.
  intros Hok [Hex HX Hl HM Hml Ho Hp]. destruct (running_thread _ _ (ex_running _ _ _ Hex)) as (T & HT & _ & _ & HTr).
  assert (Htq : t ∉ mx_queue M).
  { intros Ht. by apply (executing_not_parked _ _ _ Hex), Hp. }
  unfold cond_enter. rewrite (cond_spin_run s x X HX Hl). cbn [obind].
  match goal with |- context [current ?s' c] => change (current s' c) with (current s c) end.
  rewrite (ex_current _ _ _ Hex). cbn [obind].
  erewrite upd_condition_run by apply lookup_insert_eq. cbn [obind]. unfold cond_unlock.
  erewrite upd_condition_run by apply lookup_insert_eq. cbn [obind]. set (s1 := set_conditions _ _).
  assert (Ecp : current_process s1 c = Ok (process T)).
  { unfold current_process. change (current s1 c) with (current s c). rewrite (ex_current _ _ _ Hex). cbn [obind].
    change (threads s1) with (threads s). by rewrite HT. }
  rewrite Ecp. cbn [obind].
  destruct (release_keeps_owner s1 m M t T) as (s2 & E2 & Hok2 & HT2 & Ecpu & Esq & Econd); try done.
  { revert Hok. by apply view_ok. }
  { intros u Hu. eapply view_parked; [|by apply Hp]. done. }
  exists s2. split; [done|]. split.
  - done.
  - eapply executing_ext with (s := s); [unfold current; by rewrite Ecpu|unfold idle; by rewrite Ecpu|by rewrite HT2, HT|by rewrite Esq|done].
  - by rewrite HT2, HT.
  - rewrite Econd. unfold s1. cbn. by rewrite lookup_insert_eq.
Qed.

(** Blocking a running user thread that nobody has woken parks it. *)
Lemma sleep_unsignalled m c s t :
  sched_ok s -> executing c s t -> exists s' k, cond_sleep m c s = Ok (Switched s' k) /\ parked s' t.
Proof.
  intros Hok Hex. destruct (executing_cpu _ _ _ Hex) as (C & HC & Hcur). pose proof Hex as [Ec Hni Hrun Haw].
  destruct (running_thread _ _ Hrun) as (T & HT & He & Hb & Hr).
  destruct (block_keeps c t s Hok Ec Hni) as (s1 & E1 & Hok1 & _).
  assert (E1' : s1 = blocked_state s t T).
  { unfold block in E1. rewrite (upd_thread_run s t _ T HT), Hb in E1. by injection E1 as <-. }
  destruct (park c C s1 (with_block_cnt 1 T)) as (s' & E & _ & _ & Hpark & _); subst s1; rewrite ?Hcur; try done.
  { apply lookup_insert_eq. }
  unfold cond_sleep. rewrite Ec. cbn [obind]. rewrite E1. cbn [obind]. rewrite E. cbn [obind kbind]. rewrite Hcur in Hpark. eauto.
Qed.

(** A running thread that somebody has woken before it blocks. *)
Record woken_early (c : nat) s t : Prop := {
  we_ok : sched_ok s;
  we_current : current s c = Ok t;
  we_user : ~ idle s t;
  we_thread : exists T, threads s !! t = Some T /\ status_block_cnt T = -1 /\ status_exited T = false;
  we_awake : forall w, (w, t) ∉ sleeping_queue s
}.

Lemma wakeup_early c s t : sched_ok s -> executing c s t ->
  exists s', wakeup s t = Ok s' /\ woken_early c s' t /\ rest s' = rest s.
Proof.
  intros [Hok Hsl] [Ec Hni Hrun Haw]. destruct (running_thread _ _ Hrun) as (T & HT & He & Hb & Hr).
  destruct (wakeup_ok None s t Hok) as (s1 & Ew & Hok1 & W & Hsq); [by exists T|done|].
  exists s1. split_and!; [done| |exact (woke_rest _ _ _ W)]. split.
  - split; [done|]. rewrite <- Hsl. exact (f_equal sleep_lock (woke_rest _ _ _ W)).
  - unfold current. by rewrite (woke_cpus _ _ _ W).
  - unfold idle. by rewrite (woke_cpus _ _ _ W).
  - destruct (wakeup_run s t T (ok_ready_lock _ _ Hok) HT) as (s2 & E2 & Hth & _).
    replace s2 with s1 in Hth by congruence. exists (with_block_cnt (i32 (0 - 1)) T). by rewrite Hth, lookup_insert_eq, Hb.
  - by rewrite Hsq.
Qed.

(** The wake-up that came first cancels the block. *)
Lemma sleep_signalled m c s1 t :
  woken_early c s1 t ->
  exists s' k, cond_sleep m c s1 = Ok (Switched s' k) /\ sched_ok s' /\ (forall c s, k c s = acquire m c s) /\
    (statusof s' t RUNNING \/ statusof s' t READY /\ t ∈ ready_queue s').
Proof.
  intros [Hok1' Ec1 Hni1 (T & HT1 & Hb & He) Haw].
  assert (exists C, cpus s1 !! c = Some C /\ current_thread C = t) as (C & HC1 & Hcur).
  { unfold current in Ec1. destruct (cpus s1 !! c) as [C|]; [|done]. injection Ec1 as <-. eauto. }
  destruct (block_keeps c t s1 Hok1' Ec1 Hni1) as (s2 & E2 & Hok2 & _).
  assert (E2' : s2 = set_threads s1 (<[t := with_block_cnt 0 T]> (threads s1))).
  { unfold block in E2. rewrite (upd_thread_run s1 t _ _ HT1), Hb in E2. by injection E2 as <-. }
  assert (HC2 : cpus s2 !! c = Some C) by (subst s2; done).
  assert (HT2 : threads s2 !! current_thread C = Some (with_block_cnt 0 T)) by (subst s2; rewrite Hcur; apply lookup_insert_eq).
  destruct (schedule_ok c C s2 _ Hok2 HC2 HT2) as (s3 & s' & n & E & Hok' & Hsc). set (s0 := set_threads s2 _) in Hsc.
  exists s', (fun c' s' => kbind (Done tt s') c' (fun _ => acquire m)). split_and!; try done.
  { unfold cond_sleep. rewrite Ec1. cbn [obind]. rewrite E2. cbn [obind]. unfold do_scheduler. rewrite E. cbn [obind kbind resume]. done. }
  destruct (sc_threads _ _ _ _ _ _ Hsc) as (F & N & HF & HN & HNst & Eth).
  assert (HF' : F = with_running false (with_block_cnt 0 T)).
  { rewrite (woke_other _ _ _ (sc_woke _ _ _ _ _ _ Hsc)) in HF.
    - cbn [threads set_threads s0] in HF. rewrite lookup_insert_eq in HF. by injection HF.
    - apply awake_not_due. rewrite Hcur. by subst s2 s0. }
  destruct (decide (n = t)) as [->|Hne]; [left|right].
  - exists (with_running true (with_running_cpu (Some c) N)). rewrite Eth. unfold switched_threads. rewrite lookup_insert_eq. split; [done|].
    rewrite Hcur in HF. replace N with F by congruence. subst F. unfold status. cbn. by rewrite He.
  - assert (HR : threads s' !! t = Some (with_running false (with_running_cpu None F))).
    { rewrite Eth. unfold switched_threads. rewrite lookup_insert_ne by done. rewrite <- Hcur. apply lookup_insert_eq. }
    assert (Hst : status (with_running false (with_running_cpu None F)) = READY) by (subst F; unfold status; cbn; by rewrite He).
    split; [by eexists|]. eapply (ok_ready _ _ (proj1 Hok')); [exact HR|exact Hst| |done].
    intros Hi. apply Hni1. assert (Hi2 : idle s2 t) by (by eapply (new_idle_same c C s2 s0)). subst s2. exact Hi2.
Qed.

(** C33: no wake-up is lost between the two halves of condition::wait.  The thread
    enters the queue and releases the mutex, then blocks.  If the signal falls
    between the two, the counter of blocks absorbs it: the thread does not stay
    blocked but runs on or is ready and queued; without a signal it is parked.
    In both cases what it does next is to acquire the mutex again. *)
Theorem signal_not_lost x m c s t X M :
  sched_ok s -> waiting_setup x m c s t X M -> cond_queue X = [] ->
  exists s1 s2, cond_enter x m c s = Ok s1 /\ cond_signal x s1 = Ok s2 /\
    (exists s3 k, cond_sleep m c s2 = Ok (Switched s3 k) /\ sched_ok s3 /\ (forall c s, k c s = acquire m c s) /\
      (statusof s3 t RUNNING \/ statusof s3 t READY /\ t ∈ ready_queue s3)) /\
    (exists s3 k, cond_wait x m c s = Ok (Switched s3 k) /\ parked s3 t).
Proof.
  intros Hok Hws Hq. destruct (cond_enter_run x m c s t X M Hok Hws) as (s1 & E1 & [Hok1 Hex1 HT1 HX1]).
  rewrite Hq in HX1. cbn [app] in HX1. 
  set (s1' := set_conditions s1 (<[x := MkCondition [t] true]> (conditions s1))).
  assert (Hok1' : sched_ok s1') by (revert Hok1; by apply view_ok).
  assert (Hex1' : executing c s1' t) by (destruct Hex1; by split).
  destruct (wakeup_early c s1' t Hok1' Hex1') as (s2 & E2 & [Hw1 Hw2 Hw3 Hw4 Hw5] & Hrest).
  set (s2' := set_conditions s2 (<[x := MkCondition [] false]> (conditions s2))).
  assert (Es : cond_signal x s1 = Ok s2').
  { unfold cond_signal. rewrite (cond_spin_run s1 x _ HX1 eq_refl). cbn [obind]. change (cond_set_lock true _) with (MkCondition [t] true).
    fold s1'. assert (HX1' : conditions s1' !! x = Some (MkCondition [t] true)) by apply lookup_insert_eq.
    rewrite HX1'. cbn [or_fault obind cond_queue wakeup_one]. rewrite E2. cbn [obind].
    assert (HX2 : conditions s2 !! x = Some (MkCondition [t] true)).
    { assert (E : conditions s2 = conditions s1') by exact (f_equal conditions Hrest). by rewrite E. }
    rewrite (upd_condition_run s2 x _ _ HX2). cbn [obind]. unfold cond_unlock. erewrite upd_condition_run by apply lookup_insert_eq.
    cbn [conditions set_conditions]. by rewrite insert_insert_eq. }
  exists s1, s2'. split_and!; [done|done| |].
  - apply sleep_signalled. split; [revert Hw1; by apply view_ok|done..].
  - destruct (sleep_unsignalled m c s1 t Hok1 Hex1) as (s3 & k & E3 & Hp). exists s3, k. unfold cond_wait. by rewrite E1.
Qed.

(** * Mailboxes *)

Lemma upd_mailbox_run s x f X : mailboxes s !! x = Some X -> upd_mailbox s x f = Ok (set_mailboxes s (<[x := f X]> (mailboxes s))).
Proof. intros E. unfold upd_mailbox. by rewrite E. Qed.

Lemma mb_spin_run s x X : mailboxes s !! x = Some X -> mb_lock X = false ->
  mb_acquire_spin s x = Ok (set_mailboxes s (<[x := mb_set_lock true X]> (mailboxes s))).
Proof. intros HX Hl. unfold mb_acquire_spin. rewrite HX. cbn [or_fault obind]. rewrite Hl, lock_free. cbn [obind]. by apply upd_mailbox_run. Qed.

(** What a mailbox operation that does not block may do to the rest of the state:
    wake some of the threads [us]. *)
Record wakes (us : list Z) s s' : Prop := {
  wk_cpus : cpus s' = cpus s;
  wk_sleep : sleeping_queue s' = sleeping_queue s;
  wk_lock : ready_lock s' = false;
  wk_live : forall u, is_Some (threads s !! u) -> is_Some (threads s' !! u);
  wk_other : forall u, u ∉ us -> threads s' !! u = threads s !! u
}.

Lemma wakes_trans us s1 s2 s3 : wakes us s1 s2 -> wakes us s2 s3 -> wakes us s1 s3.
Proof.
  intros [A1 A2 A3 A4 A5] [B1 B2 B3 B4 B5]. split; [congruence|congruence|done|auto|].
  intros u Hu. by rewrite B5, A5.
Qed.

Lemma wakes_mono us vs s s' : us ⊆ vs -> wakes us s s' -> wakes vs s s'.
Proof. intros Hsub []. split; auto. Qed.

Lemma wakes_parked us s s' u : wakes us s s' -> u ∉ us -> parked s u -> parked s' u.
Proof.
  intros [A1 A2 A3 A4 A5] Hu [(U & HU & ?) Hni Haw]. split.
  - exists U. by rewrite A5.
  - unfold idle. by rewrite A1.
  - by rewrite A2.
Qed.

Lemma wakeup_one_run q s :
  ready_lock s = false -> (forall u, u ∈ q -> is_Some (threads s !! u)) ->
  exists s', wakeup_one q s = Ok (head q, tail q, s') /\ wakes q s s' /\ mailboxes s' = mailboxes s.
Proof.
  intros Hl Hq. destruct q as [|t q]; cbn [wakeup_one head tail].
  { exists s. split_and!; [done|by split|done]. }
  destruct (Hq t ltac:(by left)) as [T HT]. destruct (wakeup_run s t T Hl HT) as (s' & E & Hth & _ & Hrl & Hsq & Hcpu & _ & _ & Hrest).
  rewrite E. cbn [obind]. exists s'. split_and!; [done| |exact (f_equal mailboxes Hrest)]. split; try done; rewrite Hth.
  - intros u Hu. apply lookup_insert_is_Some'. auto.
  - intros u Hu. apply lookup_insert_ne. intros ->. apply Hu. by left.
Qed.

Lemma tail_sub (q : list Z) : tail q ⊆ q.
Proof. destruct q; [done|]. intros u Hu. by right. Qed.

Lemma drop_tail n (q : list Z) : drop n (tail q) = drop (S n) q.
Proof. destruct q; [cbn [tail]; by rewrite !drop_nil|done]. Qed.

Lemma send_loop_run x c : forall rest s X,
  mailboxes s !! x = Some X -> ready_lock s = false -> (forall u, u ∈ recv_wait_queue X -> is_Some (threads s !! u)) ->
  Z.of_nat (length (msg_queue X) + length rest) <= MAX_MSG_SIZE ->
  exists s', send_loop x rest c s = Ok (Done tt s') /\ wakes (recv_wait_queue X) s s' /\
    mailboxes s' !! x = Some (MkMailbox (msg_queue X ++ rest) (send_wait_queue X) (drop (length rest) (recv_wait_queue X)) (mb_lock X)).
Proof.
  intros rest. induction rest as [|b rest IH]; intros s X HX Hl Hq Hsz; cbn [send_loop length].
  { exists s. rewrite app_nil_r, drop_0. split_and!; [done|by split|by destruct X]. }
  rewrite HX. cbn [or_fault obind]. rewrite (proj2 (Z.leb_gt _ _)) by (cbn [length] in Hsz; lia). cbn [obind kbind].
  rewrite (upd_mailbox_run s x _ X HX). cbn [obind]. set (s1 := set_mailboxes s _).
  assert (HX1 : mailboxes s1 !! x = Some (mb_set_msgs (msg_queue X ++ [b]) X)) by apply lookup_insert_eq.
  rewrite HX1. cbn [or_fault obind recv_wait_queue mb_set_msgs].
  destruct (wakeup_one_run (recv_wait_queue X) s1 Hl Hq) as (s2 & -> & W & Emb). cbn [obind].
  assert (HX2 : mailboxes s2 !! x = Some (mb_set_msgs (msg_queue X ++ [b]) X)) by (by rewrite Emb).
  rewrite (upd_mailbox_run s2 x _ _ HX2). cbn [obind]. set (s3 := set_mailboxes s2 _).
  assert (W3 : wakes (recv_wait_queue X) s s3) by (destruct W; by split).
  destruct (IH s3 (mb_set_recv (tail (recv_wait_queue X)) (mb_set_msgs (msg_queue X ++ [b]) X))) as (s' & -> & W' & Hmb).
  - apply lookup_insert_eq.
  - apply (wk_lock _ _ _ W3).
  - intros u Hu. apply (wk_live _ _ _ W3), Hq, tail_sub, Hu.
  - cbn [msg_queue mb_set_recv mb_set_msgs]. rewrite length_app. cbn [length] in *. lia.
  - exists s'. split_and!; [done| |].
    + eapply wakes_trans; [exact W3|]. eapply wakes_mono; [|exact W']. apply tail_sub.
    + rewrite Hmb. cbn [msg_queue send_wait_queue recv_wait_queue mb_lock mb_set_recv mb_set_msgs].
      by rewrite <- app_assoc, drop_tail.
Qed.

Lemma recv_loop_run x c : forall n acc s X,
  mailboxes s !! x = Some X -> ready_lock s = false -> (forall u, u ∈ send_wait_queue X -> is_Some (threads s !! u)) ->
  (n <= length (msg_queue X))%nat ->
  exists s', recv_loop x n acc c s = Ok (Done (acc ++ take n (msg_queue X)) s') /\ wakes (send_wait_queue X) s s' /\
    mailboxes s' !! x = Some (MkMailbox (drop n (msg_queue X)) (drop n (send_wait_queue X)) (recv_wait_queue X) (mb_lock X)).
Proof.
  intros n. induction n as [|n IH]; intros acc s X HX Hl Hq Hsz; cbn [recv_loop].
  { exists s. rewrite take_0, !drop_0, app_nil_r. split_and!; [done|by split|by destruct X]. }
  rewrite HX. cbn [or_fault obind]. destruct (msg_queue X) as [|b msgs] eqn:Hm; cbn [length] in Hsz; [lia|].
  rewrite decide_False by done. cbn [obind kbind]. rewrite HX. cbn [or_fault obind]. rewrite Hm. cbn [head or_fault obind tail].
  rewrite (upd_mailbox_run s x _ X HX). cbn [obind]. set (s1 := set_mailboxes s _).
  assert (HX1 : mailboxes s1 !! x = Some (mb_set_msgs msgs X)) by apply lookup_insert_eq.
  destruct (wakeup_one_run (send_wait_queue X) s1 Hl Hq) as (s2 & -> & W & Emb). cbn [obind].
  assert (HX2 : mailboxes s2 !! x = Some (mb_set_msgs msgs X)) by (by rewrite Emb).
  rewrite (upd_mailbox_run s2 x _ _ HX2). cbn [obind]. set (s3 := set_mailboxes s2 _).
  assert (W3 : wakes (send_wait_queue X) s s3) by (destruct W; by split).
  destruct (IH (acc ++ [b]) s3 (mb_set_send (tail (send_wait_queue X)) (mb_set_msgs msgs X))) as (s' & -> & W' & Hmb).
  - apply lookup_insert_eq.
  - apply (wk_lock _ _ _ W3).
  - intros u Hu. apply (wk_live _ _ _ W3), Hq, tail_sub, Hu.
  - cbn. lia.
  - exists s'. cbn [msg_queue send_wait_queue recv_wait_queue mb_lock mb_set_send mb_set_msgs] in *. split_and!.
    + rewrite <- app_assoc. done.
    + eapply wakes_trans; [exact W3|]. eapply wakes_mono; [|exact W']. apply tail_sub.
    + rewrite Hmb, drop_tail. done.
Qed.

Lemma mb_send_run x c msg s X :
  mailboxes s !! x = Some X -> mb_lock X = false -> ready_lock s = false ->
  (forall u, u ∈ recv_wait_queue X -> is_Some (threads s !! u)) ->
  Z.of_nat (length (msg_queue X) + length msg) <= MAX_MSG_SIZE ->
  exists s', mb_send x msg c s = Ok (Done (Z.of_nat (length msg)) s') /\ wakes (recv_wait_queue X) s s' /\
    mailboxes s' !! x = Some (MkMailbox (msg_queue X ++ msg) (send_wait_queue X) (drop (length msg) (recv_wait_queue X)) false).
Proof.
  intros HX Hl Hrl Hq Hsz. unfold mb_send. rewrite (mb_spin_run s x X HX Hl). cbn [obind]. set (s1 := set_mailboxes s _).
  destruct (send_loop_run x c msg s1 (mb_set_lock true X)) as (s2 & -> & W & HX2);
    [apply lookup_insert_eq|done|done|done|]. cbn [obind kbind]. unfold mb_unlock. rewrite (upd_mailbox_run s2 x _ _ HX2).
  cbn [obind]. eexists. split; [reflexivity|]. split; [destruct W; by split|apply lookup_insert_eq].
Qed.

Lemma mb_recv_run x c n s X :
  mailboxes s !! x = Some X -> mb_lock X = false -> ready_lock s = false ->
  (forall u, u ∈ send_wait_queue X -> is_Some (threads s !! u)) -> (n <= length (msg_queue X))%nat ->
  exists s', mb_recv x n c s = Ok (Done (take n (msg_queue X), Z.of_nat n) s') /\ wakes (send_wait_queue X) s s' /\
    mailboxes s' !! x = Some (MkMailbox (drop n (msg_queue X)) (drop n (send_wait_queue X)) (recv_wait_queue X) false).
Proof.
  intros HX Hl Hrl Hq Hsz. unfold mb_recv. rewrite (mb_spin_run s x X HX Hl). cbn [obind]. set (s1 := set_mailboxes s _).
  destruct (recv_loop_run x c n [] s1 (mb_set_lock true X)) as (s2 & -> & W & HX2);
    [apply lookup_insert_eq|done|done|done|]. cbn [obind kbind app]. unfold mb_unlock. rewrite (upd_mailbox_run s2 x _ _ HX2).
  cbn [obind]. eexists. split; [reflexivity|]. split; [destruct W; by split|apply lookup_insert_eq].
Qed.

(** One use of a mailbox, with the CPU that makes it. *)
Inductive mb_call := Send (c : nat) (msg : list Z) | Recv (c : nat) (n : nat).

(** The calls one after the other: the bytes they received and the state after
    them; nothing when one of them blocks. *)
Fixpoint mb_calls x (calls : list mb_call) s : outcome (option (list Z * kernel)) :=
  match calls with
  | [] => Ok (Some ([], s))
  | Send c msg :: calls =>
      r <- mb_send x msg c s ;;
      match r with
      | Done n s => if n =? Z.of_nat (length msg) then mb_calls x calls s else Ok None
      | Switched _ _ => Ok None
      end
  | Recv c n :: calls =>
      r <- mb_recv x n c s ;;
      match r with
      | Done (got, m) s =>
          rest <- mb_calls x calls s ;;
          Ok (if m =? Z.of_nat n then '(later, s') ← rest; Some (got ++ later, s') else None)
      | Switched _ _ => Ok None
      end
  end.

(** The bytes sent, in order *)
Definition sent_bytes (calls : list mb_call) : list Z := concat (map (fun o => match o with Send _ msg => msg | Recv _ _ => [] end) calls).

(** No call has to wait: with [n] bytes in the mailbox, what is sent always fits and
    what is asked for is always there. *)
Fixpoint never_waits (n : nat) (calls : list mb_call) : Prop :=
  match calls with
  | [] => True
  | Send _ msg :: calls => Z.of_nat (n + length msg) <= MAX_MSG_SIZE /\ never_waits (n + length msg) calls
  | Recv _ k :: calls => (k <= n)%nat /\ never_waits (n - k) calls
  end.

(** C34: as long as nobody has to wait, a mailbox is a first-in first-out queue of
    bytes.  Take any sequence of sends and receives, from any CPUs, in which every
    message fits into the 4096 bytes with what is still there, and no receive asks
    for more than is there.  No call blocks, every call returns the length it was
    given, and the bytes received, in order, followed by the bytes still in the
    mailbox, are the bytes that were there before followed by those sent, in order:
    none is lost, made up, or overtakes another.  (Calls that have to wait are not
    covered: a sender waits in the wrong queue, and a receiver does not test again
    after waking.) *)
Theorem mailbox_fifo x calls s X :
  mailboxes s !! x = Some X -> mb_lock X = false -> ready_lock s = false ->
  (forall u, u ∈ recv_wait_queue X \/ u ∈ send_wait_queue X -> is_Some (threads s !! u)) ->
  never_waits (length (msg_queue X)) calls ->
  exists received s' X', mb_calls x calls s = Ok (Some (received, s')) /\ mailboxes s' !! x = Some X' /\ mb_lock X' = false /\
    received ++ msg_queue X' = msg_queue X ++ sent_bytes calls.
Proof.
  revert s X. induction calls as [|[c msg|c n] calls IH]; intros s X HX Hl Hrl Hq Hw; cbn [mb_calls never_waits] in *.
  - exists [], s, X. split_and!; try done. unfold sent_bytes. cbn. by rewrite app_nil_r.
  - destruct Hw as [Hsz Hw]. destruct (mb_send_run x c msg s X HX Hl Hrl (fun u Hu => Hq u (or_introl Hu)) Hsz) as (s1 & -> & W1 & HX1).
    cbn [obind]. rewrite Z.eqb_refl. destruct (IH s1 _ HX1 eq_refl (wk_lock _ _ _ W1)) as (rcv & s' & X' & E & HX' & Hl' & Heq).
    + intros u Hu. apply (wk_live _ _ _ W1), Hq. destruct Hu as [Hu|Hu]; [left; by eapply subseteq_drop|by right].
    + cbn [msg_queue]. by rewrite length_app.
    + exists rcv, s', X'. split_and!; try done. rewrite Heq. cbn [msg_queue]. by rewrite <- app_assoc.
  - destruct Hw as [Hn Hw]. destruct (mb_recv_run x c n s X HX Hl Hrl (fun u Hu => Hq u (or_intror Hu)) Hn) as (s1 & -> & W1 & HX1).
    cbn [obind]. rewrite Z.eqb_refl. destruct (IH s1 _ HX1 eq_refl (wk_lock _ _ _ W1)) as (rcv & s' & X' & -> & HX' & Hl' & Heq).
    + intros u Hu. apply (wk_live _ _ _ W1), Hq. destruct Hu as [Hu|Hu]; [by left|right; by eapply subseteq_drop].
    + cbn [msg_queue]. by rewrite length_drop.
    + eexists _, s', X'. split_and!; [done|done|done|]. rewrite <- app_assoc, Heq. cbn [msg_queue]. rewrite app_assoc. by rewrite take_drop.
Qed.

(** a sender that finds the mailbox full is never woken by receivers.  It is
    parked in the queue of the receivers, and receive wakes the queue of the
    senders: however many of the 4096 bytes are received afterwards, the sender
    stays parked in a queue that only another send would serve. *)
Theorem full_mailbox_sender_stuck x c t b msg s X :
  sched_ok s -> executing c s t -> mailboxes s !! x = Some X -> mb_lock X = false ->
  Z.of_nat (length (msg_queue X)) = MAX_MSG_SIZE -> send_wait_queue X = [] ->
  let X1 := MkMailbox (msg_queue X) [] (recv_wait_queue X ++ [t]) false in
  exists s1 k, mb_send x (b :: msg) c s = Ok (Switched s1 k) /\ parked s1 t /\ mailboxes s1 !! x = Some X1 /\
    forall s2 c' n, mailboxes s2 !! x = Some X1 -> parked s2 t -> ready_lock s2 = false -> Z.of_nat n <= MAX_MSG_SIZE ->
      exists s3 X3, mb_recv x n c' s2 = Ok (Done (take n (msg_queue X), Z.of_nat n) s3) /\ parked s3 t /\
        mailboxes s3 !! x = Some X3 /\ t ∈ recv_wait_queue X3 /\ send_wait_queue X3 = [].
Proof.
  intros Hok Hex HX Hl Hfull Hsq X1. destruct (running_thread _ _ (ex_running _ _ _ Hex)) as (T & HT & _).
  set (s1 := set_mailboxes s (<[x := mb_set_lock true X]> (mailboxes s))).
  assert (HX1 : mailboxes s1 !! x = Some (mb_set_lock true X)) by apply lookup_insert_eq.
  set (s2 := set_mailboxes s1 (<[x := mb_set_recv (push (recv_wait_queue X) t) (mb_set_lock true X)]> (mailboxes s1))).
  set (X3 := mb_set_lock false (mb_set_recv (push (recv_wait_queue X) t) (mb_set_lock true X))).
  assert (EX : X3 = X1) by (unfold X3, X1, mb_set_lock, mb_set_recv; cbn; by rewrite Hsq).
  set (s3 := set_mailboxes (blocked_state s2 t T) (<[x := X3]> (mailboxes s2))).
  match eval unfold mb_block_recv in (mb_block_recv x c s1) with context [do_block ?e ?r c s1] =>
    destruct (do_block_parks c s1 t e r s2 s3 T) as (s' & E & Hok' & Hrest & Hpark & _) end.
  - revert Hok. by apply view_ok.
  - destruct Hex. by split.
  - done.
  - cbv beta. by rewrite (upd_mailbox_run s1 x _ _ HX1).
  - done.
  - cbv beta. unfold mb_unlock. by erewrite upd_mailbox_run by apply lookup_insert_eq.
  - done.
  - eexists s', _. split_and!.
    + unfold mb_send. rewrite (mb_spin_run s x X HX Hl). cbn [obind]. fold s1. cbn [send_loop]. rewrite HX1.
      cbn [or_fault obind msg_queue mb_set_lock]. rewrite Hfull, Z.leb_refl. unfold mb_block_recv. rewrite E. reflexivity.
    + done.
    + change (mailboxes s') with (mailboxes (rest s')). rewrite Hrest, <- EX. change (mailboxes (rest s3)) with (mailboxes s3).
      apply lookup_insert_eq.
    + intros s4 c' n HX4 Hp4 Hrl4 Hn. destruct (mb_recv_run x c' n s4 X1 HX4 eq_refl Hrl4) as (s5 & E5 & W5 & HX5).
      { by intros u ?%elem_of_nil. }
      { cbn. lia. }
      exists s5. eexists. split_and!; [exact E5|exact (wakes_parked _ _ _ _ W5 (not_elem_of_nil t) Hp4)|exact HX5| |].
      * cbn. apply elem_of_app. right. by left.
      * cbn. apply drop_nil.
Qed.

(** * Concrete runs *)

Module OneCpuLocks.
Import OneCpu.

Definition s0 : kernel := set_mutexes quiet {[700 := MkMutex false None []]}.
Definition of_done (r : outcome (kres unit)) : kernel := match r with Ok (Done _ s) => s | Ok (Switched s _) => s | _ => s0 end.
Definition of_check (r : outcome (kres bool)) : kernel := match r with Ok (Done _ s) => s | _ => s0 end.
(** 101 takes the mutex, a timer tick brings 102, which has to wait. *)
Definition s1 := of_done (acquire 700 0 s0).
Definition seen := of_check (acquire_check 700 0 s0).
Definition s2 := of_done (yield 0 s1).
Definition two : kernel := set_mutexes TwoCpus.start {[700 := MkMutex false None []]}.
Definition t0 := of_check (acquire_check 700 0 two).
Definition t1 := of_check (acquire_check 700 1 t0).
Definition t2 := of_done (take_ownership 700 0 t1).
Definition t3 := of_done (take_ownership 700 1 t2).
Definition held := set_mutexes quiet {[700 := MkMutex false (Some 101) []]}.
Definition bar := set_barriers quiet {[710 := MkBarrier 2 1 [103] false]}.
Definition cond := set_conditions held {[720 := MkCondition [] false]}.
Definition box (msgs : list Z) := set_mailboxes quiet {[730 := MkMailbox msgs [] [] false]}.

Lemma quiet_ok : sched_ok quiet.
Proof. apply machine_ok; [lia|lia|constructor]. Qed.

Lemma executing_101 s : sched_view s = sched_view quiet -> executing 0 s 101.
Proof.
  intros V. split.
  - by rewrite (view_current _ _ _ V).
  - rewrite (view_idle _ _ _ V). unfold quiet. by rewrite idle_only.
  - exists (thread 1 0 (Some 0%nat)). by rewrite (view_threads _ _ V).
  - intros w. rewrite (view_sleeping _ _ V). apply not_elem_of_nil.
Qed.

Lemma parked_103 : parked quiet 103.
Proof. split; [by exists (thread 3 1 None)|unfold quiet; by rewrite idle_only|intros w; apply not_elem_of_nil]. Qed.
End OneCpuLocks.
Import OneCpu OneCpuLocks.

Lemma mutex_exclusion_witness :
  exists x, rtc (mx_alone 700 0) (MC (MS s0 [] ∅) ∅) x /\ inside (mst x) = [101] /\ is_Some (pending (mst x) !! 102) /\
    exists M, mutexes (kern (mst x)) !! 700 = Some M /\ (inside (mst x) = [] \/ exists o, inside (mst x) = [o] /\ owner M = Some o).
Proof.
  assert (Hok : sched_ok s0) by (apply (view_ok quiet); [reflexivity|apply quiet_ok]).
  assert (H0 : mx_use 700 0 (MC (MS s0 [] ∅) ∅) (MC (MS seen [] ∅) {[0%nat := 101]})).
  { rewrite <- insert_empty. apply x_check; [reflexivity|apply executing_101; reflexivity|apply not_elem_of_nil|reflexivity|vm_compute; reflexivity]. }
  assert (H1 : mx_use 700 0 (MC (MS seen [] ∅) {[0%nat := 101]}) (MC (MS s1 [101] ∅) ∅)).
  { rewrite <- (delete_singleton_eq 0%nat 101). apply x_store; [reflexivity|vm_compute; reflexivity]. }
  assert (Hok1 : sched_ok s1) by (apply (view_ok quiet); [vm_compute; reflexivity|apply quiet_ok]).
  assert (Hok2 : sched_ok s2) by (eapply schedule_keeps' with (c := 0%nat) (s := s1); [exact Hok1|vm_compute; reflexivity]).
  assert (H2 : mx_other 700 (MC (MS s1 [101] ∅) ∅) (MC (MS s2 [101] ∅) ∅)).
  { apply x_other; [exact Hok2|vm_compute; reflexivity| |]; [intros u [k Hk]; by rewrite lookup_empty in Hk|intros d u Hu; by rewrite lookup_empty in Hu]. }
  assert (Hex : executing 0 s2 102).
  { split.
    - vm_compute. reflexivity.
    - intros (d & D & HD & HE). replace (cpus s2) with [MkCPU 102 100 0 0] in HD by (vm_compute; reflexivity).
      destruct d as [|[|d]]; try discriminate. injection HD as <-. discriminate.
    - eexists. split; vm_compute; reflexivity.
    - intros w. replace (sleeping_queue s2) with (@nil (Z * Z)) by (vm_compute; reflexivity). apply not_elem_of_nil. }
  destruct (acquire_taken 0 s2 102 700 (MkMutex false (Some 101) []) 101 Hok2 Hex) as (s3 & k & E3 & _);
    [vm_compute; reflexivity|reflexivity|reflexivity|discriminate|].
  assert (H3 : mx_use 700 0 (MC (MS s2 [101] ∅) ∅) (MC (MS s3 [101] (<[102 := k]> ∅)) ∅)).
  { apply x_wait; [reflexivity|exact Hex|rewrite list_elem_of_singleton; discriminate|reflexivity|exact E3]. }
  assert (Hrun : rtc (mx_alone 700 0) (MC (MS s0 [] ∅) ∅) (MC (MS s3 [101] (<[102 := k]> ∅)) ∅)).
  { eapply rtc_l; [left; exact H0|]. eapply rtc_l; [left; exact H1|]. eapply rtc_l; [right; exact H2|]. apply rtc_once. left. exact H3. }
  eexists. split; [exact Hrun|]. split; [reflexivity|]. split; [exists k; apply lookup_insert_eq|].
  destruct (mutex_exclusion 700 s0 _ Hok eq_refl (or_intror (ex_intro _ 0%nat Hrun))) as (M & HM & Hin & _). exists M. split; [exact HM|exact Hin].
Defined.

(** two CPUs that acquire a free mutex at the same time both get it.  On two CPUs,
    with a kernel that satisfies the invariant, thread 101 on CPU 0 and thread 104 on
    CPU 1 both see the mutex free before either stores its owner: both are inside, and
    the owner is the later one. *)
Theorem overlapping_acquires_both_enter :
  sched_ok two /\ mutexes two !! 700 = Some (MkMutex false None []) /\
  exists x, rtc (mx_any 700) (MC (MS two [] ∅) ∅) x /\ inside (mst x) = [104; 101] /\ checked x = ∅ /\ pending (mst x) = ∅ /\
    mutexes (kern (mst x)) !! 700 = Some (MkMutex false (Some 104) []).
Proof.
  assert (Hok : sched_ok two) by (apply (view_ok TwoCpus.start); [reflexivity|apply TwoCpus.start_ok]).
  split; [exact Hok|]. split; [reflexivity|].
  assert (V : forall s, sched_view s = sched_view TwoCpus.start -> executing 0 s 101 /\ executing 1 s 104).
  { intros s V. split; (split; [by rewrite (view_current _ _ _ V)|rewrite (view_idle _ _ _ V), TwoCpus.idle_two; lia| |intros w; rewrite (view_sleeping _ _ V); apply not_elem_of_nil]);
      [exists (OneCpu.thread 1 0 (Some 0%nat))|exists (OneCpu.thread 4 0 (Some 1%nat))]; by rewrite (view_threads _ _ V). }
  assert (H0 : mx_use 700 0 (MC (MS two [] ∅) ∅) (MC (MS t0 [] ∅) {[0%nat := 101]})).
  { rewrite <- insert_empty. apply x_check; [reflexivity|apply V; reflexivity|apply not_elem_of_nil|reflexivity|vm_compute; reflexivity]. }
  assert (H1 : mx_use 700 1 (MC (MS t0 [] ∅) {[0%nat := 101]}) (MC (MS t1 [] ∅) (<[1%nat := 104]> {[0%nat := 101]}))).
  { apply x_check; [reflexivity|apply V; vm_compute; reflexivity|apply not_elem_of_nil|reflexivity|vm_compute; reflexivity]. }
  assert (H2 : mx_use 700 0 (MC (MS t1 [] ∅) (<[1%nat := 104]> {[0%nat := 101]})) (MC (MS t2 [101] ∅) {[1%nat := 104]})).
  { replace ({[1%nat := 104]} : gmap nat Z) with (delete 0%nat (<[1%nat := 104]> {[0%nat := 101]} : gmap nat Z)) by reflexivity.
    apply x_store; [reflexivity|vm_compute; reflexivity]. }
  assert (H3 : mx_use 700 1 (MC (MS t2 [101] ∅) {[1%nat := 104]}) (MC (MS t3 [104; 101] ∅) ∅)).
  { rewrite <- (delete_singleton_eq 1%nat 104). apply x_store; [reflexivity|vm_compute; reflexivity]. }
  exists (MC (MS t3 [104; 101] ∅) ∅). split.
  - eapply rtc_l; [left; by exists 0%nat|]. eapply rtc_l; [left; by exists 1%nat|]. eapply rtc_l; [left; by exists 0%nat|]. apply rtc_once. left. by exists 1%nat.
  - split; [reflexivity|]. split; [reflexivity|]. split; [reflexivity|]. vm_compute. reflexivity.
Qed.

Lemma mutex_misuse_witness :
  (exists s', acquire 700 0 held = Ok (Done tt s') /\ forall p, release 700 p s' = OutOfFuel) /\
  on_process_unregister KMutex 501 700 s0 = Fault.
Proof.
  split.
  - destruct (mutex_misuse 700 0 101 held (MkMutex false (Some 101) [])) as [H _]; [reflexivity..|].
    destruct (H eq_refl) as (s' & E & _ & Hr & _). exists s'. split; [exact E|exact Hr].
  - destruct (mutex_misuse 700 0 101 s0 (MkMutex false None [])) as [_ H]; [reflexivity..|]. apply (H eq_refl 501).
Defined.

Lemma barrier_round_witness :
  exists s', barrier_wait 710 0 bar = Ok (Done tt s') /\ statusof s' 103 READY.
Proof.
  destruct (barrier_round 710 0 101 bar (MkBarrier 2 1 [103] false)) as (s' & E & _ & _ & _ & Hw).
  - apply (view_ok quiet); [reflexivity|apply quiet_ok].
  - apply executing_101. reflexivity.
  - split; [reflexivity|reflexivity|reflexivity|split; reflexivity| |apply NoDup_singleton].
    intros u Hu. apply list_elem_of_singleton in Hu as ->. apply (view_parked quiet); [reflexivity|apply parked_103].
  - exists s'. split; [exact E|]. apply (Hw 103). by left.
Defined.

Lemma signal_not_lost_witness :
  exists s1 s2 s3 k, cond_enter 720 700 0 cond = Ok s1 /\ cond_signal 720 s1 = Ok s2 /\
    cond_sleep 700 0 s2 = Ok (Switched s3 k) /\ (statusof s3 101 RUNNING \/ statusof s3 101 READY /\ 101 ∈ ready_queue s3).
Proof.
  destruct (signal_not_lost 720 700 0 cond 101 (MkCondition [] false) (MkMutex false (Some 101) []))
    as (s1 & s2 & E1 & E2 & (s3 & k & E3 & _ & _ & Hst) & _).
  - apply (view_ok quiet); [reflexivity|apply quiet_ok].
  - split; [apply executing_101; reflexivity|reflexivity..|]. intros u Hu. by apply elem_of_nil in Hu.
  - reflexivity.
  - exists s1, s2, s3, k. split; [exact E1|]. split; [exact E2|]. split; [exact E3|exact Hst].
Defined.

Lemma mailbox_fifo_witness :
  exists received s' X', mb_calls 730 [Send 0 [1; 2; 3]; Recv 0 4; Send 0 [4]; Recv 0 1] (box [7; 8]) = Ok (Some (received, s')) /\
    mailboxes s' !! 730 = Some X' /\ received ++ msg_queue X' = [7; 8; 1; 2; 3; 4].
Proof.
  destruct (mailbox_fifo 730 [Send 0 [1; 2; 3]; Recv 0 4; Send 0 [4]; Recv 0 1] (box [7; 8]) (MkMailbox [7; 8] [] [] false))
    as (rcv & s' & X' & E & HX & _ & Heq).
  - reflexivity.
  - reflexivity.
  - reflexivity.
  - intros u [Hu|Hu]; by apply elem_of_nil in Hu.
  - cbn. unfold MAX_MSG_SIZE. lia.
  - exists rcv, s', X'. split; [exact E|]. split; [exact HX|exact Heq].
Defined.

Lemma full_mailbox_sender_stuck_witness :
  exists s1 k, mb_send 730 [1] 0 (box (repeat 0 (Z.to_nat 4096))) = Ok (Switched s1 k) /\ parked s1 101.
Proof.
  destruct (full_mailbox_sender_stuck 730 0 101 1 [] (box (repeat 0 (Z.to_nat 4096))) (MkMailbox (repeat 0 (Z.to_nat 4096)) [] [] false))
    as (s1 & k & E & Hp & _).
  - apply (view_ok quiet); [reflexivity|apply quiet_ok].
  - apply executing_101. reflexivity.
  - reflexivity.
  - reflexivity.
  - cbn [msg_queue]. rewrite repeat_length, Z2Nat.id by lia. reflexivity.
  - reflexivity.
  - exists s1, k. split; [exact E|exact Hp].
Defined.
