(* ===== verification/Process.v ===== *)
(** Threads and processes: src/thread.cpp and src/process.cpp.

    Thread::exit and Process::kill call each other; the depth of the calls is
    bounded by [fuel] ([exit_fuel] is enough).  When a thread that is current
    exits, the call of do_scheduler inside exit never comes back: the rest of
    whoever called it is the continuation of the [Switched] result, which nobody
    resumes.  [fresh] is what operator new returns, [stack] what kalloc returns
    for the kernel stack. *)

From Stdlib Require Import ZArith Lia List.
From stdpp Require Import base numbers list gmap.
From S2P Require Import Prelude KAlloc Trie Objects Kernel Sched Locks.

Local Open Scope Z_scope.

Implicit Types (s : kernel) (t p : Z).

(** Global and private locks *)
Definition lock_threads s : outcome kernel := b <- lock (thread_global_lock s) ;; Ok (set_thread_global_lock s b).
Definition unlock_threads s : kernel := set_thread_global_lock s (unlock (thread_global_lock s)).
Definition lock_processes s : outcome kernel := b <- lock (process_global_lock s) ;; Ok (set_process_global_lock s b).
Definition unlock_processes s : kernel := set_process_global_lock s (unlock (process_global_lock s)).
Definition lock_process s p : outcome kernel :=
  P <- or_fault (processes s !! p) ;; b <- lock (process_own_lock P) ;; upd_process s p (with_process_own_lock b).
Definition unlock_process s p : outcome kernel := upd_process s p (fun P => with_process_own_lock (unlock (process_own_lock P)) P).
Definition lock_thread s t : outcome kernel :=
  T <- or_fault (threads s !! t) ;; b <- lock (thread_own_lock T) ;; upd_thread s t (with_thread_own_lock b).
Definition unlock_thread s t : outcome kernel := upd_thread s t (fun T => with_thread_own_lock (unlock (thread_own_lock T)) T).

(** * Creation *)

(** Thread::Thread(Process *process, size_t trank): the frame that
    switch_context_entry restores is laid out on the new kernel stack;
    [first_run] is the address of kernel_thread_first_run. *)
Definition new_thread (first_run fresh stack p rank : Z) s : outcome kernel :=
  let id := Z.of_nat (length (thread_table s)) in
  s <- lock_threads s ;;
  let s := set_thread_table s (thread_table s ++ [Some fresh]) in
  let s := unlock_threads s in
  let regs := <[16%nat := rank]> (repeat 0 31) in
  let kernel_stack_top := u64 (stack + PAGE_SIZE * 4) in
  let ksp := u64 (kernel_stack_top - 14 * 8) in
  let s := emit s (StoreWord ksp first_run) in
  let s := emit s (StoreWord (u64 (ksp + 13 * 8)) kernel_stack_top) in
  Ok (set_threads s (<[fresh := MkThread regs 0 ksp false p id rank [] None 0 false false]> (threads s))).

(** Thread *Process::create_thread() *)
Definition create_thread (first_run fresh stack p : Z) s : outcome kernel :=
  s <- lock_process s p ;;
  P <- or_fault (processes s !! p) ;;
  s <- new_thread first_run fresh stack p (Z.of_nat (length (threads_of P))) s ;;
  s <- upd_process s p (fun P => with_active_thread_cnt (u64 (active_thread_cnt P + 1)) P) ;;
  s <- upd_process s p (fun P => with_threads_of (threads_of P ++ [fresh]) P) ;;
  unlock_process s p.

(** Process::Process(Process *parent, std::string name); [root] is the page
    directory that the constructor of PageDir allocates. *)
Definition new_process (fresh root : Z) (par : option Z) (name : list Z) s : outcome kernel :=
  let id := Z.of_nat (length (process_table s)) in
  let P := MkProcess false id name root par [] [] (2 ^ 64 - 1) 0 0 [] 0 0 false in
  let s := set_kernel_objects (set_processes s (<[fresh := P]> (processes s))) (kernel_objects s ++ [TrieLookup]) in
  s <- match par with
       | Some q =>
           s <- lock_process s q ;;
           s <- upd_process s q (fun Q => with_children (children Q ++ [fresh]) Q) ;;
           Q <- or_fault (processes s !! q) ;;
           s <- upd_process s fresh (with_cpu_mask (cpu_mask Q)) ;;
           s <- upd_process s fresh (with_cwd_node_idx (cwd_node_idx Q)) ;;
           unlock_process s q
       | None => Ok s
       end ;;
  s <- lock_processes s ;;
  let s := set_process_table s (process_table s ++ [Some fresh]) in
  Ok (unlock_processes s).

(** void init_processor(size_t hartid), on hart 0: the idle process and the first
    CPU with its idle thread. *)
Definition new_cpu (first_run idle_process fresh stack : Z) (hart : nat) s : outcome kernel :=
  let id := length (cpus s) in
  s <- create_thread first_run fresh stack idle_process s ;;
  s <- upd_thread s fresh (with_kernel_stack_top 0) ;;
  Ok (set_cpus s (cpus s ++ [MkCPU fresh fresh id hart])).
(** kernel-idle *)
Definition kernel_idle : list Z := [107; 101; 114; 110; 101; 108; 45; 105; 100; 108; 101].
Definition init_processor (first_run idle_process root fresh stack : Z) (hart : nat) s : outcome kernel :=
  s <- (if (hart =? 0)%nat then new_process idle_process root None kernel_idle s else Ok s) ;;
  new_cpu first_run idle_process fresh stack hart s.

(** * Ending *)

(** void Process::send_intr_to_running_thread() *)
Definition hart_bits s (ths : list Z) : outcome Z :=
  fold_left (fun acc t =>
    mask <- acc ;;
    T <- or_fault (threads s !! t) ;;
    if decide (status T = RUNNING) then
      c <- or_fault (running_cpu T) ;;
      C <- or_fault (cpus s !! c) ;;
      Ok (Z.lor mask (Z.shiftl 1 (Z.of_nat (hartid C))))
    else Ok mask) ths (Ok 0).
Definition send_intr_to_running_thread p s : outcome kernel :=
  P <- or_fault (processes s !! p) ;;
  hartmask <- hart_bits s (threads_of P) ;;
  Ok (if negb (hartmask =? 0) then emit s (SendIpi hartmask) else s).

(** The class of a registered object *)
Definition kind_of s (obj : Z) : kind :=
  match mutexes s !! obj with Some _ => KMutex | None =>
  match barriers s !! obj with Some _ => KBarrier | None =>
  match conditions s !! obj with Some _ => KCondition | None =>
  match mailboxes s !! obj with Some _ => KMailbox | None => KFile end end end end.

(** kernel_objects.foreach(...) of Process::kill *)
Definition registered_objects p s : outcome (list Z) :=
  id <- pid_of s p ;; o <- or_fault (kernel_objects s !! id) ;; Ok (foreach o).
Fixpoint unregister_all p (objs : list Z) s : outcome kernel :=
  match objs with
  | [] => Ok s
  | o :: objs => s <- on_process_unregister (kind_of s o) p o s ;; unregister_all p objs s
  end.

(** Living children of a killed process go to its parent. *)
Fixpoint reparent (q : Z) (kids : list Z) s : outcome kernel :=
  match kids with
  | [] => Ok s
  | k :: kids =>
      K <- or_fault (processes s !! k) ;;
      s <- (if negb (is_killed K) then
              s <- upd_process s k (with_parent (Some q)) ;;
              upd_process s q (fun Q => with_children (children Q ++ [k]) Q)
            else Ok s) ;;
      reparent q kids s
  end.

(** What kill does after the threads have exited. *)
Definition kill_rest p s : outcome kernel :=
  s <- unlock_process s p ;;
  s <- send_intr_to_running_thread p s ;;
  objs <- registered_objects p s ;;
  s <- unregister_all p objs s ;;
  P <- or_fault (processes s !! p) ;;
  s <- match parent P with Some q => reparent q (children P) s | None => Ok s end ;;
  s <- lock_processes s ;;
  let s := set_process_to_release s (process_to_release s ++ [p]) in
  Ok (unlock_processes s).

(** for (Thread *t : threads) t->exit(); *)
Fixpoint exit_all (exit : Z -> nat -> kernel -> outcome (kres unit)) (ths : list Z) (c : nat) s : outcome (kres unit) :=
  match ths with
  | [] => Ok (Done tt s)
  | t :: ths => r <- exit t c s ;; kbind r c (fun _ => exit_all exit ths)
  end.

(** void Thread::exit() and void Process::kill() *)
Fixpoint exit (fuel : nat) t (c : nat) s : outcome (kres unit) :=
  match fuel with
  | O => OutOfFuel
  | S fuel =>
      T <- or_fault (threads s !! t) ;;
      if status_exited T then Ok (Done tt s)
      else
        s <- lock_thread s t ;;
        s <- upd_thread s t (with_exited true) ;;
        s <- upd_thread s t (with_wait_exited_queue []) ;;
        s <- wakeup_all (wait_exited_queue T) s ;;
        s <- unlock_thread s t ;;
        s <- upd_process s (process T) (fun P => with_active_thread_cnt (u64 (active_thread_cnt P - 1)) P) ;;
        P <- or_fault (processes s !! process T) ;;
        r <- (if active_thread_cnt P =? 0 then kill fuel (process T) c s else Ok (Done tt s)) ;;
        kbind r c (fun _ c s =>
          cur <- current s c ;;
          if cur =? t then do_scheduler c s else Ok (Done tt s))
  end
with kill (fuel : nat) p (c : nat) s : outcome (kres unit) :=
  match fuel with
  | O => OutOfFuel
  | S fuel =>
      P <- or_fault (processes s !! p) ;;
      if is_killed P then Ok (Done tt s)
      else
        s <- lock_process s p ;;
        s <- upd_process s p (with_is_killed true) ;;
        s <- upd_process s p (with_wait_kill_queue []) ;;
        s <- wakeup_all (wait_kill_queue P) s ;;
        r <- exit_all (exit fuel) (threads_of P) c s ;;
        kbind r c (fun _ _ s => s <- kill_rest p s ;; Ok (Done tt s))
  end.

(** exit, kill, exit of every thread, kill of a process already killed *)
Definition exit_fuel : nat := 5.

(** Thread::~Thread() and delete *)
Definition delete_thread t s : outcome kernel :=
  T <- or_fault (threads s !! t) ;;
  s <- lock_threads s ;;
  let s := set_thread_table s (<[Z.to_nat (tid T) := None]> (thread_table s)) in
  let s := unlock_threads s in
  s <- wakeup_all (wait_exited_queue T) s ;;
  Ok (set_threads s (delete t (threads s))).
Fixpoint delete_threads (ths : list Z) s : outcome kernel :=
  match ths with
  | [] => Ok s
  | t :: ths =>
      T <- or_fault (threads s !! t) ;;
      assert_ (has_exited T) ;;
      s <- delete_thread t s ;;
      delete_threads ths s
  end.

(** Process::~Process() and delete *)
Definition delete_process p s : outcome kernel :=
  P <- or_fault (processes s !! p) ;;
  assert_ (is_killed P) ;;
  s <- delete_threads (threads_of P) s ;;
  let s := emit s (FreePagedir (pagedir P)) in
  s <- wakeup_all (wait_kill_queue P) s ;;
  Ok (set_processes s (delete p (processes s))).

(** The loop of idle_cleanup over process_table *)
Fixpoint cleanup_loop (n : nat) (i : nat) s : outcome kernel :=
  match n with
  | O => Ok s
  | S n =>
      e <- or_fault (process_table s !! i) ;;
      s <- match e with
           | Some p =>
               P <- or_fault (processes s !! p) ;;
               if is_killed P then
                 s <- lock_process s p ;;
                 s <- delete_process p s ;;
                 Ok (set_process_table s (<[i := None]> (process_table s)))
               else Ok s
           | None => Ok s
           end ;;
      cleanup_loop n (S i) s
  end.

(** void idle_cleanup() *)
Definition idle_cleanup s : outcome kernel :=
  let '(old, flag) := test_and_set (cleanup_lock s) in
  let s := set_cleanup_lock s flag in
  if old then Ok s
  else
    s <- lock_processes s ;;
    s <- cleanup_loop (length (process_table s)) 0 s ;;
    let s := unlock_processes s in
    Ok (set_cleanup_lock s false).

(** * System calls *)

(** Thread *get_thread(size_t pid): the entry of a deleted thread is null, and is
    read through. *)
Definition get_thread (n : Z) s : outcome (option Z) :=
  _ <- lock (thread_global_lock s) ;;
  if Z.of_nat (length (thread_table s)) <=? n then Ok None
  else
    e <- or_fault (thread_table s !! Z.to_nat n) ;;
    t <- or_fault e ;;
    T <- or_fault (threads s !! t) ;;
    Ok (if has_exited T then None else Some t).

(** Process *get_process(size_t pid) *)
Definition get_process (n : Z) s : outcome (option Z) :=
  _ <- lock (process_global_lock s) ;;
  if Z.of_nat (length (process_table s)) <=? n then Ok None
  else
    e <- or_fault (process_table s !! Z.to_nat n) ;;
    p <- or_fault e ;;
    P <- or_fault (processes s !! p) ;;
    Ok (if is_killed P then None else Some p).

Definition sys_exit_thread (c : nat) s : outcome (kres unit) := t <- current s c ;; exit exit_fuel t c s.
Definition sys_kill_thread (n : Z) (c : nat) s : outcome (kres unit) :=
  t <- get_thread n s ;;
  match t with None => Ok (Done tt s) | Some t => exit exit_fuel t c s end.
Definition sys_wait_thread (n : Z) (c : nat) s : outcome (kres unit) :=
  t <- get_thread n s ;;
  match t with
  | None => Ok (Done tt s)
  | Some t => do_block (fun w s => upd_thread s t (fun T => with_wait_exited_queue (push (wait_exited_queue T) w) T)) Ok c s
  end.

Definition sys_exit (c : nat) s : outcome (kres unit) :=
  p <- current_process s c ;;
  r <- kill exit_fuel p c s ;;
  kbind r c (fun _ => do_scheduler).
Definition sys_kill (n : Z) (c : nat) s : outcome (kres Z) :=
  p <- get_process n s ;;
  match p with
  | None => Ok (Done 0 s)
  | Some p =>
      r <- kill exit_fuel p c s ;;
      kbind r c (fun _ c s =>
        q <- current_process s c ;;
        r <- (if p =? q then do_scheduler c s else Ok (Done tt s)) ;;
        kbind r c (fun _ _ s => Ok (Done 1 s)))
  end.
Definition sys_getpid (c : nat) s : outcome Z := p <- current_process s c ;; P <- or_fault (processes s !! p) ;; Ok (pid P).
Definition sys_waitpid (n : Z) (c : nat) s : outcome (kres Z) :=
  p <- get_process n s ;;
  match p with
  | None => Ok (Done 0 s)
  | Some p =>
      r <- do_block (fun w s => upd_process s p (fun P => with_wait_kill_queue (push (wait_kill_queue P) w) P)) Ok c s ;;
      kbind r c (fun _ _ s => Ok (Done (i32 n) s))
  end.
Definition sys_task_set (n mask : Z) (c : nat) s : outcome kernel :=
  p <- (if n =? 0 then p <- current_process s c ;; Ok (Some p) else get_process n s) ;;
  match p with None => Ok s | Some p => upd_process s p (with_cpu_mask (u64 mask)) end.

Definition USER_ENTRYPOINT : Z := 0x200000.

(** size_t sys_create_thread(ptr_t func, ptr_t arg) *)
Definition sys_create_thread (first_run fresh stack func arg : Z) (c : nat) s : outcome (Z * kernel) :=
  p <- current_process s c ;;
  s <- create_thread first_run fresh stack p s ;;
  s <- upd_thread s fresh (with_sepc USER_ENTRYPOINT) ;;
  s <- upd_thread s fresh (fun T => with_regs (<[9%nat := func]> (regs T)) T) ;;
  s <- upd_thread s fresh (fun T => with_regs (<[10%nat := arg]> (regs T)) T) ;;
  s <- add_ready_thread s fresh ;;
  T <- or_fault (threads s !! fresh) ;;
  Ok (tid T, s).
