(* ===== verification/ProcessTheorems.v ===== *)
(** Theorems on the end of threads and processes (src/thread.cpp, src/process.cpp). *)

From Stdlib Require Import ZArith Lia List.
From stdpp Require Import base numbers list gmap.
From S2P Require Import Prelude Trie Objects Kernel Sched SchedProps SchedTheorems Locks LocksProps LocksTheorems Process.

Local Open Scope Z_scope.

Implicit Types (s : kernel) (t p : Z).

(** * Threads that exit without giving up the CPU *)

(** A living thread of [p] that CPU [c] does not run and nobody waits for. *)
Record bystander (c : nat) s p t : Prop := {
  by_thread : exists T, threads s !! t = Some T /\ process T = p /\ status_exited T = false /\
    thread_own_lock T = false /\ wait_exited_queue T = [];
  by_other : exists cur, current s c = Ok cur /\ cur <> t
}.

(** The process that is being killed, its lock held. *)
Record dying s p (P : Process) (n : Z) : Prop := {
  dy_process : processes s !! p = Some P;
  dy_killed : is_killed P = true;
  dy_active : active_thread_cnt P = n
}.

(** The state with other threads and another version of the process. *)
Definition with_tp s (th : gmap Z Thread) p (P : Process) : kernel := set_processes (set_threads s th) (<[p := P]> (processes s)).

(** What exit does to the thread and its process, and what is left to do. *)
Lemma exit_prefix fuel c s p t P T :
  processes s !! p = Some P -> 0 < active_thread_cnt P < 2 ^ 64 -> threads s !! t = Some T ->
  process T = p -> status_exited T = false -> thread_own_lock T = false -> wait_exited_queue T = [] ->
  let n := active_thread_cnt P - 1 in
  let s' := with_tp s (<[t := with_exited true T]> (threads s)) p (with_active_thread_cnt n P) in
  exit (S fuel) t c s =
    (r <- (if n =? 0 then kill fuel p c s' else Ok (Done tt s')) ;;
     kbind r c (fun _ c s => cur <- current s c ;; if cur =? t then do_scheduler c s else Ok (Done tt s))).
Proof.
  intros HP Hn HT Hp He Hl Hq.
  cbn [exit]. rewrite HT. cbn [or_fault obind]. rewrite He. unfold lock_thread. rewrite HT. cbn [or_fault obind].
  rewrite Hl, lock_free. cbn [obind]. rewrite (upd_thread_run _ _ _ _ HT). cbn [obind].
  erewrite upd_thread_run by apply lookup_insert_eq. cbn [obind]. erewrite upd_thread_run by apply lookup_insert_eq. cbn [obind].
  rewrite Hq. cbn [wakeup_all obind]. unfold unlock_thread. erewrite upd_thread_run by apply lookup_insert_eq. cbn [obind].
  set (s1 := set_threads _ _).
  assert (Hs1 : s1 = set_threads s (<[t := with_exited true T]> (threads s))).
  { unfold s1. cbn [threads set_threads]. rewrite !insert_insert_eq. f_equal. unfold unlock. destruct T. cbn in *. by subst. }
  rewrite Hp, Hs1. clear s1 Hs1. set (s1 := set_threads s _). rewrite (upd_process_run s1 p _ P HP). cbn [obind].
  rewrite u64_small by lia. set (s2 := set_processes _ _).
  change (processes s2) with (<[p := with_active_thread_cnt (active_thread_cnt P - 1) P]> (processes s)).
  rewrite lookup_insert_eq. done.
Qed.

(** In a process already marked as killed only the current thread matters. *)
Lemma exit_marks fuel c s p t P n T :
  dying s p P n -> 0 < n < 2 ^ 64 -> threads s !! t = Some T ->
  process T = p -> status_exited T = false -> thread_own_lock T = false -> wait_exited_queue T = [] ->
  let s' := with_tp s (<[t := with_exited true T]> (threads s)) p (with_active_thread_cnt (n - 1) P) in
  exit (S (S fuel)) t c s = (cur <- current s' c ;; if cur =? t then do_scheduler c s' else Ok (Done tt s')).
Proof.
  intros [HP Hk <-] Hn HT Hp He Hl Hq. cbv zeta. rewrite (exit_prefix (S fuel) c s p t P T HP Hn HT Hp He Hl Hq).
  set (s2 := with_tp _ _ _ _).
  assert (E : (if active_thread_cnt P - 1 =? 0 then kill (S fuel) p c s2 else Ok (Done tt s2)) = Ok (Done tt s2)).
  { destruct (_ =? 0); [|done]. cbn [kill].
    change (processes s2) with (<[p := with_active_thread_cnt (active_thread_cnt P - 1) P]> (processes s)).
    rewrite lookup_insert_eq. cbn [or_fault obind]. cbn [is_killed with_active_thread_cnt]. by rewrite Hk. }
  by rewrite E.
Qed.

Lemma exit_bystander fuel c s p t P n T :
  dying s p P n -> 0 < n < 2 ^ 64 -> bystander c s p t -> threads s !! t = Some T ->
  exit (S (S fuel)) t c s = Ok (Done tt (with_tp s (<[t := with_exited true T]> (threads s)) p (with_active_thread_cnt (n - 1) P))).
Proof.
  intros Hdy Hn [(T' & HT' & Hp & He & Hl & Hq) (cur & Ec & Hne)] HT. replace T' with T in * by congruence.
  rewrite (exit_marks fuel c s p t P n T Hdy Hn HT Hp He Hl Hq). change (current (with_tp _ _ _ _) c) with (current s c).
  rewrite Ec. cbn [obind]. by rewrite (proj2 (Z.eqb_neq _ _) Hne).
Qed.

Lemma exit_all_bystanders fuel c p : forall ths s P n,
  dying s p P n -> Z.of_nat (length ths) <= n < 2 ^ 64 -> NoDup ths -> Forall (bystander c s p) ths ->
  exists th, exit_all (exit (S (S fuel))) ths c s =
      Ok (Done tt (with_tp s th p (with_active_thread_cnt (n - Z.of_nat (length ths)) P))) /\
    (forall u, u ∈ ths -> th !! u = with_exited true <$> threads s !! u) /\ (forall u, u ∉ ths -> th !! u = threads s !! u).
Proof.
  intros ths. induction ths as [|t ths IH]; intros s P n Hdy Hn Hnd Hby; cbn [exit_all length] in *.
  - exists (threads s). split_and!; [|by intros u ?%elem_of_nil|done]. unfold with_tp.
    destruct Hdy as [HP _ Ha]. replace (with_active_thread_cnt (n - Z.of_nat 0) P) with P by (destruct P; unfold with_active_thread_cnt; cbn in *; f_equal; lia).
    rewrite insert_id by done. by destruct s.
  - apply NoDup_cons in Hnd as [Ht Hnd]. apply Forall_cons in Hby as [Hb Hby]. pose proof Hb as [(T & HT & _) _].
    rewrite (exit_bystander fuel c s p t P n T Hdy ltac:(lia) Hb HT). cbn [obind kbind]. set (s1 := with_tp _ _ _ _).
    destruct (IH s1 (with_active_thread_cnt (n - 1) P) (n - 1)) as (th & -> & Hin & Hout).
    + destruct Hdy. split; [apply lookup_insert_eq|done|done].
    + lia.
    + done.
    + rewrite Forall_forall in Hby |- *. intros u Hu. destruct (Hby u Hu) as [(U & HU & ?) ?]. split; [|done].
      exists U. split; [|done]. cbn [threads s1 with_tp set_processes set_threads]. rewrite lookup_insert_ne; [done|]. by intros ->.
    + exists th. split_and!.
      * do 2 f_equal. unfold with_tp, s1. cbn [processes set_processes set_threads with_tp]. rewrite insert_insert_eq.
        do 2 f_equal. destruct P. unfold with_active_thread_cnt. cbn. f_equal. lia.
      * intros u Hu. apply elem_of_cons in Hu as [->|Hu].
        -- rewrite Hout by done. cbn [threads s1 with_tp set_processes set_threads]. rewrite lookup_insert_eq, HT. done.
        -- rewrite (Hin u Hu). cbn [threads s1 with_tp set_processes set_threads]. rewrite lookup_insert_ne; [done|]. by intros ->.
      * intros u Hu. rewrite Hout by (intros ?; apply Hu; by right). cbn [threads s1 with_tp set_processes set_threads].
        apply lookup_insert_ne. intros ->. apply Hu. by left.
Qed.

(** * Killing a process from outside *)

Lemma proc_upd_ok s p P P' :
  sched_ok s -> processes s !! p = Some P -> sched_ok (set_processes s (<[p := P']> (processes s))).
Proof.
  intros [[H1 H3 H4 H5 H6 H7 H8 H9 H10] Hsl] HP. split; [|done]. split; try done.
  intros t T HT. cbn [processes set_processes]. apply lookup_insert_is_Some'. right. by eapply H4.
Qed.

Lemma hart_bits_exited s ths : (forall t, t ∈ ths -> statusof s t EXITED) -> hart_bits s ths = Ok 0.
Proof.
  unfold hart_bits. induction ths as [|t ths IH]; intros Hex; [done|]. cbn [fold_left].
  destruct (Hex t ltac:(by left)) as (T & HT & Hst). cbn [obind]. rewrite HT. cbn [or_fault obind].
  rewrite decide_False by congruence. apply IH. intros u Hu. apply Hex. by right.
Qed.

(** * What a process leaves behind: its objects and its children *)

(** The registered objects, their pools and who registered them. *)
Definition obj_view s :=
  (kernel_objects s, (mutexes s, barriers s, conditions s, mailboxes s),
   (mutex_pool s, barrier_pool s, condition_pool s, mailbox_pool s, file_pool s)).
(** How many processes have registered an object *)
Definition count_of s obj : option Z := ref_count <$> pobjs (get_pool s (kind_of s obj)) !! obj.
(** The state without the pools *)
Definition but_pools s : kernel :=
  let e := MkPool ∅ [] [] in
  set_pool (set_pool (set_pool (set_pool (set_pool s KMutex e) KBarrier e) KCondition e) KMailbox e) KFile e.

(** An object that [p] is not the last to use: another process has registered it as
    well and, if it is a mutex, a thread of another process owns it. *)
Record shared s p obj : Prop := {
  sh_count : exists o, pobjs (get_pool s (kind_of s obj)) !! obj = Some o /\ 1 < ref_count o < 2 ^ 64;
  sh_mutex : forall M, mutexes s !! obj = Some M ->
    mx_lock M = false /\ exists u U, owner M = Some u /\ threads s !! u = Some U /\ process U <> p
}.

(** Each object of the list has one user less. *)
Definition given_up (gone : list Z) s s' : Prop :=
  forall b, count_of s' b = if decide (b ∈ gone) then Z.pred <$> count_of s b else count_of s b.

Lemma count_of_view s s' b : obj_view s' = obj_view s -> count_of s' b = count_of s b.
Proof. intros [= _ E1 E2 E3 E4 E5 E6 E7 E8 E9]. unfold count_of, kind_of, get_pool. by rewrite E1, E2, E3, E4, E5, E6, E7, E8, E9. Qed.

Lemma shared_view s s' p obj :
  obj_view s' = obj_view s ->
  (forall u U, threads s !! u = Some U -> exists U', threads s' !! u = Some U' /\ process U' = process U) ->
  shared s p obj -> shared s' p obj.
Proof.
  intros [= _ E1 E2 E3 E4 E5 E6 E7 E8 E9] Hth [Hc Hm]. split.
  - unfold kind_of, get_pool. by rewrite E1, E2, E3, E4, E5, E6, E7, E8, E9.
  - rewrite E1. intros M HM. destruct (Hm M HM) as (Hl & u & U & Ho & HU & Hp). destruct (Hth u U HU) as (U' & HU' & Ep).
    split; [done|]. exists u, U'. by rewrite Ep.
Qed.

Lemma but_pools_put s k w : procs w = kernel_objects s -> but_pools (put_world s k w) = but_pools s.
Proof. unfold put_world. intros ->. by destruct s, k. Qed.
Lemma get_put s k w k' : get_pool (put_world s k w) k' = if decide (k' = k) then MkPool (objs w) (keymap w) (table w) else get_pool s k'.
Proof. by destruct k, k'. Qed.

(** A mutex of somebody else is left as it is. *)
Lemma release_foreign s p m M u U :
  mutexes s !! m = Some M -> mx_lock M = false -> owner M = Some u -> threads s !! u = Some U -> process U <> p ->
  release m p s = Ok s.
Proof.
  intros HM Hl Ho HU Hp. unfold release. rewrite (mx_spin_run s m M HM Hl). cbn [obind].
  set (s1 := set_mutexes s _). assert (HM1 : mutexes s1 !! m = Some (mx_set_lock true M)) by apply lookup_insert_eq.
  rewrite HM1. cbn [or_fault obind]. change (owner (mx_set_lock true M)) with (owner M). rewrite Ho. cbn [or_fault obind].
  change (threads s1) with (threads s). rewrite HU. cbn [or_fault obind]. rewrite (proj2 (Z.eqb_neq _ _) Hp). cbn [negb].
  unfold mx_unlock. rewrite (upd_mutex_run s1 m _ _ HM1). cbn [mutexes set_mutexes s1]. rewrite insert_insert_eq.
  replace (mx_set_lock (unlock (mx_lock (mx_set_lock true M))) (mx_set_lock true M)) with M by (destruct M; cbn in *; by subst).
  rewrite insert_id by done. by destruct s.
Qed.

Lemma unregister_shared s p obj :
  shared s p obj -> exists s', on_process_unregister (kind_of s obj) p obj s = Ok s' /\
    but_pools s' = but_pools s /\ given_up [obj] s s'.
Proof.
  intros [(o & Ho & Hc) Hm].
  assert (E1 : match kind_of s obj with KMutex => release obj p s | _ => Ok s end = Ok s).
  { unfold kind_of. destruct (mutexes s !! obj) as [M|] eqn:HM; [|by repeat case_match].
    destruct (Hm M eq_refl) as (Hl & u & U & Hu & HU & Hp). by apply release_foreign with M u U. }
  set (k := kind_of s obj) in *.
  set (w := set_objs (world_of s k) (<[obj := MkObj (ref_count o - 1) (handle o) (trie_idx o)]> (pobjs (get_pool s k)))).
  assert (Eb : but_pools (put_world s k w) = but_pools s) by (by apply but_pools_put).
  assert (Ek : forall b, kind_of (put_world s k w) b = kind_of s b) by (intros b; by destruct k).
  exists (put_world s k w). split_and!; [|done|].
  - unfold on_process_unregister. rewrite E1. cbn [obind]. unfold Objects.on_process_unregister. cbn [objs world_of]. rewrite Ho. cbn [or_fault obind].
    rewrite u64_small by lia. destruct (Z.eqb_spec (ref_count o - 1) 0); [lia|]. cbn [obind].
    unfold destroy_if_deleted. fold w. rewrite get_put, decide_True by done. cbn [pobjs objs w set_objs]. by rewrite lookup_insert_eq.
  - intros b. unfold count_of. rewrite Ek, get_put. destruct (decide (kind_of s b = k)) as [Eq|Hne].
    + cbn [pobjs objs w set_objs]. destruct (decide (b = obj)) as [->|Hb].
      * rewrite lookup_insert_eq. rewrite decide_True by (by left). rewrite Eq, Ho. done.
      * rewrite lookup_insert_ne by done. rewrite decide_False; [by rewrite Eq|]. by rewrite list_elem_of_singleton.
    + rewrite decide_False; [done|]. rewrite list_elem_of_singleton. by intros ->.
Qed.

Lemma but_pools_fields s s' : but_pools s' = but_pools s ->
  threads s' = threads s /\ mutexes s' = mutexes s /\ barriers s' = barriers s /\ conditions s' = conditions s /\ mailboxes s' = mailboxes s.
Proof. intros E. split_and!; [exact (f_equal threads E)|exact (f_equal mutexes E)|exact (f_equal barriers E)|exact (f_equal conditions E)|exact (f_equal mailboxes E)]. Qed.

Lemma shared_after s s' p a b : but_pools s' = but_pools s -> given_up [a] s s' -> b <> a -> shared s p b -> shared s' p b.
Proof.
  intros Eb Hg Hne [(o & Ho & Hc) Hm]. apply but_pools_fields in Eb as (Et & E1 & E2 & E3 & E4). split; [|by rewrite E1, Et].
  specialize (Hg b). rewrite decide_False in Hg by (by rewrite list_elem_of_singleton). unfold count_of in Hg. rewrite Ho in Hg.
  apply fmap_Some in Hg as (o' & Ho' & Er). exists o'. by rewrite <- Er.
Qed.

Lemma unregister_all_shared p objs : forall s, NoDup objs -> Forall (shared s p) objs ->
  exists s', unregister_all p objs s = Ok s' /\ but_pools s' = but_pools s /\ given_up objs s s'.
Proof.
  induction objs as [|a objs IH]; intros s Hnd Hsh.
  - by exists s.
  - apply NoDup_cons in Hnd as [Ha Hnd]. apply Forall_cons in Hsh as [H1 Hsh]. cbn [unregister_all].
    destruct (unregister_shared s p a H1) as (s1 & -> & Eb & Hg). cbn [obind].
    destruct (IH s1 Hnd) as (s' & -> & Eb' & Hg').
    { rewrite Forall_forall in Hsh |- *. intros b Hb. apply (shared_after s s1 p a b Eb Hg); [by intros ->|by apply Hsh]. }
    exists s'. split_and!; [done|congruence|]. intros b. rewrite Hg', Hg.
    destruct (decide (b = a)) as [->|Hne].
    + rewrite (decide_True (P := a ∈ [a])) by (by left). rewrite decide_False by done. by rewrite decide_True by (by left).
    + rewrite (decide_False (P := b ∈ [a])) by (by rewrite list_elem_of_singleton).
      destruct (decide (b ∈ objs)); [rewrite decide_True by (by right)|rewrite decide_False by (rewrite elem_of_cons; naive_solver)]; done.
Qed.

(** The children that are alive *)
Definition alive s k : bool := match processes s !! k with Some K => negb (is_killed K) | None => false end.

Lemma reparent_run q : forall kids s Q, processes s !! q = Some Q -> q ∉ kids -> NoDup kids -> (forall k, k ∈ kids -> is_Some (processes s !! k)) ->
  exists pr, reparent q kids s = Ok (set_processes s pr) /\
    pr !! q = Some (with_children (children Q ++ List.filter (alive s) kids) Q) /\
    (forall k K, k ∈ kids -> processes s !! k = Some K -> is_killed K = false -> pr !! k = Some (with_parent (Some q) K)) /\
    (forall r, r <> q -> r ∉ kids -> pr !! r = processes s !! r) /\ (forall r, is_Some (processes s !! r) -> is_Some (pr !! r)).
Proof.
  intros kids. induction kids as [|k kids IH]; intros s Q HQ Hq Hnd Hk; cbn [reparent List.filter].
  - exists (processes s). rewrite app_nil_r. split_and!; [by destruct s|by destruct Q|by intros ? ? ?%elem_of_nil|done|done].
  - apply not_elem_of_cons in Hq as [Hqk Hq]. apply NoDup_cons in Hnd as [Hkn Hnd]. destruct (Hk k ltac:(by left)) as [K HK].
    rewrite HK. cbn [or_fault obind]. unfold alive at 1. rewrite HK. destruct (is_killed K) eqn:Hd; cbn [negb obind].
    + destruct (IH s Q HQ Hq Hnd) as (pr & E & H1 & H2 & H3 & H4); [by intros; apply Hk; right|]. exists pr. split_and!; try done.
      * intros j J Hj HJ Hl. apply elem_of_cons in Hj as [->|Hj]; [congruence|by apply H2].
      * intros r Hr [? ?]%not_elem_of_cons. by apply H3.
    + rewrite (upd_process_run _ _ _ _ HK). cbn [obind].
      erewrite upd_process_run by (cbn [processes set_processes]; rewrite lookup_insert_ne by done; exact HQ). cbn [obind processes set_processes].
      set (s1 := set_processes _ _). set (Q1 := with_children _ Q) in s1.
      assert (Hoth : forall r, r <> q -> r <> k -> processes s1 !! r = processes s !! r).
      { intros r Hrq Hrk. cbn [s1 processes set_processes]. by rewrite !lookup_insert_ne. }
      assert (Hliv : forall r, is_Some (processes s !! r) -> is_Some (processes s1 !! r)).
      { intros r Hr. cbn [s1 processes set_processes]. apply lookup_insert_is_Some'. right. apply lookup_insert_is_Some'. by right. }
      destruct (IH s1 Q1) as (pr & E & H1 & H2 & H3 & H4); [apply lookup_insert_eq|done|done|by intros; apply Hliv, Hk; right|].
      exists pr. split_and!.
      * exact E.
      * rewrite H1. f_equal. transitivity (with_children (children Q1 ++ List.filter (alive s1) kids) Q); [done|]. f_equal.
        unfold Q1. cbn [children with_children]. rewrite <- app_assoc. f_equal. cbn. f_equal.
        apply List.filter_ext_in. intros j Hj%list_elem_of_In. unfold alive. rewrite Hoth; [done| |]; by intros ->.
      * intros j J Hj HJ Hl. apply elem_of_cons in Hj as [->|Hj].
        -- rewrite H3 by done. cbn [s1 processes set_processes]. rewrite lookup_insert_ne by done. rewrite lookup_insert_eq. by replace J with K by congruence.
        -- apply H2; [done| |done]. rewrite Hoth; [done| |]; by intros ->.
      * intros r Hr [Hrk Hrn]%not_elem_of_cons. rewrite H3 by done. by apply Hoth.
      * intros r Hr. by apply H4, Hliv.
Qed.

(** The parent and the children of a process are still there. *)
Definition family s p (P : Process) : Prop :=
  forall q, parent P = Some q -> is_Some (processes s !! q) /\ q <> p /\ q ∉ children P /\ p ∉ children P /\ NoDup (children P) /\
    (forall k, k ∈ children P -> is_Some (processes s !! k)).
(** Each living child has the parent as its parent, and the parent has it as a child. *)
Definition handed_over s (P : Process) s' : Prop := forall q Q,
  parent P = Some q -> processes s !! q = Some Q ->
  processes s' !! q = Some (with_children (children Q ++ List.filter (alive s) (children P)) Q) /\
  (forall k K, k ∈ children P -> processes s !! k = Some K -> is_killed K = false -> processes s' !! k = Some (with_parent (Some q) K)).

(** What the end of kill does. *)
Record finished s p (P : Process) (left : list Z) s' : Prop := {
  fin_threads : threads s' = threads s;
  fin_cpus : cpus s' = cpus s;
  fin_queue : ready_queue s' = ready_queue s;
  fin_ok : sched_ok s -> sched_ok s';
  fin_release : process_to_release s' = process_to_release s ++ [p];
  fin_process : processes s' !! p = Some (with_process_own_lock false P);
  fin_objects : given_up left s s';
  fin_children : handed_over s P s'
}.

(** What the objects and the family of a process must be like for kill to come to its end. *)
Record leaves s p (P : Process) (o : list (Item Z)) : Prop := {
  lv_objects : kernel_objects s !! Z.to_nat (pid P) = Some o;
  lv_nodup : NoDup (foreach o);
  lv_shared : Forall (shared s p) (foreach o);
  lv_family : family s p P
}.

Lemma handover_run s p P :
  processes s !! p = Some P -> family s p P ->
  exists pr, match parent P with Some q => reparent q (children P) s | None => Ok s end = Ok (set_processes s pr) /\
    pr !! p = Some P /\ handed_over s P (set_processes s pr) /\ (forall r, is_Some (processes s !! r) -> is_Some (pr !! r)).
Proof.
  intros HP Hf. unfold handed_over. destruct (parent P) as [q|] eqn:Hpar.
  - destruct (Hf q Hpar) as ([Q HQ] & Hqp & Hqc & Hpc & Hnd & Hk).
    destruct (reparent_run q (children P) s Q HQ Hqc Hnd Hk) as (pr & E & H1 & H2 & H3 & H4). exists pr. split_and!; [done| | |done].
    + by rewrite H3.
    + intros q' Q' [= <-] HQ'. replace Q' with Q by congruence. done.
  - exists (processes s). split_and!; [by destruct s|done|done|done].
Qed.

Lemma sched_ok_processes s s' :
  (threads s', cpus s', (ready_queue s', ready_lock s', sleeping_queue s', sleep_lock s'), time_base s') =
    (threads s, cpus s, (ready_queue s, ready_lock s, sleeping_queue s, sleep_lock s), time_base s) ->
  (forall r, is_Some (processes s !! r) -> is_Some (processes s' !! r)) -> sched_ok s -> sched_ok s'.
Proof.
  intros [= E1 E2 E3 E4 E5 E6 E7] Hpr Hok. apply (view_ok (set_processes s (processes s'))).
  - unfold sched_view. cbn. by rewrite E1, E2, E3, E4, E5, E6, E7.
  - destruct Hok as [[H1 H3 H4 H5 H6 H7 H8 H9 H10] Hsl]. split; [|done]. split; try done.
    intros t T HT. apply Hpr. by eapply H4.
Qed.

(** The end of kill, all threads of the process having exited. *)
Lemma kill_rest_run s p P o :
  processes s !! p = Some P -> process_global_lock s = false -> (forall t, t ∈ threads_of P -> statusof s t EXITED) ->
  leaves s p P o -> exists s', kill_rest p s = Ok s' /\ finished s p P (foreach o) s'.
Proof.
  intros HP Hgl Hex [Ho Hnd Hsh Hf]. unfold kill_rest, unlock_process. rewrite (upd_process_run _ _ _ _ HP). cbn [obind].
  change (with_process_own_lock (unlock (process_own_lock P)) P) with (with_process_own_lock false P). set (P1 := with_process_own_lock false P).
  set (s1 := set_processes s _). assert (HP1 : processes s1 !! p = Some P1) by apply lookup_insert_eq.
  unfold send_intr_to_running_thread. rewrite HP1. cbn [or_fault obind]. change (threads_of P1) with (threads_of P).
  rewrite (hart_bits_exited s1 (threads_of P) Hex). cbn [obind Z.eqb negb].
  unfold registered_objects, pid_of. rewrite HP1. cbn [or_fault obind]. change (kernel_objects s1) with (kernel_objects s).
  change (pid P1) with (pid P). rewrite Ho. cbn [or_fault obind].
  destruct (unregister_all_shared p (foreach o) s1 Hnd) as (s2 & -> & Eb & Hg).
  { rewrite Forall_forall in Hsh |- *. intros b Hb. apply (shared_view s); [done|by eauto|by apply Hsh]. }
  cbn [obind]. assert (Epr : processes s2 = processes s1) by exact (f_equal processes Eb). rewrite Epr, HP1. cbn [or_fault obind].
  assert (Hliv : forall r, is_Some (processes s !! r) -> is_Some (processes s2 !! r)).
  { intros r Hr. rewrite Epr. cbn [s1 processes set_processes]. apply lookup_insert_is_Some'. by right. }
  destruct (handover_run s2 p P1) as (pr & -> & HpP & Hover & Hl2); [by rewrite Epr| |].
  { intros q Hq. destruct (Hf q Hq) as (H1 & ? & ? & ? & ? & H2). split_and!; try done; [by apply Hliv|intros; by apply Hliv, H2]. }
  cbn [obind]. unfold lock_processes.
  change (process_global_lock (set_processes s2 pr)) with (process_global_lock s2).
  assert (Eg : process_global_lock s2 = false) by (rewrite <- Hgl; exact (f_equal process_global_lock Eb)). rewrite Eg, lock_free. cbn [obind].
  eexists. split; [done|]. pose proof (but_pools_fields _ _ Eb) as (Eth & _). split.
  - exact Eth.
  - exact (f_equal cpus Eb).
  - exact (f_equal ready_queue Eb).
  - apply sched_ok_processes; [|intros; by apply Hl2, Hliv].
    exact (f_equal (fun x => (threads x, cpus x, (ready_queue x, ready_lock x, sleeping_queue x, sleep_lock x), time_base x)) Eb).
  - exact (f_equal (fun x => process_to_release x ++ [p]) Eb).
  - exact HpP.
  - intros b. rewrite <- (count_of_view s s1 b eq_refl). exact (Hg b).
  - intros q Q Hq HQ. destruct (Hf q Hq) as (_ & Hqp & _ & Hpc & _).
    assert (Eoth : forall r, r <> p -> processes s2 !! r = processes s !! r).
    { intros r Hr. rewrite Epr. cbn [s1 processes set_processes]. by rewrite lookup_insert_ne. }
    destruct (Hover q Q Hq ltac:(by rewrite Eoth)) as [H1 H2]. split.
    + refine (eq_trans H1 _). f_equal. change (children P1) with (children P). f_equal. f_equal.
      apply List.filter_ext_in. intros k Hk%list_elem_of_In. unfold alive. rewrite Eoth; [done|]. by intros ->.
    + intros k K Hk HK Hd. apply H2; [done| |done]. rewrite Eoth; [done|]. by intros ->.
Qed.

(** A process that may be killed: what its table entries say, and nobody holds its locks. *)
Record killable s p (P : Process) : Prop := {
  kp_process : processes s !! p = Some P;
  kp_alive : is_killed P = false;
  kp_lock : process_own_lock P = false;
  kp_global : process_global_lock s = false;
  kp_waiters : forall u, u ∈ wait_kill_queue P -> parked s u /\ u ∉ threads_of P;
  kp_nodup : NoDup (wait_kill_queue P) /\ NoDup (threads_of P)
}.
(** All its threads are counted as active. *)
Definition all_active (P : Process) : Prop :=
  active_thread_cnt P = Z.of_nat (length (threads_of P)) /\ active_thread_cnt P < 2 ^ 64.

Definition marked (P : Process) : Process := with_wait_kill_queue [] (with_is_killed true (with_process_own_lock true P)).

(** Up to the loop over the threads. *)
Lemma kill_marks fuel c s p P :
  sched_ok s -> killable s p P ->
  exists s1, kill (S fuel) p c s =
      (r <- exit_all (exit fuel) (threads_of P) c s1 ;; kbind r c (fun _ _ s => s <- kill_rest p s ;; Ok (Done tt s))) /\
    sched_ok s1 /\ processes s1 = <[p := marked P]> (processes s) /\ cpus s1 = cpus s /\
    process_to_release s1 = process_to_release s /\ process_global_lock s1 = false /\ obj_view s1 = obj_view s /\
    (forall u U, threads s !! u = Some U -> exists n, threads s1 !! u = Some (with_block_cnt n U)) /\
    (forall t, t ∉ wait_kill_queue P -> threads s1 !! t = threads s !! t) /\
    (forall u, u ∈ wait_kill_queue P -> statusof s1 u READY /\ u ∈ ready_queue s1).
Proof.
  intros Hok [HP Hk Hl Hgl Hw [Hnd _]].
  set (s0 := set_processes s (<[p := marked P]> (processes s))).
  assert (Hok0 : sched_ok s0) by (by eapply proc_upd_ok).
  destruct (wakeup_all_parked (wait_kill_queue P) s0 Hok0 Hnd) as (s1 & E1 & Hok1 & W & Hsq & Hr).
  { intros u Hu. destruct (Hw u Hu) as [[Hp1 Hp2 Hp3] _]. by split. }
  exists s1. split.
  { cbn [kill]. rewrite HP. cbn [or_fault obind]. rewrite Hk. unfold lock_process. rewrite HP. cbn [or_fault obind].
    rewrite Hl, lock_free. cbn [obind]. rewrite (upd_process_run _ _ _ _ HP). cbn [obind].
    erewrite upd_process_run by apply lookup_insert_eq. cbn [obind]. erewrite upd_process_run by apply lookup_insert_eq. cbn [obind].
    set (s0' := set_processes _ _). assert (Es : s0' = s0).
    { unfold s0', s0. cbn [processes set_processes]. by rewrite !insert_insert_eq. }
    rewrite Es, E1. done. }
  pose proof (woke_rest _ _ _ W) as Hrest. split_and!; try done.
  - exact (f_equal processes Hrest).
  - exact (woke_cpus _ _ _ W).
  - exact (f_equal process_to_release Hrest).
  - rewrite <- Hgl. exact (f_equal process_global_lock Hrest).
  - exact (f_equal obj_view Hrest).
  - exact (woke_threads _ _ _ W).
  - intros t Ht. by rewrite (woke_other _ _ _ W).
Qed.

(** The threads of [s] are still there, in the same processes. *)
Definition same_owners s s' : Prop :=
  forall u U, threads s !! u = Some U -> exists U', threads s' !! u = Some U' /\ process U' = process U.
(** The same process as far as its objects and its family go *)
Definition same_ties (P P' : Process) : Prop := pid P' = pid P /\ parent P' = parent P /\ children P' = children P.

Lemma leaves_keep s s' p P P' o :
  leaves s p P o -> obj_view s' = obj_view s -> same_owners s s' -> same_ties P P' ->
  (forall r, is_Some (processes s !! r) -> is_Some (processes s' !! r)) -> leaves s' p P' o.
Proof.
  intros [Ho Hnd Hsh Hf] Ev Hth (E1 & E2 & E3) Hpr. split.
  - rewrite E1. rewrite <- Ho. by injection Ev as -> _.
  - done.
  - rewrite Forall_forall in Hsh |- *. intros b Hb. apply (shared_view s); [done..|by apply Hsh].
  - unfold family in *. rewrite E2, E3. intros q Hq. destruct (Hf q Hq) as (? & ? & ? & ? & ? & ?). split_and!; auto.
Qed.

Lemma handed_over_keep s s2 p P P2 o s' :
  leaves s p P o -> same_ties P P2 -> (forall r, r <> p -> processes s2 !! r = processes s !! r) ->
  handed_over s2 P2 s' -> handed_over s P s'.
Proof.
  intros [_ _ _ Hf] (_ & E2 & E3) Hoth Hov q Q Hq HQ. destruct (Hf q Hq) as (_ & Hqp & _ & Hpc & _).
  destruct (Hov q Q ltac:(by rewrite E2) ltac:(by rewrite Hoth)) as [H1 H2]. rewrite E3 in *. split.
  - rewrite H1. do 3 f_equal. apply List.filter_ext_in. intros k Hk%list_elem_of_In. unfold alive. rewrite Hoth; [done|]. by intros ->.
  - intros k K Hk HK Hd. apply H2; [done| |done]. rewrite Hoth; [done|]. by intros ->.
Qed.

(** The end of kill after the threads of the process have been ended, seen from before. *)
Lemma leave_run s s2 p P P2 o :
  leaves s p P o -> obj_view s2 = obj_view s -> same_owners s s2 -> same_ties P P2 ->
  processes s2 = <[p := P2]> (processes s) -> process_global_lock s2 = false ->
  (forall t, t ∈ threads_of P2 -> statusof s2 t EXITED) ->
  exists s', kill_rest p s2 = Ok s' /\ finished s2 p P2 (foreach o) s' /\ given_up (foreach o) s s' /\ handed_over s P s'.
Proof.
  intros Hlv Ev Hth Ht Hpr Hgl Hex.
  destruct (kill_rest_run s2 p P2 o) as (s' & E & Hfin); [by rewrite Hpr, lookup_insert_eq|done|done| |].
  { apply (leaves_keep s s2 p P); try done. intros r Hr. rewrite Hpr. apply lookup_insert_is_Some'. by right. }
  exists s'. split_and!; [done|done| |].
  - intros b. rewrite <- (count_of_view s s2 b Ev). exact (fin_objects _ _ _ _ _ Hfin b).
  - apply (handed_over_keep s s2 p P P2 o); [done|done| |exact (fin_children _ _ _ _ _ Hfin)].
    intros r Hr. by rewrite Hpr, lookup_insert_ne.
Qed.

(** C14: killing a process from outside ends it completely.  The process may have
    children and registered objects, which it leaves as follows: none of its threads
    is the one that calls (all are live, nobody waits for them), its parent and its
    children are still in memory, and every registered object is registered by some
    other process too and is not a mutex that is free or that a thread of the process
    owns.  Then kill returns; every thread has exited, the count of active threads is
    zero, everybody who waited for the process is ready and queued, the private lock
    is free, each registered object has exactly one user less and no other object
    changes its count, every living child has the parent of the process as its parent
    and is listed among that one's children, the process is queued for release exactly
    once, and a second kill changes nothing.  Not covered: an object the process is
    the last to use (it is deleted) and a mutex that one of its threads owns (it is
    handed on); a registered mutex that is free makes kill read through a null
    pointer. *)
Theorem kill_ends_process c s p P o :
  sched_ok s -> killable s p P -> all_active P -> Forall (bystander c s p) (threads_of P) -> leaves s p P o ->
  exists s' P', kill exit_fuel p c s = Ok (Done tt s') /\ processes s' !! p = Some P' /\
    is_killed P' = true /\ process_own_lock P' = false /\ active_thread_cnt P' = 0 /\
    (forall t, t ∈ threads_of P -> statusof s' t EXITED) /\
    (forall u, u ∈ wait_kill_queue P -> statusof s' u READY /\ u ∈ ready_queue s') /\
    given_up (foreach o) s s' /\ handed_over s P s' /\
    process_to_release s' = process_to_release s ++ [p] /\
    kill exit_fuel p c s' = Ok (Done tt s').
Proof.
  intros Hok Hkp [Ha Hb] Hby Hlv. pose proof Hkp as [HP Hk Hl Hgl Hw [_ Hnd]].
  destruct (kill_marks 4 c s p P Hok Hkp) as (s1 & E1 & Hok1 & Epr & Ecpu & Erel & Egl & Eko & Hblk & Eth & Hrdy).
  assert (Hdy : dying s1 p (marked P) (active_thread_cnt P)) by (split; [by rewrite Epr, lookup_insert_eq|done|done]).
  assert (Hnw : forall t, t ∈ threads_of P -> t ∉ wait_kill_queue P) by (intros t Ht Hin; by destruct (Hw t Hin)).
  destruct (exit_all_bystanders 2 c p (threads_of P) s1 (marked P) _ Hdy ltac:(lia) Hnd) as (th & E2 & Hin & Hout).
  { rewrite Forall_forall in Hby |- *. intros t Ht. destruct (Hby t Ht) as [(T & HT & ?) (cur & Ec & ?)]. split.
    - exists T. rewrite Eth by auto. done.
    - exists cur. unfold current in *. by rewrite Ecpu. }
  set (P2 := with_active_thread_cnt _ (marked P)) in E2. set (s2 := with_tp s1 th p P2) in E2.
  assert (Hex : forall t, t ∈ threads_of P -> statusof s2 t EXITED).
  { intros t Ht. rewrite Forall_forall in Hby. destruct (Hby t Ht) as [(T & HT & _) _].
    exists (with_exited true T). split; [|done]. change (threads s2) with th. rewrite (Hin t Ht), Eth, HT by auto. done. }
  destruct (leave_run s s2 p P P2 o Hlv Eko) as (s' & E3 & Hfin & Hgu & Hho); [|done| |done|exact Hex|].
  { intros u U HU. destruct (Hblk u U HU) as [n Hn]. change (threads s2) with th. destruct (decide (u ∈ threads_of P)) as [Hu|Hu].
    - eexists. rewrite (Hin u Hu), Hn. done.
    - eexists. rewrite (Hout u Hu), Hn. done. }
  { change (processes s2) with (<[p := P2]> (processes s1)). by rewrite Epr, insert_insert_eq. }
  destruct Hfin as [F1 F2 F3 _ F5 F6 _ _].
  exists s', (with_process_own_lock false P2). split_and!; try done.
  - change exit_fuel with 5%nat. rewrite E1, E2. cbn [obind kbind]. by rewrite E3.
  - unfold P2. cbn. lia.
  - intros t Ht. destruct (Hex t Ht) as (T & HT & Hst). exists T. by rewrite F1.
  - intros u Hu. destruct (Hrdy u Hu) as [(U & HU & Hst) Hq]. rewrite F3. split; [|exact Hq]. exists U. split; [|done].
    rewrite F1. change (threads s2) with th. rewrite Hout; [done|]. by destruct (Hw u Hu).
  - rewrite F5. change (process_to_release s2) with (process_to_release s1). by rewrite Erel.
  - change exit_fuel with 5%nat. cbn [kill]. by rewrite F6.
Qed.

(** * A process that ends itself *)

(** do_scheduler neither ends nor revives a thread. *)
Lemma scheduled_exited c C s0 s1 s' n u U :
  scheduled c C s0 s1 s' n -> threads s0 !! u = Some U -> exists U', threads s' !! u = Some U' /\ status_exited U' = status_exited U.
Proof.
  intros Hsc HU. destruct (woke_threads _ _ _ (sc_woke _ _ _ _ _ _ Hsc) u U HU) as [k Hk].
  destruct (sc_threads _ _ _ _ _ _ Hsc) as (F & N & HF & HN & _ & Eth).
  destruct (switched_live c C s1 n F N u) as [U' HU']; [by eexists|]. exists U'. split; [by rewrite Eth|].
  destruct (switched_lookup c C s1 n F N u U' HF HN HU') as [[-> ->]|[(_ & -> & ->)|(_ & _ & E)]].
  - by replace N with (with_block_cnt k U) by congruence.
  - by replace F with (with_block_cnt k U) by congruence.
  - by replace U' with (with_block_cnt k U) by congruence.
Qed.

(** The exit of the thread that runs does not come back. *)
Lemma exit_current fuel c s p t P n T :
  sched_ok s -> current s c = Ok t -> ~ idle s t -> dying s p P n -> 0 < n < 2 ^ 64 ->
  threads s !! t = Some T -> process T = p -> status_exited T = false -> thread_own_lock T = false -> wait_exited_queue T = [] ->
  exists s', exit (S (S fuel)) t c s = Ok (Switched s' (resume tt)) /\
    statusof s' t EXITED /\ processes s' = <[p := with_active_thread_cnt (n - 1) P]> (processes s) /\
    process_to_release s' = process_to_release s /\ kernel_objects s' = kernel_objects s /\
    (forall u U, u <> t -> threads s !! u = Some U -> exists U', threads s' !! u = Some U' /\ status_exited U' = status_exited U).
Proof.
  intros Hok Ec Hni [HP Hk Ha] Hn HT Hp He Hl Hq.
  set (s1 := set_threads s (<[t := with_exited true T]> (threads s))).
  set (s2 := with_tp s (<[t := with_exited true T]> (threads s)) p (with_active_thread_cnt (n - 1) P)).
  assert (Hok1 : sched_ok s1).
  { destruct Hok as [Hok Hsl]. split; [|done]. by apply upd_ok with T. }
  assert (Hok2 : sched_ok s2) by (by apply (proc_upd_ok s1 p P)).
  unfold current in Ec. destruct (cpus s !! c) as [C|] eqn:HC; [|done]. cbn in Ec. injection Ec as Hcur.
  assert (HT2 : threads s2 !! current_thread C = Some (with_exited true T)) by (rewrite Hcur; apply lookup_insert_eq).
  destruct (schedule_ok c C s2 _ Hok2 HC HT2) as (s3 & s' & m & E & _ & Hsc). set (s0 := set_threads s2 _) in Hsc.
  exists s'. split_and!.
  - rewrite (exit_marks fuel c s p t P n T (Build_dying _ _ _ _ HP Hk Ha) Hn HT Hp He Hl Hq). fold s2. unfold current. change (cpus s2) with (cpus s). rewrite HC. cbn [or_fault obind]. rewrite Hcur, Z.eqb_refl.
    unfold do_scheduler. by rewrite E.
  - destruct (scheduled_exited c C s0 s3 s' m t (with_running false (with_exited true T)) Hsc) as (T' & HT' & Hex).
    { cbn [threads s0 set_threads]. rewrite Hcur. apply lookup_insert_eq. }
    exists T'. split; [done|]. unfold status. by rewrite Hex.
  - exact (f_equal processes (sc_rest _ _ _ _ _ _ Hsc)).
  - exact (f_equal process_to_release (sc_rest _ _ _ _ _ _ Hsc)).
  - exact (f_equal kernel_objects (sc_rest _ _ _ _ _ _ Hsc)).
  - intros u U Hu HU. apply (scheduled_exited c C s0 s3 s' m u U Hsc). cbn [threads s0 set_threads s2 with_tp set_processes].
    rewrite Hcur. by rewrite !lookup_insert_ne.
Qed.

(** Ending threads that are not idle threads keeps the scheduler's invariant. *)
Lemma ended_ok : forall ths s th, sched_ok s -> NoDup ths -> (forall u, u ∈ ths -> is_Some (threads s !! u) /\ ~ idle s u) ->
  (forall u, u ∈ ths -> th !! u = with_exited true <$> threads s !! u) -> (forall u, u ∉ ths -> th !! u = threads s !! u) ->
  sched_ok (set_threads s th).
Proof.
  intros ths. induction ths as [|t ths IH]; intros s th Hok Hnd Hni Hin Hout.
  - replace th with (threads s) by (apply map_eq; intros u; by rewrite Hout by apply not_elem_of_nil). by destruct s.
  - apply NoDup_cons in Hnd as [Ht Hnd]. destruct (Hni t ltac:(by left)) as [[T HT] Hnit].
    set (s1 := set_threads s (<[t := with_exited true T]> (threads s))).
    assert (Hok1 : sched_ok s1) by (destruct Hok as [Hok Hsl]; split; [by apply upd_ok with T|done]).
    assert (Hoth : forall u, u <> t -> threads s1 !! u = threads s !! u) by (intros u Hu; cbn; by rewrite lookup_insert_ne).
    apply (IH s1 th Hok1 Hnd).
    + intros u Hu. rewrite Hoth by (by intros ->). apply Hni. by right.
    + intros u Hu. rewrite Hoth by (by intros ->). apply Hin. by right.
    + intros u Hu. destruct (decide (u = t)) as [->|Hne]; [by rewrite Hin, HT by (by left); cbn; rewrite lookup_insert_eq|].
      rewrite Hoth by done. apply Hout. by intros [|]%elem_of_cons.
Qed.

Lemma exit_all_app exit l1 l2 c s s' : exit_all exit l1 c s = Ok (Done tt s') -> exit_all exit (l1 ++ l2) c s = exit_all exit l2 c s'.
Proof.
  revert s. induction l1 as [|t l1 IH]; intros s E; cbn [exit_all app] in *; [by injection E as <-|].
  destruct (exit t c s) as [[[] s1|s1 k]| | |] eqn:E1; cbn [obind kbind] in *; try discriminate. by apply IH.
Qed.

(** kill, up to the thread that calls it: the threads that come before it have ended. *)
Lemma kill_prefix c s t p P l1 l2 :
  sched_ok s -> killable s p P -> all_active P -> threads_of P = l1 ++ t :: l2 ->
  Forall (bystander c s p) l1 -> Forall (fun u => ~ idle s u) l1 ->
  let n := active_thread_cnt P - Z.of_nat (length l1) in let P2 := with_active_thread_cnt n (marked P) in
  exists s2, kill exit_fuel p c s =
      (r <- exit_all (exit 4) (t :: l2) c s2 ;; kbind r c (fun _ _ s => s <- kill_rest p s ;; Ok (Done tt s))) /\
    sched_ok s2 /\ dying s2 p P2 n /\ cpus s2 = cpus s /\ process_to_release s2 = process_to_release s /\
    kernel_objects s2 = kernel_objects s /\
    (forall u, u ∈ l1 -> exists U, threads s2 !! u = Some U /\ status_exited U = true) /\
    (forall u, u ∈ t :: l2 -> threads s2 !! u = threads s !! u).
Proof.
  intros Hok Hkp [Ha Hb] Hths Hby Hni1. pose proof Hkp as [HP Hk _ Hgl Hw [_ Hnd]]. rewrite Hths in Hw, Hnd, Ha.
  rewrite length_app in Ha. cbn [length] in Ha. apply NoDup_app in Hnd as (Hnd1 & Hdis & _).
  destruct (kill_marks 4 c s p P Hok Hkp) as (s1 & E1 & Hok1 & Epr & Ecpu & Erel & _ & Eko & _ & Eth & _).
  injection Eko as Eko _ _ _ _ _ _ _ _ _.
  assert (Hnw : forall u, u ∈ l1 ++ t :: l2 -> threads s1 !! u = threads s !! u).
  { intros u Hu. apply Eth. intros Hin. by destruct (Hw u Hin). }
  assert (Hn1 : forall u, u ∈ l1 -> exists U, threads s1 !! u = Some U /\ threads s !! u = Some U).
  { rewrite Forall_forall in Hby. intros u Hu. destruct (Hby u Hu) as [(U & HU & _) _]. exists U. by rewrite Hnw by (apply elem_of_app; by left). }
  assert (Hdy : dying s1 p (marked P) (active_thread_cnt P)) by (split; [by rewrite Epr, lookup_insert_eq|done|done]).
  destruct (exit_all_bystanders 2 c p l1 s1 (marked P) _ Hdy ltac:(lia) Hnd1) as (th & E2 & Hin & Hout).
  { rewrite Forall_forall in Hby |- *. intros u Hu. destruct (Hby u Hu) as [(U & HU & ?) (cur & Ecur & ?)]. split.
    - exists U. rewrite Hnw by (apply elem_of_app; by left). done.
    - exists cur. unfold current in *. by rewrite Ecpu. }
  exists (with_tp s1 th p (with_active_thread_cnt (active_thread_cnt P - Z.of_nat (length l1)) (marked P))). split_and!; try done.
  - change exit_fuel with 5%nat. by rewrite E1, Hths, (exit_all_app _ l1 _ c s1 _ E2).
  - apply (proc_upd_ok (set_threads s1 th) p (marked P)); [|by cbn; rewrite Epr, lookup_insert_eq]. apply (ended_ok l1); try done.
    rewrite Forall_forall in Hni1. intros u Hu. destruct (Hn1 u Hu) as (U & HU & _). split; [by exists U|].
    unfold idle in *. rewrite Ecpu. by apply Hni1.
  - split; [apply lookup_insert_eq|done|done].
  - intros u Hu. destruct (Hn1 u Hu) as (U & HU & _). exists (with_exited true U). change (threads (with_tp s1 th p _)) with th. by rewrite (Hin u Hu), HU.
  - intros u Hu. change (threads (with_tp s1 th p _)) with th. rewrite Hout, Hnw; [done|apply elem_of_app; by right|].
    intros Hx. by apply (Hdis u Hx).
Qed.

(** C27: a process that ends itself is left half-way.  When a running thread calls
    sys_exit, kill marks the process and ends the threads that come before the
    caller in the process's list of threads (which are live, have nobody waiting for
    them and are not idle threads), then the caller, and never comes back from that
    exit: the threads that come after it are not ended, the registered objects are
    not given up, the process is not queued for release, and its private lock stays
    held, so that the loop of idle_cleanup, when it reaches the process, spins for
    ever. *)
Theorem self_kill_abandons c s t p P T l1 l2 :
  sched_ok s -> executing c s t -> killable s p P -> all_active P -> threads_of P = l1 ++ t :: l2 ->
  Forall (bystander c s p) l1 -> Forall (fun u => ~ idle s u) l1 ->
  threads s !! t = Some T -> process T = p -> thread_own_lock T = false -> wait_exited_queue T = [] ->
  exists s' k P', sys_exit c s = Ok (Switched s' k) /\ (forall u, u ∈ l1 ++ [t] -> statusof s' u EXITED) /\
    (forall u U, u ∈ l2 -> threads s !! u = Some U -> exists U', threads s' !! u = Some U' /\ status_exited U' = status_exited U) /\
    kernel_objects s' = kernel_objects s /\ process_to_release s' = process_to_release s /\
    processes s' !! p = Some P' /\ is_killed P' = true /\ process_own_lock P' = true /\
    (forall s2 n i, processes s2 !! p = Some P' -> process_table s2 !! i = Some (Some p) -> cleanup_loop (S n) i s2 = OutOfFuel).
Proof.
  intros Hok Hex Hkp Hall Hths Hby Hni1 HT Hp Hl Hq. pose proof Hkp as [HP _ _ _ _ [_ Hnd]]. rewrite Hths in Hnd.
  apply NoDup_app in Hnd as (_ & Hdis & [Htl _]%NoDup_cons). pose proof Hex as [Ec Hni Hrun _].
  destruct (running_thread _ _ Hrun) as (T' & HT' & He & _). replace T' with T in * by congruence.
  destruct (kill_prefix c s t p P l1 l2 Hok Hkp Hall Hths Hby Hni1) as (s2 & E1 & Hok2 & Hdy & Ecpu & Erel & Eko & Hin & Hsame).
  set (n := active_thread_cnt P - _) in *. set (P2 := with_active_thread_cnt n (marked P)) in *.
  assert (Hn : 0 < n < 2 ^ 64).
  { destruct Hall as [Ha Hb]. rewrite Hths, length_app in Ha. cbn [length] in Ha. unfold n. lia. }
  destruct (exit_current 2 c s2 p t P2 n T) as (s' & E3 & Hst & Epr' & Erel' & Eko' & Hoth); try done.
  { unfold current. by rewrite Ecpu. }
  { unfold idle. by rewrite Ecpu. }
  { rewrite Hsame by (by left). done. }
  eexists s', _, (with_active_thread_cnt (n - 1) P2). split_and!; try done.
  - unfold sys_exit, current_process. rewrite Ec. cbn [obind]. rewrite HT. cbn [or_fault obind]. rewrite Hp, E1.
    cbn [exit_all]. rewrite E3. reflexivity.
  - intros u [Hu|Hu%list_elem_of_singleton]%elem_of_app; [|by subst]. destruct (Hin u Hu) as (U & HU & HUx).
    destruct (Hoth u U) as (U' & HU' & HUe); [|done|exists U'; split; [done|unfold status; by rewrite HUe, HUx]].
    intros ->. apply (Hdis t Hu). by left.
  - intros u U Hu HU. apply Hoth; [by intros ->|]. rewrite Hsame by (by right). done.
  - congruence.
  - congruence.
  - by rewrite Epr', lookup_insert_eq.
  - intros s3 i j HP2 Htab. cbn [cleanup_loop]. rewrite Htab. cbn [or_fault obind]. rewrite HP2. cbn [or_fault obind].
    unfold lock_process. rewrite HP2. done.
Qed.

Lemma exit_all_exited fuel c : forall ths s,
  (forall u, u ∈ ths -> exists U, threads s !! u = Some U /\ status_exited U = true) ->
  exit_all (exit (S fuel)) ths c s = Ok (Done tt s).
Proof.
  intros ths. induction ths as [|u ths IH]; intros s Hex; [done|]. cbn [exit_all exit].
  destruct (Hex u ltac:(by left)) as (U & -> & HUe). cbn [or_fault obind]. rewrite HUe. cbn [obind kbind].
  apply IH. intros v Hv. apply Hex. by right.
Qed.

(** Killing a process all of whose threads have exited. *)
Lemma kill_dead fuel c s p P o :
  sched_ok s -> killable s p P -> (forall u, u ∈ threads_of P -> exists U, threads s !! u = Some U /\ status_exited U = true) ->
  leaves s p P o ->
  exists s', kill (S (S fuel)) p c s = Ok (Done tt s') /\ sched_ok s' /\ cpus s' = cpus s /\
    (forall u, u ∈ threads_of P -> exists U, threads s' !! u = Some U /\ status_exited U = true) /\
    processes s' !! p = Some (with_process_own_lock false (marked P)) /\ process_to_release s' = process_to_release s ++ [p] /\
    given_up (foreach o) s s' /\ handed_over s P s'.
Proof.
  intros Hok Hkp Hdead Hlv. pose proof Hkp as [HP Hk Hpl Hgl Hw Hnd].
  destruct (kill_marks (S fuel) c s p P Hok Hkp) as (s1 & E1 & Hok1 & Epr & Ecpu & Erel & Egl & Eko & Hblk & Eth & _).
  assert (Hdead1 : forall u, u ∈ threads_of P -> exists U, threads s1 !! u = Some U /\ status_exited U = true).
  { intros u Hu. rewrite Eth by (intros Hx; by destruct (Hw u Hx)). by apply Hdead. }
  destruct (leave_run s s1 p P (marked P) o Hlv Eko) as (s' & E3 & [F1 F2 F3 F4 F5 F6 _ _] & Hgu & Hho); try done.
  { intros u U HU. destruct (Hblk u U HU) as [n Hn]. by eexists. }
  { intros u Hu. destruct (Hdead1 u Hu) as (U & HU & HUe). exists U. split; [done|]. unfold status. by rewrite HUe. }
  exists s'. split_and!; try done.
  - rewrite E1, (exit_all_exited fuel c _ s1 Hdead1). cbn [obind kbind]. by rewrite E3.
  - by apply F4.
  - congruence.
  - by rewrite F1.
  - by rewrite F5, Erel.
Qed.

(** Going on to another thread for good, after the current one has ended. *)
Lemma leave_cpu c s t T :
  sched_ok s -> current s c = Ok t -> threads s !! t = Some T ->
  exists s', do_scheduler c s = Ok (Switched s' (resume tt)) /\ sched_ok s' /\ rest s' = rest s /\
    (forall u U, threads s !! u = Some U -> status_exited U = true -> statusof s' u EXITED).
Proof.
  intros Hok Ec HT. unfold current in Ec. destruct (cpus s !! c) as [C|] eqn:HC; [|done]. cbn in Ec. injection Ec as Hcur. subst t.
  destruct (schedule_ok c C s T Hok HC HT) as (s1 & s' & m & E & Hok' & Hsc). exists s'. split_and!; [|done| |].
  - unfold do_scheduler. by rewrite E.
  - exact (sc_rest _ _ _ _ _ _ Hsc).
  - intros u U HU HUe.
    assert (HU0 : exists U0, <[current_thread C := with_running false T]> (threads s) !! u = Some U0 /\ status_exited U0 = true).
    { destruct (decide (u = current_thread C)) as [->|Hne]; [|exists U; by rewrite lookup_insert_ne].
      exists (with_running false T). rewrite lookup_insert_eq. split; [done|]. cbn. congruence. }
    destruct HU0 as (U0 & HU0 & HU0e). destruct (scheduled_exited _ _ _ _ _ _ u U0 Hsc HU0) as (U' & HU' & HUe').
    exists U'. split; [done|]. unfold status. by rewrite HUe', HU0e.
Qed.

(** The running thread marked as exited, its process one active thread short. *)
Lemma ended_self c s t p P T o :
  sched_ok s -> executing c s t -> killable s p P -> threads s !! t = Some T -> process T = p -> leaves s p P o ->
  let P0 := with_active_thread_cnt (active_thread_cnt P - 1) P in
  let s0 := with_tp s (<[t := with_exited true T]> (threads s)) p P0 in
  sched_ok s0 /\ killable s0 p P0 /\ leaves s0 p P0 o.
Proof.
  intros Hok Hex Hkp HT Hp Hlv P0 s0. pose proof Hkp as [HP Hk Hpl Hgl Hw Hnd].
  pose proof Hex as [_ Hni Hrun _]. destruct (running_thread _ _ Hrun) as (T' & HT' & He & _ & Hr). replace T' with T in * by congruence.
  assert (Hother : forall u, u <> t -> threads s0 !! u = threads s !! u) by (intros u Hu; cbn; by rewrite lookup_insert_ne). split_and!.
  - apply (proc_upd_ok (set_threads s (<[t := with_exited true T]> (threads s))) p P); [|done].
    destruct Hok as [Hok Hsl]. split; [|done]. by apply upd_ok with T.
  - split; try done; [apply lookup_insert_eq|]. intros u Hu. destruct (Hw u Hu) as [[(U & HU & Hur) Hu2 Hu3] Hut]. split; [|done].
    split; [|done|done]. exists U. split; [|done]. rewrite Hother; [done|]. intros ->. destruct Hur as (_ & Hr2 & _). congruence.
  - apply (leaves_keep s s0 p P); try done.
    + intros u U HU. destruct (decide (u = t)) as [->|Hne]; [|exists U; by rewrite Hother].
      exists (with_exited true T). cbn. rewrite lookup_insert_eq. split; [done|]. cbn. congruence.
    + intros r Hr'. cbn. apply lookup_insert_is_Some'. by right.
Qed.

(** C15: the exit of the last thread ends the process completely.  When the other
    threads of the process have exited and nobody waits for the remaining one,
    sys_exit_thread by it kills the process to the end before it gives up the CPU for
    good: the process is queued for release, its private lock is free, nothing is
    left active, each registered object has exactly one user less and every living
    child is handed over to the parent.  As for a kill from outside, the parent and
    the children are still in memory, and every registered object is registered by
    some other process too and is not a mutex that is free or that a thread of the
    process owns. *)
Theorem last_exit_ends_process c s t p P T o :
  sched_ok s -> executing c s t -> killable s p P -> t ∈ threads_of P -> active_thread_cnt P = 1 ->
  (forall u, u ∈ threads_of P -> u <> t -> exists U, threads s !! u = Some U /\ status_exited U = true) ->
  threads s !! t = Some T -> process T = p -> thread_own_lock T = false -> wait_exited_queue T = [] -> leaves s p P o ->
  exists s' k P', sys_exit_thread c s = Ok (Switched s' k) /\ sched_ok s' /\
    (forall u, u ∈ threads_of P -> statusof s' u EXITED) /\ processes s' !! p = Some P' /\
    is_killed P' = true /\ process_own_lock P' = false /\ active_thread_cnt P' = 0 /\
    given_up (foreach o) s s' /\ handed_over s P s' /\
    process_to_release s' = process_to_release s ++ [p].
Proof.
  intros Hok Hex Hkp Hin Ha Hoth HT Hp Hl Hq Hlv. pose proof Hkp as [HP _ _ _ _ _]. pose proof Hex as [Ec _ Hrun _].
  destruct (running_thread _ _ Hrun) as (T' & HT' & He & _). replace T' with T in * by congruence.
  destruct (ended_self c s t p P T o Hok Hex Hkp HT Hp Hlv) as (Hok0 & Hkp0 & Hlv0).
  set (P0 := with_active_thread_cnt _ P) in *. set (s0 := with_tp s _ p P0) in *.
  assert (Hother : forall u, u <> t -> threads s0 !! u = threads s !! u) by (intros u Hu; cbn; by rewrite lookup_insert_ne).
  destruct (kill_dead 2 c s0 p P0 o Hok0 Hkp0) as (s3 & E3 & Hok3 & Ecpu & Hdead & HP3 & Erel & Hgu & Hho); [|done|].
  { intros u Hu. destruct (decide (u = t)) as [->|Hne]; [exists (with_exited true T); cbn; by rewrite lookup_insert_eq|].
    rewrite Hother by done. by apply Hoth. }
  assert (Ec3 : current s3 c = Ok t) by (unfold current in *; by rewrite Ecpu).
  destruct (Hdead t Hin) as (T3 & HT3 & HT3e). destruct (leave_cpu c s3 t T3 Hok3 Ec3 HT3) as (s' & E4 & Hok' & Hrest & Hend).
  eexists s', _, (with_process_own_lock false (marked P0)). split_and!; try done.
  - unfold sys_exit_thread. rewrite Ec. cbn [obind]. change exit_fuel with 5%nat.
    rewrite (exit_prefix 4 c s p t P T HP ltac:(lia) HT Hp He Hl Hq). fold P0 s0.
    replace (active_thread_cnt P - 1 =? 0) with true by (symmetry; apply Z.eqb_eq; lia). rewrite E3. cbn [obind kbind].
    rewrite Ec3. cbn [obind]. rewrite Z.eqb_refl. by rewrite E4.
  - intros u Hu. destruct (Hdead u Hu) as (U & HU & HUe). by apply (Hend u U).
  - rewrite <- HP3. f_equal. exact (f_equal processes Hrest).
  - unfold P0. cbn. lia.
  - intros b. rewrite <- (count_of_view s s0 b eq_refl). rewrite (count_of_view s3 s' b (f_equal obj_view Hrest)). apply Hgu.
  - pose proof (handed_over_keep s s0 p P P0 o s3 Hlv (conj eq_refl (conj eq_refl eq_refl))) as Hh. unfold handed_over in *.
    rewrite (f_equal processes Hrest : processes s' = processes s3). apply Hh; [|done].
    intros r Hr'. cbn. by rewrite lookup_insert_ne.
  - transitivity (process_to_release s3); [exact (f_equal process_to_release Hrest)|exact Erel].
Qed.

(** * Processes that have been reaped *)

(** What waking and deleting threads leave alone. *)
Definition pview s := (processes s, process_table s).

Lemma wakeup_pview s t s' : wakeup s t = Ok s' -> pview s' = pview s.
Proof.
  unfold wakeup, upd_thread. intros E. apply obind_Ok_inv in E as (s1 & E1 & E).
  apply obind_Ok_inv in E1 as (T1 & _ & E1). injection E1 as <-. apply obind_Ok_inv in E as (T & _ & E). destruct (_ =? 0); [|by injection E as <-].
  destruct (negb _); [|by injection E as <-]. unfold add_ready_thread in E. apply obind_Ok_inv in E as (b & _ & E). by injection E as <-.
Qed.

Lemma wakeup_all_pview q : forall s s', wakeup_all q s = Ok s' -> pview s' = pview s.
Proof.
  induction q as [|t q IH]; intros s s' E; cbn [wakeup_all] in E; [by inv_ok|].
  apply obind_Ok_inv in E as (s1 & E1 & E2). by rewrite (IH _ _ E2), (wakeup_pview _ _ _ E1).
Qed.

Lemma delete_threads_pview ths : forall s s', delete_threads ths s = Ok s' -> pview s' = pview s.
Proof.
  induction ths as [|t ths IH]; intros s s' E; cbn [delete_threads] in E; [by inv_ok|].
  apply obind_Ok_inv in E as (T & _ & E). apply obind_Ok_inv in E as (_ & _ & E).
  apply obind_Ok_inv in E as (s1 & E1 & E2). rewrite (IH _ _ E2). clear E2.
  unfold delete_thread in E1. apply obind_Ok_inv in E1 as (T' & _ & E1). apply obind_Ok_inv in E1 as (s2 & E2 & E1).
  unfold lock_threads in E2. apply obind_Ok_inv in E2 as (b & _ & E2). injection E2 as <-.
  apply obind_Ok_inv in E1 as (s3 & E3 & E1). injection E1 as <-. apply wakeup_all_pview in E3. exact E3.
Qed.

Lemma delete_process_effect p s s' : delete_process p s = Ok s' ->
  processes s' = delete p (processes s) /\ process_table s' = process_table s.
Proof.
  unfold delete_process. intros E. apply obind_Ok_inv in E as (P & _ & E). apply obind_Ok_inv in E as (_ & _ & E).
  apply obind_Ok_inv in E as (s1 & E1 & E). apply obind_Ok_inv in E as (s2 & E2 & E). injection E as <-.
  apply delete_threads_pview in E1. apply wakeup_all_pview in E2. unfold pview in *. cbn in E2.
  injection E1 as E1 E1'. injection E2 as E2 E2'. cbn. split; congruence.
Qed.

(** One entry of the table. *)
Lemma cleanup_step n i s s' : cleanup_loop (S n) i s = Ok s' ->
  exists s1, cleanup_loop n (S i) s1 = Ok s' /\ length (process_table s1) = length (process_table s) /\
    (forall j, j <> i -> process_table s1 !! j = process_table s !! j) /\
    (forall p P, process_table s !! i <> Some (Some p) -> processes s !! p = Some P -> processes s1 !! p = Some P) /\
    (forall p P, process_table s !! i = Some (Some p) -> processes s !! p = Some P -> is_killed P = true -> process_table s1 !! i = Some None) /\
    (forall q, process_table s1 !! i = Some (Some q) -> process_table s !! i = Some (Some q)).
Proof.
  cbn [cleanup_loop]. intros E. apply obind_Ok_inv in E as (e & He & E). apply or_fault_Ok in He.
  apply obind_Ok_inv in E as (s1 & E1 & E). exists s1. split; [done|]. destruct e as [p|].
  - apply obind_Ok_inv in E1 as (P & HP & E1). apply or_fault_Ok in HP. destruct (is_killed P) eqn:Hk.
    + apply obind_Ok_inv in E1 as (s2 & E2 & E1). apply obind_Ok_inv in E1 as (s3 & E3 & E1). injection E1 as <-.
      unfold lock_process in E2. rewrite HP in E2. cbn [or_fault obind] in E2. apply obind_Ok_inv in E2 as (b & _ & E2).
      rewrite (upd_process_run _ _ _ _ HP) in E2. injection E2 as <-. apply delete_process_effect in E3 as [Epr Etab].
      cbn [process_table set_process_table processes] in *. rewrite Etab, Epr. cbn. split_and!.
      * apply length_insert.
      * intros j Hj. by apply list_lookup_insert_ne.
      * intros p' P' Hne HP'. assert (p' <> p) by congruence. rewrite lookup_delete_ne, lookup_insert_ne by done. done.
      * intros _ _ _ _ _. apply list_lookup_insert_eq. by eapply lookup_lt_Some.
      * intros q. rewrite list_lookup_insert_eq; [done|]. by eapply lookup_lt_Some.
    + injection E1 as <-. split_and!; try done. intros p' P' [= <-]%(eq_trans (eq_sym He)) HP'. congruence.
  - injection E1 as <-. split_and!; try done.
Qed.

Lemma cleanup_keeps_none n : forall i s s' j, cleanup_loop n i s = Ok s' -> (j < i)%nat -> process_table s' !! j = process_table s !! j.
Proof.
  induction n as [|n IH]; intros i s s' j E Hj; [by injection E as <-|].
  apply cleanup_step in E as (s1 & E & _ & Hoth & _). rewrite (IH _ _ _ j E) by lia. apply Hoth. lia.
Qed.

Lemma cleanup_length n : forall i s s', cleanup_loop n i s = Ok s' -> length (process_table s') = length (process_table s).
Proof.
  induction n as [|n IH]; intros i s s' E; [by injection E as <-|].
  apply cleanup_step in E as (s1 & E & Hlen & _). by rewrite (IH _ _ _ E).
Qed.

Lemma cleanup_reaps n : forall i s s' j p P,
  cleanup_loop n i s = Ok s' -> (i <= j < i + n)%nat ->
  (forall k, process_table s !! k = Some (Some p) -> k = j) ->
  process_table s !! j = Some (Some p) -> processes s !! p = Some P -> is_killed P = true ->
  process_table s' !! j = Some None.
Proof.
  induction n as [|n IH]; intros i s s' j p P E Hj Hu Ht HP Hk; [lia|].
  apply cleanup_step in E as (s1 & E & Hlen & Hoth & Hpr & Hnone & Hsame). destruct (decide (j = i)) as [->|Hne].
  - rewrite (cleanup_keeps_none _ _ _ _ i E) by lia. by eapply Hnone.
  - eapply (IH (S i) s1 s' j p P E); [lia| |by rewrite Hoth|apply Hpr; [|done]|done].
    + intros k Hk'. destruct (decide (k = i)) as [->|Hki]; [by apply Hu, Hsame|apply Hu; by rewrite Hoth in Hk'].
    + intros Hi. by apply Hne, eq_sym, Hu.
Qed.

(** an identifier whose process has been reaped is a trap for whoever uses it
    later.  Once idle_cleanup has run, the table entry of a killed process is null,
    and get_process reads through it without looking: sys_kill, sys_waitpid and
    (for a process that is not 0) sys_task_set with that identifier make the kernel
    fault instead of answering that there is no such process, which they do for an
    identifier past the end of the table. *)
Theorem reaped_pid_faults s s' i p P c mask :
  idle_cleanup s = Ok s' -> cleanup_lock s = false -> process_table s !! i = Some (Some p) ->
  (forall k, process_table s !! k = Some (Some p) -> k = i) -> processes s !! p = Some P -> is_killed P = true -> i <> 0%nat ->
  process_table s' !! i = Some None /\ length (process_table s') = length (process_table s) /\
    sys_kill (Z.of_nat i) c s' = Fault /\ sys_waitpid (Z.of_nat i) c s' = Fault /\ sys_task_set (Z.of_nat i) mask c s' = Fault /\
    (forall n, Z.of_nat (length (process_table s')) <= n ->
    sys_kill n c s' = Ok (Done 0 s') /\ sys_waitpid n c s' = Ok (Done 0 s')).
Proof.
  intros E Hl Ht Hu HP Hk Hi. unfold idle_cleanup in E. rewrite Hl in E. cbn [test_and_set] in E.
  apply obind_Ok_inv in E as (s1 & E1 & E). apply obind_Ok_inv in E as (s2 & E2 & E). injection E as <-.
  unfold lock_processes in E1. apply obind_Ok_inv in E1 as (b & _ & E1). injection E1 as <-.
  pose proof (lookup_lt_Some _ _ _ Ht) as Hlt.
  pose proof (cleanup_reaps _ _ _ _ i p P E2 ltac:(cbn; lia) Hu Ht HP Hk) as Hnone.
  apply cleanup_length in E2. cbn in E2. set (s' := set_cleanup_lock _ _).
  assert (Hg : get_process (Z.of_nat i) s' = Fault).
  { unfold get_process. change (process_table s') with (process_table s2). rewrite E2.
    destruct (Z.leb_spec (Z.of_nat (length (process_table s))) (Z.of_nat i)); [lia|].
    cbn [obind lock spin process_global_lock s' set_cleanup_lock unlock_processes set_process_global_lock unlock test_and_set].
    by rewrite Nat2Z.id, Hnone. }
  split_and!; try done.
  - unfold sys_kill. by rewrite Hg.
  - unfold sys_waitpid. by rewrite Hg.
  - unfold sys_task_set. rewrite Hg. destruct (Z.eqb_spec (Z.of_nat i) 0); [lia|done].
  - intros n Hn. assert (Hgn : get_process n s' = Ok None).
    { unfold get_process. destruct (Z.leb_spec (Z.of_nat (length (process_table s'))) n); [|lia]. done. }
    unfold sys_kill, sys_waitpid. by rewrite Hgn.
Qed.

(** * The hypotheses hold on the machine of SchedTheorems *)

Module OneCpuProcesses.
Import OneCpu OneCpuLocks.

(** 103 waits for process 502 to be killed; 502 is a child of process 500 and has
    process 501 as its child. *)
Definition waiting : Process := with_children [501] (with_parent (Some 500) (with_wait_kill_queue [103] (proc 2 [104; 105]))).
(** Processes 500 and 502 have registered the same barrier. *)
Definition registers : list (Item Z) := default [] (procs ex_shared !! 1%nat).
Definition waited : kernel :=
  let s := set_processes quiet (<[502 := waiting]> (processes quiet)) in
  let s := set_barrier_pool s (MkPool (objs ex_shared) (keymap ex_shared) (table ex_shared)) in
  set_kernel_objects (set_barriers s (<[ex_obj := MkBarrier 2 0 [] false]> ∅)) [registers; []; registers].
(** Of process 501 only 101 is left. *)
Definition gone (t : Z) s : kernel :=
  match threads s !! t with Some T => set_threads s (<[t := with_exited true T]> (threads s)) | None => s end.
Definition lonely : Process := with_active_thread_cnt 1 (proc 1 [101; 102; 103]).
Definition last : kernel :=
  set_kernel_objects (set_barrier_pool (set_barriers (set_processes (gone 103 (gone 102 quiet)) (<[501 := lonely]> (processes quiet)))
    (<[ex_obj := MkBarrier 2 0 [] false]> ∅)) (MkPool (objs ex_shared) (keymap ex_shared) (table ex_shared))) [registers; registers; []].
(** Process 501 has its threads in another order. *)
Definition swapped : kernel := set_processes quiet (<[501 := proc 1 [102; 101; 103]]> (processes quiet)).
(** Process 502 has been killed. *)
Definition dead : kernel := match kill exit_fuel 502 0 quiet with Ok (Done _ s) => s | _ => quiet end.
Definition reaped : kernel := match idle_cleanup dead with Ok s => s | _ => dead end.

Lemma gone_ok t s T : sched_ok s -> threads s !! t = Some T -> ~ idle s t -> sched_ok (gone t s).
Proof. intros [Hok Hsl] HT Hni. unfold gone. rewrite HT. split; [|done]. by apply upd_ok with T. Qed.

Lemma waited_killable : killable waited 502 waiting.
Proof.
  split; try done; [|split; repeat constructor; rewrite ?list_elem_of_singleton; try done; apply not_elem_of_nil].
  intros u Hu. cbn in Hu. apply list_elem_of_singleton in Hu as ->. split.
  - destruct parked_103 as [H1 H2 H3]. by split.
  - intros Hin. apply (bool_decide_pack _) in Hin. by vm_compute in Hin.
Qed.

Lemma waited_leaves : leaves waited 502 waiting registers.
Proof.
  assert (E : foreach registers = [ex_obj]) by (vm_compute; reflexivity).
  split; [reflexivity|rewrite E; apply NoDup_singleton|rewrite E; apply Forall_singleton|].
  - split; [|by intros M HM]. assert (Ec : count_of waited ex_obj = Some 2) by (vm_compute; reflexivity).
    unfold count_of in Ec. apply fmap_Some in Ec as (x & Hx & Hc). exists x. split; [exact Hx|]. clear - Hc. lia.
  - intros q [= <-]. change (children waiting) with [501]. split_and!; [by eexists|done|by rewrite list_elem_of_singleton|by rewrite list_elem_of_singleton|apply NoDup_singleton|].
    intros k ->%list_elem_of_singleton. by eexists.
Qed.

Lemma waited_ok : sched_ok waited.
Proof.
  apply (view_ok (set_processes quiet (<[502 := waiting]> (processes quiet)))); [done|].
  apply (proc_upd_ok quiet 502 (proc 2 [104; 105]) waiting quiet_ok eq_refl).
Qed.

Lemma swapped_ok : sched_ok swapped.
Proof. apply (proc_upd_ok quiet 501 (proc 1 [101; 102; 103]) _ quiet_ok eq_refl). Qed.

Lemma executing_101_in s :
  cpus s = cpus quiet -> sleeping_queue s = [] -> threads s !! 101 = Some (thread 1 0 (Some 0%nat)) -> executing 0 s 101.
Proof.
  intros Ec Es HT. split.
  - unfold current. by rewrite Ec.
  - unfold idle. rewrite Ec. intros Hi. apply (idle_only 0 0 1 1 [] 101) in Hi. discriminate.
  - by eexists.
  - intros w. rewrite Es. apply not_elem_of_nil.
Qed.

Lemma last_ok : sched_ok last.
Proof.
  assert (Hni : forall t, t <> 100 -> ~ idle quiet t) by (intros t Ht; unfold quiet; by rewrite idle_only).
  apply (view_ok (set_processes (gone 103 (gone 102 quiet)) (<[501 := lonely]> (processes quiet)))); [done|].
  refine (proc_upd_ok (gone 103 (gone 102 quiet)) 501 (proc 1 [101; 102; 103]) _ _ _); [|reflexivity].
  apply gone_ok with (thread 3 1 None); [|reflexivity|by apply (Hni 103)].
  apply gone_ok with (thread 2 0 None); [exact quiet_ok|reflexivity|by apply Hni].
Qed.

Lemma last_leaves : leaves last 501 lonely registers.
Proof.
  assert (E : foreach registers = [ex_obj]) by (vm_compute; reflexivity).
  split; [reflexivity|rewrite E; apply NoDup_singleton|rewrite E; apply Forall_singleton|by intros q Hq].
  split; [|by intros M HM]. assert (Ec : count_of last ex_obj = Some 2) by (vm_compute; reflexivity).
  unfold count_of in Ec. apply fmap_Some in Ec as (x & Hx & Hc). exists x. split; [exact Hx|]. clear - Hc. lia.
Qed.

Lemma waited_bystanders : Forall (bystander 0 waited 502) [104; 105].
Proof. repeat constructor; by (eexists; split_and!). Qed.
End OneCpuProcesses.
Import OneCpu OneCpuLocks OneCpuProcesses.

Lemma kill_ends_process_witness :
  exists s', kill exit_fuel 502 0 waited = Ok (Done tt s') /\ statusof s' 104 EXITED /\ statusof s' 103 READY /\
    count_of waited ex_obj = Some 2 /\ count_of s' ex_obj = Some 1 /\
    (exists K, processes s' !! 501 = Some K /\ parent K = Some 500) /\ (exists Q, processes s' !! 500 = Some Q /\ children Q = [501]).
Proof.
  destruct (kill_ends_process 0 waited 502 waiting registers waited_ok waited_killable)
    as (s' & P' & E & _ & _ & _ & _ & Hex & Hw & Hgu & Hho & _);
    [split; reflexivity|exact waited_bystanders|exact waited_leaves|].
  assert (Ec : count_of waited ex_obj = Some 2) by (vm_compute; reflexivity).
  exists s'. split; [exact E|]. split; [apply Hex; left|]. split; [apply (Hw 103); left|]. split; [exact Ec|].
  split; [|destruct (Hho 500 (proc 0 [100]) eq_refl eq_refl) as [HQ HK]; split].
  - rewrite (Hgu ex_obj), Ec. rewrite decide_True; [reflexivity|]. replace (foreach registers) with [ex_obj] by (vm_compute; reflexivity). left.
  - eexists. split; [apply (HK 501 (proc 1 [101; 102; 103])); [left|reflexivity|reflexivity]|reflexivity].
  - eexists. split; [exact HQ|reflexivity].
Defined.

(** The caller 101 is the second thread of its process. *)
Lemma self_kill_abandons_witness :
  exists s' k P', sys_exit 0 swapped = Ok (Switched s' k) /\ statusof s' 102 EXITED /\ processes s' !! 501 = Some P' /\ process_own_lock P' = true.
Proof.
  destruct (self_kill_abandons 0 swapped 101 501 (proc 1 [102; 101; 103]) (thread 1 0 (Some 0%nat)) [102] [103])
    as (s' & k & P' & E & Hex & _ & _ & _ & HP & _ & Hl & _);
    [exact swapped_ok|apply executing_101_in; reflexivity| |split; reflexivity|reflexivity| | |reflexivity|reflexivity|reflexivity|reflexivity|].
  - split; try reflexivity; [intros u Hu; by apply elem_of_nil in Hu|].
    split; [constructor|]. apply (bool_decide_unpack _). vm_compute. exact I.
  - apply Forall_singleton. split; [by exists (thread 2 0 None)|by exists 101].
  - apply Forall_singleton. intros Hi. apply (idle_only 0 0 1 1 [] 102) in Hi. discriminate.
  - exists s', k, P'. split; [exact E|]. split; [apply Hex; left|]. split; [exact HP|exact Hl].
Defined.

Lemma last_exit_ends_process_witness :
  exists s' k, sys_exit_thread 0 last = Ok (Switched s' k) /\ process_to_release s' = [501] /\ count_of s' ex_obj = Some 1.
Proof.
  destruct (last_exit_ends_process 0 last 101 501 lonely (thread 1 0 (Some 0%nat)) registers)
    as (s' & k & P' & E & _ & _ & _ & _ & _ & _ & Hgu & _ & Hr);
    [exact last_ok|apply executing_101_in; reflexivity| |by left|reflexivity| |reflexivity|reflexivity|reflexivity|reflexivity|exact last_leaves|].
  - split; try reflexivity; [intros u Hu; by apply elem_of_nil in Hu|].
    split; [constructor|]. apply (bool_decide_unpack _). vm_compute. exact I.
  - intros u Hu Hne. cbn in Hu. apply elem_of_cons in Hu as [->|Hu]; [done|]. repeat (apply elem_of_cons in Hu as [->|Hu]; [by eexists|]). by apply elem_of_nil in Hu.
  - exists s', k. split; [exact E|]. split; [exact Hr|]. rewrite (Hgu ex_obj).
    replace (foreach registers) with [ex_obj] by (vm_compute; reflexivity). rewrite decide_True by left. vm_compute. reflexivity.
Defined.

Lemma reaped_pid_faults_witness : sys_kill 2 0 reaped = Fault /\ sys_kill 3 0 reaped = Ok (Done 0 reaped).
Proof.
  destruct (reaped_pid_faults dead reaped 2 502 (with_active_thread_cnt 0 (with_is_killed true (proc 2 [104; 105]))) 0 0)
    as (_ & Hlen & Hk & _ & _ & Hpast); [vm_compute; reflexivity..| |vm_compute; reflexivity|reflexivity|discriminate|].
  - replace (process_table dead) with [Some 500; Some 501; Some 502] by (vm_compute; reflexivity).
    intros k Hkk. do 3 (destruct k as [|k]; [by try injection Hkk|]). discriminate.
  - split; [exact Hk|]. apply Hpast. rewrite Hlen. vm_compute. discriminate.
Defined.
