(* ===== verification/Page.v ===== *)
(** Virtual memory: src/page.hpp and src/page.cpp.

    Page tables live in pages of 512 entries, by kernel virtual address; an
    entry is kept as the fields of struct PageEntry, whose layout in a 64-bit
    word is [encode].  Pages come from the interface [page_source] that
    KAlloc.v implements.  [sv39] is the address translation of the RISC-V
    privileged specification, on the words: what the hardware does with what
    these operations write. *)

From Stdlib Require Import ZArith Lia List.
From stdpp Require Import base numbers list gmap.
From S2P Require Import Prelude Bits KAlloc Kernel Sched Process.

Local Open Scope Z_scope.

(** * Page table entries *)

(** enum class PageAttr and enum class PageOSFlag *)
Definition Noleaf : Z := 0.
Definition RWX : Z := 7.
Definition Normal : Z := 0.
Definition Shared : Z := 1.

(** struct PageEntry *)
Record PageEntry := MkPTE {
  V : bool; XWR : Z; U : bool; G : bool; A : bool; D : bool; OSflag : Z; ppn : Z; Reseverd1 : Z
}.
#[export] Instance PageEntry_eq_dec : EqDecision PageEntry.
Proof. solve_decision. Defined.

(** The bit fields, lowest first. *)
Definition bit (b : bool) : Z := if b then 1 else 0.
Definition encode (e : PageEntry) : Z :=
  bit (V e) + XWR e * 2 + bit (U e) * 2 ^ 4 + bit (G e) * 2 ^ 5 + bit (A e) * 2 ^ 6 + bit (D e) * 2 ^ 7 +
  OSflag e * 2 ^ 8 + ppn e * 2 ^ 10 + Reseverd1 e * 2 ^ 54.
Definition field (w : Z) (from width : Z) : Z := (w / 2 ^ from) mod 2 ^ width.
Definition decode (w : Z) : PageEntry :=
  MkPTE (Z.testbit w 0) (field w 1 3) (Z.testbit w 4) (Z.testbit w 5) (Z.testbit w 6) (Z.testbit w 7)
    (field w 8 2) (field w 10 44) (field w 54 10).

(** The default member initialisers, with the fields the code gives. *)
Definition new_entry (xwr : Z) (u g a d : bool) (ppn : Z) : PageEntry :=
  MkPTE true xwr u g a d Normal (ppn mod 2 ^ 44) 0.
(** void clear() *)
Definition clear (e : PageEntry) : PageEntry := decode 0.
(** void set_as_leaf(ptr_t pa) *)
Definition set_as_leaf (pa : Z) (e : PageEntry) : PageEntry :=
  MkPTE true RWX true false true true Normal (Z.shiftr pa 12 mod 2 ^ 44) (Reseverd1 e).
(** void set_as_dir(ptr_t pa) *)
Definition set_as_dir (pa : Z) (e : PageEntry) : PageEntry :=
  MkPTE true Noleaf false false false false Normal (Z.shiftr pa 12 mod 2 ^ 44) (Reseverd1 e).
Definition with_OSflag f (e : PageEntry) : PageEntry := MkPTE (V e) (XWR e) (U e) (G e) (A e) (D e) f (ppn e) (Reseverd1 e).
Definition with_V b (e : PageEntry) : PageEntry := MkPTE b (XWR e) (U e) (G e) (A e) (D e) (OSflag e) (ppn e) (Reseverd1 e).
(** ptr_t to_pa(), ptr_t to_kva() *)
Definition to_pa (e : PageEntry) : Z := Z.shiftl (ppn e) 12.
Definition to_kva (e : PageEntry) : Z := pa2kva (to_pa e).

(** constexpr ptr_t get_vpn(ptr_t va, unsigned sizeid) *)
Definition get_vpn (va : Z) (sizeid : nat) : nat := Z.to_nat (Z.land (Z.shiftr va (12 + 9 * Z.of_nat sizeid)) 0x1ff).

(** * Tables *)

Abbreviation tables := (gmap Z (list PageEntry)).
Definition zero_table : list PageEntry := replicate 512 (decode 0).

(** *pte, and a store through pte; pte is a page and an index. *)
Definition get_pte (T : tables) (pte : Z * nat) : outcome PageEntry := or_fault (T !! pte.1 ≫= (.!! pte.2)).
Definition set_pte (T : tables) (pte : Z * nat) (e : PageEntry) : outcome tables :=
  tb <- or_fault (T !! pte.1) ;;
  _ <- or_fault (tb !! pte.2) ;;
  Ok (<[pte.1 := <[pte.2 := e]> tb]> T).

(** * What the hardware does *)

(** Sv39, the walk from level [lvl] in the table at physical address [pa]. *)
Fixpoint sv39 (T : tables) (lvl : nat) (pa va : Z) : option (Z * Z) :=
  w ← encode <$> (T !! pa2kva pa ≫= (.!! get_vpn va lvl));
  if negb (Z.testbit w 0) then None                                (* not valid *)
  else if negb (Z.testbit w 1) && Z.testbit w 2 then None          (* writable but not readable *)
  else if Z.testbit w 1 || Z.testbit w 3 then                      (* leaf *)
    if negb (Z.testbit w 6) then None                              (* not accessed *)
    else
      let size := 12 + 9 * Z.of_nat lvl in
      let pa := field w 10 44 * 2 ^ 12 in
      if negb (pa mod 2 ^ size =? 0) then None                     (* misaligned superpage *)
      else Some (pa + va mod 2 ^ size, w)
  else
    match lvl with
    | O => None
    | S lvl => sv39 T lvl (field w 10 44 * 2 ^ 12) va
    end.

(** Bits 63 to 39 of an address equal bit 38. *)
Definition canonical (va : Z) : bool := (va <? 2 ^ 38) || (2 ^ 64 - 2 ^ 38 <=? va).
Definition translate (T : tables) (root va : Z) : option (Z * Z) :=
  if canonical va then sv39 T 2 (kva2pa root) va else None.
(** An access from user mode. *)
Definition user_pa (T : tables) (root va : Z) : option Z :=
  '(pa, w) ← translate T root va; if Z.testbit w 4 then Some pa else None.

(** * The pages of the kernel heap *)

(** A page as kalloc gives it. *)
Definition good_page (p : Z) : Prop := exists k, p = pa2kva (k * 4096) /\ PAGE_START <= k * 4096 < PAGE_END.

Class page_source (H : Type) := {
  take_page : H -> outcome (Z * H);
  give_page : H -> Z -> outcome H;
  (** [pages_out h L]: the pages of [L] have been handed out and are in use. *)
  pages_out : H -> gset Z -> Prop;
  take_page_ok h L : pages_out h L ->
    take_page h = Panic \/
    exists p h', take_page h = Ok (p, h') /\ p ∉ L /\ good_page p /\ pages_out h' ({[p]} ∪ L);
  give_page_ok h L p : pages_out h L -> p ∈ L ->
    exists h', give_page h p = Ok h' /\ pages_out h' (L ∖ {[p]});
  pages_out_good h L p : pages_out h L -> p ∈ L -> good_page p
}.

(** * The state *)

(** class PageDir *)
Record PageDir := MkPageDir {
  root : Z;
  flush_mask : Z;
  pd_lock : bool;
  shared_page_start : Z;
  active_private_mem : Z;
  private_mem_fifo : list Z;
  user_mem_bound : Z
}.
Definition pd_set_flush_mask v d := MkPageDir (root d) v (pd_lock d) (shared_page_start d) (active_private_mem d) (private_mem_fifo d) (user_mem_bound d).
Definition pd_set_lock v d := MkPageDir (root d) (flush_mask d) v (shared_page_start d) (active_private_mem d) (private_mem_fifo d) (user_mem_bound d).
Definition pd_set_shared_page_start v d := MkPageDir (root d) (flush_mask d) (pd_lock d) v (active_private_mem d) (private_mem_fifo d) (user_mem_bound d).
Definition pd_set_active v d := MkPageDir (root d) (flush_mask d) (pd_lock d) (shared_page_start d) v (private_mem_fifo d) (user_mem_bound d).
Definition pd_set_fifo v d := MkPageDir (root d) (flush_mask d) (pd_lock d) (shared_page_start d) (active_private_mem d) v (user_mem_bound d).
Definition pd_set_bound v d := MkPageDir (root d) (flush_mask d) (pd_lock d) (shared_page_start d) (active_private_mem d) (private_mem_fifo d) v.

(** class SharedPage *)
Record SharedPage := MkShared { sp_key : Z; sp_kva : Z; sp_cnt : Z }.

Record vm (H : Type) := MkVm {
  krn : kernel;
  vheap : H;
  tabs : tables;
  dirs : gmap Z PageDir;               (* Process::pagedir, by process *)
  shared_pages : list SharedPage;
  io_base_va : Z
}.
Arguments MkVm {H}. Arguments krn {H}. Arguments vheap {H}. Arguments tabs {H}. Arguments dirs {H}.
Arguments shared_pages {H}. Arguments io_base_va {H}.

Section Code.
Context {H : Type} {PS : page_source H}.
Implicit Types (v : vm H) (d : Z).

Definition set_krn v x : vm H := MkVm x (vheap v) (tabs v) (dirs v) (shared_pages v) (io_base_va v).
Definition set_vheap v x : vm H := MkVm (krn v) x (tabs v) (dirs v) (shared_pages v) (io_base_va v).
Definition set_tabs v x : vm H := MkVm (krn v) (vheap v) x (dirs v) (shared_pages v) (io_base_va v).
Definition set_dirs v x : vm H := MkVm (krn v) (vheap v) (tabs v) x (shared_pages v) (io_base_va v).
Definition set_shared_pages v x : vm H := MkVm (krn v) (vheap v) (tabs v) (dirs v) x (io_base_va v).
Definition set_io_base_va v x : vm H := MkVm (krn v) (vheap v) (tabs v) (dirs v) (shared_pages v) x.

Definition upd_dir v d (f : PageDir -> PageDir) : outcome (vm H) :=
  D <- or_fault (dirs v !! d) ;; Ok (set_dirs v (<[d := f D]> (dirs v))).

(** kalloc(PAGE_SIZE) *)
Definition kalloc_page v : outcome (Z * vm H) := '(p, h) <- take_page (vheap v) ;; Ok (p, set_vheap v h).
Definition kfree_page p v : outcome (vm H) := h <- give_page (vheap v) p ;; Ok (set_vheap v h).
(** *pte = e *)
Definition store_pte pte e v : outcome (vm H) := T <- set_pte (tabs v) pte e ;; Ok (set_tabs v T).
(** bzeropage((void * )page, 1) *)
Definition bzero_table page v : vm H := set_tabs v (<[page := zero_table]> (tabs v)).

(** * Kernel space *)

Definition PGDIR_PA : Z := 0x50510000.
Definition IO_BASE_VA : Z := 0xffffffe000000000.
Definition boot_base : Z := 0x40000000.

(** void setup_vm() *)
Definition setup_vm v : outcome (vm H) :=
  let early_pgdir := pa2kva PGDIR_PA in
  let v := bzero_table early_pgdir v in
  let kernel_entry := new_entry RWX false true true true (Z.shiftr boot_base 12) in
  v <- store_pte (early_pgdir, get_vpn (pa2kva boot_base) 2) kernel_entry v ;;
  v <- store_pte (early_pgdir, get_vpn boot_base 2) kernel_entry v ;;
  store_pte (early_pgdir, get_vpn IO_BASE_VA 2) (new_entry Noleaf false true false false (Z.shiftr (PGDIR_PA + PAGE_SIZE) 12)) v.

(** void set_kernel_vm(PageEntry root[512]) *)
Definition set_kernel_vm root v : outcome (vm H) :=
  let v := bzero_table root v in
  tb <- or_fault (tabs v !! pa2kva PGDIR_PA) ;;
  let v := set_tabs v (<[root := tb]> (tabs v)) in
  e <- get_pte (tabs v) (root, get_vpn boot_base 2) ;;
  store_pte (root, get_vpn boot_base 2) (clear e) v.

(** The loop of ioremap *)
Fixpoint ioremap_loop (n : nat) (pte : Z * nat) (phys_addr : Z) v : outcome (vm H) :=
  match n with
  | O => Ok v
  | S n =>
      v <- store_pte pte (new_entry RWX false true true true (Z.shiftr phys_addr 12)) v ;;
      ioremap_loop n (pte.1, S pte.2) (u64 (phys_addr + 2 ^ 21)) v
  end.
(** void *ioremap(ptr_t phys_addr, size_t size) *)
Definition ioremap (phys_addr size : Z) v : outcome (Z * vm H) :=
  let PAGE := 2 ^ 21 in
  let va := u64 (io_base_va v + phys_addr mod PAGE) in
  let size := u64 (size + phys_addr mod PAGE) in
  let size := size / PAGE + bit (negb (size mod PAGE =? 0)) in
  let phys_addr := phys_addr / PAGE * PAGE in
  v <- ioremap_loop (Z.to_nat size) (pa2kva (PGDIR_PA + PAGE_SIZE), get_vpn (io_base_va v) 1) phys_addr v ;;
  Ok (va, set_io_base_va v (u64 (io_base_va v + size * PAGE))).

(** * class PageDir *)

(** PageDir::PageDir(), the member of the process [d] *)
Definition new_pagedir d v : outcome (vm H) :=
  '(root, v) <- kalloc_page v ;;
  v <- set_kernel_vm root v ;;
  Ok (set_dirs v (<[d := MkPageDir root 0 false (128 * 2 ^ 30) 0 [] 0x300000]> (dirs v))).

(** The value set_satp writes *)
Definition satp (mode asid pa : Z) : Z :=
  Z.lor (Z.lor (u64 (Z.shiftl mode 60)) (u64 (Z.shiftl asid 44))) (Z.shiftr pa 12).
Inductive vm_event := WriteSatp (w : Z) | SfenceAll.
(** void flushcpu(int cpu_id, int asid) and void enable(int cpu_id, int asid) *)
Definition flushcpu : list vm_event := [SfenceAll].
Definition enable (D : PageDir) (asid : Z) : list vm_event := WriteSatp (satp 8 asid (kva2pa (root D))) :: flushcpu.

(** void on_page_updated() *)
Definition on_page_updated d (c : nat) v : outcome (vm H) :=
  v <- upd_dir v d (pd_set_flush_mask (2 ^ 64 - 1)) ;;
  p <- current_process (krn v) c ;;
  s <- send_intr_to_running_thread p (krn v) ;;
  Ok (set_krn v s).

(** One level of lookup below the root: the entry, its table made when missing. *)
Definition descend (pte : Z * nat) v : outcome (vm H) :=
  e <- get_pte (tabs v) pte ;;
  if negb (V e) then
    '(pdir, v) <- kalloc_page v ;;
    let v := bzero_table pdir v in
    e <- get_pte (tabs v) pte ;;
    store_pte pte (set_as_dir (kva2pa pdir) e) v
  else Ok v.

(** PageEntry *lookup(ptr_t va) *)
Definition lookup (root va : Z) v : outcome ((Z * nat) * vm H) :=
  let pte := (root, get_vpn va 2) in
  e <- get_pte (tabs v) pte ;;
  if negb (XWR e =? Noleaf) then Ok (pte, v)
  else
    v <- descend pte v ;;
    e <- get_pte (tabs v) pte ;;
    let pte := (to_kva e, get_vpn va 1) in
    e <- get_pte (tabs v) pte ;;
    if negb (XWR e =? Noleaf) then Ok (pte, v)
    else
      v <- descend pte v ;;
      e <- get_pte (tabs v) pte ;;
      Ok ((to_kva e, get_vpn va 0), v).

(** void map_va_kva(ptr_t va, ptr_t kva, PageOSFlag osflag) *)
Definition map_va_kva d (va kva osflag : Z) (c : nat) v : outcome (vm H) :=
  D <- or_fault (dirs v !! d) ;;
  '(pte, v) <- lookup (root D) va v ;;
  e <- get_pte (tabs v) pte ;;
  assert_ (negb (V e)) ;;
  v <- store_pte pte (set_as_leaf (kva2pa kva) e) v ;;
  e <- get_pte (tabs v) pte ;;
  v <- store_pte pte (with_OSflag osflag e) v ;;
  on_page_updated d c v.

(** lock_guard guard(lock) *)
Definition lock_dir d v : outcome (vm H) :=
  D <- or_fault (dirs v !! d) ;; b <- Kernel.lock (pd_lock D) ;; upd_dir v d (pd_set_lock b).
Definition unlock_dir d v : outcome (vm H) := upd_dir v d (fun D => pd_set_lock (Kernel.unlock (pd_lock D)) D).

(** ptr_t alloc_page_for_va(ptr_t va) *)
Definition alloc_page_for_va d (va : Z) (c : nat) v : outcome (Z * vm H) :=
  D <- or_fault (dirs v !! d) ;;
  if user_mem_bound D <=? va then Panic
  else
    v <- lock_dir d v ;;
    '(pte, v) <- lookup (root D) va v ;;
    e <- get_pte (tabs v) pte ;;
    if V e then v <- unlock_dir d v ;; Ok (to_kva e, v)
    else
      '(kva, v) <- kalloc_page v ;;
      v <- map_va_kva d va kva Normal c v ;;
      v <- upd_dir v d (fun D => pd_set_active (u64 (active_private_mem D + PAGE_SIZE)) D) ;;
      v <- upd_dir v d (fun D => pd_set_fifo (private_mem_fifo D ++ [va]) D) ;;
      e <- get_pte (tabs v) pte ;;
      v <- unlock_dir d v ;;
      Ok (to_kva e, v).

(** One entry of the loop of freeUserRecur; [rec] is the recursive call. *)
Definition free_entry (rec : Z -> vm H -> outcome (vm H)) (e : PageEntry) v : outcome (vm H) :=
  if V e && U e && (XWR e =? Noleaf) then rec (to_kva e) v
  else if V e && U e && (OSflag e =? Normal) then kfree_page (to_kva e) v
  else assert_ (negb (V e) || negb (U e)) ;; Ok v.
Fixpoint free_loop (rec : Z -> vm H -> outcome (vm H)) (n : nat) (i : nat) (pdir : Z) v : outcome (vm H) :=
  match n with
  | O => Ok v
  | S n => e <- get_pte (tabs v) (pdir, i) ;; v <- free_entry rec e v ;; free_loop rec n (S i) pdir v
  end.
(** static void freeUserRecur(PageEntry pdir[512]) *)
Fixpoint freeUserRecur (fuel : nat) (pdir : Z) v : outcome (vm H) :=
  match fuel with
  | O => OutOfFuel
  | S fuel => v <- free_loop (freeUserRecur fuel) 512 0 pdir v ;; kfree_page pdir v
  end.
(** void free_user_private_mem(): a page table has three levels. *)
Definition free_user_private_mem d v : outcome (vm H) :=
  D <- or_fault (dirs v !! d) ;; freeUserRecur 3 (root D) v.

(** ptr_t attach_shared_page(ptr_t kva) *)
Definition attach_shared_page d (kva : Z) (c : nat) v : outcome (Z * vm H) :=
  v <- lock_dir d v ;;
  D <- or_fault (dirs v !! d) ;;
  let va := shared_page_start D in
  v <- map_va_kva d va kva Shared c v ;;
  v <- upd_dir v d (fun D => pd_set_shared_page_start (u64 (shared_page_start D + PAGE_SIZE)) D) ;;
  v <- on_page_updated d c v ;;
  v <- unlock_dir d v ;;
  Ok (va, v).

(** ptr_t free_shared_page(ptr_t va) *)
Definition free_shared_page d (va : Z) (c : nat) v : outcome (Z * vm H) :=
  v <- lock_dir d v ;;
  D <- or_fault (dirs v !! d) ;;
  '(pte, v) <- lookup (root D) va v ;;
  e <- get_pte (tabs v) pte ;;
  assert_ (V e) ;;
  v <- store_pte pte (with_V false e) v ;;
  v <- on_page_updated d c v ;;
  e <- get_pte (tabs v) pte ;;
  v <- unlock_dir d v ;;
  Ok (to_kva e, v).

(** void set_user_mem_bound(size_t bound), ptr_t increase_active_private_mem(size_t size) *)
Definition set_user_mem_bound d addr v : outcome (vm H) := upd_dir v d (pd_set_bound addr).
Definition increase_active_private_mem d size v : outcome (Z * vm H) :=
  D <- or_fault (dirs v !! d) ;;
  v <- upd_dir v d (pd_set_bound (u64 (user_mem_bound D + size))) ;;
  Ok (user_mem_bound D, v).

(** * System calls *)

(** std::find_if over shared_pages *)
Fixpoint find_shared (key : Z) (l : list SharedPage) : option nat :=
  match l with
  | [] => None
  | p :: l => if sp_key p =? key then Some 0%nat else S <$> find_shared key l
  end.
Definition bump (n : Z) (p : SharedPage) : SharedPage := MkShared (sp_key p) (sp_kva p) (u64 (sp_cnt p + n)).

(** ptr_t sys_shmpageget(int key) *)
Definition sys_shmpageget (key : Z) (c : nat) v : outcome (Z * vm H) :=
  let key := u64 key in
  '(i, v) <- match find_shared key (shared_pages v) with
             | Some i => Ok (i, v)
             | None =>
                 '(kva, v) <- kalloc_page v ;;
                 Ok (length (shared_pages v), set_shared_pages v (shared_pages v ++ [MkShared key kva 0]))
             end ;;
  p <- or_fault (shared_pages v !! i) ;;
  let v := set_shared_pages v (<[i := bump 1 p]> (shared_pages v)) in
  d <- current_process (krn v) c ;;
  attach_shared_page d (sp_kva p) c v.

(** The loop of sys_shmpagedt *)
Fixpoint detach_loop (kva : Z) (n i : nat) v : outcome (vm H) :=
  match n with
  | O => Ok v
  | S n =>
      p <- or_fault (shared_pages v !! i) ;;
      if sp_kva p =? kva then
        let p := bump (-1) p in
        let v := set_shared_pages v (<[i := p]> (shared_pages v)) in
        if sp_cnt p =? 0 then
          v <- kfree_page (sp_kva p) v ;;
          Ok (set_shared_pages v (delete i (shared_pages v)))
        else Ok v
      else detach_loop kva n (S i) v
  end.
(** void sys_shmpagedt(ptr_t va) *)
Definition sys_shmpagedt (va : Z) (c : nat) v : outcome (vm H) :=
  d <- current_process (krn v) c ;;
  '(kva, v) <- free_shared_page d va c v ;;
  detach_loop kva (length (shared_pages v)) 0 v.

(** int sys_brk(void *addr), void *sys_sbrk(intptr_t increment) *)
Definition sys_brk (addr : Z) (c : nat) v : outcome (Z * vm H) :=
  d <- current_process (krn v) c ;; v <- set_user_mem_bound d addr v ;; Ok (1, v).
Definition sys_sbrk (increment : Z) (c : nat) v : outcome (Z * vm H) :=
  d <- current_process (krn v) c ;; increase_active_private_mem d increment v.

End Code.

(** * The kernel heap as a source of pages *)

(** The pages of [L] are blocks of the page pool. *)
Definition heap_pages (h : heap) (L : gset Z) : Prop :=
  exists bsS bsP, heap_inv h bsS bsP /\ forall p, p ∈ L -> exists b, b ∈ bsP /\ p = (page_region b).1.

Lemma page_block_good h bsS bsP b : heap_inv h bsS bsP -> b ∈ bsP -> good_page (page_region b).1.
Proof.
  intros Hinv Hb. destruct (heap_inv_in_pool _ _ _ Hinv) as (_ & HP & HR). rewrite Forall_forall in HP, HR.
  specialize (HP b Hb). specialize (HR b Hb). apply in_pool_Z in HP. apply bdisj_Z in HR.
  unfold reserved in HR. cbn [fst snd] in HR. change (Z.of_nat 0) with 0 in HR. change (2 ^ Z.of_nat 12) with 4096 in HR.
  exists (0x50000 + Z.of_nat b.1). split; unfold PAGE_BEGIN, PAGE_START, PAGE_END in *; [|lia].
  unfold page_region, region. apply (f_equal pa2kva). unfold PAGE_BEGIN. lia.
Qed.

Lemma heap_take h L : heap_pages h L ->
  kalloc h PAGE_SIZE = Panic \/
  exists p h', kalloc h PAGE_SIZE = Ok (p, h') /\ p ∉ L /\ good_page p /\ heap_pages h' ({[p]} ∪ L).
Proof.
  intros (bsS & bsP & Hinv & HL).
  destruct (kalloc_cases h bsS bsP PAGE_SIZE Hinv) as [E|[(b & h' & _ & _ & Hsz & _)|(b & h' & E & Hi & _ & Hf)]];
    [unfold PAGE_SIZE; lia|by left|change (CeilPower2 PAGE_SIZE) with 4096 in Hsz; lia|right].
  destruct Hf as (Hlen & _ & Hd & _). unfold PAGE_SIZE in Hlen.
  exists (page_region b).1, h'. split; [exact E|]. split_and!.
  - intros Hin. destruct (HL _ Hin) as (b' & Hb' & Ep). rewrite Forall_forall in Hd.
    assert (Hx : rdisj ((page_region b).1, (page_region b).2) (page_region b')).
    { apply Hd. unfold live. apply elem_of_app. right. by apply list_elem_of_fmap_2. }
    unfold rdisj in Hx. cbn [fst snd] in Hx. destruct (heap_inv_in_pool _ _ _ Hinv) as (_ & HP & _).
    rewrite Forall_forall in HP. specialize (HP b' Hb'). rewrite (page_region_eq b' HP) in *. cbn [fst snd] in *.
    apply in_pool_Z in HP. lia.
  - by apply (page_block_good h' bsS (b :: bsP)); [|left].
  - exists bsS, (b :: bsP). split; [exact Hi|]. intros p [->%elem_of_singleton|Hp]%elem_of_union; [exists b; split; [by left|done]|].
    destruct (HL p Hp) as (b' & Hb' & ->). exists b'. split; [by right|done].
Qed.

(** kfree does nothing, so a page given back is simply no longer counted. *)
Lemma heap_give h L p : heap_pages h L -> p ∈ L -> exists h', kfree h p = Ok h' /\ heap_pages h' (L ∖ {[p]}).
Proof.
  intros (bsS & bsP & Hinv & HL) Hp. destruct (HL p Hp) as (b & Hb & ->). exists h. split.
  - destruct (heap_inv_in_pool _ _ _ Hinv) as (_ & HP & HR). rewrite Forall_forall in HP, HR. by apply kfree_page_ok; auto.
  - exists bsS, bsP. split; [exact Hinv|]. intros q Hq. apply HL. set_solver.
Qed.

Lemma heap_pages_good h L p : heap_pages h L -> p ∈ L -> good_page p.
Proof. intros (bsS & bsP & Hinv & HL) Hp. destruct (HL p Hp) as (b & Hb & ->). by eapply page_block_good. Qed.

#[export] Instance heap_page_source : page_source heap := {|
  take_page h := kalloc h PAGE_SIZE;
  give_page := kfree;
  pages_out := heap_pages;
  take_page_ok := heap_take;
  give_page_ok := heap_give;
  pages_out_good := heap_pages_good
|}.
