(* ===== verification/PageProps.v ===== *)
(** Lemmas on Page.v: the layout of page table entries, the tree of tables that
    belongs to every process, and what lookup and a store do to it. *)

From Stdlib Require Import ZArith Lia List.
From stdpp Require Import base numbers list gmap fin_maps.
From S2P Require Import Prelude Bits KAlloc Kernel Sched Process Page.

Local Open Scope Z_scope.

(** * Bit fields *)

Lemma bit_range b : 0 <= bit b < 2.
Proof. destruct b; cbn; lia. Qed.

Lemma bit_testbit w k : 0 <= k -> bit (Z.testbit w k) = (w / 2 ^ k) mod 2.
Proof. intros Hk. rewrite <- Z.testbit_spec' by done. by destruct (Z.testbit w k). Qed.

Lemma field_mid L x R f n : 0 <= f -> 0 <= n -> 0 <= L < 2 ^ f -> 0 <= x < 2 ^ n -> field (L + (x + R * 2 ^ n) * 2 ^ f) f n = x.
Proof.
  intros Hf Hn HL Hx. unfold field. rewrite Z.div_add by lia. rewrite Z.div_small by lia. cbn [Z.add].
  rewrite Z.add_0_l, Z.mod_add by lia. by apply Z.mod_small.
Qed.

Lemma testbit_mid L b R f : 0 <= f -> 0 <= L < 2 ^ f -> Z.testbit (L + (bit b + R * 2) * 2 ^ f) f = b.
Proof.
  intros Hf HL. pose proof (bit_testbit (L + (bit b + R * 2) * 2 ^ f) f Hf) as E.
  pose proof (bit_range b). pose proof (field_mid L (bit b) R f 1 Hf ltac:(lia) HL ltac:(lia)) as E2.
  unfold field in E2. change (2 ^ 1) with 2 in E2. rewrite E2 in E.
  destruct (Z.testbit _ f), b; done || discriminate.
Qed.

Lemma field_step w a n : 0 <= a -> 0 <= n -> w / 2 ^ a = field w a n + 2 ^ n * (w / 2 ^ (a + n)).
Proof.
  intros Ha Hn. unfold field. rewrite Z.pow_add_r by lia. rewrite <- Z.div_div by lia.
  pose proof (Z.div_mod (w / 2 ^ a) (2 ^ n) ltac:(lia)). lia.
Qed.

(** Bit [i] of a field. *)
Lemma field_testbit w f n i : 0 <= f -> 0 <= i < n -> Z.testbit (field w f n) i = Z.testbit w (f + i).
Proof.
  intros Hf Hi. unfold field. rewrite Z.mod_pow2_bits_low by lia. rewrite <- Z.shiftr_div_pow2 by lia.
  rewrite Z.shiftr_spec by lia. f_equal. lia.
Qed.

(** The values a PageEntry can have. *)
Record wf_pte (e : PageEntry) : Prop := {
  wf_XWR : 0 <= XWR e < 2 ^ 3;
  wf_OSflag : 0 <= OSflag e < 2 ^ 2;
  wf_ppn : 0 <= ppn e < 2 ^ 44;
  wf_Reseverd1 : 0 <= Reseverd1 e < 2 ^ 10
}.

Lemma decode_encode e : wf_pte e -> decode (encode e) = e.
Proof.
  intros [Hx Ho Hp Hr]. destruct e as [v x u g a d o p r]. cbn [XWR OSflag ppn Reseverd1] in *.
  pose proof (bit_range v). pose proof (bit_range u). pose proof (bit_range g). pose proof (bit_range a). pose proof (bit_range d).
  unfold decode. set (w := encode _). unfold encode in w. cbn [V XWR U G A D OSflag ppn Reseverd1] in w.
  set (r9 := r). set (r8 := p + r9 * 2 ^ 44). set (r7 := o + r8 * 2 ^ 2). set (r6 := bit d + r7 * 2). set (r5 := bit a + r6 * 2).
  set (r4 := bit g + r5 * 2). set (r3 := bit u + r4 * 2). set (r2 := x + r3 * 2 ^ 3).
  f_equal.
  - replace w with (0 + (bit v + r2 * 2) * 2 ^ 0) by (unfold w, r2, r3, r4, r5, r6, r7, r8, r9; lia). apply testbit_mid; lia.
  - replace w with (bit v + (x + r3 * 2 ^ 3) * 2 ^ 1) by (unfold w, r3, r4, r5, r6, r7, r8, r9; lia). apply field_mid; lia.
  - replace w with ((bit v + x * 2) + (bit u + r4 * 2) * 2 ^ 4) by (unfold w, r4, r5, r6, r7, r8, r9; lia). apply testbit_mid; lia.
  - replace w with ((bit v + x * 2 + bit u * 2 ^ 4) + (bit g + r5 * 2) * 2 ^ 5) by (unfold w, r5, r6, r7, r8, r9; lia). apply testbit_mid; lia.
  - replace w with ((bit v + x * 2 + bit u * 2 ^ 4 + bit g * 2 ^ 5) + (bit a + r6 * 2) * 2 ^ 6) by (unfold w, r6, r7, r8, r9; lia). apply testbit_mid; lia.
  - replace w with ((bit v + x * 2 + bit u * 2 ^ 4 + bit g * 2 ^ 5 + bit a * 2 ^ 6) + (bit d + r7 * 2) * 2 ^ 7) by (unfold w, r7, r8, r9; lia). apply testbit_mid; lia.
  - replace w with ((bit v + x * 2 + bit u * 2 ^ 4 + bit g * 2 ^ 5 + bit a * 2 ^ 6 + bit d * 2 ^ 7) + (o + r8 * 2 ^ 2) * 2 ^ 8) by (unfold w, r8, r9; lia). apply field_mid; lia.
  - replace w with ((bit v + x * 2 + bit u * 2 ^ 4 + bit g * 2 ^ 5 + bit a * 2 ^ 6 + bit d * 2 ^ 7 + o * 2 ^ 8) + (p + r9 * 2 ^ 44) * 2 ^ 10) by (unfold w, r9; lia). apply field_mid; lia.
  - replace w with ((bit v + x * 2 + bit u * 2 ^ 4 + bit g * 2 ^ 5 + bit a * 2 ^ 6 + bit d * 2 ^ 7 + o * 2 ^ 8 + p * 2 ^ 10) + (r + 0 * 2 ^ 10) * 2 ^ 54) by (unfold w; lia). apply field_mid; lia.
Qed.

Lemma encode_decode w : 0 <= w < 2 ^ 64 -> encode (decode w) = w.
Proof.
  intros Hw. unfold encode, decode. cbn [V XWR U G A D OSflag ppn Reseverd1]. rewrite !bit_testbit by lia.
  pose proof (field_step w 0 1 ltac:(lia) ltac:(lia)). pose proof (field_step w 1 3 ltac:(lia) ltac:(lia)).
  pose proof (field_step w 4 1 ltac:(lia) ltac:(lia)). pose proof (field_step w 5 1 ltac:(lia) ltac:(lia)).
  pose proof (field_step w 6 1 ltac:(lia) ltac:(lia)). pose proof (field_step w 7 1 ltac:(lia) ltac:(lia)).
  pose proof (field_step w 8 2 ltac:(lia) ltac:(lia)). pose proof (field_step w 10 44 ltac:(lia) ltac:(lia)).
  pose proof (field_step w 54 10 ltac:(lia) ltac:(lia)). pose proof (Z.div_small w (2 ^ 64) Hw). pose proof (Z.div_1_r w).
  unfold field in *. change (2 ^ 1) with 2 in *. change (2 ^ 0) with 1 in *.
  change (0 + 1) with 1 in *. change (1 + 3) with 4 in *. change (4 + 1) with 5 in *. change (5 + 1) with 6 in *. change (6 + 1) with 7 in *.
  change (7 + 1) with 8 in *. change (8 + 2) with 10 in *. change (10 + 44) with 54 in *. change (54 + 10) with 64 in *.
  change (2 ^ 1) with 2 in *.
  generalize dependent ((w / 1) mod 2). generalize dependent ((w / 2) mod 2 ^ 3). generalize dependent ((w / 2 ^ 4) mod 2).
  generalize dependent ((w / 2 ^ 5) mod 2). generalize dependent ((w / 2 ^ 6) mod 2). generalize dependent ((w / 2 ^ 7) mod 2).
  generalize dependent ((w / 2 ^ 8) mod 2 ^ 2). generalize dependent ((w / 2 ^ 10) mod 2 ^ 44). generalize dependent ((w / 2 ^ 54) mod 2 ^ 10).
  generalize dependent (w / 2). generalize dependent (w / 2 ^ 4). generalize dependent (w / 2 ^ 5). generalize dependent (w / 2 ^ 6).
  generalize dependent (w / 2 ^ 7). generalize dependent (w / 2 ^ 8). generalize dependent (w / 2 ^ 10). generalize dependent (w / 2 ^ 54).
  generalize dependent (w / 2 ^ 64). generalize dependent (w / 1). clear. intros. lia.
Qed.

Lemma wf_decode w : wf_pte (decode w).
Proof. split; cbn [decode XWR OSflag ppn Reseverd1]; apply Z.mod_pos_bound; lia. Qed.

(** The fields of the word, for an entry that is laid out in it. *)
Lemma encode_fields e w : wf_pte e -> w = encode e ->
  Z.testbit w 0 = V e /\ Z.testbit w 1 = Z.testbit (XWR e) 0 /\ Z.testbit w 2 = Z.testbit (XWR e) 1 /\ Z.testbit w 3 = Z.testbit (XWR e) 2 /\
  Z.testbit w 4 = U e /\ Z.testbit w 6 = A e /\ field w 10 44 = ppn e.
Proof.
  intros Hwf ->. pose proof (decode_encode e Hwf) as E. set (w := encode e) in *.
  assert (Ex : field w 1 3 = XWR e) by (by rewrite <- E at 1).
  rewrite <- Ex, !field_testbit by lia. rewrite <- E. cbn [decode V U A ppn]. done.
Qed.

Lemma encode_range e : wf_pte e -> 0 <= encode e < 2 ^ 64.
Proof.
  intros [Hx Ho Hp Hr]. unfold encode.
  pose proof (bit_range (V e)). pose proof (bit_range (U e)). pose proof (bit_range (G e)). pose proof (bit_range (A e)).
  pose proof (bit_range (D e)). lia.
Qed.

(** * Addresses of pages *)

Lemma get_vpn_lt va l : (get_vpn va l < 512)%nat.
Proof.
  unfold get_vpn. change 0x1ff with (Z.ones 9). rewrite Z.land_ones by lia.
  pose proof (Z.mod_pos_bound (Z.shiftr va (12 + 9 * Z.of_nat l)) (2 ^ 9)). lia.
Qed.

Lemma get_vpn_div va l : Z.of_nat (get_vpn va l) = (va / 2 ^ (12 + 9 * Z.of_nat l)) mod 2 ^ 9.
Proof.
  unfold get_vpn. change 0x1ff with (Z.ones 9). rewrite Z.land_ones, Z.shiftr_div_pow2 by lia.
  apply Z2Nat.id. apply Z.mod_pos_bound. lia.
Qed.

(** The three indices of an address below 2^39 determine its page. *)
Lemma vpn_page va va' : 0 <= va < 2 ^ 39 -> 0 <= va' < 2 ^ 39 ->
  get_vpn va 2 = get_vpn va' 2 -> get_vpn va 1 = get_vpn va' 1 -> get_vpn va 0 = get_vpn va' 0 -> va / 4096 = va' / 4096.
Proof.
  intros Hva Hva' E2 E1 E0. apply (f_equal Z.of_nat) in E2, E1, E0. rewrite !get_vpn_div in E2, E1, E0.
  assert (S : forall w, 0 <= w < 2 ^ 39 -> w / 4096 = (w / 2 ^ 12) mod 2 ^ 9 + 2 ^ 9 * ((w / 2 ^ 21) mod 2 ^ 9 + 2 ^ 9 * ((w / 2 ^ 30) mod 2 ^ 9))).
  { intros w Hw. pose proof (field_step w 12 9 ltac:(lia) ltac:(lia)) as H1. pose proof (field_step w 21 9 ltac:(lia) ltac:(lia)) as H2.
    pose proof (field_step w 30 9 ltac:(lia) ltac:(lia)) as H3. pose proof (Z.div_small w (2 ^ 39) Hw) as H4. unfold field in *.
    change (12 + 9) with 21 in *. change (21 + 9) with 30 in *. change (30 + 9) with 39 in *. change 4096 with (2 ^ 12). lia. }
  rewrite (S va Hva), (S va' Hva').
  change (12 + 9 * Z.of_nat 0) with 12 in *. change (12 + 9 * Z.of_nat 1) with 21 in *. change (12 + 9 * Z.of_nat 2) with 30 in *.
  congruence.
Qed.

Lemma user_vpn va : 0 <= va < 2 ^ 38 -> (get_vpn va 2 < 256)%nat.
Proof.
  intros Hva. pose proof (get_vpn_div va 2) as E. change (12 + 9 * Z.of_nat 2) with 30 in E.
  pose proof (Z.div_lt_upper_bound va (2 ^ 30) 256 ltac:(lia) ltac:(lia)). pose proof (Z.div_pos va (2 ^ 30)).
  rewrite Z.mod_small in E by lia. lia.
Qed.

(** The page a good page's physical number leads back to. *)
Lemma good_page_kva k p e : p = pa2kva (k * 4096) -> PAGE_START <= k * 4096 < PAGE_END ->
  ppn e = Z.shiftr (kva2pa p) 12 mod 2 ^ 44 -> ppn e = k /\ to_kva e = p.
Proof.
  unfold PAGE_START, PAGE_END. intros -> Hk E. rewrite kva2pa_pa2kva in E by lia. rewrite Z.shiftr_div_pow2 in E by lia.
  change (2 ^ 12) with 4096 in E. rewrite Z.div_mul, Z.mod_small in E by lia. split; [done|].
  unfold to_kva, to_pa. rewrite E, Z.shiftl_mul_pow2 by lia. done.
Qed.

Lemma dir_to_kva p e : good_page p -> to_kva (set_as_dir (kva2pa p) e) = p.
Proof. intros (k & E & Hk). by eapply (good_page_kva k p (set_as_dir (kva2pa p) e)). Qed.
Lemma leaf_to_kva p e f : good_page p -> to_kva (with_OSflag f (set_as_leaf (kva2pa p) e)) = p.
Proof. intros (k & E & Hk). by eapply (good_page_kva k p (with_OSflag f (set_as_leaf (kva2pa p) e))). Qed.

Lemma to_kva_pa e : wf_pte e -> kva2pa (to_kva e) = ppn e * 2 ^ 12 /\ pa2kva (ppn e * 2 ^ 12) = to_kva e.
Proof.
  intros [_ _ Hp _]. unfold to_kva, to_pa. rewrite Z.shiftl_mul_pow2 by lia. split; [|done].
  apply kva2pa_pa2kva. lia.
Qed.

(** * Reading and storing entries *)

Section Entries.
Implicit Types (T : tables).

(** *pte *)
Definition entry T (pte : Z * nat) : option PageEntry := T !! pte.1 ≫= (.!! pte.2).

Lemma get_pte_entry T pte e : entry T pte = Some e -> get_pte T pte = Ok e.
Proof. unfold get_pte, entry. by intros ->. Qed.

Lemma get_pte_Ok T pte e : get_pte T pte = Ok e -> entry T pte = Some e.
Proof. unfold get_pte, entry. apply or_fault_Ok. Qed.

Lemma set_pte_spec T pte e e0 : entry T pte = Some e0 ->
  exists T', set_pte T pte e = Ok T' /\ entry T' pte = Some e /\ (forall x, x <> pte -> entry T' x = entry T x) /\
    (forall q, length <$> T' !! q = length <$> T !! q).
Proof.
  unfold entry, set_pte. destruct pte as [q i]. cbn [fst snd]. destruct (T !! q) as [tb|] eqn:E; [|done]. cbn [mbind option_bind or_fault obind].
  intros Hi. rewrite Hi. cbn [or_fault obind]. eexists. split; [reflexivity|]. split_and!.
  - rewrite lookup_insert_eq. cbn. apply list_lookup_insert_eq. by eapply lookup_lt_Some.
  - intros [q' i'] Hne. cbn [fst snd]. destruct (decide (q' = q)) as [->|Hq]; [|by rewrite lookup_insert_ne].
    rewrite lookup_insert_eq, E. cbn. apply list_lookup_insert_ne. by intros ->.
  - intros q'. destruct (decide (q' = q)) as [->|Hq]; [|by rewrite lookup_insert_ne].
    rewrite lookup_insert_eq, E. cbn. by rewrite length_insert.
Qed.

Lemma entry_bzero T q q' i : entry (<[q := zero_table]> T) (q', i) =
  if decide (q' = q) then (if decide (i < 512)%nat then Some (decode 0) else None) else entry T (q', i).
Proof.
  unfold entry. cbn [fst snd]. destruct (decide (q' = q)) as [->|Hq]; [|by rewrite lookup_insert_ne].
  rewrite lookup_insert_eq. cbn [mbind option_bind]. unfold zero_table. destruct (decide (i < 512)%nat) as [Hi|Hi].
  - by apply lookup_replicate_2.
  - apply lookup_replicate_None. lia.
Qed.
End Entries.

(** * The tree of a process *)

Definition kernel_root : Z := pa2kva PGDIR_PA.
Definition io_table : Z := pa2kva (PGDIR_PA + PAGE_SIZE).
(** What setup_vm leaves in the kernel's own root. *)
Definition kernel_entry : PageEntry := new_entry RWX false true true true (Z.shiftr boot_base 12).
Definition io_entry : PageEntry := new_entry Noleaf false true false false (Z.shiftr (PGDIR_PA + PAGE_SIZE) 12).
Definition boot_table : list PageEntry := <[384%nat := io_entry]> (<[1%nat := kernel_entry]> (<[257%nat := kernel_entry]> zero_table)).

Definition valid_dir (e : PageEntry) : Prop := V e = true /\ XWR e = Noleaf /\ wf_pte e /\ U e = false.

(** [pos] says of every table which process it belongs to and which indices lead
    to it from the root; so no table is reached in two ways. *)
Record tree (T : tables) (ds : gmap Z PageDir) (pos : gmap Z (Z * list nat)) : Prop := {
  tr_root d D : ds !! d = Some D -> pos !! root D = Some (d, []);
  tr_page q d l : pos !! q = Some (d, l) -> good_page q /\ (length l <= 2)%nat /\ length <$> T !! q = Some 512%nat;
  tr_dir q d l i e : pos !! q = Some (d, l) -> (length l < 2)%nat -> (l = [] -> (i < 256)%nat) -> entry T (q, i) = Some e ->
    e = decode 0 \/ valid_dir e /\ pos !! to_kva e = Some (d, l ++ [i]);
  tr_leaf q d l i e : pos !! q = Some (d, l) -> length l = 2%nat -> entry T (q, i) = Some e ->
    wf_pte e /\ (V e = true -> XWR e = RWX /\ U e = true /\ A e = true);
  tr_kernel d D i : ds !! d = Some D -> (256 <= i)%nat -> entry T (root D, i) = entry T (kernel_root, i);
  tr_tables q : is_Some (T !! q) -> is_Some (pos !! q) \/ q = kernel_root \/ q = io_table;
  tr_boot : T !! kernel_root = Some boot_table;
  tr_io i e : entry T (io_table, i) = Some e -> wf_pte e /\ (V e = true -> XWR e = RWX /\ U e = false)
}.

(** The last-level entry for [va], and its content when it is valid. *)
Definition slot (T : tables) (root va : Z) : option (Z * nat) :=
  e2 ← entry T (root, get_vpn va 2);
  if V e2 then
    e1 ← entry T (to_kva e2, get_vpn va 1);
    if V e1 then Some (to_kva e1, get_vpn va 0) else None
  else None.
Definition leaf (T : tables) (root va : Z) : option PageEntry :=
  pte ← slot T root va; e ← entry T pte; if V e then Some e else None.

Lemma tree_entry T ds pos q d l i : tree T ds pos -> pos !! q = Some (d, l) -> (i < 512)%nat -> exists e, entry T (q, i) = Some e.
Proof.
  intros Ht Hq Hi. destruct (tr_page _ _ _ Ht _ _ _ Hq) as (_ & _ & Hlen). unfold entry. cbn [fst snd].
  destruct (T !! q) as [tb|]; [|done]. injection Hlen as Hlen. apply lookup_lt_is_Some_2. lia.
Qed.

Section Walk.
Context (T : tables) (ds : gmap Z PageDir) (pos : gmap Z (Z * list nat)).
Context (Htree : tree T ds pos).

(** One level down from a table of the tree. *)
Lemma walk_dir q d l i :
  pos !! q = Some (d, l) -> (length l < 2)%nat -> (l = [] -> (i < 256)%nat) -> (i < 512)%nat ->
  exists e, entry T (q, i) = Some e /\ (e = decode 0 \/ valid_dir e /\ pos !! to_kva e = Some (d, l ++ [i])).
Proof.
  intros Hq Hl Hi Hi'. destruct (tree_entry _ _ _ q d l i Htree Hq Hi') as [e He]. exists e. split; [done|]. by eapply tr_dir.
Qed.

Lemma slot_spec d D va : ds !! d = Some D -> 0 <= va < 2 ^ 38 ->
  slot T (root D) va = None \/
  exists q, slot T (root D) va = Some (q, get_vpn va 0) /\ pos !! q = Some (d, [get_vpn va 2; get_vpn va 1]).
Proof.
  intros HD Hva. pose proof (tr_root _ _ _ Htree d D HD) as Hr. unfold slot.
  destruct (walk_dir (root D) d [] (get_vpn va 2)) as (e2 & E2 & H2); [done|cbn; lia|intros _; by apply user_vpn|apply get_vpn_lt|].
  rewrite E2. cbn. destruct H2 as [->|[[Hv _] H2]]; [by left|]. rewrite Hv.
  destruct (walk_dir (to_kva e2) d [get_vpn va 2] (get_vpn va 1)) as (e1 & E1 & H1); [done|cbn; lia|done|apply get_vpn_lt|].
  rewrite E1. cbn. destruct H1 as [->|[[Hv1 _] H1]]; [by left|]. rewrite Hv1. right. by exists (to_kva e1).
Qed.

Lemma slot_entry d D va pte : ds !! d = Some D -> 0 <= va < 2 ^ 38 -> slot T (root D) va = Some pte ->
  exists e, entry T pte = Some e /\ wf_pte e /\ (V e = true -> XWR e = RWX /\ U e = true /\ A e = true).
Proof.
  intros HD Hva Hs. destruct (slot_spec d D va HD Hva) as [E|(q & E & Hq)]; [congruence|]. rewrite Hs in E. injection E as ->.
  destruct (tree_entry _ _ _ q _ _ (get_vpn va 0) Htree Hq (get_vpn_lt _ _)) as [e He]. exists e. split; [done|].
  by eapply (tr_leaf _ _ _ Htree _ _ _ _ _ Hq).
Qed.

(** Two addresses with the same slot are of the same process and page. *)
Lemma slot_inj d D va d' D' va' pte :
  ds !! d = Some D -> 0 <= va < 2 ^ 38 -> ds !! d' = Some D' -> 0 <= va' < 2 ^ 38 ->
  slot T (root D) va = Some pte -> slot T (root D') va' = Some pte -> d = d' /\ va / 4096 = va' / 4096.
Proof.
  intros HD Hva HD' Hva' E E'. destruct (slot_spec d D va HD Hva) as [?|(q & F & Hq)]; [congruence|].
  destruct (slot_spec d' D' va' HD' Hva') as [?|(q' & F' & Hq')]; [congruence|].
  rewrite E in F. rewrite E' in F'. injection F as ->. injection F' as Eq E0. rewrite <- Eq, Hq in Hq'. injection Hq' as Ed E2 E1.
  split; [done|]. apply vpn_page; lia || done.
Qed.

(** ** The walk of the hardware *)

Lemma sv39_step lvl pa va e : entry T (pa2kva pa, get_vpn va lvl) = Some e -> wf_pte e ->
  sv39 T lvl pa va =
    if negb (V e) then None
    else if negb (Z.testbit (XWR e) 0) && Z.testbit (XWR e) 1 then None
    else if Z.testbit (XWR e) 0 || Z.testbit (XWR e) 2 then
      if negb (A e) then None
      else if negb ((ppn e * 2 ^ 12) mod 2 ^ (12 + 9 * Z.of_nat lvl) =? 0) then None
      else Some (ppn e * 2 ^ 12 + va mod 2 ^ (12 + 9 * Z.of_nat lvl), encode e)
    else match lvl with O => None | S lvl => sv39 T lvl (ppn e * 2 ^ 12) va end.
Proof.
  unfold entry. cbn [fst snd]. intros He Hwf. destruct (encode_fields e _ Hwf eq_refl) as (F0 & F1 & F2 & F3 & _ & F6 & Fp).
  destruct lvl; cbn [sv39]; rewrite He; cbn [fmap option_fmap option_map mbind option_bind]; by rewrite F0, F1, F2, F3, F6, Fp.
Qed.

Lemma sv39_dir lvl pa va e : entry T (pa2kva pa, get_vpn va (S lvl)) = Some e -> valid_dir e ->
  sv39 T (S lvl) pa va = sv39 T lvl (ppn e * 2 ^ 12) va.
Proof. intros He (Hv & Hx & Hwf & _). by rewrite (sv39_step (S lvl) pa va e He Hwf), Hv, Hx. Qed.

Lemma sv39_invalid lvl pa va e : entry T (pa2kva pa, get_vpn va lvl) = Some e -> wf_pte e -> V e = false -> sv39 T lvl pa va = None.
Proof. intros He Hwf Hv. by rewrite (sv39_step lvl pa va e He Hwf), Hv. Qed.

Lemma sv39_leaf pa va e : entry T (pa2kva pa, get_vpn va 0) = Some e -> wf_pte e -> V e = true -> XWR e = RWX -> A e = true ->
  sv39 T 0 pa va = Some (ppn e * 2 ^ 12 + va mod 4096, encode e).
Proof.
  intros He Hwf Hv Hx Ha. rewrite (sv39_step 0 pa va e He Hwf), Hv, Hx, Ha. cbn [negb].
  change (12 + 9 * Z.of_nat 0) with 12. rewrite Z.mod_mul by lia. done.
Qed.

Lemma good_page_pa q : good_page q -> pa2kva (kva2pa q) = q.
Proof. unfold PAGE_START, PAGE_END. intros (k & -> & Hk). rewrite kva2pa_pa2kva by (unfold PAGE_START, PAGE_END in Hk; lia). done. Qed.

Lemma translate_user d D va : ds !! d = Some D -> 0 <= va < 2 ^ 38 ->
  translate T (root D) va = (fun e => (ppn e * 2 ^ 12 + va mod 4096, encode e)) <$> leaf T (root D) va.
Proof.
  intros HD Hva. pose proof (tr_root _ _ _ Htree d D HD) as Hr. unfold translate, canonical.
  rewrite (proj2 (Z.ltb_lt va (2 ^ 38))) by lia. cbn [orb]. unfold leaf, slot.
  destruct (walk_dir (root D) d [] (get_vpn va 2)) as (e2 & E2 & H2); [done|cbn; lia|intros _; by apply user_vpn|apply get_vpn_lt|].
  assert (Eq : pa2kva (kva2pa (root D)) = root D) by (apply good_page_pa, (tr_page _ _ _ Htree _ _ _ Hr)).
  rewrite E2. cbn [mbind option_bind]. destruct H2 as [->|[Hd2 H2]].
  { rewrite (sv39_invalid 2 _ va (decode 0)); [done|by rewrite Eq|apply wf_decode|done]. }
  rewrite (sv39_dir 1 _ va e2); [|by rewrite Eq|done]. destruct Hd2 as (-> & _ & Hwf2 & _).
  destruct (walk_dir (to_kva e2) d [get_vpn va 2] (get_vpn va 1)) as (e1 & E1 & H1); [done|cbn; lia|done|apply get_vpn_lt|].
  rewrite E1. cbn [mbind option_bind]. destruct (to_kva_pa e2 Hwf2) as [_ Eq2]. destruct H1 as [->|[Hd1 H1]].
  { rewrite (sv39_invalid 1 _ va (decode 0)); [done|by rewrite Eq2|apply wf_decode|done]. }
  rewrite (sv39_dir 0 _ va e1); [|by rewrite Eq2|done]. destruct Hd1 as (-> & _ & Hwf1 & _). destruct (to_kva_pa e1 Hwf1) as [_ Eq1].
  destruct (tree_entry _ _ _ _ _ _ (get_vpn va 0) Htree H1 (get_vpn_lt _ _)) as [e0 E0]. cbn [mbind option_bind]. rewrite E0. cbn [mbind option_bind].
  destruct (tr_leaf _ _ _ Htree _ _ _ _ _ H1 eq_refl E0) as [Hwf0 Hl]. destruct (V e0) eqn:Hv.
  - destruct (Hl eq_refl) as (Hx & _ & Ha). rewrite (sv39_leaf _ va e0); [done|by rewrite Eq1|done|done|done|done].
  - rewrite (sv39_invalid 0 _ va e0); [done|by rewrite Eq1|done|done].
Qed.

Lemma user_pa_leaf d D va : ds !! d = Some D -> 0 <= va < 2 ^ 38 ->
  user_pa T (root D) va = (fun e => ppn e * 2 ^ 12 + va mod 4096) <$> leaf T (root D) va.
Proof.
  intros HD Hva. unfold user_pa. rewrite (translate_user d D va HD Hva). destruct (leaf T (root D) va) as [e|] eqn:El; [|done].
  cbn [fmap option_fmap option_map mbind option_bind]. unfold leaf in El.
  destruct (slot T (root D) va) as [pte|] eqn:Es; [|done]. cbn [mbind option_bind] in El.
  destruct (slot_entry d D va pte HD Hva Es) as (e' & Ee & Hwf & Hl). rewrite Ee in El. cbn in El.
  destruct (V e') eqn:Hv; [|done]. injection El as ->. destruct (encode_fields e _ Hwf eq_refl) as (_ & _ & _ & _ & F4 & _).
  destruct (Hl eq_refl) as (_ & Hu & _). by rewrite F4, Hu.
Qed.

(** Nothing of the kernel's half is accessible from user mode. *)
Lemma kernel_half_root d D i : ds !! d = Some D -> (256 <= i < 512)%nat ->
  entry T (root D, i) = Some (if decide (i = 257)%nat then kernel_entry else if decide (i = 384)%nat then io_entry else decode 0).
Proof.
  intros HD Hi. rewrite (tr_kernel _ _ _ Htree d D i HD) by lia. unfold entry. cbn [fst snd]. rewrite (tr_boot _ _ _ Htree).
  cbn [mbind option_bind]. unfold boot_table.
  destruct (decide (i = 384%nat)) as [->|H1]; [done|]. rewrite list_lookup_insert_ne by done.
  rewrite list_lookup_insert_ne by lia. destruct (decide (i = 257%nat)) as [->|H2]; [done|]. rewrite list_lookup_insert_ne by done.
  unfold zero_table. apply lookup_replicate_2. lia.
Qed.

Lemma user_pa_kernel d D va : ds !! d = Some D -> 2 ^ 64 - 2 ^ 38 <= va < 2 ^ 64 -> user_pa T (root D) va = None.
Proof.
  intros HD Hva. assert (Hi : (256 <= get_vpn va 2 < 512)%nat).
  { split; [|apply get_vpn_lt]. pose proof (get_vpn_div va 2) as E. change (12 + 9 * Z.of_nat 2) with 30 in E.
    assert (Hq : 17179868928 <= va / 2 ^ 30 < 17179869184) by (split; [apply Z.div_le_lower_bound|apply Z.div_lt_upper_bound]; lia).
    pose proof (Z.mod_eq (va / 2 ^ 30) (2 ^ 9) ltac:(lia)).
    assert ((va / 2 ^ 30) / 2 ^ 9 = 33554431) by (symmetry; apply Z.div_unique with ((va / 2 ^ 30) - 33554431 * 2 ^ 9); lia). lia. }
  pose proof (kernel_half_root d D _ HD Hi) as E. pose proof (tr_root _ _ _ Htree d D HD) as Hr.
  assert (Eq : pa2kva (kva2pa (root D)) = root D) by (apply good_page_pa, (tr_page _ _ _ Htree _ _ _ Hr)).
  unfold user_pa, translate. destruct (canonical va); [|done]. rewrite <- Eq in E. destruct (decide _) as [Ek|_].
  - rewrite (sv39_step 2 _ va kernel_entry E) by (split; by vm_compute).
    change (V kernel_entry) with true. change (XWR kernel_entry) with 7. change (A kernel_entry) with true.
    change (Z.testbit 7 0) with true. change (Z.testbit 7 1) with true. cbn [negb andb orb]. by destruct (negb _).
  - destruct (decide _) as [Ek|_].
    + rewrite (sv39_dir 1 _ va io_entry E) by (split_and!; [done|done|split; by vm_compute|done]).
      destruct (entry T (io_table, get_vpn va 1)) as [e|] eqn:Ei.
      * destruct (tr_io _ _ _ Htree _ _ Ei) as [Hwf Hio]. rewrite (sv39_step 1 (ppn io_entry * 2 ^ 12) va e Ei Hwf).
        destruct (V e) eqn:Hv; [|done]. destruct (Hio eq_refl) as [-> Hu]. change (Z.testbit RWX 0) with true. change (Z.testbit RWX 1) with true. cbn [negb andb orb].
        destruct (encode_fields e _ Hwf eq_refl) as (_ & _ & _ & _ & F4 & _).
        destruct (negb (A e)); [done|]. destruct (negb _); [done|]. cbn [mbind option_bind]. by rewrite F4, Hu.
      * cbn [sv39]. unfold entry in Ei. cbn [fst snd] in Ei. change (pa2kva (ppn io_entry * 2 ^ 12)) with io_table. by rewrite Ei.
    + by rewrite (sv39_invalid 2 _ va (decode 0) E (wf_decode 0) eq_refl).
Qed.
End Walk.
