(* ===== verification/PageOps.v ===== *)
(** What the operations of Page.v do to the trees of all processes. *)

From Stdlib Require Import ZArith Lia List.
From stdpp Require Import base numbers list gmap fin_maps sets.
From S2P Require Import Prelude Bits KAlloc Kernel Sched Process Page PageProps.

Local Open Scope Z_scope.

Lemma kernel_page_not_good : ~ good_page kernel_root /\ ~ good_page io_table.
Proof.
  unfold PAGE_START, PAGE_END. split; intros (k & E & Hk); apply (f_equal kva2pa) in E;
    unfold kernel_root, io_table, PGDIR_PA, KAlloc.PAGE_SIZE, PAGE_START, PAGE_END in *; rewrite !kva2pa_pa2kva in E by lia; lia.
Qed.

(** The entry lookup makes for the new table [p]. *)
Definition new_dir (p : Z) : PageEntry := set_as_dir (kva2pa p) (decode 0).

Lemma new_dir_ok p : good_page p -> valid_dir (new_dir p) /\ to_kva (new_dir p) = p.
Proof.
  intros Hp. split; [|exact (dir_to_kva p (decode 0) Hp)]. split; [reflexivity|]. split; [reflexivity|]. split; [|reflexivity].
  split; cbn [new_dir set_as_dir XWR OSflag ppn Reseverd1]; try (split; [discriminate|reflexivity]).
  apply Z.mod_pos_bound. lia.
Qed.

Section Ops.
Context {H : Type} {PS : page_source H}.
Implicit Types (v : vm H) (pos : gmap Z (Z * list nat)) (L : gset Z).

(** The trees are well formed and made of pages that are in use. *)
Record state_ok v pos L : Prop := {
  so_tree : tree (tabs v) (dirs v) pos;
  so_out : pages_out (vheap v) L;
  so_in q x : pos !! q = Some x -> q ∈ L
}.

Definition vrest v := (krn v, dirs v, shared_pages v, io_base_va v).

(** Tables may have been added; no address is mapped differently. *)
Record grown v pos L v' pos' L' : Prop := {
  gr_ok : state_ok v' pos' L';
  gr_pos : pos ⊆ pos';
  gr_used : L ⊆ L';
  gr_new q x : pos' !! q = Some x -> pos !! q = Some x \/ q ∉ L;
  gr_rest : vrest v' = vrest v;
  gr_leaf d D va : dirs v !! d = Some D -> 0 <= va < 2 ^ 38 -> leaf (tabs v') (root D) va = leaf (tabs v) (root D) va;
  gr_slot d D va x : dirs v !! d = Some D -> 0 <= va < 2 ^ 38 -> slot (tabs v) (root D) va = Some x -> slot (tabs v') (root D) va = Some x;
  gr_kept q x i e : pos !! q = Some x -> entry (tabs v) (q, i) = Some e -> V e = true -> entry (tabs v') (q, i) = Some e;
  gr_level0 q d l i e : pos' !! q = Some (d, l) -> length l = 2%nat -> entry (tabs v') (q, i) = Some e ->
    V e = true -> pos !! q = Some (d, l) /\ entry (tabs v) (q, i) = Some e
}.

Lemma grown_dirs v pos L v' pos' L' : grown v pos L v' pos' L' -> dirs v' = dirs v.
Proof. intros G. pose proof (gr_rest _ _ _ _ _ _ G) as E. by injection E. Qed.

Lemma grown_refl v pos L : state_ok v pos L -> grown v pos L v pos L.
Proof. intros Hok. by split; auto. Qed.

Lemma grown_trans v0 p0 L0 v1 p1 L1 v2 p2 L2 : grown v0 p0 L0 v1 p1 L1 -> grown v1 p1 L1 v2 p2 L2 -> grown v0 p0 L0 v2 p2 L2.
Proof.
  intros G1 G2. pose proof (grown_dirs _ _ _ _ _ _ G1) as Ed. pose proof G1 as [A1 A2 A3 A4 A5 A6 A7 A9 A8].
  destruct G2 as [B1 B2 B3 B4 B5 B6 B7 B9 B8]. rewrite Ed in B6, B7. split.
  - done.
  - by etrans.
  - by etrans.
  - intros q x Hq. destruct (B4 q x Hq) as [Hq1|Hn]; [by apply A4|right; set_solver].
  - congruence.
  - intros d D va HD Hva. rewrite (B6 d D va HD Hva). by eapply A6.
  - intros d D va x HD Hva Hs. eapply B7; [done|done|]. by eapply A7.
  - intros q x i e Hq He Hv. eapply B9; [by eapply lookup_weaken|by eapply A9|done].
  - intros q d l i e Hq Hl He Hv. destruct (B8 q d l i e Hq Hl He Hv) as [Hq1 He1]. by eapply A8.
Qed.

(** ** A new table *)

Section NewTable.
Context (v : vm H) (pos : gmap Z (Z * list nat)) (L : gset Z) (h : H) (p q d : Z) (l : list nat) (i : nat).
Context (Hok : state_ok v pos L) (Hq : pos !! q = Some (d, l)) (Hl : (length l < 2)%nat) (Hi : l = [] -> (i < 256)%nat).
Context (Hent : entry (tabs v) (q, i) = Some (decode 0)).
Context (Hp : p ∉ L) (Hgood : good_page p) (Hh : pages_out h ({[p]} ∪ L)).

Definition pos1 : gmap Z (Z * list nat) := <[p := (d, l ++ [i])]> pos.

Lemma in_pos_ne q' x : pos !! q' = Some x -> q' <> p.
Proof. intros Hx ->. apply Hp. by eapply so_in. Qed.

(** The tables afterwards, entry by entry. *)
Definition added (T' : tables) : Prop :=
  entry T' (q, i) = Some (new_dir p) /\
  (forall i', entry T' (p, i') = if decide (i' < 512)%nat then Some (decode 0) else None) /\
  (forall x, x <> (q, i) -> x.1 <> p -> entry T' x = entry (tabs v) x) /\
  (forall q', length <$> T' !! q' = if decide (q' = p) then Some 512%nat else length <$> tabs v !! q').

Lemma add_table : exists T', set_pte (<[p := zero_table]> (tabs v)) (q, i) (new_dir p) = Ok T' /\ added T'.
Proof.
  assert (Hqp : q <> p) by (by eapply in_pos_ne).
  destruct (set_pte_spec (<[p := zero_table]> (tabs v)) (q, i) (new_dir p) (decode 0)) as (T' & E & He & Ho & Hlen).
  { rewrite entry_bzero, decide_False by done. exact Hent. }
  exists T'. split; [done|]. split_and!; [done| | |].
  - intros i'. rewrite Ho by congruence. rewrite entry_bzero, decide_True by done. done.
  - intros [q' i'] Hx Hx'. cbn in Hx'. rewrite Ho by done. rewrite entry_bzero, decide_False by done. done.
  - intros q'. rewrite Hlen. destruct (decide (q' = p)) as [->|Hne]; [by rewrite lookup_insert_eq|by rewrite lookup_insert_ne].
Qed.

Context (T' : tables) (HT' : added T').

Lemma added_pos q' x i' : pos !! q' = Some x -> (q', i') <> (q, i) -> entry T' (q', i') = entry (tabs v) (q', i').
Proof. intros Hx Hne. apply HT'; [done|]. by eapply in_pos_ne. Qed.

Lemma added_kernel q' i' : ~ good_page q' -> entry T' (q', i') = entry (tabs v) (q', i').
Proof.
  intros Hn. apply HT'; [|cbn; by intros ->]. intros [= -> _]. apply Hn. by apply (tr_page _ _ _ (so_tree _ _ _ Hok) _ _ _ Hq).
Qed.

Lemma added_tree : tree T' (dirs v) pos1.
Proof.
  pose proof (so_tree _ _ _ Hok) as Ht. destruct kernel_page_not_good as [Hnk Hni]. destruct HT' as (Hd & Hz & Ho & Hlen).
  destruct (new_dir_ok p Hgood) as [Hnd Hkva]. split.
  - intros d' D HD. pose proof (tr_root _ _ _ Ht d' D HD) as Hr. unfold pos1. rewrite lookup_insert_ne; [done|]. intros E. by eapply in_pos_ne.
  - intros q' d' l' Hq'. unfold pos1 in Hq'; apply lookup_insert_Some in Hq' as [[<- [= <- <-]]|[Hne Hq']].
    + rewrite Hlen, decide_True by done. split; [done|]. split; [rewrite length_app; cbn; lia|done].
    + rewrite Hlen, decide_False by done. by apply (tr_page _ _ _ Ht q' d' l').
  - intros q' d' l' i' e Hq' Hl' Hi' He. unfold pos1 in Hq'; apply lookup_insert_Some in Hq' as [[<- [= <- <-]]|[Hne Hq']].
    + rewrite Hz in He. destruct (decide _); [|done]. injection He as <-. by left.
    + destruct (decide ((q', i') = (q, i))) as [[= -> ->]|Hxi].
      * rewrite Hd in He. injection He as <-. rewrite Hq in Hq'. injection Hq' as <- <-. right. split; [done|]. rewrite Hkva. apply lookup_insert_eq.
      * rewrite (added_pos _ _ _ Hq' Hxi) in He. destruct (tr_dir _ _ _ Ht _ _ _ _ _ Hq' Hl' Hi' He) as [?|[Hvd Hk]]; [by left|].
        right. split; [done|]. unfold pos1. rewrite lookup_insert_ne; [done|]. intros E. by eapply in_pos_ne.
  - intros q' d' l' i' e Hq' Hl' He. unfold pos1 in Hq'; apply lookup_insert_Some in Hq' as [[<- [= <- <-]]|[Hne Hq']].
    + rewrite Hz in He. destruct (decide _); [|done]. injection He as <-. split; [apply wf_decode|done].
    + rewrite (added_pos _ _ _ Hq') in He by (intros [= -> ->]; rewrite Hq in Hq'; injection Hq' as <- <-; lia). by eapply (tr_leaf _ _ _ Ht).
  - intros d' D i' HD Hi'. pose proof (tr_root _ _ _ Ht d' D HD) as Hr. rewrite (added_kernel kernel_root) by done.
    rewrite (added_pos _ _ _ Hr); [by apply (tr_kernel _ _ _ Ht d')|]. intros [= Eq ->]. rewrite Eq, Hq in Hr. injection Hr as -> ->. specialize (Hi eq_refl). lia.
  - intros q' Hq'. assert (Hx : is_Some (length <$> T' !! q')) by (destruct Hq' as [tb ->]; by eexists).
    rewrite Hlen in Hx. unfold pos1. destruct (decide (q' = p)) as [->|Hne]; [left; rewrite lookup_insert_eq; by eexists|].
    rewrite lookup_insert_ne by done. apply (tr_tables _ _ _ Ht). destruct (tabs v !! q'); [by eexists|by destruct Hx].
  - pose proof (tr_boot _ _ _ Ht) as Hb. assert (Hlk : length <$> T' !! kernel_root = Some 512%nat).
    { rewrite Hlen, decide_False by (by intros <-). rewrite Hb. done. }
    destruct (T' !! kernel_root) as [tb|] eqn:Etb; [|done]. injection Hlk as Hlk. f_equal. apply list_eq. intros j.
    pose proof (added_kernel kernel_root j Hnk) as E. unfold entry in E. cbn [fst snd] in E. by rewrite Etb, Hb in E.
  - intros j e He. rewrite (added_kernel io_table j Hni) in He. by apply (tr_io _ _ _ Ht) in He.
Qed.

(** The walk to an address in the two states. *)
Lemma added_walk d0 D va : dirs v !! d0 = Some D -> 0 <= va < 2 ^ 38 ->
  slot T' (root D) va = slot (tabs v) (root D) va /\ leaf T' (root D) va = leaf (tabs v) (root D) va \/
  slot (tabs v) (root D) va = None /\ leaf T' (root D) va = None.
Proof.
  intros HD Hva. pose proof (so_tree _ _ _ Hok) as Ht. pose proof (tr_root _ _ _ Ht d0 D HD) as Hr.
  destruct HT' as (Hd & Hz & _ & _). destruct (new_dir_ok p Hgood) as [(Hnv & _) Hkva].
  assert (Hzero : forall j, (j < 512)%nat -> entry T' (p, j) = Some (decode 0)) by (intros j Hj; by rewrite Hz, decide_True).
  unfold leaf, slot.
  destruct (walk_dir _ _ _ Ht (root D) d0 [] (get_vpn va 2)) as (e2 & E2 & H2); [done|cbn; lia|intros _; by apply user_vpn|apply get_vpn_lt|].
  rewrite E2. cbn [mbind option_bind]. destruct (decide ((root D, get_vpn va 2) = (q, i))) as [Eq|Hne2].
  { rewrite Eq in E2 |- *. rewrite Hent in E2. injection E2 as <-. right. split; [done|]. rewrite Hd. cbn [mbind option_bind].
    rewrite Hnv, Hkva, Hzero by apply get_vpn_lt. done. }
  rewrite (added_pos _ _ _ Hr Hne2), E2. cbn [mbind option_bind]. destruct H2 as [->|[[Hv _] H2]]; [by left|]. rewrite Hv.
  destruct (walk_dir _ _ _ Ht (to_kva e2) d0 [get_vpn va 2] (get_vpn va 1)) as (e1 & E1 & H1); [done|cbn; lia|done|apply get_vpn_lt|].
  rewrite E1. cbn [mbind option_bind]. destruct (decide ((to_kva e2, get_vpn va 1) = (q, i))) as [Eq|Hne1].
  { rewrite Eq in E1 |- *. rewrite Hent in E1. injection E1 as <-. right. split; [done|]. rewrite Hd. cbn [mbind option_bind].
    rewrite Hnv, Hkva. cbn [mbind option_bind]. rewrite Hzero by apply get_vpn_lt. done. }
  rewrite (added_pos _ _ _ H2 Hne1), E1. cbn [mbind option_bind]. destruct H1 as [->|[[Hv1 _] H1]]; [by left|]. rewrite Hv1.
  left. split; [done|]. cbn [mbind option_bind]. rewrite (added_pos _ _ _ H1); [done|].
  intros [= Eq _]. rewrite Eq, Hq in H1. injection H1 as -> ->. cbn in Hl. lia.
Qed.

Lemma added_grown : grown v pos L (set_tabs (set_vheap v h) T') pos1 ({[p]} ∪ L).
Proof.
  destruct HT' as (Hd & Hz & _ & _). pose proof (so_tree _ _ _ Hok) as Ht. split; try done.
  - split; [exact added_tree|exact Hh|]. intros q' x Hx. unfold pos1 in Hx. apply lookup_insert_Some in Hx as [[<- _]|[_ Hx]]; [set_solver|].
    pose proof (so_in _ _ _ Hok _ _ Hx). set_solver.
  - apply insert_subseteq. destruct (pos !! p) as [x|] eqn:Ex; [|done]. exfalso. by eapply in_pos_ne.
  - set_solver.
  - intros q' x Hx. unfold pos1 in Hx. apply lookup_insert_Some in Hx as [[<- _]|[_ Hx]]; [by right|by left].
  - intros d0 D va HD Hva. cbn [tabs set_tabs]. destruct (added_walk d0 D va HD Hva) as [[_ E]|[Es E]]; [done|].
    rewrite E. unfold leaf. by rewrite Es.
  - intros d0 D va x HD Hva Hs. cbn [tabs set_tabs]. destruct (added_walk d0 D va HD Hva) as [[E _]|[Es _]]; congruence.
  - intros q' x i' e Hq' He Hv. cbn [tabs set_tabs]. rewrite (added_pos _ _ _ Hq'); [done|]. intros [= -> ->].
    rewrite Hent in He. by injection He as <-.
  - intros q' d' l' i' e Hq' Hl' He Hv. cbn [tabs set_tabs] in He. unfold pos1 in Hq'.
    apply lookup_insert_Some in Hq' as [[<- [= <- <-]]|[Hne Hq']].
    + rewrite Hz in He. destruct (decide _); [|done]. by injection He as <-.
    + rewrite (added_pos _ _ _ Hq') in He; [done|]. intros [= -> ->]. rewrite Hq in Hq'. injection Hq' as <- <-. lia.
Qed.
End NewTable.

(** ** descend and lookup *)

(** kalloc of a page *)
Lemma kalloc_page_ok v pos L : state_ok v pos L ->
  kalloc_page v = Panic \/
  exists p h, kalloc_page v = Ok (p, set_vheap v h) /\ p ∉ L /\ good_page p /\ pages_out h ({[p]} ∪ L).
Proof.
  intros Hok. unfold kalloc_page. destruct (take_page_ok (vheap v) L (so_out _ _ _ Hok)) as [->|(p & h & -> & ?)]; [by left|].
  right. by exists p, h.
Qed.

Lemma descend_ok v pos L q d l i :
  state_ok v pos L -> pos !! q = Some (d, l) -> (length l < 2)%nat -> (l = [] -> (i < 256)%nat) -> (i < 512)%nat ->
  descend (q, i) v = Panic /\ (forall e0, entry (tabs v) (q, i) = Some e0 -> V e0 = false) \/
  exists v' pos' L' e, descend (q, i) v = Ok v' /\ grown v pos L v' pos' L' /\ entry (tabs v') (q, i) = Some e /\
    valid_dir e /\ pos' !! to_kva e = Some (d, l ++ [i]) /\
    (forall e0, entry (tabs v) (q, i) = Some e0 -> V e0 = true -> v' = v).
Proof.
  intros Hok Hq Hl Hi Hi'. pose proof (so_tree _ _ _ Hok) as Ht.
  destruct (walk_dir _ _ _ Ht q d l i Hq Hl Hi Hi') as (e & He & He2). unfold descend. rewrite (get_pte_entry _ _ _ He). cbn [obind].
  destruct He2 as [->|[Hvd Hk]].
  - change (negb (V (decode 0))) with true. cbn iota. destruct (kalloc_page_ok v pos L Hok) as [->|(p & h & -> & Hp & Hg & Hh)]; [left|right].
    { split; [done|]. intros e0 He0. rewrite He in He0. by injection He0 as <-. }
    cbn [obind]. unfold bzero_table, store_pte. cbn [tabs set_tabs set_vheap].
    assert (Hqp : q <> p) by (by eapply in_pos_ne).
    assert (Hz : entry (<[p := zero_table]> (tabs v)) (q, i) = Some (decode 0)) by (by rewrite entry_bzero, decide_False).
    rewrite (get_pte_entry _ _ _ Hz). cbn [obind]. destruct (add_table v pos L p q d l i Hok Hq He Hp) as (T' & E & Ha).
    fold (new_dir p). rewrite E. cbn [obind]. destruct (new_dir_ok p Hg) as [Hnd Hkva].
    eexists _, (pos1 pos p d l i), ({[p]} ∪ L), (new_dir p). split_and!; [reflexivity| | |done| |].
    + apply (added_grown v pos L h p q d l i); done.
    + by destruct Ha.
    + rewrite Hkva. apply lookup_insert_eq.
    + intros e0 He0 Hv. rewrite He in He0. by injection He0 as <-.
  - pose proof Hvd as (Hv & _). rewrite Hv. right. exists v, pos, L, e. split_and!; try done. by apply grown_refl.
Qed.

Lemma lookup_ok v pos L d D va :
  state_ok v pos L -> dirs v !! d = Some D -> 0 <= va < 2 ^ 38 ->
  lookup (root D) va v = Panic /\ slot (tabs v) (root D) va = None \/
  exists pte v' pos' L', lookup (root D) va v = Ok (pte, v') /\ grown v pos L v' pos' L' /\
    slot (tabs v') (root D) va = Some pte /\ (is_Some (slot (tabs v) (root D) va) -> v' = v).
Proof.
  intros Hok HD Hva. pose proof (so_tree _ _ _ Hok) as Ht. pose proof (tr_root _ _ _ Ht d D HD) as Hr. unfold lookup.
  destruct (walk_dir _ _ _ Ht (root D) d [] (get_vpn va 2)) as (e2 & E2 & H2); [done|cbn; lia|intros _; by apply user_vpn|apply get_vpn_lt|].
  rewrite (get_pte_entry _ _ _ E2). cbn [obind]. replace (negb (XWR e2 =? Noleaf)) with false by (by destruct H2 as [->|[(_ & -> & _) _]]).
  destruct (descend_ok v pos L (root D) d [] (get_vpn va 2)) as [[-> S1]|(v1 & p1 & L1 & e2' & -> & G1 & F2 & Hd2 & Hk2 & S1)];
    [done|done|cbn; lia|intros _; by apply user_vpn|apply get_vpn_lt| |].
  { left. split; [done|]. unfold slot. rewrite E2. cbn [mbind option_bind]. by rewrite (S1 e2 E2). }
  cbn [obind]. rewrite (get_pte_entry _ _ _ F2). cbn [obind]. pose proof (gr_ok _ _ _ _ _ _ G1) as Hok1. pose proof (so_tree _ _ _ Hok1) as Ht1.
  destruct (walk_dir _ _ _ Ht1 (to_kva e2') d [get_vpn va 2] (get_vpn va 1)) as (e1 & E1 & H1); [done|cbn; lia|done|apply get_vpn_lt|].
  rewrite (get_pte_entry _ _ _ E1). cbn [obind]. replace (negb (XWR e1 =? Noleaf)) with false by (by destruct H1 as [->|[(_ & -> & _) _]]).
  destruct (descend_ok v1 p1 L1 (to_kva e2') d [get_vpn va 2] (get_vpn va 1)) as [[-> S2]|(v2 & p2 & L2 & e1' & -> & G2 & F1 & Hd1 & Hk1 & S2)];
    [done|done|cbn; lia|done|apply get_vpn_lt|left|right].
  { split; [done|]. unfold slot. rewrite E2. cbn [mbind option_bind]. destruct (V e2) eqn:Hv2; [|done].
    rewrite (S1 e2 E2 Hv2) in *. rewrite E2 in F2. injection F2 as <-. rewrite E1. cbn [mbind option_bind]. by rewrite (S2 e1 E1). }
  cbn [obind]. rewrite (get_pte_entry _ _ _ F1). cbn [obind]. pose proof (grown_trans _ _ _ _ _ _ _ _ _ G1 G2) as G.
  exists (to_kva e1', get_vpn va 0), v2, p2, L2. split_and!; [done|done| |].
  - unfold slot. rewrite (gr_kept _ _ _ _ _ _ G2 _ _ _ _ (tr_root _ _ _ Ht1 d D ltac:(by rewrite (grown_dirs _ _ _ _ _ _ G1))) F2) by apply Hd2.
    cbn [mbind option_bind]. destruct Hd2 as (-> & _). rewrite F1. cbn [mbind option_bind]. by destruct Hd1 as (-> & _).
  - intros [x Hx]. unfold slot in Hx. rewrite E2 in Hx. cbn [mbind option_bind] in Hx. destruct (V e2) eqn:Hv2; [|done].
    rewrite (S1 e2 E2 Hv2) in *. rewrite E2 in F2. injection F2 as <-. rewrite E1 in Hx. cbn [mbind option_bind] in Hx.
    destruct (V e1) eqn:Hv1; [|done]. by apply (S2 e1 E1).
Qed.

(** ** Storing a last-level entry *)

Definition user_leaf (e : PageEntry) : Prop := wf_pte e /\ (V e = true -> XWR e = RWX /\ U e = true /\ A e = true).

Record stored (T : tables) (ds : gmap Z PageDir) pos (d : Z) (D : PageDir) (va : Z) (pte : Z * nat) (e : PageEntry) (T' : tables) : Prop := {
  st_tree : tree T' ds pos;
  st_slot d' D' va' : ds !! d' = Some D' -> 0 <= va' < 2 ^ 38 -> slot T' (root D') va' = slot T (root D') va';
  st_leaf : leaf T' (root D) va = if V e then Some e else None;
  st_other d' D' va' : ds !! d' = Some D' -> 0 <= va' < 2 ^ 38 -> d' <> d \/ va' / 4096 <> va / 4096 ->
    leaf T' (root D') va' = leaf T (root D') va';
  st_entry : entry T' pte = Some e;
  st_entries x : x <> pte -> entry T' x = entry T x
}.

Section Store.
Context (T : tables) (ds : gmap Z PageDir) (pos : gmap Z (Z * list nat)) (d : Z) (D : PageDir) (va : Z) (pte : Z * nat) (e : PageEntry).
Context (Ht : tree T ds pos) (HD : ds !! d = Some D) (Hva : 0 <= va < 2 ^ 38) (Hs : slot T (root D) va = Some pte).
Context (He : user_leaf e).
Context (T' : tables) (Hat : entry T' pte = Some e) (Ho : forall x, x <> pte -> entry T' x = entry T x).
Context (Hlen : forall q, length <$> T' !! q = length <$> T !! q).

Lemma store_at : exists q, pte = (q, get_vpn va 0) /\ pos !! q = Some (d, [get_vpn va 2; get_vpn va 1]).
Proof. destruct (slot_spec _ _ _ Ht d D va HD Hva) as [?|(q & E & Hq)]; [congruence|]. exists q. split; [congruence|done]. Qed.

Lemma store_ne q i d' l : pos !! q = Some (d', l) -> (length l < 2)%nat -> (q, i) <> pte.
Proof. intros Hq Hl E. destruct store_at as (q' & Ep & Hq'). rewrite Ep in E. injection E as -> _. rewrite Hq in Hq'. injection Hq' as _ ->. cbn in Hl. lia. Qed.

Lemma store_kernel_ne q i : ~ good_page q -> (q, i) <> pte.
Proof. intros Hn E. destruct store_at as (q' & Ep & Hq'). rewrite Ep in E. injection E as -> _. by apply Hn, (tr_page _ _ _ Ht _ _ _ Hq'). Qed.

Lemma store_tree : tree T' ds pos.
Proof.
  destruct kernel_page_not_good as [Hnk Hni]. destruct Ht as [A1 A2 A3 A4 A5 A6 A7 A8]. split; auto.
  - intros q d' l Hq. rewrite Hlen. by apply (A2 q d' l).
  - intros q d' l i x Hq Hl Hi Hx. rewrite Ho in Hx by (by apply (store_ne _ _ d' l)). by eapply A3.
  - intros q d' l i x Hq Hl Hx. destruct (decide ((q, i) = pte)) as [Ex|Hne]; [|rewrite Ho in Hx by done; by eapply A4].
    rewrite Ex, Hat in Hx. injection Hx as <-. exact He.
  - intros d' D' i HD' Hi. pose proof (A1 d' D' HD') as Hr. rewrite !Ho; [by apply (A5 d')|by apply store_kernel_ne|apply (store_ne _ _ d' []); [done|cbn; lia]].
  - intros q Hq. apply A6. assert (Hx : is_Some (length <$> T' !! q)) by (destruct Hq as [tb ->]; by eexists).
    rewrite Hlen in Hx. destruct (T !! q); [by eexists|by destruct Hx].
  - assert (Hlk : length <$> T' !! kernel_root = Some 512%nat) by (rewrite Hlen, A7; done).
    destruct (T' !! kernel_root) as [tb|] eqn:Etb; [|done]. injection Hlk as Hlk. f_equal. apply list_eq. intros j.
    pose proof (Ho (kernel_root, j) (store_kernel_ne _ j Hnk)) as E. unfold entry in E. cbn [fst snd] in E. by rewrite Etb, A7 in E.
  - intros i x Hx. rewrite Ho in Hx by (by apply store_kernel_ne). by apply (A8 i).
Qed.

Lemma store_slot d' D' va' : ds !! d' = Some D' -> 0 <= va' < 2 ^ 38 -> slot T' (root D') va' = slot T (root D') va'.
Proof.
  intros HD' Hva'. pose proof (tr_root _ _ _ Ht d' D' HD') as Hr. unfold slot.
  rewrite Ho by (apply (store_ne _ _ d' []); [done|cbn; lia]).
  destruct (walk_dir _ _ _ Ht (root D') d' [] (get_vpn va' 2)) as (e2 & E2 & H2); [done|cbn; lia|intros _; by apply user_vpn|apply get_vpn_lt|].
  rewrite E2. cbn [mbind option_bind]. destruct H2 as [->|[_ H2]]; [done|].
  rewrite Ho; [done|]. apply (store_ne _ _ d' [get_vpn va' 2]); [done|cbn; lia].
Qed.

Lemma store_stored : stored T ds pos d D va pte e T'.
Proof.
  split; [exact store_tree|exact store_slot| | |exact Hat|exact Ho].
  - unfold leaf. rewrite (store_slot d D va HD Hva), Hs. cbn [mbind option_bind]. by rewrite Hat.
  - intros d' D' va' HD' Hva' Hne. unfold leaf. rewrite (store_slot d' D' va' HD' Hva').
    destruct (slot T (root D') va') as [x|] eqn:Es; [|done]. cbn [mbind option_bind]. rewrite Ho; [done|]. intros ->.
    destruct (slot_inj _ _ _ Ht d D va d' D' va' pte HD Hva HD' Hva' Hs Es) as [-> Epg]. destruct Hne as [?|Hne]; [done|]. by apply Hne.
Qed.
End Store.

Lemma store_pte_ok v pos L d D va pte e :
  state_ok v pos L -> dirs v !! d = Some D -> 0 <= va < 2 ^ 38 -> slot (tabs v) (root D) va = Some pte -> user_leaf e ->
  exists T', store_pte pte e v = Ok (set_tabs v T') /\ state_ok (set_tabs v T') pos L /\ stored (tabs v) (dirs v) pos d D va pte e T'.
Proof.
  intros Hok HD Hva Hs He. pose proof (so_tree _ _ _ Hok) as Ht. destruct (slot_entry _ _ _ Ht d D va pte HD Hva Hs) as (e0 & E0 & _).
  destruct (set_pte_spec (tabs v) pte e e0 E0) as (T' & E & Hat & Ho & Hlen). exists T'. unfold store_pte. rewrite E. split; [done|].
  assert (Hst : stored (tabs v) (dirs v) pos d D va pte e T') by (by apply store_stored).
  split; [|done]. split; [apply Hst|apply Hok|]. intros q x Hq. by eapply so_in.
Qed.

Lemma stored_twice T ds pos d D va pte e1 e2 T1 T2 :
  stored T ds pos d D va pte e1 T1 -> stored T1 ds pos d D va pte e2 T2 -> stored T ds pos d D va pte e2 T2.
Proof.
  intros [A1 A2 A3 A4 A5 A6] [B1 B2 B3 B4 B5 B6]. split; try done.
  - intros d' D' va' HD' Hva'. by rewrite (B2 d'), (A2 d').
  - intros d' D' va' HD' Hva' Hne. rewrite (B4 d' D' va'), (A4 d' D' va') by done. done.
  - intros x Hx. by rewrite B6, A6.
Qed.

(** ** map_va_kva *)

(** The last-level entry that maps the page [kva]. *)
Definition leaf_for (kva osflag : Z) (e : PageEntry) : PageEntry := with_OSflag osflag (set_as_leaf (kva2pa kva) e).

Lemma set_as_leaf_user pa e : wf_pte e -> user_leaf (set_as_leaf pa e).
Proof.
  intros [_ _ _ Hr]. split; [|done]. split; cbn [set_as_leaf XWR OSflag ppn Reseverd1]; [by unfold RWX|by unfold Normal|apply Z.mod_pos_bound; lia|done].
Qed.
Lemma leaf_for_user kva osflag e : wf_pte e -> 0 <= osflag < 4 -> user_leaf (leaf_for kva osflag e).
Proof. intros Hwf Ho. destruct (set_as_leaf_user (kva2pa kva) e Hwf) as [[H1 _ H3 H4] Hl]. split; [by split|exact Hl]. Qed.

(** Until the other CPUs are told, map_va_kva panics or has stored one entry. *)
Lemma map_ok v pos L d D va kva osflag c :
  state_ok v pos L -> dirs v !! d = Some D -> 0 <= va < 2 ^ 38 -> 0 <= osflag < 4 ->
  map_va_kva d va kva osflag c v = Panic /\ (slot (tabs v) (root D) va = None \/ leaf (tabs v) (root D) va <> None) \/
  exists v0 pos' L' pte e T', grown v pos L v0 pos' L' /\ (is_Some (slot (tabs v) (root D) va) -> v0 = v) /\
    leaf (tabs v) (root D) va = None /\ slot (tabs v0) (root D) va = Some pte /\ wf_pte e /\
    stored (tabs v0) (dirs v) pos' d D va pte (leaf_for kva osflag e) T' /\
    state_ok (set_tabs v0 T') pos' L' /\
    map_va_kva d va kva osflag c v = on_page_updated d c (set_tabs v0 T').
Proof.
  intros Hok HD Hva Hos. unfold map_va_kva. rewrite HD. cbn [or_fault obind].
  destruct (lookup_ok v pos L d D va Hok HD Hva) as [[-> Hn]|(pte & v0 & pos' & L' & -> & G & Hs & Hsame)]; [left; by split; [|left]|].
  assert (HD0 := HD). pose proof (gr_ok _ _ _ _ _ _ G) as Hok0. pose proof (grown_dirs _ _ _ _ _ _ G) as Ed. rewrite <- Ed in HD.
  destruct (slot_entry _ _ _ (so_tree _ _ _ Hok0) d D va pte HD Hva Hs) as (e & Ee & Hwf & _).
  assert (El : leaf (tabs v) (root D) va = if V e then Some e else None).
  { rewrite <- (gr_leaf _ _ _ _ _ _ G d D va HD0 Hva). unfold leaf. rewrite Hs. cbn [mbind option_bind]. by rewrite Ee. }
  cbn [obind]. rewrite (get_pte_entry _ _ _ Ee). cbn [obind]. destruct (V e) eqn:Hv; [left; split; [done|right; by rewrite El]|right].
  cbn [negb assert_ obind].
  destruct (store_pte_ok v0 pos' L' d D va pte (set_as_leaf (kva2pa kva) e) Hok0 HD Hva Hs (set_as_leaf_user _ _ Hwf)) as (T1 & -> & Hok1 & St1).
  cbn [obind tabs set_tabs]. rewrite (get_pte_entry _ _ _ (st_entry _ _ _ _ _ _ _ _ _ St1)). cbn [obind]. fold (leaf_for kva osflag e).
  destruct (store_pte_ok (set_tabs v0 T1) pos' L' d D va pte (leaf_for kva osflag e) Hok1 HD Hva) as (T2 & -> & Hok2 & St2).
  { cbn [tabs set_tabs]. rewrite (st_slot _ _ _ _ _ _ _ _ _ St1 d) by done. done. }
  { by apply leaf_for_user. }
  exists v0, pos', L', pte, e, T2. split_and!; try done.
  - rewrite <- Ed. by eapply stored_twice.
Qed.
End Ops.
