(* ===== verification/PageFrames.v ===== *)
(** Who owns the page frames that user memory is mapped to.

    A private frame is mapped by exactly one last-level entry; a shared frame
    belongs to one SharedPage, whose counter is at least the number of entries
    that map it.  The steps of the system keep this ([step_inv]). *)

From Stdlib Require Import ZArith Lia List.
From stdpp Require Import base numbers list gmap fin_maps sets relations.
From S2P Require Import Prelude Bits KAlloc Kernel Sched Process Page PageProps PageOps.

Local Open Scope Z_scope.

(** * Ownership *)

Section Frames.
Implicit Types (T : tables) (S : list SharedPage) (pos : gmap Z (Z * list nat)) (L : gset Z) (priv : gmap Z (Z * nat)) (att : gmap (Z * nat) Z).

(** [priv] gives the entry that maps a private frame, [att] the frame a shared
    entry maps. *)
Definition frame_ok priv att (pte : Z * nat) (e : PageEntry) : Prop :=
  good_page (to_kva e) /\
  (OSflag e = Normal /\ priv !! to_kva e = Some pte \/ OSflag e = Shared /\ att !! pte = Some (to_kva e)).

Definition leaves_ok T pos priv att : Prop :=
  forall q d l i e, pos !! q = Some (d, l) -> length l = 2%nat -> entry T (q, i) = Some e -> V e = true -> frame_ok priv att (q, i) e.

(** How many entries map the shared frame [k]. *)
Definition to_frame (k : Z) (x : Z * nat * Z) : Prop := x.2 = k.
#[global] Instance to_frame_dec k x : Decision (to_frame k x).
Proof. unfold to_frame. apply _. Defined.
Definition mappings att (k : Z) : nat := size (filter (to_frame k) att).

Record owners_ok S pos L priv att : Prop := {
  ow_priv k x : priv !! k = Some x -> k ∈ L /\ pos !! k = None /\ k ∉ map sp_kva S;
  ow_shared p : p ∈ S -> sp_kva p ∈ L /\ pos !! sp_kva p = None /\ Z.of_nat (mappings att (sp_kva p)) <= sp_cnt p < 2 ^ 64;
  ow_att x k : att !! x = Some k -> k ∈ map sp_kva S;
  ow_nodup : NoDup (map sp_kva S)
}.

Lemma mappings_mono att att' k : att ⊆ att' -> (mappings att k <= mappings att' k)%nat.
Proof. intros Hs. by apply map_subseteq_size, map_filter_subseteq_mono. Qed.

Lemma mappings_insert_ne att x k k' : k <> k' -> (mappings (<[x := k]> att) k' <= mappings att k')%nat.
Proof.
  intros Hne. unfold mappings at 1. rewrite map_filter_insert_False by done. apply mappings_mono, delete_subseteq.
Qed.

Lemma mappings_insert att x k : (mappings (<[x := k]> att) k <= S (mappings att k))%nat.
Proof.
  unfold mappings. rewrite map_filter_insert_True by done. destruct (filter (to_frame k) att !! x) eqn:E.
  - rewrite map_size_insert_Some by (by eexists). lia.
  - rewrite map_size_insert_None by done. lia.
Qed.

Lemma mappings_delete att x k : att !! x = Some k -> mappings att k = S (mappings (delete x att) k).
Proof.
  intros Hx. unfold mappings. rewrite map_filter_delete.
  assert (E : filter (to_frame k) att !! x = Some k) by (by apply map_lookup_filter_Some).
  rewrite map_size_delete_Some by (by eexists). destruct (size _) eqn:Es; [|done].
  apply map_size_empty_iff in Es. by rewrite Es, lookup_empty in E.
Qed.

(** ** Preservation *)

Lemma leaves_store T ds pos d D va pte e T' priv att priv' att' :
  stored T ds pos d D va pte e T' -> leaves_ok T pos priv att -> priv ⊆ priv' ->
  (forall x, x <> pte -> att' !! x = att !! x) -> (V e = true -> frame_ok priv' att' pte e) -> leaves_ok T' pos priv' att'.
Proof.
  intros St Hl Hp Ha He q d' l i x Hq Hlen Hx Hv. destruct (decide ((q, i) = pte)) as [Ep|Hne].
  - rewrite Ep, (st_entry _ _ _ _ _ _ _ _ _ St) in Hx. injection Hx as <-. rewrite Ep. by apply He.
  - rewrite (st_entries _ _ _ _ _ _ _ _ _ St) in Hx by done. destruct (Hl q d' l i x Hq Hlen Hx Hv) as [Hg [[Ho Hpr]|[Ho Hat]]].
    + split; [done|]. left. split; [done|]. by eapply lookup_weaken.
    + split; [done|]. right. split; [done|]. by rewrite Ha.
Qed.

Lemma owners_more S pos L priv att pos' L' :
  owners_ok S pos L priv att -> L ⊆ L' -> (forall q x, pos' !! q = Some x -> pos !! q = Some x \/ q ∉ L) -> owners_ok S pos' L' priv att.
Proof.
  intros [A1 A2 A3 A4] HL Hn. assert (Hx : forall k, k ∈ L -> pos !! k = None -> pos' !! k = None).
  { intros k Hk Hp. destruct (pos' !! k) as [x|] eqn:E; [|done]. destruct (Hn k x E) as [?|?]; [congruence|done]. }
  split; auto.
  - intros k x Hk. destruct (A1 k x Hk) as (? & ? & ?). split_and!; auto.
  - intros p Hp. destruct (A2 p Hp) as (? & ? & ?). split_and!; auto; lia.
Qed.

(** A fresh page becomes private. *)
Lemma owners_private S pos L priv att k pte :
  owners_ok S pos L priv att -> k ∉ L -> pos !! k = None -> owners_ok S pos ({[k]} ∪ L) (<[k := pte]> priv) att.
Proof.
  intros [A1 A2 A3 A4] Hk Hp. split; auto.
  - intros k' x Hx. apply lookup_insert_Some in Hx as [[<- <-]|[_ Hx]].
    + split_and!; [set_solver|done|]. intros Hin. apply list_elem_of_fmap in Hin as (p & -> & Hin). by destruct (A2 p Hin).
    + destruct (A1 k' x Hx) as (? & ? & ?). split_and!; [set_solver|done|done].
  - intros p Hin. destruct (A2 p Hin) as (? & ? & ?). split_and!; [set_solver|done|lia|lia].
Qed.
End Frames.

(** * The invariant *)

Section Inv.
Context {H : Type} {PS : page_source H}.
Implicit Types (v : vm H).

Definition vm_inv v : Prop := exists pos L priv att,
  state_ok v pos L /\ leaves_ok (tabs v) pos priv att /\ owners_ok (shared_pages v) pos L priv att /\
  (forall d D, dirs v !! d = Some D -> pd_lock D = false).

Lemma leaves_grown v pos L v' pos' L' priv att :
  grown v pos L v' pos' L' -> leaves_ok (tabs v) pos priv att -> leaves_ok (tabs v') pos' priv att.
Proof.
  intros G Hl q d l i e Hq Hlen He Hv. destruct (gr_level0 _ _ _ _ _ _ G q d l i e Hq Hlen He Hv) as [Hq0 He0]. by eapply Hl.
Qed.

Lemma owners_grown v pos L v' pos' L' priv att :
  grown v pos L v' pos' L' -> owners_ok (shared_pages v) pos L priv att -> owners_ok (shared_pages v') pos' L' priv att.
Proof.
  intros G Ho. pose proof (gr_rest _ _ _ _ _ _ G) as E. injection E as _ _ Es _. rewrite Es.
  eapply owners_more; [done|by apply G|]. apply (gr_new _ _ _ _ _ _ G).
Qed.

(** ** Other versions of the same page directory *)

Definition same_roots (ds ds' : gmap Z PageDir) : Prop := forall d, root <$> ds' !! d = root <$> ds !! d.

Lemma same_roots_back ds ds' d D' : same_roots ds ds' -> ds' !! d = Some D' -> exists D, ds !! d = Some D /\ root D = root D'.
Proof. intros Hs E. specialize (Hs d). rewrite E in Hs. destruct (ds !! d) as [D|]; [|done]. exists D. split; [done|]. by injection Hs. Qed.

Lemma tree_roots T ds ds' pos : same_roots ds ds' -> tree T ds pos -> tree T ds' pos.
Proof.
  intros Hs [A1 A2 A3 A4 A5 A6 A7 A8]. split; auto.
  - intros d D HD. destruct (same_roots_back _ _ _ _ Hs HD) as (D0 & HD0 & <-). by apply A1.
  - intros d D i HD Hi. destruct (same_roots_back _ _ _ _ Hs HD) as (D0 & HD0 & <-). by apply (A5 d).
Qed.

Lemma same_roots_upd ds d D f : ds !! d = Some D -> root (f D) = root D -> same_roots ds (<[d := f D]> ds).
Proof. intros HD Hf d'. destruct (decide (d' = d)) as [->|Hne]; [by rewrite lookup_insert_eq, HD; cbn; rewrite Hf|by rewrite lookup_insert_ne]. Qed.

Lemma upd_dir_Ok v d f v' : upd_dir v d f = Ok v' -> exists D, dirs v !! d = Some D /\ v' = set_dirs v (<[d := f D]> (dirs v)).
Proof. unfold upd_dir. intros E. apply obind_Ok_inv in E as (D & E & E'). injection E' as <-. apply or_fault_Ok in E. by exists D. Qed.

Lemma on_page_updated_Ok d c v v' : on_page_updated d c v = Ok v' ->
  exists D s, dirs v !! d = Some D /\ v' = set_krn (set_dirs v (<[d := pd_set_flush_mask (2 ^ 64 - 1) D]> (dirs v))) s.
Proof.
  unfold on_page_updated. intros E. apply obind_Ok_inv in E as (v1 & E1 & E). apply upd_dir_Ok in E1 as (D & HD & ->).
  apply obind_Ok_inv in E as (p & _ & E). apply obind_Ok_inv in E as (s & _ & E). injection E as <-. by exists D, s.
Qed.
End Inv.
