(* ===== verification/PageSteps.v ===== *)
(** The operations of Page.v keep the invariant of PageFrames.v. *)

From Stdlib Require Import ZArith Lia List.
From stdpp Require Import base numbers list gmap fin_maps sets relations.
From S2P Require Import Prelude Bits KAlloc Kernel Sched Process Page PageProps PageOps PageFrames.

Local Open Scope Z_scope.

Section Steps.
Context {H : Type} {PS : page_source H}.
Implicit Types (v : vm H) (d : Z) (pos : gmap Z (Z * list nat)) (L : gset Z) (priv : gmap Z (Z * nat)) (att : gmap (Z * nat) Z).

Record vm_ok v pos L priv att : Prop := {
  vo_state : state_ok v pos L;
  vo_leaves : leaves_ok (tabs v) pos priv att;
  vo_owners : owners_ok (shared_pages v) pos L priv att
}.
Definition unlocked v : Prop := forall d D, dirs v !! d = Some D -> pd_lock D = false.
Definition invariant v : Prop := unlocked v /\ exists pos L priv att, vm_ok v pos L priv att.

(** What the invariant does not look at may change. *)
Record same_core v v' : Prop := {
  sc_tabs : tabs v' = tabs v;
  sc_heap : vheap v' = vheap v;
  sc_shared : shared_pages v' = shared_pages v;
  sc_roots : same_roots (dirs v) (dirs v')
}.

Lemma same_core_ok v v' pos L priv att : same_core v v' -> vm_ok v pos L priv att -> vm_ok v' pos L priv att.
Proof.
  intros [E1 E2 E3 Er] [[Ht Ho Hi] Hl Hw]. split; [split|..]; rewrite ?E1, ?E2, ?E3; try done. by eapply tree_roots.
Qed.

Lemma same_core_trans v1 v2 v3 : same_core v1 v2 -> same_core v2 v3 -> same_core v1 v3.
Proof. intros [A1 A2 A3 A4] [B1 B2 B3 B4]. split; try congruence. Qed.

Lemma grown_ok v pos L v' pos' L' priv att :
  grown v pos L v' pos' L' -> vm_ok v pos L priv att -> vm_ok v' pos' L' priv att.
Proof. intros G [Hs Hl Hw]. split; [by apply G|by eapply leaves_grown|by eapply owners_grown]. Qed.

(** A change of one page directory that keeps its root. *)
Lemma upd_core v d D D' s : dirs v !! d = Some D -> root D' = root D -> same_core v (set_krn (set_dirs v (<[d := D']> (dirs v))) s).
Proof. intros HD Hr. split; try done. cbn. by apply (same_roots_upd _ d D (fun _ => D')). Qed.

Lemma unlocked_insert v d D' : unlocked v -> pd_lock D' = false -> forall d' D, <[d := D']> (dirs v) !! d' = Some D -> pd_lock D = false.
Proof. intros Hu Hl d' D HD. apply lookup_insert_Some in HD as [[_ <-]|[_ HD]]; [done|by eapply Hu]. Qed.

(** ** alloc_page_for_va *)

(** What follows on_page_updated in alloc_page_for_va. *)
Definition finish_alloc d va pte v : outcome (Z * vm H) :=
  v <- upd_dir v d (fun D => pd_set_active (u64 (active_private_mem D + PAGE_SIZE)) D) ;;
  v <- upd_dir v d (fun D => pd_set_fifo (private_mem_fifo D ++ [va]) D) ;;
  e <- get_pte (tabs v) pte ;;
  v <- unlock_dir d v ;;
  Ok (to_kva e, v).

Lemma finish_alloc_run d D va pte e v : dirs v !! d = Some D -> entry (tabs v) pte = Some e ->
  finish_alloc d va pte v = Ok (to_kva e, set_dirs v (<[d := pd_set_lock false (pd_set_fifo (private_mem_fifo D ++ [va])
    (pd_set_active (u64 (active_private_mem D + PAGE_SIZE)) D))]> (dirs v))).
Proof.
  intros HD He. unfold finish_alloc, upd_dir. rewrite HD. cbn [or_fault obind dirs set_dirs]. rewrite lookup_insert_eq. cbn [or_fault obind dirs set_dirs tabs].
  rewrite (get_pte_entry _ _ _ He). cbn [obind]. unfold unlock_dir, upd_dir. cbn [dirs set_dirs]. rewrite lookup_insert_eq. cbn [or_fault obind].
  by rewrite !insert_insert_eq.
Qed.

(** [w] maps the fresh page [kva] at [va] in [d] and is otherwise as [v]. *)
Record new_page v d D va (kva : Z) (w : vm H) (pte : Z * nat) : Prop := {
  np_slot : slot (tabs w) (root D) va = Some pte;
  np_leaf : exists e, wf_pte e /\ entry (tabs w) pte = Some (leaf_for kva Normal e);
  np_other d' D' va' : dirs v !! d' = Some D' -> 0 <= va' < 2 ^ 38 -> d' <> d \/ va' / 4096 <> va / 4096 ->
    leaf (tabs w) (root D') va' = leaf (tabs v) (root D') va';
  np_good : good_page kva;
  np_shared : shared_pages w = shared_pages v;
  np_krn : krn w = krn v;
  np_dirs : dirs w = <[d := pd_set_lock true D]> (dirs v)
}.

(** alloc_page_for_va below the bound, after the lock is taken. *)
Definition alloc_locked d D va c v1 : outcome (Z * vm H) :=
  '(pte, v) <- lookup (root D) va v1 ;;
  e <- get_pte (tabs v) pte ;;
  if V e then v <- unlock_dir d v ;; Ok (to_kva e, v)
  else
    '(kva, v) <- kalloc_page v ;;
    v <- map_va_kva d va kva Normal c v ;;
    finish_alloc d va pte v.

Lemma alloc_page_eq v d D va c : dirs v !! d = Some D -> pd_lock D = false -> va < user_mem_bound D ->
  alloc_page_for_va d va c v = alloc_locked d D va c (set_dirs v (<[d := pd_set_lock true D]> (dirs v))).
Proof.
  intros HD Hlk Hb. unfold alloc_page_for_va. rewrite HD. cbn [or_fault obind]. rewrite (proj2 (Z.leb_gt _ _) Hb).
  unfold lock_dir. rewrite HD. cbn [or_fault obind]. rewrite Hlk, lock_free. cbn [obind]. unfold upd_dir at 1. rewrite HD. done.
Qed.

Lemma unlock_id v d D : dirs v !! d = Some D -> pd_lock D = false ->
  unlock_dir d (set_dirs v (<[d := pd_set_lock true D]> (dirs v))) = Ok v.
Proof.
  intros HD Hlk. unfold unlock_dir, upd_dir. cbn [dirs set_dirs]. rewrite lookup_insert_eq. cbn [or_fault obind].
  rewrite insert_insert_eq. cbn [unlock pd_lock pd_set_lock]. replace (pd_set_lock (unlock true) (pd_set_lock true D)) with D by (destruct D; cbn in *; by subst).
  rewrite (insert_id (dirs v) d D HD). by destruct v.
Qed.

(** Mapping a fresh page where nothing is mapped. *)
Lemma new_page_ok v pos L priv att d D va pte e h kva c :
  vm_ok v pos L priv att -> dirs v !! d = Some D -> 0 <= va < 2 ^ 38 -> slot (tabs v) (root D) va = Some pte ->
  entry (tabs v) pte = Some e -> V e = false -> kva ∉ L -> good_page kva -> pages_out h ({[kva]} ∪ L) ->
  exists w pos' L', map_va_kva d va kva Normal c (set_vheap v h) = on_page_updated d c w /\
    vm_ok w pos' L' (<[kva := pte]> priv) att /\ slot (tabs w) (root D) va = Some pte /\
    (exists e, wf_pte e /\ entry (tabs w) pte = Some (leaf_for kva Normal e)) /\
    (forall d' D' va', dirs v !! d' = Some D' -> 0 <= va' < 2 ^ 38 -> d' <> d \/ va' / 4096 <> va / 4096 ->
      leaf (tabs w) (root D') va' = leaf (tabs v) (root D') va') /\
    shared_pages w = shared_pages v /\ krn w = krn v /\ dirs w = dirs v.
Proof.
  intros [Hok Hl Hw] HD Hva Hs He Hv Hk Hg Hh. pose proof (so_tree _ _ _ Hok) as Ht. pose proof Hok as [_ _ Hi].
  assert (Hkp : pos !! kva = None) by (destruct (pos !! kva) eqn:Ex; [by apply Hi in Ex|done]).
  assert (Hok3 : state_ok (set_vheap v h) pos ({[kva]} ∪ L)).
  { split; [done|done|]. intros q x Hq. specialize (Hi q x Hq). set_solver. }
  pose proof (owners_private _ _ _ _ _ kva pte Hw Hk Hkp) as Hw3.
  destruct (map_ok (set_vheap v h) pos ({[kva]} ∪ L) d D va kva Normal c Hok3 HD Hva ltac:(unfold Normal; lia))
    as [[_ [Hx|Hx]]|(v0 & p0 & L0 & pte0 & e0 & T' & G0 & Hsame & _ & Hsl & Hwf0 & St & Hokw & ->)].
  - change (tabs (set_vheap v h)) with (tabs v) in Hx. congruence.
  - exfalso. apply Hx. unfold leaf. cbn [tabs set_vheap]. rewrite Hs. cbn [mbind option_bind]. rewrite He. cbn [mbind option_bind]. by rewrite Hv.
  - assert (E0 : v0 = set_vheap v h) by (apply Hsame; by exists pte). subst v0. cbn [tabs set_vheap dirs] in *.
    assert (pte0 = pte) as -> by congruence. exists (set_tabs (set_vheap v h) T'), p0, L0. split_and!; try done.
    + split; [exact Hokw| |exact (owners_grown _ _ _ _ _ _ _ _ G0 Hw3)].
      apply (leaves_store _ _ _ _ _ _ _ _ _ priv att (<[kva := pte]> priv) att St).
      * exact (leaves_grown _ _ _ _ _ _ _ _ G0 Hl).
      * apply insert_subseteq. destruct (priv !! kva) as [x|] eqn:Ex; [|done]. by destruct (ow_priv _ _ _ _ _ Hw kva x Ex).
      * done.
      * intros _. unfold frame_ok, leaf_for. rewrite leaf_to_kva by done. split; [done|]. left. split; [done|]. apply lookup_insert_eq.
    + cbn [tabs set_tabs]. rewrite (st_slot _ _ _ _ _ _ _ _ _ St d D va HD Hva). done.
    + exists e0. split; [done|]. apply (st_entry _ _ _ _ _ _ _ _ _ St).
    + intros d' D' va' HD' Hva' Hne. by apply (st_other _ _ _ _ _ _ _ _ _ St d' D' va').
Qed.

Lemma alloc_page_ok v pos L priv att d D va c :
  vm_ok v pos L priv att -> dirs v !! d = Some D -> pd_lock D = false -> 0 <= va < 2 ^ 38 -> va < user_mem_bound D ->
  (exists e, leaf (tabs v) (root D) va = Some e /\ alloc_page_for_va d va c v = Ok (to_kva e, v)) \/
  leaf (tabs v) (root D) va = None /\
  (alloc_page_for_va d va c v = Panic \/
   exists kva w pos' L' priv' pte, new_page v d D va kva w pte /\ vm_ok w pos' L' priv' att /\ kva ∉ L /\
     alloc_page_for_va d va c v = (v4 <- on_page_updated d c w ;; finish_alloc d va pte v4)).
Proof.
  intros Hvm HD Hlk Hva Hb. pose proof (vo_state _ _ _ _ _ Hvm) as Hok. rewrite (alloc_page_eq v d D va c HD Hlk Hb).
  set (D1 := pd_set_lock true D). set (v1 := set_dirs v _). assert (HD1 : dirs v1 !! d = Some D1) by apply lookup_insert_eq.
  assert (Hvm1 : vm_ok v1 pos L priv att).
  { apply (same_core_ok v); [|done]. by apply (upd_core v d D D1 (krn v)). }
  unfold alloc_locked. change (root D) with (root D1).
  destruct (lookup_ok v1 pos L d D1 va (vo_state _ _ _ _ _ Hvm1) HD1 Hva) as [[-> Hn]|(pte & v2 & pos' & L' & -> & G & Hs & Hsame)].
  { right. split; [|by left]. unfold leaf. change (tabs v) with (tabs v1). by rewrite Hn. }
  cbn [obind]. pose proof (gr_ok _ _ _ _ _ _ G) as Hok2. pose proof (grown_dirs _ _ _ _ _ _ G) as Ed.
  pose proof HD1 as HD2. rewrite <- Ed in HD2.
  destruct (slot_entry _ _ _ (so_tree _ _ _ Hok2) d D1 va pte HD2 Hva Hs) as (e & Ee & Hwf & _). rewrite (get_pte_entry _ _ _ Ee). cbn [obind].
  assert (El : leaf (tabs v) (root D1) va = if V e then Some e else None).
  { change (tabs v) with (tabs v1). rewrite <- (gr_leaf _ _ _ _ _ _ G d D1 va HD1 Hva). unfold leaf. rewrite Hs. cbn [mbind option_bind]. by rewrite Ee. }
  destruct (V e) eqn:Hv.
  - left. exists e. split; [exact El|]. assert (Ev : v2 = v1).
    { apply Hsame. unfold leaf in El. change (tabs v1) with (tabs v). destruct (slot (tabs v) (root D1) va); [by eexists|done]. }
    rewrite Ev. unfold v1, D1. by rewrite unlock_id.
  - right. split; [exact El|]. destruct (kalloc_page_ok v2 pos' L' Hok2) as [->|(kva & h & -> & Hk & Hg & Hh)]; [by left|].
    cbn [obind]. destruct (new_page_ok v2 pos' L' priv att d D1 va pte e h kva c) as (w & pos'' & L'' & -> & Hvmw & Hsw & Hew & Hoth & Esh & Ekr & Edw);
      try done; [by eapply grown_ok|].
    right. exists kva, w, pos'', L'', (<[kva := pte]> priv), pte. split_and!; [split|done| |done].
    + exact Hsw.
    + exact Hew.
    + intros d' D' va' HD' Hva' Hne. assert (HD1' : exists D1', dirs v1 !! d' = Some D1' /\ root D1' = root D').
      { cbn [v1 dirs set_dirs]. destruct (decide (d' = d)) as [->|Hd]; [rewrite lookup_insert_eq; exists D1; split; [done|]; by replace D' with D by congruence|].
        exists D'. by rewrite lookup_insert_ne. }
      destruct HD1' as (D1' & HD1' & <-). rewrite (Hoth d') by (done || by rewrite Ed). by rewrite (gr_leaf _ _ _ _ _ _ G d' D1' va' HD1' Hva').
    + exact Hg.
    + rewrite Esh. pose proof (gr_rest _ _ _ _ _ _ G) as E. by injection E.
    + rewrite Ekr. pose proof (gr_rest _ _ _ _ _ _ G) as E. by injection E.
    + rewrite Edw, Ed. done.
    + intros Hin. apply Hk. by apply (gr_used _ _ _ _ _ _ G).
Qed.

(** Telling the other CPUs changes one page directory and the kernel. *)
Lemma updated_run d c w D v4 : dirs w !! d = Some D -> on_page_updated d c w = Ok v4 ->
  exists s, v4 = set_krn (set_dirs w (<[d := pd_set_flush_mask (2 ^ 64 - 1) D]> (dirs w))) s.
Proof. intros HD E. apply on_page_updated_Ok in E as (D' & s & HD' & ->). exists s. congruence. Qed.

(** Where the other CPUs can be told, on_page_updated returns. *)
Definition can_tell (c : nat) (s : kernel) : Prop := exists p s', current_process s c = Ok p /\ send_intr_to_running_thread p s = Ok s'.
Lemma updated_total d c v D : dirs v !! d = Some D -> can_tell c (krn v) -> exists v', on_page_updated d c v = Ok v'.
Proof.
  intros HD (p & s & Ep & Es). unfold on_page_updated, upd_dir. rewrite HD. cbn [or_fault obind krn set_dirs]. rewrite Ep. cbn [obind]. rewrite Es. by eexists.
Qed.

(** The whole of the end of alloc_page_for_va. *)
Lemma alloc_end v d D va kva w pte c r v' :
  unlocked v -> dirs v !! d = Some D -> new_page v d D va kva w pte -> (v4 <- on_page_updated d c w ;; finish_alloc d va pte v4) = Ok (r, v') ->
  r = kva /\ same_core w v' /\ unlocked v'.
Proof.
  intros Hu HD Hnp E. destruct (np_leaf _ _ _ _ _ _ _ Hnp) as (e & _ & He). pose proof (np_dirs _ _ _ _ _ _ _ Hnp) as Ed.
  apply obind_Ok_inv in E as (v4 & E4 & E).
  assert (HDw : dirs w !! d = Some (pd_set_lock true D)) by (rewrite Ed; apply lookup_insert_eq).
  destruct (updated_run d c w _ v4 HDw E4) as (s & ->).
  erewrite (finish_alloc_run d _ va pte) in E by (cbn [dirs set_krn set_dirs]; first [apply lookup_insert_eq|exact He]).
  injection E as <- <-. unfold leaf_for. rewrite leaf_to_kva by apply Hnp. split; [done|].
  cbn [dirs set_krn set_dirs]. rewrite insert_insert_eq, Ed. split.
  - split; try done. cbn [dirs set_krn set_dirs]. rewrite Ed, insert_insert_eq. intros d'.
    destruct (decide (d' = d)) as [->|Hne]; [by rewrite !lookup_insert_eq|by rewrite !lookup_insert_ne].
  - intros d' D'. cbn [dirs set_krn set_dirs]. rewrite insert_insert_eq. by apply unlocked_insert.
Qed.

Lemma alloc_keeps v d va c kva v' : invariant v -> 0 <= va < 2 ^ 38 -> alloc_page_for_va d va c v = Ok (kva, v') -> invariant v'.
Proof.
  intros [Hu (pos & L & priv & att & Hvm)] Hva E. destruct (dirs v !! d) as [D|] eqn:HD; [|by (unfold alloc_page_for_va in E; rewrite HD in E)].
  destruct (Z.ltb_spec va (user_mem_bound D)) as [Hb|Hb].
  2: { unfold alloc_page_for_va in E. rewrite HD in E. cbn [or_fault obind] in E. by rewrite (proj2 (Z.leb_le _ _) Hb) in E. }
  destruct (alloc_page_ok v pos L priv att d D va c Hvm HD (Hu d D HD) Hva Hb) as [(e & _ & E')|[_ [E'|(k & w & pos' & L' & priv' & pte & Hnp & Hvm' & _ & E')]]].
  - rewrite E in E'. injection E' as _ ->. split; [done|]. by exists pos, L, priv, att.
  - congruence.
  - rewrite E' in E. destruct (alloc_end v d D va k w pte c kva v' Hu HD Hnp E) as (_ & Hc & Hu'). split; [done|].
    exists pos', L', priv', att. by eapply same_core_ok.
Qed.

(** ** Shared pages *)

Lemma nodup_kva Sh : NoDup (map sp_kva Sh) -> forall p p', p ∈ Sh -> p' ∈ Sh -> sp_kva p = sp_kva p' -> p = p'.
Proof.
  induction Sh as [|x Sh IH]; intros Hnd p p' Hp Hp' E; [by apply elem_of_nil in Hp|]. apply NoDup_cons in Hnd as [Hx Hnd].
  assert (Hn : forall y, y ∈ Sh -> sp_kva x <> sp_kva y) by (intros y Hy Ey; apply Hx; rewrite Ey; by apply list_elem_of_fmap_2).
  apply elem_of_cons in Hp as [->|Hp], Hp' as [->|Hp']; [done| | |by apply IH]; exfalso; [by apply (Hn p')|by apply (Hn p)].
Qed.

(** One more entry that maps the shared frame [k]; its counter is already up. *)
Definition counted (Sh : list SharedPage) att (k : Z) : Prop :=
  exists p, p ∈ Sh /\ sp_kva p = k /\ Z.of_nat (S (mappings att k)) <= sp_cnt p.

Lemma owners_attach Sh pos L priv att k x : owners_ok Sh pos L priv att -> counted Sh att k -> owners_ok Sh pos L priv (<[x := k]> att).
Proof.
  intros [A1 A2 A3 A4] (p & Hp & Hk & Hc). split; auto.
  - intros p' Hp'. destruct (A2 p' Hp') as (? & ? & ?). split_and!; [done|done| |lia].
    destruct (decide (k = sp_kva p')) as [->|Hne].
    + assert (p = p') as -> by exact (nodup_kva _ A4 p p' Hp Hp' Hk). pose proof (mappings_insert att x (sp_kva p')). lia.
    + pose proof (mappings_insert_ne att x k (sp_kva p') Hne). lia.
  - intros y k' Hy. apply lookup_insert_Some in Hy as [[_ <-]|[_ Hy]]; [|by eapply A3]. rewrite <- Hk. by apply list_elem_of_fmap_2.
Qed.

Lemma lock_dir_run v d D : unlocked v -> dirs v !! d = Some D ->
  lock_dir d v = Ok (set_dirs v (<[d := pd_set_lock true D]> (dirs v))).
Proof. intros Hu HD. unfold lock_dir. rewrite HD. cbn [or_fault obind]. rewrite (Hu d D HD), lock_free. cbn [obind]. unfold upd_dir. by rewrite HD. Qed.

(** In [v'] the entry for [va] in [d] has become [e]; all other addresses are as in [v]. *)
Definition remapped v d D va (m : option PageEntry) v' : Prop :=
  leaf (tabs v') (root D) va = m /\
  forall d' D' va', dirs v !! d' = Some D' -> 0 <= va' < 2 ^ 38 -> d' <> d \/ va' / 4096 <> va / 4096 ->
    leaf (tabs v') (root D') va' = leaf (tabs v) (root D') va'.

Lemma locked_root v d D d' D' : dirs v !! d = Some D -> dirs v !! d' = Some D' ->
  exists D1, <[d := pd_set_lock true D]> (dirs v) !! d' = Some D1 /\ root D1 = root D'.
Proof.
  intros HD HD'. destruct (decide (d' = d)) as [->|Hd]; [rewrite lookup_insert_eq; eexists; split; [done|]; by replace D' with D by congruence|].
  exists D'. by rewrite lookup_insert_ne.
Qed.

(** The end of a function that holds the lock of [d]: it changes the directory of [d] only. *)
Lemma core_locked v d D w v' D' s :
  unlocked v -> dirs v !! d = Some D -> dirs w = <[d := pd_set_lock true D]> (dirs v) ->
  v' = set_krn (set_dirs w (<[d := D']> (dirs w))) s -> root D' = root D -> pd_lock D' = false -> same_core w v' /\ unlocked v'.
Proof.
  intros Hu HD Ed -> Hr Hl. rewrite Ed, insert_insert_eq. split.
  - split; try done. cbn [dirs set_krn set_dirs]. intros d'. rewrite Ed.
    destruct (decide (d' = d)) as [->|Hne]; [by rewrite !lookup_insert_eq; cbn; rewrite Hr|by rewrite !lookup_insert_ne].
  - intros d' D''. cbn [dirs set_krn set_dirs]. by apply unlocked_insert.
Qed.

Lemma locked_roots v d D w v' : dirs v !! d = Some D -> dirs w = <[d := pd_set_lock true D]> (dirs v) -> same_core w v' ->
  same_roots (dirs v) (dirs v').
Proof. intros HD Ed Hc x. rewrite (sc_roots _ _ Hc x), Ed. by apply (same_roots_upd _ d D). Qed.

Lemma attach_ok v pos L priv att d D kva c va v' :
  vm_ok v pos L priv att -> unlocked v -> dirs v !! d = Some D -> 0 <= shared_page_start D < 2 ^ 38 ->
  counted (shared_pages v) att kva -> good_page kva -> attach_shared_page d kva c v = Ok (va, v') ->
  va = shared_page_start D /\ invariant v' /\ leaf (tabs v) (root D) va = None /\
  (exists e, wf_pte e /\ remapped v d D va (Some (leaf_for kva Shared e)) v') /\
  shared_pages v' = shared_pages v /\ same_roots (dirs v) (dirs v').
Proof.
  intros Hvm Hu HD Hva Hc Hg E. unfold attach_shared_page in E. rewrite (lock_dir_run v d D Hu HD) in E. cbn [obind] in E.
  set (D1 := pd_set_lock true D) in E. set (v1 := set_dirs v _) in E. assert (HD1 : dirs v1 !! d = Some D1) by apply lookup_insert_eq.
  rewrite HD1 in E. cbn [or_fault obind] in E. change (shared_page_start D1) with (shared_page_start D) in E.
  assert (Hvm1 : vm_ok v1 pos L priv att) by (apply (same_core_ok v); [by apply (upd_core v d D D1 (krn v))|done]).
  destruct (map_ok v1 pos L d D1 (shared_page_start D) kva Shared c (vo_state _ _ _ _ _ Hvm1) HD1 Hva ltac:(unfold Shared; lia))
    as [[Em _]|(v0 & p0 & L0 & pte & e & T' & G & _ & Hnone & Hs & Hwf & St & Hokw & Em)]; rewrite Em in E; [done|]. clear Em.
  set (w := set_tabs v0 T') in *. pose proof (grown_dirs _ _ _ _ _ _ G) as Ed.
  apply obind_Ok_inv in E as (v4 & E4 & E). assert (HDw : dirs w !! d = Some D1) by (change (dirs w) with (dirs v0); by rewrite Ed).
  destruct (updated_run d c w D1 v4 HDw E4) as (s & ->). clear E4.
  unfold upd_dir in E. cbn [dirs set_krn set_dirs] in E. rewrite lookup_insert_eq in E. cbn [or_fault obind] in E.
  apply obind_Ok_inv in E as (v5 & E5 & E).
  apply on_page_updated_Ok in E5 as (D5 & s' & HD5 & ->). cbn [dirs set_krn set_dirs] in HD5. rewrite lookup_insert_eq in HD5. injection HD5 as <-.
  unfold unlock_dir, upd_dir in E. cbn [dirs set_krn set_dirs] in E. rewrite lookup_insert_eq in E. cbn [or_fault obind] in E.
  injection E as <- <-. rewrite !insert_insert_eq. split; [done|].
  match goal with |- invariant ?x /\ _ => set (v' := x) end.
  assert (Hcore : same_core w v' /\ unlocked v').
  { eapply (core_locked v d D w v' _ s' Hu HD); [change (dirs w) with (dirs v0); by rewrite Ed|reflexivity|done|done]. }
  destruct Hcore as [Hcore Hu']. pose proof (gr_rest _ _ _ _ _ _ G) as Er. injection Er as _ _ Esh _.
  split_and!.
  - split; [done|]. exists p0, L0, priv, (<[pte := kva]> att). apply (same_core_ok w); [done|]. split; [done| |].
    + apply (leaves_store _ _ _ _ _ _ _ _ _ priv att priv (<[pte := kva]> att) St); [exact (leaves_grown _ _ _ _ _ _ _ _ G (vo_leaves _ _ _ _ _ Hvm1))|done| |].
      * intros x Hx. by rewrite lookup_insert_ne.
      * intros _. unfold frame_ok, leaf_for. rewrite leaf_to_kva by done. split; [done|]. right. split; [done|]. apply lookup_insert_eq.
    + change (shared_pages w) with (shared_pages v0). apply owners_attach; [exact (owners_grown _ _ _ _ _ _ _ _ G (vo_owners _ _ _ _ _ Hvm1))|by rewrite Esh].
  - exact Hnone.
  - exists e. split; [done|]. split; [change (tabs v') with T'|intros d' D' va' HD' Hva' Hne; change (tabs v') with T'].
    + exact (st_leaf _ _ _ _ _ _ _ _ _ St).
    + destruct (locked_root v d D d' D' HD HD') as (D1' & HD1' & <-). rewrite (st_other _ _ _ _ _ _ _ _ _ St d') by done. exact (gr_leaf _ _ _ _ _ _ G d' D1' va' HD1' Hva').
  - exact Esh.
  - apply (locked_roots v d D w v' HD); [change (dirs w) with (dirs v0); by rewrite Ed|done].
Qed.

(** ** Detaching *)

Lemma owners_detach Sh pos L priv att x : owners_ok Sh pos L priv att -> owners_ok Sh pos L priv (delete x att).
Proof.
  intros [A1 A2 A3 A4]. split; auto.
  - intros p Hp. destruct (A2 p Hp) as (? & ? & ?). split_and!; [done|done| |lia].
    pose proof (mappings_mono (delete x att) att (sp_kva p) (delete_subseteq att x)). lia.
  - intros y k Hy. apply lookup_delete_Some in Hy as [_ Hy]. by eapply A3.
Qed.

(** Clearing the valid bit of an entry. *)
Lemma unmap_ghost v pos L priv att d D va pte e T' :
  vm_ok v pos L priv att -> dirs v !! d = Some D -> 0 <= va < 2 ^ 38 -> slot (tabs v) (root D) va = Some pte ->
  entry (tabs v) pte = Some e -> V e = true -> state_ok (set_tabs v T') pos L -> stored (tabs v) (dirs v) pos d D va pte (with_V false e) T' ->
  exists att', vm_ok (set_tabs v T') pos L priv att' /\
    (att' = att /\ to_kva e ∉ map sp_kva (shared_pages v) \/ exists pte, att !! pte = Some (to_kva e) /\ att' = delete pte att).
Proof.
  intros [Hok Hl Hw] HD Hva Hs He Hv Hok' St.
  destruct (slot_spec _ _ _ (so_tree _ _ _ Hok) d D va HD Hva) as [?|(q & Eq & Hq)]; [congruence|].
  rewrite Hs in Eq. injection Eq as ->. destruct (Hl _ _ _ _ _ Hq eq_refl He Hv) as [_ [[_ Hp]|[_ Ha]]].
  - exists att. split; [|left; split; [done|by apply (ow_priv _ _ _ _ _ Hw) in Hp as (_ & _ & ?)]].
    split; [done| |done]. by apply (leaves_store _ _ _ _ _ _ _ _ _ priv att priv att St).
  - exists (delete (q, get_vpn va 0) att). split; [|right; by eexists]. split; [done| |by apply owners_detach].
    apply (leaves_store _ _ _ _ _ _ _ _ _ priv att priv _ St); [done|done| |done]. intros x Hx. by rewrite lookup_delete_ne.
Qed.

(** What free_shared_page leaves: the entry of [va] is invalid; either the page was
    private, or a shared frame is mapped once less. *)
Lemma free_shared_ok v pos L priv att d D va c k v' :
  vm_ok v pos L priv att -> unlocked v -> dirs v !! d = Some D -> 0 <= va < 2 ^ 38 -> free_shared_page d va c v = Ok (k, v') ->
  exists e, leaf (tabs v) (root D) va = Some e /\ k = to_kva e /\ remapped v d D va None v' /\ unlocked v' /\
    shared_pages v' = shared_pages v /\ same_roots (dirs v) (dirs v') /\
    exists pos' L' att', vm_ok v' pos' L' priv att' /\
      (att' = att /\ k ∉ map sp_kva (shared_pages v) \/ exists pte, att !! pte = Some k /\ att' = delete pte att).
Proof.
  intros Hvm Hu HD Hva E. unfold free_shared_page in E. rewrite (lock_dir_run v d D Hu HD) in E. cbn [obind] in E.
  set (D1 := pd_set_lock true D) in E. set (v1 := set_dirs v _) in E. assert (HD1 : dirs v1 !! d = Some D1) by apply lookup_insert_eq.
  rewrite HD1 in E. cbn [or_fault obind] in E.
  assert (Hvm1 : vm_ok v1 pos L priv att) by (apply (same_core_ok v); [by apply (upd_core v d D D1 (krn v))|done]).
  destruct (lookup_ok v1 pos L d D1 va (vo_state _ _ _ _ _ Hvm1) HD1 Hva) as [[El _]|(pte & v2 & p2 & L2 & El & G & Hs & _)];
    rewrite El in E; [done|]. clear El. cbn [obind] in E. pose proof (grown_ok _ _ _ _ _ _ _ _ G Hvm1) as Hvm2. pose proof (grown_dirs _ _ _ _ _ _ G) as Ed.
  assert (HD2 : dirs v2 !! d = Some D1) by (by rewrite Ed). pose proof (vo_state _ _ _ _ _ Hvm2) as Hok2. pose proof (so_tree _ _ _ Hok2) as Ht2.
  destruct (slot_entry _ _ _ Ht2 d D1 va pte HD2 Hva Hs) as (e & Ee & Hwf & Hle). rewrite (get_pte_entry _ _ _ Ee) in E. cbn [obind] in E.
  destruct (V e) eqn:Hv; [|done]. cbn [assert_ obind] in E.
  assert (Hle' : user_leaf (with_V false e)) by (split; [by destruct Hwf|done]).
  destruct (store_pte_ok v2 p2 L2 d D1 va pte (with_V false e) Hok2 HD2 Hva Hs Hle') as (T' & Est & Hokw & St). rewrite Est in E. cbn [obind] in E.
  set (w := set_tabs v2 T') in *. apply obind_Ok_inv in E as (v4 & E4 & E).
  destruct (updated_run d c w D1 v4 HD2 E4) as (s & ->). clear E4 Est.
  match type of E with context [get_pte ?x pte] => change x with T' in E end.
  rewrite (get_pte_entry _ _ _ (st_entry _ _ _ _ _ _ _ _ _ St)) in E. cbn [obind] in E.
  unfold unlock_dir, upd_dir in E. cbn [dirs set_krn set_dirs] in E. rewrite lookup_insert_eq in E. cbn [or_fault obind] in E.
  injection E as <- <-. rewrite !insert_insert_eq. match goal with |- context [unlocked ?x] => set (v' := x) end.
  assert (Hcore : same_core w v' /\ unlocked v').
  { eapply (core_locked v d D w v' _ s Hu HD); [exact Ed|reflexivity|done|done]. }
  destruct Hcore as [Hcore Hu']. exists e. split_and!.
  - change (tabs v) with (tabs v1). change (root D) with (root D1). rewrite <- (gr_leaf _ _ _ _ _ _ G d D1 va HD1 Hva).
    unfold leaf. rewrite Hs. cbn [mbind option_bind]. rewrite Ee. cbn [mbind option_bind]. by rewrite Hv.
  - done.
  - split; [exact (st_leaf _ _ _ _ _ _ _ _ _ St)|]. intros d' D' va' HD' Hva' Hne. change (tabs v') with T'.
    destruct (locked_root v d D d' D' HD HD') as (D1' & HD1' & <-). rewrite (st_other _ _ _ _ _ _ _ _ _ St d') by (done || by rewrite Ed).
    exact (gr_leaf _ _ _ _ _ _ G d' D1' va' HD1' Hva').
  - done.
  - pose proof (gr_rest _ _ _ _ _ _ G) as Er. injection Er as _ _ Er _. exact Er.
  - by apply (locked_roots v d D w v' HD).
  - destruct (unmap_ghost v2 p2 L2 priv att d D1 va pte e T' Hvm2 HD2 Hva Hs Ee Hv Hokw St) as (att' & Hvmw & Hatt).
    pose proof (gr_rest _ _ _ _ _ _ G) as Er. injection Er as _ _ Er _. rewrite Er in Hatt.
    exists p2, L2, att'. split; [by apply (same_core_ok w)|exact Hatt].
Qed.
End Steps.
