(* ===== verification/PageSys.v ===== *)
(** The system calls of src/page.cpp, new address spaces, their end, and device
    mappings keep the invariant; the steps of the memory system. *)

From Stdlib Require Import ZArith Lia List.
From stdpp Require Import base numbers list gmap fin_maps sets relations.
From S2P Require Import Prelude Bits KAlloc Kernel Sched Process Page PageProps PageOps PageFrames PageSteps.

Local Open Scope Z_scope.

Section Sys.
Context {H : Type} {PS : page_source H}.
Implicit Types (v : vm H) (d : Z) (pos : gmap Z (Z * list nat)) (L : gset Z) (priv : gmap Z (Z * nat)) (att : gmap (Z * nat) Z) (Sh : list SharedPage).

(** ** The list of shared pages *)

Lemma map_kva_bump Sh i p n : Sh !! i = Some p -> map sp_kva (<[i := bump n p]> Sh) = map sp_kva Sh.
Proof. intros Hp. etransitivity; [apply (list_fmap_insert sp_kva)|]. apply list_insert_id. rewrite list_lookup_fmap, Hp. done. Qed.

Lemma elem_insert Sh i p x : x ∈ <[i := p]> Sh -> x = p \/ x ∈ Sh.
Proof.
  intros Hx. apply list_elem_of_lookup in Hx as [j Hj]. destruct (decide (j = i)) as [->|Hne].
  - apply list_lookup_insert_Some in Hj as [(_ & -> & _)|[? _]]; [by left|done].
  - rewrite list_lookup_insert_ne in Hj by done. right. by eapply list_elem_of_lookup_2.
Qed.

Lemma owners_bump Sh pos L priv att i p n :
  owners_ok Sh pos L priv att -> Sh !! i = Some p -> u64 (sp_cnt p + n) = sp_cnt p + n ->
  Z.of_nat (mappings att (sp_kva p)) <= sp_cnt p + n -> owners_ok (<[i := bump n p]> Sh) pos L priv att.
Proof.
  intros [A1 A2 A3 A4] Hp Hn Hc. split; rewrite ?(map_kva_bump _ _ _ _ Hp); try done.
  intros x Hx. apply elem_insert in Hx as [->|Hx]; [|by apply A2].
  destruct (A2 p ltac:(by eapply list_elem_of_lookup_2)) as (? & ? & ?). cbn [bump sp_kva sp_cnt]. rewrite Hn. split_and!; [done|done|lia|].
  rewrite <- Hn. apply u64_range.
Qed.

(** A new shared page that nobody has attached yet. *)
Lemma owners_new Sh pos L priv att key k :
  owners_ok Sh pos L priv att -> k ∉ L -> pos !! k = None -> owners_ok (Sh ++ [MkShared key k 0]) pos ({[k]} ∪ L) priv att.
Proof.
  intros [A1 A2 A3 A4] Hk Hp.
  assert (HL : forall x, x ∈ map sp_kva Sh -> x ∈ L) by (intros x Hx; apply list_elem_of_fmap in Hx as (q & -> & Hq); by apply A2).
  split.
  - intros k' x Hx. destruct (A1 k' x Hx) as (? & ? & Hn). split_and!; [set_solver|done|]. rewrite map_app. intros [?|Hin]%elem_of_app; [done|].
    apply list_elem_of_singleton in Hin as ->. done.
  - intros q [Hq|Hq]%elem_of_app.
    + destruct (A2 q Hq) as (? & ? & ?). split_and!; [set_solver|done|lia|lia].
    + apply list_elem_of_singleton in Hq as ->. cbn [sp_kva sp_cnt]. split_and!; [set_solver|done| |lia].
      unfold mappings. replace (filter (to_frame k) att) with (∅ : gmap (Z * nat) Z); [by rewrite map_size_empty|].
      symmetry. apply map_empty. intros x. apply map_lookup_filter_None. right. intros k' Hx Hf. apply Hk, HL. rewrite <- Hf. by eapply A3.
  - intros x k' Hx. rewrite map_app. apply elem_of_app. left. by eapply A3.
  - rewrite map_app. apply NoDup_app. split_and!; [done| |apply NoDup_singleton]. intros x Hx Hin.
    apply list_elem_of_singleton in Hin as ->. by apply Hk, HL.
Qed.

(** The last mapping of a shared frame is gone: the frame goes back. *)
Lemma owners_release Sh pos L priv att i p :
  owners_ok Sh pos L priv att -> Sh !! i = Some p -> mappings att (sp_kva p) = 0%nat ->
  owners_ok (delete i Sh) pos (L ∖ {[sp_kva p]}) priv att.
Proof.
  intros [A1 A2 A3 A4] Hp Hm.
  assert (Hsplit : map sp_kva Sh ≡ₚ sp_kva p :: map sp_kva (delete i Sh)).
  { rewrite (delete_Permutation Sh i p Hp) at 1. done. }
  assert (Hsub : forall x, x ∈ map sp_kva (delete i Sh) -> x ∈ map sp_kva Sh) by (intros x Hx; rewrite Hsplit; by right).
  rewrite Hsplit in A4. apply NoDup_cons in A4 as [Hnin A4]. split.
  - intros k x Hk. destruct (A1 k x Hk) as (? & ? & Hn). split_and!; [|done|by intros ?%Hsub].
    assert (k <> sp_kva p); [|set_solver]. intros ->. apply Hn. by apply list_elem_of_fmap_2, list_elem_of_lookup_2 with i.
  - intros q Hq. assert (Hq' : q ∈ Sh) by (by eapply delete_from). destruct (A2 q Hq') as (? & ? & ?). split_and!; [|done|lia|lia].
    assert (sp_kva q <> sp_kva p); [|set_solver]. intros E. apply Hnin. rewrite <- E. by apply list_elem_of_fmap_2.
  - intros x k Hx. pose proof (A3 x k Hx) as Hin. rewrite Hsplit in Hin. apply elem_of_cons in Hin as [->|Hin]; [|done].
    exfalso. pose proof (mappings_delete att x (sp_kva p) Hx). lia.
  - done.
Qed.

(** ** Attaching and detaching *)

(** The page sys_shmpageget finds or makes, its counter up. *)
Definition shared_for (key : Z) v : outcome (SharedPage * vm H) :=
  '(i, v) <- match find_shared key (shared_pages v) with
             | Some i => Ok (i, v)
             | None =>
                 '(kva, v) <- kalloc_page v ;;
                 Ok (length (shared_pages v), set_shared_pages v (shared_pages v ++ [MkShared key kva 0]))
             end ;;
  p <- or_fault (shared_pages v !! i) ;;
  Ok (p, set_shared_pages v (<[i := bump 1 p]> (shared_pages v))).

Lemma shmget_eq key c v : sys_shmpageget key c v =
  ('(p, v) <- shared_for (u64 key) v ;; d <- current_process (krn v) c ;; attach_shared_page d (sp_kva p) c v).
Proof.
  unfold sys_shmpageget, shared_for. destruct (match find_shared _ _ with Some _ => _ | None => _ end) as [[i w]| | |]; try done.
  cbn [obind]. by destruct (shared_pages w !! i).
Qed.

Lemma find_shared_Some key Sh i : find_shared key Sh = Some i -> exists p, Sh !! i = Some p /\ sp_key p = key.
Proof.
  revert i. induction Sh as [|p Sh IH]; intros i E; [done|]. cbn [find_shared] in E. destruct (Z.eqb_spec (sp_key p) key) as [Hk|Hk].
  - injection E as <-. by exists p.
  - destruct (find_shared key Sh) as [j|]; [|done]. injection E as <-. destruct (IH j eq_refl) as (q & Hq & Hk'). by exists q.
Qed.

Lemma find_shared_None key Sh p : find_shared key Sh = None -> p ∈ Sh -> sp_key p <> key.
Proof.
  induction Sh as [|q Sh IH]; intros E Hp; [by apply elem_of_nil in Hp|]. cbn [find_shared] in E.
  destruct (Z.eqb_spec (sp_key q) key) as [Hk|Hk]; [done|]. destruct (find_shared key Sh); [done|].
  apply elem_of_cons in Hp as [->|Hp]; [done|by apply IH].
Qed.

(** The counters cannot wrap around. *)
Definition counters_low v : Prop := forall p, p ∈ shared_pages v -> sp_cnt p < 2 ^ 64 - 1.

Lemma bump_run v pos L priv att i p :
  vm_ok v pos L priv att -> shared_pages v !! i = Some p -> sp_cnt p < 2 ^ 64 - 1 ->
  vm_ok (set_shared_pages v (<[i := bump 1 p]> (shared_pages v))) pos L priv att /\
  counted (<[i := bump 1 p]> (shared_pages v)) att (sp_kva p).
Proof.
  intros [Hok Hl Hw] Hp Hc. destruct (ow_shared _ _ _ _ _ Hw p ltac:(by eapply list_elem_of_lookup_2)) as (_ & _ & Hm).
  assert (Eu : u64 (sp_cnt p + 1) = sp_cnt p + 1) by (apply u64_small; lia). split.
  - split; [by destruct Hok; split|done|]. apply owners_bump; [done|done|done|lia].
  - exists (bump 1 p). split; [apply list_elem_of_lookup_2 with i; apply list_lookup_insert_eq; by eapply lookup_lt_Some|].
    split; [done|]. cbn [bump sp_cnt]. lia.
Qed.

Lemma shared_for_ok key v pos L priv att p w :
  vm_ok v pos L priv att -> counters_low v -> shared_for key v = Ok (p, w) ->
  sp_key p = key /\ krn w = krn v /\ dirs w = dirs v /\ tabs w = tabs v /\ good_page (sp_kva p) /\
  (p ∈ shared_pages v \/ (forall q, q ∈ shared_pages v -> sp_key q <> key) /\ sp_kva p ∉ L) /\
  (exists i, shared_pages w !! i = Some (bump 1 p)) /\
  exists L', vm_ok w pos L' priv att /\ counted (shared_pages w) att (sp_kva p).
Proof.
  intros Hvm Hlow E. unfold shared_for in E. destruct (find_shared key (shared_pages v)) as [i|] eqn:Ef.
  - cbn [obind] in E. destruct (find_shared_Some _ _ _ Ef) as (q & Hq & Hk). rewrite Hq in E. cbn [or_fault obind] in E. injection E as <- <-.
    assert (Hin : q ∈ shared_pages v) by (by eapply list_elem_of_lookup_2).
    destruct (bump_run v pos L priv att i q Hvm Hq (Hlow q Hin)) as [Hvm' Hc]. split_and!; try done.
    + eapply pages_out_good; [apply (so_out _ _ _ (vo_state _ _ _ _ _ Hvm))|]. by apply (ow_shared _ _ _ _ _ (vo_owners _ _ _ _ _ Hvm)).
    + by left.
    + exists i. cbn. apply list_lookup_insert_eq. by eapply lookup_lt_Some.
    + by exists L.
  - apply obind_Ok_inv in E as ([i v0] & E0 & E). apply obind_Ok_inv in E0 as ([k v1] & E1 & E0). injection E0 as <- <-.
    destruct (kalloc_page_ok v pos L (vo_state _ _ _ _ _ Hvm)) as [E1'|(k' & h & E1' & Hk & Hg & Hh)]; rewrite E1' in E1; [done|]. injection E1 as -> <-.
    cbn [shared_pages set_shared_pages set_vheap] in E. rewrite list_lookup_middle in E by done. cbn [or_fault obind] in E. injection E as <- <-.
    set (v1 := set_shared_pages (set_vheap v h) (shared_pages v ++ [MkShared key k 0])).
    assert (Hvm1 : vm_ok v1 pos ({[k]} ∪ L) priv att).
    { destruct Hvm as [[Ht Ho Hi] Hl Hw]. split; [split; [done|done|]|done|].
      - intros q x Hq. specialize (Hi q x Hq). set_solver.
      - apply owners_new; [done|done|]. destruct (pos !! k) eqn:Ex; [|done]. by apply Hi in Ex. }
    destruct (bump_run v1 pos ({[k]} ∪ L) priv att (length (shared_pages v)) (MkShared key k 0) Hvm1) as [Hvm' Hc]; [by apply list_lookup_middle|done|].
    split_and!; try done.
    + right. split; [|done]. intros q. by apply find_shared_None.
    + exists (length (shared_pages v)). cbn. apply list_lookup_insert_eq. rewrite length_app. cbn. lia.
    + by exists ({[k]} ∪ L).
Qed.

Lemma find_shared_keys key Sh Sh' : map sp_key Sh = map sp_key Sh' -> find_shared key Sh = find_shared key Sh'.
Proof.
  revert Sh'. induction Sh as [|p Sh IH]; intros [|p' Sh'] E; try done. injection E as Ep E. cbn [find_shared]. by rewrite Ep, (IH Sh' E).
Qed.

Lemma find_shared_bump key Sh i p n : Sh !! i = Some p -> find_shared key (<[i := bump n p]> Sh) = find_shared key Sh.
Proof.
  intros Hp. apply find_shared_keys. etransitivity; [apply (list_fmap_insert sp_key)|]. apply list_insert_id. rewrite list_lookup_fmap, Hp. done.
Qed.

Lemma find_shared_last key Sh k : find_shared key Sh = None -> find_shared key (Sh ++ [MkShared key k 0]) = Some (length Sh).
Proof.
  induction Sh as [|p Sh IH]; intros E; cbn [find_shared app length] in *; [cbn; by rewrite Z.eqb_refl|].
  destruct (sp_key p =? key); [done|]. destruct (find_shared key Sh); [done|]. by rewrite IH.
Qed.

(** The next call with the same key finds the same shared page. *)
Lemma shared_for_found key v p w : shared_for key v = Ok (p, w) ->
  exists i, find_shared key (shared_pages w) = Some i /\ shared_pages w !! i = Some (bump 1 p) /\
    (forall j q, find_shared key (shared_pages v) = Some j -> shared_pages v !! j = Some q -> p = q).
Proof.
  unfold shared_for. intros E. destruct (find_shared key (shared_pages v)) as [i|] eqn:Ef.
  - destruct (find_shared_Some _ _ _ Ef) as (q & Hq & _). cbn [obind] in E. rewrite Hq in E. injection E as <- <-. exists i.
    cbn [shared_pages set_shared_pages]. rewrite (find_shared_bump _ _ _ _ _ Hq). split_and!; [done| |intros j q' [= <-] Hq'; congruence].
    apply list_lookup_insert_eq. by eapply lookup_lt_Some.
  - apply obind_Ok_inv in E as ([i v0] & E0 & E). apply obind_Ok_inv in E0 as ([k v1] & Ek & E0). injection E0 as <- <-.
    unfold kalloc_page in Ek. apply obind_Ok_inv in Ek as ([k' h] & _ & Ek). injection Ek as <- <-.
    cbn [shared_pages set_shared_pages set_vheap] in E. rewrite list_lookup_middle in E by done. injection E as <- <-. exists (length (shared_pages v)).
    cbn [shared_pages set_shared_pages set_vheap]. erewrite find_shared_bump by (by apply list_lookup_middle). rewrite find_shared_last by done.
    split_and!; [done| |done]. apply list_lookup_insert_eq. rewrite length_app. cbn. lia.
Qed.

(** detach_loop finds the shared page with this frame, if there is one. *)
Definition detach_at (j : nat) (p : SharedPage) v : outcome (vm H) :=
  let p := bump (-1) p in
  let v := set_shared_pages v (<[j := p]> (shared_pages v)) in
  if sp_cnt p =? 0 then v <- kfree_page (sp_kva p) v ;; Ok (set_shared_pages v (delete j (shared_pages v))) else Ok v.

Lemma detach_loop_spec k v : forall n i, (i + n = length (shared_pages v))%nat ->
  detach_loop k n i v = Ok v /\ (forall j p, (i <= j)%nat -> shared_pages v !! j = Some p -> sp_kva p <> k) \/
  exists j p, shared_pages v !! j = Some p /\ sp_kva p = k /\ detach_loop k n i v = detach_at j p v.
Proof.
  intros n. induction n as [|n IH]; intros i Hi; cbn [detach_loop].
  - left. split; [done|]. intros j p Hj Hp. apply lookup_lt_Some in Hp. lia.
  - destruct (lookup_lt_is_Some_2 (shared_pages v) i ltac:(lia)) as [p Hp]. rewrite Hp. cbn [or_fault obind].
    destruct (Z.eqb_spec (sp_kva p) k) as [Hk|Hk]; [right; by exists i, p|].
    destruct (IH (S i) ltac:(lia)) as [[E Hn]|Hr]; [left|by right]. split; [done|]. intros j q Hj Hq.
    destruct (decide (j = i)) as [->|Hne]; [congruence|]. apply (Hn j); [lia|done].
Qed.

(** detach_loop changes no table and no page directory. *)
Lemma detach_loop_frame k v v' n i : detach_loop k n i v = Ok v' -> dirs v' = dirs v /\ tabs v' = tabs v.
Proof.
  revert i. induction n as [|n IH]; intros i E; cbn [detach_loop] in E; [by injection E as <-|].
  apply obind_Ok_inv in E as (p & _ & E). destruct (sp_kva p =? k); [|by apply IH in E].
  destruct (_ =? 0); [|by injection E as <-]. apply obind_Ok_inv in E as (w & E & E'). injection E' as <-.
  unfold kfree_page in E. apply obind_Ok_inv in E as (h & _ & E). by injection E as <-.
Qed.

(** free_shared_page of an address that is not mapped *)
Lemma free_unmapped v pos L d D va c : state_ok v pos L -> unlocked v -> dirs v !! d = Some D -> 0 <= va < 2 ^ 38 ->
  leaf (tabs v) (root D) va = None -> free_shared_page d va c v = Panic.
Proof.
  intros Hok Hu HD Hva Hn. unfold free_shared_page. rewrite (lock_dir_run v d D Hu HD). cbn [obind].
  set (D1 := pd_set_lock true D). set (v1 := set_dirs v _). assert (HD1 : dirs v1 !! d = Some D1) by apply lookup_insert_eq.
  rewrite HD1. cbn [or_fault obind].
  assert (Hok1 : state_ok v1 pos L) by (destruct Hok as [Ht Ho Hi]; split; [|done|done]; eapply tree_roots; [by apply (same_roots_upd _ d D)|exact Ht]).
  destruct (lookup_ok v1 pos L d D1 va Hok1 HD1 Hva) as [[-> _]|(pte & v2 & p2 & L2 & -> & G & Hs & _)]; [done|]. cbn [obind].
  assert (HD2 : dirs v2 !! d = Some D1) by (by rewrite (grown_dirs _ _ _ _ _ _ G)).
  destruct (slot_entry _ _ _ (so_tree _ _ _ (gr_ok _ _ _ _ _ _ G)) d D1 va pte HD2 Hva Hs) as (e & Ee & _). rewrite (get_pte_entry _ _ _ Ee). cbn [obind].
  pose proof (gr_leaf _ _ _ _ _ _ G d D1 va HD1 Hva) as El. change (tabs v1) with (tabs v) in El. change (root D1) with (root D) in *. rewrite Hn in El.
  unfold leaf in El. rewrite Hs in El. cbn [mbind option_bind] in El. rewrite Ee in El. cbn [mbind option_bind] in El. by destruct (V e).
Qed.

(** One mapping of the frame of [p] less. *)
Lemma detach_at_ok v pos L priv att j p v' :
  vm_ok v pos L priv att -> shared_pages v !! j = Some p -> Z.of_nat (mappings att (sp_kva p)) <= sp_cnt p - 1 ->
  detach_at j p v = Ok v' -> dirs v' = dirs v /\ tabs v' = tabs v /\ exists L', vm_ok v' pos L' priv att.
Proof.
  intros [Hok Hl Hw] Hp Hm E. unfold detach_at in E.
  destruct (ow_shared _ _ _ _ _ Hw p ltac:(by eapply list_elem_of_lookup_2)) as (HL & Hpos & _ & Hlt).
  assert (Eu : u64 (sp_cnt p + -1) = sp_cnt p - 1) by (rewrite u64_small; lia).
  assert (Hw' : owners_ok (<[j := bump (-1) p]> (shared_pages v)) pos L priv att) by (apply owners_bump; [done|done|lia|lia]).
  cbn [bump sp_cnt sp_kva] in E. rewrite Eu in E. destruct (Z.eqb_spec (sp_cnt p - 1) 0) as [Hz|Hz].
  - unfold kfree_page in E. cbn [vheap set_shared_pages] in E.
    destruct (give_page_ok (vheap v) L (sp_kva p) (so_out _ _ _ Hok) HL) as (h & Eh & Hh). rewrite Eh in E. cbn [obind shared_pages set_vheap set_shared_pages] in E.
    injection E as <-. split_and!; [done|done|]. exists (L ∖ {[sp_kva p]}). destruct Hok as [Ht Ho Hi]. split; [split; [done|done|]|done|].
    + intros q x Hq. specialize (Hi q x Hq). assert (q <> sp_kva p) by (intros ->; congruence). set_solver.
    + apply (owners_release _ pos L priv att j (bump (-1) p)); [done| |cbn [bump sp_kva]; lia].
      apply list_lookup_insert_eq. by eapply lookup_lt_Some.
  - injection E as <-. split_and!; [done|done|]. exists L. split; [by destruct Hok|done|].
    exact Hw'.
Qed.

(** The window for shared pages lies in the user's half. *)
Definition window_ok d v : Prop := forall D, dirs v !! d = Some D -> 0 <= shared_page_start D < 2 ^ 38.

Lemma shmget_keeps v key c va v' : invariant v -> counters_low v -> (forall d, current_process (krn v) c = Ok d -> window_ok d v) ->
  sys_shmpageget key c v = Ok (va, v') -> invariant v'.
Proof.
  intros [Hu (pos & L & priv & att & Hvm)] Hlow Hwin E. rewrite shmget_eq in E.
  apply obind_Ok_inv in E as ([p w] & E1 & E). apply obind_Ok_inv in E as (d & Ed & E).
  destruct (shared_for_ok _ v pos L priv att p w Hvm Hlow E1) as (_ & Ek & Edir & _ & Hg & _ & _ & L' & Hvm' & Hc).
  rewrite Ek in Ed. destruct (dirs v !! d) as [D|] eqn:HD.
  2: { unfold attach_shared_page, lock_dir in E. by rewrite Edir, HD in E. }
  destruct (attach_ok w pos L' priv att d D (sp_kva p) c va v') as (_ & Hi & _); try done.
  - unfold unlocked. by rewrite Edir.
  - by rewrite Edir.
  - by apply (Hwin d Ed).
Qed.

Lemma shmdt_keeps v va c v' : invariant v -> 0 <= va < 2 ^ 38 -> sys_shmpagedt va c v = Ok v' -> invariant v'.
Proof.
  intros [Hu (pos & L & priv & att & Hvm)] Hva E. unfold sys_shmpagedt in E.
  apply obind_Ok_inv in E as (d & Ed & E). apply obind_Ok_inv in E as ([k w] & E1 & E). destruct (dirs v !! d) as [D|] eqn:HD.
  2: { unfold free_shared_page, lock_dir in E1. by rewrite HD in E1. }
  destruct (free_shared_ok v pos L priv att d D va c k w Hvm Hu HD Hva E1) as (e & _ & _ & _ & Hu' & Esh & _ & pos' & L' & att' & Hvm' & Hatt).
  destruct (detach_loop_spec k w (length (shared_pages w)) 0) as [[E' _]|(j & p & Hp & Hk & E')]; [lia| |].
  - rewrite E' in E. injection E as <-. split; [done|]. by exists pos', L', priv, att'.
  - assert (Hm : Z.of_nat (mappings att' (sp_kva p)) <= sp_cnt p - 1).
    { destruct Hatt as [[_ Hn]|(pte & Hpte & ->)].
      - exfalso. apply Hn. rewrite <- Hk. apply list_elem_of_fmap_2. rewrite <- Esh. by eapply list_elem_of_lookup_2.
      - rewrite Hk. pose proof (mappings_delete att pte k Hpte).
        destruct (ow_shared _ _ _ _ _ (vo_owners _ _ _ _ _ Hvm) p) as (_ & _ & Hc); [rewrite <- Esh; by eapply list_elem_of_lookup_2|].
        rewrite Hk in Hc. lia. }
    rewrite E' in E. destruct (detach_at_ok w pos' L' priv att' j p v' Hvm' Hp Hm E) as (Edir & _ & L'' & Hvm'').
    split; [unfold unlocked; by rewrite Edir|]. by exists pos', L'', priv, att'.
Qed.

(** ** The bound *)

Lemma bound_keeps v d f v' : invariant v -> (forall D, root (f D) = root D /\ pd_lock (f D) = pd_lock D) -> upd_dir v d f = Ok v' -> invariant v'.
Proof.
  intros [Hu (pos & L & priv & att & Hvm)] Hf E. apply upd_dir_Ok in E as (D & HD & ->). destruct (Hf D) as [Hr Hl].
  pose proof (upd_core v d D (f D) (krn v) HD Hr) as Hc. split.
  - intros d' D' HD'. eapply (unlocked_insert v d (f D) Hu); [by rewrite Hl, (Hu d D HD)|exact HD'].
  - exists pos, L, priv, att. by apply (same_core_ok v).
Qed.

Lemma brk_keeps v addr c r v' : invariant v -> sys_brk addr c v = Ok (r, v') -> invariant v'.
Proof.
  intros Hi E. unfold sys_brk in E. apply obind_Ok_inv in E as (d & _ & E). apply obind_Ok_inv in E as (w & E & E'). injection E' as _ <-.
  eapply bound_keeps; [exact Hi| |exact E]. done.
Qed.

Lemma sbrk_keeps v inc c r v' : invariant v -> sys_sbrk inc c v = Ok (r, v') -> invariant v'.
Proof.
  intros Hi E. unfold sys_sbrk, increase_active_private_mem in E. apply obind_Ok_inv in E as (d & _ & E). apply obind_Ok_inv in E as (D & _ & E).
  apply obind_Ok_inv in E as (w & E & E'). injection E' as _ <-. eapply bound_keeps; [exact Hi| |exact E]. done.
Qed.

(** ** A new address space *)

Definition new_root_table : list PageEntry := <[1%nat := decode 0]> boot_table.

Lemma set_kernel_vm_run v root : tabs v !! kernel_root = Some boot_table -> root <> kernel_root ->
  exists T', set_kernel_vm root v = Ok (set_tabs v T') /\ T' !! root = Some new_root_table /\ forall q, q <> root -> T' !! q = tabs v !! q.
Proof.
  intros Hb Hne. unfold set_kernel_vm, bzero_table. cbn [tabs set_tabs]. rewrite lookup_insert_ne by done.
  change (pa2kva PGDIR_PA) with kernel_root. rewrite Hb. cbn [or_fault obind]. unfold get_pte, store_pte, set_pte. cbn [tabs set_tabs fst snd].
  rewrite lookup_insert_eq. cbn [mbind option_bind or_fault obind fst snd].
  change (get_vpn boot_base 2) with 1%nat. replace (boot_table !! 1%nat) with (Some kernel_entry) by done. cbn [or_fault obind].
  exists (<[root := new_root_table]> (<[root := boot_table]> (<[root := zero_table]> (tabs v)))). split; [done|]. split; [apply lookup_insert_eq|].
  intros q Hq. by rewrite !lookup_insert_ne.
Qed.

Lemma new_root_entry i : new_root_table !! i =
  if decide (i < 512)%nat then Some (if decide (i = 257)%nat then kernel_entry else if decide (i = 384)%nat then io_entry else decode 0) else None.
Proof.
  destruct (decide (i < 512)%nat) as [Hi|Hi]; [|apply lookup_ge_None_2; unfold new_root_table, boot_table, zero_table; rewrite !length_insert, length_replicate; lia].
  unfold new_root_table, boot_table. destruct (decide (i = 257)%nat) as [->|H1]; [done|]. destruct (decide (i = 384)%nat) as [->|H2]; [done|].
  destruct (decide (i = 1)%nat) as [->|H3]; [done|]. rewrite !list_lookup_insert_ne by done. by apply lookup_replicate_2.
Qed.

(** Tables outside the trees do not matter for user addresses. *)
Lemma leaf_same T T' ds pos d D va : tree T ds pos -> (forall q x i, pos !! q = Some x -> entry T' (q, i) = entry T (q, i)) ->
  ds !! d = Some D -> 0 <= va < 2 ^ 38 -> leaf T' (root D) va = leaf T (root D) va.
Proof.
  intros Ht Hsame HD Hva. pose proof (tr_root _ _ _ Ht d D HD) as Hr. unfold leaf, slot. rewrite (Hsame _ _ _ Hr).
  destruct (walk_dir _ _ _ Ht (root D) d [] (get_vpn va 2)) as (e2 & E2 & H2); [done|cbn; lia|intros _; by apply user_vpn|apply get_vpn_lt|].
  rewrite E2. cbn [mbind option_bind]. destruct H2 as [->|[(-> & _) H2]]; [done|]. rewrite (Hsame _ _ _ H2).
  destruct (walk_dir _ _ _ Ht (to_kva e2) d [get_vpn va 2] (get_vpn va 1)) as (e1 & E1 & H1); [done|cbn; lia|done|apply get_vpn_lt|].
  rewrite E1. cbn [mbind option_bind]. destruct H1 as [->|[(-> & _) H1]]; [done|]. cbn [mbind option_bind]. by rewrite (Hsame _ _ _ H1).
Qed.

Lemma leaves_same T T' pos priv att : (forall q x i, pos !! q = Some x -> entry T' (q, i) = entry T (q, i)) ->
  leaves_ok T pos priv att -> leaves_ok T' pos priv att.
Proof. intros Hsame Hl q d l i e Hq Hlen He Hv. rewrite (Hsame _ _ _ Hq) in He. by eapply Hl. Qed.

Section NewSpace.
Context (T T' : tables) (ds : gmap Z PageDir) (pos : gmap Z (Z * list nat)) (L : gset Z) (r d : Z) (D0 : PageDir).
Context (Ht : tree T ds pos) (Hin : forall q x, pos !! q = Some x -> q ∈ L) (Hr : r ∉ L) (Hg : good_page r) (Hd : ds !! d = None) (HD0 : root D0 = r).
Context (Er : T' !! r = Some new_root_table) (Eo : forall q, q <> r -> T' !! q = T !! q).

Lemma new_space_entry q i : q <> r -> entry T' (q, i) = entry T (q, i).
Proof. intros Hq. unfold entry. cbn [fst snd]. by rewrite Eo. Qed.

Lemma new_space_tree : tree T' (<[d := D0]> ds) (<[r := (d, [])]> pos).
Proof.
  destruct kernel_page_not_good as [Hnk Hni].
  assert (Hkr : kernel_root <> r) by (intros E; apply Hnk; by rewrite E). assert (Hir : io_table <> r) by (intros E; apply Hni; by rewrite E).
  assert (Hne : forall q x, pos !! q = Some x -> q <> r) by (intros q x Hq ->; by apply Hr, (Hin r x)).
  assert (Hroot : forall i, entry T' (r, i) = new_root_table !! i) by (intros i; unfold entry; cbn [fst snd]; by rewrite Er).
  destruct Ht as [A1 A2 A3 A4 A5 A6 A7 A8]. split.
  - intros d' D' HD'. apply lookup_insert_Some in HD' as [[<- <-]|[Hdd HD']]; [rewrite HD0; apply lookup_insert_eq|].
    pose proof (A1 d' D' HD') as Hp. rewrite lookup_insert_ne; [done|]. intros E. by apply (Hne _ _ Hp).
  - intros q d' l Hq. apply lookup_insert_Some in Hq as [[<- [= <- <-]]|[Hqr Hq]]; [rewrite Er; split_and!; [done|cbn; lia|done]|].
    rewrite Eo by done. by apply (A2 q d' l).
  - intros q d' l i e Hq Hl Hi He. apply lookup_insert_Some in Hq as [[<- [= <- <-]]|[Hqr Hq]].
    + specialize (Hi eq_refl). rewrite Hroot, new_root_entry, decide_True in He by lia. rewrite !decide_False in He by lia. injection He as <-. by left.
    + rewrite new_space_entry in He by done. destruct (A3 q d' l i e Hq Hl Hi He) as [?|[? Hk]]; [by left|right]. split; [done|].
      rewrite lookup_insert_ne; [done|]. intros E. by apply (Hne _ _ Hk).
  - intros q d' l i e Hq Hl He. apply lookup_insert_Some in Hq as [[<- [= <- <-]]|[Hqr Hq]]; [done|].
    rewrite new_space_entry in He by done. by eapply A4.
  - intros d' D' i HD' Hi. rewrite (new_space_entry kernel_root) by done. apply lookup_insert_Some in HD' as [[<- <-]|[Hdd HD']].
    + rewrite HD0, Hroot. unfold entry, new_root_table. cbn [fst snd]. rewrite A7. cbn [mbind option_bind]. apply list_lookup_insert_ne. lia.
    + rewrite new_space_entry by (by apply (Hne _ _ (A1 d' D' HD'))). by apply (A5 d').
  - intros q Hq. destruct (decide (q = r)) as [->|Hqr]; [left; rewrite lookup_insert_eq; by eexists|]. rewrite lookup_insert_ne by done.
    apply A6. by rewrite <- Eo.
  - by rewrite Eo.
  - intros i e He. rewrite new_space_entry in He by done. by apply (A8 i).
Qed.

(** Nothing is mapped in the user half of a new address space. *)
Lemma new_space_empty va : 0 <= va < 2 ^ 38 -> leaf T' r va = None.
Proof.
  intros Hva. pose proof (user_vpn va Hva) as Hi. unfold leaf, slot, entry. cbn [fst snd]. rewrite Er. cbn [mbind option_bind].
  rewrite new_root_entry, decide_True by lia. rewrite !decide_False by lia. done.
Qed.
End NewSpace.

Lemma new_pagedir_ok v pos L priv att d v' :
  vm_ok v pos L priv att -> unlocked v -> dirs v !! d = None -> new_pagedir d v = Ok v' ->
  invariant v' /\ exists D, dirs v' = <[d := D]> (dirs v) /\ root D ∉ L /\
    (forall va, 0 <= va < 2 ^ 38 -> leaf (tabs v') (root D) va = None) /\
    (forall d' D' va, dirs v !! d' = Some D' -> 0 <= va < 2 ^ 38 -> leaf (tabs v') (root D') va = leaf (tabs v) (root D') va).
Proof.
  intros [Hok Hl Hw] Hu Hd E. unfold new_pagedir in E. pose proof Hok as [Ht Ho Hin].
  destruct (kalloc_page_ok v pos L Hok) as [E'|(r & h & E' & Hr & Hg & Hh)]; rewrite E' in E; [done|]. cbn [obind] in E.
  destruct (set_kernel_vm_run (set_vheap v h) r (tr_boot _ _ _ Ht)) as (T' & E2 & Er & Eo); [intros Ek; apply (proj1 kernel_page_not_good); by rewrite <- Ek|].
  rewrite E2 in E. cbn [obind dirs set_tabs set_vheap] in E. injection E as <-. set (D0 := MkPageDir r _ _ _ _ _ _).
  assert (Ht' : tree T' (<[d := D0]> (dirs v)) (<[r := (d, [])]> pos)) by (by apply (new_space_tree (tabs v) T' (dirs v) pos L)).
  assert (Hne : forall q x, pos !! q = Some x -> q <> r) by (intros q x Hq ->; by apply Hr, (Hin r x)).
  assert (Hsame : forall q x i, pos !! q = Some x -> entry T' (q, i) = entry (tabs v) (q, i)).
  { intros q x i Hq. apply (new_space_entry (tabs v) T' r Eo). by eapply Hne. }
  split; [split|].
  - intros d' D' HD'. cbn in HD'. eapply (unlocked_insert v d D0 Hu); [done|exact HD'].
  - exists (<[r := (d, [])]> pos), ({[r]} ∪ L), priv, att. split; [split; [exact Ht'|exact Hh|]|..].
    + intros q x Hq. apply lookup_insert_Some in Hq as [[<- _]|[_ Hq]]; [set_solver|]. specialize (Hin q x Hq). set_solver.
    + intros q d' l i e Hq Hlen He Hv. apply lookup_insert_Some in Hq as [[<- [= <- <-]]|[_ Hq]]; [done|].
      cbn [tabs set_dirs set_tabs] in He. rewrite (Hsame q _ i Hq) in He. by eapply Hl.
    + eapply owners_more; [exact Hw|set_solver|]. intros q x Hq. apply lookup_insert_Some in Hq as [[<- _]|[_ Hq]]; [by right|by left].
  - exists D0. split_and!; [done|done| |].
    + intros va Hva. by apply (new_space_empty T' r Er).
    + intros d' D' va HD' Hva. by apply (leaf_same (tabs v) T' (dirs v) pos d').
Qed.

(** ** The end of an address space *)

Lemma root_entry_skipped T ds pos d D i e : tree T ds pos -> ds !! d = Some D -> (i < 512)%nat -> entry T (root D, i) = Some e -> V e && U e = false.
Proof.
  intros Ht HD Hi He. destruct (Nat.lt_ge_cases i 256) as [Hlo|Hhi].
  - destruct (tr_dir _ _ _ Ht _ _ _ _ _ (tr_root _ _ _ Ht d D HD) ltac:(cbn; lia) ltac:(done) He) as [->|[(_ & _ & _ & ->) _]]; [done|apply andb_false_r].
  - rewrite (kernel_half_root _ _ _ Ht d D i HD) in He by lia. injection He as <-. destruct (decide _); [done|]. by destruct (decide _).
Qed.

Lemma free_loop_skips rec r v : forall n i, (i + n <= 512)%nat ->
  (forall j, (j < 512)%nat -> exists e, entry (tabs v) (r, j) = Some e /\ V e && U e = false) -> free_loop rec n i r v = Ok v.
Proof.
  intros n. induction n as [|n IH]; intros i Hi Hr; [done|]. cbn [free_loop]. destruct (Hr i ltac:(lia)) as (e & He & Hvu).
  rewrite (get_pte_entry _ _ _ He). cbn [obind]. unfold free_entry. rewrite Hvu. cbn [andb].
  replace (negb (V e) || negb (U e)) with true by (by destruct (V e), (U e)). cbn [assert_ obind]. apply IH; [lia|done].
Qed.

(** Only the root goes back: every other entry of it is skipped. *)
Lemma free_root_only v pos L d D : state_ok v pos L -> dirs v !! d = Some D -> free_user_private_mem d v = kfree_page (root D) v.
Proof.
  intros Hok HD. pose proof (so_tree _ _ _ Hok) as Ht. unfold free_user_private_mem. rewrite HD. cbn [or_fault obind freeUserRecur].
  rewrite free_loop_skips; [done|lia|]. intros j Hj. destruct (tree_entry _ _ _ _ _ _ j Ht (tr_root _ _ _ Ht d D HD) Hj) as [e He].
  exists e. split; [done|]. by eapply root_entry_skipped.
Qed.

(** The process is deleted: its root is no longer a table. *)
Definition end_space d v : outcome (vm H) :=
  D <- or_fault (dirs v !! d) ;;
  v <- free_user_private_mem d v ;;
  Ok (set_dirs (set_tabs v (delete (root D) (tabs v))) (delete d (dirs v))).

Lemma end_tree T ds pos d D : tree T ds pos -> ds !! d = Some D ->
  tree (delete (root D) T) (delete d ds) (delete (root D) pos).
Proof.
  intros Ht HD. pose proof (tr_root _ _ _ Ht d D HD) as Hr. destruct kernel_page_not_good as [Hnk Hni].
  assert (Hg : good_page (root D)) by (by apply (tr_page _ _ _ Ht _ _ _ Hr)).
  assert (Hkr : root D <> kernel_root) by (intros E; apply Hnk; by rewrite <- E). assert (Hir : root D <> io_table) by (intros E; apply Hni; by rewrite <- E).
  assert (He : forall q i, q <> root D -> entry (delete (root D) T) (q, i) = entry T (q, i)).
  { intros q i Hq. unfold entry. cbn [fst snd]. by rewrite lookup_delete_ne by done. }
  destruct Ht as [A1 A2 A3 A4 A5 A6 A7 A8]. split.
  - intros d' D' HD'. apply lookup_delete_Some in HD' as [Hdd HD']. pose proof (A1 d' D' HD') as Hp.
    rewrite lookup_delete_ne; [done|]. intros E. rewrite <- E in Hp. congruence.
  - intros q d' l Hq. apply lookup_delete_Some in Hq as [Hqr Hq]. rewrite lookup_delete_ne by done. by apply (A2 q d' l).
  - intros q d' l i e Hq Hl Hi Hx. apply lookup_delete_Some in Hq as [Hqr Hq]. rewrite He in Hx by done.
    destruct (A3 q d' l i e Hq Hl Hi Hx) as [?|[? Hk]]; [by left|right]. split; [done|]. rewrite lookup_delete_ne; [done|].
    intros E. rewrite <- E, Hr in Hk. injection Hk as _ Hk. by destruct l.
  - intros q d' l i e Hq Hl Hx. apply lookup_delete_Some in Hq as [Hqr Hq]. rewrite He in Hx by done. by eapply A4.
  - intros d' D' i HD' Hi. apply lookup_delete_Some in HD' as [Hdd HD']. pose proof (A1 d' D' HD') as Hp.
    rewrite !He; [by apply (A5 d')|done|]. intros E. rewrite E in Hp. congruence.
  - intros q Hq. destruct (decide (q = root D)) as [->|Hqr]; [by rewrite lookup_delete_eq in Hq; destruct Hq|].
    rewrite lookup_delete_ne in Hq by done. rewrite lookup_delete_ne by done. by apply A6.
  - by rewrite lookup_delete_ne.
  - intros i e Hx. rewrite He in Hx by done. by apply (A8 i).
Qed.

Lemma end_keeps v d v' : invariant v -> end_space d v = Ok v' -> invariant v'.
Proof.
  intros [Hu (pos & L & priv & att & [Hok Hl Hw])] E. unfold end_space in E. destruct (dirs v !! d) as [D|] eqn:HD; [|done]. cbn [or_fault obind] in E.
  rewrite (free_root_only v pos L d D Hok HD) in E. unfold kfree_page in E. pose proof Hok as [Ht Ho Hin]. pose proof (tr_root _ _ _ Ht d D HD) as Hr.
  destruct (give_page_ok (vheap v) L (root D) Ho (Hin _ _ Hr)) as (h & Eh & Hh). rewrite Eh in E. cbn [obind] in E. injection E as <-. split.
  - intros d' D' HD'. cbn in HD'. apply lookup_delete_Some in HD' as [_ HD']. by apply (Hu d').
  - exists (delete (root D) pos), (L ∖ {[root D]}), priv, att. split; [split; [by apply end_tree|exact Hh|]|..].
    + intros q x Hq. apply lookup_delete_Some in Hq as [Hne Hq]. specialize (Hin q x Hq). set_solver.
    + intros q d' l i e Hq Hlen Hx Hv. apply lookup_delete_Some in Hq as [Hne Hq]. cbn [tabs set_dirs set_tabs set_vheap] in Hx.
      unfold entry in Hx. cbn [fst snd] in Hx. rewrite lookup_delete_ne in Hx by done. by eapply Hl.
    + cbn [shared_pages set_dirs set_tabs set_vheap]. destruct Hw as [A1 A2 A3 A4].
      assert (Hx : forall k, k ∈ L -> pos !! k = None -> k ∈ L ∖ {[root D]} /\ delete (root D) pos !! k = None).
      { intros k Hk Hp. assert (k <> root D) by (intros ->; congruence). split; [set_solver|]. by rewrite lookup_delete_ne. }
      split; try done.
      * intros k x Hk. destruct (A1 k x Hk) as (H1 & H2 & H3). destruct (Hx k H1 H2). done.
      * intros p Hp. destruct (A2 p Hp) as (H1 & H2 & H3). destruct (Hx _ H1 H2). done.
Qed.

(** ** Devices *)

Lemma io_store v pos L priv att i phys : vm_ok v pos L priv att -> is_Some (entry (tabs v) (io_table, i)) ->
  let e := new_entry RWX false true true true phys in
  exists T', store_pte (io_table, i) e v = Ok (set_tabs v T') /\ vm_ok (set_tabs v T') pos L priv att /\
    entry T' (io_table, i) = Some e /\ (forall x, x <> (io_table, i) -> entry T' x = entry (tabs v) x).
Proof.
  intros [Hok Hl Hw] [e0 He0] e. destruct (set_pte_spec (tabs v) (io_table, i) e e0 He0) as (T' & E & Ha & Ho & Hlen).
  unfold store_pte. rewrite E. exists T'. split; [done|]. split; [|by split]. pose proof Hok as [Ht Hout Hin]. destruct kernel_page_not_good as [Hnk Hni].
  assert (Hsame : forall q x j, pos !! q = Some x -> entry T' (q, j) = entry (tabs v) (q, j)).
  { intros q [d l] j Hq. apply Ho. intros [= Eq _]. apply Hni. rewrite <- Eq. by apply (tr_page _ _ _ Ht _ _ _ Hq). }
  assert (Hwf : wf_pte e) by (split; cbn; [done|done|apply Z.mod_pos_bound; lia|lia]).
  split; [split; [|done|done]|by apply (leaves_same (tabs v) T')|done].
  destruct Ht as [A1 A2 A3 A4 A5 A6 A7 A8]. split; auto.
  - intros q d l Hq. cbn [tabs set_tabs]. rewrite Hlen. by apply (A2 q d l).
  - intros q d l j x Hq Hll Hj Hx. cbn [tabs set_tabs] in Hx. rewrite (Hsame _ _ _ Hq) in Hx. by eapply A3.
  - intros q d l j x Hq Hll Hx. cbn [tabs set_tabs] in Hx. rewrite (Hsame _ _ _ Hq) in Hx. by eapply A4.
  - intros d D j HD Hj. cbn [tabs set_tabs]. rewrite (Hsame _ _ _ (A1 d D HD)), (Ho (kernel_root, j)) by done. by apply (A5 d).
  - intros q Hq. apply A6. assert (Hx : is_Some (length <$> T' !! q)) by (destruct Hq as [tb Hq]; cbn in Hq; rewrite Hq; by eexists).
    rewrite Hlen in Hx. destruct (tabs v !! q); [by eexists|by destruct Hx].
  - cbn [tabs set_tabs]. assert (Hlk : length <$> T' !! kernel_root = Some 512%nat) by (rewrite Hlen, A7; done).
    destruct (T' !! kernel_root) as [tb|] eqn:Etb; [|done]. f_equal. apply list_eq. intros j.
    pose proof (Ho (kernel_root, j) ltac:(done)) as Ej. unfold entry in Ej. cbn [fst snd] in Ej. by rewrite Etb, A7 in Ej.
  - intros j x Hx. cbn [tabs set_tabs] in Hx. destruct (decide (j = i)) as [->|Hne].
    + rewrite Ha in Hx. injection Hx as <-. by split.
    + rewrite Ho in Hx by congruence. by apply (A8 j).
Qed.

Definition io_leaf (phys : Z) : PageEntry := new_entry RWX false true true true (Z.shiftr phys 12).

Lemma store_pte_Ok v pte e v' : store_pte pte e v = Ok v' -> is_Some (entry (tabs v) pte).
Proof.
  unfold store_pte, set_pte, entry. intros E. apply obind_Ok_inv in E as (T & E & _). apply obind_Ok_inv in E as (tb & E1 & E).
  apply obind_Ok_inv in E as (x & E2 & _). apply or_fault_Ok in E1, E2. rewrite E1. by exists x.
Qed.

(** The entries ioremap writes, one 2 MiB page after the other. *)
Lemma ioremap_loop_ok pos L priv att : forall n i phys v v', vm_ok v pos L priv att -> ioremap_loop n (io_table, i) phys v = Ok v' ->
  exists T', v' = set_tabs v T' /\ vm_ok v' pos L priv att /\
    (forall k, (k < n)%nat -> entry T' (io_table, (i + k)%nat) = Some (io_leaf (if decide (k = 0)%nat then phys else u64 (phys + Z.of_nat k * 2 ^ 21)))) /\
    (forall x, x.1 <> io_table \/ (x.2 < i)%nat \/ (i + n <= x.2)%nat -> entry T' x = entry (tabs v) x).
Proof.
  intros n. induction n as [|n IH]; intros i phys v v' Hvm E; cbn [ioremap_loop] in E.
  - injection E as <-. exists (tabs v). split_and!; [by destruct v|done|lia|done].
  - apply obind_Ok_inv in E as (v1 & E1 & E). pose proof (store_pte_Ok _ _ _ _ E1) as Hx.
    destruct (io_store v pos L priv att i (Z.shiftr phys 12) Hvm Hx) as (T1 & E1' & Hvm1 & Ha & Ho). rewrite E1' in E1. injection E1 as <-.
    destruct (IH (S i) (u64 (phys + 2 ^ 21)) (set_tabs v T1) v' Hvm1 E) as (T' & -> & Hvm' & Hk & Hoth). exists T'. split_and!; [done|done| |].
    + intros [|k] Hk'; [rewrite Nat.add_0_r, Hoth by (right; left; cbn; lia); exact Ha|].
      replace (i + S k)%nat with (S i + k)%nat by lia. rewrite Hk by lia. do 2 f_equal. destruct (decide (S k = 0)%nat); [lia|].
      destruct (decide (k = 0)%nat) as [->|]; [do 2 f_equal; lia|]. unfold u64. rewrite Zplus_mod_idemp_l. f_equal. lia.
    + intros x Hx'. rewrite Hoth; [|destruct Hx' as [?|[?|?]]; [by left|right; left; lia|right; right; lia]]. cbn [tabs set_tabs].
      apply Ho. intros ->. cbn in Hx'. destruct Hx' as [?|[?|?]]; [done|lia|lia].
Qed.

Lemma ioremap_keeps v phys size va v' : invariant v -> ioremap phys size v = Ok (va, v') -> invariant v'.
Proof.
  intros [Hu (pos & L & priv & att & Hvm)] E. unfold ioremap in E. apply obind_Ok_inv in E as (w & E & E'). injection E' as _ <-.
  destruct (ioremap_loop_ok pos L priv att _ _ _ v w Hvm E) as (T' & -> & Hvm' & _ & _). split; [exact Hu|].
  exists pos, L, priv, att. destruct Hvm' as [[? ? ?] ? ?]. by split.
Qed.

(** * The steps of the memory system *)

(** [va] of a fault and of a detach is an address of the user's half: sys_brk does
    not enforce this for faults (see [brk_admits_kernel_addresses]). *)
Inductive vm_step : vm H -> vm H -> Prop :=
| step_new d v v' : dirs v !! d = None -> new_pagedir d v = Ok v' -> vm_step v v'
| step_fault d va c kva v v' : 0 <= va < 2 ^ 38 -> alloc_page_for_va d va c v = Ok (kva, v') -> vm_step v v'
| step_shmget key c va v v' : counters_low v -> (forall d, current_process (krn v) c = Ok d -> window_ok d v) ->
    sys_shmpageget key c v = Ok (va, v') -> vm_step v v'
| step_shmdt va c v v' : 0 <= va < 2 ^ 38 -> sys_shmpagedt va c v = Ok v' -> vm_step v v'
| step_brk addr c r v v' : sys_brk addr c v = Ok (r, v') -> vm_step v v'
| step_sbrk inc c r v v' : sys_sbrk inc c v = Ok (r, v') -> vm_step v v'
| step_io phys size va v v' : ioremap phys size v = Ok (va, v') -> vm_step v v'
| step_end d v v' : end_space d v = Ok v' -> vm_step v v'
| step_kernel s v : vm_step v (set_krn v s).

Lemma step_inv v v' : vm_step v v' -> invariant v -> invariant v'.
Proof.
  intros Hs Hi. destruct Hs.
  - destruct Hi as [Hu (pos & L & priv & att & Hvm)]. by destruct (new_pagedir_ok v pos L priv att d v').
  - by eapply alloc_keeps.
  - by eapply shmget_keeps.
  - by eapply shmdt_keeps.
  - by eapply brk_keeps.
  - by eapply sbrk_keeps.
  - by eapply ioremap_keeps.
  - by eapply end_keeps.
  - destruct Hi as [Hu (pos & L & priv & att & [[? ? ?] ? ?])]. split; [exact Hu|]. exists pos, L, priv, att. by split.
Qed.

Lemma steps_inv v v' : rtc vm_step v v' -> invariant v -> invariant v'.
Proof. intros Hs. induction Hs as [|x y z Hxy _ IH]; [done|]. intros Hi. by apply IH, (step_inv x). Qed.

(** The system before the first process. *)
Definition booted v : Prop :=
  dirs v = ∅ /\ shared_pages v = [] /\ tabs v !! kernel_root = Some boot_table /\
  (forall q, is_Some (tabs v !! q) -> q = kernel_root \/ q = io_table) /\
  (forall i e, entry (tabs v) (io_table, i) = Some e -> wf_pte e /\ (V e = true -> XWR e = RWX /\ U e = false)) /\
  pages_out (vheap v) ∅.

Lemma booted_inv v : booted v -> invariant v.
Proof.
  intros (Ed & Es & Eb & Et & Ei & Eh). split; [intros d D HD; by rewrite Ed, lookup_empty in HD|]. exists ∅, ∅, ∅, ∅. split; [split; [split|done|]|..].
  all: try (intros *; rewrite ?Ed, ?lookup_empty; done).
  - intros q Hq. right. by apply Et.
  - exact Ei.
  - rewrite Es. split; [intros k x Hx; by rewrite lookup_empty in Hx|intros p Hp; by apply elem_of_nil in Hp|intros x k Hx; by rewrite lookup_empty in Hx|constructor].
Qed.
End Sys.
