(* ===== verification/PageTheorems.v ===== *)
(** Theorems on virtual memory (src/page.hpp, src/page.cpp). *)

From Stdlib Require Import ZArith Lia List.
From stdpp Require Import base numbers list gmap fin_maps sets relations.
From S2P Require Import Prelude Bits KAlloc Kernel Sched SchedProps SchedTheorems Process Page PageProps PageOps PageFrames PageSteps PageSys.

Local Open Scope Z_scope.

(** * The layout of an entry *)

(** C35: the fields of a page table entry and its 64-bit word determine each other,
    and the hardware finds the fields where Sv39 has them: V in bit 0, R, W and X
    in bits 1 to 3, U in bit 4, A in bit 6, the page number from bit 10. *)
Theorem pte_layout e w : wf_pte e -> 0 <= w < 2 ^ 64 ->
  0 <= encode e < 2 ^ 64 /\ decode (encode e) = e /\ encode (decode w) = w /\ wf_pte (decode w) /\
  Z.testbit (encode e) 0 = V e /\ Z.testbit (encode e) 4 = U e /\ Z.testbit (encode e) 6 = A e /\
  field (encode e) 1 3 = XWR e /\ field (encode e) 10 44 = ppn e.
Proof.
  intros Hwf Hw. destruct (encode_fields e _ Hwf eq_refl) as (H0 & _ & _ & _ & H4 & H6 & Hp).
  split_and!; try done; [by apply encode_range|by apply encode_range|by apply decode_encode|by apply encode_decode|apply wf_decode|].
  change (field (encode e) 1 3) with (XWR (decode (encode e))). by rewrite decode_encode.
Qed.

(** * Translation *)

Section Memory.
Context {H : Type} {PS : page_source H}.
Implicit Types (v : vm H) (d : Z).

Lemma vpn_same va va' l : va / 4096 = va' / 4096 -> get_vpn va l = get_vpn va' l.
Proof.
  intros E. apply Nat2Z.inj. rewrite !get_vpn_div. rewrite !Z.pow_add_r by lia. change (2 ^ 12) with 4096.
  rewrite <- !Z.div_div by lia. by rewrite E.
Qed.

Lemma leaf_page T r va va' : va / 4096 = va' / 4096 -> leaf T r va = leaf T r va'.
Proof. intros E. unfold leaf, slot. by rewrite !(vpn_same va va' _ E). Qed.

Lemma user_pa_cases T ds pos d D va : tree T ds pos -> ds !! d = Some D -> 0 <= va < 2 ^ 64 ->
  user_pa T (root D) va = if va <? 2 ^ 38 then (fun e => ppn e * 2 ^ 12 + va mod 4096) <$> leaf T (root D) va else None.
Proof.
  intros Ht HD Hva. destruct (Z.ltb_spec va (2 ^ 38)) as [Hlo|Hhi]; [apply (user_pa_leaf T ds pos Ht d); lia || done|].
  destruct (Z.ltb_spec va (2 ^ 64 - 2 ^ 38)) as [Hm|Hk]; [|apply (user_pa_kernel T ds pos Ht d); lia || done].
  unfold user_pa, translate, canonical. rewrite (proj2 (Z.ltb_ge va (2 ^ 38))) by lia.
  by rewrite (proj2 (Z.leb_gt _ va)) by lia.
Qed.

Lemma leaf_for_ppn kva f e : good_page kva -> ppn (leaf_for kva f e) * 2 ^ 12 = kva2pa kva.
Proof.
  intros (k & E & Hk). unfold leaf_for. destruct (good_page_kva k kva (with_OSflag f (set_as_leaf (kva2pa kva) e)) E Hk eq_refl) as [-> _].
  rewrite E, kva2pa_pa2kva by (unfold PAGE_START, PAGE_END in Hk; lia). lia.
Qed.

Lemma leaf_for_kva kva f e : good_page kva -> to_kva (leaf_for kva f e) = kva.
Proof. intros Hg. unfold to_kva, to_pa. rewrite Z.shiftl_mul_pow2 by lia. rewrite leaf_for_ppn by done. by apply good_page_pa. Qed.

Lemma page_of_leaf e va : wf_pte e -> (ppn e * 2 ^ 12 + va mod 4096) / 4096 * 4096 = ppn e * 2 ^ 12.
Proof.
  intros _. change (2 ^ 12) with 4096. rewrite Z.div_add_l by lia. rewrite (Z.div_small (va mod 4096)); [lia|]. apply Z.mod_pos_bound. lia.
Qed.

(** What the invariant says about a mapped address. *)
Lemma mapped_entry v pos L priv att d D va e : vm_ok v pos L priv att -> dirs v !! d = Some D -> 0 <= va < 2 ^ 38 ->
  leaf (tabs v) (root D) va = Some e ->
  wf_pte e /\ exists pte, slot (tabs v) (root D) va = Some pte /\ entry (tabs v) pte = Some e /\ V e = true /\ frame_ok priv att pte e.
Proof.
  intros [Hok Hl Hw] HD Hva El. pose proof (so_tree _ _ _ Hok) as Ht. unfold leaf in El.
  destruct (slot_spec _ _ _ Ht d D va HD Hva) as [Es|(q & Es & Hq)]; rewrite Es in El; [done|]. cbn [mbind option_bind] in El.
  destruct (slot_entry _ _ _ Ht d D va _ HD Hva Es) as (e' & Ee & Hwf & _). rewrite Ee in El. cbn [mbind option_bind] in El.
  destruct (V e') eqn:Hv; [|done]. injection El as ->. split; [done|]. exists (q, get_vpn va 0). split_and!; [done|done|done|]. by eapply Hl.
Qed.

(** A page that a program can reach is in use, and is no page table. *)
Lemma mapped_not_table v pos L priv att d D va e : vm_ok v pos L priv att -> dirs v !! d = Some D -> 0 <= va < 2 ^ 38 -> leaf (tabs v) (root D) va = Some e ->
  to_kva e ∈ L /\ tabs v !! to_kva e = None.
Proof.
  intros Hvm HD Hva El. pose proof Hvm as [Hok Hl Hw]. pose proof (so_tree _ _ _ Hok) as Ht. destruct kernel_page_not_good as [Hnk Hni].
  destruct (mapped_entry v pos L priv att d D va e Hvm HD Hva El) as (_ & pte & _ & _ & _ & Hg & Hf).
  assert (Hown : to_kva e ∈ L /\ pos !! to_kva e = None).
  { destruct Hf as [[_ Hp]|[_ Ha]]; [by apply (ow_priv _ _ _ _ _ Hw) in Hp as (? & ? & _)|].
    apply (ow_att _ _ _ _ _ Hw) in Ha. apply list_elem_of_fmap in Ha as (p & Ea & Hp). rewrite Ea. by apply (ow_shared _ _ _ _ _ Hw) in Hp as (? & ? & _). }
  split; [apply Hown|]. destruct (tabs v !! to_kva e) eqn:Et; [|done]. exfalso.
  destruct (tr_tables _ _ _ Ht (to_kva e)) as [Hx|[Hx|Hx]]; [by eexists|destruct Hown as [_ Hn]; rewrite Hn in Hx; by destruct Hx|by rewrite Hx in Hg|by rewrite Hx in Hg].
Qed.

(** C5: isolation, as far as it goes.  Take any sequence of process creations, page
    faults below 2^38, attachments of shared memory (while the window for them lies
    below 2^38 and the counters of the shared pages cannot wrap), detachments below
    2^38, changes of the bound, device mappings and process ends.  A process whose
    bound sys_brk or sys_sbrk has raised further can also fault beyond; that breaks
    isolation ([brk_breaks_isolation]).  After such a sequence, whatever a process can access from
    user mode lies below 2^38 in its address space, is a page of the kernel heap,
    and is not a page table of any process nor of the kernel.  Two addresses, of
    one process or of two, that lead to the same page frame are the same address or
    the frame belongs to a shared page. *)
Theorem page_isolation v0 v d D va pa d' D' va' pa' :
  booted v0 -> rtc vm_step v0 v ->
  dirs v !! d = Some D -> 0 <= va < 2 ^ 64 -> user_pa (tabs v) (root D) va = Some pa ->
  dirs v !! d' = Some D' -> 0 <= va' < 2 ^ 64 -> user_pa (tabs v) (root D') va' = Some pa' -> pa / 4096 = pa' / 4096 ->
  let page := pa2kva (pa / 4096 * 4096) in
  va < 2 ^ 38 /\ good_page page /\ tabs v !! page = None /\
  (d = d' /\ va / 4096 = va' / 4096 \/ page ∈ map sp_kva (shared_pages v)).
Proof.
  intros Hb Hs HD Hva Hpa HD' Hva' Hpa' Epg page. destruct (steps_inv _ _ Hs (booted_inv _ Hb)) as [_ (pos & L & priv & att & Hvm)].
  pose proof Hvm as [Hok Hl Hw]. pose proof (so_tree _ _ _ Hok) as Ht.
  rewrite (user_pa_cases _ _ _ d D va Ht HD Hva) in Hpa. rewrite (user_pa_cases _ _ _ d' D' va' Ht HD' Hva') in Hpa'.
  destruct (Z.ltb_spec va (2 ^ 38)) as [Hlo|]; [|done]. destruct (Z.ltb_spec va' (2 ^ 38)) as [Hlo'|]; [|done].
  destruct (leaf (tabs v) (root D) va) as [e|] eqn:El; [|done]. destruct (leaf (tabs v) (root D') va') as [e'|] eqn:El'; [|done].
  injection Hpa as <-. injection Hpa' as <-.
  destruct (mapped_entry v pos L priv att d D va e Hvm HD ltac:(lia) El) as (Hwf & pte & Es & Ee & Hv & Hg & Hf).
  destruct (mapped_entry v pos L priv att d' D' va' e' Hvm HD' ltac:(lia) El') as (Hwf' & pte' & Es' & Ee' & Hv' & Hg' & Hf').
  assert (Ep : page = to_kva e) by (unfold page; rewrite page_of_leaf by done; by apply to_kva_pa).
  assert (Ek : to_kva e = to_kva e').
  { rewrite <- Ep. unfold page. rewrite Epg, page_of_leaf by done. by apply to_kva_pa. }
  split_and!; [done|by rewrite Ep|rewrite Ep; apply (mapped_not_table v pos L priv att d D va e); [done|done|lia|done]|].
  - rewrite Ep. destruct Hf as [[_ Hp]|[_ Ha]]; [|right; by eapply ow_att].
    destruct Hf' as [[_ Hp']|[_ Ha']]; [|right; rewrite Ek; by eapply ow_att].
    left. rewrite Ek in Hp. assert (pte = pte') as -> by congruence. apply (slot_inj _ _ _ Ht d D va d' D' va' pte'); lia || done.
Qed.

(** How the user part of an address space changes when one page is remapped. *)
Lemma remapped_user_pa v v' pos pos' d D va m d' D' D1 va' :
  tree (tabs v) (dirs v) pos -> tree (tabs v') (dirs v') pos' -> remapped v d D va m v' -> dirs v !! d = Some D ->
  dirs v !! d' = Some D' -> dirs v' !! d' = Some D1 -> root D1 = root D' -> 0 <= va' < 2 ^ 64 -> d' <> d \/ va' / 4096 <> va / 4096 ->
  user_pa (tabs v') (root D') va' = user_pa (tabs v) (root D') va'.
Proof.
  intros Ht Ht' [_ Ho] HD HD' HD1 Hr Hva Hne. rewrite (user_pa_cases _ _ _ d' D' va' Ht HD' Hva).
  rewrite <- Hr at 1. rewrite (user_pa_cases _ _ _ d' D1 va' Ht' HD1 Hva), Hr. destruct (Z.ltb_spec va' (2 ^ 38)); [|done].
  rewrite (Ho d' D' va'); [done|done|lia|done].
Qed.

Lemma remapped_page v' pos' d D1 r va kva f e k : tree (tabs v') (dirs v') pos' -> dirs v' !! d = Some D1 -> root D1 = r -> 0 <= va < 2 ^ 38 ->
  good_page kva -> leaf (tabs v') r va = Some (leaf_for kva f e) -> 0 <= k < 4096 ->
  user_pa (tabs v') r (va / 4096 * 4096 + k) = Some (kva2pa kva + k).
Proof.
  intros Ht HD <- Hva Hg El Hk. assert (Hb : 0 <= va / 4096 < 2 ^ 26) by (split; [apply Z.div_pos|apply Z.div_lt_upper_bound]; lia).
  assert (Epg : (va / 4096 * 4096 + k) / 4096 = va / 4096) by (rewrite Z.div_add_l by lia; rewrite (Z.div_small k); lia).
  rewrite (user_pa_cases _ _ _ d D1 _ Ht HD) by lia. rewrite (proj2 (Z.ltb_lt _ _)) by lia.
  rewrite (leaf_page _ _ _ va Epg), El. cbn [fmap option_fmap option_map]. rewrite leaf_for_ppn by done.
  by replace ((va / 4096 * 4096 + k) mod 4096) with k by (rewrite Z.add_comm, Z.mod_add, Z.mod_small by lia; done).
Qed.

Lemma same_roots_fwd (ds ds' : gmap Z PageDir) d D : same_roots ds ds' -> ds !! d = Some D -> exists D', ds' !! d = Some D' /\ root D' = root D.
Proof. intros Hs E. specialize (Hs d). rewrite E in Hs. destruct (ds' !! d) as [D'|]; [|done]. exists D'. split; [done|]. by injection Hs. Qed.

(** The roots before and after a new page. *)
Lemma new_page_roots v d D va kva w pte : dirs v !! d = Some D -> new_page v d D va kva w pte -> same_roots (dirs v) (dirs w).
Proof. intros HD Hnp. rewrite (np_dirs _ _ _ _ _ _ _ Hnp). by apply (same_roots_upd _ d D). Qed.

(** What alloc_page_for_va does to a page that is not mapped. *)
Record fresh_page v d D va kva v' : Prop := {
  fp_inv : invariant v';
  fp_good : good_page kva;
  fp_maps k : 0 <= k < 4096 -> user_pa (tabs v') (root D) (va / 4096 * 4096 + k) = Some (kva2pa kva + k);
  fp_other d' D' va' : dirs v !! d' = Some D' -> 0 <= va' < 2 ^ 64 -> d' <> d \/ va' / 4096 <> va / 4096 ->
    user_pa (tabs v') (root D') va' = user_pa (tabs v) (root D') va';
  fp_new d' D' va' pa : dirs v !! d' = Some D' -> 0 <= va' < 2 ^ 64 -> user_pa (tabs v) (root D') va' = Some pa ->
    pa / 4096 * 4096 <> kva2pa kva;
  fp_dirs d' : (fun D => (root D, user_mem_bound D)) <$> dirs v' !! d' = (fun D => (root D, user_mem_bound D)) <$> dirs v !! d';
  fp_krn : krn v' = krn v \/ exists m, krn v' = emit (krn v) (SendIpi m);
  fp_free : tabs v !! kva = None /\ tabs v' !! kva = None /\ kva ∉ map sp_kva (shared_pages v);
  fp_heap : exists L L', pages_out (vheap v) L /\ kva ∉ L /\ pages_out (vheap v') L' /\ kva ∈ L'
}.

(** A frame that is in use is not the one kalloc returns. *)
Lemma mapped_in_use v pos L priv att d D va pa kva : vm_ok v pos L priv att -> dirs v !! d = Some D -> 0 <= va < 2 ^ 64 ->
  user_pa (tabs v) (root D) va = Some pa -> kva ∉ L -> good_page kva -> pa / 4096 * 4096 <> kva2pa kva.
Proof.
  intros Hvm HD Hva Hpa Hk Hg E. pose proof Hvm as [Hok Hl Hw]. rewrite (user_pa_cases _ _ _ d D va (so_tree _ _ _ Hok) HD Hva) in Hpa.
  destruct (Z.ltb_spec va (2 ^ 38)) as [Hlo|]; [|done]. destruct (leaf (tabs v) (root D) va) as [e|] eqn:El; [|done]. injection Hpa as <-.
  destruct (mapped_entry v pos L priv att d D va e Hvm HD ltac:(lia) El) as (Hwf & pte & _ & _ & _ & _ & Hf).
  rewrite page_of_leaf in E by done. assert (Ek : to_kva e = kva).
  { rewrite <- (proj2 (to_kva_pa e Hwf)), E. by apply good_page_pa. }
  apply Hk. rewrite <- Ek. destruct Hf as [[_ Hp]|[_ Ha]]; [by apply (ow_priv _ _ _ _ _ Hw) in Hp as (? & _)|].
  apply (ow_att _ _ _ _ _ Hw) in Ha. apply list_elem_of_fmap in Ha as (p & Ea & Hp). rewrite Ea. by apply (ow_shared _ _ _ _ _ Hw) in Hp as (? & _).
Qed.

(** A page that is not in use is no page table and not shared. *)
Lemma unused_page v pos L priv att kva : vm_ok v pos L priv att -> kva ∉ L -> good_page kva -> tabs v !! kva = None /\ kva ∉ map sp_kva (shared_pages v).
Proof.
  intros [Hok _ Hw] Hk Hg. destruct kernel_page_not_good as [Hnk Hni]. split.
  - destruct (tabs v !! kva) eqn:Et; [|done]. exfalso. destruct (tr_tables _ _ _ (so_tree _ _ _ Hok) kva) as [[x Hx]|[->| ->]]; [by eexists| |done..].
    by apply Hk, (so_in _ _ _ Hok kva x).
  - intros Ha. apply list_elem_of_fmap in Ha as (p & -> & Hp). by apply (ow_shared _ _ _ _ _ Hw) in Hp as (? & _).
Qed.

Lemma updated_krn d c w v4 : on_page_updated d c w = Ok v4 -> krn v4 = krn w \/ exists m, krn v4 = emit (krn w) (SendIpi m).
Proof.
  unfold on_page_updated, send_intr_to_running_thread. intros E. apply obind_Ok_inv in E as (w1 & E1 & E). apply upd_dir_Ok in E1 as (D & _ & ->).
  apply obind_Ok_inv in E as (p & _ & E). apply obind_Ok_inv in E as (s & Es & E). injection E as <-. cbn [krn set_krn set_dirs] in *.
  apply obind_Ok_inv in Es as (P & _ & Es). apply obind_Ok_inv in Es as (m & _ & Es). injection Es as <-.
  destruct (m =? 0); cbn [negb]; [by left|right; by eexists].
Qed.

Lemma finish_alloc_frame d va pte v r v' : finish_alloc d va pte v = Ok (r, v') -> krn v' = krn v /\
  (forall d', (fun D => (root D, user_mem_bound D)) <$> dirs v' !! d' = (fun D => (root D, user_mem_bound D)) <$> dirs v !! d').
Proof.
  intros E. unfold finish_alloc in E. apply obind_Ok_inv in E as (v1 & E1 & E). apply upd_dir_Ok in E1 as (D1 & H1 & ->).
  apply obind_Ok_inv in E as (v2 & E2 & E). apply upd_dir_Ok in E2 as (D2 & H2 & ->). apply obind_Ok_inv in E as (e & _ & E).
  apply obind_Ok_inv in E as (v3 & E3 & E). apply upd_dir_Ok in E3 as (D3 & H3 & ->). injection E as _ <-. split; [done|].
  cbn [dirs set_dirs] in *. rewrite lookup_insert_eq in H2. injection H2 as <-. rewrite lookup_insert_eq in H3. injection H3 as <-.
  intros d'. destruct (decide (d' = d)) as [->|Hne]; [by rewrite lookup_insert_eq, H1|by rewrite !lookup_insert_ne].
Qed.

Lemma fault_new_page v d D va c :
  invariant v -> dirs v !! d = Some D -> 0 <= va < 2 ^ 38 -> can_tell c (krn v) -> va < user_mem_bound D ->
  user_pa (tabs v) (root D) va = None ->
  alloc_page_for_va d va c v = Panic \/
  exists kva v', alloc_page_for_va d va c v = Ok (kva, v') /\ fresh_page v d D va kva v'.
Proof.
  intros [Hu (pos & L & priv & att & Hvm)] HD Hva Htell Hb Hno. pose proof (so_tree _ _ _ (vo_state _ _ _ _ _ Hvm)) as Ht.
  rewrite (user_pa_leaf _ _ _ Ht d D va HD Hva) in Hno.
  destruct (alloc_page_ok v pos L priv att d D va c Hvm HD (Hu d D HD) Hva Hb)
    as [(e & El & _)|[_ [E|(kva & w & pos' & L' & priv' & pte & Hnp & Hvmw & Hk & E)]]]; [by rewrite El in Hno|by left|right].
  assert (HDw : dirs w !! d = Some (pd_set_lock true D)) by (rewrite (np_dirs _ _ _ _ _ _ _ Hnp); apply lookup_insert_eq).
  destruct (updated_total d c w _ HDw) as (v4 & E4); [by rewrite (np_krn _ _ _ _ _ _ _ Hnp)|].
  destruct (updated_run d c w _ v4 HDw E4) as (s & Ev4). destruct (np_leaf _ _ _ _ _ _ _ Hnp) as (e & Hwf & Ee).
  assert (Ef : exists r v', finish_alloc d va pte v4 = Ok (r, v')).
  { rewrite Ev4. eexists _, _. eapply finish_alloc_run; [cbn [dirs set_krn set_dirs]; apply lookup_insert_eq|exact Ee]. }
  destruct Ef as (r & v' & Ef). rewrite E4 in E. cbn [obind] in E. rewrite Ef in E.
  destruct (alloc_end v d D va kva w pte c r v' Hu HD Hnp) as (-> & Hc & Hu'); [by rewrite E4|].
  exists kva, v'. split; [exact E|]. pose proof (same_core_ok _ _ _ _ _ _ Hc Hvmw) as Hvm'. pose proof (so_tree _ _ _ (vo_state _ _ _ _ _ Hvm')) as Ht'.
  assert (Hroots : same_roots (dirs v) (dirs v')).
  { intros x. rewrite (sc_roots _ _ Hc x). by apply (new_page_roots v d D va kva w pte). }
  assert (El' : leaf (tabs v') (root D) va = Some (leaf_for kva Normal e)).
  { rewrite (sc_tabs _ _ Hc). unfold leaf. rewrite (np_slot _ _ _ _ _ _ _ Hnp). cbn [mbind option_bind]. by rewrite Ee. }
  assert (Hnew : kva ∈ L' /\ tabs v' !! kva = None).
  { destruct (same_roots_fwd _ _ d D Hroots HD) as (D1 & HD1 & Hr1). rewrite <- Hr1 in El'.
    replace kva with (to_kva (leaf_for kva Normal e)) by (by apply leaf_for_kva, Hnp). by apply (mapped_not_table v' pos' L' priv' att d D1 va). }
  destruct (finish_alloc_frame _ _ _ _ _ _ Ef) as [Ekrn Edirs]. split.
  - split; [done|]. by exists pos', L', priv', att.
  - apply Hnp.
  - intros k Hk'. destruct (same_roots_fwd _ _ d D Hroots HD) as (D1 & HD1 & Hr1).
    eapply remapped_page; [exact Ht'|exact HD1|exact Hr1|done|apply Hnp|exact El'|done].
  - intros d' D' va' HD' Hva' Hne. destruct (same_roots_fwd _ _ d' D' Hroots HD') as (D1 & HD1 & Hr1).
    eapply (remapped_user_pa v v' pos pos' d D va); [done|done| |done|done|exact HD1|done|done|done].
    split; [exact El'|]. rewrite (sc_tabs _ _ Hc). apply (np_other _ _ _ _ _ _ _ Hnp).
  - intros d' D' va' pa HD' Hva' Hpa. eapply mapped_in_use; [exact Hvm|done..|apply Hnp].
  - intros d'. rewrite Edirs, Ev4. cbn [dirs set_krn set_dirs]. rewrite (np_dirs _ _ _ _ _ _ _ Hnp), insert_insert_eq.
    destruct (decide (d' = d)) as [->|Hne]; [by rewrite lookup_insert_eq, HD|by rewrite lookup_insert_ne].
  - rewrite Ekrn. rewrite <- (np_krn _ _ _ _ _ _ _ Hnp). by apply (updated_krn d c).
  - destruct (unused_page v pos L priv att kva Hvm ltac:(done) (np_good _ _ _ _ _ _ _ Hnp)). split; [done|]. split; [apply Hnew|done].
  - exists L, L'. split; [apply Hvm|]. split; [done|]. split; [apply Hvm'|apply Hnew].
Qed.

(** C11: the page fault handler's service.  For an address below the bound of the
    process, alloc_page_for_va returns the page that is mapped there already and
    changes nothing; or it panics, when the kernel heap has no page left; or it takes
    a page of the heap that was not in use (it was not allocated, no table and no
    shared page, and no address of any process led to it), the 4096 addresses of the
    page become those of the page it returns, no other address of any process is
    translated differently, and the invariant of all page tables holds again.  At or
    above the bound the whole machine stops. *)
Theorem fault_maps_one_page v d D va c :
  invariant v -> dirs v !! d = Some D -> 0 <= va < 2 ^ 38 -> can_tell c (krn v) ->
  (user_mem_bound D <= va -> alloc_page_for_va d va c v = Panic) /\
  (va < user_mem_bound D ->
    match user_pa (tabs v) (root D) va with
    | Some pa => alloc_page_for_va d va c v = Ok (pa2kva (pa / 4096 * 4096), v)
    | None =>
        alloc_page_for_va d va c v = Panic \/
        exists kva v', alloc_page_for_va d va c v = Ok (kva, v') /\ invariant v' /\
          (good_page kva /\ exists L L', pages_out (vheap v) L /\ kva ∉ L /\ pages_out (vheap v') L' /\ kva ∈ L') /\
          (tabs v !! kva = None /\ tabs v' !! kva = None /\ kva ∉ map sp_kva (shared_pages v)) /\
          (forall d' D' va' pa, dirs v !! d' = Some D' -> 0 <= va' < 2 ^ 64 -> user_pa (tabs v) (root D') va' = Some pa ->
            pa / 4096 * 4096 <> kva2pa kva) /\
          (forall k, 0 <= k < 4096 -> user_pa (tabs v') (root D) (va / 4096 * 4096 + k) = Some (kva2pa kva + k)) /\
          (forall d' D' va', dirs v !! d' = Some D' -> 0 <= va' < 2 ^ 64 -> d' <> d \/ va' / 4096 <> va / 4096 ->
            user_pa (tabs v') (root D') va' = user_pa (tabs v) (root D') va')
    end).
Proof.
  intros [Hu (pos & L & priv & att & Hvm)] HD Hva Htell. pose proof (so_tree _ _ _ (vo_state _ _ _ _ _ Hvm)) as Ht. split.
  { intros Hb. unfold alloc_page_for_va. rewrite HD. cbn [or_fault obind]. by rewrite (proj2 (Z.leb_le _ _) Hb). }
  intros Hb. rewrite (user_pa_leaf _ _ _ Ht d D va HD Hva).
  destruct (alloc_page_ok v pos L priv att d D va c Hvm HD (Hu d D HD) Hva Hb) as [(e & El & E)|[El _]]; rewrite El; cbn [fmap option_fmap option_map].
  - destruct (mapped_entry v pos L priv att d D va e Hvm HD Hva El) as (Hwf & _). rewrite page_of_leaf by done.
    by rewrite (proj2 (to_kva_pa e Hwf)).
  - destruct (fault_new_page v d D va c) as [E|(kva & v' & E & Hf)]; [split; [done|by exists pos, L, priv, att]|done..| |by left|].
    { by rewrite (user_pa_leaf _ _ _ Ht d D va HD Hva), El. }
    right. exists kva, v'. destruct Hf as [F1 F2 F3 F4 F5 _ _ F6 F7]. split; [exact E|]. split; [exact F1|]. split; [by split|]. split; [exact F6|].
    split; [exact F5|]. split; [exact F3|exact F4].
Qed.

(** shared memory.  A successful sys_shmpageget maps the frame of the shared
    page of this key at the next address of the caller's window, where nothing was
    mapped, and changes the translation of no other address of any process; the
    frame is that of the page which existed under the key, whose counter goes up by
    one, and a later call with the key finds the same page. *)
Theorem shared_page_attached v key c d D va v' :
  invariant v -> counters_low v -> current_process (krn v) c = Ok d -> dirs v !! d = Some D -> 0 <= shared_page_start D < 2 ^ 38 ->
  sys_shmpageget key c v = Ok (va, v') ->
  va = shared_page_start D /\ user_pa (tabs v) (root D) va = None /\
  (exists i p, find_shared (u64 key) (shared_pages v') = Some i /\ shared_pages v' !! i = Some p /\
    (forall k, 0 <= k < 4096 -> user_pa (tabs v') (root D) (va / 4096 * 4096 + k) = Some (kva2pa (sp_kva p) + k)) /\
    (forall j q, find_shared (u64 key) (shared_pages v) = Some j -> shared_pages v !! j = Some q -> p = bump 1 q)) /\
  (forall d' D' va', dirs v !! d' = Some D' -> 0 <= va' < 2 ^ 64 -> d' <> d \/ va' / 4096 <> va / 4096 ->
    user_pa (tabs v') (root D') va' = user_pa (tabs v) (root D') va').
Proof.
  intros [Hu (pos & L & priv & att & Hvm)] Hlow Ed HD Hwin E. pose proof (so_tree _ _ _ (vo_state _ _ _ _ _ Hvm)) as Ht.
  rewrite shmget_eq in E. apply obind_Ok_inv in E as ([p w] & E1 & E). apply obind_Ok_inv in E as (d0 & Ed0 & E).
  destruct (shared_for_ok _ v pos L priv att p w Hvm Hlow E1) as (_ & Ek & Edir & Etab & Hg & _ & _ & L' & Hvm' & Hc).
  rewrite Ek, Ed in Ed0. injection Ed0 as <-. rewrite <- Edir in HD.
  destruct (attach_ok w pos L' priv att d D (sp_kva p) c va v') as (-> & [_ (pos2 & L2 & priv2 & att2 & Hvm2)] & Hnone & (e & Hwf & Hre) & Esh & Hroots); try done.
  { unfold unlocked. by rewrite Edir. }
  pose proof (so_tree _ _ _ (vo_state _ _ _ _ _ Hvm2)) as Ht2. rewrite Etab in Hnone. pose proof Hre as [El Ho]. rewrite Etab in Ho.
  assert (HDv : dirs v !! d = Some D) by (by rewrite <- Edir). split_and!.
  - done.
  - by rewrite (user_pa_leaf _ _ _ Ht d D _ HDv Hwin), Hnone.
  - destruct (shared_for_found _ _ _ _ E1) as (i & Hi & Hp & Hold). rewrite Esh. exists i, (bump 1 p). split_and!; [done|done| |].
    + intros k Hk. destruct (same_roots_fwd _ _ d D Hroots HD) as (D1 & HD1 & Hr1).
      eapply remapped_page; [exact Ht2|exact HD1|exact Hr1|done|exact Hg|exact El|done].
    + intros j q Hj Hq. f_equal. by eapply Hold.
  - intros d' D' va' HD' Hva' Hne. rewrite <- Edir in HD'. destruct (same_roots_fwd _ _ d' D' Hroots HD') as (D1 & HD1 & Hr1).
    rewrite Edir in HD'. eapply (remapped_user_pa v v' pos pos2 d D (shared_page_start D)); [done|done| |done|done|exact HD1|done|done|done].
    split; [exact El|]. intros d2 D2 va2 HD2. rewrite <- Edir in HD2. by apply Ho.
Qed.

(** detaching.  sys_shmpagedt of an address at which the caller has nothing
    mapped stops the machine.  Otherwise, when it returns, the page is unmapped at
    this address, and the translation of all other addresses is as before. *)
Theorem shared_page_detached v va c d D :
  invariant v -> current_process (krn v) c = Ok d -> dirs v !! d = Some D -> 0 <= va < 2 ^ 38 ->
  (user_pa (tabs v) (root D) va = None -> sys_shmpagedt va c v = Panic) /\
  (forall v', sys_shmpagedt va c v = Ok v' -> is_Some (user_pa (tabs v) (root D) va) /\ user_pa (tabs v') (root D) va = None /\
    forall d' D' va', dirs v !! d' = Some D' -> 0 <= va' < 2 ^ 64 -> d' <> d \/ va' / 4096 <> va / 4096 ->
      user_pa (tabs v') (root D') va' = user_pa (tabs v) (root D') va').
Proof.
  intros Hinv Ed HD Hva. pose proof Hinv as [Hu (pos & L & priv & att & Hvm)]. pose proof (vo_state _ _ _ _ _ Hvm) as Hok.
  pose proof (so_tree _ _ _ Hok) as Ht. split.
  - rewrite (user_pa_leaf _ _ _ Ht d D va HD Hva). intros Hn. unfold sys_shmpagedt. rewrite Ed. cbn [obind].
    by rewrite (free_unmapped v pos L d D va c Hok Hu HD Hva) by (by destruct (leaf (tabs v) (root D) va)).
  - intros v' E. pose proof (shmdt_keeps v va c v' Hinv Hva E) as [_ (pos2 & L2 & priv2 & att2 & Hvm2)].
    pose proof (so_tree _ _ _ (vo_state _ _ _ _ _ Hvm2)) as Ht2. unfold sys_shmpagedt in E. rewrite Ed in E. cbn [obind] in E.
    apply obind_Ok_inv in E as ([k w] & E1 & E).
    destruct (free_shared_ok v pos L priv att d D va c k w Hvm Hu HD Hva E1) as (e & El & _ & Hre & _ & _ & Hroots & _).
    destruct (detach_loop_frame k w v' _ _ E) as [Edir Etab]. rewrite <- Edir in Hroots.
    assert (Hre' : remapped v d D va None v') by (by destruct Hre as [R1 R2]; split; rewrite Etab).
    split_and!.
    + rewrite (user_pa_leaf _ _ _ Ht d D va HD Hva), El. by eexists.
    + destruct (same_roots_fwd _ _ d D Hroots HD) as (D1 & HD1 & <-). rewrite (user_pa_leaf _ _ _ Ht2 d D1 va HD1 Hva).
      destruct (same_roots_fwd _ _ d D Hroots HD) as (D2 & HD2 & Hr2). replace D1 with D2 by congruence. rewrite Hr2. by rewrite (proj1 Hre').
    + intros d' D' va' HD' Hva' Hne. destruct (same_roots_fwd _ _ d' D' Hroots HD') as (D1 & HD1 & Hr1).
      by eapply (remapped_user_pa v v' pos pos2 d D va).
Qed.

(** ** Devices *)

Lemma io_vpn x : 0 <= x < 2 ^ 30 -> get_vpn (IO_BASE_VA + x) 1 = Z.to_nat (x / 2 ^ 21).
Proof.
  intros Hx. apply Nat2Z.inj. rewrite get_vpn_div. change (12 + 9 * Z.of_nat 1) with 21.
  replace (IO_BASE_VA + x) with ((17179869056 * 2 ^ 9) * 2 ^ 21 + x) by (unfold IO_BASE_VA; lia). rewrite Z.div_add_l by lia.
  assert (Hq : 0 <= x / 2 ^ 21 < 2 ^ 9) by (split; [apply Z.div_pos|apply Z.div_lt_upper_bound]; lia).
  rewrite Z.add_comm, Z.mod_add, Z.mod_small by lia. lia.
Qed.

(** The walk in the window for devices: the table of 2 MiB pages. *)
Lemma io_walk T ds pos d D x : tree T ds pos -> ds !! d = Some D -> 0 <= x < 2 ^ 30 ->
  translate T (root D) (IO_BASE_VA + x) = sv39 T 1 (PGDIR_PA + PAGE_SIZE) (IO_BASE_VA + x) /\
  get_vpn (IO_BASE_VA + x) 1 = Z.to_nat (x / 2 ^ 21) /\ (IO_BASE_VA + x) mod 2 ^ 21 = x mod 2 ^ 21.
Proof.
  intros Ht HD Hx. assert (Hb : IO_BASE_VA = 17179869056 * 2 ^ 30) by done. split_and!.
  - unfold translate, canonical. rewrite (proj2 (Z.leb_le (2 ^ 64 - 2 ^ 38) _)) by (unfold IO_BASE_VA; lia). rewrite orb_true_r.
    assert (Hv2 : get_vpn (IO_BASE_VA + x) 2 = 384%nat).
    { apply Nat2Z.inj. rewrite get_vpn_div. change (12 + 9 * Z.of_nat 2) with 30. rewrite Hb, Z.div_add_l by lia.
      rewrite (Z.div_small x) by lia. done. }
    pose proof (tr_root _ _ _ Ht d D HD) as Hr.
    assert (Eq : pa2kva (kva2pa (root D)) = root D) by (apply good_page_pa, (tr_page _ _ _ Ht _ _ _ Hr)).
    rewrite (sv39_dir T 1 (kva2pa (root D)) _ io_entry); [done| |split_and!; [done|done|split; by vm_compute|done]].
    rewrite Eq, Hv2. by rewrite (kernel_half_root _ _ _ Ht d D 384 HD) by lia.
  - by apply io_vpn.
  - rewrite Hb. replace (17179869056 * 2 ^ 30 + x) with (x + (17179869056 * 2 ^ 9) * 2 ^ 21) by lia. by rewrite Z.mod_add by lia.
Qed.

(** A walk that finds no directory in the device table depends on one entry only. *)
Lemma io_walk_same T T' ds ds' pos pos' va : tree T ds pos -> tree T' ds' pos' ->
  entry T' (io_table, get_vpn va 1) = entry T (io_table, get_vpn va 1) ->
  sv39 T' 1 (PGDIR_PA + PAGE_SIZE) va = sv39 T 1 (PGDIR_PA + PAGE_SIZE) va.
Proof.
  intros Ht Ht' E. destruct (entry T (io_table, get_vpn va 1)) as [e|] eqn:Ee.
  - destruct (tr_io _ _ _ Ht _ _ Ee) as [Hwf Hv]. rewrite (sv39_step T 1 _ va e Ee Hwf), (sv39_step T' 1 _ va e E Hwf).
    destruct (V e); [|done]. by destruct (Hv eq_refl) as [-> _].
  - unfold entry in E, Ee. cbn [fst snd] in E, Ee. change io_table with (pa2kva (PGDIR_PA + PAGE_SIZE)) in E, Ee. cbn [sv39]. by rewrite E, Ee.
Qed.

Lemma io_leaf_walk T A j va : entry T (io_table, get_vpn va 1) = Some (io_leaf (A + j * 2 ^ 21)) -> A mod 2 ^ 21 = 0 -> 0 <= A + j * 2 ^ 21 < 2 ^ 56 ->
  sv39 T 1 (PGDIR_PA + PAGE_SIZE) va = Some (A + j * 2 ^ 21 + va mod 2 ^ 21, encode (io_leaf (A + j * 2 ^ 21))).
Proof.
  intros He HA Hr. set (P := A + j * 2 ^ 21) in *. assert (HP : P mod 2 ^ 21 = 0) by (unfold P; by rewrite Z.mod_add by lia).
  assert (Ep : ppn (io_leaf P) * 2 ^ 12 = P).
  { cbn [io_leaf new_entry ppn]. rewrite Z.shiftr_div_pow2 by lia. rewrite Z.mod_small by (split; [apply Z.div_pos|apply Z.div_lt_upper_bound]; lia).
    rewrite Z.mul_comm, <- (proj2 (Z.div_exact P (2 ^ 12) ltac:(lia))); [done|].
    rewrite (Z.div_mod P (2 ^ 21)), HP by lia. replace (2 ^ 21 * (P / 2 ^ 21) + 0) with ((2 ^ 9 * (P / 2 ^ 21)) * 2 ^ 12) by lia. by rewrite Z.mod_mul by lia. }
  assert (Hwf : wf_pte (io_leaf P)) by (split; cbn; [done|done|apply Z.mod_pos_bound; lia|lia]).
  rewrite (sv39_step T 1 _ va (io_leaf P) He Hwf), Ep. change (12 + 9 * Z.of_nat 1) with 21. by rewrite HP.
Qed.

Lemma ioremap_loop_total pos L priv att : forall n i phys v, vm_ok v pos L priv att ->
  (forall j, (i <= j < i + n)%nat -> is_Some (entry (tabs v) (io_table, j))) -> exists v', ioremap_loop n (io_table, i) phys v = Ok v'.
Proof.
  intros n. induction n as [|n IH]; intros i phys v Hvm Hx; cbn [ioremap_loop]; [by eexists|].
  destruct (io_store v pos L priv att i (Z.shiftr phys 12) Hvm (Hx i ltac:(lia))) as (T' & -> & Hvm' & Ha & Ho). cbn [obind].
  apply (IH (S i)); [done|]. intros j Hj. cbn [tabs set_tabs]. rewrite Ho by (intros [= ->]; lia). apply Hx. lia.
Qed.

(** ioremap.  When the device region fits into what is left of the window, the
    call returns, every address of the region it returns is translated to the
    device's address in every address space, not accessible from user mode, and
    the regions handed out earlier keep their translation. *)
Theorem ioremap_maps_region v x0 phys size :
  invariant v -> length <$> tabs v !! io_table = Some 512%nat -> io_base_va v = IO_BASE_VA + x0 -> 0 <= x0 -> x0 mod 2 ^ 21 = 0 ->
  0 <= phys -> 0 < size -> phys + size <= 2 ^ 55 ->
  let r := phys mod 2 ^ 21 in let n := (size + r) / 2 ^ 21 + bit (negb ((size + r) mod 2 ^ 21 =? 0)) in
  x0 + n * 2 ^ 21 <= 2 ^ 30 ->
  exists v', ioremap phys size v = Ok (io_base_va v + r, v') /\ io_base_va v' = io_base_va v + n * 2 ^ 21 /\
    (forall d D k, dirs v !! d = Some D -> 0 <= k < size ->
      user_pa (tabs v') (root D) (io_base_va v + r + k) = None /\
      exists w, translate (tabs v') (root D) (io_base_va v + r + k) = Some (phys + k, w)) /\
    (forall d D va, dirs v !! d = Some D -> IO_BASE_VA <= va < io_base_va v -> translate (tabs v') (root D) va = translate (tabs v) (root D) va).
Proof.
  intros [Hu (pos & L & priv & att & Hvm)] Hlen Hbase Hx0 Hal Hphys Hsize Hsum r n Hfit.
  assert (Hr : 0 <= r < 2 ^ 21) by (apply Z.mod_pos_bound; lia).
  pose proof (bit_range (negb ((size + r) mod 2 ^ 21 =? 0))) as Hbit. pose proof (Z.div_mod (size + r) (2 ^ 21) ltac:(lia)) as Hdm.
  pose proof (Z.mod_pos_bound (size + r) (2 ^ 21) ltac:(lia)) as Hmb. assert (Hq : 0 <= (size + r) / 2 ^ 21) by (apply Z.div_pos; lia).
  assert (Hcover : size + r <= n * 2 ^ 21).
  { unfold n. destruct (Z.eqb_spec ((size + r) mod 2 ^ 21) 0); cbn [negb bit]; lia. }
  assert (Hn : 0 <= n) by (unfold n; lia). set (i0 := Z.to_nat (x0 / 2 ^ 21)).
  assert (Hxi : x0 = Z.of_nat i0 * 2 ^ 21).
  { unfold i0. rewrite Z2Nat.id by (apply Z.div_pos; lia). pose proof (Z.div_mod x0 (2 ^ 21) ltac:(lia)). lia. }
  set (A := phys / 2 ^ 21 * 2 ^ 21). assert (HA : A = phys - r) by (unfold A, r; pose proof (Z.div_mod phys (2 ^ 21) ltac:(lia)); lia).
  assert (Hi0 : get_vpn (io_base_va v) 1 = i0).
  { rewrite Hbase. apply io_vpn. lia. }
  destruct (ioremap_loop_total pos L priv att (Z.to_nat n) i0 A v Hvm) as (w & Ew).
  { intros j Hj. unfold entry. cbn [fst snd]. destruct (tabs v !! io_table) as [tb|]; [|done]. injection Hlen as Hlen.
    apply lookup_lt_is_Some_2. lia. }
  destruct (ioremap_loop_ok pos L priv att _ _ _ v w Hvm Ew) as (T' & -> & Hvm' & Hnew & Hold).
  pose proof (so_tree _ _ _ (vo_state _ _ _ _ _ Hvm')) as Ht'. pose proof (so_tree _ _ _ (vo_state _ _ _ _ _ Hvm)) as Ht.
  exists (set_io_base_va (set_tabs v T') (io_base_va v + n * 2 ^ 21)). split_and!.
  - unfold ioremap. fold r. rewrite (u64_small (io_base_va v + r)) by (unfold IO_BASE_VA in *; lia).
    rewrite (u64_small (size + r)) by lia. fold n A. change (pa2kva (PGDIR_PA + PAGE_SIZE)) with io_table. rewrite Hi0, Ew. cbn [obind].
    change (io_base_va (set_tabs v T')) with (io_base_va v). by rewrite (u64_small (io_base_va v + n * 2 ^ 21)) by (unfold IO_BASE_VA in *; lia).
  - done.
  - intros d D k HD Hk. cbn [tabs set_io_base_va set_tabs]. set (x := x0 + r + k). replace (io_base_va v + r + k) with (IO_BASE_VA + x) by (unfold x; lia).
    split; [apply (user_pa_kernel _ _ _ Ht' d D); [done|unfold IO_BASE_VA, x; lia]|].
    destruct (io_walk T' _ _ d D x Ht' HD ltac:(unfold x; lia)) as (-> & Hv1 & Hm). set (j := (r + k) / 2 ^ 21).
    assert (Hj : 0 <= j /\ j < n) by (split; [apply Z.div_pos; lia|apply Z.div_lt_upper_bound; lia]).
    assert (Hxj : x / 2 ^ 21 = Z.of_nat i0 + j) by (unfold x, j; rewrite Hxi, <- Z.add_assoc, Z.div_add_l by lia; done).
    assert (Hxm : x mod 2 ^ 21 = (r + k) mod 2 ^ 21) by (unfold x; rewrite Hxi, <- Z.add_assoc, Z.add_comm, Z.mod_add by lia; done).
    rewrite (io_leaf_walk T' A j); [|rewrite Hv1, Hxj|unfold A; apply Z.mod_mul; lia|lia].
    + rewrite Hm, Hxm. eexists. do 2 f_equal. pose proof (Z.div_mod (r + k) (2 ^ 21) ltac:(lia)). fold j in H0. lia.
    + replace (Z.to_nat (Z.of_nat i0 + j)) with (i0 + Z.to_nat j)%nat by lia. rewrite Hnew by lia. do 2 f_equal.
      destruct (decide (Z.to_nat j = 0%nat)); [lia|]. rewrite Z2Nat.id, u64_small by lia. done.
  - intros d D va HD Hva. cbn [tabs set_io_base_va set_tabs]. set (x := va - IO_BASE_VA). replace va with (IO_BASE_VA + x) by (unfold x; lia).
    assert (Hx : 0 <= x < 2 ^ 30) by (unfold x; lia).
    destruct (io_walk T' _ _ d D x Ht' HD Hx) as (-> & Hv1 & _). destruct (io_walk (tabs v) _ _ d D x Ht HD Hx) as (-> & _).
    assert (Hxj : x / 2 ^ 21 < Z.of_nat i0) by (apply Z.div_lt_upper_bound; [lia|unfold x; lia]).
    apply (io_walk_same (tabs v) T' (dirs v) (dirs v) pos pos); [done|done|]. rewrite Hv1. apply Hold. right. left. cbn. pose proof (Z.div_pos x (2 ^ 21)). lia.
Qed.

(** what a process used is not given back.  free_user_private_mem, called when a
    process is deleted, skips all 512 entries of the root, because the entries that
    lead to further tables are made without the U bit it asks for: exactly one
    page, the root itself, goes back to the heap; the other tables and every page
    of the user stay allocated. *)
Theorem user_memory_leaks v d D : invariant v -> dirs v !! d = Some D ->
  exists h, give_page (vheap v) (root D) = Ok h /\ free_user_private_mem d v = Ok (set_vheap v h).
Proof.
  intros [_ (pos & L & priv & att & [Hok _ _])] HD. rewrite (free_root_only v pos L d D Hok HD). unfold kfree_page.
  pose proof (tr_root _ _ _ (so_tree _ _ _ Hok) d D HD) as Hr.
  destruct (give_page_ok (vheap v) L (root D) (so_out _ _ _ Hok) (so_in _ _ _ Hok _ _ Hr)) as (h & E & _). exists h. by rewrite E.
Qed.

(** ** Addresses beyond the user's half *)

(** lookup of an address whose tables are there. *)
Lemma lookup_present root va v e2 e1 : entry (tabs v) (root, get_vpn va 2) = Some e2 -> V e2 = true -> XWR e2 = Noleaf ->
  entry (tabs v) (to_kva e2, get_vpn va 1) = Some e1 -> V e1 = true -> XWR e1 = Noleaf ->
  lookup root va v = Ok ((to_kva e1, get_vpn va 0), v).
Proof.
  intros E2 V2 X2 E1 V1 X1. unfold lookup, descend. rewrite (get_pte_entry _ _ _ E2). cbn [obind]. rewrite X2, V2. cbn [negb Z.eqb Noleaf obind].
  rewrite (get_pte_entry _ _ _ E2). cbn [obind]. rewrite (get_pte_entry _ _ _ E1). cbn [obind]. rewrite X1, V1. cbn [negb Z.eqb Noleaf obind].
  by rewrite (get_pte_entry _ _ _ E1).
Qed.

(** The first lookup in an unused part of the device window adds a table there. *)
Lemma lookup_io v pos L d D va : state_ok v pos L -> dirs v !! d = Some D -> get_vpn va 2 = 384%nat ->
  entry (tabs v) (io_table, get_vpn va 1) = Some (decode 0) ->
  lookup (root D) va v = Panic \/
  exists p h T', lookup (root D) va v = Ok ((p, get_vpn va 0), set_tabs (set_vheap v h) T') /\ p ∉ L /\ good_page p /\ pages_out h ({[p]} ∪ L) /\
    entry T' (io_table, get_vpn va 1) = Some (new_dir p) /\ entry T' (p, get_vpn va 0) = Some (decode 0) /\
    (forall d' D', dirs v !! d' = Some D' -> entry T' (root D', 384%nat) = Some io_entry).
Proof.
  intros Hok HD Hv2 He. pose proof (so_tree _ _ _ Hok) as Ht. destruct kernel_page_not_good as [_ Hni].
  assert (Er : forall d' D', dirs v !! d' = Some D' -> entry (tabs v) (root D', 384%nat) = Some io_entry).
  { intros d' D' HD'. by rewrite (kernel_half_root _ _ _ Ht d' D' 384 HD') by lia. }
  unfold lookup, descend. rewrite Hv2, (get_pte_entry _ _ _ (Er d D HD)). cbn [obind]. change (negb (XWR io_entry =? Noleaf)) with false.
  change (negb (V io_entry)) with false. cbn [obind]. rewrite (get_pte_entry _ _ _ (Er d D HD)). cbn [obind]. change (to_kva io_entry) with io_table.
  rewrite (get_pte_entry _ _ _ He). cbn [obind]. change (negb (XWR (decode 0) =? Noleaf)) with false. change (negb (V (decode 0))) with true. cbn iota.
  destruct (kalloc_page_ok v pos L Hok) as [->|(p & h & -> & Hp & Hg & Hh)]; [by left|right]. cbn [obind]. unfold bzero_table, store_pte. cbn [tabs set_tabs set_vheap].
  assert (Hne : io_table <> p) by (intros E; apply Hni; by rewrite E).
  assert (Hz : entry (<[p := zero_table]> (tabs v)) (io_table, get_vpn va 1) = Some (decode 0)) by (by rewrite entry_bzero, decide_False).
  rewrite (get_pte_entry _ _ _ Hz). cbn [obind]. destruct (set_pte_spec _ _ (new_dir p) _ Hz) as (T' & E & Ha & Ho & _).
  fold (new_dir p). rewrite E. cbn [obind tabs set_tabs set_vheap]. rewrite (get_pte_entry _ _ _ Ha). cbn [obind].
  destruct (new_dir_ok p Hg) as [_ ->]. exists p, h, T'. split_and!; [done|done|done|done|done| |].
  - rewrite Ho by congruence. by rewrite entry_bzero, decide_True, decide_True by (done || apply get_vpn_lt).
  - intros d' D' HD'. pose proof (tr_root _ _ _ Ht d' D' HD') as Hr. assert (root D' <> p) by (intros E'; apply Hp; rewrite <- E'; by eapply so_in).
    assert (root D' <> io_table) by (intros E'; apply Hni; rewrite <- E'; by apply (tr_page _ _ _ Ht _ _ _ Hr)).
    rewrite Ho by congruence. rewrite entry_bzero, decide_False by done. by apply (Er d').
Qed.

(** The end of alloc_page_for_va at such an address. *)
Lemma io_window_page v d D va c kva h p T k v' :
  dirs v !! d = Some D -> tabs v = T -> good_page p -> good_page kva ->
  entry T (root D, 384%nat) = Some io_entry -> get_vpn va 2 = 384%nat ->
  entry T (io_table, get_vpn va 1) = Some (new_dir p) -> entry T (p, get_vpn va 0) = Some (decode 0) ->
  (w <- map_va_kva d va kva Normal c (set_vheap v h) ;; finish_alloc d va (p, get_vpn va 0) w) = Ok (k, v') ->
  k = kva /\ entry (tabs v') (p, get_vpn va 0) = Some (leaf_for kva Normal (decode 0)) /\
  (forall x, x <> (p, get_vpn va 0) -> entry (tabs v') x = entry T x) /\ same_roots (dirs v) (dirs v').
Proof.
  intros HD <- Hp Hg Er Hv2 E1 E0 E. apply obind_Ok_inv in E as (w & Em & E). unfold map_va_kva in Em. cbn [dirs set_vheap] in Em. rewrite HD in Em.
  cbn [or_fault obind] in Em. destruct (new_dir_ok p Hp) as [(Vd & Xd & _) Kd].
  rewrite (lookup_present (root D) va (set_vheap v h) io_entry (new_dir p)) in Em by (done || by rewrite Hv2). rewrite Kd in Em. cbn [obind] in Em.
  change (tabs (set_vheap v h)) with (tabs v) in Em. rewrite (get_pte_entry _ _ _ E0) in Em. cbn [obind] in Em. change (negb (V (decode 0))) with true in Em. cbn [assert_ obind] in Em.
  unfold store_pte in Em. cbn [tabs set_vheap] in Em. destruct (set_pte_spec (tabs v) _ (set_as_leaf (kva2pa kva) (decode 0)) _ E0) as (T1 & E1' & Ha1 & Ho1 & _).
  rewrite E1' in Em. cbn [obind tabs set_tabs] in Em. rewrite (get_pte_entry _ _ _ Ha1) in Em. cbn [obind] in Em.
  fold (leaf_for kva Normal (decode 0)) in Em. destruct (set_pte_spec T1 _ (leaf_for kva Normal (decode 0)) _ Ha1) as (T2 & E2' & Ha2 & Ho2 & _).
  rewrite E2' in Em. cbn [obind] in Em. apply on_page_updated_Ok in Em as (D' & s & HD' & ->). cbn [dirs set_tabs set_vheap] in HD'.
  erewrite finish_alloc_run in E; [|cbn [dirs set_krn set_dirs]; apply lookup_insert_eq|cbn [tabs set_krn set_dirs set_tabs]; exact Ha2].
  injection E as <- <-. split_and!; [by unfold leaf_for; rewrite leaf_to_kva|exact Ha2| |].
  - intros x Hx. cbn [tabs set_krn set_dirs set_tabs]. by rewrite Ho2, Ho1.
  - cbn [dirs set_krn set_dirs set_tabs set_vheap]. rewrite insert_insert_eq.
    apply (same_roots_upd (dirs v) d D' (fun D => pd_set_lock false (pd_set_fifo _ (pd_set_active _ (pd_set_flush_mask _ D)))) HD'). done.
Qed.

(** The walk through a user page in the device window. *)
Lemma io_user_walk T r va p kva : good_page r -> IO_BASE_VA <= va < IO_BASE_VA + 2 ^ 30 -> get_vpn va 2 = 384%nat -> good_page p -> good_page kva ->
  entry T (r, 384%nat) = Some io_entry -> entry T (io_table, get_vpn va 1) = Some (new_dir p) ->
  entry T (p, get_vpn va 0) = Some (leaf_for kva Normal (decode 0)) -> user_pa T r va = Some (kva2pa kva + va mod 4096).
Proof.
  intros Hr Hva Hv2 Hp Hk E2 E1 E0. unfold user_pa, translate, canonical.
  rewrite (proj2 (Z.leb_le (2 ^ 64 - 2 ^ 38) va)) by (unfold IO_BASE_VA in *; lia). rewrite orb_true_r.
  rewrite (sv39_dir T 1 _ va io_entry); [|by rewrite good_page_pa, Hv2|split_and!; [done|done|split; by vm_compute|done]].
  destruct (new_dir_ok p Hp) as [Hd Kd]. rewrite (sv39_dir T 0 _ va (new_dir p)); [|exact E1|done].
  destruct Hd as (_ & _ & Hwf & _). destruct (to_kva_pa _ Hwf) as [_ Eq]. rewrite Kd in Eq.
  destruct (leaf_for_user kva Normal (decode 0) (wf_decode 0) ltac:(unfold Normal; lia)) as [Hwl Hl].
  rewrite (sv39_leaf T _ va (leaf_for kva Normal (decode 0))); [|by rewrite Eq|done|done|done|done].
  cbn [mbind option_bind]. destruct (encode_fields _ _ Hwl eq_refl) as (_ & _ & _ & _ & F4 & _). rewrite F4. cbn [leaf_for with_OSflag set_as_leaf U].
  do 2 f_equal. by apply leaf_for_ppn.
Qed.

(** C36: sys_brk does not check its argument, and this breaks the isolation of
    [page_isolation].  A process that raises its bound beyond the start of the
    device window and touches an unused address there gets a page which is mapped,
    accessible from user mode, at this address in the address space of every
    process: the table it is entered in belongs to the kernel and is shared. *)
Theorem brk_breaks_isolation v0 v d D va c addr kva v' :
  invariant v0 -> current_process (krn v0) c = Ok d -> dirs v0 !! d = Some D -> sys_brk addr c v0 = Ok (1, v) ->
  IO_BASE_VA <= va < IO_BASE_VA + 2 ^ 30 -> va < addr -> entry (tabs v0) (io_table, get_vpn va 1) = Some (decode 0) ->
  alloc_page_for_va d va c v = Ok (kva, v') ->
  forall d' D', dirs v0 !! d' = Some D' -> user_pa (tabs v') (root D') va = Some (kva2pa kva + va mod 4096).
Proof.
  intros Hinv Ed HD Eb Hva Haddr Hfree E d' D' HD'. pose proof (brk_keeps _ _ _ _ _ Hinv Eb) as [Hu (pos & L & priv & att & Hvm)].
  unfold sys_brk in Eb. rewrite Ed in Eb. cbn [obind] in Eb. unfold set_user_mem_bound, upd_dir in Eb. rewrite HD in Eb. injection Eb as <-.
  set (D1 := pd_set_bound addr D) in *. set (v := set_dirs v0 _) in *. assert (HD1 : dirs v !! d = Some D1) by apply lookup_insert_eq.
  rewrite (alloc_page_eq v d D1 va c HD1 (Hu d D1 HD1) Haddr) in E. set (D2 := pd_set_lock true D1) in E. set (v2 := set_dirs v _) in E.
  assert (HD2 : dirs v2 !! d = Some D2) by apply lookup_insert_eq.
  assert (Hvm2 : vm_ok v2 pos L priv att) by (apply (same_core_ok v); [by apply (upd_core v d D1 D2 (krn v))|done]).
  assert (Hv2 : get_vpn va 2 = 384%nat).
  { apply Nat2Z.inj. rewrite get_vpn_div. change (12 + 9 * Z.of_nat 2) with 30. unfold IO_BASE_VA in Hva.
    replace (va / 2 ^ 30) with 17179869056 by (apply Z.div_unique with (va - 17179869056 * 2 ^ 30); lia). done. }
  unfold alloc_locked in E. change (root D1) with (root D2) in E.
  destruct (lookup_io v2 pos L d D2 va (vo_state _ _ _ _ _ Hvm2) HD2 Hv2 Hfree) as [El|(p & h & T' & El & Hp & Hg & Hh & E1 & E0 & Er)];
    rewrite El in E; [done|]. cbn [obind tabs set_tabs] in E. rewrite (get_pte_entry _ _ _ E0) in E. cbn [obind] in E.
  change (V (decode 0)) with false in E. cbn iota in E. unfold kalloc_page in E. cbn [vheap set_tabs set_vheap] in E.
  destruct (take_page_ok h _ Hh) as [Et|(k & h' & Et & _ & Hgk & _)]; rewrite Et in E; [done|]. cbn [obind] in E.
  destruct (io_window_page (set_tabs (set_vheap v2 h) T') d D2 va c k h' p T' kva v' HD2 eq_refl Hg Hgk (Er d D2 HD2) Hv2 E1 E0 E) as (-> & Ea & Eo & _).
  assert (HD2' : exists D2', dirs v2 !! d' = Some D2' /\ root D2' = root D').
  { cbn [v2 v dirs set_dirs]. rewrite insert_insert_eq. destruct (decide (d' = d)) as [->|Hd]; [rewrite lookup_insert_eq; exists D2; split; [done|]; by replace D' with D by congruence|].
    exists D'. by rewrite lookup_insert_ne. }
  destruct HD2' as (D2' & HD2' & <-). pose proof (so_tree _ _ _ (vo_state _ _ _ _ _ Hvm2)) as Ht. pose proof (tr_root _ _ _ Ht d' D2' HD2') as Hr.
  apply (io_user_walk _ _ va p k); [by apply (tr_page _ _ _ Ht _ _ _ Hr)|done|done|done|done| | |exact Ea].
  - rewrite Eo; [by apply (Er d')|]. intros [= Eq _]. apply Hp. rewrite <- Eq. eapply so_in; [apply Hvm2|done].
  - rewrite Eo; [done|]. intros [= Eq _]. apply (proj2 kernel_page_not_good). by rewrite Eq.
Qed.
End Memory.

(** * The hypotheses hold on a small machine *)

(** A source of 100 pages, handed out in order. *)
Module Bump.
Definition limit : nat := 100.
Definition nth_page (n : nat) : Z := pa2kva ((331776 + Z.of_nat n) * 4096).
Definition take (n : nat) : outcome (Z * nat) := if decide (n < limit)%nat then Ok (nth_page n, S n) else Panic.
Definition give (n : nat) (p : Z) : outcome nat := Ok n.
Definition out (n : nat) (L : gset Z) : Prop := forall p, p ∈ L -> exists k, (k < n)%nat /\ (k < limit)%nat /\ p = nth_page k.

Lemma nth_page_good n : (n < limit)%nat -> good_page (nth_page n).
Proof. unfold limit. intros Hn. exists (331776 + Z.of_nat n). split; [done|]. unfold PAGE_START, PAGE_END in *. cbn. lia. Qed.

Lemma nth_page_inj n k : (n < limit)%nat -> (k < limit)%nat -> nth_page n = nth_page k -> n = k.
Proof.
  unfold limit, nth_page. intros Hn Hk E. apply (f_equal kva2pa) in E. rewrite !kva2pa_pa2kva in E by lia. lia.
Qed.

#[global] Instance pages : page_source nat.
Proof.
  refine {| take_page := take; give_page := give; pages_out := out |}.
  - intros n L Hout. unfold take. destruct (decide (n < limit)%nat) as [Hn|]; [right|by left]. exists (nth_page n), (S n).
    split_and!; [done| |by apply nth_page_good|].
    + intros Hin. destruct (Hout _ Hin) as (k & Hk & Hkl & E). apply nth_page_inj in E; lia.
    + intros p [->%elem_of_singleton|Hp]%elem_of_union; [exists n; split_and!; lia || done|].
      destruct (Hout p Hp) as (k & ? & ? & ?). exists k. split_and!; lia || done.
  - intros n L p Hout _. exists n. split; [done|]. intros q Hq. apply Hout. set_solver.
  - intros n L p Hout Hp. destruct (Hout p Hp) as (k & _ & Hk & ->). by apply nth_page_good.
Defined.

(** After booting; the table for devices is empty. *)
Definition boot : vm nat := MkVm OneCpu.quiet 0%nat (<[io_table := zero_table]> {[kernel_root := boot_table]}) ∅ [] IO_BASE_VA.
Definition get (r : outcome (vm nat)) : vm nat := match r with Ok v => v | _ => boot end.
Definition get2 (r : outcome (Z * vm nat)) : vm nat := match r with Ok (_, v) => v | _ => boot end.
(** Processes 501 and 502; 501 touches a page and shares one with 502. *)
Definition m1 := get (new_pagedir 501 boot).
Definition m2 := get (new_pagedir 502 m1).
Definition m3 := get2 (alloc_page_for_va 501 0x200000 0 m2).
Definition m4 := get2 (sys_shmpageget 7 0 m3).
Definition m5 := get2 (sys_brk (2 ^ 64 - 1) 0 m2).
Definition dir_of (d : Z) (v : vm nat) : PageDir := match dirs v !! d with Some D => D | None => MkPageDir 0 0 false 0 0 [] 0 end.

Lemma boot_entry i e : entry (tabs boot) (io_table, i) = Some e -> e = decode 0.
Proof.
  unfold entry. cbn [fst snd tabs boot]. rewrite lookup_insert_eq. cbn [mbind option_bind]. intros Hx.
  apply lookup_replicate_1 in Hx as [-> _]. done.
Qed.

Lemma boot_booted : booted boot.
Proof.
  split_and!; [done|done|done| | |].
  - intros q [tb Hq]. cbn [tabs boot] in Hq. apply lookup_insert_Some in Hq as [[<- _]|[_ Hq]]; [by right|].
    apply lookup_singleton_Some in Hq as [<- _]. by left.
  - intros i e He. apply boot_entry in He as ->. split; [apply wf_decode|done].
  - intros p Hp. by apply elem_of_empty in Hp.
Qed.

Lemma sys_brk_one addr c (v w : vm nat) r : sys_brk addr c v = Ok (r, w) -> r = 1.
Proof. unfold sys_brk. intros E. apply obind_Ok_inv in E as (d & _ & E). apply obind_Ok_inv in E as (u & _ & E). by injection E. Qed.

Lemma get_ok r : is_ok r = true -> r = Ok (get r).
Proof. by destruct r. Qed.
Lemma get2_ok r : is_ok r = true -> exists x, r = Ok (x, get2 r).
Proof. destruct r as [[x v]| | |]; try done. by exists x. Qed.

Lemma m2_reached : rtc vm_step boot m2.
Proof.
  apply rtc_l with m1; [|apply rtc_once].
  - apply (step_new 501); [reflexivity|]. apply get_ok. vm_compute. reflexivity.
  - apply (step_new 502); [vm_compute; reflexivity|]. apply get_ok. vm_compute. reflexivity.
Qed.

Lemma m2_inv : invariant m2.
Proof. apply (steps_inv boot); [exact m2_reached|apply booted_inv, boot_booted]. Qed.

Lemma m3_reached : rtc vm_step boot m3.
Proof.
  eapply rtc_r; [exact m2_reached|]. destruct (get2_ok (alloc_page_for_va 501 0x200000 0 m2)) as [x E]; [vm_compute; reflexivity|].
  apply (step_fault 501 0x200000 0 x); [lia|exact E].
Qed.

Lemma m3_unshared : shared_pages m3 = [].
Proof. vm_compute. reflexivity. Qed.

Lemma dir_ok d v : is_Some (dirs v !! d) -> dirs v !! d = Some (dir_of d v).
Proof. unfold dir_of. by intros [D ->]. Qed.
End Bump.
Import Bump.

Lemma pte_layout_witness : encode (new_entry RWX false true true true 5) = 5359 /\ decode 5359 = new_entry RWX false true true true 5.
Proof.
  destruct (pte_layout (new_entry RWX false true true true 5) 5359) as (_ & E & _); [split; vm_compute; (split; [discriminate|reflexivity])|lia|].
  split; [reflexivity|exact E].
Defined.

Lemma page_isolation_witness :
  let page := pa2kva (kva2pa (nth_page 4) / 4096 * 4096) in
  user_pa (tabs m3) (root (dir_of 501 m3)) 0x200000 = Some (kva2pa (nth_page 4)) /\ tabs m3 !! page = None /\ good_page page.
Proof.
  assert (E : user_pa (tabs m3) (root (dir_of 501 m3)) 0x200000 = Some (kva2pa (nth_page 4))) by (vm_compute; reflexivity).
  assert (HD : dirs m3 !! 501 = Some (dir_of 501 m3)) by (apply dir_ok; vm_compute; by eexists).
  destruct (page_isolation boot m3 501 (dir_of 501 m3) 0x200000 _ 501 (dir_of 501 m3) 0x200000 _ boot_booted m3_reached
    HD ltac:(lia) E HD ltac:(lia) E eq_refl) as (_ & Hg & Ht & _).
  split; [exact E|]. split; [exact Ht|exact Hg].
Defined.

Lemma can_tell_quiet (v : vm nat) : krn v = OneCpu.quiet -> can_tell 0 (krn v).
Proof. intros ->. exists 501. eexists. split; vm_compute; reflexivity. Qed.

(** A fault of process 501 at 0x200000 *)
Lemma fault_maps_one_page_witness : exists kva,
  alloc_page_for_va 501 0x200000 0 m2 = Ok (kva, m3) /\ good_page kva /\ tabs m2 !! kva = None /\
  user_pa (tabs m3) (root (dir_of 501 m2)) (0x200000 / 4096 * 4096 + 5) = Some (kva2pa kva + 5).
Proof.
  assert (Eb : user_mem_bound (dir_of 501 m2) = 0x300000) by (vm_compute; reflexivity).
  assert (En : user_pa (tabs m2) (root (dir_of 501 m2)) 0x200000 = None) by (vm_compute; reflexivity).
  destruct (get2_ok (alloc_page_for_va 501 0x200000 0 m2)) as [x Ex]; [vm_compute; reflexivity|]. fold m3 in Ex. revert Ex. generalize m3. intros w Ex.
  destruct (fault_maps_one_page m2 501 (dir_of 501 m2) 0x200000 0 m2_inv) as [_ Hf]; [apply dir_ok; vm_compute; by eexists|lia| |].
  - apply can_tell_quiet. vm_compute. reflexivity.
  - rewrite En, Eb, Ex in Hf. destruct (Hf ltac:(lia)) as [Hp|(kva & v' & E & _ & [Hg _] & [Ht _] & _ & Hk & _)]; [discriminate Hp|].
    injection E as <- <-. exists x. split; [exact Ex|]. split; [exact Hg|]. split; [exact Ht|]. apply Hk. lia.
Defined.

Lemma shared_page_attached_witness : exists i p,
  find_shared 7 (shared_pages m4) = Some i /\ shared_pages m4 !! i = Some p /\
  user_pa (tabs m4) (root (dir_of 501 m3)) (2 ^ 37 + 5) = Some (kva2pa (sp_kva p) + 5).
Proof.
  destruct (get2_ok (sys_shmpageget 7 0 m3)) as [va E]; [vm_compute; reflexivity|].
  assert (Es : shared_page_start (dir_of 501 m3) = 2 ^ 37) by (vm_compute; reflexivity).
  destruct (shared_page_attached m3 7 0 501 (dir_of 501 m3) va m4) as (Eva & _ & (i & p & Hi & Hp & Hk & _) & _).
  - apply (steps_inv boot); [exact m3_reached|apply booted_inv, boot_booted].
  - unfold counters_low. rewrite m3_unshared. intros p Hp. exfalso. exact (not_elem_of_nil p Hp).
  - vm_compute. reflexivity.
  - apply dir_ok. vm_compute. by eexists.
  - rewrite Es. lia.
  - exact E.
  - exists i, p. split; [exact Hi|]. split; [exact Hp|]. rewrite Eva, Es in Hk.
    specialize (Hk 5 ltac:(lia)). replace (2 ^ 37 / 4096 * 4096) with (2 ^ 37) in Hk by reflexivity. exact Hk.
Defined.

Lemma shared_page_detached_witness : sys_shmpagedt 0x200000 0 m2 = Panic.
Proof.
  destruct (shared_page_detached m2 0x200000 0 501 (dir_of 501 m2) m2_inv) as [Hp _]; [vm_compute; reflexivity|apply dir_ok; vm_compute; by eexists|lia|].
  apply Hp. vm_compute. reflexivity.
Defined.

Lemma ioremap_maps_region_witness : exists v', ioremap 0x10001000 0x300000 m2 = Ok (IO_BASE_VA + 0x1000, v') /\
  exists w, translate (tabs v') (root (dir_of 502 m2)) (IO_BASE_VA + 0x1000 + 0x2fffff) = Some (0x10001000 + 0x2fffff, w).
Proof.
  destruct (ioremap_maps_region m2 0 0x10001000 0x300000 m2_inv) as (v' & E & _ & Hk & _);
    [vm_compute; reflexivity|vm_compute; reflexivity|lia|reflexivity|lia|lia|lia|vm_compute; discriminate|].
  exists v'. split; [exact E|]. destruct (Hk 502 (dir_of 502 m2) 0x2fffff) as [_ Hw]; [apply dir_ok; vm_compute; by eexists|lia|exact Hw].
Defined.

Lemma user_memory_leaks_witness : exists h, free_user_private_mem 501 m2 = Ok (set_vheap m2 h).
Proof.
  destruct (user_memory_leaks m2 501 (dir_of 501 m2) m2_inv) as (h & _ & E); [apply dir_ok; vm_compute; by eexists|]. exists h. exact E.
Defined.

Lemma brk_breaks_isolation_witness : exists kva v', alloc_page_for_va 501 IO_BASE_VA 0 m5 = Ok (kva, v') /\
  user_pa (tabs v') (root (dir_of 502 m2)) IO_BASE_VA = Some (kva2pa kva + 0).
Proof.
  destruct (get2_ok (alloc_page_for_va 501 IO_BASE_VA 0 m5)) as [kva E]; [vm_compute; reflexivity|].
  exists kva, (get2 (alloc_page_for_va 501 IO_BASE_VA 0 m5)). split; [exact E|].
  assert (Eb : sys_brk (2 ^ 64 - 1) 0 m2 = Ok (1, m5)).
  { destruct (get2_ok (sys_brk (2 ^ 64 - 1) 0 m2)) as [x Ex]; [vm_compute; reflexivity|].
    rewrite (sys_brk_one _ _ _ _ _ Ex) in Ex.
    exact Ex. }
  pose proof (brk_breaks_isolation m2 m5 501 (dir_of 501 m2) IO_BASE_VA 0 (2 ^ 64 - 1) kva _ m2_inv
    ltac:(vm_compute; reflexivity) ltac:(apply dir_ok; vm_compute; by eexists) Eb ltac:(unfold IO_BASE_VA; lia) ltac:(unfold IO_BASE_VA; lia)
    ltac:(vm_compute; reflexivity) E 502 (dir_of 502 m2) ltac:(apply dir_ok; vm_compute; by eexists)) as Hu.
  change (IO_BASE_VA mod 4096) with 0 in Hu. exact Hu.
Defined.
