(* ===== verification/E1000.v ===== *)
(** The network card driver: src/drivers/e1000.cpp and what it uses of e1000.h,
    with latency of src/time.cpp.

    The driver shares two rings of descriptors and their packet buffers with the
    card.  A register is addressed by its offset, as in the code.  The card is not
    code of this repository: [dev_step] writes down what its manual promises
    about the rings and what the comments of the register table of e1000.h say
    about the interrupt registers, and nothing else is assumed of it. *)

From Stdlib Require Import ZArith Lia List.
From stdpp Require Import base numbers list gmap.
From S2P Require Import Prelude KAlloc Trie Objects Kernel Sched.

Local Open Scope Z_scope.

(** * e1000.h *)

Definition TXDESCS : Z := 64.
Definition RXDESCS : Z := 64.
Definition TX_PKT_SIZE : Z := 2048.
Definition RX_PKT_SIZE : Z := 2048.

Definition E1000_ICR : Z := 0x000C0.
Definition E1000_IMS : Z := 0x000D0.
Definition E1000_IMC : Z := 0x000D8.
Definition E1000_RCTL : Z := 0x00100.
Definition E1000_TCTL : Z := 0x00400.
Definition E1000_RDBAL : Z := 0x02800.
Definition E1000_RDBAH : Z := 0x02804.
Definition E1000_RDLEN : Z := 0x02808.
Definition E1000_RDH : Z := 0x02810.
Definition E1000_RDT : Z := 0x02818.
Definition E1000_TDBAL : Z := 0x03800.
Definition E1000_TDBAH : Z := 0x03804.
Definition E1000_TDLEN : Z := 0x03808.
Definition E1000_TDH : Z := 0x03810.
Definition E1000_TDT : Z := 0x03818.
Definition E1000_RA : Z := 0x05400.

Definition E1000_RXD_STAT_DD : Z := 0x01.
Definition E1000_TXD_CMD_EOP : Z := 0x01.
Definition E1000_TXD_CMD_RS : Z := 0x08.
Definition E1000_RAH_AV : Z := 0x80000000.
Definition E1000_ICR_TXQE : Z := 0x02.
Definition E1000_ICR_RXDMT0 : Z := 0x10.
Definition E1000_RCTL_EN : Z := 0x02.
Definition E1000_RCTL_BAM : Z := 0x8000.
Definition E1000_TCTL_EN : Z := 0x02.
Definition E1000_TCTL_PSP : Z := 0x08.
Definition E1000_TCTL_CT : Z := 0x0ff0.
Definition E1000_TCTL_COLD : Z := 0x3ff000.

(** struct e1000_rx_desc and struct e1000_tx_desc: 16 bytes each *)
Record e1000_rx_desc := MkRx { rx_addr : Z; rx_length : Z; rx_csum : Z; rx_status : Z; rx_errors : Z; rx_special : Z }.
Record e1000_tx_desc := MkTx { tx_addr : Z; tx_length : Z; tx_cso : Z; tx_cmd : Z; tx_status : Z; tx_css : Z; tx_special : Z }.
Definition DESC_SIZE : Z := 16.

(** The card's registers and the static variables of e1000.cpp *)
Record nic := MkNic {
  e1000 : Z;
  regs : gmap Z Z;
  tx_desc_array : list e1000_tx_desc;
  rx_desc_array : list e1000_rx_desc;
  tx_pkt_buffer : list (list Z);
  rx_pkt_buffer : list (list Z)
}.
Implicit Types n : nic.

Definition set_base n v := MkNic v (regs n) (tx_desc_array n) (rx_desc_array n) (tx_pkt_buffer n) (rx_pkt_buffer n).
Definition set_regs n v := MkNic (e1000 n) v (tx_desc_array n) (rx_desc_array n) (tx_pkt_buffer n) (rx_pkt_buffer n).
Definition set_txd n v := MkNic (e1000 n) (regs n) v (rx_desc_array n) (tx_pkt_buffer n) (rx_pkt_buffer n).
Definition set_rxd n v := MkNic (e1000 n) (regs n) (tx_desc_array n) v (tx_pkt_buffer n) (rx_pkt_buffer n).
Definition set_txb n v := MkNic (e1000 n) (regs n) (tx_desc_array n) (rx_desc_array n) v (rx_pkt_buffer n).
Definition set_rxb n v := MkNic (e1000 n) (regs n) (tx_desc_array n) (rx_desc_array n) (tx_pkt_buffer n) v.

(** The value a register holds; the ones never written hold 0. *)
Definition reg n (r : Z) : Z := default 0 (regs n !! r).
Definition set_reg n (r v : Z) : nic := set_regs n (<[r := v]> (regs n)).

(** e1000_write_reg: IMS sets and IMC clears bits of the interrupt mask, the bits
    written to ICR are acknowledged, the other registers keep what is written. *)
Definition e1000_write_reg (r v : Z) n : nic :=
  if r =? E1000_IMS then set_reg n E1000_IMS (Z.lor (reg n E1000_IMS) v)
  else if r =? E1000_IMC then set_reg n E1000_IMS (Z.ldiff (reg n E1000_IMS) v)
  else if r =? E1000_ICR then set_reg n E1000_ICR (Z.ldiff (reg n E1000_ICR) v)
  else set_reg n r (u32 v).
(** e1000_read_reg: ICR is cleared when it is read. *)
Definition e1000_read_reg (r : Z) n : Z * nic :=
  if r =? E1000_ICR then (reg n r, set_reg n r 0) else (reg n r, n).
Definition e1000_write_reg_array (r offset v : Z) n : nic := e1000_write_reg (r + Z.shiftl offset 2) v n.

(** * latency of src/time.cpp *)

Fixpoint latency_loop (fuel : nat) (begin_time time : Z) (k : kernel) : outcome kernel :=
  match fuel with
  | O => OutOfFuel
  | S fuel => '(now, k) <- get_timer k ;; if u64 (now - begin_time) <? time then latency_loop fuel begin_time time k else Ok k
  end.
Definition latency (fuel : nat) (time : Z) (k : kernel) : outcome kernel :=
  '(begin_time, k) <- get_timer k ;; latency_loop fuel begin_time time k.

(** * The driver *)

(** static const uint8_t enetaddr\[6\] *)
Definition enetaddr : list Z := [0x00; 0x0a; 0x35; 0x00; 0x1e; 0x53].

Section Driver.
(** Where the linker puts the static arrays. *)
Context (tx_desc_at rx_desc_at tx_buf_at rx_buf_at : Z).

(** static void e1000_reset(void) *)
Definition e1000_reset (fuel : nat) n (k : kernel) : outcome (nic * kernel) :=
  let n := e1000_write_reg E1000_RCTL 0 n in
  let n := e1000_write_reg E1000_TCTL 0 n in
  let n := e1000_write_reg E1000_TDH 0 n in
  let n := e1000_write_reg E1000_TDT 0 n in
  let n := e1000_write_reg E1000_RDH 0 n in
  let n := e1000_write_reg E1000_RDT 0 n in
  k <- latency fuel 1 k ;;
  let n := e1000_write_reg E1000_IMC 0xffffffff n in
  let n := e1000_write_reg E1000_ICR 0xffffffff n in
  Ok (n, k).

(** tx_desc_array\[i\] = ..., rx_desc_array\[i\] = ... *)
Definition put_txd (i : Z) (d : e1000_tx_desc) n : outcome nic :=
  _ <- or_fault (tx_desc_array n !! Z.to_nat i) ;; Ok (set_txd n (<[Z.to_nat i := d]> (tx_desc_array n))).
Definition put_rxd (i : Z) (d : e1000_rx_desc) n : outcome nic :=
  _ <- or_fault (rx_desc_array n !! Z.to_nat i) ;; Ok (set_rxd n (<[Z.to_nat i := d]> (rx_desc_array n))).

Definition tx_slot (i : Z) : Z := kva2pa (tx_buf_at + i * TX_PKT_SIZE).
Definition rx_slot (i : Z) : Z := kva2pa (rx_buf_at + i * RX_PKT_SIZE).

(** static void e1000_configure_tx(void) *)
Definition tx_init_desc (i : Z) : e1000_tx_desc := MkTx (tx_slot i) 0 0 (Z.lor E1000_TXD_CMD_RS E1000_TXD_CMD_EOP) 0 0 0.
Definition e1000_configure_tx n : outcome nic :=
  n <- for_range (Z.to_nat TXDESCS) 0 (fun i => put_txd i (tx_init_desc i)) n ;;
  let n := e1000_write_reg E1000_TDBAL (Z.land (kva2pa tx_desc_at) 0xffffffff) n in
  let n := e1000_write_reg E1000_TDBAH (Z.shiftr (kva2pa tx_desc_at) 32) n in
  let n := e1000_write_reg E1000_TDLEN (TXDESCS * DESC_SIZE) n in
  let n := e1000_write_reg E1000_TDH 0 n in
  let n := e1000_write_reg E1000_TDT 0 n in
  Ok (e1000_write_reg E1000_TCTL
    (Z.lor (Z.lor (Z.lor E1000_TCTL_EN E1000_TCTL_PSP) (Z.land E1000_TCTL_CT (Z.shiftl 0x10 4))) (Z.land E1000_TCTL_COLD (Z.shiftl 0x40 12))) n).

(** static void e1000_configure_rx(void) *)
Definition rx_init_desc (i : Z) : e1000_rx_desc := MkRx (rx_slot i) 0 0 0 0 0.
Definition mac (i : nat) : Z := nth i enetaddr 0.
Definition e1000_configure_rx n : outcome nic :=
  let n := e1000_write_reg_array E1000_RA 0
    (Z.lor (Z.lor (Z.lor (u32 (Z.shiftl (mac 3) 24)) (Z.shiftl (mac 2) 16)) (Z.shiftl (mac 1) 8)) (mac 0)) n in
  let n := e1000_write_reg_array E1000_RA 1 (Z.lor (Z.lor E1000_RAH_AV (Z.shiftl (mac 5) 8)) (mac 4)) n in
  n <- for_range (Z.to_nat RXDESCS) 0 (fun i => put_rxd i (rx_init_desc i)) n ;;
  let n := e1000_write_reg E1000_RDBAL (Z.land (kva2pa rx_desc_at) 0xffffffff) n in
  let n := e1000_write_reg E1000_RDBAH (Z.shiftr (kva2pa rx_desc_at) 32) n in
  let n := e1000_write_reg E1000_RDLEN (RXDESCS * DESC_SIZE) n in
  let n := e1000_write_reg E1000_RDH 0 n in
  let n := e1000_write_reg E1000_RDT (RXDESCS - 1) n in
  let n := e1000_write_reg E1000_RCTL (Z.lor E1000_RCTL_EN E1000_RCTL_BAM) n in
  Ok (e1000_write_reg E1000_IMS E1000_ICR_RXDMT0 n).

(** void e1000_init(void *base_addr) *)
Definition e1000_init (fuel : nat) (base_addr : Z) n (k : kernel) : outcome (nic * kernel) :=
  '(n, k) <- e1000_reset fuel (set_base n base_addr) k ;;
  n <- e1000_configure_tx n ;;
  n <- e1000_configure_rx n ;;
  Ok (n, k).

(** memcpy(dst, src, n) for a [length] of type int: a negative one is a huge size. *)
Definition copy_bytes (dst src : list Z) (length : Z) : outcome (list Z) :=
  if (0 <=? length) && (length <=? Z.of_nat (List.length src)) && (length <=? Z.of_nat (List.length dst))
  then Ok (take (Z.to_nat length) src ++ drop (Z.to_nat length) dst) else Fault.

(** int e1000_transmit(void *txpacket, int length): [txpacket] is the memory
    behind the pointer. *)
Definition e1000_transmit (txpacket : list Z) (length : Z) n : outcome (Z * nic) :=
  let '(tdh, n) := e1000_read_reg E1000_TDH n in
  let '(tdt, n) := e1000_read_reg E1000_TDT n in
  if u32 (tdt + 1) mod TXDESCS =? tdh then Ok (-1, n)
  else
    row <- or_fault (tx_pkt_buffer n !! Z.to_nat tdt) ;;
    row <- copy_bytes row txpacket length ;;
    let n := set_txb n (<[Z.to_nat tdt := row]> (tx_pkt_buffer n)) in
    d <- or_fault (tx_desc_array n !! Z.to_nat tdt) ;;
    n <- put_txd tdt (MkTx (tx_addr d) (u16 length) (tx_cso d) (tx_cmd d) (tx_status d) (tx_css d) (tx_special d)) n ;;
    Ok (0, e1000_write_reg E1000_TDT (u32 (tdt + 1) mod TXDESCS) n).

(** int e1000_poll(void *rxbuffer): also returns the memory behind the pointer. *)
Definition e1000_poll (rxbuffer : list Z) n : outcome (Z * list Z * nic) :=
  let '(rdh, n) := e1000_read_reg E1000_RDH n in
  let '(rdt, n) := e1000_read_reg E1000_RDT n in
  let next := u32 (rdt + 1) mod RXDESCS in
  if next =? rdh then Ok (-1, rxbuffer, n)
  else
    d <- or_fault (rx_desc_array n !! Z.to_nat next) ;;
    if Z.land (rx_status d) E1000_RXD_STAT_DD =? 0 then Ok (-1, rxbuffer, n)
    else
      row <- or_fault (rx_pkt_buffer n !! Z.to_nat next) ;;
      rxbuffer <- copy_bytes rxbuffer row (rx_length d) ;;
      Ok (rx_length d, rxbuffer, e1000_write_reg E1000_RDT next n).

(** * The card *)

(** What the card does on its own: it takes the packet at the head of the
    transmit ring from memory and puts it on the wire, stores a packet from the
    wire behind the head of the receive ring, or raises interrupt causes.  It
    goes round rings of the programmed length, works only when enabled, and
    reaches descriptors and buffers by physical addresses. *)
Inductive dev_event := Sent (p : list Z) | Received (p : list Z) | Raised (causes : Z).

Definition ring_len n (r : Z) : Z := reg n r / DESC_SIZE.
Definition desc_base n (low high : Z) : Z := Z.lor (Z.shiftl (reg n high) 32) (reg n low).

(** A packet as it goes out, its checksum aside: with E1000_TCTL_PSP ("pad short
    packets") the card fills a packet of less than 60 bytes up; nothing is known of
    what it adds. *)
Definition on_wire (tctl : Z) (p q : list Z) : Prop :=
  exists fill, q = p ++ fill /\ length fill = if Z.testbit tctl 3 then (60 - length p)%nat else 0%nat.

Inductive dev_step n : dev_event -> nic -> Prop :=
| DevSend i d row q n' :
    Z.testbit (reg n E1000_TCTL) 1 = true -> desc_base n E1000_TDBAL E1000_TDBAH = kva2pa tx_desc_at ->
    reg n E1000_TDH <> reg n E1000_TDT ->
    tx_desc_array n !! Z.to_nat (reg n E1000_TDH) = Some d ->
    tx_addr d = tx_slot i -> 0 <= i < TXDESCS -> tx_pkt_buffer n !! Z.to_nat i = Some row ->
    n' = set_reg (set_txd n (<[Z.to_nat (reg n E1000_TDH) :=
           MkTx (tx_addr d) (tx_length d) (tx_cso d) (tx_cmd d) (Z.lor (tx_status d) 1) (tx_css d) (tx_special d)]> (tx_desc_array n)))
           E1000_TDH ((reg n E1000_TDH + 1) mod ring_len n E1000_TDLEN) ->
    on_wire (reg n E1000_TCTL) (take (Z.to_nat (tx_length d)) row) q ->
    dev_step n (Sent q) n'
| DevReceive p i d row csum errors special n' :
    Z.testbit (reg n E1000_RCTL) 1 = true -> desc_base n E1000_RDBAL E1000_RDBAH = kva2pa rx_desc_at ->
    reg n E1000_RDH <> reg n E1000_RDT -> Z.of_nat (length p) <= RX_PKT_SIZE ->
    rx_desc_array n !! Z.to_nat (reg n E1000_RDH) = Some d ->
    rx_addr d = rx_slot i -> 0 <= i < RXDESCS -> rx_pkt_buffer n !! Z.to_nat i = Some row ->
    n' = set_reg (set_rxb (set_rxd n (<[Z.to_nat (reg n E1000_RDH) := MkRx (rx_addr d) (Z.of_nat (length p)) csum 3 errors special]> (rx_desc_array n)))
           (<[Z.to_nat i := p ++ drop (length p) row]> (rx_pkt_buffer n)))
           E1000_RDH ((reg n E1000_RDH + 1) mod ring_len n E1000_RDLEN) ->
    dev_step n (Received p) n'
| DevRaise causes : 0 <= causes -> dev_step n (Raised causes) (set_reg n E1000_ICR (Z.lor (reg n E1000_ICR) causes)).
End Driver.
