(* ===== verification/E1000Props.v ===== *)
(** The rings of the network card as two queues: what e1000_transmit, e1000_poll
    and the card itself do to them, and what e1000_init sets up. *)

From Stdlib Require Import ZArith Lia List.
From stdpp Require Import base numbers list gmap.
From S2P Require Import Prelude KAlloc Trie Objects Kernel Sched E1000.

Local Open Scope Z_scope.
#[local] Ltac Zify.zify_post_hook ::= Z.div_mod_to_equations.
Implicit Types (n : nic) (t r : list (list Z)) (p : list Z).

Lemma u16_small z : 0 <= z < 2 ^ 16 -> u16 z = z.
Proof. intros. unfold u16. by apply Z.mod_small. Qed.

(** * Registers *)

Lemma reg_set_eq n a v : reg (set_reg n a v) a = v.
Proof. unfold reg, set_reg. simpl. by rewrite lookup_insert_eq. Qed.
Lemma reg_set_ne n a b v : a <> b -> reg (set_reg n a v) b = reg n b.
Proof. intros. unfold reg, set_reg. simpl. by rewrite lookup_insert_ne. Qed.
Lemma reg_txd n v a : reg (set_txd n v) a = reg n a. Proof. done. Qed.
Lemma reg_rxd n v a : reg (set_rxd n v) a = reg n a. Proof. done. Qed.
Lemma reg_txb n v a : reg (set_txb n v) a = reg n a. Proof. done. Qed.
Lemma reg_rxb n v a : reg (set_rxb n v) a = reg n a. Proof. done. Qed.

Lemma txd_txb n v : tx_desc_array (set_txb n v) = tx_desc_array n. Proof. done. Qed.

Create HintDb nic_regs.
#[export] Hint Rewrite reg_txd reg_rxd reg_txb reg_rxb reg_set_eq : nic_regs.
#[export] Hint Rewrite reg_set_ne using discriminate : nic_regs.
Ltac regs := autorewrite with nic_regs.

Section Rings.
Context (tx_desc_at rx_desc_at tx_buf_at rx_buf_at : Z).
Notation tslot := (tx_slot tx_buf_at).
Notation rslot := (rx_slot rx_buf_at).
Notation step := (dev_step tx_desc_at rx_desc_at tx_buf_at rx_buf_at).

(** What e1000_init programs and nobody changes. *)
Record nic_cfg n : Prop := {
  cf_tctl : Z.testbit (reg n E1000_TCTL) 1 = true /\ Z.testbit (reg n E1000_TCTL) 3 = true;
  cf_rctl : Z.testbit (reg n E1000_RCTL) 1 = true;
  cf_tdba : desc_base n E1000_TDBAL E1000_TDBAH = kva2pa tx_desc_at;
  cf_rdba : desc_base n E1000_RDBAL E1000_RDBAH = kva2pa rx_desc_at;
  cf_tdlen : reg n E1000_TDLEN = 1024;
  cf_rdlen : reg n E1000_RDLEN = 1024;
  cf_txd : length (tx_desc_array n) = 64%nat;
  cf_rxd : length (rx_desc_array n) = 64%nat;
  cf_txb : length (tx_pkt_buffer n) = 64%nat;
  cf_rxb : length (rx_pkt_buffer n) = 64%nat;
  cf_txa : forall i d, tx_desc_array n !! i = Some d -> tx_addr d = tslot (Z.of_nat i);
  cf_rxa : forall i d, rx_desc_array n !! i = Some d -> rx_addr d = rslot (Z.of_nat i);
  cf_txrow : forall i row, tx_pkt_buffer n !! i = Some row -> length row = 2048%nat;
  cf_rxrow : forall i row, rx_pkt_buffer n !! i = Some row -> length row = 2048%nat
}.

(** The packet [p] lies in slot [i] of the transmit ring, of the receive ring. *)
Definition tx_holds n (i : Z) p : Prop :=
  exists d row, tx_desc_array n !! Z.to_nat i = Some d /\ tx_pkt_buffer n !! Z.to_nat i = Some row /\
    tx_length d = Z.of_nat (length p) /\ take (length p) row = p.
Definition rx_holds n (i : Z) p : Prop :=
  exists d row, rx_desc_array n !! Z.to_nat i = Some d /\ rx_pkt_buffer n !! Z.to_nat i = Some row /\
    rx_length d = Z.of_nat (length p) /\ take (length p) row = p /\ Z.land (rx_status d) E1000_RXD_STAT_DD <> 0.

(** The transmit ring holds [t] from its head to its tail; the receive ring holds
    [r] from behind its tail up to its head. *)
Record tx_ring n t : Prop := {
  tr_head : 0 <= reg n E1000_TDH < 64;
  tr_tail : reg n E1000_TDT = (reg n E1000_TDH + Z.of_nat (length t)) mod 64;
  tr_len : (length t <= 63)%nat;
  tr_slot : forall i p, t !! i = Some p -> tx_holds n ((reg n E1000_TDH + Z.of_nat i) mod 64) p
}.
Record rx_ring n r : Prop := {
  rr_tail : 0 <= reg n E1000_RDT < 64;
  rr_head : reg n E1000_RDH = (reg n E1000_RDT + 1 + Z.of_nat (length r)) mod 64;
  rr_len : (length r <= 63)%nat;
  rr_slot : forall i p, r !! i = Some p -> rx_holds n ((reg n E1000_RDT + 1 + Z.of_nat i) mod 64) p
}.
Definition nic_ok n t r : Prop := nic_cfg n /\ tx_ring n t /\ rx_ring n r.

(** ** Slots *)

Lemma tslot_inj i j : 0 <= i < TXDESCS -> 0 <= j < TXDESCS -> tslot i = tslot j -> i = j.
Proof. unfold tx_slot, kva2pa, u64, TX_PKT_SIZE, TXDESCS. lia. Qed.
Lemma rslot_inj i j : 0 <= i < RXDESCS -> 0 <= j < RXDESCS -> rslot i = rslot j -> i = j.
Proof. unfold rx_slot, kva2pa, u64, RX_PKT_SIZE, RXDESCS. lia. Qed.

Lemma copy_bytes_ok dst src k :
  (k <= length src)%nat -> (k <= length dst)%nat -> copy_bytes dst src (Z.of_nat k) = Ok (take k src ++ drop k dst).
Proof.
  intros. unfold copy_bytes. replace ((0 <=? Z.of_nat k) && (Z.of_nat k <=? Z.of_nat (length src)) && (Z.of_nat k <=? Z.of_nat (length dst))) with true by lia.
  by rewrite Nat2Z.id.
Qed.
Lemma copy_bytes_long dst src k : Z.of_nat (length dst) < k -> copy_bytes dst src k = Fault.
Proof. intros. unfold copy_bytes. replace (k <=? Z.of_nat (length dst)) with false by lia. by rewrite andb_false_r. Qed.

(** A ring is seen in its own registers and slots only. *)
Lemma tx_ring_ext n n' t :
  reg n' E1000_TDH = reg n E1000_TDH -> reg n' E1000_TDT = reg n E1000_TDT ->
  tx_desc_array n' = tx_desc_array n -> tx_pkt_buffer n' = tx_pkt_buffer n -> tx_ring n t -> tx_ring n' t.
Proof.
  intros E1 E2 E3 E4 [H1 H2 H3 H4]. split; rewrite ?E1, ?E2; try done.
  intros i p Hi. destruct (H4 i p Hi) as (d & row & ? & ? & ?). exists d, row. by rewrite E3, E4.
Qed.
Lemma rx_ring_ext n n' r :
  reg n' E1000_RDH = reg n E1000_RDH -> reg n' E1000_RDT = reg n E1000_RDT ->
  rx_desc_array n' = rx_desc_array n -> rx_pkt_buffer n' = rx_pkt_buffer n -> rx_ring n r -> rx_ring n' r.
Proof.
  intros E1 E2 E3 E4 [H1 H2 H3 H4]. split; rewrite ?E1, ?E2; try done.
  intros i p Hi. destruct (H4 i p Hi) as (d & row & ? & ? & ?). exists d, row. by rewrite E3, E4.
Qed.

(** A write to a register that configures nothing. *)
Definition moving (a : Z) : Prop := a = E1000_TDH \/ a = E1000_TDT \/ a = E1000_RDH \/ a = E1000_RDT \/ a = E1000_ICR \/ a = E1000_IMS.
Lemma nic_cfg_reg n a v : moving a -> nic_cfg n -> nic_cfg (set_reg n a v).
Proof.
  intros Ha [H1 H2 H3 H4 H5 H6 H7 H8 H9 H10 H11 H12 H13 H14]. unfold desc_base in *.
  repeat destruct Ha as [->|Ha]; try subst a; (split; unfold desc_base; regs; done).
Qed.
Lemma nic_cfg_txd n i d : tx_addr d = tslot (Z.of_nat i) -> nic_cfg n -> nic_cfg (set_txd n (<[i := d]> (tx_desc_array n))).
Proof.
  intros Hd [H1 H2 H3 H4 H5 H6 H7 H8 H9 H10 H11 H12 H13 H14]. split; try done.
  - simpl. by rewrite length_insert.
  - intros j e. simpl. rewrite list_lookup_insert. case_decide; [|apply H11]. intros. simplify_eq. intuition congruence.
Qed.
Lemma nic_cfg_rxd n i d : rx_addr d = rslot (Z.of_nat i) -> nic_cfg n -> nic_cfg (set_rxd n (<[i := d]> (rx_desc_array n))).
Proof.
  intros Hd [H1 H2 H3 H4 H5 H6 H7 H8 H9 H10 H11 H12 H13 H14]. split; try done.
  - simpl. by rewrite length_insert.
  - intros j e. simpl. rewrite list_lookup_insert. case_decide; [|apply H12]. intros. simplify_eq. intuition congruence.
Qed.
Lemma nic_cfg_txb n i row : length row = 2048%nat -> nic_cfg n -> nic_cfg (set_txb n (<[i := row]> (tx_pkt_buffer n))).
Proof.
  intros Hd [H1 H2 H3 H4 H5 H6 H7 H8 H9 H10 H11 H12 H13 H14]. split; try done.
  - simpl. by rewrite length_insert.
  - intros j e. simpl. rewrite list_lookup_insert. case_decide; [|apply H13]. intros. by simplify_eq.
Qed.
Lemma nic_cfg_rxb n i row : length row = 2048%nat -> nic_cfg n -> nic_cfg (set_rxb n (<[i := row]> (rx_pkt_buffer n))).
Proof.
  intros Hd [H1 H2 H3 H4 H5 H6 H7 H8 H9 H10 H11 H12 H13 H14]. split; try done.
  - simpl. by rewrite length_insert.
  - intros j e. simpl. rewrite list_lookup_insert. case_decide; [|apply H14]. intros. by simplify_eq.
Qed.

Lemma slot_lookup {A} (l : list A) i : length l = 64%nat -> 0 <= i < 64 -> exists x, l !! Z.to_nat i = Some x.
Proof. intros Hl Hi. apply lookup_lt_is_Some_2. lia. Qed.
Lemma head_next h k len : 0 <= h < 64 -> 0 <= len -> (h + 1 + Z.of_nat k) mod 64 = ((h + 1) mod 64 + Z.of_nat k) mod 64.
Proof. lia. Qed.
Lemma ring_1024 n a : reg n a = 1024 -> ring_len n a = 64.
Proof. unfold ring_len. by intros ->. Qed.

(** ** The driver *)

(** e1000_transmit of a packet that fits a buffer appends it to the transmit
    queue, or returns -1 when 63 packets wait. *)
Lemma transmit_ok n t r p :
  nic_ok n t r -> (length p <= 2048)%nat ->
  (length t = 63%nat /\ e1000_transmit p (Z.of_nat (length p)) n = Ok (-1, n)) \/
  ((length t < 63)%nat /\ exists n', e1000_transmit p (Z.of_nat (length p)) n = Ok (0, n') /\ nic_ok n' (t ++ [p]) r).
Proof.
  intros (C & T & R) Hp. destruct T as [Hh Ht Hl Hs]. unfold e1000_transmit. cbn [e1000_read_reg Z.eqb E1000_TDH E1000_TDT E1000_ICR Pos.eqb].
  fold E1000_TDH E1000_TDT. rewrite (u32_small (reg n E1000_TDT + 1)) by lia. unfold TXDESCS.
  destruct (Z.eqb_spec ((reg n E1000_TDT + 1) mod 64) (reg n E1000_TDH)) as [E|E]; [left; split; [lia|done]|right]. split; [lia|].
  set (k := reg n E1000_TDT) in *. assert (Hk : 0 <= k < 64) by lia.
  destruct (slot_lookup _ k (cf_txb _ C) Hk) as [row Hrow]. destruct (slot_lookup _ k (cf_txd _ C) Hk) as [d Hd].
  pose proof (cf_txrow _ C _ _ Hrow) as Hlrow. rewrite Hrow. cbn [or_fault obind]. rewrite copy_bytes_ok by lia. cbn [obind].
  unfold put_txd. cbn zeta. rewrite !txd_txb, Hd. cbn [or_fault obind].
  eexists. split; [done|]. unfold e1000_write_reg. cbn [Z.eqb E1000_TDT E1000_IMS E1000_IMC E1000_ICR Pos.eqb]. fold E1000_TDT.
  rewrite u32_small by lia. rewrite take_ge by lia. set (row' := p ++ drop (length p) row).
  assert (Hlr : length row' = 2048%nat) by (subst row'; rewrite length_app, length_drop; lia).
  rewrite (u16_small (Z.of_nat (length p))) by lia. split; [|split].
  - apply nic_cfg_reg; [right; by left|]. apply (nic_cfg_txd (set_txb n _)); [by rewrite (cf_txa _ C _ _ Hd)|]. by apply nic_cfg_txb.
  - split; regs; [done| | |].
    + rewrite length_app. simpl. lia.
    + rewrite length_app. simpl. lia.
    + intros i q Hi. apply lookup_app_Some in Hi as [Hi|[Hge Hi]].
      * pose proof (lookup_lt_Some _ _ _ Hi). destruct (Hs i q Hi) as (d' & row0 & ? & ? & ? & ?). exists d', row0. simpl.
        rewrite !list_lookup_insert_ne by lia. done.
      * apply list_lookup_singleton_Some in Hi as [Hi <-]. replace ((reg n E1000_TDH + Z.of_nat i) mod 64) with k by lia.
        eexists _, row'. simpl. rewrite !list_lookup_insert_eq by (rewrite ?(cf_txd _ C), ?(cf_txb _ C); lia).
        split; [done|]. split; [done|]. split; [done|]. subst row'. by rewrite take_app_length.
  - apply (rx_ring_ext n); regs; done.
Qed.

(** e1000_poll takes the first packet of the receive queue, or returns -1. *)
Lemma poll_empty n t buf : nic_ok n t [] -> e1000_poll buf n = Ok (-1, buf, n).
Proof.
  intros (C & T & [Hh Ht Hl Hs]). unfold e1000_poll. cbn [e1000_read_reg Z.eqb E1000_RDH E1000_RDT E1000_ICR Pos.eqb].
  fold E1000_RDH E1000_RDT. rewrite u32_small by lia. unfold RXDESCS. simpl in Ht.
  destruct (Z.eqb_spec ((reg n E1000_RDT + 1) mod 64) (reg n E1000_RDH)); [done|lia].
Qed.
Lemma poll_ok n t p r buf :
  nic_ok n t (p :: r) -> (length p <= length buf)%nat ->
  exists n', e1000_poll buf n = Ok (Z.of_nat (length p), p ++ drop (length p) buf, n') /\ nic_ok n' t r.
Proof.
  intros (C & T & [Hh Ht Hl Hs]) Hb. unfold e1000_poll. cbn [e1000_read_reg Z.eqb E1000_RDH E1000_RDT E1000_ICR Pos.eqb].
  fold E1000_RDH E1000_RDT. rewrite u32_small by lia. unfold RXDESCS. simpl length in *.
  destruct (Z.eqb_spec ((reg n E1000_RDT + 1) mod 64) (reg n E1000_RDH)); [lia|].
  destruct (Hs 0%nat p eq_refl) as (d & row & Hd & Hrow & Hlen & Htk & Hdd). change (Z.of_nat 0) with 0 in *. rewrite Z.add_0_r in Hd, Hrow.
  rewrite Hd. cbn [or_fault obind]. replace (Z.land (rx_status d) E1000_RXD_STAT_DD =? 0) with false by (symmetry; by apply Z.eqb_neq).
  rewrite Hrow. cbn [or_fault obind]. rewrite Hlen.
  assert (Hpl : (length p <= length row)%nat) by (rewrite <- Htk, length_take; lia).
  rewrite copy_bytes_ok by done. cbn [obind]. rewrite Htk. eexists. split; [done|].
  unfold e1000_write_reg. cbn [Z.eqb E1000_RDT E1000_IMS E1000_IMC E1000_ICR Pos.eqb]. fold E1000_RDT. rewrite u32_small by lia.
  split; [|split].
  - apply nic_cfg_reg; [|done]. right; right; right; by left.
  - apply (tx_ring_ext n); regs; done.
  - split; regs; [lia|lia|lia|]. intros i q Hi. destruct (Hs (S i) q Hi) as (d' & row' & ? & ? & ?). exists d', row'.
    replace (((reg n E1000_RDT + 1) mod 64 + 1 + Z.of_nat i) mod 64) with ((reg n E1000_RDT + 1 + Z.of_nat (S i)) mod 64) by lia. done.
Qed.

(** ** The card *)

(** A packet of the queue as it goes out *)
Definition padded (p q : list Z) : Prop := exists fill, q = p ++ fill /\ length fill = (60 - length p)%nat.

Lemma dev_send_ok n t r p n' : nic_ok n t r -> step n (Sent p) n' -> exists p0 t', t = p0 :: t' /\ padded p0 p /\ nic_ok n' t' r.
Proof.
  intros (C & T & R) H. inversion H as [i d row q0 n0 H1 H2 Hne Hd Ha Hi Hrow En Hq Ep En'| |]; subst n0 q0; clear H.
  destruct T as [Hh Ht Hl Hs]. destruct t as [|q t]; [simpl in Ht; lia|].
  destruct (Hs 0%nat q eq_refl) as (d' & row' & Hd' & Hrow' & Hlen & Htk). replace ((reg n E1000_TDH + Z.of_nat 0) mod 64) with (reg n E1000_TDH) in * by lia.
  assert (d' = d) as -> by congruence. pose proof (cf_txa _ C _ _ Hd) as Ha'. rewrite Ha' in Ha.
  apply tslot_inj in Ha; [|unfold TXDESCS in *; lia..]. rewrite Z2Nat.id in Ha by lia. subst i. assert (row' = row) as -> by congruence.
  rewrite Hlen, Nat2Z.id, Htk in Hq. exists q, t. split; [done|]. split; [unfold on_wire in Hq; by rewrite (proj2 (cf_tctl _ C)) in Hq|]. subst n'. rewrite (ring_1024 _ _ (cf_tdlen _ C)). split; [|split].
  - apply nic_cfg_reg; [by left|]. by apply nic_cfg_txd.
  - simpl length in *. split; regs; [lia|lia|lia|]. intros j q' Hj. pose proof (lookup_lt_Some _ _ _ Hj).
    destruct (Hs (S j) q' Hj) as (d2 & row2 & ? & ? & ?). exists d2, row2. simpl.
    replace (((reg n E1000_TDH + 1) mod 64 + Z.of_nat j) mod 64) with ((reg n E1000_TDH + Z.of_nat (S j)) mod 64) by lia.
    rewrite list_lookup_insert_ne by lia. done.
  - apply (rx_ring_ext n); regs; done.
Qed.

Lemma dev_receive_ok n t r p n' : nic_ok n t r -> step n (Received p) n' -> (length r < 63)%nat /\ nic_ok n' t (r ++ [p]).
Proof.
  intros (C & T & R) H. inversion H as [|p0 i d row cs er sp n0 H1 H2 Hne Hlp Hd Ha Hi Hrow En Ep En'|]; subst n0 p0; clear H.
  destruct R as [Hh Ht Hl Hs]. assert (length r < 63)%nat by lia. split; [done|].
  pose proof (cf_rxa _ C _ _ Hd) as Ha'. rewrite Ha' in Ha.
  apply rslot_inj in Ha; [|unfold RXDESCS in *; lia..]. rewrite Z2Nat.id in Ha by lia. subst i.
  pose proof (cf_rxrow _ C _ _ Hrow) as Hlr. unfold RX_PKT_SIZE in Hlp. subst n'. rewrite (ring_1024 _ _ (cf_rdlen _ C)). split; [|split].
  - apply nic_cfg_reg; [right; right; by left|]. apply (nic_cfg_rxb (set_rxd n _)); [rewrite length_app, length_drop; lia|]. by apply nic_cfg_rxd.
  - apply (tx_ring_ext n); regs; done.
  - split; regs; [lia| | |].
    + rewrite length_app. simpl. lia.
    + rewrite length_app. simpl. lia.
    + intros j q Hj. apply lookup_app_Some in Hj as [Hj|[Hge Hj]].
      * pose proof (lookup_lt_Some _ _ _ Hj). destruct (Hs j q Hj) as (d2 & row2 & ? & ? & ? & ? & ?). exists d2, row2. simpl.
        rewrite !list_lookup_insert_ne by lia. done.
      * apply list_lookup_singleton_Some in Hj as [Hj <-]. replace ((reg n E1000_RDT + 1 + Z.of_nat j) mod 64) with (reg n E1000_RDH) by lia.
        eexists _, _. simpl. rewrite !list_lookup_insert_eq by (rewrite ?(cf_rxd _ C), ?(cf_rxb _ C); lia).
        split; [done|]. split; [done|]. split; [done|]. split; [by rewrite take_app_length|done].
Qed.

Lemma dev_raise_ok n t r w n' : nic_ok n t r -> step n (Raised w) n' -> nic_ok n' t r.
Proof.
  intros (C & T & R) H. inversion H; subst. split; [|split].
  - apply nic_cfg_reg; [|done]. right; right; right; right; by left.
  - apply (tx_ring_ext n); regs; done.
  - apply (rx_ring_ext n); regs; done.
Qed.

(** ** Initialisation *)

Lemma wr_plain a v n : (a =? E1000_IMS) || (a =? E1000_IMC) || (a =? E1000_ICR) = false -> e1000_write_reg a v n = set_reg n a (u32 v).
Proof. intros [[H1 H2]%orb_false_iff H3]%orb_false_iff. unfold e1000_write_reg. by rewrite H1, H2, H3. Qed.

Lemma wr_ims v n : e1000_write_reg E1000_IMS v n = set_reg n E1000_IMS (Z.lor (reg n E1000_IMS) v). Proof. done. Qed.
Lemma wr_imc v n : e1000_write_reg E1000_IMC v n = set_reg n E1000_IMS (Z.ldiff (reg n E1000_IMS) v). Proof. done. Qed.
Lemma wr_icr v n : e1000_write_reg E1000_ICR v n = set_reg n E1000_ICR (Z.ldiff (reg n E1000_ICR) v). Proof. done. Qed.
(** Every register write of the initialisation as an assignment. *)
Ltac writes :=
  rewrite ?wr_ims, ?wr_imc, ?wr_icr;
  rewrite ?(wr_plain E1000_RCTL), ?(wr_plain E1000_TCTL), ?(wr_plain E1000_TDH), ?(wr_plain E1000_TDT), ?(wr_plain E1000_RDH), ?(wr_plain E1000_RDT),
    ?(wr_plain E1000_TDBAL), ?(wr_plain E1000_TDBAH), ?(wr_plain E1000_TDLEN), ?(wr_plain E1000_RDBAL), ?(wr_plain E1000_RDBAH), ?(wr_plain E1000_RDLEN),
    ?(wr_plain (E1000_RA + Z.shiftl 0 2)), ?(wr_plain (E1000_RA + Z.shiftl 1 2)) by reflexivity.

(** Both loops over a descriptor array. *)
Lemma fill_tx n (f : Z -> e1000_tx_desc) :
  length (tx_desc_array n) = 64%nat ->
  exists l, for_range (Z.to_nat TXDESCS) 0 (fun i => put_txd i (f i)) n = Ok (set_txd n l) /\ length l = 64%nat /\
    forall i d, l !! i = Some d -> d = f (Z.of_nat i).
Proof.
  intros Hl. destruct (for_range_inv (fun j s => exists l, s = set_txd n l /\ length l = 64%nat /\ forall i d, Z.of_nat i < j -> l !! i = Some d -> d = f (Z.of_nat i))
    (fun i => put_txd i (f i)) (Z.to_nat TXDESCS) 0 n) as (s & E & l & -> & Hll & Hf).
  - exists (tx_desc_array n). split; [by destruct n|]. split; [done|]. intros; lia.
  - unfold TXDESCS. intros j s Hj (l & -> & Hll & Hf). unfold put_txd. simpl tx_desc_array.
    destruct (slot_lookup l j Hll ltac:(lia)) as [d Hd]. cbn [tx_desc_array set_txd]. rewrite Hd. cbn [or_fault obind].
    eexists. split; [done|]. exists (<[Z.to_nat j := f j]> l). split; [done|]. split; [by rewrite length_insert|].
    intros i d' Hi. rewrite list_lookup_insert. case_decide; [|apply Hf; lia]. intros ?. simplify_eq. f_equal. lia.
  - exists l. split; [done|]. split; [done|]. intros i d Hd. pose proof (lookup_lt_Some _ _ _ Hd). apply (Hf i d); [unfold TXDESCS; lia|done].
Qed.
Lemma fill_rx n (f : Z -> e1000_rx_desc) :
  length (rx_desc_array n) = 64%nat ->
  exists l, for_range (Z.to_nat RXDESCS) 0 (fun i => put_rxd i (f i)) n = Ok (set_rxd n l) /\ length l = 64%nat /\
    forall i d, l !! i = Some d -> d = f (Z.of_nat i).
Proof.
  intros Hl. destruct (for_range_inv (fun j s => exists l, s = set_rxd n l /\ length l = 64%nat /\ forall i d, Z.of_nat i < j -> l !! i = Some d -> d = f (Z.of_nat i))
    (fun i => put_rxd i (f i)) (Z.to_nat RXDESCS) 0 n) as (s & E & l & -> & Hll & Hf).
  - exists (rx_desc_array n). split; [by destruct n|]. split; [done|]. intros; lia.
  - unfold RXDESCS. intros j s Hj (l & -> & Hll & Hf). unfold put_rxd. simpl rx_desc_array.
    destruct (slot_lookup l j Hll ltac:(lia)) as [d Hd]. cbn [rx_desc_array set_rxd]. rewrite Hd. cbn [or_fault obind].
    eexists. split; [done|]. exists (<[Z.to_nat j := f j]> l). split; [done|]. split; [by rewrite length_insert|].
    intros i d' Hi. rewrite list_lookup_insert. case_decide; [|apply Hf; lia]. intros ?. simplify_eq. f_equal. lia.
  - exists l. split; [done|]. split; [done|]. intros i d Hd. pose proof (lookup_lt_Some _ _ _ Hd). apply (Hf i d); [unfold RXDESCS; lia|done].
Qed.

(** The static arrays have their sizes. *)
Definition arrays_ok n : Prop :=
  length (tx_desc_array n) = 64%nat /\ length (rx_desc_array n) = 64%nat /\ length (tx_pkt_buffer n) = 64%nat /\ length (rx_pkt_buffer n) = 64%nat /\
  (forall i row, tx_pkt_buffer n !! i = Some row -> length row = 2048%nat) /\ (forall i row, rx_pkt_buffer n !! i = Some row -> length row = 2048%nat).

Lemma halves_join a : 0 <= a < 2 ^ 64 -> Z.lor (Z.shiftl (u32 (Z.shiftr a 32)) 32) (u32 (Z.land a 0xffffffff)) = a.
Proof.
  intros Ha. assert (E : Z.land a 0xffffffff = a mod 2 ^ 32) by (change 0xffffffff with (Z.ones 32); by rewrite Z.land_ones).
  rewrite E, Z.shiftr_div_pow2 by done. rewrite !u32_small by lia. rewrite lor_shiftl_add by lia. lia.
Qed.

Lemma kva2pa_range a : 0 <= kva2pa a < 2 ^ 64.
Proof. apply u64_range. Qed.

Lemma init_ok fuel base n k k' :
  arrays_ok n -> latency fuel 1 k = Ok k' ->
  exists n', e1000_init tx_desc_at rx_desc_at tx_buf_at rx_buf_at fuel base n k = Ok (n', k') /\ nic_ok n' [] [] /\
    reg n' E1000_RA = 0x00350a00 /\ reg n' (E1000_RA + 4) = 0x8000531e /\
    reg n' E1000_IMS = Z.lor (Z.ldiff (reg n E1000_IMS) 0xffffffff) E1000_ICR_RXDMT0.
Proof.
  intros (L1 & L2 & L3 & L4 & R1 & R2) Hlat. unfold e1000_init, e1000_reset. rewrite Hlat. cbn [obind].
  unfold e1000_configure_tx, e1000_configure_rx, e1000_write_reg_array. cbn zeta.
  match goal with |- context [for_range (Z.to_nat TXDESCS) 0 _ ?m] => destruct (fill_tx m (tx_init_desc tx_buf_at)) as (tl & -> & Htl & Htf) end; [done|].
  cbn [obind].
  match goal with |- context [for_range (Z.to_nat RXDESCS) 0 _ ?m] => destruct (fill_rx m (rx_init_desc rx_buf_at)) as (rl & -> & Hrl & Hrf) end; [done|].
  cbn [obind]. writes. eexists. split; [done|].
  change (E1000_RA + Z.shiftl 0 2) with E1000_RA. change (E1000_RA + Z.shiftl 1 2) with (E1000_RA + 4).
  assert (Hne : E1000_RA + 4 <> E1000_RA) by done.
  split; [split; [|split]|]; [| | |split; [regs|split; regs]; done].
  - split; unfold desc_base; regs; try done; try apply halves_join, kva2pa_range.
    + intros i d Hd. by rewrite (Htf _ _ Hd).
    + intros i d Hd. by rewrite (Hrf _ _ Hd).
  - change (u32 0) with 0. split; regs; [lia|done|simpl; lia|by intros i p Hi].
  - change (u32 0) with 0. change (u32 (RXDESCS - 1)) with 63. split; regs; [lia|done|simpl; lia|by intros i p Hi].
Qed.
End Rings.
