(* ===== verification/Plic.v ===== *)
(** The interrupt controller: src/drivers/plic.c and plic.h.

    The controller's registers are words of a memory of their own.  Reading the
    claim register takes the next of the interrupts that wait ([pending]; 0 when
    there is none), as the comment on plic_claim describes; the other registers
    hold what was written.  plic_init leaves exactly the network card's
    interrupt enabled. *)

From Stdlib Require Import ZArith Lia List.
From stdpp Require Import base numbers list gmap strings.
From S2P Require Import Prelude.

Local Open Scope Z_scope.
#[local] Ltac Zify.zify_post_hook ::= Z.div_mod_to_equations.

Definition PLIC_E1000_PYNQ_IRQ : Z := 3.
Definition PLIC_E1000_QEMU_IRQ : Z := 33.
Definition PRIORITY_BASE : Z := 0.
Definition PRIORITY_PER_ID : Z := 4.
Definition ENABLE_BASE : Z := 0x2000.
Definition CONTEXT_BASE : Z := 0x200000.
Definition CONTEXT_THRESHOLD : Z := 0x00.
Definition CONTEXT_CLAIM : Z := 0x04.

(** struct plic_handler, and the state of the driver with the controller *)
Record plic_handler := MkHandler { present : bool; hart_base : Z; enable_base : Z }.
Record plic := MkPlic {
  plic_handlers : plic_handler;
  plic_regs : Z;
  mmio : gmap Z Z;
  pending : list Z;
  printed : list string
}.
Implicit Types p : plic.
Definition set_handlers p v := MkPlic v (plic_regs p) (mmio p) (pending p) (printed p).
Definition set_plic_regs p v := MkPlic (plic_handlers p) v (mmio p) (pending p) (printed p).
Definition set_mmio p v := MkPlic (plic_handlers p) (plic_regs p) v (pending p) (printed p).
Definition set_pending p v := MkPlic (plic_handlers p) (plic_regs p) (mmio p) v (printed p).
Definition set_printed p v := MkPlic (plic_handlers p) (plic_regs p) (mmio p) (pending p) v.

(** readl and writel of arch/io.h on the controller's registers *)
Definition word p (a : Z) : Z := default 0 (mmio p !! a).
Definition readl (a : Z) p : Z * plic :=
  if a =? plic_regs p + CONTEXT_BASE + CONTEXT_CLAIM then
    match pending p with [] => (0, p) | id :: ids => (id, set_pending p ids) end
  else (word p a, p).
Definition writel (v a : Z) p : plic := set_mmio p (<[a := u32 v]> (mmio p)).

(** static void plic_toggle(struct plic_handler *handler, int hwirq, int enable) *)
Definition plic_toggle (hwirq : Z) (enable : bool) p : plic :=
  let reg := enable_base (plic_handlers p) + 4 * (hwirq / 32) in
  let hwirq_mask := u32 (Z.shiftl 1 (hwirq mod 32)) in
  let '(v, p) := readl reg p in
  writel (if enable then Z.lor v hwirq_mask else Z.ldiff v hwirq_mask) reg p.

(** static void plic_irq_unmask(int hwirq) *)
Definition plic_irq_unmask (hwirq : Z) p : plic :=
  let p := writel 1 (plic_regs p + PRIORITY_BASE + hwirq * PRIORITY_PER_ID) p in
  if present (plic_handlers p) then plic_toggle hwirq true p else p.

(** uint32_t plic_claim(void), void plic_complete(int hwirq) *)
Definition plic_claim p : Z * plic := readl (hart_base (plic_handlers p) + CONTEXT_CLAIM) p.
Definition plic_complete (hwirq : Z) p : plic := writel hwirq (hart_base (plic_handlers p) + CONTEXT_CLAIM) p.

(** for (hwirq = 1; hwirq <= nr_irqs; hwirq++) plic_toggle(handler, hwirq, 0) *)
Fixpoint toggle_loop (n : nat) (hwirq : Z) p : plic :=
  match n with O => p | S n => toggle_loop n (hwirq + 1) (plic_toggle hwirq false p) end.

(** int plic_init(uint64_t plic_regs_addr, uint32_t nr_irqs) *)
Definition plic_init (plic_regs_addr nr_irqs : Z) p : plic :=
  let p := set_plic_regs p plic_regs_addr in
  let '(threshold, p) :=
    if present (plic_handlers p) then (0xffffffff, set_printed p (printed p ++ ["handler already present."%string]))
    else (0, set_handlers p (MkHandler true (plic_regs p + CONTEXT_BASE) (plic_regs p + ENABLE_BASE))) in
  let p := writel threshold (hart_base (plic_handlers p) + CONTEXT_THRESHOLD) p in
  let p := toggle_loop (Z.to_nat nr_irqs) 1 p in
  let hwirq := nr_irqs + 1 in
  if PLIC_E1000_QEMU_IRQ <? hwirq then plic_irq_unmask PLIC_E1000_QEMU_IRQ p
  else plic_irq_unmask PLIC_E1000_PYNQ_IRQ p.

(** * Enable bits *)

Definition enabled p (irq : Z) : bool := Z.testbit (word p (enable_base (plic_handlers p) + 4 * (irq / 32))) (irq mod 32).
Definition priority p (irq : Z) : Z := word p (plic_regs p + PRIORITY_BASE + irq * PRIORITY_PER_ID).
(** The handler of an initialised driver. *)
Definition handler_ok p : Prop :=
  plic_handlers p = MkHandler true (plic_regs p + CONTEXT_BASE) (plic_regs p + ENABLE_BASE).

Lemma word_writel v a b p : word (writel v a p) b = if decide (a = b) then u32 v else word p b.
Proof. unfold word, writel, set_mmio. simpl. rewrite lookup_insert. by case_decide. Qed.

(** A word register other than the claim register. *)
Lemma readl_word a p : a < plic_regs p + CONTEXT_BASE -> readl a p = (word p a, p).
Proof.
  intros Ha. unfold readl, CONTEXT_CLAIM. destruct (Z.eqb_spec a (plic_regs p + CONTEXT_BASE + 4)); [lia|done].
Qed.

Lemma mask_bit k j : 0 <= k < 32 -> 0 <= j < 32 -> Z.testbit (u32 (Z.shiftl 1 k)) j = bool_decide (j = k).
Proof.
  intros Hk Hj. rewrite u32_small.
  - rewrite Z.shiftl_1_l, Z.pow2_bits_eqb by lia. destruct (Z.eqb_spec k j), (bool_decide_reflect (j = k)); congruence.
  - rewrite Z.shiftl_1_l. split; [lia|]. apply Z.pow_lt_mono_r; lia.
Qed.
Lemma u32_bit v j : 0 <= j < 32 -> Z.testbit (u32 v) j = Z.testbit v j.
Proof. intros. unfold u32. by rewrite Z.mod_pow2_bits_low by lia. Qed.

(** plic_toggle changes one enable bit. *)
Lemma toggle_enabled h e p i :
  handler_ok p -> 0 <= h < 1024 -> 0 <= i < 1024 ->
  handler_ok (plic_toggle h e p) /\ plic_regs (plic_toggle h e p) = plic_regs p /\
  (enabled (plic_toggle h e p) i = if decide (i = h) then e else enabled p i) /\
  (forall a, a < plic_regs p + ENABLE_BASE \/ plic_regs p + CONTEXT_BASE <= a -> word (plic_toggle h e p) a = word p a).
Proof.
  intros Hp Hh Hi. unfold plic_toggle. rewrite Hp. cbn [enable_base]. unfold CONTEXT_BASE, ENABLE_BASE in *.
  rewrite readl_word by (unfold CONTEXT_BASE; lia). split; [exact Hp|]. split; [done|]. split.
  - unfold enabled. change (plic_handlers (writel _ _ _)) with (plic_handlers p). rewrite Hp. cbn [enable_base]. unfold ENABLE_BASE.
    rewrite word_writel. case_decide as Hd.
    + assert (E : i / 32 = h / 32) by lia. rewrite E. rewrite u32_bit by lia.
      destruct e; [rewrite Z.lor_spec|rewrite Z.ldiff_spec]; rewrite mask_bit by lia;
        case_decide as Hih; destruct (bool_decide_reflect (i mod 32 = h mod 32)); try lia; subst;
        rewrite ?orb_true_r, ?orb_false_r, ?andb_false_r, ?andb_true_r; done.
    + case_decide; [subst; lia|done].
  - intros a Ha. rewrite word_writel. case_decide; [lia|done].
Qed.

Lemma toggle_loop_disables n : forall h p,
  handler_ok p -> 1 <= h -> h + Z.of_nat n <= 1024 ->
  let p' := toggle_loop n h p in
  handler_ok p' /\ plic_regs p' = plic_regs p /\
  (forall i, 0 <= i < 1024 -> enabled p' i = if decide (h <= i < h + Z.of_nat n) then false else enabled p i) /\
  (forall a, a < plic_regs p + ENABLE_BASE \/ plic_regs p + CONTEXT_BASE <= a -> word p' a = word p a).
Proof.
  induction n as [|n IH]; intros h p Hp Hh Hn; cbn [toggle_loop].
  - split; [done|]. split; [done|]. split; [|done]. intros i Hi. case_decide; [lia|done].
  - destruct (toggle_enabled h false p h Hp) as (Hp1 & Hr1 & _ & Hw1); [lia|lia|].
    destruct (IH (h + 1) (plic_toggle h false p) Hp1) as (Hp2 & Hr2 & He2 & Hw2); [lia|lia|].
    split; [done|]. split; [congruence|]. split.
    + intros i Hi. rewrite He2 by done. destruct (toggle_enabled h false p i Hp) as (_ & _ & He1 & _); [lia|done|]. rewrite He1.
      repeat case_decide; try done; lia.
    + intros a Ha. rewrite Hw2 by (rewrite Hr1; done). by apply Hw1.
Qed.

(** The interrupt of the network card on the machine that has [nr] of them. *)
Definition card_irq (nr : Z) : Z := if 33 <=? nr then PLIC_E1000_QEMU_IRQ else PLIC_E1000_PYNQ_IRQ.

(** after plic_init the interrupt of the network card is enabled and has
    priority 1, every other interrupt of the controller is disabled and the
    threshold lets it pass, whatever the controller held before. *)
Theorem plic_init_enables_card base nr p :
  present (plic_handlers p) = false -> 0 <= nr < 1024 ->
  let p' := plic_init base nr p in
  handler_ok p' /\ plic_regs p' = base /\
  (forall i, 1 <= i <= nr -> enabled p' i = bool_decide (i = card_irq nr)) /\
  enabled p' (card_irq nr) = true /\ priority p' (card_irq nr) = 1 /\ word p' (base + CONTEXT_BASE + CONTEXT_THRESHOLD) = 0.
Proof.
  intros Hpr Hnr. unfold plic_init. change (plic_handlers (set_plic_regs p base)) with (plic_handlers p). rewrite Hpr.
  set (p0 := writel 0 _ _). assert (H0 : handler_ok p0) by done. assert (R0 : plic_regs p0 = base) by done.
  assert (W0 : word p0 (base + CONTEXT_BASE + CONTEXT_THRESHOLD) = 0) by (subst p0; rewrite word_writel; by case_decide).
  destruct (toggle_loop_disables (Z.to_nat nr) 1 p0 H0) as (H1 & R1 & E1 & W1); [lia|lia|].
  set (p1 := toggle_loop (Z.to_nat nr) 1 p0) in *. cbn zeta.
  assert (Hc : (if PLIC_E1000_QEMU_IRQ <? nr + 1 then plic_irq_unmask PLIC_E1000_QEMU_IRQ p1 else plic_irq_unmask PLIC_E1000_PYNQ_IRQ p1) = plic_irq_unmask (card_irq nr) p1).
  { unfold card_irq, PLIC_E1000_QEMU_IRQ. destruct (Z.ltb_spec 33 (nr + 1)), (Z.leb_spec 33 nr); try lia; done. }
  rewrite Hc. assert (Hk : 3 <= card_irq nr <= 33) by (unfold card_irq, PLIC_E1000_QEMU_IRQ, PLIC_E1000_PYNQ_IRQ; destruct (33 <=? nr); lia).
  set (k := card_irq nr) in *. unfold plic_irq_unmask. set (p2 := writel 1 _ p1).
  assert (H2 : handler_ok p2) by exact H1. rewrite H2. cbn [present].
  assert (E2 : forall i, 0 <= i < 1024 -> enabled p2 i = enabled p1 i).
  { intros i Hi. unfold enabled. rewrite H2, H1. cbn [enable_base]. subst p2. rewrite word_writel.
    change (plic_regs (writel _ _ p1)) with (plic_regs p1). unfold ENABLE_BASE, PRIORITY_BASE, PRIORITY_PER_ID.
    case_decide; [lia|done]. }
  destruct (toggle_enabled k true p2 k H2) as (H3 & R3 & E3 & W3); [lia|lia|].
  assert (R2 : plic_regs p2 = base) by (change (plic_regs p1 = base); congruence).
  split; [done|]. split; [congruence|]. split; [|split; [|split]].
  - intros i Hi. destruct (toggle_enabled k true p2 i H2) as (_ & _ & Ei & _); [lia|lia|]. rewrite Ei, E2, E1 by lia.
    case_decide as Hik; [by rewrite bool_decide_eq_true_2|]. rewrite bool_decide_eq_false_2 by done. by rewrite decide_True by lia.
  - rewrite E3. by rewrite decide_True.
  - unfold priority. rewrite R3, W3 by (left; rewrite R2; unfold ENABLE_BASE, PRIORITY_BASE, PRIORITY_PER_ID; lia).
    rewrite R2. subst p2. rewrite word_writel, R1, R0, decide_True by done. done.
  - rewrite W3 by (right; rewrite R2; unfold CONTEXT_BASE, CONTEXT_THRESHOLD; lia). subst p2. rewrite word_writel, R1, R0.
    rewrite decide_False by (unfold CONTEXT_BASE, CONTEXT_THRESHOLD, PRIORITY_BASE, PRIORITY_PER_ID; lia).
    rewrite W1 by (right; rewrite R0; unfold CONTEXT_BASE, CONTEXT_THRESHOLD; lia). done.
Qed.

(** A controller that holds garbage. *)
Definition demo_plic : plic := MkPlic (MkHandler false 0 0) 0 (<[0x0c002000 := 0xffffffff]> ∅) [33] [].

Lemma plic_init_enables_card_witness :
  let p' := plic_init 0x0c000000 53 demo_plic in
  handler_ok p' /\ plic_regs p' = 0x0c000000 /\ (forall i, 1 <= i <= 53 -> enabled p' i = bool_decide (i = card_irq 53)) /\
  enabled p' (card_irq 53) = true /\ priority p' (card_irq 53) = 1 /\ word p' (0x0c000000 + CONTEXT_BASE + CONTEXT_THRESHOLD) = 0.
Proof. apply (plic_init_enables_card 0x0c000000 53 demo_plic); [reflexivity|lia]. Defined.
