(* ===== verification/Net.v ===== *)
(** The network system calls and interrupts: src/net.cpp, over the card's driver
    (E1000.v), the interrupt controller (Plic.v), the scheduler and ioremap
    (Page.v).

    A system call that blocks gives up the CPU: [nres] is the result of code that
    may switch away, like [kres] of Kernel.v with the card as part of the state. *)

From Stdlib Require Import ZArith Lia List.
From stdpp Require Import base numbers list gmap strings.
From S2P Require Import Prelude Trie KAlloc Objects Kernel Sched Page E1000 Plic.

Local Open Scope Z_scope.

(** The static variables of net.cpp with what they guard. *)
Record net := MkNet {
  kern : kernel;
  card : nic;
  irqs : plic;
  net_buffer_lock : bool;
  send_wait_queue : WaitQueue;
  recv_wait_queue : WaitQueue
}.
Implicit Types s : net.
Definition set_kern s v := MkNet v (card s) (irqs s) (net_buffer_lock s) (send_wait_queue s) (recv_wait_queue s).
Definition set_card s v := MkNet (kern s) v (irqs s) (net_buffer_lock s) (send_wait_queue s) (recv_wait_queue s).
Definition set_irqs s v := MkNet (kern s) (card s) v (net_buffer_lock s) (send_wait_queue s) (recv_wait_queue s).
Definition set_lock s v := MkNet (kern s) (card s) (irqs s) v (send_wait_queue s) (recv_wait_queue s).
Definition set_send s v := MkNet (kern s) (card s) (irqs s) (net_buffer_lock s) v (recv_wait_queue s).
Definition set_recv s v := MkNet (kern s) (card s) (irqs s) (net_buffer_lock s) (send_wait_queue s) v.

Inductive nres (A : Type) : Type :=
| NDone (a : A) (s : net)
| NSwitched (s : net) (f : nat -> net -> outcome (nres A)).
Arguments NDone {A}. Arguments NSwitched {A}.

Fixpoint nbind {A B} (r : nres A) (c : nat) (f : A -> nat -> net -> outcome (nres B)) : outcome (nres B) :=
  match r with
  | NDone a s => f a c s
  | NSwitched s k =>
      Ok (NSwitched s (fun c' s' =>
        match k c' s' with
        | Ok r' => nbind r' c' f
        | Panic => Panic
        | Fault => Fault
        | OutOfFuel => OutOfFuel
        end))
  end.

(** A kernel routine that may switch, on the larger state. *)
Fixpoint nlift {A} (r : kres A) s : nres A :=
  match r with
  | Done a k => NDone a (set_kern s k)
  | Switched k f =>
      NSwitched (set_kern s k) (fun c' s' =>
        match f c' (kern s') with
        | Ok r' => Ok (nlift r' s')
        | Panic => Panic
        | Fault => Fault
        | OutOfFuel => OutOfFuel
        end)
  end.

Definition lock_net s : outcome net := b <- lock (net_buffer_lock s) ;; Ok (set_lock s b).
Definition unlock_net s : net := set_lock s (unlock (net_buffer_lock s)).

(** do_block(send_wait_queue, net_buffer_lock), do_block(recv_wait_queue, net_buffer_lock):
    [push] stores the thread into the queue. *)
Definition do_block_net (push : Z -> net -> net) (c : nat) s : outcome (nres unit) :=
  t <- current (kern s) c ;;
  let s := push t s in
  k <- block (kern s) t ;;
  let s := unlock_net (set_kern s k) in
  r <- do_scheduler c (kern s) ;;
  Ok (nlift r s).
Definition push_send (t : Z) s : net := set_send s (push (send_wait_queue s) t).
Definition push_recv (t : Z) s : net := set_recv s (push (recv_wait_queue s) t).

(** recv_wait_queue.wakeup_all() under the lock, send_wait_queue.wakeup_all() *)
Definition wake_receivers s : outcome net :=
  s <- lock_net s ;;
  k <- wakeup_all (recv_wait_queue s) (kern s) ;;
  Ok (unlock_net (set_recv (set_kern s k) [])).
Definition wake_senders s : outcome net :=
  s <- lock_net s ;;
  k <- wakeup_all (send_wait_queue s) (kern s) ;;
  Ok (unlock_net (set_send (set_kern s k) [])).

(** void handle_e1000_irq() *)
Definition handle_e1000_irq s : outcome net :=
  let '(icr, n) := e1000_read_reg E1000_ICR (card s) in
  let '(ims, n) := e1000_read_reg E1000_IMS n in
  let s := set_card s n in
  s <- (if negb (Z.land (Z.land icr ims) E1000_ICR_RXDMT0 =? 0) then wake_receivers s else Ok s) ;;
  if negb (Z.land (Z.land icr ims) E1000_ICR_TXQE =? 0) then
    wake_senders (set_card s (e1000_write_reg E1000_IMC E1000_ICR_TXQE (card s)))
  else Ok s.

(** void net_idle_check() *)
Definition net_idle_check s : outcome net := wake_receivers s.

(** void handle_ext_irq() *)
Definition handle_ext_irq s : outcome net :=
  let '(id, p) := plic_claim (irqs s) in
  let s := set_irqs s p in
  s <- (if (id =? PLIC_E1000_PYNQ_IRQ) || (id =? PLIC_E1000_QEMU_IRQ) then handle_e1000_irq s else Ok s) ;;
  Ok (set_irqs s (plic_complete id (irqs s))).

(** long Syscall::sys_net_send(void *txpacket, long length): [txpacket] is the
    memory behind the pointer; each turn of the while loop uses up fuel, a turn
    that finds the ring full gives up the CPU. *)
Fixpoint send_loop (fuel : nat) (txpacket : list Z) (length : Z) (c : nat) s : outcome (nres Z) :=
  match fuel with
  | O => OutOfFuel
  | S fuel =>
      s <- lock_net s ;;
      '(r, n) <- e1000_transmit txpacket (i32 length) (card s) ;;
      let s := set_card s n in
      if r =? -1 then
        let s := set_card s (e1000_write_reg E1000_IMS E1000_ICR_TXQE (card s)) in
        r <- do_block_net push_send c s ;;
        nbind r c (fun _ => send_loop fuel txpacket length)
      else Ok (NDone length (unlock_net s))
  end.
Definition sys_net_send (fuel : nat) (txpacket : list Z) (length : Z) (c : nat) s : outcome (nres Z) :=
  send_loop fuel txpacket length c s.

(** long Syscall::sys_net_recv(void *rxbuffer, long pkt_num, int *pkt_lens): the
    buffer and the array are the caller's memory; every poll stores its result in
    pkt_lens\[i\], the -1 of an empty ring too. *)
Definition rx_memory : Type := list Z * list Z.
Fixpoint recv_packet (fuel : nat) (i : nat) (offset : Z) (m : rx_memory) (c : nat) s : outcome (nres rx_memory) :=
  match fuel with
  | O => OutOfFuel
  | S fuel =>
      s <- lock_net s ;;
      '(r, got, n) <- e1000_poll (drop (Z.to_nat offset) m.1) (card s) ;;
      let s := set_card s n in
      _ <- or_fault (m.2 !! i) ;;
      let m := (take (Z.to_nat offset) m.1 ++ got, <[i := r]> m.2) in
      if r =? -1 then
        r <- do_block_net push_recv c s ;;
        nbind r c (fun _ => recv_packet fuel i offset m)
      else Ok (NDone m (unlock_net s))
  end.
Fixpoint recv_loop (fuel : nat) (todo : nat) (i : nat) (offset : Z) (m : rx_memory) (c : nat) s : outcome (nres (Z * rx_memory)) :=
  match todo with
  | O => Ok (NDone (offset, m) s)
  | S todo =>
      r <- recv_packet fuel i offset m c s ;;
      nbind r c (fun m c s =>
        len <- or_fault (m.2 !! i) ;;
        recv_loop fuel todo (S i) (i64 (offset + len)) m c s)
  end.
Definition sys_net_recv (fuel : nat) (rxbuffer : list Z) (pkt_num : Z) (pkt_lens : list Z) (c : nat) s : outcome (nres (Z * rx_memory)) :=
  recv_loop fuel (Z.to_nat pkt_num) 0 0 (rxbuffer, pkt_lens) c s.

(** The device tree, as the firmware answers *)
Inductive FDT_TYPE := TIMEBASE | SLCR_BADE_ADDR | ETHERNET_ADDR | PLIC_ADDR | NR_IRQS.

Section Init.
Context {H : Type} `{!page_source H}.
Context (bios_read_fdt : FDT_TYPE -> Z) (tx_desc_at rx_desc_at tx_buf_at rx_buf_at : Z).

(** void init_net() *)
Definition init_net (fuel : nat) s (v : vm H) : outcome (net * vm H) :=
  let e1000 := bios_read_fdt ETHERNET_ADDR in
  let plic_addr := bios_read_fdt PLIC_ADDR in
  let nr_irqs := u32 (bios_read_fdt NR_IRQS) in
  '(plic_addr, v) <- ioremap plic_addr (0x4000 * PAGE_SIZE) v ;;
  '(e1000, v) <- ioremap e1000 (8 * PAGE_SIZE) v ;;
  let s := set_irqs s (plic_init plic_addr nr_irqs (irqs s)) in
  '(n, k) <- e1000_init tx_desc_at rx_desc_at tx_buf_at rx_buf_at fuel e1000 (card s) (kern s) ;;
  Ok (set_kern (set_card s n) k, v).
End Init.
