(* ===== verification/NetTheorems.v ===== *)
(** Properties of the network: packets keep their order and contents through the
    rings for every interleaving of the driver with the card, what a full ring
    and an oversized packet do to sys_net_send. *)

From Stdlib Require Import ZArith Lia List.
From stdpp Require Import base numbers list gmap strings.
From S2P Require Import Prelude Trie KAlloc Objects Kernel Sched SchedProps SchedTheorems Locks LocksProps LocksTheorems Page E1000 E1000Props Plic Net.

Local Open Scope Z_scope.
#[local] Ltac Zify.zify_post_hook ::= Z.div_mod_to_equations.

Section Fifo.
Context (tx_desc_at rx_desc_at tx_buf_at rx_buf_at : Z).
Abbreviation card_step := (dev_step tx_desc_at rx_desc_at tx_buf_at rx_buf_at).
Abbreviation rings_ok := (nic_ok tx_desc_at rx_desc_at tx_buf_at rx_buf_at).
Abbreviation init := (e1000_init tx_desc_at rx_desc_at tx_buf_at rx_buf_at).

(** What happens at the rings: the driver is called or the card acts. *)
Inductive nic_event := Queued (p : list Z) | Full (p : list Z) | Polled (p : list Z) | Empty | Card (e : dev_event).

Inductive nic_step (n : nic) : nic_event -> nic -> Prop :=
| step_queued p n' : (length p <= 2048)%nat -> e1000_transmit p (Z.of_nat (length p)) n = Ok (0, n') -> nic_step n (Queued p) n'
| step_full p n' : (length p <= 2048)%nat -> e1000_transmit p (Z.of_nat (length p)) n = Ok (-1, n') -> nic_step n (Full p) n'
| step_polled buf len buf' n' : (2048 <= length buf)%nat -> len <> -1 -> e1000_poll buf n = Ok (len, buf', n') ->
    nic_step n (Polled (take (Z.to_nat len) buf')) n'
| step_empty buf buf' n' : e1000_poll buf n = Ok (-1, buf', n') -> nic_step n Empty n'
| step_card e n' : card_step n e n' -> nic_step n (Card e) n'.

Inductive nic_run (n : nic) : list nic_event -> nic -> Prop :=
| run_start : nic_run n [] n
| run_step es n1 e n2 : nic_run n es n1 -> nic_step n1 e n2 -> nic_run n (es ++ [e]) n2.

(** The packets of a run, by what happened to them. *)
Definition queued (es : list nic_event) : list (list Z) := omap (fun e => match e with Queued p => Some p | _ => None end) es.
Definition polled (es : list nic_event) : list (list Z) := omap (fun e => match e with Polled p => Some p | _ => None end) es.
Definition sent (es : list nic_event) : list (list Z) := omap (fun e => match e with Card (Sent p) => Some p | _ => None end) es.
Definition received (es : list nic_event) : list (list Z) := omap (fun e => match e with Card (Received p) => Some p | _ => None end) es.

Lemma rx_packet_size n t p r : rings_ok n t (p :: r) -> (length p <= 2048)%nat.
Proof.
  intros (C & _ & R). destruct (rr_slot _ _ R 0%nat p eq_refl) as (d & row & _ & Hrow & _ & Htk & _).
  pose proof (cf_rxrow _ _ _ _ _ C _ _ Hrow). rewrite <- Htk, length_take. lia.
Qed.

(** One event moves the queues as its name says. *)
Lemma nic_step_ok n t r e n' :
  rings_ok n t r -> nic_step n e n' ->
  match e with
  | Queued p => (length t < 63)%nat /\ rings_ok n' (t ++ [p]) r
  | Full _ => length t = 63%nat /\ rings_ok n' t r
  | Polled p => exists r', r = p :: r' /\ rings_ok n' t r'
  | Empty => r = [] /\ rings_ok n' t r
  | Card (Sent q) => exists p t', t = p :: t' /\ padded p q /\ rings_ok n' t' r
  | Card (Received p) => (length r < 63)%nat /\ rings_ok n' t (r ++ [p])
  | Card (Raised _) => rings_ok n' t r
  end.
Proof.
  intros Hok Hs. destruct Hs as [p n' Hp E|p n' Hp E|buf len buf' n' Hb Hl E|buf buf' n' E|e n' Hd].
  - destruct (transmit_ok _ _ _ _ _ _ _ _ Hok Hp) as [[_ E']|[Hl (n2 & E' & Hok')]]; simplify_eq; [congruence|].
    rewrite E in E'. by simplify_eq.
  - destruct (transmit_ok _ _ _ _ _ _ _ _ Hok Hp) as [[Hl E']|[Hl (n2 & E' & Hok')]]; rewrite E in E'; by simplify_eq.
  - destruct r as [|p r]; [rewrite (poll_empty _ _ _ _ _ _ _ Hok) in E; by simplify_eq|].
    pose proof (rx_packet_size n t p r Hok). destruct (poll_ok _ _ _ _ _ _ _ _ buf Hok) as (n2 & E' & Hok'); [lia|].
    rewrite E in E'. simplify_eq. exists r. rewrite Nat2Z.id, take_app_length. done.
  - destruct r as [|p r]; [rewrite (poll_empty _ _ _ _ _ _ _ Hok) in E; by simplify_eq|].
    exfalso. unfold e1000_poll in E. destruct Hok as (C & T & R). pose proof R as [Hh Ht Hl Hs]. simpl length in *.
    destruct (Hs 0%nat p eq_refl) as (d & row & Hd & Hrow & Hlen & Htk & Hdd). change (Z.of_nat 0) with 0 in *. rewrite Z.add_0_r in Hd, Hrow.
    revert E. cbn [e1000_read_reg Z.eqb E1000_RDH E1000_RDT E1000_ICR Pos.eqb]. fold E1000_RDH E1000_RDT. rewrite u32_small by lia. unfold RXDESCS.
    destruct (Z.eqb_spec ((reg n E1000_RDT + 1) mod 64) (reg n E1000_RDH)); [lia|]. rewrite Hd. cbn [or_fault obind].
    replace (Z.land (rx_status d) E1000_RXD_STAT_DD =? 0) with false by (symmetry; by apply Z.eqb_neq). rewrite Hrow. cbn [or_fault obind].
    destruct (copy_bytes buf row (rx_length d)); cbn [obind]; intros; simplify_eq. lia.
  - destruct e as [p|p|w]; [by eapply dev_send_ok|by eapply dev_receive_ok|by eapply dev_raise_ok].
Qed.

(** C20: from e1000_init on, whatever the interleaving of the driver's calls, with
    packets of at most 2048 bytes, and the card: the packets on the wire are the
    accepted ones in order, each unchanged or, when it has less than 60 bytes, filled
    up to 60 by the card (the driver sets E1000_TCTL_PSP), followed in the ring by at
    most 63 that wait; the polled packets are the received ones in order and
    unchanged, with at most 63 still in the ring; a packet is refused only when 63
    wait.  A longer packet is copied over the end of its buffer
    ([oversized_packet_faults]). *)
Theorem network_fifo fuel base n k k' n0 es n' :
  arrays_ok n -> latency fuel 1 k = Ok k' -> init fuel base n k = Ok (n0, k') -> nic_run n0 es n' ->
  exists ps t r, queued es = ps ++ t /\ Forall2 padded ps (sent es) /\ received es = polled es ++ r /\ (length t <= 63)%nat /\ (length r <= 63)%nat /\
    (forall p, (length p <= 2048)%nat ->
       exists n2, e1000_transmit p (Z.of_nat (length p)) n' = Ok (if decide (length t = 63%nat) then -1 else 0, n2)).
Proof.
  intros Ha Hl Hi Hrun.
  enough (exists ps t r, rings_ok n' t r /\ queued es = ps ++ t /\ Forall2 padded ps (sent es) /\ received es = polled es ++ r) as (ps & t & r & Hok & Ht & Hps & Hr).
  { exists ps, t, r. pose proof Hok as (_ & T & R). pose proof (tr_len _ _ T). pose proof (rr_len _ _ R). do 5 (split; [done|]).
    intros p Hp. destruct (transmit_ok _ _ _ _ _ _ _ p Hok Hp) as [[Hf E]|[Hf (n2 & E & _)]].
    - exists n'. by rewrite decide_True.
    - exists n2. rewrite decide_False by lia. done. }
  induction Hrun as [|es n1 e n2 Hrun (ps & t & r & Hok & Ht & Hps & Hr) Hs].
  - destruct (init_ok tx_desc_at rx_desc_at tx_buf_at rx_buf_at fuel base n k k' Ha Hl) as (n1 & E & Hok & _).
    rewrite Hi in E. simplify_eq. by exists [], [], [].
  - pose proof (nic_step_ok _ _ _ _ _ Hok Hs) as H. unfold queued, sent, received, polled in *. rewrite !omap_app.
    destruct e as [p|p|p| |[p|p|w]]; simpl; rewrite ?app_nil_r.
    + exists ps, (t ++ [p]), r. rewrite Ht, app_assoc. by destruct H.
    + exists ps, t, r. by destruct H.
    + destruct H as (r' & -> & Hok'). exists ps, t, r'. rewrite Hr, <- app_assoc. done.
    + exists ps, t, r. by destruct H.
    + destruct H as (p0 & t' & -> & Hp0 & Hok'). exists (ps ++ [p0]), t', r. rewrite Ht, <- app_assoc. do 2 (split; [done|]).
      split; [|done]. apply Forall2_app; [done|]. by constructor.
    + exists ps, t, (r ++ [p]). rewrite Hr, app_assoc. by destruct H.
    + by exists ps, t, r.
Qed.

(** ** sys_net_send *)

(** The network between two operations: the card's rings hold [t] and [r], the
    lock is free and the scheduler's state is consistent. *)
Record net_ok (s : net) (t r : list (list Z)) : Prop := {
  no_rings : rings_ok (card s) t r;
  no_lock : net_buffer_lock s = false;
  no_sched : sched_ok (kern s)
}.

Lemma lock_net_free s : net_buffer_lock s = false -> lock_net s = Ok (set_lock s true).
Proof. intros E. unfold lock_net. rewrite E. done. Qed.

(** a packet longer than a buffer of the ring is copied over the end of its
    buffer, unless the ring is full; so is one of negative length. *)
Theorem oversized_packet_faults fuel txpacket length c s t r :
  net_ok s t r -> (List.length t < 63)%nat -> (length < 0 \/ 2048 < length) -> - 2 ^ 31 <= length < 2 ^ 31 ->
  sys_net_send (S fuel) txpacket length c s = Fault.
Proof.
  intros [(C & T & R) Hl _] Ht Hlen Hr. unfold sys_net_send. cbn [send_loop]. rewrite lock_net_free by done. cbn [obind].
  destruct T as [Hh Htl _ Hs]. change (card (set_lock s true)) with (card s). set (n := card s) in *. rewrite i32_small by done.
  unfold e1000_transmit. cbn [e1000_read_reg Z.eqb E1000_TDH E1000_TDT E1000_ICR Pos.eqb]. fold E1000_TDH E1000_TDT.
  rewrite u32_small by lia. unfold TXDESCS. destruct (Z.eqb_spec ((reg n E1000_TDT + 1) mod 64) (reg n E1000_TDH)); [lia|].
  destruct (slot_lookup _ (reg n E1000_TDT) (cf_txb _ _ _ _ _ C)) as [row Hrow]; [lia|]. rewrite Hrow. cbn [or_fault obind].
  pose proof (cf_txrow _ _ _ _ _ C _ _ Hrow) as Hlr. destruct Hlen as [Hn|Hn].
  - unfold copy_bytes. replace (0 <=? length) with false by lia. done.
  - rewrite copy_bytes_long by lia. done.
Qed.

(** ** sys_net_recv *)

Lemma recv_packet_ready fuel pre p rest l0 x ls c s t r :
  net_ok s t (p :: r) -> (length p <= length rest)%nat ->
  exists s', recv_packet (S fuel) (length l0) (Z.of_nat (length pre)) (pre ++ rest, l0 ++ x :: ls) c s
    = Ok (NDone (pre ++ p ++ drop (length p) rest, l0 ++ Z.of_nat (length p) :: ls) s') /\ net_ok s' t r.
Proof.
  intros [Hr Hl Hok] Hb. cbn [recv_packet fst snd]. rewrite lock_net_free by done. cbn [obind].
  change (card (set_lock s true)) with (card s). rewrite Nat2Z.id, drop_app_length.
  destruct (poll_ok _ _ _ _ _ _ _ _ rest Hr Hb) as (n' & -> & Hr'). cbn [obind].
  rewrite list_lookup_middle by done. cbn [or_fault obind]. rewrite take_app_length.
  replace (Z.of_nat (length p) =? -1) with false by lia.
  rewrite insert_app_r_alt, Nat.sub_diag by done. cbn [insert list_insert].
  eexists. split; [done|]. by split.
Qed.

(** Packets that have arrived are stored one behind the other. *)
Lemma recv_loop_ready fuel ps : forall pre rest l0 ls c s t r,
  net_ok s t (ps ++ r) -> (length (concat ps) <= length rest)%nat -> Z.of_nat (length pre + length (concat ps)) < 2 ^ 63 -> length ls = length ps ->
  exists s', recv_loop (S fuel) (length ps) (length l0) (Z.of_nat (length pre)) (pre ++ rest, l0 ++ ls) c s
    = Ok (NDone (Z.of_nat (length pre + length (concat ps)),
        (pre ++ concat ps ++ drop (length (concat ps)) rest, l0 ++ map (fun p => Z.of_nat (length p)) ps)) s') /\ net_ok s' t r.
Proof.
  induction ps as [|p ps IH]; intros pre rest l0 ls c s t r Hok Hb Hs Hl.
  - destruct ls; [|done]. cbn [length recv_loop concat map app]. rewrite drop_0, Nat.add_0_r. by exists s.
  - destruct ls as [|x ls]; [done|]. injection Hl as Hl. cbn [concat length recv_loop app map] in *. rewrite length_app in Hb, Hs.
    destruct (recv_packet_ready fuel pre p rest l0 x ls c s t (ps ++ r) Hok) as (s1 & E & Hok1); [lia|].
    rewrite E. cbn [obind nbind snd]. rewrite list_lookup_middle by done. cbn [or_fault obind].
    rewrite i64_small by lia. destruct (IH (pre ++ p) (drop (length p) rest) (l0 ++ [Z.of_nat (length p)]) ls c s1 t r Hok1) as (s2 & E2 & Hok2).
    + rewrite length_drop. lia.
    + rewrite length_app. lia.
    + done.
    + rewrite !length_app, <- !app_assoc, Nat.add_1_r in E2. cbn [app length] in E2.
      replace (Z.of_nat (length pre) + Z.of_nat (length p)) with (Z.of_nat (length pre + length p)) by lia.
      rewrite E2. exists s2. split; [|done]. rewrite length_app, drop_drop, <- app_assoc, Nat.add_assoc. done.
Qed.

(** sys_net_recv, when as many packets as it asks for have arrived and the
    buffer has room for them: it returns their total length without blocking, the
    buffer begins with the packets one behind the other, pkt_lens holds their
    lengths, and they have left the ring. *)
Theorem recv_concatenates fuel ps r rxbuffer lens c s t :
  net_ok s t (ps ++ r) -> (length (concat ps) <= length rxbuffer)%nat -> Z.of_nat (length (concat ps)) < 2 ^ 63 -> length lens = length ps ->
  exists s', sys_net_recv (S fuel) rxbuffer (Z.of_nat (length ps)) lens c s
    = Ok (NDone (Z.of_nat (length (concat ps)), (concat ps ++ drop (length (concat ps)) rxbuffer, map (fun p => Z.of_nat (length p)) ps)) s') /\
    net_ok s' t r.
Proof.
  intros Hok Hb Hs Hl. unfold sys_net_recv. rewrite Nat2Z.id.
  exact (recv_loop_ready fuel ps [] rxbuffer [] lens c s t r Hok Hb Hs Hl).
Qed.

(** ** Waiting for a full ring *)

(** One turn of the loop of sys_net_send. *)
Lemma send_loop_S fuel p length c s :
  send_loop (S fuel) p length c s =
  (s <- lock_net s ;;
   '(r, n) <- e1000_transmit p (i32 length) (card s) ;;
   let s := set_card s n in
   if r =? -1 then
     let s := set_card s (e1000_write_reg E1000_IMS E1000_ICR_TXQE (card s)) in
     r <- do_block_net push_send c s ;; nbind r c (fun _ => send_loop fuel p length)
   else Ok (NDone length (unlock_net s))).
Proof. done. Qed.

(** Blocking: the thread is parked in the queue and the lock is free. *)
Lemma do_block_net_parks push_it c s th :
  sched_ok (kern s) -> executing c (kern s) th -> (forall t s, kern (push_it t s) = kern s) ->
  exists k', do_block_net push_it c s = Ok (NSwitched (set_kern (unlock_net (push_it th s)) k')
      (fun c' s' => Ok (NDone tt (set_kern s' (kern s'))))) /\
    sched_ok k' /\ parked k' th /\ (forall u, parked (kern s) u -> parked k' u).
Proof.
  intros Hok Hex Hp. pose proof Hex as [Ec _ Hrun _]. destruct (running_thread _ _ Hrun) as (T & HT & _ & Hb & _).
  destruct (do_block_parks c (kern s) th (fun _ k => Ok k) Ok (kern s) (blocked_state (kern s) th T) T) as (k' & E & Hok' & _ & Hpk & Hoth); try done.
  unfold do_block, block_current in E. rewrite Ec in E. cbn [obind] in E.
  destruct (block (kern s) th) as [kb| | |] eqn:Eb; cbn [obind] in E; try discriminate E.
  unfold do_block_net. rewrite Ec. cbn [obind]. rewrite Hp, Eb. cbn [obind].
  change (kern (unlock_net (set_kern (push_it th s) kb))) with kb. rewrite E. cbn [obind nlift resume].
  exists k'. split; [done|]. split; [done|]. split; [done|]. intros u Hu. by apply Hoth.
Qed.

Lemma raised_txqe icr ims : Z.testbit icr 1 = true -> Z.testbit ims 1 = true -> Z.land (Z.land icr ims) E1000_ICR_TXQE <> 0.
Proof.
  intros H1 H2 E. assert (Z.testbit (Z.land (Z.land icr ims) E1000_ICR_TXQE) 1 = false) as Hf by by rewrite E.
  rewrite !Z.land_spec, H1, H2 in Hf. done.
Qed.
Lemma not_raised icr ims : Z.testbit icr 4 = false -> Z.land (Z.land icr ims) E1000_ICR_RXDMT0 = 0.
Proof.
  intros H1. apply Z.bits_inj'. intros i Hi. rewrite !Z.land_spec, Z.bits_0. change E1000_ICR_RXDMT0 with (2 ^ 4). rewrite Z.pow2_bits_eqb by lia.
  destruct (Z.eqb_spec 4 i) as [<-|]; [by rewrite H1|by rewrite andb_false_r].
Qed.

(** A turn of the loop with room in the ring is the last. *)
Lemma send_loop_room fuel p c s t r :
  net_ok s t r -> (length t < 63)%nat -> (length p <= 2048)%nat ->
  exists s', send_loop (S fuel) p (Z.of_nat (length p)) c s = Ok (NDone (Z.of_nat (length p)) s') /\ rings_ok (card s') (t ++ [p]) r.
Proof.
  intros [Hr Hl _] Ht Hp. rewrite send_loop_S, lock_net_free by done. cbn [obind]. rewrite i32_small by lia.
  change (card (set_lock s true)) with (card s).
  destruct (transmit_ok _ _ _ _ _ _ _ p Hr Hp) as [[Hf _]|[_ (n' & -> & Hok)]]; [lia|]. cbn [obind]. by eexists.
Qed.

Lemma rings_reg n a v t r : a = E1000_ICR \/ a = E1000_IMS -> rings_ok n t r -> rings_ok (set_reg n a v) t r.
Proof.
  intros Ha (C & T & R). split; [|split].
  - apply nic_cfg_reg; [|done]. unfold moving. tauto.
  - destruct Ha as [-> | ->]; (apply (tx_ring_ext n); [by rewrite reg_set_ne|by rewrite reg_set_ne|done|done|done]).
  - destruct Ha as [-> | ->]; (apply (rx_ring_ext n); [by rewrite reg_set_ne|by rewrite reg_set_ne|done|done|done]).
Qed.

(** The interrupt "transmit queue empty" wakes every waiting sender. *)
Lemma txqe_wakes_senders s n2 r2 :
  sched_ok (kern s) -> net_buffer_lock s = false -> NoDup (send_wait_queue s) -> (forall u, u ∈ send_wait_queue s -> parked (kern s) u) ->
  rings_ok n2 [] r2 -> Z.testbit (reg n2 E1000_IMS) 1 = true -> Z.testbit (reg n2 E1000_ICR) 1 = true -> Z.testbit (reg n2 E1000_ICR) 4 = false ->
  exists s3, handle_e1000_irq (set_card s n2) = Ok s3 /\ net_ok s3 [] r2 /\ send_wait_queue s3 = [] /\
    (forall u, u ∈ send_wait_queue s -> statusof (kern s3) u READY /\ u ∈ ready_queue (kern s3)) /\ Z.testbit (reg (card s3) E1000_IMS) 1 = false.
Proof.
  intros Hok Hl Hnd Hpk Hr Hims Hicr Hrx. unfold handle_e1000_irq. change (card (set_card s n2)) with n2.
  change (e1000_read_reg E1000_ICR n2) with (reg n2 E1000_ICR, set_reg n2 E1000_ICR 0). cbn iota beta.
  change (e1000_read_reg E1000_IMS (set_reg n2 E1000_ICR 0)) with (reg (set_reg n2 E1000_ICR 0) E1000_IMS, set_reg n2 E1000_ICR 0). cbn iota beta.
  rewrite reg_set_ne by done. rewrite not_raised by done. cbn [Z.eqb negb obind].
  replace (Z.land (Z.land (reg n2 E1000_ICR) (reg n2 E1000_IMS)) E1000_ICR_TXQE =? 0) with false
    by (symmetry; apply Z.eqb_neq; by apply raised_txqe).
  cbn [negb]. rewrite wr_imc. unfold wake_senders. rewrite lock_net_free by done. cbn [obind].
  destruct (wakeup_all_parked (send_wait_queue s) (kern s) Hok Hnd Hpk) as (k' & E & Hok' & _ & _ & Hw).
  change (send_wait_queue (set_lock _ _)) with (send_wait_queue s). change (kern (set_lock _ _)) with (kern s). rewrite E. cbn [obind].
  eexists. split; [done|]. split; [split; [|done|exact Hok']|split; [done|split; [exact Hw|]]].
  - simpl card. apply rings_reg; [by right|]. apply rings_reg; [by left|]. done.
  - simpl card. rewrite reg_set_eq, Z.ldiff_spec. by rewrite andb_false_r.
Qed.

(** C31: a sender that finds the ring full is parked in the queue with the
    interrupt for an empty ring unmasked; when the card has emptied the ring and
    raises it, the handler makes the sender ready and masks the interrupt again;
    and when it runs again and the ring has room its packet is accepted. *)
Theorem full_ring_sender_resumes fuel p c s th t r :
  net_ok s t r -> length t = 63%nat -> (length p <= 2048)%nat -> executing c (kern s) th ->
  NoDup (send_wait_queue s) -> (forall u, u ∈ send_wait_queue s -> parked (kern s) u) ->
  exists s1 cont, sys_net_send (S (S fuel)) p (Z.of_nat (length p)) c s = Ok (NSwitched s1 cont) /\ net_ok s1 t r /\
    send_wait_queue s1 = send_wait_queue s ++ [th] /\ parked (kern s1) th /\ Z.testbit (reg (card s1) E1000_IMS) 1 = true /\
    (forall n2 r2, rings_ok n2 [] r2 -> reg n2 E1000_IMS = reg (card s1) E1000_IMS ->
       Z.testbit (reg n2 E1000_ICR) 1 = true -> Z.testbit (reg n2 E1000_ICR) 4 = false ->
       exists s3, handle_e1000_irq (set_card s1 n2) = Ok s3 /\ net_ok s3 [] r2 /\ send_wait_queue s3 = [] /\
         statusof (kern s3) th READY /\ th ∈ ready_queue (kern s3) /\ Z.testbit (reg (card s3) E1000_IMS) 1 = false) /\
    (forall c' s4 t4 r4, net_ok s4 t4 r4 -> (length t4 < 63)%nat ->
       exists s5, cont c' s4 = Ok (NDone (Z.of_nat (length p)) s5) /\ rings_ok (card s5) (t4 ++ [p]) r4).
Proof.
  intros [Hr Hl Hok] Ht Hp Hex Hnd Hpk. unfold sys_net_send. rewrite send_loop_S, lock_net_free by done. cbn [obind].
  rewrite i32_small by lia. change (card (set_lock s true)) with (card s).
  destruct (transmit_ok _ _ _ _ _ _ _ p Hr Hp) as [[_ ->]|[Hf _]]; [|lia]. cbn [obind Z.eqb]. cbn zeta.
  set (s0 := set_card (set_card (set_lock s true) (card s)) _).
  destruct (do_block_net_parks push_send c s0 th Hok Hex ltac:(done)) as (k' & -> & Hok' & Hpk' & Hoth). cbn [obind nbind].
  assert (Hth : th ∉ send_wait_queue s).
  { intros Hin. destruct (Hpk _ Hin) as [(T & HT & _ & Hrn & _) _ _]. pose proof Hex as [_ _ Hrun _].
    destruct (running_thread _ _ Hrun) as (T' & HT' & _ & _ & Hrn'). congruence. }
  eexists _, _. split; [done|]. set (s1 := set_kern (unlock_net (push_send th s0)) k').
  assert (Hr1 : rings_ok (card s1) t r) by (subst s1 s0; simpl card; rewrite wr_ims; apply rings_reg; [by right|done]).
  assert (Hims : Z.testbit (reg (card s1) E1000_IMS) 1 = true).
  { subst s1 s0. simpl card. rewrite wr_ims, reg_set_eq, Z.lor_spec. by rewrite orb_true_r. }
  split; [by split|]. split; [done|]. split; [done|]. split; [done|]. split.
  - intros n2 r2 Hr2 Ei Hi1 Hi4. destruct (txqe_wakes_senders s1 n2 r2) as (s3 & E & Hok3 & Hq & Hw & Hm); try done.
    + change (send_wait_queue s1) with (send_wait_queue s ++ [th]). apply NoDup_app. split; [done|]. split; [|apply NoDup_singleton].
      intros u Hu ->%list_elem_of_singleton. done.
    + change (send_wait_queue s1) with (send_wait_queue s ++ [th]). intros u Hu. apply elem_of_app in Hu as [Hu| ->%list_elem_of_singleton]; [|done].
      apply Hoth. by apply Hpk.
    + by rewrite Ei.
    + exists s3. destruct (Hw th) as [Hw1 Hw2]; [apply elem_of_app; right; left|]. done.
  - intros c' s4 t4 r4 Hok4 Ht4. replace (set_kern s4 (kern s4)) with s4 by by destruct s4.
    by apply send_loop_room.
Qed.
End Fifo.

(** * A concrete network: one CPU, the arrays at their link addresses *)
Module Demo.
Definition txd : Z := 0xffffffc050210000.
Definition rxd : Z := 0xffffffc050210400.
Definition txb : Z := 0xffffffc050220000.
Definition rxb : Z := 0xffffffc050240000.
Definition blank_card : nic :=
  MkNic 0 ∅ (replicate 64 (MkTx 0 0 0 0 0 0 0)) (replicate 64 (MkRx 0 0 0 0 0 0))
    (replicate 64 (replicate 2048 0)) (replicate 64 (replicate 2048 0)).
Definition started : kernel := match latency 20 1 OneCpu.quiet with Ok k => k | _ => OneCpu.quiet end.

Lemma blank_arrays : arrays_ok blank_card.
Proof.
  unfold arrays_ok, blank_card. cbn [tx_desc_array rx_desc_array tx_pkt_buffer rx_pkt_buffer].
  rewrite !length_replicate. do 4 (split; [done|]).
  split; intros i row [-> _]%lookup_replicate; apply length_replicate.
Qed.
Lemma clock : latency 20 1 OneCpu.quiet = Ok started.
Proof. vm_compute. reflexivity. Qed.

(** A card with [j] waiting packets. *)
Lemma card_with j : (j <= 63)%nat -> exists n, nic_ok txd rxd txb rxb n (replicate j [1; 2; 3]) [].
Proof.
  induction j as [|j IH]; intros Hj.
  - destruct (init_ok txd rxd txb rxb 20 0 blank_card OneCpu.quiet started blank_arrays clock) as (n & _ & Hok & _). by exists n.
  - destruct IH as (n & Hok); [lia|]. destruct (transmit_ok _ _ _ _ n _ [] [1; 2; 3] Hok) as [[Hf _]|[_ (n' & _ & Hok')]].
    + simpl. lia.
    + rewrite length_replicate in Hf. lia.
    + exists n'. rewrite replicate_S_end. done.
Qed.
Definition net_with (n : nic) : net := MkNet OneCpu.quiet n demo_plic false [] [].
End Demo.
Import Demo.

(** The card sends the first waiting packet. *)
Lemma card_sends n p t r : nic_ok txd rxd txb rxb n (p :: t) r ->
  exists n', dev_step txd rxd txb rxb n (Sent (p ++ replicate (60 - length p) 0)) n' /\ nic_ok txd rxd txb rxb n' t r.
Proof.
  intros Hok. pose proof Hok as (C & T & _). pose proof (tr_head _ _ T). pose proof (tr_tail _ _ T) as Ht. pose proof (tr_len _ _ T). simpl length in *.
  destruct (tr_slot _ _ T 0%nat p eq_refl) as (d & row & Hd & Hrow & Hlen & Htk). replace ((reg n E1000_TDH + Z.of_nat 0) mod 64) with (reg n E1000_TDH) in * by lia.
  assert (Hs : exists n', dev_step txd rxd txb rxb n (Sent (p ++ replicate (60 - length p) 0)) n').
  { eexists. eapply (DevSend txd rxd txb rxb n (reg n E1000_TDH) d row); [apply C|apply C|lia|exact Hd| |unfold TXDESCS; lia|exact Hrow|reflexivity|].
    - rewrite (cf_txa _ _ _ _ _ C _ _ Hd), Z2Nat.id by lia. done.
    - rewrite Hlen, Nat2Z.id, Htk. eexists. split; [reflexivity|]. rewrite length_replicate. by rewrite (proj2 (cf_tctl _ _ _ _ _ C)). }
  destruct Hs as [n' Hs]. exists n'. split; [exact Hs|]. destruct (dev_send_ok _ _ _ _ _ _ _ _ _ Hok Hs) as (p0 & t' & E & _ & Hok'). by injection E as _ ->.
Qed.

Lemma network_fifo_witness :
  exists n0 n' es, arrays_ok blank_card /\ latency 20 1 OneCpu.quiet = Ok started /\
    e1000_init txd rxd txb rxb 20 0 blank_card OneCpu.quiet = Ok (n0, started) /\ nic_run txd rxd txb rxb n0 es n' /\
    queued es = [[1; 2; 3]; [4; 5]] /\ sent es = [[1; 2; 3] ++ replicate 57 0] /\
    exists ps t r, queued es = ps ++ t /\ Forall2 padded ps (sent es) /\ received es = polled es ++ r /\ (length t <= 63)%nat /\ (length r <= 63)%nat /\
      (forall p, (length p <= 2048)%nat -> exists n2, e1000_transmit p (Z.of_nat (length p)) n' = Ok (if decide (length t = 63%nat) then -1 else 0, n2)).
Proof.
  destruct (init_ok txd rxd txb rxb 20 0 blank_card OneCpu.quiet started blank_arrays clock) as (n0 & E & Hok & _).
  destruct (transmit_ok _ _ _ _ n0 _ [] [1; 2; 3] Hok) as [[Hf _]|[_ (n1 & E1 & Hok1)]]; [simpl; lia|discriminate Hf|].
  destruct (card_sends n1 [1; 2; 3] [] [] Hok1) as (n2 & Hc & Hok2).
  destruct (transmit_ok _ _ _ _ n2 _ [] [4; 5] Hok2) as [[Hf _]|[_ (n3 & E3 & Hok3)]]; [simpl; lia|discriminate Hf|].
  set (es := (([] ++ [Queued [1; 2; 3]]) ++ [Card (Sent ([1; 2; 3] ++ replicate (60 - length [1; 2; 3]) 0))]) ++ [Queued [4; 5]]).
  assert (Hrun : nic_run txd rxd txb rxb n0 es n3).
  { apply run_step with n2; [apply run_step with n1; [apply run_step with n0; [apply run_start|]|]|]; [|by apply step_card|]; (apply step_queued; [simpl; lia|assumption]). }
  exists n0, n3, es. split; [exact blank_arrays|]. split; [exact clock|]. split; [exact E|]. split; [exact Hrun|]. split; [reflexivity|]. split; [reflexivity|].
  apply (network_fifo txd rxd txb rxb 20 0 blank_card OneCpu.quiet started n0 es n3 blank_arrays clock E Hrun).
Defined.

Lemma net_with_ok n t : nic_ok txd rxd txb rxb n t [] -> net_ok txd rxd txb rxb (net_with n) t [].
Proof. intros H. split; [exact H|done|exact OneCpuLocks.quiet_ok]. Qed.

(** A card on which two packets have arrived. *)
Lemma card_received : exists n, nic_ok txd rxd txb rxb n [] [[1; 2; 3]; [4; 5]].
Proof.
  assert (Hstep : forall n r p, nic_ok txd rxd txb rxb n [] r -> (length r < 63)%nat -> Z.of_nat (length p) <= 2048 ->
    exists n', nic_ok txd rxd txb rxb n' [] (r ++ [p])).
  { intros n r p Hok Hr Hp. pose proof Hok as (C & _ & R). pose proof (rr_tail _ _ R). pose proof (rr_head _ _ R) as Hh.
    destruct (slot_lookup _ (reg n E1000_RDH) (cf_rxd _ _ _ _ _ C)) as [d Hd]; [lia|].
    destruct (slot_lookup _ (reg n E1000_RDH) (cf_rxb _ _ _ _ _ C)) as [row Hrow]; [lia|].
    eexists. eapply (dev_receive_ok txd rxd txb rxb n [] r p); [exact Hok|].
    eapply (DevReceive txd rxd txb rxb n p (reg n E1000_RDH) d row 0 0 0); [apply C|apply C|lia|exact Hp|exact Hd| |unfold RXDESCS; lia|exact Hrow|reflexivity].
    rewrite (cf_rxa _ _ _ _ _ C _ _ Hd), Z2Nat.id by lia. done. }
  destruct (card_with 0) as (n & Hok); [lia|].
  destruct (Hstep n [] [1; 2; 3] Hok) as (n1 & Hok1); [simpl; lia..|].
  exact (Hstep n1 [[1; 2; 3]] [4; 5] Hok1 ltac:(simpl; lia) ltac:(simpl; lia)).
Qed.

Lemma recv_concatenates_witness :
  exists n, net_ok txd rxd txb rxb (net_with n) [] ([[1; 2; 3]; [4; 5]] ++ []) /\
    exists s', sys_net_recv 1 (replicate 8 0) 2 [0; 0] 0 (net_with n) = Ok (NDone (5, ([1; 2; 3; 4; 5; 0; 0; 0], [3; 2])) s') /\
      net_ok txd rxd txb rxb s' [] [].
Proof.
  destruct card_received as (n & Hok). exists n.
  assert (Hn : net_ok txd rxd txb rxb (net_with n) [] ([[1; 2; 3]; [4; 5]] ++ [])) by (split; [exact Hok|done|exact OneCpuLocks.quiet_ok]).
  split; [exact Hn|].
  apply (recv_concatenates txd rxd txb rxb 0 [[1; 2; 3]; [4; 5]] [] (replicate 8 0) [0; 0] 0 (net_with n) [] Hn);
    [simpl; lia|simpl; lia|reflexivity].
Defined.

Lemma oversized_packet_faults_witness :
  exists n, net_ok txd rxd txb rxb (net_with n) [] [] /\ sys_net_send 1 (replicate 3000 7) 3000 0 (net_with n) = Fault.
Proof.
  destruct (card_with 0) as (n & Hok); [lia|]. exists n. split; [exact (net_with_ok n _ Hok)|].
  apply (oversized_packet_faults txd rxd txb rxb 0 (replicate 3000 7) 3000 0 (net_with n) [] [] (net_with_ok n _ Hok)); [simpl; lia|lia|lia].
Defined.

Lemma full_ring_sender_resumes_witness :
  exists n, net_ok txd rxd txb rxb (net_with n) (replicate 63 [1; 2; 3]) [] /\ executing 0 (kern (net_with n)) 101 /\
    exists s1 cont, sys_net_send 2 [4; 5] 2 0 (net_with n) = Ok (NSwitched s1 cont) /\
      net_ok txd rxd txb rxb s1 (replicate 63 [1; 2; 3]) [] /\ send_wait_queue s1 = [101] /\ parked (kern s1) 101.
Proof.
  destruct (card_with 63) as (n & Hok); [lia|]. exists n. pose proof (net_with_ok n _ Hok) as Hn.
  assert (Hex : executing 0 (kern (net_with n)) 101) by (by apply OneCpuLocks.executing_101).
  split; [exact Hn|]. split; [exact Hex|].
  destruct (full_ring_sender_resumes txd rxd txb rxb 0 [4; 5] 0 (net_with n) 101 (replicate 63 [1; 2; 3]) [] Hn) as (s1 & cont & H1 & H2 & H3 & H4 & _).
  - apply length_replicate.
  - simpl; lia.
  - exact Hex.
  - apply NoDup_nil_2.
  - intros u Hu. by apply not_elem_of_nil in Hu.
  - exists s1, cont. split; [exact H1|]. split; [exact H2|]. split; [exact H3|exact H4].
Defined.
