(* ===== verification/Image.v ===== *)
(** The disk image: src/tools/createimage.c, which builds it on the host, and the
    task table of src/src/task_loader.cpp, which reads it back in the kernel.

    The image is the loadable segments of the boot block, of the kernel and of
    every application, each file padded to whole sectors, then one sector with the
    table of tasks; where that sector is, how many tasks there are and how many
    sectors the kernel takes is patched into the end of sector 0.  Files of the
    host are lists of bytes; the ELF structures are read at the offsets of the
    ELF-64 format. *)

From Stdlib Require Import ZArith Lia List.
From stdpp Require Import base numbers list gmap.
From S2P Require Import Prelude BlockLayer FsLayout.

Local Open Scope Z_scope.

Definition SECTOR_SIZE : Z := 512.
Definition OS_SIZE_LOC : Z := 0x1fe - 2.
Definition TASK_MAXNUM : nat := 16.
Definition PT_LOAD : Z := 1.

(** NBYTES2SEC(nbytes), on an int *)
Definition NBYTES2SEC (nbytes : Z) : Z :=
  Z.quot nbytes SECTOR_SIZE + (if Z.rem nbytes SECTOR_SIZE =? 0 then 0 else 1).

(** * Files of the host *)

Record FILE := MkFILE { content : list Z; fpos : Z }.

(** fseek(fp, off, SEEK_SET): [off] is a long, and a negative one is refused. *)
Definition fseek (fp : FILE) (off : Z) : FILE :=
  if i64 off <? 0 then fp else MkFILE (content fp) (i64 off).
(** fread(p, n, 1, fp) with the assertion that it returns 1 *)
Definition fread (n : nat) (fp : FILE) : outcome (list Z * FILE) :=
  let b := take n (drop (Z.to_nat (fpos fp)) (content fp)) in
  assert_ (bool_decide (length b = n)) ;;
  Ok (b, MkFILE (content fp) (fpos fp + Z.of_nat n)).
(** fgetc(fp); -1 is EOF *)
Definition fgetc (fp : FILE) : Z * FILE :=
  match content fp !! Z.to_nat (fpos fp) with
  | Some b => (b, MkFILE (content fp) (fpos fp + 1))
  | None => (-1, fp)
  end.

(** * The ELF structures *)

Definition u64_at (b : list Z) (o : nat) : Z := le_val (take 8 (drop o b)).
Definition u16_at (b : list Z) (o : nat) : Z := le_val (take 2 (drop o b)).

(** Elf64_Ehdr and Elf64_Phdr, the fields that are used *)
Record Elf64_Ehdr := MkEhdr { e_ident : list Z; e_entry : Z; e_phoff : Z; e_phentsize : Z; e_phnum : Z }.
Record Elf64_Phdr := MkPhdr { p_type : Z; p_offset : Z; p_filesz : Z; p_memsz : Z }.
Definition ehdr_of (b : list Z) : Elf64_Ehdr := MkEhdr (take 16 b) (u64_at b 24) (u64_at b 32) (u16_at b 54) (u16_at b 56).
Definition phdr_of (b : list Z) : Elf64_Phdr := MkPhdr (u32_at b 0) (u64_at b 8) (u64_at b 32) (u64_at b 40).

(** static void read_ehdr(Elf64_Ehdr *ehdr, FILE *fp): the first magic byte is not compared. *)
Definition read_ehdr (fp : FILE) : outcome (Elf64_Ehdr * FILE) :=
  '(b, fp) <- fread 64 fp ;;
  let ehdr := ehdr_of b in
  assert_ (bool_decide (e_ident ehdr !! 1%nat = Some 69)) ;;
  assert_ (bool_decide (e_ident ehdr !! 2%nat = Some 76)) ;;
  assert_ (bool_decide (e_ident ehdr !! 3%nat = Some 70)) ;;
  Ok (ehdr, fp).
(** static void read_phdr(Elf64_Phdr *phdr, FILE *fp, int ph, Elf64_Ehdr ehdr) *)
Definition read_phdr (fp : FILE) (ph : Z) (ehdr : Elf64_Ehdr) : outcome (Elf64_Phdr * FILE) :=
  '(b, fp) <- fread 56 (fseek fp (u64 (e_phoff ehdr + ph * e_phentsize ehdr))) ;;
  Ok (phdr_of b, fp).
(** static uint32_t get_filesz(Elf64_Phdr phdr) *)
Definition get_filesz (phdr : Elf64_Phdr) : Z := u32 (p_filesz phdr).

(** * Writing the image *)

(** The image and phyaddr *)
Record output := MkOut { img : list Z; phyaddr : Z }.

(** fputc(ch, img); phyaddr++; an int that overflows is a fault. *)
Definition put (ch : Z) (o : output) : outcome output :=
  if phyaddr o + 1 <? 2 ^ 31 then Ok (MkOut (img o ++ [u8 ch]) (phyaddr o + 1)) else Fault.

(** while (phdr.p_filesz-- > 0) fputc(fgetc(fp), img), ++*phyaddr *)
Fixpoint copy_bytes (n : nat) (fp : FILE) (o : output) : outcome (FILE * output) :=
  match n with
  | O => Ok (fp, o)
  | S n => let '(ch, fp) := fgetc fp in o <- put ch o ;; copy_bytes n fp o
  end.
(** static void write_segment(Elf64_Phdr phdr, FILE *fp, FILE *img, int *phyaddr) *)
Definition write_segment (phdr : Elf64_Phdr) (fp : FILE) (o : output) : outcome (FILE * output) :=
  if negb (p_memsz phdr =? 0) && (p_type phdr =? PT_LOAD) then
    copy_bytes (Z.to_nat (p_filesz phdr)) (fseek fp (p_offset phdr)) o
  else Ok (fp, o).

(** while ( *phyaddr < new_phyaddr) fputc(0, img), ++*phyaddr *)
Fixpoint put_zeros (n : nat) (o : output) : outcome output :=
  match n with
  | O => Ok o
  | S n => o <- put 0 o ;; put_zeros n o
  end.
(** static void write_padding(FILE *img, int *phyaddr, int new_phyaddr) *)
Definition write_padding (new_phyaddr : Z) (o : output) : outcome output :=
  put_zeros (Z.to_nat (new_phyaddr - phyaddr o)) o.

(** * The table of tasks *)

(** task_info_t; [name] is the content of the 16-byte array. *)
Record task_info_t := MkTask { entry_point : Z; sdcard_block_id : Z; sdcard_block_num : Z; tname : list Z }.
Definition zero_task : task_info_t := MkTask 0 0 0 (replicate 16 0).
Definition encode_task (t : task_info_t) : list Z :=
  le 8 (entry_point t) ++ le 4 (sdcard_block_id t) ++ le 4 (sdcard_block_num t) ++ tname t.
Definition decode_task (b : list Z) : task_info_t :=
  MkTask (u64_at b 0) (i32 (u32_at b 8)) (i32 (u32_at b 12)) (take 16 (drop 16 b)).

(** strcpy(name, src): beyond 15 characters it writes past the array. *)
Definition strcpy_name (src old : list Z) : outcome (list Z) :=
  if (length src <? 16)%nat then Ok (src ++ 0 :: drop (S (length src)) old) else Fault.

(** The assignments to taskinfo[taskidx]; an index beyond the array is a fault. *)
Definition open_task (taskidx : Z) (file : list Z) (o : output) (ti : list task_info_t) : outcome (list task_info_t) :=
  if taskidx <? 0 then Ok ti
  else
    t <- or_fault (ti !! Z.to_nat taskidx) ;;
    name <- strcpy_name file (tname t) ;;
    Ok (<[Z.to_nat taskidx := MkTask (0x52000000 + taskidx * 0x10000) (Z.quot (phyaddr o) SECTOR_SIZE) (sdcard_block_num t) name]> ti).
Definition close_task (taskidx : Z) (o : output) (ti : list task_info_t) : outcome (list task_info_t) :=
  if taskidx <? 0 then Ok ti
  else
    t <- or_fault (ti !! Z.to_nat taskidx) ;;
    Ok (<[Z.to_nat taskidx := MkTask (entry_point t) (sdcard_block_id t) (Z.quot (phyaddr o) SECTOR_SIZE - sdcard_block_id t) (tname t)]> ti).

(** fseek(img, off, SEEK_SET); fwrite(b, ...): a gap after the end is filled with zeros. *)
Definition overwrite (im : list Z) (off : nat) (b : list Z) : list Z :=
  splice (im ++ replicate (off + length b - length im) 0) off b.

(** static void write_img_info(int nbytes_kernel, short tasknum, FILE *img) *)
Definition write_img_info (nbytes_kernel tasknum : Z) (ti : list task_info_t) (im : list Z) : outcome (list Z) :=
  let task_info_sdcard_id := i32 (Z.of_nat (length im) / SECTOR_SIZE) in
  let im := overwrite im 0x1f0 (le 4 task_info_sdcard_id ++ le 2 tasknum) in
  let os_size := NBYTES2SEC nbytes_kernel in
  let im := overwrite im (Z.to_nat OS_SIZE_LOC) (le 2 os_size) in
  assert_ (Z.of_nat (length im) mod SECTOR_SIZE =? 0) ;;
  Ok (im ++ mjoin (encode_task <$> ti)).

(** * Building the image *)

Definition is_main (file : list Z) : bool := bool_decide (file = [109; 97; 105; 110]).

Section Build.
(** fopen( *files, "r") *)
Context (host : list Z -> option (list Z)).

(** for (int ph = 0; ph < ehdr.e_phnum; ph++) *)
Fixpoint write_headers (n : nat) (ph : Z) (file : list Z) (ehdr : Elf64_Ehdr) (fp : FILE) (o : output) (nbytes_kernel : Z)
  : outcome (output * Z) :=
  match n with
  | O => Ok (o, nbytes_kernel)
  | S n =>
      '(phdr, fp) <- read_phdr fp ph ehdr ;;
      if negb (p_type phdr =? PT_LOAD) then write_headers n (ph + 1) file ehdr fp o nbytes_kernel
      else
        '(fp, o) <- write_segment phdr fp o ;;
        let nbytes_kernel := if is_main file then i32 (nbytes_kernel + get_filesz phdr) else nbytes_kernel in
        write_headers n (ph + 1) file ehdr fp o nbytes_kernel
  end.

(** for (int fidx = 0; fidx < nfiles; ++fidx) *)
Fixpoint write_files (files : list (list Z)) (fidx : Z) (o : output) (ti : list task_info_t) (nbytes_kernel : Z)
  : outcome (output * list task_info_t * Z) :=
  match files with
  | [] => Ok (o, ti, nbytes_kernel)
  | file :: files =>
      let taskidx := fidx - 2 in
      ti <- open_task taskidx file o ti ;;
      data <- match host file with Some b => Ok b | None => Panic end ;;
      '(ehdr, fp) <- read_ehdr (MkFILE data 0) ;;
      '(o, nbytes_kernel) <- write_headers (Z.to_nat (e_phnum ehdr)) 0 file ehdr fp o nbytes_kernel ;;
      o <- write_padding (NBYTES2SEC (phyaddr o) * SECTOR_SIZE) o ;;
      ti <- close_task taskidx o ti ;;
      write_files files (fidx + 1) o ti nbytes_kernel
  end.

(** static void create_image(int nfiles, char *files[]) *)
Definition create_image (files : list (list Z)) : outcome (list Z) :=
  let tasknum := Z.of_nat (length files) - 2 in
  '(o, ti, nbytes_kernel) <- write_files files 0 (MkOut [] 0) (replicate TASK_MAXNUM zero_task) 0 ;;
  write_img_info nbytes_kernel tasknum ti (img o).

(** The options of main; None is a call of error(), which exits. *)
Fixpoint parse_options (args : list (list Z)) (vm extended : bool) : option (bool * bool * list (list Z)) :=
  match args with
  | (45 :: 45 :: option) :: args =>
      if bool_decide (option = [118; 109]) then parse_options args true extended
      else if bool_decide (option = [101; 120; 116; 101; 110; 100; 101; 100]) then parse_options args vm true
      else None
  | _ => Some (vm, extended, args)
  end.
(** int main(int argc, char **argv), [args] without the program's name: the image
    that is written, or None after error(). *)
Definition main (args : list (list Z)) : outcome (option (list Z)) :=
  match parse_options args false false with
  | None => Ok None
  | Some (vm, _, args) =>
      if vm then Ok None
      else if (length args <? 2)%nat then Ok None
      else im <- create_image args ;; Ok (Some im)
  end.
End Build.

(** * The table in the kernel *)

Record task_table := MkTable { tasks : list task_info_t; task_num : Z }.

(** Two's complement of a short *)
Definition i16 (z : Z) : Z := (z + 2 ^ 15) mod 2 ^ 16 - 2 ^ 15.

(** void init_task_info(void): [boot] is the boot sector, which the firmware has
    put at 0x50200000; [sd] the sectors of the card. *)
Definition init_task_info (boot : list Z) (sd : Z -> list Z) : task_table :=
  let block_id := i32 (u32_at boot 0x1f0) in
  MkTable ((fun i => decode_task (rec_at 32 (sd block_id) i)) <$> seq 0 TASK_MAXNUM) (i16 (u16_at boot 0x1f4)).

(** The loop of find_task_idx_by_name *)
Fixpoint find_task (n : nat) (i : nat) (T : task_table) (taskname : list Z) : outcome Z :=
  match n with
  | O => Ok (-1)
  | S n =>
      t <- or_fault (tasks T !! i) ;;
      eq <- streq (tname t) taskname ;;
      if eq : bool then Ok (Z.of_nat i) else find_task n (S i) T taskname
  end.
(** int find_task_idx_by_name(const char *taskname) *)
Definition find_task_idx_by_name (T : task_table) (taskname : list Z) : outcome Z :=
  find_task (Z.to_nat (task_num T)) 0 T taskname.

(** * What the firmware reads *)

(** [n] sectors from [id], as bios_sd_read delivers them. *)
Fixpoint read_sectors (sd : Z -> list Z) (n : nat) (id : Z) : list Z :=
  match n with O => [] | S n => sd id ++ read_sectors sd n (id + 1) end.
