(* ===== verification/ImageTheorems.v ===== *)
(** What createimage.c writes and task_loader.cpp reads (Image.v): the image of
    well-formed ELF files, and that the task table and the programs come back. *)

From Stdlib Require Import ZArith Lia List.
From stdpp Require Import base numbers list gmap.
From S2P Require Import Prelude BlockLayer FsLayout Image.

Local Open Scope Z_scope.
#[local] Ltac Zify.zify_post_hook ::= Z.div_mod_to_equations.

(** * The image as a function of the input files *)

Definition byte (b : Z) : Prop := 0 <= b < 256.

Definition phdr_pos (e : Elf64_Ehdr) (ph : Z) : Z := e_phoff e + ph * e_phentsize e.
Definition phdr_at (data : list Z) (e : Elf64_Ehdr) (ph : Z) : Elf64_Phdr :=
  phdr_of (take 56 (drop (Z.to_nat (phdr_pos e ph)) data)).
Fixpoint phdrs (data : list Z) (e : Elf64_Ehdr) (n : nat) (ph : Z) : list Elf64_Phdr :=
  match n with O => [] | S n => phdr_at data e ph :: phdrs data e n (ph + 1) end.
(** The bytes of the file that a program header maps. *)
Definition segment (data : list Z) (p : Elf64_Phdr) : list Z :=
  if p_type p =? PT_LOAD then take (Z.to_nat (p_filesz p)) (drop (Z.to_nat (p_offset p)) data) else [].
Definition payload (data : list Z) : list Z :=
  let e := ehdr_of (take 64 data) in mjoin (segment data <$> phdrs data e (Z.to_nat (e_phnum e)) 0).
Definition padded (data : list Z) : list Z := payload data ++ replicate (Z.to_nat (NBYTES2SEC (Z.of_nat (length (payload data))) * 512 - Z.of_nat (length (payload data)))) 0.

(** A well-formed ELF file: its headers and segments are inside it. *)
Definition phdr_ok (data : list Z) (e : Elf64_Ehdr) (ph : Z) : Prop :=
  0 <= phdr_pos e ph /\ phdr_pos e ph + 56 <= Z.of_nat (length data) /\
  let p := phdr_at data e ph in
  p_type p = PT_LOAD -> p_filesz p <= p_memsz p /\ 0 <= p_offset p /\ 0 <= p_filesz p /\ p_offset p + p_filesz p <= Z.of_nat (length data).
Record elf_ok (data : list Z) : Prop := {
  elf_bytes : Forall byte data;
  elf_length : 64 <= Z.of_nat (length data) < 2 ^ 31;
  elf_magic : take 3 (drop 1 data) = [69; 76; 70];
  elf_phdrs k : 0 <= k < e_phnum (ehdr_of (take 64 data)) -> phdr_ok data (ehdr_of (take 64 data)) k
}.

(** * Copying *)

Lemma u8_byte b : byte b -> u8 b = b.
Proof. intros Hb. by apply u8_small. Qed.

Lemma host_bytes_ok data : Forall byte data -> forall n pos o,
  0 <= pos -> pos + Z.of_nat n <= Z.of_nat (length data) -> phyaddr o + Z.of_nat n < 2 ^ 31 ->
  copy_bytes n (MkFILE data pos) o =
    Ok (MkFILE data (pos + Z.of_nat n), MkOut (img o ++ take n (drop (Z.to_nat pos) data)) (phyaddr o + Z.of_nat n)).
Proof.
  intros Hd. induction n as [|n IH]; intros pos [im pa] Hpos Hlen Hpa; cbn [copy_bytes img phyaddr] in *.
  - by rewrite take_0, app_nil_r, !Z.add_0_r.
  - unfold fgetc. cbn [content fpos]. destruct (lookup_lt_is_Some_2 data (Z.to_nat pos)) as [b Hb]; [lia|]. rewrite Hb.
    unfold put. cbn [img phyaddr]. rewrite (proj2 (Z.ltb_lt _ _)) by lia. cbn [obind].
    rewrite IH by (cbn [phyaddr]; lia). cbn [img phyaddr]. rewrite u8_byte by (eapply Forall_lookup_1 in Hd; [exact Hd|exact Hb]).
    rewrite (drop_S data b (Z.to_nat pos) Hb). cbn [take]. rewrite <- app_assoc. cbn [app].
    replace (Z.to_nat (pos + 1)) with (S (Z.to_nat pos)) by lia.
    replace (pos + 1 + Z.of_nat n) with (pos + Z.of_nat (S n)) by lia. by replace (pa + 1 + Z.of_nat n) with (pa + Z.of_nat (S n)) by lia.
Qed.

Lemma put_zeros_ok : forall n o, phyaddr o + Z.of_nat n < 2 ^ 31 ->
  put_zeros n o = Ok (MkOut (img o ++ replicate n 0) (phyaddr o + Z.of_nat n)).
Proof.
  induction n as [|n IH]; intros [im pa] Hpa; cbn [put_zeros img phyaddr replicate] in *.
  - by rewrite app_nil_r, Z.add_0_r.
  - unfold put. cbn [img phyaddr]. rewrite (proj2 (Z.ltb_lt _ _)) by lia. cbn [obind].
    rewrite IH by (cbn [phyaddr]; lia). cbn [img phyaddr]. rewrite <- app_assoc.
    by replace (pa + 1 + Z.of_nat n) with (pa + Z.of_nat (S n)) by lia.
Qed.

Lemma sectors_nat n : 0 <= n -> NBYTES2SEC n = (n + 511) / 512.
Proof.
  intros Hn. unfold NBYTES2SEC, SECTOR_SIZE. rewrite Z.quot_div_nonneg, Z.rem_mod_nonneg by lia.
  destruct (Z.eqb_spec (n mod 512) 0); lia.
Qed.

Lemma length_padded data : Z.of_nat (length (padded data)) = NBYTES2SEC (Z.of_nat (length (payload data))) * 512.
Proof. unfold padded. rewrite length_app, length_replicate, sectors_nat by lia. lia. Qed.

(** * One file *)

Lemma fread_ok n data pos : 0 <= pos -> pos + Z.of_nat n <= Z.of_nat (length data) ->
  fread n (MkFILE data pos) = Ok (take n (drop (Z.to_nat pos) data), MkFILE data (pos + Z.of_nat n)).
Proof.
  intros Hp Hn. unfold fread. cbn [content fpos]. rewrite bool_decide_true; [done|]. rewrite length_take, length_drop. lia.
Qed.

Lemma fseek_ok data pos off : 0 <= off < 2 ^ 63 -> fseek (MkFILE data pos) off = MkFILE data off.
Proof. intros Ho. unfold fseek. rewrite i64_small by lia. rewrite (proj2 (Z.ltb_ge _ _)) by lia. done. Qed.

Lemma read_ehdr_ok data : elf_ok data -> read_ehdr (MkFILE data 0) = Ok (ehdr_of (take 64 data), MkFILE data 64).
Proof.
  intros [_ Hlen Hm _]. unfold read_ehdr. rewrite fread_ok by lia. cbn [obind]. change (Z.to_nat 0) with 0%nat. rewrite drop_0.
  assert (Hx : forall i c, (1 <= i <= 3)%nat -> [69; 76; 70] !! (i - 1)%nat = Some c -> e_ident (ehdr_of (take 64 data)) !! i = Some c).
  { intros i c Hi. cbn [e_ident ehdr_of]. rewrite take_take, lookup_take_lt by lia.
    rewrite <- Hm, lookup_take_lt, lookup_drop by lia. by replace (1 + (i - 1))%nat with i by lia. }
  rewrite (Hx 1%nat 69), (Hx 2%nat 76), (Hx 3%nat 70) by (lia || done). done.
Qed.

Lemma read_phdr_ok data pos e ph : Z.of_nat (length data) < 2 ^ 31 -> phdr_ok data e ph ->
  read_phdr (MkFILE data pos) ph e = Ok (phdr_at data e ph, MkFILE data (phdr_pos e ph + 56)).
Proof.
  intros Hl (Hp & Hin & _). unfold read_phdr. fold (phdr_pos e ph). rewrite u64_small, fseek_ok, fread_ok by lia. done.
Qed.

Definition total (ps : list Elf64_Phdr) : Z := foldr (fun p s => if p_type p =? PT_LOAD then p_filesz p + s else s) 0 ps.

Lemma write_segment_ok data pos o p : Forall byte data -> Z.of_nat (length data) < 2 ^ 31 -> p_type p = PT_LOAD ->
  p_filesz p <= p_memsz p -> 0 <= p_offset p -> 0 <= p_filesz p -> p_offset p + p_filesz p <= Z.of_nat (length data) ->
  phyaddr o + p_filesz p < 2 ^ 31 ->
  exists pos', write_segment p (MkFILE data pos) o = Ok (MkFILE data pos', MkOut (img o ++ segment data p) (phyaddr o + p_filesz p)).
Proof.
  intros Hd Hl Ht Hm Ho Hf Hin Hpa. unfold write_segment, segment. rewrite Ht. cbn [PT_LOAD Z.eqb Pos.eqb]. rewrite andb_true_r.
  destruct (Z.eqb_spec (p_memsz p) 0) as [E|_]; cbn [negb].
  - exists pos. replace (p_filesz p) with 0 by lia. cbn [Z.to_nat take]. rewrite app_nil_r, Z.add_0_r. by destruct o.
  - rewrite fseek_ok, host_bytes_ok by lia || done. rewrite !Z2Nat.id by lia. by eexists.
Qed.

Lemma length_segment data p : p_type p = PT_LOAD -> 0 <= p_offset p -> 0 <= p_filesz p ->
  p_offset p + p_filesz p <= Z.of_nat (length data) -> Z.of_nat (length (segment data p)) = p_filesz p.
Proof. intros Ht Ho Hf Hin. unfold segment. rewrite Ht. cbn [PT_LOAD Z.eqb Pos.eqb]. rewrite length_take, length_drop. lia. Qed.

Lemma total_payload data e : forall n ph, (forall k, ph <= k < ph + Z.of_nat n -> phdr_ok data e k) ->
  total (phdrs data e n ph) = Z.of_nat (length (mjoin (segment data <$> phdrs data e n ph))).
Proof.
  induction n as [|n IH]; intros ph Hok; cbn [phdrs total foldr fmap list_fmap mjoin list_join]; [done|].
  fold (total (phdrs data e n (ph + 1))). rewrite length_app, Nat2Z.inj_add, <- IH by (intros; apply Hok; lia).
  destruct (Hok ph ltac:(lia)) as (_ & _ & Hp). cbn zeta in Hp. destruct (Z.eqb_spec (p_type (phdr_at data e ph)) PT_LOAD) as [Ht|Ht].
  - destruct (Hp Ht) as (_ & Ho & Hf & Hin). by rewrite length_segment.
  - unfold segment. rewrite (proj2 (Z.eqb_neq _ _) Ht). done.
Qed.

Lemma total_nonneg data e : forall n ph, (forall k, ph <= k < ph + Z.of_nat n -> phdr_ok data e k) -> 0 <= total (phdrs data e n ph).
Proof. intros n ph Hok. rewrite total_payload by done. lia. Qed.

(** The loop over the program headers appends the segments. *)
Lemma write_headers_ok data file e : Forall byte data -> Z.of_nat (length data) < 2 ^ 31 -> forall n ph pos o nk,
  (forall k, ph <= k < ph + Z.of_nat n -> phdr_ok data e k) ->
  phyaddr o + total (phdrs data e n ph) < 2 ^ 31 -> 0 <= nk <= phyaddr o ->
  write_headers n ph file e (MkFILE data pos) o nk =
    Ok (MkOut (img o ++ mjoin (segment data <$> phdrs data e n ph)) (phyaddr o + total (phdrs data e n ph)),
        if is_main file then nk + total (phdrs data e n ph) else nk).
Proof.
  intros Hd Hl. induction n as [|n IH]; intros ph pos o nk Hok Hpa Hnk; cbn [write_headers phdrs total foldr fmap list_fmap mjoin list_join] in *.
  - rewrite app_nil_r, !Z.add_0_r. by destruct o, (is_main file).
  - fold (total (phdrs data e n (ph + 1))) in *. pose proof (Hok ph ltac:(lia)) as Hp. rewrite read_phdr_ok by done. cbn [obind].
    assert (Hok' : forall k, ph + 1 <= k < ph + 1 + Z.of_nat n -> phdr_ok data e k) by (intros; apply Hok; lia).
    pose proof (total_nonneg data e n (ph + 1) Hok') as Ht0. destruct Hp as (_ & _ & Hp). cbn zeta in Hp.
    destruct (Z.eqb_spec (p_type (phdr_at data e ph)) PT_LOAD) as [Ht|Ht]; cbn [negb].
    + destruct (Hp Ht) as (Hm & Ho & Hf & Hin).
      destruct (write_segment_ok data (phdr_pos e ph + 56) o (phdr_at data e ph)) as (pos' & ->); [lia || done..|]. cbn [obind].
      assert (Eg : get_filesz (phdr_at data e ph) = p_filesz (phdr_at data e ph)) by (unfold get_filesz; apply u32_small; lia).
      rewrite Eg, (i32_small (nk + _)) by lia. rewrite IH; [|done|cbn [phyaddr]; lia|cbn [phyaddr]; destruct (is_main file); lia].
      cbn [img phyaddr]. rewrite <- app_assoc, !Z.add_assoc. by destruct (is_main file).
    + rewrite IH by lia || done. unfold segment at 2. rewrite (proj2 (Z.eqb_neq _ _) Ht). done.
Qed.

(** * All files *)

(** The task of a file that starts at [pos]. *)
Definition task_of (i : nat) (file : list Z) (pos : Z) (data : list Z) : task_info_t :=
  MkTask (0x52000000 + Z.of_nat i * 0x10000) (pos / 512) (NBYTES2SEC (Z.of_nat (length (payload data)))) (file ++ replicate (16 - length file) 0).
Definition image_len (datas : list (list Z)) : Z := Z.of_nat (length (mjoin (padded <$> datas))).

Lemma image_len_cons d ds : image_len (d :: ds) = NBYTES2SEC (Z.of_nat (length (payload d))) * 512 + image_len ds.
Proof. unfold image_len. cbn [fmap list_fmap mjoin list_join]. by rewrite length_app, Nat2Z.inj_add, length_padded. Qed.

Lemma strcpy_zero file : (length file < 16)%nat -> strcpy_name file (replicate 16 0) = Ok (file ++ replicate (16 - length file) 0).
Proof.
  intros Hl. unfold strcpy_name. rewrite (proj2 (Nat.ltb_lt _ _) Hl), drop_replicate.
  by replace (16 - length file)%nat with (S (16 - S (length file)))%nat by lia.
Qed.

Section Build.
Context (host : list Z -> option (list Z)).

(** What the file at index [fidx] puts into the table. *)
Definition put_task (fidx : nat) (file : list Z) (pos : Z) (data : list Z) (ti : list task_info_t) : list task_info_t :=
  if decide (fidx < 2)%nat then ti else <[(fidx - 2)%nat := task_of (fidx - 2) file pos data]> ti.

Lemma open_close_task fidx file data o o' ti :
  phyaddr o mod 512 = 0 -> 0 <= phyaddr o -> phyaddr o' = phyaddr o + NBYTES2SEC (Z.of_nat (length (payload data))) * 512 ->
  ((2 <= fidx)%nat -> ti !! (fidx - 2)%nat = Some zero_task /\ (length file < 16)%nat) ->
  exists ti1, open_task (Z.of_nat fidx - 2) file o ti = Ok ti1 /\
    close_task (Z.of_nat fidx - 2) o' ti1 = Ok (put_task fidx file (phyaddr o) data ti).
Proof.
  intros Hm Hpos Ho' Hti. unfold open_task, close_task, put_task. destruct (decide (fidx < 2)%nat) as [Hi|Hi].
  - rewrite (proj2 (Z.ltb_lt _ _)) by lia. by eexists.
  - rewrite (proj2 (Z.ltb_ge _ _)) by lia. destruct Hti as [Ht Hl]; [lia|].
    replace (Z.to_nat (Z.of_nat fidx - 2)) with (fidx - 2)%nat by lia. rewrite Ht. cbn [or_fault obind].
    unfold zero_task at 1. cbn [tname]. rewrite strcpy_zero by done. cbn [obind]. eexists. split; [done|].
    rewrite list_lookup_insert_eq by (by apply lookup_lt_Some in Ht). cbn [or_fault obind entry_point sdcard_block_id tname].
    rewrite list_insert_insert_eq. unfold task_of, SECTOR_SIZE. rewrite !Z.quot_div_nonneg by (rewrite ?sectors_nat in Ho' by lia; lia).
    do 4 f_equal; [lia|]. rewrite Ho'. lia.
Qed.

Definition file_ok (file data : list Z) : Prop := host file = Some data /\ elf_ok data.

(** Bytes of the kernel that have been counted. *)
Definition kernel_bytes (files datas : list (list Z)) : Z :=
  foldr (fun fd s => (if is_main fd.1 then Z.of_nat (length (payload fd.2)) else 0) + s) 0 (zip files datas).
Fixpoint put_tasks (fidx : nat) (files datas : list (list Z)) (pos : Z) (ti : list task_info_t) : list task_info_t :=
  match files, datas with
  | file :: files, data :: datas =>
      put_tasks (S fidx) files datas (pos + NBYTES2SEC (Z.of_nat (length (payload data))) * 512) (put_task fidx file pos data ti)
  | _, _ => ti
  end.

Lemma write_files_ok : forall files datas fidx o ti nk, Forall2 file_ok files datas ->
  phyaddr o mod 512 = 0 -> 0 <= nk <= phyaddr o -> phyaddr o + image_len datas < 2 ^ 31 ->
  (forall i, (2 <= fidx + i)%nat -> (i < length files)%nat ->
    ti !! (fidx + i - 2)%nat = Some zero_task /\ exists f, files !! i = Some f /\ (length f < 16)%nat) ->
  write_files host files (Z.of_nat fidx) o ti nk =
    Ok (MkOut (img o ++ mjoin (padded <$> datas)) (phyaddr o + image_len datas),
        put_tasks fidx files datas (phyaddr o) ti, nk + kernel_bytes files datas).
Proof.
  induction files as [|file files IH]; intros [|data datas] fidx o ti nk HF; inversion HF as [|? ? ? ? [Hh Hd] HF']; subst; clear HF;
    intros Hm Hnk Hlen Hti; cbn [write_files put_tasks].
  - unfold image_len. cbn. rewrite app_nil_r, !Z.add_0_r. by destruct o.
  - rewrite image_len_cons in Hlen. pose proof (sectors_nat (Z.of_nat (length (payload data))) ltac:(lia)) as Hs.
    assert (Hil : 0 <= image_len datas) by (unfold image_len; lia). pose proof Hd as [Hb Hl _ Hp].
    set (o' := MkOut (img o ++ padded data) (phyaddr o + NBYTES2SEC (Z.of_nat (length (payload data))) * 512)).
    destruct (open_close_task fidx file data o o' ti Hm ltac:(lia) eq_refl) as (ti1 & -> & Hc).
    { intros H2. destruct (Hti 0%nat) as (Ht & f & Hf & Hfl); [lia|cbn; lia|]. rewrite Nat.add_0_r in Ht. by injection Hf as ->. }
    cbn [obind]. rewrite Hh. cbn [obind]. rewrite read_ehdr_ok by done. cbn [obind].
    set (e := ehdr_of (take 64 data)) in *.
    assert (Hok : forall k, 0 <= k < 0 + Z.of_nat (Z.to_nat (e_phnum e)) -> phdr_ok data e k) by (intros; apply Hp; lia).
    assert (Et : total (phdrs data e (Z.to_nat (e_phnum e)) 0) = Z.of_nat (length (payload data))) by exact (total_payload data e _ 0 Hok).
    rewrite write_headers_ok; [|done|lia|done|rewrite Et; lia|done]. rewrite Et. cbn [obind].
    change (mjoin (segment data <$> phdrs data e (Z.to_nat (e_phnum e)) 0)) with (payload data).
    assert (Ew : write_padding (NBYTES2SEC (phyaddr o + Z.of_nat (length (payload data))) * SECTOR_SIZE)
      (MkOut (img o ++ payload data) (phyaddr o + Z.of_nat (length (payload data)))) = Ok o').
    { unfold write_padding, SECTOR_SIZE. cbn [phyaddr]. rewrite put_zeros_ok; cbn [img phyaddr]; rewrite (sectors_nat (phyaddr o + _)) by lia; [|lia].
      unfold o', padded. rewrite <- app_assoc. rewrite Hs. do 2 f_equal; [do 2 f_equal; f_equal; lia|lia]. }
    cbn [phyaddr]. rewrite Ew. cbn [obind]. rewrite Hc. cbn [obind]. replace (Z.of_nat fidx + 1) with (Z.of_nat (S fidx)) by lia.
    rewrite (IH datas); [|done|..].
    + rewrite image_len_cons. unfold kernel_bytes at 2. cbn [zip zip_with foldr fst snd fmap list_fmap mjoin list_join img phyaddr o'].
      rewrite <- app_assoc, Z.add_assoc. fold (kernel_bytes files datas). ok_eq. destruct (is_main file); lia.
    + cbn [phyaddr o']. lia.
    + cbn [phyaddr o']. destruct (is_main file); lia.
    + cbn [phyaddr o']. lia.
    + intros i Hi Hlt. destruct (Hti (S i)) as (Ht & Hf); [lia|cbn; lia|].
      replace (fidx + S i - 2)%nat with (S fidx + i - 2)%nat in Ht by lia. split; [|exact Hf].
      unfold put_task. destruct (decide (fidx < 2)%nat); [done|]. by rewrite list_lookup_insert_ne by lia.
Qed.

End Build.

(** ** Where the table says the programs are *)

Lemma put_tasks_below : forall files datas fidx pos ti i, (i + 2 < fidx)%nat -> put_tasks fidx files datas pos ti !! i = ti !! i.
Proof.
  induction files as [|file files IH]; intros [|data datas] fidx pos ti i Hi; try done. cbn [put_tasks].
  rewrite IH by lia. unfold put_task. destruct (decide (fidx < 2)%nat); [done|]. by rewrite list_lookup_insert_ne by lia.
Qed.

Lemma put_tasks_past : forall files datas fidx pos ti i, (fidx + length files <= i + 2)%nat -> put_tasks fidx files datas pos ti !! i = ti !! i.
Proof.
  induction files as [|file files IH]; intros [|data datas] fidx pos ti i Hi; try done. cbn [put_tasks length] in *.
  rewrite IH by lia. unfold put_task. destruct (decide (fidx < 2)%nat); [done|]. by rewrite list_lookup_insert_ne by lia.
Qed.

Lemma length_put_tasks : forall files datas fidx pos ti, length (put_tasks fidx files datas pos ti) = length ti.
Proof.
  induction files as [|file files IH]; intros [|data datas] fidx pos ti; try done. cbn [put_tasks]. rewrite IH.
  unfold put_task. destruct (decide _); [done|]. by rewrite length_insert.
Qed.

Lemma put_tasks_at : forall files datas fidx pos ti i file data, (i + 2 >= fidx)%nat -> (i < length ti)%nat ->
  files !! (i + 2 - fidx)%nat = Some file -> datas !! (i + 2 - fidx)%nat = Some data ->
  put_tasks fidx files datas pos ti !! i = Some (task_of i file (pos + image_len (take (i + 2 - fidx) datas)) data).
Proof.
  induction files as [|f files IH]; intros [|d datas] fidx pos ti i file data Hi Hlt Hf Hd; try done. cbn [put_tasks].
  destruct (decide (i + 2 = fidx)%nat) as [<-|Hne].
  - rewrite Nat.sub_diag in *. injection Hf as ->. injection Hd as ->. rewrite put_tasks_below by lia. unfold put_task.
    rewrite decide_False by lia. replace (i + 2 - 2)%nat with i by lia. rewrite list_lookup_insert_eq by done.
    unfold image_len. cbn. by rewrite Z.add_0_r.
  - replace (i + 2 - fidx)%nat with (S (i + 2 - S fidx)) in * by lia. cbn [lookup list_lookup] in Hf, Hd.
    rewrite (IH datas (S fidx) _ _ i file data); [|lia|unfold put_task; destruct (decide _); rewrite ?length_insert; lia|done|done].
    cbn [take]. rewrite image_len_cons. by rewrite Z.add_assoc.
Qed.
(** ** Sectors *)

(** What the card holds once the image is on it. *)
Definition sector (im : list Z) (k : Z) : list Z := take 512 (drop (Z.to_nat (512 * k)) im).
Lemma read_sectors_image im : forall n id, 0 <= id ->
  read_sectors (sector im) n id = take (512 * n) (drop (Z.to_nat (512 * id)) im).
Proof.
  induction n as [|n IH]; intros id Hid; [by rewrite Nat.mul_0_r|]. cbn [read_sectors]. rewrite IH by lia. unfold sector.
  replace (Z.to_nat (512 * (id + 1))) with (Z.to_nat (512 * id) + 512)%nat by lia. rewrite <- drop_drop.
  replace (512 * S n)%nat with (512 + 512 * n)%nat by lia. by rewrite take_take_drop.
Qed.

(** A card that the image has been written to. *)
Definition holds_image (sd : Z -> list Z) (im : list Z) : Prop :=
  forall k, 0 <= k -> 512 * (k + 1) <= Z.of_nat (length im) -> sd k = sector im k.

Lemma read_sectors_card sd im : holds_image sd im -> forall n id, 0 <= id -> 512 * (id + Z.of_nat n) <= Z.of_nat (length im) ->
  read_sectors sd n id = read_sectors (sector im) n id.
Proof. intros Hc. induction n as [|n IH]; intros id Hid Hn; cbn [read_sectors]; [done|]. rewrite Hc, IH by lia. done. Qed.

Lemma drop_padded datas i data : datas !! i = Some data ->
  take (length (padded data)) (drop (Z.to_nat (image_len (take i datas))) (mjoin (padded <$> datas))) = padded data.
Proof.
  intros Hi. rewrite <- (take_drop_middle datas i data Hi) at 2. rewrite fmap_app, join_app.
  unfold image_len. rewrite Nat2Z.id, drop_app_length. cbn [fmap list_fmap mjoin list_join]. by rewrite take_app_length.
Qed.

(** * The table and what is patched into sector 0 *)

Lemma take_drop_within {A} (l : list A) n o m : (o + n <= m)%nat -> take n (drop o (take m l)) = take n (drop o l).
Proof. intros Hm. rewrite skipn_firstn_comm, take_take. by replace (n `min` (m - o))%nat with n by lia. Qed.

Lemma overwrite_in im off b : (off + length b <= length im)%nat -> overwrite im off b = splice im off b.
Proof. intros Hl. unfold overwrite. replace (off + length b - length im)%nat with 0%nat by lia. by rewrite app_nil_r. Qed.

Definition task_ok (t : task_info_t) : Prop :=
  0 <= entry_point t < 2 ^ 64 /\ 0 <= sdcard_block_id t < 2 ^ 31 /\ 0 <= sdcard_block_num t < 2 ^ 31 /\ length (tname t) = 16%nat.

Lemma length_encode_task t : task_ok t -> length (encode_task t) = 32%nat.
Proof. intros (_ & _ & _ & Hn). unfold encode_task. by rewrite !length_app, !length_le, Hn. Qed.

Lemma take_drop_mid {A} (a b c : list A) o n : length a = o -> length b = n -> take n (drop o (a ++ b ++ c)) = b.
Proof. intros <- <-. by rewrite drop_app_length, take_app_length. Qed.

Lemma decode_encode_task t : task_ok t -> decode_task (encode_task t) = t.
Proof.
  intros (He & Hi & Hk & Hn). unfold decode_task, encode_task, u64_at, u32_at.
  rewrite drop_0, (take_app_length' (le 8 _)) by (by rewrite length_le).
  rewrite (take_drop_mid (le 8 _) (le 4 _)) by (by rewrite length_le).
  rewrite (app_assoc (le 8 _)), (take_drop_mid (le 8 _ ++ le 4 _) (le 4 _)) by (by rewrite ?length_app, !length_le).
  rewrite (app_assoc (le 8 _ ++ le 4 _)), <- (app_nil_r (tname t)).
  rewrite (take_drop_mid _ (tname t)) by (done || by rewrite !length_app, !length_le).
  rewrite !le_val_le by lia. rewrite !i32_small by lia. by destruct t.
Qed.

Lemma rec_at_table ti i t : Forall task_ok ti -> ti !! i = Some t -> rec_at 32 (mjoin (encode_task <$> ti)) i = encode_task t.
Proof.
  intros Hok Hi. pose proof (Forall_lookup_1 _ _ _ _ Hok Hi) as Ht. revert i Hi. unfold rec_at.
  induction Hok as [|t0 ti Ht0 Hok IH]; intros [|i] Hi; try done; cbn [fmap list_fmap mjoin list_join].
  - injection Hi as ->. rewrite Nat.mul_0_r, drop_0. apply take_app_length'. by rewrite length_encode_task.
  - replace (32 * S i)%nat with (length (encode_task t0) + 32 * i)%nat by (rewrite length_encode_task by done; lia).
    rewrite drop_app_add. by apply IH.
Qed.

Lemma length_table ti : Forall task_ok ti -> length (mjoin (encode_task <$> ti)) = (32 * length ti)%nat.
Proof.
  induction 1 as [|t ti Ht Hok IH]; [done|]. rewrite fmap_cons. change (mjoin (encode_task t :: (encode_task <$> ti))) with (encode_task t ++ mjoin (encode_task <$> ti)). rewrite length_app, length_encode_task by done. rewrite IH. cbn [length]. lia.
Qed.

Section Info.
Context (nk tasknum : Z) (ti : list task_info_t) (im : list Z).
Context (Hok : Forall task_ok ti) (Hti : length ti = 16%nat) (Him : Z.of_nat (length im) mod 512 = 0) (Hpos : (512 <= length im)%nat)
  (Hbig : Z.of_nat (length im) < 2 ^ 31) (Hnum : 0 <= tasknum <= 16).

Definition patched : list Z :=
  splice (splice im 0x1f0 (le 4 (Z.of_nat (length im) / 512) ++ le 2 tasknum)) 508 (le 2 (NBYTES2SEC nk)).

Lemma length_patched : length patched = length im.
Proof. unfold patched. rewrite !length_splice; [done|rewrite length_app, !length_le; lia|rewrite length_le, length_splice; rewrite ?length_app, ?length_le; lia]. Qed.

Lemma write_img_info_ok : write_img_info nk tasknum ti im = Ok (patched ++ mjoin (encode_task <$> ti)).
Proof.
  unfold write_img_info, SECTOR_SIZE, OS_SIZE_LOC. change (Z.to_nat (0x1fe - 2)) with 508%nat. rewrite i32_small by lia.
  rewrite (overwrite_in im) by (rewrite length_app, !length_le; lia).
  rewrite overwrite_in by (rewrite length_le, length_splice; rewrite ?length_app, ?length_le; lia).
  fold patched. rewrite length_patched, Him. done.
Qed.

Lemma patched_other o n : (512 <= o)%nat -> take n (drop o patched) = take n (drop o im).
Proof.
  intros Ho. unfold patched. rewrite !take_drop_splice_ne; rewrite ?length_splice, ?length_app, ?length_le; rewrite ?length_app, ?length_le; lia || done.
Qed.

Lemma patched_info : take 6 (drop 0x1f0 patched) = le 4 (Z.of_nat (length im) / 512) ++ le 2 tasknum /\ take 2 (drop 508 patched) = le 2 (NBYTES2SEC nk).
Proof.
  unfold patched. split.
  - rewrite take_drop_splice_ne by (rewrite ?length_splice, ?length_app, ?length_le; rewrite ?length_app, ?length_le; lia).
    rewrite <- (take_drop_splice_eq im 0x1f0 (le 4 (Z.of_nat (length im) / 512) ++ le 2 tasknum)) at 2 by (rewrite length_app, !length_le; lia).
    by rewrite length_app, !length_le.
  - rewrite <- (take_drop_splice_eq (splice im 0x1f0 (le 4 (Z.of_nat (length im) / 512) ++ le 2 tasknum)) 508 (le 2 (NBYTES2SEC nk))) at 2
      by (rewrite length_splice; rewrite ?length_app, ?length_le; lia).
    by rewrite length_le.
Qed.

Abbreviation image := (patched ++ mjoin (encode_task <$> ti)).

Lemma image_sector0 n o : (o + n <= 512)%nat -> take n (drop o (sector image 0)) = take n (drop o patched).
Proof.
  intros Hn. unfold sector. rewrite Z.mul_0_r. change (Z.to_nat 0) with 0%nat. rewrite drop_0, take_drop_within by done.
  rewrite drop_app_le, take_app_le; [done|rewrite length_drop, length_patched; lia|rewrite length_patched; lia].
Qed.

Lemma length_image : length image = (length im + 512)%nat.
Proof. rewrite length_app, length_patched, length_table by done. lia. Qed.

Lemma init_task_info_ok sd : holds_image sd image -> init_task_info (sd 0) sd = MkTable ti tasknum.
Proof.
  intros Hc. pose proof length_image as Hlen. rewrite (Hc 0) by lia.
  destruct patched_info as [Hinfo _]. unfold init_task_info, u32_at, u16_at. rewrite !image_sector0 by lia.
  assert (Ei : take 4 (drop 0x1f0 patched) = le 4 (Z.of_nat (length im) / 512)).
  { transitivity (take 4 (take 6 (drop 0x1f0 patched))); [by rewrite take_take|]. rewrite Hinfo. apply take_app_length'. by rewrite length_le. }
  assert (En : take 2 (drop 0x1f4 patched) = le 2 tasknum).
  { change 0x1f4%nat with (0x1f0 + 4)%nat. rewrite <- drop_drop, <- (take_drop_within _ 2 4 6), Hinfo by lia.
    rewrite drop_app_length' by (by rewrite length_le). apply take_ge. by rewrite length_le. }
  rewrite Ei, En, !le_val_le by lia. rewrite i32_small by lia. f_equal; [|unfold i16; lia].
  assert (Es : sd (Z.of_nat (length im) / 512) = mjoin (encode_task <$> ti)).
  { rewrite Hc by lia. unfold sector. replace (Z.to_nat (512 * (Z.of_nat (length im) / 512))) with (length patched) by (rewrite length_patched; lia).
    rewrite drop_app_length. apply take_ge. rewrite length_table by done. lia. }
  rewrite Es. apply list_eq. intros i. rewrite list_lookup_fmap. destruct (decide (i < 16)%nat) as [Hi|Hi].
  - rewrite lookup_seq_lt by done. cbn [fmap option_fmap option_map]. destruct (lookup_lt_is_Some_2 ti i) as [t Ht]; [lia|].
    rewrite Nat.add_0_l, (rec_at_table ti i t), Ht, decode_encode_task by (done || by eapply Forall_lookup_1). done.
  - rewrite lookup_seq_ge, lookup_ge_None_2 by (unfold TASK_MAXNUM; lia). done.
Qed.

Lemma image_sectors sd id n : holds_image sd image -> (512 <= Z.to_nat (512 * id))%nat -> (Z.to_nat (512 * id) + 512 * n <= length im)%nat ->
  read_sectors sd n id = take (512 * n) (drop (Z.to_nat (512 * id)) im).
Proof.
  intros Hc Hi Hn. pose proof length_image as Hlen. rewrite (read_sectors_card sd image) by (done || lia). rewrite read_sectors_image by lia. rewrite drop_app_le, take_app_le by (rewrite ?length_drop, length_patched; lia).
  by apply patched_other.
Qed.
End Info.

(** * The image is read back *)

Lemma find_task_ok T apps taskname : task_num T = Z.of_nat (length apps) -> Forall (Forall (fun c => 0 < c)) apps -> Forall (fun c => 0 < c) taskname ->
  (forall i app, apps !! i = Some app -> exists t, tasks T !! i = Some t /\ exists rest, tname t = app ++ 0 :: rest) ->
  find_task_idx_by_name T taskname = Ok (match list_find (eq taskname) apps with Some (i, _) => Z.of_nat i | None => -1 end).
Proof.
  intros Hn Hz Hname Hat. unfold find_task_idx_by_name. rewrite Hn, Nat2Z.id. clear Hn.
  assert (Hgen : forall l i, (forall j app, l !! j = Some app -> apps !! (i + j)%nat = Some app) ->
    find_task (length l) i T taskname = Ok (match list_find (eq taskname) l with Some (j, _) => Z.of_nat (i + j) | None => -1 end)).
  { induction l as [|app l IH]; intros i Hl; cbn [length find_task list_find]; [done|].
    pose proof (Hl 0%nat app eq_refl) as Ha. rewrite Nat.add_0_r in Ha. destruct (Hat i app Ha) as (t & -> & rest & Et). cbn [or_fault obind].
    rewrite Et, streq_stored by (done || by apply (Forall_lookup_1 _ _ _ _ Hz Ha)). cbn [obind].
    destruct (decide (taskname = app)) as [<-|Hne]; [by rewrite bool_decide_true, Nat.add_0_r|]. rewrite bool_decide_false by congruence.
    rewrite IH by (intros j x Hj; rewrite Nat.add_succ_comm; by apply (Hl (S j))).
    destruct (list_find (eq taskname) l) as [[j x]|]; [|done]. cbn [fmap option_fmap option_map prod_map fst]. by rewrite Nat.add_succ_comm. }
  by apply (Hgen apps 0%nat).
Qed.

Lemma task_of_ok i file pos data : (i < 16)%nat -> (length file < 16)%nat -> 0 <= pos -> pos + NBYTES2SEC (Z.of_nat (length (payload data))) * 512 < 2 ^ 31 ->
  task_ok (task_of i file pos data).
Proof.
  intros Hi Hf Hp Hb. rewrite sectors_nat in Hb by lia. unfold task_ok, task_of. cbn [entry_point sdcard_block_id sdcard_block_num tname].
  rewrite sectors_nat, length_app, length_replicate by lia. lia.
Qed.

Lemma image_len_mod datas : image_len datas mod 512 = 0.
Proof. induction datas as [|d datas IH]; [done|]. rewrite image_len_cons. lia. Qed.

Lemma image_len_at datas i data : datas !! i = Some data ->
  image_len (take i datas) + NBYTES2SEC (Z.of_nat (length (payload data))) * 512 <= image_len datas.
Proof.
  intros Hi. rewrite <- (take_drop_middle datas i data Hi) at 2. unfold image_len. rewrite fmap_app, join_app, length_app.
  rewrite Nat2Z.inj_add. change (mjoin (padded <$> data :: drop (S i) datas)) with (padded data ++ mjoin (padded <$> drop (S i) datas)).
  rewrite length_app, Nat2Z.inj_add, length_padded. lia.
Qed.

(** The table that createimage builds. *)
Lemma table_ok host boot kern apps datas : Forall2 (file_ok host) (boot :: kern :: apps) datas -> image_len datas < 2 ^ 31 ->
  (length apps <= 16)%nat -> Forall (fun f => (length f < 16)%nat) apps ->
  let ti := put_tasks 0 (boot :: kern :: apps) datas 0 (replicate 16 zero_task) in
  Forall task_ok ti /\ length ti = 16%nat /\
  forall i app data, apps !! i = Some app -> datas !! (i + 2)%nat = Some data ->
    ti !! i = Some (task_of i app (image_len (take (i + 2) datas)) data).
Proof.
  intros HF Hb Hn Hnames ti. assert (Hat : forall i app data, apps !! i = Some app -> datas !! (i + 2)%nat = Some data ->
    ti !! i = Some (task_of i app (image_len (take (i + 2) datas)) data)).
  { intros i app data Ha Hd. pose proof (lookup_lt_Some _ _ _ Ha). unfold ti.
    rewrite (put_tasks_at (boot :: kern :: apps) datas 0 0 _ i app data);
      [by rewrite Nat.sub_0_r|lia|rewrite length_replicate; lia|rewrite Nat.sub_0_r, Nat.add_comm; exact Ha|by rewrite Nat.sub_0_r]. }
  assert (Hlen : length ti = 16%nat) by (unfold ti; by rewrite length_put_tasks, length_replicate). split_and!; [|done|done].
  apply Forall_lookup_2. intros i t Ht. pose proof (lookup_lt_Some _ _ _ Ht) as Hi. destruct (decide (i < length apps)%nat) as [Hlt|Hge].
  - destruct (lookup_lt_is_Some_2 apps i Hlt) as [app Ha]. destruct (lookup_lt_is_Some_2 datas (i + 2)) as [data Hd].
    { rewrite <- (Forall2_length _ _ _ HF). cbn [length]. lia. }
    rewrite (Hat i app data Ha Hd) in Ht. injection Ht as <-. pose proof (image_len_at datas _ _ Hd).
    apply task_of_ok; [lia|by eapply Forall_lookup_1 in Hnames|unfold image_len; lia|lia].
  - assert (Hz : ti !! i = Some zero_task); [|rewrite Hz in Ht; injection Ht as <-; vm_compute; intuition congruence].
    unfold ti. rewrite put_tasks_past; [apply lookup_replicate_2; lia|cbn [length]; lia].
Qed.

Lemma image_built host boot kern apps datas :
  Forall2 (file_ok host) (boot :: kern :: apps) datas -> image_len datas < 2 ^ 31 ->
  (length apps <= 16)%nat -> Forall (fun f => (length f < 16)%nat) apps ->
  write_files host (boot :: kern :: apps) 0 (MkOut [] 0) (replicate TASK_MAXNUM zero_task) 0 =
    Ok (MkOut (mjoin (padded <$> datas)) (image_len datas), put_tasks 0 (boot :: kern :: apps) datas 0 (replicate 16 zero_task),
        kernel_bytes (boot :: kern :: apps) datas).
Proof.
  intros HF Hb Hn Hnames.
  apply (write_files_ok host (boot :: kern :: apps) datas 0%nat (MkOut [] 0) (replicate 16 zero_task) 0); cbn [phyaddr]; try lia || done.
  intros i H2 Hi. cbn [length] in Hi. split; [apply lookup_replicate_2; lia|].
  destruct (lookup_lt_is_Some_2 apps (i - 2)) as [f Hf]; [lia|]. exists f. split; [|by eapply Forall_lookup_1 in Hnames].
  destruct i as [|[|i]]; try lia. cbn [lookup list_lookup]. by rewrite Nat.sub_succ, Nat.sub_succ, Nat.sub_0_r in Hf.
Qed.

Lemma image_task_sectors nk tasknum ti datas j data bootdata sd : (0 < j)%nat ->
  let base := mjoin (padded <$> datas) in let start := image_len (take j datas) in
  holds_image sd (patched nk tasknum base ++ mjoin (encode_task <$> ti)) -> Forall task_ok ti -> length ti = 16%nat -> datas !! 0%nat = Some bootdata -> datas !! j = Some data -> (512 <= length base)%nat ->
  512 <= NBYTES2SEC (Z.of_nat (length (payload bootdata))) * 512 ->
  read_sectors sd (Z.to_nat (NBYTES2SEC (Z.of_nat (length (payload data))))) (start / 512) =
    padded data.
Proof.
  intros Hj base start Hc Hok Hti H0 Hd H512 Hboot. subst start. assert (Hbase : Z.of_nat (length base) = image_len datas) by done.
  pose proof (image_len_mod datas) as Hmod.
  pose proof (image_len_at datas _ data Hd) as Hend. pose proof (image_len_mod (take j datas)) as Hm.
  pose proof (image_len_at (take j datas) 0 bootdata) as Hst. rewrite lookup_take_lt in Hst by lia. specialize (Hst H0).
  pose proof (length_padded data) as Hlp. rewrite take_take in Hst. cbn [Nat.min] in Hst.
  assert (H00 : image_len (take 0 datas) = 0) by done. rewrite (image_sectors nk tasknum ti base Hok Hti) by (done || (rewrite <- ?Hbase in *; lia)).
  replace (512 * (image_len (take j datas) / 512)) with (image_len (take j datas)) by lia.
  replace (512 * Z.to_nat (NBYTES2SEC (Z.of_nat (length (payload data)))))%nat with (length (padded data)) by lia.
  by apply drop_padded.
Qed.

(** The table that the kernel finds on a card with the image of [files], whose
    contents are [datas]. *)
Record image_read (sd : Z -> list Z) (files datas : list (list Z)) (apps : list (list Z)) : Prop := {
  ir_num : task_num (init_task_info (sd 0) sd) = Z.of_nat (length apps);
  ir_os_size : u16_at (sd 0) 508 = NBYTES2SEC (kernel_bytes files datas) mod 2 ^ 16;
  ir_task i app data : apps !! i = Some app -> datas !! (i + 2)%nat = Some data ->
    exists t, tasks (init_task_info (sd 0) sd) !! i = Some t /\ 0 <= sdcard_block_id t < 2 ^ 31 /\
      sdcard_block_num t = NBYTES2SEC (Z.of_nat (length (payload data))) /\
      read_sectors sd (Z.to_nat (sdcard_block_num t)) (sdcard_block_id t) = padded data;
  ir_kernel kdata bootdata : datas !! 1%nat = Some kdata -> datas !! 0%nat = Some bootdata -> length (padded bootdata) = 512%nat ->
    read_sectors sd (Z.to_nat (NBYTES2SEC (Z.of_nat (length (payload kdata))))) 1 = padded kdata;
  ir_find taskname : Forall (fun c => 0 < c) taskname ->
    find_task_idx_by_name (init_task_info (sd 0) sd) taskname =
      Ok (match list_find (eq taskname) apps with Some (i, _) => Z.of_nat i | None => -1 end)
}.

(** What createimage asks of its input. *)
Record image_input (host : list Z -> option (list Z)) (boot kern : list Z) (apps datas : list (list Z)) : Prop := {
  ii_files : Forall2 (file_ok host) (boot :: kern :: apps) datas;
  ii_boot : exists bootdata, datas !! 0%nat = Some bootdata /\ payload bootdata <> [];
  ii_len : image_len datas < 2 ^ 31;
  ii_num : (length apps <= 16)%nat;
  ii_names : Forall (fun f => (length f < 16)%nat /\ Forall (fun c => 0 < c) f) apps
}.

Lemma image_table host boot kern apps datas : image_input host boot kern apps datas ->
  exists im, create_image host (boot :: kern :: apps) = Ok im /\
    forall sd, holds_image sd im -> image_read sd (boot :: kern :: apps) datas apps.
Proof.
  intros [HF (bootdata & H0 & Hboot) Hb Hn Happs]. assert (Hnames : Forall (fun f => (length f < 16)%nat) apps) by (eapply Forall_impl; [exact Happs|by intros ? []]).
  assert (Hzero : Forall (Forall (fun c => 0 < c)) apps) by (eapply Forall_impl; [exact Happs|by intros ? []]).
  destruct (table_ok host boot kern apps datas HF Hb Hn Hnames) as (Hok & Hti & Hat).
  set (ti := put_tasks 0 _ _ _ _) in *. set (nk := kernel_bytes (boot :: kern :: apps) datas). set (base := mjoin (padded <$> datas)).
  assert (Hbase : Z.of_nat (length base) = image_len datas) by done.
  pose proof (image_len_mod datas) as Hmod. pose proof (image_len_at datas 0 bootdata H0) as Hfirst. cbn [take] in Hfirst.
  assert (Hboot1 : 512 <= NBYTES2SEC (Z.of_nat (length (payload bootdata))) * 512).
  { rewrite sectors_nat by lia. destruct (payload bootdata); [done|]. cbn [length]. lia. }
  assert (H512 : (512 <= length base)%nat) by (unfold image_len at 1 in Hfirst; cbn in Hfirst; lia).
  exists (patched nk (Z.of_nat (length apps)) base ++ mjoin (encode_task <$> ti)). split.
  { unfold create_image. rewrite (image_built _ _ _ _ datas) by done. cbn [obind img length]. fold ti nk base.
    replace (Z.of_nat (S (S (length apps))) - 2) with (Z.of_nat (length apps)) by lia. apply write_img_info_ok; lia. }
  intros sd Hc. pose proof (init_task_info_ok nk (Z.of_nat (length apps)) ti base Hok Hti ltac:(lia) H512 ltac:(lia) ltac:(lia) sd Hc) as Et.
  split; rewrite ?Et; cbn [tasks task_num]; [done|..].
  - assert (Hlen : length (patched nk (Z.of_nat (length apps)) base ++ mjoin (encode_task <$> ti)) = (length base + 512)%nat) by (by apply length_image).
    rewrite Hc by lia. unfold u16_at. rewrite image_sector0 by first [done|lia].
    destruct (patched_info nk (Z.of_nat (length apps)) ti base Hti H512) as [_ ->].
    fold nk. generalize (NBYTES2SEC nk). clear. intros x. cbn [le le_val]. change (2 ^ 16) with (256 * 256). rewrite Z.rem_mul_r by lia. lia.
  - intros i app data Ha Hd. rewrite (Hat i app data Ha Hd). eexists. split; [done|].
    pose proof (Forall_lookup_1 _ _ _ _ Hok (Hat i app data Ha Hd)) as (_ & Hid & _). split; [exact Hid|]. split; [done|].
    by apply (image_task_sectors nk (Z.of_nat (length apps)) ti datas (i + 2) data bootdata); lia || done.
  - intros kdata bd Hk H0' Hbd. rewrite H0 in H0'. injection H0' as <-.
    rewrite <- (image_task_sectors nk (Z.of_nat (length apps)) ti datas 1 kdata bootdata sd) by (lia || done). f_equal.
    rewrite (take_S_r datas 0 bootdata H0), take_0. unfold image_len. cbn [app fmap list_fmap mjoin list_join]. rewrite app_nil_r, Hbd. done.
  - intros taskname Ht. apply find_task_ok; [done|done|done|]. intros i app Ha. cbn [tasks].
    destruct (lookup_lt_is_Some_2 datas (i + 2)) as [data Hd].
    { rewrite <- (Forall2_length _ _ _ HF). cbn [length]. apply lookup_lt_Some in Ha. lia. }
    rewrite (Hat i app data Ha Hd). eexists. split; [done|]. cbn [task_of tname]. pose proof (Forall_lookup_1 _ _ _ _ Hnames Ha) as Hla. cbn beta in Hla.
    replace (16 - length app)%nat with (S (15 - length app)) by lia. by eexists.
Qed.

(** C10: the image round trip.  From well-formed ELF files (at most 16 applications
    with names of less than 16 characters, a boot block that is not empty, less
    than 2 GiB in all) createimage builds an image; on a card with this image the
    kernel reads the table back: as many tasks as applications, for each of them
    sectors that hold exactly its loadable segments padded with zeros, and a search
    by name that finds the first application of that name or none.  The boot loader
    finds the number of sectors of the kernel, and behind a boot block of one sector
    the kernel itself. *)
Theorem image_reads_back host boot kern apps datas : image_input host boot kern apps datas ->
  exists im, create_image host (boot :: kern :: apps) = Ok im /\
    forall sd, holds_image sd im -> image_read sd (boot :: kern :: apps) datas apps.
Proof. apply image_table. Qed.

(** * Concrete files *)

Module Files.
(** An ELF file with one segment. *)
Definition elf (seg : list Z) : list Z :=
  [127; 69; 76; 70] ++ replicate 28 0 ++ le 8 64 ++ replicate 14 0 ++ le 2 56 ++ le 2 1 ++ replicate 6 0 ++
  le 4 1 ++ replicate 4 0 ++ le 8 120 ++ replicate 16 0 ++ le 8 (Z.of_nat (length seg)) ++ le 8 (Z.of_nat (length seg)) ++ replicate 8 0 ++ seg.
Definition host (f : list Z) : option (list Z) :=
  if decide (f = [98]) then Some (elf (replicate 100 7))                  (* b *)
  else if decide (f = [109; 97; 105; 110]) then Some (elf (replicate 600 8))     (* main *)
  else if decide (f = [115; 104]) then Some (elf [1; 2; 3])                  (* sh *)
  else None.

(** [elf_ok] by evaluation. *)
Definition phdr_okb (data : list Z) (e : Elf64_Ehdr) (ph : Z) : bool :=
  let p := phdr_at data e ph in
  (0 <=? phdr_pos e ph) && (phdr_pos e ph + 56 <=? Z.of_nat (length data)) &&
  (p_filesz p <=? p_memsz p) && (0 <=? p_offset p) && (0 <=? p_filesz p) && (p_offset p + p_filesz p <=? Z.of_nat (length data)).
Definition elf_okb (data : list Z) : bool :=
  let e := ehdr_of (take 64 data) in
  forallb (fun b => (0 <=? b) && (b <? 256)) data && (64 <=? Z.of_nat (length data)) && (Z.of_nat (length data) <? 2 ^ 31) &&
  bool_decide (take 3 (drop 1 data) = [69; 76; 70]) && (e_phnum e =? 1) && phdr_okb data e 0.

Lemma elf_okb_ok data : elf_okb data = true -> elf_ok data.
Proof.
  unfold elf_okb, phdr_okb. rewrite !andb_true_iff, !Z.leb_le, !Z.ltb_lt, bool_decide_eq_true, Z.eqb_eq, forallb_forall.
  intros (((((Hb & Hl) & Hu) & Hm) & Hn) & (((((H1 & H2) & H3) & H4) & H5) & H6)). split; [|lia|done|].
  - apply Forall_forall. intros b Hin. rewrite list_elem_of_In in Hin. specialize (Hb b Hin). unfold byte. lia.
  - intros k Hk. replace k with 0 by lia. split; [done|]. split; [done|]. intros p _. done.
Qed.

Lemma host_ok f data : host f = Some data -> elf_okb data = true -> file_ok host f data.
Proof. intros Hh He. split; [done|by apply elf_okb_ok]. Qed.
End Files.

(** A boot block b, a kernel main and a program sh. *)
Lemma files_input : image_input Files.host [98] [109; 97; 105; 110] [[115; 104]]
  [Files.elf (replicate 100 7); Files.elf (replicate 600 8); Files.elf [1; 2; 3]].
Proof.
  split.
  - repeat (apply Forall2_cons_2; [apply Files.host_ok; vm_compute; reflexivity|]). apply Forall2_nil_2.
  - eexists. split; [reflexivity|]. vm_compute. discriminate.
  - vm_compute. reflexivity.
  - cbn. lia.
  - repeat constructor; cbn; lia.
Qed.

Lemma image_reads_back_witness : exists im, create_image Files.host [[98]; [109; 97; 105; 110]; [115; 104]] = Ok im /\
  (exists t, tasks (init_task_info (sector im 0) (sector im)) !! 0%nat = Some t /\
    read_sectors (sector im) (Z.to_nat (sdcard_block_num t)) (sdcard_block_id t) = [1; 2; 3] ++ replicate 509 0) /\
  find_task_idx_by_name (init_task_info (sector im 0) (sector im)) [115; 104] = Ok 0.
Proof.
  destruct (image_reads_back Files.host [98] [109; 97; 105; 110] [[115; 104]]
    [Files.elf (replicate 100 7); Files.elf (replicate 600 8); Files.elf [1; 2; 3]] files_input) as (im & E & Hr).
  destruct (Hr (sector im)) as [_ _ Ht _ Hf]; [intros k _ _; reflexivity|].
  exists im. split; [exact E|]. split.
  - destruct (Ht 0%nat [115; 104] (Files.elf [1; 2; 3]) eq_refl eq_refl) as (t & Hx & _ & _ & Hs). exists t. split; [exact Hx|].
    rewrite Hs. vm_compute. reflexivity.
  - rewrite (Hf [115; 104]) by (repeat constructor; lia). vm_compute. reflexivity.
Defined.
