(* ===== verification/Exec.v ===== *)
(** Starting programs: load_task_img of src/src/task_loader.cpp and
    Syscall::sys_exec of src/src/process.cpp.

    This is where the task table (Image.v), the processes (Process.v) and the
    address spaces (Page.v) meet.  Physical memory is a function from addresses to
    bytes; the kernel sees all of it at a fixed offset, a program sees it through
    its page table ([user_byte]).  The sectors of the card are what the firmware's
    bios_sd_read delivers. *)

From Stdlib Require Import ZArith Lia List.
From stdpp Require Import base numbers list gmap.
From S2P Require Import Prelude Bits BlockLayer FsLayout KAlloc Objects Kernel Sched Process Page Image.

Local Open Scope Z_scope.

Record machine (H : Type) := MkMachine { vmm : vm H; ram : Z -> Z; load_lock : bool }.
Arguments MkMachine {H}. Arguments vmm {H}. Arguments ram {H}. Arguments load_lock {H}.

(** Stores of the bytes [bs] at physical address [pa] *)
Definition write_ram (m : Z -> Z) (pa : Z) (bs : list Z) : Z -> Z :=
  fun a => if (pa <=? a) && (a <? pa + Z.of_nat (length bs)) then nth (Z.to_nat (a - pa)) bs 0 else m a.

Section Exec.
Context {H : Type} {PS : page_source H}.
Implicit Types (m : machine H) (d : Z).
(** The card and the table. *)
Context (sd : Z -> list Z) (T : task_table).

Definition set_vmm v m : machine H := MkMachine v (ram m) (load_lock m).
Definition set_ram r m : machine H := MkMachine (vmm m) r (load_lock m).
Definition set_load_lock b m : machine H := MkMachine (vmm m) (ram m) b.

(** bios_sd_read(dest, num, block_id): [dest] is a physical address. *)
Definition bios_sd_read (dest num block_id : Z) m : machine H :=
  set_ram (write_ram (ram m) dest (read_sectors sd (Z.to_nat num) block_id)) m.

(** One turn of the loop; the state of the loop is va, sdcard_id, block_num and
    the machine. *)
Definition load_page d (c : nat) (st : Z * Z * Z * machine H) : outcome (Z * Z * Z * machine H) :=
  let '(va, sdcard_id, block_num, m) := st in
  '(kva, v) <- alloc_page_for_va d va c (vmm m) ;;
  let m := bios_sd_read (kva2pa kva) (if 8 <? block_num then 8 else block_num) sdcard_id (set_vmm v m) in
  Ok (u64 (va + PAGE_SIZE), u64 (sdcard_id + 8), u64 (block_num - 8), m).
(** bool load_task_img(int taskid, PageDir &pdir); a negative index is out of the table. *)
Definition load_task_img (taskid d : Z) (c : nat) m : outcome (bool * machine H) :=
  if task_num T <=? taskid then Ok (false, m)
  else
    if taskid <? 0 then Fault
    else
      t <- or_fault (tasks T !! Z.to_nat taskid) ;;
      let block_num := u64 (sdcard_block_num t) in
      let sdcard_id := u64 (sdcard_block_id t) in
      let pages := block_num / 8 + (if block_num =? 0 then 0 else 1) in
      b <- Kernel.lock (load_lock m) ;;
      '(_, _, _, m) <- for_range (Z.to_nat pages) 0 (fun _ => load_page d c) (USER_ENTRYPOINT, sdcard_id, block_num, set_load_lock b m) ;;
      Ok (true, set_load_lock (Kernel.unlock (load_lock m)) m).

(** * sys_exec *)

Definition argv_va : Z := 0x100000.

(** The loop that copies the arguments; [pa] is the page of argv, [off] where
    argv_data stands in it.  What does not fit in the page is stored behind it. *)
Fixpoint copy_args (args : list (list Z)) (i off pa : Z) (r : Z -> Z) : outcome (Z -> Z) :=
  match args with
  | [] => Ok r
  | arg :: args =>
      let len := Z.of_nat (length arg) + 1 in
      if PAGE_SIZE <? off + len then Fault
      else
        let r := write_ram r (pa + off) (arg ++ [0]) in
        let r := write_ram r (pa + 8 * i) (le 8 (argv_va + off)) in
        copy_args args (i + 1) (off + len) pa r
  end.

(** int sys_exec(const char *name, int argc, char **argv): [name] and [args] are the
    strings, [args] as many as argc; [p] and [t] are what operator new returns for
    the process and the thread, [first_run] and [stack] are as in Process.v. *)
Definition sys_exec (first_run p t stack : Z) (name : list Z) (args : list (list Z)) (c : nat) m : outcome (Z * machine H) :=
  let argc := Z.of_nat (length args) in
  task_idx <- find_task_idx_by_name T name ;;
  if task_idx =? -1 then Ok (0, m)
  else
    q <- current_process (krn (vmm m)) c ;;
    v <- new_pagedir p (vmm m) ;;
    D <- or_fault (dirs v !! p) ;;
    s <- new_process p (root D) (Some q) name (krn v) ;;
    s <- create_thread first_run t stack p s ;;
    '(_, m) <- load_task_img task_idx p c (set_vmm (set_krn v s) m) ;;
    s <- upd_thread (krn (vmm m)) t (with_sepc USER_ENTRYPOINT) ;;
    s <- upd_thread s t (fun T => with_regs (<[9%nat := argc]> (regs T)) T) ;;
    s <- upd_thread s t (fun T => with_regs (<[10%nat := argv_va]> (regs T)) T) ;;
    '(argv_copy, v) <- alloc_page_for_va p argv_va c (set_krn (vmm m) s) ;;
    r <- copy_args args 0 (8 * argc) (kva2pa argv_copy) (ram m) ;;
    s <- add_ready_thread (krn v) t ;;
    P <- or_fault (processes s !! p) ;;
    Ok (pid P, set_ram r (set_vmm (set_krn v s) m)).

(** What a program sees at an address. *)
Definition user_byte m d (va : Z) : option Z :=
  D ← dirs (vmm m) !! d; pa ← user_pa (tabs (vmm m)) (root D) va; Some (ram m pa).
End Exec.
