(* ===== verification/ExecTheorems.v ===== *)
(** Theorems on starting programs (Exec.v): what load_task_img and sys_exec leave in
    the address space of the new process, and that nobody else's memory changes. *)

From Stdlib Require Import ZArith Lia List.
From stdpp Require Import base numbers list gmap fin_maps sets relations.
From S2P Require Import Prelude Bits BlockLayer FsLayout KAlloc Objects Kernel Sched SchedTheorems Process Page PageProps PageOps PageFrames PageSteps PageSys PageTheorems.
From S2P Require Import Image ImageTheorems Exec.

Local Open Scope Z_scope.
#[local] Ltac Zify.zify_post_hook ::= Z.div_mod_to_equations.

(** * Memory *)

Lemma write_ram_in r pa bs k : 0 <= k < Z.of_nat (length bs) -> write_ram r pa bs (pa + k) = nth (Z.to_nat k) bs 0.
Proof.
  intros Hk. unfold write_ram. rewrite (proj2 (Z.leb_le _ _)), (proj2 (Z.ltb_lt _ _)) by lia. cbn [andb]. do 2 f_equal; lia.
Qed.

Lemma write_ram_out r pa bs a : a < pa \/ pa + Z.of_nat (length bs) <= a -> write_ram r pa bs a = r a.
Proof.
  intros Ha. unfold write_ram. destruct (Z.leb_spec pa a), (Z.ltb_spec a (pa + Z.of_nat (length bs))); cbn [andb]; lia || done.
Qed.

Lemma good_page_aligned p : good_page p -> kva2pa p mod 4096 = 0.
Proof. intros (k & -> & Hk). rewrite kva2pa_pa2kva by (unfold PAGE_START, PAGE_END in Hk; lia). lia. Qed.

(** * Telling the other CPUs stays possible *)

Lemma can_tell_emit c s e : can_tell c s -> can_tell c (emit s e).
Proof.
  intros (p & s' & Ep & Es). exists p. unfold send_intr_to_running_thread in *.
  apply obind_Ok_inv in Es as (P & EP & Es). apply obind_Ok_inv in Es as (m & Em & _).
  eexists. split; [exact Ep|]. change (processes (emit s e)) with (processes s). rewrite EP. cbn [obind].
  change (hart_bits (emit s e) (threads_of P)) with (hart_bits s (threads_of P)). rewrite Em. reflexivity.
Qed.

(** Only the trace of the kernel has grown. *)
Definition told (s s' : kernel) : Prop := exists tr, s' = set_trace s tr.

Lemma told_refl s : told s s.
Proof. exists (trace s). by destruct s. Qed.
Lemma told_trans s1 s2 s3 : told s1 s2 -> told s2 s3 -> told s1 s3.
Proof. intros [tr1 ->] [tr2 ->]. by exists tr2. Qed.
Lemma told_emit s s' : s' = s \/ (exists m, s' = emit s (SendIpi m)) -> told s s'.
Proof. intros [->|[m ->]]; [apply told_refl|by eexists]. Qed.
Lemma can_tell_told c s s' : told s s' -> can_tell c s -> can_tell c s'.
Proof.
  intros [tr ->] (p & s1 & Ep & Es). exists p. unfold send_intr_to_running_thread in *.
  apply obind_Ok_inv in Es as (P & EP & Es). apply obind_Ok_inv in Es as (m & Em & _).
  eexists. split; [exact Ep|]. change (processes (set_trace s tr)) with (processes s). rewrite EP. cbn [obind].
  change (hart_bits (set_trace s tr) (threads_of P)) with (hart_bits s (threads_of P)). rewrite Em. reflexivity.
Qed.

Section Load.
Context {H : Type} {PS : page_source H}.
Implicit Types (m : machine H) (v : vm H) (d : Z).

(** * Filling a fresh page *)

Definition same_dirs v v' : Prop :=
  forall d, (fun D => (root D, user_mem_bound D)) <$> dirs v' !! d = (fun D => (root D, user_mem_bound D)) <$> dirs v !! d.

(** What loading keeps. *)
Record kept m m' : Prop := {
  kp_inv : invariant (vmm m');
  kp_dirs : same_dirs (vmm m) (vmm m');
  kp_krn : told (krn (vmm m)) (krn (vmm m'));
  kp_lock : load_lock m' = load_lock m
}.

Lemma kept_trans m1 m2 m3 : kept m1 m2 -> kept m2 m3 -> kept m1 m3.
Proof.
  intros [_ B1 C1 D1] [A2 B2 C2 D2]. split; [done|intros d; by rewrite B2|by eapply told_trans|congruence].
Qed.

Lemma same_dirs_lookup v v' d D : same_dirs v v' -> dirs v !! d = Some D ->
  exists D', dirs v' !! d = Some D' /\ root D' = root D /\ user_mem_bound D' = user_mem_bound D.
Proof.
  intros Hs E. specialize (Hs d). rewrite E in Hs. destruct (dirs v' !! d) as [D'|]; [|done]. exists D'. split; [done|].
  cbn in Hs. by injection Hs.
Qed.

Lemma user_byte_dir m d D va : dirs (vmm m) !! d = Some D -> user_byte m d va = ram m <$> user_pa (tabs (vmm m)) (root D) va.
Proof. intros E. unfold user_byte. rewrite E. cbn [mbind option_bind]. by destruct (user_pa _ _ _). Qed.

(** A page that was not mapped, with any contents [r'] for it. *)
Lemma new_user_page m d D va c :
  invariant (vmm m) -> dirs (vmm m) !! d = Some D -> 0 <= va < 2 ^ 38 -> can_tell c (krn (vmm m)) -> va < user_mem_bound D ->
  user_byte m d va = None ->
  alloc_page_for_va d va c (vmm m) = Panic \/
  exists kva v', alloc_page_for_va d va c (vmm m) = Ok (kva, v') /\ forall r',
    (forall a, a < kva2pa kva \/ kva2pa kva + 4096 <= a -> r' a = ram m a) ->
    let m' := set_ram r' (set_vmm v' m) in kept m m' /\
    (forall k, 0 <= k < 4096 -> user_byte m' d (va / 4096 * 4096 + k) = Some (r' (kva2pa kva + k))) /\
    (forall d' va', is_Some (dirs (vmm m) !! d') -> 0 <= va' < 2 ^ 64 -> d' <> d \/ va' / 4096 <> va / 4096 ->
      user_byte m' d' va' = user_byte m d' va').
Proof.
  intros Hi HD Hva Ht Hb Hno. rewrite (user_byte_dir m d D va HD) in Hno. apply fmap_None in Hno.
  destruct (fault_new_page (vmm m) d D va c Hi HD Hva Ht Hb Hno) as [->|(kva & v' & E & Hf)]; [by left|right].
  exists kva, v'. split; [exact E|]. intros r' Hr m'. pose proof Hf as [A1 A2 A3 A4 A5 A6 A7].
  split; [split; [exact A1|exact A6|by apply told_emit|done]|]. split.
  - intros k Hk. destruct (same_dirs_lookup _ _ d D A6 HD) as (D' & HD' & Er & _).
    rewrite (user_byte_dir m' d D' _ HD'), Er. cbn [vmm m' set_ram set_vmm]. by rewrite A3 by lia.
  - intros d' va' [D0 HD0] Hva' Hne. destruct (same_dirs_lookup _ _ d' D0 A6 HD0) as (D' & HD' & Er & _).
    rewrite (user_byte_dir m' d' D' _ HD'), (user_byte_dir m d' D0 _ HD0), Er. cbn [vmm m' set_ram set_vmm].
    rewrite (A4 d' D0 va' HD0 Hva' Hne). destruct (user_pa (tabs (vmm m)) (root D0) va') as [pa|] eqn:Epa; [|done].
    cbn [fmap option_fmap option_map ram set_ram m']. f_equal. apply Hr. pose proof (good_page_aligned kva A2).
    specialize (A5 d' D0 va' pa HD0 Hva' Epa). lia.
Qed.

(** The page filled with [bs] from its start. *)
Lemma fill_page m d D va c bs :
  invariant (vmm m) -> dirs (vmm m) !! d = Some D -> 0 <= va < 2 ^ 38 -> can_tell c (krn (vmm m)) -> va < user_mem_bound D ->
  user_byte m d va = None -> (length bs <= 4096)%nat ->
  alloc_page_for_va d va c (vmm m) = Panic \/
  exists kva v', alloc_page_for_va d va c (vmm m) = Ok (kva, v') /\
    let m' := set_ram (write_ram (ram m) (kva2pa kva) bs) (set_vmm v' m) in kept m m' /\
    (forall k, 0 <= k < Z.of_nat (length bs) -> user_byte m' d (va / 4096 * 4096 + k) = Some (nth (Z.to_nat k) bs 0)) /\
    (forall d' va', is_Some (dirs (vmm m) !! d') -> 0 <= va' < 2 ^ 64 -> d' <> d \/ va' / 4096 <> va / 4096 ->
      user_byte m' d' va' = user_byte m d' va').
Proof.
  intros Hi HD Hva Ht Hb Hno Hlen.
  destruct (new_user_page m d D va c Hi HD Hva Ht Hb Hno) as [->|(kva & v' & E & Hr)]; [by left|right]. exists kva, v'. split; [exact E|].
  destruct (Hr (write_ram (ram m) (kva2pa kva) bs)) as (Hk & Hin & Hout); [intros a Ha; apply write_ram_out; lia|].
  intros m'. split; [exact Hk|]. split; [|exact Hout]. intros k Hk'. rewrite Hin by lia. by rewrite write_ram_in.
Qed.

(** * The loop of load_task_img *)

Context (sd : Z -> list Z) (Hsd : forall k, length (sd k) = 512%nat) (T : task_table).

Lemma length_read_sectors n : forall id, length (read_sectors sd n id) = (512 * n)%nat.
Proof. induction n as [|n IH]; intros id; cbn [read_sectors]; [done|]. rewrite length_app, Hsd, IH. lia. Qed.

Lemma read_sectors_app a : forall b id, read_sectors sd (a + b) id = read_sectors sd a id ++ read_sectors sd b (id + Z.of_nat a).
Proof.
  induction a as [|a IH]; intros b id; cbn [read_sectors Nat.add]; [by rewrite Z.add_0_r|].
  rewrite IH, <- app_assoc. by replace (id + 1 + Z.of_nat a) with (id + Z.of_nat (S a)) by lia.
Qed.

(** A byte of the piece that starts [a] sectors in. *)
Lemma read_sectors_nth a b n id k : (a + b <= n)%nat -> (k < 512 * b)%nat ->
  nth k (read_sectors sd b (id + Z.of_nat a)) 0 = nth (512 * a + k) (read_sectors sd n id) 0.
Proof.
  intros Hn Hk. replace n with (a + (b + (n - a - b)))%nat by lia. rewrite !read_sectors_app.
  rewrite app_nth2 by (rewrite length_read_sectors; lia). rewrite app_nth1 by (rewrite !length_read_sectors; lia).
  f_equal. rewrite length_read_sectors. lia.
Qed.

Section Loop.
Context (m0 : machine H) (d : Z) (D : PageDir) (c : nat) (id num : Z).
Context (Hinv : invariant (vmm m0)) (HD : dirs (vmm m0) !! d = Some D) (Htell : can_tell c (krn (vmm m0))).
Context (Hid : 0 <= id < 2 ^ 31) (Hnum : 0 <= num < 2 ^ 31).
Definition pages : Z := num / 8 + (if num =? 0 then 0 else 1).
Context (Hfit : USER_ENTRYPOINT + 4096 * pages <= user_mem_bound D) (Hbound : user_mem_bound D <= 2 ^ 38).
Context (Hfree : forall va, USER_ENTRYPOINT <= va < USER_ENTRYPOINT + 4096 * pages -> user_byte m0 d va = None).

Abbreviation bytes := (read_sectors sd (Z.to_nat num) id).

Definition loaded (i : Z) (st : Z * Z * Z * machine H) : Prop :=
  let '(va, sid, bn, m) := st in
  va = USER_ENTRYPOINT + 4096 * i /\ sid = id + 8 * i /\ (8 * i <= num -> bn = num - 8 * i) /\ kept m0 m /\
  (forall k, 0 <= k < 4096 * i -> k < 512 * num -> user_byte m d (USER_ENTRYPOINT + k) = Some (nth (Z.to_nat k) bytes 0)) /\
  (forall d' va', is_Some (dirs (vmm m0) !! d') -> 0 <= va' < 2 ^ 64 ->
    d' <> d \/ va' < USER_ENTRYPOINT \/ USER_ENTRYPOINT + 4096 * i <= va' -> user_byte m d' va' = user_byte m0 d' va').

Lemma load_page_ok i st : 0 <= i < pages -> loaded i st ->
  load_page sd d c st = Panic \/ exists st', load_page sd d c st = Ok st' /\ loaded (i + 1) st'.
Proof.
  destruct st as [[[va sid] bn] m]. intros Hi (-> & -> & Hbn & Hk & Hin & Hout). pose proof Hk as [A1 A2 A3 A4].
  assert (H8 : 8 * i <= num) by (unfold pages in Hi; destruct (Z.eqb_spec num 0); lia). specialize (Hbn H8).
  destruct (same_dirs_lookup _ _ d D A2 HD) as (D' & HD' & Er & Eb).
  set (cnt := if 8 <? bn then 8 else bn). assert (Hcnt : cnt = Z.min 8 (num - 8 * i)) by (unfold cnt; destruct (Z.ltb_spec 8 bn); lia).
  set (bs := read_sectors sd (Z.to_nat cnt) (id + 8 * i)).
  assert (Hbs : Z.of_nat (length bs) = 512 * cnt) by (unfold bs; rewrite length_read_sectors; lia). unfold USER_ENTRYPOINT in *.
  destruct (fill_page m d D' (0x200000 + 4096 * i) c bs) as [E|(kva & v' & E & Hk' & Hin' & Hout')]; try lia || done.
  - by apply (can_tell_told c (krn (vmm m0))).
  - rewrite Hout by (lia || by eexists). apply Hfree. lia.
  - left. unfold load_page. by rewrite E.
  - right. unfold load_page. rewrite E. cbn [obind]. eexists. split; [done|]. unfold bios_sd_read. fold cnt bs.
    cbn [ram set_vmm]. cbn zeta in Hk', Hin', Hout'. set (m' := set_ram _ _) in *.
    assert (Epg : (0x200000 + 4096 * i) / 4096 * 4096 = 0x200000 + 4096 * i) by lia. rewrite Epg in Hin'.
    unfold loaded, USER_ENTRYPOINT, PAGE_SIZE. rewrite !u64_small by lia. split_and!; [lia|lia| | | |].
    + intros H8'. rewrite u64_small by lia. lia.
    + by eapply kept_trans.
    + intros k Hk1 Hk2. destruct (Z.ltb_spec k (4096 * i)) as [Hlo|Hhi].
      * rewrite Hout' by (lia || by eexists). apply Hin; lia.
      * replace (0x200000 + k) with (0x200000 + 4096 * i + (k - 4096 * i)) by lia. rewrite Hin' by lia. f_equal. unfold bs.
        replace (id + 8 * i) with (id + Z.of_nat (Z.to_nat (8 * i))) by lia. rewrite (read_sectors_nth _ _ (Z.to_nat num)) by lia. f_equal. lia.
    + intros d' va' [D0 HD0] Hva' Hne. destruct (same_dirs_lookup _ _ d' D0 A2 HD0) as (D1 & HD1 & _).
      rewrite Hout' by (lia || by eexists). apply Hout; [by eexists|lia|lia].
Qed.

Lemma load_loop_ok : let r := for_range (Z.to_nat pages) 0 (fun _ => load_page sd d c) (USER_ENTRYPOINT, id, num, m0) in
  r = Panic \/ exists va sid bn m, r = Ok (va, sid, bn, m) /\ loaded pages (va, sid, bn, m).
Proof.
  intros r. assert (Hp : 0 <= pages) by (unfold pages; destruct (num =? 0); lia).
  destruct (for_range_or_panic loaded (fun _ => load_page sd d c) (Z.to_nat pages) 0 (USER_ENTRYPOINT, id, num, m0)) as [E|([[[va sid] bn] m] & E & Hl)].
  - unfold loaded. split_and!; [lia|lia|lia| |lia|done]. split; [done|done|apply told_refl|done].
  - intros j st Hj. apply load_page_ok. lia.
  - by left.
  - right. exists va, sid, bn, m. split; [exact E|]. by replace pages with (0 + Z.of_nat (Z.to_nat pages)) by lia.
Qed.
End Loop.

(** void load_task_img, for a program that fits into a part of the address space
    where nothing is mapped. *)
Lemma load_task_ok m d D c taskid t : invariant (vmm m) -> dirs (vmm m) !! d = Some D -> can_tell c (krn (vmm m)) -> load_lock m = false ->
  0 <= taskid < task_num T -> tasks T !! Z.to_nat taskid = Some t ->
  0 <= sdcard_block_id t < 2 ^ 31 -> 0 <= sdcard_block_num t < 2 ^ 31 ->
  USER_ENTRYPOINT + 4096 * pages (sdcard_block_num t) <= user_mem_bound D -> user_mem_bound D <= 2 ^ 38 ->
  (forall va, USER_ENTRYPOINT <= va < USER_ENTRYPOINT + 4096 * pages (sdcard_block_num t) -> user_byte m d va = None) ->
  load_task_img sd T taskid d c m = Panic \/
  exists m', load_task_img sd T taskid d c m = Ok (true, m') /\ kept m m' /\
    (forall k, 0 <= k < 512 * sdcard_block_num t ->
      user_byte m' d (USER_ENTRYPOINT + k) = Some (nth (Z.to_nat k) (read_sectors sd (Z.to_nat (sdcard_block_num t)) (sdcard_block_id t)) 0)) /\
    (forall d' va', is_Some (dirs (vmm m) !! d') -> 0 <= va' < 2 ^ 64 ->
      d' <> d \/ va' < USER_ENTRYPOINT \/ USER_ENTRYPOINT + 4096 * pages (sdcard_block_num t) <= va' -> user_byte m' d' va' = user_byte m d' va').
Proof.
  intros Hi HD Ht Hl Htask Et Hid Hnum Hfit Hb Hfree. unfold load_task_img.
  rewrite (proj2 (Z.leb_gt _ _)), (proj2 (Z.ltb_ge _ _)), Et by lia. cbn [or_fault obind]. rewrite !u64_small by lia. rewrite Hl, lock_free. cbn [obind].
  fold (pages (sdcard_block_num t)). set (m0 := set_load_lock true m).
  destruct (load_loop_ok m0 d D c (sdcard_block_id t) (sdcard_block_num t)) as [->|(va & sid & bn & m1 & -> & _ & _ & _ & Hk & Hin & Hout)]; try done; [by left|right].
  cbn [obind]. eexists. split; [done|]. destruct Hk as [A1 A2 A3 A4]. split; [split; [exact A1|exact A2|exact A3|by rewrite Hl]|].
  split; [|exact Hout]. intros k Hk. apply Hin; [|lia]. unfold pages. destruct (Z.eqb_spec (sdcard_block_num t) 0); lia.
Qed.
End Load.

(** * The arguments *)

(** The room the strings take. *)
Definition args_size (args : list (list Z)) : Z := foldr (fun arg n => Z.of_nat (length arg) + 1 + n) 0 args.
Definition holds (r : Z -> Z) (pa : Z) (bs : list Z) : Prop := forall k, 0 <= k < Z.of_nat (length bs) -> r (pa + k) = nth (Z.to_nat k) bs 0.

Lemma args_size_nonneg args : 0 <= args_size args.
Proof. induction args as [|arg args IH]; cbn [args_size foldr]; [lia|]. fold (args_size args). lia. Qed.

Lemma holds_write r pa bs : holds (write_ram r pa bs) pa bs.
Proof. intros k Hk. by apply write_ram_in. Qed.

Lemma holds_same r r' pa bs : holds r pa bs -> (forall a, pa <= a < pa + Z.of_nat (length bs) -> r' a = r a) -> holds r' pa bs.
Proof. intros Hh Hs k Hk. rewrite Hs by lia. by apply Hh. Qed.

(** The loop that copies the arguments leaves the table of pointers at the start of
    the page and the terminated strings behind it. *)
Lemma copy_args_ok pa : forall args i off r, 0 <= i -> 8 * (i + Z.of_nat (length args)) <= off -> off + args_size args <= 4096 ->
  exists r', copy_args args i off pa r = Ok r' /\
    (forall a, a < pa + 8 * i \/ pa + 8 * (i + Z.of_nat (length args)) <= a < pa + off \/ pa + off + args_size args <= a -> r' a = r a) /\
    (forall j arg, args !! j = Some arg -> exists o, off <= o /\ o + Z.of_nat (length arg) + 1 <= 4096 /\
      holds r' (pa + o) (arg ++ [0]) /\ holds r' (pa + 8 * (i + Z.of_nat j)) (le 8 (argv_va + o))).
Proof.
  induction args as [|arg args IH]; intros i off r Hi Hoff Hfit; cbn [copy_args].
  - exists r. split_and!; [done|done|]. intros j arg Hj. done.
  - cbn [args_size foldr length] in *. fold (args_size args) in *. pose proof (args_size_nonneg args). unfold PAGE_SIZE.
    rewrite (proj2 (Z.ltb_ge _ _)) by lia. set (r1 := write_ram r (pa + off) (arg ++ [0])). set (r2 := write_ram r1 (pa + 8 * i) (le 8 (argv_va + off))).
    assert (L1 : Z.of_nat (length (arg ++ [0])) = Z.of_nat (length arg) + 1) by (rewrite length_app; cbn; lia).
    assert (L2 : Z.of_nat (length (le 8 (argv_va + off))) = 8) by (by rewrite length_le).
    destruct (IH (i + 1) (off + (Z.of_nat (length arg) + 1)) r2) as (r' & -> & Hout & Hin); [lia|lia|lia|].
    exists r'. split; [done|]. split.
    + intros a Ha. rewrite Hout by lia. unfold r2, r1. rewrite !write_ram_out by lia. done.
    + intros [|j] x Hj.
      * injection Hj as <-. exists off. split; [lia|]. split; [lia|]. split.
        -- apply (holds_same r1); [apply holds_write|]. intros a Ha. rewrite Hout by lia. unfold r2. by rewrite write_ram_out by lia.
        -- rewrite Z.add_0_r. apply (holds_same r2); [apply holds_write|]. intros a Ha. apply Hout. lia.
      * destruct (Hin j x Hj) as (o & Ho & Hl & Hs & Hp). exists o. split_and!; [lia|lia|done|].
        by replace (i + Z.of_nat (S j)) with (i + 1 + Z.of_nat j) by lia.
Qed.

(** Arguments that do not fit into one page are written behind it. *)
Lemma copy_args_overflow pa : forall args i off r, off <= 4096 -> 4096 < off + args_size args -> copy_args args i off pa r = Fault.
Proof.
  induction args as [|arg args IH]; intros i off r Hoff Hbig; cbn [copy_args args_size foldr] in *; [lia|]. fold (args_size args) in *.
  unfold PAGE_SIZE. destruct (Z.ltb_spec 4096 (off + (Z.of_nat (length arg) + 1))); [done|]. apply IH; lia.
Qed.

(** * The new process and its thread *)

Record locks_free (s : kernel) : Prop := {
  lf_processes : process_global_lock s = false;
  lf_threads : thread_global_lock s = false;
  lf_ready : ready_lock s = false
}.

(** What creation adds to the kernel. *)
Record spawned (s s' : kernel) (q p t root : Z) (name : list Z) : Prop := {
  sw_table : process_table s' = process_table s ++ [Some p];
  sw_process : exists Q P, processes s !! q = Some Q /\ processes s' !! p = Some P /\ pid P = Z.of_nat (length (process_table s)) /\ pname P = name /\
    pagedir P = root /\ parent P = Some q /\ threads_of P = [t] /\ cpu_mask P = cpu_mask Q /\ cwd_node_idx P = cwd_node_idx Q /\ is_killed P = false;
  sw_thread : exists Th, threads s' !! t = Some Th /\ process Th = p /\ status Th = READY /\ length (regs Th) = 31%nat;
  sw_threads u : u <> t -> threads s' !! u = threads s !! u;
  sw_threads_of u : u <> p -> threads_of <$> processes s' !! u = threads_of <$> processes s !! u;
  sw_cpus : cpus s' = cpus s;
  sw_ready : ready_queue s' = ready_queue s;
  sw_locks : locks_free s'
}.

(** The part of the kernel that stores through a Process * leave alone. *)
Definition beside (s : kernel) :=
  (threads s, thread_table s, thread_global_lock s, process_table s, process_global_lock s, cpus s, ready_queue s, ready_lock s).

Lemma store_process s p P f : processes s !! p = Some P ->
  exists s', upd_process s p f = Ok s' /\ processes s' = <[p := f P]> (processes s) /\ beside s' = beside s.
Proof. intros E. rewrite (upd_process_run s p f P E). eexists. split; [reflexivity|]. split; reflexivity. Qed.

Lemma lock_process_store s p P : processes s !! p = Some P -> process_own_lock P = false ->
  exists s', lock_process s p = Ok s' /\ processes s' = <[p := with_process_own_lock true P]> (processes s) /\ beside s' = beside s.
Proof. intros E Hl. unfold lock_process. rewrite E. cbn [or_fault obind]. rewrite Hl, lock_free. cbn [obind]. by apply store_process. Qed.

Lemma unlock_process_store s p P : processes s !! p = Some P ->
  exists s', unlock_process s p = Ok s' /\ processes s' = <[p := with_process_own_lock false P]> (processes s) /\ beside s' = beside s.
Proof. intros E. unfold unlock_process. destruct (store_process s p P (fun P => with_process_own_lock (unlock (process_own_lock P)) P) E) as (s' & -> & E' & E''). by exists s'. Qed.

Lemma add_process_run s p P objs : exists s1, s1 = set_kernel_objects (set_processes s (<[p := P]> (processes s))) objs /\
  processes s1 = <[p := P]> (processes s) /\ beside s1 = beside s.
Proof. eexists. split; [reflexivity|]. split; reflexivity. Qed.

Lemma table_process s p : process_global_lock s = false ->
  exists s', (s <- lock_processes s ;; let s := set_process_table s (process_table s ++ [Some p]) in Ok (unlock_processes s)) = Ok s' /\
    processes s' = processes s /\ threads s' = threads s /\ thread_table s' = thread_table s /\ process_table s' = process_table s ++ [Some p] /\
    cpus s' = cpus s /\ ready_queue s' = ready_queue s /\ ready_lock s' = ready_lock s /\ thread_global_lock s' = thread_global_lock s /\ process_global_lock s' = false.
Proof. intros E. unfold lock_processes. rewrite E, lock_free. cbn [obind]. eexists. split; [reflexivity|]. split_and!; reflexivity. Qed.

Lemma new_process_run s q Q p root name :
  locks_free s -> processes s !! q = Some Q -> process_own_lock Q = false -> q <> p ->
  exists s', new_process p root (Some q) name s = Ok s' /\ locks_free s' /\
    processes s' !! p = Some (MkProcess false (Z.of_nat (length (process_table s))) name root (Some q) [] [] (cpu_mask Q) 0 0 [] 0 (cwd_node_idx Q) false) /\
    (forall u, u <> p -> threads_of <$> processes s' !! u = threads_of <$> processes s !! u) /\
    process_table s' = process_table s ++ [Some p] /\ threads s' = threads s /\ cpus s' = cpus s /\ ready_queue s' = ready_queue s.
Proof.
  intros [L1 L2 L3] HQ HL Hne. unfold new_process. cbv zeta.
  set (P0 := MkProcess false (Z.of_nat (length (process_table s))) name root (Some q) [] [] (2 ^ 64 - 1) 0 0 [] 0 0 false).
  destruct (add_process_run s p P0
    (kernel_objects s ++ [Trie.TrieLookup])) as (s1 & <- & P1 & B1).
  assert (H1 : processes s1 !! q = Some Q) by (by rewrite P1, lookup_insert_ne).
  destruct (lock_process_store s1 q Q H1 HL) as (s2 & -> & P2 & B2). cbn [obind].
  destruct (store_process s2 q (with_process_own_lock true Q) (fun Q => with_children (children Q ++ [p]) Q)) as (s3 & -> & P3 & B3); [by rewrite P2, lookup_insert_eq|].
  cbn [obind]. rewrite P2, insert_insert_eq in P3. rewrite P3, lookup_insert_eq. cbn [or_fault obind].
  destruct (store_process s3 p P0 (with_cpu_mask (cpu_mask (with_children (children (with_process_own_lock true Q) ++ [p]) (with_process_own_lock true Q)))))
    as (s4 & -> & P4 & B4); [rewrite P3, lookup_insert_ne, P1 by done; apply lookup_insert_eq|]. cbn [obind].
  destruct (store_process s4 p (with_cpu_mask (cpu_mask Q) P0) (with_cwd_node_idx (cwd_node_idx (with_children (children (with_process_own_lock true Q) ++ [p]) (with_process_own_lock true Q)))))
    as (s5 & -> & P5 & B5); [rewrite P4; apply lookup_insert_eq|]. cbn [obind]. rewrite P4, insert_insert_eq in P5.
  destruct (unlock_process_store s5 q (with_children (children (with_process_own_lock true Q) ++ [p]) (with_process_own_lock true Q)))
    as (s6 & -> & P6 & B6); [rewrite P5, lookup_insert_ne, P3 by done; apply lookup_insert_eq|]. cbn [obind].
  rewrite B5, B4, B3, B2, B1 in B6. unfold beside in B6. injection B6 as T1 T2 T3 T4 T5 T6 T7 T8.
  destruct (table_process s6 p) as (s7 & E7 & P7 & U1 & U2 & U3 & U4 & U5 & U6 & U7 & U8); [by rewrite T5|]. cbv zeta in E7. rewrite E7.
  exists s7. split; [done|]. split; [split; congruence|]. rewrite P7, P6. split_and!; try congruence.
  - rewrite lookup_insert_ne by done. rewrite P5, lookup_insert_eq. done.
  - intros u Hu. destruct (decide (u = q)) as [->|Hq]; [by rewrite lookup_insert_eq, HQ|]. by rewrite lookup_insert_ne, P5, lookup_insert_ne, P3, lookup_insert_ne, P1, lookup_insert_ne by done.
Qed.

Lemma new_thread_run s first_run t stack p rank : thread_global_lock s = false ->
  exists s', new_thread first_run t stack p rank s = Ok s' /\ processes s' = processes s /\
    (exists Th, threads s' = <[t := Th]> (threads s) /\ process Th = p /\ status Th = READY /\ length (regs Th) = 31%nat) /\
    process_table s' = process_table s /\ cpus s' = cpus s /\ ready_queue s' = ready_queue s /\ ready_lock s' = ready_lock s /\
    thread_global_lock s' = false /\ process_global_lock s' = process_global_lock s.
Proof.
  intros E. unfold new_thread, lock_threads. rewrite E, lock_free. cbn [obind]. eexists. split; [reflexivity|].
  split; [reflexivity|]. split; [|split_and!; reflexivity]. eexists. split; [reflexivity|]. split_and!; reflexivity.
Qed.

Lemma create_thread_run s p P t first_run stack :
  locks_free s -> processes s !! p = Some P -> process_own_lock P = false -> threads_of P = [] ->
  exists s', create_thread first_run t stack p s = Ok s' /\ locks_free s' /\
    processes s' = <[p := with_process_own_lock false (with_threads_of [t] (with_active_thread_cnt (u64 (active_thread_cnt P + 1)) P))]> (processes s) /\
    (exists Th, threads s' = <[t := Th]> (threads s) /\ process Th = p /\ status Th = READY /\ length (regs Th) = 31%nat) /\
    process_table s' = process_table s /\ cpus s' = cpus s /\ ready_queue s' = ready_queue s.
Proof.
  intros [L1 L2 L3] HP HL Ht. unfold create_thread.
  destruct (lock_process_store s p P HP HL) as (s1 & -> & P1 & B1). cbn [obind]. rewrite P1, lookup_insert_eq. cbn [or_fault obind].
  unfold beside in B1. injection B1 as T1 T2 T3 T4 T5 T6 T7 T8.
  destruct (new_thread_run s1 first_run t stack p (Z.of_nat (length (threads_of (with_process_own_lock true P)))))
    as (s2 & -> & P2 & (Th & Hth & F1 & F2 & F3) & U1 & U2 & U3 & U4 & U5 & U6); [by rewrite T3|]. cbn [obind]. rewrite P1 in P2.
  destruct (store_process s2 p (with_process_own_lock true P) (fun P => with_active_thread_cnt (u64 (active_thread_cnt P + 1)) P))
    as (s3 & -> & P3 & B3); [by rewrite P2, lookup_insert_eq|]. cbn [obind]. rewrite P2, insert_insert_eq in P3.
  destruct (store_process s3 p (with_active_thread_cnt (u64 (active_thread_cnt P + 1)) (with_process_own_lock true P)) (fun P => with_threads_of (threads_of P ++ [t]) P))
    as (s4 & -> & P4 & B4); [by rewrite P3, lookup_insert_eq|]. cbn [obind]. rewrite P3, insert_insert_eq in P4.
  edestruct (unlock_process_store s4 p) as (s5 & -> & P5 & B5); [rewrite P4; apply lookup_insert_eq|]. rewrite P4, insert_insert_eq in P5.
  rewrite B4, B3 in B5. unfold beside in B5. injection B5 as V1 V2 V3 V4 V5 V6 V7 V8.
  exists s5. split; [done|]. split; [split; congruence|]. split; [|split; [|split_and!; congruence]].
  - rewrite P5. f_equal. destruct P; cbn in Ht |- *. by rewrite Ht.
  - exists Th. split_and!; [congruence|done..].
Qed.

Lemma spawn_ok s q Q p t root name first_run stack :
  locks_free s -> processes s !! q = Some Q -> process_own_lock Q = false -> q <> p ->
  exists s1 s2, new_process p root (Some q) name s = Ok s1 /\ create_thread first_run t stack p s1 = Ok s2 /\ spawned s s2 q p t root name.
Proof.
  intros Hl HQ HL Hne. destruct (new_process_run s q Q p root name Hl HQ HL Hne) as (s1 & E1 & Hl1 & HP & Hpr & Etab & Eth & Ec & Er).
  destruct (create_thread_run s1 p _ t first_run stack Hl1 HP eq_refl eq_refl) as (s2 & E2 & Hl2 & HP2 & (Th & Hth & F1 & F2 & F3) & E3 & E4 & E5).
  exists s1, s2. split; [done|]. split; [exact E2|]. split; try congruence.
  - eexists Q, _. rewrite HP2, lookup_insert_eq. split; [done|]. split; [reflexivity|]. by split_and!.
  - exists Th. rewrite Hth, lookup_insert_eq. done.
  - intros u Hu. by rewrite Hth, lookup_insert_ne, Eth.
  - intros u Hu. by rewrite HP2, lookup_insert_ne, Hpr.
Qed.

(** One turn of the loop of send_intr_to_running_thread *)
Definition hart_bit s (acc : outcome Z) (t : Z) : outcome Z :=
  mask <- acc ;;
  T <- or_fault (threads s !! t) ;;
  if decide (status T = RUNNING) then
    c <- or_fault (running_cpu T) ;;
    C <- or_fault (cpus s !! c) ;;
    Ok (Z.lor mask (Z.shiftl 1 (Z.of_nat (hartid C))))
  else Ok mask.

(** The threads are still there; what they run and where has not changed. *)
Definition threads_kept s s' : Prop := forall t T, threads s !! t = Some T -> exists T', threads s' !! t = Some T' /\
  process T' = process T /\ status T' = status T /\ running_cpu T' = running_cpu T.

Lemma hart_bits_grown s s' : threads_kept s s' -> cpus s' = cpus s -> forall ths m,
  hart_bits s ths = Ok m -> hart_bits s' ths = Ok m.
Proof.
  intros Ht Hc ths. change (forall m, fold_left (hart_bit s) ths (Ok 0) = Ok m -> fold_left (hart_bit s') ths (Ok 0) = Ok m).
  generalize (Ok 0). induction ths as [|t ths IH]; intros acc m; cbn [fold_left]; [done|].
  destruct (hart_bit s acc t) as [x| | |] eqn:E; [|intros Hm; exfalso; clear -Hm; revert Hm; by induction ths..].
  assert (E' : hart_bit s' acc t = Ok x); [|rewrite E'; apply IH]. unfold hart_bit in *. destruct acc as [a| | |]; try done. cbn [obind] in *.
  destruct (threads s !! t) as [T|] eqn:ET; [|done]. destruct (Ht t T ET) as (T' & -> & _ & Es & Er). cbn [or_fault obind] in *. by rewrite Es, Er, Hc.
Qed.

(** More threads and processes do not matter. *)
Lemma can_tell_grown c s s' : threads_kept s s' -> cpus s' = cpus s ->
  (forall o O, processes s !! o = Some O -> exists O', processes s' !! o = Some O' /\ threads_of O' = threads_of O) ->
  can_tell c s -> can_tell c s'.
Proof.
  intros Ht Hc Hp (o & s1 & Eo & Es). exists o. unfold current_process, current in *. rewrite Hc.
  apply obind_Ok_inv in Eo as (u & -> & Eo). apply obind_Ok_inv in Eo as (U & EU & Eo). apply or_fault_Ok in EU. cbn [obind].
  destruct (Ht u U EU) as (U' & -> & Eu & _). cbn [or_fault obind]. unfold send_intr_to_running_thread in *.
  apply obind_Ok_inv in Es as (O & EO & Es). apply or_fault_Ok in EO. apply obind_Ok_inv in Es as (m & Em & _).
  destruct (Hp o O EO) as (O' & -> & Ho). cbn [or_fault obind]. rewrite Ho, (hart_bits_grown s s' Ht Hc _ m Em). cbn [obind]. rewrite Eu. eexists. split; [exact Eo|reflexivity].
Qed.

(** The part of the kernel that stores through a Thread * leave alone. *)
Definition beside_threads (s : kernel) := (processes s, process_table s, cpus s, ready_queue s, ready_lock s).

Lemma store_thread s t Th f : threads s !! t = Some Th ->
  exists s', upd_thread s t f = Ok s' /\ threads s' = <[t := f Th]> (threads s) /\ beside_threads s' = beside_threads s.
Proof. intros E. rewrite (upd_thread_run s t f Th E). eexists. split; [reflexivity|]. split; reflexivity. Qed.

(** The registers with which a program starts. *)
Definition at_entry (argc : Z) (Th : Thread) : Thread :=
  with_regs (<[10%nat := argv_va]> (<[9%nat := argc]> (regs Th))) (with_sepc USER_ENTRYPOINT Th).

Lemma enter_program s t Th argc : threads s !! t = Some Th ->
  exists s1 s2 s3, upd_thread s t (with_sepc USER_ENTRYPOINT) = Ok s1 /\ upd_thread s1 t (fun T => with_regs (<[9%nat := argc]> (regs T)) T) = Ok s2 /\
    upd_thread s2 t (fun T => with_regs (<[10%nat := argv_va]> (regs T)) T) = Ok s3 /\
    threads s3 = <[t := at_entry argc Th]> (threads s) /\ beside_threads s3 = beside_threads s.
Proof.
  intros E. destruct (store_thread s t Th (with_sepc USER_ENTRYPOINT) E) as (s1 & E1 & T1 & B1).
  destruct (store_thread s1 t _ (fun T => with_regs (<[9%nat := argc]> (regs T)) T) (eq_trans (f_equal (.!! t) T1) (lookup_insert_eq _ _ _))) as (s2 & E2 & T2 & B2).
  destruct (store_thread s2 t _ (fun T => with_regs (<[10%nat := argv_va]> (regs T)) T) (eq_trans (f_equal (.!! t) T2) (lookup_insert_eq _ _ _))) as (s3 & E3 & T3 & B3).
  exists s1, s2, s3. split_and!; try done; [|congruence]. rewrite T3, T2, T1, !insert_insert_eq. done.
Qed.

(** What sys_exec adds to the kernel. *)
Record started (s s' : kernel) (q p t : Z) (name : list Z) (argc : Z) : Prop := {
  se_table : process_table s' = process_table s ++ [Some p];
  se_process : exists Q P, processes s !! q = Some Q /\ processes s' !! p = Some P /\ pid P = Z.of_nat (length (process_table s)) /\ pname P = name /\
    parent P = Some q /\ threads_of P = [t] /\ cpu_mask P = cpu_mask Q /\ cwd_node_idx P = cwd_node_idx Q /\ is_killed P = false;
  se_thread : exists Th, threads s' !! t = Some Th /\ process Th = p /\ status Th = READY /\ sepc Th = USER_ENTRYPOINT /\
    regs Th !! 9%nat = Some argc /\ regs Th !! 10%nat = Some argv_va;
  se_threads u : u <> t -> threads s' !! u = threads s !! u;
  se_ready : ready_queue s' = ready_queue s ++ [t]
}.

(** * sys_exec *)

Section SysExec.
Context {H : Type} {PS : page_source H}.
Context (sd : Z -> list Z) (Hsd : forall k, length (sd k) = 512%nat) (T : task_table).
Implicit Types (m : machine H) (v : vm H).

Lemma new_pagedir_total v p : invariant v ->
  new_pagedir p v = Panic \/
  exists v' D, new_pagedir p v = Ok v' /\ dirs v' = <[p := D]> (dirs v) /\ user_mem_bound D = 0x300000 /\ krn v' = krn v.
Proof.
  intros [Hu (pos & L & priv & att & Hvm)]. pose proof Hvm as [Hok _ _]. pose proof (so_tree _ _ _ Hok) as Ht. unfold new_pagedir.
  destruct (kalloc_page_ok v pos L Hok) as [->|(r & h & -> & Hr & Hg & Hh)]; [by left|right]. cbn [obind].
  destruct (set_kernel_vm_run (set_vheap v h) r (tr_boot _ _ _ Ht)) as (T' & -> & _); [intros Ek; apply (proj1 kernel_page_not_good); by rewrite <- Ek|].
  cbn [obind]. eexists _, _. split; [done|]. split_and!; reflexivity.
Qed.

Lemma new_pagedir_run v p : invariant v -> dirs v !! p = None ->
  new_pagedir p v = Panic \/
  exists v' D, new_pagedir p v = Ok v' /\ invariant v' /\ dirs v' = <[p := D]> (dirs v) /\ user_mem_bound D = 0x300000 /\ krn v' = krn v /\
    (forall va, 0 <= va < 2 ^ 38 -> user_pa (tabs v') (root D) va = None) /\
    (forall d' D' va, dirs v !! d' = Some D' -> 0 <= va < 2 ^ 64 -> user_pa (tabs v') (root D') va = user_pa (tabs v) (root D') va).
Proof.
  intros Hinv Hp. pose proof Hinv as [Hu (pos & L & priv & att & Hvm)].
  destruct (new_pagedir_total v p Hinv) as [E|(v' & D & E & HD & Hb & Hk)]; [by left|right]. exists v', D. split; [exact E|].
  destruct (new_pagedir_ok v pos L priv att p v' Hvm Hu Hp E) as [Hi (D1 & HD1 & _ & Hnone & Hsame)].
  assert (D1 = D) as ->.
  { assert (E1 : dirs v' !! p = Some D1) by (rewrite HD1; apply lookup_insert_eq). rewrite HD, lookup_insert_eq in E1. by injection E1. }
  split; [exact Hi|]. split_and!; try done.
  - intros va Hva. destruct Hi as [_ (pos' & L' & priv' & att' & Hvm')]. pose proof (so_tree _ _ _ (vo_state _ _ _ _ _ Hvm')) as Ht'.
    rewrite (user_pa_leaf _ _ _ Ht' p D va); [by rewrite Hnone|rewrite HD; apply lookup_insert_eq|done].
  - intros d' D' va HD' Hva. destruct Hi as [_ (pos' & L' & priv' & att' & Hvm')]. pose proof (so_tree _ _ _ (vo_state _ _ _ _ _ Hvm')) as Ht'.
    pose proof (so_tree _ _ _ (vo_state _ _ _ _ _ Hvm)) as Ht. assert (HD2 : dirs v' !! d' = Some D') by (rewrite HD, lookup_insert_ne; congruence).
    rewrite (user_pa_cases _ _ _ d' D' va Ht' HD2 Hva), (user_pa_cases _ _ _ d' D' va Ht HD' Hva). destruct (Z.ltb_spec va (2 ^ 38)); [|done].
    rewrite (Hsame d' D'); [done|done|lia].
Qed.

Lemma inv_set_krn v s : invariant v -> invariant (set_krn v s).
Proof. intros Hi. apply (step_inv v); [apply step_kernel|exact Hi]. Qed.

(** When sys_exec is called: [p] and [t] are addresses that are not in use. *)
Record exec_ready m (c : nat) (q p t : Z) : Prop := {
  er_inv : invariant (vmm m);
  er_tell : can_tell c (krn (vmm m));
  er_current : current_process (krn (vmm m)) c = Ok q;
  er_locks : locks_free (krn (vmm m));
  er_load : load_lock m = false;
  er_parent : exists Q, processes (krn (vmm m)) !! q = Some Q /\ process_own_lock Q = false;
  er_process : processes (krn (vmm m)) !! p = None /\ dirs (vmm m) !! p = None;
  er_thread : threads (krn (vmm m)) !! t = None
}.

(** The process with an empty address space. *)
Lemma exec_spawn first_run m c q p t stack name : exec_ready m c q p t ->
  new_pagedir p (vmm m) = Panic \/
  exists v D s1 s2, new_pagedir p (vmm m) = Ok v /\ dirs v !! p = Some D /\ new_process p (root D) (Some q) name (krn v) = Ok s1 /\
    create_thread first_run t stack p s1 = Ok s2 /\ spawned (krn (vmm m)) s2 q p t (root D) name /\ user_mem_bound D = 0x300000 /\
    let m2 := set_vmm (set_krn v s2) m in invariant (vmm m2) /\ can_tell c s2 /\
    (forall va, 0 <= va < 2 ^ 38 -> user_byte m2 p va = None) /\
    (forall d', is_Some (dirs (vmm m) !! d') -> d' <> p /\ is_Some (dirs (vmm m2) !! d')) /\
    (forall d' va, is_Some (dirs (vmm m) !! d') -> 0 <= va < 2 ^ 64 -> user_byte m2 d' va = user_byte m d' va).
Proof.
  intros [Hi Ht Hc Hl Hll (Q & HQ & HQl) [Hp Hd] Hn]. destruct (new_pagedir_run (vmm m) p Hi Hd) as [->|(v & D & -> & Hi' & HD & Hb & Hk & Hnone & Hsame)]; [by left|right].
  destruct (spawn_ok (krn (vmm m)) q Q p t (root D) name first_run stack Hl HQ HQl) as (s1 & s2 & E1 & E2 & Hs); [congruence|].
  exists v, D, s1, s2. rewrite Hk. split_and!; try done; [by rewrite HD, lookup_insert_eq|]. intros m2.
  assert (HDp : dirs (vmm m2) !! p = Some D) by (cbn [vmm m2 set_vmm dirs set_krn]; rewrite HD; apply lookup_insert_eq). split_and!.
  - by apply inv_set_krn.
  - apply (can_tell_grown c (krn (vmm m)) s2); [|apply Hs| |done].
    + intros u U HU. exists U. by rewrite (sw_threads _ _ _ _ _ _ _ Hs) by congruence.
    + intros o O HO. pose proof (sw_threads_of _ _ _ _ _ _ _ Hs o ltac:(congruence)) as E. rewrite HO in E.
      destruct (processes s2 !! o) as [O'|]; [|done]. exists O'. split; [done|]. by injection E.
  - intros va Hva. rewrite (user_byte_dir m2 p D va HDp). cbn [vmm m2 set_vmm tabs set_krn]. by rewrite Hnone.
  - intros d' [D' HD']. split; [congruence|]. exists D'. cbn [vmm m2 set_vmm dirs set_krn]. rewrite HD, lookup_insert_ne; congruence.
  - intros d' va [D' HD'] Hva. assert (HD2 : dirs (vmm m2) !! d' = Some D') by (cbn [vmm m2 set_vmm dirs set_krn]; rewrite HD, lookup_insert_ne; congruence).
    rewrite (user_byte_dir m2 d' D' va HD2), (user_byte_dir m d' D' va HD'). cbn [vmm m2 set_vmm tabs set_krn ram]. by rewrite (Hsame d' D').
Qed.

Definition user_holds m p va bs : Prop := forall k, 0 <= k < Z.of_nat (length bs) -> user_byte m p (va + k) = Some (nth (Z.to_nat k) bs 0).

(** The page of the arguments. *)
Lemma exec_arguments m c p D s args : invariant (vmm m) -> dirs (vmm m) !! p = Some D -> argv_va < user_mem_bound D -> can_tell c s ->
  user_byte m p argv_va = None -> 8 * Z.of_nat (length args) + args_size args <= 4096 ->
  alloc_page_for_va p argv_va c (set_krn (vmm m) s) = Panic \/
  exists kva v r, alloc_page_for_va p argv_va c (set_krn (vmm m) s) = Ok (kva, v) /\
    copy_args args 0 (8 * Z.of_nat (length args)) (kva2pa kva) (ram m) = Ok r /\ told s (krn v) /\ forall s',
    let m' := set_ram r (set_vmm (set_krn v s') m) in invariant (vmm m') /\
    (forall j arg, args !! j = Some arg -> exists a, user_holds m' p (argv_va + 8 * Z.of_nat j) (le 8 a) /\ user_holds m' p a (arg ++ [0])) /\
    (forall d va, is_Some (dirs (vmm m) !! d) -> 0 <= va < 2 ^ 64 -> d <> p \/ va / 4096 <> argv_va / 4096 -> user_byte m' d va = user_byte m d va).
Proof.
  intros Hi HD Hb Ht Hno Hfit. set (m1 := set_vmm (set_krn (vmm m) s) m).
  destruct (new_user_page m1 p D argv_va c) as [E|(kva & v & E & Hr)]; try done; [by apply inv_set_krn|by left|right].
  destruct (copy_args_ok (kva2pa kva) args 0 (8 * Z.of_nat (length args)) (ram m)) as (r & Er & Hout & Hin); [lia|lia|lia|].
  exists kva, v, r. split; [exact E|]. split; [exact Er|]. pose proof (args_size_nonneg args).
  destruct (Hr r) as (Hk & Hm & Ho); [intros a Ha; apply Hout; lia|]. split; [exact (kp_krn _ _ Hk)|]. intros s' m'.
  assert (Hsame : forall d va, user_byte m' d va = user_byte (set_ram r (set_vmm v m1)) d va) by done.
  assert (Hpage : forall o bs, 0 <= o -> o + Z.of_nat (length bs) <= 4096 -> holds r (kva2pa kva + o) bs -> user_holds m' p (argv_va + o) bs).
  { intros o bs Ho1 Ho2 Hh k Hk'. rewrite Hsame. specialize (Hm (o + k) ltac:(lia)). change (argv_va / 4096 * 4096) with argv_va in Hm.
    rewrite <- Z.add_assoc, Hm, Z.add_assoc. f_equal. by apply Hh. }
  split; [apply inv_set_krn, Hk|]. split.
  - intros j arg Hj. destruct (Hin j arg Hj) as (o & Ho1 & Ho2 & Hs & Hp). exists (argv_va + o). apply lookup_lt_Some in Hj.
    split; apply Hpage; rewrite ?length_app, ?length_le; cbn [length]; lia || done.
  - intros d va Hd Hva Hne. rewrite Hsame. by apply Ho.
Qed.

Lemma exec_can_tell c s2 s3 s5 t Th argc : told s2 s3 -> threads s2 !! t = Some Th -> threads s5 = <[t := at_entry argc Th]> (threads s3) ->
  beside_threads s5 = beside_threads s3 -> can_tell c s2 -> can_tell c s5.
Proof.
  intros [tr ->] HTh HT HB. cbn [threads set_trace] in HT. unfold beside_threads in HB. cbn in HB. injection HB as B1 B2 B3 B4 B5.
  apply can_tell_grown; [|done|].
  - intros u U HU. rewrite HT. destruct (decide (u = t)) as [->|Hu]; [|exists U; by rewrite lookup_insert_ne].
    rewrite lookup_insert_eq. eexists. split; [done|]. by assert (U = Th) as -> by congruence.
  - intros o O HO. exists O. by rewrite B1.
Qed.

(** The kernel once the thread is ready to run. *)
Lemma exec_started s s2 s3 s5 s6 q p t root name argc Th : spawned s s2 q p t root name -> told s2 s3 -> threads s2 !! t = Some Th ->
  threads s5 = <[t := at_entry argc Th]> (threads s3) -> beside_threads s5 = beside_threads s3 -> told s5 s6 ->
  exists s7 P, add_ready_thread s6 t = Ok s7 /\ processes s7 !! p = Some P /\ pid P = Z.of_nat (length (process_table s)) /\ started s s7 q p t name argc.
Proof.
  intros Hs [tr ->] HTh HT HB [tr' ->]. pose proof Hs as [W1 (Q & P & HQ & HP & Hpid & F2 & _ & F4 & F5 & F6 & F7 & F8) (Th' & HTh' & G1 & G2 & G3) W4 W5 W6 W7 [L1 L2 L3]].
  assert (Th' = Th) as -> by congruence. unfold beside_threads in HB. cbn [processes process_table cpus ready_queue ready_lock set_trace] in HB.
  injection HB as B1 B2 B3 B4 B5. unfold add_ready_thread. cbn [ready_lock set_trace]. rewrite B5, L3, lock_free. cbn [obind].
  cbn [threads set_trace] in HT. eexists _, P. split; [reflexivity|].
  split; [cbn; congruence|]. split; [done|]. split.
  - cbn. congruence.
  - exists Q, P. split_and!; try done. cbn. congruence.
  - exists (at_entry argc Th). split; [cbn; rewrite HT; apply lookup_insert_eq|]. split; [done|]. split; [exact G2|]. split; [done|].
    cbn. rewrite !list_lookup_insert_ne by lia. rewrite !list_lookup_insert_eq by (rewrite ?length_insert; lia). done.
  - intros u Hu. cbn. rewrite HT, lookup_insert_ne by done. by apply W4.
  - cbn. by rewrite B4, W7.
Qed.

(** What sys_exec has done when it returns. *)
Record program_started m m' (q p t : Z) (name : list Z) (args : list (list Z)) (tk : task_info_t) : Prop := {
  ps_inv : invariant (vmm m');
  ps_image k : 0 <= k < 512 * sdcard_block_num tk ->
    user_byte m' p (USER_ENTRYPOINT + k) = Some (nth (Z.to_nat k) (read_sectors sd (Z.to_nat (sdcard_block_num tk)) (sdcard_block_id tk)) 0);
  ps_args j arg : args !! j = Some arg ->
    exists a, user_holds m' p (argv_va + 8 * Z.of_nat j) (le 8 a) /\ user_holds m' p a (arg ++ [0]);
  ps_others d va : is_Some (dirs (vmm m) !! d) -> 0 <= va < 2 ^ 64 -> user_byte m' d va = user_byte m d va;
  ps_kernel : started (krn (vmm m)) (krn (vmm m')) q p t name (Z.of_nat (length args))
}.

Lemma exec_run first_run m c q p t stack name args taskid tk : exec_ready m c q p t ->
  find_task_idx_by_name T name = Ok taskid -> 0 <= taskid < task_num T -> tasks T !! Z.to_nat taskid = Some tk ->
  0 <= sdcard_block_id tk < 2 ^ 31 -> 0 <= sdcard_block_num tk < 2048 -> 8 * Z.of_nat (length args) + args_size args <= 4096 ->
  sys_exec sd T first_run p t stack name args c m = Panic \/
  exists m', sys_exec sd T first_run p t stack name args c m = Ok (Z.of_nat (length (process_table (krn (vmm m)))), m') /\
    program_started m m' q p t name args tk.
Proof.
  intros Hr Hf Htask Htk Hid Hnum Hargs. unfold sys_exec. rewrite Hf. cbn [obind]. rewrite (proj2 (Z.eqb_neq _ _)) by lia.
  rewrite (er_current _ _ _ _ _ Hr). cbn [obind].
  destruct (exec_spawn first_run m c q p t stack name Hr) as [->|(v & D & s1 & s2 & -> & HD & E1 & E2 & Hs & Hb & Hi & Ht & Hfree & Hdirs & Hsame)]; [by left|].
  cbn [obind]. rewrite HD. cbn [or_fault obind]. rewrite E1. cbn [obind]. rewrite E2. cbn [obind]. set (m2 := set_vmm (set_krn v s2) m) in *.
  assert (Hpages : pages (sdcard_block_num tk) <= 256) by (unfold pages; destruct (Z.eqb_spec (sdcard_block_num tk) 0); lia).
  assert (Hp0 : 0 <= pages (sdcard_block_num tk)) by (unfold pages; destruct (Z.eqb_spec (sdcard_block_num tk) 0); lia).
  destruct (load_task_ok sd Hsd T m2 p D c taskid tk) as [->|(m3 & -> & Hk & Himg & Hother)];
    try (done || unfold USER_ENTRYPOINT; lia); [apply Hr|intros va Hva; apply Hfree; unfold USER_ENTRYPOINT in Hva; lia|by left|].
  cbn [obind]. pose proof Hk as [K1 K2 K3 K4]. destruct (sw_thread _ _ _ _ _ _ _ Hs) as (Th & HTh & _).
  assert (HT3 : threads (krn (vmm m3)) !! t = Some Th) by (destruct K3 as [tr ->]; exact HTh).
  destruct (enter_program (krn (vmm m3)) t Th (Z.of_nat (length args)) HT3) as (s3 & s4 & s5 & -> & E4 & E5 & HT5 & HB5).
  cbn [obind]. rewrite E4. cbn [obind]. rewrite E5. cbn [obind]. destruct (same_dirs_lookup _ _ p D K2 HD) as (D3 & HD3 & _ & Hb3).
  destruct (exec_arguments m3 c p D3 s5 args) as [->|(kva & v6 & r & -> & Er & Hk6 & Hfin)]; try done.
  - rewrite Hb3, Hb. unfold argv_va. lia.
  - apply (exec_can_tell c s2 (krn (vmm m3)) s5 t Th (Z.of_nat (length args))); done.
  - rewrite Hother; [apply Hfree; unfold argv_va; lia|by eexists|unfold argv_va; lia|right; left; unfold argv_va, USER_ENTRYPOINT; lia].
  - by left.
  - right. cbn [obind]. rewrite Er. cbn [obind].
    destruct (exec_started _ _ _ _ _ _ _ _ _ _ _ _ Hs K3 HTh HT5 HB5 Hk6) as (s7 & P & -> & HP & Hpid & Hst). cbn [obind]. rewrite HP. cbn [or_fault obind].
    rewrite Hpid. eexists. split; [done|]. destruct (Hfin s7) as (Hi' & Ha & Ho). split; [exact Hi'| |exact Ha| |exact Hst].
    + intros k Hk'. rewrite Ho; [by apply Himg|by eexists|unfold USER_ENTRYPOINT; lia|right; unfold USER_ENTRYPOINT, argv_va; lia].
    + intros d va Hd Hva. destruct (Hdirs d Hd) as [Hne Hd2]. destruct Hd2 as [D2 HD2].
      destruct (same_dirs_lookup _ _ d D2 K2 HD2) as (D2' & HD2' & _). rewrite Ho by (auto || by eexists).
      rewrite Hother by (auto || by eexists). by apply Hsame.
Qed.
End SysExec.

(** * From the files to a running program *)

Lemma exec_unknown {H : Type} {PS : page_source H} sd T first_run p t stack name args c (m : machine H) :
  find_task_idx_by_name T name = Ok (-1) -> sys_exec sd T first_run p t stack name args c m = Ok (0, m).
Proof. intros E. unfold sys_exec. by rewrite E. Qed.

(** C1: the way of a program from its ELF file into a process.  createimage puts
    the files of [apps] into an image; on a card with this image, sys_exec of a name
    that no application has returns 0 and changes nothing.  For the first application
    of the name, sys_exec with arguments that fit into a page either stops for want
    of pages, or returns the number of a new process, child of the caller, whose
    only thread is last in the ready queue and starts at USER_ENTRYPOINT with argc and
    argv in a0 and a1; in its address space the bytes from USER_ENTRYPOINT on are
    those of the file's loadable segments, argv points to terminated copies of the
    arguments; and no byte of any other address space has changed. *)
Theorem program_reaches_process {H : Type} {PS : page_source H} host boot kern apps datas name :
  image_input host boot kern apps datas -> Forall (fun c => 0 < c) name ->
  exists im, create_image host (boot :: kern :: apps) = Ok im /\
    forall sd, holds_image sd im -> (forall k, length (sd k) = 512%nat) ->
    forall first_run (m : machine H) c q p t stack args, exec_ready m c q p t -> 8 * Z.of_nat (length args) + args_size args <= 4096 ->
    let r := sys_exec sd (init_task_info (sd 0) sd) first_run p t stack name args c m in
    match list_find (eq name) apps with
    | None => r = Ok (0, m)
    | Some (i, _) => forall data, datas !! (i + 2)%nat = Some data -> Z.of_nat (length (payload data)) <= 2047 * 512 ->
        r = Panic \/
        exists m', r = Ok (Z.of_nat (length (process_table (krn (vmm m)))), m') /\
          started (krn (vmm m)) (krn (vmm m')) q p t name (Z.of_nat (length args)) /\
          user_holds m' p USER_ENTRYPOINT (payload data) /\
          (forall j arg, args !! j = Some arg ->
            exists a, user_holds m' p (argv_va + 8 * Z.of_nat j) (le 8 a) /\ user_holds m' p a (arg ++ [0])) /\
          (forall d va, is_Some (dirs (vmm m) !! d) -> 0 <= va < 2 ^ 64 -> user_byte m' d va = user_byte m d va)
    end.
Proof.
  intros Hin Hname. destruct (image_table host boot kern apps datas Hin) as (im & E & Hread). exists im. split; [exact E|].
  intros sd Hc Hsd first_run m c q p t stack args Hr Hargs. destruct (Hread sd Hc) as [Hn _ Htask _ Hfind]. specialize (Hfind name Hname).
  destruct (list_find (eq name) apps) as [[i x]|] eqn:Ef; cbn zeta; [|by apply exec_unknown]. intros data Hd Hsize.
  apply list_find_Some in Ef as (Ex & <- & _). destruct (Htask i name data Ex Hd) as (tk & Htk & Hid & Hnum & Hbytes).
  rewrite sectors_nat in Hnum by lia. pose proof (lookup_lt_Some _ _ _ Ex) as Hi.
  destruct (exec_run sd Hsd (init_task_info (sd 0) sd) first_run m c q p t stack name args (Z.of_nat i) tk) as [->|(m' & -> & [_ P2 P3 P4 P5])];
    try done; [lia|by rewrite Nat2Z.id|lia|by left|right].
  exists m'. split; [done|]. split; [exact P5|]. split; [|by split]. intros k Hk. rewrite P2 by lia. rewrite Hbytes. unfold padded.
  by rewrite app_nth1 by lia.
Qed.

Module FirstProgram.
(** The image of ImageTheorems on a card, and a kernel without user address spaces. *)
Definition the_image : list Z := match create_image Files.host [[98]; [109; 97; 105; 110]; [115; 104]] with Ok im => im | _ => [] end.
Definition card (k : Z) : list Z := take 512 (sector the_image k ++ replicate 512 0).
Definition start : machine nat := MkMachine Bump.boot (fun _ => 0) false.

Lemma card_length k : length (card k) = 512%nat.
Proof. unfold card. rewrite length_take, length_app, length_replicate. lia. Qed.

Lemma card_holds im : create_image Files.host [[98]; [109; 97; 105; 110]; [115; 104]] = Ok im -> holds_image card im.
Proof.
  intros E k Hk Hlen. unfold card, the_image. rewrite E. assert (L : length (sector im k) = 512%nat) by (unfold sector; rewrite length_take, length_drop; lia).
  apply take_app_length'. done.
Qed.

Lemma enough_pages :
  is_ok (sys_exec card (init_task_info (card 0) card) 0 900 901 0 [115; 104] [[104; 105]] 0 start) = true.
Proof. vm_compute. reflexivity. Qed.

Lemma start_ready : exec_ready start 0 501 900 901.
Proof.
  split.
  - apply booted_inv, Bump.boot_booted.
  - by apply can_tell_quiet.
  - vm_compute. reflexivity.
  - split; vm_compute; reflexivity.
  - reflexivity.
  - eexists. split; vm_compute; reflexivity.
  - split; vm_compute; reflexivity.
  - vm_compute. reflexivity.
Qed.
End FirstProgram.

Lemma program_reaches_process_witness : exists m',
  sys_exec FirstProgram.card (init_task_info (FirstProgram.card 0) FirstProgram.card) 0 900 901 0 [115; 104] [[104; 105]] 0 FirstProgram.start = Ok (3, m') /\
  user_holds m' 900 USER_ENTRYPOINT [1; 2; 3].
Proof.
  destruct (program_reaches_process Files.host [98] [109; 97; 105; 110] [[115; 104]]
    [Files.elf (replicate 100 7); Files.elf (replicate 600 8); Files.elf [1; 2; 3]] [115; 104] (H := nat) files_input) as (im & E & Hr);
    [repeat constructor; lia|].
  destruct (Hr FirstProgram.card (FirstProgram.card_holds im E) FirstProgram.card_length 0 FirstProgram.start 0%nat 501 900 901 0 [[104; 105]]
    FirstProgram.start_ready ltac:(cbn; lia) (Files.elf [1; 2; 3]) eq_refl ltac:(vm_compute; discriminate)) as [Hp|(m' & Hm & _ & Hc & _)].
  - exfalso. pose proof FirstProgram.enough_pages as Hok. rewrite Hp in Hok. discriminate Hok.
  - exists m'. split; [exact Hm|]. intros k Hk. rewrite (Hc k) by exact Hk. reflexivity.
Defined.
