(* ===== verification/Syscall.v ===== *)
(** Traps and system calls: src/src/trap.cpp, src/src/syscall.cpp and the numbers of
    src/tiny_libc/include/syscall.h.

    init_syscall fills the table from the numbers; handle_syscall finds the function
    of a number.  The functions whose state is the kernel of Kernel.v are run
    ([call]); those of the file system, the network, the screen and the page tables
    are modelled on the states of their own files and are the parameter [service]
    here, as are what the timer interrupt and the card's interrupt do there.  What a
    function without a result leaves in a0 is [junk]. *)

From Stdlib Require Import ZArith Lia List String.
From stdpp Require Import base numbers list gmap.
From S2P Require Import Prelude Objects Kernel Sched Locks Process.

Local Open Scope Z_scope.

(** * Interrupt enabling *)

Definition SR_SIE : Z := 0x2.
Definition SR_SPIE : Z := 0x20.
Definition IRQ_S_SOFT : Z := 1.
Definition IRQ_S_TIMER : Z := 5.
Definition IRQ_S_EXT : Z := 9.
Definition SIE_SSIE : Z := Z.shiftl 1 IRQ_S_SOFT.
Definition SIE_STIE : Z := Z.shiftl 1 IRQ_S_TIMER.
Definition SIE_SEIE : Z := Z.shiftl 1 IRQ_S_EXT.
Definition SCAUSE_IRQ_FLAG : Z := 2 ^ 63.
Definition EXC_SYSCALL : Z := 8.
Definition EXC_INST_PAGE_FAULT : Z := 12.
Definition EXC_LOAD_PAGE_FAULT : Z := 13.
Definition EXC_STORE_PAGE_FAULT : Z := 15.

(** The control registers of one hart *)
Record csrs := MkCsrs { sstatus : Z; sie : Z; stvec : Z; sip : Z }.
(** csr_set and csr_clear *)
Definition csr_set (csr val : Z) : Z := Z.lor csr val.
Definition csr_clear (csr val : Z) : Z := Z.ldiff csr val.

Definition enable_preempt (h : csrs) : csrs := MkCsrs (csr_set (sstatus h) SR_SIE) (sie h) (stvec h) (sip h).
Definition disable_preempt (h : csrs) : csrs := MkCsrs (csr_clear (sstatus h) SR_SIE) (sie h) (stvec h) (sip h).
Definition assert_no_preempt (h : csrs) : outcome unit := assert_ (Z.land (sstatus h) SR_SIE =? 0).

(** void init_trap() *)
Definition init_trap (kernel_trap_entry : Z) (h : csrs) : csrs :=
  let s := csr_clear (sstatus h) SR_SIE in
  let s := csr_clear s SR_SPIE in
  MkCsrs s (csr_set (sie h) (Z.lor (Z.lor SIE_SEIE SIE_STIE) SIE_SSIE)) kernel_trap_entry (sip h).

(** * Reading a key *)

(** int Syscall::sys_getchar(): [key n] is the answer of the firmware to the n-th
    poll; the state is the number of polls and the control registers. *)
Definition bios_getchar (key : nat -> Z) (st : nat * csrs) : Z * (nat * csrs) := (key st.1, (S st.1, st.2)).
Fixpoint getchar_loop (fuel : nat) (key : nat -> Z) (ch : Z) (st : nat * csrs) : outcome (Z * (nat * csrs)) :=
  if ch =? -1 then
    match fuel with
    | O => OutOfFuel
    | S fuel =>
        let st := (st.1, disable_preempt st.2) in
        let '(ch, st) := bios_getchar key st in
        let st := (st.1, enable_preempt st.2) in
        getchar_loop fuel key ch st
    end
  else Ok (ch, st).
Definition sys_getchar (fuel : nat) (key : nat -> Z) (st : nat * csrs) : outcome (Z * (nat * csrs)) :=
  let '(ch, st) := bios_getchar key st in
  '(ch, st) <- getchar_loop fuel key ch st ;;
  Ok (ch, (st.1, disable_preempt st.2)).

(** * The table *)

Local Open Scope string_scope.
(** The numbers of src/src/syscall.cpp *)
Definition kernel_numbers : list (string * Z) :=
  [("EXEC", 0); ("EXIT", 1); ("SLEEP", 2); ("KILL", 3); ("WAITPID", 4); ("PS", 5); ("GETPID", 6); ("YIELD", 7); ("TASKSET", 8);
   ("CREATE_THREAD", 10); ("WAIT_THREAD", 11); ("EXIT_THREAD", 12); ("KILL_THREAD", 13);
   ("WRITE", 20); ("READCH", 21); ("MOVE_CURSOR", 22); ("REFLUSH", 23); ("CLEAR", 24); ("GET_TIMEBASE", 30); ("GET_TICK", 31);
   ("SEMA_INIT", 36); ("SEMA_UP", 37); ("SEMA_DOWN", 38); ("SEMA_DESTROY", 39);
   ("MUTEX_INIT", 40); ("MUTEX_ACQ", 41); ("MUTEX_RELEASE", 42); ("SHOW_TASK", 43);
   ("BARR_INIT", 44); ("BARR_WAIT", 45); ("BARR_DESTROY", 46);
   ("COND_INIT", 47); ("COND_WAIT", 48); ("COND_SIGNAL", 49); ("COND_BROADCAST", 50); ("COND_DESTROY", 51);
   ("MBOX_OPEN", 52); ("MBOX_CLOSE", 53); ("MBOX_SEND", 54); ("MBOX_RECV", 55); ("SHM_GET", 56); ("SHM_DT", 57); ("BRK", 59); ("SBRK", 60);
   ("NET_SEND", 63); ("NET_RECV", 64); ("FS_MKFS", 65); ("FS_STATFS", 66); ("FS_CD", 67); ("FS_MKDIR", 68); ("FS_RMDIR", 69); ("FS_LS", 70);
   ("FS_TOUCH", 71); ("FS_CAT", 72); ("FS_FOPEN", 73); ("FS_FREAD", 74); ("FS_FWRITE", 75); ("FS_FCLOSE", 76); ("FS_LN", 77); ("FS_RM", 78);
   ("FS_LSEEK", 79); ("PARAMETER_SET", 80)].
(** The numbers of src/tiny_libc/include/syscall.h, which programs are compiled with *)
Definition user_numbers : list (string * Z) :=
  [("EXEC", 0); ("EXIT", 1); ("SLEEP", 2); ("KILL", 3); ("WAITPID", 4); ("PS", 5); ("GETPID", 6); ("YIELD", 7); ("TASKSET", 8);
   ("CREATE_THREAD", 10); ("WAIT_THREAD", 11); ("EXIT_THREAD", 12); ("KILL_THREAD", 13);
   ("WRITE", 20); ("READCH", 21); ("MOVE_CURSOR", 22); ("REFLUSH", 23); ("CLEAR", 24); ("GET_TIMEBASE", 30); ("GET_TICK", 31);
   ("SEMA_INIT", 36); ("SEMA_UP", 37); ("SEMA_DOWN", 38); ("SEMA_DESTROY", 39);
   ("MUTEX_INIT", 40); ("MUTEX_ACQ", 41); ("MUTEX_RELEASE", 42); ("SHOW_TASK", 43);
   ("BARR_INIT", 44); ("BARR_WAIT", 45); ("BARR_DESTROY", 46);
   ("COND_INIT", 47); ("COND_WAIT", 48); ("COND_SIGNAL", 49); ("COND_BROADCAST", 50); ("COND_DESTROY", 51);
   ("MBOX_OPEN", 52); ("MBOX_CLOSE", 53); ("MBOX_SEND", 54); ("MBOX_RECV", 55); ("SHM_GET", 56); ("SHM_DT", 57); ("BRK", 59); ("SBRK", 60);
   ("NET_SEND", 63); ("NET_RECV", 64); ("FS_MKFS", 65); ("FS_STATFS", 66); ("FS_CD", 67); ("FS_MKDIR", 68); ("FS_RMDIR", 69); ("FS_LS", 70);
   ("FS_TOUCH", 71); ("FS_CAT", 72); ("FS_FOPEN", 73); ("FS_FREAD", 74); ("FS_FWRITE", 75); ("FS_FCLOSE", 76); ("FS_LN", 77); ("FS_RM", 78);
   ("FS_LSEEK", 79); ("PARAMETER_SET", 80)].

(** typedef ptr_t ( *syscall_func)(...): the functions the table points to *)
Inductive syscall_func :=
| fn_sys_exec | fn_sys_exit | fn_sleep | fn_sys_kill | fn_sys_waitpid | fn_sys_ps | fn_sys_getpid | fn_yield | fn_sys_task_set
| fn_sys_create_thread | fn_sys_wait_thread | fn_sys_exit_thread | fn_sys_kill_thread
| fn_write | fn_sys_getchar | fn_move_cursor | fn_reflush | fn_sys_clear | fn_get_timebase | fn_get_tick
| fn_mutex_init | fn_mutex_acquire | fn_mutex_release | fn_sys_barrier_init | fn_sys_barrier_wait | fn_sys_barrier_destroy
| fn_sys_condition_init | fn_sys_condition_wait | fn_sys_condition_signal | fn_sys_condition_broadcast | fn_sys_condition_destroy
| fn_sys_mbox_open | fn_sys_mbox_close | fn_sys_mbox_send | fn_sys_mbox_recv | fn_sys_shmpageget | fn_sys_shmpagedt | fn_sys_brk | fn_sys_sbrk
| fn_sys_net_send | fn_sys_net_recv | fn_fs_mkfs | fn_fs_statfs | fn_fs_cd | fn_fs_ls | fn_fs_mkdir | fn_fs_touch | fn_fs_rmdir | fn_fs_rm
| fn_fs_ln | fn_fs_cat | fn_fs_fopen | fn_fs_fread | fn_fs_fwrite | fn_fs_fclose | fn_fs_lseek | fn_set_parameter.
#[export] Instance syscall_func_eq_dec : EqDecision syscall_func.
Proof. solve_decision. Defined.

(** The name of each function in the source, without its class or name space *)
Definition function_name (f : syscall_func) : string :=
  match f with
  | fn_sys_exec => "sys_exec" | fn_sys_exit => "sys_exit" | fn_sleep => "sleep" | fn_sys_kill => "sys_kill" | fn_sys_waitpid => "sys_waitpid"
  | fn_sys_ps => "sys_ps" | fn_sys_getpid => "sys_getpid" | fn_yield => "yield" | fn_sys_task_set => "sys_task_set"
  | fn_sys_create_thread => "sys_create_thread" | fn_sys_wait_thread => "sys_wait_thread" | fn_sys_exit_thread => "sys_exit_thread"
  | fn_sys_kill_thread => "sys_kill_thread" | fn_write => "write" | fn_sys_getchar => "sys_getchar" | fn_move_cursor => "move_cursor"
  | fn_reflush => "reflush" | fn_sys_clear => "sys_clear" | fn_get_timebase => "get_timebase" | fn_get_tick => "get_tick"
  | fn_mutex_init => "mutex_init" | fn_mutex_acquire => "mutex_acquire" | fn_mutex_release => "mutex_release"
  | fn_sys_barrier_init => "sys_barrier_init" | fn_sys_barrier_wait => "sys_barrier_wait" | fn_sys_barrier_destroy => "sys_barrier_destroy"
  | fn_sys_condition_init => "sys_condition_init" | fn_sys_condition_wait => "sys_condition_wait" | fn_sys_condition_signal => "sys_condition_signal"
  | fn_sys_condition_broadcast => "sys_condition_broadcast" | fn_sys_condition_destroy => "sys_condition_destroy"
  | fn_sys_mbox_open => "sys_mbox_open" | fn_sys_mbox_close => "sys_mbox_close" | fn_sys_mbox_send => "sys_mbox_send"
  | fn_sys_mbox_recv => "sys_mbox_recv" | fn_sys_shmpageget => "sys_shmpageget" | fn_sys_shmpagedt => "sys_shmpagedt" | fn_sys_brk => "sys_brk"
  | fn_sys_sbrk => "sys_sbrk" | fn_sys_net_send => "sys_net_send" | fn_sys_net_recv => "sys_net_recv" | fn_fs_mkfs => "fs_mkfs"
  | fn_fs_statfs => "fs_statfs" | fn_fs_cd => "fs_cd" | fn_fs_ls => "fs_ls" | fn_fs_mkdir => "fs_mkdir" | fn_fs_touch => "fs_touch"
  | fn_fs_rmdir => "fs_rmdir" | fn_fs_rm => "fs_rm" | fn_fs_ln => "fs_ln" | fn_fs_cat => "fs_cat" | fn_fs_fopen => "fs_fopen"
  | fn_fs_fread => "fs_fread" | fn_fs_fwrite => "fs_fwrite" | fn_fs_fclose => "fs_fclose" | fn_fs_lseek => "fs_lseek"
  | fn_set_parameter => "set_parameter"
  end.

(** The assignments of init_syscall, in order *)
Definition assignments : list (string * syscall_func) :=
  [("EXEC", fn_sys_exec); ("EXIT", fn_sys_exit); ("SLEEP", fn_sleep); ("KILL", fn_sys_kill); ("WAITPID", fn_sys_waitpid); ("PS", fn_sys_ps);
   ("GETPID", fn_sys_getpid); ("YIELD", fn_yield); ("TASKSET", fn_sys_task_set); ("CREATE_THREAD", fn_sys_create_thread);
   ("WAIT_THREAD", fn_sys_wait_thread); ("EXIT_THREAD", fn_sys_exit_thread); ("KILL_THREAD", fn_sys_kill_thread); ("WRITE", fn_write);
   ("READCH", fn_sys_getchar); ("MOVE_CURSOR", fn_move_cursor); ("REFLUSH", fn_reflush); ("CLEAR", fn_sys_clear);
   ("GET_TIMEBASE", fn_get_timebase); ("GET_TICK", fn_get_tick); ("MUTEX_INIT", fn_mutex_init); ("MUTEX_ACQ", fn_mutex_acquire);
   ("MUTEX_RELEASE", fn_mutex_release); ("BARR_INIT", fn_sys_barrier_init); ("BARR_WAIT", fn_sys_barrier_wait);
   ("BARR_DESTROY", fn_sys_barrier_destroy); ("COND_INIT", fn_sys_condition_init); ("COND_WAIT", fn_sys_condition_wait);
   ("COND_SIGNAL", fn_sys_condition_signal); ("COND_BROADCAST", fn_sys_condition_broadcast); ("COND_DESTROY", fn_sys_condition_destroy);
   ("MBOX_OPEN", fn_sys_mbox_open); ("MBOX_CLOSE", fn_sys_mbox_close); ("MBOX_SEND", fn_sys_mbox_send); ("MBOX_RECV", fn_sys_mbox_recv);
   ("SHM_GET", fn_sys_shmpageget); ("SHM_DT", fn_sys_shmpagedt); ("BRK", fn_sys_brk); ("SBRK", fn_sys_sbrk); ("NET_SEND", fn_sys_net_send);
   ("NET_RECV", fn_sys_net_recv); ("FS_MKFS", fn_fs_mkfs); ("FS_STATFS", fn_fs_statfs); ("FS_CD", fn_fs_cd); ("FS_LS", fn_fs_ls);
   ("FS_MKDIR", fn_fs_mkdir); ("FS_TOUCH", fn_fs_touch); ("FS_RMDIR", fn_fs_rmdir); ("FS_RM", fn_fs_rm); ("FS_LN", fn_fs_ln);
   ("FS_CAT", fn_fs_cat); ("FS_FOPEN", fn_fs_fopen); ("FS_FREAD", fn_fs_fread); ("FS_FWRITE", fn_fs_fwrite); ("FS_FCLOSE", fn_fs_fclose);
   ("FS_LSEEK", fn_fs_lseek); ("PARAMETER_SET", fn_set_parameter)].

(** The entry points of src/tiny_libc/syscall.S with the number each one loads *)
Definition library_calls : list (string * string) :=
  [("sys_sleep", "SLEEP"); ("sys_yield", "YIELD"); ("sys_write", "WRITE"); ("sys_move_cursor", "MOVE_CURSOR"); ("sys_reflush", "REFLUSH");
   ("sys_clear", "CLEAR"); ("sys_get_timebase", "GET_TIMEBASE"); ("sys_get_tick", "GET_TICK"); ("sys_mutex_init", "MUTEX_INIT");
   ("sys_mutex_acquire", "MUTEX_ACQ"); ("sys_mutex_release", "MUTEX_RELEASE"); ("sys_getchar", "READCH"); ("sys_ps", "PS"); ("sys_exec", "EXEC");
   ("sys_exit", "EXIT"); ("sys_kill", "KILL"); ("sys_waitpid", "WAITPID"); ("sys_getpid", "GETPID"); ("sys_task_set", "TASKSET");
   ("sys_barrier_init", "BARR_INIT"); ("sys_barrier_wait", "BARR_WAIT"); ("sys_barrier_destroy", "BARR_DESTROY");
   ("sys_condition_init", "COND_INIT"); ("sys_condition_wait", "COND_WAIT"); ("sys_condition_signal", "COND_SIGNAL");
   ("sys_condition_broadcast", "COND_BROADCAST"); ("sys_condition_destroy", "COND_DESTROY"); ("sys_mbox_open", "MBOX_OPEN");
   ("sys_mbox_close", "MBOX_CLOSE"); ("sys_mbox_send", "MBOX_SEND"); ("sys_mbox_recv", "MBOX_RECV"); ("sys_shmpageget", "SHM_GET");
   ("sys_shmpagedt", "SHM_DT"); ("sys_brk", "BRK"); ("sys_sbrk", "SBRK"); ("sys_create_thread", "CREATE_THREAD");
   ("sys_wait_thread", "WAIT_THREAD"); ("sys_exit_thread", "EXIT_THREAD"); ("sys_kill_thread", "KILL_THREAD"); ("sys_net_send", "NET_SEND");
   ("sys_net_recv", "NET_RECV"); ("sys_mkfs", "FS_MKFS"); ("sys_statfs", "FS_STATFS"); ("sys_cd", "FS_CD"); ("sys_mkdir", "FS_MKDIR");
   ("sys_rmdir", "FS_RMDIR"); ("sys_ls", "FS_LS"); ("sys_touch", "FS_TOUCH"); ("sys_cat", "FS_CAT"); ("sys_fopen", "FS_FOPEN");
   ("sys_fread", "FS_FREAD"); ("sys_fwrite", "FS_FWRITE"); ("sys_fclose", "FS_FCLOSE"); ("sys_ln", "FS_LN"); ("sys_rm", "FS_RM");
   ("sys_lseek", "FS_LSEEK"); ("sys_set_parameter", "PARAMETER_SET")].

(** How the library names what the kernel does: sys_x stands for the function sys_x,
    x or fs_x. *)
Definition goes_by (w f : string) : bool :=
  let x := substring 4 (String.length w - 4) w in
  String.prefix "sys_" w && ((f =? x) || (f =? "sys_" ++ x) || (f =? "fs_" ++ x)).
Local Close Scope string_scope.

Definition number_of (numbers : list (string * Z)) (name : string) : option Z :=
  snd <$> (snd <$> list_find (fun e => e.1 = name) numbers).

Definition SYSCALL_NUM : Z := 96.
(** void init_syscall(): syscall_table is zero before. *)
Definition init_syscall : list (option syscall_func) :=
  fold_left (fun table '(name, f) =>
    match number_of kernel_numbers name with Some n => <[Z.to_nat n := Some f]> table | None => table end)
    assignments (replicate (Z.to_nat SYSCALL_NUM) None).

(** * System calls *)

Section Trap.
Context (service : syscall_func -> list Z -> nat -> kernel -> outcome (kres Z)).
Context (junk : Z) (first_run fresh stack : Z) (string_at : Z -> list Z) (bytes_at : Z -> Z -> list Z).
Implicit Types (s : kernel).

(** The result of a function as the value of a0 *)
Definition void (r : outcome (kres unit)) (c : nat) : outcome (kres Z) := r <- r ;; kbind r c (fun _ _ s => Ok (Done junk s)).
Definition void_now (r : outcome kernel) : outcome (kres Z) := s <- r ;; Ok (Done junk s).
Definition value (r : outcome (Z * kernel)) : outcome (kres Z) := '(v, s) <- r ;; Ok (Done (u64 v) s).
Definition value_later (r : outcome (kres Z)) (c : nat) : outcome (kres Z) := r <- r ;; kbind r c (fun v _ s => Ok (Done (u64 v) s)).

(** func(args[0], ..., args[6]) *)
Definition call (f : syscall_func) (args : list Z) (c : nat) s : outcome (kres Z) :=
  let a i := nth i args 0 in
  match f with
  | fn_sys_exit => void (sys_exit c s) c
  | fn_sleep => void (sleep (u32 (a 0%nat)) c s) c
  | fn_sys_kill => value_later (sys_kill (a 0%nat) c s) c
  | fn_sys_waitpid => value_later (sys_waitpid (a 0%nat) c s) c
  | fn_sys_getpid => v <- sys_getpid c s ;; Ok (Done (u64 v) s)
  | fn_yield => void (yield c s) c
  | fn_sys_task_set => void_now (sys_task_set (a 0%nat) (a 1%nat) c s)
  | fn_sys_create_thread => value (sys_create_thread first_run fresh stack (a 0%nat) (a 1%nat) c s)
  | fn_sys_wait_thread => void (sys_wait_thread (a 0%nat) c s) c
  | fn_sys_exit_thread => void (sys_exit_thread c s) c
  | fn_sys_kill_thread => void (sys_kill_thread (a 0%nat) c s) c
  | fn_get_timebase => Ok (Done (u64 (time_base s)) s)
  | fn_get_tick => let '(v, s) := get_ticks s in Ok (Done (u64 v) s)
  | fn_mutex_init => value (mutex_init (a 0%nat) fresh c s)
  | fn_mutex_acquire => void (mutex_acquire (a 0%nat) c s) c
  | fn_mutex_release => void_now (mutex_release (a 0%nat) c s)
  | fn_sys_barrier_init => value (sys_barrier_init (a 0%nat) (a 1%nat) fresh c s)
  | fn_sys_barrier_wait => void (sys_barrier_wait (a 0%nat) c s) c
  | fn_sys_barrier_destroy => void_now (sys_barrier_destroy (a 0%nat) c s)
  | fn_sys_condition_init => value (sys_condition_init (a 0%nat) fresh c s)
  | fn_sys_condition_wait => void (sys_condition_wait (a 0%nat) (a 1%nat) c s) c
  | fn_sys_condition_signal => void_now (sys_condition_signal (a 0%nat) c s)
  | fn_sys_condition_broadcast => void_now (sys_condition_broadcast (a 0%nat) c s)
  | fn_sys_condition_destroy => void_now (sys_condition_destroy (a 0%nat) c s)
  | fn_sys_mbox_open => value (sys_mbox_open (string_at (a 0%nat)) fresh c s)
  | fn_sys_mbox_close => void_now (sys_mbox_close (a 0%nat) c s)
  | fn_sys_mbox_send => value_later (sys_mbox_send (a 0%nat) (bytes_at (a 1%nat) (a 2%nat)) c s) c
  | _ => service f args c s
  end.

(** ptr_t handle_syscall(const ptr_t args[8]) *)
Definition handle_syscall (args : list Z) (c : nat) s : outcome (kres Z) :=
  let n := nth 7 args 0 in
  if SYSCALL_NUM <=? n then Ok (Done 0 s)
  else
    f <- or_fault (init_syscall !! Z.to_nat n) ;;
    match f with
    | None => Panic
    | Some f => call f args c s
    end.

(** * Traps *)

(** What other components do on an interrupt or a page fault. *)
Context (net_idle_check cache_scan_timer handle_ext_irq : nat -> kernel -> outcome kernel).
Context (alloc_page : Z -> nat -> kernel -> outcome kernel).

(** void handle_other(user_context_reg_t *regs), after its printing *)
Definition handle_other : outcome (kres unit) := Panic.

(** void trap_handler(int from_kernel, ptr_t scause, ptr_t stval): regs is a
    reference into the thread that runs when the trap is taken. *)
Definition trap_handler (scause stval : Z) (c : nat) s : outcome (kres unit) :=
  t <- current s c ;;
  if scause =? EXC_SYSCALL then
    T <- or_fault (threads s !! t) ;;
    r <- handle_syscall (take 8 (drop 9 (regs T))) c s ;;
    kbind r c (fun ret _ s =>
      s <- upd_thread s t (fun T => with_regs (<[9%nat := ret]> (regs T)) T) ;;
      s <- upd_thread s t (fun T => with_sepc (u64 (sepc T + 4)) T) ;;
      Ok (Done tt s))
  else if scause =? Z.lor SCAUSE_IRQ_FLAG IRQ_S_TIMER then
    s <- net_idle_check c s ;;
    r <- handle_irq_timer c s ;;
    kbind r c (fun _ c s => s <- cache_scan_timer c s ;; Ok (Done tt s))
  else if scause =? Z.lor SCAUSE_IRQ_FLAG IRQ_S_SOFT then
    T <- or_fault (threads s !! t) ;;
    if has_exited T then do_scheduler c s
    else
      p <- current_process s c ;;
      P <- or_fault (processes s !! p) ;;
      C <- or_fault (cpus s !! c) ;;
      Ok (Done tt (emit s (FlushCpu (cpu_id C) (pid P))))
  else if scause =? Z.lor SCAUSE_IRQ_FLAG IRQ_S_EXT then
    s <- handle_ext_irq c s ;; Ok (Done tt s)
  else if (scause =? EXC_INST_PAGE_FAULT) || (scause =? EXC_LOAD_PAGE_FAULT) || (scause =? EXC_STORE_PAGE_FAULT) then
    s <- alloc_page stval c s ;; Ok (Done tt s)
  else handle_other.
End Trap.
