(* ===== verification/SyscallTheorems.v ===== *)
(** Theorems on traps and system calls (Syscall.v). *)

From Stdlib Require Import ZArith Lia List String.
From stdpp Require Import base numbers list gmap.
From S2P Require Import Prelude Objects Kernel Sched SchedTheorems Locks Process Syscall.

Local Open Scope Z_scope.

(** * Which numbers are answered *)

(** All functions of the table *)
Definition functions : list syscall_func := map snd assignments.

Lemma functions_all f : f ∈ functions.
Proof. apply list_elem_of_In. destruct f; cbn; tauto. Qed.

(** A library call has one number on both sides, and under it the table has the one
    function of its name. *)
Definition call_ok (e : string * string) : bool :=
  match number_of user_numbers e.2, number_of kernel_numbers e.2 with
  | Some n, Some n' =>
      (n =? n') && (0 <=? n) && (n <? SYSCALL_NUM) &&
      match init_syscall !! Z.to_nat n with
      | Some (Some f) => goes_by e.1 (function_name f) && forallb (fun g => bool_decide (g = f) || negb (goes_by e.1 (function_name g))) functions
      | _ => false
      end
  | _, _ => false
  end.
Definition called (n : Z) : bool := existsb (fun e => bool_decide (number_of user_numbers e.2 = Some n)) library_calls.

Lemma library_calls_ok : forallb call_ok library_calls = true.
Proof. vm_compute. reflexivity. Qed.

Lemma other_numbers_null :
  forallb (fun n => called (Z.of_nat n) || bool_decide (init_syscall !! n = Some None)) (seq 0 96) = true.
Proof. vm_compute. reflexivity. Qed.

Section Calls.
Context (service : syscall_func -> list Z -> nat -> kernel -> outcome (kres Z)).
Context (junk : Z) (first_run fresh stack : Z) (string_at : Z -> list Z) (bytes_at : Z -> Z -> list Z).
Implicit Types (s : kernel).

Abbreviation handle := (handle_syscall service junk first_run fresh stack string_at bytes_at).
Abbreviation run := (call service junk first_run fresh stack string_at bytes_at).

Lemma handle_library w name args c s : (w, name) ∈ library_calls ->
  exists n f, number_of user_numbers name = Some n /\ number_of kernel_numbers name = Some n /\ goes_by w (function_name f) = true /\
    (forall g, goes_by w (function_name g) = true -> g = f) /\ (nth 7 args 0 = n -> handle args c s = run f args c s).
Proof.
  intros Hin. pose proof library_calls_ok as Hall. rewrite forallb_forall in Hall.
  specialize (Hall (w, name) ltac:(by apply list_elem_of_In)). unfold call_ok in Hall. cbn [fst snd] in Hall.
  destruct (number_of user_numbers name) as [n|]; [|done]. destruct (number_of kernel_numbers name) as [n'|]; [|done].
  rewrite !andb_true_iff, Z.eqb_eq, Z.leb_le, Z.ltb_lt in Hall. destruct Hall as (((<- & H0) & Hn) & Hf).
  destruct (init_syscall !! Z.to_nat n) as [[f|]|] eqn:E; [|discriminate..]. apply andb_true_iff in Hf as [Hf Hu]. exists n, f. split; [reflexivity|]. split; [reflexivity|]. split; [exact Hf|]. split.
  - rewrite forallb_forall in Hu. intros g Hg. specialize (Hu g ltac:(apply list_elem_of_In, functions_all)).
    rewrite Hg in Hu. cbn [negb] in Hu. rewrite orb_false_r in Hu. by apply bool_decide_eq_true in Hu.
  - intros Ea. unfold handle_syscall. rewrite Ea, (proj2 (Z.leb_gt _ _) Hn), E. done.
Qed.

Lemma handle_large args c s : SYSCALL_NUM <= nth 7 args 0 -> handle args c s = Ok (Done 0 s).
Proof. intros Hn. unfold handle_syscall. by rewrite (proj2 (Z.leb_le _ _) Hn). Qed.

Lemma handle_null args c s : 0 <= nth 7 args 0 < SYSCALL_NUM -> called (nth 7 args 0) = false -> handle args c s = Panic.
Proof.
  intros Hn Hc. pose proof other_numbers_null as Hall. rewrite forallb_forall in Hall. unfold SYSCALL_NUM in Hn.
  specialize (Hall (Z.to_nat (nth 7 args 0)) ltac:(apply in_seq; lia)). rewrite Z2Nat.id, Hc in Hall by lia. cbn [orb] in Hall.
  apply bool_decide_eq_true in Hall. unfold handle_syscall. rewrite (proj2 (Z.leb_gt _ _)), Hall by (unfold SYSCALL_NUM; lia). done.
Qed.

(** C26: which system calls are answered.  Every entry point sys_x of the user
    library loads a number which both sides give the same name, and the table of the
    kernel has under that number the one function called sys_x, x or fs_x
    (sys_kill runs sys_kill, sys_sleep runs sleep, sys_mkdir runs fs_mkdir).  A number
    from 96 on returns 0 and does nothing.  Every other number below 96 (the four for
    semaphores and the one for SHOW_TASK among them, which both headers define) fails
    an assertion, and with it the whole machine stops: any program can do that. *)
Theorem syscall_numbers_agree args c s :
  (forall w name, (w, name) ∈ library_calls ->
    exists n f, number_of user_numbers name = Some n /\ number_of kernel_numbers name = Some n /\ goes_by w (function_name f) = true /\
      (forall g, goes_by w (function_name g) = true -> g = f) /\ (nth 7 args 0 = n -> handle args c s = run f args c s)) /\
  (SYSCALL_NUM <= nth 7 args 0 -> handle args c s = Ok (Done 0 s)) /\
  (0 <= nth 7 args 0 < SYSCALL_NUM -> called (nth 7 args 0) = false -> handle args c s = Panic).
Proof.
  split; [intros w name; apply handle_library|]. split; [apply handle_large|apply handle_null].
Qed.
End Calls.

Lemma syscall_numbers_agree_witness :
  let handled n := handle_syscall (fun _ _ _ _ => Panic) 0 0 0 0 (fun _ => []) (fun _ _ => []) [5; 0; 0; 0; 0; 0; 0; n] 0 OneCpu.quiet in
  handled 3 = call (fun _ _ _ _ => Panic) 0 0 0 0 (fun _ => []) (fun _ _ => []) fn_sys_kill [5; 0; 0; 0; 0; 0; 0; 3] 0 OneCpu.quiet /\
  handled 36 = Panic /\ handled 96 = Ok (Done 0 OneCpu.quiet).
Proof.
  split; [|split].
  - destruct (syscall_numbers_agree (fun _ _ _ _ => Panic) 0 0 0 0 (fun _ => []) (fun _ _ => []) [5; 0; 0; 0; 0; 0; 0; 3] 0 OneCpu.quiet) as (Hl & _ & _).
    destruct (Hl "sys_kill"%string "KILL"%string) as (n & f & Hn & _ & _ & Hu & Hr); [apply (bool_decide_unpack _); vm_compute; exact I|].
    rewrite (Hu fn_sys_kill) by (vm_compute; reflexivity). apply Hr. injection Hn as <-. reflexivity.
  - destruct (syscall_numbers_agree (fun _ _ _ _ => Panic) 0 0 0 0 (fun _ => []) (fun _ _ => []) [5; 0; 0; 0; 0; 0; 0; 36] 0 OneCpu.quiet) as (_ & _ & Hp).
    apply Hp; [unfold SYSCALL_NUM; cbn; lia|vm_compute; reflexivity].
  - destruct (syscall_numbers_agree (fun _ _ _ _ => Panic) 0 0 0 0 (fun _ => []) (fun _ _ => []) [5; 0; 0; 0; 0; 0; 0; 96] 0 OneCpu.quiet) as (_ & Hz & _).
    apply Hz. unfold SYSCALL_NUM. cbn. lia.
Defined.

(** * To whom a system call returns *)

(** Code that ends in [r] on CPU [c] can come to its end with [a] in state [s] on
    CPU [c']: at every switch the thread is resumed somewhere, in some state. *)
Inductive completes {A} : nat -> kres A -> nat -> A -> kernel -> Prop :=
| completes_done c a s : completes c (Done a s) c a s
| completes_switched c s k c1 s1 r c' a s' : k c1 s1 = Ok r -> completes c1 r c' a s' -> completes c (Switched s k) c' a s'.

Lemma completes_bind {A B} (f : A -> nat -> kernel -> outcome (kres B)) (r : kres A) : forall c r' c' b s',
  kbind r c f = Ok r' -> completes c r' c' b s' ->
  exists c1 a s1 r1, completes c r c1 a s1 /\ f a c1 s1 = Ok r1 /\ completes c1 r1 c' b s'.
Proof.
  intros c r' c' b s' E Hc. revert r E. induction Hc as [c b s|c s k c1 s1 rk c' b s' Ek Hc IH]; intros [a s0|s0 k0] E; cbn [kbind] in E.
  - exists c, a, s0, (Done b s). split; [constructor|]. split; [exact E|constructor].
  - done.
  - exists c, a, s0, (Switched s k). split; [constructor|]. split; [exact E|by econstructor].
  - injection E as <- <-. destruct (k0 c1 s1) as [r0| | |] eqn:E0; try done. destruct (IH r0 Ek) as (c2 & a & s2 & r1 & H1 & H2 & H3).
    exists c2, a, s2, r1. split; [by econstructor|done].
Qed.

Section Traps.
Context (service : syscall_func -> list Z -> nat -> kernel -> outcome (kres Z)).
Context (junk : Z) (first_run fresh stack : Z) (string_at : Z -> list Z) (bytes_at : Z -> Z -> list Z).
Context (net_idle_check cache_scan_timer handle_ext_irq : nat -> kernel -> outcome kernel) (alloc_page : Z -> nat -> kernel -> outcome kernel).
Implicit Types (s : kernel).

Abbreviation handle := (handle_syscall service junk first_run fresh stack string_at bytes_at).
Abbreviation trap := (trap_handler service junk first_run fresh stack string_at bytes_at net_idle_check cache_scan_timer handle_ext_irq alloc_page).

(** A thread after its system call returned [ret]. *)
Definition returned (ret : Z) (T : Thread) : Thread :=
  with_sepc (u64 (sepc T + 4)) (with_regs (<[9%nat := ret]> (regs T)) T).

(** A system call returns to the thread that made it.  The arguments are a0 to
    a7 of the thread that was running when the trap was taken; however often the
    call gives up the CPU, and on whatever CPU and in whatever state it is resumed,
    when the trap is finished a0 of that thread holds the value of the call and its
    sepc is behind the ecall, and nothing else differs from what the call left. *)
Lemma syscall_thread_returned stval c s t T r c' s' :
  current s c = Ok t -> threads s !! t = Some T -> trap EXC_SYSCALL stval c s = Ok r -> completes c r c' tt s' ->
  exists r0 ret s1 T1, handle (take 8 (drop 9 (regs T))) c s = Ok r0 /\ completes c r0 c' ret s1 /\
    threads s1 !! t = Some T1 /\ s' = set_threads s1 (<[t := returned ret T1]> (threads s1)).
Proof.
  intros Ht HT E Hc. unfold trap_handler in E. rewrite Ht in E. cbn [obind] in E. change (EXC_SYSCALL =? EXC_SYSCALL) with true in E. cbv match in E.
  rewrite HT in E. cbn [or_fault obind] in E. apply obind_Ok_inv in E as (r0 & E0 & E).
  destruct (completes_bind _ _ _ _ _ _ _ E Hc) as (c1 & ret & s1 & r1 & H1 & H2 & H3). unfold upd_thread in H2.
  destruct (threads s1 !! t) as [T1|] eqn:ET; [|done]. cbn [or_fault obind threads set_threads] in H2. rewrite lookup_insert_eq in H2.
  cbn [or_fault obind threads set_threads] in H2. rewrite insert_insert_eq in H2. injection H2 as <-. inversion H3; subst.
  exists r0, ret, s1, T1. by split_and!.
Qed.
End Traps.

Module OneCall.
(** Thread 101 of SchedTheorems asks for its process identifier. *)
Definition asking : kernel :=
  match threads OneCpu.quiet !! 101 with
  | Some T => set_threads OneCpu.quiet (<[101 := with_regs (<[16%nat := 6]> (repeat 0 31)) T]> (threads OneCpu.quiet))
  | None => OneCpu.quiet
  end.
Definition T101 : Thread := match threads asking !! 101 with Some T => T | None => MkThread [] 0 0 false 0 0 0 [] None 0 false false end.
Definition nothing (c : nat) (s : kernel) : outcome kernel := Ok s.
Definition trap s := trap_handler (fun _ _ _ _ => Panic) 0 0 0 0 (fun _ => []) (fun _ _ => []) nothing nothing nothing (fun _ => nothing) EXC_SYSCALL 0 0%nat s.
Definition after : kernel := match trap asking with Ok (Done _ s) => s | _ => asking end.
End OneCall.

Lemma syscall_thread_returned_witness : exists ret s1 T1,
  threads s1 !! 101 = Some T1 /\ OneCall.after = set_threads s1 (<[101 := returned ret T1]> (threads s1)).
Proof.
  assert (E : OneCall.trap OneCall.asking = Ok (Done tt OneCall.after)) by reflexivity.
  destruct (syscall_thread_returned (fun _ _ _ _ => Panic) 0 0 0 0 (fun _ => []) (fun _ _ => []) OneCall.nothing OneCall.nothing OneCall.nothing
    (fun _ => OneCall.nothing) 0 0 OneCall.asking 101 OneCall.T101 _ 0 OneCall.after eq_refl eq_refl E (completes_done _ _ _))
    as (r0 & ret & s1 & T1 & _ & _ & HT & Hs).
  exists ret, s1, T1. split; [exact HT|exact Hs].
Defined.

(** * Waiting for a key *)

Lemma disable_enable h : disable_preempt (enable_preempt (disable_preempt h)) = disable_preempt h.
Proof.
  unfold disable_preempt, enable_preempt, csr_set, csr_clear. cbn [sstatus sie stvec sip]. f_equal.
  apply Z.bits_inj'. intros n Hn. rewrite !Z.ldiff_spec, Z.lor_spec, Z.ldiff_spec. by destruct (Z.testbit (sstatus h) n), (Z.testbit SR_SIE n).
Qed.

Lemma disable_twice h : disable_preempt (disable_preempt h) = disable_preempt h.
Proof.
  unfold disable_preempt, csr_clear. cbn [sstatus sie stvec sip]. f_equal.
  apply Z.bits_inj'. intros n Hn. rewrite !Z.ldiff_spec. by destruct (Z.testbit (sstatus h) n), (Z.testbit SR_SIE n).
Qed.

Lemma getchar_loop_ok key : forall n p h ch, ch = -1 -> (forall i, (i < n)%nat -> key (p + i)%nat = -1) -> key (p + n)%nat <> -1 ->
  exists h', getchar_loop (S n) key ch (p, h) = Ok (key (p + n)%nat, (S (p + n), h')) /\ disable_preempt h' = disable_preempt h.
Proof.
  induction n as [|n IH]; intros p h ch -> Hno Hkey; cbn [getchar_loop Z.eqb Z.opp Pos.eqb bios_getchar fst snd].
  - rewrite Nat.add_0_r in *. rewrite (proj2 (Z.eqb_neq _ _) Hkey). eexists. split; [done|]. apply disable_enable.
  - pose proof (Hno 0%nat ltac:(lia)) as H0. rewrite Nat.add_0_r in H0. rewrite H0.
    destruct (IH (S p) (enable_preempt (disable_preempt h)) (-1) eq_refl) as (h' & E & Eh).
    + intros i Hi. replace (S p + i)%nat with (p + S i)%nat by lia. apply Hno. lia.
    + replace (S p + n)%nat with (p + S n)%nat by lia. done.
    + cbn [getchar_loop Z.eqb Z.opp Pos.eqb bios_getchar fst snd] in E. rewrite E.
      replace (S p + n)%nat with (p + S n)%nat by lia. eexists. split; [done|]. by rewrite Eh, disable_enable.
Qed.

(** sys_getchar ends with the first key.  When the firmware answers the next [n]
    polls with -1 and the following one with a key, the call returns this key after
    n+1 polls, and it returns with interrupts off whatever happened in between. *)
Theorem getchar_returns_first_key key n p h : (forall i, (i < n)%nat -> key (p + i)%nat = -1) -> key (p + n)%nat <> -1 ->
  sys_getchar n key (p, h) = Ok (key (p + n)%nat, (S (p + n), disable_preempt h)) /\ assert_no_preempt (disable_preempt h) = Ok tt.
Proof.
  intros Hno Hkey. split.
  - unfold sys_getchar. cbn [bios_getchar fst snd]. destruct n as [|n].
    + rewrite Nat.add_0_r in *. cbn [getchar_loop]. by rewrite (proj2 (Z.eqb_neq _ _) Hkey).
    + pose proof (Hno 0%nat ltac:(lia)) as H0. rewrite Nat.add_0_r in H0. rewrite H0.
      destruct (getchar_loop_ok key n (S p) h (-1) eq_refl) as (h' & E & Eh).
      * intros i Hi. replace (S p + i)%nat with (p + S i)%nat by lia. apply Hno. lia.
      * replace (S p + n)%nat with (p + S n)%nat by lia. done.
      * rewrite E. cbn [obind fst snd]. rewrite Eh. by replace (S p + n)%nat with (p + S n)%nat by lia.
  - unfold assert_no_preempt, disable_preempt, csr_clear. cbn [sstatus]. replace (Z.land _ SR_SIE) with 0; [done|].
    apply Z.bits_inj'. intros i Hi. rewrite Z.land_spec, Z.ldiff_spec, Z.bits_0. by destruct (Z.testbit (sstatus h) i), (Z.testbit SR_SIE i).
Qed.

Lemma getchar_returns_first_key_witness :
  sys_getchar 2 (fun n => if (n <? 5)%nat then -1 else 65) (3%nat, MkCsrs 2 0 0 0) = Ok (65, (6%nat, MkCsrs 0 0 0 0)).
Proof.
  destruct (getchar_returns_first_key (fun n => if (n <? 5)%nat then -1 else 65) 2 3 (MkCsrs 2 0 0 0)) as [E _].
  - intros i Hi. destruct i as [|[|i]]; [reflexivity|reflexivity|lia].
  - discriminate.
  - exact E.
Defined.
