(* ===== verification/Riscv.v ===== *)
(** The part of a RISC-V hart that the assembly files of the repository use: the
    integer registers, the supervisor's control registers, doubleword loads and
    stores, traps and returns from them, after the RISC-V manuals.

    A register is named by its number; x0 always reads 0.  Memory holds a
    doubleword for every mapped multiple of 8; any other address is a [Fault].
    [run] executes a routine from its first instruction to its return; a call to a
    C function is the function [callee] on the hart. *)

From Stdlib Require Import ZArith Lia List.
From stdpp Require Import base numbers list gmap.
From S2P Require Import Prelude.

Local Open Scope Z_scope.

(** * Registers *)

(** The names of the calling convention *)
Module R.
Definition ra : nat := 1.
Definition sp : nat := 2.
Definition gp : nat := 3.
Definition tp : nat := 4.
Definition t0 : nat := 5.
Definition t1 : nat := 6.
Definition t2 : nat := 7.
Definition s0 : nat := 8.
Definition s1 : nat := 9.
Definition a0 : nat := 10.
Definition a1 : nat := 11.
Definition a2 : nat := 12.
Definition a3 : nat := 13.
Definition a4 : nat := 14.
Definition a5 : nat := 15.
Definition a6 : nat := 16.
Definition a7 : nat := 17.
Definition s2 : nat := 18.
Definition s3 : nat := 19.
Definition s4 : nat := 20.
Definition s5 : nat := 21.
Definition s6 : nat := 22.
Definition s7 : nat := 23.
Definition s8 : nat := 24.
Definition s9 : nat := 25.
Definition s10 : nat := 26.
Definition s11 : nat := 27.
Definition t3 : nat := 28.
Definition t4 : nat := 29.
Definition t5 : nat := 30.
Definition t6 : nat := 31.
End R.

(** The control registers that trap_entry.S reads or writes *)
Inductive csr := c_sstatus | c_sepc | c_scause | c_stval | c_sscratch | c_stvec.
Record csr_file := MkCsrFile { f_sstatus : Z; f_sepc : Z; f_scause : Z; f_stval : Z; f_sscratch : Z; f_stvec : Z }.

Definition csr_get (c : csr) (f : csr_file) : Z :=
  match c with
  | c_sstatus => f_sstatus f | c_sepc => f_sepc f | c_scause => f_scause f
  | c_stval => f_stval f | c_sscratch => f_sscratch f | c_stvec => f_stvec f
  end.
Definition csr_put (c : csr) (v : Z) (f : csr_file) : csr_file :=
  let 'MkCsrFile a b d e g h := f in
  match c with
  | c_sstatus => MkCsrFile v b d e g h | c_sepc => MkCsrFile a v d e g h | c_scause => MkCsrFile a b v e g h
  | c_stval => MkCsrFile a b d v g h | c_sscratch => MkCsrFile a b d e v h | c_stvec => MkCsrFile a b d e g v
  end.

Record hart := MkHart {
  xs : list Z;               (* x0 to x31 *)
  csrs : csr_file;
  user_mode : bool;
  pc : Z;
  ram : gmap Z Z             (* doublewords *)
}.

Definition x (r : nat) (h : hart) : Z := if (r =? 0)%nat then 0 else nth r (xs h) 0.
Definition set_x (r : nat) (v : Z) (h : hart) : hart := MkHart (<[r := v]> (xs h)) (csrs h) (user_mode h) (pc h) (ram h).
Definition set_csrs (f : csr_file) (h : hart) : hart := MkHart (xs h) f (user_mode h) (pc h) (ram h).
Definition set_pc (a : Z) (h : hart) : hart := MkHart (xs h) (csrs h) (user_mode h) a (ram h).
Definition set_ram (m : gmap Z Z) (h : hart) : hart := MkHart (xs h) (csrs h) (user_mode h) (pc h) m.
Definition with_csr (c : csr) (v : Z) (h : hart) : hart := set_csrs (csr_put c v (csrs h)) h.

(** * Memory *)

Definition load (a : Z) (h : hart) : outcome Z := if a mod 8 =? 0 then or_fault (ram h !! a) else Fault.
Definition store (a v : Z) (h : hart) : outcome hart :=
  if a mod 8 =? 0 then _ <- or_fault (ram h !! a) ;; Ok (set_ram (<[a := v]> (ram h)) h) else Fault.

(** * Traps *)

Definition SR_SIE : Z := 0x00000002.
Definition SR_SPIE : Z := 0x00000020.
Definition SR_SPP : Z := 0x00000100.

(** The bits [mask] of [v] set or cleared *)
Definition with_bit (mask : Z) (b : bool) (v : Z) : Z := if b then Z.lor v mask else Z.ldiff v mask.
Definition has_bit (mask v : Z) : bool := negb (Z.land v mask =? 0).

(** What the hardware does when a trap is taken to supervisor mode *)
Definition trap (cause tval : Z) (h : hart) : hart :=
  let st := f_sstatus (csrs h) in
  let st' := with_bit SR_SPP (negb (user_mode h)) (with_bit SR_SIE false (with_bit SR_SPIE (has_bit SR_SIE st) st)) in
  MkHart (xs h) (MkCsrFile st' (pc h) cause tval (f_sscratch (csrs h)) (f_stvec (csrs h))) false (f_stvec (csrs h)) (ram h).

(** sret *)
Definition sret (h : hart) : hart :=
  let st := f_sstatus (csrs h) in
  let st' := with_bit SR_SPP false (with_bit SR_SPIE true (with_bit SR_SIE (has_bit SR_SPIE st) st)) in
  MkHart (xs h) (csr_put c_sstatus st' (csrs h)) (negb (has_bit SR_SPP st)) (f_sepc (csrs h)) (ram h).

(** * Instructions *)

Inductive instr :=
| SD (rs2 : nat) (off : Z) (rs1 : nat)      (* sd rs2, off(rs1) *)
| LD (rd : nat) (off : Z) (rs1 : nat)       (* ld rd, off(rs1) *)
| ADDI (rd rs1 : nat) (imm : Z)
| MV (rd rs : nat)
| LI (rd : nat) (imm : Z)                   (* li, and la of an address *)
| CSRRW (rd : nat) (c : csr) (rs : nat)
| CSRR (rd : nat) (c : csr)
| CSRW (c : csr) (rs : nat)
| CSRC (c : csr) (rs : nat)                 (* clear the bits of rs *)
| CALL                                      (* call of the C function *)
| SRET
| RET.

Section Run.
(** The C function that the routine calls, up to its return *)
Context (callee : hart -> outcome hart).

Definition step (i : instr) (h : hart) : outcome hart :=
  match i with
  | SD rs2 off rs1 => store (u64 (x rs1 h + off)) (x rs2 h) h
  | LD rd off rs1 => v <- load (u64 (x rs1 h + off)) h ;; Ok (set_x rd v h)
  | ADDI rd rs1 imm => Ok (set_x rd (u64 (x rs1 h + imm)) h)
  | MV rd rs => Ok (set_x rd (x rs h) h)
  | LI rd imm => Ok (set_x rd imm h)
  | CSRRW rd c rs => let v := csr_get c (csrs h) in Ok (set_x rd v (with_csr c (x rs h) h))
  | CSRR rd c => Ok (set_x rd (csr_get c (csrs h)) h)
  | CSRW c rs => Ok (with_csr c (x rs h) h)
  | CSRC c rs => Ok (with_csr c (Z.ldiff (csr_get c (csrs h)) (x rs h)) h)
  | CALL => callee h
  | SRET => Ok (sret h)
  | RET => Ok (set_pc (x R.ra h) h)
  end.

(** A routine ends with its first return. *)
Fixpoint run (code : list instr) (h : hart) : outcome hart :=
  match code with
  | [] => Ok h
  | SRET :: _ => step SRET h
  | RET :: _ => step RET h
  | i :: code => h <- step i h ;; run code h
  end.
End Run.

(** * Lemmas on registers and memory *)

Lemma xs_set_x r v h : xs (set_x r v h) = <[r := v]> (xs h).
Proof. done. Qed.
Lemma ram_set_x r v h : ram (set_x r v h) = ram h.
Proof. done. Qed.
Lemma csrs_set_x r v h : csrs (set_x r v h) = csrs h.
Proof. done. Qed.

Lemma x_set_eq r v h : (0 < r < length (xs h))%nat -> x r (set_x r v h) = v.
Proof.
  intros [Hr Hl]. unfold x. rewrite (proj2 (Nat.eqb_neq r 0)) by lia. cbn [xs set_x].
  apply nth_lookup_Some. by rewrite list_lookup_insert_eq.
Qed.

Lemma x_set_ne r r' v h : r <> r' -> x r' (set_x r v h) = x r' h.
Proof.
  intros Hr. unfold x. destruct (r' =? 0)%nat; [done|]. cbn [xs set_x]. rewrite !nth_lookup. by rewrite list_lookup_insert_ne.
Qed.

Lemma x_ext h h' : length (xs h) = 32%nat -> length (xs h') = 32%nat ->
  (forall r, (1 <= r <= 31)%nat -> x r h = x r h') -> forall r, x r h = x r h'.
Proof.
  intros Hl Hl' Hx r. destruct (decide (1 <= r <= 31)%nat) as [Hr|Hr]; [by apply Hx|].
  unfold x. destruct (Nat.eqb_spec r 0) as [->|H0]; [done|]. rewrite !nth_overflow; [done|rewrite Hl'; lia|rewrite Hl; lia].
Qed.

Lemma x_ram r m h : x r (set_ram m h) = x r h.
Proof. done. Qed.
Lemma x_csr r f h : x r (set_csrs f h) = x r h.
Proof. done. Qed.

Lemma run_app callee code1 code2 h :
  Forall (fun i => i <> SRET /\ i <> RET) code1 ->
  run callee (code1 ++ code2) h = (h' <- run callee code1 h ;; run callee code2 h').
Proof.
  induction code1 as [|i code1 IH] in h |- *; intros Hf; [done|]. inversion Hf as [|? ? [H1 H2] Hf']; subst.
  cbn [app run]. destruct i; try done; match goal with |- obind ?o _ = _ => destruct o as [h'| | |] end; cbn [obind]; try done; by apply IH.
Qed.

Lemma run_cons callee i code h h' :
  i <> SRET -> i <> RET -> step callee i h = Ok h' -> run callee (i :: code) h = run callee code h'.
Proof. intros H1 H2 E. destruct i; try done; cbn [run]; by rewrite E. Qed.

(** The doubleword [i] of a structure or stack frame at [a] *)
Definition slot (a : Z) (i : nat) : Z := a + 8 * Z.of_nat i.

(** [n] mapped doublewords from [a] on *)
Definition mapped (m : gmap Z Z) (a : Z) (n : nat) : Prop :=
  0 <= a /\ a mod 8 = 0 /\ slot a n <= 2 ^ 64 /\ forall i, (i < n)%nat -> is_Some (m !! slot a i).

Definition outside (a : Z) (n : nat) (k : Z) : Prop := k < a \/ slot a n <= k.

Lemma hslot_inj a i j : slot a i = slot a j -> i = j.
Proof. unfold slot. lia. Qed.

Lemma outside_slot a n k i : outside a n k -> (i < n)%nat -> k <> slot a i.
Proof. unfold outside, slot. lia. Qed.

Lemma mapped_slot m a n i : mapped m a n -> (i < n)%nat -> slot a i mod 8 = 0 /\ u64 (a + 8 * Z.of_nat i) = slot a i.
Proof.
  intros (H0 & Hm & Hn & _) Hi. unfold slot in *. split.
  - rewrite (Z.mul_comm 8), Z_mod_plus_full. done.
  - apply u64_small. lia.
Qed.

Lemma hmapped_insert m a n k v : mapped m a n -> mapped (<[k := v]> m) a n.
Proof.
  intros (H0 & Hm & Hn & Hs). split_and!; [done..|]. intros i Hi. destruct (decide (k = slot a i)) as [->|Hk].
  - rewrite lookup_insert_eq. by eexists.
  - rewrite lookup_insert_ne by done. by apply Hs.
Qed.

Lemma hstore_slot callee rs2 rs1 i n h : mapped (ram h) (x rs1 h) n -> (i < n)%nat ->
  step callee (SD rs2 (8 * Z.of_nat i) rs1) h = Ok (set_ram (<[slot (x rs1 h) i := x rs2 h]> (ram h)) h).
Proof.
  intros Hm Hi. destruct (mapped_slot _ _ _ _ Hm Hi) as [Ha Hu]. cbn [step]. rewrite Hu. unfold store. rewrite Ha.
  destruct Hm as (_ & _ & _ & Hs). destruct (Hs i Hi) as [v0 ->]. done.
Qed.

Lemma load_slot callee rd rs1 i n v h : mapped (ram h) (x rs1 h) n -> (i < n)%nat -> ram h !! slot (x rs1 h) i = Some v ->
  step callee (LD rd (8 * Z.of_nat i) rs1) h = Ok (set_x rd v h).
Proof.
  intros Hm Hi E. destruct (mapped_slot _ _ _ _ Hm Hi) as [Ha Hu]. cbn [step]. rewrite Hu. unfold load. rewrite Ha, E. done.
Qed.

(** ** Blocks of stores and loads

    A routine saves a list of registers at slots of one base register and loads
    them again. *)

Definition saves (base : nat) (l : list (nat * nat)) : list instr := map (fun '(r, i) => SD r (8 * Z.of_nat i) base) l.
Definition loads (base : nat) (l : list (nat * nat)) : list instr := map (fun '(r, i) => LD r (8 * Z.of_nat i) base) l.

Definition store_all (a : Z) (v : nat -> Z) (l : list (nat * nat)) (m : gmap Z Z) : gmap Z Z :=
  fold_left (fun m '(r, i) => <[slot a i := v r]> m) l m.
Definition load_all (v : nat -> Z) (l : list (nat * nat)) (ws : list Z) : list Z :=
  fold_left (fun ws '(r, _) => <[r := v r]> ws) l ws.

Lemma store_all_cons a v r i l m : store_all a v ((r, i) :: l) m = store_all a v l (<[slot a i := v r]> m).
Proof. done. Qed.
Lemma load_all_cons v r i l ws : load_all v ((r, i) :: l) ws = load_all v l (<[r := v r]> ws).
Proof. done. Qed.

Lemma mapped_store_all a v l : forall m b n, mapped m b n -> mapped (store_all a v l m) b n.
Proof. induction l as [|[r i] l IH]; intros m b n Hm; [done|]. rewrite store_all_cons. by apply IH, hmapped_insert. Qed.

Lemma store_all_out a v l : forall m k, (forall r i, (r, i) ∈ l -> k <> slot a i) -> store_all a v l m !! k = m !! k.
Proof.
  induction l as [|[r i] l IH]; intros m k Hk; [done|]. rewrite store_all_cons, IH.
  - apply lookup_insert_ne. apply not_eq_sym, (Hk r i). left.
  - intros r' i' Hi. apply (Hk r' i'). by right.
Qed.

Lemma store_all_in a v l : forall m r i, NoDup (l.*2) -> (r, i) ∈ l -> store_all a v l m !! slot a i = Some (v r).
Proof.
  induction l as [|[r0 i0] l IH]; intros m r i Hn Hi; [by apply elem_of_nil in Hi|]. cbn in Hn. apply NoDup_cons in Hn as [Hni Hn].
  rewrite store_all_cons. apply elem_of_cons in Hi as [[= -> ->]|Hi]; [|by apply IH].
  rewrite store_all_out; [apply lookup_insert_eq|]. intros r' i' Hi E. apply hslot_inj in E as <-.
  apply Hni. apply list_elem_of_fmap. by exists (r', i0).
Qed.

Lemma run_saves callee base n l : forall h, mapped (ram h) (x base h) n -> Forall (fun e => (e.2 < n)%nat) l ->
  run callee (saves base l) h = Ok (set_ram (store_all (x base h) (fun r => x r h) l (ram h)) h).
Proof.
  induction l as [|[r i] l IH]; intros h Hm Hl; [by destruct h|]. inversion Hl as [|? ? Hi Hl']; subst. cbn [saves map].
  erewrite run_cons by (done || by apply (hstore_slot _ _ _ i n)). fold (saves base l).
  rewrite IH; [|by apply hmapped_insert|done]. reflexivity.
Qed.

Lemma length_load_all v l : forall ws, length (load_all v l ws) = length ws.
Proof. induction l as [|[r i] l IH]; intros ws; [done|]. by rewrite load_all_cons, IH, length_insert. Qed.

Lemma load_all_out v l : forall ws r, r ∉ l.*1 -> load_all v l ws !! r = ws !! r.
Proof.
  induction l as [|[r0 i] l IH]; intros ws r Hr; [done|]. cbn in Hr. apply not_elem_of_cons in Hr as [Hne Hr].
  rewrite load_all_cons, IH by done. by apply list_lookup_insert_ne.
Qed.

Lemma load_all_in v l : forall ws r, r ∈ l.*1 -> (r < length ws)%nat -> load_all v l ws !! r = Some (v r).
Proof.
  induction l as [|[r0 i] l IH]; intros ws r Hr Hl; [by apply elem_of_nil in Hr|]. cbn in Hr. rewrite load_all_cons.
  destruct (decide (r ∈ l.*1)) as [Hin|Hout].
  - apply IH; [done|]. by rewrite length_insert.
  - apply elem_of_cons in Hr as [->|]; [|done]. rewrite load_all_out by done. by apply list_lookup_insert_eq.
Qed.

Lemma run_loads callee base n v l : forall h, mapped (ram h) (x base h) n -> base ∉ l.*1 ->
  (forall r i, (r, i) ∈ l -> (i < n)%nat /\ ram h !! slot (x base h) i = Some (v r)) ->
  run callee (loads base l) h = Ok (MkHart (load_all v l (xs h)) (csrs h) (user_mode h) (pc h) (ram h)).
Proof.
  induction l as [|[r i] l IH]; intros h Hm Hb Hl; [by destruct h|]. cbn in Hb. apply not_elem_of_cons in Hb as [Hr Hb].
  destruct (Hl r i) as [Hi Hv]; [left|]. cbn [loads map]. fold (loads base l).
  erewrite run_cons by (done || by apply (load_slot _ _ _ i n)). assert (Hx : x base (set_x r (v r) h) = x base h) by by apply x_set_ne.
  rewrite IH; [by destruct h|by rewrite Hx|done|]. intros r' i' Hi'. rewrite Hx. apply (Hl r' i'). by right.
Qed.

Lemma x_loaded v l ws f u a m r : r ∈ l.*1 -> (0 < r < length ws)%nat -> x r (MkHart (load_all v l ws) f u a m) = v r.
Proof.
  intros Hr [H0 Hl]. unfold x. rewrite (proj2 (Nat.eqb_neq r 0)) by lia. cbn [xs]. apply nth_lookup_Some. by apply load_all_in.
Qed.

Lemma x_unloaded v l ws f u a m r f' u' a' m' : r ∉ l.*1 -> x r (MkHart (load_all v l ws) f u a m) = x r (MkHart ws f' u' a' m').
Proof. intros Hr. unfold x. destruct (r =? 0)%nat; [done|]. cbn [xs]. by rewrite !nth_lookup, load_all_out. Qed.

(** ** Status bits *)

Lemma has_bit_testbit n v : 0 <= n -> has_bit (2 ^ n) v = Z.testbit v n.
Proof.
  intros Hn. unfold has_bit. destruct (Z.testbit v n) eqn:E.
  - apply negb_true_iff, Z.eqb_neq. intros H0. pose proof (Z.land_spec v (2 ^ n) n) as Hl.
    rewrite H0, Z.bits_0, E, Z.pow2_bits_true in Hl by done. done.
  - apply negb_false_iff, Z.eqb_eq, Z.bits_inj'. intros i Hi. rewrite Z.land_spec, Z.bits_0, Z.pow2_bits_eqb by done.
    destruct (n =? i) eqn:En; [|by rewrite andb_false_r]. apply Z.eqb_eq in En as <-. by rewrite E.
Qed.

Lemma testbit_with_bit n b v i : 0 <= n -> 0 <= i ->
  Z.testbit (with_bit (2 ^ n) b v) i = if i =? n then b else Z.testbit v i.
Proof.
  intros Hn Hi. unfold with_bit. destruct b; [rewrite Z.lor_spec|rewrite Z.ldiff_spec]; rewrite Z.pow2_bits_eqb by done;
    rewrite (Z.eqb_sym i n); destruct (n =? i); rewrite ?orb_true_r, ?orb_false_r, ?andb_true_r, ?andb_false_r; done.
Qed.

(** ** Executing a routine symbolically

    The goal is about [run] of a list that starts with an explicit instruction on a
    hart given by its fields. *)

Definition reg (r : nat) (ws : list Z) : Z := if (r =? 0)%nat then 0 else nth r ws 0.

Lemma x_reg r ws f u a m : x r (MkHart ws f u a m) = reg r ws.
Proof. done. Qed.

Lemma reg_eq r v ws : (0 < r < length ws)%nat -> reg r (<[r := v]> ws) = v.
Proof.
  intros [H0 Hl]. unfold reg. rewrite (proj2 (Nat.eqb_neq r 0)) by lia. apply nth_lookup_Some. by apply list_lookup_insert_eq.
Qed.

Lemma reg_ne r r' v ws : r <> r' -> reg r' (<[r := v]> ws) = reg r' ws.
Proof. intros Hr. unfold reg. destruct (r' =? 0)%nat; [done|]. by rewrite !nth_lookup, list_lookup_insert_ne. Qed.

Lemma reg_loaded v l ws r : r ∈ l.*1 -> (0 < r < length ws)%nat -> reg r (load_all v l ws) = v r.
Proof.
  intros Hr [H0 Hl]. unfold reg. rewrite (proj2 (Nat.eqb_neq r 0)) by lia. apply nth_lookup_Some. by apply load_all_in.
Qed.

Lemma reg_unloaded v l ws r : r ∉ l.*1 -> reg r (load_all v l ws) = reg r ws.
Proof. intros Hr. unfold reg. destruct (r =? 0)%nat; [done|]. by rewrite !nth_lookup, load_all_out. Qed.

Ltac hart_cbn :=
  unfold with_csr, set_x, set_ram, set_csrs, set_pc;
  cbn [xs csrs user_mode pc ram csr_put csr_get f_sstatus f_sepc f_scause f_stval f_sscratch f_stvec];
  rewrite ?x_reg.
Ltac reg_simp :=
  repeat first
    [ rewrite reg_eq by (split; [cbv; lia|rewrite ?length_insert, ?length_load_all; match goal with H : length _ = 32%nat |- _ => rewrite H end; cbv; lia])
    | rewrite reg_ne by discriminate ].
(** The next instruction, by [lem] when it is a store or a load *)
Ltac next_by lem := erewrite run_cons; [|discriminate|discriminate|lem]; hart_cbn; reg_simp.
Ltac next_instr := next_by ltac:(cbn [step]; reflexivity).
Ltac slots := repeat first [assumption | apply hmapped_insert | apply mapped_store_all].
Ltac slot_ne := let E := fresh in intro E; unfold outside, slot in *; lia.
(** Reading a word back from a memory of insertions and blocks of stores *)
Ltac read_word :=
  repeat first
    [ rewrite lookup_insert_eq
    | rewrite lookup_insert_ne by slot_ne ];
  try (eassumption || reflexivity).
Ltac next_store i n := next_by ltac:(apply (hstore_slot _ _ _ i n); [hart_cbn; reg_simp; slots|lia]).
Ltac next_load i n := next_by ltac:(eapply (load_slot _ _ _ i n); [hart_cbn; reg_simp; slots|lia|hart_cbn; reg_simp; read_word]).

(** Deciding [mapped] for a concrete memory *)
Definition mappedb (m : gmap Z Z) (a : Z) (n : nat) : bool :=
  (0 <=? a) && (a mod 8 =? 0) && (slot a n <=? 2 ^ 64) && forallb (fun i => match m !! slot a i with Some _ => true | None => false end) (seq 0 n).

Lemma mappedb_ok m a n : mappedb m a n = true -> mapped m a n.
Proof.
  unfold mappedb. rewrite !andb_true_iff, forallb_forall. intros (((H0 & H1) & H2) & H3).
  split_and!; [lia..|]. intros i Hi. specialize (H3 i). destruct (m !! slot a i); [by eexists|]. discriminate H3. apply in_seq. lia.
Qed.
