(* ===== verification/TrapEntry.v ===== *)
(** The assembly between programs and the kernel: user_trap_entry,
    user_trap_return, kernel_trap_entry and switch_context_entry of
    src/src/arch/trap_entry.S, and the stubs of src/tiny_libc/syscall.S.

    Each routine is the list of its instructions, in the order of the source; the
    C function it calls is trap_handler (Syscall.v).  user_trap_entry runs on into
    user_trap_return.  A thread is known by the address of its Thread object, which
    begins with user_context: the saved registers x1 to x31 in slots 0 to 30, then
    sstatus, sepc, scause, stval and kernel_stack_top in slots 31 to 35. *)

From Stdlib Require Import ZArith Lia List String.
From stdpp Require Import base numbers list gmap.
From S2P Require Import Prelude Kernel Syscall Riscv.

Local Open Scope Z_scope.

(** * The routines *)

(** Offsets in class Thread *)
Definition USER_BASE : Z := 0.
Definition KERNEL_STACK_IN_THREAD : Z := 280.

Section Routines.
(** The addresses the linker gives the two entry points *)
Context (kernel_trap_entry_addr user_trap_entry_addr : Z).

Definition user_trap_entry : list instr :=
  [CSRRW 1 c_sscratch 1; SD R.sp 8 1; LD R.sp 0 1; SD 3 (USER_BASE + 16) R.sp; SD 4 (USER_BASE + 24) R.sp;
   SD 5 (USER_BASE + 32) R.sp; SD 6 (USER_BASE + 40) R.sp; SD 7 (USER_BASE + 48) R.sp; SD 8 (USER_BASE + 56) R.sp;
   SD 9 (USER_BASE + 64) R.sp; SD 10 (USER_BASE + 72) R.sp; SD 11 (USER_BASE + 80) R.sp; SD 12 (USER_BASE + 88) R.sp;
   SD 13 (USER_BASE + 96) R.sp; SD 14 (USER_BASE + 104) R.sp; SD 15 (USER_BASE + 112) R.sp; SD 16 (USER_BASE + 120) R.sp;
   SD 17 (USER_BASE + 128) R.sp; SD 18 (USER_BASE + 136) R.sp; SD 19 (USER_BASE + 144) R.sp; SD 20 (USER_BASE + 152) R.sp;
   SD 21 (USER_BASE + 160) R.sp; SD 22 (USER_BASE + 168) R.sp; SD 23 (USER_BASE + 176) R.sp; SD 24 (USER_BASE + 184) R.sp;
   SD 25 (USER_BASE + 192) R.sp; SD 26 (USER_BASE + 200) R.sp; SD 27 (USER_BASE + 208) R.sp; SD 28 (USER_BASE + 216) R.sp;
   SD 29 (USER_BASE + 224) R.sp; SD 30 (USER_BASE + 232) R.sp; SD 31 (USER_BASE + 240) R.sp; LD R.a2 8 1;
   SD R.a2 (USER_BASE + 8) R.sp; CSRR R.a1 c_sscratch; SD R.a1 (USER_BASE + 0) R.sp; CSRR R.t0 c_sstatus;
   SD R.t0 (USER_BASE + 248) R.sp; CSRR R.t1 c_sepc; SD R.t1 (USER_BASE + 256) R.sp; CSRR R.t2 c_scause;
   SD R.t2 (USER_BASE + 264) R.sp; CSRR R.t3 c_stval; SD R.t3 (USER_BASE + 272) R.sp; MV R.tp 1;
   LD R.sp KERNEL_STACK_IN_THREAD R.sp; LI R.t4 kernel_trap_entry_addr; CSRW c_stvec R.t4; LI R.a0 0; CSRR R.a1 c_scause;
   CSRR R.a2 c_stval; CALL].

Definition user_trap_return : list instr :=
  [LD R.sp 0 R.tp; CSRW c_sscratch R.tp; LI R.t0 SR_SPP; CSRC c_sstatus R.t0; LD R.t1 (USER_BASE + 256) R.sp;
   CSRW c_sepc R.t1; LI R.t2 user_trap_entry_addr; CSRW c_stvec R.t2; LD 1 (USER_BASE + 0) R.sp;
   LD 3 (USER_BASE + 16) R.sp; LD 4 (USER_BASE + 24) R.sp; LD 5 (USER_BASE + 32) R.sp; LD 6 (USER_BASE + 40) R.sp;
   LD 7 (USER_BASE + 48) R.sp; LD 8 (USER_BASE + 56) R.sp; LD 9 (USER_BASE + 64) R.sp; LD 10 (USER_BASE + 72) R.sp;
   LD 11 (USER_BASE + 80) R.sp; LD 12 (USER_BASE + 88) R.sp; LD 13 (USER_BASE + 96) R.sp; LD 14 (USER_BASE + 104) R.sp;
   LD 15 (USER_BASE + 112) R.sp; LD 16 (USER_BASE + 120) R.sp; LD 17 (USER_BASE + 128) R.sp; LD 18 (USER_BASE + 136) R.sp;
   LD 19 (USER_BASE + 144) R.sp; LD 20 (USER_BASE + 152) R.sp; LD 21 (USER_BASE + 160) R.sp; LD 22 (USER_BASE + 168) R.sp;
   LD 23 (USER_BASE + 176) R.sp; LD 24 (USER_BASE + 184) R.sp; LD 25 (USER_BASE + 192) R.sp; LD 26 (USER_BASE + 200) R.sp;
   LD 27 (USER_BASE + 208) R.sp; LD 28 (USER_BASE + 216) R.sp; LD 29 (USER_BASE + 224) R.sp; LD 30 (USER_BASE + 232) R.sp;
   LD 31 (USER_BASE + 240) R.sp; LD 2 (USER_BASE + 8) R.sp; SRET].
End Routines.

Definition kernel_trap_entry : list instr :=
  [ADDI R.sp R.sp (-18 * 8); SD R.ra 0 R.sp; SD R.t0 8 R.sp; SD R.t1 16 R.sp; SD R.t2 24 R.sp; SD R.t3 32 R.sp;
   SD R.t4 40 R.sp; SD R.t5 48 R.sp; SD R.t6 56 R.sp; SD R.a0 64 R.sp; SD R.a1 72 R.sp; SD R.a2 80 R.sp; SD R.a3 88 R.sp;
   SD R.a4 96 R.sp; SD R.a5 104 R.sp; SD R.a6 112 R.sp; SD R.a7 120 R.sp; CSRR R.a0 c_sepc; SD R.a0 128 R.sp;
   CSRR R.a0 c_sstatus; SD R.a0 136 R.sp; LI R.a0 1; CSRR R.a1 c_scause; CSRR R.a2 c_stval; CALL; LD R.a0 128 R.sp;
   CSRW c_sepc R.a0; LD R.a0 136 R.sp; CSRW c_sstatus R.a0; LD R.ra 0 R.sp; LD R.t0 8 R.sp; LD R.t1 16 R.sp;
   LD R.t2 24 R.sp; LD R.t3 32 R.sp; LD R.t4 40 R.sp; LD R.t5 48 R.sp; LD R.t6 56 R.sp; LD R.a0 64 R.sp; LD R.a1 72 R.sp;
   LD R.a2 80 R.sp; LD R.a3 88 R.sp; LD R.a4 96 R.sp; LD R.a5 104 R.sp; LD R.a6 112 R.sp; LD R.a7 120 R.sp;
   ADDI R.sp R.sp (18 * 8); SRET].

(** void switch_context_entry(Thread *from, Thread *to) *)
Definition switch_context_entry : list instr :=
  [ADDI R.sp R.sp (-14 * 8); SD R.ra 0 R.sp; SD R.s0 8 R.sp; SD R.s1 16 R.sp; SD R.s2 24 R.sp; SD R.s3 32 R.sp;
   SD R.s4 40 R.sp; SD R.s5 48 R.sp; SD R.s6 56 R.sp; SD R.s7 64 R.sp; SD R.s8 72 R.sp; SD R.s9 80 R.sp; SD R.s10 88 R.sp;
   SD R.s11 96 R.sp; LD R.s0 KERNEL_STACK_IN_THREAD R.a0; SD R.s0 104 R.sp; SD R.sp KERNEL_STACK_IN_THREAD R.a0;
   LD R.sp KERNEL_STACK_IN_THREAD R.a1; LD R.s0 104 R.sp; SD R.s0 KERNEL_STACK_IN_THREAD R.a1; LD R.ra 0 R.sp;
   LD R.s0 8 R.sp; LD R.s1 16 R.sp; LD R.s2 24 R.sp; LD R.s3 32 R.sp; LD R.s4 40 R.sp; LD R.s5 48 R.sp; LD R.s6 56 R.sp;
   LD R.s7 64 R.sp; LD R.s8 72 R.sp; LD R.s9 80 R.sp; LD R.s10 88 R.sp; LD R.s11 96 R.sp; ADDI R.sp R.sp (14 * 8); RET].

(** * The kernel as a program sees it *)

Section Entry.
Context (kernel_trap_entry_addr user_trap_entry_addr : Z).
(** The compiled trap_handler, from its call to its return *)
Context (trap_handler_code : hart -> outcome hart).

(** From the trap to the return to the interrupted code: the hart continues at the
    routine that stvec names. *)
Definition take_trap (cause tval : Z) (h : hart) : outcome hart :=
  let h := trap cause tval h in
  if pc h =? user_trap_entry_addr then
    run trap_handler_code (user_trap_entry kernel_trap_entry_addr ++ user_trap_return user_trap_entry_addr) h
  else if pc h =? kernel_trap_entry_addr then run trap_handler_code kernel_trap_entry h
  else Fault.

(** DEFINE_SYSCALL(name, code) of syscall.S, in user mode: li a7, code; ecall; ret.
    [at_ecall] is the address of the ecall; the kernel returns behind it, or the
    program goes on somewhere else. *)
Definition DEFINE_SYSCALL (code at_ecall : Z) (h : hart) : outcome hart :=
  h <- step trap_handler_code (LI R.a7 code) h ;;
  h <- take_trap Syscall.EXC_SYSCALL 0 (set_pc at_ecall h) ;;
  if pc h =? u64 (at_ecall + 4) then step trap_handler_code RET h else Fault.
End Entry.

(** void kernel_thread_first_run(): what a new thread runs on its first switch; the
    prologue of the compiled function only moves sp. *)
Definition kernel_thread_first_run (user_trap_entry_addr : Z) (h : hart) : outcome hart :=
  run (fun _ => Fault) (user_trap_return user_trap_entry_addr) h.

(** * Threads in memory *)

(** user_context and kernel_stack_top of the Thread at [t] *)
Definition context_at (m : gmap Z Z) (t : Z) (T : Thread) : Prop :=
  length (regs T) = 31%nat /\ (forall i, (i < 31)%nat -> m !! slot t i = regs T !! i) /\
  m !! slot t 32 = Some (sepc T) /\ m !! slot t 35 = Some (kernel_stack_top T).

(** The words of the kernel stack that the constructor of Thread writes *)
Fixpoint stored_words (es : list hw_event) (m : gmap Z Z) : gmap Z Z :=
  match es with
  | [] => m
  | StoreWord a v :: es => stored_words es (<[a := v]> m)
  | _ :: es => stored_words es m
  end.
