(* ===== verification/TrapEntryTheorems.v ===== *)
(** Theorems on the assembly between programs and the kernel (TrapEntry.v): what a
    trap saves and a return restores, what a switch of threads keeps, how a new
    thread starts, and a system call from the stub in the program to the kernel's
    handler and back. *)

From Stdlib Require Import ZArith Lia List String.
From stdpp Require Import base numbers list gmap.
From S2P Require Import Prelude Kernel Syscall Riscv TrapEntry.

Local Open Scope Z_scope.

(** * Saving and restoring the registers of a program *)

(** The registers that are moved in one block: x3 to x31 *)
Definition user_regs : list (nat * nat) := map (fun r => (r, r - 1)%nat) (seq 3 29).

Lemma user_regs_slots : NoDup (user_regs.*2) /\ Forall (fun e => (e.2 < 36)%nat) user_regs.
Proof. split; [apply (bool_decide_unpack _); vm_compute; done|]. by repeat constructor. Qed.

Lemma user_regs_in r : (3 <= r <= 31)%nat -> (r, r - 1)%nat ∈ user_regs.
Proof. intros Hr. apply list_elem_of_fmap. exists r. split; [done|]. apply elem_of_seq. lia. Qed.

Lemma user_regs_fst r : r ∈ user_regs.*1 <-> (3 <= r <= 31)%nat.
Proof.
  unfold user_regs. rewrite <-list_fmap_compose. split.
  - intros (r' & -> & H)%list_elem_of_fmap. apply elem_of_seq in H. cbn. lia.
  - intros Hr. apply list_elem_of_fmap. exists r. split; [done|]. apply elem_of_seq. lia.
Qed.

Lemma user_block_out t v m k : (forall i, (2 <= i <= 30)%nat -> k <> slot t i) -> store_all t v user_regs m !! k = m !! k.
Proof.
  intros Hk. apply store_all_out. intros r i Hi. apply Hk. apply list_elem_of_fmap in Hi as (r' & [= -> ->] & H). apply elem_of_seq in H. lia.
Qed.

Lemma user_block_in t v m r : (3 <= r <= 31)%nat -> store_all t v user_regs m !! slot t (r - 1) = Some (v r).
Proof. intros Hr. apply store_all_in; [apply user_regs_slots|by apply user_regs_in]. Qed.

Ltac block_out := rewrite user_block_out by (intros; slot_ne).
Ltac read_saved := repeat first [progress read_word | block_out]; try reflexivity; try eassumption.
Ltac load_saved i := next_by ltac:(eapply (load_slot _ _ _ i 36); [hart_cbn; reg_simp; slots|lia|hart_cbn; reg_simp; read_saved]).

Section Entry.
Context (kernel_trap_entry_addr user_trap_entry_addr : Z) (callee : hart -> outcome hart).

(** The hart [hc] at the call of trap_handler, after a trap left it in state [h] *)
Record entered (h hc : hart) (cpu t : Z) : Prop := {
  en_regs : forall r, (1 <= r <= 31)%nat -> ram hc !! slot t (r - 1) = Some (x r h);
  en_csrs : ram hc !! slot t 31 = Some (f_sstatus (Riscv.csrs h)) /\ ram hc !! slot t 32 = Some (f_sepc (Riscv.csrs h)) /\
            ram hc !! slot t 33 = Some (f_scause (Riscv.csrs h)) /\ ram hc !! slot t 34 = Some (f_stval (Riscv.csrs h));
  en_other : forall k, outside t 35 k -> k <> slot cpu 1 -> ram hc !! k = ram h !! k;
  en_sp : ram h !! slot t 35 = Some (x R.sp hc);
  en_tp : x R.tp hc = cpu;
  en_args : x R.a0 hc = 0 /\ x R.a1 hc = f_scause (Riscv.csrs h) /\ x R.a2 hc = f_stval (Riscv.csrs h);
  en_stvec : f_stvec (Riscv.csrs hc) = kernel_trap_entry_addr;
  en_mode : user_mode hc = user_mode h;
  en_len : length (xs hc) = 32%nat;
  en_mapped : forall a n, mapped (ram h) a n -> mapped (ram hc) a n
}.

(** The CPU object at [cpu] runs the thread at [t]; the two lie apart. *)
Definition cpu_runs (m : gmap Z Z) (cpu t : Z) : Prop :=
  mapped m t 36 /\ mapped m cpu 2 /\ m !! slot cpu 0 = Some t /\ outside t 36 (slot cpu 0) /\ outside t 36 (slot cpu 1).

Lemma entry_saves h cpu t code :
  length (xs h) = 32%nat -> f_sscratch (Riscv.csrs h) = cpu -> cpu_runs (ram h) cpu t ->
  exists hc, run callee (user_trap_entry kernel_trap_entry_addr ++ code) h = run callee (CALL :: code) hc /\ entered h hc cpu t.
Proof.
  destruct h as [ws [st se sc sv ss stv] um p m]. cbn [xs Riscv.csrs ram f_sscratch]. intros Hl -> (Ht & Hc & Hrun & Ho0 & Ho1).
  change (user_trap_entry kernel_trap_entry_addr ++ code) with
    ([CSRRW 1 c_sscratch 1; SD R.sp 8 1; LD R.sp 0 1] ++ (saves R.sp user_regs ++
     [LD R.a2 8 1; SD R.a2 8 R.sp; CSRR R.a1 c_sscratch; SD R.a1 0 R.sp; CSRR R.t0 c_sstatus; SD R.t0 248 R.sp;
      CSRR R.t1 c_sepc; SD R.t1 256 R.sp; CSRR R.t2 c_scause; SD R.t2 264 R.sp; CSRR R.t3 c_stval; SD R.t3 272 R.sp; MV R.tp 1;
      LD R.sp 280 R.sp; LI R.t4 kernel_trap_entry_addr; CSRW c_stvec R.t4; LI R.a0 0; CSRR R.a1 c_scause; CSRR R.a2 c_stval]
     ++ CALL :: code)).
  cbn [app]. next_instr. next_store 1%nat 2%nat. next_load 0%nat 2%nat.
  rewrite run_app by (by repeat constructor). rewrite (run_saves _ _ 36) by (apply user_regs_slots || hart_cbn; reg_simp; slots).
  cbn [obind app]. hart_cbn. reg_simp. set (v := fun r => x r _).
  next_by ltac:(eapply (load_slot _ _ _ 1 2); [hart_cbn; reg_simp; slots|lia|hart_cbn; reg_simp; read_saved]).
  next_store 1%nat 36%nat. next_instr. next_store 0%nat 36%nat. next_instr. next_store 31%nat 36%nat. next_instr. next_store 32%nat 36%nat.
  next_instr. next_store 33%nat 36%nat. next_instr. next_store 34%nat 36%nat. next_instr.
  destruct Ht as (Ht0 & Ht1 & Ht2 & Hmap). destruct (Hmap 35%nat) as [top Htop]; [lia|]. assert (Ht : mapped m t 36) by by split_and!.
  load_saved 35%nat. do 5 next_instr. eexists. split; [reflexivity|]. split; hart_cbn; reg_simp; try done.
  - intros r Hr. destruct (decide (r = 1%nat)) as [->|]; [by read_saved|]. destruct (decide (r = 2%nat)) as [->|]; [by read_saved|].
    assert (Hs : forall j, (j = 0 \/ j = 1 \/ j = 31 \/ j = 32 \/ j = 33 \/ j = 34)%nat -> slot t j <> slot t (r - 1)) by (intros j Hj E; apply hslot_inj in E; lia).
    rewrite !lookup_insert_ne by (apply Hs; lia). rewrite user_block_in by lia. unfold v. rewrite x_reg, !reg_ne by (unfold R.sp; lia). done.
  - split_and!; by read_saved.
  - intros k Hk Hne. read_saved.
  - by rewrite !length_insert.
  - intros a n Ha. slots.
Qed.

(** ** Returning *)

(** The program counter and the registers [v] saved for the thread at [t] *)
Definition saved (m : gmap Z Z) (t : Z) (v : nat -> Z) (a : Z) : Prop :=
  (forall r, (1 <= r <= 31)%nat -> m !! slot t (r - 1) = Some (v r)) /\ m !! slot t 32 = Some a.

(** The hart runs the program of the thread at [t] on the CPU at [cpu]: the next trap
    will find both. *)
Definition in_program (h : hart) (cpu t : Z) : Prop :=
  user_mode h = true /\ length (xs h) = 32%nat /\ f_stvec (Riscv.csrs h) = user_trap_entry_addr /\
  f_sscratch (Riscv.csrs h) = cpu /\ cpu_runs (ram h) cpu t.

Lemma sret_to_user st : negb (has_bit SR_SPP (Z.ldiff st SR_SPP)) = true.
Proof.
  apply negb_true_iff. change SR_SPP with (2 ^ 8). rewrite has_bit_testbit, Z.ldiff_spec, Z.pow2_bits_true by lia. apply andb_false_r.
Qed.

Lemma return_restores h cpu t v a :
  length (xs h) = 32%nat -> x R.tp h = cpu -> cpu_runs (ram h) cpu t -> saved (ram h) t v a ->
  exists hf, run callee (user_trap_return user_trap_entry_addr) h = Ok hf /\
    (forall r, (1 <= r <= 31)%nat -> x r hf = v r) /\ pc hf = a /\ ram hf = ram h /\ in_program hf cpu t.
Proof.
  destruct h as [ws [st se sc sv ss stv] um p m]. rewrite x_reg. cbn [xs ram]. intros Hl <- Hruns [Hv Ha].
  pose proof Hruns as (Ht & Hc & Hrun & Ho0 & Ho1).
  change (user_trap_return user_trap_entry_addr) with
    (LD R.sp 0 R.tp :: CSRW c_sscratch R.tp :: LI R.t0 SR_SPP :: CSRC c_sstatus R.t0 :: LD R.t1 256 R.sp :: CSRW c_sepc R.t1 ::
     LI R.t2 user_trap_entry_addr :: CSRW c_stvec R.t2 :: LD 1 0 R.sp :: loads R.sp user_regs ++ [LD 2 8 R.sp; SRET]).
  next_load 0%nat 2%nat. do 3 next_instr. next_load 32%nat 36%nat. do 3 next_instr.
  next_by ltac:(apply (load_slot _ _ _ 0 36 (v 1%nat)); [hart_cbn; reg_simp; slots|lia|hart_cbn; reg_simp; apply (Hv 1%nat); lia]).
  rewrite run_app by (by repeat constructor). rewrite (run_loads _ _ 36 v); cycle 1.
  { hart_cbn. reg_simp. done. }
  { rewrite user_regs_fst. unfold R.sp. lia. }
  { hart_cbn. reg_simp. intros r i Hi. apply list_elem_of_fmap in Hi as (r' & [= -> ->] & Hr%elem_of_seq). split; [lia|]. apply Hv. lia. }
  cbn [obind]. hart_cbn. assert (Hsp : R.sp ∉ user_regs.*1) by (rewrite user_regs_fst; unfold R.sp; lia).
  next_by ltac:(apply (load_slot _ _ _ 1 36 (v 2%nat)); [hart_cbn; rewrite ?reg_unloaded by done; reg_simp; slots|lia|
    hart_cbn; rewrite ?reg_unloaded by done; reg_simp; apply (Hv 2%nat); lia]).
  cbn [run step]. eexists. split; [reflexivity|]. unfold sret, in_program. hart_cbn. split_and!; try done.
  - intros r Hr. rewrite x_reg. destruct (decide (r = 2%nat)) as [->|]; [by rewrite reg_eq by (rewrite length_load_all, !length_insert; lia)|].
    rewrite reg_ne by done. destruct (decide (r = 1%nat)) as [->|].
    + rewrite reg_unloaded by (rewrite user_regs_fst; lia). by rewrite reg_eq by (rewrite !length_insert; lia).
    + apply reg_loaded; [apply user_regs_fst; lia|]. rewrite !length_insert. lia.
  - apply sret_to_user.
  - by rewrite length_insert, length_load_all, !length_insert.
Qed.

(** A trap of a program, for any outcome of trap_handler: the program whose thread
    the CPU runs then goes on with the registers saved for it. *)
Lemma take_trap_resumes cause tval h cpu t :
  in_program h cpu t ->
  exists hc, entered (trap cause tval h) hc cpu t /\
    forall hd cpu' t' v a, callee hc = Ok hd -> length (xs hd) = 32%nat -> x R.tp hd = cpu' -> cpu_runs (ram hd) cpu' t' -> saved (ram hd) t' v a ->
    exists hf, take_trap kernel_trap_entry_addr user_trap_entry_addr callee cause tval h = Ok hf /\
      (forall r, (1 <= r <= 31)%nat -> x r hf = v r) /\ pc hf = a /\ ram hf = ram hd /\ in_program hf cpu' t'.
Proof.
  intros (Hu & Hl & Hstv & Hss & Hruns).
  destruct (entry_saves (trap cause tval h) cpu t (user_trap_return user_trap_entry_addr) Hl Hss Hruns) as (hc & E & Hent).
  exists hc. split; [done|]. intros hd cpu' t' v a Ed Hld Htp Hruns' Hsv.
  destruct (return_restores hd cpu' t' v a Hld Htp Hruns' Hsv) as (hf & Ef & Hrest). exists hf. split; [|done].
  unfold take_trap. change (pc (trap cause tval h)) with (f_stvec (Riscv.csrs h)). rewrite Hstv, Z.eqb_refl, E. cbn [run step].
  rewrite Ed. exact Ef.
Qed.
(** The compiled trap_handler gives the thread of [t] the CPU at [cpu'] back when it
    returns, and has left alone what was saved for it. *)
Definition handles (h : hart) (cpu t cpu' : Z) : Prop :=
  forall hc, entered h hc cpu t -> exists hd, callee hc = Ok hd /\ length (xs hd) = 32%nat /\ x R.tp hd = cpu' /\ cpu_runs (ram hd) cpu' t /\
    forall i, (i < 31)%nat \/ i = 32%nat -> ram hd !! slot t i = ram hc !! slot t i.

(** C3: a trap is invisible to the program it interrupts.  When trap_handler returns
    with the saved context as it was, on whatever CPU it returns and whatever else
    it did, the program goes on in user mode at the instruction that was
    interrupted with the value it had in every register, and the next trap will
    find its thread and CPU again. *)
Theorem trap_round_trip cause tval h cpu t cpu' :
  in_program h cpu t -> handles (trap cause tval h) cpu t cpu' ->
  exists hf, take_trap kernel_trap_entry_addr user_trap_entry_addr callee cause tval h = Ok hf /\
    (forall r, x r hf = x r h) /\ pc hf = pc h /\ in_program hf cpu' t.
Proof.
  intros Hp Hh. destruct (take_trap_resumes cause tval h cpu t Hp) as (hc & Hent & Hres).
  destruct (Hh hc Hent) as (hd & Ed & Hl & Htp & Hruns & Hkeep).
  destruct (Hres hd cpu' t (fun r => x r h) (pc h) Ed Hl Htp Hruns) as (hf & E & Hx & Hpc & Hram & Hin).
  - split.
    + intros r Hr. rewrite Hkeep by lia. by apply (en_regs _ _ _ _ Hent).
    + rewrite Hkeep by lia. apply (en_csrs _ _ _ _ Hent).
  - exists hf. split_and!; try done. apply x_ext; [apply Hin|apply Hp|done].
Qed.
End Entry.

Module OneTrap.
(** Words of zero at [a], and a memory with the CPU at 4096 running the thread at 8192 *)
Definition zeros (a : Z) (n : nat) (m : gmap Z Z) : gmap Z Z := fold_left (fun m i => <[slot a i := 0]> m) (seq 0 n) m.
Definition memory : gmap Z Z := <[8192 + 280 := 20480]> (<[4096 := 8192]> (zeros 4096 2 (zeros 8192 36 ∅))).
(** A program in user mode with the value 100 + r in register r *)
Definition program : hart := MkHart (map (fun r => 100 + Z.of_nat r) (seq 0 32)) (MkCsrFile 0 0 0 0 4096 1000) true 65536 memory.
(** A handler that only overwrites argument registers *)
Definition clobber (hc : hart) : outcome hart := Ok (set_x R.a0 7 (set_x R.a1 8 hc)).

Lemma runs : cpu_runs memory 4096 8192.
Proof. split_and!; [by apply mappedb_ok|by apply mappedb_ok|done|cbv; by left..]. Qed.

Lemma in_user : in_program 1000 program 4096 8192.
Proof. split_and!; try done. exact runs. Qed.

Lemma runs_later h hc : ram h = memory -> entered 2000 h hc 4096 8192 -> cpu_runs (ram hc) 4096 8192.
Proof.
  intros Em He. destruct runs as (M1 & M2 & Hr & O0 & O1). rewrite <-Em in *. split_and!; [by apply (en_mapped _ _ _ _ _ He)..| |done|done].
  rewrite (en_other _ _ _ _ _ He); [done|cbv; by left|done].
Qed.
End OneTrap.

Lemma trap_round_trip_witness :
  exists hf, take_trap 2000 1000 OneTrap.clobber 12 0 OneTrap.program = Ok hf /\
    (forall r, x r hf = x r OneTrap.program) /\ pc hf = 65536 /\ in_program 1000 hf 4096 8192.
Proof.
  apply (trap_round_trip 2000 1000 OneTrap.clobber 12 0 OneTrap.program 4096 8192 4096 OneTrap.in_user).
  intros hc He. eexists. split; [reflexivity|]. pose proof (en_len _ _ _ _ _ He) as Hl. split_and!; [by rewrite !xs_set_x, !length_insert| | |done].
  - rewrite !x_set_ne by done. exact (en_tp _ _ _ _ _ He).
  - exact (OneTrap.runs_later (Riscv.trap 12 0 OneTrap.program) hc eq_refl He).
Defined.

(** * Interrupts of the kernel *)

Section KernelTrap.
Context (kernel_trap_entry_addr user_trap_entry_addr : Z) (callee : hart -> outcome hart).

(** The registers kernel_trap_entry saves, with their places in its frame *)
Definition frame_regs : list (nat * nat) := combine [1; 5; 6; 7; 28; 29; 30; 31; 10; 11; 12; 13; 14; 15; 16; 17]%nat (seq 0 16).
(** The registers a C function leaves as they were *)
Definition callee_saved : list nat := [2; 3; 4; 8; 9; 18; 19; 20; 21; 22; 23; 24; 25; 26; 27]%nat.

Lemma frame_regs_slots : NoDup (frame_regs.*2) /\ Forall (fun e => (e.2 < 18)%nat) frame_regs.
Proof. split; [apply (bool_decide_unpack _); vm_compute; done|]. by repeat constructor. Qed.

Lemma frame_regs_in r i : (r, i) ∈ frame_regs -> (i < 16)%nat /\ r <> R.sp /\ (0 < r < 32)%nat.
Proof.
  intros H. assert (Hf : Forall (fun e => (e.2 < 16)%nat /\ e.1 <> R.sp /\ (0 < e.1 < 32)%nat) frame_regs)
    by (repeat (constructor; [split_and!; [cbn; lia|discriminate|cbn; lia..]|]); constructor).
  exact (proj1 (Forall_forall _ _) Hf (r, i) H).
Qed.

Lemma callee_saved_in r : r ∈ callee_saved -> r <> R.a0 /\ r <> R.a1 /\ r <> R.a2.
Proof.
  intros H. assert (Hf : Forall (fun r => r <> R.a0 /\ r <> R.a1 /\ r <> R.a2) callee_saved) by (repeat (constructor; [split_and!; discriminate|]); constructor).
  exact (proj1 (Forall_forall _ _) Hf r H).
Qed.

Lemma other_registers r : (r < 32)%nat -> r <> 0%nat -> r ∉ frame_regs.*1 -> r ∈ callee_saved.
Proof.
  intros Hr H0 Hn. assert (Hf : Forall (fun r => r = 0%nat \/ r ∈ frame_regs.*1 \/ r ∈ callee_saved) (seq 0 32)) by (apply (bool_decide_unpack _); by vm_compute).
  destruct (proj1 (Forall_forall _ _) Hf r) as [?|[?|?]]; [apply elem_of_seq; lia|done..].
Qed.

(** The calling convention, as far as kernel_trap_entry relies on it.  A function that
    calls do_scheduler can return on another CPU, whose tp then is in the register. *)
Definition keeps_frame (hc hd : hart) : Prop :=
  length (xs hd) = 32%nat /\ (forall r, r ∈ callee_saved -> r <> R.tp -> x r hd = x r hc) /\
  (forall a n, mapped (ram hc) a n -> mapped (ram hd) a n) /\
  (forall i, (i < 18)%nat -> ram hd !! slot (x R.sp hc) i = ram hc !! slot (x R.sp hc) i).

Lemma kernel_entry_saves h code f : length (xs h) = 32%nat -> x R.sp h = f + 144 -> mapped (ram h) f 18 ->
  exists hc, run callee (firstn 25 kernel_trap_entry ++ code) h = run callee (CALL :: code) hc /\
    length (xs hc) = 32%nat /\ (forall r, r ∈ callee_saved -> r <> R.sp -> x r hc = x r h) /\ x R.sp hc = f /\
    x R.a0 hc = 1 /\ x R.a1 hc = f_scause (Riscv.csrs h) /\ x R.a2 hc = f_stval (Riscv.csrs h) /\
    (forall r i, (r, i) ∈ frame_regs -> ram hc !! slot f i = Some (x r h)) /\
    ram hc !! slot f 16 = Some (f_sepc (Riscv.csrs h)) /\ ram hc !! slot f 17 = Some (f_sstatus (Riscv.csrs h)) /\
    (forall k, outside f 18 k -> ram hc !! k = ram h !! k) /\ mapped (ram hc) f 18 /\
    user_mode hc = user_mode h.
Proof.
  destruct h as [ws [st se sc sv ss stv] um p m]. rewrite x_reg. cbn [xs ram Riscv.csrs]. intros Hl Hsp Hf.
  change (firstn 25 kernel_trap_entry ++ code) with
    (ADDI R.sp R.sp (-144) :: saves R.sp frame_regs ++ [CSRR R.a0 c_sepc; SD R.a0 128 R.sp; CSRR R.a0 c_sstatus; SD R.a0 136 R.sp; LI R.a0 1;
       CSRR R.a1 c_scause; CSRR R.a2 c_stval] ++ CALL :: code).
  assert (Hu : u64 (reg R.sp ws + -144) = f) by (destruct Hf as (H0 & _ & Hn & _); unfold slot in Hn; rewrite u64_small; lia).
  next_instr. rewrite Hu. rewrite run_app by (by repeat constructor).
  rewrite (run_saves _ _ 18) by (apply frame_regs_slots || hart_cbn; reg_simp; slots). cbn [obind app]. hart_cbn. reg_simp. set (v := fun r => x r _).
  next_instr. next_store 16%nat 18%nat. next_instr. next_store 17%nat 18%nat. do 3 next_instr.
  eexists. split; [reflexivity|]. hart_cbn. reg_simp. split_and!; try done.
  - by rewrite !length_insert.
  - intros r Hr Hne. rewrite !x_reg. destruct (callee_saved_in r Hr) as (? & ? & ?).
    by rewrite !reg_ne by done.
  - intros r i Hi. destruct (frame_regs_in r i Hi) as (Hlt & Hr & _). rewrite !lookup_insert_ne by slot_ne.
    rewrite (store_all_in _ _ _ _ _ _ (proj1 frame_regs_slots) Hi). unfold v. by rewrite x_reg, reg_ne.
  - by read_word.
  - by read_word.
  - intros k Hk. rewrite !lookup_insert_ne by slot_ne. apply store_all_out. intros r i Hi E. destruct (frame_regs_in r i Hi).
    apply (outside_slot _ _ _ i) in Hk; [done|lia].
  - slots.
Qed.

Lemma kernel_entry_restores h f v a st : length (xs h) = 32%nat -> x R.sp h = f -> mapped (ram h) f 18 -> f + 144 < 2 ^ 64 ->
  (forall r i, (r, i) ∈ frame_regs -> ram h !! slot f i = Some (v r)) -> ram h !! slot f 16 = Some a -> ram h !! slot f 17 = Some st ->
  exists hf, run callee (skipn 25 kernel_trap_entry) h = Ok hf /\
    (forall r, r ∈ frame_regs.*1 -> x r hf = v r) /\ (forall r, r ∉ frame_regs.*1 -> r <> R.sp -> x r hf = x r h) /\ x R.sp hf = f + 144 /\
    pc hf = a /\ user_mode hf = negb (has_bit SR_SPP st) /\
    f_sstatus (Riscv.csrs hf) = with_bit SR_SPP false (with_bit SR_SPIE true (with_bit SR_SIE (has_bit SR_SPIE st) st)) /\ ram hf = ram h.
Proof.
  destruct h as [ws [st0 se sc sv ss stv] um p m]. rewrite x_reg. cbn [xs ram]. intros Hl <- Hf Hb Hv Ha Hst.
  change (skipn 25 kernel_trap_entry) with
    (LD R.a0 128 R.sp :: CSRW c_sepc R.a0 :: LD R.a0 136 R.sp :: CSRW c_sstatus R.a0 :: loads R.sp frame_regs ++ [ADDI R.sp R.sp 144; SRET]).
  assert (Hsp : R.sp ∉ frame_regs.*1).
  { intros ([r i] & E & Hi)%list_elem_of_fmap. cbn in E. subst r. by apply frame_regs_in in Hi as (_ & ? & _). }
  next_load 16%nat 18%nat. next_instr. next_load 17%nat 18%nat. next_instr.
  rewrite run_app by (by repeat constructor). rewrite (run_loads _ _ 18 v); [|hart_cbn; by reg_simp|done|].
  2: { hart_cbn. reg_simp. intros r i Hi. split; [apply frame_regs_in in Hi; lia|by apply Hv]. }
  cbn [obind]. hart_cbn. next_instr. rewrite reg_unloaded by done. reg_simp.
  assert (Hu : u64 (reg R.sp ws + 144) = reg R.sp ws + 144) by (destruct Hf as (H0 & _); apply u64_small; lia). rewrite Hu.
  cbn [run step]. eexists. split; [reflexivity|]. unfold sret. hart_cbn. split_and!; try done.
  - intros r Hr. rewrite x_reg, reg_ne by (by intros <-). apply reg_loaded; [done|]. rewrite !length_insert, Hl.
    apply list_elem_of_fmap in Hr as ([r' i] & -> & Hi). apply (frame_regs_in _ _ Hi).
  - intros r Hr Hne. rewrite !x_reg, reg_ne, reg_unloaded by done. rewrite !reg_ne; [done|intros <-; apply Hr, (bool_decide_unpack _); by vm_compute..].
  - rewrite reg_eq; [done|]. rewrite length_load_all, !length_insert, Hl. unfold R.sp. lia.
Qed.

Lemma sie_round_trip st : has_bit SR_SIE (with_bit SR_SPP false (with_bit SR_SPIE true (with_bit SR_SIE
  (has_bit SR_SPIE (with_bit SR_SPP true (with_bit SR_SIE false (with_bit SR_SPIE (has_bit SR_SIE st) st))))
  (with_bit SR_SPP true (with_bit SR_SIE false (with_bit SR_SPIE (has_bit SR_SIE st) st)))))) = has_bit SR_SIE st.
Proof.
  change SR_SPP with (2 ^ 8). change SR_SIE with (2 ^ 1). change SR_SPIE with (2 ^ 5). rewrite !has_bit_testbit by lia.
  by rewrite !testbit_with_bit by lia.
Qed.

Lemma spp_after_trap st : has_bit SR_SPP (with_bit SR_SPP true st) = true.
Proof. change SR_SPP with (2 ^ 8). rewrite has_bit_testbit, testbit_with_bit by lia. done. Qed.

(** C13: an interrupt is invisible to the kernel code it interrupts (the idle loop of
    main.cpp and the loop of sys_getchar run with interrupts on), but for tp.
    trap_handler is called as from_kernel with the cause and value of the trap; when it
    keeps what the calling convention lets the caller rely on, every register other
    than tp, the program counter, supervisor mode and the interrupt enable bit are what
    they were, tp is that of the CPU on which trap_handler returned (a timer interrupt
    runs the scheduler, and the thread may go on on another CPU), and outside the 18
    words below the stack pointer memory is what it left. *)
Theorem interrupt_invisible cause tval h f :
  user_mode h = false -> length (xs h) = 32%nat -> f_stvec (Riscv.csrs h) = kernel_trap_entry_addr ->
  kernel_trap_entry_addr <> user_trap_entry_addr -> x R.sp h = f + 144 -> f + 144 < 2 ^ 64 -> mapped (ram h) f 18 ->
  (forall hc, length (xs hc) = 32%nat -> x R.a0 hc = 1 -> x R.a1 hc = cause -> x R.a2 hc = tval -> x R.sp hc = f -> (forall k, outside f 18 k -> ram hc !! k = ram h !! k) ->
    exists hd, callee hc = Ok hd /\ keeps_frame hc hd) ->
  exists hc hd hf, callee hc = Ok hd /\ take_trap kernel_trap_entry_addr user_trap_entry_addr callee cause tval h = Ok hf /\
    (forall r, (r < 32)%nat -> r <> R.tp -> x r hf = x r h) /\ x R.tp hf = x R.tp hd /\ pc hf = pc h /\ user_mode hf = false /\
    has_bit SR_SIE (f_sstatus (Riscv.csrs hf)) = has_bit SR_SIE (f_sstatus (Riscv.csrs h)) /\ ram hf = ram hd.
Proof.
  intros Hu Hl Hstv Hne Hsp Hb Hf Hc.
  destruct (kernel_entry_saves (trap cause tval h) (skipn 25 kernel_trap_entry) f Hl Hsp Hf)
    as (hc & E & Hlc & Hsav & Hspc & H0 & H1 & H2 & Hfr & Hse & Hst & Hout & Hm & _).
  destruct (Hc hc Hlc H0 H1 H2 Hspc Hout) as (hd & Ed & Hld & Hcs & Hmd & Hkeep). rewrite Hspc in Hkeep.
  assert (Hspd : x R.sp hd = f) by (rewrite Hcs by (done || by left); done).
  destruct (kernel_entry_restores hd f (fun r => x r h) (pc h) (f_sstatus (Riscv.csrs (trap cause tval h))) Hld Hspd (Hmd _ _ Hm) Hb)
    as (hf & Ef & Hr1 & Hr2 & Hspf & Hpc & Huf & Hsf & Hram).
  { intros r i Hi. rewrite Hkeep by (apply frame_regs_in in Hi; lia). by apply Hfr. }
  { rewrite Hkeep by lia. exact Hse. }
  { rewrite Hkeep by lia. exact Hst. }
  exists hc, hd, hf. split_and!; try done.
  - unfold take_trap. change (pc (trap cause tval h)) with (f_stvec (Riscv.csrs h)). rewrite Hstv, (proj2 (Z.eqb_neq _ _) Hne), Z.eqb_refl.
    change kernel_trap_entry with (firstn 25 kernel_trap_entry ++ skipn 25 kernel_trap_entry) at 1. rewrite E. cbn [run step]. rewrite Ed. exact Ef.
  - intros r Hr Htp. destruct (decide (r ∈ frame_regs.*1)) as [Hin|Hni]; [by apply Hr1|].
    destruct (decide (r = R.sp)) as [->|Hs]; [by rewrite Hspf|]. destruct (decide (r = 0%nat)) as [->|H00]; [done|].
    assert (Hcsr : r ∈ callee_saved) by (by apply other_registers). rewrite Hr2, Hcs, Hsav by done. done.
  - apply Hr2; [|done]. apply (bool_decide_unpack _). by vm_compute.
  - rewrite Huf. unfold trap. cbn [Riscv.csrs f_sstatus]. rewrite Hu. cbn [negb]. by rewrite spp_after_trap.
  - rewrite Hsf. unfold trap. cbn [Riscv.csrs f_sstatus]. rewrite Hu. apply sie_round_trip.
Qed.
End KernelTrap.

Module OneInterrupt.
(** The kernel with interrupts on and 18 words below its stack pointer *)
Definition idle : hart :=
  MkHart (<[2%nat := 16384 + 144]> (map (fun r => 100 + Z.of_nat r) (seq 0 32))) (MkCsrFile SR_SIE 0 0 0 0 2000) false 300 (OneTrap.zeros 16384 18 ∅).
(** A handler after which the thread goes on on the CPU at address 900 *)
Definition migrate (h : hart) : outcome hart := h' <- OneTrap.clobber h ;; Ok (set_x R.tp 900 h').
End OneInterrupt.

Lemma interrupt_invisible_witness :
  exists hc hd hf, OneInterrupt.migrate hc = Ok hd /\ take_trap 2000 1000 OneInterrupt.migrate (2 ^ 63 + 5) 0 OneInterrupt.idle = Ok hf /\
    (forall r, (r < 32)%nat -> r <> R.tp -> x r hf = x r OneInterrupt.idle) /\ x R.tp hf = x R.tp hd /\ pc hf = 300 /\ user_mode hf = false /\
    has_bit SR_SIE (f_sstatus (Riscv.csrs hf)) = true /\ ram hf = ram hd.
Proof.
  apply (interrupt_invisible 2000 1000 OneInterrupt.migrate (2 ^ 63 + 5) 0 OneInterrupt.idle 16384); try done; [by apply mappedb_ok|].
  intros hc Hl _ _ _ Hsp _. eexists. split; [reflexivity|]. split_and!; [by rewrite !xs_set_x, !length_insert| |done|done].
  intros r Hr Htp. destruct (callee_saved_in r Hr) as (H0 & H1 & _). by rewrite !x_set_ne.
Defined.
