(* ===== verification/SwitchTheorems.v ===== *)
(** Theorems on switch_context_entry (TrapEntry.v): a thread that is switched away
    comes back as if switch_context_entry had returned at once, and a new thread
    starts its program.  This is what the [Switched] results of Kernel.v rest on. *)

From Stdlib Require Import ZArith Lia List String.
From stdpp Require Import base numbers list gmap.
From S2P Require Import Prelude KAlloc Kernel Sched SchedTheorems Process Riscv TrapEntry TrapEntryTheorems.

Local Open Scope Z_scope.

Section Switch.
Context (callee : hart -> outcome hart).

(** ra and s0 to s11 with their places in the frame *)
Definition sw_regs : list (nat * nat) := combine [1; 8; 9; 18; 19; 20; 21; 22; 23; 24; 25; 26; 27]%nat (seq 0 13).

Lemma sw_regs_slots : NoDup (sw_regs.*2) /\ Forall (fun e => (e.2 < 14)%nat) sw_regs.
Proof. split; [apply (bool_decide_unpack _); vm_compute; done|]. by repeat constructor. Qed.

Lemma sw_regs_in r i : (r, i) ∈ sw_regs -> (i < 13)%nat /\ r <> R.sp /\ (0 < r < 32)%nat.
Proof.
  intros H. assert (Hf : Forall (fun e => (e.2 < 13)%nat /\ e.1 <> R.sp /\ (0 < e.1 < 32)%nat) sw_regs)
    by (repeat (constructor; [split_and!; [cbn; lia|discriminate|cbn; lia..]|]); constructor).
  exact (proj1 (Forall_forall _ _) Hf (r, i) H).
Qed.

Lemma sw_regs_fst r : r ∈ sw_regs.*1 -> r <> R.sp /\ (0 < r < 32)%nat.
Proof. intros ([r' i] & -> & Hi)%list_elem_of_fmap. apply (sw_regs_in _ _ Hi). Qed.

Lemma frame_at fr i : slot (fr + 112 - 112) i = slot fr i.
Proof. unfold slot. lia. Qed.

(** The thread at [t] is switched away: its stack pointer was [sp], its registers
    [v], and kernel_stack_top is [top]. *)
Definition parked (m : gmap Z Z) (t sp : Z) (v : nat -> Z) (top : Z) : Prop :=
  m !! slot t 35 = Some (sp - 112) /\ (forall r i, (r, i) ∈ sw_regs -> m !! slot (sp - 112) i = Some (v r)) /\ m !! slot (sp - 112) 13 = Some top.

(** Room for the frame below [sp], apart from the Thread object at [t] *)
Definition frame_ok (m : gmap Z Z) (t sp : Z) : Prop :=
  mapped m t 36 /\ mapped m (sp - 112) 14 /\ sp < 2 ^ 64 /\ outside (sp - 112) 14 (slot t 35).

Lemma switch_parks h code from top :
  length (xs h) = 32%nat -> x R.a0 h = from -> frame_ok (ram h) from (x R.sp h) -> ram h !! slot from 35 = Some top ->
  exists h1, run callee (firstn 17 switch_context_entry ++ code) h = run callee code h1 /\ length (xs h1) = 32%nat /\
    parked (ram h1) from (x R.sp h) (fun r => x r h) top /\ (forall r, r <> R.sp -> r <> R.s0 -> x r h1 = x r h) /\
    (forall k, outside (x R.sp h - 112) 14 k -> k <> slot from 35 -> ram h1 !! k = ram h !! k) /\
    (forall a n, mapped (ram h) a n -> mapped (ram h1) a n) /\ Riscv.csrs h1 = Riscv.csrs h /\ user_mode h1 = user_mode h.
Proof.
  destruct h as [ws cs um p m]. rewrite !x_reg. cbn [xs ram]. intros Hl <- (Ht & Hf & Hb & Ho) Htop.
  change (firstn 17 switch_context_entry ++ code) with
    (ADDI R.sp R.sp (-112) :: saves R.sp sw_regs ++ LD R.s0 280 R.a0 :: SD R.s0 104 R.sp :: SD R.sp 280 R.a0 :: code).
  set (fr := reg R.sp ws - 112) in *. assert (Hu : u64 (reg R.sp ws + -112) = fr) by (destruct Hf as (H0 & _); unfold fr in *; rewrite u64_small; lia).
  next_instr. rewrite Hu. rewrite run_app by (by repeat constructor).
  rewrite (run_saves _ _ 14) by (apply sw_regs_slots || hart_cbn; reg_simp; slots). cbn [obind app]. hart_cbn. reg_simp. set (v := fun r => x r _).
  assert (Hout : forall k m', (forall i, (i < 13)%nat -> k <> slot fr i) -> store_all fr v sw_regs m' !! k = m' !! k).
  { intros k m' Hk. apply store_all_out. intros r i Hi. apply Hk. apply (sw_regs_in _ _ Hi). }
  next_by ltac:(apply (load_slot _ _ _ 35 36 top); [hart_cbn; reg_simp; slots|lia|hart_cbn; reg_simp; rewrite Hout by (intros; slot_ne); done]).
  next_store 13%nat 14%nat. next_store 35%nat 36%nat. eexists. split; [reflexivity|]. hart_cbn. reg_simp. split_and!; try done.
  - by rewrite !length_insert.
  - split_and!.
    + by read_word.
    + intros r i Hi. destruct (sw_regs_in r i Hi) as (Hi13 & Hr & _). fold fr. rewrite !lookup_insert_ne by slot_ne.
      rewrite (store_all_in _ _ _ _ _ _ (proj1 sw_regs_slots) Hi). unfold v. by rewrite x_reg, reg_ne.
    + fold fr. by read_word.
  - intros r H1 H2. by rewrite !x_reg, !reg_ne.
  - intros k Hk Hne. rewrite lookup_insert_ne by done. rewrite lookup_insert_ne by slot_ne. apply Hout. intros; slot_ne.
  - intros a n Ha. slots.
Qed.

Lemma switch_unparks h to sp v top :
  length (xs h) = 32%nat -> x R.a1 h = to -> frame_ok (ram h) to sp -> parked (ram h) to sp v top ->
  exists hf, run callee (skipn 17 switch_context_entry) h = Ok hf /\ length (xs hf) = 32%nat /\ (forall r, r ∈ sw_regs.*1 -> x r hf = v r) /\ x R.sp hf = sp /\ pc hf = v R.ra /\
    (forall r, r ∉ sw_regs.*1 -> r <> R.sp -> x r hf = x r h) /\ ram hf = <[slot to 35 := top]> (ram h) /\
    Riscv.csrs hf = Riscv.csrs h /\ user_mode hf = user_mode h.
Proof.
  destruct h as [ws cs um p m]. rewrite x_reg. cbn [xs ram]. intros Hl <- (Ht & Hf & Hb & Ho) (H35 & Hv & Htop).
  change (skipn 17 switch_context_entry) with
    (LD R.sp 280 R.a1 :: LD R.s0 104 R.sp :: SD R.s0 280 R.a1 :: loads R.sp sw_regs ++ [ADDI R.sp R.sp 112; RET]).
  set (fr := sp - 112) in *. next_load 35%nat 36%nat. next_load 13%nat 14%nat. next_store 35%nat 36%nat.
  assert (Hsp : R.sp ∉ sw_regs.*1) by (intros H%sw_regs_fst; by destruct H).
  rewrite run_app by (by repeat constructor). rewrite (run_loads _ _ 14 v); [|hart_cbn; reg_simp; slots|done|].
  2: { hart_cbn. reg_simp. intros r i Hi. pose proof (sw_regs_in r i Hi) as (? & ? & ?). split; [lia|]. rewrite lookup_insert_ne by slot_ne. by apply Hv. }
  cbn [obind]. hart_cbn. next_instr. rewrite reg_unloaded by done. reg_simp.
  assert (Hu : u64 (fr + 112) = sp) by (destruct Hf as (H0 & _); unfold fr in *; rewrite u64_small; lia). rewrite Hu.
  assert (Hin : forall r, r ∈ sw_regs.*1 -> reg r (<[R.sp := sp]> (load_all v sw_regs (<[R.s0 := top]> (<[R.sp := fr]> ws)))) = v r).
  { intros r Hr. destruct (sw_regs_fst r Hr) as [H2 H3]. rewrite reg_ne by done. apply reg_loaded; [done|]. rewrite !length_insert. lia. }
  cbn [run step]. eexists. split; [reflexivity|]. hart_cbn. split_and!; try done.
  - by rewrite length_insert, length_load_all, !length_insert.
  - rewrite reg_eq; [done|]. rewrite length_load_all, !length_insert, Hl. unfold R.sp. lia.
  - apply Hin. by left.
  - intros r Hr Hne. rewrite !x_reg, reg_ne, reg_unloaded by done. rewrite !reg_ne; [done|done|].
    intros <-. apply Hr, (bool_decide_unpack _). by vm_compute.
Qed.

(** What the frame and the Thread object of a parked thread use of memory *)
Definition parked_word (t sp k : Z) : Prop := k = slot t 35 \/ exists i, (i < 14)%nat /\ k = slot (sp - 112) i.

Lemma parked_ext m m' t sp v top : (forall k, parked_word t sp k -> m' !! k = m !! k) -> parked m t sp v top -> parked m' t sp v top.
Proof.
  intros E (H1 & H2 & H3). split_and!.
  - rewrite E; [done|]. by left.
  - intros r i Hi. rewrite E; [by apply H2|]. right. exists i. split; [|done]. pose proof (sw_regs_in r i Hi). lia.
  - rewrite E; [done|]. right. exists 13%nat. split; [lia|done].
Qed.

(** A call switch_context_entry(from, to): the thread [from] uses the stack pointer
    of the hart, [to] was parked with stack pointer [sp], and the words of the two
    lie apart. *)
Record switching (h : hart) (from to sp top : Z) : Prop := {
  sw_len : length (xs h) = 32%nat;
  sw_from : x R.a0 h = from;
  sw_to : x R.a1 h = to;
  sw_frame : frame_ok (ram h) from (x R.sp h);
  sw_top : ram h !! slot from 35 = Some top;
  sw_target : frame_ok (ram h) to sp;
  sw_apart : forall k, parked_word to sp k -> outside (x R.sp h - 112) 14 k /\ k <> slot from 35;
  sw_back : forall k, parked_word from (x R.sp h) k -> k <> slot to 35
}.

(** One switch: the other thread goes on, and the words of this one are parked. *)
Lemma hart_switch_ok h from to sp top v top_to :
  switching h from to sp top -> parked (ram h) to sp v top_to ->
  exists hf, run callee switch_context_entry h = Ok hf /\ length (xs hf) = 32%nat /\
    (forall r, r ∈ sw_regs.*1 -> x r hf = v r) /\ x R.sp hf = sp /\ pc hf = v R.ra /\
    (forall r, r ∉ sw_regs.*1 -> r <> R.sp -> x r hf = x r h) /\ ram hf !! slot to 35 = Some top_to /\
    parked (ram hf) from (x R.sp h) (fun r => x r h) top /\
    (forall k, outside (x R.sp h - 112) 14 k -> k <> slot from 35 -> k <> slot to 35 -> ram hf !! k = ram h !! k) /\
    (forall a n, mapped (ram h) a n -> mapped (ram hf) a n) /\ Riscv.csrs hf = Riscv.csrs h /\ user_mode hf = user_mode h.
Proof.
  intros [Hl Hfrom Hto Hfr Htop Htg Hap Hback] Hp.
  destruct (switch_parks h (skipn 17 switch_context_entry) from top Hl Hfrom Hfr Htop) as (h1 & E1 & Hl1 & Hp1 & Hr1 & Hm1 & Hmap1 & Hc1 & Hu1).
  assert (Hp' : parked (ram h1) to sp v top_to) by (eapply parked_ext; [|exact Hp]; intros k Hk; destruct (Hap k Hk); by apply Hm1).
  destruct Htg as (T1 & T2 & T3 & T4).
  destruct (switch_unparks h1 to sp v top_to Hl1) as (hf & E2 & Hlf & Hv & Hsp & Hpc & Ho & Hram & Hcf & Huf); [by rewrite Hr1|by split_and!; auto|done|].
  exists hf. split_and!; try done.
  - change switch_context_entry with (firstn 17 switch_context_entry ++ skipn 17 switch_context_entry). by rewrite E1.
  - intros r Hr Hne. rewrite Ho by done. apply Hr1; [done|]. intros ->. apply Hr, (bool_decide_unpack _). by vm_compute.
  - by rewrite Hram, lookup_insert_eq.
  - eapply parked_ext; [|exact Hp1]. intros k Hk. rewrite Hram. apply lookup_insert_ne, not_eq_sym. by apply Hback.
  - intros k H1 H2 H3. rewrite Hram, lookup_insert_ne by done. by apply Hm1.
  - intros a n Ha. rewrite Hram. by apply hmapped_insert, Hmap1.
  - by rewrite Hcf.
  - by rewrite Huf.
Qed.

(** A switch of a thread to itself returns at once. *)
Lemma switch_self h t top :
  length (xs h) = 32%nat -> x R.a0 h = t -> x R.a1 h = t -> frame_ok (ram h) t (x R.sp h) -> ram h !! slot t 35 = Some top ->
  exists hf, run callee switch_context_entry h = Ok hf /\ (forall r, x r hf = x r h) /\ pc hf = x R.ra h /\ ram hf !! slot t 35 = Some top.
Proof.
  intros Hl H0 H1 Hfr Htop.
  destruct (switch_parks h (skipn 17 switch_context_entry) t top Hl H0 Hfr Htop) as (h1 & E1 & Hl1 & Hp1 & Hr1 & Hm1 & Hmap1 & _).
  destruct Hfr as (T1 & T2 & T3 & T4).
  destruct (switch_unparks h1 t (x R.sp h) (fun r => x r h) top Hl1) as (hf & E2 & Hlf & Hv & Hsp & Hpc & Ho & Hram & _); [by rewrite Hr1|by split_and!; auto|done|].
  exists hf. split_and!.
  - change switch_context_entry with (firstn 17 switch_context_entry ++ skipn 17 switch_context_entry). by rewrite E1.
  - intros r. destruct (decide (r ∈ sw_regs.*1)) as [Hi|Hn]; [by apply Hv|]. destruct (decide (r = R.sp)) as [->|Hne]; [done|].
    rewrite Ho by done. apply Hr1; [done|]. intros ->. apply Hn, (bool_decide_unpack _). by vm_compute.
  - done.
  - by rewrite Hram, lookup_insert_eq.
Qed.

(** C4: switch_context_entry returns to its caller.  A thread [A] that switches to
    another thread comes out of the call with its stack pointer, its
    callee-saved registers and its kernel_stack_top as they were, behind the call,
    as soon as any thread [C] on any CPU switches to it, if nobody wrote to its
    frame and its kernel_stack_top meanwhile; tp stays that of the CPU that resumes
    it.  The thread it switches to goes on in the same way. *)
Theorem switch_round_trip A B h0 spB vB topA topB :
  switching h0 A B spB topA -> parked (ram h0) B spB vB topB ->
  exists h1, run callee switch_context_entry h0 = Ok h1 /\
    ((forall r, r ∈ sw_regs.*1 -> x r h1 = vB r) /\ x R.sp h1 = spB /\ pc h1 = vB R.ra) /\
    forall C h2 topC, switching h2 C A (x R.sp h0) topC ->
      (forall k, parked_word A (x R.sp h0) k -> ram h2 !! k = ram h1 !! k) ->
      exists h3, run callee switch_context_entry h2 = Ok h3 /\
        (forall r, r ∈ sw_regs.*1 -> x r h3 = x r h0) /\ x R.sp h3 = x R.sp h0 /\ pc h3 = x R.ra h0 /\
        ram h3 !! slot A 35 = Some topA /\ x R.tp h3 = x R.tp h2.
Proof.
  intros Hs Hp. destruct (hart_switch_ok h0 A B spB topA vB topB Hs Hp) as (h1 & E & _ & Hv & Hsp & Hpc & _ & _ & Hpark & _).
  exists h1. split_and!; try done. intros C h2 topC Hs2 Hkeep.
  destruct (hart_switch_ok h2 C A (x R.sp h0) topC (fun r => x r h0) topA Hs2) as (h3 & E3 & _ & Hv3 & Hsp3 & Hpc3 & Ho & Ht & _); [by eapply parked_ext|].
  exists h3. split_and!; try done. apply Ho; [|done]. by apply (bool_decide_unpack _); vm_compute.
Qed.
End Switch.

(** * The first switch to a new thread *)

(** The place of a register in the frame *)
Definition sw_index (r : nat) : nat := match r with 1 => 0 | 8 => 1 | 9 => 2 | _ => r - 15 end%nat.

Lemma sw_index_ok r i : (r, i) ∈ sw_regs -> sw_index r = i.
Proof.
  intros H. assert (Hf : Forall (fun e => sw_index e.1 = e.2) sw_regs) by (repeat (constructor; [reflexivity|]); constructor).
  exact (proj1 (Forall_forall _ _) Hf (r, i) H).
Qed.

(** What is on the stack of a thread counts as a parked frame, whatever the saved
    registers are. *)
Lemma parked_fresh m t sp ra top : mapped m (sp - 112) 14 -> m !! slot t 35 = Some (sp - 112) ->
  m !! slot (sp - 112) 0 = Some ra -> m !! slot (sp - 112) 13 = Some top ->
  exists v, parked m t sp v top /\ v R.ra = ra.
Proof.
  intros (_ & _ & _ & Hs) H35 H0 H13. exists (fun r => default 0 (m !! slot (sp - 112) (sw_index r))). split; [|by cbn [sw_index R.ra]; rewrite H0].
  split_and!; [done| |done]. intros r i Hi. rewrite (sw_index_ok r i Hi). destruct (Hs i) as [w ->]; [pose proof (sw_regs_in r i Hi); lia|done].
Qed.

(** The words that the constructor of Thread leaves at the top of the kernel stack,
    and the registers it gives the thread *)
Lemma new_thread_frame first_run t stack p rank s s' m : new_thread first_run t stack p rank s = Ok s' ->
  112 <= stack + 4 * PAGE_SIZE < 2 ^ 64 -> stack mod 8 = 0 ->
  exists T, threads s' !! t = Some T /\ kernel_stack_top T = stack + 4 * PAGE_SIZE - 112 /\ regs T = <[16%nat := rank]> (repeat 0 31) /\
    stored_words (drop (length (trace s)) (trace s')) m = <[slot (kernel_stack_top T) 13 := stack + 4 * PAGE_SIZE]> (<[slot (kernel_stack_top T) 0 := first_run]> m).
Proof.
  intros E Hb Ha. unfold new_thread in E. destruct (lock_threads s) as [s1| | |] eqn:El; [|done..]. cbn [obind] in E. injection E as <-.
  assert (Htr : trace s1 = trace s) by (unfold lock_threads in El; apply obind_Ok_inv in El as (b & _ & [= <-]); done).
  replace (stack + PAGE_SIZE * 4) with (stack + 4 * PAGE_SIZE) by lia. rewrite (u64_small (stack + 4 * PAGE_SIZE)) by lia.
  rewrite (u64_small (stack + 4 * PAGE_SIZE - 14 * 8)) by lia. eexists. cbn [threads set_threads]. rewrite lookup_insert_eq. split; [done|].
  cbn [kernel_stack_top regs]. split_and!; [lia|done|].
  cbn [set_threads trace emit set_trace unlock_threads set_thread_global_lock set_thread_table]. rewrite Htr, <-app_assoc, drop_app_length. cbn [app stored_words].
  rewrite u64_small by lia. set (k := stack + 4 * PAGE_SIZE - 14 * 8). replace (slot k 13) with (k + 13 * 8) by (unfold slot; lia).
  by replace (slot k 0) with k by (unfold slot; lia).
Qed.

(** C9: a new thread starts its program.  The constructor of Thread lays out a frame
    on the new kernel stack; when the frame and the context of the thread (which
    sys_exec and create_thread have filled) are in memory, the first switch to it
    goes to kernel_thread_first_run with an empty kernel stack, kernel_stack_top is
    the end of the stack again, and from there the hart enters the program at sepc
    with the registers of the context, ready for the next trap. *)
Theorem new_thread_starts callee user_trap_entry_addr first_run t stack p rank s s' T C topC h m :
  new_thread first_run t stack p rank s = Ok s' -> 112 <= stack + 4 * PAGE_SIZE < 2 ^ 64 -> stack mod 8 = 0 ->
  context_at (ram h) t T -> kernel_stack_top T = stack + 4 * PAGE_SIZE - 112 ->
  (forall i, i = 0%nat \/ i = 13%nat -> ram h !! slot (kernel_stack_top T) i = stored_words (drop (length (trace s)) (trace s')) m !! slot (kernel_stack_top T) i) ->
  switching h C t (stack + 4 * PAGE_SIZE) topC -> cpu_runs (ram h) (x R.tp h) t ->
  (forall k, k = slot (x R.tp h) 0 \/ (exists i, (i < 35)%nat /\ k = slot t i) -> outside (x R.sp h - 112) 14 k /\ k <> slot C 35) ->
  exists h1 hf, run callee switch_context_entry h = Ok h1 /\ pc h1 = first_run /\ x R.sp h1 = stack + 4 * PAGE_SIZE /\
    ram h1 !! slot t 35 = Some (stack + 4 * PAGE_SIZE) /\
    kernel_thread_first_run user_trap_entry_addr h1 = Ok hf /\ in_program user_trap_entry_addr hf (x R.tp h) t /\ pc hf = sepc T /\
    forall i, (i < 31)%nat -> regs T !! i = Some (x (S i) hf).
Proof.
  intros En Hb Ha (Hlr & Hregs & Hsepc & H35) Hkst Hst Hsw Hruns Hap.
  destruct (new_thread_frame _ _ _ _ _ _ _ m En Hb Ha) as (T0 & _ & Hk0 & _ & Hwords).
  assert (Hkt : kernel_stack_top T0 = kernel_stack_top T) by congruence. rewrite Hkt in Hwords.
  destruct (sw_target _ _ _ _ _ Hsw) as (Tm & Fm & _). rewrite <-Hkst in Fm.
  destruct (parked_fresh (ram h) t (stack + 4 * PAGE_SIZE) first_run (stack + 4 * PAGE_SIZE)) as (v & Hp & Hv0); rewrite <-?Hkst; try done.
  { rewrite Hst by auto. rewrite Hwords, lookup_insert_ne by slot_ne. apply lookup_insert_eq. }
  { rewrite Hst by auto. rewrite Hwords. apply lookup_insert_eq. }
  destruct (hart_switch_ok callee h C t _ topC v _ Hsw Hp) as (h1 & E1 & Hl1 & _ & Hsp1 & Hpc1 & Ho & Ht35 & _ & Hsame & Hmap & _).
  destruct Hruns as (M1 & M2 & Hrun & O0 & O1).
  assert (Hkeep : forall i, (i < 35)%nat -> ram h1 !! slot t i = ram h !! slot t i).
  { intros i Hi. destruct (Hap (slot t i)) as [A1 A2]; [right; by exists i|]. apply Hsame; [done|done|]. intros E%hslot_inj. lia. }
  assert (Htp : x R.tp h1 = x R.tp h) by (apply Ho; [by apply (bool_decide_unpack _); vm_compute|done]).
  destruct (return_restores user_trap_entry_addr (fun _ => Fault) h1 (x R.tp h) t (fun r => default 0 (regs T !! (r - 1)%nat)) (sepc T) Hl1 Htp)
    as (hf & Ef & Hx & Hpcf & _ & Hin).
  - split_and!; [by apply Hmap|by apply Hmap| |done|done]. destruct (Hap (slot (x R.tp h) 0)) as [A1 A2]; [by left|].
    rewrite Hsame; [done|done|done|]. apply (outside_slot _ 36); [done|lia].
  - split; [|rewrite Hkeep by lia; done]. intros r Hr. rewrite Hkeep, Hregs by lia.
    destruct (lookup_lt_is_Some_2 (regs T) (r - 1)) as [w ->]; [lia|done].
  - exists h1, hf. split_and!; try done; [by rewrite Hpc1|]. intros i Hi. rewrite Hx by lia. rewrite Nat.sub_succ, Nat.sub_0_r.
    destruct (lookup_lt_is_Some_2 (regs T) i) as [w ->]; [lia|done].
Qed.

Module TwoThreads.
Import OneTrap.
(** Thread A at 8192 runs with its stack pointer at 40000; thread B at 12288 is
    parked at 50000. *)
Definition memory : gmap Z Z :=
  <[8192 + 280 := 40960]> (<[12288 + 280 := 49888]> (<[49888 := 777]> (<[49888 + 104 := 51200]>
    (zeros 8192 36 (zeros 12288 36 (zeros 39888 14 (zeros 49888 14 ∅))))))).
Definition registers (sp a0 a1 : Z) : list Z :=
  <[2%nat := sp]> (<[10%nat := a0]> (<[11%nat := a1]> (map (fun r => 100 + Z.of_nat r) (seq 0 32)))).
Definition leaving : hart := MkHart (registers 40000 8192 12288) (MkCsrFile 0 0 0 0 0 2000) false 300 memory.
Definition no_call (h : hart) : outcome hart := Fault.
Definition gone : hart := match run no_call switch_context_entry leaving with Ok h => h | _ => leaving end.
(** B switches back. *)
Definition back : hart := set_x R.a0 12288 (set_x R.a1 8192 gone).
Definition vB (r : nat) : Z := if (r =? 1)%nat then 777 else 0.

Ltac apart := intros k [->|(i & Hi & ->)]; unfold outside, slot, PAGE_SIZE; cbn; lia.

Lemma leaving_ok : switching leaving 8192 12288 50000 40960.
Proof.
  split; try done; [split_and!; [by apply mappedb_ok..|done|cbv; by left]|split_and!; [by apply mappedb_ok..|done|cbv; by left]| |].
  all: change (x R.sp leaving) with 40000; apart.
Qed.

Lemma back_ok : switching back 12288 8192 40000 51200.
Proof.
  split; [by vm_compute..| |by vm_compute| | |].
  1: change (x R.sp back) with 50000; split_and!; [by apply mappedb_ok..|done|cbv; by left].
  1: split_and!; [by apply mappedb_ok..|done|cbv; by left].
  all: change (x R.sp back) with 50000; apart.
Qed.

Lemma parked_B : parked memory 12288 50000 vB 51200.
Proof.
  split_and!; [done| |done]. intros r i Hi.
  assert (Hf : Forall (fun e => memory !! slot (50000 - 112) e.2 = Some (vB e.1)) sw_regs) by (repeat (constructor; [by vm_compute|]); constructor).
  exact (proj1 (Forall_forall _ _) Hf (r, i) Hi).
Qed.
End TwoThreads.

Lemma switch_round_trip_witness :
  pc TwoThreads.gone = 777 /\ exists h3, run TwoThreads.no_call switch_context_entry TwoThreads.back = Ok h3 /\
    (forall r, r ∈ sw_regs.*1 -> x r h3 = x r TwoThreads.leaving) /\ x R.sp h3 = 40000 /\ pc h3 = 101.
Proof.
  destruct (switch_round_trip TwoThreads.no_call 8192 12288 TwoThreads.leaving 50000 TwoThreads.vB 40960 51200
    TwoThreads.leaving_ok TwoThreads.parked_B) as (h1 & E & (_ & _ & Hpc) & Hback).
  assert (El : run TwoThreads.no_call switch_context_entry TwoThreads.leaving = Ok TwoThreads.gone) by by vm_compute.
  rewrite El in E. apply Ok_inj in E. subst h1. split; [exact Hpc|].
  destruct (Hback 12288 TwoThreads.back 51200 TwoThreads.back_ok) as (h3 & E3 & Hr & Hsp & Hpc3 & _); [intros k _; unfold TwoThreads.back; by rewrite !ram_set_x|].
  exists h3. by split_and!.
Defined.

Module FirstSwitch.
Import OneTrap TwoThreads.
(** The thread object at 12288 is created with the kernel stack from 33504 to 49888;
    then its program counter and argument are filled in. *)
Definition before : kernel := OneCpu.quiet.
Definition after : kernel := match new_thread 777 12288 33504 201 0 before with Ok s => s | _ => before end.
Definition T : Thread := match threads after !! 12288 with Some T => T | None => MkThread [] 0 0 false 0 0 0 [] None 0 false false end.
Definition filled : Thread := with_sepc 0x200000 (with_regs (<[9%nat := 3]> (regs T)) T).
(** Thread 8192 switches to it on the CPU at 4096. *)
Definition memory : gmap Z Z :=
  <[4096 := 12288]> (<[8192 + 280 := 40960]> (<[12288 + 280 := 49776]> (<[12288 + 72 := 3]> (<[12288 + 256 := 0x200000]>
    (<[49776 := 777]> (<[49776 + 104 := 49888]>
    (zeros 4096 2 (zeros 8192 36 (zeros 12288 36 (zeros 39888 14 (zeros 49776 14 ∅))))))))))).
Definition leaving : hart := MkHart (<[4%nat := 4096]> (registers 40000 8192 12288)) (MkCsrFile 0 0 0 0 0 2000) false 300 memory.

Lemma parting_ok : switching leaving 8192 12288 (33504 + 4 * PAGE_SIZE) 40960.
Proof.
  split; try done; [split_and!; [by apply mappedb_ok..|done|cbv; by left]|split_and!; [by apply mappedb_ok..|done|cbv; by left]| |].
  all: change (x R.sp leaving) with 40000; apart.
Qed.

Lemma context_ok : context_at (ram leaving) 12288 filled.
Proof.
  split_and!; [by vm_compute| |by vm_compute|by vm_compute]. intros i Hi.
  assert (Hf : Forall (fun i => ram leaving !! slot 12288 i = regs filled !! i) (seq 0 31)) by (apply (bool_decide_unpack _); by vm_compute).
  apply (proj1 (Forall_forall _ _) Hf i). apply elem_of_seq. lia.
Qed.

Lemma runs_new : cpu_runs (ram leaving) (x R.tp leaving) 12288.
Proof. split_and!; [by apply mappedb_ok|by apply mappedb_ok|by vm_compute|cbv; by left..]. Qed.
End FirstSwitch.

Lemma new_thread_starts_witness :
  exists h1 hf, run TwoThreads.no_call switch_context_entry FirstSwitch.leaving = Ok h1 /\ pc h1 = 777 /\
    kernel_thread_first_run 1000 h1 = Ok hf /\ in_program 1000 hf 4096 12288 /\ pc hf = 0x200000 /\ Some 3 = Some (x R.a0 hf).
Proof.
  destruct (new_thread_starts TwoThreads.no_call 1000 777 12288 33504 201 0 FirstSwitch.before FirstSwitch.after FirstSwitch.filled 8192 40960
    FirstSwitch.leaving ∅) as (h1 & hf & E & Hpc & _ & _ & Ek & Hin & Hpcf & Hr).
  - by vm_compute.
  - unfold PAGE_SIZE. lia.
  - done.
  - exact FirstSwitch.context_ok.
  - by vm_compute.
  - intros i [-> | ->]; by vm_compute.
  - exact FirstSwitch.parting_ok.
  - exact FirstSwitch.runs_new.
  - change (x R.sp FirstSwitch.leaving) with 40000. change (x R.tp FirstSwitch.leaving) with 4096.
    intros k [->|(i & Hi & ->)]; unfold outside, slot; cbn; lia.
  - exists h1, hf. split; [exact E|]. split; [exact Hpc|]. split; [exact Ek|]. split; [exact Hin|]. split; [exact Hpcf|]. refine (eq_trans _ (Hr 9%nat _)); [by vm_compute|lia].
Defined.
