(* ===== verification/LibraryCall.v ===== *)
(** A system call from end to end: the stub of src/tiny_libc/syscall.S in the program
    (TrapEntry.v), the trap into the kernel and back (TrapEntryTheorems.v), and what
    trap_handler does to the thread (SyscallTheorems.v). *)

From Stdlib Require Import ZArith Lia List String.
From stdpp Require Import base numbers list gmap.
From S2P Require Import Prelude Kernel Sched SchedTheorems Syscall SyscallTheorems Riscv TrapEntry TrapEntryTheorems.

Local Open Scope Z_scope.

Section LibraryCall.
Context (service : syscall_func -> list Z -> nat -> kernel -> outcome (kres Z)).
Context (junk : Z) (first_run fresh stack : Z) (string_at : Z -> list Z) (bytes_at : Z -> Z -> list Z).
Context (net_idle_check cache_scan_timer handle_ext_irq : nat -> kernel -> outcome kernel) (alloc_page : Z -> nat -> kernel -> outcome kernel).
Context (kernel_trap_entry_addr user_trap_entry_addr : Z) (callee : hart -> outcome hart).
Implicit Types (s : kernel).

Abbreviation handle := (handle_syscall service junk first_run fresh stack string_at bytes_at).
Abbreviation handler := (trap_handler service junk first_run fresh stack string_at bytes_at net_idle_check cache_scan_timer handle_ext_irq alloc_page).
Abbreviation stub := (DEFINE_SYSCALL kernel_trap_entry_addr user_trap_entry_addr callee).

(** The thread [T] of the model holds the registers of a program that is at [at_ecall]. *)
Definition holds_program (T : Thread) (h : hart) (at_ecall : Z) : Prop :=
  (forall i, (i < 31)%nat -> regs T !! i = Some (x (S i) h)) /\ sepc T = at_ecall.

(** The compiled trap_handler, called in [hc] on CPU [c] in state [s], returns, as
    trap_handler does, to the thread at [t] on some CPU, and leaves the thread's
    context in memory as it is in the state it ends in. *)
Definition runs_handler (c : nat) s (t : Z) (hc : hart) : Prop :=
  exists r hd c' s' T', handler EXC_SYSCALL 0 c s = Ok r /\ completes c r c' tt s' /\ callee hc = Ok hd /\
    threads s' !! t = Some T' /\ context_at (ram hd) t T' /\ length (xs hd) = 32%nat /\ cpu_runs (ram hd) (x R.tp hd) t.

Lemma regs_args T h at_ecall : holds_program T h at_ecall ->
  take 8 (drop 9 (regs T)) = [x R.a0 h; x R.a1 h; x R.a2 h; x R.a3 h; x R.a4 h; x R.a5 h; x R.a6 h; x R.a7 h].
Proof.
  intros [Hr _]. apply list_eq. intros i. destruct (decide (i < 8)%nat) as [Hi|Hi].
  - rewrite lookup_take_lt, lookup_drop by lia. rewrite Hr by lia. by do 8 (destruct i as [|i]; [reflexivity|]); lia.
  - rewrite lookup_take_ge by lia. symmetry. apply lookup_ge_None_2. cbn. lia.
Qed.

(** C8: a library function makes its system call and returns.  The stub loads the
    number into a7 and traps; the function the kernel runs gets a0 to a6 and the
    number as they were in the program; when the kernel returns to the thread,
    having left its context to the call, the stub returns to its caller with the
    result of the call in a0, with every register but a0 and a7 as it was, in
    user mode, ready for the next trap. *)
Theorem library_call_returns number at_ecall h cpu t c s T :
  in_program user_trap_entry_addr h cpu t -> current s c = Ok t -> threads s !! t = Some T ->
  holds_program T (set_x R.a7 number h) at_ecall ->
  (forall hc, entered kernel_trap_entry_addr (Riscv.trap EXC_SYSCALL 0 (set_pc at_ecall (set_x R.a7 number h))) hc cpu t -> runs_handler c s t hc) ->
  exists r0 c1 ret s1 T1,
    handle [x R.a0 h; x R.a1 h; x R.a2 h; x R.a3 h; x R.a4 h; x R.a5 h; x R.a6 h; number] c s = Ok r0 /\ completes c r0 c1 ret s1 /\
    threads s1 !! t = Some T1 /\
    (regs T1 = regs T -> sepc T1 = sepc T ->
      exists hf cpu', stub number at_ecall h = Ok hf /\ x R.a0 hf = ret /\ pc hf = x R.ra h /\
        (forall r, r <> R.a0 -> r <> R.a7 -> x r hf = x r h) /\ in_program user_trap_entry_addr hf cpu' t).
Proof.
  intros Hp Hcur HT Hh Hrun. pose proof Hp as (Hu & Hl & Hstv & Hss & Hcr).
  set (h1 := set_pc at_ecall (set_x R.a7 number h)). assert (Hp1 : in_program user_trap_entry_addr h1 cpu t).
  { split_and!; [done|unfold h1; cbn; by rewrite length_insert|done..|exact Hcr]. }
  destruct (take_trap_resumes kernel_trap_entry_addr user_trap_entry_addr callee EXC_SYSCALL 0 h1 cpu t Hp1) as (hc & Hent & Hres).
  destruct (Hrun hc Hent) as (r & hd & c' & s' & T' & Er & Hcomp & Ed & HT' & (Hlr & Hregs & Hsepc & _) & Hld & Hruns).
  destruct (syscall_thread_returned service junk first_run fresh stack string_at bytes_at net_idle_check cache_scan_timer handle_ext_irq alloc_page
    0 c s t T r c' s' Hcur HT Er Hcomp) as (r0 & ret & s1 & T1 & Eh & Hc1 & HT1 & ->).
  exists r0, c', ret, s1, T1. rewrite (regs_args T _ at_ecall Hh), !x_set_ne, x_set_eq in Eh by (done || rewrite Hl; cbv; lia).
  split_and!; [done..|]. intros Eregs Esepc. cbn [threads set_threads] in HT'. rewrite lookup_insert_eq in HT'. injection HT' as <-.
  destruct Hh as [Hhr Hhs]. unfold returned in *. cbn [regs sepc with_sepc with_regs] in Hregs, Hsepc, Hlr. rewrite length_insert in Hlr. rewrite Esepc, Hhs in Hsepc.
  destruct (Hres hd (x R.tp hd) t (fun r => if decide (r = R.a0) then ret else x r h1) (u64 (at_ecall + 4)) Ed Hld eq_refl Hruns) as (hf & Ef & Hx & Hpc & Hram & Hin).
  - split; [|done]. intros q Hq. rewrite Hregs by lia. destruct (decide (q = R.a0)) as [->|Hne]; [by apply list_lookup_insert_eq; rewrite Hlr; cbv; lia|].
    rewrite list_lookup_insert_ne by (unfold R.a0 in Hne; lia). rewrite Eregs, Hhr by lia. by replace (S (q - 1)) with q by lia.
  - exists (set_pc (x R.ra hf) hf), (x R.tp hd). split_and!.
    + unfold DEFINE_SYSCALL. cbn [step obind]. fold h1. rewrite Ef. cbn [obind]. by rewrite Hpc, Z.eqb_refl.
    + change (x R.a0 hf = ret). rewrite Hx by (cbv; lia). done.
    + change (x R.ra hf = x R.ra h). rewrite Hx by (cbv; lia). cbn [decide]. rewrite decide_False by done. change (x R.ra (set_x R.a7 number h) = x R.ra h). by apply x_set_ne.
    + intros q H1 H2. change (x q hf = x q h). trans (x q (set_x R.a0 ret h1)).
      * apply (x_ext hf); [apply Hin|unfold h1; cbn; by rewrite !length_insert|]. intros q' Hq'. rewrite Hx by done.
        destruct (decide (q' = R.a0)) as [->|Hne]; [rewrite x_set_eq; [done|unfold h1; cbn; rewrite length_insert, Hl; lia]|by rewrite x_set_ne].
      * rewrite x_set_ne by done. change (x q (set_x R.a7 number h) = x q h). by apply x_set_ne.
    + exact Hin.
Qed.
End LibraryCall.

Module GetPid.
Import OneTrap.
(** The program of OneTrap as thread 8192 of a process of SchedTheorems *)
Definition T : Thread :=
  match threads OneCpu.quiet !! 101 with
  | Some T => with_sepc 65540 (with_regs (map (fun i => x (S i) (set_x R.a7 6 program)) (seq 0 31))
      (MkThread [] 0 20480 false (process T) 0 0 [] None 0 false true))
  | None => MkThread [] 0 0 false 0 0 0 [] None 0 false true
  end.
Definition asking : kernel := set_cpus (set_threads OneCpu.quiet {[8192 := T]}) [MkCPU 8192 8192 0 0].
Definition nothing (c : nat) (s : kernel) : outcome kernel := Ok s.
Definition handler s := trap_handler (fun _ _ _ _ => Panic) 0 0 0 0 (fun _ => []) (fun _ _ => []) nothing nothing nothing (fun _ => nothing)
  Syscall.EXC_SYSCALL 0 0%nat s.
Definition result : kernel := match handler asking with Ok (Done _ s) => s | _ => asking end.
Lemma T_regs i : (i < 31)%nat -> regs T !! i = Some (x (S i) (set_x R.a7 6 program)).
Proof.
  intros Hi. assert (Hf : Forall (fun i => regs T !! i = Some (x (S i) (set_x R.a7 6 program))) (seq 0 31)) by (apply (bool_decide_unpack _); by vm_compute).
  apply (proj1 (Forall_forall _ _) Hf i). apply elem_of_seq. lia.
Qed.

(** The compiled handler stores the result and the program counter. *)
Definition compiled (hc : hart) : outcome hart :=
  Ok (set_ram (<[slot 8192 9 := 1]> (<[slot 8192 32 := 65544]> (ram hc))) hc).

Lemma result_context m hc : entered m (Riscv.trap Syscall.EXC_SYSCALL 0 (set_pc 65540 (set_x R.a7 6 program))) hc 4096 8192 ->
  context_at (<[slot 8192 9 := 1]> (<[slot 8192 32 := 65544]> (ram hc))) 8192 (returned 1 T).
Proof.
  intros He. split_and!; [by vm_compute| | |].
  - intros i Hi. destruct (decide (i = 9%nat)) as [->|Hne]; [rewrite lookup_insert_eq; by vm_compute|].
    rewrite !lookup_insert_ne by (intros E%hslot_inj; lia). pose proof (en_regs _ _ _ _ _ He (S i)) as Hr.
    rewrite Nat.sub_succ, Nat.sub_0_r in Hr. rewrite Hr by lia. unfold returned. cbn [regs with_sepc with_regs].
    rewrite list_lookup_insert_ne by done. symmetry. by apply T_regs.
  - rewrite lookup_insert_ne by (intros E%hslot_inj; lia). by rewrite lookup_insert_eq.
  - rewrite !lookup_insert_ne by (intros E%hslot_inj; lia). rewrite (en_other _ _ _ _ _ He); [by vm_compute|cbv; by right|done].
Qed.

Lemma handler_runs hc : entered 2000 (Riscv.trap Syscall.EXC_SYSCALL 0 (set_pc 65540 (set_x R.a7 6 program))) hc 4096 8192 ->
  runs_handler (fun _ _ _ _ => Panic) 0 0 0 0 (fun _ => []) (fun _ _ => []) nothing nothing nothing (fun _ => nothing) compiled 0 asking 8192 hc.
Proof.
  intros He. assert (Eh : handler asking = Ok (Done tt result)) by by vm_compute.
  eexists _, _, 0%nat, result, (returned 1 T). split; [exact Eh|]. split; [constructor|]. split; [reflexivity|]. split; [by vm_compute|].
  split; [exact (result_context _ _ He)|]. split; [exact (en_len _ _ _ _ _ He)|].
  change (x R.tp _) with (x R.tp hc). rewrite (en_tp _ _ _ _ _ He).
  pose proof (runs_later (Riscv.trap Syscall.EXC_SYSCALL 0 (set_pc 65540 (set_x R.a7 6 program))) hc eq_refl He) as (M1 & M2 & Hr & O0 & O1). split_and!; [by do 2 apply hmapped_insert|by do 2 apply hmapped_insert| |done|done].
  cbn [ram set_ram]. by rewrite !lookup_insert_ne.
Qed.
End GetPid.

Lemma library_call_returns_witness :
  exists hf cpu', DEFINE_SYSCALL 2000 1000 GetPid.compiled 6 65540 OneTrap.program = Ok hf /\ x R.a0 hf = 1 /\ pc hf = 101 /\
    (forall r, r <> R.a0 -> r <> R.a7 -> x r hf = x r OneTrap.program) /\ in_program 1000 hf cpu' 8192.
Proof.
  destruct (library_call_returns (fun _ _ _ _ => Panic) 0 0 0 0 (fun _ => []) (fun _ _ => []) GetPid.nothing GetPid.nothing GetPid.nothing (fun _ => GetPid.nothing)
    2000 1000 GetPid.compiled 6 65540 OneTrap.program 4096 8192 0 GetPid.asking GetPid.T OneTrap.in_user) as (r0 & c1 & ret & s1 & T1 & Eh & Hc & HT1 & Hres).
  - reflexivity.
  - by vm_compute.
  - split; [|reflexivity]. exact GetPid.T_regs.
  - exact GetPid.handler_runs.
  - assert (E : r0 = Done 1 GetPid.asking) by (revert Eh; vm_compute; congruence). subst r0. inversion Hc; subst.
    assert (ET : T1 = GetPid.T) by (revert HT1; vm_compute; congruence). subst T1.
    exact (Hres eq_refl eq_refl).
Defined.
