(* ===== verification/Boot.v ===== *)
(** From the boot block to main: src/bootloader/bootblock.S, src/src/arch/start.S,
    boot_kernel and enable_vm of src/src/page.cpp, src/src/arch/head.S, and
    src/src/time.cpp's init_timer.

    Physical memory is a function from addresses to bytes (Exec.v).  The firmware
    has put sector 0 of the card at 0x50200000 and starts every hart there; its
    calls put a text on the console and read sectors (Exec.v). *)

From Stdlib Require Import ZArith Lia List.
From stdpp Require Import base numbers list gmap.
From S2P Require Import Prelude KAlloc Kernel Sched Page Image Exec Syscall.

Local Open Scope Z_scope.

(** * bootblock.S *)

Definition os_size_loc : Z := 0x502001fc.
Definition kernel_entry : Z := 0x50202000.   (* kernel *)
Definition kernel_size_addr : Z := 0x502001fc.

(** lh: a halfword of memory with its sign *)
Definition lh (r : Z -> Z) (a : Z) : Z := i16 (r a + 256 * r (a + 1)).

(** Where a hart goes from the boot block: hart 0 jumps to the kernel with a0 = 0;
    the others wait for an interrupt that takes them to stvec. *)
Inductive booting :=
| Jump (target a0 : Z) (r : Z -> Z)
| Wait (h : csrs) (r : Z -> Z).

Definition msg : list Z :=   (* "It's Xujinsheng's bootloader...\n\r" *)
  [73; 116; 39; 115; 32; 88; 117; 106; 105; 110; 115; 104; 101; 110; 103; 39; 115; 32; 98; 111; 111; 116; 108; 111; 97; 100; 101; 114; 46; 46; 46; 10; 13].

Section Bootblock.
(** The sectors of the card *)
Context (sd : Z -> list Z).

(** main of bootblock.S; the list is what is printed.  A negative number of sectors
    is nothing the firmware describes. *)
Definition bootblock (a0 : Z) (h : csrs) (r : Z -> Z) : outcome (list Z * booting) :=
  if a0 =? 0 then
    let a1 := lh r kernel_size_addr in
    if a1 <? 0 then Fault
    else
      let r := write_ram r kernel_entry (read_sectors sd (Z.to_nat a1) 1) in
      Ok (msg, Jump kernel_entry 0 r)
  else
    let h := MkCsrs (sstatus h) SIE_SSIE (stvec h) (sip h) in
    let h := MkCsrs (csr_set (sstatus h) SR_SIE) (sie h) (stvec h) (sip h) in
    let h := MkCsrs (sstatus h) (sie h) kernel_entry (sip h) in
    Ok ([], Wait h r).
End Bootblock.

(** * start.S and boot_kernel *)

Definition boot_stack_top_base : Z := 0x50202000.
(** _boot: the interrupts are masked; the stack pointer, a0 and the registers at the
    call of boot_kernel *)
Definition _boot (mhartid : Z) (h : csrs) : Z * Z * csrs := (boot_stack_top_base, mhartid, MkCsrs (sstatus h) 0 (stvec h) 0).

Section Vm.
Context {H : Type} {PS : page_source H}.
Implicit Types (v : vm H).

(** void enable_vm() *)
Definition enable_vm : list vm_event := [WriteSatp (satp 8 0 PGDIR_PA); SfenceAll].

(** int boot_kernel(unsigned long mhartid): [_start] is the physical address of the
    kernel's entry, at which the boot code is linked to see it; the result is the
    address that is called and its argument. *)
Definition boot_kernel (_start mhartid : Z) v : outcome (Z * Z * list vm_event * vm H) :=
  v <- (if mhartid =? 0 then setup_vm v else Ok v) ;;
  Ok (u64 (pa2kva _start), mhartid, enable_vm, v).
End Vm.

(** * head.S *)

Definition KERNEL_STACK : Z := 0xffffffc050500000.
Definition SR_SUM : Z := 0x00040000.
(** _start: the stack pointer of the hart and its registers at the jump to main *)
Definition _start (a0 : Z) (h : csrs) : Z * csrs :=
  let h := MkCsrs (sstatus h) 0 (stvec h) 0 in
  let h := MkCsrs (csr_set (sstatus h) SR_SUM) (sie h) (stvec h) (sip h) in
  (u64 (KERNEL_STACK - u64 (0x10000 * a0)), h).

(** * time.cpp *)

Definition set_time_base (s : kernel) (v : Z) : kernel :=
  MkKernel (threads s) (thread_table s) (thread_global_lock s) (processes s) (process_table s) (process_global_lock s) (process_to_release s) (cleanup_lock s) (kernel_objects s) (cpus s) (ready_queue s) (ready_lock s) (sleeping_queue s) (sleep_lock s) (mutexes s) (mutex_pool s) (barriers s) (barrier_pool s) (conditions s) (condition_pool s) (mailboxes s) (mailbox_pool s) (file_pool s) (rdtime s) (reads s) v (trace s).
(** void init_timer(): [timebase] is bios_read_fdt(TIMEBASE). *)
Definition init_timer (timebase : Z) (s : kernel) : kernel :=
  let '(now, s) := get_ticks s in
  let s := emit s (SetTimer now) in
  set_time_base s timebase.
