(* ===== verification/BootTheorems.v ===== *)
(** Theorems on booting (Boot.v): the kernel that createimage.c put on the card is
    what hart 0 runs once paging is on. *)

From Stdlib Require Import ZArith Lia List.
From stdpp Require Import base numbers list gmap.
From S2P Require Import Prelude FsLayout KAlloc Kernel Page PageProps Image ImageTheorems Exec ExecTheorems PageTheorems Syscall Boot.

Local Open Scope Z_scope.
#[local] Ltac Zify.zify_post_hook ::= Z.div_mod_to_equations.

(** * The boot block *)

Lemma i16_small z : 0 <= z < 2 ^ 15 -> i16 z = z.
Proof. intros Hz. unfold i16. rewrite Z.mod_small; lia. Qed.

Lemma kernel_bytes_none apps : forall datas, [109; 97; 105; 110] ∉ apps -> kernel_bytes apps datas = 0.
Proof.
  induction apps as [|f apps IH]; intros datas Hn; [done|]. apply not_elem_of_cons in Hn as [Hf Hn]. destruct datas as [|d datas]; [done|].
  unfold kernel_bytes in *. cbn [zip_with foldr fst snd]. rewrite IH by done. unfold is_main. rewrite bool_decide_false by (intros ->; by apply Hf). done.
Qed.

(** The files: a boot block of one sector, the kernel "main", programs of other
    names; the kernel ends below the page tables of boot_kernel. *)
Record boot_input (host : list Z -> option (list Z)) (boot : list Z) (apps datas : list (list Z)) (bootdata kdata : list Z) : Prop := {
  bi_input : image_input host boot [109; 97; 105; 110] apps datas;
  bi_boot : datas !! 0%nat = Some bootdata;
  bi_kernel : datas !! 1%nat = Some kdata;
  bi_one_sector : length (padded bootdata) = 512%nat;
  bi_names : boot <> [109; 97; 105; 110] /\ [109; 97; 105; 110] ∉ apps;
  bi_size : kernel_entry + 512 * NBYTES2SEC (Z.of_nat (length (payload kdata))) <= PGDIR_PA
}.

Lemma kernel_sectors host boot apps datas bootdata kdata : boot_input host boot apps datas bootdata kdata ->
  kernel_bytes (boot :: [109; 97; 105; 110] :: apps) datas = Z.of_nat (length (payload kdata)).
Proof.
  intros [_ H0 H1 _ [Hb Ha] _]. destruct datas as [|d0 [|d1 datas]]; try done. cbn in H0, H1. injection H0 as ->. injection H1 as ->.
  pose proof (kernel_bytes_none apps datas Ha) as Hz. unfold kernel_bytes in *. cbn [zip_with foldr fst snd]. rewrite Hz.
  unfold is_main. rewrite bool_decide_false by (intros E; by apply Hb). rewrite bool_decide_true by done. lia.
Qed.

(** The firmware has put sector 0 at 0x50200000. *)
Definition sector_loaded (sd : Z -> list Z) (r : Z -> Z) : Prop := forall i, (i < 512)%nat -> r (0x50200000 + Z.of_nat i) = nth i (sd 0) 0.

Lemma halfword (b : list Z) o : (o + 1 < length b)%nat -> u16_at b o = nth o b 0 + 256 * nth (o + 1) b 0.
Proof.
  intros Hl. destruct (lookup_lt_is_Some_2 b o) as [x Hx]; [lia|]. destruct (lookup_lt_is_Some_2 b (S o)) as [y Hy]; [lia|].
  unfold u16_at. rewrite (drop_S b x o Hx), (drop_S b y (S o) Hy). cbn [take le_val]. rewrite Nat.add_1_r.
  rewrite !nth_lookup, Hx, Hy. cbn. rewrite take_0. cbn [le_val]. lia.
Qed.

Lemma lh_loaded sd r : sector_loaded sd r -> length (sd 0) = 512%nat -> lh r kernel_size_addr = i16 (u16_at (sd 0) 508).
Proof.
  intros Hr Hl. rewrite halfword by lia. unfold lh. f_equal. rewrite <- (Hr 508%nat), <- (Hr (508 + 1)%nat) by lia. done.
Qed.

(** The boot block puts the kernel's segments, padded to sectors, at 0x50202000. *)
Lemma bootblock_loads host boot apps datas bootdata kdata im sd h r :
  boot_input host boot apps datas bootdata kdata -> create_image host (boot :: [109; 97; 105; 110] :: apps) = Ok im ->
  holds_image sd im -> length (sd 0) = 512%nat -> sector_loaded sd r ->
  exists r', bootblock sd 0 h r = Ok (msg, Jump kernel_entry 0 r') /\
    (forall k, (k < length (payload kdata))%nat -> r' (kernel_entry + Z.of_nat k) = nth k (payload kdata) 0) /\
    (forall a, a < kernel_entry \/ kernel_entry + Z.of_nat (length (padded kdata)) <= a -> r' a = r a).
Proof.
  intros Hb Hi Hh Hl Hr. pose proof (image_table _ _ _ _ _ (bi_input _ _ _ _ _ _ Hb)) as (im' & Ei & Hread).
  rewrite Hi in Ei. apply Ok_inj in Ei. subst im'. destruct (Hread sd Hh) as [_ Hos _ Hk _].
  specialize (Hk kdata bootdata (bi_kernel _ _ _ _ _ _ Hb) (bi_boot _ _ _ _ _ _ Hb) (bi_one_sector _ _ _ _ _ _ Hb)).
  pose proof (bi_size _ _ _ _ _ _ Hb) as Hsz. unfold kernel_entry, PGDIR_PA in Hsz. rewrite (kernel_sectors _ _ _ _ _ _ Hb) in Hos.
  assert (H0 : 0 <= NBYTES2SEC (Z.of_nat (length (payload kdata)))) by (rewrite sectors_nat by lia; lia).
  rewrite Z.mod_small in Hos by lia. unfold bootblock. rewrite (lh_loaded sd r Hr Hl), Hos, i16_small by lia. cbn [Z.eqb].
  rewrite (proj2 (Z.ltb_ge _ _)) by lia. rewrite Hk. eexists. split; [reflexivity|]. split.
  - intros k Hlt. rewrite write_ram_in by (unfold padded; rewrite length_app; lia). rewrite Nat2Z.id. unfold padded. by rewrite app_nth1.
  - intros a Ha. by apply write_ram_out.
Qed.

(** * The first page table *)

Section Vm.
Context {H : Type} {PS : page_source H}.
Implicit Types (v : vm H).

(** The entry of the two 1 GiB pages *)
Definition early_entry : PageEntry := new_entry RWX false true true true (Z.shiftr boot_base 12).

Lemma setup_vm_maps v : exists v', setup_vm v = Ok v' /\
  entry (tabs v') (pa2kva PGDIR_PA, get_vpn (pa2kva boot_base) 2) = Some early_entry /\
  entry (tabs v') (pa2kva PGDIR_PA, get_vpn boot_base 2) = Some early_entry /\
  (forall q, q <> pa2kva PGDIR_PA -> forall i, entry (tabs v') (q, i) = entry (tabs v) (q, i)).
Proof.
  unfold setup_vm, store_pte. cbv zeta. change (new_entry RWX false true true true (Z.shiftr boot_base 12)) with early_entry. set (pg := pa2kva PGDIR_PA). set (T0 := tabs (bzero_table pg v)).
  assert (E0 : forall i, (i < 512)%nat -> entry T0 (pg, i) = Some (decode 0)).
  { intros i Hi. unfold T0, bzero_table. cbn [tabs set_tabs]. rewrite entry_bzero, decide_True, decide_True by done. done. }
  destruct (set_pte_spec T0 (pg, get_vpn (pa2kva boot_base) 2) early_entry _ (E0 _ (get_vpn_lt _ _))) as (T1 & -> & A1 & O1 & _).
  cbn [obind tabs set_tabs]. destruct (set_pte_spec T1 (pg, get_vpn boot_base 2) early_entry (decode 0)) as (T2 & -> & A2 & O2 & _).
  { rewrite O1 by (by vm_compute). apply E0, get_vpn_lt. }
  cbn [obind tabs set_tabs].
  destruct (set_pte_spec T2 (pg, get_vpn IO_BASE_VA 2) (new_entry Noleaf false true false false (Z.shiftr (PGDIR_PA + PAGE_SIZE) 12)) (decode 0)) as (T3 & -> & A3 & O3 & _).
  { rewrite O2, O1 by (by vm_compute). apply E0, get_vpn_lt. }
  cbn [obind]. eexists. split; [reflexivity|]. cbn [tabs set_tabs]. split_and!.
  - by rewrite O3, O2 by (by vm_compute).
  - by rewrite O3 by (by vm_compute).
  - intros q Hq i. rewrite O3, O2, O1 by congruence. unfold T0, bzero_table. cbn [tabs set_tabs]. by rewrite entry_bzero, decide_False.
Qed.
End Vm.

Lemma gib_page T va pa : entry T (pa2kva PGDIR_PA, get_vpn va 2) = Some early_entry -> canonical va = true ->
  2 ^ 30 <= pa < 2 ^ 31 -> va mod 2 ^ 30 = pa mod 2 ^ 30 -> translate T (pa2kva PGDIR_PA) va = Some (pa, encode early_entry).
Proof.
  intros He Hc Hpa Hmod. unfold translate. rewrite Hc, kva2pa_pa2kva by (by vm_compute).
  rewrite (sv39_step T 2 PGDIR_PA va early_entry He) by (by vm_compute). cbn [V XWR A early_entry new_entry negb RWX].
  change (ppn early_entry * 2 ^ 12) with (2 ^ 30). change (12 + 9 * Z.of_nat 2) with 30. rewrite Hmod.
  change (Z.testbit 7 0) with true. cbn [negb andb orb]. change (negb (2 ^ 30 mod 2 ^ 30 =? 0)) with false. cbn match. f_equal. f_equal.
  rewrite Z.mod_eq by lia. replace (pa / 2 ^ 30) with 1; [lia|]. apply Z.div_unique with (pa - 2 ^ 30); lia.
Qed.

(** Both views of the memory the kernel and the boot code live in *)
Lemma boot_translates T pa : entry T (pa2kva PGDIR_PA, get_vpn (pa2kva boot_base) 2) = Some early_entry ->
  entry T (pa2kva PGDIR_PA, get_vpn boot_base 2) = Some early_entry -> 2 ^ 30 <= pa < 2 ^ 31 ->
  translate T (pa2kva PGDIR_PA) (pa2kva pa) = Some (pa, encode early_entry) /\ translate T (pa2kva PGDIR_PA) pa = Some (pa, encode early_entry).
Proof.
  intros Hk Hi Hpa. assert (Hq : pa / 2 ^ 30 = 1) by (symmetry; apply Z.div_unique with (pa - 2 ^ 30); lia).
  assert (Hkva : pa2kva pa = 2 ^ 64 - 2 ^ 38 + pa) by (rewrite pa2kva_small by lia; unfold KERNEL_MASK; lia).
  assert (Hvk : get_vpn (pa2kva pa) 2 = get_vpn (pa2kva boot_base) 2).
  { apply Nat2Z.inj. rewrite !get_vpn_div. change (12 + 9 * Z.of_nat 2) with 30. rewrite Hkva.
    replace (2 ^ 64 - 2 ^ 38 + pa) with (pa + (2 ^ 34 - 2 ^ 8) * 2 ^ 30) by lia. rewrite Z.div_add, Hq by lia. by vm_compute. }
  assert (Hvi : get_vpn pa 2 = get_vpn boot_base 2).
  { apply Nat2Z.inj. rewrite !get_vpn_div. change (12 + 9 * Z.of_nat 2) with 30. rewrite Hq. by vm_compute. }
  split; apply gib_page; rewrite ?Hvk, ?Hvi; try done.
  - unfold canonical. rewrite Hkva. apply orb_true_iff. right. apply Z.leb_le. lia.
  - rewrite Hkva. replace (2 ^ 64 - 2 ^ 38 + pa) with (pa + (2 ^ 34 - 2 ^ 8) * 2 ^ 30) by lia. by rewrite Z.mod_add.
  - unfold canonical. apply orb_true_iff. left. apply Z.ltb_lt. lia.
Qed.

(** The register value that enable_vm writes: Sv39 with the root at PGDIR_PA *)
Lemma satp_boot : exists w, enable_vm = [WriteSatp w; SfenceAll] /\ w / 2 ^ 60 = 8 /\ (w mod 2 ^ 44) * 2 ^ 12 = PGDIR_PA.
Proof. eexists. split; [reflexivity|]. split; by vm_compute. Qed.

(** C2: the machine boots the kernel that createimage was given.  From a boot block of
    one sector, the kernel and programs of other names createimage builds an image;
    on a card with this image the boot block, which the firmware has loaded, reads
    the kernel and jumps to it with a0 = 0, and boot_kernel turns on paging with a
    table through which the kernel sees itself: the address it jumps to and every
    other byte of the kernel's segments, at its linked address and at its physical
    one, hold what the kernel's file says, and none of it is accessible to
    programs. *)
Theorem image_boots {H : Type} {PS : page_source H} host boot apps datas bootdata kdata sd h r (v : vm H) :
  boot_input host boot apps datas bootdata kdata -> length (sd 0) = 512%nat -> sector_loaded sd r ->
  exists im, create_image host (boot :: [109; 97; 105; 110] :: apps) = Ok im /\
    (holds_image sd im ->
     exists r' w, bootblock sd 0 h r = Ok (msg, Jump kernel_entry 0 r') /\ w / 2 ^ 60 = 8 /\ (w mod 2 ^ 44) * 2 ^ 12 = PGDIR_PA /\
     forall off, (off < length (payload kdata))%nat ->
       exists v', boot_kernel (kernel_entry + Z.of_nat off) 0 v = Ok (pa2kva (kernel_entry + Z.of_nat off), 0, [WriteSatp w; SfenceAll], v') /\
       forall k, (k < length (payload kdata))%nat ->
         let pa := kernel_entry + Z.of_nat k in
         r' pa = nth k (payload kdata) 0 /\
         fst <$> translate (tabs v') (pa2kva PGDIR_PA) (pa2kva pa) = Some pa /\ fst <$> translate (tabs v') (pa2kva PGDIR_PA) pa = Some pa /\
         user_pa (tabs v') (pa2kva PGDIR_PA) (pa2kva pa) = None /\ user_pa (tabs v') (pa2kva PGDIR_PA) pa = None).
Proof.
  intros Hb Hl Hr. destruct (image_table _ _ _ _ _ (bi_input _ _ _ _ _ _ Hb)) as (im & Ei & _). exists im. split; [done|]. intros Hh.
  destruct (bootblock_loads host boot apps datas bootdata kdata im sd h r Hb Ei Hh Hl Hr) as (r' & Eb & Hin & _).
  destruct satp_boot as (w & Ew & Hw1 & Hw2). exists r', w. split_and!; [done..|]. intros off Hoff.
  destruct (setup_vm_maps v) as (v' & Es & Hk & Hi & _). exists v'. split.
  - unfold boot_kernel. cbn [Z.eqb]. rewrite Es. cbn [obind]. rewrite Ew. unfold pa2kva at 1, u64. by rewrite Z.mod_mod.
  - intros k Hlt pa. pose proof (bi_size _ _ _ _ _ _ Hb) as Hsz. rewrite sectors_nat in Hsz by lia. unfold kernel_entry, PGDIR_PA in Hsz.
    assert (Hpa : 2 ^ 30 <= pa < 2 ^ 31) by (unfold pa, kernel_entry; lia).
    destruct (boot_translates (tabs v') pa Hk Hi Hpa) as [E1 E2]. unfold user_pa. rewrite E1, E2. split_and!; [by apply Hin|done..].
Qed.

Module FirstBoot.
Import Files.
Definition apps : list (list Z) := [[115; 104]].
Definition datas : list (list Z) := [elf (replicate 100 7); elf (replicate 600 8); elf [1; 2; 3]].
Definition image : list Z := default [] (match create_image host ([98] :: [109; 97; 105; 110] :: apps) with Ok im => Some im | _ => None end).
Definition loaded (a : Z) : Z := nth (Z.to_nat (a - 0x50200000)) (sector image 0) 0.

Lemma input_ok : boot_input host [98] apps datas (elf (replicate 100 7)) (elf (replicate 600 8)).
Proof.
  split; [exact files_input|done|done|by vm_compute| |by vm_compute]. split; [done|]. intros Hin. apply list_elem_of_singleton in Hin. done.
Qed.
End FirstBoot.

Lemma image_boots_witness : exists r' v' w,
  bootblock (sector FirstBoot.image) 0 (MkCsrs 0 0 0 0) FirstBoot.loaded = Ok (msg, Jump kernel_entry 0 r') /\
  boot_kernel kernel_entry 0 Bump.boot = Ok (pa2kva kernel_entry, 0, [WriteSatp w; SfenceAll], v') /\ r' (kernel_entry + 599) = 8.
Proof.
  destruct (image_boots (H := nat) Files.host [98] FirstBoot.apps FirstBoot.datas (Files.elf (replicate 100 7)) (Files.elf (replicate 600 8))
    (sector FirstBoot.image) (MkCsrs 0 0 0 0) FirstBoot.loaded Bump.boot FirstBoot.input_ok) as (im & Ei & Hboot).
  - by vm_compute.
  - intros i Hi. unfold FirstBoot.loaded. by replace (0x50200000 + Z.of_nat i - 0x50200000) with (Z.of_nat i) by lia; rewrite Nat2Z.id.
  - assert (E : im = FirstBoot.image) by (unfold FirstBoot.image; change FirstBoot.apps with [[115; 104]] in *; by rewrite Ei). subst im.
    destruct Hboot as (r' & w & Eb & _ & _ & Hk); [intros k _ _; reflexivity|].
    destruct (Hk 0%nat) as (v' & Ev & Hbytes); [vm_compute; lia|]. exists r', v', w. split; [exact Eb|]. split; [exact Ev|].
    destruct (Hbytes 599%nat) as [Hx _]; [vm_compute; lia|]. refine (eq_trans Hx _). by vm_compute.
Defined.
