(* ===== verification/Params.v ===== *)
(** The stored parameters: src/src/sysparams.cpp.

    The cache's write-back policy is kept as decimal text at the start of the file
    sysparams.  set_parameter overwrites the text without shortening the file;
    init_parameters reads 16 bytes of it at boot. *)

From Stdlib Require Import ZArith Lia List String.
From stdpp Require Import base numbers list gmap.
From S2P Require Import Prelude Trie Objects BlockLayer Cache FsLayout FsState FsAlloc FsInode FsMkfs FsProps FsDir FsDirProps FsFile.

Local Open Scope Z_scope.
#[local] Ltac Zify.zify_post_hook ::= Z.div_mod_to_equations.

(** * Decimal text *)

(** The digits of a number that is not negative, most significant first *)
Fixpoint digits (fuel : nat) (n : Z) (acc : list Z) : list Z :=
  match fuel with
  | O => acc
  | S fuel => if n <? 10 then 48 + n :: acc else digits fuel (n / 10) (48 + n mod 10 :: acc)
  end.
(** std::to_string(long) *)
Definition to_string (value : Z) : list Z :=
  if value <? 0 then 45 :: digits 20 (- value) [] else digits 20 value [].

(** The loop of init_parameters over buf; None is the early return. *)
Fixpoint parse_policy (n i : nat) (buf : list Z) (policy : Z) : outcome (option Z) :=
  match n with
  | O => Ok (Some policy)
  | S n =>
      ch <- or_fault (buf !! i) ;;
      if ch =? 0 then Ok (Some policy)
      else if (ch <? 48) || (57 <? ch) then Ok None
      else parse_policy n (S i) buf (i64 (policy * 10 + ch - 48))
  end.

(** * The calls *)

Definition O_RDWR : Z := 3.
Definition SEEK_SET : Z := 0.
(** "sysparams" *)
Definition sysparams : list Z := [115; 121; 115; 112; 97; 114; 97; 109; 115].

Section Code.
Context {D : Type} `{SDCard D}.

(** FS::cache_set_policy(policy), whose parameter is an int *)
Definition set_policy (v : vfs (S := cache D)) (policy : Z) : outcome (vfs (S := cache D)) :=
  c <- cache_set_policy (blk (fsys v)) (i32 policy) ;;
  Ok (MkVfs (MkFs c (superblock (fsys v)) (cwd_node (fsys v)) (console (fsys v))) (pool v) (files v)).

(** void init_parameters(): the file system and fd_param after it; [buf] is what is
    in the local array, [pid] and [fresh] as in FsFile.v. *)
Definition init_parameters (buf : list Z) (pid : nat) (fresh : Z) (v : vfs (S := cache D)) : outcome (Z * vfs (S := cache D)) :=
  '(fd_param, v) <- fs_fopen v pid sysparams O_RDWR fresh ;;
  '(_, buf, v) <- fs_fread v fd_param buf 16 ;;
  r <- parse_policy 16 0 buf 0 ;;
  match r with
  | None => Ok (fd_param, v)
  | Some policy => v <- set_policy v policy ;; Ok (fd_param, v)
  end.

(** ptr_t set_parameter(long key, long value) *)
Definition set_parameter (fd_param key value : Z) (v : vfs (S := cache D)) : outcome (Z * vfs (S := cache D)) :=
  if negb (key =? 0) then Ok (u64 (-1), v)
  else
    v <- set_policy v value ;;
    let str := to_string value in
    '(_, v) <- fs_lseek v fd_param 0 SEEK_SET ;;
    '(_, v) <- fs_fwrite v fd_param str (Z.of_nat (length str)) ;;
    Ok (0, v).
End Code.

(** * What is read back *)

Definition digit (ch : Z) : Prop := 48 <= ch <= 57.
Definition decimal (l : list Z) (acc : Z) : Z := fold_left (fun a ch => a * 10 + ch - 48) l acc.

Lemma decimal_app l k acc : decimal (l ++ k) acc = decimal k (decimal l acc).
Proof. apply fold_left_app. Qed.

Lemma decimal_shift l : forall acc, decimal l acc = acc * 10 ^ Z.of_nat (length l) + decimal l 0.
Proof.
  induction l as [|ch l IH]; intros acc; cbn [length]; [unfold decimal; cbn; lia|].
  change (decimal (ch :: l) acc) with (decimal l (acc * 10 + ch - 48)). change (decimal (ch :: l) 0) with (decimal l (0 * 10 + ch - 48)).
  rewrite IH, (IH (0 * 10 + ch - 48)). rewrite Nat2Z.inj_succ, Z.pow_succ_r by lia. lia.
Qed.

Lemma decimal_bound l : Forall digit l -> 0 <= decimal l 0 < 10 ^ Z.of_nat (length l).
Proof.
  induction 1 as [|ch l Hc Hl IH]; [cbn; lia|]. change (decimal (ch :: l) 0) with (decimal l (0 * 10 + ch - 48)).
  rewrite decimal_shift. cbn [length]. rewrite Nat2Z.inj_succ, Z.pow_succ_r by lia. unfold digit in Hc. nia.
Qed.

Lemma digits_spec fuel : forall n acc, 0 <= n < 10 ^ Z.of_nat fuel -> (0 < fuel)%nat ->
  exists l, digits fuel n acc = l ++ acc /\ Forall digit l /\ decimal l 0 = n /\ (0 < length l)%nat /\ (length l = 1%nat \/ 10 ^ (Z.of_nat (length l) - 1) <= n).
Proof.
  induction fuel as [|fuel IH]; intros n acc Hn Hf; [lia|]. cbn [digits]. destruct (Z.ltb_spec n 10) as [Hlt|Hge].
  - exists [48 + n]. split_and!; [done|repeat constructor; lia|unfold decimal; cbn; lia|cbn; lia|by left].
  - rewrite Nat2Z.inj_succ, Z.pow_succ_r in Hn by lia. assert (Hf' : (0 < fuel)%nat) by (destruct fuel; [cbn in Hn; lia|lia]).
    destruct (IH (n / 10) (48 + n mod 10 :: acc)) as (l & -> & Hl & Hd & Hpos & Hlow); [lia|done|].
    exists (l ++ [48 + n mod 10]). rewrite <- app_assoc. split_and!; [done| | |rewrite length_app; cbn; lia|right].
    + apply Forall_app. split; [done|]. repeat constructor; lia.
    + rewrite decimal_app, Hd. unfold decimal. cbn. lia.
    + rewrite length_app. cbn [length]. destruct Hlow as [->|Hlow]; [cbn; lia|].
      replace (Z.of_nat (length l + 1) - 1) with (Z.succ (Z.of_nat (length l) - 1)) by lia.
      rewrite Z.pow_succ_r by lia. lia.
Qed.

(** The text of a number that is not negative. *)
Lemma to_string_spec v : 0 <= v < 10 ^ 15 ->
  Forall digit (to_string v) /\ decimal (to_string v) 0 = v /\ (1 <= length (to_string v) <= 15)%nat.
Proof.
  intros Hv. unfold to_string. rewrite (proj2 (Z.ltb_ge _ _)) by lia.
  destruct (digits_spec 20 v []) as (l & -> & Hl & Hd & Hpos & Hlow); [lia|lia|]. rewrite app_nil_r. split_and!; [done|done|lia|].
  destruct (decide (length l <= 15)%nat) as [|Hn]; [done|]. exfalso. destruct Hlow as [E|Hlow]; [lia|].
    assert (10 ^ 15 <= 10 ^ (Z.of_nat (length l) - 1)) by (apply Z.pow_le_mono_r; lia). lia.
Qed.

(** Digits up to a zero byte are read as the number they denote. *)
Lemma parse_digits l : forall pre rest n acc, Forall digit l -> (length l < n)%nat -> 0 <= decimal l acc < 2 ^ 63 -> 0 <= acc ->
  parse_policy n (length pre) (pre ++ l ++ 0 :: rest) acc = Ok (Some (decimal l acc)).
Proof.
  induction l as [|ch l IH]; intros pre rest n acc Hl Hn Hb Ha; destruct n as [|n]; cbn [length] in Hn; try lia; cbn [parse_policy].
  - cbn [app]. by rewrite list_lookup_middle by done.
  - apply Forall_cons in Hl as [Hc Hl]. unfold digit in Hc. cbn [app]. rewrite list_lookup_middle by done. cbn [or_fault obind].
    rewrite (proj2 (Z.eqb_neq _ _)), (proj2 (Z.ltb_ge _ _)), (proj2 (Z.ltb_ge _ _)) by lia. cbn [orb].
    change (decimal (ch :: l) acc) with (decimal l (acc * 10 + ch - 48)) in *.
    assert (Hacc : 0 <= acc * 10 + ch - 48 < 2 ^ 63).
    { rewrite decimal_shift in Hb. pose proof (decimal_bound l Hl). pose proof (Z.pow_pos_nonneg 10 (Z.of_nat (length l)) ltac:(lia) ltac:(lia)). nia. }
    rewrite i64_small by lia. specialize (IH (pre ++ [ch]) rest n (acc * 10 + ch - 48)). rewrite length_app in IH. cbn [length] in IH.
    replace (length pre + 1)%nat with (S (length pre)) in IH by lia. rewrite <- app_assoc in IH. apply IH; [done|lia|lia|lia].
Qed.

Lemma parse_start l rest : Forall digit l -> (length l < 16)%nat -> 0 <= decimal l 0 < 2 ^ 63 ->
  parse_policy 16 0 (l ++ 0 :: rest) 0 = Ok (Some (decimal l 0)).
Proof. intros Hl Hn Hd. exact (parse_digits l [] rest 16 0 Hl Hn Hd ltac:(lia)). Qed.

(** What the first 16 bytes of the file are after [old] and then [new] have been
    written to its start, when nothing else is in it. *)
Definition stored (l : list Z) : list Z := l ++ replicate (16 - length l) 0.
Definition overwritten (old new : list Z) : list Z := new ++ drop (length new) (stored old).

(** what becomes of a stored policy.  A policy that is not negative is read back
    at boot from the text that set_parameter stored, when the text before was not
    longer.  The digits of a longer text that was there before stay behind the new
    ones, and what is read is the new number followed by them.  A negative policy
    (-1 is write-through) is not read back at all. *)
Theorem stored_policy_read_back old new : 0 <= old < 10 ^ 15 ->
  (0 <= new < 10 ^ 15 -> (length (to_string old) <= length (to_string new))%nat ->
    parse_policy 16 0 (overwritten (to_string old) (to_string new)) 0 = Ok (Some new)) /\
  (0 <= new < 10 ^ 15 -> (length (to_string new) < length (to_string old))%nat ->
    let k := Z.of_nat (length (to_string old) - length (to_string new)) in
    parse_policy 16 0 (overwritten (to_string old) (to_string new)) 0 = Ok (Some (new * 10 ^ k + old mod 10 ^ k))) /\
  (new < 0 -> parse_policy 16 0 (overwritten (to_string old) (to_string new)) 0 = Ok None).
Proof.
  intros Hold. destruct (to_string_spec old Hold) as (Do & Vo & Lo). split_and!.
  - intros Hnew Hlen. destruct (to_string_spec new Hnew) as (Dn & Vn & Ln). unfold overwritten, stored.
    rewrite drop_app_ge, drop_replicate by lia. set (r := (16 - length (to_string old) - (length (to_string new) - length (to_string old)))%nat).
    replace r with (S (r - 1)) by lia. cbn [replicate].
    by rewrite (parse_start (to_string new) (replicate (r - 1) 0)), Vn by (rewrite ?Vn; lia || done).
  - intros Hnew Hlen k. destruct (to_string_spec new Hnew) as (Dn & Vn & Ln). unfold overwritten, stored.
    rewrite drop_app_le by lia. rewrite app_assoc. set (tail := drop (length (to_string new)) (to_string old)).
    assert (Dt : Forall digit tail) by (by apply Forall_drop). assert (Lt : Z.of_nat (length tail) = k) by (unfold tail, k; rewrite length_drop; lia).
    assert (Vt : decimal tail 0 = old mod 10 ^ k).
    { transitivity (decimal (to_string old) 0 mod 10 ^ k); [|by rewrite Vo]. rewrite <- (take_drop (length (to_string new)) (to_string old)), decimal_app. fold tail.
      rewrite (decimal_shift tail (decimal _ 0)), Lt, Z.add_comm, Z.mod_add by (apply Z.pow_nonzero; lia). rewrite Z.mod_small; [done|]. rewrite <- Lt. by apply decimal_bound. }
    assert (V : decimal (to_string new ++ tail) 0 = new * 10 ^ k + old mod 10 ^ k) by (by rewrite decimal_app, Vn, decimal_shift, Lt, Vt).
    assert (Hb : 0 <= decimal (to_string new ++ tail) 0 < 10 ^ 15).
    { split; [apply decimal_bound; by apply Forall_app|]. eapply Z.lt_le_trans; [apply decimal_bound; by apply Forall_app|].
      apply Z.pow_le_mono_r; [lia|]. rewrite length_app. unfold tail. rewrite length_drop. lia. }
    replace (16 - length (to_string old))%nat with (S (15 - length (to_string old))) by lia. cbn [replicate].
    rewrite (parse_start (to_string new ++ tail)); [by rewrite V|by apply Forall_app| |lia].
    rewrite length_app. unfold tail. rewrite length_drop. lia.
  - intros Hneg. assert (E : to_string new = 45 :: digits 20 (- new) []) by (unfold to_string; by rewrite (proj2 (Z.ltb_lt _ _) Hneg)).
    unfold overwritten. rewrite E. reflexivity.
Qed.

Lemma stored_policy_read_back_witness :
  parse_policy 16 0 (overwritten (to_string 1000) (to_string 5)) 0 = Ok (Some 5000) /\
  parse_policy 16 0 (overwritten (to_string 30) (to_string (-1))) 0 = Ok None.
Proof.
  split.
  - destruct (stored_policy_read_back 1000 5 ltac:(lia)) as (_ & E & _). apply E; [lia|vm_compute; lia].
  - destruct (stored_policy_read_back 30 (-1) ltac:(lia)) as (_ & _ & E). apply E. lia.
Defined.
