(* ===== verification/Main.v ===== *)
(** main of src/src/main.cpp: the initialisation of every component in the order
    of the code, the start of the shell, and the idle loop.

    The components have their own states (the other files of this library); here
    they share one [system], and the kernel's data is lent to the console, the
    network and the file system while these run. *)

From Stdlib Require Import ZArith Lia List Ascii String.
From stdpp Require Import base numbers list gmap.
From S2P Require Import Prelude Mem KStdio Trie Objects KAlloc BlockLayer Cache FsLayout FsState FsMkfs FsFile Kernel Sched Locks Process Screen Page E1000 Plic Net Image Exec Syscall Boot Params.

Local Open Scope Z_scope.

(** * A heap that can be initialised *)

(** What main promises the other components about the heap: after init_kernel_heap
    there is a page to take, and none is in use. *)
Class kernel_heap (H : Type) := {
  heap_source :: page_source H;
  init_heap : H -> outcome H;
  heap_raw : H -> Prop;
  init_heap_ok h : heap_raw h -> exists h' p h'', init_heap h = Ok h' /\ pages_out h' ∅ /\ take_page h' = Ok (p, h'')
}.

Lemma kalloc_heap_ok h : length (ksmall h) = (2 ^ 17 - 1)%nat /\ length (kpage h) = (2 ^ 17 - 1)%nat ->
  exists h' p h'', init_kernel_heap h = Ok h' /\ heap_pages h' ∅ /\ kalloc h' PAGE_SIZE = Ok (p, h'').
Proof.
  intros [Hs Hp]. destruct (init_heap_inv h Hs Hp) as (h' & E & Hi). destruct (first_page h' Hi) as (b & h'' & Ek & _).
  exists h', (page_region b).1, h''. split; [exact E|]. split; [|exact Ek]. exists [], []. split; [exact Hi|]. intros p Hin. exfalso. exact (proj1 (elem_of_empty p) Hin).
Qed.
#[export] Instance kalloc_heap : kernel_heap heap := {|
  heap_source := heap_page_source;
  init_heap := init_kernel_heap;
  heap_raw h := length (ksmall h) = (2 ^ 17 - 1)%nat /\ length (kpage h) = (2 ^ 17 - 1)%nat;
  init_heap_ok := kalloc_heap_ok
|}.

(** * The system *)

(** The kernel's data is [krn (vmm (mach s))]; the fields kern of [tty] and [nett] are
    set from it before they are used. *)
Record system (H U D : Type) := MkSystem {
  mach : machine H;                             (* kernel data, heap, page tables, memory *)
  csr : csrs;                                   (* the registers of hart 0 *)
  tasktab : task_table;
  screen : tty U;
  nett : net;
  blocks : cache D;                             (* src/fs *)
  superblk : SuperBlock;
  fsout : list FsState.event;
  open_files : gmap Z File;
  syscall_table : list (option syscall_func);
  fd_param : Z
}.
Arguments MkSystem {H U D}. Arguments mach {H U D}. Arguments csr {H U D}. Arguments tasktab {H U D}. Arguments screen {H U D}.
Arguments nett {H U D}. Arguments blocks {H U D}. Arguments superblk {H U D}. Arguments fsout {H U D}. Arguments open_files {H U D}.
Arguments syscall_table {H U D}. Arguments fd_param {H U D}.

(** What the linker, the firmware, operator new and uninitialised memory provide:
    the device tree, the sectors of the image, addresses of code and of static
    arrays, addresses of new objects, and the local arrays of _vprint and
    init_parameters. *)
Record platform := MkPlatform {
  fdt : FDT_TYPE -> Z;
  image : Z -> list Z;
  trap_entry_at : Z;
  first_run_at : Z;
  tx_desc_at : Z; rx_desc_at : Z; tx_buf_at : Z; rx_buf_at : Z;
  idle_process : Z; idle_thread : Z; idle_stack : Z;
  shell_process : Z; shell_thread : Z; shell_stack : Z;
  params_file : Z;
  buff0 : list Z; bf0 : list Z; parambuf : list Z
}.

(** The bytes of a string, and with a newline *)
Definition chars (t : string) : list Z := map (fun a => Z.of_N (N_of_ascii a)) (list_ascii_of_string t).
Definition line (t : string) : list Z := chars t ++ [10].

(** * Static data *)

(** Kernel data before any constructor has run and after: vectors, lists and queues
    are empty, a trie has its root node. *)
Definition empty_pool : idpool := MkPool ∅ TrieLookup [].
Definition static_kernel (k : kernel) : kernel :=
  MkKernel ∅ [] false ∅ [] false [] false [] [] [] false [] false ∅ empty_pool ∅ empty_pool ∅ empty_pool ∅ empty_pool empty_pool
    (rdtime k) (reads k) 0 (trace k).
Definition static_card (n : nic) : nic :=
  MkNic 0 (E1000.regs n) (replicate 64 (MkTx 0 0 0 0 0 0 0)) (replicate 64 (MkRx 0 0 0 0 0 0)) (replicate 64 (replicate 2048 0)) (replicate 64 (replicate 2048 0)).
Definition static_plic (p : plic) : plic := MkPlic (MkHandler false 0 0) 0 (mmio p) (pending p) (printed p).

Section Main.
Context {H U D : Type} `{!kernel_heap H} `{!Uart U} `{!SDCard D}.
Implicit Types (s : system H U D) (P : platform).

Definition set_mach (v : machine H) s : system H U D := MkSystem v (csr s) (tasktab s) (screen s) (nett s) (blocks s) (superblk s) (fsout s) (open_files s) (syscall_table s) (fd_param s).
Definition set_csr (v : csrs) s : system H U D := MkSystem (mach s) v (tasktab s) (screen s) (nett s) (blocks s) (superblk s) (fsout s) (open_files s) (syscall_table s) (fd_param s).
Definition set_tasktab (v : task_table) s : system H U D := MkSystem (mach s) (csr s) v (screen s) (nett s) (blocks s) (superblk s) (fsout s) (open_files s) (syscall_table s) (fd_param s).
Definition set_screen (v : tty U) s : system H U D := MkSystem (mach s) (csr s) (tasktab s) v (nett s) (blocks s) (superblk s) (fsout s) (open_files s) (syscall_table s) (fd_param s).
Definition set_nett (v : net) s : system H U D := MkSystem (mach s) (csr s) (tasktab s) (screen s) v (blocks s) (superblk s) (fsout s) (open_files s) (syscall_table s) (fd_param s).
Definition set_files b sb out fl s : system H U D := MkSystem (mach s) (csr s) (tasktab s) (screen s) (nett s) b sb out fl (syscall_table s) (fd_param s).
Definition set_syscall_table (v : list (option syscall_func)) s : system H U D := MkSystem (mach s) (csr s) (tasktab s) (screen s) (nett s) (blocks s) (superblk s) (fsout s) (open_files s) v (fd_param s).
Definition set_fd_param (v : Z) s : system H U D := MkSystem (mach s) (csr s) (tasktab s) (screen s) (nett s) (blocks s) (superblk s) (fsout s) (open_files s) (syscall_table s) v.

Definition the_kernel s : kernel := krn (vmm (mach s)).
Definition put_vmm v s : system H U D := set_mach (set_vmm v (mach s)) s.
Definition put_kernel k s : system H U D := put_vmm (set_krn (vmm (mach s)) k) s.

(** Running a part of the system with the kernel's data *)
Definition with_kernel (f : kernel -> outcome kernel) s : outcome (system H U D) := k <- f (the_kernel s) ;; Ok (put_kernel k s).
Definition with_screen (f : tty U -> outcome (tty U)) s : outcome (system H U D) :=
  t <- f (Screen.set_kern (screen s) (the_kernel s)) ;;
  Ok (put_kernel (Screen.kern t) (set_screen t s)).
Definition with_net (f : net -> vm H -> outcome (net * vm H)) s : outcome (system H U D) :=
  '(n, v) <- f (Net.set_kern (nett s) (the_kernel s)) (vmm (mach s)) ;;
  Ok (put_kernel (Net.kern n) (put_vmm v (set_nett n s))).
(** The working directory is the current process's, File::pool and the registered
    objects are the kernel's. *)
Definition with_files {A} (c : nat) (f : vfs (S := cache D) -> outcome (A * vfs (S := cache D))) s : outcome (A * system H U D) :=
  let k := the_kernel s in
  p <- current_process k c ;;
  P <- or_fault (processes k !! p) ;;
  '(a, v) <- f (MkVfs (MkFs (blocks s) (superblk s) (cwd_node_idx P) (fsout s)) (world_of k KFile) (open_files s)) ;;
  k <- upd_process (put_world k KFile (pool v)) p (with_cwd_node_idx (cwd_node (fsys v))) ;;
  Ok (a, put_kernel k (set_files (blk (fsys v)) (FsState.superblock (fsys v)) (FsState.console (fsys v)) (files v) s)).

(** printk on CPU [c]; the format is at some address. *)
Definition printk_on P (c : nat) (text : list Z) (va : list Z) s : outcome (system H U D) :=
  with_screen (fun t =>
    '(_, t) <- KStdio.printk (screen_write c) (screen_reflush c (buff0 P) (bf0 P)) (length text + 1) (write_bytes ∅ 100 (text ++ [0])) (buff0 P) (bf0 P) 100 va t ;;
    Ok t) s.
Definition say P (text : list Z) s : outcome (system H U D) := printk_on P 0 text [] s.

(** for (ptr_t *bss = __bss_start; bss < __BSS_END__; bss++) *bss = 0: what has an
    initial value is not there (io_base_va, the policy of the cache). *)
Definition clear_bss s : system H U D :=
  let m := mach s in
  let s := set_mach (MkMachine (MkVm (static_kernel (krn (vmm m))) (vheap (vmm m)) (tabs (vmm m)) (dirs (vmm m)) [] (io_base_va (vmm m))) (ram m) false) s in
  let s := set_tasktab (MkTable [] 0) s in
  let s := set_screen (MkTty (static_kernel (Screen.kern (screen s))) (replicate (Z.to_nat (SCREEN_WIDTH * SCREEN_HEIGHT)) 0)
    (replicate (Z.to_nat (SCREEN_WIDTH * SCREEN_HEIGHT)) 0) false (uart (screen s))) s in
  let s := set_nett (MkNet (static_kernel (Net.kern (nett s))) (static_card (Net.card (nett s))) (static_plic (irqs (nett s))) false [] []) s in
  let s := set_files (blocks s) (MkSB 0 0 0 0 0 0 0 0 0 0 0 0 0 0) (fsout s) ∅ s in
  let s := set_syscall_table (replicate (Z.to_nat SYSCALL_NUM) None) s in
  set_fd_param 0 s.

(** The boot sector, where the firmware has put it *)
Definition boot_sector s : list Z := map (fun i => ram (mach s) (0x50200000 + Z.of_nat i)) (seq 0 512).

(** * main *)

Definition processor0 P s : outcome (system H U D) :=
  v <- new_pagedir (idle_process P) (vmm (mach s)) ;;
  d <- or_fault (dirs v !! idle_process P) ;;
  k <- init_processor (first_run_at P) (idle_process P) (root d) (idle_thread P) (idle_stack P) 0 (krn v) ;;
  Ok (put_kernel k (put_vmm v s)).

(** What a null pointer means to bios_send_ipi: every hart *)
Definition all_harts : Z := -1.

(** main(0) from the bss to the screen *)
Definition start_console P s : outcome (system H U D) :=
  let s := clear_bss s in
  h <- init_heap (vheap (vmm (mach s))) ;;
  let s := put_vmm (set_vheap (vmm (mach s)) h) s in
  let s := set_tasktab (init_task_info (boot_sector s) (image P)) s in
  s <- processor0 P s ;;
  s <- say P (line "> [INIT] PCB initialization succeeded.") s ;;
  s <- with_screen (init_screen 0 (buff0 P) (bf0 P)) s ;;
  say P (line "> [INIT] SCREEN initialization succeeded.") s.

(** from the timer to the system call table; init_locks does nothing *)
Definition start_traps P s : outcome (system H U D) :=
  s <- with_kernel (fun k => Ok (init_timer (fdt P TIMEBASE) k)) s ;;
  s <- say P (line "> [INIT] Timer initialization succeeded.") s ;;
  s <- say P (line "> [INIT] Lock mechanism initialization succeeded.") s ;;
  let s := set_csr (init_trap (trap_entry_at P) (csr s)) s in
  s <- say P (line "> [INIT] Trap processing initialization succeeded.") s ;;
  let s := set_syscall_table init_syscall s in
  say P (line "> [INIT] System call initialized successfully.") s.

(** from the network to the parameters; [fuel] bounds the waiting of e1000_reset *)
Definition start_devices (fuel : nat) P s : outcome (system H U D) :=
  s <- with_net (init_net (fdt P) (tx_desc_at P) (rx_desc_at P) (tx_buf_at P) (rx_buf_at P) fuel) s ;;
  s <- say P (line "> [INIT] Network initialization succeeded.") s ;;
  '(found, s) <- with_files 0 (fun v => '(b, f) <- init_filesystem cache_init (fsys v) ;; Ok (b, MkVfs f (pool v) (files v))) s ;;
  s <- say P (line (if found : bool then "> [INIT] File system found." else "> [INIT] File system not found, creating a new one.")) s ;;
  '(fd, s) <- with_files 0 (init_parameters (parambuf P) 0 (params_file P)) s ;;
  Ok (set_fd_param fd s).

(** main(0) up to the shell *)
Definition initialise (fuel : nat) P s : outcome (system H U D) :=
  s <- start_console P s ;; s <- start_traps P s ;; start_devices fuel P s.

(** main(0) up to its loop *)
Definition main0 (fuel : nat) P s : outcome (system H U D) :=
  s <- initialise fuel P s ;;
  '(_, m) <- sys_exec (image P) (tasktab s) (first_run_at P) (shell_process P) (shell_thread P) (shell_stack P) (chars "shell") [] 0 (mach s) ;;
  with_kernel (fun k => Ok (Kernel.emit k (SendIpi all_harts))) (set_mach m s).

(** main(hartid) of another hart, with its registers [h]; [c] is the number its CPU
    gets. *)
Definition main_secondary P (hart : nat) (fresh stack : Z) (h : csrs) s : outcome (csrs * system H U D) :=
  let c := length (cpus (the_kernel s)) in
  s <- with_kernel (init_processor (first_run_at P) (idle_process P) 0 fresh stack hart) s ;;
  s <- with_kernel (fun k => Ok (init_timer (fdt P TIMEBASE) k)) s ;;
  let h := init_trap (trap_entry_at P) h in
  s <- printk_on P c (line "> [INIT] Core %d, mhartid=%d initialization succeeded.") [Z.of_nat c; Z.of_nat hart] s ;;
  Ok (h, s).

(** One round of the idle loop, up to wfi *)
Definition idle_round s : outcome (system H U D) :=
  let s := set_csr (disable_preempt (csr s)) s in
  s <- with_kernel idle_cleanup s ;;
  Ok (set_csr (enable_preempt (csr s)) s).
End Main.
