(* ===== verification/MainSteps.v ===== *)
(** What the steps of main (Main.v) do: the first processor, the lines on the
    console, the first page table, the devices and the files. *)

From Stdlib Require Import ZArith Lia List Ascii String.
From stdpp Require Import base numbers list gmap.
From S2P Require Import Prelude Mem KStdio Trie Objects KAlloc BlockLayer Cache FsLayout FsState FsMkfs FsProps FsFile Kernel Sched SchedTheorems Locks Process Screen ScreenTheorems ConsoleProps Page PageProps PageOps PageFrames PageSteps PageSys PageTheorems E1000 E1000Props Plic Net NetTheorems Image ImageTheorems Exec ExecTheorems Syscall Boot BootTheorems Params Main.

Local Open Scope Z_scope.

(** * The kernel while main runs *)

(** A kernel in which only threads, processes and CPUs have come into being *)
Definition young (rd : nat -> Z) th tt pr pt ko cp fp n tb tr : kernel :=
  MkKernel th tt false pr pt false [] false ko cp [] false [] false ∅ empty_pool ∅ empty_pool ∅ empty_pool ∅ empty_pool fp rd n tb tr.

Lemma young_upd_process rd th tt pr pt ko cp fp n tb tr p f X : pr !! p = Some X ->
  upd_process (young rd th tt pr pt ko cp fp n tb tr) p f = Ok (young rd th tt (<[p := f X]> pr) pt ko cp fp n tb tr).
Proof. exact (upd_process_run (young rd th tt pr pt ko cp fp n tb tr) p f X). Qed.
Lemma young_upd_thread rd th tt pr pt ko cp fp n tb tr t f X : th !! t = Some X ->
  upd_thread (young rd th tt pr pt ko cp fp n tb tr) t f = Ok (young rd (<[t := f X]> th) tt pr pt ko cp fp n tb tr).
Proof. exact (upd_thread_run (young rd th tt pr pt ko cp fp n tb tr) t f X). Qed.
Lemma young_new_thread rd th tt pr pt ko cp fp n tb tr fr t st p rank :
  let top := u64 (st + PAGE_SIZE * 4) in let ksp := u64 (top - 14 * 8) in
  new_thread fr t st p rank (young rd th tt pr pt ko cp fp n tb tr) =
  Ok (young rd (<[t := MkThread (<[16%nat := rank]> (repeat 0 31)) 0 ksp false p (Z.of_nat (length tt)) rank [] None 0 false false]> th) (tt ++ [Some t])
    pr pt ko cp fp n tb (tr ++ [StoreWord ksp fr] ++ [StoreWord (u64 (ksp + 13 * 8)) top])).
Proof. intros top ksp. unfold new_thread. cbn [lock_threads]. rewrite app_assoc. reflexivity. Qed.
Lemma young_first_process rd th tt pr pt ko cp fp n tb tr p r name :
  new_process p r None name (young rd th tt pr pt ko cp fp n tb tr) =
  Ok (young rd th tt (<[p := MkProcess false (Z.of_nat (length pt)) name r None [] [] (2 ^ 64 - 1) 0 0 [] 0 0 false]> pr) (pt ++ [Some p]) (ko ++ [TrieLookup]) cp fp n tb tr).
Proof. reflexivity. Qed.

Section Kernel.
Context (P : platform) (rd : nat -> Z) (root : Z).

(** The idle thread and the idle process, with the cursor in column 0 of row [y]. *)
Definition idle_T : Thread := MkThread (<[16%nat := 0]> (repeat 0 31)) 0 0 false (idle_process P) 0 0 [] None 0 false false.
Definition idle_P (y cwd : Z) : Process := MkProcess false 0 kernel_idle root None [] [idle_thread P] (2 ^ 64 - 1) 0 y [] 1 cwd false.

(** The kernel with the idle process alone *)
Definition booting_kernel (y cwd : Z) (ko : list (list (Item Z))) (fp : idpool) (n : nat) (tb : Z) (tr : list hw_event) : kernel :=
  young rd {[idle_thread P := idle_T]} [Some (idle_thread P)] {[idle_process P := idle_P y cwd]} [Some (idle_process P)] ko
    [MkCPU (idle_thread P) (idle_thread P) 0 0] fp n tb tr.

Lemma processor_boots k : rdtime k = rd ->
  init_processor (first_run_at P) (idle_process P) root (idle_thread P) (idle_stack P) 0 (static_kernel k)
  = Ok (booting_kernel 0 0 [TrieLookup] empty_pool (reads k) 0
      (trace k ++ [StoreWord (u64 (u64 (idle_stack P + PAGE_SIZE * 4) - 14 * 8)) (first_run_at P)]
        ++ [StoreWord (u64 (u64 (u64 (idle_stack P + PAGE_SIZE * 4) - 14 * 8) + 13 * 8)) (u64 (idle_stack P + PAGE_SIZE * 4))])).
Proof.
  intros Hr. unfold init_processor. cbn [Nat.eqb]. change (static_kernel k) with (young (rdtime k) ∅ [] ∅ [] [] [] empty_pool (reads k) 0 (trace k)). rewrite Hr.
  rewrite young_first_process. cbn [obind]. unfold new_cpu, create_thread, lock_process. change (processes (young ?a ?b ?c ?d ?e ?f ?g ?h ?i ?j ?l)) with d.
  rewrite lookup_insert_eq. cbn [or_fault obind process_own_lock].
  change (lock false) with (Ok true). cbn [obind]. erewrite young_upd_process by apply lookup_insert_eq. cbn [obind].
  change (processes (young ?a ?b ?c ?d ?e ?f ?g ?h ?i ?j ?l)) with d.
  rewrite lookup_insert_eq. cbn [or_fault obind]. rewrite young_new_thread. cbn [obind].
  erewrite young_upd_process by apply lookup_insert_eq. cbn [obind]. erewrite young_upd_process by apply lookup_insert_eq. cbn [obind].
  unfold unlock_process. erewrite young_upd_process by apply lookup_insert_eq. cbn [obind]. erewrite young_upd_thread by apply lookup_insert_eq. cbn [obind].
  rewrite !insert_insert_eq. reflexivity.
Qed.

Lemma booting_current y cwd ko fp n tb tr : current_process (booting_kernel y cwd ko fp n tb tr) 0 = Ok (idle_process P).
Proof. unfold current_process, current, or_fault. cbn. by rewrite lookup_singleton_eq. Qed.

Lemma booting_process y cwd ko fp n tb tr : processes (booting_kernel y cwd ko fp n tb tr) !! idle_process P = Some (idle_P y cwd).
Proof. apply lookup_singleton_eq. Qed.

(** The cursor moves to the start of a row. *)
Lemma idle_cursor y y' cwd : cursor_at (SCREEN_WIDTH * y') (idle_P y cwd) = idle_P y' cwd.
Proof.
  unfold cursor_at, idle_P. cbn. assert (E1 : SCREEN_WIDTH * y' / SCREEN_WIDTH = y') by (rewrite Z.mul_comm; by apply Z.div_mul).
  assert (E2 : (SCREEN_WIDTH * y') mod SCREEN_WIDTH = 0) by (rewrite Z.mul_comm; by apply Z.mod_mul). by rewrite E1, E2.
Qed.
Lemma booting_cursor y y' cwd ko fp n tb tr :
  set_processes (booting_kernel y cwd ko fp n tb tr) (<[idle_process P := cursor_at (SCREEN_WIDTH * y') (idle_P y cwd)]> (processes (booting_kernel y cwd ko fp n tb tr)))
  = booting_kernel y' cwd ko fp n tb tr.
Proof. rewrite idle_cursor. unfold booting_kernel, young, set_processes. cbn [processes threads]. by rewrite insert_singleton_eq. Qed.
End Kernel.

(** * The console while main runs *)

(** A line of text *)
Definition plain_line (t : list Z) : Prop := Forall (fun ch => 32 <= ch < 127 /\ ch <> 37) t /\ (length t < 80)%nat.
Lemma line_message t : plain_line t -> message (t ++ [10]).
Proof.
  intros [Ht _]. apply Forall_app. split; [|by repeat constructor; left]. eapply Forall_impl; [exact Ht|]. intros b Hb. cbn beta in Hb. by right.
Qed.
Lemma lay_line t y cells : plain_line t -> 0 <= y < SCREEN_HEIGHT -> cells_ok cells ->
  exists cells', lay (t ++ [10]) (SCREEN_WIDTH * y, cells) = Some (SCREEN_WIDTH * (y + 1), cells') /\
    (forall m v, cells' !! m = Some v -> cells !! m = Some v \/ 32 <= v < 127).
Proof.
  intros [Ht Hl] Hy Hc. unfold SCREEN_WIDTH, SCREEN_HEIGHT in *. assert (Hp : plain t) by (eapply Forall_impl; [exact Ht|]; intros b Hb; cbn beta in Hb; lia).
  rewrite lay_app, lay_plain by (try done; unfold CELLS, SCREEN_WIDTH, SCREEN_HEIGHT; lia).
  eexists. split.
  - cbn [mbind option_bind lay lay1 Z.eqb Pos.eqb]. rewrite (proj2 (Z.ltb_lt _ _)) by (unfold CELLS, SCREEN_WIDTH, SCREEN_HEIGHT; lia).
    do 2 f_equal. unfold SCREEN_WIDTH. replace (80 * y + Z.of_nat (length t)) with (Z.of_nat (length t) + y * 80) by lia. rewrite Z.div_add by lia.
    rewrite Z.div_small by lia. lia.
  - intros m v Hv. apply lookup_app_Some in Hv as [Hv|[Hge Hv]]; [left; by apply lookup_take_Some in Hv as [Hv _]|].
    apply lookup_app_Some in Hv as [Hv|[Hlt Hv]]; [right; by apply (Forall_lookup_1 _ _ _ _ Hp Hv)|]. left. rewrite lookup_drop in Hv. rewrite <- Hv. f_equal.
    unfold cells_ok, CELLS, SCREEN_WIDTH, SCREEN_HEIGHT in Hc. rewrite length_take_le in * by lia. lia.
Qed.

Section Stage.
Context {H U D : Type} `{!kernel_heap H} `{!Uart U} `{!SDCard D}.
Context (P : platform) (rd : nat -> Z) (root : Z) (u0 : U) (t0 : term).
Context (Hb : length (buff0 P) = 256%nat) (Hbf : length (bf0 P) = 24%nat).
Implicit Types (s : system H U D).

Definition blank_screen : list Z := replicate (Z.to_nat CELLS) 32.
(** Everything but the kernel's data and the console *)
Record others := MkOthers {
  o_heap : H; o_tabs : tables; o_dirs : gmap Z PageDir; o_shared : list SharedPage; o_io : Z; o_ram : Z -> Z; o_load : bool;
  o_csr : csrs; o_tasks : task_table; o_net : net; o_blocks : cache D; o_super : SuperBlock; o_out : list FsState.event; o_open : gmap Z File;
  o_calls : list (option syscall_func); o_fd : Z
}.
Definition rest s : others :=
  let v := vmm (mach s) in
  MkOthers (vheap v) (tabs v) (dirs v) (shared_pages v) (io_base_va v) (ram (mach s)) (load_lock (mach s)) (csr s) (tasktab s) (nett s)
    (blocks s) (superblk s) (fsout s) (open_files s) (syscall_table s) (fd_param s).

Record stage s (y cwd : Z) ko fp n tb tr (printed : list Z) (t : term) : Prop := {
  sg_kernel : the_kernel s = booting_kernel P rd root y cwd ko fp n tb tr;
  sg_row : 0 <= y < SCREEN_HEIGHT;
  sg_cells : lay printed (0, blank_screen) = Some (SCREEN_WIDTH * y, new_screen (screen s));
  sg_plain : plain (new_screen (screen s));
  sg_length : cells_ok (new_screen (screen s));
  sg_flushed : old_screen (screen s) = new_screen (screen s);
  sg_lock : screen_lock (screen s) = false;
  sg_grid : grid t = new_screen (screen s);
  sg_ground : tst t = Ground;
  sg_sent : exists bs, Screen.sent (uart (screen s)) = Screen.sent u0 ++ bs /\ t = feed t0 bs
}.

Lemma idle_pos y cwd : pos_of (idle_P P root y cwd) = SCREEN_WIDTH * y.
Proof. unfold pos_of, SCREEN_LOC, idle_P. cbn [cursor_x cursor_y]. lia. Qed.

Lemma stage_console k o n l (u : U) y cwd ko fp r tb tr : k = booting_kernel P rd root y cwd ko fp r tb tr -> 0 <= y < SCREEN_HEIGHT -> cells_ok n -> cells_ok o -> l = false ->
  console_ok 0 (MkTty k n o l u) (idle_process P) (idle_P P root y cwd).
Proof.
  intros -> Hy Hn Ho ->. split; cbn [kern new_screen old_screen screen_lock]; try done.
  - apply booting_current.
  - apply booting_process.
  - cbn [cursor_y idle_P]. lia.
Qed.

Lemma say_line s y cwd ko fp n tb tr printed t body : stage s y cwd ko fp n tb tr printed t -> y + 1 < SCREEN_HEIGHT -> plain_line body ->
  exists s' t', say P (body ++ [10]) s = Ok s' /\ stage s' (y + 1) cwd ko fp n tb tr (printed ++ body ++ [10]) t' /\ rest s' = rest s.
Proof using Hb Hbf.
  intros [Hk Hy Hl Hpl Hc Ho Hlock Hg Hgr (bs & Hs & Ht)] Hy1 Hbody. pose proof (line_message _ Hbody) as Hm. pose proof (proj2 Hbody) as Hlen.
  destruct (lay_line body y _ Hbody Hy Hc) as (cells' & El & _).
  set (tt := Screen.set_kern (screen s) (the_kernel s)).
  assert (Hsh : shows 0 tt (idle_process P) (idle_P P root y cwd) t).
  { split; try done. unfold tt, Screen.set_kern. eapply stage_console; eauto. by rewrite Ho. }
  destruct (message_shown 0 (buff0 P) (bf0 P) Hb Hbf tt (idle_process P) (idle_P P root y cwd) t (length (body ++ [10]) + 1) (body ++ [10]) [] (SCREEN_WIDTH * (y + 1)) cells')
    as (u & bs' & t' & E & Hs' & -> & [Hok Hp' Ho' Hg' Hgr'] & _); try (rewrite ?length_app; cbn [length]; lia || done).
  { rewrite idle_pos. exact El. }
  unfold say, printk_on, with_screen. fold tt. rewrite E. cbn [obind]. eexists _, (feed t bs'). split; [reflexivity|]. split; [|reflexivity].
  split; try done; cbn [the_kernel put_kernel put_vmm set_mach set_screen mach vmm set_vmm set_krn krn screen Screen.kern].
  - cbn. rewrite Hk. apply booting_cursor.
  - lia.
  - rewrite lay_app, Hl. exact El.
  - apply Hok.
  - exists (bs ++ bs'). split; [|by rewrite feed_app, <- Ht]. cbn. rewrite Hs'. cbn. by rewrite Hs, app_assoc.
Qed.

(** The first message goes to a screen of zeros; init_screen blanks it. *)
Lemma first_screen s cwd ko fp n tb tr body k0 : the_kernel s = booting_kernel P rd root 0 cwd ko fp n tb tr ->
  screen s = MkTty k0 (replicate (Z.to_nat CELLS) 0) (replicate (Z.to_nat CELLS) 0) false u0 -> cells_ok (grid t0) -> tst t0 = Ground -> plain_line body ->
  exists s' t, (s <- say P (body ++ [10]) s ;; with_screen (init_screen 0 (buff0 P) (bf0 P)) s) = Ok s' /\ stage s' 0 cwd ko fp n tb tr [] t /\ rest s' = rest s.
Proof using Hb Hbf.
  intros Hk Hs Hg Hgr Hbody. pose proof (line_message _ Hbody) as Hm. pose proof (proj2 Hbody) as Hlen.
  set (zeros := replicate (Z.to_nat CELLS) 0) in *. assert (Hz : cells_ok zeros) by apply length_replicate.
  destruct (lay_line body 0 zeros Hbody) as (cells' & El & Hch); [done|done|].
  set (tt := Screen.set_kern (screen s) (the_kernel s)).
  assert (Hok : console_ok 0 tt (idle_process P) (idle_P P root 0 cwd)).
  { unfold tt, Screen.set_kern. rewrite Hs. by eapply stage_console. }
  assert (Hpos : pos_of (idle_P P root 0 cwd) = SCREEN_WIDTH * 0) by apply idle_pos.
  destruct (message_prints 0 (buff0 P) (bf0 P) Hb Hbf tt (idle_process P) (idle_P P root 0 cwd) t0 (length (body ++ [10]) + 1) (body ++ [10]) [] (SCREEN_WIDTH * (0 + 1)) cells')
    as (u & bs & r & cl & E & Hs1 & Hf); try (rewrite ?length_app; cbn [length]; lia || done).
  { unfold tt. cbn [Screen.set_kern new_screen]. by rewrite Hs, Hpos. }
  { intros m v w Hv Hw Hne. destruct (Hch m v Hv) as [Hv0|]; [|done]. unfold tt in Hw. cbn [Screen.set_kern old_screen] in Hw. rewrite Hs in Hw. cbn [old_screen] in Hw. congruence. }
  destruct (lay_bounds (body ++ [10]) (SCREEN_WIDTH * 0) zeros (SCREEN_WIDTH * (0 + 1)) cells' ltac:(unfold CELLS, SCREEN_WIDTH, SCREEN_HEIGHT; lia) El) as [Hp' Hcl].
  destruct (moved_ok 0 tt (idle_process P) _ (SCREEN_WIDTH * (0 + 1)) cells' cells' u Hok) as [Hok1 Hpos1]; [exact Hp'|unfold cells_ok in *; lia..|].
  set (t1 := MkTerm (merge cells' (old_screen tt) (grid t0)) r cl Ground).
  destruct (init_screen_shows 0 (buff0 P) (bf0 P) Hb Hbf (moved_to tt (idle_process P) (idle_P P root 0 cwd) (SCREEN_WIDTH * (0 + 1)) cells' cells' u) (idle_process P) _ t1 Hok1)
    as (u2 & bs2 & E2 & Hs2 & [Hok2 Hp2 Ho2 Hg2 Hgr2]); [|done|].
  { unfold t1, cells_ok in *. cbn [grid]. rewrite merge_length; unfold tt; cbn; rewrite ?Hs; cbn; lia. }
  unfold say, printk_on, with_screen. fold tt. rewrite E. cbn [obind].
  set (s1 := put_kernel _ _). assert (Et : Screen.set_kern (screen s1) (the_kernel s1) = moved_to tt (idle_process P) (idle_P P root 0 cwd) (SCREEN_WIDTH * (0 + 1)) cells' cells' u) by done.
  rewrite Et, E2. cbn [obind]. eexists _, (feed t1 bs2). split; [reflexivity|]. split; [|reflexivity].
  split; try done.
  - set (K1 := set_processes (the_kernel s) (<[idle_process P := cursor_at (SCREEN_WIDTH * 1) (idle_P P root 0 cwd)]> (processes (the_kernel s)))).
    change (set_processes K1 (<[idle_process P := cursor_at (SCREEN_WIDTH * 0) (cursor_at (SCREEN_WIDTH * 1) (idle_P P root 0 cwd))]> (processes K1))
      = booting_kernel P rd root 0 cwd ko fp n tb tr).
    unfold K1. rewrite Hk, booting_cursor, idle_cursor. apply booting_cursor.
  - exists (bs ++ bs2). split; [|by rewrite feed_app, Hf]. cbn. rewrite Hs2. cbn. rewrite Hs1. unfold tt. cbn. by rewrite Hs, app_assoc.
Qed.
End Stage.

(** * Memory *)

Section Memory.
Context {H U D : Type} `{!kernel_heap H} `{!Uart U} `{!SDCard D}.
Implicit Types (s : system H U D) (v : vm H).

Lemma setup_vm_boot v : setup_vm v = Ok (set_tabs v (<[kernel_root := boot_table]> (tabs v))).
Proof.
  unfold setup_vm, store_pte, set_pte, bzero_table. cbn [tabs set_tabs fst snd]. change (pa2kva PGDIR_PA) with kernel_root.
  change (get_vpn (pa2kva boot_base) 2) with 257%nat. change (get_vpn boot_base 2) with 1%nat. change (get_vpn IO_BASE_VA 2) with 384%nat.
  rewrite lookup_insert_eq. cbn [or_fault obind tabs set_tabs]. change (zero_table !! 257%nat) with (Some (decode 0)). cbn [or_fault obind tabs set_tabs].
  rewrite lookup_insert_eq. cbn [or_fault obind]. change (_ !! 1%nat) with (Some (decode 0)) at 1. cbn [or_fault obind tabs set_tabs].
  rewrite lookup_insert_eq. cbn [or_fault obind]. change (_ !! 384%nat) with (Some (decode 0)) at 1. cbn [or_fault obind tabs set_tabs].
  unfold set_tabs. cbn [krn vheap tabs dirs shared_pages io_base_va]. by rewrite !insert_insert_eq.
Qed.

(** The first address space *)
Lemma first_pagedir v d p h : invariant v -> dirs v !! d = None -> take_page (vheap v) = Ok (p, h) ->
  exists D v', new_pagedir d v = Ok v' /\ invariant v' /\ dirs v' = <[d := D]> (dirs v) /\ krn v' = krn v /\ io_base_va v' = io_base_va v /\
    shared_pages v' = shared_pages v /\ tabs v' !! io_table = tabs v !! io_table.
Proof.
  intros Hi Hd Hp. pose proof Hi as [Hu (pos & L & priv & att & Hvm)]. pose proof (vo_state _ _ _ _ _ Hvm) as Hok.
  destruct (kalloc_page_ok v pos L Hok) as [E|(r & h' & E & Hr & Hg & _)]; [unfold kalloc_page in E; by rewrite Hp in E|].
  destruct (set_kernel_vm_run (set_vheap v h') r) as (T & ET & _ & Ho); [apply (tr_boot _ _ _ (so_tree _ _ _ Hok))|intros ->; by apply (proj1 kernel_page_not_good)|].
  assert (En : new_pagedir d v = Ok (set_dirs (set_tabs (set_vheap v h') T) (<[d := MkPageDir r 0 false (128 * 2 ^ 30) 0 [] 0x300000]> (dirs v)))).
  { unfold new_pagedir. rewrite E. cbn [obind]. by rewrite ET. }
  eexists _, _. split; [exact En|]. split; [by apply (step_inv v); [eapply step_new|]|]. split_and!; try done.
  cbn [tabs set_dirs set_tabs]. apply Ho. intros E2. apply (proj2 kernel_page_not_good). by rewrite E2.
Qed.

(** ioremap keeps the size of every table. *)
Lemma store_pte_lengths pte e v v' : store_pte pte e v = Ok v' -> forall q, length <$> tabs v' !! q = length <$> tabs v !! q.
Proof.
  intros E q. pose proof (store_pte_Ok _ _ _ _ E) as [e0 He]. unfold store_pte in E. destruct (set_pte_spec _ _ e _ He) as (T' & ET & _ & _ & Hl).
  rewrite ET in E. cbn [obind] in E. injection E as <-. apply Hl.
Qed.
Lemma ioremap_loop_lengths n : forall pte phys v v', ioremap_loop n pte phys v = Ok v' -> forall q, length <$> tabs v' !! q = length <$> tabs v !! q.
Proof.
  induction n as [|n IH]; intros pte phys v v' E q; cbn [ioremap_loop] in E; [by injection E as <-|].
  apply obind_Ok_inv in E as (v1 & E1 & E). rewrite (IH _ _ _ _ E q). by eapply store_pte_lengths.
Qed.
Lemma ioremap_frame phys size v va v' : ioremap phys size v = Ok (va, v') ->
  (forall q, length <$> tabs v' !! q = length <$> tabs v !! q) /\ krn v' = krn v /\ vheap v' = vheap v /\ dirs v' = dirs v /\ shared_pages v' = shared_pages v.
Proof.
  intros E. unfold ioremap in E. apply obind_Ok_inv in E as (w & E & E'). injection E' as _ <-. split; [exact (ioremap_loop_lengths _ _ _ _ _ E)|].
  revert E. generalize (Z.to_nat ((u64 (size + phys mod 2 ^ 21)) / 2 ^ 21 + bit (negb (u64 (size + phys mod 2 ^ 21) mod 2 ^ 21 =? 0)))).
  generalize (pa2kva (PGDIR_PA + PAGE_SIZE), get_vpn (io_base_va v) 1). generalize (phys / 2 ^ 21 * 2 ^ 21). intros a pte n. revert a pte v.
  induction n as [|n IH]; intros a pte v E; cbn [ioremap_loop] in E; [by injection E as <-|].
  apply obind_Ok_inv in E as (v1 & E1 & E). unfold store_pte in E1. apply obind_Ok_inv in E1 as (T & _ & E1). injection E1 as <-. apply (IH _ _ _ E).
Qed.
End Memory.

(** * The steps of main *)

Section Steps.
Context {H U D : Type} `{!kernel_heap H} `{!Uart U} `{!SDCard D}.
Context (P : platform) (rd : nat -> Z) (root : Z) (u0 : U) (t0 : term).
Implicit Types (s : system H U D).
Abbreviation stage := (stage P rd root u0 t0).
Abbreviation bk := (booting_kernel P rd root).

(** The kernel's data may change beside the cursor. *)
Lemma stage_kernel s s' y cwd cwd' ko ko' fp fp' n n' tb tb' tr tr' printed t : stage s y cwd ko fp n tb tr printed t ->
  screen s' = screen s -> the_kernel s' = bk y cwd' ko' fp' n' tb' tr' -> stage s' y cwd' ko' fp' n' tb' tr' printed t.
Proof. intros [? ? ? ? ? ? ? ? ? ?] E Hk. split; rewrite ?E; done. Qed.

Lemma rest_vmm s s' : rest s' = rest s -> vmm (mach s') = set_krn (vmm (mach s)) (the_kernel s').
Proof.
  intros E. unfold rest in E. injection E. intros. unfold the_kernel. destruct (vmm (mach s')), (vmm (mach s)). unfold set_krn. cbn in *. by subst.
Qed.

(** The clock passes a tick. *)
Definition ticks (tb : Z) (n : nat) : Z := rd n / tb.
Lemma latency_loop_ends tb begin fuel : forall y cwd ko fp n tr j, tb <> 0 -> (j < fuel)%nat -> 1 <= u64 (ticks tb (n + j) - begin) ->
  exists n', latency_loop fuel begin 1 (bk y cwd ko fp n tb tr) = Ok (bk y cwd ko fp n' tb tr).
Proof.
  induction fuel as [|fuel IH]; intros y cwd ko fp n tr j Htb Hj Ht; [lia|]. cbn [latency_loop]. unfold get_timer, get_ticks.
  change (time_base (set_reads (bk y cwd ko fp n tb tr) (S (reads (bk y cwd ko fp n tb tr))))) with tb. rewrite (proj2 (Z.eqb_neq _ _) Htb). cbn [obind].
  change (set_reads (bk y cwd ko fp n tb tr) (S (reads (bk y cwd ko fp n tb tr)))) with (bk y cwd ko fp (S n) tb tr).
  change (rdtime (bk y cwd ko fp n tb tr) (reads (bk y cwd ko fp n tb tr)) / tb) with (ticks tb n).
  destruct (Z.ltb_spec (u64 (ticks tb n - begin)) 1); [|by eexists]. destruct j as [|j]; [rewrite Nat.add_0_r in Ht; lia|].
  apply (IH y cwd ko fp (S n) tr j); [done|lia|]. by replace (S n + j)%nat with (n + S j)%nat by lia.
Qed.
Lemma latency_ends y cwd ko fp n tb tr fuel j : tb <> 0 -> (j < fuel)%nat -> 1 <= u64 (ticks tb (S n + j) - ticks tb n) ->
  exists n', latency fuel 1 (bk y cwd ko fp n tb tr) = Ok (bk y cwd ko fp n' tb tr).
Proof.
  intros Htb Hj Ht. unfold latency, get_timer, get_ticks. change (time_base (set_reads (bk y cwd ko fp n tb tr) (S (reads (bk y cwd ko fp n tb tr))))) with tb.
  rewrite (proj2 (Z.eqb_neq _ _) Htb). cbn [obind]. by apply (latency_loop_ends tb _ fuel y cwd ko fp (S n) tr j).
Qed.

(** Where the devices are *)
Record devices : Prop := {
  dv_plic : 0 <= fdt P PLIC_ADDR < 2 ^ 54;
  dv_e1000 : 0 <= fdt P ETHERNET_ADDR < 2 ^ 54;
  dv_irqs : 0 <= fdt P NR_IRQS < 1024
}.

Lemma io_pages phys size : 0 <= phys -> 0 < size <= 2 ^ 26 ->
  let r := phys mod 2 ^ 21 in let n := (size + r) / 2 ^ 21 + bit (negb ((size + r) mod 2 ^ 21 =? 0)) in 0 <= n <= 34.
Proof.
  intros Hp Hs r n. pose proof (Z.mod_pos_bound phys (2 ^ 21) ltac:(lia)) as Hr. pose proof (Z.div_mod (size + r) (2 ^ 21) ltac:(lia)).
  pose proof (Z.mod_pos_bound (size + r) (2 ^ 21) ltac:(lia)). pose proof (bit_range (negb ((size + r) mod 2 ^ 21 =? 0))). unfold n, r in *. nia.
Qed.

(** Both devices are mapped and initialised. *)
Lemma network_starts s y cwd ko fp n tb tr printed t k0 c0 p0 fuel j : stage s y cwd ko fp n tb tr printed t -> devices ->
  invariant (vmm (mach s)) -> length <$> tabs (vmm (mach s)) !! io_table = Some 512%nat -> io_base_va (vmm (mach s)) = IO_BASE_VA ->
  nett s = MkNet k0 (static_card c0) (static_plic p0) false [] [] -> tb <> 0 -> (j < fuel)%nat -> 1 <= u64 (ticks tb (S n + j) - ticks tb n) ->
  exists s' n', with_net (init_net (fdt P) (tx_desc_at P) (rx_desc_at P) (tx_buf_at P) (rx_buf_at P) fuel) s = Ok s' /\
    stage s' y cwd ko fp n' tb tr printed t /\ invariant (vmm (mach s')) /\ dirs (vmm (mach s')) = dirs (vmm (mach s)) /\
    s' = set_nett (nett s') (set_mach (mach s') s) /\ ram (mach s') = ram (mach s) /\ load_lock (mach s') = load_lock (mach s) /\
    nic_ok (tx_desc_at P) (rx_desc_at P) (tx_buf_at P) (rx_buf_at P) (Net.card (nett s')) [] [] /\
    enabled (irqs (nett s')) (card_irq (fdt P NR_IRQS)) = true /\ net_buffer_lock (nett s') = false.
Proof.
  intros Hst [Dp De Di] Hi Hlen Hio Hn Htb Hj Htick. pose proof (sg_kernel _ _ _ _ _ _ _ _ _ _ _ _ _ _ _ Hst) as Hk.
  unfold with_net, init_net. set (v := vmm (mach s)) in *. set (plic_size := 0x4000 * PAGE_SIZE). set (e1000_size := 8 * PAGE_SIZE).
  destruct (io_pages (fdt P PLIC_ADDR) plic_size ltac:(lia) ltac:(done)) as [A1 A2]. destruct (io_pages (fdt P ETHERNET_ADDR) e1000_size ltac:(lia) ltac:(done)) as [B1 B2].
  destruct (ioremap_maps_region v 0 (fdt P PLIC_ADDR) plic_size) as (v1 & E1 & Hb1 & _); try done; try lia; [unfold plic_size, PAGE_SIZE; lia|].
  rewrite E1. cbn [obind]. destruct (ioremap_frame _ _ _ _ _ E1) as (F1 & F2 & _ & F4 & _). pose proof (ioremap_keeps _ _ _ _ _ Hi E1) as Hi1.
  set (n1 := (plic_size + fdt P PLIC_ADDR mod 2 ^ 21) / 2 ^ 21 + bit (negb ((plic_size + fdt P PLIC_ADDR mod 2 ^ 21) mod 2 ^ 21 =? 0))) in *.
  destruct (ioremap_maps_region v1 (n1 * 2 ^ 21) (fdt P ETHERNET_ADDR) e1000_size) as (v2 & E2 & _); try done; try lia.
  1: by rewrite F1. 1: by apply Z.mod_mul. 1: unfold e1000_size, PAGE_SIZE; lia.
  rewrite E2. cbn [obind]. destruct (ioremap_frame _ _ _ _ _ E2) as (_ & G2 & _ & G4 & _). pose proof (ioremap_keeps _ _ _ _ _ Hi1 E2) as Hi2.
  rewrite u32_small by lia. set (q0 := plic_init _ (fdt P NR_IRQS) _).
  assert (Ha : arrays_ok (static_card c0)).
  { unfold arrays_ok, static_card. cbn [tx_desc_array rx_desc_array tx_pkt_buffer rx_pkt_buffer]. rewrite !length_replicate. do 4 (split; [done|]).
    split; intros i row [-> _]%lookup_replicate; apply length_replicate. }
  destruct (latency_ends y cwd ko fp n tb tr fuel j Htb Hj Htick) as (n' & El).
  destruct (init_ok (tx_desc_at P) (rx_desc_at P) (tx_buf_at P) (rx_buf_at P) fuel (io_base_va v1 + fdt P ETHERNET_ADDR mod 2 ^ 21) (static_card c0) _ _ Ha El) as (c1 & Ec & Hc & _).
  rewrite Hn. cbn [Net.kern Net.card set_irqs Net.set_kern irqs net_buffer_lock Net.send_wait_queue Net.recv_wait_queue]. rewrite Hk, Ec. cbn [obind].
  eexists _, n'. split; [reflexivity|]. split; [eapply stage_kernel; [exact Hst|reflexivity|reflexivity]|].
  split; [apply inv_set_krn; exact Hi2|]. split; [cbn; by rewrite G4, F4|]. do 3 (split; [reflexivity|]). split; [exact Hc|]. split; [|reflexivity].
  cbn. destruct (plic_init_enables_card (io_base_va v + fdt P PLIC_ADDR mod 2 ^ 21) (fdt P NR_IRQS) (static_plic p0)) as (_ & _ & _ & Hen & _); [done|done|]. unfold q0. cbn [irqs Net.set_kern]. by rewrite Hn.
Qed.

(** A part of the file system runs for the idle process. *)
Lemma files_run {A} (f : vfs (S := cache D) -> outcome (A * vfs (S := cache D))) s y cwd ko fp n tb tr printed t a v :
  stage s y cwd ko fp n tb tr printed t ->
  f (MkVfs (MkFs (blocks s) (superblk s) cwd (fsout s)) (MkWorld (pobjs fp) (pkeymap fp) (ptable fp) ko) (open_files s)) = Ok (a, v) ->
  exists s', with_files 0 f s = Ok (a, s') /\
    stage s' y (cwd_node (fsys v)) (procs (pool v)) (MkPool (objs (pool v)) (keymap (pool v)) (table (pool v))) n tb tr printed t /\
    s' = set_files (blk (fsys v)) (FsState.superblock (fsys v)) (FsState.console (fsys v)) (files v) (put_kernel (the_kernel s') s).
Proof.
  intros Hst E. pose proof (sg_kernel _ _ _ _ _ _ _ _ _ _ _ _ _ _ _ Hst) as Hk. unfold with_files. rewrite Hk, booting_current. cbn [obind].
  rewrite booting_process. cbn [or_fault obind]. change (cwd_node_idx (idle_P P root y cwd)) with cwd.
  change (world_of (bk y cwd ko fp n tb tr) KFile) with (MkWorld (pobjs fp) (pkeymap fp) (ptable fp) ko). rewrite E. cbn [obind].
  set (fp' := MkPool (objs (pool v)) (keymap (pool v)) (table (pool v))).
  change (put_world (bk y cwd ko fp n tb tr) KFile (pool v)) with (bk y cwd (procs (pool v)) fp' n tb tr). unfold booting_kernel at 1.
  erewrite young_upd_process by apply lookup_singleton_eq. cbn [obind]. rewrite insert_singleton_eq.
  eexists. split; [reflexivity|]. split; [|reflexivity]. eapply stage_kernel; [exact Hst|reflexivity|reflexivity].
Qed.
End Steps.
