(* ===== verification/MainTheorems.v ===== *)
(** Theorems on main (Main.v): from the page tables of boot_kernel and
    uninitialised data to a system with a shell in its ready queue. *)

From Stdlib Require Import ZArith Lia List Ascii String.
From stdpp Require Import base numbers list gmap.
From S2P Require Import Prelude Mem KStdio Trie Objects KAlloc BlockLayer Cache FsLayout FsState FsMkfs FsProps FsFile Kernel Sched SchedTheorems Locks Process Screen ScreenTheorems ConsoleProps Page PageProps PageOps PageFrames PageSteps PageSys PageTheorems E1000 E1000Props Plic Net NetTheorems Image ImageTheorems Exec ExecTheorems Syscall Boot BootTheorems Params Main MainSteps.

Local Open Scope Z_scope.

(** * Power on *)



Section Theorems.
Context {H U D : Type} `{!kernel_heap H} `{!Uart U} `{!SDCard D}.
Implicit Types (s : system H U D) (P : platform).













(** The memory and the devices *)
Lemma rest_dirs s s' : rest s' = rest s -> dirs (vmm (mach s')) = dirs (vmm (mach s)) /\ tabs (vmm (mach s')) = tabs (vmm (mach s)) /\ io_base_va (vmm (mach s')) = io_base_va (vmm (mach s)).
Proof. intros E. unfold rest in E. injection E. done. Qed.






#[local] Ltac Zify.zify_post_hook ::= Z.div_mod_to_equations.

End Theorems.

(** * A first boot *)

Module FirstBoot.
Import Files RamCard.
#[global] Instance bump_heap : kernel_heap nat.
Proof.
  refine {| heap_source := Bump.pages; init_heap := fun _ => Ok 0%nat; heap_raw := fun _ => True |}.
  intros h _. exists 0%nat, (Bump.nth_page 0), 1%nat. split; [done|]. split; [|done]. intros p Hp. by apply elem_of_empty in Hp.
Defined.




End FirstBoot.

Section Witnesses.
Import RamCard.

End Witnesses.
